(* ===== verification/_CoqProject ===== *)
-Q . S2P
Prelude.v
ByteOrder.v
StringEncode.v
ByteBuffer.v
Crc32.v
BlockHash.v
Sha1.v
Md5.v
MessageDigest.v
Base64.v
IpAddress.v
Stun.v
StunWire.v
StunIntegrity.v
StunTyped.v
StunBuild.v
FifoBuffer.v
AsyncTcp.v
TimeUtils.v
PseudoTcp.v
PseudoTcpSafe.v
PseudoTcpRecv.v
PseudoTcpApi.v
PseudoTcpWire.v
PseudoTcpSend.v
PseudoTcpRun.v
PseudoTcpLive.v
MessageQueue.v
StunRequest.v
StunExchange.v
StunServer.v
TurnServer.v
TurnSafe.v
TurnSteps.v
TurnRun.v
TurnReact.v
TurnRelay.v
TurnPort.v
TurnTrust.v
TurnNet.v
TurnSession.v
IcePort.v
IceConnection.v
IceChannel.v
IceChannelInv.v
IceChannelSort.v
IceChannelPing.v
IceChannelSafe.v
IceChannelRun.v
IceSession.v
