(* ===== verification/Prelude.v ===== *)
(** * Verification of libwebrtc: the transport core

    libwebrtc carries the peer-to-peer stack of WebRTC.  This library models its
    transport core, from byte order and hashing up to the channels of ICE, the server and
    the client of TURN, and reliable streams over datagrams, and proves it correct.  The
    parts and how they use each other:

    - webrtc/base holds the foundations: byte order and byte buffers, text encodings,
      CRC-32, SHA-1, MD5 and HMAC, IP addresses, the ring buffer, timestamps, the message
      queue of a thread, and sockets that carry packets over TCP;
    - webrtc/p2p/base/stun.cc encodes and decodes STUN messages in byte buffers, protects
      them with HMAC-SHA1 and CRC-32, and carries socket addresses;
    - webrtc/p2p/base/stunrequest.cc sends STUN messages as requests, resends them from
      the message queue, and matches responses;
    - webrtc/p2p/base/stunserver.cc and turnserver.cc answer such requests, the latter
      with allocations, permissions and channels that expire by the message queue;
      turnport.cc is the client of a TURN server;
    - webrtc/p2p/base/port.cc checks the connectivity between two ports with such requests
      (ICE) and keeps the state of the connections; p2ptransportchannel.cc creates the
      connections of a channel, pings them, and chooses the one that carries the data;
    - webrtc/p2p/base/pseudotcp.cc is TCP over datagrams, on two ring buffers.

    ** Files

    - [Prelude]: machine integers, memory blocks, the monad of fallible stateful code, and
      the [Platform] class (byte order of the host, contents of fresh memory).
    - [ByteOrder]: byteorder.h.  [StringEncode]: the hex codecs of stringencode.cc.
      [ByteBuffer]: bytebuffer.cc, as the record [ByteBuffer].  [Base64]: base64.cc.
    - [Crc32]: crc32.cc.  [BlockHash]: what MD5 and SHA-1 share (padding, blocks).
      [Sha1]: sha1.cc.  [Md5]: md5.cc.  [MessageDigest]: messagedigest.cc, with HMAC.
    - [IpAddress]: ipaddress.cc, and the parts of socketaddress.cc that STUN uses.
    - [Stun]: stun.h and stun.cc, the attributes as the type [StunAttribute], the four
      classes of messages as [MessageClass].  [StunWire]: the format of messages and the
      round trip.  [StunIntegrity]: message integrity and fingerprints.  [StunTyped]: the
      types of what is read.  [StunBuild]: messages as their senders build them.
    - [FifoBuffer]: the FifoBuffer of stream.cc.  [TimeUtils]: timeutils.h and .cc.
      [AsyncTcp]: asynctcpsocket.cc and asyncstuntcpsocket.cc.
    - [PseudoTcp]: pseudotcp.cc; the members of the class are the record [PseudoTcp], the
      calls to its notifier a log of events and packets.  [PseudoTcpSafe] (invariants of the
      state, sending), [PseudoTcpRecv] (receiving), [PseudoTcpApi] (each interface call),
      [PseudoTcpWire] (format of packets), [PseudoTcpSend] (what packets carry),
      [PseudoTcpRun] (sequences of calls), [PseudoTcpLive] (timeouts).
    - [MessageQueue]: messagequeue.h and .cc; its Module [Spec] is the abstract queue.
      [StunRequest]: stunrequest.h and .cc on [MessageQueue] and [Stun].  [StunExchange]:
      one request among others, and its answer.  [StunServer]: stunserver.cc.
    - [TurnServer]: turnserver.cc, allocations as objects with timers in the queue.
      [TurnSafe] (its invariant), [TurnSteps] (each operation), [TurnRun] (runs),
      [TurnReact] (answers and changes of state), [TurnRelay] (allocating and relaying).
    - [TurnPort]: turnport.cc.  [TurnTrust]: what makes the client act.  [TurnNet]: client
      and server on a network.  [TurnSession]: a session of both, with data.
    - [IcePort]: the pings, checks, responses and roles of port.cc, on [Stun] and
      [StunRequest].  [IceConnection]: the connections of port.h and port.cc.
    - [IceChannel]: p2ptransportchannel.cc; ports and connections are heap objects, with
      the messages that the thread holds for them.  [IceChannelInv] (what operations leave
      as it is), [IceChannelSort] (choice and pruning), [IceChannelPing] (whose turn it
      is), [IceChannelSafe] and [IceChannelRun] (no use of it fails), [IceSession] (two
      channels that connect).

    Interfaces are type classes with laws, and the theorems of their users are proved for
    every instance: [MessageDigest] and [DigestLaws] for hashes, [RequestClass] and
    [RequestLaws] for what a subclass of StunRequest overrides, [TcpClass] and [TcpLaws]
    for the framing of packets on TCP, [PortClass] and [PortLaws] for the classes of ports
    that a channel has.

    Functions keep the names of the source; where two classes have a method of the same
    name, one carries a prefix.  A handler that mutates an object takes and returns its
    record; out parameters are results.  An operation that would read or write outside a
    block, use a deleted object, or fail an assertion is [None], so a theorem that it is
    [Some] is safety of that operation.

    ** What is proved

    - Data formats: a byte buffer is a queue of bytes ([ByteBuffer_refines_queue]), STUN
      messages round trip ([stun_roundtrip]), reading any bytes ends ([Read_total]) in a
      message of the right types ([Read_typed]), base 64 round trips ([base64_roundtrip]),
      and so do packets of pseudo-TCP ([packet_parse_roundtrip]).
    - Hashes: CRC-32, SHA-1, MD5 and HMAC equal their definitions in the standards, also
      when data comes in pieces.
    - Authentication: [AddMessageIntegrity_valid], [ValidateMessageIntegrity_exact],
      [ValidateMessageIntegrity_outside] and [AddFingerprint_valid].
    - Buffers and time: the ring buffer is a window of a stream ([FifoBuffer_refines_window]);
      comparisons of 32-bit times in both implementations agree, and unwrapping is exact;
      packets over TCP arrive whole and in order however the stream is cut
      ([tcp_packets_kept], [tcp_receiver_chunks]).
    - Pseudo-TCP: the interface is memory safe and follows the state diagram
      ([PseudoTcp_interface_safe]); bytes arrive as they were sent whatever the network
      does to the packets ([PseudoTcp_stream_integrity], [PseudoTcp_end_to_end]); an
      unanswered connection aborts ([unanswered_aborts]), a closed one is silent.
    - Queues and requests: the message queue refines an abstract timed queue
      ([MessageQueue_refines]); requests never use freed memory and have one timer each
      ([stun_requests_safe]), end once ([stun_request_history]), accept their responses
      ([response_ends_request], [stun_server_reflects]) and are sent on schedule
      ([unanswered_schedule]).
    - TURN: no packet makes the server fail on UDP ([turn_server_safe]), it relays only
      what an authenticated request permitted ([turn_relays_granted]) and changes its
      state only for such requests ([turn_changes_authenticated]), it allocates and
      delivers ([turn_allocates], [turn_delivers]); a client acts only on what its server
      sent and its own requests asked for ([turn_client_trusts]), and with the server it
      connects and relays data in both directions ([turn_client_connects],
      [turn_client_relays]).
    - ICE: a check with its response makes both connections usable ([ice_handshake]), and
      conflicts of roles are resolved ([role_conflict_resolved]); a channel chooses and
      prunes by the order of its connections ([channel_selects]), pings each in its turn
      ([channel_pings_all]), and does not fail when it is used as intended
      ([channel_safe]); two channels connect and carry data ([ice_channels_connect], which
      composes messages, integrity, requests, ports, connections and channels).
    - Defects, as theorems about the code: [partial_ack_sends_garbage],
      [NotifyPacket_truncated], [wrap_blocks_due], [wrap_times_out], [unknown_length_wraps],
      [turn_servers_loop], [turn_undefined], [turn_client_exposed], [channel_wrap_starves].

    ** Bounds and fuel

    Recursion of the source that is not structural takes fuel that is enough by a theorem:
    a STUN message has at most one attribute per byte it holds, [attemptSend] sends at most
    one segment per buffered byte, [transmit] lowers the MTU at most through the levels of
    the table.  The theorems on runs say the run has a result, so no run is out of fuel.
    Sequence numbers and times are 32-bit values that wrap where the code wraps them;
    theorems on streams and queues state the window in which they hold.  [channel_safe]
    takes generations of candidates below 2^30, so that their differences fit an int.
    [ice_channels_connect] is for one order of the checks and any times.

    ** Not modelled

    - chromium/, third_party/, talk/ (the PeerConnection API, sessions and media channels),
      webrtc/libjingle (XMPP and XML), webrtc/system_wrappers, webrtc/test, tools and
      examples: other parts of the tree that the core above does not call, or code of other
      projects.
    - In webrtc/base: sockets, threads, SSL, files, HTTP, proxies and logging, which are
      the operating system's or a library's behaviour; the text of addresses goes through
      inet_ntop and inet_pton.
    - In webrtc/p2p: the gathering of candidates (sockets and asynchronous answers of
      servers that are inputs of a port), transports and sessions above the channels, the
      relay port and server of the older protocol, and of the channels the statistics and
      what only hands a signal on.
    - Callbacks that call back into the object that made them: what a connection signals is
      handled after the operation that made it. *)

From stdpp Require Export prelude gmap.
From Stdlib Require Export Lia ZArith.
From Stdlib Require String Ascii.

#[global] Open Scope Z_scope.

(** ** Machine integers

    A C++ integer of width [w] is a [Z]; every operation whose result may leave
    the range is followed by the conversion the standard prescribes. *)

Definition u8 (z : Z) : Z := z mod 256.
Definition u16 (z : Z) : Z := z mod 65536.
Definition u32 (z : Z) : Z := z mod 4294967296.
Definition u64 (z : Z) : Z := z mod 18446744073709551616.
Definition i32 (z : Z) : Z := (z + 2147483648) mod 4294967296 - 2147483648.

Definition is_u8 (z : Z) : Prop := 0 ≤ z < 256.
Definition is_u16 (z : Z) : Prop := 0 ≤ z < 65536.
Definition is_u32 (z : Z) : Prop := 0 ≤ z < 4294967296.
Definition is_u64 (z : Z) : Prop := 0 ≤ z < 18446744073709551616.
Definition is_i32 (z : Z) : Prop := -2147483648 ≤ z < 2147483648.

(** A string or a memory block is a list of byte values. *)
Definition bytes_ok (l : list Z) : Prop := Forall is_u8 l.

(** The bytes of a string literal. *)
Definition text (s : String.string) : list Z := (λ c, Z.of_N (Ascii.N_of_ascii c)) <$> String.list_ascii_of_string s.

(** ** Blocks of memory addressed by [Z] offsets

    The recursion is on the block, so an offset of any size costs at most the
    length of the block when it is evaluated. *)

Definition zlen {A} (l : list A) : Z := Z.of_nat (length l).

Fixpoint ztake {A} (n : Z) (l : list A) : list A :=
  match l with
  | [] => []
  | x :: l' => if n <=? 0 then [] else x :: ztake (n - 1) l'
  end.

Fixpoint zdrop {A} (n : Z) (l : list A) : list A :=
  match l with
  | [] => []
  | x :: l' => if n <=? 0 then l else zdrop (n - 1) l'
  end.

(** [zget i l] is the element at offset [i]; out of range it is [0], and every
    use in a model is under the bounds check that the code has, or the model
    uses [zat] and makes the missing check visible. *)
Fixpoint zget (i : Z) (l : list Z) : Z :=
  match l with
  | [] => 0
  | x :: l' => if i <=? 0 then (if i =? 0 then x else 0) else zget (i - 1) l'
  end.

(** A load that is defined only inside the block. *)
Definition zat (i : Z) (l : list Z) : option Z :=
  if (0 <=? i) && (i <? zlen l) then Some (zget i l) else None.

(** [memcpy(dst + off, src, zlen src)]. *)
Definition splice (off : Z) (src dst : list Z) : list Z :=
  ztake off dst ++ src ++ zdrop (off + zlen src) dst.

(** A property of the numbers below [n], by evaluation. *)
Definition below (n : Z) (p : Z → bool) : bool := forallb p (seqZ 0 n).
Lemma below_spec n p x : below n p = true → 0 ≤ x < n → p x = true.
Proof.
  unfold below. rewrite forallb_forall. intros Hp Hx. apply Hp. apply list_elem_of_In, elem_of_seqZ. lia.
Qed.
Lemma below2_spec n p x y : below n (λ x, below n (p x)) = true → 0 ≤ x < n → 0 ≤ y < n → p x y = true.
Proof. intros Hp Hx Hy. exact (below_spec n _ y (below_spec n _ x Hp Hx) Hy). Qed.

Definition zrepeat {A} (x : A) (n : Z) : list A := replicate (Z.to_nat n) x.

(** ** The platform

    What the sources leave to the machine: the byte order of the host and the
    contents of freshly allocated memory. *)
Class Platform := {
  host_big_endian : bool;
  uninit : nat → Z;
  uninit_byte : ∀ i, is_u8 (uninit i)
}.

(** The block that [new char[n]] returns. *)
Definition fresh_block `{Platform} (n : Z) : list Z := uninit <$> seq 0 (Z.to_nat n).

(** ** Automation *)

Create HintDb words discriminated.
Create Rewrite HintDb zlen.

Ltac unfold_words :=
  unfold u8, u16, u32, u64, i32, is_u8, is_u16, is_u32, is_u64, is_i32 in *.

(** Linear arithmetic over machine words. *)
Ltac ulia := unfold_words; Z.to_euclidean_division_equations; lia.

(** Turns the boolean tests of the code into propositions. *)
Ltac bdestruct_step :=
  match goal with
  | |- context [?a =? ?b] => destruct (Z.eqb_spec a b)
  | |- context [?a <? ?b] => destruct (Z.ltb_spec a b)
  | |- context [?a <=? ?b] => destruct (Z.leb_spec a b)
  | H : context [?a =? ?b] |- _ => destruct (Z.eqb_spec a b)
  | H : context [?a <? ?b] |- _ => destruct (Z.ltb_spec a b)
  | H : context [?a <=? ?b] |- _ => destruct (Z.leb_spec a b)
  end.
Ltac bdestruct := repeat (bdestruct_step; try lia; simpl in * ).

(** Booleans as hypotheses. *)
Ltac bsimpl :=
  repeat match goal with
  | H : (_ && _) = true |- _ => apply andb_true_iff in H as [? ?]
  | H : (_ || _) = false |- _ => apply orb_false_iff in H as [? ?]
  | H : negb _ = true |- _ => apply negb_true_iff in H
  | H : negb _ = false |- _ => apply negb_false_iff in H
  | H : (_ =? _) = true |- _ => apply Z.eqb_eq in H
  | H : (_ =? _) = false |- _ => apply Z.eqb_neq in H
  | H : (_ <? _) = true |- _ => apply Z.ltb_lt in H
  | H : (_ <? _) = false |- _ => apply Z.ltb_ge in H
  | H : (_ <=? _) = true |- _ => apply Z.leb_le in H
  | H : (_ <=? _) = false |- _ => apply Z.leb_gt in H
  end.

(** ** Words *)

Lemma u8_range z : is_u8 (u8 z).
Proof. apply Z.mod_pos_bound; lia. Qed.
Lemma u16_range z : is_u16 (u16 z).
Proof. apply Z.mod_pos_bound; lia. Qed.
Lemma u32_range z : is_u32 (u32 z).
Proof. apply Z.mod_pos_bound; lia. Qed.
Lemma u64_range z : is_u64 (u64 z).
Proof. apply Z.mod_pos_bound; lia. Qed.

Lemma u8_id z : is_u8 z → u8 z = z.
Proof. intros H; apply Z.mod_small, H. Qed.
Lemma u16_id z : is_u16 z → u16 z = z.
Proof. intros H; apply Z.mod_small, H. Qed.
Lemma u32_id z : is_u32 z → u32 z = z.
Proof. intros H; apply Z.mod_small, H. Qed.
Lemma u64_id z : is_u64 z → u64 z = z.
Proof. intros H; apply Z.mod_small, H. Qed.

#[export] Hint Resolve u8_range u16_range u32_range u64_range : words.

(** [Z.lor] of disjoint byte lanes is addition. *)
Lemma lor_lanes a b n : 0 ≤ n → 0 ≤ a < 2 ^ n → Z.lor (Z.shiftl b n) a = b * 2 ^ n + a.
Proof.
  intros Hn Ha. rewrite <- Z.shiftl_mul_pow2 by lia.
  rewrite <- Z.add_lor_land.
  enough (Z.land (Z.shiftl b n) a = 0) by lia.
  apply Z.bits_inj'; intros i Hi. rewrite Z.land_spec, Z.bits_0.
  destruct (Z.lt_ge_cases i n).
  - rewrite Z.shiftl_spec_low by lia. done.
  - rewrite <- (Z.mod_small a (2 ^ n)) by lia.
    rewrite Z.mod_pow2_bits_high by lia. apply andb_false_r.
Qed.

Lemma land_255 z : Z.land z 255 = u8 z.
Proof. change 255 with (Z.ones 8). apply Z.land_ones; lia. Qed.

Lemma lxor_involutive a b : Z.lxor (Z.lxor a b) b = a.
Proof. by rewrite Z.lxor_assoc, Z.lxor_nilpotent, Z.lxor_0_r. Qed.

Lemma bounded_bits z n : 0 ≤ n → (0 ≤ z < 2 ^ n ↔ 0 ≤ z ∧ ∀ i, n ≤ i → Z.testbit z i = false).
Proof.
  intros Hn. split.
  - intros Hz. split; [lia|]. intros i Hi.
    rewrite <- (Z.mod_small z (2 ^ n)) by lia. apply Z.mod_pow2_bits_high; lia.
  - intros [H0 Hb]. enough (z = z mod 2 ^ n) as ->.
    { apply Z.mod_pos_bound. lia. }
    apply Z.bits_inj'; intros i Hi. destruct (Z.lt_ge_cases i n).
    + by rewrite Z.mod_pow2_bits_low by lia.
    + rewrite Z.mod_pow2_bits_high by lia. apply Hb; lia.
Qed.

Lemma lxor_bound a b n : 0 ≤ n → 0 ≤ a < 2 ^ n → 0 ≤ b < 2 ^ n → 0 ≤ Z.lxor a b < 2 ^ n.
Proof.
  intros Hn [Ha Ha']%bounded_bits [Hb Hb']%bounded_bits; try lia.
  apply bounded_bits; [lia|]. split; [apply Z.lxor_nonneg; lia|].
  intros i Hi. by rewrite Z.lxor_spec, Ha', Hb'.
Qed.

Lemma land_bound_r a b n : 0 ≤ n → 0 ≤ b < 2 ^ n → 0 ≤ Z.land a b < 2 ^ n.
Proof.
  intros Hn [Hb Hb']%bounded_bits; [|lia].
  apply bounded_bits; [lia|]. split; [apply Z.land_nonneg; lia|].
  intros i Hi. by rewrite Z.land_spec, Hb', andb_false_r.
Qed.

Lemma lor_bound a b n : 0 ≤ n → 0 ≤ a < 2 ^ n → 0 ≤ b < 2 ^ n → 0 ≤ Z.lor a b < 2 ^ n.
Proof.
  intros Hn [Ha Ha']%bounded_bits [Hb Hb']%bounded_bits; try lia.
  apply bounded_bits; [lia|]. split; [apply Z.lor_nonneg; lia|].
  intros i Hi. by rewrite Z.lor_spec, Ha', Hb'.
Qed.

Lemma lxor_u8 a b : is_u8 a → is_u8 b → is_u8 (Z.lxor a b).
Proof. intros; apply (lxor_bound _ _ 8); auto; lia. Qed.
Lemma lxor_u16 a b : is_u16 a → is_u16 b → is_u16 (Z.lxor a b).
Proof. intros; apply (lxor_bound _ _ 16); auto; lia. Qed.
Lemma lxor_u32 a b : is_u32 a → is_u32 b → is_u32 (Z.lxor a b).
Proof. intros; apply (lxor_bound _ _ 32); auto; lia. Qed.

#[export] Hint Resolve lxor_u8 lxor_u16 lxor_u32 : words.

(** ** Blocks: lengths *)

Lemma zlen_nonneg {A} (l : list A) : 0 ≤ zlen l.
Proof. unfold zlen; lia. Qed.
Lemma zlen_nil {A} : zlen (@nil A) = 0.
Proof. done. Qed.
Lemma zlen_cons {A} (x : A) l : zlen (x :: l) = 1 + zlen l.
Proof. unfold zlen; simpl; lia. Qed.
Lemma zlen_app {A} (l k : list A) : zlen (l ++ k) = zlen l + zlen k.
Proof. unfold zlen. rewrite length_app. lia. Qed.
Lemma zlen_map {A B} (f : A → B) l : zlen (f <$> l) = zlen l.
Proof. unfold zlen. by rewrite length_fmap. Qed.
Lemma zlen_zrepeat {A} (x : A) n : zlen (zrepeat x n) = Z.max 0 n.
Proof. unfold zlen, zrepeat. rewrite length_replicate. lia. Qed.

Lemma ztake_take {A} n (l : list A) : ztake n l = take (Z.to_nat n) l.
Proof.
  revert n; induction l as [|x l IH]; intros n; simpl; [by rewrite take_nil|].
  destruct (Z.leb_spec n 0).
  - by replace (Z.to_nat n) with 0%nat by lia.
  - replace (Z.to_nat n) with (S (Z.to_nat (n - 1))) by lia. simpl. by rewrite IH.
Qed.

Lemma zdrop_drop {A} n (l : list A) : zdrop n l = drop (Z.to_nat n) l.
Proof.
  revert n; induction l as [|x l IH]; intros n; simpl; [by rewrite drop_nil|].
  destruct (Z.leb_spec n 0).
  - by replace (Z.to_nat n) with 0%nat by lia.
  - replace (Z.to_nat n) with (S (Z.to_nat (n - 1))) by lia. simpl. by rewrite IH.
Qed.

Lemma zget_nth i (l : list Z) : 0 ≤ i → zget i l = nth (Z.to_nat i) l 0.
Proof.
  revert i; induction l as [|x l IH]; intros i Hi; simpl; [by destruct (Z.to_nat i)|].
  destruct (Z.leb_spec i 0).
  - replace i with 0 by lia. done.
  - replace (Z.to_nat i) with (S (Z.to_nat (i - 1))) by lia. apply IH; lia.
Qed.

Lemma zlen_ztake {A} n (l : list A) : zlen (ztake n l) = Z.max 0 (Z.min n (zlen l)).
Proof. unfold zlen. rewrite ztake_take, length_take. lia. Qed.
Lemma zlen_zdrop {A} n (l : list A) : zlen (zdrop n l) = zlen l - Z.max 0 (Z.min n (zlen l)).
Proof. unfold zlen. rewrite zdrop_drop, length_drop. lia. Qed.
Lemma zlen_fresh `{Platform} n : zlen (fresh_block n) = Z.max 0 n.
Proof. unfold zlen, fresh_block. rewrite length_fmap, length_seq. lia. Qed.
Lemma zlen_splice off src dst :
  0 ≤ off → off + zlen src ≤ zlen dst → zlen (splice off src dst) = zlen dst.
Proof.
  intros. unfold splice. rewrite !zlen_app, zlen_ztake, zlen_zdrop.
  pose proof (zlen_nonneg src). lia.
Qed.

#[export] Hint Rewrite @zlen_nil @zlen_cons @zlen_app @zlen_map @zlen_zrepeat
  @zlen_ztake @zlen_zdrop @zlen_fresh : zlen.

(** Solves length side conditions. *)
Ltac zlen_simpl :=
  autorewrite with zlen in *;
  repeat match goal with
  | |- context [zlen ?l] => lazymatch goal with
      | H : 0 ≤ zlen l |- _ => fail | _ => pose proof (zlen_nonneg l) end
  | _ : context [zlen ?l] |- _ => lazymatch goal with
      | H : 0 ≤ zlen l |- _ => fail | _ => pose proof (zlen_nonneg l) end
  end.
Ltac zlia := zlen_simpl; lia.

Lemma zlen_0_nil {A} (l : list A) : zlen l = 0 → l = [].
Proof. destruct l; [done|]. rewrite zlen_cons. pose proof (zlen_nonneg l). lia. Qed.

(** ** Blocks: taking and dropping *)

Lemma ztake_neg {A} n (l : list A) : n ≤ 0 → ztake n l = [].
Proof. intros. rewrite ztake_take. by replace (Z.to_nat n) with 0%nat by lia. Qed.
Lemma zdrop_neg {A} n (l : list A) : n ≤ 0 → zdrop n l = l.
Proof. intros. rewrite zdrop_drop. by replace (Z.to_nat n) with 0%nat by lia. Qed.
Lemma ztake_all {A} n (l : list A) : zlen l ≤ n → ztake n l = l.
Proof. intros. rewrite ztake_take. apply take_ge. unfold zlen in *. lia. Qed.
Lemma zdrop_all {A} n (l : list A) : zlen l ≤ n → zdrop n l = [].
Proof. intros. rewrite zdrop_drop. apply drop_ge. unfold zlen in *. lia. Qed.
Lemma ztake_app_l {A} n (l k : list A) : n ≤ zlen l → ztake n (l ++ k) = ztake n l.
Proof. intros. rewrite !ztake_take. apply take_app_le. unfold zlen in *. lia. Qed.
Lemma ztake_app_r {A} n (l k : list A) :
  zlen l ≤ n → ztake n (l ++ k) = l ++ ztake (n - zlen l) k.
Proof.
  intros. rewrite !ztake_take. rewrite take_app_ge by (unfold zlen in *; lia).
  do 2 f_equal. unfold zlen. lia.
Qed.
Lemma ztake_app_exact {A} n (l k : list A) : n = zlen l → ztake n (l ++ k) = l.
Proof. intros ->. rewrite ztake_app_l by lia. apply ztake_all; lia. Qed.
Lemma zdrop_app_l {A} n (l k : list A) : n ≤ zlen l → zdrop n (l ++ k) = zdrop n l ++ k.
Proof. intros. rewrite !zdrop_drop. apply drop_app_le. unfold zlen in *. lia. Qed.
Lemma zdrop_app_r {A} n (l k : list A) :
  zlen l ≤ n → zdrop n (l ++ k) = zdrop (n - zlen l) k.
Proof.
  intros. rewrite !zdrop_drop. rewrite drop_app_ge by (unfold zlen in *; lia).
  f_equal. unfold zlen. lia.
Qed.
Lemma zdrop_app_exact {A} n (l k : list A) : n = zlen l → zdrop n (l ++ k) = k.
Proof. intros ->. rewrite zdrop_app_r by lia. apply zdrop_neg; lia. Qed.
Lemma ztake_zdrop {A} n (l : list A) : ztake n l ++ zdrop n l = l.
Proof. rewrite ztake_take, zdrop_drop. apply take_drop. Qed.
Lemma ztake_ztake {A} n m (l : list A) : ztake n (ztake m l) = ztake (Z.min n m) l.
Proof. rewrite !ztake_take, take_take. f_equal. lia. Qed.
Lemma zdrop_zdrop {A} n m (l : list A) :
  0 ≤ n → 0 ≤ m → zdrop n (zdrop m l) = zdrop (m + n) l.
Proof. intros. rewrite !zdrop_drop, drop_drop. f_equal. lia. Qed.
Lemma zdrop_ztake {A} n m (l : list A) :
  0 ≤ n → zdrop n (ztake m l) = ztake (m - n) (zdrop n l).
Proof.
  intros. rewrite !zdrop_drop, !ztake_take.
  destruct (Z.le_gt_cases n m).
  - rewrite skipn_firstn_comm. f_equal. lia.
  - rewrite drop_ge by (rewrite length_take; lia). by replace (Z.to_nat (m - n)) with 0%nat by lia.
Qed.

Lemma bytes_ok_app l k : bytes_ok (l ++ k) ↔ bytes_ok l ∧ bytes_ok k.
Proof. apply Forall_app. Qed.
Lemma text_ok s : bytes_ok (text s).
Proof.
  apply Forall_fmap, Forall_true. intros c. pose proof (Ascii.N_ascii_bounded c). cbn. unfold is_u8. lia.
Qed.
(** Checking bytes by evaluation. *)
Lemma bytes_okb l : forallb (λ b, (0 <=? b) && (b <? 256)) l = true → bytes_ok l.
Proof. rewrite forallb_forall. intros Hl. apply Forall_forall. intros b Hb. apply list_elem_of_In, Hl in Hb. unfold is_u8. lia. Qed.
Lemma bytes_ok_ztake n l : bytes_ok l → bytes_ok (ztake n l).
Proof. rewrite ztake_take. apply Forall_take. Qed.
Lemma bytes_ok_zdrop n l : bytes_ok l → bytes_ok (zdrop n l).
Proof. rewrite zdrop_drop. apply Forall_drop. Qed.
Lemma bytes_ok_fresh `{Platform} n : bytes_ok (fresh_block n).
Proof. apply Forall_fmap, Forall_forall. intros; apply uninit_byte. Qed.
Lemma bytes_ok_splice off src dst :
  bytes_ok src → bytes_ok dst → bytes_ok (splice off src dst).
Proof.
  intros. unfold splice. rewrite !bytes_ok_app.
  eauto using bytes_ok_ztake, bytes_ok_zdrop.
Qed.
Lemma bytes_ok_zget i l : bytes_ok l → is_u8 (zget i l).
Proof.
  intros Hl. revert i. induction Hl as [|x l Hx Hl IH]; intros i; simpl; [done|].
  bdestruct; done.
Qed.

Lemma bytes_ok_zeros n : bytes_ok (zrepeat 0 n).
Proof. apply Forall_replicate. ulia. Qed.

#[export] Hint Resolve bytes_ok_zeros bytes_ok_ztake bytes_ok_zdrop bytes_ok_fresh bytes_ok_splice
  bytes_ok_zget : words.

(** ** Blocks: extensionality *)

Lemma zget_out i l : i < 0 ∨ zlen l ≤ i → zget i l = 0.
Proof.
  revert i. induction l as [|x l IH]; intros i Hi; simpl; [done|].
  rewrite zlen_cons in Hi. pose proof (zlen_nonneg l). bdestruct; try done.
  apply IH; lia.
Qed.
Lemma zget_app i l k : 0 ≤ i →
  zget i (l ++ k) = if i <? zlen l then zget i l else zget (i - zlen l) k.
Proof.
  revert i. induction l as [|x l IH]; intros i Hi; simpl.
  - rewrite zlen_nil. destruct (Z.ltb_spec i 0); [lia|]. f_equal; lia.
  - rewrite zlen_cons. pose proof (zlen_nonneg l).
    destruct (Z.leb_spec i 0).
    + replace i with 0 by lia. destruct (Z.ltb_spec 0 (1 + zlen l)); [done|lia].
    + rewrite IH by lia. destruct (Z.ltb_spec (i - 1) (zlen l)), (Z.ltb_spec i (1 + zlen l));
        try lia; try done. f_equal; lia.
Qed.
Lemma zget_ztake i n l : i < n → zget i (ztake n l) = zget i l.
Proof.
  revert i n. induction l as [|x l IH]; intros i n Hi; simpl; [done|].
  destruct (Z.leb_spec n 0); simpl; destruct (Z.leb_spec i 0); try lia; try done.
  - destruct (Z.eqb_spec i 0); [lia|done].
  - apply IH; lia.
Qed.
Lemma zget_zdrop i n l : 0 ≤ n → 0 ≤ i → zget i (zdrop n l) = zget (n + i) l.
Proof.
  revert n. induction l as [|x l IH]; intros n Hn Hi; simpl; [done|].
  destruct (Z.leb_spec n 0).
  - replace n with 0 by lia. by rewrite Z.add_0_l.
  - rewrite IH by lia. destruct (Z.leb_spec (n + i) 0); [lia|]. f_equal; lia.
Qed.
Lemma zget_splice i off src dst : 0 ≤ off → off + zlen src ≤ zlen dst → 0 ≤ i →
  zget i (splice off src dst) =
    if (off <=? i) && (i <? off + zlen src) then zget (i - off) src else zget i dst.
Proof.
  intros. unfold splice. pose proof (zlen_nonneg src).
  rewrite zget_app, zlen_ztake by lia.
  replace (Z.max 0 (Z.min off (zlen dst))) with off by lia.
  destruct (Z.leb_spec off i), (Z.ltb_spec i off); try lia; simpl.
  - rewrite zget_app by lia.
    destruct (Z.ltb_spec (i - off) (zlen src)), (Z.ltb_spec i (off + zlen src)); try lia; try done.
    rewrite zget_zdrop by lia. f_equal; lia.
  - apply zget_ztake; lia.
Qed.
Lemma zget_ext l k :
  zlen l = zlen k → (∀ i, 0 ≤ i < zlen l → zget i l = zget i k) → l = k.
Proof.
  intros Hlen Hi. apply (nth_ext l k 0 0); [unfold zlen in Hlen; lia|].
  intros n Hn. specialize (Hi (Z.of_nat n)). unfold zlen in *.
  rewrite !zget_nth, !Nat2Z.id in Hi by lia. apply Hi; lia.
Qed.
Lemma zat_Some i l : 0 ≤ i < zlen l → zat i l = Some (zget i l).
Proof. intros. unfold zat. bdestruct; done. Qed.
Lemma zat_None i l : i < 0 ∨ zlen l ≤ i → zat i l = None.
Proof. intros. unfold zat. bdestruct; done. Qed.
Lemma zrepeat_S {A} (x : A) n : 0 < n → zrepeat x n = x :: zrepeat x (n - 1).
Proof. intros. unfold zrepeat. by replace (Z.to_nat n) with (S (Z.to_nat (n - 1))) by lia. Qed.

(** ** Code that fails part of the way

    [SM S A] runs on a state and may stop; the state that it had reached is kept,
    as the C++ methods that return [false] leave the objects they were changing. *)

Definition SM (S A : Type) : Type := S → option A * S.
#[export] Instance SM_ret {S} : MRet (SM S) := λ A a s, (Some a, s).
#[export] Instance SM_bind {S} : MBind (SM S) := λ A B f m s,
  match m s with
  | (Some a, s') => f a s'
  | (None, s') => (None, s')
  end.
Definition sm_fail {S A} : SM S A := λ s, (None, s).
Definition sm_get {S} : SM S S := λ s, (Some s, s).
Definition sm_put {S} (s : S) : SM S unit := λ _, (Some tt, s).
(** A method that changes nothing when it fails. *)
Definition sm_try {S A} (f : S → option (A * S)) : SM S A := λ s,
  match f s with
  | Some (a, s') => (Some a, s')
  | None => (None, s)
  end.

Lemma SM_bind_run {S A B} (m : SM S A) (f : A → SM S B) s a s' :
  m s = (Some a, s') → (m ≫= f) s = f a s'.
Proof. intros E. unfold mbind, SM_bind. by rewrite E. Qed.
Lemma sm_get_run {S B} (f : S → SM S B) s : (sm_get ≫= f) s = f s s.
Proof. done. Qed.
Lemma sm_try_run {S A} (f : S → option (A * S)) s a s' :
  f s = Some (a, s') → sm_try f s = (Some a, s').
Proof. intros E. unfold sm_try. by rewrite E. Qed.
