(* ===== verification/ByteOrder.v ===== *)
(** * webrtc/base/byteorder.h

    Reading and writing integers in memory in a fixed byte order, and the
    conversions between host and network order.  A pointer into a block is the
    block and an offset. *)

From S2P Require Import Prelude.

(** ** The operations of the source *)

Definition Set8 (memory : list Z) (offset v : Z) : list Z := splice offset [u8 v] memory.

Definition Get8 (memory : list Z) (offset : Z) : Z := zget offset memory.

Definition SetBE16 (memory : list Z) (p v : Z) : list Z :=
  let m := Set8 memory p (Z.shiftr v 8) in
  Set8 m (p + 1) (Z.shiftr v 0).

Definition SetBE32 (memory : list Z) (p v : Z) : list Z :=
  let m := Set8 memory p (Z.shiftr v 24) in
  let m := Set8 m (p + 1) (Z.shiftr v 16) in
  let m := Set8 m (p + 2) (Z.shiftr v 8) in
  Set8 m (p + 3) (Z.shiftr v 0).

Definition SetBE64 (memory : list Z) (p v : Z) : list Z :=
  let m := Set8 memory p (Z.shiftr v 56) in
  let m := Set8 m (p + 1) (Z.shiftr v 48) in
  let m := Set8 m (p + 2) (Z.shiftr v 40) in
  let m := Set8 m (p + 3) (Z.shiftr v 32) in
  let m := Set8 m (p + 4) (Z.shiftr v 24) in
  let m := Set8 m (p + 5) (Z.shiftr v 16) in
  let m := Set8 m (p + 6) (Z.shiftr v 8) in
  Set8 m (p + 7) (Z.shiftr v 0).

Definition GetBE16 (memory : list Z) (p : Z) : Z :=
  u16 (Z.lor (Z.shiftl (Get8 memory p) 8) (Z.shiftl (Get8 memory (p + 1)) 0)).

Definition GetBE32 (memory : list Z) (p : Z) : Z :=
  Z.lor (Z.lor (Z.lor (Z.shiftl (Get8 memory p) 24)
                      (Z.shiftl (Get8 memory (p + 1)) 16))
               (Z.shiftl (Get8 memory (p + 2)) 8))
        (Z.shiftl (Get8 memory (p + 3)) 0).

Definition GetBE64 (memory : list Z) (p : Z) : Z :=
  Z.lor (Z.lor (Z.lor (Z.lor (Z.lor (Z.lor (Z.lor
    (Z.shiftl (Get8 memory p) 56)
    (Z.shiftl (Get8 memory (p + 1)) 48))
    (Z.shiftl (Get8 memory (p + 2)) 40))
    (Z.shiftl (Get8 memory (p + 3)) 32))
    (Z.shiftl (Get8 memory (p + 4)) 24))
    (Z.shiftl (Get8 memory (p + 5)) 16))
    (Z.shiftl (Get8 memory (p + 6)) 8))
    (Z.shiftl (Get8 memory (p + 7)) 0).

Definition SetLE16 (memory : list Z) (p v : Z) : list Z :=
  let m := Set8 memory p (Z.shiftr v 0) in
  Set8 m (p + 1) (Z.shiftr v 8).

Definition SetLE32 (memory : list Z) (p v : Z) : list Z :=
  let m := Set8 memory p (Z.shiftr v 0) in
  let m := Set8 m (p + 1) (Z.shiftr v 8) in
  let m := Set8 m (p + 2) (Z.shiftr v 16) in
  Set8 m (p + 3) (Z.shiftr v 24).

Definition SetLE64 (memory : list Z) (p v : Z) : list Z :=
  let m := Set8 memory p (Z.shiftr v 0) in
  let m := Set8 m (p + 1) (Z.shiftr v 8) in
  let m := Set8 m (p + 2) (Z.shiftr v 16) in
  let m := Set8 m (p + 3) (Z.shiftr v 24) in
  let m := Set8 m (p + 4) (Z.shiftr v 32) in
  let m := Set8 m (p + 5) (Z.shiftr v 40) in
  let m := Set8 m (p + 6) (Z.shiftr v 48) in
  Set8 m (p + 7) (Z.shiftr v 56).

Definition GetLE16 (memory : list Z) (p : Z) : Z :=
  u16 (Z.lor (Z.shiftl (Get8 memory p) 0) (Z.shiftl (Get8 memory (p + 1)) 8)).

Definition GetLE32 (memory : list Z) (p : Z) : Z :=
  Z.lor (Z.lor (Z.lor (Z.shiftl (Get8 memory p) 0)
                      (Z.shiftl (Get8 memory (p + 1)) 8))
               (Z.shiftl (Get8 memory (p + 2)) 16))
        (Z.shiftl (Get8 memory (p + 3)) 24).

Definition GetLE64 (memory : list Z) (p : Z) : Z :=
  Z.lor (Z.lor (Z.lor (Z.lor (Z.lor (Z.lor (Z.lor
    (Z.shiftl (Get8 memory p) 0)
    (Z.shiftl (Get8 memory (p + 1)) 8))
    (Z.shiftl (Get8 memory (p + 2)) 16))
    (Z.shiftl (Get8 memory (p + 3)) 24))
    (Z.shiftl (Get8 memory (p + 4)) 32))
    (Z.shiftl (Get8 memory (p + 5)) 40))
    (Z.shiftl (Get8 memory (p + 6)) 48))
    (Z.shiftl (Get8 memory (p + 7)) 56).

(** ** Integers as the host stores them *)

(** The specification of both orders: digits in base 256. *)
Fixpoint le_encode (n : nat) (v : Z) : list Z :=
  match n with
  | O => []
  | S n' => v mod 256 :: le_encode n' (v / 256)
  end.
Fixpoint le_decode (l : list Z) : Z :=
  match l with
  | [] => 0
  | b :: l' => b + 256 * le_decode l'
  end.
Definition be_encode (n : nat) (v : Z) : list Z := rev (le_encode n v).
Definition be_decode (l : list Z) : Z := le_decode (rev l).

Definition host_store `{Platform} (n : nat) (v : Z) : list Z :=
  if host_big_endian then be_encode n v else le_encode n v.
Definition host_load `{Platform} (l : list Z) : Z :=
  if host_big_endian then be_decode l else le_decode l.

(** [IsHostBigEndian] inspects the first byte of the integer [1]. *)
Definition IsHostBigEndian `{Platform} : bool := zget 0 (host_store 4 1) =? 0.

Definition HostToNetwork16 `{Platform} (n : Z) : Z := host_load (SetBE16 (fresh_block 2) 0 n).
Definition HostToNetwork32 `{Platform} (n : Z) : Z := host_load (SetBE32 (fresh_block 4) 0 n).
Definition HostToNetwork64 `{Platform} (n : Z) : Z := host_load (SetBE64 (fresh_block 8) 0 n).
Definition NetworkToHost16 `{Platform} (n : Z) : Z := GetBE16 (host_store 2 n) 0.
Definition NetworkToHost32 `{Platform} (n : Z) : Z := GetBE32 (host_store 4 n) 0.
Definition NetworkToHost64 `{Platform} (n : Z) : Z := GetBE64 (host_store 8 n) 0.

(** ** Digits *)

Lemma length_le_encode n v : length (le_encode n v) = n.
Proof. revert v; induction n; intros; simpl; auto. Qed.
Lemma length_be_encode n v : length (be_encode n v) = n.
Proof. unfold be_encode. rewrite length_rev. apply length_le_encode. Qed.
Lemma zlen_le_encode n v : zlen (le_encode n v) = Z.of_nat n.
Proof. unfold zlen. by rewrite length_le_encode. Qed.
Lemma zlen_be_encode n v : zlen (be_encode n v) = Z.of_nat n.
Proof. unfold zlen. by rewrite length_be_encode. Qed.
#[export] Hint Rewrite @zlen_le_encode @zlen_be_encode : zlen.

Lemma le_encode_ok n v : bytes_ok (le_encode n v).
Proof.
  revert v; induction n; intros; simpl; constructor; [|apply IHn].
  apply Z.mod_pos_bound; lia.
Qed.
Lemma be_encode_ok n v : bytes_ok (be_encode n v).
Proof. apply Forall_rev, le_encode_ok. Qed.
#[export] Hint Resolve le_encode_ok be_encode_ok : words.

Lemma le_decode_encode n v : 0 ≤ v < 256 ^ Z.of_nat n → le_decode (le_encode n v) = v.
Proof.
  revert v. induction n as [|n IH]; intros v Hv; simpl; [simpl in Hv; lia|].
  rewrite Nat2Z.inj_succ, Z.pow_succ_r in Hv by lia.
  rewrite IH. { pose proof (Z.div_mod v 256). lia. }
  split; [apply Z.div_pos; lia|]. apply Z.div_lt_upper_bound; lia.
Qed.
Lemma be_decode_encode n v : 0 ≤ v < 256 ^ Z.of_nat n → be_decode (be_encode n v) = v.
Proof. intros. unfold be_decode, be_encode. rewrite rev_involutive. by apply le_decode_encode. Qed.

Lemma le_encode_decode l : bytes_ok l → le_encode (length l) (le_decode l) = l.
Proof.
  induction 1 as [|b l Hb Hl IH]; simpl; [done|]. unfold is_u8 in Hb.
  replace ((b + 256 * le_decode l) mod 256) with b by (Z.to_euclidean_division_equations; lia).
  replace ((b + 256 * le_decode l) / 256) with (le_decode l)
    by (Z.to_euclidean_division_equations; lia).
  by rewrite IH.
Qed.
Lemma be_encode_decode l : bytes_ok l → be_encode (length l) (be_decode l) = l.
Proof.
  intros Hl. unfold be_encode, be_decode.
  rewrite <- length_rev, le_encode_decode, rev_involutive; [done|].
  by apply Forall_rev.
Qed.

Lemma le_decode_range l : bytes_ok l → 0 ≤ le_decode l < 256 ^ zlen l.
Proof.
  induction 1 as [|b l Hb Hl IH]; simpl; [done|].
  rewrite zlen_cons, Z.pow_add_r by (auto using zlen_nonneg; lia).
  unfold is_u8 in Hb. lia.
Qed.
Lemma be_decode_range l : bytes_ok l → 0 ≤ be_decode l < 256 ^ zlen l.
Proof.
  intros Hl. unfold be_decode, zlen. rewrite <- length_rev. by apply le_decode_range, Forall_rev.
Qed.

Lemma host_store_ok `{Platform} n v : bytes_ok (host_store n v).
Proof. unfold host_store. destruct host_big_endian; auto with words. Qed.
Lemma zlen_host_store `{Platform} n v : zlen (host_store n v) = Z.of_nat n.
Proof. unfold host_store. destruct host_big_endian; autorewrite with zlen; done. Qed.
Lemma host_store_load `{Platform} n l :
  bytes_ok l → zlen l = Z.of_nat n → host_store n (host_load l) = l.
Proof.
  intros Hl Hn. replace n with (length l) by (unfold zlen in Hn; lia).
  unfold host_store, host_load.
  destruct host_big_endian; auto using be_encode_decode, le_encode_decode.
Qed.
Lemma host_load_store `{Platform} n v :
  0 ≤ v < 256 ^ Z.of_nat n → host_load (host_store n v) = v.
Proof.
  intros. unfold host_load, host_store.
  destruct host_big_endian; auto using be_decode_encode, le_decode_encode.
Qed.
#[export] Hint Resolve host_store_ok : words.
#[export] Hint Rewrite @zlen_host_store : zlen.

Lemma IsHostBigEndian_spec `{Platform} : IsHostBigEndian = host_big_endian.
Proof. unfold IsHostBigEndian, host_store. by destruct host_big_endian. Qed.

(** ** The stores and loads are big-endian and little-endian digits *)

Lemma splice_adjacent p a b m :
  0 ≤ p → p + zlen a + zlen b ≤ zlen m →
  splice (p + zlen a) b (splice p a m) = splice p (a ++ b) m.
Proof.
  intros. pose proof (zlen_nonneg a). pose proof (zlen_nonneg b).
  unfold splice. rewrite zlen_app, !app_assoc, Z.add_assoc.
  assert (Hl : zlen (ztake p m ++ a) = p + zlen a) by (rewrite zlen_app, zlen_ztake; lia).
  rewrite ztake_app_exact by lia. f_equal.
  rewrite zdrop_app_r, zdrop_zdrop by lia. f_equal. lia.
Qed.

Lemma shiftr_byte v k : 0 ≤ k → u8 (Z.shiftr v k) = (v / 2 ^ k) mod 256.
Proof. intros. unfold u8. by rewrite Z.shiftr_div_pow2. Qed.

Lemma lor_disjoint x a n :
  0 ≤ n → x mod 2 ^ n = 0 → 0 ≤ a < 2 ^ n → Z.lor x a = x + a.
Proof.
  intros Hn Hx Ha. rewrite (Z.div_mod x (2 ^ n)) at 1 by lia.
  rewrite Hx, Z.add_0_r, Z.mul_comm, <- Z.shiftl_mul_pow2, lor_lanes by lia.
  pose proof (Z.div_mod x (2 ^ n)). lia.
Qed.

Ltac splice_chain :=
  unfold Set8;
  repeat match goal with
  | |- context [splice ?q ?b (splice ?p ?a ?m)] =>
      replace (splice q b (splice p a m)) with (splice p (a ++ b) m)
        by (rewrite <- splice_adjacent; [f_equal; zlia | zlia | zlia])
  end.

Lemma SetBE16_splice m p v :
  0 ≤ p → p + 2 ≤ zlen m → SetBE16 m p v = splice p (be_encode 2 v) m.
Proof.
  intros. unfold SetBE16. splice_chain. f_equal.
  rewrite !shiftr_byte by lia. cbn. rewrite Z.div_1_r. done.
Qed.
Lemma SetBE32_splice m p v :
  0 ≤ p → p + 4 ≤ zlen m → SetBE32 m p v = splice p (be_encode 4 v) m.
Proof.
  intros. unfold SetBE32. splice_chain. f_equal.
  rewrite !shiftr_byte by lia. cbn. rewrite !Z.div_div, Z.div_1_r by lia. done.
Qed.
Lemma SetBE64_splice m p v :
  0 ≤ p → p + 8 ≤ zlen m → SetBE64 m p v = splice p (be_encode 8 v) m.
Proof.
  intros. unfold SetBE64. splice_chain. f_equal.
  rewrite !shiftr_byte by lia. cbn. rewrite !Z.div_div, Z.div_1_r by lia. done.
Qed.
Lemma SetLE16_splice m p v :
  0 ≤ p → p + 2 ≤ zlen m → SetLE16 m p v = splice p (le_encode 2 v) m.
Proof.
  intros. unfold SetLE16. splice_chain. f_equal.
  rewrite !shiftr_byte by lia. cbn. rewrite Z.div_1_r. done.
Qed.
Lemma SetLE32_splice m p v :
  0 ≤ p → p + 4 ≤ zlen m → SetLE32 m p v = splice p (le_encode 4 v) m.
Proof.
  intros. unfold SetLE32. splice_chain. f_equal.
  rewrite !shiftr_byte by lia. cbn. rewrite !Z.div_div, Z.div_1_r by lia. done.
Qed.
Lemma SetLE64_splice m p v :
  0 ≤ p → p + 8 ≤ zlen m → SetLE64 m p v = splice p (le_encode 8 v) m.
Proof.
  intros. unfold SetLE64. splice_chain. f_equal.
  rewrite !shiftr_byte by lia. cbn. rewrite !Z.div_div, Z.div_1_r by lia. done.
Qed.

Lemma lor_disjoint_l a x n :
  0 ≤ n → x mod 2 ^ n = 0 → 0 ≤ a < 2 ^ n → Z.lor a x = a + x.
Proof. intros. rewrite Z.lor_comm, (lor_disjoint x a n); lia. Qed.

(** Adding up disjoint byte lanes. *)
Ltac lane_side := cbn [Z.pow Z.pow_pos Pos.iter Z.mul Pos.mul] in *; ulia.
Ltac byte_vars :=
  repeat match goal with
  | H : bytes_ok ?m |- context [Get8 ?m ?p] =>
      let b := fresh "b" in let Hb := fresh "Hb" in
      assert (Hb : is_u8 (Get8 m p)) by (by apply bytes_ok_zget);
      revert Hb; generalize (Get8 m p); intros b Hb
  end.

Lemma GetBE16_decode m p :
  bytes_ok m → GetBE16 m p = be_decode [Get8 m p; Get8 m (p + 1)].
Proof.
  intros. unfold GetBE16. byte_vars. rewrite !Z.shiftl_mul_pow2 by lia.
  rewrite (lor_disjoint _ _ 8) by lane_side. rewrite u16_id by lane_side. cbn. lia.
Qed.
Lemma GetBE32_decode m p :
  bytes_ok m →
  GetBE32 m p = be_decode [Get8 m p; Get8 m (p + 1); Get8 m (p + 2); Get8 m (p + 3)].
Proof.
  intros. unfold GetBE32. byte_vars. rewrite !Z.shiftl_mul_pow2 by lia.
  rewrite (lor_disjoint (_ * 2 ^ 24) _ 24) by lane_side.
  rewrite (lor_disjoint (_ + _ * 2 ^ 16) _ 16) by lane_side.
  rewrite (lor_disjoint (_ + _ * 2 ^ 8) _ 8) by lane_side. cbn. lia.
Qed.
Lemma GetBE64_decode m p :
  bytes_ok m →
  GetBE64 m p = be_decode [Get8 m p; Get8 m (p + 1); Get8 m (p + 2); Get8 m (p + 3);
                           Get8 m (p + 4); Get8 m (p + 5); Get8 m (p + 6); Get8 m (p + 7)].
Proof.
  intros. unfold GetBE64. byte_vars. rewrite !Z.shiftl_mul_pow2 by lia.
  rewrite (lor_disjoint (_ * 2 ^ 56) _ 56) by lane_side.
  rewrite (lor_disjoint (_ + _ * 2 ^ 48) _ 48) by lane_side.
  rewrite (lor_disjoint (_ + _ * 2 ^ 40) _ 40) by lane_side.
  rewrite (lor_disjoint (_ + _ * 2 ^ 32) _ 32) by lane_side.
  rewrite (lor_disjoint (_ + _ * 2 ^ 24) _ 24) by lane_side.
  rewrite (lor_disjoint (_ + _ * 2 ^ 16) _ 16) by lane_side.
  rewrite (lor_disjoint (_ + _ * 2 ^ 8) _ 8) by lane_side. cbn. lia.
Qed.
Lemma GetLE16_decode m p :
  bytes_ok m → GetLE16 m p = le_decode [Get8 m p; Get8 m (p + 1)].
Proof.
  intros. unfold GetLE16. byte_vars. rewrite !Z.shiftl_mul_pow2 by lia.
  rewrite (lor_disjoint_l _ _ 8) by lane_side. rewrite u16_id by lane_side. cbn. lia.
Qed.
Lemma GetLE32_decode m p :
  bytes_ok m →
  GetLE32 m p = le_decode [Get8 m p; Get8 m (p + 1); Get8 m (p + 2); Get8 m (p + 3)].
Proof.
  intros. unfold GetLE32. byte_vars. rewrite !Z.shiftl_mul_pow2 by lia.
  rewrite (lor_disjoint_l _ (_ * 2 ^ 8) 8) by lane_side.
  rewrite (lor_disjoint_l _ (_ * 2 ^ 16) 16) by lane_side.
  rewrite (lor_disjoint_l _ (_ * 2 ^ 24) 24) by lane_side. cbn. lia.
Qed.
Lemma GetLE64_decode m p :
  bytes_ok m →
  GetLE64 m p = le_decode [Get8 m p; Get8 m (p + 1); Get8 m (p + 2); Get8 m (p + 3);
                           Get8 m (p + 4); Get8 m (p + 5); Get8 m (p + 6); Get8 m (p + 7)].
Proof.
  intros. unfold GetLE64. byte_vars. rewrite !Z.shiftl_mul_pow2 by lia.
  rewrite (lor_disjoint_l _ (_ * 2 ^ 8) 8) by lane_side.
  rewrite (lor_disjoint_l _ (_ * 2 ^ 16) 16) by lane_side.
  rewrite (lor_disjoint_l _ (_ * 2 ^ 24) 24) by lane_side.
  rewrite (lor_disjoint_l _ (_ * 2 ^ 32) 32) by lane_side.
  rewrite (lor_disjoint_l _ (_ * 2 ^ 40) 40) by lane_side.
  rewrite (lor_disjoint_l _ (_ * 2 ^ 48) 48) by lane_side.
  rewrite (lor_disjoint_l _ (_ * 2 ^ 56) 56) by lane_side. cbn. lia.
Qed.

(** A load at the start of a known run of bytes. *)
Lemma Get8_app_skip a l k : 0 ≤ k → Get8 (a ++ l) (zlen a + k) = Get8 l k.
Proof.
  intros. unfold Get8. rewrite zget_app by zlia.
  destruct (Z.ltb_spec (zlen a + k) (zlen a)); [lia|]. f_equal; lia.
Qed.

Ltac explode_list l :=
  repeat match goal with
  | H : zlen l = ?n |- _ =>
      lazymatch n with
      | 0 => apply zlen_0_nil in H; subst l
      | _ => let b := fresh "b" in destruct l as [|b l]; [done|];
             rewrite zlen_cons in H;
             let n' := eval vm_compute in (n - 1) in
             assert (zlen l = n') by lia; clear H
      end
  end.

Lemma GetBE16_at a l b :
  bytes_ok l → zlen l = 2 → GetBE16 (a ++ l ++ b) (zlen a) = be_decode l.
Proof.
  intros Hl Hn. transitivity (GetBE16 l 0).
  - unfold GetBE16. rewrite <- (Z.add_0_r (zlen a)) at 1. rewrite !Get8_app_skip by lia.
    explode_list l. reflexivity.
  - rewrite GetBE16_decode by done. explode_list l. reflexivity.
Qed.
Lemma GetBE32_at a l b :
  bytes_ok l → zlen l = 4 → GetBE32 (a ++ l ++ b) (zlen a) = be_decode l.
Proof.
  intros Hl Hn. transitivity (GetBE32 l 0).
  - unfold GetBE32. rewrite <- (Z.add_0_r (zlen a)) at 1. rewrite !Get8_app_skip by lia.
    explode_list l. reflexivity.
  - rewrite GetBE32_decode by done. explode_list l. reflexivity.
Qed.
Lemma GetBE64_at a l b :
  bytes_ok l → zlen l = 8 → GetBE64 (a ++ l ++ b) (zlen a) = be_decode l.
Proof.
  intros Hl Hn. transitivity (GetBE64 l 0).
  - unfold GetBE64. rewrite <- (Z.add_0_r (zlen a)) at 1. rewrite !Get8_app_skip by lia.
    explode_list l. reflexivity.
  - rewrite GetBE64_decode by done. explode_list l. reflexivity.
Qed.
Lemma GetLE32_skip a l b : zlen l = 4 → GetLE32 (a ++ l ++ b) (zlen a) = GetLE32 l 0.
Proof.
  intros Hn. unfold GetLE32. rewrite <- (Z.add_0_r (zlen a)) at 1.
  rewrite !Get8_app_skip by lia. explode_list l. reflexivity.
Qed.
Lemma GetLE32_at a l b :
  bytes_ok l → zlen l = 4 → GetLE32 (a ++ l ++ b) (zlen a) = le_decode l.
Proof.
  intros Hl Hn. rewrite GetLE32_skip, GetLE32_decode by done. explode_list l. reflexivity.
Qed.

(** ** Host and network order *)

Lemma NetworkToHost16_load `{Platform} l :
  bytes_ok l → zlen l = 2 → NetworkToHost16 (host_load l) = be_decode l.
Proof.
  intros Hl Hn. unfold NetworkToHost16. rewrite host_store_load by done.
  replace l with ([] ++ l ++ []) at 1 by apply app_nil_r.
  apply (GetBE16_at [] l []); auto; constructor.
Qed.
Lemma NetworkToHost32_load `{Platform} l :
  bytes_ok l → zlen l = 4 → NetworkToHost32 (host_load l) = be_decode l.
Proof.
  intros Hl Hn. unfold NetworkToHost32. rewrite host_store_load by done.
  replace l with ([] ++ l ++ []) at 1 by apply app_nil_r.
  apply (GetBE32_at [] l []); auto; constructor.
Qed.
Lemma NetworkToHost64_load `{Platform} l :
  bytes_ok l → zlen l = 8 → NetworkToHost64 (host_load l) = be_decode l.
Proof.
  intros Hl Hn. unfold NetworkToHost64. rewrite host_store_load by done.
  replace l with ([] ++ l ++ []) at 1 by apply app_nil_r.
  apply (GetBE64_at [] l []); auto; constructor.
Qed.

Lemma splice_whole p src m : p = 0 → zlen src = zlen m → splice p src m = src.
Proof.
  intros -> Hn. unfold splice. rewrite ztake_neg, zdrop_all, app_nil_r by lia. done.
Qed.

Lemma HostToNetwork16_load `{Platform} v : HostToNetwork16 v = host_load (be_encode 2 v).
Proof. unfold HostToNetwork16. rewrite SetBE16_splice, splice_whole by (zlen_simpl; lia). done. Qed.
Lemma HostToNetwork32_load `{Platform} v : HostToNetwork32 v = host_load (be_encode 4 v).
Proof. unfold HostToNetwork32. rewrite SetBE32_splice, splice_whole by (zlen_simpl; lia). done. Qed.
Lemma HostToNetwork64_load `{Platform} v : HostToNetwork64 v = host_load (be_encode 8 v).
Proof. unfold HostToNetwork64. rewrite SetBE64_splice, splice_whole by (zlen_simpl; lia). done. Qed.

Lemma HostToNetwork16_store `{Platform} v : host_store 2 (HostToNetwork16 v) = be_encode 2 v.
Proof. rewrite HostToNetwork16_load. apply host_store_load; [auto with words|zlia]. Qed.
Lemma HostToNetwork32_store `{Platform} v : host_store 4 (HostToNetwork32 v) = be_encode 4 v.
Proof. rewrite HostToNetwork32_load. apply host_store_load; [auto with words|zlia]. Qed.
Lemma HostToNetwork64_store `{Platform} v : host_store 8 (HostToNetwork64 v) = be_encode 8 v.
Proof. rewrite HostToNetwork64_load. apply host_store_load; [auto with words|zlia]. Qed.

(** On a host of either byte order, converting an integer to network order
    and storing it puts its most significant byte first, and converting back
    gives the integer again, for the 16, 32 and 64 bit conversions. *)
Theorem network_order_roundtrip `{Platform} n16 n32 n64 :
  is_u16 n16 → is_u32 n32 → is_u64 n64 →
  host_store 2 (HostToNetwork16 n16) = be_encode 2 n16 ∧
  NetworkToHost16 (HostToNetwork16 n16) = n16 ∧
  host_store 4 (HostToNetwork32 n32) = be_encode 4 n32 ∧
  NetworkToHost32 (HostToNetwork32 n32) = n32 ∧
  host_store 8 (HostToNetwork64 n64) = be_encode 8 n64 ∧
  NetworkToHost64 (HostToNetwork64 n64) = n64.
Proof.
  intros. rewrite HostToNetwork16_store, HostToNetwork32_store, HostToNetwork64_store,
    HostToNetwork16_load, HostToNetwork32_load, HostToNetwork64_load,
    NetworkToHost16_load, NetworkToHost32_load, NetworkToHost64_load
    by (auto with words; zlia).
  rewrite !be_decode_encode by done. done.
Qed.

(** A little-endian host whose fresh memory is zeroed. *)
Definition zero_platform : Platform :=
  {| host_big_endian := false; uninit := λ _, 0; uninit_byte := λ _, conj (Z.le_refl 0) eq_refl |}.

Lemma network_order_roundtrip_witness :
  @host_store zero_platform 4 (@HostToNetwork32 zero_platform 305419896) = [18; 52; 86; 120] ∧
  @NetworkToHost32 zero_platform (@HostToNetwork32 zero_platform 305419896) = 305419896.
Proof.
  destruct (@network_order_roundtrip zero_platform 258 305419896 72623859790382856)
    as (_ & _ & H1 & H2 & _); [done..|]. split; [rewrite H1; reflexivity | exact H2].
Defined.
