(* ===== verification/StringEncode.v ===== *)
(** * Hexadecimal text

    The hex codecs of webrtc/base/stringencode.cc, into buffers and strings, with and
    without a delimiter between the bytes.  A buffer is the list of its bytes; a codec
    returns the number it returns and the buffer. *)

From stdpp Require Import strings.
From S2P Require Import Prelude ByteOrder.

Definition HEX : list Z := text "0123456789abcdef".

Definition hex_encode_char (val : Z) : Z := if val <? 16 then zget val HEX else 33.
Definition hex_decode_char (ch : Z) : option Z :=
  if (48 <=? ch) && (ch <=? 57) then Some (ch - 48)
  else if (65 <=? ch) && (ch <=? 90) then Some (ch - 65 + 10)
  else if (97 <=? ch) && (ch <=? 122) then Some (ch - 97 + 10)
  else None.

(** The loop over the source; a delimiter 0 is none. *)
Fixpoint hex_encode_loop (source : list Z) (delimiter bufpos : Z) (buffer : list Z) : Z * list Z :=
  match source with
  | [] => (bufpos, buffer)
  | ch :: rest =>
      let buffer :=
        splice bufpos [hex_encode_char (Z.land (Z.shiftr ch 4) 15); hex_encode_char (Z.land ch 15)] buffer in
      let bufpos := bufpos + 2 in
      match rest with
      | _ :: _ =>
          if negb (delimiter =? 0) then hex_encode_loop rest delimiter (bufpos + 1) (splice bufpos [delimiter] buffer)
          else hex_encode_loop rest delimiter bufpos buffer
      | [] => hex_encode_loop rest delimiter bufpos buffer
      end
  end.
Definition hex_encode_with_delimiter (buffer source : list Z) (delimiter : Z) : Z * list Z :=
  if zlen buffer =? 0 then (0, buffer)
  else
    let srclen := zlen source in
    let needed := if negb (delimiter =? 0) then srclen * 3 else srclen * 2 + 1 in
    if zlen buffer <? needed then (0, buffer)
    else
      let '(bufpos, buffer) := hex_encode_loop source delimiter 0 buffer in
      (bufpos, splice bufpos [0] buffer).
(** The versions that return a string, with a buffer on the stack. *)
Definition hex_encode_string_with_delimiter `{Platform} (source : list Z) (delimiter : Z) : list Z :=
  let '(length, buffer) := hex_encode_with_delimiter (fresh_block (zlen source * 3)) source delimiter in
  ztake length buffer.
Definition hex_encode `{Platform} (source : list Z) : list Z := hex_encode_string_with_delimiter source 0.

(** The loop over the rest of the source: 0 stands for a failure. *)
Fixpoint hex_decode_loop (source : list Z) (delimiter bufpos : Z) (buffer : list Z) : Z * list Z :=
  match source with
  | [] => (bufpos, buffer)
  | c1 :: c2 :: rest =>
      match hex_decode_char c1, hex_decode_char c2 with
      | Some h1, Some h2 =>
          let buffer := splice bufpos [u8 (Z.lor (Z.shiftl h1 4) h2)] buffer in
          match rest with
          | d :: ((_ :: _) as rest') =>
              if negb (delimiter =? 0) then
                if negb (d =? delimiter) then (0, buffer) else hex_decode_loop rest' delimiter (bufpos + 1) buffer
              else hex_decode_loop rest delimiter (bufpos + 1) buffer
          | _ => hex_decode_loop rest delimiter (bufpos + 1) buffer
          end
      | _, _ => (0, buffer)
      end
  | _ => (0, buffer)
  end.
Definition hex_decode_with_delimiter (buffer source : list Z) (delimiter : Z) : Z * list Z :=
  if zlen buffer =? 0 then (0, buffer)
  else
    let srclen := zlen source in
    let needed := if negb (delimiter =? 0) then (srclen + 1) / 3 else srclen / 2 in
    if zlen buffer <? needed then (0, buffer) else hex_decode_loop source delimiter 0 buffer.
Definition hex_decode (buffer source : list Z) : Z * list Z := hex_decode_with_delimiter buffer source 0.

Lemma hex_decode_loop_eq c1 c2 rest delimiter bufpos buffer :
  hex_decode_loop (c1 :: c2 :: rest) delimiter bufpos buffer =
  match hex_decode_char c1, hex_decode_char c2 with
  | Some h1, Some h2 =>
      let buffer := splice bufpos [u8 (Z.lor (Z.shiftl h1 4) h2)] buffer in
      match rest with
      | d :: ((_ :: _) as rest') =>
          if negb (delimiter =? 0) then
            if negb (d =? delimiter) then (0, buffer) else hex_decode_loop rest' delimiter (bufpos + 1) buffer
          else hex_decode_loop rest delimiter (bufpos + 1) buffer
      | _ => hex_decode_loop rest delimiter (bufpos + 1) buffer
      end
  | _, _ => (0, buffer)
  end.
Proof. done. Qed.

(** ** The text of bytes *)

(** Two digits for each byte, with the delimiter between the bytes. *)
Definition digits (ch : Z) : list Z := [zget (ch / 16) HEX; zget (ch mod 16) HEX].
Fixpoint hex_text (delimiter : Z) (l : list Z) : list Z :=
  match l with
  | [] => []
  | ch :: l => digits ch ++ match l with [] => [] | _ => if delimiter =? 0 then [] else [delimiter] end ++ hex_text delimiter l
  end.

Lemma hex_digits ch : is_u8 ch →
  [hex_encode_char (Z.land (Z.shiftr ch 4) 15); hex_encode_char (Z.land ch 15)] = digits ch.
Proof.
  intros Hc. unfold hex_encode_char. change 15 with (Z.ones 4). rewrite !Z.land_ones, Z.shiftr_div_pow2 by lia.
  change (2 ^ 4) with 16. rewrite Z.mod_small by ulia.
  by rewrite (proj2 (Z.ltb_lt (ch / 16) 16)), (proj2 (Z.ltb_lt (ch mod 16) 16)) by ulia.
Qed.
Lemma decode_digit v : 0 ≤ v < 16 → hex_decode_char (zget v HEX) = Some v.
Proof.
  intros Hv.
  assert (match hex_decode_char (zget v HEX) with Some w => w =? v | None => false end = true) as Hb.
  { revert Hv. apply (below_spec 16 (λ v, match hex_decode_char (zget v HEX) with Some w => w =? v | None => false end)).
    by vm_compute. }
  destruct (hex_decode_char _); [|done]. f_equal. by apply Z.eqb_eq.
Qed.
Lemma hex_text_cons d ch l : l ≠ [] →
  hex_text d (ch :: l) = digits ch ++ (if d =? 0 then [] else [d]) ++ hex_text d l.
Proof. by destruct l. Qed.
Lemma hex_text_length d l : zlen (hex_text d l) = 2 * zlen l + if d =? 0 then 0 else Z.max 0 (zlen l - 1).
Proof.
  induction l as [|ch [|ch2 l] IH]; [by destruct (d =? 0)|by cbn; destruct (d =? 0)|].
  rewrite hex_text_cons by done. rewrite !zlen_app, IH, !zlen_cons. pose proof (zlen_nonneg l).
  change (zlen (digits ch)) with 2. destruct (d =? 0); change (zlen [d]) with 1; change (zlen (@nil Z)) with 0; lia.
Qed.

Lemma splice_end pre k old post : zlen k = zlen old → splice (zlen pre) k (pre ++ old ++ post) = pre ++ k ++ post.
Proof.
  intros E. unfold splice. rewrite ztake_app_exact by done. do 2 f_equal.
  rewrite app_assoc. apply zdrop_app_exact. rewrite zlen_app. lia.
Qed.
Lemma split_at {A} (l : list A) n : 0 ≤ n ≤ zlen l → ∃ a b, l = a ++ b ∧ zlen a = n.
Proof. intros Hn. exists (ztake n l), (zdrop n l). rewrite ztake_zdrop. split; [done|]. zlia. Qed.

Lemma hex_encode_loop_text d l : bytes_ok l → ∀ pre old post, zlen old = zlen (hex_text d l) →
  hex_encode_loop l d (zlen pre) (pre ++ old ++ post) = (zlen pre + zlen (hex_text d l), pre ++ hex_text d l ++ post).
Proof.
  induction 1 as [|ch l Hch Hl IH]; intros pre old post Ho; cbn [hex_encode_loop].
  - assert (old = []) as -> by (by apply zlen_0_nil). change (zlen (hex_text d [])) with 0. by rewrite Z.add_0_r.
  - rewrite hex_digits by done. pose proof (zlen_nonneg (hex_text d l)).
    destruct (decide (l = [])) as [->|Hne].
    + change (hex_text d [ch]) with (digits ch) in *. cbn [hex_encode_loop]. by rewrite splice_end.
    + rewrite hex_text_cons in * by done. rewrite !zlen_app in Ho. change (zlen (digits ch)) with 2 in Ho.
      destruct (split_at old 2) as (o1 & o2 & -> & E1); [pose proof (zlen_nonneg (if d =? 0 then [] else [d])); lia|].
      rewrite <- app_assoc, splice_end by done. rewrite zlen_app in Ho.
      replace (zlen pre + 2) with (zlen (pre ++ digits ch)) by (by rewrite zlen_app).
      destruct l as [|c2 l]; [done|]. destruct (d =? 0) eqn:Ed; cbn [negb].
      * rewrite app_assoc, IH by (cbn [app] in *; change (zlen (@nil Z)) with 0 in Ho; lia).
        cbn [app]. rewrite <- !app_assoc. f_equal. rewrite !zlen_app. lia.
      * change (zlen [d]) with 1 in Ho. destruct (split_at o2 1) as (o3 & o4 & -> & E3); [lia|]. rewrite zlen_app in Ho.
        rewrite app_assoc, <- (app_assoc o3), splice_end by done.
        replace (zlen (pre ++ digits ch) + 1) with (zlen ((pre ++ digits ch) ++ [d])) by zlia.
        rewrite app_assoc, IH by lia. rewrite <- !app_assoc. f_equal. rewrite !zlen_app. lia.
Qed.

Lemma hex_encode_text `{Platform} d l : bytes_ok l → hex_encode_string_with_delimiter l d = hex_text d l.
Proof.
  intros Hl. unfold hex_encode_string_with_delimiter, hex_encode_with_delimiter. rewrite zlen_fresh.
  pose proof (zlen_nonneg l). destruct (decide (l = [])) as [->|Hne]; [done|].
  assert (0 < zlen l) by (destruct l; [done|rewrite zlen_cons; pose proof (zlen_nonneg l); lia]).
  rewrite (proj2 (Z.eqb_neq _ 0)), (proj2 (Z.ltb_ge _ _)) by (destruct (negb (d =? 0)); lia).
  destruct (split_at (fresh_block (zlen l * 3)) (zlen (hex_text d l))) as (old & post & E & Ho).
  { rewrite zlen_fresh, hex_text_length. destruct (d =? 0); lia. }
  pose proof (hex_encode_loop_text d l Hl [] old post Ho) as El. cbn [app] in El. change (zlen (@nil Z)) with 0 in El.
  rewrite E, El, Z.add_0_l. unfold splice.
  rewrite (ztake_app_exact _ (hex_text d l) post) by done. by rewrite ztake_app_exact.
Qed.

Lemma hex_decode_loop_text d l : bytes_ok l → ∀ pre old post, zlen old = zlen l →
  hex_decode_loop (hex_text d l) d (zlen pre) (pre ++ old ++ post) = (zlen pre + zlen l, pre ++ l ++ post).
Proof.
  induction 1 as [|ch l Hch Hl IH]; intros pre old post Ho.
  - assert (old = []) as -> by (by apply zlen_0_nil). cbn. by rewrite Z.add_0_r.
  - rewrite zlen_cons in Ho. destruct old as [|o old]; [pose proof (zlen_nonneg l); change (zlen (@nil Z)) with 0 in Ho; lia|].
    rewrite zlen_cons in Ho.
    assert (u8 (Z.lor (Z.shiftl (ch / 16) 4) (ch mod 16)) = ch) as Ebyte by (rewrite lor_lanes by ulia; ulia).
    change ((o :: old) ++ post) with (o :: old ++ post).
    assert (splice (zlen pre) [ch] (pre ++ o :: old ++ post) = (pre ++ [ch]) ++ old ++ post) as Es.
    { change (o :: old ++ post) with ([o] ++ old ++ post). rewrite splice_end by done. by rewrite <- app_assoc. }
    replace (pre ++ (ch :: l) ++ post) with ((pre ++ [ch]) ++ l ++ post) by (by rewrite <- app_assoc).
    replace (zlen pre + zlen (ch :: l)) with (zlen (pre ++ [ch]) + zlen l) by zlia.
    destruct (decide (l = [])) as [->|Hne].
    + change (hex_text d [ch]) with (digits ch). cbn [digits hex_decode_loop].
      rewrite !decode_digit, Ebyte, Es by (done || ulia). change (zlen (@nil Z)) with 0 in Ho.
      assert (old = []) as -> by (apply zlen_0_nil; lia). f_equal. zlia.
    + rewrite hex_text_cons by done. destruct l as [|c2 l]; [done|].
      assert (∃ x y k, hex_text d (c2 :: l) = x :: y :: k) as (x & y & k & Ek) by (cbn; eauto).
      specialize (IH (pre ++ [ch]) old post ltac:(lia)).
      replace (zlen (pre ++ [ch])) with (zlen pre + 1) in * by zlia. rewrite Ek in IH |- *.
      destruct (d =? 0) eqn:Ed; cbn [app digits]; rewrite hex_decode_loop_eq, !decode_digit, Ebyte, Es, Ed by (done || ulia); cbn [negb].
      * exact IH.
      * by rewrite Z.eqb_refl.
Qed.

Lemma hex_digit_ok v : 0 ≤ v < 16 → is_u8 (zget v HEX).
Proof.
  intros Hv. assert ((0 <=? zget v HEX) && (zget v HEX <? 256) = true) as Hb.
  { revert Hv. apply (below_spec 16 (λ v, (0 <=? zget v HEX) && (zget v HEX <? 256))). by vm_compute. }
  unfold is_u8. lia.
Qed.
Lemma hex_text_ok l : bytes_ok l → bytes_ok (hex_text 0 l).
Proof.
  induction 1 as [|ch l Hc _ IH]; [constructor|].
  assert (hex_text 0 (ch :: l) = digits ch ++ hex_text 0 l) as -> by (by destruct l).
  apply bytes_ok_app. split; [|done]. repeat constructor; apply hex_digit_ok; unfold is_u8 in Hc; ulia.
Qed.
(** Decoding stays inside a buffer that has room, and writes bytes. *)
Lemma hex_decode_loop_keeps n : ∀ source bufpos buffer, (length source ≤ n)%nat → bytes_ok buffer → 0 ≤ bufpos →
  bufpos + zlen source / 2 ≤ zlen buffer →
  bytes_ok (hex_decode_loop source 0 bufpos buffer).2 ∧ zlen (hex_decode_loop source 0 bufpos buffer).2 = zlen buffer.
Proof.
  induction n as [|n IH]; intros source bufpos buffer Hn Hb H0 Hroom.
  { destruct source; [done|cbn in Hn; lia]. }
  destruct source as [|c1 [|c2 rest]]; [done|done|]. rewrite hex_decode_loop_eq.
  destruct (hex_decode_char c1) as [h1|]; [|done]. destruct (hex_decode_char c2) as [h2|]; [|done]. cbv zeta.
  rewrite !zlen_cons in Hroom. pose proof (zlen_nonneg rest).
  assert (bytes_ok (splice bufpos [u8 (Z.lor (Z.shiftl h1 4) h2)] buffer)) as Hb'
    by (apply bytes_ok_splice; [repeat constructor; ulia|done]).
  assert (zlen (splice bufpos [u8 (Z.lor (Z.shiftl h1 4) h2)] buffer) = zlen buffer) as El
    by (apply zlen_splice; [done|change (zlen [_]) with 1; ulia]).
  assert (bufpos + 1 + zlen rest / 2 ≤ zlen (splice bufpos [u8 (Z.lor (Z.shiftl h1 4) h2)] buffer)) as Hroom' by (rewrite El; ulia).
  cbn [length] in Hn. destruct (IH rest (bufpos + 1) _ ltac:(lia) Hb' ltac:(lia) Hroom') as [H1 H2]. rewrite El in H2.
  destruct rest as [|d [|d2 rest]]; cbn [negb Z.eqb]; by split.
Qed.

(** ** Properties *)

(** Hexadecimal text round trips: decoding what was encoded, with the same delimiter
    or none, into any buffer that has room writes the bytes to its start, leaves the
    rest of it alone, and returns their number. *)
Theorem hex_roundtrip `{Platform} l d buffer : bytes_ok l → zlen l ≤ zlen buffer → 0 < zlen buffer →
  hex_decode_with_delimiter buffer (hex_encode_string_with_delimiter l d) d = (zlen l, l ++ zdrop (zlen l) buffer).
Proof.
  intros Hl Hroom H0. rewrite hex_encode_text by done. unfold hex_decode_with_delimiter.
  rewrite (proj2 (Z.eqb_neq (zlen buffer) 0)) by lia. rewrite hex_text_length. pose proof (zlen_nonneg l).
  rewrite (proj2 (Z.ltb_ge _ _)) by (destruct (d =? 0); cbn [negb]; ulia).
  destruct (split_at buffer (zlen l)) as (old & post & -> & Ho); [lia|].
  pose proof (hex_decode_loop_text d l Hl [] old post Ho) as E. cbn [app] in E. change (zlen (@nil Z)) with 0 in E.
  by rewrite E, Z.add_0_l, zdrop_app_exact.
Qed.

(** The letters after f are taken for digits: "zz" decodes, to 0x33. *)
Lemma hex_decode_letters ch : 103 ≤ ch ≤ 122 → ∃ v, hex_decode_char ch = Some v ∧ 16 ≤ v.
Proof.
  intros Hc. exists (ch - 87). unfold hex_decode_char.
  rewrite (proj2 (Z.leb_gt ch 57)), (proj2 (Z.leb_gt ch 90)), (proj2 (Z.leb_le 97 ch)), (proj2 (Z.leb_le ch 122)) by lia.
  rewrite !andb_false_r. cbn. split; [f_equal|]; lia.
Qed.
Lemma hex_decode_zz : hex_decode [0] (text "zz") = (1, [51]).
Proof. done. Qed.

Lemma hex_roundtrip_witness :
  hex_decode_with_delimiter [9; 9; 9] (@hex_encode_string_with_delimiter zero_platform [171; 7] 58) 58 = (2, [171; 7; 9]) ∧
  @hex_encode_string_with_delimiter zero_platform [171; 7] 58 = text "ab:07".
Proof.
  split; [|reflexivity].
  exact (@hex_roundtrip zero_platform [171; 7] 58 [9; 9; 9] ltac:(repeat constructor; done) ltac:(done) ltac:(done)).
Defined.
