(* ===== verification/ByteBuffer.v ===== *)
(** * webrtc/base/bytebuffer.h and bytebuffer.cc

    The growable buffer that every wire format is written into and parsed from:
    a block [bytes_] of [size_] bytes whose bytes from [start_] to [end_] are the
    unread data.  The file gives the operations of the class, the representation
    invariant, a refinement to a plain queue of bytes, and the round trips of the
    integer encodings in both byte orders. *)

From S2P Require Import Prelude ByteOrder.

Inductive Order := ORDER_NETWORK | ORDER_HOST.

#[export] Instance Order_eq_dec : EqDecision Order.
Proof. solve_decision. Defined.

Record ByteBuffer := mkByteBuffer {
  bytes_ : list Z;
  size_ : Z;
  start_ : Z;
  end_ : Z;
  version_ : Z;
  byte_order_ : Order
}.

Record ReadPosition := mkReadPosition { rp_start : Z; rp_version : Z }.

Definition DEFAULT_SIZE : Z := 4096.

Section ByteBufferOps.
Context `{Platform}.

Definition Construct (bytes : option (list Z)) (len : Z) (byte_order : Order) : ByteBuffer :=
  let block := fresh_block len in
  match bytes with
  | Some bs => mkByteBuffer (splice 0 (ztake len bs) block) len 0 len 0 byte_order
  | None => mkByteBuffer block len 0 0 0 byte_order
  end.

(** [ByteBuffer()] and [ByteBuffer(byte_order)]. *)
Definition ByteBuffer_new (byte_order : Order) : ByteBuffer :=
  Construct None DEFAULT_SIZE byte_order.
(** [ByteBuffer(bytes, len)] and [ByteBuffer(bytes, len, byte_order)]. *)
Definition ByteBuffer_of (bytes : list Z) (byte_order : Order) : ByteBuffer :=
  Construct (Some bytes) (zlen bytes) byte_order.

Definition Length (b : ByteBuffer) : Z := end_ b - start_ b.
Definition Capacity (b : ByteBuffer) : Z := size_ b - start_ b.
(** The block that [Data()] points to, up to [Length()]. *)
Definition Data (b : ByteBuffer) : list Z := ztake (Length b) (zdrop (start_ b) (bytes_ b)).

Definition set_start (b : ByteBuffer) (s : Z) : ByteBuffer :=
  mkByteBuffer (bytes_ b) (size_ b) s (end_ b) (version_ b) (byte_order_ b).

Definition ReadBytes (b : ByteBuffer) (len : Z) : option (list Z * ByteBuffer) :=
  if Length b <? len then None
  else Some (ztake len (zdrop (start_ b) (bytes_ b)), set_start b (start_ b + len)).

(** [ReadString] appends to the caller's string; the appended bytes are returned. *)
Definition ReadString (b : ByteBuffer) (len : Z) : option (list Z * ByteBuffer) :=
  if Length b <? len then None
  else Some (ztake len (zdrop (start_ b) (bytes_ b)), set_start b (start_ b + len)).

Definition is_network (b : ByteBuffer) : bool := bool_decide (byte_order_ b = ORDER_NETWORK).

Definition ReadUInt8 (b : ByteBuffer) : option (Z * ByteBuffer) :=
  '(m, b) ← ReadBytes b 1; Some (host_load m, b).

Definition ReadUInt16 (b : ByteBuffer) : option (Z * ByteBuffer) :=
  '(m, b') ← ReadBytes b 2;
  let v := host_load m in
  Some (if is_network b then NetworkToHost16 v else v, b').

(** Three bytes are read into a zeroed 32-bit variable, one byte in when the
    value is to be most significant byte first. *)
Definition ReadUInt24 (b : ByteBuffer) : option (Z * ByteBuffer) :=
  let v := host_store 4 0 in
  let read_into := if is_network b || IsHostBigEndian then 1 else 0 in
  '(m, b') ← ReadBytes b 3;
  let v := host_load (splice read_into m v) in
  Some (if is_network b then NetworkToHost32 v else v, b').

Definition ReadUInt32 (b : ByteBuffer) : option (Z * ByteBuffer) :=
  '(m, b') ← ReadBytes b 4;
  let v := host_load m in
  Some (if is_network b then NetworkToHost32 v else v, b').

Definition ReadUInt64 (b : ByteBuffer) : option (Z * ByteBuffer) :=
  '(m, b') ← ReadBytes b 8;
  let v := host_load m in
  Some (if is_network b then NetworkToHost64 v else v, b').

Definition Resize (b : ByteBuffer) (size : Z) : ByteBuffer :=
  let len := Z.min (end_ b - start_ b) size in
  let data := ztake len (zdrop (start_ b) (bytes_ b)) in
  if size <=? size_ b then
    mkByteBuffer (splice 0 data (bytes_ b)) (size_ b) 0 len (version_ b + 1) (byte_order_ b)
  else
    let size' := Z.max size (3 * size_ b / 2) in
    mkByteBuffer (splice 0 data (fresh_block size')) size' 0 len (version_ b + 1) (byte_order_ b).

(** Returns the offset of the reserved bytes. *)
Definition ReserveWriteBuffer (b : ByteBuffer) (len : Z) : Z * ByteBuffer :=
  let b := if Capacity b <? Length b + len then Resize b (Length b + len) else b in
  (end_ b,
   mkByteBuffer (bytes_ b) (size_ b) (start_ b) (end_ b + len) (version_ b) (byte_order_ b)).

Definition WriteBytes (b : ByteBuffer) (val : list Z) : ByteBuffer :=
  let '(p, b) := ReserveWriteBuffer b (zlen val) in
  mkByteBuffer (splice p val (bytes_ b)) (size_ b) (start_ b) (end_ b) (version_ b)
    (byte_order_ b).

Definition WriteString (b : ByteBuffer) (val : list Z) : ByteBuffer := WriteBytes b val.

Definition WriteUInt8 (b : ByteBuffer) (val : Z) : ByteBuffer :=
  WriteBytes b (host_store 1 val).

Definition WriteUInt16 (b : ByteBuffer) (val : Z) : ByteBuffer :=
  let v := if is_network b then HostToNetwork16 val else val in
  WriteBytes b (host_store 2 v).

Definition WriteUInt24 (b : ByteBuffer) (val : Z) : ByteBuffer :=
  let v := if is_network b then HostToNetwork32 val else val in
  let start := if is_network b || IsHostBigEndian then 1 else 0 in
  WriteBytes b (ztake 3 (zdrop start (host_store 4 v))).

Definition WriteUInt32 (b : ByteBuffer) (val : Z) : ByteBuffer :=
  let v := if is_network b then HostToNetwork32 val else val in
  WriteBytes b (host_store 4 v).

Definition WriteUInt64 (b : ByteBuffer) (val : Z) : ByteBuffer :=
  let v := if is_network b then HostToNetwork64 val else val in
  WriteBytes b (host_store 8 v).

Definition Consume (b : ByteBuffer) (size : Z) : option ByteBuffer :=
  if Length b <? size then None else Some (set_start b (start_ b + size)).

Definition GetReadPosition (b : ByteBuffer) : ReadPosition :=
  mkReadPosition (start_ b) (version_ b).

Definition SetReadPosition (b : ByteBuffer) (position : ReadPosition) : option ByteBuffer :=
  if rp_version position =? version_ b then Some (set_start b (rp_start position)) else None.

Definition Clear (b : ByteBuffer) : ByteBuffer :=
  mkByteBuffer (zrepeat 0 (size_ b)) (size_ b) 0 0 (version_ b + 1) (byte_order_ b).

(** ** Representation invariant *)

Definition bb_ok (b : ByteBuffer) : Prop :=
  zlen (bytes_ b) = size_ b ∧ 0 ≤ start_ b ≤ end_ b ∧ end_ b ≤ size_ b ∧ bytes_ok (bytes_ b).

Lemma Data_length b : bb_ok b → zlen (Data b) = Length b.
Proof. intros (? & ? & ? & ?). unfold Data, Length. zlia. Qed.
Lemma Data_ok b : bb_ok b → bytes_ok (Data b).
Proof. intros (? & ? & ? & ?). unfold Data. auto with words. Qed.

Lemma Construct_Some bs len o :
  0 ≤ len ≤ zlen bs → bytes_ok bs →
  bb_ok (Construct (Some bs) len o) ∧ Data (Construct (Some bs) len o) = ztake len bs.
Proof.
  intros Hl Hb. unfold Construct, Data, Length, bb_ok; simpl.
  rewrite splice_whole by zlia. rewrite zdrop_neg, Z.sub_0_r, ztake_ztake, Z.min_id by lia.
  repeat split; auto with words; zlia.
Qed.
Lemma ByteBuffer_of_spec bs o :
  bytes_ok bs →
  bb_ok (ByteBuffer_of bs o) ∧ Data (ByteBuffer_of bs o) = bs ∧
  byte_order_ (ByteBuffer_of bs o) = o.
Proof.
  intros Hb. destruct (Construct_Some bs (zlen bs) o) as [H1 H2]; [zlia|done|].
  unfold ByteBuffer_of. rewrite H2, ztake_all by lia. done.
Qed.
Lemma ByteBuffer_new_spec o :
  bb_ok (ByteBuffer_new o) ∧ Data (ByteBuffer_new o) = [] ∧ byte_order_ (ByteBuffer_new o) = o.
Proof.
  unfold ByteBuffer_new, Construct, bb_ok, Data, Length, DEFAULT_SIZE; simpl.
  repeat split; auto with words; zlia.
Qed.

(** ** The operations on a buffer that satisfies the invariant

    Each is described by its effect on the unread bytes [Data]. *)

Lemma ReadBytes_spec b n : bb_ok b → 0 ≤ n →
  match ReadBytes b n with
  | None => zlen (Data b) < n
  | Some (bs, b') => n ≤ zlen (Data b) ∧ bs = ztake n (Data b) ∧ Data b' = zdrop n (Data b) ∧
      bb_ok b' ∧ byte_order_ b' = byte_order_ b ∧ version_ b' = version_ b
  end.
Proof.
  intros Hb Hn. rewrite Data_length by done. unfold ReadBytes.
  destruct Hb as (Hl & Hs & He & Hok).
  destruct (Z.ltb_spec (Length b) n); [lia|]. unfold Data, Length in *; simpl.
  repeat split; simpl; auto; try lia.
  - rewrite ztake_ztake. f_equal. lia.
  - rewrite zdrop_ztake, zdrop_zdrop by lia. f_equal. lia.
Qed.

Lemma ReadString_ReadBytes b n : ReadString b n = ReadBytes b n.
Proof. done. Qed.

(** The two directions in which parsers use [ReadBytes]. *)
Lemma ReadBytes_app b bs rest :
  bb_ok b → Data b = bs ++ rest →
  ∃ b', ReadBytes b (zlen bs) = Some (bs, b') ∧ Data b' = rest ∧ bb_ok b' ∧
    byte_order_ b' = byte_order_ b.
Proof.
  intros Hb HD. pose proof (ReadBytes_spec b (zlen bs) Hb (zlen_nonneg _)) as Hs.
  rewrite HD in Hs. destruct (ReadBytes b (zlen bs)) as [[x b']|]; [|zlia].
  destruct Hs as (_ & -> & HD' & ? & ? & ?). rewrite ztake_app_exact in * by done.
  rewrite zdrop_app_exact in HD' by done. eauto.
Qed.

Lemma Consume_spec b n : bb_ok b → 0 ≤ n →
  match Consume b n with
  | None => zlen (Data b) < n
  | Some b' => n ≤ zlen (Data b) ∧ Data b' = zdrop n (Data b) ∧
      bb_ok b' ∧ byte_order_ b' = byte_order_ b ∧ version_ b' = version_ b
  end.
Proof.
  intros Hb Hn. pose proof (ReadBytes_spec b n Hb Hn) as Hr.
  unfold ReadBytes, Consume in *. destruct (Length b <? n); [done|]. by destruct Hr as (? & _ & ?).
Qed.

Lemma Resize_spec b n : bb_ok b → 0 ≤ n →
  Data (Resize b n) = ztake n (Data b) ∧ bb_ok (Resize b n) ∧ n ≤ size_ (Resize b n) ∧
  start_ (Resize b n) = 0 ∧ byte_order_ (Resize b n) = byte_order_ b ∧
  version_ (Resize b n) = version_ b + 1.
Proof.
  intros (Hl & Hs & He & Hok) Hn. unfold Resize.
  set (len := Z.min (end_ b - start_ b) n).
  set (data := ztake len (zdrop (start_ b) (bytes_ b))).
  assert (Hlen : 0 ≤ len ≤ n) by (unfold len; lia).
  assert (Hd : zlen data = len) by (unfold data, len; zlia).
  assert (Hdata : ztake n (Data b) = data).
  { unfold Data, data, Length, len. rewrite ztake_ztake. f_equal; lia. }
  assert (Hokd : bytes_ok data) by (unfold data; auto with words).
  assert (Hgen : ∀ block sz v o, zlen block = sz → len ≤ sz → bytes_ok block →
    Data (mkByteBuffer (splice 0 data block) sz 0 len v o) = data ∧
    bb_ok (mkByteBuffer (splice 0 data block) sz 0 len v o)).
  { intros block sz v o Hz Hle Hbk. unfold Data, Length, bb_ok; simpl.
    rewrite zdrop_neg by lia. split.
    - unfold splice. rewrite (ztake_neg 0) by lia. simpl.
      apply ztake_app_exact. lia.
    - rewrite zlen_splice by lia. repeat split; auto with words; lia. }
  rewrite Hdata. destruct (Z.leb_spec n (size_ b)); simpl.
  - destruct (Hgen (bytes_ b) (size_ b) (version_ b + 1) (byte_order_ b)); auto;
      [unfold len; lia|]. split_and!; auto; lia.
  - destruct (Hgen (fresh_block (Z.max n (3 * size_ b / 2))) (Z.max n (3 * size_ b / 2))
      (version_ b + 1) (byte_order_ b)); auto with words; [zlia|lia|].
    split_and!; auto; lia.
Qed.

Lemma ReserveWriteBuffer_room b n : bb_ok b → 0 ≤ n →
  let b1 := if Capacity b <? Length b + n then Resize b (Length b + n) else b in
  bb_ok b1 ∧ Data b1 = Data b ∧ end_ b1 + n ≤ size_ b1 ∧ byte_order_ b1 = byte_order_ b.
Proof.
  intros Hb Hn. simpl. pose proof (Data_length b Hb) as HL. unfold Capacity.
  pose proof (zlen_nonneg (Data b)).
  destruct (Z.ltb_spec (size_ b - start_ b) (Length b + n)).
  - destruct (Resize_spec b (Length b + n)) as (HD & Hok1 & Hsz & Hst & Ho & _); [done|lia|].
    rewrite ztake_all in HD by lia. split_and!; auto.
    pose proof (Data_length _ Hok1) as HL1. rewrite HD in HL1. unfold Length in *. lia.
  - split_and!; auto. unfold Length in *. lia.
Qed.

Lemma WriteBytes_spec b bs : bb_ok b → bytes_ok bs →
  Data (WriteBytes b bs) = Data b ++ bs ∧ bb_ok (WriteBytes b bs) ∧
  byte_order_ (WriteBytes b bs) = byte_order_ b.
Proof.
  intros Hb Hbs. unfold WriteBytes, ReserveWriteBuffer.
  destruct (ReserveWriteBuffer_room b (zlen bs)) as (Hb1 & HD & Hroom & Ho);
    [done|apply zlen_nonneg|]. simpl in *.
  set (b1 := if Capacity b <? Length b + zlen bs then Resize b (Length b + zlen bs) else b) in *.
  clearbody b1. rewrite <- HD, <- Ho. clear Ho HD Hb b.
  destruct Hb1 as (Hl & Hs & He & Hok). pose proof (zlen_nonneg bs).
  unfold bb_ok, Data, Length; simpl. rewrite zlen_splice by lia.
  repeat split; auto with words; try lia.
  unfold splice. rewrite zdrop_app_l by zlia.
  rewrite app_assoc, ztake_app_exact by zlia.
  rewrite zdrop_ztake by lia. done.
Qed.

Lemma Clear_spec b : bb_ok b → Data (Clear b) = [] ∧ bb_ok (Clear b) ∧
  byte_order_ (Clear b) = byte_order_ b ∧ version_ (Clear b) = version_ b + 1.
Proof.
  intros (Hl & Hs & He & Hok). unfold Clear, Data, Length, bb_ok; simpl.
  repeat split; auto; try zlia.
  - apply ztake_neg; lia.
  - apply Forall_replicate. done.
Qed.

(** ** Integers on the wire *)

(** The [n] bytes an integer takes in the buffer's byte order. *)
Definition wire (o : Order) (n : nat) (v : Z) : list Z :=
  if bool_decide (o = ORDER_NETWORK) then be_encode n v else host_store n v.
Definition unwire (o : Order) (l : list Z) : Z :=
  if bool_decide (o = ORDER_NETWORK) then be_decode l else host_load l.

Lemma wire_ok o n v : bytes_ok (wire o n v).
Proof. unfold wire. case_bool_decide; auto with words. Qed.
Lemma zlen_wire o n v : zlen (wire o n v) = Z.of_nat n.
Proof. unfold wire. case_bool_decide; autorewrite with zlen; done. Qed.
Lemma unwire_wire o n v : 0 ≤ v < 256 ^ Z.of_nat n → unwire o (wire o n v) = v.
Proof. intros. unfold unwire, wire. case_bool_decide; auto using be_decode_encode, host_load_store. Qed.
Lemma wire_unwire o n l : bytes_ok l → zlen l = Z.of_nat n → wire o n (unwire o l) = l.
Proof.
  intros Hl Hn. unfold unwire, wire. case_bool_decide; [|by apply host_store_load].
  replace n with (length l) by (unfold zlen in Hn; lia). by apply be_encode_decode.
Qed.
Lemma host_load_range l : bytes_ok l → 0 ≤ host_load l < 256 ^ zlen l.
Proof. unfold host_load. destruct host_big_endian; auto using be_decode_range, le_decode_range. Qed.
Lemma unwire_range o l : bytes_ok l → 0 ≤ unwire o l < 256 ^ zlen l.
Proof. unfold unwire. case_bool_decide; auto using be_decode_range, host_load_range. Qed.

Lemma host_store_1 v : host_store 1 v = [v mod 256].
Proof. unfold host_store. by destruct host_big_endian. Qed.

Lemma WriteUInt8_wire b v : WriteUInt8 b v = WriteBytes b (wire (byte_order_ b) 1 v).
Proof. unfold WriteUInt8, wire. rewrite host_store_1. by case_bool_decide. Qed.
Lemma WriteUInt16_wire b v : WriteUInt16 b v = WriteBytes b (wire (byte_order_ b) 2 v).
Proof. unfold WriteUInt16, wire, is_network. case_bool_decide; by rewrite ?HostToNetwork16_store. Qed.
Lemma WriteUInt32_wire b v : WriteUInt32 b v = WriteBytes b (wire (byte_order_ b) 4 v).
Proof. unfold WriteUInt32, wire, is_network. case_bool_decide; by rewrite ?HostToNetwork32_store. Qed.
Lemma WriteUInt64_wire b v : WriteUInt64 b v = WriteBytes b (wire (byte_order_ b) 8 v).
Proof. unfold WriteUInt64, wire, is_network. case_bool_decide; by rewrite ?HostToNetwork64_store. Qed.
Lemma WriteUInt24_wire b v : WriteUInt24 b v = WriteBytes b (wire (byte_order_ b) 3 v).
Proof.
  unfold WriteUInt24, wire, is_network. f_equal. rewrite IsHostBigEndian_spec.
  case_bool_decide; simpl; [by rewrite HostToNetwork32_store|].
  unfold host_store. by destruct host_big_endian.
Qed.

(** Appending to a buffer: the invariant, the byte order and the data. *)
Definition appends (b : ByteBuffer) (bs : list Z) (b' : ByteBuffer) : Prop :=
  Data b' = Data b ++ bs ∧ bb_ok b' ∧ byte_order_ b' = byte_order_ b.

Lemma WriteBytes_appends b bs : bb_ok b → bytes_ok bs → appends b bs (WriteBytes b bs).
Proof. apply WriteBytes_spec. Qed.
Lemma WriteString_appends b bs : bb_ok b → bytes_ok bs → appends b bs (WriteString b bs).
Proof. apply WriteBytes_spec. Qed.
Lemma WriteUInt8_appends b v : bb_ok b → appends b (wire (byte_order_ b) 1 v) (WriteUInt8 b v).
Proof. rewrite WriteUInt8_wire. auto using WriteBytes_appends, wire_ok. Qed.
Lemma WriteUInt16_appends b v : bb_ok b → appends b (wire (byte_order_ b) 2 v) (WriteUInt16 b v).
Proof. rewrite WriteUInt16_wire. auto using WriteBytes_appends, wire_ok. Qed.
Lemma WriteUInt24_appends b v : bb_ok b → appends b (wire (byte_order_ b) 3 v) (WriteUInt24 b v).
Proof. rewrite WriteUInt24_wire. auto using WriteBytes_appends, wire_ok. Qed.
Lemma WriteUInt32_appends b v : bb_ok b → appends b (wire (byte_order_ b) 4 v) (WriteUInt32 b v).
Proof. rewrite WriteUInt32_wire. auto using WriteBytes_appends, wire_ok. Qed.
Lemma WriteUInt64_appends b v : bb_ok b → appends b (wire (byte_order_ b) 8 v) (WriteUInt64 b v).
Proof. rewrite WriteUInt64_wire. auto using WriteBytes_appends, wire_ok. Qed.
Lemma appends_trans b x b' y b'' : appends b x b' → appends b' y b'' → appends b (x ++ y) b''.
Proof.
  intros (HD & _ & Ho) (HD' & Hb & Ho'). unfold appends. split_and!; [|done|congruence].
  by rewrite HD', HD, app_assoc.
Qed.
Lemma appends_nil b : bb_ok b → appends b [] b.
Proof. intros. split_and!; auto. by rewrite app_nil_r. Qed.

(** The readers return what [unwire] decodes. *)
Definition read_int (n : nat) (b : ByteBuffer) : option (Z * ByteBuffer) :=
  '(m, b') ← ReadBytes b (Z.of_nat n); Some (unwire (byte_order_ b) m, b').

Lemma ReadBytes_ok b n m b' : bb_ok b → 0 ≤ n → ReadBytes b n = Some (m, b') →
  bytes_ok m ∧ zlen m = n.
Proof.
  intros Hb Hn Hr. pose proof (ReadBytes_spec b n Hb Hn) as Hs. rewrite Hr in Hs.
  destruct Hs as (? & -> & _). pose proof (Data_ok b Hb). split; [auto with words|zlia].
Qed.

Ltac read_int_tac H :=
  unfold read_int, unwire, is_network;
  match goal with |- context [ReadBytes ?b ?n] =>
    destruct (ReadBytes b n) as [[m b']|] eqn:Hr; [simpl|done];
    destruct (ReadBytes_ok b n m b' H ltac:(lia) Hr) end;
  case_bool_decide; [|done].

Lemma ReadUInt8_int b : bb_ok b → ReadUInt8 b = read_int 1 b.
Proof.
  intros Hb. unfold ReadUInt8. change 1 with (Z.of_nat 1). read_int_tac Hb.
  explode_list m. unfold host_load, be_decode. by destruct host_big_endian.
Qed.
Lemma ReadUInt16_int b : bb_ok b → ReadUInt16 b = read_int 2 b.
Proof.
  intros Hb. unfold ReadUInt16. change 2 with (Z.of_nat 2). read_int_tac Hb.
  by rewrite NetworkToHost16_load.
Qed.
Lemma ReadUInt32_int b : bb_ok b → ReadUInt32 b = read_int 4 b.
Proof.
  intros Hb. unfold ReadUInt32. change 4 with (Z.of_nat 4). read_int_tac Hb.
  by rewrite NetworkToHost32_load.
Qed.
Lemma ReadUInt64_int b : bb_ok b → ReadUInt64 b = read_int 8 b.
Proof.
  intros Hb. unfold ReadUInt64. change 8 with (Z.of_nat 8). read_int_tac Hb.
  by rewrite NetworkToHost64_load.
Qed.
Lemma ReadUInt24_int b : bb_ok b → ReadUInt24 b = read_int 3 b.
Proof.
  intros Hb. unfold ReadUInt24, read_int, unwire, is_network. rewrite IsHostBigEndian_spec.
  change (Z.of_nat 3) with 3. destruct (ReadBytes b 3) as [[m b']|] eqn:Hr; [simpl|done].
  destruct (ReadBytes_ok b 3 m b' Hb ltac:(lia) Hr) as [Hm Hl]. do 2 f_equal.
  assert (∃ x y z, m = [x; y; z]) as (x & y & z & ->) by (explode_list m; eauto).
  assert (Hz : host_store 4 0 = [0; 0; 0; 0]).
  { unfold host_store. by destruct host_big_endian. }
  rewrite Hz. change (splice 1 [x; y; z] [0; 0; 0; 0]) with [0; x; y; z] in *.
  case_bool_decide; simpl.
  - change (splice 1 [x; y; z] [0; 0; 0; 0]) with [0; x; y; z].
    rewrite NetworkToHost32_load; [|by constructor|done].
    unfold be_decode; simpl. lia.
  - unfold host_load, be_decode. destruct host_big_endian; simpl; lia.
Qed.

Lemma read_int_app n b v rest :
  bb_ok b → 0 ≤ v < 256 ^ Z.of_nat n → Data b = wire (byte_order_ b) n v ++ rest →
  ∃ b', read_int n b = Some (v, b') ∧ Data b' = rest ∧ bb_ok b' ∧
    byte_order_ b' = byte_order_ b.
Proof.
  intros Hb Hv HD. destruct (ReadBytes_app b _ _ Hb HD) as (b' & Hr & ? & ? & ?).
  rewrite zlen_wire in Hr. exists b'. unfold read_int. rewrite Hr. simpl.
  rewrite unwire_wire by done. eauto.
Qed.

Lemma read_int_inv n b v b' : bb_ok b → read_int n b = Some (v, b') →
  0 ≤ v < 256 ^ Z.of_nat n ∧ Data b = wire (byte_order_ b) n v ++ Data b' ∧ bb_ok b' ∧
  byte_order_ b' = byte_order_ b.
Proof.
  intros Hb Hr. unfold read_int in Hr.
  pose proof (ReadBytes_spec b (Z.of_nat n) Hb ltac:(lia)) as Hs.
  destruct (ReadBytes b (Z.of_nat n)) as [[m b1]|] eqn:Hrb; [|done].
  destruct (ReadBytes_ok b (Z.of_nat n) m b1 Hb ltac:(lia) Hrb) as [Hm Hl].
  simpl in Hr. injection Hr as <- <-. destruct Hs as (_ & Hm' & HD & ? & ? & _).
  pose proof (unwire_range (byte_order_ b) m Hm) as Hv. rewrite Hl in Hv.
  rewrite wire_unwire by done. split_and!; [lia|lia| |done|done].
  rewrite HD, Hm'. symmetry. apply ztake_zdrop.
Qed.

(** ** Refinement to a queue of bytes *)

(** Calls as data, so that whole call sequences can be run. *)
Inductive bb_op :=
  | OpRead (n : Z)
  | OpConsume (n : Z)
  | OpWrite (bs : list Z)
  | OpResize (n : Z)
  | OpClear.

Definition op_ok (op : bb_op) : Prop :=
  match op with
  | OpRead n | OpConsume n | OpResize n => 0 ≤ n
  | OpWrite bs => bytes_ok bs
  | OpClear => True
  end.

(** A call's result is [None] when the method returns false. *)
Definition bb_step (op : bb_op) (b : ByteBuffer) : ByteBuffer * option (list Z) :=
  match op with
  | OpRead n => match ReadBytes b n with Some (bs, b') => (b', Some bs) | None => (b, None) end
  | OpConsume n => match Consume b n with Some b' => (b', Some []) | None => (b, None) end
  | OpWrite bs => (WriteBytes b bs, Some [])
  | OpResize n => (Resize b n, Some [])
  | OpClear => (Clear b, Some [])
  end.

(** What the class promises: a queue of bytes. *)
Definition queue_step (op : bb_op) (q : list Z) : list Z * option (list Z) :=
  match op with
  | OpRead n => if zlen q <? n then (q, None) else (zdrop n q, Some (ztake n q))
  | OpConsume n => if zlen q <? n then (q, None) else (zdrop n q, Some [])
  | OpWrite bs => (q ++ bs, Some [])
  | OpResize n => (ztake n q, Some [])
  | OpClear => ([], Some [])
  end.

Fixpoint run {S} (step : bb_op → S → S * option (list Z)) (ops : list bb_op) (s : S)
    : S * list (option (list Z)) :=
  match ops with
  | [] => (s, [])
  | op :: ops' =>
      let '(s', out) := step op s in
      let '(s'', outs) := run step ops' s' in (s'', out :: outs)
  end.

Lemma bb_step_refines op b : op_ok op → bb_ok b →
  queue_step op (Data b) = (Data (bb_step op b).1, (bb_step op b).2) ∧ bb_ok (bb_step op b).1.
Proof.
  intros Hop Hb. destruct op as [n|n|bs|n|]; simpl in *.
  - pose proof (ReadBytes_spec b n Hb Hop) as Hs.
    destruct (ReadBytes b n) as [[bs b']|]; simpl; bdestruct; [|done].
    by destruct Hs as (? & -> & -> & ? & _).
  - pose proof (Consume_spec b n Hb Hop) as Hs.
    destruct (Consume b n) as [b'|]; simpl; bdestruct; [|done].
    by destruct Hs as (? & -> & ? & _).
  - by destruct (WriteBytes_spec b bs Hb Hop) as (-> & ? & _).
  - by destruct (Resize_spec b n Hb Hop) as (-> & ? & _).
  - by destruct (Clear_spec b Hb) as (-> & ? & _).
Qed.

(** C30. A [ByteBuffer] is a queue of bytes: for every sequence of reads,
    consumes, writes, resizes and clears, with the buffer growing and moving its
    data as it does, each call returns what the queue returns, the unread data
    is the queue, and the representation invariant (the unread range lies in the
    allocated block) holds throughout. *)
Theorem ByteBuffer_refines_queue ops b :
  Forall op_ok ops → bb_ok b →
  run queue_step ops (Data b) = (Data (run bb_step ops b).1, (run bb_step ops b).2) ∧
  bb_ok (run bb_step ops b).1.
Proof.
  intros Hops. revert b. induction Hops as [|op ops Hop Hops IH]; intros b Hb; simpl; [done|].
  destruct (bb_step_refines op b Hop Hb) as [Hq Hb']. rewrite Hq.
  destruct (bb_step op b) as [b' out]; simpl in *.
  destruct (IH b' Hb') as [IHq IHb]. rewrite IHq. by destruct (run bb_step ops b').
Qed.

(** ** Remembered read positions *)

Definition op_written (op : bb_op) : list Z :=
  match op with OpWrite bs => bs | _ => [] end.

(** What is still known of the data present at [b0] when [w] has been written
    since: the block was reorganised, or it still holds that data at [b0]'s
    start. *)
Definition since (b0 : ByteBuffer) (w : list Z) (b : ByteBuffer) : Prop :=
  version_ b0 < version_ b ∨
  version_ b = version_ b0 ∧ start_ b0 ≤ start_ b ∧
  ztake (end_ b - start_ b0) (zdrop (start_ b0) (bytes_ b)) = Data b0 ++ w.

Lemma WriteBytes_since b0 w b bs : bb_ok b0 → bb_ok b → bytes_ok bs →
  since b0 w b → since b0 (w ++ bs) (WriteBytes b bs).
Proof.
  intros Hb0 Hb Hbs Hs. unfold WriteBytes, ReserveWriteBuffer, Capacity.
  pose proof (Data_length b Hb). pose proof (zlen_nonneg (Data b)). pose proof (zlen_nonneg bs).
  destruct (Z.ltb_spec (size_ b - start_ b) (Length b + zlen bs)).
  - left. simpl. destruct (Resize_spec b (Length b + zlen bs)) as (_ & _ & _ & _ & _ & ->); [done|lia|].
    unfold since in Hs. lia.
  - destruct Hs as [Hs|(Hv & Hst & HD)]; [left; simpl; lia|right]. simpl. split_and!; auto.
    destruct Hb as (Hl & Hst' & He & Hok), Hb0 as (_ & Hst0 & _). unfold Length in *.
    rewrite app_assoc, <- HD. unfold splice.
    rewrite zdrop_app_l by zlia. rewrite app_assoc, ztake_app_exact by zlia.
    by rewrite zdrop_ztake by lia.
Qed.

Lemma bb_step_since b0 w op b : op_ok op → bb_ok b0 → bb_ok b →
  since b0 w b → since b0 (w ++ op_written op) (bb_step op b).1.
Proof.
  intros Hop Hb0 Hb Hs. destruct op as [n|n|bs|n|]; simpl in *; rewrite ?app_nil_r.
  - unfold ReadBytes. destruct (Z.ltb_spec (Length b) n); simpl; [done|].
    unfold since in *; simpl. lia || (destruct Hs as [|(? & ? & ?)]; [by left|right]; split_and!; auto; lia).
  - unfold Consume. destruct (Z.ltb_spec (Length b) n); simpl; [done|].
    unfold since in *; simpl. destruct Hs as [|(? & ? & ?)]; [by left|right]; split_and!; auto; lia.
  - by apply WriteBytes_since.
  - left. destruct (Resize_spec b n Hb Hop) as (_ & _ & _ & _ & _ & ->). unfold since in Hs. lia.
  - left. simpl. unfold since in Hs. lia.
Qed.

Lemma run_since b0 ops b w : Forall op_ok ops → bb_ok b0 → bb_ok b → since b0 w b →
  since b0 (w ++ concat (op_written <$> ops)) (run bb_step ops b).1.
Proof.
  intros Hops Hb0. revert b w. induction Hops as [|op ops Hop Hops IH]; intros b w Hb Hs; simpl.
  { by rewrite app_nil_r. }
  pose proof (bb_step_since b0 w op b Hop Hb0 Hb Hs) as Hs'.
  destruct (bb_step_refines op b Hop Hb) as [_ Hb'].
  destruct (bb_step op b) as [b' out]; simpl in *.
  specialize (IH b' _ Hb' Hs'). rewrite <- app_assoc in IH. by destruct (run bb_step ops b').
Qed.

(** A remembered read position is either refused or exact: after any calls
    on the buffer, [SetReadPosition] with a position taken before them either
    fails, and then some call reorganised the block (its version advanced), or
    it restores precisely the data that was unread then, followed by everything
    written since. *)
Theorem SetReadPosition_exact ops b :
  Forall op_ok ops → bb_ok b →
  match SetReadPosition (run bb_step ops b).1 (GetReadPosition b) with
  | Some b' => Data b' = Data b ++ concat (op_written <$> ops)
  | None => version_ b < version_ (run bb_step ops b).1
  end.
Proof.
  intros Hops Hb. assert (H0 : since b [] b) by (right; rewrite app_nil_r; done).
  pose proof (run_since b ops b [] Hops Hb Hb H0) as Hs. simpl in Hs.
  unfold SetReadPosition; simpl. unfold since in Hs.
  destruct (Z.eqb_spec (version_ b) (version_ (run bb_step ops b).1)); [|lia].
  destruct Hs as [|(_ & _ & <-)]; [lia|]. done.
Qed.
End ByteBufferOps.

(** Every integer written is read back: in either byte order and on either
    host, a buffer into which integers of the five widths were written yields
    them again in order and is left with what it held before. *)
Theorem integers_roundtrip `{Platform} o v8 v16 v24 v32 v64 :
  is_u8 v8 → is_u16 v16 → 0 ≤ v24 < 2 ^ 24 → is_u32 v32 → is_u64 v64 →
  ∃ b1 b2 b3 b4 b5,
    let b := WriteUInt64 (WriteUInt32 (WriteUInt24 (WriteUInt16 (WriteUInt8
               (ByteBuffer_new o) v8) v16) v24) v32) v64 in
    ReadUInt8 b = Some (v8, b1) ∧ ReadUInt16 b1 = Some (v16, b2) ∧
    ReadUInt24 b2 = Some (v24, b3) ∧ ReadUInt32 b3 = Some (v32, b4) ∧
    ReadUInt64 b4 = Some (v64, b5) ∧ Length b5 = 0.
Proof.
  intros H8 H16 H24 H32 H64. destruct (ByteBuffer_new_spec o) as (Hn & HD & Ho).
  set (b0 := ByteBuffer_new o) in *.
  pose proof (WriteUInt8_appends b0 v8 Hn) as (D1 & K1 & O1).
  pose proof (WriteUInt16_appends _ v16 K1) as (D2 & K2 & O2).
  pose proof (WriteUInt24_appends _ v24 K2) as (D3 & K3 & O3).
  pose proof (WriteUInt32_appends _ v32 K3) as (D4 & K4 & O4).
  pose proof (WriteUInt64_appends _ v64 K4) as (D5 & K5 & O5).
  rewrite D4, D3, D2, D1, HD, O4, O3, O2, O1, Ho in D5. rewrite O4, O3, O2, O1, Ho in O5.
  rewrite <- !app_assoc in D5. simpl in D5. cbv zeta.
  set (b := WriteUInt64 _ v64) in *. clearbody b. clear D1 D2 D3 D4 K1 K2 K3 K4 O1 O2 O3 O4.
  rewrite <- (app_nil_r (wire o 8 v64)) in D5.
  destruct (read_int_app 1 b v8 _ K5 H8 ltac:(rewrite O5; exact D5)) as (b1 & R1 & E1 & L1 & P1).
  destruct (read_int_app 2 b1 v16 _ L1 H16 ltac:(rewrite P1, O5; exact E1)) as (b2 & R2 & E2 & L2 & P2).
  destruct (read_int_app 3 b2 v24 _ L2 H24 ltac:(rewrite P2, P1, O5; exact E2)) as (b3 & R3 & E3 & L3 & P3).
  destruct (read_int_app 4 b3 v32 _ L3 H32 ltac:(rewrite P3, P2, P1, O5; exact E3)) as (b4 & R4 & E4 & L4 & P4).
  destruct (read_int_app 8 b4 v64 _ L4 H64 ltac:(rewrite P4, P3, P2, P1, O5; exact E4)) as (b5 & R5 & E5 & L5 & P5).
  exists b1, b2, b3, b4, b5.
  rewrite ReadUInt8_int, ReadUInt16_int, ReadUInt24_int, ReadUInt32_int, ReadUInt64_int by done.
  split_and!; auto. by rewrite <- Data_length, E5 by done.
Qed.

Definition sample_ops : list bb_op :=
  [OpWrite [1; 2; 3]; OpRead 2; OpWrite (zrepeat 7 50); OpRead 90; OpConsume 1; OpResize 2].

Lemma ByteBuffer_refines_queue_witness :
  let b := @ByteBuffer_of zero_platform [9; 8] ORDER_NETWORK in
  (run (@bb_step zero_platform) sample_ops b).2 =
    [Some []; Some [9; 8]; Some []; None; Some []; Some []] ∧
  @Data (run (@bb_step zero_platform) sample_ops b).1 = [2; 3].
Proof.
  destruct (@ByteBuffer_refines_queue zero_platform sample_ops
    (@ByteBuffer_of zero_platform [9; 8] ORDER_NETWORK)) as [Hq _].
  - repeat constructor; simpl; lia.
  - apply ByteBuffer_of_spec. repeat constructor; lia.
  - split; [vm_compute; reflexivity|]. apply (f_equal fst) in Hq. simpl in Hq.
    vm_compute. reflexivity.
Defined.

Lemma SetReadPosition_exact_witness :
  let b := @ByteBuffer_of zero_platform [9; 8; 7; 6] ORDER_NETWORK in
  match SetReadPosition (run (@bb_step zero_platform) [OpRead 3] b).1 (GetReadPosition b) with
  | Some b' => Data b' = Data b ++ []
  | None => False
  end.
Proof.
  pose proof (@SetReadPosition_exact zero_platform [OpRead 3]
    (@ByteBuffer_of zero_platform [9; 8; 7; 6] ORDER_NETWORK)) as Hp.
  apply Hp; [repeat constructor; simpl; lia|]. apply ByteBuffer_of_spec. repeat constructor; lia.
Defined.

Lemma integers_roundtrip_witness :
  ∃ b1, @ReadUInt8 zero_platform
    (@WriteUInt64 zero_platform (@WriteUInt32 zero_platform (@WriteUInt24 zero_platform
      (@WriteUInt16 zero_platform (@WriteUInt8 zero_platform
        (@ByteBuffer_new zero_platform ORDER_HOST) 5) 600) 70000) 8000000) 9) = Some (5, b1).
Proof.
  destruct (@integers_roundtrip zero_platform ORDER_HOST 5 600 70000 8000000 9)
    as (b1 & _ & _ & _ & _ & H1 & _); [done..|]. exists b1. exact H1.
Defined.
