(* ===== verification/Crc32.v ===== *)
(** * webrtc/base/crc32.h and crc32.cc

    The table-driven CRC-32 that the STUN FINGERPRINT attribute carries.  The
    table is a static array filled on first use; the model passes it explicitly.
    The theorems show that it computes the bit-by-bit CRC of the reversed
    polynomial and that a message may be fed in pieces. *)

From S2P Require Import Prelude.

Definition kCrc32Polynomial : Z := 3988292384. (* 0xEDB88320 *)

(** The body of the inner loop. *)
Definition crc_shift (c : Z) : Z :=
  if Z.land c 1 =? 0 then Z.shiftr c 1 else Z.lxor kCrc32Polynomial (Z.shiftr c 1).

Fixpoint iter_crc_shift (j : nat) (c : Z) : Z :=
  match j with O => c | S j' => iter_crc_shift j' (crc_shift c) end.

(** The static table before its first use. *)
Definition kCrc32Table : list Z := zrepeat 0 256.

Definition EnsureCrc32TableInited (table : list Z) : list Z :=
  if zget 255 table =? 0
  then (λ i, iter_crc_shift 8 (Z.of_nat i)) <$> seq 0 256
  else table.

(** The loop over the bytes of the buffer. *)
Fixpoint crc_loop (table : list Z) (c : Z) (u : list Z) : Z :=
  match u with
  | [] => c
  | b :: u' => crc_loop table (Z.lxor (zget (Z.land (Z.lxor c b) 255) table) (Z.shiftr c 8)) u'
  end.

(** The result and the table that the call leaves behind. *)
Definition UpdateCrc32_static (table : list Z) (start : Z) (buf : list Z) : Z * list Z :=
  let table := EnsureCrc32TableInited table in
  let c := Z.lxor start 4294967295 in
  let c := crc_loop table c buf in
  (Z.lxor c 4294967295, table).

Definition UpdateCrc32 (start : Z) (buf : list Z) : Z :=
  (UpdateCrc32_static kCrc32Table start buf).1.

Definition ComputeCrc32 (buf : list Z) : Z := UpdateCrc32 0 buf.

(** ** The reference definition: one bit at a time, no table *)

Definition crc_byte (c b : Z) : Z := iter_crc_shift 8 (Z.lxor c b).
Definition crc_reference (start : Z) (buf : list Z) : Z :=
  Z.lxor (fold_left crc_byte buf (Z.lxor start 4294967295)) 4294967295.

(** ** Proofs *)

Definition inited : list Z := EnsureCrc32TableInited kCrc32Table.

(** The table's states in a run of the program: unused, or filled. *)
Definition table_ok (table : list Z) : Prop := table = kCrc32Table ∨ table = inited.

Lemma Ensure_inited table : table_ok table → EnsureCrc32TableInited table = inited.
Proof. intros [->| ->]; [done|]. vm_compute. reflexivity. Qed.

Lemma crc_shift_alt c :
  crc_shift c = Z.lxor (if Z.odd c then kCrc32Polynomial else 0) (Z.shiftr c 1).
Proof.
  unfold crc_shift. change 1 with (Z.ones 1) at 1. rewrite Z.land_ones by lia.
  change (2 ^ 1) with 2. rewrite Zmod_odd. by destruct (Z.odd c).
Qed.

Lemma crc_shift_lxor x y : crc_shift (Z.lxor x y) = Z.lxor (crc_shift x) (crc_shift y).
Proof.
  rewrite !crc_shift_alt, Z.shiftr_lxor.
  rewrite <- !Z.bit0_odd, Z.lxor_spec.
  generalize (Z.shiftr x 1), (Z.shiftr y 1). intros p q.
  destruct (Z.testbit x 0), (Z.testbit y 0); simpl; rewrite ?Z.lxor_0_l.
  - rewrite <- !Z.lxor_assoc, (Z.lxor_comm _ kCrc32Polynomial), <- !Z.lxor_assoc.
    by rewrite Z.lxor_nilpotent, Z.lxor_0_l.
  - by rewrite Z.lxor_assoc.
  - by rewrite <- !Z.lxor_assoc, (Z.lxor_comm p).
  - done.
Qed.

Lemma iter_crc_shift_lxor n x y :
  iter_crc_shift n (Z.lxor x y) = Z.lxor (iter_crc_shift n x) (iter_crc_shift n y).
Proof. revert x y. induction n; intros; simpl; [done|]. by rewrite crc_shift_lxor, IHn. Qed.

Lemma iter_crc_shift_zeros n x : iter_crc_shift n (Z.shiftl x (Z.of_nat n)) = x.
Proof.
  induction n as [|n IH]; simpl; [apply Z.shiftl_0_r|].
  assert (crc_shift (Z.shiftl x (Z.of_nat (S n))) = Z.shiftl x (Z.of_nat n)) as ->; [|done].
  rewrite crc_shift_alt, <- Z.bit0_odd, Z.shiftl_spec_low, Z.lxor_0_l by lia.
  rewrite Z.shiftr_shiftl_l by lia. f_equal. lia.
Qed.

(** Splitting a register into its low byte and the rest. *)
Lemma split_low_byte c : c = Z.lxor (Z.land c 255) (Z.shiftl (Z.shiftr c 8) 8).
Proof.
  apply Z.bits_inj'; intros i Hi. rewrite Z.lxor_spec, Z.land_spec, Z.shiftl_spec by lia.
  change 255 with (Z.ones 8). rewrite Z.testbit_ones by lia.
  destruct (Z.leb_spec 0 i), (Z.ltb_spec i 8); try lia; simpl.
  - rewrite (Z.testbit_neg_r _ (i - 8)) by lia. by rewrite andb_true_r, xorb_false_r.
  - rewrite Z.shiftr_spec, andb_false_r by lia. simpl. f_equal. lia.
Qed.

Lemma inited_get i : 0 ≤ i < 256 → zget i inited = iter_crc_shift 8 i.
Proof.
  intros Hi. unfold inited, EnsureCrc32TableInited.
  change (zget 255 kCrc32Table =? 0) with true. cbn [negb].
  rewrite zget_nth by lia.
  rewrite (nth_indep _ 0 (iter_crc_shift 8 (Z.of_nat 0))) by (rewrite length_fmap, length_seq; lia).
  rewrite (map_nth (λ i, iter_crc_shift 8 (Z.of_nat i))), seq_nth by lia.
  f_equal. lia.
Qed.

Lemma table_step c b :
  0 ≤ c → is_u8 b →
  Z.lxor (zget (Z.land (Z.lxor c b) 255) inited) (Z.shiftr c 8) = crc_byte c b.
Proof.
  intros Hc Hb. rewrite inited_get.
  2: { change 255 with (Z.ones 8). rewrite Z.land_ones by lia. apply Z.mod_pos_bound. lia. }
  unfold crc_byte. rewrite (split_low_byte (Z.lxor c b)) at 2.
  rewrite iter_crc_shift_lxor, (iter_crc_shift_zeros 8). f_equal.
  rewrite Z.shiftr_lxor. replace (Z.shiftr b 8) with 0; [by rewrite Z.lxor_0_r|].
  rewrite Z.shiftr_div_pow2 by lia. symmetry. by apply Z.div_small.
Qed.

Lemma crc_shift_u32 c : is_u32 c → is_u32 (crc_shift c).
Proof.
  intros Hc. rewrite crc_shift_alt. apply lxor_u32.
  - by destruct (Z.odd c).
  - rewrite Z.shiftr_div_pow2 by lia. ulia.
Qed.
Lemma crc_byte_u32 c b : is_u32 c → is_u8 b → is_u32 (crc_byte c b).
Proof.
  intros. unfold crc_byte. generalize 8%nat. intros n.
  assert (is_u32 (Z.lxor c b)) as Hx by (apply lxor_u32; ulia). revert Hx.
  generalize (Z.lxor c b). induction n; intros; simpl; auto using crc_shift_u32.
Qed.

Lemma crc_loop_inited u c : is_u32 c → bytes_ok u → crc_loop inited c u = fold_left crc_byte u c.
Proof.
  intros Hc Hu. revert c Hc. induction Hu as [|b u Hb Hu IH]; intros c Hc; [done|].
  cbn [crc_loop fold_left]. rewrite table_step by (auto; ulia). auto using crc_byte_u32.
Qed.

Lemma fold_crc_u32 u c : is_u32 c → bytes_ok u → is_u32 (fold_left crc_byte u c).
Proof. intros Hc Hu. revert c Hc. induction Hu; intros; simpl; auto using crc_byte_u32. Qed.

(** The table-driven CRC-32 equals the bit-by-bit computation over the
    reversed polynomial, whether or not the static table has been filled by an
    earlier call, and leaves the table filled. *)
Theorem UpdateCrc32_reference table start buf :
  table_ok table → is_u32 start → bytes_ok buf →
  UpdateCrc32_static table start buf = (crc_reference start buf, inited) ∧ table_ok inited.
Proof.
  intros Ht Hs Hb. unfold UpdateCrc32_static. rewrite Ensure_inited by done.
  split; [|by right]. rewrite crc_loop_inited; auto with words. apply lxor_u32; auto. ulia.
Qed.

Lemma UpdateCrc32_eq start buf :
  is_u32 start → bytes_ok buf → UpdateCrc32 start buf = crc_reference start buf.
Proof.
  intros. unfold UpdateCrc32, UpdateCrc32_static.
  rewrite Ensure_inited by (by left). cbn [fst]. rewrite crc_loop_inited; auto.
  apply lxor_u32; auto. ulia.
Qed.

Lemma crc_reference_u32 start buf :
  is_u32 start → bytes_ok buf → is_u32 (crc_reference start buf).
Proof.
  intros. apply lxor_u32; [|ulia]. apply fold_crc_u32; auto. apply lxor_u32; auto. ulia.
Qed.

Lemma UpdateCrc32_u32 start buf : is_u32 start → bytes_ok buf → is_u32 (UpdateCrc32 start buf).
Proof. intros. rewrite UpdateCrc32_eq by done. by apply crc_reference_u32. Qed.

(** A checksum may be computed in pieces: updating with the first part and
    then with the second gives the checksum of the whole. *)
Theorem UpdateCrc32_app start a b :
  is_u32 start → bytes_ok a → bytes_ok b →
  UpdateCrc32 (UpdateCrc32 start a) b = UpdateCrc32 start (a ++ b).
Proof.
  intros Hs Ha Hb. assert (bytes_ok (a ++ b)) by (by apply bytes_ok_app).
  rewrite (UpdateCrc32_eq start a), (UpdateCrc32_eq start (a ++ b)) by done.
  rewrite UpdateCrc32_eq by (auto using crc_reference_u32).
  unfold crc_reference. by rewrite lxor_involutive, fold_left_app.
Qed.

(** The check value of the CRC-32 catalogue: the CRC of "123456789". *)
Example ComputeCrc32_check : ComputeCrc32 [49; 50; 51; 52; 53; 54; 55; 56; 57] = 3421780262.
Proof. vm_compute. reflexivity. Qed.

Lemma UpdateCrc32_reference_witness :
  UpdateCrc32_static inited 0 [97; 98; 99] = (crc_reference 0 [97; 98; 99], inited).
Proof.
  apply (UpdateCrc32_reference inited 0 [97; 98; 99]);
    [by right | done | repeat constructor; done].
Defined.

Lemma UpdateCrc32_app_witness :
  UpdateCrc32 (UpdateCrc32 0 [97]) [98; 99] = UpdateCrc32 0 [97; 98; 99].
Proof.
  apply (UpdateCrc32_app 0 [97] [98; 99]); [done | repeat constructor; done ..].
Defined.
