(* ===== verification/BlockHash.v ===== *)
(** * Hashing in 64-byte blocks

    What the contexts of sha1.cc and md5.cc have in common: a message is absorbed
    one 64-byte block at a time by a transform, and what does not fill a block
    waits in the context's buffer.  The two files instantiate [absorb] with their
    transforms; RFC 1321 and FIPS 180 padding are both [md_pad]. *)

From S2P Require Import Prelude ByteOrder.

Section Absorb.
Context {S : Type} (T : S → list Z → S).

Fixpoint absorb_fuel (fuel : nat) (st : S) (l : list Z) : S * list Z :=
  match fuel with
  | O => (st, l)
  | Datatypes.S f =>
      if zlen l <? 64 then (st, l) else absorb_fuel f (T st (ztake 64 l)) (zdrop 64 l)
  end.

(** All full blocks of [l], and the rest.  A block takes 64 bytes, so the length
    of [l] bounds the number of iterations. *)
Definition absorb (st : S) (l : list Z) : S * list Z := absorb_fuel (length l) st l.

Lemma absorb_fuel_enough f1 f2 st l :
  zlen l ≤ 64 * Z.of_nat f1 + 63 → zlen l ≤ 64 * Z.of_nat f2 + 63 →
  absorb_fuel f1 st l = absorb_fuel f2 st l.
Proof.
  revert f2 st l. induction f1 as [|f1 IH]; intros [|f2] st l H1 H2; simpl; auto;
    destruct (Z.ltb_spec (zlen l) 64); auto; try lia.
  apply IH; zlia.
Qed.

Lemma absorb_short st l : zlen l < 64 → absorb st l = (st, l).
Proof.
  intros. unfold absorb. destruct (length l); simpl; [done|].
  by destruct (Z.ltb_spec (zlen l) 64); [|lia].
Qed.

Lemma absorb_block st b l : zlen b = 64 → absorb st (b ++ l) = absorb (T st b) l.
Proof.
  intros Hb. unfold absorb.
  rewrite (absorb_fuel_enough _ (Datatypes.S (length l)) st); [| |].
  - simpl. destruct (Z.ltb_spec (zlen (b ++ l)) 64); [zlia|].
    by rewrite ztake_app_exact, zdrop_app_exact by done.
  - unfold zlen in *. rewrite length_app. lia.
  - unfold zlen in *. rewrite length_app. lia.
Qed.

Lemma absorb_ind (P : S → list Z → Prop) :
  (∀ st l, zlen l < 64 → P st l) →
  (∀ st b l, zlen b = 64 → P (T st b) l → P st (b ++ l)) →
  ∀ st l, P st l.
Proof.
  intros Hs Hb st l. remember (length l) as n eqn:Hn.
  revert st l Hn. induction n as [n IH] using lt_wf_ind. intros st l Hn.
  destruct (Z.lt_ge_cases (zlen l) 64); [by apply Hs|].
  rewrite <- (ztake_zdrop 64 l). apply Hb; [zlia|].
  eapply IH; [|done]. assert (zlen (zdrop 64 l) < zlen l) by zlia. unfold zlen in *. lia.
Qed.

(** Absorbing in pieces: the bytes that wait are prepended to the next piece. *)
Lemma absorb_app st l k :
  absorb st (l ++ k) = absorb (absorb st l).1 ((absorb st l).2 ++ k).
Proof.
  revert st l. apply (absorb_ind (λ st l, absorb st (l ++ k) = absorb (absorb st l).1 ((absorb st l).2 ++ k))).
  - intros st l Hl. rewrite (absorb_short st l) by done. done.
  - intros st b l Hb IH. rewrite <- app_assoc, (absorb_block st b (l ++ k)), (absorb_block st b l) by done.
    exact IH.
Qed.

Lemma absorb_rest_length st l : zlen (absorb st l).2 = zlen l mod 64.
Proof.
  revert st l. apply (absorb_ind (λ st l, zlen (absorb st l).2 = zlen l mod 64)).
  - intros st l Hl. rewrite absorb_short by done. simpl. symmetry. apply Z.mod_small.
    split; [apply zlen_nonneg|done].
  - intros st b l Hb IH. rewrite absorb_block, IH, zlen_app, Hb by done. ulia.
Qed.

Lemma absorb_rest_ok st l : bytes_ok l → bytes_ok (absorb st l).2.
Proof.
  revert st l. apply (absorb_ind (λ st l, bytes_ok l → bytes_ok (absorb st l).2)).
  - intros st l Hl ?. by rewrite absorb_short.
  - intros st b l Hb IH [_ ?]%bytes_ok_app. rewrite absorb_block by done. auto.
Qed.
End Absorb.

Lemma absorb_inv {S} (T : S → list Z → S) (P : S → Prop) :
  (∀ st b, P st → P (T st b)) → ∀ st l, P st → P (absorb T st l).1.
Proof.
  intros HT. apply (absorb_ind T (λ st l, P st → P (absorb T st l).1)).
  - intros st l Hl Hst. by rewrite absorb_short.
  - intros st b l Hb IH Hst. rewrite absorb_block by done. auto.
Qed.

(** Transforms that agree on the states that occur absorb alike. *)
Lemma absorb_ext {S} (T T' : S → list Z → S) (P : S → Prop) :
  (∀ st b, P st → zlen b = 64 → bytes_ok b → T st b = T' st b ∧ P (T' st b)) →
  ∀ st l, P st → bytes_ok l → absorb T st l = absorb T' st l ∧ P (absorb T' st l).1.
Proof.
  intros HT. apply (absorb_ind T' (λ st l, P st → bytes_ok l →
    absorb T st l = absorb T' st l ∧ P (absorb T' st l).1)).
  - intros st l Hl ? _. by rewrite !absorb_short.
  - intros st b l Hb IH Hst [Hok ?]%bytes_ok_app. destruct (HT st b) as [E ?]; auto.
    rewrite !absorb_block, E by done. auto.
Qed.

(** A context that keeps the bytes that wait at the front of [buffer]: filling
    the buffer from the front of [data] and absorbing the rest. *)
Section Waiting.
Context {S : Type} (T : S → list Z → S) (st0 : S).

Definition waiting (m : list Z) (st : S) (buffer : list Z) : Prop :=
  zlen buffer = 64 ∧ absorb T st0 m = (st, ztake (zlen m mod 64) buffer).

Lemma waiting_start buffer : zlen buffer = 64 → waiting [] st0 buffer.
Proof. intros. split; [done|]. by rewrite absorb_short, (ztake_neg _ buffer) by done. Qed.

(** The data does not fill the buffer. *)
Lemma waiting_short m st buffer data : waiting m st buffer →
  zlen m mod 64 + zlen data < 64 →
  waiting (m ++ data) st (splice (zlen m mod 64) data buffer).
Proof.
  intros [Hb Hm] Hlen. pose proof (Z.mod_pos_bound (zlen m) 64).
  split; [rewrite zlen_splice; zlia|].
  rewrite absorb_app, Hm. simpl. rewrite absorb_short by zlia. f_equal.
  rewrite zlen_app. replace ((zlen m + zlen data) mod 64) with (zlen m mod 64 + zlen data) by (zlen_simpl; ulia).
  unfold splice. rewrite app_assoc, ztake_app_exact by zlia. done.
Qed.

(** What is left over moves to the front of the buffer. *)
Lemma waiting_rest m st rest buffer : absorb T st0 m = (st, rest) → zlen buffer = 64 →
  waiting m st (splice 0 rest buffer).
Proof.
  intros Habs Hb. pose proof (absorb_rest_length T st0 m) as Hr. rewrite Habs in Hr. simpl in Hr.
  pose proof (Z.mod_pos_bound (zlen m) 64).
  split; [rewrite zlen_splice; zlia|]. rewrite Habs, <- Hr. f_equal.
  unfold splice. rewrite (ztake_neg 0), app_nil_l, ztake_app_exact by lia. done.
Qed.

(** The buffer was empty. *)
Lemma waiting_aligned m st buffer data : waiting m st buffer → zlen m mod 64 = 0 →
  absorb T st0 (m ++ data) = absorb T st data.
Proof. intros [_ Hm] E. by rewrite absorb_app, Hm, E, (ztake_neg 0) by lia. Qed.

(** The data fills the buffer: one transform of the buffer, then the rest. *)
Lemma waiting_fill m st buffer data : waiting m st buffer →
  64 ≤ zlen m mod 64 + zlen data →
  let i := 64 - zlen m mod 64 in
  absorb T st0 (m ++ data) =
    absorb T (T st (splice (zlen m mod 64) (ztake i data) buffer)) (zdrop i data).
Proof.
  intros [Hb Hm] Hlen i. pose proof (Z.mod_pos_bound (zlen m) 64).
  assert (Hsp : splice (zlen m mod 64) (ztake i data) buffer
                = ztake (zlen m mod 64) buffer ++ ztake i data).
  { unfold splice. rewrite zdrop_all, app_nil_r by zlia. done. }
  rewrite absorb_app, Hm. simpl. rewrite <- (ztake_zdrop i data) at 1.
  by rewrite app_assoc, absorb_block, Hsp by zlia.
Qed.
End Waiting.

(** A one bit, zeros up to 56 modulo 64, and the length in bits. *)
Definition pad_zeros (n : Z) : Z := (55 - n) mod 64.
Definition md_pad (count : list Z) (m : list Z) : list Z :=
  m ++ [128] ++ zrepeat 0 (pad_zeros (zlen m)) ++ count.

Lemma md_pad_aligned count m : zlen count = 8 → zlen (md_pad count m) mod 64 = 0.
Proof.
  intros Hc. unfold md_pad, pad_zeros. rewrite !zlen_app, zlen_zrepeat, zlen_cons, zlen_nil, Hc. ulia.
Qed.

(** ** Rotations and bitwise functions of 32-bit words *)

Definition rol (value bits : Z) : Z :=
  Z.lor (u32 (Z.shiftl value bits)) (Z.shiftr value (32 - bits)).
Definition not32 (z : Z) : Z := Z.lxor z 4294967295.

Lemma rol_u32 v s : is_u32 v → 0 ≤ s < 32 → is_u32 (rol v s).
Proof.
  intros Hv Hs. apply (lor_bound _ _ 32); [lia|apply u32_range|].
  rewrite Z.shiftr_div_pow2 by lia. unfold is_u32 in Hv. split; [apply Z.div_pos; lia|].
  apply Z.div_lt_upper_bound; [lia|]. nia.
Qed.
Lemma land_u32 a b : is_u32 a → is_u32 b → is_u32 (Z.land a b).
Proof. intros; apply (land_bound_r _ _ 32); auto; lia. Qed.
Lemma lor_u32 a b : is_u32 a → is_u32 b → is_u32 (Z.lor a b).
Proof. intros; apply (lor_bound _ _ 32); auto; lia. Qed.
#[export] Hint Resolve rol_u32 land_u32 lor_u32 : words.

(** Equality of words, bit by bit. *)
Lemma word_bits_inj a b : is_u32 a → is_u32 b →
  (∀ i, 0 ≤ i < 32 → Z.testbit a i = Z.testbit b i) → a = b.
Proof.
  intros [Ha Ha']%(bounded_bits _ 32) [Hb Hb']%(bounded_bits _ 32) H; try lia.
  apply Z.bits_inj'. intros i Hi. destruct (Z.lt_ge_cases i 32); auto.
  by rewrite Ha', Hb'.
Qed.
Lemma not32_spec z i : 0 ≤ i < 32 → Z.testbit (not32 z) i = negb (Z.testbit z i).
Proof.
  intros. unfold not32. change 4294967295 with (Z.ones 32).
  rewrite Z.lxor_spec, Z.testbit_ones by lia.
  destruct (Z.leb_spec 0 i), (Z.ltb_spec i 32); try lia. by destruct (Z.testbit z i).
Qed.
Lemma not32_u32 z : is_u32 z → is_u32 (not32 z).
Proof. intros. apply lxor_u32; [done|]. ulia. Qed.
#[export] Hint Resolve not32_u32 : words.

(** ** Words in memory and the split bit count *)

(** The sixteen words that alias the workspace of 64 bytes. *)
Fixpoint words_of (n : nat) (load : list Z → Z) (l : list Z) : list Z :=
  match n with
  | O => []
  | S n' => load (ztake 4 l) :: words_of n' load (zdrop 4 l)
  end.

Lemma words_of_length n load l : length (words_of n load l) = n.
Proof. revert l. induction n; intros; simpl; auto. Qed.

Lemma words_of_nth n load l t : (t < n)%nat →
  nth t (words_of n load l) 0 = load (ztake 4 (zdrop (4 * Z.of_nat t) l)).
Proof.
  revert l t. induction n as [|n IH]; intros l [|t] Ht; try lia; simpl words_of; simpl nth.
  - by rewrite (zdrop_neg (4 * Z.of_nat 0)) by lia.
  - rewrite IH, zdrop_zdrop by lia. do 3 f_equal. lia.
Qed.

(** The carry out of the low word, tested against either summand. *)
Lemma carry_either a b : is_u32 a → is_u32 b → (u32 (a + b) <? a) = (u32 (a + b) <? b).
Proof. intros. destruct (Z.ltb_spec (u32 (a + b)) a), (Z.ltb_spec (u32 (a + b)) b); done || ulia. Qed.

Lemma count_carry n k : 0 ≤ n → 0 ≤ k →
  let bits := u32 (8 * k) in
  let c0 := u32 (u32 (8 * n) + bits) in
  c0 = u32 (8 * (n + k)) ∧
  u32 ((if c0 <? bits then u32 (u32 (8 * n / 4294967296) + 1) else u32 (8 * n / 4294967296))
       + u32 (k / 536870912)) = u32 (8 * (n + k) / 4294967296).
Proof.
  intros Hn Hk. cbv zeta.
  assert (E : u32 (u32 (8 * n) + u32 (8 * k)) = u32 (8 * (n + k))).
  { unfold u32. rewrite <- Z.add_mod by lia. f_equal. lia. }
  rewrite E. split; [done|].
  assert (Hq : 8 * (n + k) / 4294967296 = 8 * n / 4294967296 + k / 536870912
                 + if u32 (8 * (n + k)) <? u32 (8 * k) then 1 else 0).
  { destruct (Z.ltb_spec (u32 (8 * (n + k))) (u32 (8 * k))); ulia. }
  rewrite Hq. generalize (8 * n / 4294967296) (k / 536870912). intros a b.
  destruct (_ <? _); clear; ulia.
Qed.

Lemma index_mod n : Z.land (Z.shiftr (u32 (8 * n)) 3) 63 = n mod 64.
Proof.
  change 63 with (Z.ones 6). rewrite Z.land_ones, Z.shiftr_div_pow2 by lia.
  change (2 ^ 3) with 8. change (2 ^ 6) with 64. ulia.
Qed.
