(* ===== verification/Sha1.v ===== *)
(** * webrtc/base/sha1.h and sha1.cc

    SHA-1 as the source computes it: the unrolled rounds over a circular
    sixteen-word schedule, the incremental update with its split 32-bit bit
    count, and the padding loop of the final step.  [SHA1Transform] is proved
    equal to the compression function of FIPS 180, and init/update/final to the
    hash of the concatenation of everything that was fed. *)

From S2P Require Import Prelude ByteOrder BlockHash.

(** ** The transform *)

Section Transform.
Context `{Platform}.

Definition blk0 (block : list Z) (i : Z) : Z * list Z :=
  let l := zget i block in
  if host_big_endian then (l, block)
  else let x := Z.lor (Z.land (rol l 24) 4278255360) (Z.land (rol l 8) 16711935) in
       (x, splice i [x] block).

Definition blk (block : list Z) (i : Z) : Z * list Z :=
  let x := rol (Z.lxor (Z.lxor (Z.lxor (zget (Z.land (i + 13) 15) block)
                                       (zget (Z.land (i + 8) 15) block))
                               (zget (Z.land (i + 2) 15) block))
                       (zget (Z.land i 15) block)) 1 in
  (x, splice (Z.land i 15) [x] block).

(** The shape of the five macros: [z += f(w, x, y) + word + k + rol(v, 5)] and
    [w = rol(w, 30)] on the registers at the given positions. *)
Definition Rop (f : Z → Z → Z → Z) (k : Z) (expand : list Z → Z → Z * list Z)
    (v w x y z : nat) (i : Z) (s : list Z * list Z) : list Z * list Z :=
  let '(r, block) := s in
  let '(word, block) := expand block i in
  let reg n := nth n r 0 in
  let r1 := <[z := u32 (reg z + (f (reg w) (reg x) (reg y) + word + k + rol (reg v) 5))]> r in
  (<[w := rol (nth w r1 0) 30]> r1, block).

Definition R0 := Rop (λ w x y, Z.lxor (Z.land w (Z.lxor x y)) y) 1518500249 blk0.
Definition R1 := Rop (λ w x y, Z.lxor (Z.land w (Z.lxor x y)) y) 1518500249 blk.
Definition R2 := Rop (λ w x y, Z.lxor (Z.lxor w x) y) 1859775393 blk.
Definition R3 := Rop (λ w x y, Z.lor (Z.land (Z.lor w x) y) (Z.land w x)) 2400959708 blk.
Definition R4 := Rop (λ w x y, Z.lxor (Z.lxor w x) y) 3395469782 blk.

(** The eighty macro calls of the source, in its order. *)
Definition rounds : list (list Z * list Z → list Z * list Z) :=
  let a := 0%nat in let b := 1%nat in let c := 2%nat in let d := 3%nat in let e := 4%nat in
  [ R0 a b c d e 0; R0 e a b c d 1; R0 d e a b c 2; R0 c d e a b 3;
    R0 b c d e a 4; R0 a b c d e 5; R0 e a b c d 6; R0 d e a b c 7;
    R0 c d e a b 8; R0 b c d e a 9; R0 a b c d e 10; R0 e a b c d 11;
    R0 d e a b c 12; R0 c d e a b 13; R0 b c d e a 14; R0 a b c d e 15;
    R1 e a b c d 16; R1 d e a b c 17; R1 c d e a b 18; R1 b c d e a 19;
    R2 a b c d e 20; R2 e a b c d 21; R2 d e a b c 22; R2 c d e a b 23;
    R2 b c d e a 24; R2 a b c d e 25; R2 e a b c d 26; R2 d e a b c 27;
    R2 c d e a b 28; R2 b c d e a 29; R2 a b c d e 30; R2 e a b c d 31;
    R2 d e a b c 32; R2 c d e a b 33; R2 b c d e a 34; R2 a b c d e 35;
    R2 e a b c d 36; R2 d e a b c 37; R2 c d e a b 38; R2 b c d e a 39;
    R3 a b c d e 40; R3 e a b c d 41; R3 d e a b c 42; R3 c d e a b 43;
    R3 b c d e a 44; R3 a b c d e 45; R3 e a b c d 46; R3 d e a b c 47;
    R3 c d e a b 48; R3 b c d e a 49; R3 a b c d e 50; R3 e a b c d 51;
    R3 d e a b c 52; R3 c d e a b 53; R3 b c d e a 54; R3 a b c d e 55;
    R3 e a b c d 56; R3 d e a b c 57; R3 c d e a b 58; R3 b c d e a 59;
    R4 a b c d e 60; R4 e a b c d 61; R4 d e a b c 62; R4 c d e a b 63;
    R4 b c d e a 64; R4 a b c d e 65; R4 e a b c d 66; R4 d e a b c 67;
    R4 c d e a b 68; R4 b c d e a 69; R4 a b c d e 70; R4 e a b c d 71;
    R4 d e a b c 72; R4 c d e a b 73; R4 b c d e a 74; R4 a b c d e 75;
    R4 e a b c d 76; R4 d e a b c 77; R4 c d e a b 78; R4 b c d e a 79 ].

Definition SHA1Transform (state buffer : list Z) : list Z :=
  let block := words_of 16 host_load buffer in
  let '(r, _) := fold_left (λ s f, f s) rounds (state, block) in
  zip_with (λ s x, u32 (s + x)) state r.

(** ** The context *)

Record SHA1_CTX := mkSHA1 {
  sha_state : list Z;
  sha_count0 : Z;
  sha_count1 : Z;
  sha_buffer : list Z
}.

Definition SHA1Init (ctx : SHA1_CTX) : SHA1_CTX :=
  mkSHA1 [1732584193; 4023233417; 2562383102; 271733878; 3285377520] 0 0 (sha_buffer ctx).

(** The loop over whole blocks of the caller's data; [fuel] bounds its
    iterations by the length of the data, each takes 64 bytes. *)
Fixpoint SHA1Update_loop (fuel : nat) (state data : list Z) (i input_len : Z) : list Z * Z :=
  match fuel with
  | O => (state, i)
  | S f =>
      if i + 63 <? input_len
      then SHA1Update_loop f (SHA1Transform state (ztake 64 (zdrop i data))) data (i + 64) input_len
      else (state, i)
  end.

Definition SHA1Update (ctx : SHA1_CTX) (data : list Z) : SHA1_CTX :=
  let input_len := zlen data in
  let index := Z.land (Z.shiftr (sha_count0 ctx) 3) 63 in
  let bits := u32 (Z.shiftl input_len 3) in
  let count0 := u32 (sha_count0 ctx + bits) in
  let count1 := if count0 <? bits then u32 (sha_count1 ctx + 1) else sha_count1 ctx in
  let count1 := u32 (count1 + u32 (Z.shiftr input_len 29)) in
  if 63 <? index + input_len then
    let i := 64 - index in
    let buffer := splice index (ztake i data) (sha_buffer ctx) in
    let state := SHA1Transform (sha_state ctx) buffer in
    let '(state, i) := SHA1Update_loop (length data) state data i input_len in
    mkSHA1 state count0 count1 (splice 0 (zdrop i data) buffer)
  else
    mkSHA1 (sha_state ctx) count0 count1 (splice index data (sha_buffer ctx)).

(** The padding loop; it adds at most 63 zero bytes. *)
Fixpoint SHA1Final_pad (fuel : nat) (ctx : SHA1_CTX) : SHA1_CTX :=
  match fuel with
  | O => ctx
  | S f => if Z.land (sha_count0 ctx) 504 =? 448 then ctx
           else SHA1Final_pad f (SHA1Update ctx [0])
  end.

(** The digest, and the wiped context. *)
Definition SHA1Final (ctx : SHA1_CTX) : list Z * SHA1_CTX :=
  let finalcount :=
    (λ i : nat, let i := Z.of_nat i in
       u8 (Z.land (Z.shiftr (if 4 <=? i then sha_count0 ctx else sha_count1 ctx)
                            ((3 - Z.land i 3) * 8)) 255)) <$> seq 0 8 in
  let ctx := SHA1Update ctx [128] in
  let ctx := SHA1Final_pad 64 ctx in
  let ctx := SHA1Update ctx finalcount in
  let digest :=
    (λ i : nat, let i := Z.of_nat i in
       u8 (Z.land (Z.shiftr (zget (Z.shiftr i 2) (sha_state ctx)) ((3 - Z.land i 3) * 8)) 255))
      <$> seq 0 20 in
  (digest, mkSHA1 (SHA1Transform (zrepeat 0 5) (zrepeat 0 64)) 0 0 (zrepeat 0 64)).
End Transform.

(** Test vectors of FIPS 180. *)
Example sha1_abc :
  (@SHA1Final zero_platform (@SHA1Update zero_platform
     (SHA1Init (mkSHA1 [] 0 0 (zrepeat 0 64))) [97; 98; 99])).1 =
  [169; 153; 62; 54; 71; 6; 129; 106; 186; 62; 37; 113; 120; 80; 194; 108; 156; 208; 216; 157].
Proof. vm_compute. reflexivity. Qed.

(** ** FIPS 180 *)

(** The message schedule: W_t for t < 16 is the message word, then
    [W_t = ROTL^1 (W_{t-3} xor W_{t-8} xor W_{t-14} xor W_{t-16})]. *)
Definition next_word (W : nat → Z) (t : nat) : Z :=
  rol (Z.lxor (Z.lxor (Z.lxor (W (t - 3)%nat) (W (t - 8)%nat)) (W (t - 14)%nat)) (W (t - 16)%nat)) 1.
Fixpoint schedule (n : nat) (ws : list Z) : list Z :=
  match n with
  | O => ws
  | S n' => let l := schedule n' ws in l ++ [next_word (λ t, nth t l 0) (length l)]
  end.

Definition sha1_f (t : nat) (b c d : Z) : Z :=
  if (t <? 20)%nat then Z.lor (Z.land b c) (Z.land (not32 b) d)
  else if (t <? 40)%nat then Z.lxor (Z.lxor b c) d
  else if (t <? 60)%nat then Z.lor (Z.lor (Z.land b c) (Z.land b d)) (Z.land c d)
  else Z.lxor (Z.lxor b c) d.
Definition sha1_K (t : nat) : Z :=
  if (t <? 20)%nat then 1518500249 else if (t <? 40)%nat then 1859775393
  else if (t <? 60)%nat then 2400959708 else 3395469782.

Definition sha1_step (W : nat → Z) (s : Z * Z * Z * Z * Z) (t : nat) : Z * Z * Z * Z * Z :=
  let '(a, b, c, d, e) := s in
  (u32 (rol a 5 + sha1_f t b c d + e + W t + sha1_K t), a, rol b 30, c, d).

Definition sha1_W (buffer : list Z) (t : nat) : Z :=
  nth t (schedule 64 (words_of 16 be_decode buffer)) 0.

Definition sha1_block (H buffer : list Z) : list Z :=
  let '(a, b, c, d, e) :=
    fold_left (sha1_step (sha1_W buffer)) (seq 0 80)
      (nth 0 H 0, nth 1 H 0, nth 2 H 0, nth 3 H 0, nth 4 H 0) in
  zip_with (λ s x, u32 (s + x)) H [a; b; c; d; e].

Definition sha1_iv : list Z := [1732584193; 4023233417; 2562383102; 271733878; 3285377520].

Definition sha1_spec (m : list Z) : list Z :=
  concat (be_encode 4 <$>
    (absorb sha1_block sha1_iv (md_pad (be_encode 8 (8 * zlen m)) m)).1).

(** ** The schedule in a circular buffer *)

Lemma schedule_length n ws : length (schedule n ws) = (n + length ws)%nat.
Proof. induction n; simpl; [done|]. rewrite length_app; simpl. lia. Qed.

Lemma schedule_stable n k ws t : (t < n + length ws)%nat →
  nth t (schedule (n + k) ws) 0 = nth t (schedule n ws) 0.
Proof.
  intros Ht. induction k as [|k IH]; [by rewrite Nat.add_0_r|].
  rewrite Nat.add_succ_r. simpl. rewrite app_nth1 by (rewrite schedule_length; lia). done.
Qed.

Lemma sha1_W_low buffer t : (t < 16)%nat →
  sha1_W buffer t = be_decode (ztake 4 (zdrop (4 * Z.of_nat t) buffer)).
Proof.
  intros. unfold sha1_W. rewrite (schedule_stable 0 64) by (rewrite words_of_length; lia).
  by apply words_of_nth.
Qed.

Lemma sha1_W_high buffer t : (16 ≤ t < 80)%nat →
  sha1_W buffer t = next_word (sha1_W buffer) t.
Proof.
  intros Ht. unfold sha1_W. set (ws := words_of 16 be_decode buffer).
  assert (length ws = 16%nat) as Hws by apply words_of_length.
  replace 64%nat with (S (t - 16) + (79 - t))%nat by lia.
  rewrite (schedule_stable (S (t - 16))) by lia. cbn [schedule].
  rewrite app_nth2, schedule_length, Hws by (rewrite schedule_length; lia).
  replace (t - (t - 16 + 16))%nat with 0%nat by lia. cbn [nth].
  replace (t - 16 + 16)%nat with t by lia. unfold next_word.
  replace (S (t - 16) + (79 - t))%nat with ((t - 16) + (80 - t))%nat by lia.
  by rewrite !schedule_stable by lia.
Qed.

#[local] Opaque sha1_W.

(** ** Byte swapping *)

Lemma land_lane x y m k : is_u8 x → is_u8 m →
  Z.land (y * 256 + x) (k * 256 + m) = Z.land y k * 256 + Z.land x m.
Proof.
  intros Hx Hm. change 256 with (2 ^ 8).
  rewrite <- !lor_lanes by (try apply (land_bound_r _ _ 8); unfold_words; lia).
  apply Z.bits_inj'. intros i Hi. rewrite Z.land_spec, !Z.lor_spec, Z.land_spec.
  destruct (Z.lt_ge_cases i 8).
  - rewrite !Z.shiftl_spec_low by lia. done.
  - rewrite !Z.shiftl_spec, Z.land_spec by lia.
    assert (Z.testbit x i = false) as -> by (apply (bounded_bits x 8); ulia).
    assert (Z.testbit m i = false) as -> by (apply (bounded_bits m 8); ulia).
    by rewrite !orb_false_r.
Qed.

Lemma lor_lane x y m k : is_u8 x → is_u8 m →
  Z.lor (y * 256 + x) (k * 256 + m) = Z.lor y k * 256 + Z.lor x m.
Proof.
  intros Hx Hm. change 256 with (2 ^ 8).
  rewrite <- !lor_lanes by (try apply (lor_bound _ _ 8); unfold_words; lia).
  apply Z.bits_inj'. intros i Hi. rewrite !Z.lor_spec.
  destruct (Z.lt_ge_cases i 8).
  - rewrite !Z.shiftl_spec_low by lia. done.
  - rewrite !Z.shiftl_spec, Z.lor_spec by lia.
    assert (Z.testbit x i = false) as -> by (apply (bounded_bits x 8); ulia).
    assert (Z.testbit m i = false) as -> by (apply (bounded_bits m 8); ulia).
    by rewrite !orb_false_r.
Qed.

Lemma rol_bytes a b c d : is_u8 a → is_u8 b → is_u8 c → is_u8 d →
  rol (((d * 256 + c) * 256 + b) * 256 + a) 24 = ((a * 256 + d) * 256 + c) * 256 + b ∧
  rol (((d * 256 + c) * 256 + b) * 256 + a) 8 = ((c * 256 + b) * 256 + a) * 256 + d.
Proof.
  intros. unfold rol. rewrite !Z.shiftl_mul_pow2, !Z.shiftr_div_pow2 by lia.
  split; [rewrite (lor_disjoint _ _ 24)|rewrite (lor_disjoint _ _ 8)]; lane_side.
Qed.

Section Correct.
Context `{Platform}.

Lemma blk0_swaps l : zlen l = 4 → bytes_ok l → host_big_endian = false →
  Z.lor (Z.land (rol (host_load l) 24) 4278255360) (Z.land (rol (host_load l) 8) 16711935)
    = be_decode l.
Proof.
  intros Hl Hok Hle. unfold host_load. rewrite Hle. explode_list l.
  unfold bytes_ok in Hok. rewrite !Forall_cons in Hok. destruct Hok as (H0 & H1 & H2 & H3 & _).
  unfold be_decode. cbn [rev app le_decode].
  replace (b + _) with (((b2 * 256 + b1) * 256 + b0) * 256 + b) by lia.
  destruct (rol_bytes b b0 b1 b2) as [-> ->]; try done.
  change 4278255360 with (((255 * 256 + 0) * 256 + 255) * 256 + 0).
  change 16711935 with (((0 * 256 + 255) * 256 + 0) * 256 + 255).
  rewrite !land_lane by (done || ulia). rewrite !Z.land_0_r, !land_255, !u8_id by done.
  rewrite !lor_lane by (done || ulia). rewrite !Z.lor_0_r, !Z.lor_0_l. lia.
Qed.

(** What the sixteen words hold before round [t]: the last sixteen words of the
    schedule, and the message words not yet expanded. *)
Definition ring (buffer : list Z) (t : nat) (block : list Z) : Prop :=
  zlen block = 16 ∧
  (∀ j : nat, (j < t ≤ j + 16)%nat → zget (Z.of_nat j mod 16) block = sha1_W buffer j) ∧
  (∀ j : nat, (t ≤ j < 16)%nat →
     zget (Z.of_nat j) block = host_load (ztake 4 (zdrop (4 * Z.of_nat j) buffer))).

Lemma ring_store buffer t block block' x :
  ring buffer t block → x = sha1_W buffer t →
  block' = splice (Z.of_nat t mod 16) [x] block → ring buffer (S t) block'.
Proof.
  intros (Hlen & Hlow & Hhigh) -> ->.
  assert (0 ≤ Z.of_nat t mod 16 < 16) as Ht by (apply Z.mod_pos_bound; lia).
  unfold ring. split_and!; intros.
  - rewrite zlen_splice; zlia.
  - assert (0 ≤ Z.of_nat j mod 16 < 16) by (apply Z.mod_pos_bound; lia).
    rewrite zget_splice by zlia. change (zlen [_]) with 1.
    destruct (decide (j = t)) as [->|].
    + by bdestruct.
    + destruct (Z.leb_spec (Z.of_nat t mod 16) (Z.of_nat j mod 16)),
        (Z.ltb_spec (Z.of_nat j mod 16) (Z.of_nat t mod 16 + 1)); simpl; try (apply Hlow; lia).
      exfalso. ulia.
  - rewrite zget_splice by zlia. change (zlen [_]) with 1. rewrite Z.mod_small by lia.
    bdestruct; apply Hhigh; lia.
Qed.

Lemma blk0_spec buffer t block : zlen buffer = 64 → bytes_ok buffer → (t < 16)%nat →
  ring buffer t block → ∃ block', blk0 block (Z.of_nat t) = (sha1_W buffer t, block') ∧
                                   ring buffer (S t) block'.
Proof.
  intros Hlen Hok Ht Hr. pose proof Hr as (Hl & _ & Hhigh). specialize (Hhigh t ltac:(lia)).
  rewrite sha1_W_low by done. unfold blk0. rewrite Hhigh.
  destruct host_big_endian eqn:E.
  - exists block. split; [unfold host_load; by rewrite E|].
    eapply ring_store; [done|done|]. rewrite sha1_W_low by done.
    apply zget_ext; [rewrite zlen_splice; rewrite ?Z.mod_small; zlia|].
    intros i Hi. rewrite Z.mod_small, zget_splice by zlia. change (zlen [_]) with 1.
    bdestruct; auto. replace i with (Z.of_nat t) by lia.
    rewrite Hhigh. unfold host_load. by rewrite E.
  - rewrite blk0_swaps by (auto with words; zlia). eexists. split; [done|].
    eapply ring_store; [done| |rewrite Z.mod_small by lia; done]. by rewrite sha1_W_low.
Qed.

Lemma land_15 z : Z.land z 15 = z mod 16.
Proof. change 15 with (Z.ones 4). apply Z.land_ones; lia. Qed.

Lemma blk_spec buffer t block : (16 ≤ t < 80)%nat →
  ring buffer t block → ∃ block', blk block (Z.of_nat t) = (sha1_W buffer t, block') ∧
                                   ring buffer (S t) block'.
Proof.
  intros Ht Hr. pose proof Hr as (Hl & Hlow & _).
  assert (Hw : ∀ (k : nat) d, (0 < k ≤ 16)%nat → Z.of_nat k + d = 16 →
    zget (Z.land (Z.of_nat t + d) 15) block = sha1_W buffer (t - k)).
  { intros k d Hk Hd. rewrite land_15, <- Hlow by lia. f_equal. ulia. }
  unfold blk. rewrite (Hw 3%nat 13), (Hw 8%nat 8), (Hw 14%nat 2) by lia.
  replace (zget (Z.land (Z.of_nat t) 15) block) with (sha1_W buffer (t - 16))
    by (rewrite <- (Hw 16%nat 0) by lia; do 2 f_equal; lia).
  rewrite (sha1_W_high buffer t) by done. eexists. split; [reflexivity|].
  eapply ring_store; [done|symmetry; by apply sha1_W_high|]. by rewrite land_15.
Qed.

(** ** The unrolled rounds *)

(** The boolean functions of the macros are those of the standard. *)
Definition macro_f (t : nat) (w x y : Z) : Z :=
  if (t <? 20)%nat then Z.lxor (Z.land w (Z.lxor x y)) y
  else if (t <? 40)%nat then Z.lxor (Z.lxor w x) y
  else if (t <? 60)%nat then Z.lor (Z.land (Z.lor w x) y) (Z.land w x)
  else Z.lxor (Z.lxor w x) y.

Lemma macro_f_spec t w x y : is_u32 w → is_u32 x → is_u32 y → macro_f t w x y = sha1_f t w x y.
Proof.
  intros. unfold macro_f, sha1_f.
  destruct (t <? 20)%nat, (t <? 40)%nat, (t <? 60)%nat; try done;
    (apply word_bits_inj; [by auto 10 with words..|]; intros i Hi;
     rewrite ?Z.lxor_spec, ?Z.lor_spec, ?Z.land_spec, ?Z.lxor_spec, ?Z.lor_spec, ?Z.land_spec,
       ?not32_spec by done;
     by destruct (Z.testbit w i), (Z.testbit x i), (Z.testbit y i)).
Qed.

(** Round [t] works on registers rotated by [t] places. *)
Definition round (t : nat) : list Z * list Z → list Z * list Z :=
  let p k := ((k + 4 * t) mod 5)%nat in
  Rop (macro_f t) (sha1_K t) (if (t <? 16)%nat then blk0 else blk)
    (p 0%nat) (p 1%nat) (p 2%nat) (p 3%nat) (p 4%nat) (Z.of_nat t).

Lemma rounds_eq : rounds = round <$> seq 0 80.
Proof. reflexivity. Qed.

Definition regs_at (t : nat) (s : Z * Z * Z * Z * Z) : list Z :=
  let '(a, b, c, d, e) := s in
  let l := [a; b; c; d; e] in drop (t mod 5) l ++ take (t mod 5) l.

Definition regs_ok (s : Z * Z * Z * Z * Z) : Prop :=
  let '(a, b, c, d, e) := s in is_u32 a ∧ is_u32 b ∧ is_u32 c ∧ is_u32 d ∧ is_u32 e.

Ltac sum_order :=
  match goal with
  | |- context [u32 (?e + (?f + ?w + ?k + ?r))] =>
      replace (e + (f + w + k + r)) with (r + f + e + w + k) by lia
  end.

Lemma round_regs t W expand block block' s k :
  regs_ok s → expand block (Z.of_nat t) = (W t, block') → k = (t mod 5)%nat →
  let p j := ((j + 4 * k) mod 5)%nat in
  Rop (macro_f t) (sha1_K t) expand (p 0%nat) (p 1%nat) (p 2%nat) (p 3%nat) (p 4%nat)
    (Z.of_nat t) (regs_at k s, block) = (regs_at (S k) (sha1_step W s t), block').
Proof.
  intros Hs Hexp Hk. destruct s as [[[[a b] c] d] e]. destruct Hs as (?&?&?&?&?).
  assert (k = 0 ∨ k = 1 ∨ k = 2 ∨ k = 3 ∨ k = 4)%nat as Hc
    by (pose proof (Nat.mod_upper_bound t 5); lia).
  clear Hk. unfold Rop. rewrite Hexp. unfold sha1_step, regs_at.
  destruct Hc as [->|[->|[->|[->| ->]]]]; cbn -[u32 rol Z.add macro_f sha1_f sha1_K];
    rewrite macro_f_spec by done; sum_order; reflexivity.
Qed.

Lemma sha1_step_ok W s t : regs_ok s → regs_ok (sha1_step W s t).
Proof. destruct s as [[[[a b] c] d] e]. intros (?&?&?&?&?). simpl. split_and!; auto with words.
  apply rol_u32; [done|lia]. Qed.

Lemma regs_at_mod t s : regs_at (t mod 5) s = regs_at t s.
Proof. unfold regs_at. by rewrite Nat.Div0.mod_mod. Qed.
Lemma regs_at_S_mod t s : regs_at (S (t mod 5)) s = regs_at (S t) s.
Proof.
  unfold regs_at. replace (S (t mod 5) mod 5)%nat with (S t mod 5)%nat; [done|].
  symmetry. apply (Nat.Div0.add_mod_idemp_r 1).
Qed.

Lemma round_spec buffer t s block : zlen buffer = 64 → bytes_ok buffer → (t < 80)%nat →
  regs_ok s → ring buffer t block →
  ∃ block', round t (regs_at t s, block) = (regs_at (S t) (sha1_step (sha1_W buffer) s t), block') ∧
            ring buffer (S t) block'.
Proof.
  intros Hlen Hok Ht Hs Hr.
  assert (∃ block', (if (t <? 16)%nat then blk0 else blk) block (Z.of_nat t)
                      = (sha1_W buffer t, block') ∧ ring buffer (S t) block') as (block' & Hexp & Hr').
  { destruct (Nat.ltb_spec t 16); [by apply blk0_spec|apply blk_spec; [lia|done]]. }
  exists block'. split; [|done].
  pose proof (round_regs t _ _ _ _ s (t mod 5) Hs Hexp eq_refl) as Hround. cbv zeta in Hround.
  rewrite regs_at_mod, regs_at_S_mod in Hround. rewrite <- Hround. unfold round.
  rewrite !(Nat.Div0.add_mod _ (4 * (t mod 5))), !Nat.Div0.mul_mod_idemp_r, <- !Nat.Div0.add_mod.
  done.
Qed.

Lemma rounds_run buffer n t s block : zlen buffer = 64 → bytes_ok buffer → (t + n ≤ 80)%nat →
  regs_ok s → ring buffer t block →
  ∃ block', fold_left (λ s f, f s) (round <$> seq t n) (regs_at t s, block) =
    (regs_at (t + n) (fold_left (sha1_step (sha1_W buffer)) (seq t n) s), block').
Proof.
  intros Hlen Hok. revert t s block. induction n as [|n IH]; intros t s block Ht Hs Hr.
  - exists block. by rewrite Nat.add_0_r.
  - destruct (round_spec buffer t s block) as (block1 & E & Hr1); auto; [lia|].
    destruct (IH (S t) (sha1_step (sha1_W buffer) s t) block1) as (block2 & E2); auto; [lia| |].
    { by apply sha1_step_ok. }
    exists block2. cbn [seq fmap list_fmap fold_left]. rewrite E, <- Nat.add_succ_comm. exact E2.
Qed.

Definition state_ok (st : list Z) : Prop := length st = 5%nat ∧ Forall is_u32 st.

Lemma ring_start buffer : ring buffer 0 (words_of 16 host_load buffer).
Proof.
  split_and!; intros; [|lia|].
  - unfold zlen. by rewrite words_of_length.
  - rewrite zget_nth by lia. rewrite Nat2Z.id. apply words_of_nth. lia.
Qed.

Lemma SHA1Transform_eq st buffer : state_ok st → zlen buffer = 64 → bytes_ok buffer →
  SHA1Transform st buffer = sha1_block st buffer.
Proof.
  intros [Hst Hu] Hlen Hok. destruct st as [|z [|z0 [|z1 [|z2 [|z3 [|]]]]]]; try done.
  rewrite !Forall_cons in Hu.
  unfold SHA1Transform, sha1_block. rewrite rounds_eq.
  destruct (rounds_run buffer 80 0 (z, z0, z1, z2, z3) (words_of 16 host_load buffer))
    as (block' & E); auto using ring_start; [simpl; tauto|].
  change (regs_at 0 (z, z0, z1, z2, z3)) with [z; z0; z1; z2; z3] in E. rewrite E.
  cbn [nth]. destruct (fold_left (sha1_step _) _ _) as [[[[a b] c] d] e]. done.
Qed.

Lemma sha1_block_ok st buffer : state_ok st → state_ok (sha1_block st buffer).
Proof.
  intros [Hst Hu]. unfold sha1_block. destruct (fold_left _ _ _) as [[[[a b] c] d] e].
  destruct st as [|z [|z0 [|z1 [|z2 [|z3 [|]]]]]]; try done.
  split; [done|]. repeat constructor; apply u32_range.
Qed.

(** ** Incremental hashing *)

(** [ctx] has been fed [m]. *)
Definition sha1_fed (m : list Z) (ctx : SHA1_CTX) : Prop :=
  waiting SHA1Transform sha1_iv m (sha_state ctx) (sha_buffer ctx) ∧
  sha_count0 ctx = u32 (8 * zlen m) ∧ sha_count1 ctx = u32 (8 * zlen m / 4294967296).

Lemma SHA1Update_loop_absorb fuel st data i :
  0 ≤ i ≤ zlen data → zlen data - i ≤ Z.of_nat fuel →
  let '(st', i') := SHA1Update_loop fuel st data i (zlen data) in
  absorb SHA1Transform st (zdrop i data) = (st', zdrop i' data).
Proof.
  revert st i. induction fuel as [|fuel IH]; intros st i Hi Hf; cbn [SHA1Update_loop].
  - rewrite absorb_short by zlia. done.
  - destruct (Z.ltb_spec (i + 63) (zlen data)).
    + specialize (IH (SHA1Transform st (ztake 64 (zdrop i data))) (i + 64) ltac:(lia) ltac:(lia)).
      destruct (SHA1Update_loop _ _ _ _ _) as [st' i'].
      rewrite <- (ztake_zdrop 64 (zdrop i data)), absorb_block by zlia.
      by rewrite zdrop_zdrop by lia.
    + by rewrite absorb_short by zlia.
Qed.

Lemma SHA1Update_fed m ctx data :
  sha1_fed m ctx → sha1_fed (m ++ data) (SHA1Update ctx data).
Proof.
  intros (Hw & Hc0 & Hc1). pose proof Hw as [Hb _].
  pose proof (Z.mod_pos_bound (zlen m) 64).
  unfold SHA1Update. rewrite Hc0, Hc1, index_mod.
  rewrite Z.shiftl_mul_pow2, Z.shiftr_div_pow2, (Z.mul_comm (zlen data)) by lia.
  change (2 ^ 3) with 8. change (2 ^ 29) with 536870912.
  destruct (count_carry (zlen m) (zlen data)) as [E0 E1]; [apply zlen_nonneg..|].
  destruct (Z.ltb_spec 63 (zlen m mod 64 + zlen data)).
  - pose proof (SHA1Update_loop_absorb (length data)
      (SHA1Transform (sha_state ctx) (splice (zlen m mod 64) (ztake (64 - zlen m mod 64) data) (sha_buffer ctx)))
      data (64 - zlen m mod 64) ltac:(lia) ltac:(fold (zlen data); lia)) as Hloop.
    destruct (SHA1Update_loop _ _ _ _ _) as [st' i'].
    rewrite <- (waiting_fill SHA1Transform sha1_iv m) in Hloop by (done || lia).
    unfold sha1_fed. simpl. rewrite zlen_app.
    split; [apply waiting_rest; [done|rewrite zlen_splice; zlia]|]. by rewrite E0, <- E1, E0.
  - unfold sha1_fed. simpl. rewrite zlen_app. split; [by apply waiting_short; [|lia]|].
    by rewrite E0, <- E1, E0.
Qed.

Lemma SHA1Init_fed ctx : zlen (sha_buffer ctx) = 64 → sha1_fed [] (SHA1Init ctx).
Proof. intros. split; [by apply waiting_start|done]. Qed.

(** ** Padding and the digest *)

Lemma pad_test n : (Z.land (u32 (8 * n)) 504 =? 448) = (n mod 64 =? 56).
Proof.
  replace (Z.land (u32 (8 * n)) 504) with (8 * (n mod 64)).
  { destruct (Z.eqb_spec (8 * (n mod 64)) 448), (Z.eqb_spec (n mod 64) 56); lia || done. }
  replace (u32 (8 * n)) with (Z.shiftl (n mod 536870912) 3)
    by (rewrite Z.shiftl_mul_pow2 by lia; ulia).
  change 504 with (Z.shiftl (Z.ones 6) 3).
  rewrite <- Z.shiftl_land, Z.land_ones, Z.shiftl_mul_pow2 by lia. ulia.
Qed.

Lemma SHA1Final_pad_fed fuel m ctx : sha1_fed m ctx → (56 - zlen m) mod 64 ≤ Z.of_nat fuel →
  sha1_fed (m ++ zrepeat 0 ((56 - zlen m) mod 64)) (SHA1Final_pad fuel ctx).
Proof.
  revert m ctx. induction fuel as [|fuel IH]; intros m ctx Hf Hfuel; cbn [SHA1Final_pad].
  - replace ((56 - zlen m) mod 64) with 0 by ulia. by rewrite app_nil_r.
  - pose proof Hf as (_ & Hc0 & _). rewrite Hc0, pad_test.
    destruct (Z.eqb_spec (zlen m mod 64) 56).
    + replace ((56 - zlen m) mod 64) with 0 by ulia. by rewrite app_nil_r.
    + apply (SHA1Update_fed _ _ [0]) in Hf.
      assert (E : (56 - zlen (m ++ [0])) mod 64 = (56 - zlen m) mod 64 - 1)
        by (rewrite zlen_app; change (zlen [0]) with 1; ulia).
      specialize (IH _ _ Hf ltac:(lia)). rewrite E, <- app_assoc in IH.
      rewrite zrepeat_S by ulia. exact IH.
Qed.

Lemma shiftr_byte' v k : 0 ≤ k → u8 (Z.land (Z.shiftr v k) 255) = (v / 2 ^ k) mod 256.
Proof. intros. rewrite land_255, (u8_id (u8 _)), shiftr_byte by auto with words. done. Qed.

(** Byte [k] of a word, most significant first, as the code extracts it. *)
Definition word_byte (w k : Z) : Z := u8 (Z.land (Z.shiftr w ((3 - k) * 8)) 255).

Lemma word_bytes w :
  [word_byte w 0; word_byte w 1; word_byte w 2; word_byte w 3] = be_encode 4 w.
Proof.
  unfold word_byte. rewrite !shiftr_byte' by lia. unfold be_encode. cbn [le_encode rev app].
  rewrite !Z.div_div by lia. cbn. by rewrite Z.div_1_r.
Qed.

Lemma be_encode_u32 v : be_encode 4 (u32 v) = be_encode 4 v.
Proof. unfold be_encode. cbn [le_encode]. f_equal. repeat (apply (f_equal2 cons); [ulia|]). done. Qed.

Lemma be_encode_halves v : be_encode 8 v = be_encode 4 (v / 4294967296) ++ be_encode 4 v.
Proof. unfold be_encode. cbn [le_encode rev app]. by rewrite !Z.div_div by lia. Qed.

Lemma finalcount_bytes c0 c1 :
  (λ i : nat, let i := Z.of_nat i in
     u8 (Z.land (Z.shiftr (if 4 <=? i then c0 else c1) ((3 - Z.land i 3) * 8)) 255)) <$> seq 0 8
  = be_encode 4 c1 ++ be_encode 4 c0.
Proof. rewrite <- !word_bytes. reflexivity. Qed.

Lemma digest_bytes st : length st = 5%nat →
  (λ i : nat, let i := Z.of_nat i in
     u8 (Z.land (Z.shiftr (zget (Z.shiftr i 2) st) ((3 - Z.land i 3) * 8)) 255)) <$> seq 0 20
  = concat (be_encode 4 <$> st).
Proof.
  intros Hst. destruct st as [|z [|z0 [|z1 [|z2 [|z3 [|]]]]]]; try done.
  cbn [fmap list_fmap concat]. rewrite <- !word_bytes. reflexivity.
Qed.

Lemma SHA1Final_digest m ctx : sha1_fed m ctx → bytes_ok m →
  (SHA1Final ctx).1 = sha1_spec m.
Proof.
  intros Hf Hok. pose proof Hf as (_ & Hc0 & Hc1). unfold SHA1Final. cbn [fst].
  rewrite finalcount_bytes, Hc0, Hc1, !be_encode_u32, <- be_encode_halves.
  apply (SHA1Update_fed _ _ [128]), (SHA1Final_pad_fed 64) in Hf; [|ulia].
  apply (SHA1Update_fed _ _ (be_encode 8 (8 * zlen m))) in Hf.
  replace ((_ ++ _) ++ _) with (md_pad (be_encode 8 (8 * zlen m)) m) in Hf.
  2: { unfold md_pad, pad_zeros. rewrite <- !app_assoc, zlen_app. change (zlen [128]) with 1.
       by replace (56 - (zlen m + 1)) with (55 - zlen m) by lia. }
  destruct Hf as [[_ Hf] _].
  destruct (absorb_ext SHA1Transform sha1_block state_ok) with (st := sha1_iv)
    (l := md_pad (be_encode 8 (8 * zlen m)) m) as [E [Hst _]].
  - intros. rewrite SHA1Transform_eq by done. auto using sha1_block_ok.
  - split; [done|]. repeat constructor; ulia.
  - unfold md_pad. rewrite !bytes_ok_app. split_and!; auto using be_encode_ok.
    + repeat constructor; ulia.
    + apply Forall_replicate. ulia.
  - rewrite E in Hf. unfold sha1_spec. rewrite Hf in *. apply digest_bytes, Hst.
Qed.

Lemma SHA1Final_buffer ctx : sha_buffer (SHA1Final ctx).2 = zrepeat 0 64.
Proof. reflexivity. Qed.

(** [SHA1Transform], with its unrolled rounds on rotated registers and its
    circular sixteen-word schedule, is the block function of FIPS 180 on hosts
    of either byte order. *)
Theorem SHA1Transform_block st buffer : length st = 5%nat → Forall is_u32 st →
  zlen buffer = 64 → bytes_ok buffer →
  SHA1Transform st buffer = sha1_block st buffer.
Proof. intros. by apply SHA1Transform_eq. Qed.

(** C36. Feeding a context any sequence of pieces and finishing gives the SHA-1
    digest of their concatenation, the split count being the length in bits
    modulo 2^64. *)
Theorem SHA1_streaming ctx pieces : zlen (sha_buffer ctx) = 64 → Forall bytes_ok pieces →
  (SHA1Final (fold_left SHA1Update pieces (SHA1Init ctx))).1 = sha1_spec (concat pieces).
Proof.
  intros Hb Hok. apply SHA1Final_digest; auto.
  - assert (∀ m c, sha1_fed m c → sha1_fed (m ++ concat pieces) (fold_left SHA1Update pieces c)) as Hfold.
    { clear. induction pieces as [|p ps IH]; intros m c Hf; simpl; [by rewrite app_nil_r|].
      rewrite app_assoc. by apply IH, SHA1Update_fed. }
    by apply (Hfold []), SHA1Init_fed.
  - induction Hok; [constructor|]. by apply bytes_ok_app.
Qed.
End Correct.

Lemma SHA1Transform_block_witness :
  @SHA1Transform zero_platform sha1_iv (zrepeat 0 64) = sha1_block sha1_iv (zrepeat 0 64).
Proof.
  apply (@SHA1Transform_block zero_platform); try done.
  - repeat constructor; ulia.
  - apply Forall_replicate. ulia.
Defined.

Lemma SHA1_streaming_witness :
  (@SHA1Final zero_platform (fold_left (@SHA1Update zero_platform) [[97]; [98; 99]]
     (SHA1Init (mkSHA1 [] 0 0 (zrepeat 0 64))))).1 = sha1_spec [97; 98; 99].
Proof. apply (@SHA1_streaming zero_platform); [done|repeat constructor; ulia]. Defined.
