(* ===== verification/Md5.v ===== *)
(** * webrtc/base/md5.h and md5.cc

    MD5 as the source computes it: the sixty-four unrolled steps, the context
    whose input words alias the bytes that are copied in, byte reversal on
    big-endian hosts, and the in-place padding.  The transform is proved equal to
    RFC 1321, whose constants are recomputed from the sine function, and the
    context to the hash of the concatenation of what it was fed. *)

From S2P Require Import Prelude ByteOrder BlockHash.

(** ** The transform *)

Definition F1 (x y z : Z) : Z := Z.lxor z (Z.land x (Z.lxor y z)).
Definition F2 (x y z : Z) : Z := F1 z x y.
Definition F3 (x y z : Z) : Z := Z.lxor (Z.lxor x y) z.
Definition F4 (x y z : Z) : Z := Z.lxor y (Z.lor x (not32 z)).

(** [in[k] + t] is the data of a step; the registers are [r]. *)
Definition MD5STEP (f : Z → Z → Z → Z) (w x y z : nat) (k : nat) (t s : Z)
    (inw : list Z) (r : list Z) : list Z :=
  let reg n := nth n r 0 in
  let v := u32 (reg w + (f (reg x) (reg y) (reg z) + u32 (nth k inw 0 + t))) in
  let v := Z.lor (u32 (Z.shiftl v s)) (Z.shiftr v (32 - s)) in
  <[w := u32 (v + reg x)]> r.

Definition md5_steps : list (list Z → list Z → list Z) :=
  let a := 0%nat in let b := 1%nat in let c := 2%nat in let d := 3%nat in
  [
    MD5STEP F1 a b c d 0%nat 3614090360 7; MD5STEP F1 d a b c 1%nat 3905402710 12;
    MD5STEP F1 c d a b 2%nat 606105819 17; MD5STEP F1 b c d a 3%nat 3250441966 22;
    MD5STEP F1 a b c d 4%nat 4118548399 7; MD5STEP F1 d a b c 5%nat 1200080426 12;
    MD5STEP F1 c d a b 6%nat 2821735955 17; MD5STEP F1 b c d a 7%nat 4249261313 22;
    MD5STEP F1 a b c d 8%nat 1770035416 7; MD5STEP F1 d a b c 9%nat 2336552879 12;
    MD5STEP F1 c d a b 10%nat 4294925233 17; MD5STEP F1 b c d a 11%nat 2304563134 22;
    MD5STEP F1 a b c d 12%nat 1804603682 7; MD5STEP F1 d a b c 13%nat 4254626195 12;
    MD5STEP F1 c d a b 14%nat 2792965006 17; MD5STEP F1 b c d a 15%nat 1236535329 22;
    MD5STEP F2 a b c d 1%nat 4129170786 5; MD5STEP F2 d a b c 6%nat 3225465664 9;
    MD5STEP F2 c d a b 11%nat 643717713 14; MD5STEP F2 b c d a 0%nat 3921069994 20;
    MD5STEP F2 a b c d 5%nat 3593408605 5; MD5STEP F2 d a b c 10%nat 38016083 9;
    MD5STEP F2 c d a b 15%nat 3634488961 14; MD5STEP F2 b c d a 4%nat 3889429448 20;
    MD5STEP F2 a b c d 9%nat 568446438 5; MD5STEP F2 d a b c 14%nat 3275163606 9;
    MD5STEP F2 c d a b 3%nat 4107603335 14; MD5STEP F2 b c d a 8%nat 1163531501 20;
    MD5STEP F2 a b c d 13%nat 2850285829 5; MD5STEP F2 d a b c 2%nat 4243563512 9;
    MD5STEP F2 c d a b 7%nat 1735328473 14; MD5STEP F2 b c d a 12%nat 2368359562 20;
    MD5STEP F3 a b c d 5%nat 4294588738 4; MD5STEP F3 d a b c 8%nat 2272392833 11;
    MD5STEP F3 c d a b 11%nat 1839030562 16; MD5STEP F3 b c d a 14%nat 4259657740 23;
    MD5STEP F3 a b c d 1%nat 2763975236 4; MD5STEP F3 d a b c 4%nat 1272893353 11;
    MD5STEP F3 c d a b 7%nat 4139469664 16; MD5STEP F3 b c d a 10%nat 3200236656 23;
    MD5STEP F3 a b c d 13%nat 681279174 4; MD5STEP F3 d a b c 0%nat 3936430074 11;
    MD5STEP F3 c d a b 3%nat 3572445317 16; MD5STEP F3 b c d a 6%nat 76029189 23;
    MD5STEP F3 a b c d 9%nat 3654602809 4; MD5STEP F3 d a b c 12%nat 3873151461 11;
    MD5STEP F3 c d a b 15%nat 530742520 16; MD5STEP F3 b c d a 2%nat 3299628645 23;
    MD5STEP F4 a b c d 0%nat 4096336452 6; MD5STEP F4 d a b c 7%nat 1126891415 10;
    MD5STEP F4 c d a b 14%nat 2878612391 15; MD5STEP F4 b c d a 5%nat 4237533241 21;
    MD5STEP F4 a b c d 12%nat 1700485571 6; MD5STEP F4 d a b c 3%nat 2399980690 10;
    MD5STEP F4 c d a b 10%nat 4293915773 15; MD5STEP F4 b c d a 1%nat 2240044497 21;
    MD5STEP F4 a b c d 8%nat 1873313359 6; MD5STEP F4 d a b c 15%nat 4264355552 10;
    MD5STEP F4 c d a b 6%nat 2734768916 15; MD5STEP F4 b c d a 13%nat 1309151649 21;
    MD5STEP F4 a b c d 4%nat 4149444226 6; MD5STEP F4 d a b c 11%nat 3174756917 10;
    MD5STEP F4 c d a b 2%nat 718787259 15; MD5STEP F4 b c d a 9%nat 3951481745 21
  ].

Definition MD5Transform (buf inw : list Z) : list Z :=
  zip_with (λ s x, u32 (s + x)) buf (fold_left (λ r f, f inw r) md5_steps buf).

(** ** The context *)

Section Context.
Context `{Platform}.

(** [in] is the 64 bytes of memory that the sixteen words occupy. *)
Record MD5Context := mkMD5 {
  md_buf : list Z;
  md_bits0 : Z;
  md_bits1 : Z;
  md_in : list Z
}.

(** Nothing on a little-endian host. *)
Fixpoint ByteReverse_loop (n : nat) (i : Z) (mem : list Z) : list Z :=
  match n with
  | O => mem
  | S n' => ByteReverse_loop n' (i + 1) (splice (4 * i) (host_store 4 (GetLE32 mem (4 * i))) mem)
  end.
Definition ByteReverse (mem : list Z) (len : nat) : list Z :=
  if host_big_endian then ByteReverse_loop len 0 mem else mem.

Definition MD5Init (ctx : MD5Context) : MD5Context :=
  mkMD5 [1732584193; 4023233417; 2562383102; 271733878] 0 0 (md_in ctx).

(** [ByteReverse(ctx->in, 16); MD5Transform(ctx->buf, ctx->in);] *)
Definition reverse_transform (buf mem : list Z) : list Z * list Z :=
  let mem := ByteReverse mem 16 in
  (MD5Transform buf (words_of 16 host_load mem), mem).

(** The loop over whole blocks; every iteration takes 64 bytes of [data], whose
    length bounds the number of iterations. *)
Fixpoint MD5Update_loop (fuel : nat) (buf mem data : list Z) : list Z * list Z * list Z :=
  match fuel with
  | O => (buf, mem, data)
  | S f =>
      if 64 <=? zlen data then
        let '(buf, mem) := reverse_transform buf (splice 0 (ztake 64 data) mem) in
        MD5Update_loop f buf mem (zdrop 64 data)
      else (buf, mem, data)
  end.

Definition MD5Update (ctx : MD5Context) (data : list Z) : MD5Context :=
  let len := zlen data in
  let t := md_bits0 ctx in
  let bits0 := u32 (t + u32 (Z.shiftl (u32 len) 3)) in
  let bits1 := if bits0 <? t then u32 (md_bits1 ctx + 1) else md_bits1 ctx in
  let bits1 := u32 (bits1 + u32 (Z.shiftr len 29)) in
  let t := Z.land (Z.shiftr t 3) 63 in
  let finish buf mem data :=
    let '(buf, mem, data) := MD5Update_loop (length data) buf mem data in
    mkMD5 buf bits0 bits1 (splice 0 data mem) in
  if negb (t =? 0) then
    let p := t in
    let t := 64 - t in
    if len <? t then mkMD5 (md_buf ctx) bits0 bits1 (splice p data (md_in ctx))
    else
      let '(buf, mem) := reverse_transform (md_buf ctx) (splice p (ztake t data) (md_in ctx)) in
      finish buf mem (zdrop t data)
  else finish (md_buf ctx) (md_in ctx) data.

(** The digest, and the wiped context. *)
Definition MD5Final (ctx : MD5Context) : list Z * MD5Context :=
  let count := Z.land (Z.shiftr (md_bits0 ctx) 3) 63 in
  let mem := splice count [128] (md_in ctx) in
  let p := count + 1 in
  let count := 64 - 1 - count in
  let '(buf, mem) :=
    if count <? 8 then
      let '(buf, mem) := reverse_transform (md_buf ctx) (splice p (zrepeat 0 count) mem) in
      (buf, splice 0 (zrepeat 0 56) mem)
    else (md_buf ctx, splice p (zrepeat 0 (count - 8)) mem) in
  let mem := ByteReverse mem 14 in
  let mem := splice 56 (host_store 4 (md_bits0 ctx)) mem in
  let mem := splice 60 (host_store 4 (md_bits1 ctx)) mem in
  let buf := MD5Transform buf (words_of 16 host_load mem) in
  let digest := ByteReverse (concat (host_store 4 <$> buf)) 4 in
  (digest, mkMD5 (zrepeat 0 4) 0 0 (zrepeat 0 64)).
End Context.

(** Test vector of RFC 1321. *)
Example md5_abc :
  (@MD5Final zero_platform (@MD5Update zero_platform
     (MD5Init (mkMD5 [] 0 0 (zrepeat 0 64))) [97; 98; 99])).1 =
  [144; 1; 80; 152; 60; 210; 79; 176; 214; 150; 63; 125; 40; 225; 127; 114].
Proof. vm_compute. reflexivity. Qed.

(** ** RFC 1321 *)

(** [sin x] in fixed point with 256 fractional bits, by 150 terms of its series:
    for [x <= 64] the error is far below the 32 bits that are used. *)
Fixpoint sine_series (n : nat) (k x term acc : Z) : Z :=
  match n with
  | O => acc
  | S n' => sine_series n' (k + 2) x (- (term * x * x / ((k + 1) * (k + 2)))) (acc + term)
  end.
Definition sine (x : Z) : Z := sine_series 150 1 x (Z.shiftl x 256) 0.

(** The RFC's table: T[i] is the integer part of [4294967296 * abs(sin(i))]. *)
Definition md5_T : list Z :=
  (λ i, Z.shiftr (Z.abs (sine (Z.of_nat i))) 224) <$> seq 1 64.

Definition md5_F (i : nat) (x y z : Z) : Z :=
  if (i <? 16)%nat then Z.lor (Z.land x y) (Z.land (not32 x) z)
  else if (i <? 32)%nat then Z.lor (Z.land x z) (Z.land y (not32 z))
  else if (i <? 48)%nat then Z.lxor (Z.lxor x y) z
  else Z.lxor y (Z.lor x (not32 z)).
Definition md5_k (i : nat) : nat :=
  if (i <? 16)%nat then i
  else if (i <? 32)%nat then ((5 * i + 1) mod 16)%nat
  else if (i <? 48)%nat then ((3 * i + 5) mod 16)%nat
  else ((7 * i) mod 16)%nat.
Definition md5_s (i : nat) : Z :=
  nth (i mod 4) (if (i <? 16)%nat then [7; 12; 17; 22]
                 else if (i <? 32)%nat then [5; 9; 14; 20]
                 else if (i <? 48)%nat then [4; 11; 16; 23]
                 else [6; 10; 15; 21]) 0.

Definition md5_step (X : list Z) (s : Z * Z * Z * Z) (i : nat) : Z * Z * Z * Z :=
  let '(a, b, c, d) := s in
  (d, u32 (b + rol (u32 (a + md5_F i b c d + nth (md5_k i) X 0 + nth i md5_T 0)) (md5_s i)), b, c).

Definition md5_rounds (buf X : list Z) : list Z :=
  let '(a, b, c, d) :=
    fold_left (md5_step X) (seq 0 64) (nth 0 buf 0, nth 1 buf 0, nth 2 buf 0, nth 3 buf 0) in
  zip_with (λ s x, u32 (s + x)) buf [a; b; c; d].
Definition md5_block (buf block : list Z) : list Z :=
  md5_rounds buf (words_of 16 le_decode block).

Definition md5_iv : list Z := [1732584193; 4023233417; 2562383102; 271733878].

Definition md5_spec (m : list Z) : list Z :=
  concat (le_encode 4 <$>
    (absorb md5_block md5_iv (md_pad (le_encode 8 (8 * zlen m)) m)).1).

Example md5_spec_abc :
  md5_spec [97; 98; 99] = [144; 1; 80; 152; 60; 210; 79; 176; 214; 150; 63; 125; 40; 225; 127; 114].
Proof. vm_compute. reflexivity. Qed.

(** ** The unrolled steps *)

Definition md5_table : list Z := Eval vm_compute in md5_T.
Lemma md5_T_eq : md5_T = md5_table.
Proof. vm_compute. reflexivity. Qed.
#[local] Opaque md5_T.

Definition macro_F (i : nat) : Z → Z → Z → Z :=
  if (i <? 16)%nat then F1 else if (i <? 32)%nat then F2 else if (i <? 48)%nat then F3 else F4.

Lemma macro_F_spec i x y z : is_u32 x → is_u32 y → is_u32 z → macro_F i x y z = md5_F i x y z.
Proof.
  intros. unfold macro_F, md5_F, F2, F1, F3, F4.
  destruct (i <? 16)%nat, (i <? 32)%nat, (i <? 48)%nat; try done;
    (apply word_bits_inj; [by auto 10 with words..|]; intros j Hj;
     rewrite ?Z.lxor_spec, ?Z.lor_spec, ?Z.land_spec, ?Z.lxor_spec, ?not32_spec by done;
     by destruct (Z.testbit x j), (Z.testbit y j), (Z.testbit z j)).
Qed.

(** Step [i] works on registers rotated by [i] places. *)
Definition step_at (k i : nat) : list Z → list Z → list Z :=
  let p j := ((j + 3 * k) mod 4)%nat in
  MD5STEP (macro_F i) (p 0%nat) (p 1%nat) (p 2%nat) (p 3%nat) (md5_k i) (nth i md5_table 0) (md5_s i).

Lemma md5_steps_eq : md5_steps = (λ i, step_at i i) <$> seq 0 64.
Proof. reflexivity. Qed.

Definition md5_regs_at (k : nat) (s : Z * Z * Z * Z) : list Z :=
  let '(a, b, c, d) := s in let l := [a; b; c; d] in drop (k mod 4) l ++ take (k mod 4) l.
Definition md5_regs_ok (s : Z * Z * Z * Z) : Prop :=
  let '(a, b, c, d) := s in is_u32 a ∧ is_u32 b ∧ is_u32 c ∧ is_u32 d.

Lemma step_sum a f x t : u32 (a + (f + u32 (x + t))) = u32 (a + f + x + t).
Proof. ulia. Qed.

Lemma step_regs k i X s : md5_regs_ok s → (k < 4)%nat →
  step_at k i X (md5_regs_at k s) = md5_regs_at (S k) (md5_step X s i).
Proof.
  intros Hs Hk. destruct s as [[[a b] c] d]. destruct Hs as (?&?&?&?).
  assert (k = 0 ∨ k = 1 ∨ k = 2 ∨ k = 3)%nat as Hc by lia. clear Hk.
  unfold step_at, MD5STEP, md5_step, md5_regs_at. rewrite md5_T_eq.
  destruct Hc as [->|[->|[->| ->]]];
    cbn -[u32 Z.add macro_F md5_F nth md5_k md5_s md5_table Z.shiftl Z.shiftr];
    cbn [nth]; rewrite macro_F_spec, step_sum, (Z.add_comm b) by done; reflexivity.
Qed.

Lemma md5_step_ok X s i : md5_regs_ok s → md5_regs_ok (md5_step X s i).
Proof. destruct s as [[[a b] c] d]. intros (?&?&?&?). simpl. split_and!; auto with words. Qed.

Lemma step_spec i X s : md5_regs_ok s →
  step_at i i X (md5_regs_at i s) = md5_regs_at (S i) (md5_step X s i).
Proof.
  intros Hs. pose proof (Nat.mod_upper_bound i 4 ltac:(lia)) as Hi.
  pose proof (step_regs (i mod 4) i X s Hs Hi) as E. unfold step_at, md5_regs_at in *.
  rewrite !(Nat.Div0.add_mod _ (3 * (i mod 4))), !Nat.Div0.mul_mod_idemp_r, <- !Nat.Div0.add_mod,
    Nat.Div0.mod_mod in E.
  replace (S (i mod 4) mod 4)%nat with (S i mod 4)%nat in E; [exact E|].
  symmetry. apply (Nat.Div0.add_mod_idemp_r 1).
Qed.

Lemma steps_run n i X s : md5_regs_ok s →
  fold_left (λ r f, f X r) ((λ i, step_at i i) <$> seq i n) (md5_regs_at i s)
    = md5_regs_at (i + n) (fold_left (md5_step X) (seq i n) s).
Proof.
  revert i s. induction n as [|n IH]; intros i s Hs; [by rewrite Nat.add_0_r|].
  cbn [seq fmap list_fmap fold_left]. rewrite step_spec by done.
  rewrite IH by (by apply md5_step_ok). by rewrite <- Nat.add_succ_comm.
Qed.

Definition md5_state_ok (st : list Z) : Prop := length st = 4%nat ∧ Forall is_u32 st.

Lemma MD5Transform_eq buf X : md5_state_ok buf → MD5Transform buf X = md5_rounds buf X.
Proof.
  intros [Hl Hu]. destruct buf as [|a [|b [|c [|d [|]]]]]; try done. rewrite !Forall_cons in Hu.
  unfold MD5Transform, md5_rounds. rewrite md5_steps_eq.
  change [a; b; c; d] with (md5_regs_at 0 (a, b, c, d)) at 2.
  rewrite steps_run by (simpl; tauto). cbn [nth].
  destruct (fold_left (md5_step _) _ _) as [[[a' b'] c'] d']. done.
Qed.

Lemma md5_rounds_ok buf X : md5_state_ok buf → md5_state_ok (md5_rounds buf X).
Proof.
  intros [Hl Hu]. unfold md5_rounds. destruct (fold_left _ _ _) as [[[a' b'] c'] d'].
  destruct buf as [|a [|b [|c [|d [|]]]]]; try done.
  split; [done|]. repeat constructor; apply u32_range.
Qed.

#[local] Opaque md5_rounds MD5Transform.

Section Correct.
Context `{Platform}.

(** ** Byte reversal *)

Fixpoint rev4 (n : nat) (l : list Z) : list Z :=
  match n with
  | O => l
  | S n' => rev (ztake 4 l) ++ rev4 n' (zdrop 4 l)
  end.

Lemma zlen_rev4 n l : 4 * Z.of_nat n ≤ zlen l → zlen (rev4 n l) = zlen l.
Proof.
  revert l. induction n as [|n IH]; intros l Hl; cbn [rev4]; [done|].
  rewrite zlen_app, IH by zlia. unfold zlen at 1. rewrite length_rev. fold (zlen (ztake 4 l)). zlia.
Qed.

Lemma zlen_ByteReverse_loop n i mem : 0 ≤ i → 4 * (i + Z.of_nat n) ≤ zlen mem →
  zlen (ByteReverse_loop n i mem) = zlen mem.
Proof.
  revert i mem. induction n as [|n IH]; intros i mem Hi Hl; cbn [ByteReverse_loop]; [done|].
  assert (E : zlen (splice (4 * i) (host_store 4 (GetLE32 mem (4 * i))) mem) = zlen mem)
    by (rewrite zlen_splice; rewrite ?zlen_host_store; lia).
  rewrite IH; lia.
Qed.

Lemma zlen_rev (l : list Z) : zlen (rev l) = zlen l.
Proof. unfold zlen. by rewrite length_rev. Qed.

Lemma ByteReverse_loop_rev4 n i pre l k : host_big_endian = true → zlen pre = 4 * i →
  bytes_ok l → zlen l = 4 * Z.of_nat n →
  ByteReverse_loop n i (pre ++ l ++ k) = pre ++ rev4 n l ++ k.
Proof.
  intros Hbe. revert i pre l.
  induction n as [|n IH]; intros i pre l Hpre Hl Hlen; cbn [ByteReverse_loop rev4]; [done|].
  rewrite <- (ztake_zdrop 4 l) at 1 2. rewrite <- Hpre, <- app_assoc.
  rewrite GetLE32_at by (auto with words; zlia).
  replace (host_store 4 (le_decode (ztake 4 l))) with (rev (ztake 4 l)).
  2: { unfold host_store. rewrite Hbe. unfold be_encode.
       replace 4%nat with (length (ztake 4 l)) by (pose proof (zlen_ztake 4 l); unfold zlen in *; lia).
       by rewrite le_encode_decode by auto with words. }
  assert (Hr : zlen (rev (ztake 4 l)) = 4) by (rewrite zlen_rev; zlia).
  unfold splice. rewrite ztake_app_exact, zdrop_app_r, Hr by lia.
  replace (zlen pre + 4 - zlen pre) with 4 by lia. rewrite zdrop_app_exact by zlia.
  rewrite app_assoc, IH by (auto with words; zlia). by rewrite <- !app_assoc.
Qed.

Lemma words_of_rev4 n l : 4 * Z.of_nat n ≤ zlen l →
  words_of n be_decode (rev4 n l) = words_of n le_decode l.
Proof.
  revert l. induction n as [|n IH]; intros l Hl; cbn [words_of rev4]; [done|].
  assert (Hr : 4 = zlen (rev (ztake 4 l))) by (rewrite zlen_rev; zlia).
  rewrite ztake_app_exact, zdrop_app_exact, IH by (done || zlia).
  unfold be_decode. by rewrite rev_involutive.
Qed.

Lemma words_of_app n k load a b : zlen a = 4 * Z.of_nat n →
  words_of (n + k) load (a ++ b) = words_of n load a ++ words_of k load b.
Proof.
  revert a. induction n as [|n IH]; intros a Ha; cbn [words_of Nat.add].
  - by rewrite (zlen_0_nil a) by lia.
  - rewrite ztake_app_l, zdrop_app_l, IH by zlia. done.
Qed.

Lemma zlen_ByteReverse mem n : 4 * Z.of_nat n ≤ zlen mem → zlen (ByteReverse mem n) = zlen mem.
Proof.
  intros. unfold ByteReverse. destruct host_big_endian; [|done]. apply zlen_ByteReverse_loop; lia.
Qed.

(** After the reversal the host reads the words in the byte order of MD5; the
    rest of the memory is as it was. *)
Lemma ByteReverse_app n l k : zlen l = 4 * Z.of_nat n → bytes_ok l →
  ∃ l', ByteReverse (l ++ k) n = l' ++ k ∧ zlen l' = zlen l ∧
        words_of n host_load l' = words_of n le_decode l.
Proof.
  intros Hl Hok. unfold ByteReverse, host_load. destruct host_big_endian eqn:E; [|by exists l].
  exists (rev4 n l). pose proof (ByteReverse_loop_rev4 n 0 [] l k E) as Hrev.
  rewrite !app_nil_l in Hrev. by rewrite Hrev, zlen_rev4, words_of_rev4 by (done || lia).
Qed.

Lemma ByteReverse_words n mem : zlen mem = 4 * Z.of_nat n → bytes_ok mem →
  words_of n host_load (ByteReverse mem n) = words_of n le_decode mem.
Proof.
  intros Hl Hok. destruct (ByteReverse_app n mem []) as (l & E & _ & Hw); auto.
  rewrite !app_nil_r in E. by rewrite E.
Qed.

(** ** Incremental hashing *)

(** The transform of a block of bytes. *)
Definition block_transform (buf block : list Z) : list Z := (reverse_transform buf block).1.

Lemma block_transform_words buf block : zlen block = 64 → bytes_ok block →
  block_transform buf block = MD5Transform buf (words_of 16 le_decode block).
Proof.
  intros. unfold block_transform, reverse_transform. cbn [fst]. by rewrite ByteReverse_words.
Qed.
Lemma block_transform_eq buf block : md5_state_ok buf → zlen block = 64 → bytes_ok block →
  block_transform buf block = md5_block buf block.
Proof. intros. rewrite block_transform_words, MD5Transform_eq by done. reflexivity. Qed.

Lemma reverse_transform_eq buf block : zlen block = 64 →
  ∃ mem, reverse_transform buf block = (block_transform buf block, mem) ∧ zlen mem = 64.
Proof.
  intros. exists (ByteReverse block 16). unfold block_transform, reverse_transform. cbn [fst].
  split; [reflexivity|]. rewrite zlen_ByteReverse; lia.
Qed.

(** [ctx] has been fed [m]. *)
Definition md5_fed (m : list Z) (ctx : MD5Context) : Prop :=
  waiting block_transform md5_iv m (md_buf ctx) (md_in ctx) ∧
  md_bits0 ctx = u32 (8 * zlen m) ∧ md_bits1 ctx = u32 (8 * zlen m / 4294967296).

Lemma MD5Update_loop_absorb fuel buf mem data : zlen mem = 64 → zlen data ≤ Z.of_nat fuel →
  ∃ buf' mem' data', MD5Update_loop fuel buf mem data = (buf', mem', data') ∧
    absorb block_transform buf data = (buf', data') ∧ zlen mem' = 64.
Proof.
  revert buf mem data. induction fuel as [|fuel IH]; intros buf mem data Hm Hf; cbn [MD5Update_loop].
  - exists buf, mem, data. rewrite absorb_short by lia. done.
  - destruct (Z.leb_spec 64 (zlen data)).
    + assert (Hs : splice 0 (ztake 64 data) mem = ztake 64 data).
      { apply splice_whole; [done|]. zlia. }
      rewrite Hs. destruct (reverse_transform_eq buf (ztake 64 data)) as (mem1 & -> & Hm1); [zlia|].
      destruct (IH (block_transform buf (ztake 64 data)) mem1 (zdrop 64 data))
        as (buf' & mem' & data' & -> & Habs & Hm'); [done|zlia|].
      exists buf', mem', data'. split_and!; [done| |done].
      by rewrite <- (ztake_zdrop 64 data), absorb_block by zlia.
    + exists buf, mem, data. rewrite absorb_short by lia. done.
Qed.

Lemma MD5Update_fed m ctx data :
  md5_fed m ctx → md5_fed (m ++ data) (MD5Update ctx data).
Proof.
  intros (Hw & Hc0 & Hc1). pose proof Hw as [Hb _].
  pose proof (Z.mod_pos_bound (zlen m) 64 ltac:(lia)).
  unfold MD5Update. rewrite Hc0, Hc1, index_mod.
  replace (u32 (Z.shiftl (u32 (zlen data)) 3)) with (u32 (8 * zlen data))
    by (rewrite Z.shiftl_mul_pow2 by lia; ulia).
  rewrite carry_either, Z.shiftr_div_pow2 by (auto with words; lia).
  change (2 ^ 29) with 536870912.
  destruct (count_carry (zlen m) (zlen data)) as [E0 E1]; [apply zlen_nonneg..|].
  rewrite E1, E0. unfold md5_fed.
  destruct (Z.eqb_spec (zlen m mod 64) 0) as [Ez|Ez]; cbn [negb].
  - destruct (MD5Update_loop_absorb (length data) (md_buf ctx) (md_in ctx) data)
      as (buf' & mem' & data' & -> & Habs & Hm'); auto; [done|].
    rewrite zlen_app. split; [|done]. apply waiting_rest; [|done].
    by rewrite (waiting_aligned _ _ _ _ _ _ Hw).
  - destruct (Z.ltb_spec (zlen data) (64 - zlen m mod 64)).
    + rewrite zlen_app. split; [|done]. apply waiting_short; [done|lia].
    + destruct (reverse_transform_eq (md_buf ctx)
        (splice (zlen m mod 64) (ztake (64 - zlen m mod 64) data) (md_in ctx)))
        as (mem1 & -> & Hm1); [rewrite zlen_splice; zlia|].
      destruct (MD5Update_loop_absorb (length (zdrop (64 - zlen m mod 64) data))
        (block_transform (md_buf ctx) (splice (zlen m mod 64) (ztake (64 - zlen m mod 64) data) (md_in ctx)))
        mem1 (zdrop (64 - zlen m mod 64) data)) as (buf' & mem' & data' & -> & Habs & Hm'); auto; [done|].
      rewrite zlen_app. split; [|done]. apply waiting_rest; [|done].
      rewrite (waiting_fill _ _ _ _ _ _ Hw) by lia. done.
Qed.

Lemma MD5Init_fed ctx : zlen (md_in ctx) = 64 → md5_fed [] (MD5Init ctx).
Proof.
  intros. split; [by apply (waiting_start block_transform md5_iv (md_in ctx))|split; reflexivity].
Qed.

(** ** Padding and the digest *)

Lemma le_encode_u32 v : le_encode 4 (u32 v) = le_encode 4 v.
Proof. cbn [le_encode]. repeat (apply (f_equal2 cons); [ulia|]). done. Qed.
Lemma le_encode_halves v : le_encode 8 v = le_encode 4 v ++ le_encode 4 (v / 4294967296).
Proof. cbn [le_encode app]. by rewrite !Z.div_div by lia. Qed.

(** The two in-place stores of a final block: its first 56 bytes [a], and the
    count. *)
Lemma final_words a k c0 c1 : zlen a = 56 → bytes_ok a → zlen k = 8 → is_u32 c0 → is_u32 c1 →
  words_of 16 host_load (splice 60 (host_store 4 c1) (splice 56 (host_store 4 c0) (ByteReverse (a ++ k) 14)))
  = words_of 16 le_decode (a ++ le_encode 4 c0 ++ le_encode 4 c1).
Proof.
  intros Ha Hok Hk H0 H1. destruct (ByteReverse_app 14 a k) as (a' & -> & Ha' & Hw); auto.
  assert (E : splice 60 (host_store 4 c1) (splice 56 (host_store 4 c0) (a' ++ k))
              = a' ++ host_store 4 c0 ++ host_store 4 c1).
  { pose proof (zlen_host_store 4 c0). pose proof (zlen_host_store 4 c1).
    replace 60 with (56 + zlen (host_store 4 c0)) by lia.
    rewrite splice_adjacent by zlia. unfold splice. rewrite ztake_app_exact, zdrop_all by zlia.
    by rewrite app_nil_r. }
  rewrite E. change 16%nat with (14 + 2)%nat. rewrite !words_of_app, Hw by lia. f_equal.
  cbn [words_of].
  rewrite !ztake_app_exact, !zdrop_app_exact by (by rewrite ?zlen_host_store, ?zlen_le_encode).
  rewrite !ztake_all by (by rewrite ?zlen_host_store, ?zlen_le_encode).
  by rewrite !host_load_store, !le_decode_encode.
Qed.

(** The block or the two blocks that the padding completes. *)
Lemma MD5Final_blocks m st mem cnt : waiting block_transform md5_iv m st mem → bytes_ok m →
  zlen cnt = 8 →
  let c := zlen m mod 64 in
  let mem1 := splice c [128] mem in
  let '(buf, mem2) :=
    if 63 - c <? 8 then
      let '(buf, mem) := reverse_transform st (splice (c + 1) (zrepeat 0 (63 - c)) mem1) in
      (buf, splice 0 (zrepeat 0 56) mem)
    else (st, splice (c + 1) (zrepeat 0 (63 - c - 8)) mem1) in
  ∃ a k, mem2 = a ++ k ∧ zlen a = 56 ∧ bytes_ok a ∧ zlen k = 8 ∧
    absorb block_transform md5_iv (md_pad cnt m) = (block_transform buf (a ++ cnt), []).
Proof.
  intros Hw Hok Hcnt c mem1. pose proof Hw as [Hmem Habs].
  pose proof (Z.mod_pos_bound (zlen m) 64 ltac:(lia)) as Hc. fold c in Hc, Habs.
  assert (Hr : bytes_ok (ztake c mem)).
  { pose proof (absorb_rest_ok block_transform md5_iv m Hok) as Hr. by rewrite Habs in Hr. }
  assert (Hz : ∀ n, bytes_ok (128 :: zrepeat 0 n)).
  { intros. constructor; [ulia|]. apply Forall_replicate. ulia. }
  assert (Hsp : ∀ n, 0 ≤ n → c + 1 + n ≤ 64 → splice (c + 1) (zrepeat 0 n) mem1
            = (ztake c mem ++ 128 :: zrepeat 0 n) ++ zdrop (c + 1 + n) mem).
  { intros n Hn Hn'. unfold mem1. rewrite (splice_adjacent c [128]) by zlia. unfold splice.
    replace (c + zlen ([128] ++ zrepeat 0 n)) with (c + 1 + n) by zlia. by rewrite <- !app_assoc. }
  unfold md_pad, pad_zeros. rewrite absorb_app, Habs. cbn [fst snd].
  destruct (Z.ltb_spec (63 - c) 8).
  - rewrite Hsp, zdrop_all, app_nil_r by zlia.
    destruct (reverse_transform_eq st (ztake c mem ++ 128 :: zrepeat 0 (63 - c)))
      as (mem2 & -> & Hm2); [zlia|].
    exists (zrepeat 0 56), (zdrop 56 mem2). split_and!; [|done| |zlia|].
    { unfold splice. by rewrite (ztake_neg 0) by lia. }
    { apply Forall_replicate. ulia. }
    replace ((55 - zlen m) mod 64) with ((63 - c) + 56) by (subst c; ulia).
    unfold zrepeat at 1. rewrite Z2Nat.inj_add, replicate_add by lia.
    fold (zrepeat 0 (63 - c)) (zrepeat 0 56). rewrite <- !app_assoc. cbn [app].
    rewrite app_comm_cons, app_assoc, absorb_block by zlia.
    rewrite <- (app_nil_r cnt) at 1. rewrite app_assoc, absorb_block by zlia. by rewrite absorb_short.
  - rewrite Hsp by lia. exists (ztake c mem ++ 128 :: zrepeat 0 (55 - c)), (zdrop 56 mem).
    replace (63 - c - 8) with (55 - c) by lia. replace (c + 1 + (55 - c)) with 56 by lia.
    split_and!; [done|zlia| |zlia|].
    { rewrite bytes_ok_app. auto. }
    replace ((55 - zlen m) mod 64) with (55 - c) by (subst c; ulia).
    rewrite <- (app_nil_r cnt) at 1. cbn [app]. rewrite app_comm_cons, !app_assoc, absorb_block by zlia.
    by rewrite absorb_short, <- !app_assoc.
Qed.

Lemma digest_reverse buf : length buf = 4%nat → Forall is_u32 buf →
  ByteReverse (concat (host_store 4 <$> buf)) 4 = concat (le_encode 4 <$> buf).
Proof.
  intros Hl Hu. destruct buf as [|a [|b [|c [|d [|]]]]]; try done.
  unfold ByteReverse, host_store. destruct host_big_endian eqn:E; [|done].
  pose proof (ByteReverse_loop_rev4 4 0 [] (concat (be_encode 4 <$> [a; b; c; d])) [] E eq_refl) as Hrev.
  rewrite app_nil_l, !app_nil_r in Hrev. etransitivity; [apply Hrev|reflexivity]; [|reflexivity].
  cbn [fmap list_fmap concat]. rewrite !bytes_ok_app. split_and!; try apply be_encode_ok. constructor.
Qed.

Lemma MD5Final_digest m ctx : md5_fed m ctx → bytes_ok m → (MD5Final ctx).1 = md5_spec m.
Proof.
  intros (Hw & Hc0 & Hc1) Hok. unfold MD5Final. rewrite Hc0, Hc1, index_mod.
  pose proof (MD5Final_blocks m _ _ (le_encode 8 (8 * zlen m)) Hw Hok (zlen_le_encode _ _)) as Hbl.
  cbv zeta in Hbl. change (64 - 1) with 63.
  destruct (if _ <? 8 then _ else _) as [buf mem]. destruct Hbl as (a & k & -> & Ha & Hok' & Hk & Habs).
  rewrite final_words by auto with words. rewrite !le_encode_u32, <- le_encode_halves. cbn [fst].
  destruct (absorb_ext block_transform md5_block md5_state_ok) with (st := md5_iv)
    (l := md_pad (le_encode 8 (8 * zlen m)) m) as [E [Hst Hu]].
  - intros st b Hst Hb Hbk. split; [exact (block_transform_eq st b Hst Hb Hbk)|exact (md5_rounds_ok st _ Hst)].
  - split; [done|]. repeat constructor; ulia.
  - unfold md_pad. rewrite !bytes_ok_app. split_and!; auto using le_encode_ok.
    + repeat constructor; ulia.
    + apply Forall_replicate. ulia.
  - unfold md5_spec. rewrite <- E, Habs in *. cbn [fst] in *.
    rewrite <- block_transform_words; [by apply digest_reverse| |].
    + rewrite zlen_app, zlen_le_encode. lia.
    + rewrite bytes_ok_app. auto using le_encode_ok.
Qed.

Lemma MD5Final_wiped ctx : (MD5Final ctx).2 = mkMD5 (zrepeat 0 4) 0 0 (zrepeat 0 64).
Proof. unfold MD5Final. cbv zeta. by destruct (if _ <? 8 then _ else _). Qed.

(** The sixty-four unrolled steps of [MD5Transform], on words that the host
    reads after byte reversal, are the block function of RFC 1321 with the
    constants computed from the sine function. *)
Theorem MD5Transform_block buf block : length buf = 4%nat → Forall is_u32 buf →
  zlen block = 64 → bytes_ok block →
  (reverse_transform buf block).1 = md5_block buf block.
Proof. intros Hl Hu Hb Hok. exact (block_transform_eq buf block (conj Hl Hu) Hb Hok). Qed.

(** Feeding a context any sequence of pieces and finishing gives the MD5
    digest of their concatenation, on hosts of either byte order. *)
Theorem MD5_streaming ctx pieces : zlen (md_in ctx) = 64 → Forall bytes_ok pieces →
  (MD5Final (fold_left MD5Update pieces (MD5Init ctx))).1 = md5_spec (concat pieces).
Proof.
  intros Hb Hok. apply MD5Final_digest; auto.
  - assert (∀ m c, md5_fed m c → md5_fed (m ++ concat pieces) (fold_left MD5Update pieces c)) as Hfold.
    { clear. induction pieces as [|p ps IH]; intros m c Hf; simpl; [by rewrite app_nil_r|].
      rewrite app_assoc. by apply IH, MD5Update_fed. }
    by apply (Hfold []), MD5Init_fed.
  - induction Hok; [constructor|]. by apply bytes_ok_app.
Qed.
End Correct.

Lemma MD5Transform_block_witness :
  (@reverse_transform zero_platform md5_iv (zrepeat 0 64)).1 = md5_block md5_iv (zrepeat 0 64).
Proof.
  apply (@MD5Transform_block zero_platform); try done.
  - repeat constructor; ulia.
  - apply Forall_replicate. ulia.
Defined.

Lemma MD5_streaming_witness :
  (@MD5Final zero_platform (fold_left (@MD5Update zero_platform) [[97]; [98; 99]]
     (MD5Init (mkMD5 [] 0 0 (zrepeat 0 64))))).1 = md5_spec [97; 98; 99].
Proof. apply (@MD5_streaming zero_platform); [done|repeat constructor; ulia]. Defined.
