(* ===== verification/MessageDigest.v ===== *)
(** * webrtc/base/messagedigest.h and messagedigest.cc, sha1digest.h, md5digest.h

    The virtual class [MessageDigest] is the type class [MessageDigest]; what its
    users may rely on is [DigestLaws].  [ComputeDigest] and [ComputeHmac] are
    proved against these laws; [Sha1Digest] and [Md5Digest] discharge them.  The
    factory is the one of the build without OpenSSL. *)

From stdpp Require Import strings.
From S2P Require Import Prelude ByteOrder StringEncode BlockHash Sha1 Md5.

(** ** The interface *)

(** [Finish] gets the caller's buffer [out] and its length, and returns the
    number of bytes written, the buffer, and the digest object. *)
Class MessageDigest (D : Type) := {
  Size : D → Z;
  Update : D → list Z → D;
  Finish : D → list Z → Z → Z * list Z * D
}.

Definition kBlockSize : Z := 64.

Section Compute.
Context `{Platform} {D : Type} `{!MessageDigest D}.

Definition ComputeDigest (digest : D) (input output : list Z) (out_len : Z) : Z * list Z * D :=
  Finish (Update digest input) output out_len.

Definition ComputeHmac (digest : D) (key input output : list Z) (out_len : Z) : Z * list Z * D :=
  let block_len := kBlockSize in
  if 32 <? Size digest then (0, output, digest)
  else
    let new_key := fresh_block block_len in
    let '(new_key, digest) :=
      if block_len <? zlen key then
        let '(_, new_key, digest) := ComputeDigest digest key new_key block_len in
        (splice (Size digest) (zrepeat 0 (block_len - Size digest)) new_key, digest)
      else
        (splice (zlen key) (zrepeat 0 (block_len - zlen key)) (splice 0 key new_key), digest) in
    let o_pad := (λ b, Z.lxor 92 b) <$> new_key in
    let i_pad := (λ b, Z.lxor 54 b) <$> new_key in
    let inner := fresh_block (Size digest) in
    let digest := Update digest i_pad in
    let digest := Update digest input in
    let '(_, inner, digest) := Finish digest inner (Size digest) in
    let digest := Update digest o_pad in
    let digest := Update digest inner in
    Finish digest output out_len.

(** The versions for strings, whose result is hexadecimal. *)
Definition ComputeDigest_string (digest : D) (input : list Z) : list Z :=
  let '(_, output, _) := ComputeDigest digest input (fresh_block (Size digest)) (Size digest) in hex_encode output.
Definition ComputeHmac_string (digest : D) (key input : list Z) : list Z :=
  let '(_, output, _) := ComputeHmac digest key input (fresh_block (Size digest)) (Size digest) in hex_encode output.
End Compute.

(** ** What a digest promises *)

(** [hash] is the function computed and [fed d m] says that [m] is what [d] has
    been updated with since it was created or finished. *)
Class DigestLaws (D : Type) `{!MessageDigest D} (dsize : Z) (hash : list Z → list Z) := {
  fed : D → list Z → Prop;
  size_range : 0 < dsize ≤ 64;
  hash_length : ∀ m, zlen (hash m) = dsize;
  hash_bytes : ∀ m, bytes_ok (hash m);
  Size_law : ∀ d, Size d = dsize;
  Update_law : ∀ d m data, fed d m → bytes_ok m → bytes_ok data → fed (Update d data) (m ++ data);
  Finish_law : ∀ d m out len, fed d m → bytes_ok m → dsize ≤ len →
    ∃ d', Finish d out len = (dsize, splice 0 (hash m) out, d') ∧ fed d' [];
  Finish_short_law : ∀ d out len, len < dsize → Finish d out len = (0, out, d)
}.

(** RFC 2104 for a block size of 64 bytes. *)
Definition hmac_key (hash : list Z → list Z) (key : list Z) : list Z :=
  let k := if 64 <? zlen key then hash key else key in
  k ++ zrepeat 0 (64 - zlen k).
Definition hmac (hash : list Z → list Z) (key text : list Z) : list Z :=
  let k := hmac_key hash key in
  hash ((Z.lxor 92 <$> k) ++ hash ((Z.lxor 54 <$> k) ++ text)).

Lemma bytes_ok_lxor c l : is_u8 c → bytes_ok l → bytes_ok (Z.lxor c <$> l).
Proof. intros Hc Hl. apply Forall_fmap. eapply Forall_impl; [exact Hl|]. intros; simpl; auto with words. Qed.

#[export] Hint Resolve bytes_ok_lxor : words.

Section Laws.
Context `{Platform} {D : Type} {dsize : Z} {hash : list Z → list Z}.
Context `{!MessageDigest D, !DigestLaws D dsize hash}.

Lemma hmac_key_ok key : bytes_ok key → bytes_ok (hmac_key hash key).
Proof.
  intros. unfold hmac_key. rewrite bytes_ok_app.
  destruct (64 <? zlen key); split; auto with words. apply hash_bytes.
Qed.

(** A buffer of exactly the size of the digest is replaced. *)
Lemma Finish_exact d m out : fed d m → bytes_ok m → zlen out = dsize →
  ∃ d', Finish d out dsize = (dsize, hash m, d') ∧ fed d' [].
Proof.
  intros Hf Hm Ho. destruct (Finish_law d m out dsize Hf Hm ltac:(lia)) as (d' & E & Hd').
  exists d'. by rewrite E, splice_whole by (rewrite ?hash_length; done).
Qed.

(** The block-sized copy of the key. *)
Lemma key_block digest key : fed digest [] → bytes_ok key →
  ∃ d', (if kBlockSize <? zlen key then
           let '(_, new_key, d) := ComputeDigest digest key (fresh_block kBlockSize) kBlockSize in
           (splice (Size d) (zrepeat 0 (kBlockSize - Size d)) new_key, d)
         else
           (splice (zlen key) (zrepeat 0 (kBlockSize - zlen key)) (splice 0 key (fresh_block kBlockSize)), digest))
        = (hmac_key hash key, d') ∧ fed d' [].
Proof.
  intros Hf Hk. unfold hmac_key, ComputeDigest. change kBlockSize with 64.
  pose proof (zlen_fresh 64) as Hfr. pose proof size_range.
  destruct (Z.ltb_spec 64 (zlen key)).
  - destruct (Finish_law (Update digest key) key (fresh_block 64) 64) as (d' & -> & Hd'); [|done|lia|].
    { apply (Update_law _ [] key Hf); [constructor|done]. }
    exists d'. split; [|done]. rewrite Size_law, hash_length. f_equal.
    replace dsize with (0 + zlen (hash key)) at 1 by (rewrite hash_length; lia).
    rewrite splice_adjacent by (rewrite ?hash_length; zlia).
    apply splice_whole; [done|]. rewrite zlen_app, hash_length. zlia.
  - exists digest. split; [|done]. f_equal.
    replace (zlen key) with (0 + zlen key) at 1 by lia.
    rewrite splice_adjacent by zlia. apply splice_whole; [done|]. zlia.
Qed.

Lemma ComputeHmac_laws digest key input output out_len :
  fed digest [] → bytes_ok key → bytes_ok input → dsize ≤ 32 → dsize ≤ out_len →
  ∃ digest', ComputeHmac digest key input output out_len
               = (dsize, splice 0 (hmac hash key input) output, digest') ∧ fed digest' [].
Proof.
  intros Hf Hk Hi Hsize Hlen. unfold ComputeHmac.
  rewrite Size_law. destruct (Z.ltb_spec 32 dsize); [lia|].
  destruct (key_block digest key Hf Hk) as (d1 & -> & Hf1). pose proof (hmac_key_ok key Hk) as Hkey.
  set (ik := Z.lxor 54 <$> hmac_key hash key). set (ok := Z.lxor 92 <$> hmac_key hash key).
  assert (bytes_ok ik) by (apply bytes_ok_lxor; [ulia|done]).
  assert (bytes_ok ok) by (apply bytes_ok_lxor; [ulia|done]).
  assert (Hin : fed (Update (Update d1 ik) input) (ik ++ input)).
  { apply Update_law; auto. apply (Update_law _ [] ik Hf1); [constructor|done]. }
  rewrite !Size_law. pose proof size_range.
  destruct (Finish_exact _ _ (fresh_block dsize) Hin) as (d2 & -> & Hf2);
    [by rewrite bytes_ok_app|rewrite zlen_fresh; lia|].
  change (hmac hash key input) with (hash (ok ++ hash (ik ++ input))).
  pose proof (hash_bytes (ik ++ input)).
  apply Finish_law; [|by rewrite bytes_ok_app|done].
  apply Update_law; [|done..]. apply (Update_law _ [] ok Hf2); [constructor|done].
Qed.

(** C37. [ComputeHmac] over any implementation of the interface with a digest of
    at most 32 bytes writes the RFC 2104 HMAC of its input to the output buffer,
    returns the number of bytes, and leaves the digest ready for the next use. *)
Theorem ComputeHmac_rfc2104 digest key input output out_len :
  fed digest [] → bytes_ok key → bytes_ok input → dsize ≤ 32 → dsize ≤ out_len →
  ∃ digest', ComputeHmac digest key input output out_len
               = (dsize, splice 0 (hmac hash key input) output, digest') ∧ fed digest' [].
Proof. apply ComputeHmac_laws. Qed.

(** An output buffer that is too small stays as it was. *)
Lemma ComputeHmac_short digest key input output out_len :
  out_len < dsize → (ComputeHmac digest key input output out_len).1 = (0, output).
Proof.
  intros Hlen. unfold ComputeHmac. destruct (32 <? _); [done|].
  destruct (if kBlockSize <? zlen key then _ else _) as [k d].
  destruct (Finish _ _ _) as [[? inner] d']. by rewrite Finish_short_law.
Qed.
End Laws.

(** ** The two implementations *)

Section Implementations.
Context `{Platform}.

(** [SHA1_CTX ctx_] before the constructor's body runs. *)
Definition Sha1Digest_new : SHA1_CTX :=
  SHA1Init (mkSHA1 (fresh_block 5) (uninit 0) (uninit 1) (fresh_block 64)).

Definition Sha1Digest_Finish (ctx : SHA1_CTX) (buf : list Z) (len : Z) : Z * list Z * SHA1_CTX :=
  if len <? 20 then (0, buf, ctx)
  else let '(digest, ctx) := SHA1Final ctx in (20, splice 0 digest buf, SHA1Init ctx).

#[export] Instance Sha1Digest : MessageDigest SHA1_CTX := {
  Size _ := 20;
  Update := SHA1Update;
  Finish := Sha1Digest_Finish
}.

Definition Md5Digest_new : MD5Context :=
  MD5Init (mkMD5 (fresh_block 4) (uninit 0) (uninit 1) (fresh_block 64)).

Definition Md5Digest_Finish (ctx : MD5Context) (buf : list Z) (len : Z) : Z * list Z * MD5Context :=
  if len <? 16 then (0, buf, ctx)
  else let '(digest, ctx) := MD5Final ctx in (16, splice 0 digest buf, MD5Init ctx).

#[export] Instance Md5Digest : MessageDigest MD5Context := {
  Size _ := 16;
  Update := MD5Update;
  Finish := Md5Digest_Finish
}.

Lemma concat_bytes {A} (f : A → list Z) (n : nat) l :
  (∀ x, length (f x) = n) → (∀ x, bytes_ok (f x)) →
  zlen (concat (f <$> l)) = Z.of_nat n * zlen l ∧ bytes_ok (concat (f <$> l)).
Proof.
  intros Hn Hok. induction l as [|x l [IH1 IH2]]; [split; [zlia|constructor]|].
  cbn [fmap list_fmap concat]. rewrite zlen_app, bytes_ok_app, zlen_cons.
  change (list_fmap _ _ f l) with (f <$> l). rewrite IH1. unfold zlen at 1. rewrite Hn.
  split; [lia|auto].
Qed.

Lemma sha1_spec_shape m : zlen (sha1_spec m) = 20 ∧ bytes_ok (sha1_spec m).
Proof.
  unfold sha1_spec. destruct (concat_bytes (be_encode 4) 4
    (absorb sha1_block sha1_iv (md_pad (be_encode 8 (8 * zlen m)) m)).1) as [E Hok];
    [apply length_be_encode|apply be_encode_ok|].
  split; [|done]. rewrite E. unfold zlen. rewrite (absorb_inv _ (λ st, length st = 5%nat)); [done| |done].
  intros st b Hst. unfold sha1_block. destruct (fold_left _ _ _) as [[[[? ?] ?] ?] ?].
  rewrite length_zip_with, Hst. done.
Qed.

Lemma md5_spec_shape m : zlen (md5_spec m) = 16 ∧ bytes_ok (md5_spec m).
Proof.
  unfold md5_spec. destruct (concat_bytes (le_encode 4) 4
    (absorb md5_block md5_iv (md_pad (le_encode 8 (8 * zlen m)) m)).1) as [E Hok];
    [apply length_le_encode|apply le_encode_ok|].
  split; [|done]. rewrite E. unfold zlen. rewrite (absorb_inv _ (λ st, length st = 4%nat)); [done| |done].
  intros st b Hst. unfold md5_block, md5_rounds. destruct (fold_left _ _ _) as [[[? ?] ?] ?].
  rewrite length_zip_with, Hst. done.
Qed.

Lemma Sha1Digest_Finish_ok ctx m out len : sha1_fed m ctx → bytes_ok m → 20 ≤ len →
  ∃ ctx', Sha1Digest_Finish ctx out len = (20, splice 0 (sha1_spec m) out, ctx') ∧ sha1_fed [] ctx'.
Proof.
  intros Hf Hm Hlen. unfold Sha1Digest_Finish. destruct (Z.ltb_spec len 20); [lia|].
  exists (SHA1Init (SHA1Final ctx).2). split.
  - rewrite <- (SHA1Final_digest m ctx Hf Hm). by destruct (SHA1Final ctx).
  - apply SHA1Init_fed. by rewrite SHA1Final_buffer.
Qed.
Lemma Sha1Digest_Finish_short ctx out len : len < 20 → Sha1Digest_Finish ctx out len = (0, out, ctx).
Proof. intros. unfold Sha1Digest_Finish. by destruct (Z.ltb_spec len 20); [|lia]. Qed.

#[export] Program Instance Sha1Digest_laws : DigestLaws SHA1_CTX 20 sha1_spec := {
  fed ctx m := sha1_fed m ctx
}.
Solve Obligations with idtac.
Next Obligation. lia. Qed.
Next Obligation. intros. apply sha1_spec_shape. Qed.
Next Obligation. intros. apply sha1_spec_shape. Qed.
Next Obligation. done. Qed.
Next Obligation. intros. by apply SHA1Update_fed. Qed.
Next Obligation. exact Sha1Digest_Finish_ok. Qed.
Next Obligation. exact Sha1Digest_Finish_short. Qed.

Lemma Md5Digest_Finish_ok ctx m out len : md5_fed m ctx → bytes_ok m → 16 ≤ len →
  ∃ ctx', Md5Digest_Finish ctx out len = (16, splice 0 (md5_spec m) out, ctx') ∧ md5_fed [] ctx'.
Proof.
  intros Hf Hm Hlen. unfold Md5Digest_Finish. destruct (Z.ltb_spec len 16); [lia|].
  exists (MD5Init (MD5Final ctx).2). split.
  - rewrite <- (MD5Final_digest m ctx Hf Hm). by destruct (MD5Final ctx).
  - rewrite MD5Final_wiped. by apply MD5Init_fed.
Qed.
Lemma Md5Digest_Finish_short ctx out len : len < 16 → Md5Digest_Finish ctx out len = (0, out, ctx).
Proof. intros. unfold Md5Digest_Finish. by destruct (Z.ltb_spec len 16); [|lia]. Qed.

#[export] Program Instance Md5Digest_laws : DigestLaws MD5Context 16 md5_spec := {
  fed ctx m := md5_fed m ctx
}.
Solve Obligations with idtac.
Next Obligation. lia. Qed.
Next Obligation. intros. apply md5_spec_shape. Qed.
Next Obligation. intros. apply md5_spec_shape. Qed.
Next Obligation. done. Qed.
Next Obligation. intros. by apply MD5Update_fed. Qed.
Next Obligation. exact Md5Digest_Finish_ok. Qed.
Next Obligation. exact Md5Digest_Finish_short. Qed.

Lemma Sha1Digest_new_fed : fed Sha1Digest_new [].
Proof. apply SHA1Init_fed. cbn. rewrite zlen_fresh. done. Qed.
Lemma Md5Digest_new_fed : fed Md5Digest_new [].
Proof. apply MD5Init_fed. cbn. rewrite zlen_fresh. done. Qed.
End Implementations.

(** ** The factory and the functions that take the name of an algorithm *)

Definition DIGEST_MD5 : string := "md5".
Definition DIGEST_SHA_1 : string := "sha-1".
Definition DIGEST_SHA_224 : string := "sha-224".
Definition DIGEST_SHA_256 : string := "sha-256".
Definition DIGEST_SHA_384 : string := "sha-384".
Definition DIGEST_SHA_512 : string := "sha-512".

Definition IsFips180DigestAlgorithm (alg : string) : bool :=
  bool_decide (alg = DIGEST_SHA_1) || bool_decide (alg = DIGEST_SHA_224) ||
  bool_decide (alg = DIGEST_SHA_256) || bool_decide (alg = DIGEST_SHA_384) ||
  bool_decide (alg = DIGEST_SHA_512).

(** A pointer to one of the two classes. *)
Inductive AnyDigest := ADMd5 (ctx : MD5Context) | ADSha1 (ctx : SHA1_CTX).

Section Named.
Context `{Platform}.

Definition MessageDigestFactory_Create (alg : string) : option AnyDigest :=
  if bool_decide (alg = DIGEST_MD5) then Some (ADMd5 Md5Digest_new)
  else if bool_decide (alg = DIGEST_SHA_1) then Some (ADSha1 Sha1Digest_new)
  else None.

(** The object is destroyed when the function returns: the result is the return
    value and the output buffer. *)
Definition ComputeDigest_named (alg : string) (input output : list Z) (out_len : Z) : Z * list Z :=
  match MessageDigestFactory_Create alg with
  | Some (ADMd5 digest) => (ComputeDigest digest input output out_len).1
  | Some (ADSha1 digest) => (ComputeDigest digest input output out_len).1
  | None => (0, output)
  end.

Definition ComputeHmac_named (alg : string) (key input output : list Z) (out_len : Z) : Z * list Z :=
  match MessageDigestFactory_Create alg with
  | Some (ADMd5 digest) => (ComputeHmac digest key input output out_len).1
  | Some (ADSha1 digest) => (ComputeHmac digest key input output out_len).1
  | None => (0, output)
  end.

(** The versions for the name of an algorithm and strings; empty for an unknown name. *)
Definition ComputeDigest_hex (alg : string) (input : list Z) : list Z :=
  match MessageDigestFactory_Create alg with
  | Some (ADMd5 digest) => ComputeDigest_string digest input
  | Some (ADSha1 digest) => ComputeDigest_string digest input
  | None => []
  end.
Definition ComputeHmac_hex (alg : string) (key input : list Z) : list Z :=
  match MessageDigestFactory_Create alg with
  | Some (ADMd5 digest) => ComputeHmac_string digest key input
  | Some (ADSha1 digest) => ComputeHmac_string digest key input
  | None => []
  end.

Lemma ComputeHmac_run {D} `{!MessageDigest D} {dsize hash} `{!DigestLaws D dsize hash}
    (d : D) key input output out_len :
  fed d [] → bytes_ok key → bytes_ok input → dsize ≤ 32 → dsize ≤ out_len →
  (ComputeHmac d key input output out_len).1 = (dsize, splice 0 (hmac hash key input) output).
Proof. intros. destruct (ComputeHmac_laws d key input output out_len) as (d' & -> & _); auto. Qed.

Lemma ComputeDigest_run {D} `{!MessageDigest D} {dsize hash} `{!DigestLaws D dsize hash}
    (d : D) input output out_len :
  fed d [] → bytes_ok input → dsize ≤ out_len →
  (ComputeDigest d input output out_len).1 = (dsize, splice 0 (hash input) output).
Proof.
  intros Hf Hi Hlen. unfold ComputeDigest.
  destruct (Finish_law (Update d input) input output out_len) as (d' & -> & _); auto.
  apply (Update_law d [] input); auto. constructor.
Qed.

Lemma ComputeHmac_sha1 key input output out_len :
  bytes_ok key → bytes_ok input → 20 ≤ out_len →
  ComputeHmac_named DIGEST_SHA_1 key input output out_len
    = (20, splice 0 (hmac sha1_spec key input) output).
Proof. intros. apply (ComputeHmac_run Sha1Digest_new); auto using Sha1Digest_new_fed. lia. Qed.

Lemma ComputeHmac_md5_hex key input : bytes_ok key → bytes_ok input →
  ComputeHmac_hex DIGEST_MD5 key input = hex_text 0 (hmac md5_spec key input).
Proof.
  intros Hk Hi. unfold ComputeHmac_hex, ComputeHmac_string.
  change (MessageDigestFactory_Create DIGEST_MD5) with (Some (ADMd5 Md5Digest_new)). cbv beta iota.
  destruct (ComputeHmac_laws Md5Digest_new key input (fresh_block 16) 16) as (d & E & _);
    [apply Md5Digest_new_fed|done|done|lia|lia|].
  change (Size Md5Digest_new) with 16. rewrite E. unfold hex_encode.
  assert (zlen (hmac md5_spec key input) = 16) as Hl by apply (hash_length (D := MD5Context) (hash := md5_spec)).
  assert (splice 0 (hmac md5_spec key input) (fresh_block 16) = hmac md5_spec key input) as ->.
  { unfold splice. rewrite ztake_neg, zdrop_all by (rewrite ?zlen_fresh; lia). by rewrite app_nil_r. }
  apply hex_encode_text, (hash_bytes (D := MD5Context) (hash := md5_spec)).
Qed.

Lemma ComputeDigest_md5 input output out_len :
  bytes_ok input → 16 ≤ out_len →
  ComputeDigest_named DIGEST_MD5 input output out_len = (16, splice 0 (md5_spec input) output).
Proof. intros. apply (ComputeDigest_run Md5Digest_new); auto using Md5Digest_new_fed. Qed.

(** Hashing by the name of an algorithm: "md5" and "sha-1" give the digests
    of RFC 1321 and FIPS 180 in the output buffer, other names write nothing and
    return 0, and so does a buffer that is too small. *)
Theorem ComputeDigest_named_spec alg input output out_len : bytes_ok input →
  ComputeDigest_named alg input output out_len =
    if bool_decide (alg = DIGEST_MD5) && (16 <=? out_len) then (16, splice 0 (md5_spec input) output)
    else if bool_decide (alg = DIGEST_SHA_1) && (20 <=? out_len) then (20, splice 0 (sha1_spec input) output)
    else (0, output).
Proof.
  intros Hi. unfold ComputeDigest_named, MessageDigestFactory_Create.
  destruct (decide (alg = DIGEST_MD5)) as [->|Hm].
  - rewrite !bool_decide_eq_true_2 by done. cbn [andb].
    destruct (Z.leb_spec 16 out_len).
    + apply (ComputeDigest_run Md5Digest_new); auto using Md5Digest_new_fed.
    + unfold ComputeDigest. by rewrite Finish_short_law.
  - rewrite !(bool_decide_eq_false_2 (alg = DIGEST_MD5)) by done. cbn [andb].
    destruct (decide (alg = DIGEST_SHA_1)) as [->|Hs].
    + rewrite !bool_decide_eq_true_2 by done. cbn [andb]. destruct (Z.leb_spec 20 out_len).
      * apply (ComputeDigest_run Sha1Digest_new); auto using Sha1Digest_new_fed.
      * unfold ComputeDigest. by rewrite Finish_short_law.
    + by rewrite !bool_decide_eq_false_2.
Qed.
End Named.

Lemma ComputeDigest_named_spec_witness :
  @ComputeDigest_named zero_platform "sha-1" [97] (zrepeat 0 20) 20 =
    (20, splice 0 (sha1_spec [97]) (zrepeat 0 20)).
Proof. apply (@ComputeDigest_named_spec zero_platform). repeat constructor; ulia. Defined.

(** Test case 2 of RFC 2202. *)
Example hmac_sha1_rfc2202 :
  (@ComputeHmac_named zero_platform "sha-1" [74; 101; 102; 101]
     [119; 104; 97; 116; 32; 100; 111; 32; 121; 97; 32; 119; 97; 110; 116; 32;
      102; 111; 114; 32; 110; 111; 116; 104; 105; 110; 103; 63] (zrepeat 0 20) 20).2 =
  [239; 252; 223; 106; 229; 235; 47; 162; 210; 116; 22; 213; 241; 132; 223; 156; 37; 154; 124; 121].
Proof. vm_compute. reflexivity. Qed.

#[local] Existing Instance zero_platform.

Lemma ComputeHmac_rfc2104_witness :
  ∃ digest', ComputeHmac Sha1Digest_new [74; 101] [1] (zrepeat 0 20) 20
               = (20, splice 0 (hmac sha1_spec [74; 101] [1]) (zrepeat 0 20), digest') ∧ fed digest' [].
Proof.
  apply ComputeHmac_rfc2104; try lia.
  - exact Sha1Digest_new_fed.
  - repeat constructor; ulia.
  - repeat constructor; ulia.
Defined.
