(* ===== verification/Base64.v ===== *)
(** * Base64

    The encoder and the decoder of webrtc/base/base64.h and base64.cc, with the options
    of the decoder for illegal characters, padding and leftover bits. *)

From stdpp Require Import strings.
From S2P Require Import Prelude.

(** ** Tables *)

Definition kPad : Z := 61. (* '=' *)
Definition pd : Z := 253.
Definition sp : Z := 254.
Definition il : Z := 255.
Definition Base64Table : list Z := text "ABCDEFGHIJKLMNOPQRSTUVWXYZabcdefghijklmnopqrstuvwxyz0123456789+/".
Definition DecodeTable : list Z :=
  [il; il; il; il; il; il; il; il; il; sp; sp; sp; sp; sp; il; il;
   il; il; il; il; il; il; il; il; il; il; il; il; il; il; il; il;
   sp; il; il; il; il; il; il; il; il; il; il; 62; il; il; il; 63;
   52; 53; 54; 55; 56; 57; 58; 59; 60; 61; il; il; il; pd; il; il;
   il; 0; 1; 2; 3; 4; 5; 6; 7; 8; 9; 10; 11; 12; 13; 14;
   15; 16; 17; 18; 19; 20; 21; 22; 23; 24; 25; il; il; il; il; il;
   il; 26; 27; 28; 29; 30; 31; 32; 33; 34; 35; 36; 37; 38; 39; 40;
   41; 42; 43; 44; 45; 46; 47; 48; 49; 50; 51; il; il; il; il; il;
   il; il; il; il; il; il; il; il; il; il; il; il; il; il; il; il;
   il; il; il; il; il; il; il; il; il; il; il; il; il; il; il; il;
   il; il; il; il; il; il; il; il; il; il; il; il; il; il; il; il;
   il; il; il; il; il; il; il; il; il; il; il; il; il; il; il; il;
   il; il; il; il; il; il; il; il; il; il; il; il; il; il; il; il;
   il; il; il; il; il; il; il; il; il; il; il; il; il; il; il; il;
   il; il; il; il; il; il; il; il; il; il; il; il; il; il; il; il;
   il; il; il; il; il; il; il; il; il; il; il; il; il; il; il; il].

Definition IsBase64Char (ch : Z) : bool :=
  (65 <=? ch) && (ch <=? 90) || (97 <=? ch) && (ch <=? 122) || (48 <=? ch) && (ch <=? 57) || (ch =? 43) || (ch =? 47).
(** The character after [ch] in the table; the last one is followed by the first one.
    For the 0 that ends the table the source reads past it; the callers have a
    character of a string. *)
Definition GetNextBase64Char (ch : Z) : option Z :=
  match list_find (λ c, c = ch) Base64Table with
  | Some (i, _) => Some (match Base64Table !! S i with Some c => c | None => zget 0 Base64Table end)
  | None => None
  end.
Fixpoint IsBase64Encoded (str : list Z) : bool :=
  match str with
  | [] => true
  | c :: str => if negb (IsBase64Char c) then false else IsBase64Encoded str
  end.

(** ** Encoding *)

Definition tbl (c : Z) : Z := zget c Base64Table.
Fixpoint EncodeFromArray (byte_data : list Z) : list Z :=
  match byte_data with
  | [] => []
  | b0 :: data =>
      let c := Z.land (Z.shiftr b0 2) 63 in
      tbl c ::
      let c := Z.land (Z.shiftl b0 4) 63 in
      match data with
      | [] => [tbl c; kPad; kPad]
      | b1 :: data =>
          let c := Z.lor c (Z.land (Z.shiftr b1 4) 15) in
          tbl c ::
          let c := Z.land (Z.shiftl b1 2) 63 in
          match data with
          | [] => [tbl c; kPad]
          | b2 :: data =>
              let c := Z.lor c (Z.land (Z.shiftr b2 6) 3) in
              tbl c :: tbl (Z.land b2 63) :: EncodeFromArray data
          end
      end
  end.

(** ** Decoding *)

Definition DO_PARSE_STRICT : Z := 1.
Definition DO_PARSE_WHITE : Z := 2.
Definition DO_PARSE_ANY : Z := 3.
Definition DO_PARSE_MASK : Z := 3.
Definition DO_PAD_YES : Z := 4.
Definition DO_PAD_ANY : Z := 8.
Definition DO_PAD_NO : Z := 12.
Definition DO_PAD_MASK : Z := 12.
Definition DO_TERM_BUFFER : Z := 16.
Definition DO_TERM_CHAR : Z := 32.
Definition DO_TERM_ANY : Z := 48.
Definition DO_TERM_MASK : Z := 48.
Definition DO_STRICT : Z := Z.lor (Z.lor DO_PARSE_STRICT DO_PAD_YES) DO_TERM_BUFFER.
Definition DO_LAX : Z := Z.lor (Z.lor DO_PARSE_ANY DO_PAD_ANY) DO_TERM_CHAR.
(** The values of the options, in the order of the source. *)
Definition DecodeOption : list Z :=
  [DO_PARSE_STRICT; DO_PARSE_WHITE; DO_PARSE_ANY; DO_PARSE_MASK; DO_PAD_YES; DO_PAD_ANY; DO_PAD_NO; DO_PAD_MASK;
   DO_TERM_BUFFER; DO_TERM_CHAR; DO_TERM_ANY; DO_TERM_MASK; DO_STRICT; DO_LAX].

(** The loop that collects up to four characters from [data], which starts at [dpos].
    [qbuf] holds the first [byte_len] entries; the others are overwritten or cleared
    before they are used.  Results: the entries, pad_len, pad_start and dpos. *)
Fixpoint quantum_loop (parse_flags : Z) (illegal_pads : bool) (data : list Z) (dpos : Z) (qbuf : list Z)
    (pad_len pad_start : Z) : list Z * Z * Z * Z :=
  match data with
  | [] => (qbuf, pad_len, pad_start, dpos)
  | ch :: rest =>
      if negb (zlen qbuf <? 4) then (qbuf, pad_len, pad_start, dpos)
      else
        let stop := (qbuf, pad_len, pad_start, dpos) in
        let skip := quantum_loop parse_flags illegal_pads rest (dpos + 1) qbuf pad_len pad_start in
        let q := zget ch DecodeTable in
        if (il =? q) || illegal_pads && (pd =? q) then
          if negb (parse_flags =? DO_PARSE_ANY) then stop else skip
        else if sp =? q then
          if parse_flags =? DO_PARSE_STRICT then stop else skip
        else if pd =? q then
          if zlen qbuf <? 2 then
            if negb (parse_flags =? DO_PARSE_ANY) then stop else skip
          else if 4 <=? zlen qbuf + pad_len then
            if negb (parse_flags =? DO_PARSE_ANY) then stop else skip
          else
            quantum_loop parse_flags illegal_pads rest (dpos + 1) qbuf (pad_len + 1)
              (if 1 =? pad_len + 1 then dpos else pad_start)
        else if (0 <? pad_len) && negb (parse_flags =? DO_PARSE_ANY) then stop
        else quantum_loop parse_flags illegal_pads rest (dpos + 1) (qbuf ++ [q]) 0 pad_start
  end.
(** Results: byte_len, the four entries of qbuf, padded, and dpos. *)
Definition GetNextQuantum (parse_flags : Z) (illegal_pads : bool) (data : list Z) (dpos : Z) : Z * list Z * bool * Z :=
  let '(q, pad_len, pad_start, dpos) := quantum_loop parse_flags illegal_pads (zdrop dpos data) dpos [] 0 0 in
  let byte_len := zlen q in
  let qbuf := q ++ zrepeat 0 (4 - byte_len) in
  if 4 =? byte_len + pad_len then (byte_len, qbuf, true, dpos)
  else (byte_len, qbuf, false, if negb (pad_len =? 0) then pad_start else dpos).

(** The bytes of a quantum, and the bits that are left. *)
Definition quantum_bytes (qlen : Z) (qbuf : list Z) : list Z * Z :=
  let q i := zget i qbuf in
  let c0 := u8 (Z.lor (Z.shiftl (q 0) 2) (Z.land (Z.shiftr (q 1) 4) 3)) in
  if 2 <=? qlen then
    let c1 := Z.lor (Z.land (Z.shiftl (q 1) 4) 240) (Z.land (Z.shiftr (q 2) 2) 15) in
    if 3 <=? qlen then
      let c2 := u8 (Z.lor (Z.land (Z.shiftl (q 2) 6) 192) (q 3)) in
      if 4 <=? qlen then ([c0; c1; c2], 0) else ([c0; c1], c2)
    else ([c0], c1)
  else ([], c0).
(** The loop of the decoder: success, the result and data_used. *)
Fixpoint decode_loop (fuel : nat) (parse_flags pad_flags term_flags : Z) (data : list Z) (dpos : Z) (result : list Z)
    : option (bool * list Z * Z) :=
  match fuel with
  | O => None
  | S fuel =>
      if negb (dpos <? zlen data) then Some (true, result, dpos)
      else
        let '(qlen, qbuf, padded, dpos) := GetNextQuantum parse_flags (DO_PAD_NO =? pad_flags) data dpos in
        let '(bytes, c) := quantum_bytes qlen qbuf in
        let result := result ++ bytes in
        if qlen <? 4 then
          let success := negb (negb (DO_TERM_ANY =? term_flags) && negb (0 =? c)) in
          let success := success && negb ((DO_PAD_YES =? pad_flags) && negb padded) in
          Some (success, result, dpos)
        else decode_loop fuel parse_flags pad_flags term_flags data dpos result
  end.
Definition DecodeFromArray (data : list Z) (flags : Z) : option (bool * list Z * Z) :=
  let parse_flags := Z.land flags DO_PARSE_MASK in
  let pad_flags := Z.land flags DO_PAD_MASK in
  let term_flags := Z.land flags DO_TERM_MASK in
  '(success, result, dpos) ← decode_loop (S (length data)) parse_flags pad_flags term_flags data 0 [];
  Some (success && negb ((DO_TERM_BUFFER =? term_flags) && negb (dpos =? zlen data)), result, dpos).

(** ** The characters and their values *)

Definition is_value (v : Z) : Prop := 0 ≤ v < 64.
Lemma decode_tbl v : is_value v → zget (tbl v) DecodeTable = v.
Proof.
  intros Hv. apply Z.eqb_eq. revert Hv. apply (below_spec 64 (λ v, zget (tbl v) DecodeTable =? v)). by vm_compute.
Qed.
(** A byte is a character of the table, the pad, white space or illegal. *)
Lemma byte_class ch : is_u8 ch → let q := zget ch DecodeTable in
  (is_value q ∧ tbl q = ch) ∨ (q = pd ∧ ch = kPad) ∨ q = sp ∨ q = il.
Proof.
  intros Hc q.
  assert (Hb : ((q <? 64) && (0 <=? q) && (tbl q =? ch) || (q =? pd) && (ch =? kPad) || (q =? sp) || (q =? il)) = true).
  { unfold q. revert Hc. apply (below_spec 256 (λ ch, let q := zget ch DecodeTable in
      (q <? 64) && (0 <=? q) && (tbl q =? ch) || (q =? pd) && (ch =? kPad) || (q =? sp) || (q =? il))). by vm_compute. }
  rewrite !orb_true_iff, !andb_true_iff, !Z.eqb_eq, Z.ltb_lt, Z.leb_le in Hb. unfold is_value. lia.
Qed.
Lemma kPad_class : zget kPad DecodeTable = pd.
Proof. done. Qed.

(** The bits of three bytes and of four values. *)
Lemma enc_bits b0 b1 b2 : is_u8 b0 → is_u8 b1 → is_u8 b2 →
  Z.land (Z.shiftr b0 2) 63 = b0 / 4 ∧ Z.land (Z.shiftl b0 4) 63 = b0 mod 4 * 16 ∧
  Z.lor (Z.land (Z.shiftl b0 4) 63) (Z.land (Z.shiftr b1 4) 15) = b0 mod 4 * 16 + b1 / 16 ∧
  Z.land (Z.shiftl b1 2) 63 = b1 mod 16 * 4 ∧
  Z.lor (Z.land (Z.shiftl b1 2) 63) (Z.land (Z.shiftr b2 6) 3) = b1 mod 16 * 4 + b2 / 64 ∧ Z.land b2 63 = b2 mod 64.
Proof.
  intros H0 H1 H2. split_and!; apply Z.eqb_eq.
  - revert H0. apply (below_spec 256 (λ b, Z.land (Z.shiftr b 2) 63 =? b / 4)). by vm_compute.
  - revert H0. apply (below_spec 256 (λ b, Z.land (Z.shiftl b 4) 63 =? b mod 4 * 16)). by vm_compute.
  - revert H0 H1. apply (below2_spec 256 (λ a b, Z.lor (Z.land (Z.shiftl a 4) 63) (Z.land (Z.shiftr b 4) 15)
      =? a mod 4 * 16 + b / 16)). by vm_compute.
  - revert H1. apply (below_spec 256 (λ b, Z.land (Z.shiftl b 2) 63 =? b mod 16 * 4)). by vm_compute.
  - revert H1 H2. apply (below2_spec 256 (λ a b, Z.lor (Z.land (Z.shiftl a 2) 63) (Z.land (Z.shiftr b 6) 3)
      =? a mod 16 * 4 + b / 64)). by vm_compute.
  - revert H2. apply (below_spec 256 (λ b, Z.land b 63 =? b mod 64)). by vm_compute.
Qed.
Lemma dec_bits q0 q1 q2 q3 : is_value q0 → is_value q1 → is_value q2 → is_value q3 →
  u8 (Z.lor (Z.shiftl q0 2) (Z.land (Z.shiftr q1 4) 3)) = q0 * 4 + q1 / 16 ∧
  Z.lor (Z.land (Z.shiftl q1 4) 240) (Z.land (Z.shiftr q2 2) 15) = q1 mod 16 * 16 + q2 / 4 ∧
  u8 (Z.lor (Z.land (Z.shiftl q2 6) 192) q3) = q2 mod 4 * 64 + q3.
Proof.
  intros H0 H1 H2 H3. split_and!; apply Z.eqb_eq.
  - revert H0 H1. apply (below2_spec 64 (λ a b, u8 (Z.lor (Z.shiftl a 2) (Z.land (Z.shiftr b 4) 3)) =? a * 4 + b / 16)).
    by vm_compute.
  - revert H1 H2. apply (below2_spec 64 (λ a b, Z.lor (Z.land (Z.shiftl a 4) 240) (Z.land (Z.shiftr b 2) 15)
      =? a mod 16 * 16 + b / 4)). by vm_compute.
  - revert H2 H3. apply (below2_spec 64 (λ a b, u8 (Z.lor (Z.land (Z.shiftl a 6) 192) b) =? a mod 4 * 64 + b)).
    by vm_compute.
Qed.

(** ** What the encoder writes: four characters for three bytes *)

(** The values for the bytes of a group, which may be short. *)
Definition group_values (g : list Z) : list Z :=
  match g with
  | [b0] => [b0 / 4; b0 mod 4 * 16]
  | [b0; b1] => [b0 / 4; b0 mod 4 * 16 + b1 / 16; b1 mod 16 * 4]
  | [b0; b1; b2] => [b0 / 4; b0 mod 4 * 16 + b1 / 16; b1 mod 16 * 4 + b2 / 64; b2 mod 64]
  | _ => []
  end.
Definition group_text (g : list Z) : list Z :=
  (tbl <$> group_values g) ++ zrepeat kPad (3 - zlen g).

Lemma Encode_group g rest : bytes_ok g → zlen g = 3 ∨ (0 < zlen g < 3 ∧ rest = []) →
  EncodeFromArray (g ++ rest) = group_text g ++ EncodeFromArray rest.
Proof.
  intros Hg Hl. destruct g as [|b0 [|b1 [|b2 [|b3 g]]]]; rewrite ?zlen_cons in Hl; change (zlen []) with 0 in Hl;
    repeat (apply Forall_cons in Hg as [? Hg]); pose proof (zlen_nonneg (@nil Z)).
  - lia.
  - destruct Hl as [|[_ ->]]; [lia|]. destruct (enc_bits b0 0 0) as (E0 & E1 & _); [done..|]. cbn [app EncodeFromArray].
    by rewrite E0, E1.
  - destruct Hl as [|[_ ->]]; [lia|]. destruct (enc_bits b0 b1 0) as (E0 & _ & E1 & E2 & _); [done..|].
    cbn [app EncodeFromArray]. by rewrite E0, E1, E2.
  - destruct (enc_bits b0 b1 b2) as (E0 & _ & E1 & _ & E2 & E3); [done..|].
    cbn [app EncodeFromArray]. by rewrite E0, E1, E2, E3.
  - pose proof (zlen_nonneg g). lia.
Qed.
Lemma group_values_ok g : bytes_ok g → Forall is_value (group_values g).
Proof.
  intros Hg. unfold is_value. destruct g as [|b0 [|b1 [|b2 [|b3 g]]]]; cbn; repeat (apply Forall_cons in Hg as [? Hg]);
    repeat constructor; ulia.
Qed.
Lemma group_text_length g : 0 < zlen g ≤ 3 → zlen (group_text g) = 4 ∧ zlen (group_values g) = zlen g + 1.
Proof.
  intros Hl. destruct g as [|b0 [|b1 [|b2 [|b3 g]]]]; [change (zlen []) with 0 in Hl; lia|done..|].
  rewrite !zlen_cons in Hl. pose proof (zlen_nonneg g). lia.
Qed.

(** ** Decoding what was encoded *)

Lemma quantum_values pf ip vs : ∀ rest dpos q ps, Forall is_value vs → zlen q + zlen vs ≤ 4 →
  quantum_loop pf ip ((tbl <$> vs) ++ rest) dpos q 0 ps = quantum_loop pf ip rest (dpos + zlen vs) (q ++ vs) 0 ps.
Proof.
  induction vs as [|v vs IH]; intros rest dpos q ps Hvs Hl.
  - cbn [fmap list_fmap app]. change (zlen []) with 0. by rewrite Z.add_0_r, app_nil_r.
  - apply Forall_cons in Hvs as [Hv Hvs]. rewrite zlen_cons in *. pose proof (zlen_nonneg vs).
    cbn [fmap list_fmap app quantum_loop]. rewrite decode_tbl by done. unfold il, pd, sp, is_value in *.
    rewrite (proj2 (Z.ltb_lt (zlen q) 4)), !(proj2 (Z.eqb_neq _ v)) by lia. cbn. rewrite andb_false_r. cbn.
    rewrite IH; [|done|zlia]. rewrite <- app_assoc. f_equal. lia.
Qed.
Lemma quantum_full pf ip rest dpos q ps : zlen q = 4 → quantum_loop pf ip rest dpos q 0 ps = (q, 0, ps, dpos).
Proof. intros E. destruct rest; cbn [quantum_loop]; [done|]. by rewrite E. Qed.
Lemma quantum_pads pf dpos q n ps : 2 ≤ zlen q → zlen q + n = 4 → 0 < n →
  quantum_loop pf false (zrepeat kPad n) dpos q 0 ps = (q, n, dpos, dpos + n).
Proof.
  intros Hq Hn H0. assert (n = 1 ∨ n = 2) as [-> | ->] by lia.
  - change (zrepeat kPad 1) with [kPad]. cbn [quantum_loop]. rewrite kPad_class. by replace (zlen q) with 3 by lia.
  - change (zrepeat kPad 2) with [kPad; kPad]. cbn [quantum_loop]. rewrite kPad_class. replace (zlen q) with 2 by lia.
    cbn. by rewrite <- Z.add_assoc.
Qed.
Lemma GetNextQuantum_group pf ip pre g rest : bytes_ok g → zlen g = 3 ∨ (0 < zlen g < 3 ∧ rest = [] ∧ ip = false) →
  GetNextQuantum pf ip (pre ++ group_text g ++ rest) (zlen pre) =
    (zlen g + 1, group_values g ++ zrepeat 0 (3 - zlen g), true, zlen pre + 4).
Proof.
  intros Hg Hl. assert (0 < zlen g ≤ 3) as Hg3 by lia. destruct (group_text_length g Hg3) as [_ Hv].
  unfold GetNextQuantum. rewrite zdrop_app_exact by done. unfold group_text. rewrite <- app_assoc.
  rewrite quantum_values by (auto using group_values_ok; change (zlen []) with 0; lia). rewrite Hv. cbn [app].
  destruct Hl as [Hl|(Hl & -> & ->)].
  - rewrite Hl, quantum_full by lia. by rewrite Hv, Hl.
  - rewrite app_nil_r, quantum_pads by lia. rewrite Hv.
    replace (zlen g + 1 + (3 - zlen g)) with 4 by lia. cbn [Z.eqb Pos.eqb].
    replace (4 - (zlen g + 1)) with (3 - zlen g) by lia.
    by replace (zlen pre + (zlen g + 1) + (3 - zlen g)) with (zlen pre + 4) by lia.
Qed.

Lemma quantum_bytes_eq n q0 q1 q2 q3 : quantum_bytes n [q0; q1; q2; q3] =
  let c0 := u8 (Z.lor (Z.shiftl q0 2) (Z.land (Z.shiftr q1 4) 3)) in
  let c1 := Z.lor (Z.land (Z.shiftl q1 4) 240) (Z.land (Z.shiftr q2 2) 15) in
  let c2 := u8 (Z.lor (Z.land (Z.shiftl q2 6) 192) q3) in
  if 2 <=? n then if 3 <=? n then if 4 <=? n then ([c0; c1; c2], 0) else ([c0; c1], c2) else ([c0], c1) else ([], c0).
Proof. reflexivity. Qed.
Lemma quantum_bytes_group g : bytes_ok g → 0 < zlen g ≤ 3 →
  quantum_bytes (zlen g + 1) (group_values g ++ zrepeat 0 (3 - zlen g)) = (g, 0).
Proof.
  intros Hg Hl. pose proof (group_values_ok g Hg) as Hv.
  destruct g as [|b0 [|b1 [|b2 [|b3 g]]]]; [change (zlen []) with 0 in Hl; lia| | | |rewrite !zlen_cons in Hl; pose proof (zlen_nonneg g); lia];
    repeat (apply Forall_cons in Hg as [? Hg]); cbn [group_values] in Hv |- *; repeat (apply Forall_cons in Hv as [? Hv]).
  - change ([b0 / 4; b0 mod 4 * 16] ++ zrepeat 0 (3 - zlen [b0])) with [b0 / 4; b0 mod 4 * 16; 0; 0]. rewrite quantum_bytes_eq.
    destruct (dec_bits (b0 / 4) (b0 mod 4 * 16) 0 0) as (-> & -> & _); try done.
    replace (b0 / 4 * 4 + b0 mod 4 * 16 / 16) with b0 by ulia. by replace ((b0 mod 4 * 16) mod 16 * 16 + 0 / 4) with 0 by ulia.
  - set (q1 := b0 mod 4 * 16 + b1 / 16) in *.
    change ([b0 / 4; q1; b1 mod 16 * 4] ++ zrepeat 0 (3 - zlen [b0; b1])) with [b0 / 4; q1; b1 mod 16 * 4; 0]. rewrite quantum_bytes_eq.
    destruct (dec_bits (b0 / 4) q1 (b1 mod 16 * 4) 0) as (-> & -> & ->); try done. subst q1.
    replace (b0 / 4 * 4 + (b0 mod 4 * 16 + b1 / 16) / 16) with b0 by ulia.
    replace ((b0 mod 4 * 16 + b1 / 16) mod 16 * 16 + b1 mod 16 * 4 / 4) with b1 by ulia.
    by replace ((b1 mod 16 * 4) mod 4 * 64 + 0) with 0 by ulia.
  - set (q1 := b0 mod 4 * 16 + b1 / 16) in *. set (q2 := b1 mod 16 * 4 + b2 / 64) in *.
    change ([b0 / 4; q1; q2; b2 mod 64] ++ zrepeat 0 (3 - zlen [b0; b1; b2])) with [b0 / 4; q1; q2; b2 mod 64]. rewrite quantum_bytes_eq.
    destruct (dec_bits (b0 / 4) q1 q2 (b2 mod 64)) as (-> & -> & ->); try done. subst q1 q2.
    replace (b0 / 4 * 4 + (b0 mod 4 * 16 + b1 / 16) / 16) with b0 by ulia.
    replace ((b0 mod 4 * 16 + b1 / 16) mod 16 * 16 + (b1 mod 16 * 4 + b2 / 64) / 4) with b1 by ulia.
    by replace ((b1 mod 16 * 4 + b2 / 64) mod 4 * 64 + b2 mod 64) with b2 by ulia.
Qed.
Lemma decode_group fuel pf pad term pre g rest result :
  bytes_ok g → zlen g = 3 ∨ (0 < zlen g < 3 ∧ rest = [] ∧ pad ≠ DO_PAD_NO) →
  decode_loop (S fuel) pf pad term (pre ++ group_text g ++ rest) (zlen pre) result =
    if zlen g =? 3 then decode_loop fuel pf pad term (pre ++ group_text g ++ rest) (zlen pre + 4) (result ++ g)
    else Some (true, result ++ g, zlen pre + 4).
Proof.
  intros Hg Hl. assert (0 < zlen g ≤ 3) as Hg3 by lia. destruct (group_text_length g Hg3) as [Ht _].
  cbn [decode_loop]. rewrite (proj2 (Z.ltb_lt (zlen pre) _)) by (pose proof (zlen_nonneg rest); zlia). cbn [negb].
  rewrite GetNextQuantum_group; [|done|].
  2: { destruct Hl as [|(? & ? & ?)]; [by left|right]. split_and!; [lia|lia|done|]. apply Z.eqb_neq. done. }
  rewrite quantum_bytes_group by done. destruct (Z.eqb_spec (zlen g) 3) as [->|Hne]; [done|].
  rewrite (proj2 (Z.ltb_lt (zlen g + 1) 4)) by lia. cbn. by rewrite !andb_false_r.
Qed.

(** Induction by groups of three bytes. *)
Lemma groups_ind (P : list Z → Prop) : P [] → (∀ g, 0 < zlen g < 3 → P g) →
  (∀ g rest, zlen g = 3 → P rest → P (g ++ rest)) → ∀ data, P data.
Proof.
  intros H0 H1 H3 data. remember (length data) as n eqn:E. revert data E.
  induction (lt_wf n) as [n _ IH]. intros data ->. destruct data as [|b0 [|b1 [|b2 rest]]]; [done|by apply H1..|].
  apply (H3 [b0; b1; b2]); [done|]. eapply IH; [|done]. cbn. lia.
Qed.
Lemma decode_encode pf pad term data : pad ≠ DO_PAD_NO → bytes_ok data → ∀ fuel pre result,
  zlen (EncodeFromArray data) < Z.of_nat fuel →
  decode_loop fuel pf pad term (pre ++ EncodeFromArray data) (zlen pre) result =
    Some (true, result ++ data, zlen pre + zlen (EncodeFromArray data)).
Proof.
  intros Hpad. induction data as [|g Hg|g rest Hg IH] using groups_ind; intros Hok [|fuel] pre result Hf;
    try (pose proof (zlen_nonneg (EncodeFromArray data)); lia).
  - revert Hf. pose proof (zlen_nonneg (EncodeFromArray [])). lia.
  - cbn. rewrite !app_nil_r, Z.ltb_irrefl. by rewrite Z.add_0_r.
  - revert Hf. pose proof (zlen_nonneg (EncodeFromArray g)). lia.
  - pose proof (Encode_group g [] Hok ltac:(right; auto)) as E. rewrite app_nil_r in E. rewrite E in *. cbn [EncodeFromArray].
    rewrite decode_group by (auto; right; auto). rewrite (proj2 (Z.eqb_neq _ _)) by lia. rewrite app_nil_r.
    destruct (group_text_length g ltac:(lia)) as [-> _]. done.
  - revert Hf. pose proof (zlen_nonneg (EncodeFromArray (g ++ rest))). lia.
  - apply bytes_ok_app in Hok as [Hokg Hokr]. rewrite Encode_group in * by auto.
    destruct (group_text_length g ltac:(lia)) as [Ht _]. rewrite zlen_app in Hf.
    rewrite decode_group by auto. rewrite Hg. cbn [Z.eqb Pos.eqb]. rewrite app_assoc.
    replace (zlen pre + 4) with (zlen (pre ++ group_text g)) by zlia. rewrite IH by (auto; lia).
    rewrite <- app_assoc. do 2 f_equal. zlia.
Qed.

(** ** The strict decoder accepts only what the encoder writes *)

Lemma values_group vs g : Forall is_value vs → 2 ≤ zlen vs ≤ 4 →
  quantum_bytes (zlen vs) (vs ++ zrepeat 0 (4 - zlen vs)) = (g, 0) →
  bytes_ok g ∧ zlen g = zlen vs - 1 ∧ group_values g = vs.
Proof.
  intros Hv Hl. destruct vs as [|v0 [|v1 [|v2 [|v3 [|v4 vs]]]]];
    try (change (zlen []) with 0 in Hl; lia); try (change (zlen [v0]) with 1 in Hl; lia);
    repeat (apply Forall_cons in Hv as [? Hv]); unfold is_value in *.
  - change ([v0; v1] ++ zrepeat 0 (4 - zlen [v0; v1])) with [v0; v1; 0; 0]. rewrite quantum_bytes_eq.
    destruct (dec_bits v0 v1 0 0) as (-> & -> & _); [done..|]. cbn. intros [= <- Hc].
    split_and!; [repeat constructor; ulia|done|]. cbn [group_values]. repeat f_equal; ulia.
  - change ([v0; v1; v2] ++ zrepeat 0 (4 - zlen [v0; v1; v2])) with [v0; v1; v2; 0]. rewrite quantum_bytes_eq.
    destruct (dec_bits v0 v1 v2 0) as (-> & -> & ->); [done..|]. cbn. intros [= <- Hc].
    split_and!; [repeat constructor; ulia|done|]. cbn [group_values]. repeat f_equal; ulia.
  - change ([v0; v1; v2; v3] ++ zrepeat 0 (4 - zlen [v0; v1; v2; v3])) with [v0; v1; v2; v3]. rewrite quantum_bytes_eq.
    destruct (dec_bits v0 v1 v2 v3) as (-> & -> & ->); [done..|]. cbn. intros [= <-].
    split_and!; [repeat constructor; ulia|done|]. cbn [group_values]. repeat f_equal; ulia.
  - rewrite !zlen_cons in Hl. pose proof (zlen_nonneg vs). lia.
Qed.

(** What the strict loop has read: characters of the table, then pads. *)
Lemma strict_quantum data : ∀ dpos q pl ps q' pl' ps' dpos', bytes_ok data →
  quantum_loop DO_PARSE_STRICT false data dpos q pl ps = (q', pl', ps', dpos') →
  0 ≤ pl → (0 < pl → 2 ≤ zlen q) → zlen q + pl ≤ 4 →
  ∃ vs n rest, data = (tbl <$> vs) ++ zrepeat kPad n ++ rest ∧ Forall is_value vs ∧ 0 ≤ n ∧ (0 < pl → vs = []) ∧
    q' = q ++ vs ∧ pl' = pl + n ∧ dpos' = dpos + zlen vs + n ∧ (0 < pl' → 2 ≤ zlen q') ∧ zlen q' + pl' ≤ 4.
Proof.
  induction data as [|ch data IH]; intros dpos q pl ps q' pl' ps' dpos' Hok; cbn [quantum_loop];
    assert (∀ k, (q, pl, ps, dpos) = (q', pl', ps', dpos') → 0 ≤ pl → (0 < pl → 2 ≤ zlen q) → zlen q + pl ≤ 4 →
      ∃ vs n rest, k = (tbl <$> vs) ++ zrepeat kPad n ++ rest ∧ Forall is_value vs ∧ 0 ≤ n ∧ (0 < pl → vs = []) ∧
        q' = q ++ vs ∧ pl' = pl + n ∧ dpos' = dpos + zlen vs + n ∧ (0 < pl' → 2 ≤ zlen q') ∧ zlen q' + pl' ≤ 4) as Hstop.
  1, 3: intros k [= <- <- <- <-] ? ? ?; exists [], 0, k; change (zlen (@nil Z)) with 0; rewrite app_nil_r; split_and!; done || lia.
  { apply Hstop. }
  apply Forall_cons in Hok as [Hch Hok]. destruct (byte_class ch Hch) as [[Hv Et]|[[Eq Ec]|[Eq|Eq]]].
  - set (v := zget ch DecodeTable) in *. unfold is_value, il, pd, sp in *.
    rewrite !(proj2 (Z.eqb_neq _ v)) by lia. cbn [orb andb]. destruct (Z.ltb_spec (zlen q) 4) as [Hq|Hq]; cbn [negb]; [|apply Hstop].
    destruct (Z.ltb_spec 0 pl) as [Hp|Hp]; cbn [andb]; [apply Hstop|].
    intros E Hpl Hp2 Hs. apply IH in E as (vs & n & rest & -> & Hvs & Hn & _ & -> & -> & -> & Hp' & Hl'); [|done|done|lia|zlia].
    exists (v :: vs), n, rest. cbn [fmap list_fmap]. rewrite Et. split_and!; [done|by constructor|done|lia|by rewrite <- app_assoc|lia| |done|done].
    rewrite zlen_cons. lia.
  - rewrite Eq. cbn [Z.eqb Pos.eqb orb andb il sp pd]. destruct (Z.ltb_spec (zlen q) 4) as [Hq|Hq]; cbn [negb]; [|apply Hstop].
    destruct (Z.ltb_spec (zlen q) 2); [apply Hstop|]. destruct (Z.leb_spec 4 (zlen q + pl)); [apply Hstop|].
    intros E Hpl Hp2 Hs. apply IH in E as (vs & n & rest & -> & Hvs & Hn & Hnil & -> & -> & -> & Hp' & Hl'); [|done|lia|lia|lia].
    rewrite (Hnil ltac:(lia)) in *. exists [], (n + 1), rest. subst ch. cbn [fmap list_fmap app].
    split_and!; [|done|lia|done|done|lia|change (zlen (@nil Z)) with 0; lia|done|done].
    rewrite (zrepeat_S kPad (n + 1)) by lia. by replace (n + 1 - 1) with n by lia.
  - rewrite Eq. cbn. destruct (negb _); apply Hstop.
  - rewrite Eq. cbn. destruct (negb _); apply Hstop.
Qed.

Lemma decode_strict fuel : ∀ data dpos result r,
  bytes_ok data → 0 ≤ dpos ≤ zlen data →
  decode_loop fuel DO_PARSE_STRICT DO_PAD_YES DO_TERM_BUFFER data dpos result = Some (true, r, zlen data) →
  ∃ d, bytes_ok d ∧ r = result ++ d ∧ zdrop dpos data = EncodeFromArray d.
Proof.
  induction fuel as [|fuel IH]; intros data dpos result r Hok Hd; [done|]. cbn [decode_loop].
  destruct (Z.ltb_spec dpos (zlen data)) as [Hlt|Hge]; cbn [negb].
  2: { intros [= <- _]. exists []. rewrite app_nil_r, zdrop_all by lia. by split; [constructor|]. }
  unfold GetNextQuantum. change (DO_PAD_NO =? DO_PAD_YES) with false.
  destruct (quantum_loop _ _ _ _ _ _ _) as [[[q pl] ps] dpos'] eqn:Eq.
  apply strict_quantum in Eq as (vs & n & rest & Ed & Hvs & Hn & _ & Eq' & Epl & Edp & Hp2 & Hl);
    [|by apply bytes_ok_zdrop|done|done|change (zlen (@nil Z)) with 0; lia].
  cbn [app] in Eq'. rewrite Z.add_0_l in Epl. subst q pl dpos'.
  assert (zlen (zdrop dpos data) = zlen vs + n + zlen rest) as Hlen
    by (rewrite Ed, !zlen_app, zlen_map, zlen_zrepeat; lia).
  rewrite zlen_zdrop in Hlen. pose proof (zlen_nonneg rest). destruct (Z.eqb_spec 4 (zlen vs + n)) as [H4|H4].
  2: { cbv beta iota zeta. destruct (quantum_bytes (zlen vs) (vs ++ zrepeat 0 (4 - zlen vs))) as [bytes c]. destruct (Z.ltb_spec (zlen vs) 4); [|lia].
       intros [= E _ _]. by rewrite andb_false_r in E. }
  cbv beta iota zeta.
  destruct (quantum_bytes (zlen vs) (vs ++ zrepeat 0 (4 - zlen vs))) as [g c] eqn:Eg.
  assert (2 ≤ zlen vs ≤ 4) as Hvl by (destruct (Z.eqb_spec n 0); [lia|pose proof (Hp2 ltac:(lia)); lia]).
  destruct (Z.ltb_spec (zlen vs) 4) as [Hv4|Hv4].
  - cbn. rewrite andb_true_r. destruct c as [|c|c]; cbn; try done. intros [= <- Er].
    destruct (values_group vs g Hvs Hvl Eg) as (Hg & Hgl & Egv). exists g. split_and!; [done|done|].
    assert (rest = []) as -> by (apply zlen_0_nil; lia). rewrite Ed, app_nil_r.
    pose proof (Encode_group g [] Hg ltac:(right; split; [lia|done])) as E. rewrite !app_nil_r in E. rewrite E.
    unfold group_text. rewrite Egv. replace (3 - zlen g) with n by lia. done.
  - assert (n = 0) as -> by lia. assert (c = 0) as ->.
    { revert Eg. unfold quantum_bytes. replace (zlen vs) with 4 by lia. cbn. by intros [= _ <-]. }
    destruct (values_group vs g Hvs Hvl Eg) as (Hg & Hgl & Egv). intros E.
    apply IH in E as (d & Hd' & -> & Er); [|done|lia]. exists (g ++ d). rewrite <- app_assoc.
    split_and!; [by apply bytes_ok_app|done|]. rewrite Encode_group by (auto; left; lia).
    rewrite <- Er. unfold group_text. rewrite Egv, Hgl. replace (3 - (zlen vs - 1)) with 0 by lia. rewrite Ed.
    replace (dpos + zlen vs + 0) with (dpos + 4) in * by lia. rewrite app_nil_r.
    replace (zdrop (dpos + 4) data) with rest; [done|].
    replace (zdrop (dpos + 4) data) with (zdrop 4 (zdrop dpos data)) by (rewrite zdrop_zdrop by lia; f_equal; lia). rewrite Ed.
    change (zrepeat kPad 0 ++ rest) with rest. symmetry. apply zdrop_app_exact. rewrite zlen_map. lia.
Qed.

(** ** Properties *)


(** The strict decoder is exact: it accepts a text if and only if it is the encoding
    of the bytes it returns; no other text, however padded, spaced or extended, is
    accepted. *)
Theorem base64_strict_exact str data : bytes_ok str →
  (bytes_ok data ∧ str = EncodeFromArray data) ↔ DecodeFromArray str DO_STRICT = Some (true, data, zlen str).
Proof.
  intros Hok. split.
  - intros [Hd ->]. unfold DecodeFromArray. change (Z.land DO_STRICT DO_PARSE_MASK) with DO_PARSE_STRICT.
    change (Z.land DO_STRICT DO_PAD_MASK) with DO_PAD_YES. change (Z.land DO_STRICT DO_TERM_MASK) with DO_TERM_BUFFER.
    pose proof (decode_encode DO_PARSE_STRICT DO_PAD_YES DO_TERM_BUFFER data ltac:(done) Hd
      (S (length (EncodeFromArray data))) [] []) as E. cbn [app] in E. change (zlen (@nil Z)) with 0 in E.
    rewrite E by (unfold zlen; lia). cbn. by rewrite Z.eqb_refl.
  - unfold DecodeFromArray. change (Z.land DO_STRICT DO_PARSE_MASK) with DO_PARSE_STRICT.
    change (Z.land DO_STRICT DO_PAD_MASK) with DO_PAD_YES. change (Z.land DO_STRICT DO_TERM_MASK) with DO_TERM_BUFFER.
    destruct (decode_loop _ _ _ _ _ _ _) as [[[ok r] dpos]|] eqn:E; cbn; [|done].
    intros [= Es <- ->]. apply andb_true_iff in Es as [-> _]. pose proof (zlen_nonneg str).
    apply decode_strict in E as (d & Hd & -> & Ed); [|done|lia]. by rewrite zdrop_neg in Ed by lia.
Qed.

(** ** Witnesses *)

Definition sample_text : list Z := text "any carnal pleas".
Lemma base64_strict_exact_witness :
  bytes_ok sample_text ∧ text "YW55IGNhcm5hbCBwbGVhcw==" = EncodeFromArray sample_text ∧
  DecodeFromArray (text "YW55IGNhcm5hbCBwbGVhcx==") DO_STRICT = Some (false, sample_text, 24).
Proof.
  destruct (base64_strict_exact (text "YW55IGNhcm5hbCBwbGVhcw==") sample_text (text_ok _)) as [_ Hb].
  destruct (Hb ltac:(reflexivity)) as [Ho He]. split_and!; [exact Ho|exact He|reflexivity].
Defined.
