(* ===== verification/IpAddress.v ===== *)
(** * webrtc/base/ipaddress.h and ipaddress.cc, and the SocketAddress data of
    socketaddress.h and socketaddress.cc

    An address is its family and the sixteen bytes of the union, in network byte
    order.  Everything of ipaddress.cc that does not go through the C library's
    text conversion is modelled: comparison, classification, masks, prefixes and
    the IPv4-mapped form. *)

From S2P Require Import Prelude ByteOrder BlockHash.

Inductive Family := AF_UNSPEC | AF_INET | AF_INET6.

#[export] Instance Family_eq_dec : EqDecision Family.
Proof. solve_decision. Defined.

Record IPAddress := mkIP { family_ : Family; u_ : list Z }.

#[export] Instance IPAddress_eq_dec : EqDecision IPAddress.
Proof. solve_decision. Defined.

Definition IPAddress_unspec : IPAddress := mkIP AF_UNSPEC (zrepeat 0 16).
(** [IPAddress(in_addr)]: the union is cleared, then its first four bytes set. *)
Definition IPAddress_v4 (ip4 : list Z) : IPAddress := mkIP AF_INET (splice 0 ip4 (zrepeat 0 16)).
Definition IPAddress_v6 (ip6 : list Z) : IPAddress := mkIP AF_INET6 ip6.

Definition ipv6_address (ip : IPAddress) : list Z := u_ ip.
Definition ipv4_address (ip : IPAddress) : list Z := ztake 4 (u_ ip).

Definition in6addr_any : list Z := zrepeat 0 16.
Definition in6addr_loopback : list Z := zrepeat 0 15 ++ [1].
Definition INADDR_ANY : Z := 0.
Definition INADDR_LOOPBACK : Z := 2130706433. (* 127.0.0.1 *)

Definition kV4MappedPrefix : list Z := [0; 0; 0; 0; 0; 0; 0; 0; 0; 0; 255; 255; 0; 0; 0; 0].
Definition k6To4Prefix : list Z := [32; 2] ++ zrepeat 0 14.
Definition kTeredoPrefix : list Z := [32; 1; 0; 0] ++ zrepeat 0 12.
Definition kV4CompatibilityPrefix : list Z := zrepeat 0 16.
Definition k6BonePrefix : list Z := [63; 254] ++ zrepeat 0 14.

(** [memcmp] of blocks of the same length: negative, zero or positive. *)
Fixpoint memcmp (a b : list Z) : Z :=
  match a, b with
  | x :: a', y :: b' => if x =? y then memcmp a' b' else x - y
  | _, _ => 0
  end.

Section Operations.
Context `{Platform}.

(** [IPAddress(uint32 ip_in_host_byte_order)]. *)
Definition IPAddress_host (ip_in_host_byte_order : Z) : IPAddress :=
  IPAddress_v4 (host_store 4 (HostToNetwork32 ip_in_host_byte_order)).

(** The integer [s_addr] as the host reads it. *)
Definition s_addr (ip4 : list Z) : Z := host_load ip4.
(** [v6_as_ints[i]]. *)
Definition v6_as_int (i : Z) (ip6 : list Z) : Z := host_load (ztake 4 (zdrop (4 * i) ip6)).

Definition v4AddressAsHostOrderInteger (ip : IPAddress) : Z :=
  match family_ ip with
  | AF_INET => NetworkToHost32 (s_addr (ipv4_address ip))
  | _ => 0
  end.

Definition IPAddress_Size (ip : IPAddress) : Z :=
  match family_ ip with AF_INET => 4 | AF_INET6 => 16 | AF_UNSPEC => 0 end.

Definition ip_eq (a b : IPAddress) : bool :=
  if negb (bool_decide (family_ a = family_ b)) then false
  else match family_ a with
       | AF_INET => memcmp (ipv4_address a) (ipv4_address b) =? 0
       | AF_INET6 => memcmp (ipv6_address a) (ipv6_address b) =? 0
       | AF_UNSPEC => true
       end.

Definition ip_lt (a b : IPAddress) : bool :=
  if negb (bool_decide (family_ a = family_ b)) then
    match family_ a, family_ b with
    | AF_UNSPEC, _ => true
    | AF_INET, AF_INET6 => true
    | _, _ => false
    end
  else match family_ a with
       | AF_INET => NetworkToHost32 (s_addr (ipv4_address a)) <? NetworkToHost32 (s_addr (ipv4_address b))
       | AF_INET6 => memcmp (ipv6_address a) (ipv6_address b) <? 0
       | AF_UNSPEC => false
       end.

Definition ip_gt (a b : IPAddress) : bool := negb (ip_eq a b) && negb (ip_lt a b).

Definition IsPrivateV4 (ip_in_host_order : Z) : bool :=
  (Z.shiftr ip_in_host_order 24 =? 127) || (Z.shiftr ip_in_host_order 24 =? 10) ||
  (Z.shiftr ip_in_host_order 20 =? Z.lor (Z.shiftl 172 4) 1) ||
  (Z.shiftr ip_in_host_order 16 =? Z.lor (Z.shiftl 192 8) 168) ||
  (Z.shiftr ip_in_host_order 16 =? Z.lor (Z.shiftl 169 8) 254).

Definition ExtractMappedAddress (in6 : list Z) : list Z := ztake 4 (zdrop 12 in6).

(** [length] in bits, whole bytes compared. *)
Definition IPIsHelper (ip : IPAddress) (tomatch : list Z) (length : Z) : bool :=
  memcmp (ztake (Z.shiftr length 3) (ipv6_address ip)) (ztake (Z.shiftr length 3) tomatch) =? 0.
Definition IPIs6Bone (ip : IPAddress) : bool := IPIsHelper ip k6BonePrefix 16.
Definition IPIs6To4 (ip : IPAddress) : bool := IPIsHelper ip k6To4Prefix 16.
Definition IPIsSiteLocal (ip : IPAddress) : bool :=
  let addr := ipv6_address ip in
  (zget 0 addr =? 254) && (Z.land (zget 1 addr) 192 =? 192).
Definition IPIsULA (ip : IPAddress) : bool := Z.land (zget 0 (ipv6_address ip)) 254 =? 252.
Definition IPIsTeredo (ip : IPAddress) : bool := IPIsHelper ip kTeredoPrefix 32.
Definition IPIsV4Compatibility (ip : IPAddress) : bool := IPIsHelper ip kV4CompatibilityPrefix 96.
Definition IPIsV4Mapped (ip : IPAddress) : bool := IPIsHelper ip kV4MappedPrefix 96.

Definition Normalized (ip : IPAddress) : IPAddress :=
  match family_ ip with
  | AF_INET6 => if negb (IPIsV4Mapped ip) then ip else IPAddress_v4 (ExtractMappedAddress (u_ ip))
  | _ => ip
  end.

Definition AsIPv6Address (ip : IPAddress) : IPAddress :=
  match family_ ip with
  | AF_INET => IPAddress_v6 (splice 12 (ipv4_address ip) kV4MappedPrefix)
  | _ => ip
  end.

Definition IPIsAny (ip : IPAddress) : bool :=
  match family_ ip with
  | AF_INET => ip_eq ip (IPAddress_host INADDR_ANY)
  | AF_INET6 => ip_eq ip (IPAddress_v6 in6addr_any)
  | AF_UNSPEC => false
  end.

Definition IPIsLoopback (ip : IPAddress) : bool :=
  match family_ ip with
  | AF_INET => ip_eq ip (IPAddress_host INADDR_LOOPBACK)
  | AF_INET6 => ip_eq ip (IPAddress_v6 in6addr_loopback)
  | AF_UNSPEC => false
  end.

Definition IPIsPrivate (ip : IPAddress) : bool :=
  match family_ ip with
  | AF_INET => IsPrivateV4 (v4AddressAsHostOrderInteger ip)
  | AF_INET6 =>
      let v6 := ipv6_address ip in
      ((zget 0 v6 =? 254) && (zget 1 v6 =? 128)) || IPIsLoopback ip
  | AF_UNSPEC => false
  end.

Definition IPIsUnspec (ip : IPAddress) : bool := bool_decide (family_ ip = AF_UNSPEC).

Definition HashIP (ip : IPAddress) : Z :=
  match family_ ip with
  | AF_INET => s_addr (ipv4_address ip)
  | AF_INET6 =>
      let v6 := ipv6_address ip in
      Z.lxor (Z.lxor (Z.lxor (v6_as_int 0 v6) (v6_as_int 1 v6)) (v6_as_int 2 v6)) (v6_as_int 3 v6)
  | AF_UNSPEC => 0
  end.

(** The loop over the four words of an IPv6 address; [i] is the index of the
    first of the words that are left. *)
Fixpoint truncate_words (n : nat) (i position inner_mask : Z) (v6 : list Z) : list Z :=
  match n with
  | O => v6
  | S n' =>
      let v6 :=
        if i =? position then
          let host_order_inner := NetworkToHost32 (v6_as_int i v6) in
          splice (4 * i) (host_store 4 (HostToNetwork32 (Z.land host_order_inner inner_mask))) v6
        else if position <? i then splice (4 * i) (host_store 4 0) v6
        else v6 in
      truncate_words n' (i + 1) position inner_mask v6
  end.

Definition TruncateIP (ip : IPAddress) (length : Z) : IPAddress :=
  if length <? 0 then IPAddress_unspec
  else match family_ ip with
       | AF_INET =>
           if 31 <? length then ip
           else if length =? 0 then IPAddress_host INADDR_ANY
           else
             let mask := i32 (u32 (Z.shiftl 4294967295 (32 - length))) in
             let host_order_ip := NetworkToHost32 (s_addr (ipv4_address ip)) in
             IPAddress_v4 (host_store 4 (HostToNetwork32 (Z.land host_order_ip (u32 mask))))
       | AF_INET6 =>
           if 127 <? length then ip
           else if length =? 0 then IPAddress_v6 in6addr_any
           else
             let position := length / 32 in
             let inner_length := 32 - (length - position * 32) in
             let inner_mask := u32 (Z.shiftl 4294967295 inner_length) in
             IPAddress_v6 (truncate_words 4 0 position inner_mask (ipv6_address ip))
       | AF_UNSPEC => IPAddress_unspec
       end.

(** The first of the words from [i] that is not all ones. *)
Fixpoint first_partial (n : nat) (i : Z) (v6 : list Z) : Z :=
  match n with
  | O => i
  | S n' => if negb (v6_as_int i v6 =? 4294967295) then i else first_partial n' (i + 1) v6
  end.

(** Counts the zeros at the end of the word. *)
Definition trailing_zeroes (word_to_count : Z) : Z :=
  let w := Z.land word_to_count (u32 (- i32 word_to_count)) in
  let nz m := negb (Z.land w m =? 0) in
  let zeroes := 32 in
  let zeroes := if negb (w =? 0) then zeroes - 1 else zeroes in
  let zeroes := if nz 65535 then zeroes - 16 else zeroes in
  let zeroes := if nz 16711935 then zeroes - 8 else zeroes in
  let zeroes := if nz 252645135 then zeroes - 4 else zeroes in
  let zeroes := if nz 858993459 then zeroes - 2 else zeroes in
  if nz 1431655765 then zeroes - 1 else zeroes.

Definition CountIPMaskBits (mask : IPAddress) : Z :=
  let count word_to_count bits :=
    if word_to_count =? 0 then bits else bits + (32 - trailing_zeroes word_to_count) in
  match family_ mask with
  | AF_INET => count (NetworkToHost32 (s_addr (ipv4_address mask))) 0
  | AF_INET6 =>
      let v6 := ipv6_address mask in
      let i := first_partial 4 0 v6 in
      count (if i <? 4 then NetworkToHost32 (v6_as_int i v6) else 0) (i * 32)
  | AF_UNSPEC => 0
  end.

Definition IPAddressPrecedence (ip : IPAddress) : Z :=
  match family_ ip with
  | AF_INET => 30
  | AF_INET6 =>
      if IPIsLoopback ip then 60
      else if IPIsULA ip then 50
      else if IPIsV4Mapped ip then 30
      else if IPIs6To4 ip then 20
      else if IPIsTeredo ip then 10
      else if IPIsV4Compatibility ip || IPIsSiteLocal ip || IPIs6Bone ip then 1
      else 40
  | AF_UNSPEC => 0
  end.
End Operations.

(** ** Socket addresses *)

(** The protocols of sockets, from portinterface.h. *)
Inductive ProtocolType := PROTO_UDP | PROTO_TCP | PROTO_SSLTCP.
#[export] Instance ProtocolType_eq_dec : EqDecision ProtocolType.
Proof. solve_decision. Defined.
Definition proto_value (p : ProtocolType) : Z := match p with PROTO_UDP => 0 | PROTO_TCP => 1 | PROTO_SSLTCP => 2 end.

Record SocketAddress := mkSocketAddress {
  hostname_ : list Z;
  ip_ : IPAddress;
  port_ : Z;
  scope_id_ : Z;
  literal_ : bool
}.

#[export] Instance SocketAddress_eq_dec : EqDecision SocketAddress.
Proof. solve_decision. Defined.

Definition SocketAddress_Clear : SocketAddress := mkSocketAddress [] IPAddress_unspec 0 0 false.
Definition SocketAddress_SetIP (addr : SocketAddress) (ip : IPAddress) : SocketAddress :=
  mkSocketAddress [] ip (port_ addr) 0 false.
Definition SocketAddress_SetPort (addr : SocketAddress) (port : Z) : SocketAddress :=
  mkSocketAddress (hostname_ addr) (ip_ addr) (u16 port) (scope_id_ addr) (literal_ addr).
(** [SocketAddress(ip, port)]. *)
Definition SocketAddress_of (ip : IPAddress) (port : Z) : SocketAddress :=
  SocketAddress_SetPort (SocketAddress_SetIP SocketAddress_Clear ip) port.

(** SocketAddress::operator==. *)
Definition SocketAddress_eqb `{Platform} (a b : SocketAddress) : bool :=
  (ip_eq (ip_ a) (ip_ b) && ((negb (IPIsAny (ip_ a)) && negb (IPIsUnspec (ip_ a))) || bool_decide (hostname_ a = hostname_ b))) &&
  (port_ a =? port_ b).

(** The order of std::string. *)
Fixpoint string_lt (a b : list Z) : bool :=
  match a, b with
  | _, [] => false
  | [], _ :: _ => true
  | x :: a, y :: b => if x =? y then string_lt a b else x <? y
  end.
(** SocketAddress::operator<. *)
Definition SocketAddress_lt `{Platform} (a b : SocketAddress) : bool :=
  if negb (ip_eq (ip_ a) (ip_ b)) then ip_lt (ip_ a) (ip_ b)
  else if (IPIsAny (ip_ a) || IPIsUnspec (ip_ a)) && negb (bool_decide (hostname_ a = hostname_ b))
  then string_lt (hostname_ a) (hostname_ b)
  else port_ a <? port_ b.

(** Whether a port with the address [ip] can send to the other one; from port.cc. *)
Definition IsCompatibleAddress `{Platform} (ip : IPAddress) (addr : SocketAddress) : bool :=
  let family := family_ ip in
  if negb (bool_decide (family_ (ip_ addr) = family)) then false
  else if bool_decide (family = AF_INET6) && negb (Bool.eqb (IPIsPrivate ip) (IPIsPrivate (ip_ addr))) then false
  else true.

(** ** Well-formed addresses *)

Definition ip_ok (ip : IPAddress) : Prop :=
  zlen (u_ ip) = 16 ∧ bytes_ok (u_ ip) ∧
  match family_ ip with
  | AF_UNSPEC => u_ ip = zrepeat 0 16
  | AF_INET => zdrop 4 (u_ ip) = zrepeat 0 12
  | AF_INET6 => True
  end.

(** ** Addresses as integers *)

Lemma le_decode_app l k : le_decode (l ++ k) = le_decode l + 256 ^ zlen l * le_decode k.
Proof.
  induction l as [|x l IH]; cbn [app le_decode]; [change (256 ^ zlen []) with 1; lia|].
  rewrite IH, zlen_cons, Z.pow_add_r by zlia. lia.
Qed.
Lemma be_decode_app l k : be_decode (l ++ k) = be_decode l * 256 ^ zlen k + be_decode k.
Proof.
  unfold be_decode. rewrite rev_app_distr, le_decode_app. unfold zlen. rewrite length_rev. lia.
Qed.
Lemma be_decode_cons x l : be_decode (x :: l) = x * 256 ^ zlen l + be_decode l.
Proof.
  change (x :: l) with ([x] ++ l). rewrite be_decode_app. unfold be_decode at 1.
  cbn [rev app le_decode]. lia.
Qed.

Lemma memcmp_decode a b : zlen a = zlen b → bytes_ok a → bytes_ok b →
  (memcmp a b = 0 ↔ a = b) ∧ (memcmp a b < 0 ↔ be_decode a < be_decode b).
Proof.
  revert b. induction a as [|x a IH]; intros [|y b] Hl Ha Hb;
    rewrite ?zlen_cons, ?zlen_nil in Hl; try zlia; [done|].
  apply Forall_cons in Ha as [Hx Ha]. apply Forall_cons in Hb as [Hy Hb].
  destruct (IH b) as [IH1 IH2]; auto; [lia|]. cbn [memcmp]. rewrite !be_decode_cons.
  replace (zlen a) with (zlen b) by lia.
  destruct (Z.eqb_spec x y) as [->|Hxy].
  - split; [|rewrite IH2; lia]. rewrite IH1. split; [intros ->; done|]. by injection 1.
  - split; [split; [lia|]; by injection 1|].
    pose proof (be_decode_range a Ha) as Hra. pose proof (be_decode_range b Hb) as Hrb.
    replace (zlen a) with (zlen b) in Hra by lia. split; intros; nia.
Qed.

(** The order of the addresses: the family first, then the bytes. *)
Definition ip_value (ip : IPAddress) : Z :=
  match family_ ip with
  | AF_UNSPEC => 0
  | AF_INET => be_decode (ipv4_address ip)
  | AF_INET6 => be_decode (ipv6_address ip)
  end.
Definition ip_key (ip : IPAddress) : Z :=
  match family_ ip with AF_UNSPEC => 0 | AF_INET => 1 | AF_INET6 => 2 end * 2 ^ 128 + ip_value ip.

Section Facts.
Context `{Platform}.

Lemma s_addr_host ip4 : zlen ip4 = 4 → bytes_ok ip4 → NetworkToHost32 (s_addr ip4) = be_decode ip4.
Proof. intros. by apply NetworkToHost32_load. Qed.

Lemma ipv4_address_ok ip : ip_ok ip → zlen (ipv4_address ip) = 4 ∧ bytes_ok (ipv4_address ip).
Proof. intros (Hl & Hok & _). unfold ipv4_address. split; [zlia|auto with words]. Qed.

Lemma ip_value_range ip : ip_ok ip → 0 ≤ ip_value ip < 2 ^ 128.
Proof.
  intros Hip. unfold ip_value. destruct (ipv4_address_ok ip Hip) as [H4 Hok4].
  destruct Hip as (Hl & Hok & _). destruct (family_ ip); [lia| |].
  - pose proof (be_decode_range _ Hok4) as Hr. rewrite H4 in Hr. lia.
  - pose proof (be_decode_range _ Hok) as Hr. rewrite Hl in Hr. exact Hr.
Qed.

Lemma ip_ext a b : ip_ok a → ip_ok b → family_ a = family_ b →
  match family_ a with
  | AF_UNSPEC => True
  | AF_INET => ipv4_address a = ipv4_address b
  | AF_INET6 => u_ a = u_ b
  end → a = b.
Proof.
  destruct a as [fa ua], b as [fb ub]. intros (_ & _ & Ha) (_ & _ & Hb). cbn in *. intros <-.
  unfold ipv4_address. cbn. destruct fa; intros E; f_equal; [congruence| |done].
  by rewrite <- (ztake_zdrop 4 ua), <- (ztake_zdrop 4 ub), E, Ha, Hb.
Qed.

Lemma ip_eq_spec a b : ip_ok a → ip_ok b → ip_eq a b = true ↔ a = b.
Proof.
  intros Ha Hb. pose proof (ipv4_address_ok a Ha) as [Ha4 Hoka]. pose proof (ipv4_address_ok b Hb) as [Hb4 Hokb].
  unfold ip_eq. destruct (decide (family_ a = family_ b)) as [Hf|Hf].
  2: { rewrite bool_decide_eq_false_2 by done. cbn. split; [done|]. by intros ->. }
  rewrite bool_decide_eq_true_2 by done. cbn [negb].
  pose proof (ip_ext a b Ha Hb Hf) as Hext. destruct (family_ a) eqn:E.
  - split; auto.
  - rewrite Z.eqb_eq. destruct (memcmp_decode (ipv4_address a) (ipv4_address b)) as [-> _]; auto; [lia|].
    split; [auto|]. by intros ->.
  - rewrite Z.eqb_eq. destruct Ha as (Hla & Hua & _), Hb as (Hlb & Hub & _).
    destruct (memcmp_decode (ipv6_address a) (ipv6_address b)) as [-> _]; auto; [unfold ipv6_address; lia|].
    split; [auto|]. by intros ->.
Qed.

Lemma ip_lt_spec a b : ip_ok a → ip_ok b → ip_lt a b = true ↔ ip_key a < ip_key b.
Proof.
  intros Ha Hb. pose proof (ipv4_address_ok a Ha) as [Ha4 Hoka]. pose proof (ipv4_address_ok b Hb) as [Hb4 Hokb].
  pose proof (ip_value_range a Ha). pose proof (ip_value_range b Hb).
  unfold ip_lt, ip_key. destruct (decide (family_ a = family_ b)) as [Hf|Hf].
  - rewrite bool_decide_eq_true_2 by done. cbn [negb]. rewrite <- Hf. unfold ip_value in *.
    rewrite <- Hf in *. destruct (family_ a) eqn:E.
    + split; [done|lia].
    + rewrite Z.ltb_lt, !s_addr_host by done. lia.
    + rewrite Z.ltb_lt. destruct Ha as (Hla & Hua & _), Hb as (Hlb & Hub & _).
      destruct (memcmp_decode (ipv6_address a) (ipv6_address b)) as [_ ->]; auto; [unfold ipv6_address; lia|].
      lia.
  - rewrite bool_decide_eq_false_2 by done. cbn [negb].
    destruct (family_ a), (family_ b); try done; split; intros; done || lia.
Qed.

(** The comparison operators of IPAddress are a total order on well-formed
    addresses: [<] compares the family and then the address as an integer, [==]
    is equality, and [>] is [<] with the arguments exchanged. *)
Theorem ip_order a b : ip_ok a → ip_ok b →
  (ip_lt a b = true ↔ ip_key a < ip_key b) ∧ (ip_eq a b = true ↔ a = b) ∧
  (ip_key a = ip_key b ↔ a = b) ∧ ip_gt a b = ip_lt b a.
Proof.
  intros Ha Hb. pose proof (ip_lt_spec a b Ha Hb) as Hlt. pose proof (ip_eq_spec a b Ha Hb) as Heq.
  assert (Hkey : ip_key a = ip_key b ↔ a = b).
  { split; [|by intros ->]. intros E. rewrite <- Heq. 
    pose proof (ip_value_range a Ha). pose proof (ip_value_range b Hb).
    destruct (ipv4_address_ok a Ha), (ipv4_address_ok b Hb).
    unfold ip_key, ip_value, ip_eq in *. destruct Ha as (? & ? & _), Hb as (? & ? & _).
    destruct (family_ a), (family_ b); try lia; try done; cbn; apply Z.eqb_eq.
    - destruct (memcmp_decode (ipv4_address a) (ipv4_address b)) as [-> _]; auto; [lia|].
      rewrite <- (be_encode_decode (ipv4_address a)), <- (be_encode_decode (ipv4_address b)) by done.
      f_equal; [unfold zlen in *; lia|lia].
    - destruct (memcmp_decode (ipv6_address a) (ipv6_address b)) as [-> _]; auto; [unfold ipv6_address; lia|].
      unfold ipv6_address in *. rewrite <- (be_encode_decode (u_ a)), <- (be_encode_decode (u_ b)) by done.
      f_equal; [unfold zlen in *; lia|lia]. }
  split_and!; auto. unfold ip_gt. apply eq_true_iff_eq.
  rewrite andb_true_iff, !negb_true_iff, (ip_lt_spec b a Hb Ha), <- !not_true_iff_false, Heq, Hlt, <- Hkey.
  lia.
Qed.

(** ** The order of socket addresses *)

Lemma string_lt_irrefl a : string_lt a a = false.
Proof. induction a as [|x a IH]; [done|]. cbn. by rewrite Z.eqb_refl. Qed.
Lemma string_lt_cons x a y b : string_lt (x :: a) (y :: b) = true ↔ x < y ∨ x = y ∧ string_lt a b = true.
Proof. cbn. destruct (Z.eqb_spec x y); [intuition (done || lia)|]. rewrite Z.ltb_lt. intuition (done || lia). Qed.
Lemma string_lt_trans a : ∀ b c, string_lt a b = true → string_lt b c = true → string_lt a c = true.
Proof.
  induction a as [|x a IH]; intros [|y b] [|z c]; try done.
  rewrite !string_lt_cons. specialize (IH b c). intuition (done || lia).
Qed.
Lemma string_lt_total a : ∀ b, string_lt a b = false → string_lt b a = false → a = b.
Proof.
  induction a as [|x a IH]; intros [|y b]; cbn; try done.
  destruct (Z.eqb_spec x y) as [->|Hxy]; [rewrite Z.eqb_refl; intros; f_equal; auto|].
  rewrite (proj2 (Z.eqb_neq y x)) by done. rewrite !Z.ltb_ge. lia.
Qed.

(** What is compared: the address, the host name if the address is no address, the port. *)
Definition sa_host (a : SocketAddress) : list Z := if IPIsAny (ip_ a) || IPIsUnspec (ip_ a) then hostname_ a else [].
Definition sa_before (a b : SocketAddress) : Prop :=
  ip_key (ip_ a) < ip_key (ip_ b) ∨
  ip_ a = ip_ b ∧ (string_lt (sa_host a) (sa_host b) = true ∨ sa_host a = sa_host b ∧ port_ a < port_ b).

Lemma ip_key_eq a b : ip_ok a → ip_ok b → ip_key a = ip_key b ↔ a = b.
Proof.
  intros Ha Hb. split; [|by intros ->]. intros E. pose proof (ip_value_range a Ha). pose proof (ip_value_range b Hb).
  destruct (ipv4_address_ok a Ha), (ipv4_address_ok b Hb). pose proof (ip_ext a b Ha Hb) as Hext.
  unfold ip_key, ip_value in *. destruct Ha as (? & ? & _), Hb as (? & ? & _).
  destruct (family_ a), (family_ b); try lia; apply Hext; try done.
  - rewrite <- (be_encode_decode (ipv4_address a)), <- (be_encode_decode (ipv4_address b)) by done.
    f_equal; [unfold zlen in *; lia|lia].
  - unfold ipv6_address in *. rewrite <- (be_encode_decode (u_ a)), <- (be_encode_decode (u_ b)) by done.
    f_equal; [unfold zlen in *; lia|lia].
Qed.
Lemma SocketAddress_eqb_spec a b : ip_ok (ip_ a) → ip_ok (ip_ b) →
  SocketAddress_eqb a b = true ↔ ip_ a = ip_ b ∧ sa_host a = sa_host b ∧ port_ a = port_ b.
Proof.
  intros Ha Hb. unfold SocketAddress_eqb, sa_host. rewrite !andb_true_iff, (ip_eq_spec _ _ Ha Hb), Z.eqb_eq.
  split; intros [[E Eh] Ep] || intros (E & Eh & Ep); rewrite <- E in *; (split_and!; [done| |done]) || (split; [split; [done|]|done]);
    destruct (IPIsAny (ip_ a)), (IPIsUnspec (ip_ a)); cbn in *; by rewrite ?bool_decide_eq_true in *.
Qed.
Lemma SocketAddress_lt_spec a b : ip_ok (ip_ a) → ip_ok (ip_ b) → SocketAddress_lt a b = true ↔ sa_before a b.
Proof.
  intros Ha Hb. unfold SocketAddress_lt, sa_before. pose proof (ip_eq_spec _ _ Ha Hb) as He.
  pose proof (ip_lt_spec _ _ Ha Hb) as Hl. pose proof (ip_key_eq _ _ Ha Hb) as Hk.
  destruct (ip_eq (ip_ a) (ip_ b)) eqn:E; cbn [negb].
  - assert (ip_ a = ip_ b) as Ei by tauto. assert (ip_key (ip_ a) = ip_key (ip_ b)) by tauto. unfold sa_host. rewrite <- Ei.
    destruct (IPIsAny (ip_ a) || IPIsUnspec (ip_ a)); cbn [andb].
    + case_bool_decide as Eh; cbn [negb].
      * rewrite Eh, string_lt_irrefl, Z.ltb_lt. intuition (done || lia).
      * intuition (done || lia).
    + rewrite Z.ltb_lt. cbn. intuition (done || lia).
  - rewrite Hl. split; [tauto|]. intros [?|[Ei _]]; [done|]. by apply He in Ei.
Qed.
Lemma sa_before_trans a b c : ip_ok (ip_ a) → ip_ok (ip_ b) → ip_ok (ip_ c) → sa_before a b → sa_before b c → sa_before a c.
Proof.
  unfold sa_before. intros Ha Hb Hc [Hab|[Eab Hab]] [Hbc|[Ebc Hbc]]; rewrite ?Eab, <- ?Ebc in *; [lia|auto|auto|].
  right. split; [congruence|]. destruct Hab as [Hab|[Ehab Hpab]], Hbc as [Hbc|[Ehbc Hpbc]].
  - left. by eapply string_lt_trans.
  - left. by rewrite <- Ehbc.
  - left. by rewrite Ehab.
  - right. split; [congruence|lia].
Qed.
(** Two addresses are equal exactly if neither is before the other. *)
Lemma SocketAddress_total a b : ip_ok (ip_ a) → ip_ok (ip_ b) →
  SocketAddress_eqb a b = negb (SocketAddress_lt a b) && negb (SocketAddress_lt b a).
Proof.
  intros Ha Hb. apply eq_true_iff_eq. rewrite andb_true_iff, !negb_true_iff, <- !not_true_iff_false.
  rewrite SocketAddress_eqb_spec, !SocketAddress_lt_spec by done. unfold sa_before. pose proof (ip_key_eq _ _ Ha Hb) as Hk. split.
  - intros (E & Eh & Ep). rewrite E, Eh, Ep, string_lt_irrefl. split; intros [?|[_ [?|[_ ?]]]]; done || lia.
  - intros [H1 H2]. assert (ip_ a = ip_ b) as E by (apply Hk; lia). split; [done|].
    rewrite E in H1, H2. assert (sa_host a = sa_host b) as Eh.
    { apply string_lt_total; apply not_true_is_false; tauto. }
    split; [done|]. rewrite Eh in *. assert (¬ port_ a < port_ b ∧ ¬ port_ b < port_ a) by tauto. lia.
Qed.

(** ** Prefixes *)

(** [v] with everything but its [n] most significant of [w] bits cleared. *)
Definition prefix (w n v : Z) : Z := v / 2 ^ (w - n) * 2 ^ (w - n).

Lemma land_mask v k : is_u32 v → 0 ≤ k ≤ 32 →
  Z.land v (u32 (Z.shiftl 4294967295 k)) = v / 2 ^ k * 2 ^ k.
Proof.
  intros Hv Hk. rewrite <- Z.shiftr_div_pow2, <- Z.shiftl_mul_pow2 by lia.
  unfold u32. change 4294967296 with (2 ^ 32). rewrite <- Z.land_ones by lia.
  change 4294967295 with (Z.ones 32).
  apply Z.bits_inj'. intros i Hi. rewrite !Z.land_spec.
  destruct (Z.lt_ge_cases i k).
  - rewrite !Z.shiftl_spec_low by lia. by rewrite andb_false_r.
  - rewrite !Z.shiftl_spec, Z.shiftr_spec, !Z.testbit_ones by lia.
    replace (i - k + k) with i by lia.
    destruct (Z.lt_ge_cases i 32).
    + destruct (Z.leb_spec 0 (i - k)), (Z.ltb_spec (i - k) 32), (Z.leb_spec 0 i), (Z.ltb_spec i 32); try lia.
      by rewrite !andb_true_r.
    + assert (Z.testbit v i = false) as -> by (apply (bounded_bits v 32); ulia). done.
Qed.

Lemma u32_i32 z : u32 (i32 (u32 z)) = u32 z.
Proof. ulia. Qed.

Lemma HostToNetwork32_bytes v : host_store 4 (HostToNetwork32 v) = be_encode 4 v.
Proof. apply HostToNetwork32_store. Qed.

Lemma be_decode_zeros n : be_decode (zrepeat 0 n) = 0.
Proof.
  unfold zrepeat. induction (Z.to_nat n) as [|k IH]; [done|].
  cbn [replicate]. rewrite be_decode_cons, IH. lia.
Qed.

Lemma prefix_0 w v : 0 ≤ v < 2 ^ w → prefix w 0 v = 0.
Proof. intros. unfold prefix. rewrite Z.sub_0_r, Z.div_small by lia. lia. Qed.
Lemma prefix_full w v : prefix w w v = v.
Proof. unfold prefix. rewrite Z.sub_diag. change (2 ^ 0) with 1. rewrite Z.div_1_r. lia. Qed.

Lemma prefix_range w n v : 0 ≤ n ≤ w → 0 ≤ v < 2 ^ w → 0 ≤ prefix w n v < 2 ^ w.
Proof.
  intros Hn Hv. unfold prefix. assert (0 < 2 ^ (w - n)) by (apply Z.pow_pos_nonneg; lia).
  pose proof (Z.mul_div_le v (2 ^ (w - n))). pose proof (Z.div_pos v (2 ^ (w - n))). nia.
Qed.

Lemma v4_value ip4 : zlen ip4 = 4 → bytes_ok ip4 →
  ip_ok (IPAddress_v4 ip4) ∧ ip_value (IPAddress_v4 ip4) = be_decode ip4.
Proof.
  intros Hl Hok. assert (bytes_ok (splice 0 ip4 (zrepeat 0 16))) by auto with words.
  explode_list ip4. done.
Qed.

(** Prefix of a number that has [k] more words below the word [w] that is cut. *)
Lemma prefix_word h w l k m : 0 ≤ k → is_u32 w → 0 ≤ l < 2 ^ k → 0 ≤ m ≤ 32 →
  ((h * 4294967296 + w) * 2 ^ k + l) / 2 ^ (k + m) * 2 ^ (k + m)
    = (h * 4294967296 + w / 2 ^ m * 2 ^ m) * 2 ^ k.
Proof.
  intros Hk Hw Hl Hm. rewrite Z.pow_add_r by lia.
  rewrite <- Z.div_div, Z.div_add_l, (Z.div_small l), Z.add_0_r by lia.
  replace 4294967296 with (2 ^ (32 - m) * 2 ^ m)
    by (rewrite <- Z.pow_add_r by lia; by replace (32 - m + m) with 32 by lia).
  rewrite (Z.mul_assoc h), Z.div_add_l by lia. ring.
Qed.

(** The loop of [TruncateIP] word by word. *)
Fixpoint cut_words (n : nat) (i position inner_mask : Z) (l : list Z) : list Z :=
  match n with
  | O => []
  | S n' =>
      (if i =? position then be_encode 4 (Z.land (be_decode (ztake 4 l)) inner_mask)
       else if position <? i then zrepeat 0 4 else ztake 4 l)
      ++ cut_words n' (i + 1) position inner_mask (zdrop 4 l)
  end.

Lemma splice_middle off w pre old post : off = zlen pre → zlen w = zlen old →
  splice off w (pre ++ old ++ post) = pre ++ w ++ post.
Proof.
  intros -> Hw. unfold splice. rewrite ztake_app_exact by done.
  rewrite zdrop_app_r by zlia. replace (zlen pre + zlen w - zlen pre) with (zlen old) by lia.
  by rewrite zdrop_app_exact.
Qed.

Lemma truncate_words_cut n i position mask pre l : zlen pre = 4 * i → zlen l = 4 * Z.of_nat n →
  bytes_ok l →
  truncate_words n i position mask (pre ++ l) = pre ++ cut_words n i position mask l.
Proof.
  revert i pre l. induction n as [|n IH]; intros i pre l Hpre Hl Hok; cbn [truncate_words cut_words].
  { by rewrite (zlen_0_nil l) by lia. }
  assert (Hw : NetworkToHost32 (v6_as_int i (pre ++ l)) = be_decode (ztake 4 l)).
  { unfold v6_as_int. rewrite zdrop_app_exact by lia. apply NetworkToHost32_load; [auto with words|zlia]. }
  assert (Hz : host_store 4 0 = zrepeat 0 4) by (unfold host_store; by destruct host_big_endian).
  rewrite Hw, HostToNetwork32_bytes, Hz.
  set (w' := if i =? position then be_encode 4 _ else if position <? i then zrepeat 0 4 else ztake 4 l).
  assert (zlen w' = 4) by (unfold w'; bdestruct; zlia).
  replace (if i =? position then splice _ _ _ else if position <? i then splice _ _ _ else pre ++ l)
    with ((pre ++ w') ++ zdrop 4 l).
  2: { assert (El : pre ++ l = pre ++ ztake 4 l ++ zdrop 4 l) by (by rewrite ztake_zdrop).
       rewrite El. unfold w'.
       bdestruct; rewrite ?splice_middle by zlia; by rewrite <- app_assoc. }
  rewrite IH by (auto with words; zlia). by rewrite <- app_assoc.
Qed.

Lemma cut_words_zero n i position mask l : position < i →
  be_decode (cut_words n i position mask l) = 0 ∧ zlen (cut_words n i position mask l) = 4 * Z.of_nat n ∧
  bytes_ok (cut_words n i position mask l).
Proof.
  revert i l. induction n as [|n IH]; intros i l Hi; cbn [cut_words].
  { split_and!; [done|done|constructor]. }
  destruct (Z.eqb_spec i position), (Z.ltb_spec position i); try lia.
  destruct (IH (i + 1) (zdrop 4 l)) as (E & Hl & Hok); [lia|].
  rewrite be_decode_app, be_decode_zeros, E, zlen_app, Hl, bytes_ok_app.
  split_and!; [lia|zlia|auto with words|done].
Qed.

Lemma cut_words_prefix n i len l : 0 ≤ i ≤ len / 32 → len < 32 * (i + Z.of_nat n) →
  zlen l = 4 * Z.of_nat n → bytes_ok l →
  let out := cut_words n i (len / 32) (u32 (Z.shiftl 4294967295 (32 - (len - len / 32 * 32)))) l in
  be_decode out = prefix (32 * Z.of_nat n) (len - 32 * i) (be_decode l) ∧
  zlen out = 4 * Z.of_nat n ∧ bytes_ok out.
Proof.
  revert i l. induction n as [|n IH]; intros i l Hi Hlen Hl Hok; cbn [cut_words]; [exfalso; ulia|].
  set (m := 32 - (len - len / 32 * 32)). assert (0 ≤ m ≤ 32) by (subst m; ulia).
  assert (Hw : is_u32 (be_decode (ztake 4 l))).
  { pose proof (be_decode_range (ztake 4 l) ltac:(auto with words)) as Hr.
    replace (zlen (ztake 4 l)) with 4 in Hr by zlia. exact Hr. }
  pose proof (be_decode_range (zdrop 4 l) ltac:(auto with words)) as Hrest.
  assert (Hk : 256 ^ zlen (zdrop 4 l) = 2 ^ (32 * Z.of_nat n)).
  { replace (zlen (zdrop 4 l)) with (4 * Z.of_nat n) by zlia.
    change 256 with (2 ^ 8). rewrite <- Z.pow_mul_r by lia. f_equal. lia. }
  rewrite Hk in Hrest.
  assert (Hsum : be_decode l = be_decode (ztake 4 l) * 2 ^ (32 * Z.of_nat n) + be_decode (zdrop 4 l)).
  { rewrite <- (ztake_zdrop 4 l) at 1. by rewrite be_decode_app, Hk. }
  rewrite Hsum.
  destruct (Z.eqb_spec i (len / 32)) as [Ei|Ei].
  - destruct (cut_words_zero n (i + 1) (len / 32) (u32 (Z.shiftl 4294967295 m)) (zdrop 4 l)) as (E & El & Eok); [lia|].
    rewrite be_decode_app, E, zlen_app, El, bytes_ok_app, land_mask by done.
    assert (Hm : is_u32 (be_decode (ztake 4 l) / 2 ^ m * 2 ^ m)).
    { apply (prefix_range 32 (32 - m)) in Hw; [|lia]. unfold prefix in Hw.
      by replace (32 - (32 - m)) with m in Hw by lia. }
    rewrite be_decode_encode by exact Hm.
    replace (256 ^ (4 * Z.of_nat n)) with (2 ^ (32 * Z.of_nat n))
      by (change 256 with (2 ^ 8); rewrite <- Z.pow_mul_r by lia; f_equal; lia).
    split_and!; [|zlia|apply be_encode_ok|done].
    unfold prefix. replace (32 * Z.of_nat (S n) - (len - 32 * i)) with (32 * Z.of_nat n + m) by (subst m; lia).
    pose proof (prefix_word 0 (be_decode (ztake 4 l)) (be_decode (zdrop 4 l)) (32 * Z.of_nat n) m) as Hp.
    rewrite !Z.mul_0_l, !Z.add_0_l in Hp. rewrite Hp by (done || lia). lia.
  - destruct (Z.ltb_spec (len / 32) i); [lia|].
    destruct (IH (i + 1) (zdrop 4 l)) as (E & El & Eok); [ulia|lia|zlia|auto with words|].
    fold m in E, El, Eok. rewrite be_decode_app, E, zlen_app, El, bytes_ok_app.
    replace (256 ^ (4 * Z.of_nat n)) with (2 ^ (32 * Z.of_nat n))
      by (change 256 with (2 ^ 8); rewrite <- Z.pow_mul_r by lia; f_equal; lia).
    split_and!; [|zlia|auto with words|done]. unfold prefix.
    replace (32 * Z.of_nat (S n) - (len - 32 * i)) with (32 * Z.of_nat n - (len - 32 * (i + 1))) by lia.
    set (e := 32 * Z.of_nat n - (len - 32 * (i + 1))).
    assert (He : 0 ≤ e ≤ 32 * Z.of_nat n) by (subst e; ulia).
    replace (2 ^ (32 * Z.of_nat n)) with (2 ^ (32 * Z.of_nat n - e) * 2 ^ e)
      by (rewrite <- Z.pow_add_r by lia; f_equal; lia).
    rewrite Z.mul_assoc, Z.div_add_l by lia. lia.
Qed.

Lemma truncate_v4 ip len : ip_ok ip → family_ ip = AF_INET → 0 ≤ len →
  family_ (TruncateIP ip len) = AF_INET ∧ ip_ok (TruncateIP ip len) ∧
  ip_value (TruncateIP ip len) = prefix 32 (Z.min len 32) (ip_value ip).
Proof.
  intros Hip Hf Hlen. destruct (ipv4_address_ok ip Hip) as [H4 Hok4].
  pose proof (be_decode_range _ Hok4) as Hr. rewrite H4 in Hr.
  assert (Hv : ip_value ip = be_decode (ipv4_address ip)) by (unfold ip_value; by rewrite Hf).
  unfold TruncateIP. rewrite Hf. destruct (Z.ltb_spec len 0); [lia|].
  destruct (Z.ltb_spec 31 len).
  { rewrite Z.min_r, prefix_full by lia. done. }
  rewrite Z.min_l by lia. destruct (Z.eqb_spec len 0) as [->|].
  { unfold IPAddress_host. rewrite HostToNetwork32_bytes, Hv, prefix_0 by exact Hr.
    destruct (v4_value (be_encode 4 INADDR_ANY)) as [? ->]; done || apply be_encode_ok. }
  rewrite s_addr_host, HostToNetwork32_bytes, u32_i32, land_mask by (done || lia).
  set (v := be_decode (ipv4_address ip)) in *.
  destruct (v4_value (be_encode 4 (v / 2 ^ (32 - len) * 2 ^ (32 - len)))) as [? ->];
    [by rewrite zlen_be_encode|apply be_encode_ok|].
  split_and!; [done|done|]. rewrite Hv. apply be_decode_encode. exact (prefix_range 32 len v ltac:(lia) Hr).
Qed.

Lemma truncate_v6 ip len : ip_ok ip → family_ ip = AF_INET6 → 0 ≤ len →
  family_ (TruncateIP ip len) = AF_INET6 ∧ ip_ok (TruncateIP ip len) ∧
  ip_value (TruncateIP ip len) = prefix 128 (Z.min len 128) (ip_value ip).
Proof.
  intros Hip Hf Hlen. pose proof (ip_value_range ip Hip) as Hr. pose proof Hip as (Hl & Hok & _).
  assert (Hv : ip_value ip = be_decode (u_ ip)) by (unfold ip_value; by rewrite Hf).
  unfold TruncateIP. rewrite Hf. destruct (Z.ltb_spec len 0); [lia|].
  destruct (Z.ltb_spec 127 len).
  { rewrite Z.min_r, prefix_full by lia. done. }
  rewrite Z.min_l by lia. destruct (Z.eqb_spec len 0) as [->|].
  { rewrite prefix_0 by done. split; [done|]. split; [split; [done|split; [apply bytes_ok_zeros|done]]|].
    unfold ip_value. cbn [family_ ipv6_address u_ IPAddress_v6]. apply be_decode_zeros. }
  pose proof (truncate_words_cut 4 0 (len / 32)
    (u32 (Z.shiftl 4294967295 (32 - (len - len / 32 * 32)))) [] (u_ ip) eq_refl Hl Hok) as Hcut.
  rewrite !app_nil_l in Hcut. change (ipv6_address ip) with (u_ ip). rewrite Hcut.
  destruct (cut_words_prefix 4 0 len (u_ ip)) as (E & El & Eok); try done; [ulia|lia|].
  cbv zeta in E, El, Eok. split_and!; try done.
  rewrite Hv. etransitivity; [exact E|]. f_equal; lia.
Qed.

(** [TruncateIP] keeps the family and exactly the first [length] bits of an
    IPv4 or IPv6 address: the rest becomes zero, and the result is well formed. *)
Theorem TruncateIP_prefix ip len : ip_ok ip → family_ ip ≠ AF_UNSPEC → 0 ≤ len →
  let bits := 8 * IPAddress_Size ip in
  family_ (TruncateIP ip len) = family_ ip ∧ ip_ok (TruncateIP ip len) ∧
  ip_value (TruncateIP ip len) = prefix bits (Z.min len bits) (ip_value ip).
Proof.
  intros Hip Hf Hlen. unfold IPAddress_Size. destruct (family_ ip) eqn:E; [done| |].
  - by apply truncate_v4.
  - by apply truncate_v6.
Qed.

(** The masks of every length, for the host at hand. *)
Definition ones_v4 : IPAddress := IPAddress_v4 (zrepeat 255 4).
Definition ones_v6 : IPAddress := IPAddress_v6 (zrepeat 255 16).

Lemma count_masks :
  forallb (λ n, CountIPMaskBits (TruncateIP ones_v4 (Z.of_nat n)) =? Z.of_nat n) (seq 0 33) = true ∧
  forallb (λ n, CountIPMaskBits (TruncateIP ones_v6 (Z.of_nat n)) =? Z.of_nat n) (seq 0 129) = true.
Proof. destruct H as [be ui ub]. destruct be; split; vm_compute; reflexivity. Qed.

Lemma forallb_count (f : nat → bool) n k : forallb f (seq 0 n) = true → 0 ≤ k < Z.of_nat n →
  f (Z.to_nat k) = true.
Proof. intros Hf Hk. rewrite forallb_forall in Hf. apply Hf, in_seq. lia. Qed.

(** [CountIPMaskBits] recovers the length of every contiguous mask, IPv4 and
    IPv6, that [TruncateIP] cuts from the address of all ones. *)
Theorem CountIPMaskBits_mask n :
  (0 ≤ n ≤ 32 → CountIPMaskBits (TruncateIP ones_v4 n) = n) ∧
  (0 ≤ n ≤ 128 → CountIPMaskBits (TruncateIP ones_v6 n) = n).
Proof.
  destruct count_masks as [H4 H6]. split; intros Hn.
  - apply (forallb_count _ _ n) in H4; [|lia]. cbv beta in H4.
    by rewrite Z2Nat.id, Z.eqb_eq in H4 by lia.
  - apply (forallb_count _ _ n) in H6; [|lia]. cbv beta in H6.
    by rewrite Z2Nat.id, Z.eqb_eq in H6 by lia.
Qed.

(** The IPv4-mapped form of an address normalises to it. *)
Lemma Normalized_AsIPv6 ip : ip_ok ip → family_ ip = AF_INET → Normalized (AsIPv6Address ip) = ip.
Proof.
  intros Hip Hf. destruct (ipv4_address_ok ip Hip) as [H4 Hok4].
  unfold AsIPv6Address. rewrite Hf. destruct ip as [f u]. cbn in Hf. subst f.
  destruct Hip as (Hl & _ & Hz). cbn in Hl, Hz. unfold ipv4_address in *. cbn [u_] in *.
  rewrite <- (ztake_zdrop 4 u) at 2. rewrite Hz. generalize dependent (ztake 4 u). intros a _ Ha.
  clear Hl Hz. explode_list a. reflexivity.
Qed.
End Facts.

Definition sample_v4 : IPAddress := IPAddress_v4 [192; 168; 1; 77].
Definition sample_v6 : IPAddress := IPAddress_v6 ([32; 1; 13; 184] ++ zrepeat 7 12).

Lemma ip_order_witness :
  @ip_lt zero_platform sample_v4 sample_v6 = true ∧ @ip_eq sample_v4 sample_v6 = false.
Proof.
  assert (ip_ok sample_v4) as H4 by (split_and!; [done|cbn; repeat constructor; ulia|done]).
  assert (ip_ok sample_v6) as H6 by (split_and!; [done|cbn; repeat constructor; ulia|done]).
  destruct (@ip_order zero_platform sample_v4 sample_v6 H4 H6) as (Hlt & Heq & _).
  split; [apply Hlt; vm_compute; reflexivity|].
  apply not_true_iff_false. rewrite Heq. done.
Defined.

Lemma TruncateIP_prefix_witness :
  ip_value (@TruncateIP zero_platform sample_v4 24) = prefix 32 24 (ip_value sample_v4) ∧
  @TruncateIP zero_platform sample_v4 24 = IPAddress_v4 [192; 168; 1; 0].
Proof.
  assert (ip_ok sample_v4) as H4 by (split_and!; [done|cbn; repeat constructor; ulia|done]).
  split; [|vm_compute; reflexivity].
  apply (@TruncateIP_prefix zero_platform sample_v4 24); [done|done|lia].
Defined.

Lemma CountIPMaskBits_mask_witness :
  @CountIPMaskBits zero_platform (@TruncateIP zero_platform ones_v4 24) = 24 ∧
  @CountIPMaskBits zero_platform (@TruncateIP zero_platform ones_v6 65) = 65.
Proof.
  split; [apply (proj1 (@CountIPMaskBits_mask zero_platform 24)); lia|].
  apply (proj2 (@CountIPMaskBits_mask zero_platform 65)); lia.
Defined.
