(* ===== verification/Stun.v ===== *)
(** * webrtc/p2p/base/stun.h and stun.cc: messages and attributes

    The STUN, TURN and ICE messages: attribute values, the message that owns
    them, and their wire form.  A pointer to an attribute's owner is the
    transaction id of the message that the attribute was created by or added to.
    Reading runs in [SM]: it stops where the code returns false, and keeps what
    was consumed and recorded until then. *)

From stdpp Require Import strings.
From S2P Require Import Prelude ByteOrder ByteBuffer Crc32 IpAddress MessageDigest.

(** ** Constants

    The values of each enumeration are listed after them, in the order of the source. *)

Definition STUN_BINDING_REQUEST : Z := 1.
Definition STUN_BINDING_INDICATION : Z := 17. (* 0x0011 *)
Definition STUN_BINDING_RESPONSE : Z := 257. (* 0x0101 *)
Definition STUN_BINDING_ERROR_RESPONSE : Z := 273. (* 0x0111 *)
Definition StunMessageType : list Z :=
  [STUN_BINDING_REQUEST; STUN_BINDING_INDICATION; STUN_BINDING_RESPONSE; STUN_BINDING_ERROR_RESPONSE].

Definition STUN_ALLOCATE_REQUEST : Z := 3.
Definition STUN_ALLOCATE_RESPONSE : Z := 259. (* 0x0103 *)
Definition STUN_ALLOCATE_ERROR_RESPONSE : Z := 275.
Definition TURN_REFRESH_REQUEST : Z := 4.
Definition TURN_REFRESH_RESPONSE : Z := 260.
Definition TURN_REFRESH_ERROR_RESPONSE : Z := 276.
Definition TURN_SEND_INDICATION : Z := 22. (* 0x0016 *)
Definition TURN_DATA_INDICATION : Z := 23.
Definition TURN_CREATE_PERMISSION_REQUEST : Z := 8.
Definition TURN_CREATE_PERMISSION_RESPONSE : Z := 264.
Definition TURN_CREATE_PERMISSION_ERROR_RESPONSE : Z := 280.
Definition TURN_CHANNEL_BIND_REQUEST : Z := 9.
Definition TURN_CHANNEL_BIND_RESPONSE : Z := 265.
Definition TURN_CHANNEL_BIND_ERROR_RESPONSE : Z := 281.
Definition TurnMessageType : list Z :=
  [STUN_ALLOCATE_REQUEST; STUN_ALLOCATE_RESPONSE; STUN_ALLOCATE_ERROR_RESPONSE;
   TURN_REFRESH_REQUEST; TURN_REFRESH_RESPONSE; TURN_REFRESH_ERROR_RESPONSE;
   TURN_SEND_INDICATION; TURN_DATA_INDICATION;
   TURN_CREATE_PERMISSION_REQUEST; TURN_CREATE_PERMISSION_RESPONSE; TURN_CREATE_PERMISSION_ERROR_RESPONSE;
   TURN_CHANNEL_BIND_REQUEST; TURN_CHANNEL_BIND_RESPONSE; TURN_CHANNEL_BIND_ERROR_RESPONSE].

Definition STUN_ATTR_MAPPED_ADDRESS : Z := 1.
Definition STUN_ATTR_USERNAME : Z := 6.
Definition STUN_ATTR_MESSAGE_INTEGRITY : Z := 8.
Definition STUN_ATTR_ERROR_CODE : Z := 9.
Definition STUN_ATTR_UNKNOWN_ATTRIBUTES : Z := 10.
Definition STUN_ATTR_REALM : Z := 20.
Definition STUN_ATTR_NONCE : Z := 21.
Definition STUN_ATTR_XOR_MAPPED_ADDRESS : Z := 32.
Definition STUN_ATTR_SOFTWARE : Z := 32802. (* 0x8022 *)
Definition STUN_ATTR_ALTERNATE_SERVER : Z := 32803.
Definition STUN_ATTR_FINGERPRINT : Z := 32808.
Definition STUN_ATTR_RETRANSMIT_COUNT : Z := 65280. (* 0xFF00 *)
Definition StunAttributeType : list Z :=
  [STUN_ATTR_MAPPED_ADDRESS; STUN_ATTR_USERNAME; STUN_ATTR_MESSAGE_INTEGRITY; STUN_ATTR_ERROR_CODE;
   STUN_ATTR_UNKNOWN_ATTRIBUTES; STUN_ATTR_REALM; STUN_ATTR_NONCE; STUN_ATTR_XOR_MAPPED_ADDRESS;
   STUN_ATTR_SOFTWARE; STUN_ATTR_ALTERNATE_SERVER; STUN_ATTR_FINGERPRINT; STUN_ATTR_RETRANSMIT_COUNT].

Definition STUN_ATTR_LIFETIME : Z := 13.
Definition STUN_ATTR_MAGIC_COOKIE : Z := 15.
Definition STUN_ATTR_BANDWIDTH : Z := 16.
Definition STUN_ATTR_DESTINATION_ADDRESS : Z := 17.
Definition STUN_ATTR_SOURCE_ADDRESS2 : Z := 18.
Definition STUN_ATTR_DATA : Z := 19.
Definition STUN_ATTR_OPTIONS : Z := 32769. (* 0x8001 *)
Definition RelayAttributeType : list Z :=
  [STUN_ATTR_LIFETIME; STUN_ATTR_MAGIC_COOKIE; STUN_ATTR_BANDWIDTH; STUN_ATTR_DESTINATION_ADDRESS;
   STUN_ATTR_SOURCE_ADDRESS2; STUN_ATTR_DATA; STUN_ATTR_OPTIONS].

Definition STUN_ATTR_CHANNEL_NUMBER : Z := 12.
Definition STUN_ATTR_TURN_LIFETIME : Z := 13.
Definition STUN_ATTR_XOR_PEER_ADDRESS : Z := 18.
Definition STUN_ATTR_XOR_RELAYED_ADDRESS : Z := 22.
Definition STUN_ATTR_EVEN_PORT : Z := 24.
Definition STUN_ATTR_REQUESTED_TRANSPORT : Z := 25.
Definition STUN_ATTR_DONT_FRAGMENT : Z := 26.
Definition STUN_ATTR_RESERVATION_TOKEN : Z := 34.
Definition TurnAttributeType : list Z :=
  [STUN_ATTR_CHANNEL_NUMBER; STUN_ATTR_TURN_LIFETIME; STUN_ATTR_XOR_PEER_ADDRESS; STUN_ATTR_XOR_RELAYED_ADDRESS;
   STUN_ATTR_EVEN_PORT; STUN_ATTR_REQUESTED_TRANSPORT; STUN_ATTR_DONT_FRAGMENT; STUN_ATTR_RESERVATION_TOKEN].

Definition STUN_ATTR_PRIORITY : Z := 36.
Definition STUN_ATTR_USE_CANDIDATE : Z := 37.
Definition STUN_ATTR_ICE_CONTROLLED : Z := 32809. (* 0x8029 *)
Definition STUN_ATTR_ICE_CONTROLLING : Z := 32810.
Definition IceAttributeType : list Z :=
  [STUN_ATTR_PRIORITY; STUN_ATTR_USE_CANDIDATE; STUN_ATTR_ICE_CONTROLLED; STUN_ATTR_ICE_CONTROLLING].

Inductive StunAttributeValueType :=
  | STUN_VALUE_UNKNOWN | STUN_VALUE_ADDRESS | STUN_VALUE_XOR_ADDRESS | STUN_VALUE_UINT32
  | STUN_VALUE_UINT64 | STUN_VALUE_BYTE_STRING | STUN_VALUE_ERROR_CODE | STUN_VALUE_UINT16_LIST.

#[export] Instance StunAttributeValueType_eq_dec : EqDecision StunAttributeValueType.
Proof. solve_decision. Defined.

Definition STUN_ADDRESS_UNDEF : Z := 0.
Definition STUN_ADDRESS_IPV4 : Z := 1.
Definition STUN_ADDRESS_IPV6 : Z := 2.
Definition StunAddressFamily : list Z := [STUN_ADDRESS_UNDEF; STUN_ADDRESS_IPV4; STUN_ADDRESS_IPV6].

Definition STUN_ERROR_TRY_ALTERNATE : Z := 300.
Definition STUN_ERROR_BAD_REQUEST : Z := 400.
Definition STUN_ERROR_UNAUTHORIZED : Z := 401.
Definition STUN_ERROR_UNKNOWN_ATTRIBUTE : Z := 420.
Definition STUN_ERROR_STALE_CREDENTIALS : Z := 430.
Definition STUN_ERROR_STALE_NONCE : Z := 438.
Definition STUN_ERROR_SERVER_ERROR : Z := 500.
Definition STUN_ERROR_GLOBAL_FAILURE : Z := 600.
Definition StunErrorCode : list Z :=
  [STUN_ERROR_TRY_ALTERNATE; STUN_ERROR_BAD_REQUEST; STUN_ERROR_UNAUTHORIZED; STUN_ERROR_UNKNOWN_ATTRIBUTE;
   STUN_ERROR_STALE_CREDENTIALS; STUN_ERROR_STALE_NONCE; STUN_ERROR_SERVER_ERROR; STUN_ERROR_GLOBAL_FAILURE].
Definition STUN_ERROR_FORBIDDEN : Z := 403.
Definition STUN_ERROR_ALLOCATION_MISMATCH : Z := 437.
Definition STUN_ERROR_WRONG_CREDENTIALS : Z := 441.
Definition STUN_ERROR_UNSUPPORTED_PROTOCOL : Z := 442.
Definition TurnErrorType : list Z :=
  [STUN_ERROR_FORBIDDEN; STUN_ERROR_ALLOCATION_MISMATCH; STUN_ERROR_WRONG_CREDENTIALS; STUN_ERROR_UNSUPPORTED_PROTOCOL].
Definition STUN_ERROR_ROLE_CONFLICT : Z := 487.

Definition STUN_ERROR_REASON_TRY_ALTERNATE_SERVER : list Z := text "Try Alternate Server".
Definition STUN_ERROR_REASON_BAD_REQUEST : list Z := text "Bad Request".
Definition STUN_ERROR_REASON_UNAUTHORIZED : list Z := text "Unauthorized".
Definition STUN_ERROR_REASON_FORBIDDEN : list Z := text "Forbidden".
Definition STUN_ERROR_REASON_STALE_CREDENTIALS : list Z := text "Stale Credentials".
Definition STUN_ERROR_REASON_ALLOCATION_MISMATCH : list Z := text "Allocation Mismatch".
Definition STUN_ERROR_REASON_STALE_NONCE : list Z := text "Stale Nonce".
Definition STUN_ERROR_REASON_WRONG_CREDENTIALS : list Z := text "Wrong Credentials".
Definition STUN_ERROR_REASON_UNSUPPORTED_PROTOCOL : list Z := text "Unsupported Protocol".
Definition STUN_ERROR_REASON_ROLE_CONFLICT : list Z := text "Role Conflict".
Definition STUN_ERROR_REASON_SERVER_ERROR : list Z := text "Server Error".
(** The reasons, in the order of the source. *)
Definition stun_error_reasons : list (list Z) :=
  [STUN_ERROR_REASON_TRY_ALTERNATE_SERVER; STUN_ERROR_REASON_BAD_REQUEST; STUN_ERROR_REASON_UNAUTHORIZED;
   STUN_ERROR_REASON_FORBIDDEN; STUN_ERROR_REASON_STALE_CREDENTIALS; STUN_ERROR_REASON_ALLOCATION_MISMATCH;
   STUN_ERROR_REASON_STALE_NONCE; STUN_ERROR_REASON_WRONG_CREDENTIALS; STUN_ERROR_REASON_UNSUPPORTED_PROTOCOL;
   STUN_ERROR_REASON_ROLE_CONFLICT; STUN_ERROR_REASON_SERVER_ERROR].

Definition kStunTypeMask : Z := 272. (* 0x0110 *)
Definition kStunAttributeHeaderSize : Z := 4.
Definition kStunHeaderSize : Z := 20.
Definition kStunTransactionIdOffset : Z := 8.
Definition kStunTransactionIdLength : Z := 12.
Definition kStunMagicCookie : Z := 554869826. (* 0x2112A442 *)
Definition kStunMagicCookieLength : Z := 4.
Definition kStunLegacyTransactionIdLength : Z := 16.
Definition kStunMessageIntegritySize : Z := 20.
Definition STUN_FINGERPRINT_XOR_VALUE : Z := 1398035790. (* 0x5354554E *)
Definition EMPTY_TRANSACTION_ID : list Z := zrepeat 48 16.

Definition SIZE_UNDEF : Z := 0.
Definition SIZE_IP4 : Z := 8.
Definition SIZE_IP6 : Z := 20.
Definition UINT32_SIZE : Z := 4.
Definition UINT64_SIZE : Z := 8.
Definition ERROR_MIN_SIZE : Z := 4.

(** ** Attributes *)

Inductive StunAttribute :=
  | AddressAttr (type length : Z) (address : SocketAddress)
  | XorAddressAttr (type length : Z) (address : SocketAddress)
  | UInt32Attr (type length bits : Z)
  | UInt64Attr (type length bits : Z)
  | ByteStringAttr (type length : Z) (bytes : list Z)
  | ErrorCodeAttr (type length eclass number : Z) (reason : list Z)
  | UInt16ListAttr (type length : Z) (attr_types : list Z).

Definition attr_type (a : StunAttribute) : Z :=
  match a with
  | AddressAttr t _ _ | XorAddressAttr t _ _ | UInt32Attr t _ _ | UInt64Attr t _ _
  | ByteStringAttr t _ _ | ErrorCodeAttr t _ _ _ _ | UInt16ListAttr t _ _ => t
  end.
Definition attr_length (a : StunAttribute) : Z :=
  match a with
  | AddressAttr _ l _ | XorAddressAttr _ l _ | UInt32Attr _ l _ | UInt64Attr _ l _
  | ByteStringAttr _ l _ | ErrorCodeAttr _ l _ _ _ | UInt16ListAttr _ l _ => l
  end.
Definition value_type (a : StunAttribute) : StunAttributeValueType :=
  match a with
  | AddressAttr _ _ _ => STUN_VALUE_ADDRESS
  | XorAddressAttr _ _ _ => STUN_VALUE_XOR_ADDRESS
  | UInt32Attr _ _ _ => STUN_VALUE_UINT32
  | UInt64Attr _ _ _ => STUN_VALUE_UINT64
  | ByteStringAttr _ _ _ => STUN_VALUE_BYTE_STRING
  | ErrorCodeAttr _ _ _ _ _ => STUN_VALUE_ERROR_CODE
  | UInt16ListAttr _ _ _ => STUN_VALUE_UINT16_LIST
  end.

Definition stun_family (addr : SocketAddress) : Z :=
  match family_ (ip_ addr) with
  | AF_INET => STUN_ADDRESS_IPV4
  | AF_INET6 => STUN_ADDRESS_IPV6
  | AF_UNSPEC => STUN_ADDRESS_UNDEF
  end.

(** [EnsureAddressLength]: the length that goes with the address. *)
Definition EnsureAddressLength (addr : SocketAddress) : Z :=
  if stun_family addr =? STUN_ADDRESS_IPV4 then SIZE_IP4
  else if stun_family addr =? STUN_ADDRESS_IPV6 then SIZE_IP6
  else SIZE_UNDEF.

(** [SetAddress] on either kind of address attribute. *)
Definition SetAddress (a : StunAttribute) (addr : SocketAddress) : StunAttribute :=
  match a with
  | AddressAttr t _ _ => AddressAttr t (EnsureAddressLength addr) addr
  | XorAddressAttr t _ _ => XorAddressAttr t (EnsureAddressLength addr) addr
  | _ => a
  end.
Definition attr_address (a : StunAttribute) : SocketAddress :=
  match a with AddressAttr _ _ addr | XorAddressAttr _ _ addr => addr | _ => SocketAddress_Clear end.
Definition SetIP (a : StunAttribute) (ip : IPAddress) : StunAttribute :=
  SetAddress a (SocketAddress_SetIP (attr_address a) ip).
Definition SetPort (a : StunAttribute) (port : Z) : StunAttribute :=
  match a with
  | AddressAttr t l addr => AddressAttr t l (SocketAddress_SetPort addr port)
  | XorAddressAttr t l addr => XorAddressAttr t l (SocketAddress_SetPort addr port)
  | _ => a
  end.

(** *** Constructors *)

Definition StunAddressAttribute (type : Z) (addr : SocketAddress) : StunAttribute :=
  SetAddress (AddressAttr type 0 SocketAddress_Clear) addr.
Definition StunXorAddressAttribute (type : Z) (addr : SocketAddress) : StunAttribute :=
  SetAddress (XorAddressAttr type 0 SocketAddress_Clear) addr.
Definition StunUInt32Attribute (type value : Z) : StunAttribute := UInt32Attr type UINT32_SIZE value.
Definition StunUInt64Attribute (type value : Z) : StunAttribute := UInt64Attr type UINT64_SIZE value.

(** [SetBytes] after the copy that [CopyBytes] makes. *)
Definition CopyBytes (a : StunAttribute) (bytes : list Z) : StunAttribute :=
  match a with ByteStringAttr t _ _ => ByteStringAttr t (u16 (zlen bytes)) bytes | _ => a end.
Definition StunByteStringAttribute (type : Z) (str : list Z) : StunAttribute :=
  CopyBytes (ByteStringAttr type 0 []) str.

Definition SetReason (a : StunAttribute) (reason : list Z) : StunAttribute :=
  match a with
  | ErrorCodeAttr t _ c n _ => ErrorCodeAttr t (u16 (ERROR_MIN_SIZE + u16 (zlen reason))) c n reason
  | _ => a
  end.
Definition SetCode (a : StunAttribute) (code : Z) : StunAttribute :=
  match a with
  | ErrorCodeAttr t l _ _ r => ErrorCodeAttr t l (u8 (Z.quot code 100)) (u8 (Z.rem code 100)) r
  | _ => a
  end.
Definition error_code (a : StunAttribute) : Z :=
  match a with ErrorCodeAttr _ _ c n _ => c * 100 + n | _ => 0 end.
Definition StunErrorCodeAttribute (type code : Z) (reason : list Z) : StunAttribute :=
  SetReason (SetCode (ErrorCodeAttr type 0 0 0 []) code) reason.

Definition AddType (a : StunAttribute) (value : Z) : StunAttribute :=
  match a with
  | UInt16ListAttr t _ l => UInt16ListAttr t (u16 (zlen (l ++ [value]) * 2)) (l ++ [value])
  | _ => a
  end.

Definition GetBit (bits index : Z) : bool := negb (Z.land (Z.shiftr bits index) 1 =? 0).
Definition SetBit (bits index : Z) (value : bool) : Z :=
  let bits := Z.land bits (u32 (Z.lnot (Z.shiftl 1 index))) in
  Z.lor bits (if value then u32 (Z.shiftl 1 index) else 0).

(** [StunAttribute::Create]: the integer attributes have a length of their own. *)
Definition Create (value_type : StunAttributeValueType) (type length : Z) : option StunAttribute :=
  match value_type with
  | STUN_VALUE_ADDRESS => Some (AddressAttr type length SocketAddress_Clear)
  | STUN_VALUE_XOR_ADDRESS => Some (XorAddressAttr type length SocketAddress_Clear)
  | STUN_VALUE_UINT32 => Some (UInt32Attr type UINT32_SIZE 0)
  | STUN_VALUE_UINT64 => Some (UInt64Attr type UINT64_SIZE 0)
  | STUN_VALUE_BYTE_STRING => Some (ByteStringAttr type length [])
  | STUN_VALUE_ERROR_CODE => Some (ErrorCodeAttr type length 0 0 [])
  | STUN_VALUE_UINT16_LIST => Some (UInt16ListAttr type length [])
  | STUN_VALUE_UNKNOWN => None
  end.

Definition CreateAddress (type : Z) : StunAttribute := AddressAttr type 0 SocketAddress_Clear.
Definition CreateXorAddress (type : Z) : StunAttribute := XorAddressAttr type 0 SocketAddress_Clear.
Definition CreateUInt64 (type : Z) : StunAttribute := UInt64Attr type UINT64_SIZE 0.
Definition CreateUInt32 (type : Z) : StunAttribute := UInt32Attr type UINT32_SIZE 0.
Definition CreateByteString (type : Z) : StunAttribute := ByteStringAttr type 0 [].
Definition CreateErrorCode : StunAttribute :=
  ErrorCodeAttr STUN_ATTR_ERROR_CODE ERROR_MIN_SIZE 0 0 [].
Definition CreateUnknownAttributes : StunAttribute :=
  UInt16ListAttr STUN_ATTR_UNKNOWN_ATTRIBUTES 0 [].

(** *** Reading and writing a value *)

Section AttributeIO.
Context `{Platform}.

Definition ConsumePadding (length : Z) (buf : ByteBuffer) : ByteBuffer :=
  let remainder := length mod 4 in
  if 0 <? remainder then
    match Consume buf (4 - remainder) with Some buf => buf | None => buf end
  else buf.

Definition WritePadding (length : Z) (buf : ByteBuffer) : ByteBuffer :=
  let remainder := length mod 4 in
  if 0 <? remainder then WriteBytes buf (zrepeat 0 (4 - remainder)) else buf.

Definition read_padding (length : Z) : SM ByteBuffer unit :=
  buf ← sm_get; sm_put (ConsumePadding length buf).

(** The address that goes on the wire.  [owner] is the transaction id of the
    owner, if there is one. *)
Definition GetXoredIP (owner : option (list Z)) (ip : IPAddress) : IPAddress :=
  match owner with
  | None => IPAddress_unspec
  | Some transaction_id =>
      match family_ ip with
      | AF_INET =>
          IPAddress_v4 (host_store 4 (Z.lxor (s_addr (ipv4_address ip)) (HostToNetwork32 kStunMagicCookie)))
      | AF_INET6 =>
          let v6 := ipv6_address ip in
          if zlen transaction_id =? kStunTransactionIdLength then
            IPAddress_v6
              (host_store 4 (Z.lxor (v6_as_int 0 v6) (HostToNetwork32 kStunMagicCookie)) ++
               host_store 4 (Z.lxor (v6_as_int 1 v6) (v6_as_int 0 transaction_id)) ++
               host_store 4 (Z.lxor (v6_as_int 2 v6) (v6_as_int 1 transaction_id)) ++
               host_store 4 (Z.lxor (v6_as_int 3 v6) (v6_as_int 2 transaction_id)))
          else IPAddress_unspec
      | AF_UNSPEC => IPAddress_unspec
      end
  end.

(** [StunAddressAttribute::Read]; [a] is an address attribute of either kind. *)
Definition ReadAddress (a : StunAttribute) : SM ByteBuffer StunAttribute :=
  dummy ← sm_try ReadUInt8;
  stun_family ← sm_try ReadUInt8;
  port ← sm_try ReadUInt16;
  if stun_family =? STUN_ADDRESS_IPV4 then
    if negb (attr_length a =? SIZE_IP4) then sm_fail
    else
      v4addr ← sm_try (λ buf, ReadBytes buf 4);
      mret (SetAddress a (SocketAddress_of (IPAddress_v4 v4addr) port))
  else if stun_family =? STUN_ADDRESS_IPV6 then
    if negb (attr_length a =? SIZE_IP6) then sm_fail
    else
      v6addr ← sm_try (λ buf, ReadBytes buf 16);
      mret (SetAddress a (SocketAddress_of (IPAddress_v6 v6addr) port))
  else sm_fail.

(** [StunXorAddressAttribute::Read]. *)
Definition ReadXorAddress (owner : option (list Z)) (a : StunAttribute) : SM ByteBuffer StunAttribute :=
  a ← ReadAddress a;
  let xoredport := u16 (Z.lxor (port_ (attr_address a)) (Z.shiftr kStunMagicCookie 16)) in
  let xored_ip := GetXoredIP owner (ip_ (attr_address a)) in
  mret (SetAddress a (SocketAddress_of xored_ip xoredport)).

(** The entries of [StunUInt16ListAttribute::Read]. *)
Fixpoint ReadTypes (n : nat) (attr_types : list Z) : SM ByteBuffer (list Z) :=
  match n with
  | O => mret attr_types
  | S n' => attr ← sm_try ReadUInt16; ReadTypes n' (attr_types ++ [attr])
  end.

Definition ReadUInt32Attr (t l : Z) : SM ByteBuffer StunAttribute :=
  if negb (l =? UINT32_SIZE) then sm_fail
  else bits ← sm_try ReadUInt32; mret (UInt32Attr t l bits).

Definition ReadUInt64Attr (t l : Z) : SM ByteBuffer StunAttribute :=
  if negb (l =? UINT64_SIZE) then sm_fail
  else bits ← sm_try ReadUInt64; mret (UInt64Attr t l bits).

Definition ReadByteString (t l : Z) : SM ByteBuffer StunAttribute :=
  bytes ← sm_try (λ buf, ReadBytes buf l);
  _ ← read_padding l;
  mret (ByteStringAttr t l bytes).

(** [ReadString] appends to the reason the attribute has. *)
Definition ReadErrorCode (t l : Z) (reason : list Z) : SM ByteBuffer StunAttribute :=
  if l <? ERROR_MIN_SIZE then sm_fail
  else
    val ← sm_try ReadUInt32;
    let eclass := Z.land (Z.shiftr val 8) 7 in
    let number := Z.land val 255 in
    str ← sm_try (λ buf, ReadString buf (l - 4));
    _ ← read_padding l;
    mret (ErrorCodeAttr t l eclass number (reason ++ str)).

Definition ReadUInt16List (t l : Z) (types : list Z) : SM ByteBuffer StunAttribute :=
  if negb (l mod 2 =? 0) then sm_fail
  else
    types ← ReadTypes (Z.to_nat (l / 2)) types;
    _ ← read_padding l;
    mret (UInt16ListAttr t l types).

(** The virtual [Read]. *)
Definition ReadAttr (owner : option (list Z)) (a : StunAttribute) : SM ByteBuffer StunAttribute :=
  match a with
  | AddressAttr _ _ _ => ReadAddress a
  | XorAddressAttr _ _ _ => ReadXorAddress owner a
  | UInt32Attr t l _ => ReadUInt32Attr t l
  | UInt64Attr t l _ => ReadUInt64Attr t l
  | ByteStringAttr t l _ => ReadByteString t l
  | ErrorCodeAttr t l _ _ reason => ReadErrorCode t l reason
  | UInt16ListAttr t l types => ReadUInt16List t l types
  end.

(** [StunAddressAttribute::Write]. *)
Definition WriteAddress (addr : SocketAddress) (buf : ByteBuffer) : bool * ByteBuffer :=
  let address_family := stun_family addr in
  if address_family =? STUN_ADDRESS_UNDEF then (false, buf)
  else
    let buf := WriteUInt8 buf 0 in
    let buf := WriteUInt8 buf address_family in
    let buf := WriteUInt16 buf (port_ addr) in
    (true, match family_ (ip_ addr) with
           | AF_INET => WriteBytes buf (ipv4_address (ip_ addr))
           | AF_INET6 => WriteBytes buf (ipv6_address (ip_ addr))
           | AF_UNSPEC => buf
           end).

(** [StunXorAddressAttribute::Write]. *)
Definition WriteXorAddress (owner : option (list Z)) (addr : SocketAddress) (buf : ByteBuffer)
    : bool * ByteBuffer :=
  let address_family := stun_family addr in
  if address_family =? STUN_ADDRESS_UNDEF then (false, buf)
  else
    let xored_ip := GetXoredIP owner (ip_ addr) in
    if bool_decide (family_ xored_ip = AF_UNSPEC) then (false, buf)
    else
      let buf := WriteUInt8 buf 0 in
      let buf := WriteUInt8 buf address_family in
      let buf := WriteUInt16 buf (Z.lxor (port_ addr) (Z.shiftr kStunMagicCookie 16)) in
      (true, match family_ xored_ip with
             | AF_INET => WriteBytes buf (ipv4_address xored_ip)
             | AF_INET6 => WriteBytes buf (ipv6_address xored_ip)
             | AF_UNSPEC => buf
             end).

Definition WriteUInt32Attr (bits : Z) (buf : ByteBuffer) : bool * ByteBuffer := (true, WriteUInt32 buf bits).
Definition WriteUInt64Attr (bits : Z) (buf : ByteBuffer) : bool * ByteBuffer := (true, WriteUInt64 buf bits).
Definition WriteByteString (l : Z) (bytes : list Z) (buf : ByteBuffer) : bool * ByteBuffer :=
  (true, WritePadding l (WriteBytes buf (ztake l bytes))).
Definition WriteErrorCode (l eclass number : Z) (reason : list Z) (buf : ByteBuffer) : bool * ByteBuffer :=
  let buf := WriteUInt32 buf (Z.lor (Z.shiftl eclass 8) number) in
  (true, WritePadding l (WriteString buf reason)).
Definition WriteUInt16List (l : Z) (types : list Z) (buf : ByteBuffer) : bool * ByteBuffer :=
  (true, WritePadding l (fold_left WriteUInt16 types buf)).

(** The virtual [Write]. *)
Definition WriteAttr (owner : option (list Z)) (a : StunAttribute) (buf : ByteBuffer) : bool * ByteBuffer :=
  match a with
  | AddressAttr _ _ addr => WriteAddress addr buf
  | XorAddressAttr _ _ addr => WriteXorAddress owner addr buf
  | UInt32Attr _ _ bits => WriteUInt32Attr bits buf
  | UInt64Attr _ _ bits => WriteUInt64Attr bits buf
  | ByteStringAttr _ l bytes => WriteByteString l bytes buf
  | ErrorCodeAttr _ l eclass number reason => WriteErrorCode l eclass number reason buf
  | UInt16ListAttr _ l types => WriteUInt16List l types buf
  end.
End AttributeIO.

(** ** Messages *)

(** The class of a message decides which attributes it may carry. *)
Inductive MessageClass := CStun | CRelay | CTurn | CIce.

#[export] Instance MessageClass_eq_dec : EqDecision MessageClass.
Proof. solve_decision. Defined.

Record StunMessage := mkMessage {
  m_class : MessageClass;
  m_type : Z;
  m_length : Z;
  m_transaction_id : list Z;
  m_attrs : list StunAttribute
}.

(** [switch] over the value of an integer. *)
Fixpoint switch {A} (x : Z) (cases : list (Z * A)) (default : A) : A :=
  match cases with
  | [] => default
  | (k, a) :: cases' => if x =? k then a else switch x cases' default
  end.

Definition StunMessage_ValueType (type : Z) : StunAttributeValueType :=
  switch type
    [ (STUN_ATTR_MAPPED_ADDRESS, STUN_VALUE_ADDRESS);
      (STUN_ATTR_USERNAME, STUN_VALUE_BYTE_STRING);
      (STUN_ATTR_MESSAGE_INTEGRITY, STUN_VALUE_BYTE_STRING);
      (STUN_ATTR_ERROR_CODE, STUN_VALUE_ERROR_CODE);
      (STUN_ATTR_UNKNOWN_ATTRIBUTES, STUN_VALUE_UINT16_LIST);
      (STUN_ATTR_REALM, STUN_VALUE_BYTE_STRING);
      (STUN_ATTR_NONCE, STUN_VALUE_BYTE_STRING);
      (STUN_ATTR_XOR_MAPPED_ADDRESS, STUN_VALUE_XOR_ADDRESS);
      (STUN_ATTR_SOFTWARE, STUN_VALUE_BYTE_STRING);
      (STUN_ATTR_ALTERNATE_SERVER, STUN_VALUE_ADDRESS);
      (STUN_ATTR_FINGERPRINT, STUN_VALUE_UINT32);
      (STUN_ATTR_RETRANSMIT_COUNT, STUN_VALUE_UINT32) ] STUN_VALUE_UNKNOWN.

Definition RelayMessage_ValueType (type : Z) : StunAttributeValueType :=
  switch type
    [ (STUN_ATTR_LIFETIME, STUN_VALUE_UINT32);
      (STUN_ATTR_MAGIC_COOKIE, STUN_VALUE_BYTE_STRING);
      (STUN_ATTR_BANDWIDTH, STUN_VALUE_UINT32);
      (STUN_ATTR_DESTINATION_ADDRESS, STUN_VALUE_ADDRESS);
      (STUN_ATTR_SOURCE_ADDRESS2, STUN_VALUE_ADDRESS);
      (STUN_ATTR_DATA, STUN_VALUE_BYTE_STRING);
      (STUN_ATTR_OPTIONS, STUN_VALUE_UINT32) ] (StunMessage_ValueType type).

Definition TurnMessage_ValueType (type : Z) : StunAttributeValueType :=
  switch type
    [ (STUN_ATTR_CHANNEL_NUMBER, STUN_VALUE_UINT32);
      (STUN_ATTR_TURN_LIFETIME, STUN_VALUE_UINT32);
      (STUN_ATTR_XOR_PEER_ADDRESS, STUN_VALUE_XOR_ADDRESS);
      (STUN_ATTR_DATA, STUN_VALUE_BYTE_STRING);
      (STUN_ATTR_XOR_RELAYED_ADDRESS, STUN_VALUE_XOR_ADDRESS);
      (STUN_ATTR_EVEN_PORT, STUN_VALUE_BYTE_STRING);
      (STUN_ATTR_REQUESTED_TRANSPORT, STUN_VALUE_UINT32);
      (STUN_ATTR_DONT_FRAGMENT, STUN_VALUE_BYTE_STRING);
      (STUN_ATTR_RESERVATION_TOKEN, STUN_VALUE_BYTE_STRING) ] (StunMessage_ValueType type).

Definition IceMessage_ValueType (type : Z) : StunAttributeValueType :=
  switch type
    [ (STUN_ATTR_PRIORITY, STUN_VALUE_UINT32);
      (STUN_ATTR_USE_CANDIDATE, STUN_VALUE_BYTE_STRING);
      (STUN_ATTR_ICE_CONTROLLED, STUN_VALUE_UINT64);
      (STUN_ATTR_ICE_CONTROLLING, STUN_VALUE_UINT64) ] (StunMessage_ValueType type).

(** The virtual [GetAttributeValueType]. *)
Definition GetAttributeValueType (c : MessageClass) (type : Z) : StunAttributeValueType :=
  match c with
  | CStun => StunMessage_ValueType type
  | CRelay => RelayMessage_ValueType type
  | CTurn => TurnMessage_ValueType type
  | CIce => IceMessage_ValueType type
  end.

(** [StunMessage()] and the virtual [CreateNew]. *)
Definition StunMessage_new (c : MessageClass) : StunMessage := mkMessage c 0 0 EMPTY_TRANSACTION_ID [].

Definition IsValidTransactionId (transaction_id : list Z) : bool :=
  (zlen transaction_id =? kStunTransactionIdLength) ||
  (zlen transaction_id =? kStunLegacyTransactionIdLength).
Definition IsLegacy (m : StunMessage) : bool :=
  zlen (m_transaction_id m) =? kStunLegacyTransactionIdLength.

Definition SetType (m : StunMessage) (type : Z) : StunMessage :=
  mkMessage (m_class m) (u16 type) (m_length m) (m_transaction_id m) (m_attrs m).
Definition SetTransactionID (m : StunMessage) (str : list Z) : bool * StunMessage :=
  if negb (IsValidTransactionId str) then (false, m)
  else (true, mkMessage (m_class m) (m_type m) (m_length m) str (m_attrs m)).

Definition AddAttribute (m : StunMessage) (attr : StunAttribute) : bool * StunMessage :=
  if negb (bool_decide (value_type attr = GetAttributeValueType (m_class m) (attr_type attr)))
  then (false, m)
  else
    let len := attr_length attr in
    let len := if negb (len mod 4 =? 0) then len + (4 - len mod 4) else len in
    (true, mkMessage (m_class m) (m_type m) (u16 (m_length m + u16 (len + 4)))
             (m_transaction_id m) (m_attrs m ++ [attr])).

Definition GetAttribute (m : StunMessage) (type : Z) : option StunAttribute :=
  find (λ a, attr_type a =? type) (m_attrs m).
Definition GetAddress (m : StunMessage) (type : Z) : option StunAttribute :=
  if type =? STUN_ATTR_MAPPED_ADDRESS then
    match GetAttribute m STUN_ATTR_MAPPED_ADDRESS with
    | Some a => Some a
    | None => GetAttribute m STUN_ATTR_XOR_MAPPED_ADDRESS
    end
  else GetAttribute m type.
(** The string of a byte string attribute, and the numbers of the others. *)
Definition GetByteString (m : StunMessage) (type : Z) : option (list Z) :=
  match GetAttribute m type with Some (ByteStringAttr _ l bytes) => Some (ztake l bytes) | _ => None end.
Definition GetUInt32 (m : StunMessage) (type : Z) : option Z :=
  match GetAttribute m type with Some (UInt32Attr _ _ bits) => Some bits | _ => None end.
Definition GetUInt64 (m : StunMessage) (type : Z) : option Z :=
  match GetAttribute m type with Some (UInt64Attr _ _ bits) => Some bits | _ => None end.
Definition GetErrorCode (m : StunMessage) : option StunAttribute := GetAttribute m STUN_ATTR_ERROR_CODE.
Definition GetUnknownAttributes (m : StunMessage) : option StunAttribute :=
  GetAttribute m STUN_ATTR_UNKNOWN_ATTRIBUTES.

Definition CreateAttribute (c : MessageClass) (type length : Z) : option StunAttribute :=
  Create (GetAttributeValueType c type) type (u16 length).

Section MessageIO.
Context `{Platform}.

(** *** Reading a message *)

Definition on_buf {A} (f : SM ByteBuffer A) : SM (StunMessage * ByteBuffer) A := λ s,
  let '(r, buf) := f s.2 in (r, (s.1, buf)).
Definition on_msg (f : StunMessage → StunMessage) : SM (StunMessage * ByteBuffer) unit := λ s,
  (Some tt, (f s.1, s.2)).

Definition set_type (type : Z) (m : StunMessage) : StunMessage :=
  mkMessage (m_class m) type (m_length m) (m_transaction_id m) (m_attrs m).
Definition set_length (length : Z) (m : StunMessage) : StunMessage :=
  mkMessage (m_class m) (m_type m) length (m_transaction_id m) (m_attrs m).
Definition set_transaction_id (id : list Z) (m : StunMessage) : StunMessage :=
  mkMessage (m_class m) (m_type m) (m_length m) id (m_attrs m).
Definition set_attrs (attrs : list StunAttribute) (m : StunMessage) : StunMessage :=
  mkMessage (m_class m) (m_type m) (m_length m) (m_transaction_id m) attrs.

(** The padded length of an attribute that is skipped, a [uint16]. *)
Definition skip_length (attr_length : Z) : Z :=
  if negb (attr_length mod 4 =? 0) then u16 (attr_length + (4 - attr_length mod 4)) else attr_length.

(** The loop over the attributes.  Every iteration consumes the four bytes of an
    attribute header, so the bytes of the buffer bound their number; the result
    is [false] when [fuel] ran out. *)
Fixpoint ReadAttributes (fuel : nat) (rest : Z) : SM (StunMessage * ByteBuffer) bool :=
  match fuel with
  | O => mret false
  | S f =>
      s ← sm_get;
      if negb (rest <? Length s.2) then mret true
      else
        attr_type ← on_buf (sm_try ReadUInt16);
        attr_length ← on_buf (sm_try ReadUInt16);
        _ ← match CreateAttribute (m_class s.1) attr_type attr_length with
            | None =>
                on_buf (sm_try (λ buf, buf ← Consume buf (skip_length attr_length); Some (tt, buf)))
            | Some attr =>
                attr ← on_buf (ReadAttr (Some (m_transaction_id s.1)) attr);
                on_msg (λ m, set_attrs (m_attrs m ++ [attr]) m)
            end;
        ReadAttributes f rest
  end.

Definition Read : SM (StunMessage * ByteBuffer) bool :=
  type ← on_buf (sm_try ReadUInt16);
  _ ← on_msg (set_type type);
  if negb (Z.land type 32768 =? 0) then sm_fail
  else
    length ← on_buf (sm_try ReadUInt16);
    _ ← on_msg (set_length length);
    magic_cookie ← on_buf (sm_try (λ buf, ReadString buf kStunMagicCookieLength));
    transaction_id ← on_buf (sm_try (λ buf, ReadString buf kStunTransactionIdLength));
    let magic_cookie_int := host_load magic_cookie in
    let transaction_id :=
      if negb (NetworkToHost32 magic_cookie_int =? kStunMagicCookie)
      then magic_cookie ++ transaction_id else transaction_id in
    _ ← on_msg (set_transaction_id transaction_id);
    s ← sm_get;
    if negb (length =? Length s.2) then sm_fail
    else
      _ ← on_msg (set_attrs []);
      let rest := Length s.2 - length in
      ReadAttributes (S (Z.to_nat (Length s.2))) rest.

(** *** Writing a message *)

Fixpoint WriteAttributes (owner : option (list Z)) (attrs : list StunAttribute) (buf : ByteBuffer)
    : bool * ByteBuffer :=
  match attrs with
  | [] => (true, buf)
  | a :: attrs' =>
      let buf := WriteUInt16 buf (attr_type a) in
      let buf := WriteUInt16 buf (u16 (attr_length a)) in
      let '(ok, buf) := WriteAttr owner a buf in
      if negb ok then (false, buf) else WriteAttributes owner attrs' buf
  end.

Definition Write (m : StunMessage) (buf : ByteBuffer) : bool * ByteBuffer :=
  let buf := WriteUInt16 buf (m_type m) in
  let buf := WriteUInt16 buf (m_length m) in
  let buf := if negb (IsLegacy m) then WriteUInt32 buf kStunMagicCookie else buf in
  let buf := WriteString buf (m_transaction_id m) in
  WriteAttributes (Some (m_transaction_id m)) (m_attrs m) buf.

(** *** Integrity *)

(** A load of two bytes that is defined only inside the packet. *)
Definition LoadBE16 (data : list Z) (p : Z) : option Z :=
  if (0 <=? p) && (p + 2 <=? zlen data) then Some (GetBE16 data p) else None.

Inductive scan_result :=
  | ScanFound (pos : Z)      (* the attribute was found at [pos] *)
  | ScanFalse                (* the function returns false *)
  | ScanOutside              (* a load outside the packet *)
  | ScanFuel.                (* [fuel] ran out *)

(** The loop of [ValidateMessageIntegrity]. *)
Fixpoint FindMessageIntegrity (fuel : nat) (data : list Z) (size current_pos : Z) : scan_result :=
  match fuel with
  | O => ScanFuel
  | S f =>
      if negb (current_pos <? size) then ScanFalse
      else
        match LoadBE16 data current_pos, LoadBE16 data (current_pos + 2) with
        | Some attr_type, Some attr_length =>
            if attr_type =? STUN_ATTR_MESSAGE_INTEGRITY then
              if negb (attr_length =? kStunMessageIntegritySize) || (size <? current_pos + attr_length)
              then ScanFalse else ScanFound current_pos
            else
              let next := current_pos + (2 + 2 + attr_length) in
              let next := if negb (attr_length mod 4 =? 0) then next + (4 - attr_length mod 4) else next in
              FindMessageIntegrity f data size next
        | _, _ => ScanOutside
        end
  end.

(** [None] when the function reads outside the packet. *)
Definition ValidateMessageIntegrity (data : list Z) (password : list Z) : option bool :=
  let size := zlen data in
  if negb (size mod 4 =? 0) then Some false
  else
    msg_length ← LoadBE16 data 2;
    if negb (size =? msg_length + kStunHeaderSize) then Some false
    else
      match FindMessageIntegrity (S (length data)) data size kStunHeaderSize with
      | ScanFound mi_pos =>
          let temp_data := ztake mi_pos data in
          let temp_data :=
            if mi_pos + kStunAttributeHeaderSize + kStunMessageIntegritySize <? size then
              let extra_offset := size - (mi_pos + kStunAttributeHeaderSize + kStunMessageIntegritySize) in
              let new_adjusted_len := size - extra_offset - kStunHeaderSize in
              SetBE16 temp_data 2 (u16 new_adjusted_len)
            else temp_data in
          let '(ret, hmac) := ComputeHmac_named DIGEST_SHA_1 password temp_data
                                (fresh_block kStunMessageIntegritySize) kStunMessageIntegritySize in
          if negb (ret =? kStunMessageIntegritySize) then Some false
          else
            let p := mi_pos + kStunAttributeHeaderSize in
            if p + kStunMessageIntegritySize <=? size
            then Some (memcmp (ztake kStunMessageIntegritySize (zdrop p data)) hmac =? 0)
            else None
      | ScanFalse => Some false
      | ScanOutside | ScanFuel => None
      end.

(** The last attribute is the one that was just added. *)
Fixpoint update_last (f : StunAttribute → StunAttribute) (l : list StunAttribute) : list StunAttribute :=
  match l with
  | [] => []
  | [a] => [f a]
  | a :: l' => a :: update_last f l'
  end.

Definition AddMessageIntegrity (m : StunMessage) (key : list Z) : bool * StunMessage :=
  let msg_integrity_attr :=
    StunByteStringAttribute STUN_ATTR_MESSAGE_INTEGRITY (zrepeat 48 kStunMessageIntegritySize) in
  let '(_, m) := AddAttribute m msg_integrity_attr in
  let '(ok, buf) := Write m (ByteBuffer_new ORDER_NETWORK) in
  if negb ok then (false, m)
  else
    let msg_len_for_hmac := Length buf - kStunAttributeHeaderSize - attr_length msg_integrity_attr in
    let '(ret, hmac) := ComputeHmac_named DIGEST_SHA_1 key (ztake msg_len_for_hmac (Data buf))
                          (fresh_block kStunMessageIntegritySize) kStunMessageIntegritySize in
    if negb (ret =? kStunMessageIntegritySize) then (false, m)
    else (true, set_attrs (update_last (λ a, CopyBytes a hmac) (m_attrs m)) m).

Definition ValidateFingerprint (data : list Z) : bool :=
  let size := zlen data in
  let fingerprint_attr_size := kStunAttributeHeaderSize + UINT32_SIZE in
  if negb (size mod 4 =? 0) || (size <? kStunHeaderSize + fingerprint_attr_size) then false
  else
    let magic_cookie := kStunTransactionIdOffset - kStunMagicCookieLength in
    if negb (GetBE32 data magic_cookie =? kStunMagicCookie) then false
    else
      let fingerprint_attr_data := size - fingerprint_attr_size in
      if negb (GetBE16 data fingerprint_attr_data =? STUN_ATTR_FINGERPRINT) ||
         negb (GetBE16 data (fingerprint_attr_data + 2) =? UINT32_SIZE)
      then false
      else
        let fingerprint := GetBE32 data (fingerprint_attr_data + kStunAttributeHeaderSize) in
        Z.lxor fingerprint STUN_FINGERPRINT_XOR_VALUE =? ComputeCrc32 (ztake (size - fingerprint_attr_size) data).

Definition SetValue (a : StunAttribute) (bits : Z) : StunAttribute :=
  match a with
  | UInt32Attr t l _ => UInt32Attr t l bits
  | UInt64Attr t l _ => UInt64Attr t l bits
  | _ => a
  end.

Definition AddFingerprint (m : StunMessage) : bool * StunMessage :=
  let fingerprint_attr := StunUInt32Attribute STUN_ATTR_FINGERPRINT 0 in
  let '(_, m) := AddAttribute m fingerprint_attr in
  let '(ok, buf) := Write m (ByteBuffer_new ORDER_NETWORK) in
  if negb ok then (false, m)
  else
    let msg_len_for_crc32 := Length buf - kStunAttributeHeaderSize - attr_length fingerprint_attr in
    let c := ComputeCrc32 (ztake msg_len_for_crc32 (Data buf)) in
    (true, set_attrs (update_last (λ a, SetValue a (Z.lxor c STUN_FINGERPRINT_XOR_VALUE)) (m_attrs m)) m).

(** ** Message types *)

Definition IsStunRequestType (msg_type : Z) : bool := Z.land msg_type kStunTypeMask =? 0.
Definition IsStunIndicationType (msg_type : Z) : bool := Z.land msg_type kStunTypeMask =? 16.
Definition IsStunSuccessResponseType (msg_type : Z) : bool := Z.land msg_type kStunTypeMask =? 256.
Definition IsStunErrorResponseType (msg_type : Z) : bool := Z.land msg_type kStunTypeMask =? 272.
Definition GetStunSuccessResponseType (req_type : Z) : Z :=
  if IsStunRequestType req_type then Z.lor req_type 256 else -1.
Definition GetStunErrorResponseType (req_type : Z) : Z :=
  if IsStunRequestType req_type then Z.lor req_type 272 else -1.

(** [None] for a false result; 58 is the colon. *)
Definition ComputeStunCredentialHash (username realm password : list Z) : option (list Z) :=
  let input := username ++ [58] ++ realm ++ [58] ++ password in
  let '(size, digest) := ComputeDigest_named DIGEST_MD5 input (fresh_block 64) 64 in
  if size =? 0 then None else Some (ztake size digest).
End MessageIO.
