(* ===== verification/StunWire.v ===== *)
(** * The wire form of STUN messages

    What [Write] puts on the wire and that [Read] recovers it: XOR-mapped
    addresses, every kind of attribute, whole messages; the length field; and
    that reading terminates on every packet. *)

From S2P Require Import Prelude ByteOrder ByteBuffer BlockHash Sha1 IpAddress Stun.

(** ** Exclusive or of words and of their bytes *)

Lemma lxor_lane x y m k : is_u8 x → is_u8 m →
  Z.lxor (y * 256 + x) (k * 256 + m) = Z.lxor y k * 256 + Z.lxor x m.
Proof.
  intros Hx Hm. change 256 with (2 ^ 8).
  rewrite <- !lor_lanes by (try apply (lxor_bound _ _ 8); unfold_words; lia).
  apply Z.bits_inj'. intros i Hi. rewrite Z.lor_spec, !Z.lxor_spec, !Z.lor_spec.
  destruct (Z.lt_ge_cases i 8).
  - rewrite !Z.shiftl_spec_low by lia. done.
  - rewrite !Z.shiftl_spec, Z.lxor_spec by lia.
    assert (Z.testbit x i = false) as -> by (apply (bounded_bits x 8); ulia).
    assert (Z.testbit m i = false) as -> by (apply (bounded_bits m 8); ulia).
    by rewrite !orb_false_r.
Qed.

Lemma le_lxor a b : length a = length b → bytes_ok a → bytes_ok b →
  le_encode (length a) (Z.lxor (le_decode a) (le_decode b)) = zip_with Z.lxor a b.
Proof.
  revert b. induction a as [|x a IH]; intros [|y b] Hl Ha Hb; try done.
  apply Forall_cons in Ha as [Hx Ha]. apply Forall_cons in Hb as [Hy Hb].
  cbn [length le_decode le_encode zip_with].
  rewrite !(Z.add_comm _ (256 * _)), !(Z.mul_comm 256), lxor_lane by done.
  assert (is_u8 (Z.lxor x y)) by auto with words. f_equal; [ulia|].
  rewrite <- (IH b) by (auto; cbn in Hl; lia). f_equal. ulia.
Qed.

Lemma zip_with_rev {A} (f : A → A → A) a b : length a = length b →
  zip_with f (rev a) (rev b) = rev (zip_with f a b).
Proof.
  revert b. induction a as [|x a IH]; intros [|y b] Hl; try done.
  cbn in *. rewrite zip_with_app by (rewrite !length_rev; lia). by rewrite IH by lia.
Qed.

Lemma host_lxor `{Platform} a b : zlen a = 4 → zlen b = 4 → bytes_ok a → bytes_ok b →
  host_store 4 (Z.lxor (host_load a) (host_load b)) = zip_with Z.lxor a b.
Proof.
  intros Ha Hb Hoka Hokb. unfold zlen in *. unfold host_store, host_load. destruct host_big_endian.
  - unfold be_encode, be_decode.
    replace 4%nat with (length (rev a)) by (rewrite length_rev; lia).
    rewrite le_lxor; [|rewrite !length_rev; lia|by apply Forall_rev..].
    rewrite zip_with_rev, rev_involutive by lia. done.
  - replace 4%nat with (length a) by lia. apply le_lxor; auto; lia.
Qed.

Lemma zip_lxor_involutive a b : length a = length b →
  zip_with Z.lxor (zip_with Z.lxor a b) b = a.
Proof.
  revert b. induction a as [|x a IH]; intros [|y b] Hl; try done.
  cbn in *. by rewrite lxor_involutive, IH by lia.
Qed.
Lemma zip_lxor_ok a b : bytes_ok a → bytes_ok b → bytes_ok (zip_with Z.lxor a b).
Proof.
  intros Ha. revert b. induction Ha as [|x a Hx Ha IH]; intros [|y b] Hb; cbn [zip_with];
    try constructor; apply Forall_cons in Hb as [Hy Hb]; auto with words. by apply IH.
Qed.

(** ** XOR addresses *)

Definition cookie_bytes : list Z := be_encode 4 kStunMagicCookie.

Lemma cookie_bytes_ok : bytes_ok cookie_bytes.
Proof. apply be_encode_ok. Qed.
#[local] Hint Resolve cookie_bytes_ok : words.

(** What an address is combined with. *)
Definition xor_mask (transaction_id : list Z) (f : Family) : list Z :=
  match f with
  | AF_INET => cookie_bytes
  | _ => cookie_bytes ++ transaction_id
  end.
Definition ip_bytes (ip : IPAddress) : list Z :=
  match family_ ip with
  | AF_UNSPEC => []
  | AF_INET => ipv4_address ip
  | AF_INET6 => ipv6_address ip
  end.
Definition ip_of (f : Family) (l : list Z) : IPAddress :=
  match f with
  | AF_UNSPEC => IPAddress_unspec
  | AF_INET => IPAddress_v4 l
  | AF_INET6 => IPAddress_v6 l
  end.

Lemma ip_of_bytes ip : ip_ok ip → ip_of (family_ ip) (ip_bytes ip) = ip.
Proof.
  destruct ip as [f u]. intros (Hl & Hok & Hu). unfold ip_of, ip_bytes, ipv4_address, ipv6_address. cbn in *.
  destruct f; [by rewrite Hu| |done].
  unfold IPAddress_v4. f_equal. rewrite <- (ztake_zdrop 4 u) at 2. rewrite Hu.
  unfold splice. rewrite (ztake_neg 0), app_nil_l by lia. f_equal.
  replace (0 + zlen (ztake 4 u)) with 4 by zlia. done.
Qed.

Definition ip_size (f : Family) : Z := match f with AF_UNSPEC => 0 | AF_INET => 4 | AF_INET6 => 16 end.

Lemma ip_bytes_length ip : ip_ok ip → zlen (ip_bytes ip) = ip_size (family_ ip) ∧ bytes_ok (ip_bytes ip).
Proof.
  intros (Hl & Hok & _). unfold ip_bytes, ipv4_address, ipv6_address. destruct (family_ ip); cbn.
  - split; [done|constructor].
  - split; [zlia|auto with words].
  - done.
Qed.

Lemma ip_of_ok f l : zlen l = ip_size f → bytes_ok l →
  ip_ok (ip_of f l) ∧ family_ (ip_of f l) = f ∧ ip_bytes (ip_of f l) = l.
Proof.
  intros Hl Hok. destruct f; cbn in Hl.
  - apply zlen_0_nil in Hl as ->. split; [split; [done|split; [apply bytes_ok_zeros|done]]|done].
  - destruct (v4_value l Hl Hok) as [? _]. split_and!; try done. unfold ip_bytes, ipv4_address. cbn.
    explode_list l. reflexivity.
  - by split_and!.
Qed.

Section Xor.
Context `{Platform}.

Lemma cookie_load : HostToNetwork32 kStunMagicCookie = host_load cookie_bytes.
Proof. apply HostToNetwork32_load. Qed.

(** [GetXoredIP] is a byte-wise exclusive or with the cookie and the id. *)
Lemma GetXoredIP_mask tid ip : ip_ok ip → bytes_ok tid →
  (family_ ip = AF_INET6 → zlen tid = 12) → family_ ip ≠ AF_UNSPEC →
  GetXoredIP (Some tid) ip =
    ip_of (family_ ip) (zip_with Z.lxor (ip_bytes ip) (xor_mask tid (family_ ip))).
Proof.
  intros Hip Htid H6 Hf. destruct (ip_bytes_length ip Hip) as [Hlen Hok].
  unfold GetXoredIP, xor_mask, ip_bytes in *. rewrite cookie_load.
  destruct (family_ ip) eqn:E; [done| |].
  - cbn [ip_of]. unfold s_addr. rewrite host_lxor; auto with words.
  - rewrite (H6 eq_refl). cbn [Z.eqb Pos.eqb kStunTransactionIdLength ip_of]. f_equal.
    cbn in Hlen. specialize (H6 eq_refl). clear Hip Hf E.
    revert Hlen Hok. generalize (ipv6_address ip). intros u Hu Hok. unfold v6_as_int.
    rewrite !host_lxor by (auto with words; done || zlia).
    clear Hok Htid. explode_list u. explode_list tid. reflexivity.
Qed.

(** The wire form of an address that has an owner: same family, well formed, and
    combined twice it is the address again. *)
Lemma GetXoredIP_involutive tid ip : ip_ok ip → bytes_ok tid →
  (family_ ip = AF_INET6 → zlen tid = 12) → family_ ip ≠ AF_UNSPEC →
  let x := GetXoredIP (Some tid) ip in
  ip_ok x ∧ family_ x = family_ ip ∧ GetXoredIP (Some tid) x = ip.
Proof.
  intros Hip Htid H6 Hf x. destruct (ip_bytes_length ip Hip) as [Hlen Hok].
  set (mask := xor_mask tid (family_ ip)).
  assert (Hmask : zlen mask = ip_size (family_ ip) ∧ bytes_ok mask).
  { unfold mask, xor_mask. destruct (family_ ip); [done|auto with words|].
    rewrite zlen_app, bytes_ok_app, (H6 eq_refl). auto with words. }
  destruct Hmask as [Hml Hmok].
  assert (Hzl : length (zip_with Z.lxor (ip_bytes ip) mask) = length (ip_bytes ip)).
  { rewrite length_zip_with. unfold zlen in *. lia. }
  assert (Hx : x = ip_of (family_ ip) (zip_with Z.lxor (ip_bytes ip) mask))
    by (by apply GetXoredIP_mask).
  destruct (ip_of_ok (family_ ip) (zip_with Z.lxor (ip_bytes ip) mask)) as (Hxok & Hxf & Hxb).
  { unfold zlen in *. rewrite Hzl. exact Hlen. }
  { by apply zip_lxor_ok. }
  rewrite <- Hx in *. split_and!; [done|done|].
  rewrite GetXoredIP_mask, Hxf, Hxb; rewrite ?Hxf; auto.
  fold mask. rewrite zip_lxor_involutive by (unfold zlen in *; lia). by apply ip_of_bytes.
Qed.
End Xor.

(** ** Attributes *)

Definition pad4 (n : Z) : Z := (4 - n mod 4) mod 4.
Definition padded (n : Z) : Z := n + pad4 n.

Lemma padded_mod n : padded n mod 4 = 0.
Proof. unfold padded, pad4. ulia. Qed.
Lemma pad4_range n : 0 ≤ pad4 n < 4.
Proof. unfold pad4. ulia. Qed.

Section Wire.
Context `{Platform}.

(** The value of an attribute on the wire, padding included. *)
Definition attr_body (tid : list Z) (a : StunAttribute) : list Z :=
  match a with
  | AddressAttr _ _ addr =>
      [0; stun_family addr] ++ be_encode 2 (port_ addr) ++ ip_bytes (ip_ addr)
  | XorAddressAttr _ _ addr =>
      [0; stun_family addr] ++ be_encode 2 (Z.lxor (port_ addr) (Z.shiftr kStunMagicCookie 16))
        ++ ip_bytes (GetXoredIP (Some tid) (ip_ addr))
  | UInt32Attr _ _ bits => be_encode 4 bits
  | UInt64Attr _ _ bits => be_encode 8 bits
  | ByteStringAttr _ l bytes => bytes ++ zrepeat 0 (pad4 l)
  | ErrorCodeAttr _ l c n reason => be_encode 4 (c * 256 + n) ++ reason ++ zrepeat 0 (pad4 l)
  | UInt16ListAttr _ l types => concat (be_encode 2 <$> types) ++ zrepeat 0 (pad4 l)
  end.
Definition attr_wire (tid : list Z) (a : StunAttribute) : list Z :=
  be_encode 2 (attr_type a) ++ be_encode 2 (attr_length a) ++ attr_body tid a.

(** An address as the reader reconstructs it. *)
Definition addr_ok (addr : SocketAddress) : Prop :=
  addr = SocketAddress_of (ip_ addr) (port_ addr) ∧ ip_ok (ip_ addr) ∧ is_u16 (port_ addr) ∧
  family_ (ip_ addr) ≠ AF_UNSPEC.

(** Attributes whose fields agree with each other and with their widths. *)
Definition attr_ok (tid : list Z) (a : StunAttribute) : Prop :=
  is_u16 (attr_type a) ∧ is_u16 (attr_length a) ∧
  match a with
  | AddressAttr _ l addr => addr_ok addr ∧ l = EnsureAddressLength addr
  | XorAddressAttr _ l addr =>
      addr_ok addr ∧ l = EnsureAddressLength addr ∧ (family_ (ip_ addr) = AF_INET6 → zlen tid = 12)
  | UInt32Attr _ l bits => l = 4 ∧ is_u32 bits
  | UInt64Attr _ l bits => l = 8 ∧ is_u64 bits
  | ByteStringAttr _ l bytes => l = zlen bytes ∧ bytes_ok bytes
  | ErrorCodeAttr _ l c n reason => l = 4 + zlen reason ∧ bytes_ok reason ∧ 0 ≤ c < 8 ∧ is_u8 n
  | UInt16ListAttr _ l types => l = 2 * zlen types ∧ Forall is_u16 types
  end.

(** *** Writing *)

Definition appends_net (b : ByteBuffer) (bs : list Z) (b' : ByteBuffer) : Prop :=
  bb_ok b → byte_order_ b = ORDER_NETWORK → appends b bs b'.

Lemma appends_net_trans b x b' y b'' :
  appends_net b x b' → appends_net b' y b'' → appends_net b (x ++ y) b''.
Proof.
  intros H1 H2 Hb Ho. destruct (H1 Hb Ho) as (? & ? & ?) eqn:E. eapply appends_trans; [by apply H1|].
  apply H2; [done|congruence].
Qed.
Lemma net_bytes b bs : bytes_ok bs → appends_net b bs (WriteBytes b bs).
Proof. intros ? ? ?. by apply WriteBytes_appends. Qed.
Lemma net_string b bs : bytes_ok bs → appends_net b bs (WriteString b bs).
Proof. intros ? ? ?. by apply WriteString_appends. Qed.
Lemma net_uint8 b v : appends_net b (be_encode 1 v) (WriteUInt8 b v).
Proof. intros ? Ho. pose proof (WriteUInt8_appends b v) as Ha. rewrite Ho in Ha. auto. Qed.
Lemma net_uint16 b v : appends_net b (be_encode 2 v) (WriteUInt16 b v).
Proof. intros ? Ho. pose proof (WriteUInt16_appends b v) as Ha. rewrite Ho in Ha. auto. Qed.
Lemma net_uint32 b v : appends_net b (be_encode 4 v) (WriteUInt32 b v).
Proof. intros ? Ho. pose proof (WriteUInt32_appends b v) as Ha. rewrite Ho in Ha. auto. Qed.
Lemma net_uint64 b v : appends_net b (be_encode 8 v) (WriteUInt64 b v).
Proof. intros ? Ho. pose proof (WriteUInt64_appends b v) as Ha. rewrite Ho in Ha. auto. Qed.
Lemma net_nil b : appends_net b [] b.
Proof. intros ? ?. by apply appends_nil. Qed.
Lemma net_padding b l : appends_net b (zrepeat 0 (pad4 l)) (WritePadding l b).
Proof.
  unfold WritePadding, pad4. destruct (Z.ltb_spec 0 (l mod 4)).
  - replace ((4 - l mod 4) mod 4) with (4 - l mod 4) by ulia. apply net_bytes. auto with words.
  - replace ((4 - l mod 4) mod 4) with 0 by ulia. apply net_nil.
Qed.
Lemma net_types types b : appends_net b (concat (be_encode 2 <$> types)) (fold_left WriteUInt16 types b).
Proof.
  revert b. induction types as [|t types IH]; intros b; [apply net_nil|].
  cbn [fmap list_fmap concat fold_left]. eapply appends_net_trans; [apply net_uint16|apply IH].
Qed.

Lemma byte_encode v : is_u8 v → [v] = be_encode 1 v.
Proof. intros. cbn. f_equal. ulia. Qed.

Lemma stun_family_range addr : family_ (ip_ addr) ≠ AF_UNSPEC →
  stun_family addr = 1 ∨ stun_family addr = 2.
Proof. unfold stun_family. destruct (family_ (ip_ addr)); auto. done. Qed.

(** The part that the two kinds of address share. *)
Lemma net_address b fam port bytes : is_u8 fam → bytes_ok bytes →
  appends_net b ([0; fam] ++ be_encode 2 port ++ bytes)
    (WriteBytes (WriteUInt16 (WriteUInt8 (WriteUInt8 b 0) fam) port) bytes).
Proof.
  intros Hf Hb. change [0; fam] with ([0] ++ [fam]).
  rewrite (byte_encode fam), (byte_encode 0) by (done || ulia). rewrite <- app_assoc.
  eapply appends_net_trans; [apply net_uint8|].
  eapply appends_net_trans; [apply net_uint8|].
  eapply appends_net_trans; [apply net_uint16|by apply net_bytes].
Qed.

Lemma write_ip b ip : family_ ip ≠ AF_UNSPEC →
  match family_ ip with
  | AF_INET => WriteBytes b (ipv4_address ip)
  | AF_INET6 => WriteBytes b (ipv6_address ip)
  | AF_UNSPEC => b
  end = WriteBytes b (ip_bytes ip).
Proof. unfold ip_bytes. by destruct (family_ ip). Qed.

Lemma error_word c n : 0 ≤ c < 8 → is_u8 n → Z.lor (Z.shiftl c 8) n = c * 256 + n.
Proof. intros Hc Hn. rewrite lor_lanes by ulia. done. Qed.

Lemma WriteAttr_net tid a b : bytes_ok tid → attr_ok tid a →
  (WriteAttr (Some tid) a b).1 = true ∧ appends_net b (attr_body tid a) (WriteAttr (Some tid) a b).2.
Proof.
  intros Htid (_ & _ & Ha). destruct a as [t l addr|t l addr|t l v|t l v|t l v|t l c n r|t l v];
    cbn [WriteAttr attr_body]; unfold WriteUInt32Attr, WriteUInt64Attr, WriteByteString, WriteErrorCode, WriteUInt16List; try (split; [done|]).
  - destruct Ha as [(_ & Hip & _ & Hf) _]. destruct (ip_bytes_length _ Hip) as [_ Hok].
    unfold WriteAddress. destruct (stun_family_range addr Hf) as [E|E]; rewrite E; cbn [Z.eqb];
      (split; [done|]); cbn [snd]; rewrite write_ip by done; (apply net_address; [ulia|done]).
  - destruct Ha as [(_ & Hip & _ & Hf) [_ H6]].
    destruct (GetXoredIP_involutive tid _ Hip Htid H6 Hf) as (Hx & Hxf & _).
    destruct (ip_bytes_length _ Hx) as [_ Hok]. unfold WriteXorAddress.
    destruct (stun_family_range addr Hf) as [E|E]; rewrite E; cbn [Z.eqb];
      rewrite bool_decide_eq_false_2 by (by rewrite Hxf); (split; [done|]); cbn [snd];
      rewrite write_ip by (by rewrite Hxf); (apply net_address; [ulia|done]).
  - apply net_uint32.
  - apply net_uint64.
  - destruct Ha as [-> Hok]. rewrite ztake_all by lia.
    eapply appends_net_trans; [by apply net_bytes|apply net_padding].
  - destruct Ha as (-> & Hok & Hc & Hn). rewrite error_word by done.
    eapply appends_net_trans; [apply net_uint32|].
    eapply appends_net_trans; [by apply net_string|apply net_padding].
  - eapply appends_net_trans; [apply net_types|apply net_padding].
Qed.

Lemma WriteAttributes_net tid attrs b : bytes_ok tid → Forall (attr_ok tid) attrs →
  (WriteAttributes (Some tid) attrs b).1 = true ∧
  appends_net b (concat (attr_wire tid <$> attrs)) (WriteAttributes (Some tid) attrs b).2.
Proof.
  intros Htid Hattrs. revert b. induction Hattrs as [|a attrs Ha Hattrs IH]; intros b; cbn [WriteAttributes].
  { split; [done|apply net_nil]. }
  pose proof Ha as (_ & Hlen & _). rewrite u16_id by done.
  destruct (WriteAttr_net tid a (WriteUInt16 (WriteUInt16 b (attr_type a)) (attr_length a)) Htid Ha) as [Ht Hn].
  destruct (WriteAttr _ _ _) as [ok b']. cbn in Ht, Hn. subst ok. cbn [negb].
  destruct (IH b') as [Ht' Hn']. split; [done|]. cbn [fmap list_fmap concat]. unfold attr_wire at 1.
  rewrite <- !app_assoc. eapply appends_net_trans; [apply net_uint16|].
  eapply appends_net_trans; [apply net_uint16|]. eapply appends_net_trans; [exact Hn|exact Hn'].
Qed.

(** *** Reading *)

(** The unread data of a buffer in network order. *)
Definition holds (b : ByteBuffer) (l : list Z) : Prop :=
  bb_ok b ∧ byte_order_ b = ORDER_NETWORK ∧ Data b = l.

(** [f] returns [a] and leaves [l]. *)
Definition reads {A} (f : SM ByteBuffer A) (b : ByteBuffer) (a : A) (l : list Z) : Prop :=
  ∃ b', f b = (Some a, b') ∧ holds b' l.

Lemma reads_ret {A} (a : A) b l : holds b l → reads (mret a) b a l.
Proof. intros. by exists b. Qed.
Lemma reads_bind {A B} (f : SM ByteBuffer A) (g : A → SM ByteBuffer B) b a l c k :
  reads f b a l → (∀ b', holds b' l → reads (g a) b' c k) → reads (f ≫= g) b c k.
Proof.
  intros (b' & E & Hb') Hg. destruct (Hg b' Hb') as (b'' & E' & Hb''). exists b''.
  split; [|done]. by rewrite (SM_bind_run _ _ _ _ _ E).
Qed.

Lemma reads_bytes b bs l n : holds b (bs ++ l) → n = zlen bs → reads (sm_try (λ buf, ReadBytes buf n)) b bs l.
Proof.
  intros (Hb & Ho & HD) ->. destruct (ReadBytes_app b bs l Hb HD) as (b' & E & HD' & Hb' & Ho').
  exists b'. split; [by apply sm_try_run|]. split_and!; congruence || done.
Qed.
Lemma reads_string b bs l n : holds b (bs ++ l) → n = zlen bs → reads (sm_try (λ buf, ReadString buf n)) b bs l.
Proof. intros. by apply reads_bytes. Qed.

Lemma reads_int n b v l : holds b (be_encode n v ++ l) → 0 ≤ v < 256 ^ Z.of_nat n →
  ∃ b', read_int n b = Some (v, b') ∧ holds b' l.
Proof.
  intros (Hb & Ho & HD) Hv. destruct (read_int_app n b v l Hb Hv) as (b' & E & HD' & Hb' & Ho').
  { rewrite Ho. exact HD. }
  exists b'. split; [done|]. split_and!; congruence || done.
Qed.
Lemma reads_uint8 b v l : holds b (v :: l) → is_u8 v → reads (sm_try ReadUInt8) b v l.
Proof.
  intros Hh Hv. pose proof Hh as (Hb & _).
  destruct (reads_int 1 b v l) as (b' & E & Hb'); [by rewrite <- byte_encode by done|done|].
  exists b'. split; [|done]. apply sm_try_run. by rewrite ReadUInt8_int.
Qed.
Lemma reads_uint16 b v l : holds b (be_encode 2 v ++ l) → is_u16 v → reads (sm_try ReadUInt16) b v l.
Proof.
  intros Hh Hv. pose proof Hh as (Hb & _). destruct (reads_int 2 b v l Hh Hv) as (b' & E & Hb').
  exists b'. split; [|done]. apply sm_try_run. by rewrite ReadUInt16_int.
Qed.
Lemma reads_uint32 b v l : holds b (be_encode 4 v ++ l) → is_u32 v → reads (sm_try ReadUInt32) b v l.
Proof.
  intros Hh Hv. pose proof Hh as (Hb & _). destruct (reads_int 4 b v l Hh Hv) as (b' & E & Hb').
  exists b'. split; [|done]. apply sm_try_run. by rewrite ReadUInt32_int.
Qed.
Lemma reads_uint64 b v l : holds b (be_encode 8 v ++ l) → is_u64 v → reads (sm_try ReadUInt64) b v l.
Proof.
  intros Hh Hv. pose proof Hh as (Hb & _). destruct (reads_int 8 b v l Hh Hv) as (b' & E & Hb').
  exists b'. split; [|done]. apply sm_try_run. by rewrite ReadUInt64_int.
Qed.
Lemma reads_padding b n l : holds b (zrepeat 0 (pad4 n) ++ l) → reads (read_padding n) b tt l.
Proof.
  intros (Hb & Ho & HD). eexists. split; [reflexivity|]. unfold ConsumePadding, pad4 in *.
  destruct (Z.ltb_spec 0 (n mod 4)).
  - replace ((4 - n mod 4) mod 4) with (4 - n mod 4) in HD by ulia.
    pose proof (Consume_spec b (4 - n mod 4) Hb ltac:(ulia)) as Hc. rewrite HD in Hc.
    assert (Hz : zlen (zrepeat 0 (4 - n mod 4)) = 4 - n mod 4) by (rewrite zlen_zrepeat; ulia).
    destruct (Consume b (4 - n mod 4)) as [b'|].
    + destruct Hc as (_ & HD' & Hb' & Ho' & _). rewrite zdrop_app_exact in HD' by lia.
      split_and!; congruence || done.
    + exfalso. rewrite zlen_app, Hz in Hc. pose proof (zlen_nonneg l). lia.
  - replace ((4 - n mod 4) mod 4) with 0 in HD by ulia. by split_and!.
Qed.

Lemma reads_types types : ∀ b acc l, holds b (concat (be_encode 2 <$> types) ++ l) →
  Forall is_u16 types → reads (ReadTypes (length types) acc) b (acc ++ types) l.
Proof.
  induction types as [|t types IH]; intros b acc l Hh Ht; cbn [length ReadTypes].
  { rewrite app_nil_r. by apply reads_ret. }
  apply Forall_cons in Ht as [Ht Hts]. cbn [fmap list_fmap concat] in Hh. rewrite <- app_assoc in Hh.
  eapply reads_bind; [by apply reads_uint16|]. intros b' Hb'.
  replace (acc ++ t :: types) with ((acc ++ [t]) ++ types) by (by rewrite <- app_assoc).
  by apply IH.
Qed.

(** [ReadAddress] recovers an address of either family. *)
Lemma reads_address a b ip port l : ip_ok ip → family_ ip ≠ AF_UNSPEC → is_u16 port →
  attr_length a = EnsureAddressLength (SocketAddress_of ip port) →
  holds b (([0; stun_family (SocketAddress_of ip port)] ++ be_encode 2 port ++ ip_bytes ip) ++ l) →
  reads (ReadAddress a) b (SetAddress a (SocketAddress_of ip port)) l.
Proof.
  intros Hip Hf Hport Hlen Hh. destruct (ip_bytes_length ip Hip) as [Hl Hok].
  pose proof (ip_of_bytes ip Hip) as Hof. rewrite <- !app_assoc in Hh.
  assert (Hfam : is_u8 (stun_family (SocketAddress_of ip port))).
  { destruct (stun_family_range (SocketAddress_of ip port) Hf) as [-> | ->]; ulia. }
  eapply reads_bind; [apply reads_uint8; [exact Hh|ulia]|]. intros b1 Hb1.
  eapply reads_bind; [by apply reads_uint8|]. intros b2 Hb2.
  eapply reads_bind; [by apply reads_uint16|]. intros b3 Hb3.
  rewrite Hlen. unfold EnsureAddressLength, stun_family in *. cbn [ip_ SocketAddress_of SocketAddress_SetPort SocketAddress_SetIP] in *.
  destruct (family_ ip) eqn:E; [done| |]; cbn [Z.eqb Pos.eqb STUN_ADDRESS_IPV4 STUN_ADDRESS_IPV6 negb SIZE_IP4 SIZE_IP6];
    (eapply reads_bind; [by apply reads_bytes|]; intros b4 Hb4; cbn [ip_of] in Hof; rewrite Hof; by apply reads_ret).
Qed.

Lemma xor_port p : is_u16 p →
  let x := Z.lxor p (Z.shiftr kStunMagicCookie 16) in is_u16 x ∧ Z.lxor x (Z.shiftr kStunMagicCookie 16) = p.
Proof. intros Hp x. split; [apply lxor_u16; [done|vm_compute; split; congruence]|apply lxor_involutive]. Qed.

Lemma stun_family_eq ip p addr : family_ ip = family_ (ip_ addr) →
  stun_family (SocketAddress_of ip p) = stun_family addr.
Proof. intros E. unfold stun_family. cbn. by rewrite E. Qed.

Lemma reads_attr tid a b l c : bytes_ok tid → attr_ok tid a →
  Create (value_type a) (attr_type a) (attr_length a) = Some c →
  holds b (attr_body tid a ++ l) → reads (ReadAttr (Some tid) c) b a l.
Proof.
  intros Htid (_ & Hl & Ha) Hc Hh. destruct a as [t n addr|t n addr|t n v|t n v|t n v|t n ec en r|t n v];
    cbn in Hc; injection Hc as <-; cbn [ReadAttr attr_body attr_length] in *;
    unfold ReadUInt32Attr, ReadUInt64Attr, ReadByteString, ReadErrorCode, ReadUInt16List.
  - destruct Ha as [(Haddr & Hip & Hport & Hf) ->]. rewrite Haddr in Hh |- *.
    cbn [port_ ip_ SocketAddress_of SocketAddress_SetPort SocketAddress_SetIP] in Hh.
    rewrite u16_id in Hh by done.
    apply (reads_address (AddressAttr t _ _) b (ip_ addr) (port_ addr) l); auto.
  - destruct Ha as [(Haddr & Hip & Hport & Hf) [-> H6]].
    destruct (GetXoredIP_involutive tid _ Hip Htid H6 Hf) as (Hx & Hxf & Hinv).
    destruct (xor_port _ Hport) as [Hxp Hxi]. cbv zeta in Hx, Hxf, Hinv.
    eapply reads_bind.
    + eapply (reads_address _ b (GetXoredIP (Some tid) (ip_ addr))
                (Z.lxor (port_ addr) (Z.shiftr kStunMagicCookie 16)) l); [done|by rewrite Hxf|done| |].
      * cbn [attr_length]. unfold EnsureAddressLength. by rewrite (stun_family_eq _ _ addr).
      * by rewrite (stun_family_eq _ _ addr).
    + intros b' Hb'. cbn [SetAddress attr_address ip_ port_ SocketAddress_of SocketAddress_SetPort SocketAddress_SetIP].
      rewrite (u16_id (Z.lxor (port_ addr) _)), Hxi, Hinv, (u16_id (port_ addr)) by done.
      rewrite <- Haddr. by apply reads_ret.
  - destruct Ha as [-> Hv]. cbn. eapply reads_bind; [by apply reads_uint32|]. intros. by apply reads_ret.
  - destruct Ha as [-> Hv]. cbn. eapply reads_bind; [by apply reads_uint64|]. intros. by apply reads_ret.
  - destruct Ha as [-> Hv]. rewrite <- app_assoc in Hh.
    eapply reads_bind; [by apply reads_bytes|]. intros b1 Hb1.
    eapply reads_bind; [by apply reads_padding|]. intros. by apply reads_ret.
  - destruct Ha as (-> & Hr & Hec & Hen). rewrite <- !app_assoc in Hh. pose proof (zlen_nonneg r).
    destruct (Z.ltb_spec (4 + zlen r) ERROR_MIN_SIZE); [unfold ERROR_MIN_SIZE in *; lia|].
    eapply reads_bind; [apply reads_uint32; [exact Hh|ulia]|]. intros b1 Hb1.
    eapply reads_bind; [apply reads_string; [exact Hb1|lia]|]. intros b2 Hb2.
    eapply reads_bind; [by apply reads_padding|]. intros b3 Hb3.
    change 7 with (Z.ones 3). rewrite Z.land_ones, Z.shiftr_div_pow2, land_255 by lia.
    replace (((ec * 256 + en) / 2 ^ 8) mod 2 ^ 3) with ec by (change (2 ^ 8) with 256; change (2 ^ 3) with 8; ulia).
    replace (u8 (ec * 256 + en)) with en by ulia. by apply reads_ret.
  - destruct Ha as [-> Hv]. rewrite <- app_assoc in Hh.
    replace ((2 * zlen v) mod 2 =? 0) with true by (symmetry; apply Z.eqb_eq; ulia). cbn [negb].
    replace (Z.to_nat (2 * zlen v / 2)) with (length v) by (unfold zlen; ulia).
    eapply reads_bind; [by apply reads_types|]. intros b1 Hb1.
    eapply reads_bind; [by apply reads_padding|]. intros. by apply reads_ret.
Qed.

(** ** Messages *)

Definition attrs_size (attrs : list StunAttribute) : Z :=
  fold_right (λ a n, 4 + padded (attr_length a) + n) 0 attrs.

(** A message whose header agrees with its attributes, and whose transaction id
    is not mistaken for the other version of the protocol. *)
Definition msg_ok (m : StunMessage) : Prop :=
  0 ≤ m_type m < 32768 ∧ bytes_ok (m_transaction_id m) ∧
  (zlen (m_transaction_id m) = 12 ∨
   zlen (m_transaction_id m) = 16 ∧ ztake 4 (m_transaction_id m) ≠ cookie_bytes) ∧
  Forall (attr_ok (m_transaction_id m)) (m_attrs m) ∧
  Forall (λ a, GetAttributeValueType (m_class m) (attr_type a) = value_type a) (m_attrs m) ∧
  m_length m = attrs_size (m_attrs m) ∧ m_length m < 65536.

Definition header_id (tid : list Z) : list Z :=
  if zlen tid =? kStunLegacyTransactionIdLength then tid else cookie_bytes ++ tid.
Definition msg_wire (m : StunMessage) : list Z :=
  be_encode 2 (m_type m) ++ be_encode 2 (m_length m) ++ header_id (m_transaction_id m) ++
  concat (attr_wire (m_transaction_id m) <$> m_attrs m).

Lemma zlen_concat_types types : zlen (concat (be_encode 2 <$> types)) = 2 * zlen types.
Proof.
  induction types as [|t types IH]; [done|]. cbn [fmap list_fmap concat].
  rewrite zlen_app, zlen_cons, zlen_be_encode. change (list_fmap _ _ (be_encode 2) types) with (be_encode 2 <$> types).
  rewrite IH. lia.
Qed.

Lemma address_length addr (bytes : list Z) : addr_ok addr → zlen bytes = ip_size (family_ (ip_ addr)) →
  4 + zlen bytes = padded (EnsureAddressLength addr).
Proof.
  intros (_ & _ & _ & Hf) Hl. unfold EnsureAddressLength, stun_family. rewrite Hl.
  by destruct (family_ (ip_ addr)).
Qed.

Lemma attr_wire_length tid a : bytes_ok tid → attr_ok tid a →
  zlen (attr_wire tid a) = 4 + padded (attr_length a).
Proof.
  intros Htid (_ & _ & Ha). unfold attr_wire. rewrite !zlen_app, !zlen_be_encode.
  enough (zlen (attr_body tid a) = padded (attr_length a)) by lia.
  destruct a as [t l addr|t l addr|t l v|t l v|t l v|t l c n r|t l v]; cbn [attr_body attr_length].
  - destruct Ha as [Haddr ->]. pose proof Haddr as (_ & Hip & _ & _).
    destruct (ip_bytes_length _ Hip) as [Hl _]. rewrite <- (address_length addr _ Haddr Hl).
    rewrite !zlen_app, zlen_be_encode. change (zlen [_; _]) with 2. lia.
  - destruct Ha as [Haddr [-> H6]]. pose proof Haddr as (_ & Hip & _ & Hf).
    destruct (GetXoredIP_involutive tid _ Hip Htid H6 Hf) as (Hx & Hxf & _).
    destruct (ip_bytes_length _ Hx) as [Hl _]. rewrite Hxf in Hl.
    rewrite <- (address_length addr _ Haddr Hl). rewrite !zlen_app, zlen_be_encode.
    change (zlen [_; _]) with 2. lia.
  - destruct Ha as [-> _]. by rewrite zlen_be_encode.
  - destruct Ha as [-> _]. by rewrite zlen_be_encode.
  - destruct Ha as [-> _]. unfold padded. pose proof (pad4_range (zlen v)). zlia.
  - destruct Ha as [-> _]. unfold padded. pose proof (pad4_range (4 + zlen r)).
    rewrite !zlen_app, zlen_be_encode. zlia.
  - destruct Ha as [-> _]. unfold padded. pose proof (pad4_range (2 * zlen v)).
    rewrite zlen_app, zlen_concat_types. zlia.
Qed.

Lemma attrs_wire_length tid attrs : bytes_ok tid → Forall (attr_ok tid) attrs →
  zlen (concat (attr_wire tid <$> attrs)) = attrs_size attrs ∧ 4 * zlen attrs ≤ attrs_size attrs.
Proof.
  intros Htid Ha. induction Ha as [|a attrs Ha Hattrs [IH1 IH2]]; [done|].
  cbn [fmap list_fmap concat attrs_size fold_right]. rewrite zlen_app, zlen_cons, attr_wire_length by done.
  change (list_fmap _ _ (attr_wire tid) attrs) with (attr_wire tid <$> attrs). fold (attrs_size attrs).
  pose proof Ha as (_ & Hlen & _). unfold padded. pose proof (pad4_range (attr_length a)). unfold is_u16 in *. lia.
Qed.

Lemma Write_net m b : bytes_ok (m_transaction_id m) → Forall (attr_ok (m_transaction_id m)) (m_attrs m) →
  (Write m b).1 = true ∧ appends_net b (msg_wire m) (Write m b).2.
Proof.
  intros Htid Hattrs. unfold Write, msg_wire, header_id, IsLegacy.
  set (b0 := WriteUInt16 (WriteUInt16 b (m_type m)) (m_length m)).
  set (b1 := WriteString _ (m_transaction_id m)).
  destruct (WriteAttributes_net (m_transaction_id m) (m_attrs m) b1 Htid Hattrs) as [Ht Hn].
  split; [done|]. eapply appends_net_trans; [apply net_uint16|].
  eapply appends_net_trans; [apply net_uint16|]. eapply appends_net_trans; [|exact Hn].
  unfold b1. destruct (zlen (m_transaction_id m) =? kStunLegacyTransactionIdLength); cbn [negb].
  - by apply net_string.
  - eapply appends_net_trans; [apply net_uint32|by apply net_string].
Qed.

(** What is written to an empty buffer. *)
Lemma Write_new m : bytes_ok (m_transaction_id m) → Forall (attr_ok (m_transaction_id m)) (m_attrs m) →
  ∃ b, Write m (ByteBuffer_new ORDER_NETWORK) = (true, b) ∧ holds b (msg_wire m).
Proof.
  intros Htid Hattrs. destruct (Write_net m (ByteBuffer_new ORDER_NETWORK) Htid Hattrs) as [Ht Hn].
  destruct (ByteBuffer_new_spec ORDER_NETWORK) as (Hb & HD & Ho). destruct (Hn Hb Ho) as (HD' & Hb' & Ho').
  destruct (Write _ _) as [ok b]. cbn in *. subst ok. exists b. split; [done|].
  split_and!; [done|congruence|]. by rewrite HD', HD.
Qed.

(** *** Reading the attributes *)

Lemma holds_Length b l : holds b l → Length b = zlen l.
Proof. intros (Hb & _ & <-). symmetry. by apply Data_length. Qed.

Lemma on_buf_reads {A} (f : SM ByteBuffer A) m b a l : reads f b a l →
  ∃ b', on_buf f (m, b) = (Some a, (m, b')) ∧ holds b' l.
Proof. intros (b' & E & Hb'). exists b'. unfold on_buf. cbn [fst snd]. by rewrite E. Qed.

Lemma on_buf_bind {A B} (f : SM ByteBuffer A) (g : A → SM (StunMessage * ByteBuffer) B) m b a b' :
  on_buf f (m, b) = (Some a, (m, b')) → (on_buf f ≫= g) (m, b) = g a (m, b').
Proof. intros E. by apply SM_bind_run. Qed.

Lemma Create_total c a : GetAttributeValueType c (attr_type a) = value_type a → is_u16 (attr_length a) →
  ∃ a0, CreateAttribute c (attr_type a) (attr_length a) = Some a0 ∧
        Create (value_type a) (attr_type a) (attr_length a) = Some a0.
Proof.
  intros E Hl. unfold CreateAttribute. rewrite E, u16_id by done. destruct a; eexists; done.
Qed.

Lemma ReadAttributes_wire attrs : ∀ fuel m b,
  bytes_ok (m_transaction_id m) → Forall (attr_ok (m_transaction_id m)) attrs →
  Forall (λ a, GetAttributeValueType (m_class m) (attr_type a) = value_type a) attrs →
  (length attrs < fuel)%nat → holds b (concat (attr_wire (m_transaction_id m) <$> attrs)) →
  ∃ b', ReadAttributes fuel 0 (m, b) = (Some true, (set_attrs (m_attrs m ++ attrs) m, b')) ∧ holds b' [].
Proof.
  induction attrs as [|a attrs IH]; intros [|fuel] m b Htid Hok Hvt Hfuel Hh; try (cbn in Hfuel; lia);
    cbn [ReadAttributes]; rewrite sm_get_run; cbn [fst snd].
  { rewrite (holds_Length _ _ Hh). cbn. exists b. split; [|done]. unfold mret, SM_ret, set_attrs.
    rewrite app_nil_r. by destruct m. }
  destruct (attrs_wire_length _ _ Htid Hok) as [Hsize Hmin]. rewrite zlen_cons in Hmin.
  pose proof (zlen_nonneg attrs). pose proof (holds_Length _ _ Hh) as HL. rewrite Hsize in HL.
  apply Forall_cons in Hok as [Ha Hok]. apply Forall_cons in Hvt as [Hva Hvt].
  pose proof Ha as (Htype & Hlen & _).
  destruct (Z.ltb_spec 0 (Length b)); [|lia]. cbn [negb].
  cbn [fmap list_fmap concat] in Hh. unfold attr_wire at 1 in Hh. rewrite <- !app_assoc in Hh.
  destruct (on_buf_reads (sm_try ReadUInt16) m b (attr_type a) _ ltac:(by apply reads_uint16)) as (b1 & E1 & Hb1).
  rewrite (on_buf_bind _ _ _ _ _ _ E1).
  destruct (on_buf_reads (sm_try ReadUInt16) m b1 (attr_length a) _ ltac:(by apply reads_uint16)) as (b2 & E2 & Hb2).
  rewrite (on_buf_bind _ _ _ _ _ _ E2).
  destruct (Create_total (m_class m) a Hva Hlen) as (a0 & -> & Hc).
  destruct (on_buf_reads (ReadAttr (Some (m_transaction_id m)) a0) m b2 a _ ltac:(by eapply reads_attr)) as (b3 & E3 & Hb3).
  set (m' := set_attrs (m_attrs m ++ [a]) m).
  erewrite SM_bind_run; [|rewrite (on_buf_bind _ _ _ _ _ _ E3); reflexivity]. cbn [fst snd]. fold m'.
  destruct (IH fuel m' b3) as (b4 & E4 & Hb4); auto; [cbn in Hfuel; lia|].
  exists b4. split; [|done]. rewrite E4. unfold m', set_attrs. cbn. by rewrite <- app_assoc.
Qed.

Lemma header_id_length tid : zlen tid = 12 ∨ zlen tid = 16 → zlen (header_id tid) = 16.
Proof.
  unfold header_id. intros [E|E]; rewrite E; cbn [Z.eqb Pos.eqb kStunLegacyTransactionIdLength]; [|done].
  rewrite zlen_app, E. done.
Qed.

Lemma cookie_test l : zlen l = 4 → bytes_ok l →
  (NetworkToHost32 (host_load l) =? kStunMagicCookie) = bool_decide (l = cookie_bytes).
Proof.
  intros Hl Hok. rewrite NetworkToHost32_load by done. case_bool_decide as E.
  - subst l. apply Z.eqb_eq. by apply be_decode_encode.
  - apply Z.eqb_neq. intros Hc. apply E. unfold cookie_bytes. rewrite <- Hc.
    replace 4%nat with (length l) by (unfold zlen in Hl; lia). symmetry. by apply be_encode_decode.
Qed.

(** The reader splits the sixteen bytes after the length field, and joins them
    again when they do not start with the cookie. *)
Lemma header_id_split tid :
  (zlen tid = 12 ∨ zlen tid = 16 ∧ ztake 4 tid ≠ cookie_bytes) → bytes_ok tid →
  let c := ztake 4 (header_id tid) in let t := zdrop 4 (header_id tid) in
  zlen c = 4 ∧ zlen t = 12 ∧ bytes_ok c ∧
  (if negb (bool_decide (c = cookie_bytes)) then c ++ t else t) = tid.
Proof.
  intros Htid Hok c t. subst c t.
  assert (Hl : zlen (header_id tid) = 16) by (apply header_id_length; tauto).
  assert (Hh : bytes_ok (header_id tid)).
  { unfold header_id. destruct (_ =? _); [done|]. rewrite bytes_ok_app. auto using cookie_bytes_ok. }
  split_and!; [zlia|zlia|auto with words|].
  unfold header_id in *. destruct Htid as [E|[E Hne]]; rewrite E in *; cbn [Z.eqb Pos.eqb kStunLegacyTransactionIdLength] in *.
  - rewrite ztake_app_exact, zdrop_app_exact by done. by rewrite bool_decide_eq_true_2.
  - rewrite bool_decide_eq_false_2 by done. cbn [negb]. apply ztake_zdrop.
Qed.

Lemma type_bit t : 0 ≤ t < 32768 → Z.land t 32768 = 0.
Proof.
  intros Ht. apply Z.bits_inj'. intros i Hi. rewrite Z.land_spec, Z.bits_0.
  change 32768 with (2 ^ 15). destruct (decide (i = 15)) as [->|Hne].
  - assert (Z.testbit t 15 = false) as -> by (apply (bounded_bits t 15); lia). done.
  - rewrite Z.pow2_bits_false by lia. apply andb_false_r.
Qed.

Definition tid_ok (tid : list Z) : Prop :=
  bytes_ok tid ∧ (zlen tid = 12 ∨ zlen tid = 16 ∧ ztake 4 tid ≠ cookie_bytes).

(** After the header of a packet the reader is in its loop. *)
Lemma Read_header m0 b type tid rest : 0 ≤ type < 32768 → tid_ok tid → zlen rest < 65536 →
  holds b (be_encode 2 type ++ be_encode 2 (zlen rest) ++ header_id tid ++ rest) →
  ∃ b', Read (m0, b) = ReadAttributes (S (Z.to_nat (zlen rest))) 0
                         (mkMessage (m_class m0) type (zlen rest) tid [], b') ∧ holds b' rest.
Proof.
  intros Htype [Hidok Hid] Hmax Hh. pose proof (zlen_nonneg rest).
  destruct (header_id_split _ Hid Hidok) as (Hc4 & Ht12 & Hcok & Hjoin).
  rewrite <- (ztake_zdrop 4 (header_id _)), <- !app_assoc in Hh.
  set (c := ztake 4 (header_id _)) in *. set (t := zdrop 4 (header_id _)) in *. unfold Read.
  destruct (on_buf_reads (sm_try ReadUInt16) m0 b type _ ltac:(apply reads_uint16; [exact Hh|ulia])) as (b1 & E1 & Hb1).
  rewrite (on_buf_bind _ _ _ _ _ _ E1).
  erewrite SM_bind_run by reflexivity. rewrite type_bit by done. cbn [Z.eqb negb fst snd].
  destruct (on_buf_reads (sm_try ReadUInt16) (set_type type m0) b1 (zlen rest) _
              ltac:(apply reads_uint16; [exact Hb1|ulia])) as (b2 & E2 & Hb2).
  rewrite (on_buf_bind _ _ _ _ _ _ E2).
  erewrite SM_bind_run by reflexivity. cbn [fst snd].
  match goal with |- context [(on_buf _ ≫= _) (?x, b2)] => set (m2 := x) end.
  destruct (on_buf_reads (sm_try (λ buf, ReadString buf kStunMagicCookieLength)) m2 b2 c _
              ltac:(by apply reads_string)) as (b3 & E3 & Hb3).
  rewrite (on_buf_bind _ _ _ _ _ _ E3).
  destruct (on_buf_reads (sm_try (λ buf, ReadString buf kStunTransactionIdLength)) m2 b3 t _
              ltac:(by apply reads_string)) as (b4 & E4 & Hb4).
  rewrite (on_buf_bind _ _ _ _ _ _ E4).
  rewrite cookie_test, Hjoin by done.
  erewrite SM_bind_run by reflexivity. rewrite sm_get_run. cbn [fst snd].
  rewrite (holds_Length _ _ Hb4), Z.eqb_refl, Z.sub_diag. cbn [negb].
  exists b4. split; [|done]. erewrite SM_bind_run by reflexivity. by destruct m0.
Qed.

Lemma Read_wire m m0 b : msg_ok m → m_class m0 = m_class m → holds b (msg_wire m) →
  ∃ b', Read (m0, b) = (Some true, (m, b')) ∧ holds b' [].
Proof.
  intros (Htype & Hidok & Hid & Hattrs & Hvt & Hlen & Hmax) Hclass Hh.
  destruct (attrs_wire_length _ _ Hidok Hattrs) as [Hsize Hmin]. unfold msg_wire in Hh.
  rewrite Hlen, <- Hsize in Hh.
  destruct (Read_header m0 b (m_type m) (m_transaction_id m)
    (concat (attr_wire (m_transaction_id m) <$> m_attrs m))) as (b4 & -> & Hb4); auto; [done|lia|].
  rewrite Hsize, <- Hlen.
  destruct (ReadAttributes_wire (m_attrs m) (S (Z.to_nat (m_length m)))
    (mkMessage (m_class m0) (m_type m) (m_length m) (m_transaction_id m) []) b4) as (b5 & -> & Hb5); auto.
  - by rewrite <- Hclass in Hvt.
  - unfold zlen in Hmin. lia.
  - exists b5. split; [|done]. unfold set_attrs. cbn. rewrite Hclass. by destruct m.
Qed.

(** C19. A well-formed message of any class (STUN, GTURN, TURN or ICE, of RFC 5389
    or RFC 3489) is written completely, and a message of the same class that reads
    the packet becomes equal to it, type, length, transaction id and every
    attribute, with nothing left in the buffer. *)
Theorem stun_roundtrip m m0 : msg_ok m → m_class m0 = m_class m →
  ∃ b b', Write m (ByteBuffer_new ORDER_NETWORK) = (true, b) ∧
    Read (m0, ByteBuffer_of (Data b) ORDER_NETWORK) = (Some true, (m, b')) ∧ Data b' = [].
Proof.
  intros Hm Hclass. pose proof Hm as (_ & Hid & _ & Hattrs & _).
  destruct (Write_new m Hid Hattrs) as (b & E & Hb). exists b.
  pose proof Hb as (Hbok & _ & HD).
  destruct (ByteBuffer_of_spec (Data b) ORDER_NETWORK) as (Hb1 & HD1 & Ho1); [by apply Data_ok|].
  destruct (Read_wire m m0 (ByteBuffer_of (Data b) ORDER_NETWORK) Hm Hclass) as (b' & E' & Hb').
  { split_and!; [done|done|]. by rewrite HD1. }
  exists b'. split_and!; [done|done|]. apply Hb'.
Qed.

(** ** Building messages *)

Lemma attrs_size_snoc attrs a : attrs_size (attrs ++ [a]) = attrs_size attrs + (4 + padded (attr_length a)).
Proof.
  induction attrs as [|x attrs IH]; cbn [app attrs_size fold_right]; [lia|].
  fold (attrs_size (attrs ++ [a])) (attrs_size attrs). lia.
Qed.

Lemma padded_code l : 0 ≤ l → (if negb (l mod 4 =? 0) then l + (4 - l mod 4) else l) = padded l.
Proof. intros Hl. unfold padded, pad4. destruct (Z.eqb_spec (l mod 4) 0); cbn [negb]; ulia. Qed.

(** A message with one more attribute at the end. *)
Definition snoc_msg (m : StunMessage) (a : StunAttribute) : StunMessage :=
  mkMessage (m_class m) (m_type m) (m_length m + (4 + padded (attr_length a)))
    (m_transaction_id m) (m_attrs m ++ [a]).

Lemma snoc_msg_ok m a : msg_ok m → attr_ok (m_transaction_id m) a →
  GetAttributeValueType (m_class m) (attr_type a) = value_type a →
  m_length m + 4 + padded (attr_length a) < 65536 → msg_ok (snoc_msg m a).
Proof.
  intros (Htype & Hidok & Hid & Hattrs & Hvt & Hlen & Hmax) Ha Hva Hfit.
  refine (conj Htype (conj Hidok (conj Hid (conj _ (conj _ (conj _ _)))))); cbn.
  - apply Forall_app. auto.
  - apply Forall_app. auto.
  - by rewrite attrs_size_snoc, Hlen.
  - lia.
Qed.

Lemma AddAttribute_value m a : GetAttributeValueType (m_class m) (attr_type a) = value_type a →
  is_u16 (attr_length a) → 0 ≤ m_length m → m_length m + 4 + padded (attr_length a) < 65536 →
  AddAttribute m a = (true, snoc_msg m a).
Proof.
  intros Hvt Hl H0 Hmax. unfold AddAttribute, snoc_msg. rewrite bool_decide_eq_true_2 by done. cbn [negb].
  rewrite padded_code by (unfold is_u16 in *; lia).
  unfold padded in *. pose proof (pad4_range (attr_length a)). do 2 f_equal. ulia.
Qed.

(** [AddAttribute] refuses an attribute whose kind of value is not the one of
    its type in this class of message, changing nothing; otherwise it appends the
    attribute and keeps the message well formed, its length field included. *)
Theorem AddAttribute_keeps_ok m a : msg_ok m → attr_ok (m_transaction_id m) a →
  m_length m + 4 + padded (attr_length a) < 65536 →
  if bool_decide (value_type a = GetAttributeValueType (m_class m) (attr_type a))
  then ∃ m', AddAttribute m a = (true, m') ∧ msg_ok m' ∧ m_attrs m' = m_attrs m ++ [a] ∧
         m_type m' = m_type m ∧ m_transaction_id m' = m_transaction_id m
  else AddAttribute m a = (false, m).
Proof.
  intros Hm Ha Hfit. pose proof Hm as (_ & Hidok & _ & Hattrs & _ & Hlen & _).
  case_bool_decide as E; [|unfold AddAttribute; by rewrite bool_decide_eq_false_2].
  pose proof Ha as (_ & Hl & _). destruct (attrs_wire_length _ _ Hidok Hattrs) as [_ Hmin].
  pose proof (zlen_nonneg (m_attrs m)).
  rewrite AddAttribute_value by (auto; lia). exists (snoc_msg m a). auto using snoc_msg_ok.
Qed.

(** ** Reading any packet *)

(** A reader that never unreads and keeps the buffer well formed. *)
Definition forward {A} (f : SM ByteBuffer A) : Prop := ∀ b, bb_ok b →
  bb_ok (f b).2 ∧ byte_order_ (f b).2 = byte_order_ b ∧ zlen (Data (f b).2) ≤ zlen (Data b).

Lemma forward_ret {A} (a : A) : forward (mret a).
Proof. by intros b Hb. Qed.
Lemma forward_fail {A} : forward (@sm_fail ByteBuffer A).
Proof. by intros b Hb. Qed.
Lemma forward_bind {A B} (f : SM ByteBuffer A) (g : A → SM ByteBuffer B) :
  forward f → (∀ a, forward (g a)) → forward (f ≫= g).
Proof.
  intros Hf Hg b Hb. unfold mbind, SM_bind. destruct (f b) as [[a|] b'] eqn:E;
    destruct (Hf b Hb) as (Hb' & Ho & Hl); rewrite E in *; cbn in *; [|done].
  destruct (Hg a b' Hb') as (Hb'' & Ho' & Hl'). split_and!; [done|congruence|lia].
Qed.
Lemma forward_bytes n : 0 ≤ n → forward (sm_try (λ buf, ReadBytes buf n)).
Proof.
  intros Hn b Hb. unfold sm_try. pose proof (ReadBytes_spec b n Hb Hn) as Hs.
  destruct (ReadBytes b n) as [[bs b']|]; [|done]. destruct Hs as (? & _ & HD & ? & ? & _).
  cbn. split_and!; auto. rewrite HD. zlia.
Qed.
Lemma forward_int n (f : ByteBuffer → option (Z * ByteBuffer)) :
  (∀ b, bb_ok b → f b = read_int n b) → forward (sm_try f).
Proof.
  intros Hf b Hb. unfold sm_try. rewrite Hf by done.
  destruct (read_int n b) as [[v b']|] eqn:E; [|done].
  destruct (read_int_inv n b v b' Hb E) as (_ & HD & Hb' & Ho). cbn. split_and!; auto. rewrite HD. zlia.
Qed.
Lemma forward_padding l : forward (read_padding l).
Proof.
  intros b Hb. change (read_padding l b).2 with (ConsumePadding l b). unfold ConsumePadding.
  destruct (Z.ltb_spec 0 (l mod 4)); [|done].
  pose proof (Consume_spec b (4 - l mod 4) Hb ltac:(ulia)) as Hs.
  destruct (Consume b (4 - l mod 4)) as [b'|]; [|done]. destruct Hs as (? & HD & ? & ? & _).
  split_and!; auto. rewrite HD. zlia.
Qed.
Create HintDb forward discriminated.
#[local] Hint Resolve forward_ret forward_fail forward_bind forward_bytes forward_padding
  ReadUInt8_int ReadUInt16_int ReadUInt32_int ReadUInt64_int : forward.
#[local] Hint Extern 1 (forward (sm_try ReadUInt8)) => apply (forward_int 1); exact ReadUInt8_int : forward.
#[local] Hint Extern 1 (forward (sm_try ReadUInt16)) => apply (forward_int 2); exact ReadUInt16_int : forward.
#[local] Hint Extern 1 (forward (sm_try ReadUInt32)) => apply (forward_int 4); exact ReadUInt32_int : forward.
#[local] Hint Extern 1 (forward (sm_try ReadUInt64)) => apply (forward_int 8); exact ReadUInt64_int : forward.

Lemma forward_types n : ∀ acc, forward (ReadTypes n acc).
Proof. induction n; intros; cbn [ReadTypes]; auto with forward. Qed.

Lemma forward_address a : forward (ReadAddress a).
Proof.
  apply forward_bind; [auto with forward|intros _]. apply forward_bind; [auto with forward|intros f].
  apply forward_bind; [auto with forward|intros p].
  destruct (f =? _); [destruct (negb _)|destruct (f =? _); [destruct (negb _)|]]; auto with forward;
    apply forward_bind; auto with forward; apply forward_bytes; lia.
Qed.

Lemma forward_attr owner a : 0 ≤ attr_length a → forward (ReadAttr owner a).
Proof.
  intros Hl. destruct a as [t l addr|t l addr|t l v|t l v|t l v|t l c n r|t l v]; cbn [ReadAttr attr_length] in *;
    unfold ReadUInt32Attr, ReadUInt64Attr, ReadByteString, ReadErrorCode, ReadUInt16List.
  - apply forward_address.
  - apply forward_bind; [apply forward_address|auto with forward].
  - destruct (negb _); auto with forward.
  - destruct (negb _); auto with forward.
  - apply forward_bind; [by apply forward_bytes|auto with forward].
  - destruct (Z.ltb_spec l ERROR_MIN_SIZE); [auto with forward|]. unfold ERROR_MIN_SIZE in *.
    apply forward_bind; [auto with forward|intros]. apply forward_bind; [|auto with forward].
    apply (forward_bytes (l - 4)). lia.
  - destruct (negb _); [auto with forward|]. apply forward_bind; [apply forward_types|auto with forward].
Qed.

(** The result of a reader inside a message: failure, or a value and a buffer
    that is well formed and not longer. *)
Lemma on_buf_forward {A} (f : SM ByteBuffer A) m b : forward f → bb_ok b →
  (∃ s, on_buf f (m, b) = (None, s)) ∨
  ∃ a b', on_buf f (m, b) = (Some a, (m, b')) ∧ bb_ok b' ∧ zlen (Data b') ≤ zlen (Data b).
Proof.
  intros Hf Hb. destruct (Hf b Hb) as (Hb' & _ & Hl). unfold on_buf. cbn [fst snd].
  destruct (f b) as [[a|] b']; cbn in *; [right|left]; eauto 6.
Qed.

Lemma on_buf_uint16 m b : bb_ok b →
  (∃ s, on_buf (sm_try ReadUInt16) (m, b) = (None, s)) ∨
  ∃ v b', on_buf (sm_try ReadUInt16) (m, b) = (Some v, (m, b')) ∧ is_u16 v ∧ bb_ok b' ∧
          zlen (Data b') = zlen (Data b) - 2.
Proof.
  intros Hb. unfold on_buf, sm_try. cbn [fst snd]. rewrite ReadUInt16_int by done.
  destruct (read_int 2 b) as [[v b']|] eqn:E; [right|left; eauto].
  destruct (read_int_inv 2 b v b' Hb E) as (Hv & HD & Hb' & _). exists v, b'.
  split_and!; auto; try apply Hv. rewrite HD, zlen_app, zlen_wire. lia.
Qed.

Lemma SM_bind_fail {S A B} (f : SM S A) (g : A → SM S B) s s' :
  f s = (None, s') → (f ≫= g) s = (None, s').
Proof. intros E. unfold mbind, SM_bind. by rewrite E. Qed.

Lemma skip_length_nonneg l : is_u16 l → 0 ≤ skip_length l.
Proof. intros Hl. unfold skip_length. destruct (negb _); ulia. Qed.

Lemma Create_length c t l a : is_u16 l → CreateAttribute c t l = Some a → 0 ≤ attr_length a.
Proof.
  intros Hl. unfold CreateAttribute. rewrite u16_id by done.
  destruct (GetAttributeValueType c t); cbn; intros E; try done; injection E as <-; cbn;
    unfold is_u16, UINT32_SIZE, UINT64_SIZE in *; lia.
Qed.

(** The body of the loop: an attribute that is skipped or read. *)
Lemma attribute_step m b t l : bb_ok b → is_u16 l →
  let step := match CreateAttribute (m_class m) t l with
    | None => on_buf (sm_try (λ buf, buf ← Consume buf (skip_length l); Some (tt, buf)))
    | Some attr => attr ← on_buf (ReadAttr (Some (m_transaction_id m)) attr);
                   on_msg (λ m, set_attrs (m_attrs m ++ [attr]) m)
    end in
  (∃ s, step (m, b) = (None, s)) ∨
  ∃ m' b', step (m, b) = (Some tt, (m', b')) ∧ bb_ok b' ∧ zlen (Data b') ≤ zlen (Data b).
Proof.
  intros Hb Hl step. unfold step. destruct (CreateAttribute (m_class m) t l) as [a|] eqn:E.
  - destruct (on_buf_forward (ReadAttr (Some (m_transaction_id m)) a) m b) as [[s Es]|(a' & b' & Es & Hb' & Hle)]; auto.
    + apply forward_attr. by eapply Create_length.
    + left. exists s. by apply SM_bind_fail.
    + right. do 2 eexists. rewrite (on_buf_bind _ _ _ _ _ _ Es). split; [reflexivity|done].
  - pose proof (Consume_spec b (skip_length l) Hb (skip_length_nonneg l Hl)) as Hs.
    unfold on_buf, sm_try. cbn [fst snd]. destruct (Consume b (skip_length l)) as [b'|]; cbn; [right|left; eauto].
    destruct Hs as (_ & HD & Hb' & _). exists m, b'. split_and!; auto. rewrite HD. zlia.
Qed.

Lemma ReadAttributes_total fuel : ∀ m b, bb_ok b → zlen (Data b) < Z.of_nat fuel →
  (∃ s, ReadAttributes fuel 0 (m, b) = (None, s)) ∨
  ∃ m' b', ReadAttributes fuel 0 (m, b) = (Some true, (m', b')) ∧ Data b' = [].
Proof.
  induction fuel as [|fuel IH]; intros m b Hb Hfuel; [pose proof (zlen_nonneg (Data b)); lia|].
  cbn [ReadAttributes]. rewrite sm_get_run. cbn [fst snd]. rewrite <- (Data_length b Hb).
  pose proof (zlen_nonneg (Data b)).
  destruct (Z.ltb_spec 0 (zlen (Data b))); cbn [negb].
  2: { right. exists m, b. split; [done|]. apply zlen_0_nil. lia. }
  destruct (on_buf_uint16 m b Hb) as [[s Es]|(t & b1 & E1 & _ & Hb1 & HL1)].
  { left. exists s. by apply SM_bind_fail. }
  rewrite (on_buf_bind _ _ _ _ _ _ E1).
  destruct (on_buf_uint16 m b1 Hb1) as [[s Es]|(l & b2 & E2 & Hl & Hb2 & HL2)].
  { left. exists s. by apply SM_bind_fail. }
  rewrite (on_buf_bind _ _ _ _ _ _ E2).
  destruct (attribute_step m b2 t l Hb2 Hl) as [[s Es]|(m' & b3 & E3 & Hb3 & HL3)].
  { left. exists s. by apply SM_bind_fail. }
  rewrite (SM_bind_run _ _ _ _ _ E3). apply IH; [done|lia].
Qed.

(** C32. Reading terminates on every packet: the bound on the number of attributes
    is never reached, and a message that is accepted has consumed the whole
    buffer, as the assertion at the end of [Read] says. *)
Theorem Read_total m b : bb_ok b →
  (Read (m, b)).1 = None ∨ ((Read (m, b)).1 = Some true ∧ Data (Read (m, b)).2.2 = []).
Proof.
  intros Hb. unfold Read.
  destruct (on_buf_uint16 m b Hb) as [[s Es]|(t & b1 & E1 & _ & Hb1 & _)].
  { left. by erewrite SM_bind_fail by exact Es. }
  rewrite (on_buf_bind _ _ _ _ _ _ E1). erewrite SM_bind_run by reflexivity. cbn [fst snd].
  destruct (negb (Z.land t 32768 =? 0)); [by left|].
  destruct (on_buf_uint16 (set_type t m) b1 Hb1) as [[s Es]|(l & b2 & E2 & Hl & Hb2 & _)].
  { left. by erewrite SM_bind_fail by exact Es. }
  rewrite (on_buf_bind _ _ _ _ _ _ E2). erewrite SM_bind_run by reflexivity. cbn [fst snd].
  destruct (on_buf_forward (sm_try (λ buf, ReadString buf kStunMagicCookieLength))
    (set_length l (set_type t m)) b2 (forward_bytes 4 ltac:(lia)) Hb2) as [[s Es]|(c & b3 & E3 & Hb3 & _)].
  { left. by erewrite SM_bind_fail by exact Es. }
  rewrite (on_buf_bind _ _ _ _ _ _ E3).
  destruct (on_buf_forward (sm_try (λ buf, ReadString buf kStunTransactionIdLength))
    (set_length l (set_type t m)) b3 (forward_bytes 12 ltac:(lia)) Hb3) as [[s Es]|(tid & b4 & E4 & Hb4 & _)].
  { left. by erewrite SM_bind_fail by exact Es. }
  rewrite (on_buf_bind _ _ _ _ _ _ E4). erewrite SM_bind_run by reflexivity. rewrite sm_get_run. cbn [fst snd].
  destruct (Z.eqb_spec l (Length b4)) as [->|]; cbn [negb]; [|by left].
  erewrite SM_bind_run by reflexivity. rewrite Z.sub_diag. cbn [fst snd].
  match goal with |- context [ReadAttributes ?f 0 (?x, b4)] =>
    destruct (ReadAttributes_total f x b4) as [[s ->]|(m' & b' & -> & HD)] end; auto.
  pose proof (Data_length b4 Hb4). pose proof (zlen_nonneg (Data b4)). lia.
Qed.

(** ** Lengths that the reader does not check *)

Lemma ReadAttributes_done fuel m b : (0 < fuel)%nat → holds b [] →
  ReadAttributes fuel 0 (m, b) = (Some true, (m, b)).
Proof.
  intros Hf Hb. destruct fuel; [lia|]. cbn [ReadAttributes]. rewrite sm_get_run. cbn [fst snd].
  by rewrite (holds_Length _ _ Hb).
Qed.

(** The length field of a UINT32 attribute is not looked at: a packet with
    one such attribute is accepted, and read as the same message, for every value
    of that field, because [Create] gives the attribute its own length and the
    check against [SIZE] in its [Read] cannot fail. *)
Theorem uint32_length_ignored m0 type tid t l v :
  0 ≤ type < 32768 → tid_ok tid → is_u16 t → is_u16 l → is_u32 v →
  GetAttributeValueType (m_class m0) t = STUN_VALUE_UINT32 →
  let packet := be_encode 2 type ++ be_encode 2 8 ++ header_id tid ++
                be_encode 2 t ++ be_encode 2 l ++ be_encode 4 v in
  ∀ b, holds b packet → ∃ b', Read (m0, b) =
    (Some true, (mkMessage (m_class m0) type 8 tid [UInt32Attr t 4 v], b')) ∧ holds b' [].
Proof.
  intros Htype Htid Ht Hl Hv Hvt packet b Hh. set (rest := be_encode 2 t ++ be_encode 2 l ++ be_encode 4 v).
  destruct (Read_header m0 b type tid rest Htype Htid) as (b1 & -> & Hb1); [done|done|].
  change (zlen rest) with 8. cbn [ReadAttributes].
  rewrite sm_get_run. cbn [fst snd]. rewrite (holds_Length _ _ Hb1). change (0 <? zlen rest) with true. cbn [negb].
  match goal with |- context [(on_buf _ ≫= _) (?x, b1)] => set (m1 := x) end.
  destruct (on_buf_reads (sm_try ReadUInt16) m1 b1 t _ ltac:(by apply reads_uint16)) as (b2 & E2 & Hb2).
  rewrite (on_buf_bind _ _ _ _ _ _ E2).
  destruct (on_buf_reads (sm_try ReadUInt16) m1 b2 l _ ltac:(by apply reads_uint16)) as (b3 & E3 & Hb3).
  rewrite (on_buf_bind _ _ _ _ _ _ E3).
  unfold CreateAttribute. change (m_class m1) with (m_class m0). rewrite Hvt. cbn [Create].
  rewrite <- (app_nil_r (be_encode 4 v)) in Hb3.
  destruct (on_buf_reads (ReadAttr (Some (m_transaction_id m1)) (UInt32Attr t UINT32_SIZE 0)) m1 b3 (UInt32Attr t 4 v) [])
    as (b4 & E4 & Hb4).
  { cbn. eapply reads_bind; [by apply reads_uint32|]. intros. by apply reads_ret. }
  erewrite SM_bind_run; [|rewrite (on_buf_bind _ _ _ _ _ _ E4); reflexivity]. cbn [fst snd].
  exists b4. split; [|done]. by rewrite ReadAttributes_done by (done || lia).
Qed.

(** The padded length of an unknown attribute wraps at 16 bits: an attribute
    that claims 65533 to 65535 bytes is skipped without consuming any, and the
    packet that ends right after its header is accepted. *)
Theorem unknown_length_wraps m0 type tid t l :
  0 ≤ type < 32768 → tid_ok tid → is_u16 t → 65533 ≤ l < 65536 →
  GetAttributeValueType (m_class m0) t = STUN_VALUE_UNKNOWN →
  let packet := be_encode 2 type ++ be_encode 2 4 ++ header_id tid ++ be_encode 2 t ++ be_encode 2 l in
  ∀ b, holds b packet → ∃ b', Read (m0, b) =
    (Some true, (mkMessage (m_class m0) type 4 tid [], b')) ∧ holds b' [].
Proof.
  intros Htype Htid Ht Hl Hvt packet b Hh. set (rest := be_encode 2 t ++ be_encode 2 l).
  destruct (Read_header m0 b type tid rest Htype Htid) as (b1 & -> & Hb1); [done|done|].
  change (zlen rest) with 4. cbn [ReadAttributes].
  rewrite sm_get_run. cbn [fst snd]. rewrite (holds_Length _ _ Hb1). change (0 <? zlen rest) with true. cbn [negb].
  match goal with |- context [(on_buf _ ≫= _) (?x, b1)] => set (m1 := x) end.
  destruct (on_buf_reads (sm_try ReadUInt16) m1 b1 t _ ltac:(by apply reads_uint16)) as (b2 & E2 & Hb2).
  rewrite (on_buf_bind _ _ _ _ _ _ E2).
  rewrite <- (app_nil_r (be_encode 2 l)) in Hb2.
  destruct (on_buf_reads (sm_try ReadUInt16) m1 b2 l _ ltac:(apply reads_uint16; [exact Hb2|ulia])) as (b3 & E3 & Hb3).
  rewrite (on_buf_bind _ _ _ _ _ _ E3).
  unfold CreateAttribute. change (m_class m1) with (m_class m0). rewrite Hvt. cbn [Create].
  assert (Hskip : skip_length l = 0).
  { unfold skip_length. destruct (Z.eqb_spec (l mod 4) 0); cbn [negb]; ulia. }
  assert (Hc : Consume b3 (skip_length l) = Some b3).
  { rewrite Hskip. unfold Consume. rewrite (holds_Length _ _ Hb3). cbn.
    unfold set_start. rewrite Z.add_0_r. by destruct b3. }
  erewrite SM_bind_run; [|unfold on_buf, sm_try; cbn [fst snd]; rewrite Hc; reflexivity]. cbn [fst snd].
  exists b3. split; [|done]. by rewrite ReadAttributes_done by (done || lia).
Qed.
End Wire.

(** ** Samples *)

#[local] Existing Instance zero_platform.

Definition sample_tid : list Z := [1; 2; 3; 4; 5; 6; 7; 8; 9; 10; 11; 12].
Definition sample_attrs : list StunAttribute :=
  [ XorAddressAttr STUN_ATTR_XOR_MAPPED_ADDRESS 8 (SocketAddress_of (IPAddress_v4 [10; 0; 0; 7]) 5000);
    UInt32Attr STUN_ATTR_PRIORITY 4 1853693695;
    ByteStringAttr STUN_ATTR_USERNAME 3 [97; 58; 98] ].
Definition sample_msg : StunMessage := mkMessage CIce 257 28 sample_tid sample_attrs.

Ltac small_bytes := repeat constructor; ulia.
(** A closed range. *)
Ltac in_range := vm_compute; split; congruence.

Lemma sample_attrs_ok : Forall (attr_ok sample_tid) sample_attrs.
Proof.
  repeat (apply Forall_cons; split); [| | |by apply Forall_nil];
    (split; [in_range|split; [in_range|]]).
  - split; [|split; [done|done]].
    destruct (v4_value [10; 0; 0; 7]) as [? _]; [done|small_bytes|]. by split_and!.
  - split; [done|ulia].
  - split; [done|small_bytes].
Qed.

Lemma sample_msg_ok : msg_ok sample_msg.
Proof.
  unfold msg_ok. cbn [m_type m_transaction_id m_attrs m_class m_length sample_msg].
  split; [lia|]. split; [small_bytes|]. split; [by left|]. split; [exact sample_attrs_ok|].
  split; [by repeat constructor|]. done.
Qed.

Lemma stun_roundtrip_witness :
  ∃ b b', Write sample_msg (ByteBuffer_new ORDER_NETWORK) = (true, b) ∧
    Read (StunMessage_new CIce, ByteBuffer_of (Data b) ORDER_NETWORK) = (Some true, (sample_msg, b')) ∧ Data b' = [].
Proof. apply (stun_roundtrip sample_msg (StunMessage_new CIce)); [exact sample_msg_ok|done]. Defined.

Lemma AddAttribute_keeps_ok_witness :
  AddAttribute sample_msg (UInt64Attr STUN_ATTR_PRIORITY 8 0) = (false, sample_msg) ∧
  ∃ m', AddAttribute sample_msg (UInt64Attr STUN_ATTR_ICE_CONTROLLED 8 77) = (true, m') ∧ msg_ok m'.
Proof.
  split.
  - apply (AddAttribute_keeps_ok sample_msg (UInt64Attr STUN_ATTR_PRIORITY 8 0)); [exact sample_msg_ok| |done].
    split; [in_range|split; [in_range|split; [done|ulia]]].
  - destruct (AddAttribute_keeps_ok sample_msg (UInt64Attr STUN_ATTR_ICE_CONTROLLED 8 77)) as (m' & E & Hm & _);
      [exact sample_msg_ok| |done|by exists m'].
    split; [in_range|split; [in_range|split; [done|ulia]]].
Defined.

Lemma Read_total_witness :
  (Read (StunMessage_new CStun, ByteBuffer_of [0; 1; 0; 0] ORDER_NETWORK)).1 = None.
Proof.
  destruct (Read_total (StunMessage_new CStun) (ByteBuffer_of [0; 1; 0; 0] ORDER_NETWORK)) as [E|[E _]]; [|exact E|].
  - apply ByteBuffer_of_spec. small_bytes.
  - vm_compute in E. discriminate.
Defined.

Lemma sample_tid_ok : tid_ok sample_tid.
Proof. split; [small_bytes|by left]. Qed.

Lemma packet_holds l : bytes_ok l → holds (ByteBuffer_of l ORDER_NETWORK) l.
Proof. intros Hl. destruct (ByteBuffer_of_spec l ORDER_NETWORK Hl) as (? & ? & ?). by split_and!. Qed.

Lemma uint32_length_ignored_witness :
  let packet := be_encode 2 1 ++ be_encode 2 8 ++ header_id sample_tid ++
                be_encode 2 STUN_ATTR_PRIORITY ++ be_encode 2 4000 ++ be_encode 4 99 in
  ∃ b', Read (StunMessage_new CIce, ByteBuffer_of packet ORDER_NETWORK) =
    (Some true, (mkMessage CIce 1 8 sample_tid [UInt32Attr STUN_ATTR_PRIORITY 4 99], b')) ∧ holds b' [].
Proof.
  apply (uint32_length_ignored (StunMessage_new CIce) 1 sample_tid STUN_ATTR_PRIORITY 4000 99);
    [lia|exact sample_tid_ok|in_range..|done|].
  apply packet_holds. vm_compute. repeat constructor; congruence.
Defined.

Lemma unknown_length_wraps_witness :
  let packet := be_encode 2 1 ++ be_encode 2 4 ++ header_id sample_tid ++
                be_encode 2 9999 ++ be_encode 2 65534 in
  ∃ b', Read (StunMessage_new CStun, ByteBuffer_of packet ORDER_NETWORK) =
    (Some true, (mkMessage CStun 1 4 sample_tid [], b')) ∧ holds b' [].
Proof.
  apply (unknown_length_wraps (StunMessage_new CStun) 1 sample_tid 9999 65534);
    [lia|exact sample_tid_ok|ulia|lia|done|].
  apply packet_holds. vm_compute. repeat constructor; congruence.
Defined.
