(* ===== verification/StunIntegrity.v ===== *)
(** * FINGERPRINT and MESSAGE-INTEGRITY

    The two attributes that protect a STUN packet: what is added is accepted by
    the matching check, the check of the HMAC accepts nothing else, and exactly
    when the check reads outside the packet it was given. *)

From S2P Require Import Prelude ByteOrder ByteBuffer Crc32 BlockHash Sha1 Md5 MessageDigest IpAddress Stun StunWire.

Section Integrity.
Context `{Platform}.

(** ** Loads from a packet *)

Lemma GetBE16_word a v b p : is_u16 v → p = zlen a → GetBE16 (a ++ be_encode 2 v ++ b) p = v.
Proof. intros Hv ->. rewrite GetBE16_at by (auto using be_encode_ok). by rewrite be_decode_encode. Qed.
Lemma GetBE32_word a v b p : is_u32 v → p = zlen a → GetBE32 (a ++ be_encode 4 v ++ b) p = v.
Proof. intros Hv ->. rewrite GetBE32_at by (auto using be_encode_ok). by rewrite be_decode_encode. Qed.
Lemma LoadBE16_word a v b p : is_u16 v → p = zlen a → LoadBE16 (a ++ be_encode 2 v ++ b) p = Some v.
Proof.
  intros Hv Hp. unfold LoadBE16. rewrite GetBE16_word by done. rewrite !zlen_app, zlen_be_encode.
  pose proof (zlen_nonneg a). pose proof (zlen_nonneg b). bdestruct. done.
Qed.

Lemma attr_body_ok tid a : bytes_ok tid → attr_ok tid a → bytes_ok (attr_body tid a).
Proof.
  intros Htid (_ & _ & Ha). destruct a as [t l addr|t l addr|t l v|t l v|t l v|t l c n r|t l v]; cbn [attr_body];
    rewrite ?bytes_ok_app; auto using be_encode_ok.
  - destruct Ha as [(_ & Hip & _ & Hf) _]. destruct (ip_bytes_length _ Hip) as [_ Hok].
    split_and!; auto using be_encode_ok. destruct (stun_family_range addr Hf) as [-> | ->]; small_bytes.
  - destruct Ha as [(_ & Hip & _ & Hf) [_ H6]].
    destruct (GetXoredIP_involutive tid _ Hip Htid H6 Hf) as (Hx & _ & _). destruct (ip_bytes_length _ Hx) as [_ Hok].
    split_and!; auto using be_encode_ok. destruct (stun_family_range addr Hf) as [-> | ->]; small_bytes.
  - destruct Ha as [_ ?]. auto with words.
  - destruct Ha as (_ & ? & _). auto using be_encode_ok with words.
  - split; [|auto with words]. induction v as [|x v IH]; [constructor|].
    cbn [fmap list_fmap concat]. apply bytes_ok_app. destruct Ha as [? Hv]. split; [apply be_encode_ok|].
    clear - v. induction v as [|y v IH]; [constructor|]. cbn [fmap list_fmap concat]. apply bytes_ok_app.
    split; [apply be_encode_ok|exact IH].
Qed.

Lemma attr_wire_ok tid a : bytes_ok tid → attr_ok tid a → bytes_ok (attr_wire tid a).
Proof. intros. unfold attr_wire. rewrite !bytes_ok_app. auto using be_encode_ok, attr_body_ok. Qed.
Lemma attrs_wire_ok tid attrs : bytes_ok tid → Forall (attr_ok tid) attrs →
  bytes_ok (concat (attr_wire tid <$> attrs)).
Proof.
  intros Htid Ha. induction Ha as [|a attrs Ha Hattrs IH]; [constructor|].
  cbn [fmap list_fmap concat]. apply bytes_ok_app. auto using attr_wire_ok.
Qed.
Lemma header_id_ok tid : bytes_ok tid → bytes_ok (header_id tid).
Proof. intros. unfold header_id. destruct (_ =? _); [done|]. rewrite bytes_ok_app. auto using cookie_bytes_ok. Qed.

Lemma attrs_size_mod attrs : attrs_size attrs mod 4 = 0.
Proof.
  induction attrs as [|a attrs IH]; [done|]. cbn [attrs_size fold_right]. fold (attrs_size attrs).
  pose proof (padded_mod (attr_length a)). ulia.
Qed.

(** The header of a packet. *)
Definition header (type len : Z) (tid : list Z) : list Z :=
  be_encode 2 type ++ be_encode 2 len ++ header_id tid.
Lemma header_ok type len tid : bytes_ok tid → bytes_ok (header type len tid).
Proof. intros. unfold header. rewrite !bytes_ok_app. auto using be_encode_ok, header_id_ok. Qed.
Lemma header_length type len tid : zlen tid = 12 ∨ zlen tid = 16 → zlen (header type len tid) = 20.
Proof. intros. unfold header. rewrite !zlen_app, !zlen_be_encode, header_id_length by done. lia. Qed.

Lemma msg_wire_header m : msg_wire m =
  header (m_type m) (m_length m) (m_transaction_id m) ++ concat (attr_wire (m_transaction_id m) <$> m_attrs m).
Proof. unfold msg_wire, header. by rewrite <- !app_assoc. Qed.

Lemma update_last_snoc f l a : update_last f (l ++ [a]) = l ++ [f a].
Proof.
  induction l as [|x l IH]; [done|]. cbn [app update_last]. rewrite IH.
  destruct l; done.
Qed.

Lemma concat_snoc tid attrs a :
  concat (attr_wire tid <$> attrs ++ [a]) = concat (attr_wire tid <$> attrs) ++ attr_wire tid a.
Proof. rewrite fmap_app, concat_app. cbn. by rewrite app_nil_r. Qed.

(** ** FINGERPRINT *)

(** [data] ends in a FINGERPRINT attribute with value [v]. *)
Lemma ValidateFingerprint_wire type len tid body v :
  bytes_ok tid → zlen tid = 12 → bytes_ok body → zlen body mod 4 = 0 → is_u32 v →
  let p := header type len tid ++ body in
  ValidateFingerprint (p ++ be_encode 2 STUN_ATTR_FINGERPRINT ++ be_encode 2 4 ++ be_encode 4 v)
    = (Z.lxor v STUN_FINGERPRINT_XOR_VALUE =? ComputeCrc32 p).
Proof.
  intros Htid Hid Hbody Hmod Hv p. pose proof (header_length type len tid (or_introl Hid)) as Hh.
  pose proof (header_ok type len tid Htid) as Hhok.
  assert (Hp : bytes_ok p) by (by apply bytes_ok_app).
  assert (Hpl : zlen p = 20 + zlen body) by (unfold p; rewrite zlen_app; lia).
  set (data := p ++ _). assert (Hsize : zlen data = zlen p + 8).
  { unfold data. rewrite !zlen_app, !zlen_be_encode. lia. }
  pose proof (zlen_nonneg body). unfold ValidateFingerprint. rewrite Hsize, Hpl.
  change (kStunAttributeHeaderSize + UINT32_SIZE) with 8. change (kStunHeaderSize + 8) with 28.
  destruct (Z.eqb_spec ((20 + zlen body + 8) mod 4) 0); [|exfalso; ulia].
  destruct (Z.ltb_spec (20 + zlen body + 8) 28); [lia|]. cbn [negb orb].
  assert (Hcookie : GetBE32 data (kStunTransactionIdOffset - kStunMagicCookieLength) = kStunMagicCookie).
  { unfold data, p, header, header_id. rewrite Hid. cbn [Z.eqb Pos.eqb kStunLegacyTransactionIdLength].
    rewrite <- !app_assoc, (app_assoc (be_encode 2 type)).
    apply GetBE32_word; [in_range|done]. }
  rewrite Hcookie, Z.eqb_refl. cbn [negb].
  replace (20 + zlen body + 8 - 8) with (zlen p) by lia.
  assert (Htype : GetBE16 data (zlen p) = STUN_ATTR_FINGERPRINT) by (apply GetBE16_word; [in_range|done]).
  assert (Hlen : GetBE16 data (zlen p + 2) = UINT32_SIZE).
  { unfold data. rewrite app_assoc. apply GetBE16_word; [in_range|zlia]. }
  rewrite Htype, Hlen, !Z.eqb_refl. cbn [negb orb].
  assert (Hval : GetBE32 data (zlen p + kStunAttributeHeaderSize) = v).
  { unfold data. rewrite !app_assoc, <- (app_nil_r (be_encode 4 v)).
    apply GetBE32_word; [done|]. rewrite !zlen_app, !zlen_be_encode. unfold kStunAttributeHeaderSize. lia. }
  rewrite Hval. unfold data. by rewrite ztake_app_exact.
Qed.

(** The packet of [m] without the attributes from the last one on, but with the
    length field of the whole. *)
Definition wire_prefix (m : StunMessage) (a : StunAttribute) : list Z :=
  header (m_type m) (m_length m + (4 + padded (attr_length a))) (m_transaction_id m) ++
  concat (attr_wire (m_transaction_id m) <$> m_attrs m).

Lemma snoc_wire m a : msg_wire (snoc_msg m a) = wire_prefix m a ++ attr_wire (m_transaction_id m) a.
Proof. rewrite msg_wire_header. unfold snoc_msg, wire_prefix. cbn. by rewrite concat_snoc, app_assoc. Qed.

Lemma msg_ok_id m : msg_ok m → bytes_ok (m_transaction_id m) ∧
  (zlen (m_transaction_id m) = 12 ∨ zlen (m_transaction_id m) = 16).
Proof. intros (_ & Hidok & Hid & _). tauto. Qed.

Lemma wire_prefix_facts m a : msg_ok m →
  bytes_ok (wire_prefix m a) ∧ zlen (wire_prefix m a) = 20 + m_length m ∧ m_length m mod 4 = 0 ∧ 0 ≤ m_length m.
Proof.
  intros Hm. destruct (msg_ok_id m Hm) as [Hidok Hid]. destruct Hm as (_ & _ & _ & Hattrs & _ & Hlen & _).
  destruct (attrs_wire_length _ _ Hidok Hattrs) as [Hsize Hmin]. pose proof (zlen_nonneg (m_attrs m)).
  unfold wire_prefix. rewrite bytes_ok_app, zlen_app, header_length, Hsize, Hlen by done.
  split_and!; auto using header_ok, attrs_wire_ok, attrs_size_mod; lia.
Qed.

Lemma is_u32_crc l : bytes_ok l → is_u32 (Z.lxor (ComputeCrc32 l) STUN_FINGERPRINT_XOR_VALUE).
Proof. intros. apply lxor_u32; [|in_range]. apply UpdateCrc32_u32; [in_range|done]. Qed.

Definition fingerprint_attr (v : Z) : StunAttribute := UInt32Attr STUN_ATTR_FINGERPRINT 4 v.
Definition message_crc (m : StunMessage) : Z :=
  Z.lxor (ComputeCrc32 (wire_prefix m (fingerprint_attr 0))) STUN_FINGERPRINT_XOR_VALUE.

Lemma fingerprint_attr_ok tid v : is_u32 v → attr_ok tid (fingerprint_attr v).
Proof. intros. split; [in_range|split; [in_range|by split]]. Qed.
Lemma fingerprint_attr_type c v :
  GetAttributeValueType c (attr_type (fingerprint_attr v)) = value_type (fingerprint_attr v).
Proof. by destruct c. Qed.
Lemma fingerprint_wire tid v : attr_wire tid (fingerprint_attr v) =
  be_encode 2 STUN_ATTR_FINGERPRINT ++ be_encode 2 4 ++ be_encode 4 v.
Proof. reflexivity. Qed.

Lemma AddFingerprint_value m : msg_ok m → m_length m + 8 < 65536 →
  AddFingerprint m = (true, snoc_msg m (fingerprint_attr (message_crc m))).
Proof.
  intros Hm Hfit. set (fp := fingerprint_attr 0). destruct (wire_prefix_facts m fp Hm) as (Hpok & Hpl & _ & H0).
  destruct (msg_ok_id m Hm) as [Hidok _]. pose proof Hm as (_ & _ & _ & Hattrs & _).
  unfold AddFingerprint. change (StunUInt32Attribute STUN_ATTR_FINGERPRINT 0) with fp.
  rewrite AddAttribute_value; [|apply fingerprint_attr_type|in_range|lia|change (padded (attr_length fp)) with 4; lia].
  destruct (Write_new (snoc_msg m fp)) as (b & -> & Hb);
    [done|apply Forall_app; split; [done|]; apply Forall_singleton, fingerprint_attr_ok; in_range|]. cbn [negb].
  rewrite (holds_Length _ _ Hb). destruct Hb as (_ & _ & ->). rewrite snoc_wire.
  replace (zlen (wire_prefix m fp ++ attr_wire (m_transaction_id m) fp) - kStunAttributeHeaderSize
             - attr_length fp) with (zlen (wire_prefix m fp))
    by (rewrite zlen_app; change (zlen (attr_wire _ fp)) with 8; unfold kStunAttributeHeaderSize; cbn; lia).
  rewrite ztake_app_exact by done. cbn [m_attrs snoc_msg]. by rewrite update_last_snoc.
Qed.

Lemma AddFingerprint_ok m : msg_ok m → m_length m + 8 < 65536 →
  AddFingerprint m = (true, snoc_msg m (fingerprint_attr (message_crc m))) ∧
  msg_ok (snoc_msg m (fingerprint_attr (message_crc m))).
Proof.
  intros Hm Hfit. assert (Hv : is_u32 (message_crc m)) by (apply is_u32_crc, wire_prefix_facts; done).
  split; [by apply AddFingerprint_value|].
  apply snoc_msg_ok; [done|by apply fingerprint_attr_ok|apply fingerprint_attr_type|].
  change (padded _) with 4. lia.
Qed.

Lemma fingerprint_valid m : msg_ok m → zlen (m_transaction_id m) = 12 →
  ValidateFingerprint (msg_wire (snoc_msg m (fingerprint_attr (message_crc m)))) = true.
Proof.
  intros Hm Hid. destruct (msg_ok_id m Hm) as [Hidok _]. pose proof Hm as (_ & _ & _ & Hattrs & _).
  destruct (attrs_wire_length _ _ Hidok Hattrs) as [Hsize _].
  assert (Hv : is_u32 (message_crc m)) by (apply is_u32_crc, wire_prefix_facts; done).
  rewrite snoc_wire, fingerprint_wire. unfold wire_prefix.
  rewrite ValidateFingerprint_wire; auto using attrs_wire_ok; [|rewrite Hsize; apply attrs_size_mod].
  unfold message_crc. rewrite lxor_involutive. apply Z.eqb_refl.
Qed.

(** A message to which [AddFingerprint] was applied stays well formed, and
    the packet it is written to is recognised by [ValidateFingerprint]. *)
Theorem AddFingerprint_valid m : msg_ok m → zlen (m_transaction_id m) = 12 → m_length m + 8 < 65536 →
  ∃ m' b, AddFingerprint m = (true, m') ∧ msg_ok m' ∧
    Write m' (ByteBuffer_new ORDER_NETWORK) = (true, b) ∧ ValidateFingerprint (Data b) = true.
Proof.
  intros Hm Hid Hfit. destruct (AddFingerprint_ok m Hm Hfit) as [E Hm'].
  destruct (Write_new (snoc_msg m (fingerprint_attr (message_crc m)))) as (b & Ew & (_ & _ & HD)); [apply Hm'..|].
  exists (snoc_msg m (fingerprint_attr (message_crc m))), b. split_and!; [done|done|done|].
  rewrite HD. by apply fingerprint_valid.
Qed.

(** ** MESSAGE-INTEGRITY *)

(** The HMAC of RFC 5389, section 15.4: of the message up to the attribute, with a
    length field that ends at the attribute. *)
Definition integrity_code (key : list Z) (type len : Z) (tid body : list Z) : list Z :=
  hmac sha1_spec key (header type (len + 24) tid ++ body).

Lemma integrity_code_facts key type len tid body :
  zlen (integrity_code key type len tid body) = 20 ∧ bytes_ok (integrity_code key type len tid body).
Proof. unfold integrity_code, hmac. split; [apply (hash_length (hash := sha1_spec))|apply (hash_bytes (hash := sha1_spec))]. Qed.

(** The scan passes over attributes of other types. *)
Lemma scan_skip tid attrs : bytes_ok tid → Forall (attr_ok tid) attrs →
  Forall (λ a, attr_type a ≠ STUN_ATTR_MESSAGE_INTEGRITY) attrs →
  ∀ fuel pre rest data, data = pre ++ concat (attr_wire tid <$> attrs) ++ rest →
  FindMessageIntegrity (length attrs + fuel) data (zlen data) (zlen pre)
    = FindMessageIntegrity fuel data (zlen data) (zlen pre + attrs_size attrs).
Proof.
  intros Htid Hok Hty. induction Hok as [|a attrs Ha Hok IH]; intros fuel pre rest data ->.
  { by rewrite Z.add_0_r. }
  apply Forall_cons in Hty as [Ht Hty]. pose proof (attr_wire_length tid a Htid Ha) as Hlen.
  pose proof Ha as (Hu & Hl & _). cbn [length Nat.add FindMessageIntegrity].
  set (data := pre ++ _). assert (Hdata : data = (pre ++ attr_wire tid a) ++ concat (attr_wire tid <$> attrs) ++ rest).
  { unfold data. cbn [fmap list_fmap concat]. by rewrite <- !app_assoc. }
  assert (Hsz : zlen data = zlen pre + (4 + padded (attr_length a)) + zlen (concat (attr_wire tid <$> attrs) ++ rest)).
  { rewrite Hdata, (zlen_app _ (_ ++ _)), zlen_app. lia. }
  pose proof (zlen_nonneg (concat (attr_wire tid <$> attrs) ++ rest)).
  assert (0 ≤ padded (attr_length a)) by (unfold padded; pose proof (pad4_range (attr_length a)); ulia).
  destruct (Z.ltb_spec (zlen pre) (zlen data)); [|lia]. cbn [negb].
  assert (L1 : LoadBE16 data (zlen pre) = Some (attr_type a)).
  { rewrite Hdata. unfold attr_wire at 1. rewrite <- !app_assoc. by apply LoadBE16_word. }
  assert (L2 : LoadBE16 data (zlen pre + 2) = Some (attr_length a)).
  { rewrite Hdata. unfold attr_wire at 1. rewrite <- !app_assoc, (app_assoc pre). apply LoadBE16_word; [done|zlia]. }
  rewrite L1, L2. destruct (Z.eqb_spec (attr_type a) STUN_ATTR_MESSAGE_INTEGRITY); [done|].
  replace (if negb (attr_length a mod 4 =? 0) then _ else _) with (zlen (pre ++ attr_wire tid a)).
  2:{ rewrite zlen_app, Hlen, <- padded_code by ulia. destruct (negb _); lia. }
  rewrite (IH Hty fuel _ rest data Hdata). f_equal.
  cbn [attrs_size fold_right]. fold (attrs_size attrs). rewrite zlen_app. lia.
Qed.

Lemma attrs_count tid attrs : bytes_ok tid → Forall (attr_ok tid) attrs →
  zlen attrs ≤ zlen (concat (attr_wire tid <$> attrs)).
Proof. intros Htid Hok. destruct (attrs_wire_length tid attrs Htid Hok). pose proof (zlen_nonneg attrs). lia. Qed.

(** A packet whose first MESSAGE-INTEGRITY attribute, with the value [h], comes
    after the attributes [attrs] and before the bytes [rest]. *)
Definition protected_packet (type : Z) (tid : list Z) (attrs : list StunAttribute) (h rest : list Z) : list Z :=
  header type (attrs_size attrs + 24 + zlen rest) tid ++ concat (attr_wire tid <$> attrs) ++
  be_encode 2 STUN_ATTR_MESSAGE_INTEGRITY ++ be_encode 2 kStunMessageIntegritySize ++ h ++ rest.

Lemma protected_shape type tid attrs h rest : tid_ok tid → Forall (attr_ok tid) attrs → zlen h = 20 →
  let pre := header type (attrs_size attrs + 24 + zlen rest) tid ++ concat (attr_wire tid <$> attrs) in
  protected_packet type tid attrs h rest = pre ++
     be_encode 2 STUN_ATTR_MESSAGE_INTEGRITY ++ be_encode 2 kStunMessageIntegritySize ++ h ++ rest ∧
  zlen pre = 20 + attrs_size attrs ∧
  zlen (protected_packet type tid attrs h rest) = 20 + attrs_size attrs + 24 + zlen rest ∧
  0 ≤ zlen attrs ≤ attrs_size attrs ∧ 0 ≤ zlen rest ∧ attrs_size attrs mod 4 = 0.
Proof.
  intros [Htid Hid] Hok Hh pre. destruct (attrs_wire_length tid attrs Htid Hok) as [Hs Hmin].
  pose proof (zlen_nonneg attrs). pose proof (zlen_nonneg rest).
  assert (Hpre : zlen pre = 20 + attrs_size attrs).
  { unfold pre. rewrite zlen_app, header_length, Hs by tauto. done. }
  assert (Hd : protected_packet type tid attrs h rest = pre ++
     be_encode 2 STUN_ATTR_MESSAGE_INTEGRITY ++ be_encode 2 kStunMessageIntegritySize ++ h ++ rest)
    by (unfold protected_packet, pre; by rewrite <- !app_assoc).
  refine (conj Hd (conj Hpre (conj _ (conj _ (conj _ (attrs_size_mod _)))))); [|lia|done].
  rewrite Hd, !zlen_app, !zlen_be_encode. lia.
Qed.

Lemma find_protected type tid attrs h rest fuel : tid_ok tid → Forall (attr_ok tid) attrs →
  Forall (λ a, attr_type a ≠ STUN_ATTR_MESSAGE_INTEGRITY) attrs → zlen h = 20 →
  let data := protected_packet type tid attrs h rest in
  FindMessageIntegrity (S (length attrs + fuel)) data (zlen data) 20 = ScanFound (20 + attrs_size attrs).
Proof.
  intros Htok Hok Hty Hh data.
  destruct (protected_shape type tid attrs h rest Htok Hok Hh) as (Hd & Hpre & Hsz & Hn & Hr & _).
  fold data in Hd, Hsz. destruct Htok as [Htid Hid]. set (n := attrs_size attrs) in *.
  assert (Hhl : zlen (header type (n + 24 + zlen rest) tid) = 20) by (apply header_length; tauto).
  pose proof (scan_skip tid attrs Htid Hok Hty (S fuel) _ _ data eq_refl) as Hskip.
  fold n in Hskip. rewrite Hhl, Nat.add_succ_r in Hskip. rewrite Hskip. cbn [FindMessageIntegrity].
  destruct (Z.ltb_spec (20 + n) (zlen data)); [|lia]. cbn [negb].
  assert (L1 : LoadBE16 data (20 + n) = Some STUN_ATTR_MESSAGE_INTEGRITY).
  { rewrite Hd. apply LoadBE16_word; [in_range|done]. }
  assert (L2 : LoadBE16 data (20 + n + 2) = Some kStunMessageIntegritySize).
  { rewrite Hd, (app_assoc (_ ++ _)). apply LoadBE16_word; [in_range|]. rewrite zlen_app, zlen_be_encode. lia. }
  rewrite L1, L2, !Z.eqb_refl. cbn [negb orb]. unfold kStunMessageIntegritySize.
  destruct (Z.ltb_spec (zlen data) (20 + n + 20)); [lia|done].
Qed.

(** Rewriting the length field of a header. *)
Lemma header_set_length type len len' tid body : zlen tid = 12 ∨ zlen tid = 16 →
  SetBE16 (header type len tid ++ body) 2 len' = header type len' tid ++ body.
Proof.
  intros Hid. pose proof (header_length type len tid Hid). pose proof (zlen_nonneg body).
  rewrite SetBE16_splice by (rewrite ?zlen_app; lia).
  unfold header. rewrite <- !app_assoc. unfold splice.
  rewrite ztake_app_exact by (by rewrite zlen_be_encode). do 2 f_equal.
  rewrite (app_assoc (be_encode 2 type)), zdrop_app_exact; [done|]. by rewrite zlen_app, !zlen_be_encode.
Qed.

Lemma protected_bytes type tid attrs h rest : bytes_ok tid → Forall (attr_ok tid) attrs →
  bytes_ok h → bytes_ok rest → bytes_ok (protected_packet type tid attrs h rest).
Proof.
  intros. unfold protected_packet. rewrite !bytes_ok_app.
  auto 10 using header_ok, attrs_wire_ok, be_encode_ok.
Qed.

Lemma memcmp_eqb a b : zlen a = zlen b → bytes_ok a → bytes_ok b → (memcmp a b =? 0) = bool_decide (a = b).
Proof.
  intros Hl Ha Hb. destruct (memcmp_decode a b Hl Ha Hb) as [He _].
  destruct (Z.eqb_spec (memcmp a b) 0); case_bool_decide; tauto.
Qed.

(** The value of the check on a packet that has the attribute. *)
Lemma ValidateMessageIntegrity_code type tid attrs h rest password :
  tid_ok tid → Forall (attr_ok tid) attrs → Forall (λ a, attr_type a ≠ STUN_ATTR_MESSAGE_INTEGRITY) attrs →
  bytes_ok h → zlen h = 20 → bytes_ok rest → zlen rest mod 4 = 0 → bytes_ok password →
  attrs_size attrs + 24 + zlen rest < 65536 →
  ValidateMessageIntegrity (protected_packet type tid attrs h rest) password =
    Some (bool_decide (h = integrity_code password type (attrs_size attrs) tid (concat (attr_wire tid <$> attrs)))).
Proof.
  intros Htok Hok Hty Hhok Hh Hrest Hmod Hpw Hfit.
  destruct (protected_shape type tid attrs h rest Htok Hok Hh) as (Hd & Hpre & Hsz & Hn & Hr & Hsm).
  set (data := protected_packet type tid attrs h rest) in *. pose proof Htok as [Htid Hid].
  set (body := concat (attr_wire tid <$> attrs)) in *. set (n := attrs_size attrs) in *.
  unfold ValidateMessageIntegrity. rewrite Hsz.
  destruct (Z.eqb_spec ((20 + n + 24 + zlen rest) mod 4) 0); [|exfalso; ulia]. cbn [negb].
  assert (LoadBE16 data 2 = Some (n + 24 + zlen rest)) as ->.
  { unfold data, protected_packet, header. rewrite <- !app_assoc. apply LoadBE16_word; [ulia|done]. }
  cbn [mbind option_bind]. unfold kStunHeaderSize.
  destruct (Z.eqb_spec (20 + n + 24 + zlen rest) (n + 24 + zlen rest + 20)); [|lia]. cbn [negb].
  assert (Hfuel : (length attrs ≤ length data)%nat).
  { unfold zlen in *. lia. }
  replace (length data) with (length attrs + (length data - length attrs))%nat by lia.
  rewrite <- Hsz. unfold data at 2 3. rewrite find_protected by done. fold n data. rewrite Hsz.
  unfold kStunAttributeHeaderSize, kStunMessageIntegritySize.
  rewrite Hd, ztake_app_exact by done.
  replace (if 20 + n + 4 + 20 <? 20 + n + 24 + zlen rest then _ else _) with (header type (n + 24) tid ++ body).
  2:{ destruct (Z.ltb_spec (20 + n + 4 + 20) (20 + n + 24 + zlen rest)).
      - rewrite header_set_length by tauto. do 2 f_equal. ulia.
      - by replace (n + 24 + zlen rest) with (n + 24) by lia. }
  rewrite ComputeHmac_sha1; [|done|apply bytes_ok_app; unfold body; auto using header_ok, attrs_wire_ok|lia].
  fold (integrity_code password type n tid body). set (code := integrity_code _ _ _ _ _).
  destruct (integrity_code_facts password type n tid body) as [Hcl Hcok]. fold code in Hcl, Hcok.
  cbn [negb Z.eqb Pos.eqb]. destruct (Z.leb_spec (20 + n + 4 + 20) (20 + n + 24 + zlen rest)); [|lia].
  rewrite splice_whole by (rewrite ?zlen_fresh; lia).
  rewrite (app_assoc _ (be_encode 2 STUN_ATTR_MESSAGE_INTEGRITY)), (app_assoc _ (be_encode 2 20)).
  rewrite zdrop_app_exact by (rewrite !zlen_app, !zlen_be_encode in *; lia).
  rewrite ztake_app_exact by done. f_equal. apply memcmp_eqb; [lia|done|done].
Qed.

(** The value of the check on a packet that has no such attribute. *)
Lemma ValidateMessageIntegrity_none type tid attrs password :
  tid_ok tid → Forall (attr_ok tid) attrs → Forall (λ a, attr_type a ≠ STUN_ATTR_MESSAGE_INTEGRITY) attrs →
  attrs_size attrs < 65536 →
  ValidateMessageIntegrity (header type (attrs_size attrs) tid ++ concat (attr_wire tid <$> attrs)) password
    = Some false.
Proof.
  intros [Htid Hid] Hok Hty Hfit. destruct (attrs_wire_length tid attrs Htid Hok) as [Hs Hmin].
  pose proof (zlen_nonneg attrs). pose proof (attrs_size_mod attrs).
  assert (Hhl : zlen (header type (attrs_size attrs) tid) = 20) by (apply header_length; tauto).
  set (data := _ ++ _). assert (Hsz : zlen data = 20 + attrs_size attrs) by (unfold data; rewrite zlen_app; lia).
  unfold ValidateMessageIntegrity. rewrite Hsz.
  destruct (Z.eqb_spec ((20 + attrs_size attrs) mod 4) 0); [|exfalso; ulia]. cbn [negb].
  assert (LoadBE16 data 2 = Some (attrs_size attrs)) as ->.
  { unfold data, header. rewrite <- !app_assoc. apply LoadBE16_word; [ulia|done]. }
  cbn [mbind option_bind]. unfold kStunHeaderSize.
  destruct (Z.eqb_spec (20 + attrs_size attrs) (attrs_size attrs + 20)); [|lia]. cbn [negb].
  assert (Hfuel : (length attrs ≤ length data)%nat) by (unfold zlen in *; lia).
  replace (S (length data)) with (length attrs + S (length data - length attrs))%nat by lia.
  pose proof (scan_skip tid attrs Htid Hok Hty (S (length data - length attrs)) _ [] data
    ltac:(unfold data; by rewrite app_nil_r)) as Hskip.
  rewrite Hhl, Hsz in Hskip. rewrite Hskip. cbn [FindMessageIntegrity].
  by rewrite Z.ltb_irrefl.
Qed.


Definition integrity_attr (h : list Z) : StunAttribute := ByteStringAttr STUN_ATTR_MESSAGE_INTEGRITY 20 h.

Lemma integrity_attr_ok tid h : bytes_ok h → zlen h = 20 → attr_ok tid (integrity_attr h).
Proof. intros. split; [in_range|split; [in_range|by split]]. Qed.
Lemma integrity_attr_type c h : GetAttributeValueType c (attr_type (integrity_attr h)) = value_type (integrity_attr h).
Proof. by destruct c. Qed.
Lemma integrity_wire tid h : attr_wire tid (integrity_attr h) =
  be_encode 2 STUN_ATTR_MESSAGE_INTEGRITY ++ be_encode 2 kStunMessageIntegritySize ++ h.
Proof. unfold attr_wire. cbn [integrity_attr attr_type attr_length attr_body]. by rewrite app_nil_r. Qed.

Lemma AddMessageIntegrity_value m key : msg_ok m → bytes_ok key → m_length m + 24 < 65536 →
  AddMessageIntegrity m key = (true, snoc_msg m (integrity_attr
    (integrity_code key (m_type m) (m_length m) (m_transaction_id m)
       (concat (attr_wire (m_transaction_id m) <$> m_attrs m))))).
Proof.
  intros Hm Hkey Hfit. set (dummy := integrity_attr (zrepeat 48 20)).
  destruct (wire_prefix_facts m dummy Hm) as (Hpok & Hpl & _ & H0). destruct (msg_ok_id m Hm) as [Hidok _].
  pose proof Hm as (_ & _ & _ & Hattrs & _).
  assert (Hattr : attr_ok (m_transaction_id m) dummy) by (apply integrity_attr_ok; [small_bytes|done]).
  unfold AddMessageIntegrity. change (StunByteStringAttribute _ _) with dummy.
  rewrite AddAttribute_value; [|apply integrity_attr_type|in_range|lia|change (padded (attr_length dummy)) with 20; lia].
  destruct (Write_new (snoc_msg m dummy)) as (b & -> & Hb); [done|apply Forall_app; auto|]. cbn [negb].
  rewrite (holds_Length _ _ Hb). destruct Hb as (_ & _ & ->). rewrite snoc_wire.
  replace (zlen (wire_prefix m dummy ++ attr_wire (m_transaction_id m) dummy) - kStunAttributeHeaderSize
             - attr_length dummy) with (zlen (wire_prefix m dummy))
    by (rewrite zlen_app; change (zlen (attr_wire _ dummy)) with 24; unfold kStunAttributeHeaderSize; cbn; lia).
  rewrite ztake_app_exact, ComputeHmac_sha1 by (done || unfold kStunMessageIntegritySize; lia).
  cbn [negb Z.eqb Pos.eqb kStunMessageIntegritySize].
  set (code := integrity_code _ _ _ _ _). change (hmac sha1_spec key (wire_prefix m dummy)) with code.
  assert (Hcl : zlen code = 20) by apply integrity_code_facts.
  rewrite splice_whole by (done || rewrite zlen_fresh, Hcl; done).
  cbn [m_attrs snoc_msg]. rewrite update_last_snoc. unfold dummy, integrity_attr, CopyBytes. rewrite Hcl. reflexivity.
Qed.

Lemma header_tid_ok m : msg_ok m → tid_ok (m_transaction_id m).
Proof. intros (_ & Hidok & Hid & _). by split. Qed.

Definition no_integrity (m : StunMessage) : Prop :=
  Forall (λ a, attr_type a ≠ STUN_ATTR_MESSAGE_INTEGRITY) (m_attrs m).

Definition message_code (m : StunMessage) (key : list Z) : list Z :=
  integrity_code key (m_type m) (m_length m) (m_transaction_id m)
    (concat (attr_wire (m_transaction_id m) <$> m_attrs m)).

Lemma message_code_facts m key : zlen (message_code m key) = 20 ∧ bytes_ok (message_code m key).
Proof. unfold message_code. apply integrity_code_facts. Qed.

(** The packet of a message with its own code and more bytes after it. *)
Lemma protected_valid m key rest : msg_ok m → no_integrity m → bytes_ok key → bytes_ok rest →
  zlen rest mod 4 = 0 → m_length m + 24 + zlen rest < 65536 →
  let tid := m_transaction_id m in
  ValidateMessageIntegrity (header (m_type m) (m_length m + 24 + zlen rest) tid ++
    concat (attr_wire tid <$> m_attrs m) ++ attr_wire tid (integrity_attr (message_code m key)) ++ rest) key = Some true.
Proof.
  intros Hm Hno Hkey Hrest Hmod Hfit tid. pose proof (header_tid_ok m Hm) as Htok.
  pose proof Hm as (_ & _ & _ & Hattrs & _ & Hlen & _).
  destruct (message_code_facts m key) as [Hcl Hcok]. rewrite integrity_wire, <- !app_assoc, Hlen.
  fold (protected_packet (m_type m) tid (m_attrs m) (message_code m key) rest).
  rewrite ValidateMessageIntegrity_code by (done || lia).
  rewrite <- Hlen. by rewrite bool_decide_eq_true_2.
Qed.

Lemma protected_msg_ok m key : msg_ok m → m_length m + 24 < 65536 →
  msg_ok (snoc_msg m (integrity_attr (message_code m key))).
Proof.
  intros Hm Hfit. apply snoc_msg_ok; [done| |apply integrity_attr_type|].
  - destruct (message_code_facts m key). by apply integrity_attr_ok.
  - change (padded _) with 20. lia.
Qed.

(** A message with its code, and with its code and a fingerprint. *)
Definition coded (m : StunMessage) (key : list Z) : StunMessage := snoc_msg m (integrity_attr (message_code m key)).
Definition secured (m : StunMessage) (key : list Z) : StunMessage :=
  snoc_msg (coded m key) (fingerprint_attr (message_crc (coded m key))).

Lemma secured_add m key : msg_ok m → bytes_ok key → m_length m + 32 < 65536 →
  AddMessageIntegrity m key = (true, coded m key) ∧ AddFingerprint (coded m key) = (true, secured m key) ∧
  msg_ok (coded m key) ∧ msg_ok (secured m key).
Proof.
  intros Hm Hkey Hfit. assert (Hm1 : msg_ok (coded m key)) by (apply protected_msg_ok; [done|lia]).
  destruct (AddFingerprint_ok (coded m key) Hm1) as [E2 Hm2];
    [change (m_length (coded m key)) with (m_length m + 24); lia|].
  split; [apply AddMessageIntegrity_value; [done|done|lia]|]. split; [exact E2|]. by split.
Qed.
Lemma coded_valid m key : msg_ok m → no_integrity m → bytes_ok key → m_length m + 24 < 65536 →
  ValidateMessageIntegrity (msg_wire (coded m key)) key = Some true.
Proof.
  intros Hm Hno Hkey Hfit. unfold coded. rewrite snoc_wire. unfold wire_prefix.
  pose proof (protected_valid m key [] Hm Hno Hkey) as Hpv. cbv zeta in Hpv. change (zlen []) with 0 in Hpv.
  rewrite app_nil_r, Z.add_0_r in Hpv. rewrite <- app_assoc. apply Hpv; [constructor|done|lia].
Qed.
Lemma secured_valid m key : msg_ok m → no_integrity m → bytes_ok key → m_length m + 32 < 65536 →
  ValidateMessageIntegrity (msg_wire (secured m key)) key = Some true.
Proof.
  intros Hm Hno Hkey Hfit. assert (Hm1 : msg_ok (coded m key)) by (apply protected_msg_ok; [done|lia]).
  destruct (msg_ok_id m Hm) as [Hidok _]. unfold secured. rewrite snoc_wire. unfold wire_prefix.
  set (fp := fingerprint_attr _). cbn [coded snoc_msg m_attrs]. rewrite concat_snoc, <- !app_assoc.
  replace (m_length (coded m key) + (4 + padded (attr_length fp))) with
    (m_length m + 24 + zlen (attr_wire (m_transaction_id m) fp)) by reflexivity.
  change (m_type (coded m key)) with (m_type m). change (m_transaction_id (coded m key)) with (m_transaction_id m).
  apply (protected_valid m key (attr_wire (m_transaction_id m) fp)); try done.
  - apply attr_wire_ok, fingerprint_attr_ok; [done|]. by apply is_u32_crc, wire_prefix_facts.
  - change (zlen (attr_wire _ fp)) with 8. lia.
Qed.

(** C17. A message without a MESSAGE-INTEGRITY attribute to which
    [AddMessageIntegrity] and then [AddFingerprint] are applied stays well formed,
    and the packet of each of the two results is accepted by
    [ValidateMessageIntegrity] under the same key. *)
Theorem AddMessageIntegrity_valid m key : msg_ok m → no_integrity m → bytes_ok key → m_length m + 32 < 65536 →
  ∃ m1 m2 b1 b2, AddMessageIntegrity m key = (true, m1) ∧ AddFingerprint m1 = (true, m2) ∧
    msg_ok m1 ∧ msg_ok m2 ∧
    Write m1 (ByteBuffer_new ORDER_NETWORK) = (true, b1) ∧ ValidateMessageIntegrity (Data b1) key = Some true ∧
    Write m2 (ByteBuffer_new ORDER_NETWORK) = (true, b2) ∧ ValidateMessageIntegrity (Data b2) key = Some true.
Proof.
  intros Hm Hno Hkey Hfit. destruct (msg_ok_id m Hm) as [Hidok _].
  destruct (secured_add m key Hm Hkey Hfit) as (E1 & E2 & Hm1 & Hm2).
  destruct (Write_new (coded m key)) as (b1 & W1 & (_ & _ & HD1)); [done|apply Hm1|].
  destruct (Write_new (secured m key)) as (b2 & W2 & (_ & _ & HD2)); [done|apply Hm2|].
  exists (coded m key), (secured m key), b1, b2.
  refine (conj E1 (conj E2 (conj Hm1 (conj Hm2 (conj W1 (conj _ (conj W2 _))))))).
  - rewrite HD1. apply coded_valid; auto; lia.
  - rewrite HD2. by apply secured_valid.
Qed.

(** *** Loads outside the packet *)

Lemma LoadBE16_value data p v : bytes_ok data → LoadBE16 data p = Some v → is_u16 v.
Proof.
  unfold LoadBE16. intros Hd. destruct (_ && _); [|done]. intros [= <-].
  rewrite GetBE16_decode by done. byte_vars. unfold be_decode. cbn [rev app le_decode]. ulia.
Qed.
Lemma LoadBE16_inside data p : 0 ≤ p → p + 2 ≤ zlen data → LoadBE16 data p = Some (GetBE16 data p).
Proof. intros. unfold LoadBE16. bdestruct. done. Qed.

(** On an aligned packet the scan stays inside and ends; it reports an attribute
    whose 20 bytes are counted from the attribute's header. *)
Lemma scan_aligned data : bytes_ok data → zlen data mod 4 = 0 → ∀ fuel pos,
  20 ≤ pos → pos mod 4 = 0 → zlen data < pos + Z.of_nat fuel → (0 < fuel)%nat →
  match FindMessageIntegrity fuel data (zlen data) pos with
  | ScanFound mi => 20 ≤ mi ∧ mi mod 4 = 0 ∧ mi + 20 ≤ zlen data
  | ScanFalse => True
  | ScanOutside | ScanFuel => False
  end.
Proof.
  intros Hd Hmod. induction fuel as [|fuel IH]; intros pos H0 Hpos Hfuel Hf; [lia|]. cbn [FindMessageIntegrity].
  destruct (Z.ltb_spec pos (zlen data)); [|done]. cbn [negb].
  assert (pos + 4 ≤ zlen data) by ulia.
  pose proof (LoadBE16_inside data pos ltac:(lia) ltac:(lia)) as E1. rewrite E1.
  pose proof (LoadBE16_inside data (pos + 2) ltac:(lia) ltac:(lia)) as E2. rewrite E2.
  apply LoadBE16_value in E2 as Hl; [|done].
  destruct (Z.eqb_spec (GetBE16 data pos) STUN_ATTR_MESSAGE_INTEGRITY).
  - unfold kStunMessageIntegritySize. destruct (Z.eqb_spec (GetBE16 data (pos + 2)) 20) as [->|]; [|done].
    destruct (Z.ltb_spec (zlen data) (pos + 20)); [done|]. cbn [negb orb]. lia.
  - set (l := GetBE16 data (pos + 2)) in *.
    replace (if negb (l mod 4 =? 0) then _ else _) with (pos + 4 + padded l)
      by (rewrite <- padded_code by ulia; destruct (negb _); lia).
    pose proof (padded_mod l). pose proof (pad4_range l). unfold padded in *.
    apply IH; ulia.
Qed.

(** The packets on which the check of the HMAC reads outside. *)
Definition outside (data : list Z) : Prop :=
  data = [] ∨
  (zlen data mod 4 = 0 ∧ LoadBE16 data 2 = Some (zlen data - 20) ∧
   FindMessageIntegrity (S (length data)) data (zlen data) 20 = ScanFound (zlen data - 20)).
Lemma integrity_outside data password : bytes_ok data → bytes_ok password →
  ValidateMessageIntegrity data password = None ↔ outside data.
Proof.
  unfold outside. intros Hd Hpw. destruct (decide (data = [])) as [->|Hne]; [split; auto|].
  assert (Hlen : 0 < zlen data) by (destruct data; [done|rewrite zlen_cons; pose proof (zlen_nonneg data); lia]).
  unfold ValidateMessageIntegrity, kStunHeaderSize, kStunAttributeHeaderSize, kStunMessageIntegritySize.
  destruct (Z.eqb_spec (zlen data mod 4) 0) as [Hmod|Hmod]; [|split; [done|intros [?|(? & _)]; done]]. cbn [negb].
  pose proof (LoadBE16_inside data 2 ltac:(lia) ltac:(ulia)) as E. rewrite E. cbn [mbind option_bind].
  destruct (Z.eqb_spec (zlen data) (GetBE16 data 2 + 20)) as [Hsz|Hsz]; cbn [negb].
  2:{ split; [done|]. intros [?|(_ & Hl & _)]; [done|]. injection Hl as Hl. lia. }
  pose proof (scan_aligned data Hd Hmod (S (length data)) 20 ltac:(lia) eq_refl ltac:(unfold zlen; lia) ltac:(lia)) as Hs.
  destruct (FindMessageIntegrity (S (length data)) data (zlen data) 20) as [mi| | |]; [|split; [done|intros [?|(_ & _ & ?)]; done]|done|done].
  set (temp := if _ <? _ then _ else _).
  assert (Htemp : bytes_ok temp).
  { unfold temp. destruct (_ <? _); [|by apply bytes_ok_ztake].
    rewrite SetBE16_splice by (rewrite ?zlen_ztake; lia).
    apply bytes_ok_splice; [apply be_encode_ok|by apply bytes_ok_ztake]. }
  rewrite ComputeHmac_sha1 by (done || lia). cbn [negb Z.eqb Pos.eqb].
  destruct (Z.leb_spec (mi + 4 + 20) (zlen data)); (split; [|]).
  - done.
  - intros [?|(_ & _ & Hf)]; [done|]. injection Hf as Hf. lia.
  - intros _. right. split; [done|]. split; f_equal; ulia.
  - done.
Qed.

(** C34. Exactly when the check of the HMAC reads outside the packet it was given:
    for an empty packet, whose length field is loaded before its size is compared
    with the size of a header, and when the first MESSAGE-INTEGRITY attribute starts
    20 bytes before the end of the packet, so that its 20 bytes of value end 4 bytes
    after it. *)
Theorem ValidateMessageIntegrity_outside data password : bytes_ok data → bytes_ok password →
  ValidateMessageIntegrity data password = None ↔
  data = [] ∨
  (zlen data mod 4 = 0 ∧ LoadBE16 data 2 = Some (zlen data - 20) ∧
   FindMessageIntegrity (S (length data)) data (zlen data) 20 = ScanFound (zlen data - 20)).
Proof. apply integrity_outside. Qed.

(** The key of the long-term credentials is the MD5 digest of the user name,
    the realm and the password, joined by colons, the password taken as it is. *)
Theorem ComputeStunCredentialHash_md5 username realm password :
  bytes_ok username → bytes_ok realm → bytes_ok password →
  ComputeStunCredentialHash username realm password =
    Some (md5_spec (username ++ [58] ++ realm ++ [58] ++ password)).
Proof.
  intros Hu Hr Hp. unfold ComputeStunCredentialHash. set (input := _ ++ _).
  assert (Hin : bytes_ok input).
  { unfold input. rewrite !bytes_ok_app. assert (bytes_ok [58]) by small_bytes. tauto. }
  rewrite ComputeDigest_md5 by (done || lia). change (16 =? 0) with false. cbv iota.
  assert (Hl : zlen (md5_spec input) = 16) by apply (hash_length (hash := md5_spec)).
  unfold splice. rewrite (ztake_neg 0) by lia. rewrite app_nil_l. by rewrite ztake_app_exact by lia.
Qed.
End Integrity.

(** ** Samples *)

#[local] Existing Instance zero_platform.

Lemma AddFingerprint_valid_witness : ∃ m' b, AddFingerprint sample_msg = (true, m') ∧ msg_ok m' ∧
    Write m' (ByteBuffer_new ORDER_NETWORK) = (true, b) ∧ ValidateFingerprint (Data b) = true.
Proof. apply (AddFingerprint_valid sample_msg); [exact sample_msg_ok|reflexivity|reflexivity]. Defined.

Lemma sample_no_integrity : no_integrity sample_msg.
Proof. repeat constructor; discriminate. Qed.


Lemma AddMessageIntegrity_valid_witness :
  ∃ m1 m2 b1 b2, AddMessageIntegrity sample_msg [112; 119] = (true, m1) ∧ AddFingerprint m1 = (true, m2) ∧
    msg_ok m1 ∧ msg_ok m2 ∧
    Write m1 (ByteBuffer_new ORDER_NETWORK) = (true, b1) ∧ ValidateMessageIntegrity (Data b1) [112; 119] = Some true ∧
    Write m2 (ByteBuffer_new ORDER_NETWORK) = (true, b2) ∧ ValidateMessageIntegrity (Data b2) [112; 119] = Some true.
Proof.
  apply (AddMessageIntegrity_valid sample_msg [112; 119]);
    [exact sample_msg_ok|exact sample_no_integrity|small_bytes|reflexivity].
Defined.

(** A packet of 40 bytes whose only attribute is the header of MESSAGE-INTEGRITY
    and 16 bytes: the check loads the 4 bytes after the packet. *)
Definition short_integrity : list Z :=
  [0; 1; 0; 20] ++ cookie_bytes ++ sample_tid ++ [0; 8; 0; 20] ++ zrepeat 0 16.

Lemma ValidateMessageIntegrity_outside_witness :
  zlen short_integrity = 40 ∧ ValidateMessageIntegrity short_integrity [112; 119] = None.
Proof.
  split; [reflexivity|].
  apply (ValidateMessageIntegrity_outside short_integrity [112; 119]).
  - vm_compute. repeat constructor; congruence.
  - small_bytes.
  - right. split; [|split]; reflexivity.
Defined.

Lemma ComputeStunCredentialHash_md5_witness :
  ComputeStunCredentialHash [117] [114] [112] = Some (md5_spec [117; 58; 114; 58; 112]).
Proof. apply (ComputeStunCredentialHash_md5 [117] [114] [112]); small_bytes. Defined.
