(* ===== verification/StunTyped.v ===== *)
(** * The messages that are read

    What [Read] leaves in a message, for any bytes: a small Hoare logic for the reader,
    and the typing of the message it builds. *)

From S2P Require Import Prelude ByteOrder ByteBuffer IpAddress MessageDigest Stun StunWire StunIntegrity.

(** ** A logic for readers *)

(** From a state in [I], a run that does not fail ends with a result and a state in [P]. *)
Definition triple {S A} (I : S → Prop) (f : SM S A) (P : A → S → Prop) : Prop :=
  ∀ s, I s → match f s with (Some a, s') => P a s' | (None, _) => True end.

Section logic.
Context {S : Type}.
Implicit Types (I : S → Prop).

Lemma triple_ret {A} (a : A) I : triple I (mret a) (λ x s, x = a ∧ I s).
Proof. by intros s Hs. Qed.
Lemma triple_fail {A} I (P : A → S → Prop) : triple I sm_fail P.
Proof. by intros s Hs. Qed.
Lemma triple_bind {A B} I (Q : A → S → Prop) (P : B → S → Prop) (f : SM S A) (g : A → SM S B) :
  triple I f Q → (∀ a, triple (Q a) (g a) P) → triple I (f ≫= g) P.
Proof.
  intros Hf Hg s Hs. specialize (Hf s Hs). unfold mbind, SM_bind. destruct (f s) as [[a|] s']; [|done].
  by apply Hg.
Qed.
Lemma triple_get I : triple I sm_get (λ x s, x = s ∧ I s).
Proof. by intros s Hs. Qed.
Lemma triple_conseq {A} I I' (P P' : A → S → Prop) (f : SM S A) :
  triple I' f P' → (∀ s, I s → I' s) → (∀ a s, P' a s → P a s) → triple I f P.
Proof. intros Hf HI HP s Hs. specialize (Hf s (HI s Hs)). destruct (f s) as [[a|] s']; auto. Qed.
(** A fact that does not depend on the state. *)
Lemma triple_pure {A} (X : Prop) I (P : A → S → Prop) (f : SM S A) :
  (X → triple I f P) → triple (λ s, X ∧ I s) f P.
Proof. intros Hf s [HX Hs]. by apply Hf. Qed.
End logic.

(** ** Values *)

Section values.
Context `{Platform}.

(** A reader whose results satisfy [P]. *)
Definition gives {A} (P : A → Prop) (f : SM ByteBuffer A) : Prop := triple bb_ok f (λ a b, P a ∧ bb_ok b).

Lemma gives_ret {A} (P : A → Prop) a : P a → gives P (mret a).
Proof. by intros Ha b Hb. Qed.
Lemma gives_fail {A} (P : A → Prop) : gives P sm_fail.
Proof. apply triple_fail. Qed.
Lemma gives_bind {A B} (Q : A → Prop) (P : B → Prop) f g :
  gives Q f → (∀ a, Q a → gives P (g a)) → gives P (f ≫= g).
Proof. intros Hf Hg. eapply triple_bind; [exact Hf|]. intros a. apply triple_pure. exact (Hg a). Qed.
Lemma gives_bytes n : 0 ≤ n → gives (λ bs, zlen bs = n ∧ bytes_ok bs) (sm_try (λ b, ReadBytes b n)).
Proof.
  intros Hn b Hb. unfold sm_try. pose proof (ReadBytes_spec b n Hb Hn) as Hs.
  destruct (ReadBytes b n) as [[bs b']|] eqn:E; [|done]. destruct (ReadBytes_ok b n bs b' Hb Hn E). by destruct Hs as (_ & _ & _ & ? & _).
Qed.
Lemma gives_int n (f : ByteBuffer → option (Z * ByteBuffer)) :
  (∀ b, bb_ok b → f b = read_int n b) → gives (λ v, 0 ≤ v < 256 ^ Z.of_nat n) (sm_try f).
Proof.
  intros Hf b Hb. unfold sm_try. rewrite Hf by done. destruct (read_int n b) as [[v b']|] eqn:E; [|done].
  by destruct (read_int_inv n b v b' Hb E) as (? & _ & ? & _).
Qed.
Lemma gives_padding l : gives (λ _, True) (read_padding l).
Proof.
  intros b Hb. pose proof (forward_padding l b Hb) as (Hb' & _). unfold read_padding in *.
  rewrite sm_get_run in *. by cbn in *.
Qed.
Lemma gives_types n : ∀ acc, Forall is_u16 acc →
  gives (λ l, Forall is_u16 l ∧ zlen l = zlen acc + Z.of_nat n) (ReadTypes n acc).
Proof.
  induction n as [|n IH]; intros acc Hacc; cbn [ReadTypes]; [apply gives_ret; split; [done|lia]|].
  eapply gives_bind; [apply (gives_int 2 _ ReadUInt16_int)|]. intros v Hv.
  eapply triple_conseq; [apply (IH (acc ++ [v]))|done|].
  - apply Forall_app. split; [done|]. by apply Forall_cons_2, Forall_nil_2.
  - intros l b [[Hl En] Hb]. split; [|done]. split; [done|]. rewrite En, zlen_app. change (zlen [v]) with 1. lia.
Qed.

(** An address attribute gets an address of a family, and keeps its type and kind. *)
Definition address_read (a x : StunAttribute) : Prop :=
  ∃ addr, x = SetAddress a addr ∧ addr_ok addr ∧ EnsureAddressLength addr = attr_length a.
Lemma gives_address a : gives (address_read a) (ReadAddress a).
Proof.
  unfold ReadAddress. eapply gives_bind; [apply (gives_int 1 _ ReadUInt8_int)|intros _ _].
  eapply gives_bind; [apply (gives_int 1 _ ReadUInt8_int)|intros f _].
  eapply gives_bind; [apply (gives_int 2 _ ReadUInt16_int)|intros port Hp].
  destruct (f =? _); [|destruct (f =? _); [|apply gives_fail]].
  - destruct (Z.eqb_spec (attr_length a) SIZE_IP4) as [E|]; cbn [negb]; [|apply gives_fail].
    eapply gives_bind; [by apply gives_bytes|intros l [Hl Hok]]. apply gives_ret.
    destruct (ip_of_ok AF_INET l Hl Hok) as (Hip & _). eexists. split; [done|]. split; [|by rewrite E].
    split_and!; try done; by cbn; rewrite ?u16_id.
  - destruct (Z.eqb_spec (attr_length a) SIZE_IP6) as [E|]; cbn [negb]; [|apply gives_fail].
    eapply gives_bind; [by apply gives_bytes|intros l [Hl Hok]]. apply gives_ret.
    destruct (ip_of_ok AF_INET6 l Hl Hok) as (Hip & _). eexists. split; [done|]. split; [|by rewrite E].
    split_and!; try done; by cbn; rewrite ?u16_id.
Qed.

(** ** Attributes *)

(** An attribute of the kind that the class of the message gives its type, with values
    in their ranges.  An IPv6 address cannot be decoded with an id of the old format:
    then it is no address. *)
Definition attr_typed (c : MessageClass) (tid : list Z) (a : StunAttribute) : Prop :=
  GetAttributeValueType c (attr_type a) = value_type a ∧
  (attr_ok tid a ∨ zlen tid = 16 ∧ ∃ t port, a = XorAddressAttr t 0 (SocketAddress_of IPAddress_unspec port)).

Lemma xor_address_typed tid t l addr : is_u16 t → tid_ok tid → addr_ok addr → EnsureAddressLength addr = l →
  let addr' := SocketAddress_of (GetXoredIP (Some tid) (ip_ addr)) (u16 (Z.lxor (port_ addr) (Z.shiftr kStunMagicCookie 16))) in
  let a := XorAddressAttr t (EnsureAddressLength addr') addr' in
  attr_ok tid a ∨ zlen tid = 16 ∧ ∃ t port, a = XorAddressAttr t 0 (SocketAddress_of IPAddress_unspec port).
Proof.
  intros Ht [Hok Hid] (_ & Hip & _ & Hf) _ addr' a.
  assert ((family_ (ip_ addr) = AF_INET6 → zlen tid = 12) ∨ family_ (ip_ addr) = AF_INET6 ∧ zlen tid = 16) as [H6|[E6 H16]].
  { destruct (family_ (ip_ addr)), Hid as [?|[? _]]; auto; by left. }
  - left. destruct (GetXoredIP_involutive tid (ip_ addr) Hip Hok H6 Hf) as (Hx & Ef & _).
    assert (is_u16 (u16 (Z.lxor (port_ addr) (Z.shiftr kStunMagicCookie 16)))) as Hp by ulia.
    assert (family_ (ip_ addr') = family_ (ip_ addr)) as Ef' by exact Ef. assert (ip_ok (ip_ addr')) as Hx' by exact Hx.
    assert (addr_ok addr') as Ha'.
    { split; [unfold addr', SocketAddress_of, SocketAddress_SetPort; cbn [port_ ip_ SocketAddress_SetIP]; by rewrite !(u16_id _ Hp)|]. split; [done|].
      split; [change (is_u16 (u16 (u16 (Z.lxor (port_ addr) (Z.shiftr kStunMagicCookie 16))))); ulia|by rewrite Ef']. }
    unfold a, attr_ok. clearbody addr'. cbn [attr_type attr_length]. split_and!; try done; [..|by rewrite Ef'].
    unfold EnsureAddressLength, stun_family. by destruct (family_ (ip_ addr')).
  - right. split; [done|]. exists t, (u16 (Z.lxor (port_ addr) (Z.shiftr kStunMagicCookie 16))).
    unfold a, addr', GetXoredIP. rewrite E6, H16. done.
Qed.
Lemma gives_attr c t l a tid : is_u16 t → is_u16 l → tid_ok tid → CreateAttribute c t l = Some a →
  gives (attr_typed c tid) (ReadAttr (Some tid) a).
Proof.
  intros Ht Hl Htid. unfold CreateAttribute, attr_typed. rewrite u16_id by done.
  destruct (GetAttributeValueType c t) eqn:E; cbn [Create]; intros [= <-]; cbn [ReadAttr].
  - eapply triple_conseq; [apply gives_address|done|]. intros x b [(addr & -> & Ha & El) Hb]. split; [|done].
    split; [done|]. left. cbn in *. by rewrite El.
  - eapply gives_bind; [apply gives_address|]. intros x (addr & -> & Ha & El). apply gives_ret.
    split; [done|]. by apply (xor_address_typed tid t l).
  - eapply gives_bind; [apply (gives_int 4 _ ReadUInt32_int)|]. intros v Hv. apply gives_ret. split; [done|]. by left.
  - eapply gives_bind; [apply (gives_int 8 _ ReadUInt64_int)|]. intros v Hv. apply gives_ret. split; [done|]. by left.
  - eapply gives_bind; [apply gives_bytes; apply Hl|]. intros v [Hv Hok].
    eapply gives_bind; [apply gives_padding|intros _ _]. apply gives_ret. split; [done|]. by left.
  - unfold ReadErrorCode. destruct (Z.ltb_spec l ERROR_MIN_SIZE) as [|Hmin]; [apply gives_fail|]. unfold ERROR_MIN_SIZE in *.
    eapply gives_bind; [apply (gives_int 4 _ ReadUInt32_int)|intros v Hv].
    eapply gives_bind; [apply (gives_bytes (l - 4)); lia|intros r [Hr Hok]].
    eapply gives_bind; [apply gives_padding|intros _ _]. apply gives_ret. split; [done|]. left.
    change 7 with (Z.ones 3). change 255 with (Z.ones 8). rewrite !Z.land_ones by lia. cbn [app].
    split_and!; try done; cbn; ulia.
  - unfold ReadUInt16List. destruct (Z.eqb_spec (l mod 2) 0) as [E2|]; cbn [negb]; [|apply gives_fail].
    eapply gives_bind; [by apply gives_types|]. intros types [Hty En].
    eapply gives_bind; [apply gives_padding|intros _ _]. apply gives_ret. split; [done|]. left.
    split_and!; try done. change (zlen []) with 0 in En. unfold is_u16 in Hl. ulia.
Qed.

(** ** Messages *)

(** The message of a class that is read, from the transaction id on. *)
Definition reading (c : MessageClass) (s : StunMessage * ByteBuffer) : Prop :=
  m_class s.1 = c ∧ 0 ≤ m_type s.1 < 32768 ∧ tid_ok (m_transaction_id s.1) ∧
  Forall (attr_typed c (m_transaction_id s.1)) (m_attrs s.1) ∧ bb_ok s.2.

Lemma triple_on_buf {A} (I : StunMessage → Prop) (P : A → Prop) f : gives P f →
  triple (λ s, I s.1 ∧ bb_ok s.2) (on_buf f) (λ a s, P a ∧ I s.1 ∧ bb_ok s.2).
Proof.
  intros Hf [m b] [HI Hb]. unfold on_buf. cbn [fst snd] in *. specialize (Hf b Hb). destruct (f b) as [[a|] b']; [|done].
  destruct Hf. by split_and!.
Qed.
(** One attribute, skipped or read. *)
Lemma attribute_typed c m t l : is_u16 t → is_u16 l → (∀ b, bb_ok b → reading c (m, b)) →
  triple (λ s, m = s.1 ∧ bb_ok s.2)
    (match CreateAttribute (m_class m) t l with
     | None => on_buf (sm_try (λ buf, buf ← Consume buf (skip_length l); Some (tt, buf)))
     | Some attr => attr ← on_buf (ReadAttr (Some (m_transaction_id m)) attr);
                    on_msg (λ m, set_attrs (m_attrs m ++ [attr]) m)
     end) (λ _, reading c).
Proof.
  intros Ht Hl Hm. destruct (CreateAttribute (m_class m) t l) as [a|] eqn:E.
  - intros [m' b]; cbn [fst snd]; intros [<- Hb]. cbn [fst snd] in *. destruct (Hm b Hb) as (Hc & Htype & Htid & Hattrs & _). cbn [fst snd] in *.
    rewrite Hc in E. pose proof (gives_attr c t l a _ Ht Hl Htid E b Hb) as Hg. unfold mbind, SM_bind, on_buf. cbn [fst snd].
    destruct (ReadAttr _ a b) as [[x|] b']; [|done]. destruct Hg as [Hx Hb']. cbn.
    refine (conj Hc (conj Htype (conj Htid (conj _ Hb')))).
    cbn. apply Forall_app. split; [done|]. by apply Forall_cons_2, Forall_nil_2.
  - intros [m' b]; cbn [fst snd]; intros [<- Hb]. unfold on_buf, sm_try. cbn [fst snd] in *.
    pose proof (Consume_spec b (skip_length l) Hb (skip_length_nonneg l Hl)) as Hs.
    destruct (Consume b (skip_length l)) as [b'|]; cbn; [|done]. apply Hm. by destruct Hs as (_ & _ & ? & _).
Qed.
Lemma attributes_typed c fuel : ∀ rest, triple (reading c) (ReadAttributes fuel rest) (λ _, reading c).
Proof.
  induction fuel as [|fuel IH]; intros rest; cbn [ReadAttributes]; [by intros s Hs|].
  intros [m b] Hs. rewrite sm_get_run. cbn [fst snd]. destruct (negb _); [done|].
  pose proof Hs as (Hc & Htype & Htid & Hattrs & Hb). cbn [fst snd] in *.
  match goal with |- match ?f _ with _ => _ end => cut (triple (λ s, m = s.1 ∧ bb_ok s.2) f (λ _, reading c)) end.
  { intros Hf. by apply (Hf (m, b)). }
  eapply triple_bind; [exact (triple_on_buf (eq m) _ _ (gives_int 2 _ ReadUInt16_int))|intros t]. apply triple_pure. intros Ht.
  eapply triple_bind; [exact (triple_on_buf (eq m) _ _ (gives_int 2 _ ReadUInt16_int))|intros l]. apply triple_pure. intros Hl.
  eapply (triple_bind _ (λ _, reading c)); [|intros _; apply IH]. apply attribute_typed; [done|done|]. intros b' Hb'.
  exact (conj Hc (conj Htype (conj Htid (conj Hattrs Hb')))).
Qed.

Lemma header_tid c t : zlen c = 4 → bytes_ok c → zlen t = 12 → bytes_ok t →
  tid_ok (if negb (NetworkToHost32 (host_load c) =? kStunMagicCookie) then c ++ t else t).
Proof.
  intros Hc Hcok Ht Htok. rewrite cookie_test by done. case_bool_decide as E; cbn [negb]; split; auto.
  - by apply bytes_ok_app.
  - right. rewrite zlen_app, ztake_app_exact by done. split; [lia|done].
Qed.
Lemma type_range t : is_u16 t → Z.land t 32768 = 0 → t < 32768.
Proof.
  intros Ht E. destruct (Z.lt_ge_cases t 32768); [done|]. exfalso.
  assert (Z.testbit (Z.land t 32768) 15 = true) as Hb; [|by rewrite E in Hb].
  rewrite Z.land_spec. change (Z.testbit 32768 15) with true. rewrite andb_true_r.
  rewrite Z.testbit_true by lia. change (2 ^ 15) with 32768. ulia.
Qed.
Lemma read_typed m0 : triple (λ s, m0 = s.1 ∧ bb_ok s.2) Read (λ _, reading (m_class m0)).
Proof.
  unfold Read. eapply triple_bind; [exact (triple_on_buf (eq m0) _ _ (gives_int 2 _ ReadUInt16_int))|intros type]. apply triple_pure. intros Ht.
  eapply (triple_bind _ (λ _ s, set_type type m0 = s.1 ∧ bb_ok s.2)); [by intros [m b]; cbn [fst snd]; intros [<- Hb]|intros _].
  destruct (Z.eqb_spec (Z.land type 32768) 0) as [E|]; cbn [negb]; [|apply triple_fail]. pose proof (type_range type Ht E).
  eapply triple_bind; [exact (triple_on_buf (eq _) _ _ (gives_int 2 _ ReadUInt16_int))|intros len]. apply triple_pure. intros Hl.
  eapply (triple_bind _ (λ _ s, set_length len (set_type type m0) = s.1 ∧ bb_ok s.2)); [by intros [m b]; cbn [fst snd]; intros [<- Hb]|intros _].
  eapply triple_bind; [exact (triple_on_buf (eq _) _ _ (gives_bytes 4 ltac:(lia)))|intros c]. apply triple_pure. intros [Hc Hcok].
  eapply triple_bind; [exact (triple_on_buf (eq _) _ _ (gives_bytes 12 ltac:(lia)))|intros t]. apply triple_pure. intros [Htl Htok].
  pose proof (header_tid c t Hc Hcok Htl Htok) as Htid.
  set (tid := if negb _ then _ else _) in *.
  eapply (triple_bind _ (λ _ s, set_transaction_id tid (set_length len (set_type type m0)) = s.1 ∧ bb_ok s.2)); [by intros [m b]; cbn [fst snd]; intros [<- Hb]|intros _].
  eapply triple_bind; [apply triple_get|]. intros s.
  destruct (negb (len =? Length s.2)); [apply triple_fail|].
  eapply (triple_bind _ (λ _, reading (m_class m0))); [|intros _; apply attributes_typed].
  intros [m b]; cbn [fst snd]; intros (-> & <- & Hb). split_and!; try done; cbn; apply Ht || lia.
Qed.
End values.

(** The message that is read from a packet. *)
Lemma read_packet `{Platform} c data m b : bytes_ok data →
  Read (StunMessage_new c, ByteBuffer_of data ORDER_NETWORK) = (Some true, (m, b)) → reading c (m, b).
Proof.
  intros Hd E. destruct (ByteBuffer_of_spec data ORDER_NETWORK Hd) as (Hb & _).
  pose proof (read_typed (StunMessage_new c) (StunMessage_new c, ByteBuffer_of data ORDER_NETWORK) (conj eq_refl Hb)) as Ht.
  by rewrite E in Ht.
Qed.
(** The type of the message is the first word of the packet. *)
Definition keeps_type (t : Z) (s : StunMessage * ByteBuffer) : Prop := m_type s.1 = t.
Lemma keeps_buf {A} t (f : SM ByteBuffer A) : triple (keeps_type t) (on_buf f) (λ _, keeps_type t).
Proof. intros [m b] E. unfold on_buf. cbn. by destruct (f b) as [[a|] b']. Qed.
Lemma keeps_msg t f : (∀ m, m_type (f m) = m_type m) → triple (keeps_type t) (on_msg f) (λ _, keeps_type t).
Proof. intros Hf [m b] E. unfold on_msg, keeps_type in *. cbn in *. by rewrite Hf. Qed.
Lemma keeps_get t : triple (keeps_type t) sm_get (λ _, keeps_type t).
Proof. by intros s E. Qed.
Lemma attributes_keep `{Platform} t fuel : ∀ rest, triple (keeps_type t) (ReadAttributes fuel rest) (λ _, keeps_type t).
Proof.
  induction fuel as [|fuel IH]; intros rest; cbn [ReadAttributes]; [by intros s Hs|].
  eapply triple_bind; [apply keeps_get|intros s].
  destruct (negb _); [by intros s' Hs|].
  eapply triple_bind; [apply keeps_buf|intros ty]. eapply triple_bind; [apply keeps_buf|intros l].
  eapply (triple_bind _ (λ _, keeps_type t)); [|intros _; apply IH].
  destruct (CreateAttribute _ _ _); [|apply keeps_buf]. eapply triple_bind; [apply keeps_buf|intros a]. by apply keeps_msg.
Qed.
Lemma read_type `{Platform} c data m b : bytes_ok data →
  Read (StunMessage_new c, ByteBuffer_of data ORDER_NETWORK) = (Some true, (m, b)) → m_type m = GetBE16 data 0.
Proof.
  intros Hd E. destruct (ByteBuffer_of_spec data ORDER_NETWORK Hd) as (Hb & HD & Ho). set (t := GetBE16 data 0).
  assert (triple (λ s, s.2 = ByteBuffer_of data ORDER_NETWORK) Read (λ _, keeps_type t)) as Ht; [|by specialize (Ht (StunMessage_new c, ByteBuffer_of data ORDER_NETWORK) eq_refl); rewrite E in Ht].
  unfold Read. eapply (triple_bind _ (λ type _, type = t)); [|intros type].
  { intros [m1 b1]. cbn. intros ->. unfold on_buf, sm_try. cbn. rewrite ReadUInt16_int by done. destruct (read_int 2 _) as [[type b2]|] eqn:Er; [|done].
    destruct (read_int_inv 2 _ type b2 Hb Er) as (Hr & HD1 & _). rewrite HD, Ho in HD1. unfold t. rewrite HD1. symmetry. by apply (GetBE16_word []). }
  eapply (triple_bind _ (λ _, keeps_type t)); [by intros s ->|intros _]. destruct (negb _); [apply triple_fail|].
  eapply triple_bind; [apply keeps_buf|intros len]. eapply (triple_bind _ (λ _, keeps_type t)); [by apply keeps_msg|intros _].
  eapply triple_bind; [apply keeps_buf|intros co]. eapply triple_bind; [apply keeps_buf|intros ti].
  eapply (triple_bind _ (λ _, keeps_type t)); [by apply keeps_msg|intros _].
  eapply triple_bind; [apply keeps_get|intros s]. destruct (negb _); [apply triple_fail|].
  eapply (triple_bind _ (λ _, keeps_type t)); [by apply keeps_msg|intros _]. apply attributes_keep.
Qed.
Lemma get_typed c m b t a : reading c (m, b) → GetAttribute m t = Some a →
  attr_type a = t ∧ attr_typed c (m_transaction_id m) a.
Proof.
  intros (_ & _ & _ & Hattrs & _) E. apply find_some in E as [Hin Et]. apply Z.eqb_eq in Et.
  rewrite Forall_forall in Hattrs. split; [done|]. by apply Hattrs, list_elem_of_In.
Qed.

(** C20. Reading is type safe: from any bytes, a message that [Read] accepts has a type
    without the top bit, a transaction id of one of the two formats, and attributes of
    the kind that the message class gives their types, with lengths and values in their
    ranges; so an attribute that a getter finds has the class that the getter casts it
    to.  The only ill-formed value is an XOR IPv6 address under an id of the old format,
    which is read as no address. *)
Theorem Read_typed `{Platform} c data m b : bytes_ok data →
  Read (StunMessage_new c, ByteBuffer_of data ORDER_NETWORK) = (Some true, (m, b)) →
  m_class m = c ∧ 0 ≤ m_type m < 32768 ∧ tid_ok (m_transaction_id m) ∧
  Forall (attr_typed c (m_transaction_id m)) (m_attrs m) ∧
  ∀ t a, GetAttribute m t = Some a → value_type a = GetAttributeValueType c t.
Proof.
  intros Hd E. pose proof (read_packet c data m b Hd E) as Hr. pose proof Hr as (Hc & Ht & Htid & Ha & _).
  refine (conj Hc (conj Ht (conj Htid (conj Ha _)))). intros t a Eg.
  destruct (get_typed c m b t a Hr Eg) as [<- [Hv _]]. done.
Qed.

(** A request with an unknown attribute of 3 bytes, a user name and a priority whose
    length field is wrong. *)
Definition sample_packet : list Z :=
  [0; 1; 0; 24] ++ header_id sample_tid ++ [119; 119; 0; 3; 1; 2; 3; 0] ++
  be_encode 2 STUN_ATTR_USERNAME ++ be_encode 2 4 ++ [97; 98; 99; 100] ++
  be_encode 2 STUN_ATTR_PRIORITY ++ be_encode 2 7 ++ be_encode 4 99.
Lemma Read_typed_witness :
  let p := zero_platform in
  ∃ m b, Read (StunMessage_new CIce, ByteBuffer_of sample_packet ORDER_NETWORK) = (Some true, (m, b)) ∧
    m_attrs m = [ByteStringAttr STUN_ATTR_USERNAME 4 [97; 98; 99; 100]; UInt32Attr STUN_ATTR_PRIORITY 4 99] ∧
    tid_ok (m_transaction_id m) ∧ Forall (attr_typed CIce (m_transaction_id m)) (m_attrs m).
Proof.
  intros p. assert (bytes_ok sample_packet) as Hd by small_bytes.
  assert (let '(r, (m, _)) := Read (StunMessage_new CIce, ByteBuffer_of sample_packet ORDER_NETWORK) in (r, m_attrs m) =
    (Some true, [ByteStringAttr STUN_ATTR_USERNAME 4 [97; 98; 99; 100]; UInt32Attr STUN_ATTR_PRIORITY 4 99])) as Hr
    by (vm_compute; reflexivity).
  destruct (Read _) as [r [m b]] eqn:E. injection Hr as -> Ea. exists m, b. split; [done|]. split; [done|].
  destruct (Read_typed CIce sample_packet m b Hd E) as (_ & _ & ? & ? & _). by split.
Defined.
