(* ===== verification/StunBuild.v ===== *)
(** * Building messages

    Messages as the clients and servers of STUN build them, attribute by attribute, and
    what the other side reads: shared by the components on top of [Stun]. *)

From S2P Require Import Prelude ByteOrder ByteBuffer IpAddress MessageDigest Stun StunWire StunIntegrity.

Definition add (a : StunAttribute) (m : StunMessage) : StunMessage := (AddAttribute m a).2.

(** Building keeps the transaction id. *)
Lemma AddAttribute_id m a : m_transaction_id (AddAttribute m a).2 = m_transaction_id m.
Proof. unfold AddAttribute. by destruct (negb _). Qed.
Lemma SetType_id m t : m_transaction_id (SetType m t) = m_transaction_id m.
Proof. done. Qed.
Lemma add_id a m : m_transaction_id (add a m) = m_transaction_id m.
Proof. apply AddAttribute_id. Qed.
Lemma AddMessageIntegrity_id `{Platform} m k : m_transaction_id (AddMessageIntegrity m k).2 = m_transaction_id m.
Proof.
  unfold AddMessageIntegrity. destruct (AddAttribute m _) as [ok m'] eqn:E.
  assert (m_transaction_id m' = m_transaction_id m) as <-
    by (change m' with ((ok, m').2); rewrite <- E; apply AddAttribute_id).
  destruct (Write m' _) as [ok' b]. destruct ok'; cbn [negb]; [|done].
  destruct (ComputeHmac_named _ _ _ _ _) as [ret hmac]. by destruct (negb _).
Qed.
Lemma AddFingerprint_id `{Platform} m : m_transaction_id (AddFingerprint m).2 = m_transaction_id m.
Proof.
  unfold AddFingerprint. destruct (AddAttribute m _) as [ok m'] eqn:E.
  assert (m_transaction_id m' = m_transaction_id m) as <-
    by (change m' with ((ok, m').2); rewrite <- E; apply AddAttribute_id).
  by destruct (Write m' _) as [[|] b].
Qed.

(** The types in an enumeration, and in those that one message class uses, differ. *)
Lemma message_types_distinct : NoDup (StunMessageType ++ TurnMessageType).
Proof. apply (bool_decide_unpack _). by vm_compute. Qed.
Lemma attribute_types_distinct :
  NoDup (StunAttributeType ++ RelayAttributeType) ∧ NoDup (StunAttributeType ++ TurnAttributeType) ∧
  NoDup (StunAttributeType ++ IceAttributeType) ∧ NoDup StunAddressFamily.
Proof. split_and!; apply (bool_decide_unpack _); by vm_compute. Qed.
Lemma error_codes_distinct : NoDup (StunErrorCode ++ TurnErrorType ++ [STUN_ERROR_ROLE_CONFLICT]) ∧ NoDup stun_error_reasons.
Proof. split; apply (bool_decide_unpack _); by vm_compute. Qed.

Section building.
Context `{Platform}.

(** An attribute that fits a message of class [c] with transaction id [tid]. *)
Definition fits (c : MessageClass) (tid : list Z) (a : StunAttribute) : Prop :=
  attr_ok tid a ∧ GetAttributeValueType c (attr_type a) = value_type a.

(** The message of a class, a type and a transaction id, with attributes. *)
Definition built (c : MessageClass) (type : Z) (tid : list Z) (l : list StunAttribute) : StunMessage :=
  Stun.mkMessage c type (attrs_size l) tid l.
Definition id_ok (tid : list Z) : Prop := bytes_ok tid ∧ zlen tid = 12.
Lemma id_tid tid : id_ok tid → tid_ok tid.
Proof. intros [? ?]. split; auto. Qed.

Lemma built_tid_ok c type tid l : 0 ≤ type < 32768 → tid_ok tid → Forall (fits c tid) l → attrs_size l < 65536 →
  msg_ok (built c type tid l).
Proof.
  intros Ht [Hok Hlen] Hl Hs.
  refine (conj Ht (conj Hok (conj Hlen (conj _ (conj _ (conj eq_refl Hs))))));
    (eapply Forall_impl; [exact Hl|]; by intros a []).
Qed.
Lemma built_ok c type tid l : 0 ≤ type < 32768 → id_ok tid → Forall (fits c tid) l → attrs_size l < 65536 →
  msg_ok (built c type tid l).
Proof. intros. apply built_tid_ok; auto using id_tid. Qed.
Lemma fits_size c tid a : fits c tid a → 0 ≤ padded (attr_length a).
Proof. intros [(_ & Hu & _) _]. unfold padded. pose proof (pad4_range (attr_length a)). unfold is_u16 in *. lia. Qed.
Lemma attrs_size_nonneg c tid l : Forall (fits c tid) l → 0 ≤ attrs_size l.
Proof. induction 1 as [|a l Ha _ IH]; [done|]. pose proof (fits_size _ _ _ Ha). cbn. fold (attrs_size l). lia. Qed.
Lemma attrs_size_app l k : attrs_size (l ++ k) = attrs_size l + attrs_size k.
Proof. induction l as [|a l IH]; cbn; [done|]. fold (attrs_size (l ++ k)) (attrs_size l). lia. Qed.
Lemma add_built c type tid l a : Forall (fits c tid) l → fits c tid a →
  attrs_size (l ++ [a]) < 65536 → add a (built c type tid l) = built c type tid (l ++ [a]).
Proof.
  intros Hl Ha Hs. rewrite attrs_size_snoc in Hs. pose proof (attrs_size_nonneg _ _ _ Hl). unfold add.
  rewrite AddAttribute_value; [|apply Ha|apply Ha|done|cbn; lia].
  unfold snoc_msg, built. cbn. by rewrite attrs_size_snoc.
Qed.
Lemma add_all c type tid l pre : Forall (fits c tid) (pre ++ l) → attrs_size (pre ++ l) < 65536 →
  fold_left (λ m a, add a m) l (built c type tid pre) = built c type tid (pre ++ l).
Proof.
  revert pre. induction l as [|a l IH]; intros pre Hf Hs; cbn [fold_left]; [by rewrite app_nil_r|].
  rewrite (cons_middle a pre l), app_assoc in *. pose proof Hf as Hf'. apply Forall_app in Hf' as [Hpa Hl].
  apply Forall_app in Hpa as [Hp Ha]. apply Forall_cons in Ha as [Ha _].
  pose proof (attrs_size_nonneg _ _ _ Hl). rewrite add_built; auto. rewrite attrs_size_app in Hs. lia.
Qed.

(** A packet of a well-formed message is read as that message. *)
Lemma read_wire_packet m : msg_ok m →
  ∃ b, Read (StunMessage_new (m_class m), ByteBuffer_of (msg_wire m) ORDER_NETWORK) = (Some true, (m, b)) ∧ Length b = 0.
Proof.
  intros Hm. destruct (msg_ok_id m Hm) as [Hid _]. pose proof Hm as (_ & _ & _ & Ha & _).
  destruct (Write_new m Hid Ha) as (b & _ & (Hb & _ & HD)).
  destruct (ByteBuffer_of_spec (msg_wire m) ORDER_NETWORK) as (Hb1 & HD1 & Ho1); [rewrite <- HD; by apply Data_ok|].
  destruct (Read_wire m (StunMessage_new (m_class m)) (ByteBuffer_of (msg_wire m) ORDER_NETWORK) Hm eq_refl) as (b' & Erd & Hh);
    [by split_and!|]. exists b'. split; [done|]. by rewrite (holds_Length _ _ Hh).
Qed.
Lemma msg_wire_ok m : msg_ok m → bytes_ok (msg_wire m).
Proof.
  intros Hm. destruct (msg_ok_id m Hm) as [Hid _]. pose proof Hm as (_ & _ & _ & Ha & _).
  destruct (Write_new m Hid Ha) as (b & _ & (Hb & _ & HD)). rewrite <- HD. by apply Data_ok.
Qed.
End building.
