(* ===== verification/FifoBuffer.v ===== *)
(** * The circular buffer

    [FifoBuffer] of webrtc/base/stream.h and stream.cc, the buffer between the
    application and the pseudo-TCP protocol.  Bytes may be written ahead of the
    readable ones ([WriteOffset]) and made readable later ([ConsumeWriteBuffer]),
    which is how segments that arrive out of order are kept.  The theorems: the
    circular representation implements a window that never wraps, and pieces
    written in any order assemble to the stream.

    Sizes are of type size_t of 64 bits.  Each method runs under the lock of the
    object, so methods are the steps; events posted to the owner thread are
    recorded in [posted_]. *)

From S2P Require Import Prelude ByteOrder.

Inductive StreamState := SS_CLOSED | SS_OPENING | SS_OPEN.
Inductive StreamResult := SR_ERROR | SR_SUCCESS | SR_BLOCK | SR_EOS.
Inductive StreamEvent := SE_OPEN | SE_READ | SE_WRITE | SE_CLOSE.
#[export] Instance StreamState_eq_dec : EqDecision StreamState.
Proof. solve_decision. Defined.
#[export] Instance StreamResult_eq_dec : EqDecision StreamResult.
Proof. solve_decision. Defined.

Record FifoBuffer := mkFifo {
  state_ : StreamState;
  buffer_ : list Z;
  buffer_length_ : Z;
  data_length_ : Z;
  read_position_ : Z;
  posted_ : list StreamEvent      (* events posted to the owner, in order *)
}.

Definition FifoBuffer_new `{Platform} (size : Z) : FifoBuffer :=
  mkFifo SS_OPEN (fresh_block size) size 0 0 [].

Definition PostEvent (events : StreamEvent) (f : FifoBuffer) : FifoBuffer :=
  mkFifo (state_ f) (buffer_ f) (buffer_length_ f) (data_length_ f) (read_position_ f) (posted_ f ++ [events]).
Definition set_buffer (buffer : list Z) (f : FifoBuffer) : FifoBuffer :=
  mkFifo (state_ f) buffer (buffer_length_ f) (data_length_ f) (read_position_ f) (posted_ f).
Definition set_data_length (data_length : Z) (f : FifoBuffer) : FifoBuffer :=
  mkFifo (state_ f) (buffer_ f) (buffer_length_ f) data_length (read_position_ f) (posted_ f).
Definition set_read_position (read_position : Z) (f : FifoBuffer) : FifoBuffer :=
  mkFifo (state_ f) (buffer_ f) (buffer_length_ f) (data_length_ f) read_position (posted_ f).

Definition GetBuffered (f : FifoBuffer) : Z := data_length_ f.

Definition SetCapacity `{Platform} (f : FifoBuffer) (size : Z) : bool * FifoBuffer :=
  if size <? data_length_ f then (false, f)
  else if negb (size =? buffer_length_ f) then
    let copy := data_length_ f in
    let tail_copy := Z.min copy (u64 (buffer_length_ f - read_position_ f)) in
    let buffer := splice 0 (ztake tail_copy (zdrop (read_position_ f) (buffer_ f))) (fresh_block size) in
    let buffer := splice tail_copy (ztake (copy - tail_copy) (buffer_ f)) buffer in
    (true, mkFifo (state_ f) buffer size (data_length_ f) 0 (posted_ f))
  else (true, f).

(** The bytes copied to the caller's buffer; their number is [*bytes_read]. *)
Definition ReadOffsetLocked (f : FifoBuffer) (bytes offset : Z) : StreamResult * list Z :=
  if data_length_ f <=? offset then (if bool_decide (state_ f = SS_CLOSED) then SR_EOS else SR_BLOCK, [])
  else
    let available := data_length_ f - offset in
    let read_position := u64 (read_position_ f + offset) mod buffer_length_ f in
    let copy := Z.min bytes available in
    let tail_copy := Z.min copy (buffer_length_ f - read_position) in
    (SR_SUCCESS, ztake tail_copy (zdrop read_position (buffer_ f)) ++ ztake (copy - tail_copy) (buffer_ f)).

(** [buffer] is the caller's block of [bytes] bytes; the number is [*bytes_written]. *)
Definition WriteOffsetLocked (f : FifoBuffer) (buffer : list Z) (offset : Z) : StreamResult * Z * FifoBuffer :=
  let bytes := zlen buffer in
  if bool_decide (state_ f = SS_CLOSED) then (SR_EOS, 0, f)
  else if buffer_length_ f <=? u64 (data_length_ f + offset) then (SR_BLOCK, 0, f)
  else
    let available := u64 (buffer_length_ f - data_length_ f - offset) in
    let write_position := u64 (read_position_ f + data_length_ f + offset) mod buffer_length_ f in
    let copy := Z.min bytes available in
    let tail_copy := Z.min copy (buffer_length_ f - write_position) in
    let b := splice write_position (ztake tail_copy buffer) (buffer_ f) in
    let b := splice 0 (ztake (copy - tail_copy) (zdrop tail_copy buffer)) b in
    (SR_SUCCESS, copy, set_buffer b f).

Definition ReadOffset (f : FifoBuffer) (bytes offset : Z) : StreamResult * list Z := ReadOffsetLocked f bytes offset.
Definition WriteOffset (f : FifoBuffer) (buffer : list Z) (offset : Z) : StreamResult * Z * FifoBuffer :=
  WriteOffsetLocked f buffer offset.
Definition GetState (f : FifoBuffer) : StreamState := state_ f.

Definition Fifo_Read (f : FifoBuffer) (bytes : Z) : StreamResult * list Z * FifoBuffer :=
  let was_writable := data_length_ f <? buffer_length_ f in
  let '(result, data) := ReadOffsetLocked f bytes 0 in
  let copy := zlen data in
  if bool_decide (result = SR_SUCCESS) then
    let f := set_read_position (u64 (read_position_ f + copy) mod buffer_length_ f) f in
    let f := set_data_length (u64 (data_length_ f - copy)) f in
    (result, data, if negb was_writable && (0 <? copy) then PostEvent SE_WRITE f else f)
  else (result, data, f).

Definition Fifo_Write (f : FifoBuffer) (buffer : list Z) : StreamResult * Z * FifoBuffer :=
  let was_readable := 0 <? data_length_ f in
  let '(result, copy, f) := WriteOffsetLocked f buffer 0 in
  if bool_decide (result = SR_SUCCESS) then
    let f := set_data_length (u64 (data_length_ f + copy)) f in
    (result, copy, if negb was_readable && (0 <? copy) then PostEvent SE_READ f else f)
  else (result, copy, f).

Definition Fifo_Close (f : FifoBuffer) : FifoBuffer :=
  mkFifo SS_CLOSED (buffer_ f) (buffer_length_ f) (data_length_ f) (read_position_ f) (posted_ f).

(** The position of the pointer in the buffer and the size. *)
Definition GetReadData (f : FifoBuffer) : Z * Z :=
  (read_position_ f,
   if u64 (read_position_ f + data_length_ f) <=? buffer_length_ f
   then data_length_ f else u64 (buffer_length_ f - read_position_ f)).

Definition ConsumeReadData (f : FifoBuffer) (size : Z) : FifoBuffer :=
  let was_writable := data_length_ f <? buffer_length_ f in
  let f := set_read_position (u64 (read_position_ f + size) mod buffer_length_ f) f in
  let f := set_data_length (u64 (data_length_ f - size)) f in
  if negb was_writable && (0 <? size) then PostEvent SE_WRITE f else f.

(** [None] for a null pointer. *)
Definition GetWriteBuffer (f : FifoBuffer) : option (Z * Z) * FifoBuffer :=
  if bool_decide (state_ f = SS_CLOSED) then (None, f)
  else
    let f := if data_length_ f =? 0 then set_read_position 0 f else f in
    let write_position := u64 (read_position_ f + data_length_ f) mod buffer_length_ f in
    let size := if (read_position_ f <? write_position) || (data_length_ f =? 0)
                then buffer_length_ f - write_position else read_position_ f - write_position in
    (Some (write_position, size), f).

Definition ConsumeWriteBuffer (f : FifoBuffer) (size : Z) : FifoBuffer :=
  let was_readable := 0 <? data_length_ f in
  let f := set_data_length (u64 (data_length_ f + size)) f in
  if negb was_readable && (0 <? size) then PostEvent SE_READ f else f.

Definition GetWriteRemaining (f : FifoBuffer) : Z := u64 (buffer_length_ f - data_length_ f).

(** ** The window *)

Definition fifo_ok (f : FifoBuffer) : Prop :=
  zlen (buffer_ f) = buffer_length_ f ∧ 0 < buffer_length_ f < 2 ^ 62 ∧
  0 ≤ read_position_ f < buffer_length_ f ∧ 0 ≤ data_length_ f ≤ buffer_length_ f.

(** The buffer from the read position on, once around. *)
Definition rotate (n : Z) (l : list Z) : list Z := zdrop n l ++ ztake n l.
Definition view (f : FifoBuffer) : list Z := rotate (read_position_ f) (buffer_ f).
(** The readable bytes. *)
Definition fifo_data (f : FifoBuffer) : list Z := ztake (data_length_ f) (view f).

Lemma wrap_mod a L : 0 < L → 0 ≤ a < 2 * L → a mod L = if a <? L then a else a - L.
Proof.
  intros HL Ha. destruct (Z.ltb_spec a L); [apply Z.mod_small; lia|].
  symmetry. apply Z.mod_unique_pos with 1; lia.
Qed.

Lemma zlen_rotate n l : zlen (rotate n l) = zlen l.
Proof. unfold rotate. rewrite zlen_app, zlen_ztake, zlen_zdrop. lia. Qed.

Lemma zget_rotate i n l : 0 ≤ n ≤ zlen l → 0 ≤ i < zlen l →
  zget i (rotate n l) = zget (if n + i <? zlen l then n + i else n + i - zlen l) l.
Proof.
  intros Hn Hi. unfold rotate. rewrite zget_app, zlen_zdrop by lia.
  destruct (Z.ltb_spec (n + i) (zlen l)), (Z.ltb_spec i (zlen l - Z.max 0 (Z.min n (zlen l)))); try lia.
  - by rewrite zget_zdrop by lia.
  - rewrite zget_ztake by lia. f_equal. lia.
Qed.

Ltac by_index :=
  apply zget_ext; [repeat rewrite ?zlen_rotate, ?zlen_app, ?zlen_ztake, ?zlen_zdrop, ?zlen_splice; try lia|].

Lemma rotate_rotate n m l : 0 ≤ n < zlen l → 0 ≤ m ≤ zlen l →
  rotate m (rotate n l) = rotate ((n + m) mod zlen l) l.
Proof.
  intros Hn Hm. by_index. rewrite !zlen_rotate. intros i Hi.
  rewrite wrap_mod by lia.
  rewrite zget_rotate by (rewrite ?zlen_rotate; lia). rewrite zlen_rotate.
  destruct (Z.ltb_spec (m + i) (zlen l)), (Z.ltb_spec (n + m) (zlen l));
    rewrite !zget_rotate by lia; f_equal;
    repeat match goal with |- context [?a <? ?b] => destruct (Z.ltb_spec a b); try lia end.
Qed.

(** Reading [n] bytes around the end of the buffer. *)
Lemma ring_read rp off n l : 0 ≤ rp < zlen l → 0 ≤ off < zlen l → 0 ≤ n → off + n ≤ zlen l →
  let p := (rp + off) mod zlen l in
  let t := Z.min n (zlen l - p) in
  ztake t (zdrop p l) ++ ztake (n - t) l = ztake n (zdrop off (rotate rp l)).
Proof.
  intros Hrp Hoff Hn Hfit. cbv zeta. rewrite wrap_mod by lia.
  set (p := if _ <? _ then _ else _). assert (0 ≤ p < zlen l) by (unfold p; destruct (Z.ltb_spec (rp + off) (zlen l)); lia).
  by_index. intros i Hi. rewrite zlen_app, !zlen_ztake, zlen_zdrop in Hi.
  rewrite zget_app, zlen_ztake, zlen_zdrop by lia.
  rewrite (zget_ztake i n), zget_zdrop, zget_rotate by lia.
  destruct (Z.ltb_spec i (Z.max 0 (Z.min (Z.min n (zlen l - p)) (zlen l - Z.max 0 (Z.min p (zlen l)))))).
  - rewrite zget_ztake, zget_zdrop by lia. f_equal. unfold p in *.
    repeat match goal with |- context [?a <? ?b] => destruct (Z.ltb_spec a b); try lia end.
  - rewrite zget_ztake by lia. f_equal. unfold p in *.
    repeat match goal with H : context [?a <? ?b] |- _ => destruct (Z.ltb_spec a b); try lia 
    | |- context [?a <? ?b] => destruct (Z.ltb_spec a b); try lia end.
Qed.

(** Writing [src] around the end of the buffer. *)
Lemma ring_write rp off src l : 0 ≤ rp < zlen l → 0 ≤ off < zlen l → off + zlen src ≤ zlen l →
  let p := (rp + off) mod zlen l in
  let t := Z.min (zlen src) (zlen l - p) in
  rotate rp (splice 0 (zdrop t src) (splice p (ztake t src) l)) = splice off src (rotate rp l).
Proof.
  intros Hrp Hoff Hfit. cbv zeta. rewrite wrap_mod by lia. pose proof (zlen_nonneg src).
  set (p := if _ <? _ then _ else _). assert (0 ≤ p < zlen l) by (unfold p; destruct (Z.ltb_spec (rp + off) (zlen l)); lia).
  set (t := Z.min (zlen src) (zlen l - p)). assert (Ht : t = Z.min (zlen src) (zlen l - p)) by done. clearbody t.
  assert (H1 : zlen (ztake t src) = t) by (rewrite zlen_ztake; lia).
  assert (H2 : zlen (zdrop t src) = zlen src - t) by (rewrite zlen_zdrop; lia).
  assert (H3 : zlen (splice p (ztake t src) l) = zlen l) by (rewrite zlen_splice; lia).
  assert (H4 : zlen (splice 0 (zdrop t src) (splice p (ztake t src) l)) = zlen l) by (rewrite zlen_splice; lia).
  apply zget_ext; [rewrite zlen_splice; rewrite ?zlen_rotate; lia|].
  intros i Hi. rewrite zlen_rotate, H4 in Hi. rewrite zget_rotate, H4 by lia.
  rewrite (zget_splice i off) by (rewrite ?zlen_rotate; lia).
  rewrite zget_rotate by lia.
  set (j := if rp + i <? zlen l then _ else _). assert (0 ≤ j < zlen l) by (unfold j; destruct (Z.ltb_spec (rp + i) (zlen l)); lia).
  rewrite zget_splice, H2 by lia. rewrite zget_splice, H1 by lia.
  assert (Hj : j = rp + i ∨ j = rp + i - zlen l) by (unfold j; destruct (Z.ltb_spec (rp + i) (zlen l)); lia).
  assert (Hp : p = rp + off ∨ p = rp + off - zlen l) by (unfold p; destruct (Z.ltb_spec (rp + off) (zlen l)); lia).
  destruct (Z.leb_spec off i), (Z.ltb_spec i (off + zlen src)), (Z.leb_spec 0 j), (Z.ltb_spec j (0 + (zlen src - t))),
    (Z.leb_spec p j), (Z.ltb_spec j (p + t)); cbn [andb]; try lia; try done.
  all: try (rewrite zget_zdrop by lia; f_equal; lia); try (rewrite zget_ztake by lia; f_equal; lia).
Qed.

(** The abstract buffer: a window of bytes of which the first [w_len] are readable
    and the others are room, and where nothing wraps. *)
Record Window := mkWindow {
  w_state : StreamState;
  w_bytes : list Z;
  w_len : Z;
  w_posted : list StreamEvent
}.

Definition window_of (f : FifoBuffer) : Window := mkWindow (state_ f) (view f) (data_length_ f) (posted_ f).

Inductive fifo_op :=
  | OpRead (bytes : Z) | OpWrite (buffer : list Z)
  | OpReadOffset (bytes offset : Z) | OpWriteOffset (buffer : list Z) (offset : Z)
  | OpConsumeReadData (size : Z) | OpConsumeWriteBuffer (size : Z)
  | OpSetCapacity (size : Z) | OpClose.
Inductive fifo_out :=
  | OutRead (result : StreamResult) (data : list Z)
  | OutWrite (result : StreamResult) (written : Z)
  | OutBool (b : bool) | OutUnit.

Section Window.
Context `{Platform}.

Definition fifo_step (f : FifoBuffer) (op : fifo_op) : fifo_out * FifoBuffer :=
  match op with
  | OpRead bytes => let '(r, data, f) := Fifo_Read f bytes in (OutRead r data, f)
  | OpWrite buffer => let '(r, n, f) := Fifo_Write f buffer in (OutWrite r n, f)
  | OpReadOffset bytes offset => let '(r, data) := ReadOffset f bytes offset in (OutRead r data, f)
  | OpWriteOffset buffer offset => let '(r, n, f) := WriteOffset f buffer offset in (OutWrite r n, f)
  | OpConsumeReadData size => (OutUnit, ConsumeReadData f size)
  | OpConsumeWriteBuffer size => (OutUnit, ConsumeWriteBuffer f size)
  | OpSetCapacity size => let '(b, f) := SetCapacity f size in (OutBool b, f)
  | OpClose => (OutUnit, Fifo_Close f)
  end.

Definition w_read (w : Window) (bytes offset : Z) : StreamResult * list Z :=
  if w_len w <=? offset then (if bool_decide (w_state w = SS_CLOSED) then SR_EOS else SR_BLOCK, [])
  else (SR_SUCCESS, ztake bytes (zdrop offset (ztake (w_len w) (w_bytes w)))).

Definition w_write (w : Window) (buffer : list Z) (offset : Z) : StreamResult * Z * Window :=
  let room := zlen (w_bytes w) - w_len w - offset in
  if bool_decide (w_state w = SS_CLOSED) then (SR_EOS, 0, w)
  else if room <=? 0 then (SR_BLOCK, 0, w)
  else
    let n := Z.min (zlen buffer) room in
    (SR_SUCCESS, n, mkWindow (w_state w) (splice (w_len w + offset) (ztake n buffer) (w_bytes w)) (w_len w) (w_posted w)).

(** The first [n] bytes leave the window and make room at its end. *)
Definition w_consume (w : Window) (n : Z) : Window :=
  mkWindow (w_state w) (rotate n (w_bytes w)) (w_len w - n)
    (if (w_len w =? zlen (w_bytes w)) && (0 <? n) then w_posted w ++ [SE_WRITE] else w_posted w).
Definition w_commit (w : Window) (n : Z) : Window :=
  mkWindow (w_state w) (w_bytes w) (w_len w + n)
    (if (w_len w =? 0) && (0 <? n) then w_posted w ++ [SE_READ] else w_posted w).

Definition w_step (w : Window) (op : fifo_op) : fifo_out * Window :=
  match op with
  | OpRead bytes =>
      let '(r, data) := w_read w bytes 0 in
      (OutRead r data, if bool_decide (r = SR_SUCCESS) then w_consume w (zlen data) else w)
  | OpWrite buffer =>
      let '(r, n, w) := w_write w buffer 0 in
      (OutWrite r n, if bool_decide (r = SR_SUCCESS) then w_commit w n else w)
  | OpReadOffset bytes offset => let '(r, data) := w_read w bytes offset in (OutRead r data, w)
  | OpWriteOffset buffer offset => let '(r, n, w) := w_write w buffer offset in (OutWrite r n, w)
  | OpConsumeReadData size => (OutUnit, w_consume w size)
  | OpConsumeWriteBuffer size => (OutUnit, w_commit w size)
  | OpSetCapacity size =>
      if size <? w_len w then (OutBool false, w)
      else (OutBool true,
            if size =? zlen (w_bytes w) then w
            else mkWindow (w_state w) (splice 0 (ztake (w_len w) (w_bytes w)) (fresh_block size)) (w_len w) (w_posted w))
  | OpClose => (OutUnit, mkWindow SS_CLOSED (w_bytes w) (w_len w) (w_posted w))
  end.

(** Arguments the callers may pass: sizes of memory, and the asserted bounds of
    the two consuming operations. *)
Definition op_ok (w : Window) (op : fifo_op) : Prop :=
  match op with
  | OpRead bytes => 0 ≤ bytes
  | OpWrite buffer => True
  | OpReadOffset bytes offset => 0 ≤ bytes ∧ 0 ≤ offset
  | OpWriteOffset buffer offset => 0 ≤ offset < 2 ^ 62
  | OpConsumeReadData size => 0 ≤ size ≤ w_len w
  | OpConsumeWriteBuffer size => 0 ≤ size ≤ zlen (w_bytes w) - w_len w
  | OpSetCapacity size => 0 < size < 2 ^ 62
  | OpClose => True
  end.

Fixpoint fifo_run (f : FifoBuffer) (ops : list fifo_op) : list fifo_out * FifoBuffer :=
  match ops with
  | [] => ([], f)
  | op :: ops => let '(out, f) := fifo_step f op in let '(outs, f) := fifo_run f ops in (out :: outs, f)
  end.
Fixpoint w_run (w : Window) (ops : list fifo_op) : list fifo_out * Window :=
  match ops with
  | [] => ([], w)
  | op :: ops => let '(out, w) := w_step w op in let '(outs, w) := w_run w ops in (out :: outs, w)
  end.
Fixpoint ops_ok (w : Window) (ops : list fifo_op) : Prop :=
  match ops with
  | [] => True
  | op :: ops => op_ok w op ∧ ops_ok (w_step w op).2 ops
  end.

(** *** Simulation *)

Lemma zlen_view f : fifo_ok f → zlen (view f) = buffer_length_ f.
Proof. intros (Hl & _). unfold view. by rewrite zlen_rotate. Qed.

Lemma small_u64 z : 0 ≤ z < 2 ^ 64 → u64 z = z.
Proof. intros. apply u64_id. done. Qed.

Lemma read_window f bytes offset : fifo_ok f → 0 ≤ bytes → 0 ≤ offset →
  ReadOffsetLocked f bytes offset = w_read (window_of f) bytes offset.
Proof.
  intros (Hl & HL & Hrp & Hdl) Hb Ho. unfold ReadOffsetLocked, w_read. cbn [window_of w_len w_state w_bytes].
  destruct (Z.leb_spec (data_length_ f) offset); [done|]. f_equal.
  rewrite small_u64, <- Hl by lia. set (n := Z.min bytes (data_length_ f - offset)).
  rewrite (ring_read (read_position_ f) offset n) by lia. unfold n, view.
  by rewrite zdrop_ztake, ztake_ztake by lia.
Qed.

Lemma write_window f buffer offset : fifo_ok f → 0 ≤ offset < 2 ^ 62 →
  let '(r, n, f') := WriteOffsetLocked f buffer offset in
  fifo_ok f' ∧ state_ f' = state_ f ∧ data_length_ f' = data_length_ f ∧ (r ≠ SR_SUCCESS → f' = f) ∧
  (r = SR_SUCCESS → 0 ≤ n ≤ buffer_length_ f' - data_length_ f') ∧
  w_write (window_of f) buffer offset = (r, n, window_of f').
Proof.
  intros Hok Ho. pose proof (zlen_view f Hok) as Hv. pose proof Hok as (Hl & HL & Hrp & Hdl).
  pose proof (zlen_nonneg buffer).
  unfold WriteOffsetLocked, w_write. cbn [window_of w_len w_state w_bytes]. rewrite Hv.
  case_bool_decide as Es; [done|]. rewrite small_u64 by lia.
  destruct (Z.leb_spec (buffer_length_ f) (data_length_ f + offset)),
    (Z.leb_spec (buffer_length_ f - data_length_ f - offset) 0); try lia; [done|].
  rewrite !small_u64 by lia. set (n := Z.min (zlen buffer) (buffer_length_ f - data_length_ f - offset)).
  assert (Hn : zlen (ztake n buffer) = n) by (rewrite zlen_ztake; lia).
  pose proof (ring_write (read_position_ f) (data_length_ f + offset) (ztake n buffer) (buffer_ f)
    ltac:(lia) ltac:(lia) ltac:(lia)) as Hring. cbv zeta in Hring. rewrite Hn, Hl, Z.add_assoc in Hring.
  set (p := (read_position_ f + data_length_ f + offset) mod buffer_length_ f) in *.
  assert (Hp : 0 ≤ p < buffer_length_ f) by (apply Z.mod_pos_bound; lia).
  set (t := Z.min n (buffer_length_ f - p)) in *.
  rewrite ztake_ztake, zdrop_ztake in Hring by lia. replace (Z.min t n) with t in Hring by lia.
  set (b := splice 0 _ _).
  assert (Ht1 : zlen (ztake t buffer) = t) by (rewrite zlen_ztake; lia).
  assert (Ht2 : zlen (ztake (n - t) (zdrop t buffer)) = n - t) by (rewrite zlen_ztake, zlen_zdrop; lia).
  assert (Hb1 : zlen (splice p (ztake t buffer) (buffer_ f)) = buffer_length_ f) by (rewrite zlen_splice; lia).
  assert (Hb : zlen b = buffer_length_ f) by (unfold b; rewrite zlen_splice; lia).
  split; [unfold fifo_ok; cbn; lia|]. do 3 (split; [done|]). split; [cbn; lia|].
  fold b in Hring. unfold window_of, view. cbn [set_buffer state_ buffer_ data_length_ read_position_ posted_].
  by rewrite Hring.
Qed.

Lemma consume_window f n : fifo_ok f → 0 ≤ n ≤ data_length_ f →
  fifo_ok (ConsumeReadData f n) ∧ window_of (ConsumeReadData f n) = w_consume (window_of f) n.
Proof.
  intros Hok Hn. pose proof (zlen_view f Hok) as Hv. pose proof Hok as (Hl & HL & Hrp & Hdl).
  unfold ConsumeReadData, w_consume.
  cbn [window_of w_len w_state w_bytes w_posted set_read_position data_length_ buffer_length_]. rewrite Hv, !small_u64 by lia.
  pose proof (Z.mod_pos_bound (read_position_ f + n) (buffer_length_ f) ltac:(lia)).
  pose proof (rotate_rotate (read_position_ f) n (buffer_ f) ltac:(lia) ltac:(lia)) as Hrot. rewrite Hl in Hrot.
  destruct (Z.ltb_spec (data_length_ f) (buffer_length_ f)), (Z.eqb_spec (data_length_ f) (buffer_length_ f)),
    (Z.ltb_spec 0 n); cbn [negb andb]; try lia;
    (split; [unfold fifo_ok; cbn; lia|unfold window_of, view; cbn; by rewrite Hrot]).
Qed.

Lemma commit_window f n : fifo_ok f → 0 ≤ n ≤ buffer_length_ f - data_length_ f →
  fifo_ok (ConsumeWriteBuffer f n) ∧ window_of (ConsumeWriteBuffer f n) = w_commit (window_of f) n.
Proof.
  intros (Hl & HL & Hrp & Hdl) Hn. unfold ConsumeWriteBuffer, w_commit.
  cbn [window_of w_len w_state w_bytes w_posted data_length_]. rewrite !small_u64 by lia.
  destruct (Z.ltb_spec 0 (data_length_ f)), (Z.eqb_spec (data_length_ f) 0),
    (Z.ltb_spec 0 n); cbn [negb andb]; try lia; (split; [unfold fifo_ok; cbn; lia|done]).
Qed.

Lemma capacity_window f size : fifo_ok f → 0 < size < 2 ^ 62 →
  let '(b, f') := SetCapacity f size in
  fifo_ok f' ∧ w_step (window_of f) (OpSetCapacity size) = (OutBool b, window_of f').
Proof.
  intros Hok Hs. pose proof (zlen_view f Hok) as Hv. pose proof Hok as (Hl & HL & Hrp & Hdl).
  unfold SetCapacity. cbn [w_step window_of w_len w_state w_bytes w_posted]. rewrite Hv.
  destruct (Z.ltb_spec size (data_length_ f)); [done|].
  destruct (Z.eqb_spec size (buffer_length_ f)); cbn [negb]; [done|].
  pose proof (zlen_fresh size) as Hfr. rewrite small_u64 by lia.
  pose proof (ring_read (read_position_ f) 0 (data_length_ f) (buffer_ f) ltac:(lia) ltac:(lia) ltac:(lia) ltac:(lia)) as Hr.
  cbv zeta in Hr. rewrite Z.add_0_r, Hl, Z.mod_small, (zdrop_neg 0) in Hr by lia.
  set (t := Z.min (data_length_ f) (buffer_length_ f - read_position_ f)) in *.
  set (a := ztake t (zdrop (read_position_ f) (buffer_ f))) in *.
  assert (Ha : zlen a = t) by (unfold a; rewrite zlen_ztake, zlen_zdrop; lia).
  assert (Hb : zlen (ztake (data_length_ f - t) (buffer_ f)) = data_length_ f - t) by (rewrite zlen_ztake; lia).
  replace (splice t _ (splice 0 a (fresh_block size))) with (splice 0 (ztake (data_length_ f) (view f)) (fresh_block size)).
  2:{ unfold view. rewrite <- Hr. rewrite <- (splice_adjacent 0 a) by lia. by rewrite Z.add_0_l, Ha. }
  set (l := splice 0 _ _). assert (Hll : zlen l = size) by (unfold l; rewrite zlen_splice; rewrite ?zlen_ztake; lia).
  split; [unfold fifo_ok; cbn; lia|]. unfold window_of, view, rotate. cbn [read_position_ buffer_ state_ data_length_ posted_].
  by rewrite zdrop_neg, ztake_neg, app_nil_r by lia.
Qed.

Lemma step_window f op : fifo_ok f → op_ok (window_of f) op →
  let '(out, f') := fifo_step f op in fifo_ok f' ∧ w_step (window_of f) op = (out, window_of f').
Proof.
  intros Hok Hop. pose proof (zlen_view f Hok) as Hv. pose proof Hok as (_ & _ & _ & Hdl).
  destruct op as [bytes|buffer|bytes offset|buffer offset|size|size|size|]; cbn [op_ok fifo_step w_step] in *.
  - unfold Fifo_Read. rewrite read_window by (done || lia).
    destruct (w_read (window_of f) bytes 0) as [r data] eqn:E. case_bool_decide as Hr; [|done]. subst r.
    assert (Hn : 0 ≤ zlen data ≤ data_length_ f).
    { unfold w_read in E. destruct (_ <=? _); [by destruct (bool_decide _)|]. injection E as <-. zlia. }
    destruct (consume_window f (zlen data) Hok Hn) as [Hok' Hw]. split; [exact Hok'|]. f_equal. symmetry. exact Hw.
  - unfold Fifo_Write. pose proof (write_window f buffer 0 Hok ltac:(lia)) as Hw.
    destruct (WriteOffsetLocked f buffer 0) as [[r n] f'] eqn:E. destruct Hw as (Hok' & Hs & Hd & Hf & Hn & ->).
    case_bool_decide as Hr; [|done]. destruct (commit_window f' n Hok' (Hn Hr)) as [Hok'' Hw].
    rewrite <- Hd. split; [exact Hok''|]. f_equal. symmetry. exact Hw.
  - unfold ReadOffset. rewrite read_window by (done || lia).
    by destruct (w_read (window_of f) bytes offset) as [r data].
  - unfold WriteOffset. pose proof (write_window f buffer offset Hok Hop) as Hw.
    destruct (WriteOffsetLocked f buffer offset) as [[r n] f']. by destruct Hw as (Hok' & _ & _ & _ & _ & ->).
  - destruct (consume_window f size Hok Hop) as [Hok' ->]. done.
  - cbn [window_of w_bytes w_len] in Hop. rewrite Hv in Hop.
    destruct (commit_window f size Hok Hop) as [Hok' ->]. done.
  - pose proof (capacity_window f size Hok Hop) as Hc. destruct (SetCapacity f size) as [b f']. exact Hc.
  - done.
Qed.

(** C29. The circular buffer implements the window: any sequence of operations with
    admissible arguments gives the results, the posted events and the contents that
    the same operations give on a window that does not wrap, and keeps the
    representation invariant. *)
Theorem FifoBuffer_refines_window f ops : fifo_ok f → ops_ok (window_of f) ops →
  let '(outs, f') := fifo_run f ops in fifo_ok f' ∧ w_run (window_of f) ops = (outs, window_of f').
Proof.
  revert f. induction ops as [|op ops IH]; intros f Hok Hops; [done|].
  destruct Hops as [Hop Hops]. pose proof (step_window f op Hok Hop) as Hs. cbn [fifo_run w_run].
  destruct (fifo_step f op) as [out f1]. destruct Hs as [Hok1 E]. rewrite E in Hops. rewrite E.
  specialize (IH f1 Hok1 Hops). destruct (fifo_run f1 ops) as [outs f2]. destruct IH as [Hok2 ->]. done.
Qed.

(** *** Reassembly *)

(** A piece is an offset and a length. *)
Definition piece_ok (s : list Z) (q : Z * Z) : Prop := 0 ≤ q.1 ∧ 0 ≤ q.2 ∧ q.1 + q.2 ≤ zlen s.
Definition covers (i : Z) (q : Z * Z) : Prop := q.1 ≤ i < q.1 + q.2.
Definition write_piece (s : list Z) (f : FifoBuffer) (q : Z * Z) : FifoBuffer :=
  (WriteOffset f (ztake q.2 (zdrop q.1 s)) q.1).2.

(** The window after bytes were written ahead. *)
Lemma write_offset_spec f bs o : fifo_ok f → state_ f ≠ SS_CLOSED → 0 ≤ o →
  o + zlen bs ≤ buffer_length_ f - data_length_ f →
  let '(_, _, f') := WriteOffset f bs o in
  fifo_ok f' ∧ state_ f' = state_ f ∧ data_length_ f' = data_length_ f ∧ buffer_length_ f' = buffer_length_ f ∧
  view f' = splice (data_length_ f + o) bs (view f).
Proof.
  intros Hok Hs Ho Hfit. unfold WriteOffset. pose proof (zlen_nonneg bs).
  pose proof (zlen_view f Hok) as Hv. pose proof Hok as (_ & HL & _ & Hdl).
  pose proof (write_window f bs o Hok ltac:(lia)) as Hw.
  destruct (WriteOffsetLocked f bs o) as [[r n] f'] eqn:E. destruct Hw as (Hok' & Hs' & Hd & _ & _ & Hw).
  assert (Hb : buffer_length_ f' = buffer_length_ f).
  { unfold WriteOffsetLocked in E. repeat case_match; simplify_eq; done. }
  split_and!; try done. unfold w_write in Hw. cbn [window_of w_bytes w_len w_state] in Hw. rewrite Hv in Hw.
  rewrite bool_decide_eq_false_2 in Hw by done.
  destruct (Z.leb_spec (buffer_length_ f - data_length_ f - o) 0).
  - assert (bs = []) as -> by (apply zlen_0_nil; lia).
    unfold splice. change (zlen []) with 0. rewrite Z.add_0_r, app_nil_l, ztake_zdrop. unfold window_of in Hw. congruence.
  - rewrite ztake_all in Hw by lia. unfold window_of in Hw. congruence.
Qed.

Lemma write_piece_spec s f q : fifo_ok f → state_ f ≠ SS_CLOSED → piece_ok s q →
  zlen s ≤ buffer_length_ f - data_length_ f →
  let f' := write_piece s f q in
  fifo_ok f' ∧ state_ f' = state_ f ∧ data_length_ f' = data_length_ f ∧ buffer_length_ f' = buffer_length_ f ∧
  view f' = splice (data_length_ f + q.1) (ztake q.2 (zdrop q.1 s)) (view f).
Proof.
  destruct q as [o l]. intros Hok Hs (Ho & Hl & Hfit) Hroom. cbn [fst snd] in *. unfold write_piece. cbn [fst snd].
  assert (Hlen : zlen (ztake l (zdrop o s)) = l) by (rewrite zlen_ztake, zlen_zdrop; lia).
  pose proof (write_offset_spec f (ztake l (zdrop o s)) o Hok Hs Ho ltac:(lia)) as Hw.
  by destruct (WriteOffset f (ztake l (zdrop o s)) o) as [[r n] f'].
Qed.

Lemma write_pieces_spec s pieces f : fifo_ok f → state_ f ≠ SS_CLOSED → Forall (piece_ok s) pieces →
  zlen s ≤ buffer_length_ f - data_length_ f →
  let f' := fold_left (write_piece s) pieces f in
  fifo_ok f' ∧ state_ f' = state_ f ∧ data_length_ f' = data_length_ f ∧ buffer_length_ f' = buffer_length_ f ∧
  fifo_data f' = fifo_data f ∧
  (∀ i, 0 ≤ i < zlen s → Exists (covers i) pieces ∨ zget (data_length_ f + i) (view f) = zget i s →
     zget (data_length_ f + i) (view f') = zget i s).
Proof.
  intros Hok Hs Hp. revert f Hok Hs. induction Hp as [|[o l] pieces Hq Hp IH]; intros f Hok Hs Hroom.
  { cbn [fold_left]. split_and!; try done. intros i Hi [Hc|?]; [by apply Exists_nil in Hc|done]. }
  destruct (write_piece_spec s f (o, l) Hok Hs Hq Hroom) as (Hok1 & Hs1 & Hd1 & Hb1 & Hv1).
  cbn [fold_left]. destruct (IH (write_piece s f (o, l)) Hok1 ltac:(congruence) ltac:(lia)) as (? & ? & ? & ? & Hfd & Hi).
  pose proof (zlen_view f Hok) as Hv. pose proof Hok as (_ & _ & _ & Hdl). destruct Hq as (Ho & Hl & Hfit). cbn [fst snd] in *.
  assert (Hlen : zlen (ztake l (zdrop o s)) = l) by (rewrite zlen_ztake, zlen_zdrop; lia).
  split_and!; try congruence.
  - rewrite Hfd. unfold fifo_data. rewrite Hd1, Hv1. unfold splice.
    rewrite ztake_app_l by (rewrite zlen_ztake; lia). rewrite ztake_ztake. f_equal. lia.
  - intros i Hir Hc. rewrite Hd1 in Hi. apply Hi; [done|].
    destruct (decide (Exists (covers i) pieces)) as [?|Hno]; [by left|right].
    rewrite Hv1, zget_splice by (rewrite ?Hlen; lia). rewrite Hlen.
    destruct (Z.leb_spec (data_length_ f + o) (data_length_ f + i)),
      (Z.ltb_spec (data_length_ f + i) (data_length_ f + o + l)); cbn [andb].
    1:{ rewrite zget_ztake, zget_zdrop by lia. f_equal. lia. }
    all: destruct Hc as [Hc|?]; [|done]; apply Exists_cons in Hc as [Hc|Hc]; [|done]; unfold covers in Hc; cbn in Hc; lia.
Qed.

(** Pieces of a stream written in any order, overlapping or repeated, at their
    offsets from the end of the readable bytes: once they cover the first [n] bytes,
    making [n] bytes readable appends exactly those bytes to the readable ones. *)
Theorem WriteOffset_reassembly f s pieces n : fifo_ok f → state_ f ≠ SS_CLOSED →
  zlen s ≤ buffer_length_ f - data_length_ f → Forall (piece_ok s) pieces → 0 ≤ n ≤ zlen s →
  (∀ i, 0 ≤ i < n → Exists (covers i) pieces) →
  let f' := ConsumeWriteBuffer (fold_left (write_piece s) pieces f) n in
  fifo_ok f' ∧ fifo_data f' = fifo_data f ++ ztake n s.
Proof.
  intros Hok Hs Hroom Hp Hn Hcov. destruct (write_pieces_spec s pieces f Hok Hs Hp Hroom) as (Hok1 & _ & Hd & Hb & Hfd & Hi).
  cbv zeta. set (f1 := fold_left (write_piece s) pieces f) in *.
  destruct (commit_window f1 n Hok1 ltac:(lia)) as [Hok' Hw]. split; [done|].
  unfold window_of, w_commit in Hw. cbn in Hw. injection Hw as _ Hv Hl _.
  unfold fifo_data at 1. rewrite Hv, Hl, <- Hfd. unfold fifo_data.
  pose proof (zlen_view f1 Hok1) as Hvl. pose proof Hok1 as (_ & _ & _ & Hdl). pose proof (zlen_nonneg s).
  apply zget_ext; [rewrite zlen_app, !zlen_ztake; lia|]. rewrite zlen_ztake. intros i Hir.
  rewrite zget_ztake, zget_app, zlen_ztake by lia.
  destruct (Z.ltb_spec i (Z.max 0 (Z.min (data_length_ f1) (zlen (view f1))))); [by rewrite zget_ztake by lia|].
  replace (Z.max 0 (Z.min (data_length_ f1) (zlen (view f1)))) with (data_length_ f1) by lia.
  rewrite zget_ztake by lia.
  pose proof (Hi (i - data_length_ f) ltac:(lia) ltac:(left; apply Hcov; lia)) as E. rewrite <- Hd in E.
  by replace (data_length_ f1 + (i - data_length_ f1)) with i in E by lia.
Qed.

(** *** As a queue of bytes *)

Lemma zlen_fifo_data f : fifo_ok f → zlen (fifo_data f) = data_length_ f.
Proof. intros Hok. unfold fifo_data. rewrite zlen_ztake, zlen_view by done. destruct Hok as (_ & _ & _ & ?). lia. Qed.

Lemma fifo_write_queue f buffer : fifo_ok f → state_ f ≠ SS_CLOSED → zlen buffer ≤ buffer_length_ f - data_length_ f →
  let '(_, n, f') := Fifo_Write f buffer in
  fifo_ok f' ∧ state_ f' = state_ f ∧ buffer_length_ f' = buffer_length_ f ∧ n = zlen buffer ∧
  data_length_ f' = data_length_ f + zlen buffer ∧ fifo_data f' = fifo_data f ++ buffer.
Proof.
  intros Hok Hs Hroom. pose proof (zlen_view f Hok) as Hv. pose proof (zlen_fifo_data f Hok) as Hfd.
  pose proof Hok as (_ & _ & _ & Hdl). pose proof (zlen_nonneg buffer).
  pose proof (step_window f (OpWrite buffer) Hok I) as Hst. cbn [fifo_step w_step] in Hst.
  destruct (Fifo_Write f buffer) as [[r n] f']. destruct Hst as [Hok' Hw]. split; [done|].
  pose proof (zlen_view f' Hok') as Hv'. unfold w_write in Hw. cbn [window_of w_state w_bytes w_len w_posted] in Hw.
  rewrite Hv, bool_decide_eq_false_2 in Hw by done. rewrite !Z.sub_0_r, Z.add_0_r in Hw.
  destruct (Z.leb_spec (buffer_length_ f - data_length_ f) 0).
  - assert (buffer = []) as -> by (apply zlen_0_nil; lia). rewrite bool_decide_eq_false_2 in Hw by done.
    unfold window_of in Hw. injection Hw as Er En Es Ev El _. unfold fifo_data.
    change (zlen []) with 0. rewrite Z.add_0_r, app_nil_r. split_and!; congruence.
  - rewrite Z.min_l, ztake_all, bool_decide_eq_true_2 in Hw by (done || lia).
    unfold window_of, w_commit in Hw. cbn in Hw. injection Hw as <- <- Es Ev El _.
    assert (Hb : buffer_length_ f' = buffer_length_ f) by (rewrite <- Hv', <- Ev, zlen_splice; lia).
    split_and!; try congruence. unfold fifo_data. rewrite <- Ev, <- El. unfold splice.
    rewrite app_assoc, ztake_app_exact; [done|]. rewrite zlen_app, zlen_ztake. lia.
Qed.

Lemma fifo_consume_queue f n : fifo_ok f → 0 ≤ n ≤ data_length_ f →
  fifo_ok (ConsumeReadData f n) ∧ state_ (ConsumeReadData f n) = state_ f ∧
  buffer_length_ (ConsumeReadData f n) = buffer_length_ f ∧
  data_length_ (ConsumeReadData f n) = data_length_ f - n ∧ fifo_data (ConsumeReadData f n) = zdrop n (fifo_data f).
Proof.
  intros Hok Hn. pose proof (zlen_view f Hok) as Hv. pose proof Hok as (_ & _ & _ & Hdl).
  destruct (consume_window f n Hok Hn) as [Hok' Hw]. pose proof (zlen_view _ Hok') as Hv'.
  unfold window_of, w_consume in Hw. cbn [w_state w_bytes w_len w_posted] in Hw. injection Hw as Es Ev El _.
  split_and!; try done.
  - by rewrite <- Hv', Ev, zlen_rotate.
  - unfold fifo_data. rewrite Ev, El. unfold rotate. rewrite ztake_app_l by (rewrite zlen_zdrop; lia).
    by rewrite zdrop_ztake by lia.
Qed.

Lemma fifo_read_queue f n : fifo_ok f → state_ f ≠ SS_CLOSED → 0 ≤ n →
  let '(r, data, f') := Fifo_Read f n in
  fifo_ok f' ∧ state_ f' = state_ f ∧ buffer_length_ f' = buffer_length_ f ∧
  r = (if data_length_ f =? 0 then SR_BLOCK else SR_SUCCESS) ∧
  data = ztake n (fifo_data f) ∧ fifo_data f' = zdrop n (fifo_data f) ∧
  data_length_ f' = data_length_ f - zlen data.
Proof.
  intros Hok Hs Hn. pose proof (zlen_fifo_data f Hok) as Hfd. pose proof Hok as (_ & _ & _ & Hdl).
  unfold Fifo_Read. rewrite read_window by (done || lia). unfold w_read. cbn [window_of w_state w_bytes w_len].
  rewrite (bool_decide_eq_false_2 (state_ f = SS_CLOSED)) by done.
  destruct (Z.leb_spec (data_length_ f) 0), (Z.eqb_spec (data_length_ f) 0); try lia.
  - assert (E : fifo_data f = []) by (apply zlen_0_nil; lia). rewrite bool_decide_eq_false_2 by done.
    change (zlen []) with 0. rewrite E. split_and!; (done || lia).
  - rewrite bool_decide_eq_true_2 by done. rewrite (zdrop_neg 0) by lia. fold (fifo_data f).
    set (data := ztake n (fifo_data f)). assert (Hd : zlen data = Z.min n (data_length_ f)) by (unfold data; zlia).
    destruct (fifo_consume_queue f (zlen data) Hok ltac:(lia)) as (Hok' & ? & ? & ? & Hq).
    split; [exact Hok'|]. split; [done|]. split; [done|]. split; [done|]. split; [done|]. split; [|done].
    etrans; [exact Hq|]. rewrite Hd. destruct (Z.le_gt_cases n (data_length_ f)); [by rewrite Z.min_l by lia|].
    by rewrite !zdrop_all by lia.
Qed.

(** The bytes that were read become the end of the window. *)
Lemma fifo_read_view f n : fifo_ok f → state_ f ≠ SS_CLOSED → 0 ≤ n →
  let '(_, data, f') := Fifo_Read f n in view f' = rotate (zlen data) (view f).
Proof.
  intros Hok Hs Hn. pose proof (zlen_fifo_data f Hok) as Hfd. pose proof Hok as (_ & _ & _ & Hdl).
  unfold Fifo_Read. rewrite read_window by (done || lia). unfold w_read. cbn [window_of w_state w_bytes w_len].
  rewrite (bool_decide_eq_false_2 (state_ f = SS_CLOSED)) by done.
  destruct (Z.leb_spec (data_length_ f) 0).
  - rewrite bool_decide_eq_false_2 by done. change (zlen []) with 0. unfold rotate.
    by rewrite zdrop_neg, ztake_neg, app_nil_r by lia.
  - rewrite bool_decide_eq_true_2 by done. rewrite (zdrop_neg 0) by lia. fold (fifo_data f).
    set (data := ztake n (fifo_data f)). assert (Hd : zlen data = Z.min n (data_length_ f)) by (unfold data; zlia).
    destruct (consume_window f (zlen data) Hok ltac:(lia)) as [_ Hw]. exact (f_equal w_bytes Hw).
Qed.
End Window.

(** ** Samples *)

#[local] Existing Instance zero_platform.

Definition sample_fifo : FifoBuffer := mkFifo SS_OPEN [1; 2; 3; 4; 5] 5 2 4 [].

Lemma sample_fifo_ok : fifo_ok sample_fifo.
Proof. unfold fifo_ok. vm_compute. repeat split; congruence. Qed.

Definition sample_ops : list fifo_op :=
  [OpWrite [10; 11]; OpReadOffset 3 1; OpRead 3; OpWriteOffset [20] 1; OpConsumeWriteBuffer 2; OpSetCapacity 7; OpClose].

Lemma FifoBuffer_refines_window_witness :
  let '(outs, f') := fifo_run sample_fifo sample_ops in
  fifo_ok f' ∧ w_run (window_of sample_fifo) sample_ops = (outs, window_of f').
Proof.
  apply (FifoBuffer_refines_window sample_fifo sample_ops); [exact sample_fifo_ok|].
  repeat (split; [vm_compute; try split; congruence|]). exact I.
Defined.

Lemma WriteOffset_reassembly_witness :
  let f' := ConsumeWriteBuffer (fold_left (write_piece [7; 8; 9]) [(1, 2); (0, 2)] sample_fifo) 3 in
  fifo_ok f' ∧ fifo_data f' = fifo_data sample_fifo ++ ztake 3 [7; 8; 9].
Proof.
  apply (WriteOffset_reassembly sample_fifo [7; 8; 9] [(1, 2); (0, 2)] 3); [exact sample_fifo_ok|done|vm_compute; congruence| |vm_compute; split; congruence|].
  - repeat constructor; vm_compute; congruence.
  - intros i Hi. destruct (decide (i < 2)); [right; left|left]; unfold covers; cbn; lia.
Defined.
