(* ===== verification/AsyncTcp.v ===== *)
(** * Packets over TCP

    webrtc/base/asynctcpsocket.cc and webrtc/p2p/base/asyncstuntcpsocket.cc: sockets that
    send and receive packets over a TCP connection.  AsyncTCPSocket puts a length before
    each packet; AsyncStunTCPSocket sends STUN messages and TURN channel data, whose
    headers hold their lengths, and pads the latter.

    A buffer is the list of its used bytes.  What the connection does is an input: how
    many bytes it takes of those offered, and which bytes it gives.  The bytes taken and
    the signals are outputs.  A failed assertion is [None].  The error code of the
    connection is left out, as only the caller reads it. *)

From S2P Require Import Prelude ByteOrder IpAddress Stun StunIntegrity.

(** ** The base class *)

Inductive tcp_signal :=
  | SignalConnect
  | SignalReadPacket (packet : list Z)
  | SignalReadyToSend
  | SignalNewConnection (socket : Z)
  | SignalClose (error : Z).

Record AsyncTCPSocketBase := mkTcp {
  listen_ : bool;
  remote_address : SocketAddress;   (* of the connection *)
  insize_ : Z; inbuf_ : list Z;     (* its first inpos_ bytes *)
  outsize_ : Z; outbuf_ : list Z;   (* its first outpos_ bytes *)
  taken : list Z;                   (* what the connection took *)
  signals : list tcp_signal
}.
Definition AsyncTCPSocketBase_new (listen : bool) (remote : SocketAddress) (max_packet_size : Z) : AsyncTCPSocketBase :=
  mkTcp listen remote max_packet_size [] max_packet_size [] [] [].

Definition set_inbuf (l : list Z) (st : AsyncTCPSocketBase) : AsyncTCPSocketBase :=
  mkTcp (listen_ st) (remote_address st) (insize_ st) l (outsize_ st) (outbuf_ st) (taken st) (signals st).
Definition set_outbuf (l : list Z) (st : AsyncTCPSocketBase) : AsyncTCPSocketBase :=
  mkTcp (listen_ st) (remote_address st) (insize_ st) (inbuf_ st) (outsize_ st) l (taken st) (signals st).
Definition take_bytes (l : list Z) (st : AsyncTCPSocketBase) : AsyncTCPSocketBase :=
  mkTcp (listen_ st) (remote_address st) (insize_ st) (inbuf_ st) (outsize_ st) (outbuf_ st) (taken st ++ l) (signals st).
Definition signal (l : list tcp_signal) (st : AsyncTCPSocketBase) : AsyncTCPSocketBase :=
  mkTcp (listen_ st) (remote_address st) (insize_ st) (inbuf_ st) (outsize_ st) (outbuf_ st) (taken st) (signals st ++ l).

Definition IsOutBufferEmpty (st : AsyncTCPSocketBase) : bool := zlen (outbuf_ st) =? 0.
Definition ClearOutBuffer (st : AsyncTCPSocketBase) : AsyncTCPSocketBase := set_outbuf [] st.

(** [res] is what Send of the connection returns for the buffer. *)
Definition FlushOutBuffer (res : Z) (st : AsyncTCPSocketBase) : option (Z * AsyncTCPSocketBase) :=
  if res <=? 0 then Some (res, st)
  else if res <=? zlen (outbuf_ st) then
    Some (res, set_outbuf (zdrop res (outbuf_ st)) (take_bytes (ztake res (outbuf_ st)) st))
  else None.
Definition AppendToOutBuffer (pv : list Z) (st : AsyncTCPSocketBase) : option AsyncTCPSocketBase :=
  if zlen (outbuf_ st) + zlen pv <? outsize_ st then Some (set_outbuf (outbuf_ st ++ pv) st) else None.
Definition SendRaw (pv : list Z) (res : Z) (st : AsyncTCPSocketBase) : option (Z * AsyncTCPSocketBase) :=
  if outsize_ st <? zlen (outbuf_ st) + zlen pv then Some (-1, st)
  else FlushOutBuffer res (set_outbuf (outbuf_ st ++ pv) st).

Definition OnConnectEvent (st : AsyncTCPSocketBase) : AsyncTCPSocketBase := signal [SignalConnect] st.
Definition OnCloseEvent (error : Z) (st : AsyncTCPSocketBase) : AsyncTCPSocketBase := signal [SignalClose error] st.
Definition OnWriteEvent (res : Z) (st : AsyncTCPSocketBase) : option AsyncTCPSocketBase :=
  st ← (if 0 <? zlen (outbuf_ st) then snd <$> FlushOutBuffer res st else Some st);
  Some (if zlen (outbuf_ st) =? 0 then signal [SignalReadyToSend] st else st).

(** What a subclass overrides: Send, and the body of the loop of ProcessInput, which is
    the packet at the front of the data and the length to remove, or nothing if the
    loop returns. *)
Class TcpClass (K : Type) := {
  max_packet_size : Z;
  tcp_Send : list Z → Z → AsyncTCPSocketBase → option (Z * AsyncTCPSocketBase);
  tcp_next : list Z → option (list Z * Z)
}.

Section base.
Context `{Platform} (K : Type) `{!TcpClass K}.

(** The loop: the packets that are signalled and the data that is left. *)
Fixpoint process_loop (fuel : nat) (data : list Z) : option (list (list Z) * list Z) :=
  match fuel with
  | O => None
  | S fuel =>
      match tcp_next (K := K) data with
      | None => Some ([], data)
      | Some (packet, actual_length) =>
          '(packets, rest) ← process_loop fuel (zdrop actual_length data);
          Some (packet :: packets, rest)
      end
  end.
Definition ProcessInput (st : AsyncTCPSocketBase) : option AsyncTCPSocketBase :=
  '(packets, rest) ← process_loop (S (length (inbuf_ st))) (inbuf_ st);
  Some (signal (SignalReadPacket <$> packets) (set_inbuf rest st)).

(** [accepted] is the socket that Accept gives, [received] what Recv gives; a listening
    socket makes a new object of its class for the connection. *)
Definition OnReadEvent (accepted : option Z) (received : option (list Z)) (st : AsyncTCPSocketBase) : option AsyncTCPSocketBase :=
  if listen_ st then
    match accepted with
    | None => Some st
    | Some new_socket => Some (signal [SignalNewConnection new_socket] st)
    end
  else
    match received with
    | None => Some st
    | Some bytes =>
        st ← ProcessInput (set_inbuf (inbuf_ st ++ bytes) st);
        if insize_ st <=? zlen (inbuf_ st) then None else Some st
    end.

Definition SendTo (pv : list Z) (addr : SocketAddress) (res : Z) (st : AsyncTCPSocketBase) : option (Z * AsyncTCPSocketBase) :=
  if SocketAddress_eqb addr (remote_address st) then tcp_Send (K := K) pv res st else None.
End base.

(** ** AsyncTCPSocket *)

Definition kPacketLenSize : Z := 2.
Definition tcp_kBufSize : Z := 64 * 1024 + kPacketLenSize.

Definition AsyncTCPSocket_Send `{Platform} (pv : list Z) (res : Z) (st : AsyncTCPSocketBase) : option (Z * AsyncTCPSocketBase) :=
  let cb := zlen pv in
  if tcp_kBufSize <? cb then Some (-1, st)
  else if negb (IsOutBufferEmpty st) then Some (cb, st)
  else
    let pkt_len := HostToNetwork16 (u16 cb) in
    st ← AppendToOutBuffer (host_store 2 pkt_len) st;
    st ← AppendToOutBuffer pv st;
    '(res, st) ← FlushOutBuffer res st;
    if res <=? 0 then Some (res, ClearOutBuffer st) else Some (cb, st).
Definition AsyncTCPSocket_next (data : list Z) : option (list Z * Z) :=
  if zlen data <? kPacketLenSize then None
  else
    let pkt_len := GetBE16 data 0 in
    if zlen data <? kPacketLenSize + pkt_len then None
    else Some (ztake pkt_len (zdrop kPacketLenSize data), kPacketLenSize + pkt_len).
Inductive AsyncTCPSocket : Type :=.
#[export] Instance AsyncTCPSocket_class `{Platform} : TcpClass AsyncTCPSocket :=
  {| max_packet_size := tcp_kBufSize; tcp_Send := AsyncTCPSocket_Send; tcp_next := AsyncTCPSocket_next |}.

(** ** AsyncStunTCPSocket *)

Definition kPacketLenOffset : Z := 2.
Definition stun_kBufSize : Z := 64 * 1024 + kStunHeaderSize.
Definition kTurnChannelDataHdrSize : Z := 4.

Definition IsStunMessage (msg_type : Z) : bool := Z.land msg_type 49152 =? 0.
(** The length of the packet and the number of pad bytes. *)
Definition GetExpectedLength (data : list Z) : Z * Z :=
  let pkt_len := GetBE16 data kPacketLenOffset in
  let msg_type := GetBE16 data 0 in
  if IsStunMessage msg_type then (kStunHeaderSize + pkt_len, 0)
  else
    let expected_pkt_len := kTurnChannelDataHdrSize + pkt_len in
    (expected_pkt_len, if expected_pkt_len mod 4 =? 0 then 0 else 4 - expected_pkt_len mod 4).
Definition AsyncStunTCPSocket_Send (pv : list Z) (res : Z) (st : AsyncTCPSocketBase) : option (Z * AsyncTCPSocketBase) :=
  let cb := zlen pv in
  if (stun_kBufSize <? cb) || (cb <? kPacketLenSize + kPacketLenOffset) then Some (-1, st)
  else if negb (IsOutBufferEmpty st) then Some (cb, st)
  else
    let '(expected_pkt_len, pad_bytes) := GetExpectedLength pv in
    if negb (cb =? expected_pkt_len) then Some (-1, st)
    else
      st ← AppendToOutBuffer pv st;
      st ← AppendToOutBuffer (zrepeat 0 pad_bytes) st;
      '(res, st) ← FlushOutBuffer res st;
      if res <=? 0 then Some (res, ClearOutBuffer st) else Some (cb, st).
Definition AsyncStunTCPSocket_next (data : list Z) : option (list Z * Z) :=
  if zlen data <? kPacketLenOffset + kPacketLenSize then None
  else
    let '(expected_pkt_len, pad_bytes) := GetExpectedLength data in
    let actual_length := expected_pkt_len + pad_bytes in
    if zlen data <? actual_length then None else Some (ztake expected_pkt_len data, actual_length).
Inductive AsyncStunTCPSocket : Type :=.
#[export] Instance AsyncStunTCPSocket_class : TcpClass AsyncStunTCPSocket :=
  {| max_packet_size := stun_kBufSize; tcp_Send := AsyncStunTCPSocket_Send; tcp_next := AsyncStunTCPSocket_next |}.

(** ** What a subclass promises *)

(** A packet that can be sent has a frame, which Send puts into an empty buffer, and from
    which the body of the loop gives the packet back, whatever follows.  The body finds
    the same packet when more data comes, and a packet that is not complete is smaller
    than the buffer. *)
Class TcpLaws (K : Type) `{!TcpClass K} := {
  sendable : list Z → Prop;
  frame : list Z → list Z;
  frame_next : ∀ p more, sendable p → tcp_next (K := K) (frame p ++ more) = Some (p, zlen (frame p));
  next_more : ∀ data p n more, tcp_next (K := K) data = Some (p, n) →
    0 < n ≤ zlen data ∧ tcp_next (K := K) (data ++ more) = Some (p, n);
  next_none : ∀ data, tcp_next (K := K) data = None → zlen data < max_packet_size (K := K);
  Send_frame : ∀ p res st, sendable p → outsize_ st = max_packet_size (K := K) →
    tcp_Send (K := K) p res st =
      if IsOutBufferEmpty st then
        '(res, st) ← FlushOutBuffer res (set_outbuf (frame p) st);
        Some (if res <=? 0 then (res, ClearOutBuffer st) else (zlen p, st))
      else Some (zlen p, st)
}.

Lemma GetBE16_more data more i : 0 ≤ i → i + 2 ≤ zlen data → GetBE16 (data ++ more) i = GetBE16 data i.
Proof. intros. unfold GetBE16, Get8. rewrite !zget_app by lia. by rewrite !(proj2 (Z.ltb_lt _ _)) by lia. Qed.
Lemma GetBE16_range data i : is_u16 (GetBE16 data i).
Proof. apply u16_range. Qed.

(** A packet of at most 65535 bytes after its length. *)
#[export] Instance AsyncTCPSocket_laws `{Platform} : TcpLaws AsyncTCPSocket.
Proof.
  refine {| sendable := λ p, zlen p < 65536; frame := λ p, be_encode 2 (zlen p) ++ p |}; cbv beta; cbn [tcp_next tcp_Send max_packet_size AsyncTCPSocket_class].
  - intros p more Hp. pose proof (zlen_nonneg p). unfold AsyncTCPSocket_next, kPacketLenSize. rewrite <- app_assoc.
    assert (GetBE16 (be_encode 2 (zlen p) ++ p ++ more) 0 = zlen p) as -> by (apply (GetBE16_word []); [unfold is_u16; lia|done]).
    rewrite !zlen_app, !zlen_be_encode.
    pose proof (zlen_nonneg more). rewrite !(proj2 (Z.ltb_ge _ _)) by lia.
    rewrite zdrop_app_exact by (by rewrite zlen_be_encode). by rewrite ztake_app_exact.
  - intros data p n more. unfold AsyncTCPSocket_next, kPacketLenSize. destruct (Z.ltb_spec (zlen data) 2) as [|H2]; [done|].
    pose proof (GetBE16_range data 0) as Hr. unfold is_u16 in Hr. destruct (Z.ltb_spec (zlen data) (2 + GetBE16 data 0)) as [|Hl]; [done|].
    intros [= <- <-]. split; [lia|]. rewrite GetBE16_more, zlen_app by lia. pose proof (zlen_nonneg more).
    rewrite !(proj2 (Z.ltb_ge _ _)) by lia. by rewrite zdrop_app_l, ztake_app_l by zlia.
  - intros data. unfold AsyncTCPSocket_next, kPacketLenSize, tcp_kBufSize, kPacketLenSize. pose proof (GetBE16_range data 0) as Hr. unfold is_u16 in Hr.
    destruct (Z.ltb_spec (zlen data) 2) as [|H2]; [lia|]. by destruct (Z.ltb_spec (zlen data) (2 + GetBE16 data 0)); [lia|].
  - intros p res st Hp Hsize. unfold AsyncTCPSocket_Send, AppendToOutBuffer. pose proof (zlen_nonneg p). rewrite Hsize. unfold tcp_kBufSize, kPacketLenSize.
    rewrite (proj2 (Z.ltb_ge _ _)) by lia. destruct (IsOutBufferEmpty st) eqn:E; cbn [negb]; [|done].
    apply Z.eqb_eq, zlen_0_nil in E. rewrite u16_id, HostToNetwork16_store by (unfold is_u16; lia). rewrite E.
    rewrite zlen_be_encode, (proj2 (Z.ltb_lt _ _)) by (change (zlen []) with 0; lia). cbn [mbind option_bind outbuf_ set_outbuf outsize_].
    rewrite Hsize, zlen_app, zlen_be_encode, (proj2 (Z.ltb_lt _ _)) by (change (zlen []) with 0; unfold tcp_kBufSize, kPacketLenSize; lia).
    cbn [mbind option_bind app]. change (set_outbuf _ (set_outbuf _ st)) with (set_outbuf (be_encode 2 (zlen p) ++ p) st).
    destruct (FlushOutBuffer _ _) as [[r st']|]; [|done]. cbn. by destruct (r <=? 0).
Defined.

Lemma expected_range data : 4 ≤ (GetExpectedLength data).1 ∧ 0 ≤ (GetExpectedLength data).2 < 4 ∧
  (GetExpectedLength data).1 + (GetExpectedLength data).2 < stun_kBufSize.
Proof.
  pose proof (GetBE16_range data kPacketLenOffset) as Hr. unfold is_u16 in Hr. unfold GetExpectedLength, stun_kBufSize, kStunHeaderSize, kTurnChannelDataHdrSize.
  set (n := GetBE16 data kPacketLenOffset) in *. destruct (IsStunMessage _); cbn [fst snd]; [lia|].
  destruct (Z.eqb_spec ((4 + n) mod 4) 0); [lia|]. pose proof (Z.mod_pos_bound (4 + n) 4 ltac:(lia)). lia.
Qed.
Lemma expected_more data more : 4 ≤ zlen data → GetExpectedLength (data ++ more) = GetExpectedLength data.
Proof. intros. unfold GetExpectedLength, kPacketLenOffset. by rewrite !GetBE16_more by lia. Qed.

(** A complete message: its length is the one that its header gives. *)
Definition complete (p : list Z) : Prop := 4 ≤ zlen p ∧ (GetExpectedLength p).1 = zlen p.
Definition padded_packet (p : list Z) : list Z := p ++ zrepeat 0 (GetExpectedLength p).2.
Lemma zlen_padded p : complete p → zlen (padded_packet p) = (GetExpectedLength p).1 + (GetExpectedLength p).2.
Proof. intros [_ ->]. pose proof (expected_range p). unfold padded_packet. rewrite zlen_app, zlen_zrepeat. lia. Qed.

#[export] Instance AsyncStunTCPSocket_laws : TcpLaws AsyncStunTCPSocket.
Proof.
  refine {| sendable := complete; frame := padded_packet |}; cbn [tcp_next tcp_Send max_packet_size AsyncStunTCPSocket_class].
  - intros p more Hp. pose proof (zlen_padded p Hp) as Hl. pose proof (expected_range p) as (H4 & Hpad & _). pose proof Hp as [Hp4 He].
    unfold AsyncStunTCPSocket_next, kPacketLenOffset, kPacketLenSize. rewrite zlen_app, Hl. pose proof (zlen_nonneg more).
    rewrite (proj2 (Z.ltb_ge _ _)) by lia. unfold padded_packet. rewrite <- app_assoc, expected_more by done.
    destruct (GetExpectedLength p) as [e pad]. cbn [fst snd] in *. rewrite (proj2 (Z.ltb_ge _ _)) by lia. by rewrite ztake_app_exact.
  - intros data p n more. unfold AsyncStunTCPSocket_next, kPacketLenOffset, kPacketLenSize. destruct (Z.ltb_spec (zlen data) (2 + 2)) as [|H4]; [done|].
    pose proof (expected_range data) as (He & Hpad & _). rewrite zlen_app, expected_more by lia. pose proof (zlen_nonneg more).
    destruct (GetExpectedLength data) as [e pad]. cbn [fst snd] in *. destruct (Z.ltb_spec (zlen data) (e + pad)) as [|Hl]; [done|]. intros [= <- <-].
    split; [lia|]. rewrite !(proj2 (Z.ltb_ge _ _)) by lia. by rewrite ztake_app_l by lia.
  - intros data. unfold AsyncStunTCPSocket_next, kPacketLenOffset, kPacketLenSize. pose proof (expected_range data) as (_ & _ & Hr).
    destruct (Z.ltb_spec (zlen data) (2 + 2)); [unfold stun_kBufSize, kStunHeaderSize; lia|]. destruct (GetExpectedLength data) as [e pad].
    cbn [fst snd] in Hr. destruct (Z.ltb_spec (zlen data) (e + pad)); [lia|done].
  - intros p res st Hp Hsize. pose proof (zlen_padded p Hp) as Hl. pose proof (expected_range p) as (_ & Hpad & Hr). pose proof Hp as [Hp4 He].
    unfold AsyncStunTCPSocket_Send, AppendToOutBuffer, kPacketLenOffset, kPacketLenSize. rewrite Hsize.
    rewrite (proj2 (Z.ltb_ge stun_kBufSize _)), (proj2 (Z.ltb_ge (zlen p) _)) by lia. cbn [orb]. unfold padded_packet in *.
    destruct (IsOutBufferEmpty st) eqn:E; cbn [negb]; [|done]. apply Z.eqb_eq, zlen_0_nil in E. rewrite E.
    destruct (GetExpectedLength p) as [e pad]. cbn [fst snd] in *. rewrite (proj2 (Z.eqb_eq _ _)) by lia. cbn [negb].
    rewrite (proj2 (Z.ltb_lt _ _)) by (change (zlen []) with 0; lia). cbn [mbind option_bind outbuf_ set_outbuf outsize_ app].
    rewrite Hsize, zlen_zrepeat, (proj2 (Z.ltb_lt _ _)) by lia. cbn [mbind option_bind].
    change (set_outbuf _ (set_outbuf _ st)) with (set_outbuf (p ++ zrepeat 0 pad) st).
    destruct (FlushOutBuffer _ _) as [[r st']|]; [|done]. cbn. by destruct (r <=? 0).
Defined.

(** ** The stream of frames *)

Section streams.
Context `{Platform} {K : Type} `{TcpLaws K}.

(** How a stream falls into packets and a rest without a complete one. *)
Inductive parses : list Z → list (list Z) → list Z → Prop :=
  | parses_rest data : tcp_next (K := K) data = None → parses data [] data
  | parses_packet data p n ps rest : tcp_next (K := K) data = Some (p, n) → parses (zdrop n data) ps rest →
      parses data (p :: ps) rest.

Lemma parses_unique data ps rest ps' rest' : parses data ps rest → parses data ps' rest' → ps = ps' ∧ rest = rest'.
Proof.
  intros Hp. revert ps' rest'. induction Hp as [data E|data p n ps rest E _ IH]; intros ps' rest' H'; inversion H'; simplify_eq; [done|].
  by destruct (IH _ _ ltac:(eassumption)) as [-> ->].
Qed.
Lemma loop_parses fuel : ∀ data, (length data < fuel)%nat →
  ∃ ps rest, process_loop K fuel data = Some (ps, rest) ∧ parses data ps rest.
Proof.
  induction fuel as [|fuel IH]; intros data Hf; [lia|]. cbn [process_loop]. destruct (tcp_next data) as [[p n]|] eqn:E.
  - destruct (next_more data p n [] E) as [Hn _]. destruct (IH (zdrop n data)) as (ps & rest & -> & Hp).
    { pose proof (zlen_zdrop n data). unfold zlen in *. lia. }
    exists (p :: ps), rest. split; [done|]. by eapply parses_packet.
  - exists [], data. split; [done|]. by apply parses_rest.
Qed.
Lemma parses_total data : ∃ ps rest, parses data ps rest.
Proof. destruct (loop_parses (S (length data)) data) as (ps & rest & _ & Hp); [lia|by exists ps, rest]. Qed.
Lemma parses_stuck data ps rest : parses data ps rest → tcp_next (K := K) rest = None.
Proof. by induction 1. Qed.
(** Data that comes later is parsed after what was left. *)
Lemma parses_more data ps rest more qs r : parses data ps rest → parses (rest ++ more) qs r → parses (data ++ more) (ps ++ qs) r.
Proof.
  induction 1 as [data E|data p n ps rest E _ IH]; intros Hq; cbn [app]; [done|].
  destruct (next_more data p n more E) as [Hn E']. eapply parses_packet; [exact E'|]. rewrite zdrop_app_l by lia. by apply IH.
Qed.
Lemma parses_frames ps : Forall (sendable (K := K)) ps → parses (concat (frame (K := K) <$> ps)) ps [].
Proof.
  induction 1 as [|p ps Hp _ IH]; cbn [fmap list_fmap concat].
  - apply parses_rest. destruct (tcp_next []) as [[p n]|] eqn:E; [|done]. destruct (next_more [] p n [] E) as [Hn _]. change (zlen []) with 0 in Hn. lia.
  - eapply parses_packet; [by apply frame_next|]. by rewrite zdrop_app_exact.
Qed.

(** *** Receiving *)

Fixpoint receive_all (chunks : list (list Z)) (st : AsyncTCPSocketBase) : option AsyncTCPSocketBase :=
  match chunks with
  | [] => Some st
  | chunk :: chunks => st ← OnReadEvent K None (Some chunk) st; receive_all chunks st
  end.
Definition connected (remote : SocketAddress) : AsyncTCPSocketBase := AsyncTCPSocketBase_new false remote (max_packet_size (K := K)).
Record receiving (st : AsyncTCPSocketBase) : Prop := {
  rx_listen : listen_ st = false;
  rx_size : insize_ st = max_packet_size (K := K);
  rx_rest : tcp_next (K := K) (inbuf_ st) = None
}.
Lemma connected_receiving remote : receiving (connected remote).
Proof. split; [done|done|]. cbn. pose proof (parses_frames [] ltac:(constructor)) as Hp. by inversion Hp. Qed.
Lemma receive_chunk chunk st : receiving st →
  ∃ st' ps, OnReadEvent K None (Some chunk) st = Some st' ∧ receiving st' ∧ signals st' = signals st ++ (SignalReadPacket <$> ps) ∧
    parses (inbuf_ st ++ chunk) ps (inbuf_ st').
Proof.
  intros [Hl Hs _]. unfold OnReadEvent, ProcessInput. rewrite Hl. cbn [inbuf_ set_inbuf].
  destruct (loop_parses (S (length (inbuf_ st ++ chunk))) (inbuf_ st ++ chunk)) as (ps & rest & E & Hp); [lia|].
  rewrite E. cbn [mbind option_bind]. pose proof (parses_stuck _ _ _ Hp) as Hn. pose proof (next_none _ Hn) as Hlt.
  cbn [insize_ inbuf_ signal set_inbuf]. rewrite Hs, (proj2 (Z.leb_gt _ _)) by lia. eexists _, ps. split; [done|]. by repeat split.
Qed.
Lemma receive_parses chunks : ∀ st, receiving st →
  ∃ st' ps, receive_all chunks st = Some st' ∧ receiving st' ∧ signals st' = signals st ++ (SignalReadPacket <$> ps) ∧
    parses (inbuf_ st ++ concat chunks) ps (inbuf_ st').
Proof.
  induction chunks as [|chunk chunks IH]; intros st Hst; cbn [receive_all concat].
  - exists st, []. cbn. rewrite !app_nil_r. split_and!; try done. apply parses_rest, Hst.
  - destruct (receive_chunk chunk st Hst) as (st1 & ps & -> & Hst1 & E1 & Hp). cbn [mbind option_bind].
    destruct (IH st1 Hst1) as (st2 & qs & -> & Hst2 & E2 & Hq). exists st2, (ps ++ qs). split_and!; try done.
    + by rewrite E2, E1, fmap_app, app_assoc.
    + rewrite app_assoc. by eapply parses_more.
Qed.

(** *** Sending *)

(** A packet to send, or a connection that can take more; with what the connection's
    Send returns. *)
Inductive tx_op := TxSend (packet : list Z) (res : Z) | TxWrite (res : Z).
(** The packets that were put into the stream, and the state. *)
Definition tx_step (o : tx_op) (st : AsyncTCPSocketBase) : option (list (list Z) * AsyncTCPSocketBase) :=
  match o with
  | TxSend p res => '(_, st') ← tcp_Send (K := K) p res st; Some (if IsOutBufferEmpty st && (0 <? res) then [p] else [], st')
  | TxWrite res => st' ← OnWriteEvent res st; Some ([], st')
  end.
Fixpoint tx_run (ops : list tx_op) (st : AsyncTCPSocketBase) : option (list (list Z) * AsyncTCPSocketBase) :=
  match ops with
  | [] => Some ([], st)
  | o :: ops => '(kept, st) ← tx_step o st; '(more, st) ← tx_run ops st; Some (kept ++ more, st)
  end.
(** The connection takes at most the bytes it was offered. *)
Definition tx_op_ok (o : tx_op) (st : AsyncTCPSocketBase) : Prop :=
  match o with
  | TxSend p res => sendable (K := K) p ∧ (IsOutBufferEmpty st = true → res ≤ zlen (frame (K := K) p))
  | TxWrite res => res ≤ zlen (outbuf_ st)
  end.
Fixpoint tx_ops_ok (ops : list tx_op) (st : AsyncTCPSocketBase) : Prop :=
  match ops with
  | [] => True
  | o :: ops => tx_op_ok o st ∧ match tx_step o st with Some (_, st') => tx_ops_ok ops st' | None => True end
  end.
Definition packets_of (o : tx_op) : list (list Z) := match o with TxSend p _ => [p] | TxWrite _ => [] end.

(** The stream holds the frames of the packets that were kept. *)
Record sending (kept : list (list Z)) (st : AsyncTCPSocketBase) : Prop := {
  tx_size : outsize_ st = max_packet_size (K := K);
  tx_kept : Forall (sendable (K := K)) kept;
  tx_stream : taken st ++ outbuf_ st = concat (frame (K := K) <$> kept)
}.
Lemma flush_stream res st : res ≤ zlen (outbuf_ st) →
  ∃ st', FlushOutBuffer res st = Some (res, st') ∧ outsize_ st' = outsize_ st ∧ taken st' ++ outbuf_ st' = taken st ++ outbuf_ st ∧
    (res ≤ 0 → st' = st).
Proof.
  intros Hr. unfold FlushOutBuffer. destruct (Z.leb_spec res 0) as [Hz|Hz]; [by exists st|]. rewrite (proj2 (Z.leb_le _ _)) by lia.
  eexists. split; [done|]. split; [done|]. split; [|lia]. cbn. by rewrite <- app_assoc, ztake_zdrop.
Qed.
Lemma tx_step_sending kept o st : sending kept st → tx_op_ok o st →
  ∃ new st', tx_step o st = Some (new, st') ∧ sending (kept ++ new) st' ∧ sublist new (packets_of o).
Proof.
  intros [Hs Hk Hst] Ho. destruct o as [p res|res]; cbn [tx_step tx_op_ok packets_of] in *.
  - destruct Ho as [Hp Hres]. rewrite Send_frame by done. destruct (IsOutBufferEmpty st) eqn:E.
    2: { exists [], st. cbn. rewrite app_nil_r. split_and!; try done. apply sublist_nil_l. }
    apply Z.eqb_eq, zlen_0_nil in E. destruct (flush_stream res (set_outbuf (frame p) st)) as (st' & -> & Hs' & Hst' & Hsame); [by apply Hres|].
    cbn [mbind option_bind]. rewrite E, app_nil_r in Hst. destruct (Z.leb_spec res 0) as [Hle|Hgt].
    + rewrite (proj2 (Z.ltb_ge _ _)) by lia. cbn [andb]. rewrite (Hsame Hle). exists [], (ClearOutBuffer (set_outbuf (frame p) st)).
      rewrite app_nil_r. split; [done|]. split; [|apply sublist_nil_l]. split; [done|done|]. cbn. by rewrite app_nil_r.
    + rewrite (proj2 (Z.ltb_lt _ _)) by lia. cbn [andb]. exists [p], st'. split; [done|]. split; [|done]. split.
      * by rewrite Hs'.
      * apply Forall_app. split; [done|by apply Forall_singleton].
      * rewrite Hst', fmap_app, concat_app. cbn. by rewrite app_nil_r, Hst.
  - unfold OnWriteEvent. exists []. rewrite app_nil_r. destruct (Z.ltb_spec 0 (zlen (outbuf_ st))) as [Hgt|Hle].
    + destruct (flush_stream res st Ho) as (st' & -> & Hs' & Hst' & _). cbn [fmap option_fmap option_map snd mbind option_bind].
      eexists. split; [done|]. split; [|done]. destruct (zlen (outbuf_ st') =? 0); (split; [by rewrite <- Hs, <- Hs'|done|]); rewrite <- Hst, <- Hst'; done.
    + cbn [mbind option_bind]. eexists. split; [done|]. split; [|done]. destruct (zlen (outbuf_ st) =? 0); by split.
Qed.
Lemma tx_run_sending ops : ∀ kept st, sending kept st → tx_ops_ok ops st →
  ∃ new st', tx_run ops st = Some (new, st') ∧ sending (kept ++ new) st' ∧ sublist new (concat (packets_of <$> ops)).
Proof.
  induction ops as [|o ops IH]; intros kept st Hst Ho; cbn [tx_run fmap list_fmap concat].
  - exists [], st. by rewrite app_nil_r.
  - destruct Ho as [Ho Hos]. destruct (tx_step_sending kept o st Hst Ho) as (new & st1 & E & Hst1 & Hsub). rewrite E in *. cbn [mbind option_bind].
    destruct (IH _ st1 Hst1 Hos) as (more & st2 & -> & Hst2 & Hsub2). cbn [mbind option_bind]. exists (new ++ more), st2.
    split; [done|]. split; [by rewrite app_assoc|by apply sublist_app].
Qed.
Lemma connected_sending remote : sending [] (connected remote).
Proof. by repeat split. Qed.
End streams.

(** ** Properties *)

(** C11. Packets over TCP keep their borders.  For both socket classes, whatever packets are
    sent and however few of the offered bytes the connection takes each time, no step
    fails; a packet is either dropped whole or kept, and when the bytes that the
    connection took arrive at the other side, cut into pieces in any way, that side
    signals a prefix of the packets that were kept, each as it was sent, and all of
    them once everything was taken and has arrived. *)
Theorem tcp_packets_kept `{Platform} {K : Type} `{TcpLaws K} ops remote remote' :
  tx_ops_ok (K := K) ops (connected (K := K) remote) →
  ∃ kept st, tx_run (K := K) ops (connected (K := K) remote) = Some (kept, st) ∧ sublist kept (concat (packets_of <$> ops)) ∧
    ∀ chunks more, taken st = concat chunks ++ more →
      ∃ st' ps, receive_all (K := K) chunks (connected (K := K) remote') = Some st' ∧ signals st' = SignalReadPacket <$> ps ∧
        ps `prefix_of` kept ∧ (more = [] → outbuf_ st = [] → ps = kept ∧ inbuf_ st' = []).
Proof.
  intros Ho. destruct (tx_run_sending ops [] _ (connected_sending remote) Ho) as (kept & st & E & [_ Hk Hst] & Hsub). cbn [app] in *.
  exists kept, st. split; [done|]. split; [done|]. intros chunks more Ht.
  destruct (receive_parses chunks _ (connected_receiving remote')) as (st' & ps & Erx & _ & Esig & Hp). cbn [inbuf_ connected AsyncTCPSocketBase_new app signals] in *.
  exists st', ps. split; [done|]. split; [done|]. pose proof (parses_frames kept Hk) as Hall. rewrite <- Hst, Ht, <- app_assoc in Hall.
  destruct (parses_total (K := K) (inbuf_ st' ++ more ++ outbuf_ st)) as (qs & r & Hq).
  pose proof (parses_more _ _ _ _ _ _ Hp Hq) as Hw. destruct (parses_unique _ _ _ _ _ Hw Hall) as [Eps _]. split; [by exists qs|].
  intros -> Eout. rewrite Eout, !app_nil_r in Hall. by destruct (parses_unique _ _ _ _ _ Hp Hall) as [-> ->].
Qed.

(** C31. A receiver of packets over TCP is safe on any bytes: however the stream is cut into
    pieces, no step fails and the input buffer never overflows, and the packets that are
    signalled and the bytes that wait are those of the stream in one piece. *)
Theorem tcp_receiver_chunks `{Platform} {K : Type} `{TcpLaws K} chunks remote :
  ∃ st ps, receive_all (K := K) chunks (connected (K := K) remote) = Some st ∧ signals st = SignalReadPacket <$> ps ∧
    process_loop K (S (length (concat chunks))) (concat chunks) = Some (ps, inbuf_ st) ∧ zlen (inbuf_ st) < insize_ st.
Proof.
  destruct (receive_parses chunks _ (connected_receiving remote)) as (st & ps & Erx & [_ Hs Hn] & Esig & Hp). cbn [inbuf_ connected AsyncTCPSocketBase_new app signals] in *.
  exists st, ps. split; [done|]. split; [done|]. destruct (loop_parses (S (length (concat chunks))) (concat chunks)) as (qs & r & -> & Hq); [lia|].
  destruct (parses_unique _ _ _ _ _ Hp Hq) as [-> <-]. split; [done|]. rewrite Hs. by apply (next_none (K := K)).
Qed.

(** A packet of 65536 bytes or more passes the check of its size in AsyncTCPSocket::Send
    and does not fit into the buffer with its length. *)
Lemma tcp_send_overflows `{Platform} pv res remote : 65536 ≤ zlen pv ≤ tcp_kBufSize →
  AsyncTCPSocket_Send pv res (AsyncTCPSocketBase_new false remote tcp_kBufSize) = None.
Proof.
  unfold tcp_kBufSize, kPacketLenSize. intros Hl. unfold AsyncTCPSocket_Send, tcp_kBufSize, kPacketLenSize. rewrite (proj2 (Z.ltb_ge _ _)) by lia.
  change (negb (IsOutBufferEmpty _)) with false. cbn match. unfold AppendToOutBuffer. cbn [outbuf_ outsize_ AsyncTCPSocketBase_new app].
  rewrite zlen_host_store. change (zlen [] + Z.of_nat 2 <? 64 * 1024 + 2) with true. cbn match. cbn [mbind option_bind outbuf_ outsize_ set_outbuf].
  by rewrite zlen_host_store, (proj2 (Z.ltb_ge _ _)) by (cbn [outsize_ AsyncTCPSocketBase_new]; lia).
Qed.

(** ** Witnesses *)

(** Channel data of 5 bytes and a binding request, over a connection that takes 3 bytes
    at a time; the first packet while it is blocked is dropped. *)
Definition tcp_sample_ops : list tx_op :=
  let data := be_encode 2 16385 ++ be_encode 2 5 ++ [1; 2; 3; 4; 5] in
  let request := be_encode 2 1 ++ be_encode 2 0 ++ zrepeat 7 16 in
  [TxSend data 3; TxSend request 3; TxWrite 9; TxSend request 20].
Lemma tcp_packets_kept_witness :
  let p := zero_platform in
  ∃ kept st st', tx_run (K := AsyncStunTCPSocket) tcp_sample_ops (connected (K := AsyncStunTCPSocket) SocketAddress_Clear) = Some (kept, st) ∧
    zlen kept = 2 ∧ receive_all (K := AsyncStunTCPSocket) [ztake 5 (taken st); ztake 20 (zdrop 5 (taken st)); zdrop 25 (taken st)]
      (connected (K := AsyncStunTCPSocket) SocketAddress_Clear) = Some st' ∧ signals st' = SignalReadPacket <$> kept.
Proof.
  intros p. destruct (tcp_packets_kept (K := AsyncStunTCPSocket) tcp_sample_ops SocketAddress_Clear SocketAddress_Clear) as (kept & st & E & _ & Hrx).
  { vm_compute. repeat split; intros; done. }
  exists kept, st. assert (tx_run (K := AsyncStunTCPSocket) tcp_sample_ops (connected (K := AsyncStunTCPSocket) SocketAddress_Clear) = Some (kept, st)) as E' by exact E.
  vm_compute in E'. injection E' as Ek Est. destruct (Hrx [ztake 5 (taken st); ztake 20 (zdrop 5 (taken st)); zdrop 25 (taken st)] []) as (st' & ps & Er & Es & _ & Hall).
  { rewrite <- Est. reflexivity. }
  exists st'. destruct (Hall eq_refl) as [-> _]; [rewrite <- Est; reflexivity|]. split; [exact E|]. split; [rewrite <- Ek; reflexivity|]. split; [exact Er|exact Es].
Defined.
