(* ===== verification/TimeUtils.v ===== *)
(** * Times that wrap around

    The arithmetic of webrtc/base/timeutils.h and timeutils.cc on millisecond
    times of 32 bits, in the efficient implementation that the code selects and in
    the portable one it keeps beside it, and the handler that unwraps a sequence of
    32-bit timestamps.  Reading the clock of the system is not modelled. *)

From S2P Require Import Prelude.

Definition HALF : Z := 2147483648.
Definition UINT32_MAX : Z := 4294967295.

Definition TimeIsBetween (earlier middle later : Z) : bool :=
  if earlier <=? later then (earlier <=? middle) && (middle <=? later)
  else negb ((later <? middle) && (middle <? earlier)).

Definition TimeIsLaterOrEqual (earlier later : Z) : bool :=
  let diff := i32 (later - earlier) in (0 <=? diff) && (u32 diff <? HALF).

Definition TimeIsLater (earlier later : Z) : bool :=
  let diff := i32 (later - earlier) in (0 <? diff) && (u32 diff <? HALF).

Definition TimeDiff (later earlier : Z) : Z := i32 (later - earlier).

Definition TimeMax (ts1 ts2 : Z) : Z := if TimeIsLaterOrEqual ts1 ts2 then ts2 else ts1.
Definition TimeMin (ts1 ts2 : Z) : Z := if TimeIsLaterOrEqual ts1 ts2 then ts1 else ts2.

(** The implementation that is compiled without EFFICIENT_IMPLEMENTATION. *)
Definition portable_LaterOrEqual (earlier later : Z) : bool := TimeIsBetween earlier later (u32 (earlier + HALF)).
Definition portable_Later (earlier later : Z) : bool := negb (TimeIsBetween later earlier (u32 (later + HALF))).
Definition portable_TimeDiff (later earlier : Z) : Z :=
  let later_or_equal := TimeIsBetween earlier later (u32 (earlier + HALF)) in
  if later_or_equal then
    if earlier <=? later then i32 (u32 (later - earlier))
    else i32 (u32 (later + (UINT32_MAX - earlier) + 1))
  else
    if later <=? earlier then i32 (- u32 (earlier - later))
    else i32 (- u32 (earlier + (UINT32_MAX - later) + 1)).

Record TimestampWrapAroundHandler := mkHandler { last_ts_ : Z; num_wrap_ : Z }.
Definition TimestampWrapAroundHandler_new : TimestampWrapAroundHandler := mkHandler 0 0.

Definition Unwrap (h : TimestampWrapAroundHandler) (ts : Z) : Z * TimestampWrapAroundHandler :=
  let num_wrap :=
    if ts <? last_ts_ h then
      if (4026531840 <? last_ts_ h) && (ts <? 268435455) then num_wrap_ h + 1 else num_wrap_ h
    else num_wrap_ h in
  (ts + Z.shiftl num_wrap 32, mkHandler ts num_wrap).

(** The results for a sequence of timestamps. *)
Fixpoint Unwraps (h : TimestampWrapAroundHandler) (tss : list Z) : list Z :=
  match tss with
  | [] => []
  | ts :: tss => let '(t, h) := Unwrap h ts in t :: Unwraps h tss
  end.

Lemma i32_u32 d : i32 d = if u32 d <? HALF then u32 d else u32 d - 4294967296.
Proof. unfold HALF. destruct (Z.ltb_spec (u32 d) 2147483648); ulia. Qed.
Lemma i32_mod a b : u32 a = u32 b → i32 a = i32 b.
Proof. intros E. by rewrite !i32_u32, E. Qed.
Lemma u32_opp d : u32 (- d) = if u32 d =? 0 then 0 else 4294967296 - u32 d.
Proof. destruct (Z.eqb_spec (u32 d) 0); ulia. Qed.

Lemma between_half earlier later : is_u32 later → is_u32 earlier →
  TimeIsBetween earlier later (u32 (earlier + HALF)) = (u32 (later - earlier) <=? HALF).
Proof.
  intros Hl He. unfold TimeIsBetween, HALF.
  assert (Hs : u32 (earlier + 2147483648) = if earlier <? 2147483648 then earlier + 2147483648 else earlier - 2147483648)
    by (destruct (Z.ltb_spec earlier 2147483648); ulia).
  assert (Hd : u32 (later - earlier) = if earlier <=? later then later - earlier else later - earlier + 4294967296)
    by (destruct (Z.leb_spec earlier later); ulia).
  rewrite Hs, Hd. unfold is_u32 in *. clear Hs Hd.
  destruct (Z.ltb_spec earlier 2147483648), (Z.leb_spec earlier later);
    repeat (bdestruct_step; try lia); done.
Qed.

Lemma later_or_equal earlier later : TimeIsLaterOrEqual earlier later = (u32 (later - earlier) <? HALF).
Proof.
  unfold TimeIsLaterOrEqual. rewrite i32_u32. pose proof (u32_range (later - earlier)) as Hr. unfold is_u32, HALF in *.
  destruct (Z.ltb_spec (u32 (later - earlier)) 2147483648) as [Hlt|Hge].
  - rewrite (u32_id (u32 _)) by done. destruct (Z.leb_spec 0 (u32 (later - earlier))); [|lia]. cbn [andb]. by apply Z.ltb_lt.
  - destruct (Z.leb_spec 0 (u32 (later - earlier) - 4294967296)); [lia|done].
Qed.
Lemma later_strict earlier later :
  TimeIsLater earlier later = (0 <? u32 (later - earlier)) && (u32 (later - earlier) <? HALF).
Proof.
  unfold TimeIsLater. rewrite i32_u32. pose proof (u32_range (later - earlier)) as Hr. unfold is_u32, HALF in *.
  destruct (Z.ltb_spec (u32 (later - earlier)) 2147483648) as [Hlt|Hge].
  - rewrite (u32_id (u32 _)) by done. f_equal. by apply Z.ltb_lt.
  - rewrite andb_false_r. destruct (Z.ltb_spec 0 (u32 (later - earlier) - 4294967296)); [lia|done].
Qed.

(** The efficient comparisons and difference of 32-bit times are those of the
    portable implementation, except that times exactly half the range apart are
    ordered by the portable comparisons and not by the efficient ones. *)
Theorem efficient_portable later earlier : is_u32 later → is_u32 earlier →
  TimeDiff later earlier = portable_TimeDiff later earlier ∧
  TimeIsLaterOrEqual earlier later =
    portable_LaterOrEqual earlier later && negb (u32 (later - earlier) =? HALF) ∧
  TimeIsLater earlier later = portable_Later earlier later.
Proof.
  intros Hl He. split_and!.
  - unfold TimeDiff, portable_TimeDiff, UINT32_MAX. repeat case_match; apply i32_mod; ulia.
  - unfold portable_LaterOrEqual. rewrite between_half, later_or_equal by done.
    destruct (Z.ltb_spec (u32 (later - earlier)) HALF), (Z.leb_spec (u32 (later - earlier)) HALF),
      (Z.eqb_spec (u32 (later - earlier)) HALF); try lia; done.
  - unfold portable_Later. rewrite between_half, later_strict by done.
    replace (earlier - later) with (- (later - earlier)) by lia. rewrite u32_opp.
    pose proof (u32_range (later - earlier)) as Hr. unfold is_u32, HALF in *.
    repeat (bdestruct_step; try lia); done.
Qed.

Lemma efficient_portable_witness :
  TimeDiff 5 4294967290 = portable_TimeDiff 5 4294967290 ∧
  TimeIsLaterOrEqual 4294967290 5 = portable_LaterOrEqual 4294967290 5 && negb (u32 (5 - 4294967290) =? HALF) ∧
  TimeIsLater 4294967290 5 = portable_Later 4294967290 5.
Proof. apply (efficient_portable 5 4294967290); ulia. Defined.

(** Times that go forward by less than the margin of the handler. *)
Fixpoint steps_ok (t : Z) (times : list Z) : Prop :=
  match times with
  | [] => True
  | t' :: times => t ≤ t' ≤ t + 268435455 ∧ steps_ok t' times
  end.

Lemma Unwraps_exact_from t times : 0 ≤ t → steps_ok t times →
  Unwraps (mkHandler (u32 t) (t / 4294967296)) (u32 <$> times) = times.
Proof.
  revert t. induction times as [|t' times IH]; intros t Ht Hs; [done|]. destruct Hs as [Hstep Hs].
  cbn [fmap list_fmap Unwraps]. unfold Unwrap at 1. cbn [last_ts_ num_wrap_].
  set (n := if _ <? _ then _ else _). assert (Hn : n = t' / 4294967296).
  { unfold n. destruct (Z.ltb_spec (u32 t') (u32 t)).
    - destruct (Z.ltb_spec 4026531840 (u32 t)), (Z.ltb_spec (u32 t') 268435455); cbn [andb]; ulia.
    - ulia. }
  rewrite Hn. rewrite IH by (done || lia). f_equal. rewrite Z.shiftl_mul_pow2 by lia. ulia.
Qed.

(** For times of any size that never go back and never advance by more than
    268435455 milliseconds at once, starting in that margin, the handler gives back
    the times from their low 32 bits. *)
Theorem Unwrap_exact times : steps_ok 0 times →
  Unwraps TimestampWrapAroundHandler_new (u32 <$> times) = times.
Proof. intros Hs. exact (Unwraps_exact_from 0 times (Z.le_refl 0) Hs). Qed.

Lemma Unwrap_exact_witness :
  Unwraps TimestampWrapAroundHandler_new (u32 <$> [5; 200000000; 400000000]) = [5; 200000000; 400000000].
Proof. apply Unwrap_exact. cbn. lia. Defined.
