(* ===== verification/PseudoTcp.v ===== *)
(** * The pseudo-TCP protocol

    The whole of webrtc/p2p/base/pseudotcp.h and pseudotcp.cc: a TCP over datagrams
    with its segments, retransmission, congestion control, window scaling and
    shutdown.

    The state is one record per group of members.  What the object does to the
    outside is recorded in [World]: the packets handed to [TcpWritePacket] and the
    notifications.  The clock and the results of [TcpWritePacket] are parameters
    ([TcpEnv]); notifications do not call back into the object, and m_notify is not
    null.  The code's debug output and the branches of PSEUDO_KEEPALIVE, which is 0,
    are left out.

    Operations return [None] where the C++ has no defined behaviour: an access
    through an iterator past the end of a list, a load outside the packet, a shift by
    32 or more, a division by zero, a store outside the packet buffer.  Loops have
    fuel, and [None] when it runs out. *)

From S2P Require Import Prelude ByteOrder ByteBuffer FifoBuffer TimeUtils.

(** ** Constants *)

Definition PACKET_MAXIMUMS : list Z := [65535; 32000; 17914; 8166; 4352; 2002; 1492; 1006; 508; 296; 0].
Definition MAX_PACKET : Z := 65535.
Definition MIN_PACKET : Z := 296.
Definition IP_HEADER_SIZE : Z := 20.
Definition UDP_HEADER_SIZE : Z := 8.
Definition JINGLE_HEADER_SIZE : Z := 64.
Definition DEFAULT_RCV_BUF_SIZE : Z := 60 * 1024.
Definition DEFAULT_SND_BUF_SIZE : Z := 90 * 1024.
Definition HEADER_SIZE : Z := 24.
Definition PACKET_OVERHEAD : Z := HEADER_SIZE + UDP_HEADER_SIZE + IP_HEADER_SIZE + JINGLE_HEADER_SIZE.
Definition MIN_RTO : Z := 250.
Definition DEF_RTO : Z := 3000.
Definition MAX_RTO : Z := 60000.
Definition DEF_ACK_DELAY : Z := 100.
Definition FLAG_CTL : Z := 2.
Definition FLAG_RST : Z := 4.
Definition CTL_CONNECT : Z := 0.
Definition TCP_OPT_EOL : Z := 0.
Definition TCP_OPT_NOOP : Z := 1.
Definition TCP_OPT_MSS : Z := 2.
Definition TCP_OPT_WND_SCALE : Z := 3.
Definition DEFAULT_TIMEOUT : Z := 4000.
Definition CLOSED_TIMEOUT : Z := 60 * 1000.

(** The error numbers of errno.h that the code uses. *)
Definition EINVAL : Z := 22.
Definition ENOTCONN : Z := 107.
Definition EWOULDBLOCK : Z := 11.
Definition ECONNABORTED : Z := 103.
Definition ECONNRESET : Z := 104.
Definition SOCKET_ERROR : Z := -1.

Inductive WriteResult := WR_SUCCESS | WR_TOO_LARGE | WR_FAIL.
Inductive TcpState := TCP_LISTEN | TCP_SYN_SENT | TCP_SYN_RECEIVED | TCP_ESTABLISHED | TCP_CLOSED.
Inductive Option := OPT_NODELAY | OPT_ACKDELAY | OPT_RCVBUF | OPT_SNDBUF.
Inductive SendFlags := sfNone | sfDelayedAck | sfImmediateAck.
Inductive Shutdown := SD_NONE | SD_GRACEFUL | SD_FORCEFUL.
#[export] Instance TcpState_eq_dec : EqDecision TcpState.
Proof. solve_decision. Defined.
#[export] Instance SendFlags_eq_dec : EqDecision SendFlags.
Proof. solve_decision. Defined.
#[export] Instance Shutdown_eq_dec : EqDecision Shutdown.
Proof. solve_decision. Defined.
#[export] Instance WriteResult_eq_dec : EqDecision WriteResult.
Proof. solve_decision. Defined.

(** Notifications to the user. *)
Inductive TcpEvent := OnTcpOpen | OnTcpReadable | OnTcpWriteable | OnTcpClosed (error : Z).

(** ** State *)

Record Segment := mkSegment {
  seg_conv : Z; seg_seq : Z; seg_ack : Z; seg_flags : Z; seg_wnd : Z;
  seg_data : list Z; seg_len : Z; seg_tsval : Z; seg_tsecr : Z
}.
Record SSegment := mkSSegment { ss_seq : Z; ss_len : Z; ss_xmit : Z; ss_bCtrl : bool }.
Record RSegment := mkRSegment { rs_seq : Z; rs_len : Z }.

Record Conn := mkConn {
  m_shutdown : Shutdown; m_error : Z; m_state : TcpState; m_conv : Z; m_bReadEnable : bool; m_bWriteEnable : bool
}.
Record Traffic := mkTraffic {
  m_bOutgoing : bool; m_lasttraffic : Z; m_lastrecv : Z; m_lastsend : Z; m_ts_lastack : Z; m_t_ack : Z
}.
Record Incoming := mkIncoming {
  m_rlist : list RSegment; m_rbuf_len : Z; m_rcv_nxt : Z; m_rcv_wnd : Z; m_rwnd_scale : Z; m_rbuf : FifoBuffer
}.
Record Outgoing := mkOutgoing {
  m_slist : list SSegment; m_sbuf_len : Z; m_snd_nxt : Z; m_snd_una : Z; m_sbuf : FifoBuffer; m_rto_base : Z
}.
Record Mss := mkMss { m_mss : Z; m_msslevel : Z; m_largest : Z; m_mtu_advise : Z }.
Record Rtt := mkRtt { m_ts_recent : Z; m_rx_rttvar : Z; m_rx_srtt : Z; m_rx_rto : Z }.
Record Congestion := mkCongestion {
  m_ssthresh : Z; m_cwnd : Z; m_dup_acks : Z; m_recover : Z; m_snd_wnd : Z; m_swnd_scale : Z
}.
Record Config := mkConfig { m_use_nagling : bool; m_ack_delay : Z; m_support_wnd_scale : bool }.
(** What the object did to the outside. *)
Record World := mkWorld {
  w_clock : nat;                (* how often the clock was read *)
  w_sent : list (list Z);       (* the packets passed to [TcpWritePacket] *)
  w_events : list TcpEvent
}.

Record PseudoTcp := mkTcp {
  conn :> Conn; traffic :> Traffic; incoming :> Incoming; outgoing :> Outgoing; mss :> Mss; rtt :> Rtt;
  congestion :> Congestion; config :> Config; world :> World
}.

Definition on_conn (f : Conn → Conn) (t : PseudoTcp) : PseudoTcp :=
  mkTcp (f (conn t)) (traffic t) (incoming t) (outgoing t) (mss t) (rtt t) (congestion t) (config t) (world t).
Definition on_traffic (f : Traffic → Traffic) (t : PseudoTcp) : PseudoTcp :=
  mkTcp (conn t) (f (traffic t)) (incoming t) (outgoing t) (mss t) (rtt t) (congestion t) (config t) (world t).
Definition on_incoming (f : Incoming → Incoming) (t : PseudoTcp) : PseudoTcp :=
  mkTcp (conn t) (traffic t) (f (incoming t)) (outgoing t) (mss t) (rtt t) (congestion t) (config t) (world t).
Definition on_outgoing (f : Outgoing → Outgoing) (t : PseudoTcp) : PseudoTcp :=
  mkTcp (conn t) (traffic t) (incoming t) (f (outgoing t)) (mss t) (rtt t) (congestion t) (config t) (world t).
Definition on_mss (f : Mss → Mss) (t : PseudoTcp) : PseudoTcp :=
  mkTcp (conn t) (traffic t) (incoming t) (outgoing t) (f (mss t)) (rtt t) (congestion t) (config t) (world t).
Definition on_rtt (f : Rtt → Rtt) (t : PseudoTcp) : PseudoTcp :=
  mkTcp (conn t) (traffic t) (incoming t) (outgoing t) (mss t) (f (rtt t)) (congestion t) (config t) (world t).
Definition on_congestion (f : Congestion → Congestion) (t : PseudoTcp) : PseudoTcp :=
  mkTcp (conn t) (traffic t) (incoming t) (outgoing t) (mss t) (rtt t) (f (congestion t)) (config t) (world t).
Definition on_config (f : Config → Config) (t : PseudoTcp) : PseudoTcp :=
  mkTcp (conn t) (traffic t) (incoming t) (outgoing t) (mss t) (rtt t) (congestion t) (f (config t)) (world t).
Definition on_world (f : World → World) (t : PseudoTcp) : PseudoTcp :=
  mkTcp (conn t) (traffic t) (incoming t) (outgoing t) (mss t) (rtt t) (congestion t) (config t) (f (world t)).

Definition set_m_shutdown v := on_conn (λ c, mkConn v (m_error c) (m_state c) (m_conv c) (m_bReadEnable c) (m_bWriteEnable c)).
Definition set_m_error v := on_conn (λ c, mkConn (m_shutdown c) v (m_state c) (m_conv c) (m_bReadEnable c) (m_bWriteEnable c)).
Definition set_m_state v := on_conn (λ c, mkConn (m_shutdown c) (m_error c) v (m_conv c) (m_bReadEnable c) (m_bWriteEnable c)).
Definition set_m_bReadEnable v := on_conn (λ c, mkConn (m_shutdown c) (m_error c) (m_state c) (m_conv c) v (m_bWriteEnable c)).
Definition set_m_bWriteEnable v := on_conn (λ c, mkConn (m_shutdown c) (m_error c) (m_state c) (m_conv c) (m_bReadEnable c) v).
Definition set_m_t_ack v := on_traffic (λ c, mkTraffic (m_bOutgoing c) (m_lasttraffic c) (m_lastrecv c) (m_lastsend c) (m_ts_lastack c) v).
Definition set_m_ts_lastack v := on_traffic (λ c, mkTraffic (m_bOutgoing c) (m_lasttraffic c) (m_lastrecv c) (m_lastsend c) v (m_t_ack c)).
Definition set_m_lastsend v := on_traffic (λ c, mkTraffic (m_bOutgoing c) (m_lasttraffic c) (m_lastrecv c) v (m_ts_lastack c) (m_t_ack c)).
Definition set_m_lastrecv v := on_traffic (λ c, mkTraffic (m_bOutgoing c) (m_lasttraffic c) v (m_lastsend c) (m_ts_lastack c) (m_t_ack c)).
Definition set_m_lasttraffic v := on_traffic (λ c, mkTraffic (m_bOutgoing c) v (m_lastrecv c) (m_lastsend c) (m_ts_lastack c) (m_t_ack c)).
Definition set_m_bOutgoing v := on_traffic (λ c, mkTraffic v (m_lasttraffic c) (m_lastrecv c) (m_lastsend c) (m_ts_lastack c) (m_t_ack c)).
Definition set_m_rlist v := on_incoming (λ c, mkIncoming v (m_rbuf_len c) (m_rcv_nxt c) (m_rcv_wnd c) (m_rwnd_scale c) (m_rbuf c)).
Definition set_m_rcv_nxt v := on_incoming (λ c, mkIncoming (m_rlist c) (m_rbuf_len c) v (m_rcv_wnd c) (m_rwnd_scale c) (m_rbuf c)).
Definition set_m_rcv_wnd v := on_incoming (λ c, mkIncoming (m_rlist c) (m_rbuf_len c) (m_rcv_nxt c) v (m_rwnd_scale c) (m_rbuf c)).
Definition set_m_rbuf v := on_incoming (λ c, mkIncoming (m_rlist c) (m_rbuf_len c) (m_rcv_nxt c) (m_rcv_wnd c) (m_rwnd_scale c) v).
Definition set_m_rbuf_len v := on_incoming (λ c, mkIncoming (m_rlist c) v (m_rcv_nxt c) (m_rcv_wnd c) (m_rwnd_scale c) (m_rbuf c)).
Definition set_m_rwnd_scale v := on_incoming (λ c, mkIncoming (m_rlist c) (m_rbuf_len c) (m_rcv_nxt c) (m_rcv_wnd c) v (m_rbuf c)).
Definition set_m_slist v := on_outgoing (λ c, mkOutgoing v (m_sbuf_len c) (m_snd_nxt c) (m_snd_una c) (m_sbuf c) (m_rto_base c)).
Definition set_m_sbuf_len v := on_outgoing (λ c, mkOutgoing (m_slist c) v (m_snd_nxt c) (m_snd_una c) (m_sbuf c) (m_rto_base c)).
Definition set_m_snd_nxt v := on_outgoing (λ c, mkOutgoing (m_slist c) (m_sbuf_len c) v (m_snd_una c) (m_sbuf c) (m_rto_base c)).
Definition set_m_snd_una v := on_outgoing (λ c, mkOutgoing (m_slist c) (m_sbuf_len c) (m_snd_nxt c) v (m_sbuf c) (m_rto_base c)).
Definition set_m_sbuf v := on_outgoing (λ c, mkOutgoing (m_slist c) (m_sbuf_len c) (m_snd_nxt c) (m_snd_una c) v (m_rto_base c)).
Definition set_m_rto_base v := on_outgoing (λ c, mkOutgoing (m_slist c) (m_sbuf_len c) (m_snd_nxt c) (m_snd_una c) (m_sbuf c) v).
Definition set_m_mss v := on_mss (λ c, mkMss v (m_msslevel c) (m_largest c) (m_mtu_advise c)).
Definition set_m_msslevel v := on_mss (λ c, mkMss (m_mss c) v (m_largest c) (m_mtu_advise c)).
Definition set_m_largest v := on_mss (λ c, mkMss (m_mss c) (m_msslevel c) v (m_mtu_advise c)).
Definition set_m_mtu_advise v := on_mss (λ c, mkMss (m_mss c) (m_msslevel c) (m_largest c) v).
Definition set_m_ts_recent v := on_rtt (λ c, mkRtt v (m_rx_rttvar c) (m_rx_srtt c) (m_rx_rto c)).
Definition set_m_rx_rttvar v := on_rtt (λ c, mkRtt (m_ts_recent c) v (m_rx_srtt c) (m_rx_rto c)).
Definition set_m_rx_srtt v := on_rtt (λ c, mkRtt (m_ts_recent c) (m_rx_rttvar c) v (m_rx_rto c)).
Definition set_m_rx_rto v := on_rtt (λ c, mkRtt (m_ts_recent c) (m_rx_rttvar c) (m_rx_srtt c) v).
Definition set_m_ssthresh v := on_congestion (λ c, mkCongestion v (m_cwnd c) (m_dup_acks c) (m_recover c) (m_snd_wnd c) (m_swnd_scale c)).
Definition set_m_cwnd v := on_congestion (λ c, mkCongestion (m_ssthresh c) v (m_dup_acks c) (m_recover c) (m_snd_wnd c) (m_swnd_scale c)).
Definition set_m_dup_acks v := on_congestion (λ c, mkCongestion (m_ssthresh c) (m_cwnd c) v (m_recover c) (m_snd_wnd c) (m_swnd_scale c)).
Definition set_m_recover v := on_congestion (λ c, mkCongestion (m_ssthresh c) (m_cwnd c) (m_dup_acks c) v (m_snd_wnd c) (m_swnd_scale c)).
Definition set_m_snd_wnd v := on_congestion (λ c, mkCongestion (m_ssthresh c) (m_cwnd c) (m_dup_acks c) (m_recover c) v (m_swnd_scale c)).
Definition set_m_swnd_scale v := on_congestion (λ c, mkCongestion (m_ssthresh c) (m_cwnd c) (m_dup_acks c) (m_recover c) (m_snd_wnd c) v).
Definition set_m_use_nagling v := on_config (λ c, mkConfig v (m_ack_delay c) (m_support_wnd_scale c)).
Definition set_m_ack_delay v := on_config (λ c, mkConfig (m_use_nagling c) v (m_support_wnd_scale c)).
Definition set_m_support_wnd_scale v := on_config (λ c, mkConfig (m_use_nagling c) (m_ack_delay c) v).

(** The callbacks of [IPseudoTcpNotify] other than [TcpWritePacket]. *)
Definition notify (e : TcpEvent) : PseudoTcp → PseudoTcp :=
  on_world (λ w, mkWorld (w_clock w) (w_sent w) (w_events w ++ [e])).

(** ** Environment *)

Declare Scope tcp_scope.

Class TcpEnv := {
  clock_at : nat → Z;            (* the n-th reading of the clock *)
  clock_u32 : ∀ n, is_u32 (clock_at n);
  TcpWritePacket : list (list Z) → list Z → WriteResult   (* after the packets before it *)
}.

(** Sequencing of steps that may have no defined behaviour; the state that a step
    returns has the type of the whole state. *)
Notation "'let*' x ':=' e 'in' k" := (match e with Some x => k | None => None end)
  (at level 10, x name, e at level 100, k at level 200) : tcp_scope.
Notation "'let*' ( x , y ) ':=' e 'in' k" := (match e with Some (x, y) => k | None => None end)
  (at level 10, x name, y name, e at level 100, k at level 200) : tcp_scope.
#[local] Open Scope tcp_scope.

(** A left shift of a 32-bit word. *)
Definition shl32 (v n : Z) : option Z := if n <? 32 then Some (u32 (Z.shiftl v n)) else None.
(** A division of 32-bit words. *)
Definition div32 (a b : Z) : option Z := if b =? 0 then None else Some (a / b).

Section Protocol.
Context `{Platform} `{TcpEnv}.

Definition Now (t : PseudoTcp) : Z * PseudoTcp :=
  (clock_at (w_clock t), on_world (λ w, mkWorld (S (w_clock w)) (w_sent w) (w_events w)) t).

Definition long_to_bytes (val : Z) (p : Z) (buf : list Z) : list Z := splice p (host_store 4 (HostToNetwork32 val)) buf.
Definition short_to_bytes (val : Z) (p : Z) (buf : list Z) : list Z := splice p (host_store 2 (HostToNetwork16 val)) buf.
(** [None] when the load is not inside the packet. *)
Definition bytes_to_long (buf : list Z) (p : Z) : option Z :=
  if p + 4 <=? zlen buf then Some (NetworkToHost32 (host_load (ztake 4 (zdrop p buf)))) else None.
Definition bytes_to_short (buf : list Z) (p : Z) : option Z :=
  if p + 2 <=? zlen buf then Some (NetworkToHost16 (host_load (ztake 2 (zdrop p buf)))) else None.
Definition bound (lower middle upper : Z) : Z := Z.min (Z.max lower middle) upper.

Definition PseudoTcp_new (conv : Z) : PseudoTcp :=
  let m_rbuf_len := DEFAULT_RCV_BUF_SIZE in
  let m_sbuf_len := DEFAULT_SND_BUF_SIZE in
  let now := clock_at 0 in
  let m_mss := MIN_PACKET - PACKET_OVERHEAD in
  mkTcp
    (mkConn SD_NONE 0 TCP_LISTEN conv true false)
    (mkTraffic false now now now 0 0)
    (mkIncoming [] m_rbuf_len 0 m_rbuf_len 0 (FifoBuffer_new m_rbuf_len))
    (mkOutgoing [] m_sbuf_len 0 0 (FifoBuffer_new m_sbuf_len) 0)
    (mkMss m_mss 0 0 MAX_PACKET)
    (mkRtt 0 0 0 DEF_RTO)
    (mkCongestion m_rbuf_len (2 * m_mss) 0 0 1 0)
    (mkConfig true DEF_ACK_DELAY true)
    (mkWorld 1 [] []).

(** ** Sending *)

Definition queue (data : list Z) (bCtrl : bool) (t : PseudoTcp) : Z * PseudoTcp :=
  let available_space := GetWriteRemaining (m_sbuf t) in
  let len := u32 (zlen data) in
  let len := if u32 available_space <? len then u32 available_space else len in
  let new_segment := mkSSegment (u32 (m_snd_una t + GetBuffered (m_sbuf t))) len 0 bCtrl in
  let slist :=
    match rev (m_slist t) with
    | [] => [new_segment]
    | s :: l =>
        if bool_decide (ss_bCtrl s = bCtrl) && (ss_xmit s =? 0)
        then rev l ++ [mkSSegment (ss_seq s) (u32 (ss_len s + len)) (ss_xmit s) (ss_bCtrl s)]
        else m_slist t ++ [new_segment]
    end in
  let '(_, written, sbuf) := Fifo_Write (m_sbuf t) (ztake len data) in
  (u32 written, set_m_sbuf sbuf (set_m_slist slist t)).

(** The packet buffer, before the payload. *)
Definition packet_header (t : PseudoTcp) (seq flags now : Z) : list Z :=
  let buffer := fresh_block MAX_PACKET in
  let buffer := long_to_bytes (m_conv t) 0 buffer in
  let buffer := long_to_bytes seq 4 buffer in
  let buffer := long_to_bytes (m_rcv_nxt t) 8 buffer in
  let buffer := splice 12 [0] buffer in
  let buffer := splice 13 [flags] buffer in
  let buffer := short_to_bytes (u16 (Z.shiftr (m_rcv_wnd t) (m_rwnd_scale t))) 14 buffer in
  let buffer := long_to_bytes now 16 buffer in
  long_to_bytes (m_ts_recent t) 20 buffer.

Definition packet (seq flags offset len : Z) (t : PseudoTcp) : option (WriteResult * PseudoTcp) :=
  let '(now, t) := Now t in
  let buffer := packet_header t seq flags now in
  let t := set_m_ts_lastack (m_rcv_nxt t) t in
  let data := if negb (len =? 0) then (ReadOffset (m_sbuf t) len offset).2 else [] in
  if MAX_PACKET <? HEADER_SIZE + zlen data then None
  else
    let buffer := splice HEADER_SIZE data buffer in
    if MAX_PACKET <? u32 (len + HEADER_SIZE) then None
    else
      let bytes := ztake (u32 (len + HEADER_SIZE)) buffer in
      let wres := TcpWritePacket (w_sent t) bytes in
      let t := on_world (λ w, mkWorld (w_clock w) (w_sent w ++ [bytes]) (w_events w)) t in
      if negb (bool_decide (wres = WR_SUCCESS)) && negb (len =? 0) then Some (wres, t)
      else
        let t := set_m_t_ack 0 t in
        let t := if 0 <? len then set_m_lastsend now t else t in
        let t := set_m_lasttraffic now t in
        Some (WR_SUCCESS, set_m_bOutgoing true t).

(** The inner loop of [transmit]: [None] in the result when the function returns
    false. *)
Fixpoint lower_mss (fuel : nat) (nTransmit : Z) (t : PseudoTcp) : option (option Z * PseudoTcp) :=
  match fuel with
  | O => None
  | S f =>
      let* next := zat (m_msslevel t + 1) PACKET_MAXIMUMS in
      if next =? 0 then Some (None, t)
      else
        let t := set_m_msslevel (m_msslevel t + 1) t in
        let t := set_m_mss (u32 (next - PACKET_OVERHEAD)) t in
        let t := set_m_cwnd (u32 (2 * m_mss t)) t in
        if m_mss t <? nTransmit then Some (Some (m_mss t), t) else lower_mss f nTransmit t
  end.

(** The outer loop: sends the packet, smaller each time the network refuses its
    size.  [None] in the result when the function returns false. *)
Fixpoint transmit_packet (fuel : nat) (seg : SSegment) (nTransmit : Z) (t : PseudoTcp)
    : option (option Z * PseudoTcp) :=
  match fuel with
  | O => None
  | S f =>
      let flags := if ss_bCtrl seg then FLAG_CTL else 0 in
      let* (wres, t) := packet (ss_seq seg) flags (u32 (ss_seq seg - m_snd_una t)) nTransmit t in
      match wres with
      | WR_SUCCESS => Some (Some nTransmit, t)
      | WR_FAIL => Some (None, t)
      | WR_TOO_LARGE =>
          let* (r, t) := lower_mss 12 nTransmit t in
          match r with
          | None => Some (None, t)
          | Some nTransmit => transmit_packet f seg nTransmit t
          end
      end
  end.

(** The segment is the [i]-th of the list. *)
Definition transmit (i : nat) (now : Z) (t : PseudoTcp) : option (bool * PseudoTcp) :=
  let* seg := m_slist t !! i in
  if (if bool_decide (m_state t = TCP_ESTABLISHED) then 15 else 30) <=? ss_xmit seg then Some (false, t)
  else
    let* (r, t) := transmit_packet 12 seg (Z.min (ss_len seg) (m_mss t)) t in
    match r with
    | None => Some (false, t)
    | Some nTransmit =>
        let sub :=
          if nTransmit <? ss_len seg
          then [mkSSegment (u32 (ss_seq seg + nTransmit)) (ss_len seg - nTransmit) (ss_xmit seg) (ss_bCtrl seg)]
          else [] in
        let len := if nTransmit <? ss_len seg then nTransmit else ss_len seg in
        let t := if ss_xmit seg =? 0 then set_m_snd_nxt (u32 (m_snd_nxt t + len)) t else t in
        let seg' := mkSSegment (ss_seq seg) len (u8 (ss_xmit seg + 1)) (ss_bCtrl seg) in
        let t := set_m_slist (take i (m_slist t) ++ [seg'] ++ sub ++ drop (S i) (m_slist t)) t in
        Some (true, if m_rto_base t =? 0 then set_m_rto_base now t else t)
    end.

(** The position of the first segment that was not transmitted. *)
Fixpoint first_unsent (l : list SSegment) : option nat :=
  match l with
  | [] => None
  | s :: l => if 0 <? ss_xmit s then S <$> first_unsent l else Some 0%nat
  end.

(** How much may be sent now. *)
Definition send_amount (t : PseudoTcp) : Z :=
  let cwnd := if (m_dup_acks t =? 1) || (m_dup_acks t =? 2)
              then u32 (m_cwnd t + u32 (m_dup_acks t * m_mss t)) else m_cwnd t in
  let nWindow := Z.min (m_snd_wnd t) cwnd in
  let nInFlight := u32 (m_snd_nxt t - m_snd_una t) in
  let nUseable := if nInFlight <? nWindow then nWindow - nInFlight else 0 in
  let nAvailable := Z.min (u32 (u32 (GetBuffered (m_sbuf t)) - nInFlight)) (m_mss t) in
  if nUseable <? nAvailable then (if u32 (nUseable * 4) <? nWindow then 0 else nUseable) else nAvailable.

Fixpoint attemptSend_loop (fuel : nat) (now : Z) (sflags : SendFlags) (t : PseudoTcp) : option PseudoTcp :=
  match fuel with
  | O => None
  | S f =>
      let nAvailable := send_amount t in
      if nAvailable =? 0 then
        if bool_decide (sflags = sfNone) then Some t
        else if bool_decide (sflags = sfImmediateAck) || negb (m_t_ack t =? 0) then
          snd <$> packet (m_snd_nxt t) 0 0 0 t
        else
          let '(now, t) := Now t in Some (set_m_t_ack now t)
      else if m_use_nagling t && (m_snd_una t <? m_snd_nxt t) && (nAvailable <? m_mss t) then Some t
      else
        let* i := first_unsent (m_slist t) in
        let* seg := m_slist t !! i in
        let t :=
          if nAvailable <? ss_len seg then
            let subseg := mkSSegment (u32 (ss_seq seg + nAvailable)) (ss_len seg - nAvailable) 0 (ss_bCtrl seg) in
            let seg' := mkSSegment (ss_seq seg) nAvailable (ss_xmit seg) (ss_bCtrl seg) in
            set_m_slist (take i (m_slist t) ++ [seg'; subseg] ++ drop (S i) (m_slist t)) t
          else t in
        let* (ok, t) := transmit i now t in
        if negb ok then Some t else attemptSend_loop f now sfNone t
  end.

(** Every round of the loop but the last sends at least one byte of the buffer. *)
Definition attemptSend (sflags : SendFlags) (t : PseudoTcp) : option PseudoTcp :=
  let '(now, t) := Now t in
  let t := if m_rx_rto t <? TimeDiff now (m_lastsend t) then set_m_cwnd (m_mss t) t else t in
  attemptSend_loop (S (S (Z.to_nat (GetBuffered (m_sbuf t))))) now sflags t.

Definition closedown (err : Z) (t : PseudoTcp) : PseudoTcp := notify (OnTcpClosed err) (set_m_state TCP_CLOSED t).

(** The level of the loop of [adjustMTU]. *)
Fixpoint mtu_level (fuel : nat) (level advise : Z) : option Z :=
  match fuel with
  | O => None
  | S f =>
      let* next := zat (level + 1) PACKET_MAXIMUMS in
      if negb (0 <? next) then Some level
      else
        let* this := zat level PACKET_MAXIMUMS in
        if this <=? advise then Some level else mtu_level f (level + 1) advise
  end.

Definition adjustMTU (t : PseudoTcp) : option PseudoTcp :=
  let* level := mtu_level 12 0 (m_mtu_advise t) in
  let t := set_m_msslevel level t in
  let t := set_m_mss (u32 (m_mtu_advise t - PACKET_OVERHEAD)) t in
  let t := set_m_ssthresh (Z.max (m_ssthresh t) (u32 (2 * m_mss t))) t in
  Some (set_m_cwnd (Z.max (m_cwnd t) (m_mss t)) t).

Definition isReceiveBufferFull (t : PseudoTcp) : bool := GetWriteRemaining (m_rbuf t) =? 0.
Definition disableWindowScale (t : PseudoTcp) : PseudoTcp := set_m_support_wnd_scale false t.

Definition queueConnectMessage (t : PseudoTcp) : PseudoTcp :=
  let buf := WriteUInt8 (ByteBuffer_new ORDER_NETWORK) CTL_CONNECT in
  let buf :=
    if m_support_wnd_scale t
    then WriteUInt8 (WriteUInt8 (WriteUInt8 buf TCP_OPT_WND_SCALE) 1) (m_rwnd_scale t)
    else buf in
  let t := set_m_snd_wnd (u32 (Length buf)) t in
  (queue (Data buf) true t).2.

(** ** Options and buffers *)

Definition resizeSendBuffer (new_size : Z) (t : PseudoTcp) : PseudoTcp :=
  set_m_sbuf (SetCapacity (m_sbuf t) new_size).2 (set_m_sbuf_len new_size t).

(** The loop of [resizeReceiveBuffer]: the scale factor and the size shifted by it. *)
Fixpoint scale_down (fuel : nat) (scale_factor new_size : Z) : option (Z * Z) :=
  match fuel with
  | O => None
  | S f => if 65535 <? new_size then scale_down f (u8 (scale_factor + 1)) (Z.shiftr new_size 1)
           else Some (scale_factor, new_size)
  end.

Definition resizeReceiveBuffer (new_size : Z) (t : PseudoTcp) : option PseudoTcp :=
  let* (scale_factor, new_size) := scale_down 33 0 new_size in
  let* new_size := shl32 new_size scale_factor in
  let t := set_m_rbuf (SetCapacity (m_rbuf t) new_size).2 t in
  let t := set_m_rbuf_len new_size t in
  let t := set_m_rwnd_scale scale_factor t in
  let t := set_m_ssthresh new_size t in
  Some (set_m_rcv_wnd (u32 (GetWriteRemaining (m_rbuf t))) t).

Definition applyWindowScaleOption (scale_factor : Z) (t : PseudoTcp) : PseudoTcp := set_m_swnd_scale scale_factor t.

Definition applyOption (kind : Z) (data : list Z) (len : Z) (t : PseudoTcp) : PseudoTcp :=
  if kind =? TCP_OPT_MSS then t
  else if kind =? TCP_OPT_WND_SCALE then
    if negb (len =? 1) then t else applyWindowScaleOption (zget 0 data) t
  else t.

(** The loop of [parseOptions]; the result is the list of the options specified, or
    [None] when the function returns from inside the loop. *)
Fixpoint parseOptions_loop (fuel : nat) (buf : ByteBuffer) (options_specified : list Z) (t : PseudoTcp)
    : option (option (list Z) * PseudoTcp) :=
  match fuel with
  | O => None
  | S f =>
      if Length buf =? 0 then Some (Some options_specified, t)
      else
        let '(kind, buf) := match ReadUInt8 buf with Some (kind, buf) => (kind, buf) | None => (TCP_OPT_EOL, buf) end in
        if kind =? TCP_OPT_EOL then Some (Some options_specified, t)
        else if kind =? TCP_OPT_NOOP then parseOptions_loop f buf options_specified t
        else
          let '(opt_len, buf) := match ReadUInt8 buf with Some (l, buf) => (l, buf) | None => (0, buf) end in
          if opt_len <=? Length buf then
            let t := applyOption kind (Data buf) opt_len t in
            let buf := match Consume buf opt_len with Some buf => buf | None => buf end in
            parseOptions_loop f buf (options_specified ++ [kind]) t
          else Some (None, t)
  end.

Definition parseOptions (data : list Z) (t : PseudoTcp) : option PseudoTcp :=
  let* (r, t) := parseOptions_loop (S (length data)) (ByteBuffer_of data ORDER_NETWORK) [] t in
  match r with
  | None => Some t
  | Some options_specified =>
      if bool_decide (TCP_OPT_WND_SCALE ∈ options_specified) then Some t
      else if 0 <? m_rwnd_scale t then
        let* t := resizeReceiveBuffer DEFAULT_RCV_BUF_SIZE t in
        Some (set_m_swnd_scale 0 t)
      else Some t
  end.

(** ** Receiving a segment *)

(** The steps of [process], in order.  [Some b] in the result when the function
    returns [b]. *)

(** Control data; the second component is bConnect. *)
Definition process_control (seg : Segment) (t : PseudoTcp) : option (option bool * (bool * PseudoTcp)) :=
  if negb (Z.land (seg_flags seg) FLAG_CTL =? 0) then
    if seg_len seg =? 0 then Some (Some false, (false, t))
    else if zget 0 (seg_data seg) =? CTL_CONNECT then
      let* t := parseOptions (zdrop 1 (seg_data seg)) t in
      match m_state t with
      | TCP_LISTEN => Some (None, (true, queueConnectMessage (set_m_state TCP_SYN_RECEIVED t)))
      | TCP_SYN_SENT =>
          let* t := adjustMTU (set_m_state TCP_ESTABLISHED t) in
          Some (None, (true, notify OnTcpOpen t))
      | _ => Some (None, (true, t))
      end
    else Some (Some false, (false, t))
  else Some (None, (false, t)).

(** The round-trip time of an acknowledgement. *)
Definition process_rtt (seg : Segment) (now : Z) (t : PseudoTcp) : PseudoTcp :=
  if negb (seg_tsecr seg =? 0) then
    let rtt := TimeDiff now (seg_tsecr seg) in
    if 0 <=? rtt then
      let t :=
        if m_rx_srtt t =? 0 then set_m_rx_rttvar (rtt / 2) (set_m_rx_srtt rtt t)
        else
          let unsigned_rtt := u32 rtt in
          let abs_err := if m_rx_srtt t <? unsigned_rtt then unsigned_rtt - m_rx_srtt t
                         else m_rx_srtt t - unsigned_rtt in
          let t := set_m_rx_rttvar (u32 (u32 (3 * m_rx_rttvar t) + abs_err) / 4) t in
          set_m_rx_srtt (u32 (u32 (7 * m_rx_srtt t) + rtt) / 8) t in
      set_m_rx_rto (bound MIN_RTO (u32 (m_rx_srtt t + Z.max 1 (u32 (4 * m_rx_rttvar t)))) MAX_RTO) t
    else t
  else t.

(** Removes acknowledged bytes from the segments; the second result is m_largest. *)
Fixpoint free_segments (slist : list SSegment) (nFree largest : Z) : option (list SSegment * Z) :=
  if negb (0 <? nFree) then Some (slist, largest)
  else
    match slist with
    | [] => None
    | s :: l =>
        if nFree <? ss_len s
        then Some (mkSSegment (ss_seq s) (ss_len s - nFree) (ss_xmit s) (ss_bCtrl s) :: l, largest)
        else free_segments l (nFree - ss_len s) (if largest <? ss_len s then ss_len s else largest)
    end.

(** After an acknowledgement of new data. *)
Definition process_window (now nAcked : Z) (t : PseudoTcp) : option (option bool * PseudoTcp) :=
  if 3 <=? m_dup_acks t then
    if m_recover t <=? m_snd_una t then
      let nInFlight := u32 (m_snd_nxt t - m_snd_una t) in
      let t := set_m_cwnd (Z.min (m_ssthresh t) (u32 (nInFlight + m_mss t))) t in
      Some (None, set_m_dup_acks 0 t)
    else
      let* (ok, t) := transmit 0 now t in
      if negb ok then Some (Some false, closedown ECONNABORTED t)
      else Some (None, set_m_cwnd (u32 (m_cwnd t + (m_mss t - Z.min nAcked (m_cwnd t)))) t)
  else
    let t := set_m_dup_acks 0 t in
    if m_cwnd t <? m_ssthresh t then Some (None, set_m_cwnd (u32 (m_cwnd t + m_mss t)) t)
    else
      let* q := div32 (u32 (m_mss t * m_mss t)) (m_cwnd t) in
      Some (None, set_m_cwnd (u32 (m_cwnd t + Z.max 1 q)) t).

Definition process_new_ack (seg : Segment) (now : Z) (t : PseudoTcp) : option (option bool * PseudoTcp) :=
  let t := process_rtt seg now t in
  let* wnd := shl32 (seg_wnd seg) (m_swnd_scale t) in
  let t := set_m_snd_wnd wnd t in
  let nAcked := u32 (seg_ack seg - m_snd_una t) in
  let t := set_m_snd_una (seg_ack seg) t in
  let t := set_m_rto_base (if m_snd_una t =? m_snd_nxt t then 0 else now) t in
  let t := set_m_sbuf (ConsumeReadData (m_sbuf t) nAcked) t in
  let* (slist, largest) := free_segments (m_slist t) nAcked (m_largest t) in
  process_window now nAcked (set_m_largest largest (set_m_slist slist t)).

Definition process_dup_ack (seg : Segment) (now : Z) (t : PseudoTcp) : option (option bool * PseudoTcp) :=
  let* wnd := shl32 (seg_wnd seg) (m_swnd_scale t) in
  let t := set_m_snd_wnd wnd t in
  if 0 <? seg_len seg then Some (None, t)
  else if negb (m_snd_una t =? m_snd_nxt t) then
    let t := set_m_dup_acks (u8 (m_dup_acks t + 1)) t in
    if m_dup_acks t =? 3 then
      let* (ok, t) := transmit 0 now t in
      if negb ok then Some (Some false, closedown ECONNABORTED t)
      else
        let t := set_m_recover (m_snd_nxt t) t in
        let nInFlight := u32 (m_snd_nxt t - m_snd_una t) in
        let t := set_m_ssthresh (Z.max (nInFlight / 2) (u32 (2 * m_mss t))) t in
        Some (None, set_m_cwnd (u32 (m_ssthresh t + 3 * m_mss t)) t)
    else if 3 <? m_dup_acks t then Some (None, set_m_cwnd (u32 (m_cwnd t + m_mss t)) t)
    else Some (None, t)
  else Some (None, set_m_dup_acks 0 t).

Definition process_ack (seg : Segment) (now : Z) (t : PseudoTcp) : option (option bool * PseudoTcp) :=
  if (m_snd_una t <? seg_ack seg) && (seg_ack seg <=? m_snd_nxt t) then process_new_ack seg now t
  else if seg_ack seg =? m_snd_una t then process_dup_ack seg now t
  else Some (None, t).

Definition process_established (bConnect : bool) (t : PseudoTcp) : option PseudoTcp :=
  if bool_decide (m_state t = TCP_SYN_RECEIVED) && negb bConnect then
    let* t := adjustMTU (set_m_state TCP_ESTABLISHED t) in
    Some (notify OnTcpOpen t)
  else Some t.

Definition process_writeable (t : PseudoTcp) : PseudoTcp :=
  let kIdealRefillSize := u32 (m_sbuf_len t + m_rbuf_len t) / 2 in
  if m_bWriteEnable t && (u32 (GetBuffered (m_sbuf t)) <? kIdealRefillSize)
  then notify OnTcpWriteable (set_m_bWriteEnable false t) else t.

Definition ack_flags (seg : Segment) (t : PseudoTcp) : SendFlags :=
  if negb (seg_seq seg =? m_rcv_nxt t) then sfImmediateAck
  else if negb (seg_len seg =? 0) then (if m_ack_delay t =? 0 then sfImmediateAck else sfDelayedAck)
  else sfNone.

(** The part of the segment that fits the receive buffer. *)
Definition set_seg (seq len : Z) (data : list Z) (seg : Segment) : Segment :=
  mkSegment (seg_conv seg) seq (seg_ack seg) (seg_flags seg) (seg_wnd seg) data len (seg_tsval seg) (seg_tsecr seg).
Definition trim_front (seg : Segment) (t : PseudoTcp) : Segment :=
  if seg_seq seg <? m_rcv_nxt t then
    let nAdjust := m_rcv_nxt t - seg_seq seg in
    if nAdjust <? seg_len seg
    then set_seg (u32 (seg_seq seg + nAdjust)) (seg_len seg - nAdjust) (zdrop nAdjust (seg_data seg)) seg
    else set_seg (seg_seq seg) 0 (seg_data seg) seg
  else seg.
Definition trim_back (seg : Segment) (t : PseudoTcp) : Segment :=
  let available_space := u32 (GetWriteRemaining (m_rbuf t)) in
  let extent := u32 (seg_seq seg + seg_len seg - m_rcv_nxt t) in
  if available_space <? extent then
    let nAdjust := u32 (extent - available_space) in
    if nAdjust <? seg_len seg
    then set_seg (seg_seq seg) (seg_len seg - nAdjust) (seg_data seg) seg
    else set_seg (seg_seq seg) 0 (seg_data seg) seg
  else seg.

(** The segments that were saved and are now in order. *)
Fixpoint recover_segments (rlist : list RSegment) (sflags : SendFlags) (c : Incoming) : SendFlags * Incoming :=
  match rlist with
  | [] => (sflags, mkIncoming [] (m_rbuf_len c) (m_rcv_nxt c) (m_rcv_wnd c) (m_rwnd_scale c) (m_rbuf c))
  | it :: rest =>
      if rs_seq it <=? m_rcv_nxt c then
        let upto := u32 (rs_seq it + rs_len it) in
        if m_rcv_nxt c <? upto then
          let nAdjust := upto - m_rcv_nxt c in
          recover_segments rest sfImmediateAck
            (mkIncoming rest (m_rbuf_len c) (u32 (m_rcv_nxt c + nAdjust)) (u32 (m_rcv_wnd c - nAdjust))
               (m_rwnd_scale c) (ConsumeWriteBuffer (m_rbuf c) nAdjust))
        else recover_segments rest sflags c
      else (sflags, mkIncoming rlist (m_rbuf_len c) (m_rcv_nxt c) (m_rcv_wnd c) (m_rwnd_scale c) (m_rbuf c))
  end.

Fixpoint insert_rsegment (rseg : RSegment) (rlist : list RSegment) : list RSegment :=
  match rlist with
  | [] => [rseg]
  | it :: rest => if rs_seq it <? rs_seq rseg then it :: insert_rsegment rseg rest else rseg :: rlist
  end.

(** Stores the data; the results are sflags and bNewData. *)
Definition process_data (seg : Segment) (sflags : SendFlags) (t : PseudoTcp) : SendFlags * bool * PseudoTcp :=
  let bIgnoreData := negb (Z.land (seg_flags seg) FLAG_CTL =? 0) || negb (bool_decide (m_shutdown t = SD_NONE)) in
  if 0 <? seg_len seg then
    if bIgnoreData then
      (sflags, false, if seg_seq seg =? m_rcv_nxt t then set_m_rcv_nxt (u32 (m_rcv_nxt t + seg_len seg)) t else t)
    else
      let nOffset := u32 (seg_seq seg - m_rcv_nxt t) in
      let '(_, _, rbuf) := WriteOffset (m_rbuf t) (ztake (seg_len seg) (seg_data seg)) nOffset in
      let t := set_m_rbuf rbuf t in
      if seg_seq seg =? m_rcv_nxt t then
        let t := set_m_rbuf (ConsumeWriteBuffer (m_rbuf t) (seg_len seg)) t in
        let t := set_m_rcv_nxt (u32 (m_rcv_nxt t + seg_len seg)) t in
        let t := set_m_rcv_wnd (u32 (m_rcv_wnd t - seg_len seg)) t in
        let '(sflags, c) := recover_segments (m_rlist t) sflags (incoming t) in
        (sflags, true, on_incoming (λ _, c) t)
      else
        (sflags, false, set_m_rlist (insert_rsegment (mkRSegment (seg_seq seg) (seg_len seg)) (m_rlist t)) t)
  else (sflags, false, t).

(** What [process] does after the checks and the acknowledgement. *)
Definition process_receive (seg : Segment) (t : PseudoTcp) : option (bool * PseudoTcp) :=
  let t := process_writeable t in
  let sflags := ack_flags seg t in
  let seg := trim_front seg t in
  let seg := trim_back seg t in
  let '(sflags, bNewData, t) := process_data seg sflags t in
  let* t := attemptSend sflags t in
  Some (true, if bNewData && m_bReadEnable t then notify OnTcpReadable (set_m_bReadEnable false t) else t).

Definition process (seg : Segment) (t : PseudoTcp) : option (bool * PseudoTcp) :=
  if negb (seg_conv seg =? m_conv t) then Some (false, t)
  else
    let '(now, t) := Now t in
    let t := set_m_lasttraffic now (set_m_lastrecv now t) in
    let t := set_m_bOutgoing false t in
    if bool_decide (m_state t = TCP_CLOSED) then Some (false, t)
    else if negb (Z.land (seg_flags seg) FLAG_RST =? 0) then Some (false, closedown ECONNRESET t)
    else
      let* (r, p) := process_control seg t in
      let '(bConnect, t) := p in
      match r with
      | Some b => Some (b, t)
      | None =>
          let t := if (seg_seq seg <=? m_ts_lastack t) && (m_ts_lastack t <? u32 (seg_seq seg + seg_len seg))
                   then set_m_ts_recent (seg_tsval seg) t else t in
          let* (r, t) := process_ack seg now t in
          match r with
          | Some b => Some (b, t)
          | None =>
              let* t := process_established bConnect t in
              process_receive seg t
          end
      end.

Definition parse (buffer : list Z) (t : PseudoTcp) : option (bool * PseudoTcp) :=
  let size := u32 (zlen buffer) in
  if size <? 12 then Some (false, t)
  else
    let* conv := bytes_to_long buffer 0 in
    let* seq := bytes_to_long buffer 4 in
    let* ack := bytes_to_long buffer 8 in
    let* flags := zat 13 buffer in
    let* wnd := bytes_to_short buffer 14 in
    let* tsval := bytes_to_long buffer 16 in
    let* tsecr := bytes_to_long buffer 20 in
    process (mkSegment conv seq ack flags wnd (zdrop HEADER_SIZE buffer) (u32 (size - HEADER_SIZE)) tsval tsecr) t.

(** ** The interface *)

Definition Connect (t : PseudoTcp) : option (Z * PseudoTcp) :=
  if negb (bool_decide (m_state t = TCP_LISTEN)) then Some (-1, set_m_error EINVAL t)
  else
    let t := set_m_state TCP_SYN_SENT t in
    let t := queueConnectMessage t in
    let* t := attemptSend sfNone t in
    Some (0, t).

Definition NotifyMTU (mtu : Z) (t : PseudoTcp) : option PseudoTcp :=
  let t := set_m_mtu_advise mtu t in
  if bool_decide (m_state t = TCP_ESTABLISHED) then adjustMTU t else Some t.

Definition before_established (s : TcpState) : bool :=
  match s with TCP_LISTEN | TCP_SYN_SENT | TCP_SYN_RECEIVED => true | _ => false end.

(** The retransmission step of [NotifyClock]; false when the function returns. *)
Definition clock_retransmit (now : Z) (t : PseudoTcp) : option (bool * PseudoTcp) :=
  if negb (m_rto_base t =? 0) && (TimeDiff (u32 (m_rto_base t + m_rx_rto t)) now <=? 0) then
    match m_slist t with
    | [] => Some (true, t)
    | _ =>
        let* (ok, t) := transmit 0 now t in
        if negb ok then Some (false, closedown ECONNABORTED t)
        else
          let nInFlight := u32 (m_snd_nxt t - m_snd_una t) in
          let t := set_m_ssthresh (Z.max (nInFlight / 2) (u32 (2 * m_mss t))) t in
          let t := set_m_cwnd (m_mss t) t in
          let rto_limit := if before_established (m_state t) then DEF_RTO else MAX_RTO in
          let t := set_m_rx_rto (Z.min rto_limit (u32 (m_rx_rto t * 2))) t in
          Some (true, set_m_rto_base now t)
    end
  else Some (true, t).

(** The probe of a closed window. *)
Definition clock_probe (now : Z) (t : PseudoTcp) : option (bool * PseudoTcp) :=
  if (m_snd_wnd t =? 0) && (TimeDiff (u32 (m_lastsend t + m_rx_rto t)) now <=? 0) then
    if 15000 <=? TimeDiff now (m_lastrecv t) then Some (false, closedown ECONNABORTED t)
    else
      let* (_, t) := packet (u32 (m_snd_nxt t - 1)) 0 0 0 t in
      let t := set_m_lastsend now t in
      Some (true, set_m_rx_rto (Z.min MAX_RTO (u32 (m_rx_rto t * 2))) t)
  else Some (true, t).

Definition NotifyClock (now : Z) (t : PseudoTcp) : option PseudoTcp :=
  if bool_decide (m_state t = TCP_CLOSED) then Some t
  else
    let* (continue, t) := clock_retransmit now t in
    if negb continue then Some t
    else
      let* (continue, t) := clock_probe now t in
      if negb continue then Some t
      else if negb (m_t_ack t =? 0) && (TimeDiff (u32 (m_t_ack t + m_ack_delay t)) now <=? 0)
      then snd <$> packet (m_snd_nxt t) 0 0 0 t
      else Some t.

Definition NotifyPacket (buffer : list Z) (t : PseudoTcp) : option (bool * PseudoTcp) :=
  if MAX_PACKET <? zlen buffer then Some (false, t) else parse buffer t.

(** The timeout, or [None] when the function returns false. *)
Definition clock_check (now : Z) (t : PseudoTcp) : option Z :=
  if bool_decide (m_shutdown t = SD_FORCEFUL) then None
  else if bool_decide (m_shutdown t = SD_GRACEFUL) &&
          (negb (bool_decide (m_state t = TCP_ESTABLISHED)) ||
           (GetBuffered (m_sbuf t) =? 0) && (m_t_ack t =? 0)) then None
  else if bool_decide (m_state t = TCP_CLOSED) then Some CLOSED_TIMEOUT
  else
    let nTimeout := DEFAULT_TIMEOUT in
    let nTimeout := if negb (m_t_ack t =? 0)
                    then Z.min nTimeout (TimeDiff (u32 (m_t_ack t + m_ack_delay t)) now) else nTimeout in
    let nTimeout := if negb (m_rto_base t =? 0)
                    then Z.min nTimeout (TimeDiff (u32 (m_rto_base t + m_rx_rto t)) now) else nTimeout in
    Some (if m_snd_wnd t =? 0 then Z.min nTimeout (TimeDiff (u32 (m_lastsend t + m_rx_rto t)) now) else nTimeout).
Definition GetNextClock (now : Z) (t : PseudoTcp) : option Z := clock_check now t.

Definition GetOption (opt : Option) (t : PseudoTcp) : Z :=
  match opt with
  | OPT_NODELAY => if m_use_nagling t then 0 else 1
  | OPT_ACKDELAY => i32 (m_ack_delay t)
  | OPT_SNDBUF => i32 (m_sbuf_len t)
  | OPT_RCVBUF => i32 (m_rbuf_len t)
  end.
Definition SetOption (opt : Option) (value : Z) (t : PseudoTcp) : option PseudoTcp :=
  match opt with
  | OPT_NODELAY => Some (set_m_use_nagling (value =? 0) t)
  | OPT_ACKDELAY => Some (set_m_ack_delay (u32 value) t)
  | OPT_SNDBUF => Some (resizeSendBuffer (u32 value) t)
  | OPT_RCVBUF => resizeReceiveBuffer (u32 value) t
  end.

Definition GetCongestionWindow (t : PseudoTcp) : Z := m_cwnd t.
Definition GetBytesInFlight (t : PseudoTcp) : Z := u32 (m_snd_nxt t - m_snd_una t).
Definition GetBytesBufferedNotSent (t : PseudoTcp) : Z := u32 (m_snd_una t + GetBuffered (m_sbuf t) - m_snd_nxt t).
Definition GetRoundTripTimeEstimateMs (t : PseudoTcp) : Z := m_rx_srtt t.

(** The result and the bytes stored in the caller's buffer. *)
Definition Recv (len : Z) (t : PseudoTcp) : option (Z * list Z * PseudoTcp) :=
  if negb (bool_decide (m_state t = TCP_ESTABLISHED)) then Some (SOCKET_ERROR, [], set_m_error ENOTCONN t)
  else
    let '(result, data, rbuf) := Fifo_Read (m_rbuf t) len in
    let t := set_m_rbuf rbuf t in
    if bool_decide (result = SR_BLOCK) then
      Some (SOCKET_ERROR, [], set_m_error EWOULDBLOCK (set_m_bReadEnable true t))
    else
      let available_space := GetWriteRemaining (m_rbuf t) in
      if Z.min (m_rbuf_len t / 2) (m_mss t) <=? u32 (u32 available_space - m_rcv_wnd t) then
        let bWasClosed := m_rcv_wnd t =? 0 in
        let t := set_m_rcv_wnd (u32 available_space) t in
        if bWasClosed then
          let* t := attemptSend sfImmediateAck t in Some (i32 (zlen data), data, t)
        else Some (i32 (zlen data), data, t)
      else Some (i32 (zlen data), data, t).

Definition Send (buffer : list Z) (t : PseudoTcp) : option (Z * PseudoTcp) :=
  if negb (bool_decide (m_state t = TCP_ESTABLISHED)) then Some (SOCKET_ERROR, set_m_error ENOTCONN t)
  else if GetWriteRemaining (m_sbuf t) =? 0 then
    Some (SOCKET_ERROR, set_m_error EWOULDBLOCK (set_m_bWriteEnable true t))
  else
    let '(written, t) := queue buffer false t in
    let* t := attemptSend sfNone t in
    Some (i32 written, t).

Definition Close (force : bool) (t : PseudoTcp) : PseudoTcp :=
  set_m_shutdown (if force then SD_FORCEFUL else SD_GRACEFUL) t.
Definition GetError (t : PseudoTcp) : Z := m_error t.
End Protocol.

(** An environment for samples: a clock that ticks at every reading, and a network
    that takes every packet. *)
Program Definition sample_env : TcpEnv :=
  {| clock_at n := u32 (1000 + Z.of_nat n); TcpWritePacket _ _ := WR_SUCCESS |}.
Next Obligation. intros n. apply u32_range. Qed.
