(* ===== verification/PseudoTcpSafe.v ===== *)
(** * Pseudo-TCP: invariant and safety

    The invariant of the protocol state, and that every operation of the interface
    has defined behaviour, ends, and keeps the invariant. *)

From S2P Require Import Prelude ByteOrder ByteBuffer FifoBuffer TimeUtils PseudoTcp.

#[local] Open Scope tcp_scope.

(** ** The invariant *)

Definition sum_len (l : list SSegment) : Z := fold_right (λ s n, ss_len s + n) 0 l.

(** Only the last segment may be empty, and then it holds no control data. *)
Fixpoint lens_ok (l : list SSegment) : Prop :=
  match l with
  | [] => True
  | s :: l' => (0 < ss_len s ∨ ss_len s = 0 ∧ l' = [] ∧ ss_bCtrl s = false) ∧ lens_ok l'
  end.

Definition is_sent (s : SSegment) : Prop := 0 < ss_xmit s ≤ 30 ∧ 0 < ss_len s ∧ is_u32 (ss_seq s).
Definition is_unsent (s : SSegment) : Prop := ss_xmit s = 0 ∧ is_u32 (ss_seq s).

(** The segments describe the send buffer: those in flight first, then those that
    were not sent. *)
Record out_ok (o : Outgoing) : Prop := {
  out_fifo : fifo_ok (m_sbuf o);
  out_open : state_ (m_sbuf o) ≠ SS_CLOSED;
  out_size : buffer_length_ (m_sbuf o) < 4294967296;
  out_una : 0 ≤ m_snd_una o;
  out_space : m_snd_una o + data_length_ (m_sbuf o) < 4294967296;
  out_slist : ∃ sent unsent, m_slist o = sent ++ unsent ∧ Forall is_sent sent ∧ Forall is_unsent unsent ∧
    lens_ok unsent ∧ m_snd_nxt o = m_snd_una o + sum_len sent ∧
    data_length_ (m_sbuf o) = sum_len sent + sum_len unsent;
  out_timer : m_rto_base o ≠ 0 → m_snd_una o ≠ m_snd_nxt o
}.

(** The saved segments lie in the room of the receive buffer. *)
Definition rseg_ok (c : Incoming) (r : RSegment) : Prop :=
  0 ≤ rs_seq r ∧ 0 < rs_len r ∧ rs_seq r + rs_len r < 4294967296 ∧
  rs_seq r + rs_len r ≤ m_rcv_nxt c + (buffer_length_ (m_rbuf c) - data_length_ (m_rbuf c)).
Record in_ok (c : Incoming) : Prop := {
  in_fifo : fifo_ok (m_rbuf c);
  in_open : state_ (m_rbuf c) ≠ SS_CLOSED;
  in_size : buffer_length_ (m_rbuf c) < 4294967296;
  in_nxt : is_u32 (m_rcv_nxt c);
  in_wnd : is_u32 (m_rcv_wnd c);
  in_scale : 0 ≤ m_rwnd_scale c < 32;
  in_rlist : Forall (rseg_ok c) (m_rlist c)
}.

Definition mss_ok (m : Mss) : Prop :=
  0 < m_mss m ≤ 65419 ∧ 0 ≤ m_msslevel m ≤ 9 ∧ 116 < m_mtu_advise m ≤ 65535.
Definition rtt_ok (r : Rtt) : Prop :=
  MIN_RTO ≤ m_rx_rto r ≤ MAX_RTO ∧ is_u32 (m_rx_srtt r) ∧ is_u32 (m_rx_rttvar r).
Definition cong_ok (c : Congestion) : Prop :=
  0 < m_ssthresh c < 4294967296 ∧ is_u32 (m_cwnd c) ∧ is_u8 (m_dup_acks c) ∧ is_u32 (m_snd_wnd c) ∧
  0 ≤ m_swnd_scale c < 32.

Record tcp_ok (t : PseudoTcp) : Prop := {
  ok_out : out_ok t;
  ok_in : in_ok t;
  ok_mss : mss_ok t;
  ok_rtt : rtt_ok t;
  ok_cong : cong_ok t;
  ok_recover : m_state t ≠ TCP_CLOSED → 3 ≤ m_dup_acks t → m_recover t ≤ m_snd_nxt t;
  ok_listen : m_state t = TCP_LISTEN → m_slist t = [] ∧ m_snd_nxt t = 0 ∧ m_snd_una t = 0
}.

(** What the sending functions leave unchanged: everything but the segments, the
    estimated sizes, the congestion window, the timers of traffic and the outside. *)
Record frame (t t' : PseudoTcp) : Prop := {
  fr_conn : conn t' = conn t;
  fr_in : incoming t' = incoming t;
  fr_rtt : rtt t' = rtt t;
  fr_conf : config t' = config t;
  fr_thresh : m_ssthresh t' = m_ssthresh t;
  fr_dups : m_dup_acks t' = m_dup_acks t;
  fr_rec : m_recover t' = m_recover t;
  fr_wnd : m_snd_wnd t' = m_snd_wnd t;
  fr_scale : m_swnd_scale t' = m_swnd_scale t;
  fr_mtu : m_mtu_advise t' = m_mtu_advise t;
  fr_cwnd : is_u32 (m_cwnd t) → is_u32 (m_cwnd t');
  fr_mss : mss_ok t → mss_ok t';
  fr_events : w_events t' = w_events t;
  fr_sent : ∃ l, w_sent t' = w_sent t ++ l
}.

#[export] Instance frame_refl : Reflexive frame.
Proof. intros t. split; auto. exists []. by rewrite app_nil_r. Qed.
#[export] Instance frame_trans : Transitive frame.
Proof.
  intros a b c [] []. split; try congruence; auto.
  destruct fr_sent0 as [l1 E1], fr_sent1 as [l2 E2]. exists (l1 ++ l2). by rewrite E2, E1, app_assoc.
Qed.

Lemma sum_len_app a b : sum_len (a ++ b) = sum_len a + sum_len b.
Proof. induction a as [|s a IH]; cbn [app sum_len fold_right]; [done|]. fold (sum_len (a ++ b)) (sum_len a). lia. Qed.
Lemma sum_len_cons s l : sum_len (s :: l) = ss_len s + sum_len l.
Proof. done. Qed.
Lemma sent_sum l : Forall is_sent l → zlen l ≤ sum_len l.
Proof.
  induction 1 as [|s l Hs Hl IH]; [done|]. rewrite zlen_cons, sum_len_cons.
  destruct Hs as (_ & ? & _). lia.
Qed.
Lemma lens_nonneg l : lens_ok l → 0 ≤ sum_len l.
Proof. induction l as [|s l IH]; [done|]. intros [Hs Hl]. rewrite sum_len_cons. specialize (IH Hl). lia. Qed.
Lemma lens_cons_pos s l : lens_ok (s :: l) → 0 < sum_len (s :: l) → 0 < ss_len s.
Proof. intros [[Hs|(Hs & -> & _)] _] Hsum; [done|]. rewrite sum_len_cons in Hsum. cbn in Hsum. lia. Qed.

Section Safe.
Context `{Platform} `{TcpEnv}.
Implicit Types t : PseudoTcp.

(** ** Sending a packet *)

Lemma zlen_header t seq flags now : zlen (packet_header t seq flags now) = 65535.
Proof.
  unfold packet_header, long_to_bytes, short_to_bytes, MAX_PACKET.
  repeat (rewrite zlen_splice; [|lia|]); rewrite ?zlen_host_store, ?zlen_fresh; try done;
    repeat (rewrite zlen_splice; [|lia|]); rewrite ?zlen_host_store, ?zlen_fresh; cbn; lia.
Qed.

Lemma packet_safe seq flags offset len t : 0 ≤ len ≤ 65511 → fifo_ok (m_sbuf t) → 0 ≤ offset →
  ∃ r t', packet seq flags offset len t = Some (r, t') ∧ frame t t' ∧ outgoing t' = outgoing t ∧
    mss t' = mss t ∧ congestion t' = congestion t ∧ (len = 0 → r = WR_SUCCESS).
Proof.
  intros Hlen Hok Hoff. unfold packet, Now. cbn [fst snd].
  set (t1 := on_world _ t). set (t2 := set_m_ts_lastack _ t1).
  set (data := if negb (len =? 0) then _ else _).
  assert (Hd : 0 ≤ zlen data ≤ len).
  { unfold data. destruct (Z.eqb_spec len 0); cbn [negb]; [change (zlen []) with 0; lia|].
    unfold ReadOffset. change (m_sbuf t2) with (m_sbuf t). rewrite read_window by (done || lia).
    unfold w_read. destruct (_ <=? _); cbn [snd]; zlia. }
  unfold HEADER_SIZE, MAX_PACKET. destruct (Z.ltb_spec 65535 (24 + zlen data)); [lia|].
  rewrite u32_id by ulia. destruct (Z.ltb_spec 65535 (len + 24)); [lia|].
  destruct (negb (bool_decide _) && negb (len =? 0)) eqn:E; eexists _, _; (split; [reflexivity|]).
  - split_and!; try done; [|intros ->; by rewrite andb_false_r in E].
    split; try done; auto. by eexists.
  - destruct (0 <? len); (split_and!; try done; split; try done; auto; by eexists).
Qed.

(** The table of packet sizes from the second entry on. *)
Lemma maximums k : 1 ≤ k ≤ 10 →
  ∃ v, zat k PACKET_MAXIMUMS = Some v ∧ (k = 10 ∧ v = 0 ∨ k ≤ 9 ∧ 296 ≤ v ≤ 32000).
Proof.
  intros Hk. assert (k = 1 ∨ k = 2 ∨ k = 3 ∨ k = 4 ∨ k = 5 ∨ k = 6 ∨ k = 7 ∨ k = 8 ∨ k = 9 ∨ k = 10) as Hc by lia.
  destruct_or! Hc; subst k; (eexists; split; [lazy; reflexivity|lia]).
Qed.

Lemma lower_mss_safe fuel : ∀ n t, mss_ok t → 9 - m_msslevel t < Z.of_nat fuel →
  ∃ r t', lower_mss fuel n t = Some (r, t') ∧ frame t t' ∧ outgoing t' = outgoing t ∧
    match r with
    | None => True
    | Some n' => 0 < n' < n ∧ m_msslevel t < m_msslevel t'
    end.
Proof.
  induction fuel as [|fuel IH]; intros n t (Hm & Hl & Ha) Hf; [lia|]. cbn [lower_mss].
  destruct (maximums (m_msslevel t + 1) ltac:(lia)) as (v & -> & Hv).
  destruct (Z.eqb_spec v 0); [eexists _, _; split; [reflexivity|]; split_and!; done|].
  assert (Hu : u32 (v - PACKET_OVERHEAD) = v - 116) by (unfold PACKET_OVERHEAD; apply u32_id; cbn; ulia).
  set (t1 := set_m_cwnd _ _).
  assert (Hmss : m_mss t1 = v - 116) by exact Hu. assert (Hlv : m_msslevel t1 = m_msslevel t + 1) by done.
  assert (Hok1 : mss_ok t1).
  { unfold mss_ok. rewrite Hmss, Hlv. change (m_mtu_advise t1) with (m_mtu_advise t). lia. }
  assert (Hf1 : frame t t1).
  { split; try done; [intros _; apply u32_range|]. exists []. by rewrite app_nil_r. }
  match goal with |- context [if ?b then _ else _] => change b with (m_mss t1 <? n) end.
  destruct (Z.ltb_spec (m_mss t1) n).
  - eexists _, _. split; [reflexivity|]. split_and!; try done; change (m_mss _) with (m_mss t1); lia.
  - destruct (IH n t1 Hok1 ltac:(lia)) as (r & t2 & -> & Hfr & Ho & Hr).
    eexists _, _. split; [reflexivity|]. split; [by etrans|]. split; [by rewrite Ho|].
    destruct r; [|done]. lia.
Qed.

Lemma transmit_packet_safe fuel : ∀ seg n t, mss_ok t → fifo_ok (m_sbuf t) → 0 < n ≤ 65511 →
  9 - m_msslevel t < Z.of_nat fuel →
  ∃ r t', transmit_packet fuel seg n t = Some (r, t') ∧ frame t t' ∧ outgoing t' = outgoing t ∧
    match r with None => True | Some n' => 0 < n' ≤ n end.
Proof.
  induction fuel as [|fuel IH]; intros seg n t Hm Hok Hn Hf; [destruct Hm as (_ & ? & _); lia|]. cbn [transmit_packet].
  destruct (packet_safe (ss_seq seg) (if ss_bCtrl seg then FLAG_CTL else 0) (u32 (ss_seq seg - m_snd_una t)) n t)
    as (r & t1 & -> & Hf1 & Ho1 & Hm1 & _ & _); [lia|done|apply u32_range|].
  destruct r.
  - eexists _, _. split; [reflexivity|]. split_and!; try done; lia.
  - destruct (lower_mss_safe 12 n t1) as (r & t2 & -> & Hf2 & Ho2 & Hr); [by apply Hf1|rewrite Hm1; destruct Hm; lia|].
    assert (Hf12 : frame t t2) by (by etrans).
    destruct r as [n'|]; [|eexists _, _; split; [reflexivity|]; split_and!; congruence || done].
    rewrite Hm1 in Hr. destruct (IH seg n' t2) as (r & t3 & -> & Hf3 & Ho3 & Hr3).
    + by apply Hf12.
    + by rewrite Ho2, Ho1.
    + lia.
    + lia.
    + eexists _, _. split; [reflexivity|]. split; [by etrans|]. split; [by rewrite Ho3, Ho2, Ho1|].
      destruct r; [|done]. lia.
  - eexists _, _. split; [reflexivity|]. done.
Qed.

(** The segments after [n] bytes of the [i]-th were sent. *)
Definition sent_part (seg : SSegment) (n : Z) : list SSegment :=
  mkSSegment (ss_seq seg) n (ss_xmit seg + 1) (ss_bCtrl seg) ::
  if n <? ss_len seg
  then [mkSSegment (u32 (ss_seq seg + n)) (ss_len seg - n) (ss_xmit seg) (ss_bCtrl seg)] else [].

Lemma transmit_spec i now t seg : m_slist t !! i = Some seg → 0 < ss_len seg → 0 ≤ ss_xmit seg →
  mss_ok t → fifo_ok (m_sbuf t) →
  ∃ ok t', transmit i now t = Some (ok, t') ∧ frame t t' ∧
    if ok then ∃ n, 0 < n ≤ ss_len seg ∧ ss_xmit seg < 30 ∧
      outgoing t' = mkOutgoing (take i (m_slist t) ++ sent_part seg n ++ drop (S i) (m_slist t)) (m_sbuf_len t)
        (if ss_xmit seg =? 0 then u32 (m_snd_nxt t + n) else m_snd_nxt t) (m_snd_una t) (m_sbuf t)
        (if m_rto_base t =? 0 then now else m_rto_base t)
    else outgoing t' = outgoing t.
Proof.
  intros Hi Hlen Hx Hm Hok. unfold transmit. rewrite Hi.
  destruct (Z.leb_spec (if bool_decide (m_state t = TCP_ESTABLISHED) then 15 else 30) (ss_xmit seg)) as [?|Hlim];
    [eexists _, _; split; [reflexivity|]; by split|].
  assert (Hx30 : ss_xmit seg < 30) by (destruct (bool_decide _); lia).
  destruct (transmit_packet_safe 12 seg (Z.min (ss_len seg) (m_mss t)) t Hm Hok) as (r & t1 & -> & Hf & Ho & Hr).
  { destruct Hm as (? & _). lia. } { destruct Hm as (_ & ? & _). lia. }
  destruct r as [n|]; [|eexists _, _; split; [reflexivity|]; by split].
  set (len := if n <? ss_len seg then n else ss_len seg).
  assert (Hn : 0 < n ≤ ss_len seg) by lia.
  assert (Hl : len = n) by (unfold len; destruct (Z.ltb_spec n (ss_len seg)); lia). rewrite Hl.
  assert (Hu : u8 (ss_xmit seg + 1) = ss_xmit seg + 1) by ulia. rewrite Hu.
  eexists true, _. split; [reflexivity|].
  split; [|exists n; split; [done|]; split; [done|]].
  - etrans; [exact Hf|]. destruct (m_rto_base _ =? 0), (ss_xmit seg =? 0); (split; try done; auto; exists []; by rewrite app_nil_r).
  - unfold sent_part. rewrite <- Ho. destruct (ss_xmit seg =? 0); cbn [m_rto_base set_m_slist set_m_snd_nxt on_outgoing outgoing];
      destruct (m_rto_base t1 =? 0); reflexivity.
Qed.

Lemma sent_part_sent seg n : is_u32 (ss_seq seg) → 0 < ss_xmit seg < 30 → 0 < n ≤ ss_len seg →
  Forall is_sent (sent_part seg n) ∧ sum_len (sent_part seg n) = ss_len seg.
Proof.
  intros Hs Hx Hn. unfold sent_part. destruct (Z.ltb_spec n (ss_len seg)); split;
    try (cbn; lia); repeat constructor; cbn; try lia; try apply Hs; apply u32_range.
Qed.

(** *** Retransmission of the first segment *)
Lemma transmit_front now t : out_ok t → mss_ok t → m_snd_una t ≠ m_snd_nxt t →
  ∃ ok t', transmit 0 now t = Some (ok, t') ∧ frame t t' ∧ out_ok t' ∧ m_snd_nxt t' = m_snd_nxt t ∧
    m_snd_una t' = m_snd_una t.
Proof.
  intros [Hfifo Hopen Hsize Huna Hspace (sent & unsent & Hsl & Hsent & Hun & Hlens & Hnxt & Hdl) Htimer] Hm Hfl.
  destruct sent as [|seg sent]; [cbn in Hnxt; lia|]. apply Forall_cons in Hsent as [(Hx & Hl & Hseq) Hsent].
  destruct (transmit_spec 0 now t seg) as (ok & t' & -> & Hf & Ho); [by rewrite Hsl|done|lia|done|done|].
  exists ok, t'. split; [done|]. split; [done|]. destruct ok.
  2:{ rewrite Ho. split_and!; try done. split; try done. exists (seg :: sent), unsent. split_and!; try done.
      apply Forall_cons. done. }
  destruct Ho as (n & Hn & Hx30 & ->). rewrite Hsl. cbn [m_snd_nxt m_snd_una].
  destruct (sent_part_sent seg n Hseq ltac:(lia) Hn) as [Hps Hsum].
  destruct (Z.eqb_spec (ss_xmit seg) 0); [lia|]. split_and!; try done.
  split; cbn [m_sbuf m_snd_una m_snd_nxt m_slist m_rto_base]; try done.
  exists (sent_part seg n ++ sent), unsent. cbn [take drop app]. rewrite sum_len_app, Hsum, <- app_assoc.
  rewrite sum_len_cons in *. split_and!; try done. apply Forall_app. done.
Qed.

(** *** Transmission of the first segment that was not sent *)
Lemma transmit_unsent now t sent seg rest : out_ok t → mss_ok t →
  m_slist t = sent ++ seg :: rest → Forall is_sent sent → Forall is_unsent (seg :: rest) → lens_ok (seg :: rest) →
  m_snd_nxt t = m_snd_una t + sum_len sent → data_length_ (m_sbuf t) = sum_len sent + sum_len (seg :: rest) →
  0 < ss_len seg →
  ∃ ok t', transmit (length sent) now t = Some (ok, t') ∧ frame t t' ∧ out_ok t' ∧ m_snd_una t' = m_snd_una t ∧
    m_sbuf t' = m_sbuf t ∧ if ok then m_snd_nxt t < m_snd_nxt t' else m_snd_nxt t' = m_snd_nxt t.
Proof.
  intros [Hfifo Hopen Hsize Huna Hspace _ Htimer] Hm Hsl Hsent Hun Hlens Hnxt Hdl Hl.
  apply Forall_cons in Hun as [[Hx Hseq] Hun]. destruct Hlens as [_ Hlens].
  destruct (transmit_spec (length sent) now t seg) as (ok & t' & -> & Hf & Ho);
    [rewrite Hsl; by apply list_lookup_middle|done|lia|done|done|].
  pose proof (sent_sum sent Hsent). pose proof (zlen_nonneg sent). pose proof (lens_nonneg rest Hlens).
  rewrite sum_len_cons in Hdl.
  exists ok, t'. split; [done|]. split; [done|]. destruct ok.
  2:{ rewrite Ho. split_and!; try done. split; try done. exists sent, (seg :: rest).
      rewrite sum_len_cons. split_and!; try done; [by constructor|by split; [left|]]. }
  destruct Ho as (n & Hn & _ & ->). cbn [m_snd_nxt m_snd_una m_sbuf]. rewrite Hx. cbn [Z.eqb].
  rewrite u32_id by ulia. split_and!; try done; [|lia].
  split; cbn [m_sbuf m_snd_una m_snd_nxt m_slist m_rto_base]; try done; [|intros _; lia].
  rewrite Hsl, take_app_length, drop_app_ge by lia. replace (S (length sent) - length sent)%nat with 1%nat by lia.
  cbn [drop]. unfold sent_part. rewrite Hx.
  set (s1 := mkSSegment _ n _ _). assert (Hs1 : is_sent s1) by (split_and!; cbn; (lia || apply Hseq)).
  exists (sent ++ [s1]). destruct (Z.ltb_spec n (ss_len seg)).
  - exists (mkSSegment (u32 (ss_seq seg + n)) (ss_len seg - n) 0 (ss_bCtrl seg) :: rest).
    rewrite sum_len_app, !sum_len_cons, <- app_assoc. cbn [ss_len s1 sum_len fold_right]. split_and!; try done; try lia.
    + apply Forall_app. split; [done|by apply Forall_singleton].
    + constructor; [split; [done|apply u32_range]|done].
    + split; [left; cbn; lia|done].
  - exists rest. rewrite sum_len_app, <- app_assoc. cbn [ss_len s1 sum_len fold_right]. fold (sum_len rest).
    split_and!; try done; try lia. apply Forall_app. split; [done|by apply Forall_singleton].
Qed.

(** *** The send loop *)

Definition unsent_bytes t : Z := data_length_ (m_sbuf t) - (m_snd_nxt t - m_snd_una t).

Lemma out_ok_bounds t : out_ok t →
  0 ≤ m_snd_nxt t - m_snd_una t ≤ data_length_ (m_sbuf t) ∧ is_u32 (m_snd_nxt t) ∧ is_u32 (m_snd_una t) ∧
  u32 (m_snd_nxt t - m_snd_una t) = m_snd_nxt t - m_snd_una t.
Proof.
  intros [Hfifo _ _ Huna Hspace (sent & unsent & Hsl & Hsent & Hun & Hlens & Hnxt & Hdl) _].
  pose proof (sent_sum sent Hsent). pose proof (zlen_nonneg sent). pose proof (lens_nonneg unsent Hlens).
  split_and!; ulia.
Qed.

Lemma send_amount_bound t : out_ok t → mss_ok t → cong_ok t → 0 ≤ send_amount t ≤ Z.min (unsent_bytes t) (m_mss t).
Proof.
  intros Ho (Hm & _) (_ & Hc & Hd & Hw & _). destruct (out_ok_bounds t Ho) as (Hb & Hn & Hu & E).
  pose proof (out_space _ Ho). pose proof (out_una _ Ho).
  unfold send_amount, GetBuffered, unsent_bytes. rewrite E.
  rewrite (u32_id (data_length_ _)), (u32_id (data_length_ _ - _)) by ulia.
  set (cw := if _ || _ then _ else _).
  assert (0 ≤ cw). { unfold cw. destruct (_ || _); [apply u32_range|]. unfold is_u32 in Hc. lia. }
  unfold is_u32 in Hw. repeat match goal with |- context [if ?a <? ?b then _ else _] => destruct (Z.ltb_spec a b) end; lia.
Qed.

Lemma first_unsent_spec sent seg rest : Forall is_sent sent → is_unsent seg →
  first_unsent (sent ++ seg :: rest) = Some (length sent).
Proof.
  intros Hs [Hx _]. induction Hs as [|s sent (Hsx & _) Hs IH]; cbn [app first_unsent].
  - rewrite Hx. done.
  - destruct (Z.ltb_spec 0 (ss_xmit s)); [|lia]. by rewrite IH.
Qed.

(** Splitting a segment that was not sent. *)
Lemma split_unsent t sent seg rest n : out_ok t → m_slist t = sent ++ seg :: rest → Forall is_sent sent →
  Forall is_unsent (seg :: rest) → lens_ok (seg :: rest) →
  m_snd_nxt t = m_snd_una t + sum_len sent → data_length_ (m_sbuf t) = sum_len sent + sum_len (seg :: rest) →
  0 < n < ss_len seg →
  let seg' := mkSSegment (ss_seq seg) n (ss_xmit seg) (ss_bCtrl seg) in
  let subseg := mkSSegment (u32 (ss_seq seg + n)) (ss_len seg - n) 0 (ss_bCtrl seg) in
  let t1 := set_m_slist (sent ++ seg' :: subseg :: rest) t in
  out_ok t1 ∧ Forall is_unsent (seg' :: subseg :: rest) ∧ lens_ok (seg' :: subseg :: rest) ∧
  data_length_ (m_sbuf t) = sum_len sent + sum_len (seg' :: subseg :: rest).
Proof.
  intros [Hfifo Hopen Hsize Huna Hspace _ Htimer] Hsl Hsent Hun Hlens Hnxt Hdl Hn seg' subseg t1.
  apply Forall_cons in Hun as [[Hx Hseq] Hun]. destruct Hlens as [_ Hlens].
  assert (H1 : Forall is_unsent (seg' :: subseg :: rest)).
  { repeat (apply Forall_cons; split); try done. split; [done|apply u32_range]. }
  assert (H2 : lens_ok (seg' :: subseg :: rest)) by (split; [left; cbn; lia|split; [left; cbn; lia|done]]).
  assert (H3 : data_length_ (m_sbuf t) = sum_len sent + sum_len (seg' :: subseg :: rest)).
  { rewrite !sum_len_cons in *. cbn [ss_len seg' subseg]. lia. }
  split_and!; try done; try apply H2. split; try done. by exists sent, (seg' :: subseg :: rest).
Qed.

Lemma frame_cong t t' : frame t t' → cong_ok t → cong_ok t'.
Proof. intros [] (? & Hc & ? & ? & ?). unfold cong_ok. rewrite fr_thresh0, fr_dups0, fr_wnd0, fr_scale0. auto. Qed.

(** The state in which the loop sends its next segment, after splitting it. *)
Definition split_next (i : nat) (seg : SSegment) (n : Z) t : PseudoTcp :=
  if n <? ss_len seg then
    set_m_slist (take i (m_slist t) ++ [mkSSegment (ss_seq seg) n (ss_xmit seg) (ss_bCtrl seg);
      mkSSegment (u32 (ss_seq seg + n)) (ss_len seg - n) 0 (ss_bCtrl seg)] ++ drop (S i) (m_slist t)) t
  else t.

Lemma next_segment t n : out_ok t → mss_ok t → 0 < n ≤ unsent_bytes t →
  ∃ i seg seg1, first_unsent (m_slist t) = Some i ∧ m_slist t !! i = Some seg ∧ 0 < ss_len seg ∧ is_unsent seg ∧
    let t1 := split_next i seg n t in
    out_ok t1 ∧ frame t t1 ∧ mss t1 = mss t ∧ m_slist t1 !! i = Some seg1 ∧ 0 < ss_len seg1 ∧ is_unsent seg1 ∧
    ∀ now, ∃ ok t2, transmit i now t1 = Some (ok, t2) ∧ frame t t2 ∧ out_ok t2 ∧ m_snd_una t2 = m_snd_una t ∧
      m_sbuf t2 = m_sbuf t ∧ if ok then m_snd_nxt t < m_snd_nxt t2 else m_snd_nxt t2 = m_snd_nxt t.
Proof.
  intros Ho Hm Hn. pose proof Ho as [_ _ _ _ _ (sent & unsent & Hsl & Hsent & Hun & Hlens & Hnxt & Hdl) _].
  destruct unsent as [|seg rest]; [unfold unsent_bytes in Hn; rewrite Hdl, Hnxt in Hn; cbn in Hn; lia|].
  assert (Hl : 0 < ss_len seg) by (apply (lens_cons_pos seg rest Hlens); unfold unsent_bytes in Hn; lia).
  pose proof (Forall_inv Hun) as Hseg.
  assert (∃ seg1 rest1, let t1 := split_next (length sent) seg n t in out_ok t1 ∧ frame t t1 ∧ mss t1 = mss t ∧
     m_slist t1 = sent ++ seg1 :: rest1 ∧ Forall is_unsent (seg1 :: rest1) ∧ lens_ok (seg1 :: rest1) ∧
     m_snd_nxt t1 = m_snd_nxt t ∧ m_snd_una t1 = m_snd_una t ∧ m_sbuf t1 = m_sbuf t ∧
     data_length_ (m_sbuf t1) = sum_len sent + sum_len (seg1 :: rest1) ∧ 0 < ss_len seg1)
    as (seg1 & rest1 & Ho1 & Hf1 & Hm1 & Hsl1 & Hun1 & Hl1 & Hn1 & Hu1 & Hs1 & Hd1 & Hp1).
  { unfold split_next. destruct (Z.ltb_spec n (ss_len seg)); [|exists seg, rest; split_and!; done].
    destruct (split_unsent t sent seg rest n) as (? & ? & ? & ?); try done; [lia|].
    eexists _, _. rewrite Hsl, take_app_length, drop_app_ge by lia.
    replace (S (length sent) - length sent)%nat with 1%nat by lia. cbn [drop app].
    split_and!; try done; [|cbn; lia]. split; try done; auto. exists []. by rewrite app_nil_r. }
  exists (length sent), seg, seg1. rewrite Hsl, first_unsent_spec, list_lookup_middle by done.
  set (t1 := split_next _ _ _ _) in *. repeat (split; [first [done|rewrite Hsl1; by apply list_lookup_middle|exact (Forall_inv Hun1)]|]).
  intros now. destruct (transmit_unsent now t1 sent seg1 rest1) as (ok & t2 & E & Hf2 & Ho2 & Hu2 & Hs2 & Hn2); try done.
  { by rewrite Hm1. } { congruence. }
  exists ok, t2. split_and!; try done; try congruence; [by etrans|]. by rewrite Hn1 in Hn2.
Qed.

Lemma attemptSend_loop_safe fuel : ∀ now sflags t, out_ok t → mss_ok t → cong_ok t →
  unsent_bytes t < Z.of_nat fuel → (0 < fuel)%nat →
  ∃ t', attemptSend_loop fuel now sflags t = Some t' ∧ frame t t' ∧ out_ok t' ∧
    m_snd_una t' = m_snd_una t ∧ m_snd_nxt t ≤ m_snd_nxt t' ∧ m_sbuf t' = m_sbuf t ∧
    (m_slist t = [] → outgoing t' = outgoing t).
Proof.
  induction fuel as [|fuel IH]; intros now sflags t Ho Hm Hc Hf Hf0; [lia|]. cbn [attemptSend_loop].
  pose proof (send_amount_bound t Ho Hm Hc) as Ha. set (n := send_amount t) in *.
  destruct (Z.eqb_spec n 0).
  { destruct (bool_decide _); [exists t; split_and!; (done || lia)|].
    destruct (_ || _).
    - destruct (packet_safe (m_snd_nxt t) 0 0 0 t ltac:(lia) (out_fifo _ Ho) ltac:(lia)) as (r & t' & -> & Hfr & Hout & _).
      exists t'. cbn [fmap option_fmap option_map snd]. rewrite Hout. split_and!; try done; lia.
    - eexists. split; [reflexivity|]. split_and!; try done; try lia. split; try done; auto. exists []. by rewrite app_nil_r. }
  destruct (_ && _ && _); [exists t; split_and!; (done || lia)|].
  destruct (next_segment t n Ho Hm ltac:(lia)) as (i & seg & seg1 & -> & Hi & _ & _ & _ & _ & _ & _ & _ & _ & Ht). rewrite Hi.
  change (if n <? ss_len seg then _ else t) with (split_next i seg n t).
  destruct (Ht now) as (ok & t2 & -> & Hf2 & Ho2 & Hu2 & Hs2 & Hn2).
  assert (Hne : m_slist t ≠ []) by (intros E; by rewrite E in Hi). destruct ok; cbn [negb].
  - destruct (IH now sfNone t2) as (t3 & -> & Hf3 & Ho3 & Hu3 & Hn3 & Hs3 & _); try done.
    + by apply Hf2.
    + by eapply frame_cong.
    + unfold unsent_bytes in *. rewrite Hs2, Hu2. lia.
    + unfold unsent_bytes in *. lia.
    + exists t3. split_and!; try done; try congruence; [by etrans|lia].
  - exists t2. split_and!; try done; try congruence. lia.
Qed.

Lemma attemptSend_safe sflags t : out_ok t → mss_ok t → cong_ok t →
  ∃ t', attemptSend sflags t = Some t' ∧ frame t t' ∧ out_ok t' ∧
    m_snd_una t' = m_snd_una t ∧ m_snd_nxt t ≤ m_snd_nxt t' ∧ m_sbuf t' = m_sbuf t ∧
    (m_slist t = [] → outgoing t' = outgoing t).
Proof.
  intros Ho Hm Hc. unfold attemptSend, Now. set (t1 := on_world _ t).
  set (t2 := if _ <? _ then _ else _).
  assert (frame t t2 ∧ outgoing t2 = outgoing t ∧ mss t2 = mss t) as (Hf & Ho2 & Hm2).
  { unfold t2. destruct (_ <? _); (split_and!; try done; split; try done; auto; try (exists []; by rewrite app_nil_r)).
    intros _. destruct Hm as (? & _). change (m_cwnd _) with (m_mss t). ulia. }
  assert (Hb : 0 ≤ m_snd_nxt t - m_snd_una t ≤ data_length_ (m_sbuf t)) by (by apply out_ok_bounds).
  destruct (attemptSend_loop_safe (S (S (Z.to_nat (GetBuffered (m_sbuf t2))))) (clock_at (w_clock t)) sflags t2)
    as (t3 & -> & Hf3 & Ho3 & Hu3 & Hn3 & Hs3 & Hl3).
  - by rewrite Ho2.
  - by rewrite Hm2.
  - by eapply frame_cong.
  - unfold unsent_bytes, GetBuffered. rewrite Ho2. lia.
  - lia.
  - exists t3. rewrite Ho2 in *. split_and!; try done. by etrans.
Qed.

(** *** Queueing data *)

(** Only the outgoing data differ. *)
Definition only_out (t t' : PseudoTcp) : Prop := ∃ o, t' = on_outgoing (λ _, o) t.

Lemma sum_len_snoc l s : sum_len (l ++ [s]) = sum_len l + ss_len s.
Proof. rewrite sum_len_app. cbn. lia. Qed.

Lemma lens_ok_last l s s' : lens_ok (l ++ [s]) → ss_len s ≤ ss_len s' → ss_bCtrl s' = ss_bCtrl s → lens_ok (l ++ [s']).
Proof.
  intros Hl Hle Hb. induction l as [|x l IH]; cbn [app lens_ok] in *.
  - destruct Hl as [[?|(? & _ & ?)] _]; (split; [|done]); [left; lia|].
    destruct (decide (ss_len s' = 0)); [right; split_and!; congruence|left; lia].
  - destruct Hl as [[?|(? & Hnil & _)] Hl]; [by split; [left|apply IH]|]. by destruct l.
Qed.
Lemma lens_ok_snoc l s : lens_ok l → Forall (λ x, 0 < ss_len x) l → (0 < ss_len s ∨ ss_len s = 0 ∧ ss_bCtrl s = false) →
  lens_ok (l ++ [s]).
Proof.
  intros Hl Hp Hs. induction l as [|x l IH]; cbn [app lens_ok] in *; [tauto|].
  apply Forall_cons in Hp as [Hx Hp]. destruct Hl as [_ Hl]. auto.
Qed.
(** All segments hold data, or the last one is empty. *)
Lemma lens_ok_cases l : lens_ok l → Forall (λ x, 0 < ss_len x) l ∨
  ∃ l' s, l = l' ++ [s] ∧ ss_len s = 0 ∧ ss_bCtrl s = false.
Proof.
  induction l as [|x l IH]; [by left|]. intros [Hx Hl].
  destruct Hx as [Hx|(Hx & -> & Hb)]; [|right; by exists [], x].
  destruct (IH Hl) as [?|(l' & s & -> & ? & ?)]; [left; by constructor|]. right. by exists (x :: l'), s.
Qed.

(** The list of segments after [len] bytes were queued. *)
Definition queued (o : Outgoing) (len : Z) (bCtrl : bool) : list SSegment :=
  match rev (m_slist o) with
  | [] => [mkSSegment (u32 (m_snd_una o + data_length_ (m_sbuf o))) len 0 bCtrl]
  | s :: l =>
      if bool_decide (ss_bCtrl s = bCtrl) && (ss_xmit s =? 0)
      then rev l ++ [mkSSegment (ss_seq s) (ss_len s + len) (ss_xmit s) (ss_bCtrl s)]
      else m_slist o ++ [mkSSegment (u32 (m_snd_una o + data_length_ (m_sbuf o))) len 0 bCtrl]
  end.

Lemma queue_segments o len bCtrl : out_ok o → 0 ≤ len →
  (bCtrl = true → m_slist o = [] ∧ 0 < len) →
  ∃ sent unsent, queued o len bCtrl = sent ++ unsent ∧ Forall is_sent sent ∧ Forall is_unsent unsent ∧ lens_ok unsent ∧
    m_snd_nxt o = m_snd_una o + sum_len sent ∧ data_length_ (m_sbuf o) + len = sum_len sent + sum_len unsent.
Proof.
  intros [Hfifo Hopen Hsize Huna Hspace (sent & unsent & Hsl & Hsent & Hun & Hlens & Hnxt & Hdl) Htimer] Hlen Hctrl. unfold queued.
  set (new := mkSSegment _ len 0 bCtrl).
  assert (Hnew : is_unsent new) by (split; [done|apply u32_range]).
  assert (Hpush : Forall (λ x, 0 < ss_len x) unsent → ∃ sent unsent, m_slist o ++ [new] = sent ++ unsent ∧
    Forall is_sent sent ∧ Forall is_unsent unsent ∧ lens_ok unsent ∧ m_snd_nxt o = m_snd_una o + sum_len sent ∧
    data_length_ (m_sbuf o) + len = sum_len sent + sum_len unsent).
  { intros Hp. exists sent, (unsent ++ [new]). rewrite Hsl, app_assoc, sum_len_snoc. split_and!; try done.
    - apply Forall_app. by split; [|apply Forall_singleton].
    - apply lens_ok_snoc; try done. cbn [ss_len ss_bCtrl new]. destruct bCtrl; [left; by apply Hctrl|].
      destruct (decide (len = 0)); [by right|left; lia].
    - cbn [ss_len new]. lia. }
  destruct (rev (m_slist o)) as [|s l] eqn:Erev.
  { apply (f_equal (@rev _)) in Erev. rewrite rev_involutive in Erev. cbn in Erev. rewrite Erev in *.
    symmetry in Hsl. apply app_eq_nil in Hsl as [-> ->]. by apply Hpush. }
  apply (f_equal (@rev _)) in Erev. rewrite rev_involutive in Erev. cbn [rev] in Erev.
  destruct unsent as [|u unsent] using rev_ind.
  { destruct (_ && _) eqn:E; [|by apply Hpush]. apply andb_true_iff in E as [_ Ex]. apply Z.eqb_eq in Ex.
    rewrite app_nil_r in Hsl. rewrite Hsl in Erev. rewrite Erev in Hsent. apply Forall_app in Hsent as [_ Hs].
    apply Forall_inv in Hs as (? & _). lia. }
  clear IHunsent. rewrite Hsl, app_assoc in Erev. apply app_inj_tail in Erev as [Hl <-].
  rewrite <- Hl. apply Forall_app in Hun as [Hun Hu]. apply Forall_inv in Hu. rewrite sum_len_snoc in Hdl.
  pose proof Hu as [Hux Huq].
  destruct (bool_decide_reflect (ss_bCtrl u = bCtrl)) as [Hb|Hb]; cbn [andb].
  - rewrite Hux. cbn [Z.eqb]. set (u' := mkSSegment _ _ _ _).
    exists sent, (unsent ++ [u']). rewrite app_assoc, sum_len_snoc. split_and!; try done.
    + apply Forall_app. by split; [|apply Forall_singleton].
    + apply (lens_ok_last _ u); [done|cbn; lia|done].
    + cbn [ss_len u']. lia.
  - apply Hpush. destruct (lens_ok_cases _ Hlens) as [?|(l' & s' & E & Hs0 & Hsb)]; [done|].
    apply app_inj_tail in E as [-> ->]. rewrite Hsb in Hb. destruct bCtrl; [|done].
    destruct (Hctrl eq_refl) as [Hnil _]. rewrite Hsl in Hnil. by destruct sent, l'.
Qed.

Lemma GetWriteRemaining_ok f : fifo_ok f → buffer_length_ f < 4294967296 →
  GetWriteRemaining f = buffer_length_ f - data_length_ f ∧
  u32 (GetWriteRemaining f) = buffer_length_ f - data_length_ f.
Proof.
  intros (_ & HL & _ & Hd) Hb. unfold GetWriteRemaining.
  assert (E : u64 (buffer_length_ f - data_length_ f) = buffer_length_ f - data_length_ f) by (apply u64_id; ulia).
  rewrite E. split; [done|]. apply u32_id. ulia.
Qed.

Lemma seg_len_bound l : Forall is_sent l ∨ lens_ok l → 0 ≤ sum_len l ∧ Forall (λ x, 0 ≤ ss_len x ≤ sum_len l) l.
Proof.
  induction l as [|x l IH]; [by split|]. intros Hc. rewrite sum_len_cons.
  assert (0 ≤ ss_len x ∧ (Forall is_sent l ∨ lens_ok l)) as (Hx & Hl).
  { destruct Hc as [Hc|[Hx Hc]]; [|split; [lia|by right]].
    apply Forall_cons in Hc as [(_ & Hx & _) Hc]. split; [lia|by left]. }
  destruct (IH Hl) as [Hp Hf]. split; [lia|]. constructor; [lia|].
  eapply Forall_impl; [exact Hf|]. cbn. lia.
Qed.

Lemma slist_len_bound o s : out_ok o → s ∈ m_slist o → 0 ≤ ss_len s ≤ data_length_ (m_sbuf o).
Proof.
  intros [_ _ _ _ _ (sent & unsent & Hsl & Hsent & Hun & Hlens & _ & Hsum) _] Hin.
  destruct (seg_len_bound sent (or_introl Hsent)) as [? Hs]. destruct (seg_len_bound unsent (or_intror Hlens)) as [? Hu].
  rewrite Forall_forall in Hs, Hu. rewrite Hsl in Hin. apply elem_of_app in Hin as [Hin|Hin];
    [specialize (Hs s Hin)|specialize (Hu s Hin)]; cbn in *; lia.
Qed.

Lemma queue_safe data bCtrl t : out_ok t → m_snd_una t + data_length_ (m_sbuf t) + zlen data < 4294967296 →
  (bCtrl = true → m_slist t = [] ∧ data_length_ (m_sbuf t) = 0 ∧ data ≠ []) →
  let n := Z.min (zlen data) (buffer_length_ (m_sbuf t) - data_length_ (m_sbuf t)) in
  let '(w, t') := queue data bCtrl t in
  only_out t t' ∧ out_ok t' ∧ w = n ∧ m_snd_una t' = m_snd_una t ∧ m_snd_nxt t' = m_snd_nxt t ∧
  data_length_ (m_sbuf t') = data_length_ (m_sbuf t) + n ∧ fifo_data (m_sbuf t') = fifo_data (m_sbuf t) ++ ztake n data ∧
  m_slist t' = queued t n bCtrl.
Proof.
  intros Ho Hspace Hctrl n. pose proof Ho as [Hfifo Hopen Hsize Huna _ Hsl Htimer].
  destruct (GetWriteRemaining_ok (m_sbuf t) Hfifo Hsize) as [_ Hav]. pose proof Hfifo as (_ & _ & _ & Hdl).
  pose proof (zlen_nonneg data). unfold queue. rewrite Hav, (u32_id (zlen data)) by ulia.
  replace (if _ <? zlen data then _ else _) with n by (unfold n; destruct (Z.ltb_spec (buffer_length_ (m_sbuf t) - data_length_ (m_sbuf t)) (zlen data)); lia).
  assert (Hzt : zlen (ztake n data) = n) by (rewrite zlen_ztake; lia).
  pose proof (fifo_write_queue (m_sbuf t) (ztake n data) Hfifo Hopen ltac:(lia)) as Hw.
  destruct (Fifo_Write (m_sbuf t) (ztake n data)) as [[r w] sbuf]. rewrite Hzt in Hw.
  destruct Hw as (Hok' & Hs' & Hb' & -> & Hd' & Hq').
  set (slist' := match rev (m_slist t) with [] => _ | _ :: _ => _ end).
  assert (Esl : slist' = queued t n bCtrl).
  { unfold slist', queued, GetBuffered. destruct (rev (m_slist t)) as [|s l] eqn:Erev; [done|].
    destruct (_ && _) eqn:E; [|done]. do 3 f_equal. apply u32_id.
    destruct (slist_len_bound t s Ho) as [? ?]; [|ulia].
    rewrite <- (rev_involutive (m_slist t)), Erev. apply elem_of_app. right. left. }
  split_and!; try done; [by eexists| |apply u32_id; ulia].
  split; cbn [m_sbuf set_m_sbuf set_m_slist on_outgoing outgoing m_snd_una m_snd_nxt m_rto_base m_slist]; try done; try lia; try congruence.
  rewrite Hd', Esl. apply (queue_segments t n bCtrl Ho); [lia|].
  intros Hb. destruct (Hctrl Hb) as (? & ? & Hne). split; [done|]. destruct Hfifo as (_ & ? & _).
  assert (0 < zlen data) by (destruct data; [done|rewrite zlen_cons; pose proof (zlen_nonneg data); lia]). lia.
Qed.

(** *** The connect message *)

Definition connect_bytes t : list Z :=
  CTL_CONNECT :: if m_support_wnd_scale t then [TCP_OPT_WND_SCALE; 1; m_rwnd_scale t] else [].

Lemma WriteUInt8_data b v : bb_ok b → is_u8 v → bb_ok (WriteUInt8 b v) ∧ Data (WriteUInt8 b v) = Data b ++ [v].
Proof.
  intros Hb Hv. destruct (WriteUInt8_appends b v Hb) as (HD & Hok & _). split; [done|]. rewrite HD. f_equal.
  unfold wire, host_store, be_encode. unfold is_u8 in Hv.
  destruct (bool_decide (byte_order_ b = ORDER_NETWORK)), host_big_endian; cbn; by rewrite ?Z.mod_small by lia.
Qed.

Lemma queueConnectMessage_safe t : out_ok t → in_ok t → m_slist t = [] → m_snd_una t = 0 → m_snd_nxt t = 0 →
  ∃ o, queueConnectMessage t = set_m_snd_wnd (zlen (connect_bytes t)) (on_outgoing (λ _, o) t) ∧
    out_ok o ∧ m_snd_una o = 0 ∧ m_snd_nxt o = 0.
Proof.
  intros Ho Hin Hnil Huna Hnxt. unfold queueConnectMessage.
  destruct (ByteBuffer_new_spec ORDER_NETWORK) as (Hb0 & HD0 & _).
  set (buf := if m_support_wnd_scale t then _ else _).
  assert (bb_ok buf ∧ Data buf = connect_bytes t) as [Hbb HD].
  { unfold buf, connect_bytes. destruct (WriteUInt8_data _ CTL_CONNECT Hb0) as [Hb1 HD1]; [done|]. rewrite HD0 in HD1.
    destruct (m_support_wnd_scale t); [|done].
    destruct (WriteUInt8_data _ TCP_OPT_WND_SCALE Hb1) as [Hb2 HD2]; [done|].
    destruct (WriteUInt8_data _ 1 Hb2) as [Hb3 HD3]; [done|].
    destruct (WriteUInt8_data _ (m_rwnd_scale t) Hb3) as [Hb4 HD4]; [destruct (in_scale _ Hin); ulia|].
    split; [done|]. by rewrite HD4, HD3, HD2, HD1. }
  assert (Hlen : Length buf = zlen (connect_bytes t)) by (by rewrite <- Data_length, HD).
  assert (Hcl : 1 ≤ zlen (connect_bytes t) ≤ 4) by (unfold connect_bytes, zlen; destruct (m_support_wnd_scale t); cbn [length]; lia).
  rewrite HD, Hlen, u32_id by ulia. set (t1 := set_m_snd_wnd _ t).
  assert (Hdl : data_length_ (m_sbuf t) = 0).
  { destruct (out_slist _ Ho) as (sent & unsent & Hsl & _ & _ & _ & _ & Hd). rewrite Hnil in Hsl.
    symmetry in Hsl. apply app_eq_nil in Hsl as [-> ->]. exact Hd. }
  pose proof (queue_safe (connect_bytes t) true t1 Ho) as Hq. cbv zeta in Hq.
  destruct (queue (connect_bytes t) true t1) as [w t2]. destruct Hq as ((o & ->) & Ho2 & _ & Hu2 & Hn2 & _).
  - change (m_snd_una t1) with (m_snd_una t). change (m_sbuf t1) with (m_sbuf t). lia.
  - intros _. split_and!; done.
  - exists o. split; [reflexivity|]. cbn in Ho2, Hu2, Hn2. split_and!; [done|congruence..].
Qed.

(** *** Packet sizes *)
Lemma mtu_level_safe fuel : ∀ level advise, 0 ≤ level ≤ 9 → 9 - level < Z.of_nat fuel →
  ∃ l, mtu_level fuel level advise = Some l ∧ 0 ≤ l ≤ 9.
Proof.
  induction fuel as [|fuel IH]; intros level advise Hl Hf; [lia|]. cbn [mtu_level].
  destruct (maximums (level + 1) ltac:(lia)) as (v & -> & Hv).
  destruct (Z.ltb_spec 0 v); cbn [negb]; [|by exists level].
  rewrite zat_Some by (change (zlen PACKET_MAXIMUMS) with 11; lia).
  destruct (_ <=? _); [by exists level|]. apply IH; lia.
Qed.

Lemma adjustMTU_safe t : mss_ok t → cong_ok t →
  ∃ m c, adjustMTU t = Some (on_congestion (λ _, c) (on_mss (λ _, m) t)) ∧ mss_ok m ∧ cong_ok c ∧
    m_dup_acks c = m_dup_acks t ∧ m_recover c = m_recover t.
Proof.
  intros (Hm & Hl & Ha) (Hs & Hc & Hd & Hw & Hsc). unfold adjustMTU.
  destruct (mtu_level_safe 12 0 (m_mtu_advise t) ltac:(lia) ltac:(lia)) as (l & -> & Hl').
  assert (Hu : u32 (m_mtu_advise t - PACKET_OVERHEAD) = m_mtu_advise t - 116) by (apply u32_id; unfold PACKET_OVERHEAD; cbn; ulia).
  eexists _, _. split; [reflexivity|]. unfold mss_ok, cong_ok. cbn. cbn in Hu. rewrite Hu.
  change (Pos.to_nat 1) with 1%nat.
  replace (u32 _) with (2 * (m_mtu_advise t - 116)) by (symmetry; apply u32_id; ulia).
  unfold is_u32 in *. split_and!; try done; lia.
Qed.

(** *** Buffer sizes and options *)

Lemma scale_down_safe fuel : ∀ j k v n, 0 ≤ j < Z.of_nat fuel → 0 ≤ k → k + j < 256 → 0 < v < 65536 * 2 ^ j → v * 2 ^ k ≤ n →
  ∃ k' v', scale_down fuel k v = Some (k', v') ∧ k ≤ k' ≤ k + j ∧ 0 < v' ≤ 65535 ∧ v' * 2 ^ k' ≤ n.
Proof.
  induction fuel as [|fuel IH]; intros j k v n Hj Hk Hkj Hv Hn; [lia|]. cbn [scale_down].
  destruct (Z.ltb_spec 65535 v); [|by exists k, v; split_and!; lia || done].
  assert (j ≠ 0) by (intros ->; cbn in Hv; lia).
  rewrite (Z.shiftr_div_pow2 v 1) by lia. replace (u8 (k + 1)) with (k + 1) by ulia. change (2 ^ 1) with 2.
  assert (Hpow : 65536 * 2 ^ j = 2 * (65536 * 2 ^ (j - 1))).
  { replace j with (Z.succ (j - 1)) at 1 by lia. rewrite Z.pow_succ_r by lia. lia. }
  destruct (IH (j - 1) (k + 1) (v / 2) n) as (k' & v' & -> & ? & ? & ?); [lia..|split; [|]| |].
  - apply Z.div_str_pos. lia.
  - apply Z.div_lt_upper_bound; lia.
  - rewrite Z.add_1_r, Z.pow_succ_r by lia. pose proof (Z.mul_div_le v 2 ltac:(lia)).
    pose proof (Z.pow_pos_nonneg 2 k ltac:(lia) Hk). nia.
  - exists k', v'. split_and!; (done || lia).
Qed.

(** What changing the capacity keeps. *)
Lemma SetCapacity_safe f size : fifo_ok f → 0 < size < 2 ^ 62 →
  let f' := (SetCapacity f size).2 in fifo_ok f' ∧ state_ f' = state_ f ∧ data_length_ f' = data_length_ f ∧
    (buffer_length_ f' = size ∨ buffer_length_ f' = buffer_length_ f).
Proof.
  intros Hok Hs. pose proof (capacity_window f size Hok Hs) as Hc.
  destruct (SetCapacity f size) as [b f'] eqn:E. destruct Hc as [Hok' _]. split; [done|]. cbn [snd].
  unfold SetCapacity in E. repeat case_match; simplify_eq; cbn; auto.
Qed.

Lemma resizeReceiveBuffer_safe size t : in_ok t → 0 < size < 4294967296 →
  ∃ c thresh, resizeReceiveBuffer size t = Some (set_m_ssthresh thresh (on_incoming (λ _, c) t)) ∧
    (m_rlist t = [] → in_ok c) ∧ 0 < thresh < 4294967296.
Proof.
  intros [Hf Hop Hsz Hnx Hwnd Hsc Hrl] Hs. unfold resizeReceiveBuffer.
  destruct (scale_down_safe 33 16 0 size size) as (k & v & -> & Hk & Hv & Hle); [cbn; lia..|].
  assert (Hp : 1 ≤ 2 ^ k) by (pose proof (Z.pow_pos_nonneg 2 k ltac:(lia) ltac:(lia)); lia).
  unfold shl32. destruct (Z.ltb_spec k 32); [|lia]. rewrite Z.shiftl_mul_pow2 by lia.
  assert (Hn : 0 < v * 2 ^ k < 4294967296) by nia. set (n := v * 2 ^ k) in *. rewrite (u32_id n) by exact (conj (Z.lt_le_incl _ _ (proj1 Hn)) (proj2 Hn)).
  destruct (SetCapacity_safe (m_rbuf t) n Hf ltac:(lia)) as (Hf' & Hs' & Hd' & Hb').
  eexists _, n. split; [reflexivity|]. split; [intros Hnil|lia].
  split; cbn [m_rbuf m_rcv_nxt m_rcv_wnd m_rwnd_scale m_rlist set_m_rbuf set_m_rbuf_len set_m_rwnd_scale set_m_ssthresh on_incoming
    on_congestion incoming]; try done; try lia; try congruence.
  - apply u32_range.
  - by rewrite Hnil.
Qed.

Lemma set_swnd_eta t : set_m_swnd_scale (m_swnd_scale t) t = t.
Proof. destruct t as [? ? ? ? ? ? [] ? ?]. reflexivity. Qed.

Lemma applyOption_scale kind data len t : bytes_ok data → 0 ≤ m_swnd_scale t →
  ∃ v, applyOption kind data len t = set_m_swnd_scale v t ∧ 0 ≤ v.
Proof.
  intros Hd Hv. unfold applyOption. repeat case_match;
    try (exists (m_swnd_scale t); rewrite set_swnd_eta; done).
  eexists. split; [reflexivity|]. by apply bytes_ok_zget.
Qed.

Lemma parseOptions_loop_safe fuel : ∀ buf opts t, bb_ok buf → Length buf < Z.of_nat fuel → 0 ≤ m_swnd_scale t →
  ∃ r v, parseOptions_loop fuel buf opts t = Some (r, set_m_swnd_scale v t) ∧ 0 ≤ v.
Proof.
  induction fuel as [|fuel IH]; intros buf opts t Hbb Hf Hv.
  { destruct Hbb as (? & ? & _). unfold Length in Hf. lia. }
  cbn [parseOptions_loop]. assert (Hstop : ∃ r v, Some (Some opts, t) = Some (r, set_m_swnd_scale v t) ∧ 0 ≤ v)
    by (exists (Some opts), (m_swnd_scale t); by rewrite set_swnd_eta).
  destruct (Z.eqb_spec (Length buf) 0); [done|].
  destruct (ReadUInt8 buf) as [[kind buf1]|] eqn:E1; [|exact Hstop].
  rewrite ReadUInt8_int in E1 by done. destruct (read_int_inv 1 buf kind buf1 Hbb E1) as (_ & HD1 & Hbb1 & _).
  assert (Hl1 : Length buf1 < Length buf).
  { rewrite <- !Data_length, HD1, zlen_app, zlen_wire by done. lia. }
  destruct (_ =? TCP_OPT_EOL); [done|]. destruct (_ =? TCP_OPT_NOOP); [apply IH; (done || lia)|].
  set (p := match ReadUInt8 buf1 with Some _ => _ | None => _ end).
  assert (0 ≤ p.1 ∧ bb_ok p.2 ∧ Length p.2 ≤ Length buf1) as (Hl & Hbb2 & Hl2).
  { unfold p. destruct (ReadUInt8 buf1) as [[l buf2]|] eqn:E2; [|done]. rewrite ReadUInt8_int in E2 by done.
    destruct (read_int_inv 1 buf1 l buf2 Hbb1 E2) as (? & HD2 & Hbb2 & _). cbn [fst snd]. split; [lia|]. split; [done|].
    rewrite <- !Data_length, HD2, zlen_app, zlen_wire by done. lia. }
  destruct p as [opt_len buf2]. cbn [fst snd] in *.
  destruct (_ <=? _); [|exists None, (m_swnd_scale t); by rewrite set_swnd_eta].
  destruct (applyOption_scale kind (Data buf2) opt_len t (Data_ok _ Hbb2) Hv) as (v & -> & Hv').
  pose proof (Consume_spec buf2 opt_len Hbb2 Hl) as Hc.
  destruct (IH (match Consume buf2 opt_len with Some b => b | None => buf2 end) (opts ++ [kind]) (set_m_swnd_scale v t))
    as (r & v' & -> & ?); [| |done|by exists r, v'].
  - by destruct (Consume buf2 opt_len); [destruct Hc as (_ & _ & ? & _)|].
  - destruct (Consume buf2 opt_len) as [b|]; [|lia]. destruct Hc as (Hle & HD & Hbb3 & _).
    rewrite <- (Data_length b), HD, zlen_zdrop, (Data_length buf2) by done. rewrite Data_length in Hle by done. lia.
Qed.

(** What the options of a connect message change. *)
Definition options_change (t t' : PseudoTcp) : Prop :=
  ∃ c thresh v, t' = set_m_swnd_scale v (set_m_ssthresh thresh (on_incoming (λ _, c) t)) ∧
    0 < thresh < 4294967296 ∧ 0 ≤ v ∧ (c = incoming t ∨ (m_rlist t = [] → in_ok c)).

Lemma parseOptions_safe data t : bytes_ok data → in_ok t → cong_ok t →
  ∃ t', parseOptions data t = Some t' ∧ options_change t t'.
Proof.
  intros Hd Hin Hc. pose proof Hc as (Hth & _ & _ & _ & Hsc). unfold parseOptions.
  destruct (ByteBuffer_of_spec data ORDER_NETWORK Hd) as (Hbb & HD & _).
  destruct (parseOptions_loop_safe (S (length data)) (ByteBuffer_of data ORDER_NETWORK) [] t Hbb) as (r & v & -> & Hv).
  { rewrite <- Data_length, HD by done. unfold zlen. lia. } { lia. }
  assert (Hsame : options_change t (set_m_swnd_scale v t)).
  { exists (incoming t), (m_ssthresh t), v. refine (conj _ (conj Hth (conj Hv (or_introl eq_refl)))).
    destruct t as [? ? ? ? ? ? [] ? ?]. reflexivity. }
  destruct r as [opts|]; [|by eexists]. destruct (bool_decide _); [by eexists|].
  destruct (0 <? _); [|by eexists].
  destruct (resizeReceiveBuffer_safe DEFAULT_RCV_BUF_SIZE (set_m_swnd_scale v t) Hin ltac:(done))
    as (c & th & -> & Hc' & Hth').
  eexists. split; [reflexivity|]. exists c, th, 0. refine (conj _ (conj Hth' (conj (Z.le_refl 0) (or_intror Hc')))).
  destruct t as [? ? ? ? ? ? [] ? ?]. reflexivity.
Qed.

(** *** The invariant under the sending functions *)

Lemma frame_ok t t' : tcp_ok t → frame t t' → out_ok t' → m_snd_nxt t ≤ m_snd_nxt t' →
  (m_state t = TCP_LISTEN → outgoing t' = outgoing t) → tcp_ok t'.
Proof.
  intros [Ho Hi Hm Hr Hc Hrec Hl] Hf Ho' Hn Hl'. pose proof (frame_cong t t' Hf Hc). destruct Hf.
  split; try done; auto; rewrite ?fr_in0, ?fr_rtt0; try done.
  - rewrite fr_conn0, fr_dups0, fr_rec0. intros Hs3 Hs4. specialize (Hrec Hs3 Hs4). lia.
  - rewrite fr_conn0. intros E. rewrite (Hl' E). auto.
Qed.

Lemma attemptSend_ok sflags t : tcp_ok t →
  ∃ t', attemptSend sflags t = Some t' ∧ tcp_ok t' ∧ frame t t' ∧ m_sbuf t' = m_sbuf t ∧ m_snd_una t' = m_snd_una t.
Proof.
  intros Hok. destruct (attemptSend_safe sflags t (ok_out _ Hok) (ok_mss _ Hok) (ok_cong _ Hok))
    as (t' & E & Hf & Ho & Hu & Hn & Hs & Hl).
  exists t'. split_and!; try done. apply (frame_ok t); try done.
  intros Hst. apply Hl. by apply (ok_listen _ Hok).
Qed.

Lemma transmit_front_ok now t : tcp_ok t → m_snd_una t ≠ m_snd_nxt t →
  ∃ ok t', transmit 0 now t = Some (ok, t') ∧ tcp_ok t' ∧ frame t t' ∧ m_snd_nxt t' = m_snd_nxt t ∧ m_snd_una t' = m_snd_una t.
Proof.
  intros Hok Hne. destruct (transmit_front now t (ok_out _ Hok) (ok_mss _ Hok) Hne) as (ok & t' & E & Hf & Ho & Hn & Hu).
  exists ok, t'. split_and!; try done. apply (frame_ok t); try done; [lia|].
  intros Hst. destruct (ok_listen _ Hok Hst) as (_ & ? & ?). congruence.
Qed.

(** The invariant of a state that differs in the connection and the outside. *)
Lemma tcp_ok_conn t t' : tcp_ok t → incoming t' = incoming t → outgoing t' = outgoing t → mss t' = mss t →
  rtt t' = rtt t → congestion t' = congestion t → (m_state t' = TCP_LISTEN → m_state t = TCP_LISTEN) →
  (m_state t' ≠ TCP_CLOSED → m_state t ≠ TCP_CLOSED) → tcp_ok t'.
Proof.
  intros [Ho Hi Hm Hr Hc Hrec Hl] Ei Eo Em Er Ec Es Es'. split; rewrite ?Ei, ?Eo, ?Em, ?Er, ?Ec; auto.
Qed.

Lemma closedown_ok err t : out_ok t → in_ok t → mss_ok t → rtt_ok t → cong_ok t → tcp_ok (closedown err t).
Proof. intros. by split. Qed.
End Safe.
