(* ===== verification/PseudoTcpRecv.v ===== *)
(** * Pseudo-TCP: safety of receiving and of the interface

    The steps of [process], each of which has defined behaviour and keeps the
    invariant, and the theorem for the whole interface. *)

From S2P Require Import Prelude ByteOrder ByteBuffer FifoBuffer TimeUtils PseudoTcp PseudoTcpSafe.

#[local] Open Scope tcp_scope.

Section Receive.
Context `{Platform} `{TcpEnv}.
Implicit Types t : PseudoTcp.

(** ** Acknowledgements *)

Lemma process_rtt_ok seg now t : is_u32 (seg_tsecr seg) → rtt_ok t →
  ∃ r, process_rtt seg now t = on_rtt (λ _, r) t ∧ rtt_ok r.
Proof.
  intros Hts (Hrto & Hs & Hv). unfold process_rtt.
  assert (Hid : ∃ r, t = on_rtt (λ _, r) t ∧ rtt_ok r) by (exists (rtt t); split; [by destruct t|done]).
  destruct (negb (seg_tsecr seg =? 0)); [|done].
  destruct (Z.leb_spec 0 (TimeDiff now (seg_tsecr seg))) as [Hge|]; [|done].
  assert (Hd : is_u32 (TimeDiff now (seg_tsecr seg))) by (unfold TimeDiff in *; ulia).
  assert (Hb : ∀ x, MIN_RTO ≤ bound MIN_RTO x MAX_RTO ≤ MAX_RTO) by (intros x; unfold bound, MIN_RTO, MAX_RTO; lia).
  destruct (m_rx_srtt t =? 0); (eexists; split; [reflexivity|]); (split; [apply Hb|]); cbn; ulia.
Qed.

(** Acknowledged bytes come from the segments in flight. *)
Lemma free_segments_sent sent : ∀ rest n largest, Forall is_sent sent → 0 ≤ n ≤ sum_len sent →
  ∃ sent' largest', free_segments (sent ++ rest) n largest = Some (sent' ++ rest, largest') ∧
    Forall is_sent sent' ∧ sum_len sent' = sum_len sent - n.
Proof.
  induction sent as [|s sent IH]; intros rest n largest Hs Hn.
  { exists [], largest. cbn in Hn. replace n with 0 by lia. split_and!; try done. by destruct rest. }
  apply Forall_cons in Hs as [(Hx & Hl & Hq) Hs]. rewrite sum_len_cons in *. cbn [app free_segments].
  destruct (Z.ltb_spec 0 n); cbn [negb].
  2:{ exists (s :: sent), largest. replace n with 0 by lia. rewrite sum_len_cons. split_and!; try done; [|lia].
      by apply Forall_cons. }
  destruct (Z.ltb_spec n (ss_len s)).
  - eexists (_ :: sent), largest. split; [reflexivity|]. rewrite sum_len_cons. cbn [ss_len]. split; [|lia].
    apply Forall_cons. split; [|done]. split; [done|]. split; [cbn; lia|done].
  - destruct (IH rest (n - ss_len s) (if largest <? ss_len s then ss_len s else largest) Hs ltac:(lia)) as (s' & l' & -> & ? & ?).
    exists s', l'. split_and!; try done. lia.
Qed.

Lemma ack_out_ok o ack base largest : out_ok o → m_snd_una o < ack ≤ m_snd_nxt o → (base ≠ 0 → ack ≠ m_snd_nxt o) →
  ∃ slist largest', free_segments (m_slist o) (ack - m_snd_una o) largest = Some (slist, largest') ∧
    out_ok (mkOutgoing slist (m_sbuf_len o) (m_snd_nxt o) ack (ConsumeReadData (m_sbuf o) (ack - m_snd_una o)) base).
Proof.
  intros [Hfifo Hopen Hsize Huna Hspace (sent & unsent & Hsl & Hsent & Hun & Hlens & Hnxt & Hdl) _] Hack Hbase.
  pose proof (lens_nonneg unsent Hlens).
  destruct (free_segments_sent sent unsent (ack - m_snd_una o) largest Hsent ltac:(lia)) as (sent' & l' & E & Hs' & Hsum).
  rewrite Hsl. exists (sent' ++ unsent), l'. split; [exact E|].
  destruct (fifo_consume_queue (m_sbuf o) (ack - m_snd_una o) Hfifo ltac:(lia)) as (Hf' & Hst & Hb & Hd & _).
  split; cbn [m_sbuf m_snd_una m_snd_nxt m_slist m_rto_base]; try done; try lia; try congruence.
  exists sent', unsent. split_and!; try done; lia.
Qed.

(** The invariant of a state with other values of the congestion control. *)
Ltac cong_tac Hok :=
  let Hc := fresh in
  destruct Hok as [? ? ? ? Hc ? ?]; destruct Hc as (? & ? & ? & ? & ?); split; try done; cbn; try (intros; lia);
  unfold cong_ok; cbn; split_and!; try done; try lia; try apply u32_range; try ulia.

Lemma min_u32 a b : 0 ≤ a → is_u32 b → is_u32 (Z.min a b).
Proof. unfold is_u32. lia. Qed.

Definition closed_conn (c : Conn) : Conn :=
  mkConn (m_shutdown c) (m_error c) TCP_CLOSED (m_conv c) (m_bReadEnable c) (m_bWriteEnable c).

Lemma process_window_ok now nAcked t : tcp_ok t → m_state t ≠ TCP_CLOSED → 0 ≤ nAcked →
  ∃ r t', process_window now nAcked t = Some (r, t') ∧ tcp_ok t' ∧ incoming t' = incoming t ∧ config t' = config t ∧
    (conn t' = conn t ∨ r = Some false ∧ conn t' = closed_conn (conn t)).
Proof.
  intros Hok Hst Hn. unfold process_window. pose proof (ok_cong _ Hok) as (Hth & Hcw & Hda & Hw & Hsc).
  pose proof (ok_mss _ Hok) as (Hms & _).
  destruct (Z.leb_spec 3 (m_dup_acks t)) as [Hd|Hd].
  - destruct (Z.leb_spec (m_recover t) (m_snd_una t)).
    + eexists _, _. split; [reflexivity|]. split; [|by auto]. cong_tac Hok; apply min_u32; (lia || apply u32_range).
    + pose proof (ok_recover _ Hok Hst Hd). destruct (transmit_front_ok now t Hok ltac:(lia)) as (ok & t' & -> & Hok' & Hf & Hnx & Hu).
      destruct ok; cbn [negb]; (eexists _, _; split; [reflexivity|]; split; [|pose proof (fr_conn _ _ Hf) as Ec; cbn; rewrite (fr_in _ _ Hf), (fr_conf _ _ Hf), Ec; by auto]).
      * cong_tac Hok'.
      * destruct Hok'; by apply closedown_ok.
  - cbn [m_cwnd m_ssthresh set_m_dup_acks on_congestion congestion].
    destruct (Z.ltb_spec (m_cwnd t) (m_ssthresh t)).
    + eexists _, _. split; [reflexivity|]. split; [|by auto]. cong_tac Hok.
    + unfold div32. destruct (Z.eqb_spec (m_cwnd t) 0); [lia|]. eexists _, _. split; [reflexivity|]. split; [|by auto].
      cong_tac Hok.
Qed.

(** Fields of a segment have their widths. *)
Record seg_ok (seg : Segment) : Prop := {
  sg_seq : is_u32 (seg_seq seg);
  sg_ack : is_u32 (seg_ack seg);
  sg_wnd : is_u16 (seg_wnd seg);
  sg_tsecr : is_u32 (seg_tsecr seg);
  sg_tsval : is_u32 (seg_tsval seg);
  sg_len : seg_len seg = zlen (seg_data seg);
  sg_data : bytes_ok (seg_data seg)
}.

(** What the steps of [process] that handle the acknowledgement do to the rest. *)
Definition ack_step t (r : option bool) t' : Prop :=
  tcp_ok t' ∧ incoming t' = incoming t ∧ config t' = config t ∧
  (conn t' = conn t ∨ r = Some false ∧ conn t' = closed_conn (conn t)).

(** The state when the window is updated after new data was acknowledged. *)
Lemma new_ack_state seg now t : tcp_ok t → seg_ok seg → m_snd_una t < seg_ack seg ≤ m_snd_nxt t →
  let n := seg_ack seg - m_snd_una t in
  ∃ t2 slist largest, process_new_ack seg now t = process_window now n t2 ∧ tcp_ok t2 ∧
    conn t2 = conn t ∧ incoming t2 = incoming t ∧ config t2 = config t ∧ w_sent t2 = w_sent t ∧
    free_segments (m_slist t) n (m_largest t) = Some (slist, largest) ∧
    m_slist t2 = slist ∧ m_snd_una t2 = seg_ack seg ∧ m_sbuf t2 = ConsumeReadData (m_sbuf t) n.
Proof.
  intros Hok Hseg Hack n. unfold process_new_ack.
  destruct (process_rtt_ok seg now t (sg_tsecr _ Hseg) (ok_rtt _ Hok)) as (r & -> & Hr).
  destruct Hok as [Ho Hi Hm _ (Hth & Hcw & Hda & Hw & Hsc) Hrec Hl].
  unfold shl32. cbn [m_swnd_scale on_rtt congestion]. destruct (Z.ltb_spec (m_swnd_scale t) 32); [|lia].
  destruct (out_ok_bounds t Ho) as (Hb & Hnx & Hun & _).
  set (wnd := u32 _). set (t1 := set_m_snd_wnd wnd _).
  change (m_snd_una t1) with (m_snd_una t).
  assert (Hn : u32 (seg_ack seg - m_snd_una t) = n) by (apply u32_id; ulia). rewrite Hn.
  set (base := if seg_ack seg =? m_snd_nxt t then 0 else now).
  destruct (ack_out_ok t (seg_ack seg) base (m_largest t) Ho Hack) as (sl & la & E & Ho').
  { unfold base. by destruct (Z.eqb_spec (seg_ack seg) (m_snd_nxt t)). }
  match goal with |- context [free_segments ?a ?b ?c] => change (free_segments a b c) with
    (free_segments (m_slist t) n (m_largest t)) end.
  fold n in E. rewrite E. set (t2 := set_m_largest la _). exists t2, sl, la.
  split; [done|]. split; [|by split_and!]. split; try done.
  - exact (conj Hth (conj Hcw (conj Hda (conj (u32_range _) Hsc)))).
  - intros Hlst. destruct (Hl Hlst) as (_ & ? & ?). lia.
Qed.

Lemma process_new_ack_ok seg now t : tcp_ok t → m_state t ≠ TCP_CLOSED → seg_ok seg →
  m_snd_una t < seg_ack seg ≤ m_snd_nxt t →
  ∃ r t', process_new_ack seg now t = Some (r, t') ∧ ack_step t r t'.
Proof.
  intros Hok Hst Hseg Hack. destruct (new_ack_state seg now t Hok Hseg Hack) as (t2 & sl & la & -> & Hok2 & Ec & Ei & Ef & _).
  destruct (process_window_ok now (seg_ack seg - m_snd_una t) t2 Hok2) as (r' & t' & -> & Hok' & Hi' & Hcf & Hcn); [by rewrite Ec|lia|].
  exists r', t'. split; [done|]. rewrite Ec in Hcn. split_and!; try done; congruence.
Qed.

Lemma process_dup_ack_ok seg now t : tcp_ok t → m_state t ≠ TCP_CLOSED →
  ∃ r t', process_dup_ack seg now t = Some (r, t') ∧ ack_step t r t'.
Proof.
  intros Hok Hst. unfold process_dup_ack, shl32. pose proof (ok_cong _ Hok) as (Hth & Hcw & Hda & Hw & Hsc).
  pose proof (ok_mss _ Hok) as (Hms & _).
  destruct (Z.ltb_spec (m_swnd_scale t) 32); [|lia]. set (t1 := set_m_snd_wnd _ t).
  assert (Hok1 : tcp_ok t1) by (unfold t1; cong_tac Hok; auto).
  destruct (0 <? seg_len seg); [by exists None, t1; split; [|split_and!; auto]|].
  change (m_snd_una t1) with (m_snd_una t). change (m_snd_nxt t1) with (m_snd_nxt t).
  destruct (Z.eqb_spec (m_snd_una t) (m_snd_nxt t)); cbn [negb].
  { eexists None, _. split; [reflexivity|]. split; [|by auto]. cong_tac Hok1. }
  set (d := u8 (m_dup_acks t1 + 1)). set (t2 := set_m_dup_acks d t1). change (m_dup_acks t2) with d.
  assert (Hd : is_u8 d) by apply u8_range.
  destruct (Z.eqb_spec d 3) as [Hd3|Hd3].
  - (* the segment is sent again before m_recover is set *)
    destruct (transmit_front now t2 (ok_out _ Hok1) (ok_mss _ Hok1)) as (ok & t' & -> & Hf & Ho' & Hn' & Hu'); [done|].
    assert (Hc' : cong_ok t').
    { apply (frame_cong t2); [done|]. destruct Hok1 as [_ _ _ _ (Hc1 & Hc2 & _ & Hc4 & Hc5) _ _].
      exact (conj Hc1 (conj Hc2 (conj Hd (conj Hc4 Hc5)))). }
    assert (Hm' : mss_ok t') by (apply Hf, Hok). pose proof (fr_in _ _ Hf) as Ei. pose proof (fr_conn _ _ Hf) as Ec.
    assert (Hi' : in_ok t') by (rewrite Ei; apply Hok).
    assert (Hr' : rtt_ok t') by (rewrite (fr_rtt _ _ Hf); apply Hok). pose proof (fr_conf _ _ Hf).
    destruct ok; cbn [negb]; (eexists _, _; split; [reflexivity|]).
    + split; [|split_and!; [done|done|by left]].
      split; try done.
      * destruct Hc' as (? & ? & ? & ? & ?). destruct Hm' as (? & _). destruct (out_ok_bounds t' Ho') as (? & ? & _ & E).
        unfold cong_ok. cbn -[u32 Z.mul Z.div]. rewrite E, (u32_id (2 * m_mss t')) by ulia.
        split; [split; [lia|]|split_and!; try done; apply u32_range || lia].
        apply Z.max_lub_lt; [apply Z.div_lt_upper_bound; ulia|ulia].
      * intros Hlst. assert (Hlst2 : m_state t = TCP_LISTEN) by (rewrite <- Hlst; exact (f_equal m_state (eq_sym Ec))).
        destruct (ok_listen _ Hok Hlst2) as (_ & ? & ?). congruence.
    + split; [by apply closedown_ok|]. split_and!; [done|done|right; split; [done|]]. cbn. by rewrite Ec.
  - assert (Hok2 : tcp_ok t2).
    { pose proof (ok_recover _ Hok) as Hrec. destruct Hok1 as [? ? ? ? (Hc1 & Hc2 & _ & Hc4 & Hc5) Hrec1 ?].
      split; try done. intros _ Hge. apply (Hrec Hst). change (3 ≤ d) in Hge.
      assert (Ed : d = u8 (m_dup_acks t + 1)) by reflexivity. clear - Hge Hd3 Hda Ed. ulia. }
    destruct (Z.ltb_spec 3 d); (eexists None, _; split; [reflexivity|]; split; [|by auto]); [|done]. cong_tac Hok2.
Qed.

Lemma process_ack_ok seg now t : tcp_ok t → m_state t ≠ TCP_CLOSED → seg_ok seg →
  ∃ r t', process_ack seg now t = Some (r, t') ∧ ack_step t r t'.
Proof.
  intros Hok Hst Hseg. unfold process_ack.
  destruct (Z.ltb_spec (m_snd_una t) (seg_ack seg)), (Z.leb_spec (seg_ack seg) (m_snd_nxt t)); cbn [andb].
  1: by apply process_new_ack_ok.
  all: destruct (_ =? _); [by apply process_dup_ack_ok|exists None, t; split; [done|split_and!; auto]].
Qed.

(** ** Control data *)

(** The options of a connect message: the window scale is a shift of a 32-bit word,
    and the receive buffer is not resized under saved segments. *)
Definition connect_ok (options : list Z) t : Prop :=
  ∀ t', parseOptions options t = Some t' → m_swnd_scale t' < 32 ∧ (incoming t' = incoming t ∨ m_rlist t = []).

(** Options do not depend on the times and on the outside. *)
Definition retime (tr : Traffic) (w : World) t : PseudoTcp :=
  mkTcp (conn t) tr (incoming t) (outgoing t) (mss t) (rtt t) (congestion t) (config t) w.

Lemma applyOption_retime tr w kind data len t : applyOption kind data len (retime tr w t) = retime tr w (applyOption kind data len t).
Proof. unfold applyOption. by repeat case_match. Qed.

Lemma parseOptions_loop_retime tr w fuel : ∀ buf opts t,
  parseOptions_loop fuel buf opts (retime tr w t) = prod_map id (retime tr w) <$> parseOptions_loop fuel buf opts t.
Proof.
  induction fuel as [|fuel IH]; intros buf opts t; [done|]. cbn [parseOptions_loop].
  destruct (_ =? 0); [done|]. destruct (match ReadUInt8 buf with Some _ => _ | None => _ end) as [kind buf1].
  destruct (_ =? TCP_OPT_EOL); [done|]. destruct (_ =? TCP_OPT_NOOP); [apply IH|].
  destruct (match ReadUInt8 buf1 with Some _ => _ | None => _ end) as [len buf2].
  destruct (_ <=? _); [|done]. rewrite applyOption_retime. apply IH.
Qed.

Lemma parseOptions_retime tr w data t : parseOptions data (retime tr w t) = retime tr w <$> parseOptions data t.
Proof.
  unfold parseOptions. rewrite parseOptions_loop_retime.
  destruct (parseOptions_loop _ _ _ t) as [[[opts|] t1]|]; [|done..]. cbn [fmap option_fmap option_map prod_map fst snd id].
  destruct (bool_decide _); [done|]. change (m_rwnd_scale (retime tr w t1)) with (m_rwnd_scale t1). destruct (0 <? _); [|done].
  unfold resizeReceiveBuffer. destruct (scale_down _ _ _) as [[sc n]|]; [|done]. by destruct (shl32 n sc).
Qed.

Lemma connect_ok_retime tr w options t : connect_ok options t → connect_ok options (retime tr w t).
Proof.
  intros Hc t'. rewrite parseOptions_retime. destruct (parseOptions options t) as [t2|] eqn:E; [|done].
  intros [= <-]. exact (Hc t2 E).
Qed.

Definition has_ctl (seg : Segment) : bool := negb (Z.land (seg_flags seg) FLAG_CTL =? 0).

(** The steps of the connection state. *)
Inductive tcp_edge : TcpState → TcpState → Prop :=
  | edge_stay s : tcp_edge s s
  | edge_connect : tcp_edge TCP_LISTEN TCP_SYN_SENT
  | edge_accept : tcp_edge TCP_LISTEN TCP_SYN_RECEIVED
  | edge_reply : tcp_edge TCP_SYN_SENT TCP_ESTABLISHED
  | edge_ack : tcp_edge TCP_SYN_RECEIVED TCP_ESTABLISHED
  | edge_close s : tcp_edge s TCP_CLOSED.
#[local] Hint Constructors tcp_edge : core.

Lemma adjustMTU_ok t : tcp_ok t → ∃ t', adjustMTU t = Some t' ∧ tcp_ok t' ∧ conn t' = conn t ∧
  incoming t' = incoming t ∧ outgoing t' = outgoing t ∧ config t' = config t ∧ world t' = world t ∧ traffic t' = traffic t.
Proof.
  intros [Ho Hi Hm Hr Hc Hrec Hl]. destruct (adjustMTU_safe t Hm Hc) as (m & c & -> & Hm' & Hc' & Ed & Er).
  eexists. split; [reflexivity|]. split; [|done]. split; try done. cbn. by rewrite Ed, Er.
Qed.

Lemma process_control_ok seg t : tcp_ok t → m_state t ≠ TCP_CLOSED → seg_ok seg →
  (has_ctl seg = true → connect_ok (zdrop 1 (seg_data seg)) t) →
  ∃ r b t', process_control seg t = Some (r, (b, t')) ∧ tcp_ok t' ∧ m_state t' ≠ TCP_CLOSED ∧
    (has_ctl seg = false → t' = t) ∧ tcp_edge (m_state t) (m_state t') ∧ m_shutdown t' = m_shutdown t ∧
    (b = false → m_state t' = m_state t).
Proof.
  intros Hok Hst Hseg Hcon. unfold process_control. fold (has_ctl seg).
  destruct (has_ctl seg) eqn:Hctl; [|by eexists _, _, t; split_and!].
  destruct (seg_len seg =? 0); [by eexists _, _, t; split_and!|]. destruct (_ =? CTL_CONNECT); [|by eexists _, _, t; split_and!].
  destruct (parseOptions_safe (zdrop 1 (seg_data seg)) t) as (t1 & E & c & th & v & -> & Hth & Hv & Hc);
    [apply bytes_ok_zdrop, Hseg|apply Hok|apply Hok|]. rewrite E.
  destruct (Hcon eq_refl _ E) as [Hsc Hin]. set (t1 := set_m_swnd_scale v _) in *.
  assert (Hok1 : tcp_ok t1).
  { destruct Hok as [Ho Hi Hm Hr (Hg1 & Hg2 & Hg3 & Hg4 & Hg5) Hrec Hl]. split; try done.
    destruct Hin as [Hin|Hin]; [by rewrite Hin|]. destruct Hc as [Hc|Hc]; [|exact (Hc Hin)].
    change (incoming t1) with c. by rewrite Hc. }
  change (m_state t1) with (m_state t). destruct (m_state t) eqn:Es; try done.
  - destruct (ok_listen _ Hok Es) as (Hl1 & Hl2 & Hl3).
    destruct (queueConnectMessage_safe (set_m_state TCP_SYN_RECEIVED t1) (ok_out _ Hok) (ok_in _ Hok1) Hl1 Hl3 Hl2)
      as (o & -> & Ho & Hou & Hon).
    eexists None, true, _. split; [reflexivity|]. split; [|by split_and!].
    destruct Hok1 as [_ ? ? ? (Hg1 & Hg2 & Hg3 & _ & Hg5) Hrec ?]. split; try done.
    + refine (conj Hg1 (conj Hg2 (conj Hg3 (conj _ Hg5)))). change (is_u32 (zlen (connect_bytes t1))).
      unfold connect_bytes, zlen. destruct (m_support_wnd_scale t1); cbn [length]; ulia.
    + intros _ Hd. change (m_snd_nxt _) with (m_snd_nxt o). rewrite Hon, <- Hl2. apply (ok_recover _ Hok); [congruence|exact Hd].
  - destruct (adjustMTU_ok (set_m_state TCP_ESTABLISHED t1)) as (t2 & -> & Hok2 & Ec & _ & _ & _ & _ & Et).
    { apply (tcp_ok_conn t1); try done. intros _. change (m_state t ≠ TCP_CLOSED). congruence. }
    eexists None, true, _. split; [reflexivity|]. split; [by apply (tcp_ok_conn t2)|]. cbn. by rewrite Ec.
  - eexists None, true, t1. split; [reflexivity|]. split; [done|]. change (m_state t1) with (m_state t). by rewrite Es.
  - eexists None, true, t1. split; [reflexivity|]. split; [done|]. change (m_state t1) with (m_state t). by rewrite Es.
Qed.

Lemma process_established_ok b t : tcp_ok t → m_state t ≠ TCP_CLOSED →
  ∃ t', process_established b t = Some t' ∧ tcp_ok t' ∧ incoming t' = incoming t ∧ m_state t' ≠ TCP_CLOSED ∧
    tcp_edge (m_state t) (m_state t') ∧ m_shutdown t' = m_shutdown t ∧ (b = true → t' = t).
Proof.
  intros Hok Hst. unfold process_established. destruct (_ && _) eqn:E; [|by exists t; split_and!].
  apply andb_true_iff in E as [E Eb]. apply bool_decide_eq_true in E.
  destruct (adjustMTU_ok (set_m_state TCP_ESTABLISHED t)) as (t2 & -> & Hok2 & Ec & Ei & _).
  { by apply (tcp_ok_conn t). }
  eexists. split; [reflexivity|]. split; [by apply (tcp_ok_conn t2)|]. split; [done|].
  cbn. rewrite Ec, E. split_and!; try done. by intros ->.
Qed.

(** ** Data *)

(** The part of a segment that is kept. *)
Definition kept t (seg seg2 : Segment) : Prop :=
  seg_flags seg2 = seg_flags seg ∧
  (seg_len seg2 = 0 ∨
   0 < seg_len seg2 ∧ m_rcv_nxt t ≤ seg_seq seg2 ∧ seg_seq seg ≤ seg_seq seg2 ∧
   seg_seq seg2 + seg_len seg2 ≤ seg_seq seg + seg_len seg ∧
   seg_seq seg2 + seg_len seg2 ≤ m_rcv_nxt t + (buffer_length_ (m_rbuf t) - data_length_ (m_rbuf t)) ∧
   seg_data seg2 = zdrop (seg_seq seg2 - seg_seq seg) (seg_data seg)).

Lemma trim_kept seg t : in_ok t → is_u32 (seg_seq seg) → 0 ≤ seg_len seg → seg_seq seg + seg_len seg < 4294967296 →
  kept t seg (trim_back (trim_front seg t) t).
Proof.
  intros Hin Hs Hl Hfit. destruct (GetWriteRemaining_ok (m_rbuf t) (in_fifo _ Hin) (in_size _ Hin)) as [_ Hav].
  pose proof (in_nxt _ Hin) as Hnx. pose proof (in_fifo _ Hin) as (_ & HL & _ & Hdl). pose proof (in_size _ Hin).
  assert (Hfr : let seg1 := trim_front seg t in seg_flags seg1 = seg_flags seg ∧ (seg_len seg1 = 0 ∨
    0 < seg_len seg1 ∧ m_rcv_nxt t ≤ seg_seq seg1 ∧ seg_seq seg ≤ seg_seq seg1 ∧
    seg_seq seg1 + seg_len seg1 = seg_seq seg + seg_len seg ∧
    seg_data seg1 = zdrop (seg_seq seg1 - seg_seq seg) (seg_data seg))).
  { unfold trim_front. destruct (Z.ltb_spec (seg_seq seg) (m_rcv_nxt t)).
    - destruct (Z.ltb_spec (m_rcv_nxt t - seg_seq seg) (seg_len seg)); [|by split; [|left]].
      split; [done|]. right. cbn [set_seg seg_seq seg_len seg_data].
      replace (seg_seq seg + (m_rcv_nxt t - seg_seq seg)) with (m_rcv_nxt t) by lia. rewrite u32_id by done.
      split_and!; (done || lia).
    - split; [done|]. destruct (decide (seg_len seg = 0)); [by left|right]. split_and!; try lia.
      by rewrite Z.sub_diag, zdrop_neg by lia. }
  destruct Hfr as [Hfl Hc]. set (seg1 := trim_front seg t) in *. unfold kept, trim_back. rewrite Hav.
  set (av := buffer_length_ (m_rbuf t) - data_length_ (m_rbuf t)) in *.
  destruct Hc as [Hz|(Hp & Hge & Hle & Hend & Hdata)].
  - destruct (av <? _); [|split; [done|by left]].
    destruct (Z.ltb_spec (u32 (u32 (seg_seq seg1 + seg_len seg1 - m_rcv_nxt t) - av)) (seg_len seg1)) as [Hlt|];
      [pose proof (u32_range (u32 (seg_seq seg1 + seg_len seg1 - m_rcv_nxt t) - av)) as Hr; unfold is_u32 in Hr; lia|].
    split; [done|by left].
  - rewrite (u32_id (seg_seq seg1 + seg_len seg1 - m_rcv_nxt t)) by ulia.
    destruct (Z.ltb_spec av (seg_seq seg1 + seg_len seg1 - m_rcv_nxt t)).
    + rewrite u32_id by ulia.
      destruct (Z.ltb_spec (seg_seq seg1 + seg_len seg1 - m_rcv_nxt t - av) (seg_len seg1)); (split; [done|]); [right|by left].
      cbn [set_seg seg_seq seg_len seg_data]. split_and!; (done || lia).
    + split; [done|]. right. split_and!; (done || lia).
Qed.

(** The sequence number of the first readable byte, and the byte stored for a
    sequence number. *)
Definition rcv_base (c : Incoming) : Z := m_rcv_nxt c - data_length_ (m_rbuf c).
Definition slot (c : Incoming) (q : Z) : Z := zget (q - rcv_base c) (view (m_rbuf c)).

(** The same window, with some more of it readable. *)
Record advance (c c' : Incoming) : Prop := {
  adv_len : buffer_length_ (m_rbuf c') = buffer_length_ (m_rbuf c);
  adv_base : rcv_base c' = rcv_base c;
  adv_nxt : m_rcv_nxt c ≤ m_rcv_nxt c'
}.
#[export] Instance advance_refl : Reflexive advance.
Proof. intros c. by split. Qed.
#[export] Instance advance_trans : Transitive advance.
Proof. intros a b c [] []. split; (congruence || lia). Qed.

Lemma commit_in_ok c rl n : in_ok c → 0 ≤ n ≤ buffer_length_ (m_rbuf c) - data_length_ (m_rbuf c) →
  m_rcv_nxt c + n < 4294967296 → Forall (rseg_ok c) rl →
  let c' := mkIncoming rl (m_rbuf_len c) (u32 (m_rcv_nxt c + n)) (u32 (m_rcv_wnd c - n)) (m_rwnd_scale c)
              (ConsumeWriteBuffer (m_rbuf c) n) in
  in_ok c' ∧ advance c c' ∧ m_rcv_nxt c' = m_rcv_nxt c + n ∧ ∀ q, slot c' q = slot c q.
Proof.
  intros Hin Hn Hfit Hrl c'. destruct (commit_window _ _ (in_fifo _ Hin) Hn) as [Hf Hw].
  pose proof (f_equal w_state Hw) as Hst. pose proof (f_equal w_len Hw) as Hdl. pose proof (f_equal w_bytes Hw) as Hv.
  pose proof (f_equal (λ w, zlen (w_bytes w)) Hw) as HL.
  cbn [window_of w_commit w_state w_len w_bytes] in Hst, Hdl, Hv, HL. rewrite !zlen_view in HL by (done || apply Hin).
  pose proof (in_nxt _ Hin). pose proof (in_size _ Hin). pose proof (in_open _ Hin).
  assert (Hnx : m_rcv_nxt c' = m_rcv_nxt c + n) by (cbn; apply u32_id; ulia).
  assert (Hb : rcv_base c' = rcv_base c) by (unfold rcv_base; rewrite Hnx; cbn [c' m_rbuf]; lia).
  split_and!; [|split; (done || lia)|done|].
  - split; rewrite ?Hnx; cbn [c' m_rbuf m_rcv_wnd m_rwnd_scale m_rlist]; try congruence; try done; try apply u32_range.
    + ulia. + apply Hin.
    + eapply Forall_impl; [exact Hrl|]. intros r (? & ? & ? & ?). split_and!; try done.
      rewrite Hnx. cbn [c' m_rbuf]. lia.
  - intros q. unfold slot. rewrite Hb. cbn [c' m_rbuf]. by rewrite Hv.
Qed.

Lemma in_ok_rlist c rl : in_ok c → Forall (rseg_ok c) rl →
  in_ok (mkIncoming rl (m_rbuf_len c) (m_rcv_nxt c) (m_rcv_wnd c) (m_rwnd_scale c) (m_rbuf c)).
Proof. intros [] Hrl. by split. Qed.

Definition holds (r : RSegment) (q : Z) : Prop := rs_seq r ≤ q < rs_seq r + rs_len r.

Lemma recover_segments_safe rl : ∀ sf c, in_ok c → Forall (rseg_ok c) rl →
  let '(_, c') := recover_segments rl sf c in
  in_ok c' ∧ advance c c' ∧ (∀ r, r ∈ m_rlist c' → r ∈ rl) ∧ (∀ q, slot c' q = slot c q) ∧
  (∀ q, m_rcv_nxt c ≤ q < m_rcv_nxt c' → Exists (λ r, holds r q) rl).
Proof.
  induction rl as [|it rl IH]; intros sf c Hin Hrl; cbn [recover_segments].
  { split; [by apply in_ok_rlist|]. split; [split; (done || cbn; lia)|]. split_and!; try done. cbn. lia. }
  apply Forall_cons_1 in Hrl as [(Hr1 & Hr2 & Hr3 & Hr4) Hrl]. pose proof (in_nxt _ Hin). pose proof (in_fifo _ Hin) as (_ & _ & _ & Hdl).
  destruct (Z.leb_spec (rs_seq it) (m_rcv_nxt c)).
  2:{ split; [apply in_ok_rlist; [done|by constructor]|]. split; [split; (done || cbn; lia)|]. split_and!; try done. cbn. lia. }
  rewrite (u32_id (rs_seq it + rs_len it)) by ulia. destruct (Z.ltb_spec (m_rcv_nxt c) (rs_seq it + rs_len it)) as [Hlt|Hge].
  - set (n := rs_seq it + rs_len it - m_rcv_nxt c).
    destruct (commit_in_ok c rl n Hin) as (Hin1 & Hadv1 & Hnx1 & Hs1); [lia|lia|done|].
    set (c1 := mkIncoming rl _ _ _ _ _) in *. specialize (IH sfImmediateAck c1 Hin1 (in_rlist _ Hin1)).
    destruct (recover_segments rl sfImmediateAck c1) as [sf' c']. destruct IH as (Hin' & Hadv & Hsub & Hs & Hq).
    split_and!; [done|by etrans|intros r Hr; right; by apply Hsub|intros q; by rewrite Hs|].
    intros q Hq'. destruct (decide (q < m_rcv_nxt c1)); [left; unfold holds; lia|right; apply Hq; lia].
  - specialize (IH sf c Hin Hrl). destruct (recover_segments rl sf c) as [sf' c'].
    destruct IH as (Hin' & Hadv & Hsub & Hs & Hq).
    split_and!; [done..|intros r Hr; right; by apply Hsub|done|]. intros q Hq'. right. by apply Hq.
Qed.

Lemma insert_rsegment_in r x rl : r ∈ insert_rsegment x rl → r = x ∨ r ∈ rl.
Proof.
  induction rl as [|it rl IH]; cbn [insert_rsegment].
  - intros Hr. apply list_elem_of_singleton in Hr. by left.
  - destruct (_ <? _); intros Hr; apply elem_of_cons in Hr as [->|Hr]; [right; left|..|by left|by right].
    destruct (IH Hr) as [->|Hin]; [by left|right; by right].
Qed.


Lemma tcp_ok_in t c : tcp_ok t → in_ok c → tcp_ok (on_incoming (λ _, c) t).
Proof. intros [] Hc. by split. Qed.

(** The window after bytes were stored for the sequence numbers from [seq] on. *)
Lemma store_in_ok c seq bs : in_ok c → m_rcv_nxt c ≤ seq →
  seq + zlen bs ≤ m_rcv_nxt c + (buffer_length_ (m_rbuf c) - data_length_ (m_rbuf c)) →
  let '(_, _, rbuf) := WriteOffset (m_rbuf c) bs (seq - m_rcv_nxt c) in
  let c' := mkIncoming (m_rlist c) (m_rbuf_len c) (m_rcv_nxt c) (m_rcv_wnd c) (m_rwnd_scale c) rbuf in
  in_ok c' ∧ advance c c' ∧ data_length_ rbuf = data_length_ (m_rbuf c) ∧
  (∀ q, rcv_base c ≤ q → slot c' q = if bool_decide (seq ≤ q < seq + zlen bs) then zget (q - seq) bs else slot c q).
Proof.
  intros Hin Hs Hr.
  pose proof (write_offset_spec (m_rbuf c) bs (seq - m_rcv_nxt c) (in_fifo _ Hin) (in_open _ Hin) ltac:(lia) ltac:(lia)) as Hw.
  destruct (WriteOffset _ _ _) as [[? ?] rbuf]. destruct Hw as (Hf & Hst & Hdl & HL & Hv). intros c'.
  assert (Hb : rcv_base c' = rcv_base c) by (unfold rcv_base; cbn; by rewrite Hdl).
  pose proof (in_fifo _ Hin) as (_ & _ & _ & ?). pose proof (zlen_view _ (in_fifo _ Hin)). pose proof (zlen_nonneg bs).
  split_and!; [|by split|done|].
  - destruct Hin as [Hi1 Hi2 Hi3 Hi4 Hi5 Hi6 Hi7]. split; cbn [c' m_rbuf m_rcv_nxt m_rcv_wnd m_rwnd_scale m_rlist]; try congruence; try done.
    eapply Forall_impl; [exact Hi7|]. intros r (? & ? & ? & ?). split_and!; try done. cbn [c' m_rbuf m_rcv_nxt]. by rewrite Hdl, HL.
  - intros q Hq. unfold slot. rewrite Hb. cbn [c' m_rbuf]. rewrite Hv, zget_splice by lia. unfold rcv_base in *.
    match goal with |- (if ?b then _ else _) = _ => destruct b eqn:E end.
    + apply andb_true_iff in E as [E1 E2]. rewrite bool_decide_eq_true_2 by lia. f_equal; lia.
    + apply andb_false_iff in E. by rewrite bool_decide_eq_false_2 by lia.
Qed.

(** The stored bytes are those of the stream [S]: the byte of every sequence number. *)
Definition agrees (S : Z → Z) (c : Incoming) : Prop :=
  (∀ q, rcv_base c ≤ q < m_rcv_nxt c → slot c q = S q) ∧
  (∀ r q, r ∈ m_rlist c → m_rcv_nxt c ≤ q → holds r q → slot c q = S q).
Definition genuine (S : Z → Z) (seg : Segment) : Prop :=
  seg_len seg ≤ zlen (seg_data seg) ∧
  ∀ i, 0 ≤ i < seg_len seg → zget i (seg_data seg) = S (seg_seq seg + i).

Lemma genuine_kept S t seg seg2 : genuine S seg → kept t seg seg2 → genuine S seg2 ∨ seg_len seg2 = 0.
Proof.
  intros [Hl Hg] (_ & [Hz|(H1' & H2' & H3' & H4' & _ & Hd)]); [by right|left]. split.
  - rewrite Hd, zlen_zdrop. lia.
  - intros i Hi. rewrite Hd, zget_zdrop, Hg by lia. f_equal. lia.
Qed.


Lemma agrees_step S c c' : in_ok c → agrees S c → advance c c' →
  (∀ q, rcv_base c ≤ q → slot c q = S q → slot c' q = S q) →
  (∀ r q, r ∈ m_rlist c' → m_rcv_nxt c' ≤ q → holds r q → r ∈ m_rlist c ∨ slot c' q = S q) →
  (∀ q, m_rcv_nxt c ≤ q < m_rcv_nxt c' → slot c' q = S q) → agrees S c'.
Proof.
  intros Hin [Ha Hr] [HL Hb Hn] Hs Hl Hnew.
  assert (rcv_base c ≤ m_rcv_nxt c) by (unfold rcv_base; destruct (in_fifo _ Hin) as (_ & _ & _ & ?); lia). split.
  - rewrite Hb. intros q Hq. destruct (decide (q < m_rcv_nxt c)); [apply Hs; [lia|apply Ha; lia]|apply Hnew; lia].
  - intros r q Hq1 Hq2 Hq3. destruct (Hl r q Hq1 Hq2 Hq3) as [Hold|]; [|done]. apply Hs; [lia|]. apply (Hr r q Hold); [lia|done].
Qed.

(** The slots after a genuine segment was stored. *)
Lemma agrees_store S c c' seg : genuine S seg →
  let bs := ztake (seg_len seg) (seg_data seg) in
  (∀ q, rcv_base c ≤ q → slot c' q = if bool_decide (seg_seq seg ≤ q < seg_seq seg + zlen bs)
                                     then zget (q - seg_seq seg) bs else slot c q) →
  (∀ q, rcv_base c ≤ q → seg_seq seg ≤ q < seg_seq seg + seg_len seg → slot c' q = S q) ∧
  (∀ q, rcv_base c ≤ q → slot c q = S q → slot c' q = S q).
Proof.
  intros [Hl Hg] bs Hs.
  assert (Hseg : ∀ q, seg_seq seg ≤ q < seg_seq seg + zlen bs → zget (q - seg_seq seg) bs = S q).
  { intros q Hq. assert (q - seg_seq seg < seg_len seg) by (unfold bs in Hq; rewrite zlen_ztake in Hq; lia).
    unfold bs. rewrite zget_ztake, Hg by lia. f_equal. lia. }
  split; intros q Hq Hq'; rewrite Hs by done.
  - assert (zlen bs = seg_len seg) by (unfold bs; rewrite zlen_ztake; lia).
    rewrite bool_decide_eq_true_2 by lia. apply Hseg. lia.
  - case_bool_decide; [by apply Hseg|done].
Qed.

(** What storing a segment does to the incoming side. *)
Definition stored (seg : Segment) t t' : Prop :=
  t' = on_incoming (λ _, incoming t') t ∧ in_ok t' ∧ buffer_length_ (m_rbuf t') = buffer_length_ (m_rbuf t) ∧
  (has_ctl seg = false → m_shutdown t = SD_NONE →
    advance t t' ∧ ∀ S, agrees S t → genuine S seg ∨ seg_len seg = 0 → agrees S t').

Lemma stored_refl seg t : tcp_ok t → stored seg t t.
Proof.
  intros Hok. split; [by destruct t|]. split; [apply Hok|]. split; [done|]. intros _ _. split; [by split|]. auto.
Qed.

Lemma process_data_ok seg0 seg sf t : tcp_ok t → kept t seg0 seg → seg_seq seg0 + seg_len seg0 < 4294967296 →
  let '(_, _, t') := process_data seg sf t in stored seg t t'.
Proof.
  intros Hok (_ & Hk) Hfit. unfold process_data. fold (has_ctl seg).
  pose proof (ok_in _ Hok) as Hin. pose proof (in_nxt _ Hin) as Hnx.
  destruct (Z.ltb_spec 0 (seg_len seg)) as [Hlen|]; [|by apply stored_refl].
  destruct Hk as [Hk|(_ & Hge & _ & Hend & Hroom & _)]; [lia|].
  destruct (_ || _) eqn:Eign.
  { destruct (Z.eqb_spec (seg_seq seg) (m_rcv_nxt t)) as [E|]; [|by apply stored_refl].
    split; [by destruct t as [? ? [] ? ? ? ? ? ?]|]. split; [|split; [done|]].
    - assert (Hu : u32 (m_rcv_nxt t + seg_len seg) = m_rcv_nxt t + seg_len seg) by (apply u32_id; ulia).
      destruct Hin as [Hi1 Hi2 Hi3 Hi4 Hi5 Hi6 Hi7]. split; try done; [exact (u32_range _)|].
      eapply Forall_impl; [exact Hi7|]. intros r (? & ? & ? & ?). split_and!; try done.
      cbn. rewrite Hu. lia.
    - intros Hc Hsd. by rewrite Hc, Hsd in Eign. }
  rewrite (u32_id (seg_seq seg - m_rcv_nxt t)) by ulia.
  pose proof (store_in_ok t (seg_seq seg) (ztake (seg_len seg) (seg_data seg)) Hin Hge) as Hst.
  destruct (WriteOffset _ _ _) as [[? ?] rbuf]. destruct Hst as (Hin1 & Hadv1 & Hdl & Hs1); [zlia|].
  set (c1 := mkIncoming _ _ _ _ _ rbuf) in *. clear Eign.
  destruct (Z.eqb_spec (seg_seq seg) (m_rcv_nxt (set_m_rbuf rbuf t))) as [E|E];
    change (m_rcv_nxt (set_m_rbuf rbuf t)) with (m_rcv_nxt t) in *.
  - destruct (commit_in_ok c1 (m_rlist t) (seg_len seg) Hin1) as (Hin2 & Hadv2 & Hnx2 & Hs2).
    { rewrite (adv_len _ _ Hadv1). cbn [c1 m_rbuf]. lia. } { cbn [c1 m_rcv_nxt]. lia. } { apply Hin1. }
    set (c2 := mkIncoming _ _ _ _ _ _) in Hin2, Hadv2, Hnx2, Hs2.
    match goal with |- context [recover_segments ?l sf ?c] => change l with (m_rlist t); change c with c2 end.
    pose proof (recover_segments_safe (m_rlist t) sf c2 Hin2 (in_rlist _ Hin2)) as Hrec.
    destruct (recover_segments _ sf c2) as [sf' c3]. destruct Hrec as (Hin3 & Hadv3 & Hsub & Hs3 & Hq3).
    split; [done|]. split; [done|]. assert (Hadv : advance t c3) by (etrans; [|etrans]; eassumption).
    split; [apply Hadv|]. intros _ _. split; [done|]. intros S Ha [Hg|Hg]; [|lia].
    destruct (agrees_store S t c1 seg Hg Hs1) as [Hnew Hold].
    pose proof (in_fifo _ Hin) as (_ & _ & _ & Hdl0). pose proof (adv_nxt _ _ Hadv2) as Hn2. unfold rcv_base in Hnew, Hold.
    apply (agrees_step S t c3); [done..| | |].
    + intros q Hq Hq'. rewrite Hs3, Hs2. by apply Hold.
    + intros r q Hr _ _. left. by apply Hsub.
    + intros q Hq. rewrite Hs3, Hs2. change (m_rcv_nxt c1) with (m_rcv_nxt t) in *. destruct (decide (q < m_rcv_nxt c2)); [apply Hnew; lia|].
      destruct (proj1 (Exists_exists _ _) (Hq3 q ltac:(lia))) as (r & Hr & Hh). apply Hold; [lia|]. apply (proj2 Ha r q Hr); [lia|done].
  - set (r0 := mkRSegment _ _). change (m_rlist (set_m_rbuf rbuf t)) with (m_rlist t).
    assert (Hr0 : rseg_ok c1 r0).
    { pose proof (adv_len _ _ Hadv1). unfold rseg_ok. cbn [r0 rs_seq rs_len c1 m_rbuf m_rcv_nxt] in *. ulia. }
    split; [done|]. split.
    { apply (in_ok_rlist c1); [done|]. apply Forall_forall. intros r Hr. apply insert_rsegment_in in Hr as [->|Hr]; [done|].
      exact (proj1 (Forall_forall _ _) (in_rlist _ Hin1) r Hr). }
    split; [apply Hadv1|]. intros _ _. split; [destruct Hadv1; by split|]. intros S Ha [Hg|Hg]; [|lia].
    destruct (agrees_store S t c1 seg Hg Hs1) as [Hnew Hold]. pose proof (in_fifo _ Hin) as (_ & _ & _ & Hdl0).
    apply (agrees_step S t); try done.
    + destruct Hadv1; by split.
    + intros r q Hr Hq Hh. apply insert_rsegment_in in Hr as [->|Hr]; [right|by left].
      apply Hnew; [unfold rcv_base; cbn in Hq; lia|exact Hh].
    + intros q Hq. cbn in Hq. lia.
Qed.


(** ** Packets *)

Lemma process_receive_ok seg t : tcp_ok t → m_state t ≠ TCP_CLOSED → seg_ok seg →
  seg_seq seg + seg_len seg < 4294967296 →
  ∃ t', process_receive seg t = Some (true, t') ∧ tcp_ok t' ∧ m_state t' = m_state t ∧ m_shutdown t' = m_shutdown t ∧
    (has_ctl seg = false → m_shutdown t = SD_NONE →
      advance t t' ∧ ∀ S, agrees S t → genuine S seg → agrees S t').
Proof.
  intros Hok Hst Hseg Hfit. unfold process_receive. set (t1 := process_writeable t).
  assert (E1 : tcp_ok t1 ∧ incoming t1 = incoming t ∧ m_state t1 = m_state t ∧ m_shutdown t1 = m_shutdown t).
  { unfold t1, process_writeable. destruct (_ && _); [|done]. split; [by apply (tcp_ok_conn t)|done]. }
  destruct E1 as (Hok1 & Ei & Es & Esd).
  assert (Hk : kept t1 seg (trim_back (trim_front seg t1) t1)).
  { apply trim_kept; [apply Hok1|apply Hseg| |done]. rewrite (sg_len _ Hseg). apply zlen_nonneg. }
  set (seg2 := trim_back _ _) in *. pose proof (process_data_ok seg seg2 (ack_flags seg t1) t1 Hok1 Hk Hfit) as Hd.
  destruct (process_data _ _ _) as [[sf b] t2]. destruct Hd as (E2 & Hin2 & HL & Hs).
  assert (Hok2 : tcp_ok t2) by (rewrite E2; by apply tcp_ok_in).
  assert (Ec2 : conn t2 = conn t1) by (by rewrite E2).
  destruct (attemptSend_ok sf t2 Hok2) as (t3 & -> & Hok3 & Hf & _).
  pose proof (fr_conn _ _ Hf) as Ec3. pose proof (fr_in _ _ Hf) as Ei3.
  set (t4 := if b && m_bReadEnable t3 then _ else t3).
  assert (E4 : tcp_ok t4 ∧ incoming t4 = incoming t3 ∧ m_state t4 = m_state t3 ∧ m_shutdown t4 = m_shutdown t3).
  { unfold t4. destruct (_ && _); [|done]. split; [by apply (tcp_ok_conn t3)|done]. }
  destruct E4 as (Hok4 & Ei4 & Es4 & Esd4). exists t4. rewrite Es4, Esd4, Ei4, Ei3, Ec3, Ec2, <- Ei.
  split; [done|]. split; [done|]. split; [done|]. split; [done|]. intros Hc Hsd.
  destruct Hs as [Hadv Hag]; [unfold has_ctl in *; by rewrite (proj1 Hk)|congruence|].
  split; [done|]. intros S Ha Hg. apply Hag; [done|]. by apply (genuine_kept S t1 seg).
Qed.

Definition received (seg : Segment) t t' : Prop :=
  tcp_ok t' ∧ tcp_edge (m_state t) (m_state t') ∧ m_shutdown t' = m_shutdown t ∧
  (has_ctl seg = false → m_shutdown t = SD_NONE →
    advance t t' ∧ ∀ S, agrees S t → genuine S seg → agrees S t').

Lemma received_same seg t t' : tcp_ok t' → tcp_edge (m_state t) (m_state t') → m_shutdown t' = m_shutdown t →
  incoming t' = incoming t → received seg t t'.
Proof. intros Hok He Hsd Hi. split_and!; try done. rewrite Hi. done. Qed.

Lemma process_ok seg t : tcp_ok t → seg_ok seg → seg_seq seg + seg_len seg < 4294967296 →
  (has_ctl seg = true → connect_ok (zdrop 1 (seg_data seg)) t) →
  ∃ b t', process seg t = Some (b, t') ∧ received seg t t'.
Proof.
  intros Hok Hseg Hfit Hcon. unfold process. destruct (negb _).
  { eexists _, t. split; [reflexivity|]. by apply received_same. }
  unfold Now. set (now := clock_at _). set (t1 := set_m_bOutgoing _ _).
  assert (Hok1 : tcp_ok t1) by (by apply (tcp_ok_conn t)). change (m_state t1) with (m_state t).
  destruct (bool_decide (m_state t = TCP_CLOSED)) eqn:Ecl.
  { eexists _, t1. split; [reflexivity|]. by apply received_same. }
  apply bool_decide_eq_false in Ecl. destruct (negb _).
  { eexists _, _. split; [reflexivity|]. destruct Hok. by apply received_same. }
  destruct (process_control_ok seg t1 Hok1 Ecl Hseg) as (r & b & t2 & -> & Hok2 & Hst2 & Hnc & He2 & Hsd2 & Hb).
  { intros Hc. exact (connect_ok_retime (traffic t1) (world t1) _ t (Hcon Hc)). }
  assert (Hi2 : has_ctl seg = false → incoming t2 = incoming t) by (intros Hc; by rewrite (Hnc Hc)).
  destruct r as [r|].
  { exists r, t2. split; [done|]. split_and!; try done. intros Hc _. by rewrite (Hi2 Hc). }
  set (t3 := if (_ <=? _) && _ then _ else t2).
  assert (E3 : tcp_ok t3 ∧ incoming t3 = incoming t2 ∧ conn t3 = conn t2).
  { unfold t3. destruct (_ && _); [|done]. split; [by destruct Hok2; split|done]. }
  destruct E3 as (Hok3 & Ei3 & Ec3).
  destruct (process_ack_ok seg now t3 Hok3) as (r & t4 & -> & Hok4 & Ei4 & _ & Hc4); [by rewrite Ec3|done|].
  rewrite Ei3 in Ei4. rewrite Ec3 in Hc4. destruct r as [r|].
  { exists r, t4. split; [done|]. split; [done|]. rewrite Ei4. split_and!.
    - destruct Hc4 as [->|[_ ->]]; [done|by constructor].
    - by destruct Hc4 as [->|[_ ->]].
    - intros Hc _. by rewrite (Hi2 Hc). }
  destruct Hc4 as [Ec4|[? _]]; [|done].
  destruct (process_established_ok b t4 Hok4) as (t5 & -> & Hok5 & Ei5 & Hst5 & He5 & Hsd5 & Hb5); [by rewrite Ec4|].
  destruct (process_receive_ok seg t5 Hok5 Hst5 Hseg Hfit) as (t6 & -> & Hok6 & Es6 & Hsd6 & Hr6).
  exists true, t6. split; [done|]. split; [done|]. rewrite Es6, Hsd6, Hsd5, Ec4, Hsd2. split_and!; try done.
  - destruct b; [by rewrite (Hb5 eq_refl), Ec4|]. rewrite Ec4, (Hb eq_refl) in He5. exact He5.
  - intros Hc Hsd. rewrite <- (Hi2 Hc), <- Ei4, <- Ei5. apply Hr6; [done|]. rewrite Hsd5, Ec4, Hsd2. exact Hsd.
Qed.

End Receive.
#[export] Hint Constructors tcp_edge : core.
