(* ===== verification/PseudoTcpApi.v ===== *)
(** * Pseudo-TCP: the interface

    The operations of the interface on top of the receiving and sending functions:
    packets as bytes, the clock, and the socket calls. *)

From S2P Require Import Prelude ByteOrder ByteBuffer FifoBuffer TimeUtils PseudoTcp PseudoTcpSafe PseudoTcpRecv.

#[local] Open Scope tcp_scope.

Section Api.
Context `{Platform} `{TcpEnv}.
Implicit Types t : PseudoTcp.

(** ** Packets *)

(** The segment of a packet in network byte order. *)
Definition segment_of (buffer : list Z) : Segment :=
  let field p n := be_decode (ztake n (zdrop p buffer)) in
  mkSegment (field 0 4) (field 4 4) (field 8 4) (zget 13 buffer) (field 14 2) (zdrop 24 buffer) (zlen buffer - 24)
    (field 16 4) (field 20 4).

Lemma bytes_to_long_at buffer p : bytes_ok buffer → 0 ≤ p → p + 4 ≤ zlen buffer →
  bytes_to_long buffer p = Some (be_decode (ztake 4 (zdrop p buffer))) ∧ is_u32 (be_decode (ztake 4 (zdrop p buffer))).
Proof.
  intros Hb Hp Hl. unfold bytes_to_long. destruct (Z.leb_spec (p + 4) (zlen buffer)); [|lia].
  assert (Hok : bytes_ok (ztake 4 (zdrop p buffer))) by (by apply bytes_ok_ztake, bytes_ok_zdrop).
  assert (Hn : zlen (ztake 4 (zdrop p buffer)) = 4) by zlia.
  rewrite NetworkToHost32_load by done. split; [done|].
  pose proof (be_decode_range _ Hok) as Hr. by rewrite Hn in Hr.
Qed.

Lemma bytes_to_short_at buffer p : bytes_ok buffer → 0 ≤ p → p + 2 ≤ zlen buffer →
  bytes_to_short buffer p = Some (be_decode (ztake 2 (zdrop p buffer))) ∧ is_u16 (be_decode (ztake 2 (zdrop p buffer))).
Proof.
  intros Hb Hp Hl. unfold bytes_to_short. destruct (Z.leb_spec (p + 2) (zlen buffer)); [|lia].
  assert (Hok : bytes_ok (ztake 2 (zdrop p buffer))) by (by apply bytes_ok_ztake, bytes_ok_zdrop).
  assert (Hn : zlen (ztake 2 (zdrop p buffer)) = 2) by zlia.
  rewrite NetworkToHost16_load by done. split; [done|].
  pose proof (be_decode_range _ Hok) as Hr. by rewrite Hn in Hr.
Qed.

Lemma parse_segment buffer t : bytes_ok buffer → 24 ≤ zlen buffer < 4294967296 →
  parse buffer t = process (segment_of buffer) t ∧ seg_ok (segment_of buffer).
Proof.
  intros Hb Hl. unfold parse. rewrite (u32_id (zlen buffer)) by ulia. destruct (Z.ltb_spec (zlen buffer) 12); [lia|].
  destruct (bytes_to_long_at buffer 0 Hb) as [-> ?]; [lia..|]. destruct (bytes_to_long_at buffer 4 Hb) as [-> ?]; [lia..|].
  destruct (bytes_to_long_at buffer 8 Hb) as [-> ?]; [lia..|]. destruct (bytes_to_short_at buffer 14 Hb) as [-> ?]; [lia..|].
  destruct (bytes_to_long_at buffer 16 Hb) as [-> ?]; [lia..|]. destruct (bytes_to_long_at buffer 20 Hb) as [-> ?]; [lia..|].
  rewrite zat_Some by lia. unfold HEADER_SIZE. rewrite (u32_id (zlen buffer - 24)) by ulia.
  split; [done|]. split; try done; cbn [segment_of seg_len seg_data]; [zlia|by apply bytes_ok_zdrop].
Qed.

(** The packets of a peer that follows the protocol: nothing between the 12 bytes that
    are checked and the header, sequence numbers that do not wrap. *)
Definition packet_ok (buffer : list Z) t : Prop :=
  bytes_ok buffer ∧ (zlen buffer < 12 ∨ 65535 < zlen buffer ∨
    24 ≤ zlen buffer ∧
    seg_seq (segment_of buffer) + seg_len (segment_of buffer) < 4294967296 ∧
    (has_ctl (segment_of buffer) = true → connect_ok (zdrop 25 buffer) t)).

Lemma NotifyPacket_ok buffer t : tcp_ok t → packet_ok buffer t →
  ∃ b t', NotifyPacket buffer t = Some (b, t') ∧ received (segment_of buffer) t t' ∧
    (¬ 24 ≤ zlen buffer ≤ 65535 → t' = t).
Proof.
  intros Hok [Hb Hp]. unfold NotifyPacket, MAX_PACKET. destruct (Z.ltb_spec 65535 (zlen buffer)).
  { eexists _, t. split; [reflexivity|]. split; [by apply received_same|done]. }
  destruct Hp as [Hs|[?|(Hl & Hfit & Hcon)]]; [|lia|].
  - unfold parse. pose proof (zlen_nonneg buffer). rewrite (u32_id (zlen buffer)) by ulia. destruct (Z.ltb_spec (zlen buffer) 12); [|lia].
    eexists _, t. split; [reflexivity|]. split; [by apply received_same|done].
  - destruct (parse_segment buffer t Hb ltac:(lia)) as [-> Hseg].
    destruct (process_ok (segment_of buffer) t Hok Hseg Hfit) as (b & t' & -> & Hr).
    { intros Hc. cbn [segment_of seg_data]. rewrite zdrop_zdrop by lia. by apply Hcon. }
    exists b, t'. split_and!; try done. lia.
Qed.

(** ** The clock and the socket calls *)

(** The operations that do not change the incoming side. *)
Record quiet t t' : Prop := {
  qt_ok : tcp_ok t';
  qt_in : incoming t' = incoming t;
  qt_edge : tcp_edge (m_state t) (m_state t');
  qt_shutdown : m_shutdown t' = m_shutdown t
}.

Lemma quiet_frame t1 t t' : tcp_ok t' → frame t t' → incoming t = incoming t1 → m_state t = m_state t1 →
  m_shutdown t = m_shutdown t1 → quiet t1 t'.
Proof.
  intros Hok Hf Hi Hs Hsd. pose proof (fr_in _ _ Hf). pose proof (fr_conn _ _ Hf) as Ec.
  split; [done|congruence| |]; rewrite Ec; [|done]. by rewrite Hs.
Qed.

Lemma double_rto limit r : 1000 ≤ limit ≤ MAX_RTO → MIN_RTO ≤ r ≤ MAX_RTO → MIN_RTO ≤ Z.min limit (u32 (r * 2)) ≤ MAX_RTO.
Proof. unfold MIN_RTO, MAX_RTO. intros Hl Hr. rewrite u32_id by ulia. lia. Qed.

Lemma clock_retransmit_ok now t : tcp_ok t → m_state t ≠ TCP_CLOSED →
  ∃ b t', clock_retransmit now t = Some (b, t') ∧ quiet t t' ∧ (b = true → m_state t' = m_state t).
Proof.
  intros Hok Hst. unfold clock_retransmit. destruct (negb (m_rto_base t =? 0) && _) eqn:E; [|by exists true, t].
  destruct (m_slist t) as [|s l] eqn:Esl; [by exists true, t|].
  apply andb_true_iff in E as [E _]. apply negb_true_iff, Z.eqb_neq in E.
  pose proof (out_timer _ (ok_out _ Hok) E) as Hne. destruct (transmit_front_ok now t Hok Hne) as (ok & t' & -> & Hok' & Hf & Hn & Hu).
  pose proof (fr_conn _ _ Hf) as Ec. pose proof (fr_in _ _ Hf) as Ei.
  destruct ok; cbn [negb]; (eexists _, _; split; [reflexivity|]).
  - split; [|intros _; exact (f_equal m_state Ec)]. split; [|done|by cbn; rewrite Ec|by cbn; rewrite Ec].
    destruct Hok' as [Ho Hi Hm (Hr1 & Hr2 & Hr3) (Hc1 & Hc2 & Hc3 & Hc4 & Hc5) Hrec Hl].
    destruct (out_ok_bounds t' Ho) as (Hb & Hnx & Hun & Eu). pose proof Hm as (Hm1 & _).
    split; try done.
    + destruct Ho as [? ? ? ? ? ? ?]. split; try done. intros _. change (m_snd_una t' ≠ m_snd_nxt t').
      by rewrite Hn, Hu.
    + refine (conj _ (conj Hr2 Hr3)). apply double_rto; [|done]. destruct (before_established _); done.
    + split; [|by split; [cbn; ulia|]]. cbn -[u32 Z.mul Z.div]. rewrite Eu, (u32_id (2 * m_mss t')) by ulia.
      split; [lia|]. apply Z.max_lub_lt; [apply Z.div_lt_upper_bound; ulia|ulia].
  - split; [|done]. split; [by destruct Hok'; apply closedown_ok|done|by constructor|by cbn; rewrite Ec].
Qed.

Lemma ack_packet_ok seq flags t : tcp_ok t →
  ∃ r t', packet seq flags 0 0 t = Some (r, t') ∧ tcp_ok t' ∧ frame t t' ∧ rtt t' = rtt t.
Proof.
  intros Hok. destruct (packet_safe seq flags 0 0 t) as (r & t' & -> & Hf & Eo & _); [lia|apply Hok|lia|].
  exists r, t'. split_and!; [done| |done|apply Hf]. apply (frame_ok t); try done; rewrite Eo; [apply Hok|done].
Qed.

Lemma clock_probe_ok now t : tcp_ok t → m_state t ≠ TCP_CLOSED →
  ∃ b t', clock_probe now t = Some (b, t') ∧ quiet t t' ∧ (b = true → m_state t' = m_state t).
Proof.
  intros Hok Hst. unfold clock_probe. destruct (_ && _); [|by exists true, t].
  destruct (15000 <=? _).
  { eexists false, _. split; [reflexivity|]. split; [|done]. by split; [destruct Hok; apply closedown_ok|..]. }
  destruct (ack_packet_ok (u32 (m_snd_nxt t - 1)) 0 t Hok) as (r & t' & -> & Hok' & Hf & _).
  pose proof (fr_conn _ _ Hf) as Ec. eexists true, _. split; [reflexivity|]. split; [|intros _; exact (f_equal m_state Ec)].
  split; [|exact (fr_in _ _ Hf)|by cbn; rewrite Ec|by cbn; rewrite Ec].
  destruct Hok' as [? ? ? (Hr1 & Hr2 & Hr3) ? ? ?]. split; try done. refine (conj _ (conj Hr2 Hr3)). by apply double_rto.
Qed.

Lemma NotifyClock_ok now t : tcp_ok t → ∃ t', NotifyClock now t = Some t' ∧ quiet t t'.
Proof.
  intros Hok. unfold NotifyClock. destruct (bool_decide _) eqn:E; [by exists t|]. apply bool_decide_eq_false in E.
  destruct (clock_retransmit_ok now t Hok E) as (b & t1 & -> & Hq1 & Hs1). destruct b; cbn [negb]; [|by exists t1].
  specialize (Hs1 eq_refl). destruct Hq1 as [Hok1 Hi1 _ Hsd1].
  destruct (clock_probe_ok now t1 Hok1) as (b & t2 & -> & Hq2 & Hs2); [by rewrite Hs1|]. destruct Hq2 as [Hok2 Hi2 He2 Hsd2].
  assert (Hq : quiet t t2) by (split; [done|congruence|by rewrite <- Hs1|congruence]).
  destruct b; cbn [negb]; [|by exists t2]. specialize (Hs2 eq_refl). destruct (_ && _); [|by exists t2].
  destruct (ack_packet_ok (m_snd_nxt t2) 0 t2 Hok2) as (r & t3 & -> & Hok3 & Hf & _).
  exists t3. split; [done|]. apply (quiet_frame t t2); (done || congruence).
Qed.

Lemma Connect_ok t : tcp_ok t → ∃ r t', Connect t = Some (r, t') ∧ quiet t t'.
Proof.
  intros Hok. unfold Connect. destruct (negb _) eqn:E.
  { eexists _, _. split; [reflexivity|]. by split; [apply (tcp_ok_conn t)|..]. }
  apply negb_false_iff, bool_decide_eq_true in E. destruct (ok_listen _ Hok E) as (Hl1 & Hl2 & Hl3).
  set (t1 := set_m_state TCP_SYN_SENT t).
  destruct (queueConnectMessage_safe t1 (ok_out _ Hok) (ok_in _ Hok) Hl1 Hl3 Hl2) as (o & -> & Ho & Hou & Hon).
  set (t2 := set_m_snd_wnd _ _).
  assert (Hok2 : tcp_ok t2).
  { destruct Hok as [_ ? ? ? (Hg1 & Hg2 & Hg3 & _ & Hg5) Hrec ?]. split; try done.
    - refine (conj Hg1 (conj Hg2 (conj Hg3 (conj _ Hg5)))). change (is_u32 (zlen (connect_bytes t1))).
      unfold connect_bytes, zlen. destruct (m_support_wnd_scale t1); cbn [length]; ulia.
    - intros _ Hd. change (m_snd_nxt t2) with (m_snd_nxt o). rewrite Hon, <- Hl2. apply Hrec; [congruence|exact Hd]. }
  destruct (attemptSend_ok sfNone t2 Hok2) as (t3 & -> & Hok3 & Hf & _). pose proof (fr_conn _ _ Hf) as Ec.
  eexists _, t3. split; [reflexivity|]. split; [done|exact (fr_in _ _ Hf)|by rewrite Ec, E; constructor|by rewrite Ec].
Qed.

Lemma NotifyMTU_ok mtu t : tcp_ok t → 116 < mtu ≤ 65535 → ∃ t', NotifyMTU mtu t = Some t' ∧ quiet t t'.
Proof.
  intros Hok Hm. unfold NotifyMTU. set (t1 := set_m_mtu_advise mtu t).
  assert (Hok1 : tcp_ok t1).
  { destruct Hok as [? ? (Hm1 & Hm2 & _) ? ? ? ?]. by split. }
  destruct (bool_decide _); [|by exists t1].
  destruct (adjustMTU_ok t1 Hok1) as (t2 & -> & Hok2 & Ec & Ei & _). exists t2. split; [done|].
  split; [done|done|by rewrite Ec|by rewrite Ec].
Qed.

Lemma queue_ok buffer t : tcp_ok t → m_state t = TCP_ESTABLISHED →
  m_snd_una t + data_length_ (m_sbuf t) + zlen buffer < 4294967296 →
  let t1 := (queue buffer false t).2 in tcp_ok t1 ∧ only_out t t1.
Proof.
  intros Hok E Hsp. pose proof (queue_safe buffer false t (ok_out _ Hok) Hsp ltac:(done)) as Hq.
  destruct (queue buffer false t) as [w t1]. destruct Hq as ((o & ->) & Ho1 & _ & Hu & Hn & _). cbn [snd]. set (t1 := on_outgoing _ t) in *.
  split; [|by eexists]. destruct Hok as [? ? ? ? ? Hrec ?]. split; try done.
  - change (m_state t ≠ TCP_CLOSED → 3 ≤ m_dup_acks t → m_recover t ≤ m_snd_nxt t1). by rewrite Hn.
  - change (m_state t = TCP_LISTEN → m_slist t1 = [] ∧ m_snd_nxt t1 = 0 ∧ m_snd_una t1 = 0). by rewrite E.
Qed.

Lemma Send_ok buffer t : tcp_ok t → m_snd_una t + data_length_ (m_sbuf t) + zlen buffer < 4294967296 →
  ∃ r t', Send buffer t = Some (r, t') ∧ quiet t t'.
Proof.
  intros Hok Hsp. unfold Send. destruct (negb _) eqn:E.
  { eexists _, _. split; [reflexivity|]. by split; [apply (tcp_ok_conn t)|..]. }
  destruct (_ =? 0).
  { eexists _, _. split; [reflexivity|]. by split; [apply (tcp_ok_conn t)|..]. }
  apply negb_false_iff, bool_decide_eq_true in E. destruct (queue_ok buffer t Hok E Hsp) as [Hok1 (o & Eo)].
  destruct (queue buffer false t) as [w t1]. cbn [snd] in *. subst t1.
  destruct (attemptSend_ok sfNone _ Hok1) as (t2 & -> & Hok2 & Hf2 & _).
  eexists _, t2. split; [reflexivity|]. by eapply (quiet_frame t).
Qed.

Lemma Close_ok force t : tcp_ok t → tcp_ok (Close force t).
Proof. intros. by apply (tcp_ok_conn t). Qed.

(** Sizes are positive, and buffers are set before the connection is made. *)
Definition option_ok (opt : Option) (value : Z) t : Prop :=
  match opt with
  | OPT_NODELAY | OPT_ACKDELAY => True
  | OPT_SNDBUF => 0 < value < 2147483648
  | OPT_RCVBUF => 0 < value < 2147483648 ∧ m_rlist t = []
  end.

Lemma SetOption_ok opt value t : tcp_ok t → option_ok opt value t →
  ∃ t', SetOption opt value t = Some t' ∧ tcp_ok t' ∧ conn t' = conn t ∧ (opt ≠ OPT_RCVBUF → incoming t' = incoming t).
Proof.
  intros Hok Ho. destruct opt; cbn [SetOption option_ok] in *.
  - eexists. split; [reflexivity|]. split; [|done]. destruct Hok; by split.
  - eexists. split; [reflexivity|]. split; [|done]. destruct Hok; by split.
  - destruct Ho as [Hv Hr]. rewrite (u32_id value) by ulia.
    destruct (resizeReceiveBuffer_safe value t (ok_in _ Hok) ltac:(lia)) as (c & th & -> & Hc & Hth).
    eexists. split; [reflexivity|]. split; [|by split]. destruct Hok as [? ? ? ? (Hg1 & Hg) ? ?]. split; try done. by apply Hc.
  - rewrite (u32_id value) by ulia. eexists. split; [reflexivity|]. split; [|done].
    pose proof (ok_out _ Hok) as [Hf1 Hf2 Hf3 Hf4 Hf5 Hf6 Hf7].
    destruct (SetCapacity_safe (m_sbuf t) value Hf1 ltac:(lia)) as (Hc1 & Hc2 & Hc3 & Hc4).
    destruct Hok as [_ ? ? ? ? ? ?]. split; try done. unfold resizeSendBuffer.
    split; cbn [set_m_sbuf set_m_sbuf_len on_outgoing outgoing m_sbuf m_snd_una m_slist m_snd_nxt m_rto_base]; try done; try lia; rewrite ?Hc2, ?Hc3; done.
Qed.

(** ** Reading *)

Lemma zlen_stream (S : Z → Z) a n : 0 ≤ n → zlen (S <$> seqZ a n) = n.
Proof. intros. unfold zlen. rewrite length_fmap, length_seqZ. lia. Qed.
Lemma zget_stream (S : Z → Z) a n i : 0 ≤ i < n → zget i (S <$> seqZ a n) = S (a + i).
Proof.
  intros Hi. rewrite zget_nth by lia. apply nth_lookup_Some. rewrite list_lookup_fmap, lookup_seqZ_lt by lia.
  cbn. f_equal. f_equal. lia.
Qed.

(** The incoming side after bytes were read. *)
Lemma read_in_ok c n : in_ok c → 0 ≤ n →
  let '(_, data, rbuf) := Fifo_Read (m_rbuf c) n in
  ∀ wnd, is_u32 wnd →
    let c' := mkIncoming (m_rlist c) (m_rbuf_len c) (m_rcv_nxt c) wnd (m_rwnd_scale c) rbuf in
    in_ok c' ∧ rcv_base c' = rcv_base c + zlen data ∧ 0 ≤ zlen data ≤ data_length_ (m_rbuf c) ∧
    ∀ S, agrees S c → agrees S c' ∧ data = S <$> seqZ (rcv_base c) (zlen data).
Proof.
  intros Hin Hn. pose proof (fifo_read_queue _ n (in_fifo _ Hin) (in_open _ Hin) Hn) as Hq.
  pose proof (fifo_read_view _ n (in_fifo _ Hin) (in_open _ Hin) Hn) as Hv.
  destruct (Fifo_Read (m_rbuf c) n) as [[r data] rbuf]. destruct Hq as (Hf & Hst & HL & _ & Hdata & _ & Hdl). intros wnd Hw c'.
  pose proof (in_fifo _ Hin) as (_ & _ & _ & Hd). pose proof (zlen_view _ (in_fifo _ Hin)) as HV.
  assert (Hz : 0 ≤ zlen data ≤ data_length_ (m_rbuf c)) by (rewrite Hdata, zlen_ztake, zlen_fifo_data by apply Hin; lia).
  assert (Hb : rcv_base c' = rcv_base c + zlen data) by (unfold rcv_base; cbn [c' m_rbuf m_rcv_nxt]; lia).
  assert (Hs : ∀ q, rcv_base c' ≤ q < rcv_base c + buffer_length_ (m_rbuf c) → slot c' q = slot c q).
  { intros q Hq. unfold slot. cbn [c' m_rbuf]. rewrite Hv, zget_rotate by lia.
    destruct (Z.ltb_spec (zlen data + (q - rcv_base c')) (zlen (view (m_rbuf c)))); [|lia]. f_equal. lia. }
  split_and!; try done; [|lia|lia|].
  - pose proof Hin as [Hi1 Hi2 Hi3 Hi4 Hi5 Hi6 Hi7]. split; cbn [c' m_rbuf m_rcv_nxt m_rcv_wnd m_rwnd_scale m_rlist]; try congruence; try done.
    eapply Forall_impl; [exact Hi7|]. intros x (? & ? & ? & ?). split_and!; try done. cbn [c' m_rbuf m_rcv_nxt]. lia.
  - intros S [Ha Hr]. assert (rcv_base c + buffer_length_ (m_rbuf c) = m_rcv_nxt c + (buffer_length_ (m_rbuf c) - data_length_ (m_rbuf c))) by (unfold rcv_base; lia).
    split; [split|].
    + cbn [c' m_rcv_nxt]. intros q Hq. rewrite Hs by lia. apply Ha. lia.
    + cbn [c' m_rcv_nxt m_rlist]. intros x q Hx Hq Hh.
      pose proof (proj1 (Forall_forall _ _) (in_rlist _ Hin) x Hx) as (_ & _ & _ & Hx4). unfold holds in Hh.
      rewrite Hs by (unfold rcv_base in *; cbn [c' m_rbuf m_rcv_nxt] in *; lia). by apply (Hr x q).
    + apply zget_ext; [by rewrite zlen_stream by lia|]. intros i Hi. rewrite zget_stream, <- Ha by (unfold rcv_base in *; lia).
      unfold slot. replace (rcv_base c + i - rcv_base c) with i by lia. rewrite Hdata. unfold fifo_data.
      assert (i < n) by (rewrite Hdata, zlen_ztake in Hi; lia). by rewrite !zget_ztake by lia.
Qed.

(** What [Recv] does: the bytes returned are the next ones of the stream. *)
Definition recv_step t (data : list Z) t' : Prop :=
  tcp_ok t' ∧ m_state t' = m_state t ∧ m_shutdown t' = m_shutdown t ∧
  rcv_base t' = rcv_base t + zlen data ∧ m_rcv_nxt t' = m_rcv_nxt t ∧
  ∀ S, agrees S t → agrees S t' ∧ data = S <$> seqZ (rcv_base t) (zlen data).

Lemma recv_step_same t t' : tcp_ok t' → incoming t' = incoming t → m_state t' = m_state t → m_shutdown t' = m_shutdown t →
  recv_step t [] t'.
Proof. intros Hok Hi Hs Hsd. split_and!; try done; rewrite Hi; try done. change (zlen []) with 0. lia. Qed.

Lemma recv_step_after t data t1 t2 : recv_step t data t1 → tcp_ok t2 → incoming t2 = incoming t1 → m_state t2 = m_state t1 →
  m_shutdown t2 = m_shutdown t1 → recv_step t data t2.
Proof. intros (_ & Hs & Hsd & Hb & Hn & HS) Hok Ei Es Esd. unfold recv_step. rewrite Ei, Es, Esd. by split_and!. Qed.

Lemma Recv_ok len t : tcp_ok t → 0 ≤ len →
  ∃ r data t', Recv len t = Some (r, data, t') ∧ recv_step t data t' ∧ (0 ≤ r → r = i32 (zlen data)).
Proof.
  intros Hok Hlen. unfold Recv. destruct (negb _).
  { eexists _, [], _. split; [reflexivity|]. split; [apply recv_step_same; [by apply (tcp_ok_conn t)|done..]|done]. }
  pose proof (read_in_ok t len (ok_in _ Hok) Hlen) as Hr. pose proof (fifo_read_queue _ len (in_fifo _ (ok_in _ Hok)) (in_open _ (ok_in _ Hok)) Hlen) as Hq.
  destruct (Fifo_Read (m_rbuf t) len) as [[r data] rbuf]. destruct Hq as (_ & _ & _ & -> & Hdata & _).
  assert (Hstep : ∀ wnd, is_u32 wnd → recv_step t data (set_m_rcv_wnd wnd (set_m_rbuf rbuf t))).
  { intros wnd Hw. destruct (Hr wnd Hw) as (Hin & Hb & Hz & Hs). split; [by apply (tcp_ok_in t)|]. by split_and!. }
  assert (Hkeep : recv_step t data (set_m_rbuf rbuf t)).
  { apply (recv_step_after t data _ _ (Hstep (m_rcv_wnd t) (in_wnd _ (ok_in _ Hok)))); try done.
    apply (tcp_ok_in t); [done|]. apply (Hr (m_rcv_wnd t)), Hok. }
  destruct (Z.eqb_spec (data_length_ (m_rbuf t)) 0) as [E|E].
  { rewrite bool_decide_eq_true_2 by done. eexists _, [], _. split; [reflexivity|]. split; [|done].
    assert (data = []) as ->.
    { apply zlen_0_nil. destruct (Hr 0 ltac:(done)) as (_ & _ & Hz & _). lia. }
    apply (recv_step_after t [] _ _ Hkeep); try done. by apply (tcp_ok_conn (set_m_rbuf rbuf t)); [apply Hkeep|..]. }
  rewrite bool_decide_eq_false_2 by done. set (wnd := u32 (GetWriteRemaining _)).
  specialize (Hstep wnd (u32_range _)). destruct (_ <=? _); [|by eexists _, data, _].
  destruct (_ =? 0); [|by eexists _, data, _].
  destruct (attemptSend_ok sfImmediateAck (set_m_rcv_wnd wnd (set_m_rbuf rbuf t)) (proj1 Hstep)) as (t2 & -> & Hok2 & Hf & _).
  eexists _, data, t2. split; [reflexivity|]. split; [|done].
  pose proof (fr_conn _ _ Hf) as Ec. apply (recv_step_after t data _ t2 Hstep Hok2); [apply Hf|by rewrite Ec..].
Qed.
End Api.
