(* ===== verification/PseudoTcpWire.v ===== *)
(** * Pseudo-TCP: the packet format

    The bytes of a packet, and that [parse] reads back what [packet] wrote. *)

From S2P Require Import Prelude ByteOrder ByteBuffer FifoBuffer TimeUtils PseudoTcp PseudoTcpSafe PseudoTcpRecv PseudoTcpApi.

#[local] Open Scope tcp_scope.

Section Wire.
Context `{Platform} `{TcpEnv}.
Implicit Types t : PseudoTcp.

(** The header in network byte order. *)
Definition header (conv seq ack flags wnd tsval tsecr : Z) : list Z :=
  be_encode 4 conv ++ be_encode 4 seq ++ be_encode 4 ack ++ [0] ++ [flags] ++ be_encode 2 wnd ++
  be_encode 4 tsval ++ be_encode 4 tsecr.

Lemma zlen_tcp_header conv seq ack flags wnd tsval tsecr : zlen (header conv seq ack flags wnd tsval tsecr) = 24.
Proof. unfold header. rewrite !zlen_app, !zlen_be_encode. reflexivity. Qed.

Definition out_wnd t : Z := u16 (Z.shiftr (m_rcv_wnd t) (m_rwnd_scale t)).
Definition header_of t (seq flags now : Z) : list Z :=
  header (m_conv t) seq (m_rcv_nxt t) flags (out_wnd t) now (m_ts_recent t).

Lemma packet_header_bytes t seq flags now :
  packet_header t seq flags now = splice 0 (header_of t seq flags now) (fresh_block MAX_PACKET).
Proof.
  unfold packet_header, long_to_bytes, short_to_bytes, header_of, header, out_wnd.
  rewrite !HostToNetwork32_store, !HostToNetwork16_store.
  assert (Hz : zlen (fresh_block MAX_PACKET) = 65535) by (by rewrite zlen_fresh).
  set (m := fresh_block MAX_PACKET) in *. clearbody m.
  repeat match goal with
  | |- context [splice ?q ?b (splice ?p ?a m)] =>
      replace (splice q b (splice p a m)) with (splice p (a ++ b) m)
        by (rewrite <- splice_adjacent; [f_equal; rewrite ?zlen_app, ?zlen_be_encode; reflexivity|lia|
            rewrite ?zlen_app, ?zlen_be_encode; change (zlen [0]) with 1; change (zlen [flags]) with 1; lia])
  end.
  by rewrite <- !app_assoc.
Qed.

(** The packet as it is handed to the network. *)
Lemma packet_sent seq flags offset len t : 0 ≤ len ≤ 65511 → fifo_ok (m_sbuf t) → 0 ≤ offset →
  (len ≠ 0 → offset + len ≤ data_length_ (m_sbuf t)) →
  ∃ r t', packet seq flags offset len t = Some (r, t') ∧
    w_sent t' = w_sent t ++ [header_of t seq flags (clock_at (w_clock t)) ++ ztake len (zdrop offset (fifo_data (m_sbuf t)))].
Proof.
  intros Hlen Hok Hoff Hin. pose proof (zlen_fifo_data _ Hok) as Hfd. unfold packet, Now. cbn [fst snd].
  set (t1 := on_world _ t). set (t2 := set_m_ts_lastack _ t1).
  assert (Ed : (if negb (len =? 0) then (ReadOffset (m_sbuf t2) len offset).2 else []) = ztake len (zdrop offset (fifo_data (m_sbuf t)))).
  { destruct (Z.eqb_spec len 0) as [->|Hn]; cbn [negb]; [by rewrite ztake_neg by lia|].
    unfold ReadOffset. change (m_sbuf t2) with (m_sbuf t). rewrite read_window by (done || lia). unfold w_read.
    cbn [window_of w_len w_bytes]. destruct (Z.leb_spec (data_length_ (m_sbuf t)) offset); [lia|done]. }
  rewrite Ed. set (data := ztake len _).
  assert (Hd : zlen data = len) by (unfold data; rewrite zlen_ztake, zlen_zdrop; lia).
  unfold HEADER_SIZE, MAX_PACKET. rewrite Hd. destruct (Z.ltb_spec 65535 (24 + len)); [lia|].
  rewrite u32_id by ulia. destruct (Z.ltb_spec 65535 (len + 24)); [lia|].
  rewrite packet_header_bytes. change (header_of t1) with (header_of t). set (h := header_of t _ _ _).
  assert (Hh : zlen h = 24) by apply zlen_tcp_header.
  assert (Hm : zlen (fresh_block MAX_PACKET) = 65535) by (by rewrite zlen_fresh).
  replace (ztake (len + 24) (splice 24 data (splice 0 h (fresh_block MAX_PACKET)))) with (h ++ data).
  2:{ rewrite <- Hh at 2. rewrite <- (Z.add_0_l (zlen h)). rewrite splice_adjacent by lia.
      unfold splice. rewrite (ztake_neg 0) by lia. cbn [app]. rewrite ztake_app_exact; [done|]. rewrite zlen_app. lia. }
  destruct (negb _ && _); eexists _, _; (split; [reflexivity|]); [done|]. by destruct (0 <? len).
Qed.

Lemma field_at pre n v post p l : l = pre ++ be_encode n v ++ post → zlen pre = p → 0 ≤ v < 256 ^ Z.of_nat n →
  be_decode (ztake (Z.of_nat n) (zdrop p l)) = v.
Proof.
  intros -> Hp Hv. rewrite zdrop_app_exact, ztake_app_exact by (rewrite ?zlen_be_encode; done). by apply be_decode_encode.
Qed.

Lemma header_fields conv seq ack flags wnd tsval tsecr data : is_u32 conv → is_u32 seq → is_u32 ack → is_u16 wnd →
  is_u32 tsval → is_u32 tsecr →
  segment_of (header conv seq ack flags wnd tsval tsecr ++ data) = mkSegment conv seq ack flags wnd data (zlen data) tsval tsecr.
Proof.
  intros. unfold segment_of. rewrite zlen_app, zlen_tcp_header, (zdrop_app_exact 24) by (by rewrite zlen_tcp_header).
  set (l := header _ _ _ _ _ _ _ ++ data).
  assert (El : l = be_encode 4 conv ++ be_encode 4 seq ++ be_encode 4 ack ++ [0] ++ [flags] ++ be_encode 2 wnd ++
    be_encode 4 tsval ++ be_encode 4 tsecr ++ data) by (unfold l, header; by rewrite <- !app_assoc).
  clearbody l. set (a := be_encode 4 conv) in *. set (b := be_encode 4 seq) in *. set (c := be_encode 4 ack) in *.
  set (w := be_encode 2 wnd) in *. set (x := be_encode 4 tsval) in *.
  assert (zlen a = 4 ∧ zlen b = 4 ∧ zlen c = 4 ∧ zlen w = 2 ∧ zlen x = 4) as (Ha & Hb & Hc & Hw & Hx)
    by (unfold a, b, c, w, x; rewrite !zlen_be_encode; done).
  rewrite (field_at [] 4 conv (b ++ c ++ [0] ++ [flags] ++ w ++ x ++ be_encode 4 tsecr ++ data) 0) by done.
  rewrite (field_at a 4 seq (c ++ [0] ++ [flags] ++ w ++ x ++ be_encode 4 tsecr ++ data) 4) by done.
  rewrite (field_at (a ++ b) 4 ack ([0] ++ [flags] ++ w ++ x ++ be_encode 4 tsecr ++ data) 8)
    by (rewrite ?zlen_app, <- ?app_assoc; (done || lia)).
  rewrite (field_at (a ++ b ++ c ++ [0] ++ [flags]) 2 wnd (x ++ be_encode 4 tsecr ++ data) 14)
    by (rewrite ?zlen_app, <- ?app_assoc; (done || (cbn; lia))).
  rewrite (field_at (a ++ b ++ c ++ [0] ++ [flags] ++ w) 4 tsval (be_encode 4 tsecr ++ data) 16)
    by (rewrite ?zlen_app, <- ?app_assoc; (done || (cbn; lia))).
  rewrite (field_at (a ++ b ++ c ++ [0] ++ [flags] ++ w ++ x) 4 tsecr data 20)
    by (rewrite ?zlen_app, <- ?app_assoc; (done || (cbn; lia))).
  f_equal; [|lia].
  rewrite El, !app_assoc. rewrite <- !app_assoc, (app_assoc a), (app_assoc (a ++ b)), (app_assoc ((a ++ b) ++ c)).
  rewrite zget_app by lia. rewrite !zlen_app, Ha, Hb, Hc. reflexivity.
Qed.

Lemma tcp_header_ok conv seq ack flags wnd tsval tsecr : is_u8 flags → bytes_ok (header conv seq ack flags wnd tsval tsecr).
Proof.
  intros Hf. unfold header, bytes_ok. rewrite !Forall_app. split_and!; try apply be_encode_ok; by constructor.
Qed.

(** What [packet] sends, [parse] reads: for any sender and any receiver, the packet
    made for a range of the send buffer is parsed as the segment with the sender's
    conversation number, the given sequence number and flags, the acknowledgement and
    scaled window of the sender's receiving side, its timestamps, and exactly the bytes
    of that range. *)
Theorem packet_parse_roundtrip seq flags offset len t : 0 ≤ len ≤ 65511 → fifo_ok (m_sbuf t) → 0 ≤ offset →
  (len ≠ 0 → offset + len ≤ data_length_ (m_sbuf t)) → bytes_ok (fifo_data (m_sbuf t)) →
  is_u32 seq → is_u8 flags → is_u32 (m_conv t) → is_u32 (m_rcv_nxt t) → is_u32 (m_ts_recent t) →
  ∃ r t' bytes, packet seq flags offset len t = Some (r, t') ∧ w_sent t' = w_sent t ++ [bytes] ∧
    zlen bytes = HEADER_SIZE + len ∧
    ∀ receiver, parse bytes receiver =
      process (mkSegment (m_conv t) seq (m_rcv_nxt t) flags (u16 (Z.shiftr (m_rcv_wnd t) (m_rwnd_scale t)))
                 (ztake len (zdrop offset (fifo_data (m_sbuf t)))) len (clock_at (w_clock t)) (m_ts_recent t)) receiver.
Proof.
  intros Hlen Hok Hoff Hin Hb Hs Hf Hc Hr Ht.
  destruct (packet_sent seq flags offset len t Hlen Hok Hoff Hin) as (r & t' & E & Ew).
  set (h := header_of t seq flags _) in *. set (data := ztake len _) in *. pose proof (zlen_fifo_data _ Hok) as Hfd.
  assert (Hd : zlen data = len) by (unfold data; rewrite zlen_ztake, zlen_zdrop; lia).
  assert (Hh : zlen h = 24) by apply zlen_tcp_header.
  exists r, t', (h ++ data). split; [done|]. split; [done|]. split; [rewrite zlen_app; unfold HEADER_SIZE; lia|].
  intros receiver. destruct (parse_segment (h ++ data) receiver) as [-> _].
  - apply bytes_ok_app. split; [by apply tcp_header_ok|by apply bytes_ok_ztake, bytes_ok_zdrop].
  - rewrite zlen_app. lia.
  - unfold h, header_of. rewrite header_fields, Hd; try done; [apply u16_range|apply clock_u32].
Qed.

(** [parse] checks for 12 bytes but reads a header of 24: a packet of 12 to 23 bytes
    is read outside its buffer, whatever its content and the state. *)
Theorem NotifyPacket_truncated buffer t : 12 ≤ zlen buffer < HEADER_SIZE → NotifyPacket buffer t = None.
Proof.
  unfold HEADER_SIZE. intros Hl. unfold NotifyPacket, parse, MAX_PACKET. destruct (Z.ltb_spec 65535 (zlen buffer)); [lia|].
  rewrite u32_id by ulia. destruct (Z.ltb_spec (zlen buffer) 12); [lia|].
  assert (E : bytes_to_long buffer 20 = None).
  { unfold bytes_to_long. destruct (Z.leb_spec (20 + 4) (zlen buffer)); [lia|done]. }
  rewrite E. by repeat case_match.
Qed.
End Wire.

#[local] Existing Instance zero_platform.
#[local] Existing Instance sample_env.

(** A sender with four bytes in its buffer, which wrap around its end. *)
Definition sample_sender : PseudoTcp :=
  set_m_sbuf (mkFifo SS_OPEN [30; 40; 0; 10; 20] 5 4 3 []) (PseudoTcp_new 7).

Lemma packet_parse_roundtrip_witness :
  ∃ r t' bytes, packet 100 0 1 3 sample_sender = Some (r, t') ∧ w_sent t' = w_sent sample_sender ++ [bytes] ∧
    zlen bytes = HEADER_SIZE + 3 ∧
    ∀ receiver, parse bytes receiver =
      process (mkSegment 7 100 0 0 (u16 (Z.shiftr (m_rcv_wnd sample_sender) (m_rwnd_scale sample_sender)))
                 (ztake 3 (zdrop 1 (fifo_data (m_sbuf sample_sender)))) 3
                 (clock_at (w_clock sample_sender)) (m_ts_recent sample_sender)) receiver.
Proof.
  apply (packet_parse_roundtrip 100 0 1 3 sample_sender); try done.
  vm_compute. repeat constructor; congruence.
Defined.

Lemma NotifyPacket_truncated_witness : NotifyPacket [0; 0; 0; 7; 0; 0; 0; 0; 0; 0; 0; 0] (PseudoTcp_new 7) = None.
Proof. apply NotifyPacket_truncated. vm_compute. split; congruence. Defined.
