(* ===== verification/PseudoTcpSend.v ===== *)
(** * Pseudo-TCP: what is sent

    The segments lie end to end in the send buffer, and every packet carries the bytes
    of its sequence numbers, as long as no acknowledgement ends inside a segment. *)

From S2P Require Import Prelude ByteOrder ByteBuffer FifoBuffer TimeUtils PseudoTcp PseudoTcpSafe PseudoTcpRecv PseudoTcpApi PseudoTcpWire.

#[local] Open Scope tcp_scope.

(** The segments from sequence number [q] on. *)
Fixpoint chain (q : Z) (l : list SSegment) : Prop :=
  match l with
  | [] => True
  | s :: l => ss_seq s = q ∧ chain (q + ss_len s) l
  end.

Definition carries (S : Z → Z) (o : Outgoing) : Prop :=
  ∀ i, 0 ≤ i < data_length_ (m_sbuf o) → zget i (fifo_data (m_sbuf o)) = S (m_snd_una o + i).
Definition sound_packet (S : Z → Z) (bytes : list Z) : Prop := 24 ≤ zlen bytes ∧ genuine S (segment_of bytes).

Record sender (S : Z → Z) (t : PseudoTcp) : Prop := {
  sn_chain : chain (m_snd_una t) (m_slist t);
  sn_carries : carries S t;
  sn_sent : Forall (sound_packet S) (w_sent t)
}.

Lemma chain_app q a b : chain q (a ++ b) ↔ chain q a ∧ chain (q + sum_len a) b.
Proof.
  revert q. induction a as [|s a IH]; intros q; cbn [app chain].
  - cbn. rewrite Z.add_0_r. tauto.
  - rewrite IH, sum_len_cons, Z.add_assoc. tauto.
Qed.

Lemma out_lens o : out_ok o → Forall (λ s, 0 ≤ ss_len s) (m_slist o).
Proof.
  intros [_ _ _ _ _ (sent & unsent & -> & Hsent & _ & Hlens & _) _]. apply Forall_app. split.
  - eapply Forall_impl; [exact Hsent|]. intros s (_ & ? & _). lia.
  - induction unsent as [|u l IH]; [constructor|]. destruct Hlens as [? ?]. constructor; [lia|by apply IH].
Qed.

Section Send.
Context `{Platform} `{TcpEnv}.
Implicit Types t : PseudoTcp.

Lemma sender_same S t t' : sender S t → outgoing t' = outgoing t → w_sent t' = w_sent t → sender S t'.
Proof. intros [Hc Hs Hw] Eo Ew. split; rewrite ?Eo, ?Ew; done. Qed.

Lemma header_seq conv seq ack flags wnd tsval tsecr data : is_u32 seq →
  let seg := segment_of (header conv seq ack flags wnd tsval tsecr ++ data) in
  seg_seq seg = seq ∧ seg_data seg = data ∧ seg_len seg = zlen data.
Proof.
  intros Hs. unfold segment_of. cbn [seg_seq seg_data seg_len].
  rewrite zlen_app, zlen_tcp_header, (zdrop_app_exact 24) by (by rewrite zlen_tcp_header). split_and!; [|done|lia].
  unfold header. apply (field_at (be_encode 4 conv) 4 seq (be_encode 4 ack ++ [0] ++ [flags] ++ be_encode 2 wnd ++
    be_encode 4 tsval ++ be_encode 4 tsecr ++ data)); [by rewrite <- !app_assoc|by rewrite zlen_be_encode|done].
Qed.

Lemma packet_sender S seq flags offset len t r t' : fifo_ok (m_sbuf t) → 0 ≤ len ≤ 65511 → 0 ≤ offset → is_u32 seq →
  (len ≠ 0 → offset + len ≤ data_length_ (m_sbuf t) ∧ seq = m_snd_una t + offset) → sender S t →
  packet seq flags offset len t = Some (r, t') → sender S t' ∧ outgoing t' = outgoing t.
Proof.
  intros Hf Hlen Ho Hs Hin Hsn E.
  destruct (packet_safe seq flags offset len t Hlen Hf Ho) as (r1 & t1 & E1 & _ & Eo & _).
  destruct (packet_sent seq flags offset len t Hlen Hf Ho) as (r2 & t2 & E2 & Ew); [by intros Hn; apply Hin|].
  simplify_eq. split; [|done]. destruct Hsn as [Hc Hs1 Hw]. split; [by rewrite Eo..|]. rewrite Ew. apply Forall_app. split; [done|].
  apply Forall_singleton. set (data := ztake len _). destruct (header_seq (m_conv t) seq (m_rcv_nxt t) flags (out_wnd t) (clock_at (w_clock t)) (m_ts_recent t) data Hs) as (E3 & E4 & E5).
  unfold header_of. split; [rewrite zlen_app, zlen_tcp_header; pose proof (zlen_nonneg data); lia|].
  unfold genuine. rewrite E3, E4, E5. split; [lia|]. intros i Hi.
  pose proof (zlen_fifo_data _ Hf) as Hfd.
  assert (Hd : zlen data ≤ len) by (unfold data; rewrite zlen_ztake; lia). destruct (Hin ltac:(lia)) as [Hin1 ->].
  unfold data. rewrite zget_ztake, zget_zdrop, Hs1 by lia. f_equal. lia.
Qed.

Lemma lower_mss_keeps fuel : ∀ n t r t', lower_mss fuel n t = Some (r, t') → w_sent t' = w_sent t ∧ outgoing t' = outgoing t.
Proof.
  induction fuel as [|fuel IH]; intros n t r t'; cbn [lower_mss]; [done|].
  destruct (zat _ _) as [v|]; [|done]. destruct (v =? 0); [by intros [= <- <-]|].
  destruct (_ <? n); [by intros [= <- <-]|]. intros E. by apply IH in E.
Qed.

Lemma transmit_packet_sender S fuel : ∀ seg n t r t', fifo_ok (m_sbuf t) → mss_ok t → sender S t → is_u32 (ss_seq seg) →
  9 - m_msslevel t < Z.of_nat fuel → 0 ≤ m_snd_una t →
  0 < n ≤ 65511 → 0 ≤ ss_seq seg - m_snd_una t → ss_seq seg - m_snd_una t + n ≤ data_length_ (m_sbuf t) →
  transmit_packet fuel seg n t = Some (r, t') → sender S t'.
Proof.
  induction fuel as [|fuel IH]; intros seg n t r t' Hf Hm Hsn Hq Hfu Hu Hn Ho Hin; cbn [transmit_packet]; [done|].
  rewrite (u32_id (ss_seq seg - m_snd_una t)) by ulia.
  destruct (packet_safe (ss_seq seg) (if ss_bCtrl seg then FLAG_CTL else 0) (ss_seq seg - m_snd_una t) n t)
    as (r1 & t1 & E & Hf1 & Eo & Em & _); [lia|done|lia|].
  rewrite E. apply (packet_sender S) in E as [Hsn1 _]; [|done|lia|lia|done|lia|done].
  destruct r1; [by intros [= <- <-]| |by intros [= <- <-]].
  destruct (lower_mss_safe 12 n t1) as (r2 & t2 & E2 & Hf2 & Eo2 & Hr); [by apply Hf1|rewrite Em; destruct Hm; lia|].
  rewrite E2. destruct (lower_mss_keeps 12 n t1 r2 t2 E2) as [Ew _].
  assert (Hsn2 : sender S t2) by (by apply (sender_same S t1)).
  destruct r2 as [n'|]; [|by intros [= <- <-]]. rewrite Em in Hr.
  apply IH; rewrite ?Eo2, ?Eo; try done; try lia. by apply Hf2, Hf1.
Qed.

(** A segment of the list lies in the send buffer. *)
Lemma segment_in S t i seg : out_ok t → sender S t → m_slist t !! i = Some seg → 0 ≤ ss_len seg →
  0 ≤ ss_seq seg - m_snd_una t ∧ ss_seq seg - m_snd_una t + ss_len seg ≤ data_length_ (m_sbuf t).
Proof.
  intros Ho [Hc _ _] Hi Hl. pose proof (list_elem_of_split_length _ _ _ Hi) as (l1 & l2 & Esl & _).
  pose proof Ho as [_ _ _ _ _ (sent & unsent & Hsl & Hsent & Hun & Hlens & _ & Hdl) _].
  assert (Hsum : data_length_ (m_sbuf t) = sum_len (m_slist t)) by (by rewrite Hsl, sum_len_app).
  pose proof (out_lens _ Ho) as Hp.
  assert (Hnn : ∀ l, Forall (λ s, 0 ≤ ss_len s) l → 0 ≤ sum_len l).
  { induction 1 as [|s l ? ? IH]; [done|]. rewrite sum_len_cons. lia. }
  rewrite Esl in Hc, Hsum, Hp. apply chain_app in Hc as [_ [Hq _]]. apply Forall_app in Hp as [Hp1 Hp2].
  apply Forall_cons in Hp2 as [_ Hp2]. rewrite sum_len_app, sum_len_cons in Hsum.
  pose proof (Hnn _ Hp1). pose proof (Hnn _ Hp2). lia.
Qed.

Lemma chain_split q i l seg n xmit xmit' : chain q l → l !! i = Some seg → 0 ≤ n ≤ ss_len seg → is_u32 (ss_seq seg + n) →
  let sub := if n <? ss_len seg then [mkSSegment (u32 (ss_seq seg + n)) (ss_len seg - n) xmit' (ss_bCtrl seg)] else [] in
  chain q (take i l ++ (mkSSegment (ss_seq seg) n xmit (ss_bCtrl seg) :: sub) ++ drop (S i) l).
Proof.
  intros Hc Hi Hn Hu sub. rewrite <- (take_drop_middle l i seg Hi) in Hc.
  apply chain_app in Hc as [Hc1 [Hq Hc2]]. apply chain_app. split; [done|]. cbn [app chain ss_seq ss_len]. split; [done|].
  unfold sub. destruct (Z.ltb_spec n (ss_len seg)); cbn [app chain ss_seq ss_len].
  - rewrite u32_id by done. split; [lia|]. replace (_ + n + _) with (q + sum_len (take i l) + ss_len seg) by lia. done.
  - replace n with (ss_len seg) by lia. done.
Qed.

Lemma transmit_sender S i now t seg ok t' : out_ok t → mss_ok t → sender S t → m_slist t !! i = Some seg →
  0 < ss_len seg → 0 ≤ ss_xmit seg → transmit i now t = Some (ok, t') → sender S t'.
Proof.
  intros Ho Hm Hsn Hi Hl Hx E. destruct (segment_in S t i seg Ho Hsn Hi ltac:(lia)) as [Hin1 Hin2].
  pose proof (out_una _ Ho). pose proof (out_space _ Ho). pose proof (out_fifo _ Ho) as Hf. pose proof Hm as (Hm1 & Hm2 & _).
  destruct (transmit_spec i now t seg Hi Hl Hx Hm Hf) as (ok2 & t2 & E2 & _ & Ho2). rewrite E in E2. injection E2 as <- <-.
  assert (Hw : Forall (sound_packet S) (w_sent t')).
  { revert E. unfold transmit. rewrite Hi. destruct (_ <=? _); [intros [= <- <-]; apply Hsn|].
    destruct (transmit_packet _ _ _ _) as [[r t1]|] eqn:E1; [|done].
    apply (transmit_packet_sender S) in E1; try done; try lia; [|ulia].
    destruct r; [|intros [= <- <-]; apply E1]. intros [= <- <-].
    destruct (m_rto_base _ =? 0), (ss_xmit seg =? 0); apply E1. }
  destruct ok; [|destruct Hsn as [Hc Hs _]; split; [by rewrite Ho2..|done]].
  destruct Ho2 as (n & Hn & _ & Eo). destruct Hsn as [Hc Hs _]. split; rewrite ?Eo; try done.
  cbn [m_snd_una m_slist]. unfold sent_part. apply chain_split; try done; [lia|ulia].
Qed.

Lemma ack_packet_sender S seq flags t r t' : fifo_ok (m_sbuf t) → is_u32 seq → sender S t →
  packet seq flags 0 0 t = Some (r, t') → sender S t'.
Proof. intros Hf Hs Hsn E. apply (packet_sender S) in E as [? _]; (done || lia). Qed.

Lemma split_next_sender S i seg n t : out_ok t → sender S t → m_slist t !! i = Some seg → 0 ≤ n → 0 ≤ ss_len seg →
  sender S (split_next i seg n t).
Proof.
  intros Ho Hsn Hi Hn Hl. destruct (segment_in S t i seg Ho Hsn Hi Hl). pose proof (out_una _ Ho). pose proof (out_space _ Ho).
  unfold split_next. destruct (Z.ltb_spec n (ss_len seg)) as [Hlt|]; [|done]. destruct Hsn as [Hc Hs Hw]. split; try done.
  pose proof (chain_split (m_snd_una t) i (m_slist t) seg n (ss_xmit seg) 0 Hc Hi ltac:(lia) ltac:(ulia)) as Hcs.
  cbn zeta in Hcs. destruct (Z.ltb_spec n (ss_len seg)); [exact Hcs|lia].
Qed.

Lemma attemptSend_loop_sender S fuel : ∀ now sflags t t', out_ok t → mss_ok t → cong_ok t → sender S t →
  attemptSend_loop fuel now sflags t = Some t' → sender S t'.
Proof.
  induction fuel as [|fuel IH]; intros now sflags t t' Ho Hm Hc Hsn; cbn [attemptSend_loop]; [done|].
  pose proof (send_amount_bound t Ho Hm Hc) as Ha. destruct (out_ok_bounds t Ho) as (_ & Hnx & _).
  set (n := send_amount t) in *. destruct (Z.eqb_spec n 0).
  { destruct (bool_decide _); [by intros [= <-]|]. destruct (_ || _).
    - destruct (packet _ _ _ _ t) as [[r t1]|] eqn:E; [|done]. intros [= <-].
      by apply (ack_packet_sender S) in E; [|apply Ho|..].
    - intros [= <-]. by apply (sender_same S t). }
  destruct (_ && _ && _); [by intros [= <-]|].
  destruct (next_segment t n Ho Hm ltac:(lia)) as (i & seg & seg1 & -> & Hi & Hl & [Hx _] & Ho1 & Hf1 & Hm1 & Hi1 & Hl1 & [Hx1 _] & Ht).
  rewrite Hi. change (if n <? ss_len seg then _ else t) with (split_next i seg n t).
  assert (Hsn1 : sender S (split_next i seg n t)) by (apply split_next_sender; (done || lia)).
  destruct (Ht now) as (ok & t2 & E & Hf2 & Ho2 & _). rewrite E.
  apply (transmit_sender S i now _ seg1) in E; try done; [|by rewrite Hm1|lia].
  destruct ok; cbn [negb]; [|by intros [= <-]]. apply IH; try done; [by apply Hf2|by eapply frame_cong].
Qed.

Lemma attemptSend_sender S sflags t t' : tcp_ok t → sender S t → attemptSend sflags t = Some t' → sender S t'.
Proof.
  intros Hok Hsn. unfold attemptSend, Now. pose proof (ok_mss _ Hok) as (Hms & _).
  apply attemptSend_loop_sender; destruct (_ <? _); try apply Hok; try by apply (sender_same S t).
  destruct (ok_cong _ Hok) as (? & ? & ? & ? & ?). split_and!; try done; cbn; ulia.
Qed.

(** ** Queueing and acknowledgements *)

Lemma queue_chain o len bCtrl : out_ok o → chain (m_snd_una o) (m_slist o) →
  m_snd_una o + data_length_ (m_sbuf o) + len < 4294967296 → 0 ≤ len → chain (m_snd_una o) (queued o len bCtrl).
Proof.
  intros Ho Hc Hsp Hlen. pose proof Ho as [(_ & _ & _ & ?) _ _ ? _ (sent & unsent & Hsl & _ & _ & _ & _ & Hdl) _].
  assert (Hsum : data_length_ (m_sbuf o) = sum_len (m_slist o)) by (by rewrite Hsl, sum_len_app).
  unfold queued. rewrite u32_id by ulia.
  destruct (rev (m_slist o)) as [|s l] eqn:Erev; apply (f_equal (@rev _)) in Erev; rewrite rev_involutive in Erev; cbn [rev] in Erev.
  - rewrite Erev in Hsum. cbn in Hsum. split; [cbn; lia|done].
  - destruct (_ && _).
    + rewrite Erev in Hc. apply chain_app in Hc as [Hc1 [Hq _]]. apply chain_app. split; [done|]. by split.
    + apply chain_app. split; [done|]. split; [cbn; lia|done].
Qed.

(** The bytes that [Send] takes are the next of the stream. *)
Definition writes (S : Z → Z) (buffer : list Z) t : Prop :=
  ∀ i, 0 ≤ i < Z.min (zlen buffer) (buffer_length_ (m_sbuf t) - data_length_ (m_sbuf t)) →
    zget i buffer = S (m_snd_una t + data_length_ (m_sbuf t) + i).

Lemma queue_sender S buffer t : out_ok t → m_snd_una t + data_length_ (m_sbuf t) + zlen buffer < 4294967296 →
  sender S t → writes S buffer t → sender S (queue buffer false t).2.
Proof.
  intros Ho Hsp [Hc Hs Hw] Hwr. pose proof (queue_safe buffer false t Ho Hsp ltac:(done)) as Hq.
  destruct (queue buffer false t) as [w t']. cbn [snd]. destruct Hq as ((o & ->) & _ & _ & Hu & _ & Hdl & Hfd & Hsl).
  set (n := Z.min _ _) in *. pose proof (out_fifo _ Ho) as Hf. pose proof Hf as (_ & _ & _ & ?). pose proof (zlen_nonneg buffer).
  split; [|intros i Hi|done].
  - rewrite Hu, Hsl. apply queue_chain; try done; lia.
  - rewrite Hu, Hfd, zget_app, zlen_fifo_data by (done || lia). rewrite Hdl in Hi.
    destruct (Z.ltb_spec i (data_length_ (m_sbuf t))); [apply Hs; lia|].
    rewrite zget_ztake, Hwr by lia. f_equal. lia.
Qed.

(** The acknowledgement does not end inside a segment. *)
Definition aligned (o : Outgoing) (ack : Z) : Prop :=
  m_snd_una o < ack ≤ m_snd_nxt o → ∃ l1 l2, m_slist o = l1 ++ l2 ∧ ack = m_snd_una o + sum_len l1.

Lemma free_segments_chain l : ∀ q n largest l' la, chain q l → Forall (λ s, 0 ≤ ss_len s) l →
  (∃ l1 l2, l = l1 ++ l2 ∧ n = sum_len l1) → free_segments l n largest = Some (l', la) → chain (q + n) l'.
Proof.
  induction l as [|s l IH]; intros q n largest l' la Hc Hl Hal; cbn [free_segments].
  { destruct (negb _) eqn:E; [|done]. by intros [= <- <-]. }
  destruct Hal as (l1 & l2 & El & ->). apply Forall_cons in Hl as [Hs Hl].
  assert (Hnn : ∀ k, Forall (λ s, 0 ≤ ss_len s) k → 0 ≤ sum_len k).
  { induction 1 as [|x k ? ? IHk]; [done|]. rewrite sum_len_cons. lia. }
  destruct (Z.ltb_spec 0 (sum_len l1)); cbn [negb].
  2:{ assert (Hz : 0 ≤ sum_len l1).
      { apply Hnn. assert (Hall : Forall (λ s, 0 ≤ ss_len s) (l1 ++ l2)) by (rewrite <- El; by constructor).
        by apply Forall_app in Hall as [? _]. }
      intros [= <- <-]. by replace (q + sum_len l1) with q by lia. }
  destruct l1 as [|x l1]; [done|]. injection El as -> ->. rewrite sum_len_cons in *.
  apply Forall_app in Hl as [Hl1 Hl2]. pose proof (Hnn _ Hl1).
  destruct (Z.ltb_spec (ss_len x + sum_len l1) (ss_len x)); [lia|]. destruct Hc as [_ Hc].
  replace (ss_len x + sum_len l1 - ss_len x) with (sum_len l1) by lia. intros E.
  replace (q + (ss_len x + sum_len l1)) with (q + ss_len x + sum_len l1) by lia.
  eapply IH; [done|by apply Forall_app| |exact E]. by exists l1, l2.
Qed.

Lemma transmit_front_sender S now t ok t' : out_ok t → mss_ok t → m_snd_una t ≠ m_snd_nxt t → sender S t →
  transmit 0 now t = Some (ok, t') → sender S t'.
Proof.
  intros Ho Hm Hne Hsn. pose proof Ho as [_ _ _ _ _ (sent & unsent & Hsl & Hsent & _ & _ & Hnxt & _) _].
  destruct sent as [|seg sent]; [cbn in Hnxt; lia|]. apply Forall_inv in Hsent as (Hx & Hl & _).
  apply (transmit_sender S 0 now t seg); try done; [by rewrite Hsl|lia].
Qed.

Lemma process_window_sender S now nAcked t r t' : tcp_ok t → m_state t ≠ TCP_CLOSED → sender S t →
  process_window now nAcked t = Some (r, t') → sender S t'.
Proof.
  intros Hok Hst Hsn. unfold process_window. destruct (Z.leb_spec 3 (m_dup_acks t)) as [Hd|].
  - destruct (Z.leb_spec (m_recover t) (m_snd_una t)); [intros [= <- <-]; by apply (sender_same S t)|].
    pose proof (ok_recover _ Hok Hst Hd). destruct (transmit 0 now t) as [[ok t1]|] eqn:E; [|done].
    apply (transmit_front_sender S) in E; [|apply Hok..|lia|done].
    destruct ok; intros [= <- <-]; by apply (sender_same S t1).
  - destruct (_ <? _); [intros [= <- <-]; by apply (sender_same S t)|].
    destruct (div32 _ _); [|done]. intros [= <- <-]. by apply (sender_same S t).
Qed.

Lemma process_new_ack_sender S seg now t r t' : tcp_ok t → m_state t ≠ TCP_CLOSED → seg_ok seg → sender S t →
  m_snd_una t < seg_ack seg ≤ m_snd_nxt t → aligned t (seg_ack seg) →
  process_new_ack seg now t = Some (r, t') → sender S t'.
Proof.
  intros Hok Hst Hseg Hsn Hack Hal.
  destruct (new_ack_state seg now t Hok Hseg Hack) as (t2 & sl & la & -> & Hok2 & Ec & _ & _ & Ew & E & Esl & Eu & Eb).
  apply process_window_sender; [done|by rewrite Ec|]. destruct Hsn as [Hc Hs Hw]. pose proof (ok_out _ Hok) as Ho.
  destruct (out_ok_bounds t Ho) as (Hb & _). pose proof (out_fifo _ Ho) as Hf. set (n := seg_ack seg - m_snd_una t) in *.
  destruct (fifo_consume_queue (m_sbuf t) n Hf ltac:(lia)) as (_ & _ & _ & Hd & Hq).
  destruct (Hal Hack) as (l1 & l2 & El & En).
  split; [| |by rewrite Ew].
  - rewrite Eu, Esl. replace (seg_ack seg) with (m_snd_una t + n) by lia.
    apply (free_segments_chain (m_slist t) _ _ (m_largest t) _ la); try done; [by apply out_lens|].
    exists l1, l2. split; [done|lia].
  - intros i. rewrite Eb, Eu, Hd, Hq. intros Hi. rewrite zget_zdrop, Hs by lia. f_equal. lia.
Qed.

Lemma process_dup_ack_sender S seg now t r t' : tcp_ok t → sender S t →
  process_dup_ack seg now t = Some (r, t') → sender S t'.
Proof.
  intros Hok Hsn. unfold process_dup_ack. destruct (shl32 _ _) as [wnd|]; [|done].
  destruct (0 <? seg_len seg); [intros [= <- <-]; by apply (sender_same S t)|].
  set (t1 := set_m_snd_wnd wnd t). change (m_snd_una t1) with (m_snd_una t). change (m_snd_nxt t1) with (m_snd_nxt t).
  destruct (Z.eqb_spec (m_snd_una t) (m_snd_nxt t)); cbn [negb]; [intros [= <- <-]; by apply (sender_same S t)|].
  set (t2 := set_m_dup_acks _ t1). destruct (m_dup_acks t2 =? 3).
  - destruct (transmit 0 now t2) as [[ok t3]|] eqn:E; [|done].
    apply (transmit_front_sender S) in E; [|apply Hok|apply Hok|done|by apply (sender_same S t)].
    destruct ok; intros [= <- <-]; by apply (sender_same S t3).
  - destruct (3 <? _); intros [= <- <-]; by apply (sender_same S t).
Qed.

Lemma process_ack_sender S seg now t r t' : tcp_ok t → m_state t ≠ TCP_CLOSED → seg_ok seg → sender S t →
  aligned t (seg_ack seg) → process_ack seg now t = Some (r, t') → sender S t'.
Proof.
  intros Hok Hst Hseg Hsn Hal. unfold process_ack.
  destruct (Z.ltb_spec (m_snd_una t) (seg_ack seg)), (Z.leb_spec (seg_ack seg) (m_snd_nxt t)); cbn [andb].
  1: by apply process_new_ack_sender.
  all: destruct (_ =? _); [by apply process_dup_ack_sender|by intros [= <- <-]].
Qed.

Lemma adjustMTU_keeps t t' : adjustMTU t = Some t' → outgoing t' = outgoing t ∧ w_sent t' = w_sent t.
Proof. unfold adjustMTU. destruct (mtu_level _ _ _); [|done]. by intros [= <-]. Qed.

Lemma process_data_keeps seg sf t : let '(_, _, t') := process_data seg sf t in outgoing t' = outgoing t ∧ w_sent t' = w_sent t.
Proof.
  unfold process_data. destruct (0 <? _); [|done]. destruct (_ || _); [by destruct (_ =? _)|].
  destruct (WriteOffset _ _ _) as [[? ?] rbuf]. destruct (_ =? _); [|done]. by destruct (recover_segments _ _ _).
Qed.

Lemma process_receive_sender S seg t b t' : tcp_ok t → seg_ok seg → seg_seq seg + seg_len seg < 4294967296 →
  sender S t → process_receive seg t = Some (b, t') → sender S t'.
Proof.
  intros Hok Hseg Hfit Hsn. unfold process_receive. set (t1 := process_writeable t).
  assert (E1 : tcp_ok t1 ∧ sender S t1).
  { unfold t1, process_writeable. destruct (_ && _); [|done]. split; [by apply (tcp_ok_conn t)|by apply (sender_same S t)]. }
  destruct E1 as (Hok1 & Hsn1).
  assert (Hk : kept t1 seg (trim_back (trim_front seg t1) t1)).
  { apply trim_kept; [apply Hok1|apply Hseg| |done]. rewrite (sg_len _ Hseg). apply zlen_nonneg. }
  set (seg2 := trim_back _ _) in *. pose proof (process_data_ok seg seg2 (ack_flags seg t1) t1 Hok1 Hk Hfit) as Hd.
  pose proof (process_data_keeps seg2 (ack_flags seg t1) t1) as Hkp.
  destruct (process_data _ _ _) as [[sf nd] t2]. destruct Hd as (E2 & Hin2 & _). destruct Hkp as [Eo Ew].
  assert (Hok2 : tcp_ok t2) by (rewrite E2; by apply tcp_ok_in).
  destruct (attemptSend sf t2) as [t3|] eqn:E3; [|done].
  apply (attemptSend_sender S) in E3; [|done|by apply (sender_same S t1)].
  intros [= <- <-]. destruct (_ && _); [by apply (sender_same S t3)|done].
Qed.

Lemma process_sender S seg t b t' : tcp_ok t → seg_ok seg → seg_seq seg + seg_len seg < 4294967296 →
  has_ctl seg = false → sender S t → aligned t (seg_ack seg) → process seg t = Some (b, t') → sender S t'.
Proof.
  intros Hok Hseg Hfit Hc Hsn Hal. unfold process. destruct (negb _); [by intros [= <- <-]|].
  unfold Now. set (now := clock_at _). set (t1 := set_m_bOutgoing _ _).
  assert (Hok1 : tcp_ok t1) by (by apply (tcp_ok_conn t)). assert (Hsn1 : sender S t1) by (by apply (sender_same S t)).
  destruct (bool_decide_reflect (m_state t1 = TCP_CLOSED)) as [|Hst]; [by intros [= <- <-]|].
  destruct (negb _); [intros [= <- <-]; by apply (sender_same S t)|].
  unfold process_control. fold (has_ctl seg). rewrite Hc.
  set (t3 := if (_ <=? _) && _ then _ else t1).
  assert (E3 : tcp_ok t3 ∧ sender S t3 ∧ conn t3 = conn t1 ∧ outgoing t3 = outgoing t1).
  { unfold t3. destruct (_ && _); [|done]. split_and!; try done; [by destruct Hok1; split|by apply (sender_same S t)]. }
  destruct E3 as (Hok3 & Hsn3 & Ec3 & Eo3). clearbody t3.
  destruct (process_ack_ok seg now t3 Hok3) as (r & t4 & E4 & Hok4 & _ & _ & Hc4); [by rewrite Ec3|done|].
  rewrite E4. apply (process_ack_sender S) in E4; try done; [|by rewrite Ec3|by rewrite Eo3].
  destruct r as [r|]; [by intros [= <- <-]|]. destruct Hc4 as [Ec4|[? _]]; [|done].
  destruct (process_established_ok false t4 Hok4) as (t5 & E5 & Hok5 & _); [by rewrite Ec4, Ec3|].
  rewrite E5. apply process_receive_sender; try done. revert E5. unfold process_established.
  destruct (_ && _); [|intros ?; by simplify_eq].
  destruct (adjustMTU _) as [t6|] eqn:E6; [|done]. apply adjustMTU_keeps in E6 as [Eo6 Ew6].
  intros ?. simplify_eq. by apply (sender_same S t4).
Qed.

(** ** The interface *)

Lemma NotifyPacket_sender S buffer t b t' : tcp_ok t → packet_ok buffer t → has_ctl (segment_of buffer) = false →
  aligned t (seg_ack (segment_of buffer)) → sender S t → NotifyPacket buffer t = Some (b, t') → sender S t'.
Proof.
  intros Hok [Hb Hp] Hc Hal Hsn. unfold NotifyPacket, MAX_PACKET. destruct (Z.ltb_spec 65535 (zlen buffer)); [by intros [= <- <-]|].
  destruct Hp as [Hs|[?|(Hl & Hfit & _)]]; [|lia|].
  - unfold parse. pose proof (zlen_nonneg buffer). rewrite (u32_id (zlen buffer)) by ulia.
    destruct (Z.ltb_spec (zlen buffer) 12); [|lia]. by intros [= <- <-].
  - destruct (parse_segment buffer t Hb ltac:(lia)) as [-> Hseg]. by apply process_sender.
Qed.

Lemma NotifyClock_sender S now t t' : tcp_ok t → sender S t → NotifyClock now t = Some t' → sender S t'.
Proof.
  intros Hok Hsn. unfold NotifyClock. destruct (bool_decide_reflect (m_state t = TCP_CLOSED)) as [|Hst]; [by intros [= <-]|].
  destruct (clock_retransmit_ok now t Hok Hst) as (b & t1 & E1 & [Hok1 _ _ _] & Hs1). rewrite E1.
  assert (Hsn1 : sender S t1).
  { revert E1. unfold clock_retransmit. destruct (negb (m_rto_base t =? 0) && _) eqn:E; [|by intros [= <- <-]].
    destruct (m_slist t); [by intros [= <- <-]|]. apply andb_true_iff in E as [E _]. apply negb_true_iff, Z.eqb_neq in E.
    pose proof (out_timer _ (ok_out _ Hok) E) as Hne. destruct (transmit 0 now t) as [[ok t2]|] eqn:E2; [|done].
    apply (transmit_front_sender S) in E2; [|apply Hok..|done|done].
    destruct ok; intros [= <- <-]; [|by apply (sender_same S t2)]. destruct E2 as [Hc Hs Hw]. by split. }
  destruct b; cbn [negb]; [|by intros [= <-]]. specialize (Hs1 eq_refl).
  destruct (clock_probe_ok now t1 Hok1) as (b & t2 & E2 & [Hok2 _ _ _] & _); [by rewrite Hs1|]. rewrite E2.
  assert (Hsn2 : sender S t2).
  { revert E2. unfold clock_probe. destruct (_ && _); [|by intros [= <- <-]].
    destruct (15000 <=? _); [intros [= <- <-]; by apply (sender_same S t1)|].
    destruct (packet _ _ _ _ t1) as [[r t3]|] eqn:E; [|done].
    apply (ack_packet_sender S) in E; [|apply Hok1|apply u32_range|done]. intros [= <- <-]. by apply (sender_same S t3). }
  destruct b; cbn [negb]; [|by intros [= <-]]. destruct (_ && _); [|by intros [= <-]].
  destruct (packet _ _ _ _ t2) as [[r t3]|] eqn:E; [|done]. intros [= <-].
  apply (ack_packet_sender S) in E; try done; [apply Hok2|]. by apply out_ok_bounds, Hok2.
Qed.

Lemma Send_sender S buffer t r t' : tcp_ok t → m_snd_una t + data_length_ (m_sbuf t) + zlen buffer < 4294967296 →
  writes S buffer t → sender S t → Send buffer t = Some (r, t') → sender S t'.
Proof.
  intros Hok Hsp Hw Hsn. unfold Send. destruct (negb _) eqn:E; [intros [= <- <-]; by apply (sender_same S t)|].
  destruct (_ =? 0); [intros [= <- <-]; by apply (sender_same S t)|].
  apply negb_false_iff, bool_decide_eq_true in E. destruct (queue_ok buffer t Hok E Hsp) as [Hok1 _].
  pose proof (queue_sender S buffer t (ok_out _ Hok) Hsp Hsn Hw) as Hq.
  destruct (queue buffer false t) as [w t1]. cbn [snd] in *.
  destruct (attemptSend sfNone t1) as [t2|] eqn:E2; [|done]. intros [= <- <-]. by apply (attemptSend_sender S) in E2.
Qed.

Lemma Recv_sender S len t r data t' : tcp_ok t → 0 ≤ len → sender S t → Recv len t = Some (r, data, t') → sender S t'.
Proof.
  intros Hok Hlen Hsn. unfold Recv. destruct (negb _); [intros [= <- <- <-]; by apply (sender_same S t)|].
  pose proof (read_in_ok t len (ok_in _ Hok) Hlen) as Hr.
  destruct (Fifo_Read (m_rbuf t) len) as [[q d] rbuf].
  destruct (bool_decide _); [intros [= <- <- <-]; by apply (sender_same S t)|].
  destruct (_ <=? _); [|intros [= <- <- <-]; by apply (sender_same S t)]. set (wnd := u32 (GetWriteRemaining _)).
  destruct (_ =? 0); [|intros [= <- <- <-]; by apply (sender_same S t)].
  destruct (Hr wnd (u32_range _)) as (Hin & _).
  destruct (attemptSend sfImmediateAck _) as [t2|] eqn:E; [|done]. intros [= <- <- <-].
  apply (attemptSend_sender S) in E; [done|by apply (tcp_ok_in t)|by apply (sender_same S t)].
Qed.
End Send.
