(* ===== verification/PseudoTcpRun.v ===== *)
(** * Pseudo-TCP: sequences of operations

    Runs of the interface from a new object: they have defined behaviour, follow the
    state diagram, and what the application reads is the stream of the peer. *)

From S2P Require Import Prelude ByteOrder ByteBuffer FifoBuffer TimeUtils PseudoTcp PseudoTcpSafe PseudoTcpRecv PseudoTcpApi PseudoTcpWire PseudoTcpSend.

#[local] Open Scope tcp_scope.

Inductive tcp_op :=
  | DoConnect
  | DoPacket (buffer : list Z)
  | DoClock (now : Z)
  | DoSend (buffer : list Z)
  | DoRecv (len : Z)
  | DoMTU (mtu : Z)
  | DoOption (opt : Option) (value : Z)
  | DoClose (force : bool).

Section Run.
Context `{Platform} `{TcpEnv}.
Implicit Types t : PseudoTcp.

(** One call; the first result is the data that [Recv] returns. *)
Definition tcp_step (op : tcp_op) t : option (list Z * PseudoTcp) :=
  match op with
  | DoConnect => let* (_, t) := Connect t in Some ([], t)
  | DoPacket buffer => let* (_, t) := NotifyPacket buffer t in Some ([], t)
  | DoClock now => let* t := NotifyClock now t in Some ([], t)
  | DoSend buffer => let* (_, t) := Send buffer t in Some ([], t)
  | DoRecv len => let* (r, t) := Recv len t in Some (snd r, t)
  | DoMTU mtu => let* t := NotifyMTU mtu t in Some ([], t)
  | DoOption opt value => let* t := SetOption opt value t in Some ([], t)
  | DoClose force => Some ([], Close force t)
  end.

Fixpoint tcp_run (ops : list tcp_op) t : option (list Z * PseudoTcp) :=
  match ops with
  | [] => Some ([], t)
  | op :: ops =>
      let* (data, t) := tcp_step op t in
      let* (rest, t) := tcp_run ops t in
      Some (data ++ rest, t)
  end.

(** What the calls require. *)
Definition op_ok (op : tcp_op) t : Prop :=
  match op with
  | DoConnect | DoClose _ | DoClock _ => True
  | DoPacket buffer => packet_ok buffer t
  | DoSend buffer => m_snd_una t + data_length_ (m_sbuf t) + zlen buffer < 4294967296
  | DoRecv len => 0 ≤ len
  | DoMTU mtu => 116 < mtu ≤ 65535
  | DoOption opt value => option_ok opt value t
  end.
Fixpoint ops_ok (ops : list tcp_op) t : Prop :=
  match ops with
  | [] => True
  | op :: ops => op_ok op t ∧ ∀ data t', tcp_step op t = Some (data, t') → ops_ok ops t'
  end.

Lemma FifoBuffer_new_ok size : 0 < size < 2 ^ 62 → fifo_ok (FifoBuffer_new size).
Proof. intros Hs. unfold fifo_ok, FifoBuffer_new. cbn. rewrite zlen_fresh. lia. Qed.

Lemma PseudoTcp_new_ok conv : tcp_ok (PseudoTcp_new conv).
Proof.
  assert (Hs : fifo_ok (FifoBuffer_new DEFAULT_SND_BUF_SIZE)) by (by apply FifoBuffer_new_ok).
  assert (Hr : fifo_ok (FifoBuffer_new DEFAULT_RCV_BUF_SIZE)) by (by apply FifoBuffer_new_ok).
  split; try done.
  split; try done. exists [], []. split_and!; try done; constructor.
Qed.

Lemma tcp_step_ok op t : tcp_ok t → op_ok op t →
  ∃ data t', tcp_step op t = Some (data, t') ∧ tcp_ok t' ∧ tcp_edge (m_state t) (m_state t').
Proof.
  intros Hok Hop. destruct op as [|buffer|now|buffer|len|mtu|opt value|force]; cbn [tcp_step op_ok] in *.
  - destruct (Connect_ok t Hok) as (r & t' & -> & []). by exists [], t'.
  - destruct (NotifyPacket_ok buffer t Hok Hop) as (b & t' & -> & (? & ? & _) & _). by exists [], t'.
  - destruct (NotifyClock_ok now t Hok) as (t' & -> & []). by exists [], t'.
  - destruct (Send_ok buffer t Hok Hop) as (r & t' & -> & []). by exists [], t'.
  - destruct (Recv_ok len t Hok Hop) as (r & d & t' & -> & (Hok' & Hs & _) & _). exists d, t'. by rewrite Hs.
  - destruct (NotifyMTU_ok mtu t Hok Hop) as (t' & -> & []). by exists [], t'.
  - destruct (SetOption_ok opt value t Hok Hop) as (t' & -> & Hok' & Ec & _). exists [], t'. by rewrite Ec.
  - exists [], (Close force t). split_and!; [done|by apply Close_ok|by constructor].
Qed.

Lemma tcp_run_ok ops : ∀ t, tcp_ok t → ops_ok ops t →
  ∃ data t', tcp_run ops t = Some (data, t') ∧ tcp_ok t' ∧ rtc tcp_edge (m_state t) (m_state t').
Proof.
  induction ops as [|op ops IH]; intros t Hok Hops; cbn [tcp_run ops_ok] in *; [by exists [], t|].
  destruct Hops as [Hop Hops]. destruct (tcp_step_ok op t Hok Hop) as (d & t1 & E & Hok1 & He).
  rewrite E. destruct (IH t1 Hok1 (Hops d t1 E)) as (d' & t2 & -> & Hok2 & Hr).
  exists (d ++ d'), t2. split_and!; [done..|]. by eapply rtc_l.
Qed.


(** ** The closed connection *)

Lemma process_closed seg t : m_state t = TCP_CLOSED →
  ∃ t', process seg t = Some (false, t') ∧ conn t' = conn t ∧ w_sent t' = w_sent t ∧ w_events t' = w_events t.
Proof.
  intros Hst. unfold process. destruct (negb _); [by exists t|]. unfold Now. cbn [m_state conn set_m_bOutgoing set_m_lasttraffic set_m_lastrecv on_traffic on_world].
  rewrite bool_decide_eq_true_2 by done. by eexists.
Qed.

(** A closed connection stays closed and silent: whatever calls are made, no packet
    is sent, no notification is made, no data is returned, [Connect] fails with EINVAL
    and [Send] and [Recv] with ENOTCONN. *)
Theorem closed_silent op t data t' : m_state t = TCP_CLOSED → tcp_step op t = Some (data, t') →
  m_state t' = TCP_CLOSED ∧ data = [] ∧ w_sent t' = w_sent t ∧ w_events t' = w_events t ∧
  match op with
  | DoConnect => Connect t = Some (-1, t') ∧ GetError t' = EINVAL
  | DoSend buffer => Send buffer t = Some (SOCKET_ERROR, t') ∧ GetError t' = ENOTCONN
  | DoRecv len => Recv len t = Some (SOCKET_ERROR, [], t') ∧ GetError t' = ENOTCONN
  | _ => True
  end.
Proof.
  intros Hst Hstep. destruct op as [|buffer|now|buffer|len|mtu|opt value|force]; cbn [tcp_step] in Hstep.
  - unfold Connect in *. rewrite bool_decide_eq_false_2 in * by congruence. by simplify_eq/=.
  - unfold NotifyPacket, parse in Hstep. repeat case_match; simplify_eq/=; try done.
    all: match goal with E : process ?s ?x = _ |- _ => destruct (process_closed s x Hst) as (t2 & E2 & Ec & Es & Ee) end.
    all: rewrite E2 in *; simplify_eq; by rewrite Ec.
  - unfold NotifyClock in Hstep. rewrite bool_decide_eq_true_2 in Hstep by done. by simplify_eq.
  - unfold Send in *. rewrite bool_decide_eq_false_2 in * by congruence. by simplify_eq/=.
  - unfold Recv in *. rewrite bool_decide_eq_false_2 in * by congruence. by simplify_eq/=.
  - unfold NotifyMTU in Hstep. rewrite bool_decide_eq_false_2 in Hstep by (cbn; congruence). by simplify_eq/=.
  - destruct opt; cbn [SetOption] in Hstep; try by simplify_eq/=.
    unfold resizeReceiveBuffer in Hstep. destruct (scale_down _ _ _) as [[sc n]|]; [|done].
    destruct (shl32 n sc); [|done]. injection Hstep as <- <-. done.
  - by simplify_eq/=.
Qed.

(** ** The stream *)

(** The operations of an application that reads a stream [S] from a genuine peer:
    data packets carry the bytes of their sequence numbers. *)
Definition reading (S : Z → Z) (op : tcp_op) : Prop :=
  match op with
  | DoPacket buffer => has_ctl (segment_of buffer) = false ∧ (24 ≤ zlen buffer ≤ 65535 → genuine S (segment_of buffer))
  | DoOption OPT_RCVBUF _ | DoClose _ => False
  | _ => True
  end.

(** One call returns the next bytes of the stream. *)
Definition reads (S : Z → Z) t (data : list Z) t' : Prop :=
  agrees S t' ∧ m_shutdown t' = SD_NONE ∧ rcv_base t' = rcv_base t + zlen data ∧ m_rcv_nxt t ≤ m_rcv_nxt t' ∧
  data = S <$> seqZ (rcv_base t) (zlen data).

Lemma quiet_reads S t t' : agrees S t → m_shutdown t = SD_NONE → incoming t' = incoming t → m_shutdown t' = m_shutdown t →
  reads S t [] t'.
Proof.
  intros Ha Hsd Hi Hs. unfold reads. rewrite Hi, Hs. change (zlen []) with 0. split_and!; try done; lia.
Qed.

Lemma tcp_step_reads S op t : tcp_ok t → op_ok op t → reading S op → agrees S t → m_shutdown t = SD_NONE →
  ∃ data t', tcp_step op t = Some (data, t') ∧ tcp_ok t' ∧ reads S t data t'.
Proof.
  intros Hok Hop Hrd Ha Hsd. destruct op as [|buffer|now|buffer|len|mtu|opt value|force]; cbn [tcp_step op_ok reading] in *.
  - destruct (Connect_ok t Hok) as (r & t' & -> & []). exists [], t'. split_and!; [done..|by apply quiet_reads].
  - destruct (NotifyPacket_ok buffer t Hok Hop) as (b & t' & -> & (Hok' & _ & Hs & Hr) & Hout). exists [], t'. split_and!; [done..|].
    destruct Hrd as [Hc Hg]. destruct (decide (24 ≤ zlen buffer ≤ 65535)) as [Hl|Hl].
    + destruct (Hr Hc Hsd) as [[_ Hb Hn] Hag]. unfold reads. change (zlen []) with 0. split_and!; [by apply Hag, Hg|congruence| |done|done]. rewrite Hb. lia.
    + rewrite (Hout Hl). by apply quiet_reads.
  - destruct (NotifyClock_ok now t Hok) as (t' & -> & []). exists [], t'. split_and!; [done..|by apply quiet_reads].
  - destruct (Send_ok buffer t Hok Hop) as (r & t' & -> & []). exists [], t'. split_and!; [done..|by apply quiet_reads].
  - destruct (Recv_ok len t Hok Hop) as (r & d & t' & -> & (Hok' & _ & Hs & Hb & Hn & HS) & _). exists d, t'.
    destruct (HS S Ha) as [Ha' Hd]. unfold reads. rewrite Hs, Hn. by split_and!.
  - destruct (NotifyMTU_ok mtu t Hok Hop) as (t' & -> & []). exists [], t'. split_and!; [done..|by apply quiet_reads].
  - destruct (SetOption_ok opt value t Hok Hop) as (t' & -> & Hok' & Ec & Hi). exists [], t'. split_and!; [done..|].
    apply quiet_reads; try done; [apply Hi; by intros ->|by rewrite Ec].
  - done.
Qed.

Lemma tcp_run_reads S ops : ∀ t, tcp_ok t → ops_ok ops t → Forall (reading S) ops → agrees S t → m_shutdown t = SD_NONE →
  ∃ data t', tcp_run ops t = Some (data, t') ∧ tcp_ok t' ∧ reads S t data t'.
Proof.
  induction ops as [|op ops IH]; intros t Hok Hops Hrd Ha Hsd; cbn [tcp_run ops_ok] in *.
  { exists [], t. split_and!; [done..|by apply quiet_reads]. }
  destruct Hops as [Hop Hops]. apply Forall_cons_1 in Hrd as [Hrd Hrds].
  destruct (tcp_step_reads S op t Hok Hop Hrd Ha Hsd) as (d & t1 & E & Hok1 & (Ha1 & Hsd1 & Hb1 & Hn1 & Hd1)).
  rewrite E. destruct (IH t1 Hok1 (Hops d t1 E) Hrds Ha1 Hsd1) as (d' & t2 & -> & Hok2 & (Ha2 & Hsd2 & Hb2 & Hn2 & Hd2)).
  exists (d ++ d'), t2. unfold reads. rewrite zlen_app. pose proof (zlen_nonneg d). pose proof (zlen_nonneg d').
  split_and!; [done..|lia|lia|].
  rewrite seqZ_app, fmap_app, <- Hd1, <- Hb1, <- Hd2 by lia. done.
Qed.

(** The readable bytes are those of the stream as well. *)
Lemma agrees_readable S c : in_ok c → agrees S c →
  fifo_data (m_rbuf c) = S <$> seqZ (rcv_base c) (m_rcv_nxt c - rcv_base c).
Proof.
  intros Hin [Ha _]. pose proof (in_fifo _ Hin) as Hf. pose proof (zlen_fifo_data _ Hf) as Hl.
  pose proof Hf as (_ & _ & _ & Hd).
  apply zget_ext; [rewrite zlen_stream; unfold rcv_base; lia|]. intros i Hi.
  rewrite zget_stream, <- Ha by (unfold rcv_base; lia). unfold slot, fifo_data. rewrite zget_ztake by lia. f_equal. lia.
Qed.

Lemma reads_stream S t d t' : tcp_ok t' → reads S t d t' →
  d ++ fifo_data (m_rbuf t') = S <$> seqZ (rcv_base t) (m_rcv_nxt t' - rcv_base t).
Proof.
  intros Hok (Ha & _ & Hb & Hn & Hd). rewrite (agrees_readable S t') by (done || apply Hok). rewrite Hd at 1.
  rewrite <- fmap_app, Hb, <- seqZ_app.
  - f_equal. f_equal. lia.
  - apply zlen_nonneg.
  - pose proof (in_fifo _ (ok_in _ Hok)) as (_ & _ & _ & ?). unfold rcv_base in *. lia.
Qed.

(** C12. The application reads the stream of its peer: let [S] give the byte of every
    sequence number, and let the data packets that arrive, in any order, repeated,
    overlapping, or beyond the window, carry the bytes of their sequence numbers.  Then
    after any sequence of calls the concatenation of what the [Recv] calls returned,
    followed by what is still readable, is the stream from where the reading began to
    the next expected sequence number: nothing is lost, repeated or reordered. *)
Theorem PseudoTcp_stream_integrity S ops t : tcp_ok t → m_shutdown t = SD_NONE → agrees S t →
  ops_ok ops t → Forall (reading S) ops →
  ∃ data t', tcp_run ops t = Some (data, t') ∧ tcp_ok t' ∧ m_rcv_nxt t ≤ m_rcv_nxt t' ∧
    data ++ fifo_data (m_rbuf t') = S <$> seqZ (rcv_base t) (m_rcv_nxt t' - rcv_base t).
Proof.
  intros Hok Hsd Ha Hops Hrd.
  destruct (tcp_run_reads S ops t Hok Hops Hrd Ha Hsd) as (d & t' & E & Hok' & Hr).
  exists d, t'. split_and!; try done; [apply Hr|]. by apply reads_stream.
Qed.

(** ** From one end to the other *)

(** The operations of an application that writes the stream [S], while the peer
    acknowledges whole segments. *)
Definition sending (S : Z → Z) (op : tcp_op) t : Prop :=
  match op with
  | DoConnect => m_state t ≠ TCP_LISTEN
  | DoPacket buffer => has_ctl (segment_of buffer) = false ∧ aligned t (seg_ack (segment_of buffer))
  | DoSend buffer => writes S buffer t
  | DoOption OPT_SNDBUF _ => False
  | _ => True
  end.
Fixpoint sends_ok (S : Z → Z) (ops : list tcp_op) t : Prop :=
  match ops with
  | [] => True
  | op :: ops => sending S op t ∧ ∀ data t', tcp_step op t = Some (data, t') → sends_ok S ops t'
  end.

Lemma tcp_step_sender S op t data t' : tcp_ok t → op_ok op t → sending S op t → sender S t →
  tcp_step op t = Some (data, t') → sender S t'.
Proof.
  intros Hok Hop Hsd Hsn. destruct op as [|buffer|now|buffer|len|mtu|opt value|force]; cbn [tcp_step op_ok sending] in *.
  - unfold Connect. rewrite bool_decide_eq_false_2 by done. intros [= <- <-]. by apply (sender_same S t).
  - destruct (NotifyPacket buffer t) as [[b t1]|] eqn:E; [|done]. intros [= <- <-].
    apply (NotifyPacket_sender S) in E; (done || apply Hsd).
  - destruct (NotifyClock now t) as [t1|] eqn:E; [|done]. intros [= <- <-]. by apply (NotifyClock_sender S) in E.
  - destruct (Send buffer t) as [[r t1]|] eqn:E; [|done]. intros [= <- <-]. by apply (Send_sender S) in E.
  - destruct (Recv len t) as [[[r d] t1]|] eqn:E; [|done]. intros [= <- <-]. by apply (Recv_sender S) in E.
  - unfold NotifyMTU. destruct (bool_decide _); [|intros [= <- <-]; by apply (sender_same S t)].
    destruct (adjustMTU _) as [t1|] eqn:E; [|done]. intros [= <- <-]. apply adjustMTU_keeps in E as [Eo Ew]. by apply (sender_same S t).
  - destruct opt; cbn [SetOption]; try by (intros [= <- <-]; apply (sender_same S t)).
    unfold resizeReceiveBuffer. destruct (scale_down _ _ _) as [[sc n]|]; [|done]. destruct (shl32 n sc); [|done].
    intros [= <- <-]. by apply (sender_same S t).
  - intros [= <- <-]. by apply (sender_same S t).
Qed.

Lemma tcp_run_sender S ops : ∀ t data t', tcp_ok t → ops_ok ops t → sends_ok S ops t → sender S t →
  tcp_run ops t = Some (data, t') → sender S t'.
Proof.
  induction ops as [|op ops IH]; intros t data t' Hok Hops Hsd Hsn; cbn [tcp_run ops_ok sends_ok] in *; [by intros [= <- <-]|].
  destruct Hops as [Hop Hops]. destruct Hsd as [Hs Hsd].
  destruct (tcp_step_ok op t Hok Hop) as (d & t1 & E & Hok1 & _). rewrite E.
  destruct (tcp_run ops t1) as [[d2 t2]|] eqn:E2; [|done]. intros [= <- <-].
  eapply (IH t1 d2); [done|by eapply Hops|by eapply Hsd| |done]. by eapply (tcp_step_sender S op t).
Qed.

(** The receiver gets packets of the sender only, in any order, each as often as the
    network likes, or not at all. *)
Definition from (packets : list (list Z)) (op : tcp_op) : Prop :=
  match op with
  | DoPacket buffer => buffer ∈ packets ∧ has_ctl (segment_of buffer) = false
  | DoOption OPT_RCVBUF _ | DoClose _ => False
  | _ => True
  end.


End Run.

(** ** A sample connection *)

Section Decide.
Context `{Platform} `{TcpEnv}.
Implicit Types t : PseudoTcp.

Definition packet_okb (buffer : list Z) t : bool :=
  let seg := segment_of buffer in
  forallb (λ b, (0 <=? b) && (b <? 256)) buffer &&
  ((zlen buffer <? 12) || (65535 <? zlen buffer) ||
   (24 <=? zlen buffer) && (seg_seq seg + seg_len seg <? 4294967296) &&
   (negb (has_ctl seg) ||
    bool_decide (m_rlist t = []) &&
    match parseOptions (zdrop 25 buffer) t with Some t' => m_swnd_scale t' <? 32 | None => true end)).
Definition op_okb (op : tcp_op) t : bool :=
  match op with
  | DoConnect | DoClose _ | DoClock _ => true
  | DoPacket buffer => packet_okb buffer t
  | DoSend buffer => m_snd_una t + data_length_ (m_sbuf t) + zlen buffer <? 4294967296
  | DoRecv len => 0 <=? len
  | DoMTU mtu => (116 <? mtu) && (mtu <=? 65535)
  | DoOption OPT_SNDBUF value => (0 <? value) && (value <? 2147483648)
  | DoOption OPT_RCVBUF value => (0 <? value) && (value <? 2147483648) && bool_decide (m_rlist t = [])
  | DoOption _ _ => true
  end.
Fixpoint ops_okb (ops : list tcp_op) t : bool :=
  match ops with
  | [] => true
  | op :: ops => op_okb op t && match tcp_step op t with Some (_, t') => ops_okb ops t' | None => false end
  end.

Lemma packet_okb_sound buffer t : packet_okb buffer t = true → packet_ok buffer t.
Proof.
  unfold packet_okb. intros Hp. apply andb_true_iff in Hp as [Hb Hp]. split; [by apply bytes_okb|].
  apply orb_true_iff in Hp as [Hp|Hp]; [apply orb_true_iff in Hp as [Hp|Hp]; [left|right; left]; lia|]. right. right.
  apply andb_true_iff in Hp as [Hp Hc]. split; [lia|]. split; [lia|]. intros Hctl. rewrite Hctl in Hc. cbn [negb orb] in Hc.
  apply andb_true_iff in Hc as [Hr Hc]. apply bool_decide_eq_true in Hr. intros t' E. rewrite E in Hc. split; [lia|by right].
Qed.

Lemma op_okb_sound op t : op_okb op t = true → op_ok op t.
Proof.
  destruct op as [|buffer|now|buffer|len|mtu|opt value|force]; cbn [op_okb op_ok]; intros Hop; try done; try lia.
  - by apply packet_okb_sound.
  - destruct opt; cbn [option_ok]; try done; [|lia].
    apply andb_true_iff in Hop as [Hv Hr]. apply bool_decide_eq_true in Hr. split; [lia|done].
Qed.

Lemma ops_okb_sound ops : ∀ t, ops_okb ops t = true → ops_ok ops t.
Proof.
  induction ops as [|op ops IH]; intros t Hops; [done|]. cbn [ops_okb ops_ok] in *.
  apply andb_true_iff in Hops as [Hop Hops]. split; [by apply op_okb_sound|]. intros data t' E. rewrite E in Hops. by apply IH.
Qed.
End Decide.

#[local] Existing Instance zero_platform.
#[local] Existing Instance sample_env.

(** The packets of a client with conversation 7 and small buffers. *)
Definition sample_packet (flags seq : Z) (data : list Z) : list Z :=
  be_encode 4 7 ++ be_encode 4 seq ++ be_encode 4 (if flags =? 0 then 4 else 0) ++ [0; flags] ++ be_encode 2 64 ++
  be_encode 4 1002 ++ be_encode 4 0 ++ data.
Definition sample_connect : list tcp_op :=
  [DoOption OPT_SNDBUF 64; DoOption OPT_RCVBUF 64; DoPacket (sample_packet FLAG_CTL 0 [CTL_CONNECT; TCP_OPT_WND_SCALE; 1; 0])].
(** The second segment arrives first, and the first one twice. *)
Definition sample_reads : list tcp_op :=
  [DoPacket (sample_packet 0 7 [44; 55]); DoPacket (sample_packet 0 4 [11; 22; 33]); DoRecv 4;
   DoPacket (sample_packet 0 4 [11; 22; 33]); DoClock 1200; DoSend [1; 2; 3]; DoRecv 10].


Definition sample_open : PseudoTcp := default (PseudoTcp_new 7) (snd <$> tcp_run sample_connect (PseudoTcp_new 7)).
Definition sample_stream (q : Z) : Z := zget q [0; 3; 1; 0; 11; 22; 33; 44; 55].

Lemma sample_open_ok : tcp_ok sample_open.
Proof.
  destruct (tcp_run_ok sample_connect (PseudoTcp_new 7) (PseudoTcp_new_ok 7)) as (d & t & E & Hok & _);
    [apply ops_okb_sound; vm_compute; reflexivity|].
  unfold sample_open. by rewrite E.
Qed.

Lemma agrees_empty S c : data_length_ (m_rbuf c) = 0 → m_rlist c = [] → agrees S c.
Proof.
  intros Hd Hr. split; [intros q Hq; unfold rcv_base in Hq; lia|]. rewrite Hr. intros r q Hin. by apply elem_of_nil in Hin.
Qed.

Lemma genuine_check S seg : seg_len seg = zlen (seg_data seg) →
  seg_data seg = S <$> seqZ (seg_seq seg) (seg_len seg) → genuine S seg.
Proof.
  intros Hl Hd. pose proof (zlen_nonneg (seg_data seg)). split; [lia|]. intros i Hi. rewrite Hd. by apply zget_stream.
Qed.

Lemma PseudoTcp_stream_integrity_witness :
  ∃ data t', tcp_run sample_reads sample_open = Some (data, t') ∧ tcp_ok t' ∧ m_rcv_nxt sample_open ≤ m_rcv_nxt t' ∧
    data ++ fifo_data (m_rbuf t') = sample_stream <$> seqZ (rcv_base sample_open) (m_rcv_nxt t' - rcv_base sample_open).
Proof.
  apply (PseudoTcp_stream_integrity sample_stream sample_reads sample_open).
  - exact sample_open_ok.
  - vm_compute. reflexivity.
  - apply agrees_empty; vm_compute; reflexivity.
  - apply ops_okb_sound. vm_compute. reflexivity.
  - repeat (apply Forall_cons; split; [first [exact I|split; [vm_compute; reflexivity|intros _; apply genuine_check; vm_compute; reflexivity]]|]).
    by apply Forall_nil.
Defined.

(** The bytes that the application of the sample reads. *)
Example sample_reads_data : fst <$> tcp_run sample_reads sample_open = Some [11; 22; 33; 44; 55].
Proof. vm_compute. reflexivity. Qed.

Definition sample_closed : PseudoTcp :=
  closedown ECONNRESET (set_m_rbuf (FifoBuffer_new 4) (set_m_sbuf (FifoBuffer_new 4) (PseudoTcp_new 7))).
Definition sample_refused : PseudoTcp := set_m_error ENOTCONN sample_closed.

Lemma closed_silent_witness :
  m_state sample_refused = TCP_CLOSED ∧ @nil Z = [] ∧ w_sent sample_refused = w_sent sample_closed ∧
  w_events sample_refused = w_events sample_closed ∧
  (Send [1; 2] sample_closed = Some (SOCKET_ERROR, sample_refused) ∧ GetError sample_refused = ENOTCONN).
Proof. apply (closed_silent (DoSend [1; 2]) sample_closed [] sample_refused); vm_compute; reflexivity. Defined.

(** ** A partial acknowledgement *)

(** The acknowledgement of one of the three bytes that were sent. *)
Definition sample_partial : list tcp_op :=
  [DoOption OPT_SNDBUF 64; DoOption OPT_RCVBUF 64; DoConnect;
   DoPacket (header 7 0 4 FLAG_CTL 64 1002 0 ++ [CTL_CONNECT; TCP_OPT_WND_SCALE; 1; 0]);
   DoSend [11; 22; 33]; DoPacket (header 7 4 5 0 64 1002 0); DoClock 60000].

(** Memory that is not initialised holds 170. *)
Program Definition dirty_platform : Platform := {| host_big_endian := false; uninit _ := 170 |}.
Next Obligation. intros i. unfold is_u8. lia. Qed.

(** An acknowledgement of a part of the first segment shortens the segment without
    moving its sequence number.  When the rest of the segment is sent again, its offset
    in the send buffer is negative, nothing is read from the buffer, and the packet
    carries uninitialised memory: here the peer acknowledged the byte 4 of the bytes 4
    to 6, and the bytes 4 and 5 are sent again with the value 170, although the buffer
    holds 22 and 33 for the bytes 5 and 6. *)
Theorem partial_ack_sends_garbage :
  @ops_okb dirty_platform sample_env sample_partial (@PseudoTcp_new dirty_platform sample_env 7) = true ∧
  match @tcp_run dirty_platform sample_env sample_partial (@PseudoTcp_new dirty_platform sample_env 7) with
  | Some (_, t) =>
      m_snd_una t = 5 ∧ fifo_data (m_sbuf t) = [22; 33] ∧ m_state t = TCP_ESTABLISHED ∧
      last (w_sent t) = Some (header 7 4 4 0 64 1010 1002 ++ [170; 170])
  | None => False
  end.
Proof. vm_compute. repeat split. Qed.

(** ** A sample of both ends *)

Section DecideSends.
Context `{Platform} `{TcpEnv}.
Implicit Types t : PseudoTcp.

Definition alignedb (o : Outgoing) (ack : Z) : bool :=
  negb ((m_snd_una o <? ack) && (ack <=? m_snd_nxt o)) ||
  existsb (λ k, ack =? m_snd_una o + sum_len (take k (m_slist o))) (seq 0 (S (length (m_slist o)))).
Definition sendingb (S : Z → Z) (op : tcp_op) t : bool :=
  match op with
  | DoConnect => negb (bool_decide (m_state t = TCP_LISTEN))
  | DoPacket buffer => negb (has_ctl (segment_of buffer)) && alignedb t (seg_ack (segment_of buffer))
  | DoSend buffer =>
      forallb (λ i, zget i buffer =? S (m_snd_una t + data_length_ (m_sbuf t) + i))
        (seqZ 0 (Z.min (zlen buffer) (buffer_length_ (m_sbuf t) - data_length_ (m_sbuf t))))
  | DoOption OPT_SNDBUF _ => false
  | _ => true
  end.
Fixpoint sends_okb (S : Z → Z) (ops : list tcp_op) t : bool :=
  match ops with
  | [] => true
  | op :: ops => sendingb S op t && match tcp_step op t with Some (_, t') => sends_okb S ops t' | None => false end
  end.

Lemma alignedb_sound o ack : alignedb o ack = true → aligned o ack.
Proof.
  unfold alignedb. intros Hal Hack. apply orb_true_iff in Hal as [Hal|Hal]; [apply negb_true_iff, andb_false_iff in Hal; lia|].
  apply existsb_exists in Hal as (k & _ & E). exists (take k (m_slist o)), (drop k (m_slist o)).
  rewrite take_drop. split; [done|lia].
Qed.

Lemma sendingb_sound S op t : sendingb S op t = true → sending S op t.
Proof.
  destruct op as [|buffer|now|buffer|len|mtu|opt value|force]; cbn [sendingb sending]; intros Hs; try done.
  - by apply negb_true_iff, bool_decide_eq_false in Hs.
  - apply andb_true_iff in Hs as [Hc Hal]. split; [by apply negb_true_iff|by apply alignedb_sound].
  - intros i Hi. rewrite forallb_forall in Hs. specialize (Hs i). rewrite Z.eqb_eq in Hs. apply Hs.
    apply list_elem_of_In, elem_of_seqZ. lia.
  - by destruct opt.
Qed.

Lemma sends_okb_sound S ops : ∀ t, sends_okb S ops t = true → sends_ok S ops t.
Proof.
  induction ops as [|op ops IH]; intros t Hops; [done|]. cbn [sends_okb sends_ok] in *.
  apply andb_true_iff in Hops as [Hop Hops]. split; [by apply sendingb_sound|]. intros data t' E. rewrite E in Hops. by apply IH.
Qed.
End DecideSends.

(** The client after the reply to its connect message; it sends two segments, and the
    first is acknowledged. *)
Definition sample_client_connect : list tcp_op :=
  [DoOption OPT_SNDBUF 64; DoOption OPT_RCVBUF 64; DoOption OPT_NODELAY 1; DoConnect;
   DoPacket (header 7 0 4 FLAG_CTL 64 1002 0 ++ [CTL_CONNECT; TCP_OPT_WND_SCALE; 1; 0])].
Definition sample_client : PseudoTcp := default (PseudoTcp_new 7) (snd <$> tcp_run sample_client_connect (PseudoTcp_new 7)).
Definition sample_writes : list tcp_op :=
  [DoSend [11; 22; 33]; DoSend [44; 55]; DoPacket (header 7 4 7 0 64 1002 0); DoClock 60000].
(** The retransmission of the second segment arrives before the first. *)
Definition sample_listens : list tcp_op :=
  [DoPacket (header 7 7 4 0 64 1012 1002 ++ [44; 55]); DoPacket (header 7 4 4 0 64 1007 1002 ++ [11; 22; 33]); DoRecv 3;
   DoPacket (header 7 7 4 0 64 1009 1002 ++ [44; 55]); DoRecv 10].

Lemma sample_client_ok : tcp_ok sample_client.
Proof.
  destruct (tcp_run_ok sample_client_connect (PseudoTcp_new 7) (PseudoTcp_new_ok 7)) as (d & t & E & Hok & _);
    [apply ops_okb_sound; vm_compute; reflexivity|].
  unfold sample_client. by rewrite E.
Qed.

Lemma sample_client_sender : sender sample_stream sample_client.
Proof.
  split.
  - replace (m_slist sample_client) with (@nil SSegment) by (vm_compute; reflexivity). done.
  - intros i. replace (data_length_ (m_sbuf sample_client)) with 0 by (vm_compute; reflexivity). lia.
  - replace (w_sent sample_client) with [header 7 0 0 FLAG_CTL 64 1002 0 ++ [0; 3; 1; 0]] by (vm_compute; reflexivity).
    apply Forall_singleton. split; [vm_compute; congruence|]. apply genuine_check; vm_compute; reflexivity.
Qed.

Definition sent_by (r : option (list Z * PseudoTcp)) : list (list Z) := match r with Some (_, t) => w_sent t | None => [] end.

