(* ===== verification/PseudoTcpLive.v ===== *)
(** * Pseudo-TCP: unanswered connections are given up

    Every expiry of the retransmission timer sends the first segment again, and after
    fifteen transmissions the connection is closed. *)

From S2P Require Import Prelude ByteOrder ByteBuffer FifoBuffer TimeUtils PseudoTcp PseudoTcpSafe PseudoTcpRecv PseudoTcpApi PseudoTcpRun.

#[local] Open Scope tcp_scope.

Section Live.
Context `{Platform} `{TcpEnv}.
Implicit Types t : PseudoTcp.

(** The retransmission timer has expired at [now]. *)
Definition expired (now : Z) t : Prop :=
  m_rto_base t ≠ 0 ∧ TimeDiff (u32 (m_rto_base t + m_rx_rto t)) now ≤ 0.

(** Calls of [NotifyClock] with nothing received in between. *)
Fixpoint clocks (nows : list Z) t : option PseudoTcp :=
  match nows with
  | [] => Some t
  | now :: nows => let* t := NotifyClock now t in clocks nows t
  end.
(** Each call but those after the connection closed finds the timer expired. *)
Fixpoint expiries (nows : list Z) t : Prop :=
  match nows with
  | [] => True
  | now :: nows => (m_state t = TCP_CLOSED ∨ expired now t) ∧ ∀ t', NotifyClock now t = Some t' → expiries nows t'
  end.

Definition aborted t : Prop := m_state t = TCP_CLOSED ∧ OnTcpClosed ECONNABORTED ∈ w_events t.
Definition front_xmit t : Z := match m_slist t with [] => 0 | s :: _ => ss_xmit s end.

Lemma closedown_aborted t : aborted (closedown ECONNABORTED t).
Proof. split; [done|]. cbn. apply elem_of_app. right. by apply list_elem_of_singleton. Qed.

Lemma retransmit_round now t : tcp_ok t → m_state t = TCP_ESTABLISHED → expired now t →
  ∃ b t', clock_retransmit now t = Some (b, t') ∧ tcp_ok t' ∧
    if b then m_state t' = TCP_ESTABLISHED ∧ front_xmit t < 15 ∧ front_xmit t' = front_xmit t + 1 else aborted t'.
Proof.
  intros Hok Hst [Hb Hd]. destruct (clock_retransmit_ok now t Hok) as (b & t' & E & [Hok' _ _ _] & Hs); [congruence|].
  exists b, t'. split; [done|]. split; [done|]. revert E. unfold clock_retransmit.
  destruct (Z.eqb_spec (m_rto_base t) 0); [done|]. destruct (Z.leb_spec (TimeDiff (u32 (m_rto_base t + m_rx_rto t)) now) 0); [|lia].
  cbn [negb andb]. pose proof (out_timer _ (ok_out _ Hok) Hb) as Hne.
  pose proof (ok_out _ Hok) as [Hf _ _ _ _ (sent & unsent & Hsl & Hsent & _ & _ & Hnxt & _) _].
  destruct sent as [|seg sent]; [cbn in Hnxt; lia|]. apply Forall_inv in Hsent as (Hx & Hl & _).
  destruct (transmit_spec 0 now t seg) as (ok & t1 & E1 & Hfr & Ho1); [by rewrite Hsl|done|lia|apply Hok|done|].
  unfold front_xmit. rewrite E1, Hsl. cbn [app]. destruct ok; cbn [negb].
  2:{ intros [= <- <-]. apply closedown_aborted. }
  intros [= <- <-]. split; [rewrite <- Hst; by apply Hs|].
  destruct Ho1 as (k & _ & _ & Eo). revert E1. unfold transmit. rewrite Hsl. cbn [lookup list_lookup app].
  rewrite bool_decide_eq_true_2 by done. destruct (Z.leb_spec 15 (ss_xmit seg)); [done|]. intros _. split; [done|].
  cbn [m_slist outgoing set_m_rto_base set_m_rx_rto set_m_cwnd set_m_ssthresh on_outgoing on_rtt on_congestion]. by rewrite Eo.
Qed.

Lemma ack_packet_keeps seq flags t r t' : tcp_ok t → packet seq flags 0 0 t = Some (r, t') →
  tcp_ok t' ∧ conn t' = conn t ∧ outgoing t' = outgoing t.
Proof.
  intros Hok E. destruct (ack_packet_ok seq flags t Hok) as (r1 & t1 & E1 & Hok1 & Hf & _).
  destruct (packet_safe seq flags 0 0 t) as (r2 & t2 & E2 & _ & Eo & _); [lia|apply Hok|lia|].
  simplify_eq. split_and!; try done. apply Hf.
Qed.

Lemma clock_round now t : tcp_ok t → m_state t = TCP_ESTABLISHED → expired now t →
  ∃ t', NotifyClock now t = Some t' ∧ tcp_ok t' ∧
    (aborted t' ∨ m_state t' = TCP_ESTABLISHED ∧ front_xmit t < 15 ∧ front_xmit t' = front_xmit t + 1).
Proof.
  intros Hok Hst Hex. destruct (NotifyClock_ok now t Hok) as (t' & E & [Hok' _ _ _]). exists t'. split; [done|]. split; [done|].
  revert E. unfold NotifyClock. rewrite bool_decide_eq_false_2 by congruence.
  destruct (retransmit_round now t Hok Hst Hex) as (b & t1 & -> & Hok1 & Hb).
  destruct b; cbn [negb]; [|intros [= <-]; by left]. destruct Hb as (Hst1 & Hx & Hx1). unfold clock_probe.
  assert (Hlast : ∀ t2, tcp_ok t2 → conn t2 = conn t1 → outgoing t2 = outgoing t1 →
    (if negb (m_t_ack t2 =? 0) && (TimeDiff (u32 (m_t_ack t2 + m_ack_delay t2)) now <=? 0)
     then snd <$> packet (m_snd_nxt t2) 0 0 0 t2 else Some t2) = Some t' →
    m_state t' = TCP_ESTABLISHED ∧ front_xmit t < 15 ∧ front_xmit t' = front_xmit t + 1).
  { intros t2 Hok2 Ec Eo. unfold front_xmit in *. destruct (_ && _); [|intros [= <-]; by rewrite Ec, Eo].
    destruct (packet _ _ _ _ t2) as [[r t3]|] eqn:E3; [|done]. apply ack_packet_keeps in E3 as (_ & Ec3 & Eo3); [|done].
    intros [= <-]. cbn [snd]. by rewrite Ec3, Eo3, Ec, Eo. }
  destruct (_ && _); [|intros E; right; by apply (Hlast t1)].
  destruct (15000 <=? _); [intros [= <-]; left; apply closedown_aborted|].
  destruct (packet _ _ _ _ t1) as [[r t3]|] eqn:E3; [|done]. apply ack_packet_keeps in E3 as (Hok3 & Ec3 & Eo3); [|done].
  cbn [negb]. intros E. right. refine (Hlast _ _ _ _ E); [|done..].
  destruct Hok3 as [? ? ? (Hr1 & Hr2 & Hr3) ? ? ?]. split; try done. refine (conj _ (conj Hr2 Hr3)). by apply double_rto.
Qed.

Lemma clocks_aborted nows : ∀ t, aborted t → clocks nows t = Some t.
Proof.
  induction nows as [|now nows IH]; intros t Ha; [done|]. cbn [clocks]. unfold NotifyClock.
  rewrite bool_decide_eq_true_2 by apply Ha. by apply IH.
Qed.

Lemma clocks_abort nows : ∀ t, tcp_ok t → m_state t = TCP_ESTABLISHED → expiries nows t →
  1 ≤ zlen nows → 16 - front_xmit t ≤ zlen nows → ∃ t', clocks nows t = Some t' ∧ aborted t'.
Proof.
  induction nows as [|now nows IH]; intros t Hok Hst Hex Hpos Hlen; [change (zlen []) with 0 in Hpos; lia|].
  destruct Hex as [[?|Hex] Hexs]; [congruence|]. rewrite zlen_cons in Hlen. cbn [clocks].
  destruct (clock_round now t Hok Hst Hex) as (t1 & E & Hok1 & Hc). rewrite E.
  destruct Hc as [Ha|(Hst1 & Hx & Hx1)]; [exists t1; by rewrite clocks_aborted|].
  apply IH; try done; [by apply Hexs|lia..].
Qed.

(** The first segment was sent when the timer runs. *)
Lemma front_sent t : tcp_ok t → m_rto_base t ≠ 0 → 1 ≤ front_xmit t.
Proof.
  intros Hok Hb. pose proof (out_timer _ (ok_out _ Hok) Hb) as Hne.
  pose proof (ok_out _ Hok) as [_ _ _ _ _ (sent & unsent & Hsl & Hsent & _ & _ & Hnxt & _) _].
  destruct sent as [|seg sent]; [cbn in Hnxt; lia|]. apply Forall_inv in Hsent as (Hx & _).
  unfold front_xmit. rewrite Hsl. cbn [app]. lia.
Qed.

(** C35. A connection whose peer does not answer is given up: when the retransmission
    timer of an established connection expires fifteen times with nothing received in
    between, the connection is closed and the application is told that it was aborted. *)
Theorem unanswered_aborts nows t : tcp_ok t → m_state t = TCP_ESTABLISHED → expiries nows t → 15 ≤ zlen nows →
  ∃ t', clocks nows t = Some t' ∧ m_state t' = TCP_CLOSED ∧ OnTcpClosed ECONNABORTED ∈ w_events t'.
Proof.
  intros Hok Hst Hex Hlen. apply clocks_abort; try done; [lia|].
  destruct nows as [|now nows]; [change (zlen []) with 0 in Hlen; lia|]. destruct Hex as [[?|[Hb _]] _]; [congruence|].
  pose proof (front_sent t Hok Hb). lia.
Qed.

(** The expiries are decided by running the clock. *)
Fixpoint expiriesb (nows : list Z) t : bool :=
  match nows with
  | [] => true
  | now :: nows =>
      (bool_decide (m_state t = TCP_CLOSED) ||
       negb (m_rto_base t =? 0) && (TimeDiff (u32 (m_rto_base t + m_rx_rto t)) now <=? 0)) &&
      match NotifyClock now t with Some t' => expiriesb nows t' | None => true end
  end.
Lemma expiriesb_sound nows : ∀ t, expiriesb nows t = true → expiries nows t.
Proof.
  induction nows as [|now nows IH]; intros t He; [done|]. cbn [expiriesb expiries] in *. apply andb_true_iff in He as [He Hn].
  split; [|intros t' E; rewrite E in Hn; by apply IH].
  apply orb_true_iff in He as [He|He]; [left; by apply bool_decide_eq_true in He|right]. unfold expired.
  apply andb_true_iff in He as [He1 He2]. apply negb_true_iff in He1. lia.
Qed.
End Live.

#[local] Existing Instance zero_platform.
#[local] Existing Instance sample_env.

(** The sample client has sent three bytes. *)
Definition sample_waiting : PseudoTcp := default sample_client (snd <$> tcp_run [DoSend [11; 22; 33]] sample_client).
Definition sample_clock : list Z := (λ k, 70000 * k) <$> seqZ 1 15.

Lemma sample_waiting_ok : tcp_ok sample_waiting.
Proof.
  destruct (tcp_run_ok [DoSend [11; 22; 33]] sample_client sample_client_ok) as (d & t & E & Hok & _);
    [apply ops_okb_sound; vm_compute; reflexivity|].
  unfold sample_waiting. by rewrite E.
Qed.

Lemma unanswered_aborts_witness :
  ∃ t', clocks sample_clock sample_waiting = Some t' ∧ m_state t' = TCP_CLOSED ∧ OnTcpClosed ECONNABORTED ∈ w_events t'.
Proof.
  apply (unanswered_aborts sample_clock sample_waiting).
  - exact sample_waiting_ok.
  - vm_compute. reflexivity.
  - apply expiriesb_sound. vm_compute. reflexivity.
  - vm_compute. congruence.
Defined.
