(* ===== verification/MessageQueue.v ===== *)
(** * Message queues

    The queue of a thread, from webrtc/base/messagequeue.h and messagequeue.cc: posted
    messages in their order, delayed messages by their trigger times, and [Get], which
    waits for the next one.

    Handlers and message data are pointers, here numbers with 0 for NULL.  The clock is
    an argument of the operations that read it.  Waiting is the work of the socket
    server: a [Round] says what its [Wait] returned, which calls other threads or I/O
    handlers made meanwhile (those they make while [Get] looks at the queue count for the
    wait after it), and the time after it.  [std::priority_queue] is a list
    that is kept in its order, the top first. *)

From S2P Require Import Prelude TimeUtils.

Definition kForever : Z := -1.
Definition kMaxMsgLatency : Z := 150.
Definition MQID_ANY : Z := 4294967295.
Definition MQID_DISPOSE : Z := 4294967294.

Record Message := mkMsg { phandler : Z; message_id : Z; pdata : Z; ts_sensitive : Z }.
#[export] Instance Message_eq_dec : EqDecision Message.
Proof. solve_decision. Defined.

Definition Match (m : Message) (handler id : Z) : bool :=
  ((handler =? 0) || (handler =? phandler m)) && ((id =? MQID_ANY) || (id =? message_id m)).

Record DelayedMessage := mkDelayed { cmsDelay_ : Z; msTrigger_ : Z; num_ : Z; msg_ : Message }.

(** [a] is of lower priority than [b]. *)
Definition dmsg_lt (a b : DelayedMessage) : bool :=
  (msTrigger_ b <? msTrigger_ a) || (msTrigger_ b =? msTrigger_ a) && (num_ b <? num_ a).

(** Pushing to the priority queue: before the first element of lower priority. *)
Fixpoint push (d : DelayedMessage) (l : list DelayedMessage) : list DelayedMessage :=
  match l with
  | [] => [d]
  | x :: l' => if dmsg_lt x d then d :: l else x :: push d l'
  end.

Record MessageQueue := mkQueue {
  fStop_ : bool;
  msgPeek_ : option Message;          (* with fPeekKeep_ *)
  msgq_ : list Message;
  dmsgq_ : list DelayedMessage;
  dmsgq_next_num_ : Z;
  deleted : list Z                    (* the message data that were deleted *)
}.

Definition MessageQueue_new : MessageQueue := mkQueue false None [] [] 0 [].
Definition set_fStop (b : bool) (q : MessageQueue) : MessageQueue :=
  mkQueue b (msgPeek_ q) (msgq_ q) (dmsgq_ q) (dmsgq_next_num_ q) (deleted q).
Definition set_msgPeek (p : option Message) (q : MessageQueue) : MessageQueue :=
  mkQueue (fStop_ q) p (msgq_ q) (dmsgq_ q) (dmsgq_next_num_ q) (deleted q).

Definition Quit (q : MessageQueue) : MessageQueue := set_fStop true q.
Definition IsQuitting (q : MessageQueue) : bool := fStop_ q.
Definition Restart (q : MessageQueue) : MessageQueue := set_fStop false q.

Definition Post (handler id data : Z) (time_sensitive : bool) (now : Z) (q : MessageQueue) : MessageQueue :=
  if fStop_ q then q
  else
    let msg := mkMsg handler id data (if time_sensitive then u32 (now + kMaxMsgLatency) else 0) in
    mkQueue (fStop_ q) (msgPeek_ q) (msgq_ q ++ [msg]) (dmsgq_ q) (dmsgq_next_num_ q) (deleted q).

Definition DoDelayPost (cmsDelay tstamp handler id data : Z) (q : MessageQueue) : MessageQueue :=
  if fStop_ q then q
  else
    let dmsg := mkDelayed cmsDelay tstamp (dmsgq_next_num_ q) (mkMsg handler id data 0) in
    mkQueue (fStop_ q) (msgPeek_ q) (msgq_ q) (push dmsg (dmsgq_ q)) (u32 (dmsgq_next_num_ q + 1)) (deleted q).
Definition PostDelayed (cmsDelay handler id data now : Z) (q : MessageQueue) : MessageQueue :=
  DoDelayPost cmsDelay (u32 (now + cmsDelay)) handler id data q.
Definition PostAt (tstamp handler id data now : Z) (q : MessageQueue) : MessageQueue :=
  DoDelayPost (TimeDiff tstamp now) tstamp handler id data q.
Definition Dispose (doomed disposer now : Z) (q : MessageQueue) : MessageQueue :=
  if negb (doomed =? 0) then Post 0 MQID_DISPOSE disposer false now q else q.

Definition GetDelay (now : Z) (q : MessageQueue) : Z :=
  match msgq_ q with
  | _ :: _ => 0
  | [] =>
      match dmsgq_ q with
      | d :: _ => let delay := TimeDiff (msTrigger_ d) now in if delay <? 0 then 0 else delay
      | [] => kForever
      end
  end.

(** The queue without the messages that match; they are returned when [removed] is
    given, and their data deleted otherwise.  The source walks the delayed messages in
    the order of the heap's container, which the C++ library chooses; here they go in
    the order of their times, and the theorems hold up to the order of what is deleted. *)
Definition MessageQueue_Clear (handler id : Z) (removed : bool) (q : MessageQueue) : list Message * MessageQueue :=
  let hit m := Match m handler id in
  let peeked := match msgPeek_ q with Some m => if hit m then [m] else [] | None => [] end in
  let gone := peeked ++ List.filter hit (msgq_ q) ++ (msg_ <$> List.filter (λ d, hit (msg_ d)) (dmsgq_ q)) in
  let q' := mkQueue (fStop_ q) (match msgPeek_ q with Some m => if hit m then None else Some m | None => None end)
              (List.filter (λ m, negb (hit m)) (msgq_ q)) (List.filter (λ d, negb (hit (msg_ d))) (dmsgq_ q))
              (dmsgq_next_num_ q) (if removed then deleted q else deleted q ++ (pdata <$> gone)) in
  (if removed then gone else [], q').

(** What the destructor of a MessageHandler does to the queue of its thread. *)
Definition clear_handler (a : Z) (q : MessageQueue) : MessageQueue := (MessageQueue_Clear a MQID_ANY false q).2.

Definition mq_size (q : MessageQueue) : Z :=
  zlen (msgq_ q) + zlen (dmsgq_ q) + match msgPeek_ q with Some _ => 1 | None => 0 end.
Definition mq_empty (q : MessageQueue) : bool := mq_size q =? 0.

(** ** Getting a message *)

(** Moves the delayed messages that were triggered; the first result is cmsDelayNext. *)
Fixpoint trigger_loop (msCurrent : Z) (dq : list DelayedMessage) (mq : list Message)
    : Z * list DelayedMessage * list Message :=
  match dq with
  | [] => (kForever, [], mq)
  | d :: dq' =>
      if TimeIsLater msCurrent (msTrigger_ d) then (TimeDiff (msTrigger_ d) msCurrent, dq, mq)
      else trigger_loop msCurrent dq' (mq ++ [msg_ d])
  end.

(** Takes the first message, deleting what is to be disposed of. *)
Fixpoint pull_loop (mq : list Message) (del : list Z) : option Message * list Message * list Z :=
  match mq with
  | [] => (None, [], del)
  | m :: mq => if message_id m =? MQID_DISPOSE then pull_loop mq (del ++ [pdata m]) else (Some m, mq, del)
  end.

Definition get_pass (msCurrent : Z) (q : MessageQueue) : option Message * Z * MessageQueue :=
  let '(cmsDelayNext, dq, mq) := trigger_loop msCurrent (dmsgq_ q) (msgq_ q) in
  let '(r, mq, del) := pull_loop mq (deleted q) in
  (r, cmsDelayNext, mkQueue (fStop_ q) (msgPeek_ q) mq dq (dmsgq_next_num_ q) del).

(** Calls by other threads and by I/O handlers. *)
Inductive mq_call :=
  | CPost (handler id data : Z) (time_sensitive : bool) (now : Z)
  | CPostDelayed (cmsDelay handler id data now : Z)
  | CPostAt (tstamp handler id data now : Z)
  | CClear (handler id : Z)
  | CQuit
  | CRestart.
Definition mq_apply (q : MessageQueue) (c : mq_call) : MessageQueue :=
  match c with
  | CPost h id data ts now => Post h id data ts now q
  | CPostDelayed cms h id data now => PostDelayed cms h id data now q
  | CPostAt tstamp h id data now => PostAt tstamp h id data now q
  | CClear h id => (MessageQueue_Clear h id false q).2
  | CQuit => Quit q
  | CRestart => Restart q
  end.
Record Round := mkRound { wait_ok : bool; wait_calls : list mq_call; wait_time : Z }.

(** How long [Get] asks the socket server to wait. *)
Definition next_wait (cmsWait cmsElapsed cmsDelayNext : Z) : Z :=
  if cmsWait =? kForever then cmsDelayNext
  else
    let cmsNext := Z.max 0 (cmsWait - cmsElapsed) in
    if negb (cmsDelayNext =? kForever) && (cmsDelayNext <? cmsNext) then cmsDelayNext else cmsNext.

(** The loop of [Get]: the message, or [None] when it returns false; and the waits it
    asked for.  No result when the rounds are used up, and it still waits. *)
Fixpoint get_loop (cmsWait msStart msCurrent cmsElapsed : Z) (rounds : list Round) (q : MessageQueue)
    : option (option Message * list Z * MessageQueue) :=
  let '(r, cmsDelayNext, q) := get_pass msCurrent q in
  match r with
  | Some m => Some (Some m, [], q)
  | None =>
      if fStop_ q then Some (None, [], q)
      else
        let cmsNext := next_wait cmsWait cmsElapsed cmsDelayNext in
        match rounds with
        | [] => None
        | rd :: rounds =>
            let q := fold_left mq_apply (wait_calls rd) q in
            if negb (wait_ok rd) then Some (None, [cmsNext], q)
            else
              let msCurrent := wait_time rd in
              let cmsElapsed := TimeDiff msCurrent msStart in
              if negb (cmsWait =? kForever) && (cmsWait <=? cmsElapsed) then Some (None, [cmsNext], q)
              else
                match get_loop cmsWait msStart msCurrent cmsElapsed rounds q with
                | Some (r, waits, q) => Some (r, cmsNext :: waits, q)
                | None => None
                end
        end
  end.
Definition Get (cmsWait now : Z) (rounds : list Round) (q : MessageQueue)
    : option (option Message * list Z * MessageQueue) :=
  match msgPeek_ q with
  | Some m => Some (Some m, [], set_msgPeek None q)
  | None => get_loop cmsWait now now 0 rounds q
  end.
Definition Peek (cmsWait now : Z) (rounds : list Round) (q : MessageQueue)
    : option (option Message * list Z * MessageQueue) :=
  match msgPeek_ q with
  | Some m => Some (Some m, [], q)
  | None =>
      match Get cmsWait now rounds q with
      | Some (Some m, waits, q) => Some (Some m, waits, set_msgPeek (Some m) q)
      | r => r
      end
  end.

(** ** The queue as its clients see it

    The ready messages, and the delayed ones in the order they were posted, each with
    its trigger time: no priority queue, no sequence numbers. *)

Module Spec.
Record Queue := mkSpec {
  stop : bool; peeked : option Message; ready : list Message; later : list (Z * Message); disposed : list Z }.

Definition new : Queue := mkSpec false None [] [] [].

(** By trigger time, and in the order of posting among equal times. *)
Fixpoint place (d : Z * Message) (l : list (Z * Message)) : list (Z * Message) :=
  match l with
  | [] => [d]
  | x :: l' => if d.1 <? x.1 then d :: l else x :: place d l'
  end.
Definition by_time (l : list (Z * Message)) : list (Z * Message) := fold_left (λ s d, place d s) l [].

Definition due (now : Z) (d : Z * Message) : bool := d.1 <=? now.

Definition earliest (now : Z) (l : list (Z * Message)) : Z :=
  match l with [] => kForever | d :: l => foldr Z.min d.1 (fst <$> l) - now end.

(** The due messages join the ready ones by their times. *)
Definition pass (now : Z) (s : Queue) : option Message * Z * Queue :=
  let late := List.filter (λ d, negb (due now d)) (later s) in
  let '(r, mq, del) := pull_loop (ready s ++ (snd <$> by_time (List.filter (due now) (later s)))) (disposed s) in
  (r, earliest now late, mkSpec (stop s) (peeked s) mq late del).

Definition post (m : Message) (s : Queue) : Queue :=
  if stop s then s else mkSpec (stop s) (peeked s) (ready s ++ [m]) (later s) (disposed s).
Definition post_at (trigger : Z) (m : Message) (s : Queue) : Queue :=
  if stop s then s else mkSpec (stop s) (peeked s) (ready s) (later s ++ [(trigger, m)]) (disposed s).
Definition clear (handler id : Z) (s : Queue) : Queue :=
  let hit m := Match m handler id in
  let gone := (match peeked s with Some m => if hit m then [m] else [] | None => [] end)
      ++ List.filter hit (ready s) ++ (snd <$> List.filter (λ d, hit d.2) (later s)) in
  mkSpec (stop s) (match peeked s with Some m => if hit m then None else Some m | None => None end)
    (List.filter (λ m, negb (hit m)) (ready s)) (List.filter (λ d, negb (hit d.2)) (later s))
    (disposed s ++ (pdata <$> gone)).
Definition set_stop (b : bool) (s : Queue) : Queue := mkSpec b (peeked s) (ready s) (later s) (disposed s).
Definition set_peeked (p : option Message) (s : Queue) : Queue :=
  mkSpec (stop s) p (ready s) (later s) (disposed s).

Definition apply (s : Queue) (c : mq_call) : Queue :=
  match c with
  | CPost h id data ts now => post (mkMsg h id data (if ts then u32 (now + kMaxMsgLatency) else 0)) s
  | CPostDelayed cms h id data now => post_at (now + cms) (mkMsg h id data 0) s
  | CPostAt tstamp h id data now => post_at tstamp (mkMsg h id data 0) s
  | CClear h id => clear h id s
  | CQuit => set_stop true s
  | CRestart => set_stop false s
  end.

(** Passes and waits, until a message is ready, the time is over or the queue stops. *)
Fixpoint get_rounds (cmsWait start now : Z) (rounds : list Round) (s : Queue) : option (option Message * list Z * Queue) :=
  let '(r, next, s) := pass now s in
  match r with
  | Some m => Some (Some m, [], s)
  | None =>
      if stop s then Some (None, [], s)
      else
        match rounds with
        | [] => None
        | rd :: rounds =>
            let wait := next_wait cmsWait (now - start) next in
            let s := fold_left apply (wait_calls rd) s in
            if negb (wait_ok rd) || negb (cmsWait =? kForever) && (cmsWait <=? wait_time rd - start)
            then Some (None, [wait], s)
            else
              match get_rounds cmsWait start (wait_time rd) rounds s with
              | Some (r, waits, s) => Some (r, wait :: waits, s)
              | None => None
              end
        end
  end.
Definition get (cmsWait now : Z) (rounds : list Round) (s : Queue) : option (option Message * list Z * Queue) :=
  match peeked s with
  | Some m => Some (Some m, [], set_peeked None s)
  | None => get_rounds cmsWait now now rounds s
  end.
Definition peek (cmsWait now : Z) (rounds : list Round) (s : Queue) : option (option Message * list Z * Queue) :=
  match peeked s with
  | Some m => Some (Some m, [], s)
  | None =>
      match get cmsWait now rounds s with
      | Some (Some m, waits, s) => Some (Some m, waits, set_peeked (Some m) s)
      | r => r
      end
  end.
End Spec.

(** ** Uses of a queue *)

Inductive mq_op :=
  | OCall (c : mq_call)
  | OGet (cmsWait now : Z) (rounds : list Round)
  | OPeek (cmsWait now : Z) (rounds : list Round).

(** The results of the [Get] and [Peek] calls of a sequence, each with the waits it asked for. *)
Fixpoint mq_run (ops : list mq_op) (q : MessageQueue) : option (list (option Message * list Z)) :=
  match ops with
  | [] => Some []
  | OCall c :: ops => mq_run ops (mq_apply q c)
  | OGet w now rds :: ops => '(r, ws, q) ← Get w now rds q; ((r, ws) ::.) <$> mq_run ops q
  | OPeek w now rds :: ops => '(r, ws, q) ← Peek w now rds q; ((r, ws) ::.) <$> mq_run ops q
  end.
Fixpoint spec_run (ops : list mq_op) (s : Spec.Queue) : option (list (option Message * list Z)) :=
  match ops with
  | [] => Some []
  | OCall c :: ops => spec_run ops (Spec.apply s c)
  | OGet w now rds :: ops => '(r, ws, s) ← Spec.get w now rds s; ((r, ws) ::.) <$> spec_run ops s
  | OPeek w now rds :: ops => '(r, ws, s) ← Spec.peek w now rds s; ((r, ws) ::.) <$> spec_run ops s
  end.

Definition rounds_calls (rds : list Round) : Z := foldr (λ rd n, zlen (wait_calls rd) + n) 0 rds.
Definition op_calls (o : mq_op) : Z :=
  match o with OCall _ => 1 | OGet _ _ rds | OPeek _ _ rds => rounds_calls rds end.
Definition ops_calls (ops : list mq_op) : Z := foldr (λ o n, op_calls o + n) 0 ops.

(** ** Order by time *)

Fixpoint sorted (l : list (Z * Message)) : Prop :=
  match l with [] => True | x :: l => Forall (λ y, x.1 ≤ y.1) l ∧ sorted l end.

Lemma place_perm d l : Spec.place d l ≡ₚ d :: l.
Proof. induction l as [|x l IH]; cbn; [done|]. destruct (_ <? _); [done|]. rewrite IH. by constructor. Qed.
Lemma place_sorted d l : sorted l → sorted (Spec.place d l).
Proof.
  induction l as [|x l IH]; cbn; [by intros|]. intros [Hx Hl]. destruct (Z.ltb_spec d.1 x.1) as [Hd|Hd]; cbn.
  - split; [|done]. constructor; [lia|]. eapply Forall_impl; [exact Hx|]. cbn. lia.
  - split; [|auto]. rewrite place_perm. by constructor.
Qed.
Lemma by_time_snoc l d : Spec.by_time (l ++ [d]) = Spec.place d (Spec.by_time l).
Proof. unfold Spec.by_time. by rewrite fold_left_app. Qed.
Lemma by_time_perm l : Spec.by_time l ≡ₚ l.
Proof.
  induction l as [|d l IH] using rev_ind; [done|]. rewrite by_time_snoc, place_perm, IH. apply Permutation_cons_append.
Qed.
Lemma by_time_sorted l : sorted (Spec.by_time l).
Proof. induction l as [|d l IH] using rev_ind; [done|]. rewrite by_time_snoc. by apply place_sorted. Qed.

Lemma place_below d l : Forall (λ y, d.1 < y.1) l → Spec.place d l = d :: l.
Proof. destruct 1; cbn; [done|]. by rewrite (proj2 (Z.ltb_lt _ _)). Qed.
Lemma Forall_bfilter {A} (P : A → Prop) f l : Forall P l → Forall P (List.filter f l).
Proof. induction 1; cbn; [done|]. destruct (f x); auto. Qed.
Lemma filter_place f d l : sorted l →
  List.filter f (Spec.place d l) = if f d then Spec.place d (List.filter f l) else List.filter f l.
Proof.
  induction l as [|x l IH]; cbn; [by destruct (f d)|]. intros [Hx Hl]. destruct (Z.ltb_spec d.1 x.1) as [Hd|Hd]; cbn.
  - assert (Forall (λ y, d.1 < y.1) (x :: l)) as Hb
      by (constructor; [done|]; eapply Forall_impl; [exact Hx|]; cbn; lia).
    apply (Forall_bfilter _ f) in Hb. cbn in Hb. destruct (f d); [|done]. by rewrite (place_below d).
  - rewrite IH by done. destruct (f x), (f d); cbn; try done. by rewrite (proj2 (Z.ltb_ge _ _)).
Qed.
Lemma filter_by_time f l : List.filter f (Spec.by_time l) = Spec.by_time (List.filter f l).
Proof.
  induction l as [|d l IH] using rev_ind; [done|]. rewrite by_time_snoc, filter_place, IH by apply by_time_sorted.
  rewrite List.filter_app. cbn. destruct (f d); [by rewrite by_time_snoc|by rewrite app_nil_r].
Qed.

Lemma min_lower a l : Forall (λ y, foldr Z.min a l ≤ y) l ∧ foldr Z.min a l ≤ a.
Proof. induction l as [|x l [IH1 IH2]]; cbn; [split; [constructor|lia]|]. split; [|lia]. constructor; [lia|].
  eapply Forall_impl; [exact IH1|]. cbn. lia. Qed.
Lemma min_in a l : foldr Z.min a l ∈ a :: l.
Proof. induction l as [|x l IH]; cbn; [set_solver|]. destruct (Z.min_spec x (foldr Z.min a l)) as [[_ ->]|[_ ->]]; set_solver. Qed.
Lemma earliest_head now l :
  Spec.earliest now l = match Spec.by_time l with [] => kForever | d :: _ => d.1 - now end.
Proof.
  pose proof (by_time_perm l) as Hp. pose proof (by_time_sorted l) as Hs. destruct (Spec.by_time l) as [|d k].
  - symmetry in Hp. apply Permutation_nil_r in Hp. by subst.
  - destruct l as [|x l]; [by apply Permutation_nil_r in Hp|]. cbn. f_equal.
    pose proof (min_in x.1 (fst <$> l)) as Hin. destruct (min_lower x.1 (fst <$> l)) as [Hlow Hx].
    destruct Hs as [Hd _].
    assert (d ∈ x :: l) as Hdin by (rewrite <- Hp; set_solver).
    assert (foldr Z.min x.1 (fst <$> l) ≤ d.1).
    { apply elem_of_cons in Hdin as [->|Hdin]; [done|]. rewrite Forall_fmap, Forall_forall in Hlow. by apply Hlow. }
    change (foldr Z.min x.1 (fst <$> l) ∈ fst <$> (x :: l)) in Hin. apply list_elem_of_fmap in Hin as (y & Ey & Hy).
    rewrite <- Hp in Hy. rewrite Forall_forall in Hd. rewrite Ey in *. apply elem_of_cons in Hy as [->|Hy]; [done|].
    specialize (Hd _ Hy). lia.
Qed.

(** ** The messages of a queue *)

Definition queue_messages (q : MessageQueue) : list Message := msgq_ q ++ (msg_ <$> dmsgq_ q).

Lemma push_perm d l : push d l ≡ₚ d :: l.
Proof. induction l as [|x l IH]; cbn; [done|]. destruct (dmsg_lt x d); [done|]. rewrite IH. by constructor. Qed.
Lemma PostDelayed_messages cms h id data now q : fStop_ q = false →
  queue_messages (PostDelayed cms h id data now q) ≡ₚ mkMsg h id data 0 :: queue_messages q.
Proof.
  intros Hs. unfold PostDelayed, DoDelayPost, queue_messages. rewrite Hs. cbn. rewrite push_perm. cbn.
  by rewrite <- Permutation_middle.
Qed.
Lemma Clear_messages h id removed q :
  queue_messages (MessageQueue_Clear h id removed q).2 = List.filter (λ m, negb (Match m h id)) (queue_messages q).
Proof.
  unfold MessageQueue_Clear, queue_messages. cbn. rewrite List.filter_app. f_equal.
  induction (dmsgq_ q) as [|d l IH]; cbn; [done|]. destruct (Match _ _ _); cbn; by rewrite IH.
Qed.

Lemma trigger_loop_perm now dq mq :
  let '(_, dq', mq') := trigger_loop now dq mq in mq' ++ (msg_ <$> dq') ≡ₚ mq ++ (msg_ <$> dq).
Proof.
  revert mq. induction dq as [|d dq IH]; intros mq; cbn; [done|]. destruct (TimeIsLater _ _); [done|].
  specialize (IH (mq ++ [msg_ d])). destruct (trigger_loop _ _ _) as [[n dq'] mq']. rewrite IH. by rewrite <- app_assoc.
Qed.
Lemma pull_loop_live mq del : Forall (λ m, message_id m ≠ MQID_DISPOSE) mq →
  pull_loop mq del = match mq with [] => (None, [], del) | m :: mq => (Some m, mq, del) end.
Proof. destruct 1 as [|m mq Hm _]; cbn; [done|]. by apply Z.eqb_neq in Hm as ->. Qed.
Lemma get_pass_messages now q : Forall (λ m, message_id m ≠ MQID_DISPOSE) (queue_messages q) →
  let '(r, _, q') := get_pass now q in
  queue_messages q ≡ₚ option_list r ++ queue_messages q' ∧
  fStop_ q' = fStop_ q ∧ msgPeek_ q' = msgPeek_ q.
Proof.
  intros Hq. unfold get_pass. pose proof (trigger_loop_perm now (dmsgq_ q) (msgq_ q)) as Hp.
  destruct (trigger_loop _ _ _) as [[n dq] mq]. unfold queue_messages in *. rewrite <- Hp in Hq.
  apply Forall_app in Hq as [Hmq _]. rewrite pull_loop_live by done. destruct mq; cbn in *; by rewrite <- Hp.
Qed.

(** A [Get] that does not wait. *)
Lemma Get_now now q : fStop_ q = false → msgPeek_ q = None →
  Get 0 now [mkRound true [] now] q =
    let '(r, n, q') := get_pass now q in
    Some (r, match r with Some _ => [] | None => [next_wait 0 0 n] end, q').
Proof.
  intros Hs Hp. unfold Get. rewrite Hp. cbn [get_loop].
  assert (fStop_ (get_pass now q).2 = false) as Hs'.
  { unfold get_pass. destruct (trigger_loop _ _ _) as [[??]?], (pull_loop _ _) as [[??]?]. done. }
  destruct (get_pass now q) as [[[m|] n] q']; cbn in *; [done|]. rewrite Hs'.
  unfold TimeDiff. by rewrite Z.sub_diag.
Qed.

(** ** The queue implements the abstract one

    As long as the times stay in a window of 2^31 ms that does not contain the wrap of
    the 32-bit clock, and the numbers of the delayed messages do not wrap. *)

Section refinement.
Context (lo : Z).

Definition in_window (t : Z) : Prop := lo ≤ t < lo + HALF ∧ is_u32 t.

Definition dview (d : DelayedMessage) : Z * Message := (msTrigger_ d, msg_ d).

Record sim (q : MessageQueue) (s : Spec.Queue) : Prop := {
  sim_stop : fStop_ q = Spec.stop s;
  sim_peek : msgPeek_ q = Spec.peeked s;
  sim_ready : msgq_ q = Spec.ready s;
  sim_deleted : deleted q ≡ₚ Spec.disposed s;
  sim_later : dview <$> dmsgq_ q = Spec.by_time (Spec.later s);
  sim_num : Forall (λ d, num_ d < dmsgq_next_num_ q) (dmsgq_ q);
  sim_window : Forall (λ d, in_window (msTrigger_ d)) (dmsgq_ q)
}.

Lemma push_view d l : Forall (λ x, num_ x < num_ d) l → dview <$> push d l = Spec.place (dview d) (dview <$> l).
Proof.
  induction 1 as [|x l Hx Hl IH]; cbn; [done|]. unfold dmsg_lt.
  rewrite (proj2 (Z.ltb_ge (num_ d) (num_ x))) by lia. rewrite andb_false_r, orb_false_r.
  destruct (_ <? _); cbn; [done|]. by rewrite <- IH.
Qed.
Lemma push_Forall (P : DelayedMessage → Prop) d l : P d → Forall P l → Forall P (push d l).
Proof. intros Hd. induction 1 as [|x l Hx Hl IH]; cbn; [by constructor|]. destruct (dmsg_lt x d); auto. Qed.
Lemma filter_view (f : Z * Message → bool) l :
  dview <$> List.filter (λ d, f (dview d)) l = List.filter f (dview <$> l).
Proof. induction l as [|d l IH]; cbn; [done|]. destruct (f (dview d)); cbn; by rewrite IH. Qed.
Lemma msg_view (l : list DelayedMessage) : msg_ <$> l = snd <$> (dview <$> l).
Proof. by rewrite <- list_fmap_compose. Qed.

Lemma window_later now t : in_window now → in_window t → TimeIsLater now t = negb (t <=? now).
Proof.
  intros [Hn Un] [Ht Ut]. rewrite later_strict. unfold HALF, is_u32 in *. bdestruct; ulia.
Qed.
Lemma window_diff now t : in_window now → in_window t → TimeDiff t now = t - now.
Proof. intros [Hn Un] [Ht Ut]. unfold TimeDiff, HALF, is_u32 in *. ulia. Qed.

Lemma filter_none {A} (f : A → bool) l : Forall (λ x, f x = false) l → List.filter f l = [].
Proof. induction 1 as [|x l Hx Hl IH]; cbn; [done|]. by rewrite Hx. Qed.
Lemma filter_every {A} (f : A → bool) l : Forall (λ x, f x = true) l → List.filter f l = l.
Proof. induction 1 as [|x l Hx Hl IH]; cbn; [done|]. by rewrite Hx, IH. Qed.
Lemma all_late now d l : sorted (dview <$> d :: l) → Spec.due now (dview d) = false →
  Forall (λ x, Spec.due now (dview x) = false) (d :: l).
Proof.
  intros [Hd _] Hl. constructor; [done|]. rewrite Forall_fmap in Hd. eapply Forall_impl; [exact Hd|].
  unfold Spec.due in *. cbn. intros y Hy. apply Z.leb_gt in Hl. apply Z.leb_gt. cbn in *. lia.
Qed.

(** The prefix that the loop moves is exactly the due messages. *)
Lemma trigger_loop_spec now dq mq : in_window now → Forall (λ d, in_window (msTrigger_ d)) dq → sorted (dview <$> dq) →
  trigger_loop now dq mq =
    (match List.filter (λ d, negb (Spec.due now (dview d))) dq with [] => kForever | d :: _ => msTrigger_ d - now end,
     List.filter (λ d, negb (Spec.due now (dview d))) dq,
     mq ++ (msg_ <$> List.filter (λ d, Spec.due now (dview d)) dq)).
Proof.
  intros Hn. revert mq. induction dq as [|d dq IH]; intros mq Hw Hs; [cbn; by rewrite app_nil_r|].
  apply Forall_cons in Hw as [Hd Hw]. cbn [trigger_loop]. rewrite (window_later now _ Hn Hd).
  change (msTrigger_ d <=? now) with (Spec.due now (dview d)). destruct (Spec.due now (dview d)) eqn:Ed.
  - cbn [negb List.filter]. rewrite Ed. cbn. rewrite IH; [|done|apply Hs]. by rewrite <- app_assoc.
  - pose proof (all_late now d dq Hs Ed) as Hl. rewrite (filter_none (λ x, Spec.due now (dview x))) by done.
    rewrite filter_every by (eapply Forall_impl; [exact Hl|]; intros x Hx; cbn; by rewrite Hx).
    cbn. rewrite window_diff by done. by rewrite app_nil_r.
Qed.

Lemma pull_loop_sim mq del del' : del ≡ₚ del' →
  let '(r, mq1, del1) := pull_loop mq del in let '(r', mq1', del1') := pull_loop mq del' in
  r = r' ∧ mq1 = mq1' ∧ del1 ≡ₚ del1'.
Proof.
  revert del del'. induction mq as [|m mq IH]; intros del del' Hd; cbn; [done|].
  destruct (_ =? _); [|done]. apply IH. by rewrite Hd.
Qed.
Lemma pass_sim now q s : in_window now → sim q s →
  let '(r, next, q') := get_pass now q in let '(r', next', s') := Spec.pass now s in
  r = r' ∧ next = next' ∧ sim q' s' ∧ dmsgq_next_num_ q' = dmsgq_next_num_ q.
Proof.
  intros Hn []. unfold get_pass, Spec.pass.
  rewrite trigger_loop_spec by (rewrite ?sim_later0; auto using by_time_sorted).
  rewrite msg_view, filter_view, sim_later0, filter_by_time, sim_ready0.
  generalize (Spec.ready s ++ (snd <$> Spec.by_time (List.filter (Spec.due now) (Spec.later s)))) as mq. intros mq.
  pose proof (pull_loop_sim mq _ _ sim_deleted0) as Hp.
  destruct (pull_loop mq (deleted q)) as [[r mq1] del], (pull_loop mq (Spec.disposed s)) as [[r' mq1'] del'].
  destruct Hp as (<- & <- & Hdel). split; [done|]. split_and!; [|split; cbn|done]; try done.
  - rewrite earliest_head, <- filter_by_time, <- sim_later0, <- (filter_view (λ d, negb (Spec.due now d))).
    by destruct (List.filter _ _).
  - by rewrite (filter_view (λ d, negb (Spec.due now d))), sim_later0, filter_by_time.
  - by apply Forall_bfilter.
  - by apply Forall_bfilter.
Qed.

(** ** Calls *)

Definition call_ok (c : mq_call) : Prop :=
  match c with
  | CPostDelayed cms _ _ _ now => in_window now ∧ 0 ≤ cms ∧ in_window (now + cms)
  | CPostAt tstamp _ _ _ now => in_window now ∧ in_window tstamp
  | _ => True
  end.

Lemma delay_post_sim cms t h id data q s : in_window t → dmsgq_next_num_ q + 1 < 4294967296 → 0 ≤ dmsgq_next_num_ q →
  sim q s → sim (DoDelayPost cms t h id data q) (Spec.post_at t (mkMsg h id data 0) s).
Proof.
  intros Ht Hnum H0 Hs. pose proof Hs as []. unfold DoDelayPost, Spec.post_at. rewrite sim_stop0.
  destruct (Spec.stop s) eqn:Es; [done|].
  split; cbn; try done.
  - rewrite push_view, sim_later0 by done. symmetry. apply by_time_snoc.
  - rewrite u32_id by (unfold is_u32; lia). apply push_Forall; cbn; [lia|]. eapply Forall_impl; [exact sim_num0|]. cbn. lia.
  - by apply push_Forall.
Qed.
Lemma clear_sim h id q s : sim q s → sim (MessageQueue_Clear h id false q).2 (Spec.clear h id s).
Proof.
  intros []. split; cbn; rewrite ?sim_stop0, ?sim_peek0, ?sim_ready0; try done.
  - rewrite sim_deleted0, msg_view, (filter_view (λ d, Match d.2 h id)), sim_later0, filter_by_time.
    by rewrite by_time_perm.
  - by rewrite (filter_view (λ d, negb (Match d.2 h id))), sim_later0, filter_by_time.
  - by apply Forall_bfilter.
  - by apply Forall_bfilter.
Qed.
Lemma call_sim c q s : call_ok c → dmsgq_next_num_ q + 1 < 4294967296 → 0 ≤ dmsgq_next_num_ q → sim q s →
  sim (mq_apply q c) (Spec.apply s c) ∧
  dmsgq_next_num_ q ≤ dmsgq_next_num_ (mq_apply q c) ≤ dmsgq_next_num_ q + 1.
Proof.
  intros Hc Hn H0 Hs.
  assert (∀ cms t h id data, dmsgq_next_num_ q ≤ dmsgq_next_num_ (DoDelayPost cms t h id data q) ≤ dmsgq_next_num_ q + 1) as Hd.
  { intros. unfold DoDelayPost. destruct (fStop_ q); cbn; [lia|]. rewrite u32_id by (unfold is_u32; lia). lia. }
  destruct c; cbn [mq_apply Spec.apply]; (split; [|try (apply Hd); cbn; try lia]).
  - pose proof Hs as []. unfold Post, Spec.post. rewrite sim_stop0. destruct (Spec.stop s) eqn:Es; [done|].
    split; cbn; try done. by rewrite sim_ready0.
  - unfold Post. destruct (fStop_ q); cbn; lia.
  - destruct Hc as (? & ? & Hw). unfold PostDelayed. rewrite u32_id by apply Hw. by apply delay_post_sim.
  - by apply delay_post_sim; [apply Hc|..].
  - by apply clear_sim.
  - destruct Hs. by split.
  - destruct Hs. by split.
Qed.

Definition round_ok (rd : Round) : Prop := in_window (wait_time rd) ∧ Forall call_ok (wait_calls rd).
Definition mq_op_ok (o : mq_op) : Prop :=
  match o with
  | OCall c => call_ok c
  | OGet _ now rds | OPeek _ now rds => in_window now ∧ Forall round_ok rds
  end.

(** The numbers used so far, and those [n] more calls may use. *)
Definition room (q : MessageQueue) (n : Z) : Prop :=
  0 ≤ dmsgq_next_num_ q ∧ dmsgq_next_num_ q + n < 4294967296.

Lemma calls_sim cs q s n : Forall call_ok cs → room q (zlen cs + n) → 0 ≤ n → sim q s →
  sim (fold_left mq_apply cs q) (fold_left Spec.apply cs s) ∧ room (fold_left mq_apply cs q) n.
Proof.
  intros Hc. revert q s. induction Hc as [|c cs Hc Hcs IH]; intros q s [H0 Hr] Hn Hs; cbn [fold_left].
  - split; [done|]. split; [done|]. revert Hr. rewrite zlen_nil. lia.
  - rewrite zlen_cons in Hr. pose proof (zlen_nonneg cs).
    destruct (call_sim c q s) as [Hs' Hb]; [done|lia..|done|]. apply IH; [|done..]. split; lia.
Qed.

Lemma rounds_calls_nonneg rds : 0 ≤ rounds_calls rds.
Proof. induction rds as [|rd rds IH]; cbn; [done|]. pose proof (zlen_nonneg (wait_calls rd)). unfold rounds_calls in IH. lia. Qed.

(** The same answer, from related queues with room for [n] more calls. *)
Definition same_answer {R} (n : Z) (x : option (R * MessageQueue)) (y : option (R * Spec.Queue)) : Prop :=
  match x, y with
  | Some (r, q), Some (r', s) => r = r' ∧ sim q s ∧ room q n
  | None, None => True
  | _, _ => False
  end.

Lemma get_loop_sim w start rds n : in_window start → 0 ≤ n → Forall round_ok rds → ∀ now q s,
  in_window now → room q (rounds_calls rds + n) → sim q s →
  same_answer n (get_loop w start now (now - start) rds q) (Spec.get_rounds w start now rds s).
Proof.
  intros Hst Hn Hr. induction Hr as [|rd rds [Hrt Hrc] Hr IH]; intros now q s Hnow Hroom Hs;
    pose proof (pass_sim now q s Hnow Hs) as Hp; cbn [get_loop Spec.get_rounds];
    destruct (get_pass now q) as [[r next] q1], (Spec.pass now s) as [[r' next'] s1];
    destruct Hp as (<- & <- & Hs1 & En); destruct r as [m|].
  - split_and!; [done|done|]. unfold room in *. by rewrite En.
  - rewrite (sim_stop _ _ Hs1). destruct (Spec.stop s1); [|done]. split_and!; [done|done|]. unfold room in *. by rewrite En.
  - split_and!; [done|done|]. pose proof (rounds_calls_nonneg (rd :: rds)). unfold room in *. rewrite En. lia.
  - pose proof (rounds_calls_nonneg rds). rewrite (sim_stop _ _ Hs1). cbn in Hroom.
    fold (rounds_calls rds) in Hroom. pose proof (zlen_nonneg (wait_calls rd)).
    destruct (Spec.stop s1); [split_and!; [done|done|]; unfold room in *; rewrite En; lia|].
    destruct (calls_sim (wait_calls rd) q1 s1 (rounds_calls rds + n)) as [Hs2 Hroom2];
      [done|unfold room in *; rewrite En; lia|lia|done|].
    rewrite window_diff by done. destruct (wait_ok rd); cbn [negb orb].
    + destruct (_ && _); [split_and!; [done|done|]; unfold room in *; lia|].
      specialize (IH (wait_time rd) _ _ Hrt Hroom2 Hs2).
      destruct (get_loop _ _ _ _ _ _) as [[[r ws] q3]|], (Spec.get_rounds _ _ _ _ _) as [[[r' ws'] s3]|]; try done.
      destruct IH as (E & ? & ?). by simplify_eq.
    + split_and!; [done|done|]; unfold room in *; lia.
Qed.
Lemma Get_sim w now rds n q s : 0 ≤ n → Forall round_ok rds → in_window now →
  room q (rounds_calls rds + n) → sim q s → same_answer n (Get w now rds q) (Spec.get w now rds s).
Proof.
  intros Hn Hr Hnow Hroom Hs. unfold Get, Spec.get. rewrite (sim_peek _ _ Hs). pose proof (rounds_calls_nonneg rds).
  destruct (Spec.peeked s).
  - split_and!; [done| |unfold room in *; cbn; lia]. by destruct Hs; split.
  - replace 0 with (now - now) by lia. by apply get_loop_sim.
Qed.
Lemma Peek_sim w now rds n q s : 0 ≤ n → Forall round_ok rds → in_window now →
  room q (rounds_calls rds + n) → sim q s → same_answer n (Peek w now rds q) (Spec.peek w now rds s).
Proof.
  intros Hn Hr Hnow Hroom Hs. unfold Peek, Spec.peek. rewrite (sim_peek _ _ Hs). pose proof (rounds_calls_nonneg rds).
  destruct (Spec.peeked s); [split_and!; [done|done|unfold room in *; lia]|].
  pose proof (Get_sim w now rds n q s Hn Hr Hnow Hroom Hs) as HG.
  destruct (Get w now rds q) as [[[[m|] ws] q1]|], (Spec.get w now rds s) as [[[r' ws'] s1]|]; try done;
    destruct HG as (E & Hs1 & Hr1); simplify_eq; [|done].
  split_and!; [done| |done]. by destruct Hs1; split.
Qed.

Lemma ops_calls_nonneg ops : 0 ≤ ops_calls ops.
Proof.
  induction ops as [|o ops IH]; cbn; [done|]. fold (ops_calls ops).
  assert (0 ≤ op_calls o) by (destruct o; cbn; try lia; apply rounds_calls_nonneg). lia.
Qed.
Lemma run_sim ops q s : Forall mq_op_ok ops → room q (ops_calls ops) → sim q s → mq_run ops q = spec_run ops s.
Proof.
  intros Ho. revert q s. induction Ho as [|o ops Ho Hos IH]; intros q s Hroom Hs; [done|].
  pose proof (ops_calls_nonneg ops). cbn in Hroom. fold (ops_calls ops) in Hroom.
  destruct o as [c|w now rds|w now rds]; cbn [mq_run spec_run mq_op_ok op_calls] in *.
  - destruct Hroom as [H0 Hlt]. destruct (call_sim c q s) as [Hs' Hb]; [done|lia..|done|]. apply IH; [split; lia|done].
  - destruct Ho as [Hnow Hrds]. pose proof (Get_sim w now rds (ops_calls ops) q s ltac:(done) Hrds Hnow Hroom Hs) as HG.
    destruct (Get w now rds q) as [[[r ws] q1]|], (Spec.get w now rds s) as [[[r' ws'] s1]|]; try done.
    destruct HG as (E & Hs1 & Hr1). simplify_eq. cbn. by rewrite (IH q1 s1).
  - destruct Ho as [Hnow Hrds]. pose proof (Peek_sim w now rds (ops_calls ops) q s ltac:(done) Hrds Hnow Hroom Hs) as HG.
    destruct (Peek w now rds q) as [[[r ws] q1]|], (Spec.peek w now rds s) as [[[r' ws'] s1]|]; try done.
    destruct HG as (E & Hs1 & Hr1). simplify_eq. cbn. by rewrite (IH q1 s1).
Qed.
End refinement.

Lemma new_sim lo : sim lo MessageQueue_new Spec.new.
Proof. by split; try constructor. Qed.


(** Two delayed messages and one more posted during a wait, a dispose message, a clear and a stop. *)
Definition sample_ops : list mq_op :=
  [OCall (CPostDelayed 300 1 10 100 1000); OCall (CPostDelayed 200 2 20 200 1000); OCall (CPostAt 1200 3 30 300 1000);
   OGet (-1) 1000 [mkRound true [CPost 4 40 400 true 1050] 1060];
   OCall (CPost 0 MQID_DISPOSE 7 false 1060); OCall (CClear 3 MQID_ANY);
   OPeek 500 1060 [mkRound true [] 1200]; OGet 0 1200 []; OGet 50 1210 [mkRound true [] 1260];
   OCall CQuit; OCall (CPost 5 50 500 false 1270); OGet (-1) 1310 []; OGet (-1) 1320 []].

(** The order of the delayed messages compares the trigger times as plain numbers:
    of two messages posted before the wrap of the clock, the one whose trigger time is
    past the wrap goes first, and until it is due [Get] does not deliver the other
    one, which has been due before. *)
Theorem wrap_blocks_due now t dA hA idA xA dB hB idB xB :
  is_u32 now → 0 ≤ dA → now + dA ≤ t < 4294967296 → 4294967296 ≤ now + dB → dB < HALF →
  let q := PostDelayed dB hB idB xB now (PostDelayed dA hA idA xA now MessageQueue_new) in
  get_pass t q = (None, now + dB - t, q).
Proof.
  unfold is_u32, HALF. intros Hnow HA Ht HB HB'. cbn [PostDelayed DoDelayPost MessageQueue_new fStop_ dmsgq_ push].
  unfold PostDelayed, DoDelayPost. cbn [fStop_ MessageQueue_new dmsgq_ push dmsgq_next_num_ msgPeek_ msgq_ deleted].
  rewrite (u32_id (now + dA)) by (unfold is_u32; lia).
  assert (u32 (now + dB) = now + dB - 4294967296) as EB by ulia. rewrite EB.
  unfold dmsg_lt. cbn [msTrigger_ num_]. rewrite (proj2 (Z.ltb_lt (now + dB - 4294967296) (now + dA))) by lia. cbn [orb].
  unfold get_pass. cbn [dmsgq_ msgq_ trigger_loop msTrigger_]. rewrite later_strict, <- EB.
  assert (u32 (u32 (now + dB) - t) = now + dB - t) as E by ulia. rewrite E.
  rewrite (proj2 (Z.ltb_lt 0 _)), (proj2 (Z.ltb_lt _ HALF)) by (unfold HALF; lia). cbn.
  unfold TimeDiff. do 2 f_equal. ulia.
Qed.
(** A message due after 50 ms waits for a keepalive of an hour. *)
Lemma wrap_blocks_due_witness :
  let now := 4294967196 in
  is_u32 now ∧ now + 50 ≤ 4294967256 ∧
  let q := PostDelayed 3600000 2 0 0 now (PostDelayed 50 1 0 0 now MessageQueue_new) in
  get_pass 4294967256 q = (None, 3599940, q).
Proof.
  split; [by vm_compute|]. split; [lia|].
  apply (wrap_blocks_due 4294967196 4294967256 50 1 0 0 3600000 2 0 0); unfold is_u32, HALF; lia.
Defined.
