(* ===== verification/StunRequest.v ===== *)
(** * STUN transactions

    The requests of webrtc/p2p/base/stunrequest.h and stunrequest.cc: a manager holds
    the requests that wait for their responses, sends and resends them from the message
    queue of its thread, and ends each with a response, an error or a timeout.

    A request is an object on the heap, named by its address: the manager maps
    transaction ids to addresses, and the queue holds the address as the handler of a
    message.  Using the address of a deleted object is [None].  The members that
    subclasses override are the class [RequestClass]; their callbacks are events in
    the log, and do not call the manager.  The queue holds the messages of one manager. *)

From S2P Require Import Prelude ByteOrder ByteBuffer Stun StunWire StunBuild TimeUtils MessageQueue.

Definition MSG_STUN_SEND : Z := 1.
Definition MAX_SENDS : Z := 9.
Definition DELAY_UNIT : Z := 100.
Definition DELAY_MAX_FACTOR : Z := 16.

(** What a subclass of StunRequest overrides: how it fills in the message, and the
    delay to the next sending, which also updates [count_] and [timeout_]. *)
Class RequestClass (K : Type) := {
  Prepare : K → StunMessage → StunMessage;
  GetNextDelay : K → Z → bool → Z * Z * bool
}.

(** What the manager relies on: the transaction id stays, and the request times out
    after a number of sendings. *)
Class RequestLaws (K : Type) `{RequestClass K} := {
  max_sends : K → Z;
  Prepare_id k m : m_transaction_id (Prepare k m) = m_transaction_id m;
  max_sends_pos k : 0 < max_sends k;
  GetNextDelay_count k n : 0 ≤ n < max_sends k →
    let '(delay, count, timeout) := GetNextDelay k n false in
    0 ≤ delay < HALF ∧ timeout = (n + 1 =? max_sends k) ∧ (timeout = false → count = n + 1)
}.

(** ** The classes of requests *)

Inductive BaseRequest := ABaseRequest.
Definition StunRequest_GetNextDelay (count : Z) (timeout : bool) : Z * Z * bool :=
  let delay := DELAY_UNIT * Z.min (Z.shiftl 1 count) DELAY_MAX_FACTOR in
  let count := count + 1 in
  (delay, count, if count =? MAX_SENDS then true else timeout).
#[export] Instance BaseRequest_class : RequestClass BaseRequest :=
  {| Prepare _ m := m; GetNextDelay _ := StunRequest_GetNextDelay |}.

(** The requests of a relay port, with the user name fragment of the port. *)
Record AllocateRequest := mkAllocate { port_username : list Z }.
Definition AllocateRequest_Prepare (k : AllocateRequest) (request : StunMessage) : StunMessage :=
  let request := SetType request STUN_ALLOCATE_REQUEST in
  let username_attr := CopyBytes (CreateByteString STUN_ATTR_USERNAME) (port_username k) in
  (AddAttribute request username_attr).2.
Definition AllocateRequest_GetNextDelay (count : Z) (timeout : bool) : Z * Z * bool :=
  let delay := 100 * Z.max (Z.shiftl 1 count) 2 in
  let count := count + 1 in
  (delay, count, if count =? 5 then true else timeout).
#[export] Instance AllocateRequest_class : RequestClass AllocateRequest :=
  {| Prepare := AllocateRequest_Prepare; GetNextDelay _ := AllocateRequest_GetNextDelay |}.

(** ** Requests and their manager *)

Section requests.
Context `{Platform} {K : Type} `{RequestClass K}.

Record StunRequest := mkRequest {
  r_kind : K; count_ : Z; timeout_ : bool; has_manager : bool; r_msg : StunMessage; tstamp_ : Z }.

Inductive event :=
  | Created (k : K)
  | Sent (packet : list Z) (time : Z)
  | OnResponse (response : StunMessage)
  | OnErrorResponse (response : StunMessage)
  | OnTimeout (time : Z).

Record StunRequestManager := mkManager {
  requests_ : gmap (list Z) Z;
  objects : gmap Z StunRequest;
  thread_ : MessageQueue;
  log : list (Z * event)
}.
Definition StunRequestManager_new : StunRequestManager := mkManager ∅ ∅ MessageQueue_new [].

Definition set_requests (f : gmap (list Z) Z → gmap (list Z) Z) (st : StunRequestManager) : StunRequestManager :=
  mkManager (f (requests_ st)) (objects st) (thread_ st) (log st).
Definition set_objects (f : gmap Z StunRequest → gmap Z StunRequest) (st : StunRequestManager) : StunRequestManager :=
  mkManager (requests_ st) (f (objects st)) (thread_ st) (log st).
Definition set_thread (f : MessageQueue → MessageQueue) (st : StunRequestManager) : StunRequestManager :=
  mkManager (requests_ st) (objects st) (f (thread_ st)) (log st).
Definition emit (a : Z) (e : event) (st : StunRequestManager) : StunRequestManager :=
  mkManager (requests_ st) (objects st) (thread_ st) (log st ++ [(a, e)]).

Definition req_id (r : StunRequest) : list Z := m_transaction_id (r_msg r).

(** The constructor, with the random string for the transaction id, at a fresh address. *)
Definition StunRequest_new (k : K) (msg : StunMessage) (random : list Z) : StunRequest :=
  mkRequest k 0 false false (SetTransactionID msg random).2 0.
Definition new_request (a : Z) (k : K) (msg : StunMessage) (random : list Z) (st : StunRequestManager)
    : StunRequestManager :=
  emit a (Created k) (set_objects <[a := StunRequest_new k msg random]> st).

Definition StunRequest_Construct (r : StunRequest) : StunRequest :=
  if m_type (r_msg r) =? 0
  then mkRequest (r_kind r) (count_ r) (timeout_ r) (has_manager r) (Prepare (r_kind r) (r_msg r)) (tstamp_ r)
  else r.
Definition set_manager (r : StunRequest) : StunRequest :=
  mkRequest (r_kind r) (count_ r) (timeout_ r) true (r_msg r) (tstamp_ r).

Definition SendDelayed (a delay now : Z) (st : StunRequestManager) : option StunRequestManager :=
  r ← objects st !! a;
  let r := StunRequest_Construct (set_manager r) in
  let st := set_objects <[a := r]> st in
  let st := set_requests <[req_id r := a]> st in
  Some (set_thread (PostDelayed delay a MSG_STUN_SEND 0 now) st).
Definition SendRequest (a now : Z) (st : StunRequestManager) : option StunRequestManager := SendDelayed a 0 now st.

Definition Remove (a : Z) (st : StunRequestManager) : option StunRequestManager :=
  r ← objects st !! a;
  match requests_ st !! req_id r with
  | Some _ => Some (set_thread (clear_handler a) (set_requests (delete (req_id r)) st))
  | None => Some st
  end.

(** The destructor of StunRequest, and that of MessageHandler, which clears the queue once more. *)
Definition delete_request (a : Z) (st : StunRequestManager) : option StunRequestManager :=
  r ← objects st !! a;
  st ← (if has_manager r then set_thread (clear_handler a) <$> Remove a st else Some st);
  Some (set_objects (delete a) (set_thread (clear_handler a) st)).

Fixpoint delete_all (l : list Z) (st : StunRequestManager) : option StunRequestManager :=
  match l with
  | [] => Some st
  | a :: l => st ← delete_request a st; delete_all l st
  end.
Definition StunRequestManager_Clear (st : StunRequestManager) : option StunRequestManager :=
  delete_all ((map_to_list (requests_ st)).*2) st.

Definition CheckResponse (msg : StunMessage) (st : StunRequestManager) : option (bool * StunRequestManager) :=
  match requests_ st !! m_transaction_id msg with
  | None => Some (false, st)
  | Some a =>
      r ← objects st !! a;
      let type := m_type (r_msg r) in
      if m_type msg =? GetStunSuccessResponseType type
      then st ← delete_request a (emit a (OnResponse msg) st); Some (true, st)
      else if m_type msg =? GetStunErrorResponseType type
      then st ← delete_request a (emit a (OnErrorResponse msg) st); Some (true, st)
      else Some (false, st)
  end.

Definition CheckResponseData (data : list Z) (st : StunRequestManager) : option (bool * StunRequestManager) :=
  if zlen data <? 20 then Some (false, st)
  else
    let id := ztake kStunTransactionIdLength (zdrop kStunTransactionIdOffset data) in
    match requests_ st !! id with
    | None => Some (false, st)
    | Some a =>
        r ← objects st !! a;
        let '(ok, (response, _)) :=
          Read (StunMessage_new (m_class (r_msg r)), ByteBuffer_of data ORDER_NETWORK) in
        match ok with
        | Some true => CheckResponse response st
        | _ => Some (false, st)
        end
    end.

Definition OnMessage (a now : Z) (st : StunRequestManager) : option StunRequestManager :=
  r ← objects st !! a;
  if timeout_ r then delete_request a (emit a (OnTimeout now) st)
  else
    let buf := (Write (r_msg r) (ByteBuffer_new ORDER_NETWORK)).2 in
    let st := emit a (Sent (Data buf) now) st in
    let '(delay, count, timeout) := GetNextDelay (r_kind r) (count_ r) (timeout_ r) in
    let r := mkRequest (r_kind r) count timeout (has_manager r) (r_msg r) now in
    Some (set_thread (PostDelayed delay a MSG_STUN_SEND 0 now) (set_objects <[a := r]> st)).

Definition manager_empty (st : StunRequestManager) : bool := bool_decide (requests_ st = ∅).

(** The thread takes the next message, if one is due, and dispatches it. *)
Definition dispatch (now : Z) (st : StunRequestManager) : option StunRequestManager :=
  '(r, _, q) ← Get 0 now [mkRound true [] now] (thread_ st);
  let st := set_thread (λ _, q) st in
  match r with
  | Some m => OnMessage (phandler m) now st
  | None => Some st
  end.
End requests.

(** ** Uses of a manager *)

Section runs.
Context `{Platform} {K : Type} `{RequestClass K}.
Implicit Types st : StunRequestManager (K := K).

Inductive stun_op :=
  | ONew (a : Z) (k : K) (msg : StunMessage) (random : list Z)
  | OSendDelayed (a delay now : Z)
  | ORemove (a : Z)
  | ODelete (a : Z)
  | OClear
  | OMessage (msg : StunMessage)
  | OData (data : list Z)
  | ODispatch (now : Z).
Definition stun_step (o : stun_op) st : option StunRequestManager :=
  match o with
  | ONew a k msg random => Some (new_request a k msg random st)
  | OSendDelayed a delay now => SendDelayed a delay now st
  | ORemove a => Remove a st
  | ODelete a => delete_request a st
  | OClear => StunRequestManager_Clear st
  | OMessage msg => snd <$> CheckResponse msg st
  | OData data => snd <$> CheckResponseData data st
  | ODispatch now => dispatch now st
  end.
Fixpoint stun_run (ops : list stun_op) st : option StunRequestManager :=
  match ops with
  | [] => Some st
  | o :: ops => st ← stun_step o st; stun_run ops st
  end.
Definition events_of (a : Z) (l : list (Z * event (K := K))) : list event := (filter (λ p, p.1 = a) l).*2.

(** What the owner of the requests does: new objects are at new addresses and have
    transaction ids of their own; a request is sent once; only existing ones are
    removed and deleted. *)
Definition stun_op_ok st (o : stun_op) : Prop :=
  match o with
  | ONew a k msg random =>
      a ≠ 0 ∧ objects st !! a = None ∧ events_of a (log st) = [] ∧
      map_Forall (λ _ r, req_id r ≠ (SetTransactionID msg random).2.(m_transaction_id)) (objects st)
  | OSendDelayed a _ _ => match objects st !! a with Some r => has_manager r = false | None => False end
  | ORemove a | ODelete a => is_Some (objects st !! a)
  | _ => True
  end.
Fixpoint stun_ops_ok (ops : list stun_op) st : Prop :=
  match ops with
  | [] => True
  | o :: ops => stun_op_ok st o ∧ match stun_step o st with Some st => stun_ops_ok ops st | None => True end
  end.

(** Decided, for concrete runs. *)
Definition stun_op_okb st (o : stun_op) : bool :=
  match o with
  | ONew a k msg random =>
      negb (a =? 0) && match objects st !! a with None => true | Some _ => false end &&
      match events_of a (log st) with [] => true | _ => false end &&
      bool_decide (map_Forall (λ _ r, req_id r ≠ (SetTransactionID msg random).2.(m_transaction_id)) (objects st))
  | OSendDelayed a _ _ => match objects st !! a with Some r => negb (has_manager r) | None => false end
  | ORemove a | ODelete a => match objects st !! a with Some _ => true | None => false end
  | _ => true
  end.
Fixpoint stun_ops_okb (ops : list stun_op) st : bool :=
  match ops with
  | [] => true
  | o :: ops => stun_op_okb st o && match stun_step o st with Some st => stun_ops_okb ops st | None => true end
  end.
Lemma stun_op_okb_ok st o : stun_op_okb st o = true → stun_op_ok st o.
Proof.
  destruct o; cbn; try done; destruct (objects st !! a); try done; [by rewrite !andb_false_r|..].
  - rewrite !andb_true_iff, negb_true_iff, Z.eqb_neq. intros [[[? _] He] Hm]. split_and!; [done|done| |].
    + by destruct (events_of a (log st)).
    + by apply bool_decide_eq_true in Hm.
  - by destruct (has_manager _).
Qed.
Lemma stun_ops_okb_ok ops st : stun_ops_okb ops st = true → stun_ops_ok ops st.
Proof.
  revert st. induction ops as [|o ops IH]; intros st; cbn [stun_ops_okb stun_ops_ok]; [done|].
  intros [Ho Hos]%andb_true_iff. split; [by apply stun_op_okb_ok|]. destruct (stun_step o st); auto.
Qed.
End runs.

(** ** The classes keep the laws *)

Lemma StunRequest_GetNextDelay_count n : 0 ≤ n < MAX_SENDS →
  let '(delay, count, timeout) := StunRequest_GetNextDelay n false in
  0 ≤ delay < HALF ∧ timeout = (n + 1 =? MAX_SENDS) ∧ (timeout = false → count = n + 1).
Proof.
  intros Hn. unfold MAX_SENDS in Hn.
  assert (n = 0 ∨ n = 1 ∨ n = 2 ∨ n = 3 ∨ n = 4 ∨ n = 5 ∨ n = 6 ∨ n = 7 ∨ n = 8) as Hc by lia.
  by destruct_or! Hc; subst n.
Qed.
#[export] Program Instance BaseRequest_laws : RequestLaws BaseRequest := {| max_sends _ := MAX_SENDS |}.
Next Obligation. done. Qed.
Next Obligation. done. Qed.
Next Obligation. intros [] n. apply StunRequest_GetNextDelay_count. Qed.
#[export] Program Instance AllocateRequest_laws : RequestLaws AllocateRequest := {| max_sends _ := 5 |}.
Next Obligation. intros k m. unfold Prepare, AllocateRequest_class, AllocateRequest_Prepare. by rewrite AddAttribute_id. Qed.
Next Obligation. done. Qed.
Next Obligation.
  intros k n Hn. assert (n = 0 ∨ n = 1 ∨ n = 2 ∨ n = 3 ∨ n = 4) as Hc by lia. by destruct_or! Hc; subst n.
Qed.

(** ** Invariant *)

Section safety.
Context `{Platform} {K : Type} `{RequestLaws K}.
Implicit Types st : StunRequestManager (K := K).

(** The timers of the requests in the map. *)
Definition timer (a : Z) : Message := mkMsg a MSG_STUN_SEND 0 0.
Definition timers (m : gmap (list Z) Z) : list Message := timer <$> (map_to_list m).*2.

Record mgr_base st : Prop := {
  base_stop : fStop_ (thread_ st) = false;
  base_peek : msgPeek_ (thread_ st) = None;
  base_addr : ∀ a r, objects st !! a = Some r → a ≠ 0;
  base_ids : ∀ a b r s, objects st !! a = Some r → objects st !! b = Some s → req_id r = req_id s → a = b;
  base_map : ∀ id a, requests_ st !! id = Some a → ∃ r, objects st !! a = Some r ∧ req_id r = id ∧ has_manager r = true
}.

(** Each request in the map has exactly one timer, and no other message is in the queue. *)
Definition mgr_ok st : Prop := mgr_base st ∧ queue_messages (thread_ st) ≡ₚ timers (requests_ st).

Lemma bfilter_perm {A} (f : A → bool) (l k : list A) : l ≡ₚ k → List.filter f l ≡ₚ List.filter f k.
Proof.
  induction 1 as [|x l k _ IH|x y l|l k j _ IH1 _ IH2]; cbn; [done| | |by etrans].
  - destruct (f x); by rewrite IH.
  - destruct (f x), (f y); try done. by constructor.
Qed.
Lemma match_timer a b : a ≠ 0 → Match (timer b) a MQID_ANY = bool_decide (a = b).
Proof.
  intros Ha. unfold Match, timer. cbn [phandler message_id]. rewrite (proj2 (Z.eqb_neq a 0)) by done. cbn.
  rewrite andb_true_r. by destruct (Z.eqb_spec a b), (bool_decide_reflect (a = b)).
Qed.
Lemma timers_delete m id a : m !! id = Some a → timers m ≡ₚ timer a :: timers (delete id m).
Proof. intros E. unfold timers. by rewrite <- (map_to_list_delete m id a E). Qed.
Lemma timers_insert m id a : m !! id = None → timers (<[id := a]> m) ≡ₚ timer a :: timers m.
Proof. intros E. unfold timers. by rewrite map_to_list_insert. Qed.
Lemma timers_none m a : a ≠ 0 → (∀ id b, m !! id = Some b → b ≠ a) →
  List.filter (λ x, negb (Match x a MQID_ANY)) (timers m) = timers m.
Proof.
  intros Ha Hm. apply filter_every. unfold timers. rewrite !Forall_fmap. apply Forall_forall. intros [id b] Hin. cbn.
  apply elem_of_map_to_list in Hin. rewrite match_timer by done. rewrite bool_decide_eq_false_2; [done|].
  intros ->. by eapply Hm.
Qed.
(** Without the request itself, its timer is removed by clearing the queue for it. *)
Lemma timers_clear m id a : a ≠ 0 → m !! id = Some a → (∀ id' b, m !! id' = Some b → b = a → id' = id) →
  List.filter (λ x, negb (Match x a MQID_ANY)) (timers m) ≡ₚ timers (delete id m).
Proof.
  intros Ha E Hu. rewrite (bfilter_perm _ _ _ (timers_delete m id a E)). cbn [List.filter].
  rewrite match_timer, bool_decide_eq_true_2 by done. cbn [negb]. rewrite timers_none; [done..|].
  intros id' b E' ->. apply lookup_delete_Some in E' as [Hne E']. by apply Hne, eq_sym, (Hu id' a).
Qed.
Lemma filter_twice {A} (f : A → bool) l : List.filter f (List.filter f l) = List.filter f l.
Proof. induction l as [|x l IH]; cbn; [done|]. destruct (f x) eqn:E; cbn; by rewrite ?E, IH. Qed.
Lemma clear_handler_messages a q :
  queue_messages (clear_handler a q) = List.filter (λ x, negb (Match x a MQID_ANY)) (queue_messages q).
Proof. apply Clear_messages. Qed.
Lemma clear_handler_flags a q : msgPeek_ q = None →
  fStop_ (clear_handler a q) = fStop_ q ∧ msgPeek_ (clear_handler a q) = None.
Proof. intros E. unfold clear_handler, MessageQueue_Clear. cbn. by rewrite E. Qed.

Lemma delete_request_eq a r st : mgr_base st → objects st !! a = Some r →
  ∃ q, delete_request a st = Some (mkManager (delete (req_id r) (requests_ st)) (delete a (objects st)) q (log st)) ∧
    queue_messages q = List.filter (λ x, negb (Match x a MQID_ANY)) (queue_messages (thread_ st)) ∧
    fStop_ q = false ∧ msgPeek_ q = None.
Proof.
  intros [Hs Hp Ha Hi Hm] E. unfold delete_request. rewrite E. cbn [mbind option_bind].
  destruct (clear_handler_flags a (thread_ st) Hp) as [Es1 Ep1].
  destruct (clear_handler_flags a _ Ep1) as [Es2 Ep2]. destruct (clear_handler_flags a _ Ep2) as [Es3 Ep3].
  destruct (requests_ st !! req_id r) as [b|] eqn:Er.
  - destruct (Hm _ _ Er) as (s & Eb & Ei & Hman). assert (b = a) as -> by (by eapply Hi). simplify_eq.
    rewrite Hman. unfold Remove. rewrite E. cbn [mbind option_bind]. rewrite Er.
    exists (clear_handler a (clear_handler a (clear_handler a (thread_ st)))). split; [reflexivity|]. rewrite !clear_handler_messages, !filter_twice. by rewrite Es3, Es2, Es1.
  - rewrite (delete_id _ _ Er). destruct (has_manager r).
    + unfold Remove. rewrite E. cbn [mbind option_bind]. rewrite Er.
      exists (clear_handler a (clear_handler a (thread_ st))). split; [reflexivity|].
      rewrite !clear_handler_messages, !filter_twice. by rewrite Es2, Es1.
    + exists (clear_handler a (thread_ st)). split; [reflexivity|]. rewrite clear_handler_messages. by rewrite Es1.
Qed.

Lemma base_delete a r st q : mgr_base st → objects st !! a = Some r → fStop_ q = false → msgPeek_ q = None →
  mgr_base (mkManager (delete (req_id r) (requests_ st)) (delete a (objects st)) q (log st)).
Proof.
  intros [Hs Hp Ha Hi Hm] E Eq Ep. split; cbn; [done|done|..].
  - intros b s [_ Eb]%lookup_delete_Some. by eapply Ha.
  - intros b c s t [_ Eb]%lookup_delete_Some [_ Ec]%lookup_delete_Some. by apply Hi.
  - intros id b [Hne Eb]%lookup_delete_Some. destruct (Hm _ _ Eb) as (s & Es & Ei & Hman). exists s.
    split_and!; [|done|done]. apply lookup_delete_Some. split; [|done]. intros ->. simplify_eq.
Qed.
Lemma base_emit a e st : mgr_base st → mgr_base (emit a e st).
Proof. by intros []; split. Qed.
Lemma base_unique a id id' st : mgr_base st → requests_ st !! id = Some a → requests_ st !! id' = Some a → id' = id.
Proof. intros Hb E E'. destruct (base_map _ Hb _ _ E) as (r & ? & ? & _), (base_map _ Hb _ _ E') as (r' & ? & ? & _). by simplify_eq. Qed.

Lemma delete_request_ok a r st : mgr_ok st → objects st !! a = Some r →
  ∃ q, delete_request a st = Some (mkManager (delete (req_id r) (requests_ st)) (delete a (objects st)) q (log st)) ∧
    mgr_ok (mkManager (delete (req_id r) (requests_ st)) (delete a (objects st)) q (log st)).
Proof.
  intros [Hb Ht] E. destruct (delete_request_eq a r st Hb E) as (q & Ed & Eq & Es & Ep). exists q. split; [done|].
  split; [by apply base_delete|]. cbn. rewrite Eq, (bfilter_perm _ _ _ Ht). pose proof (base_addr _ Hb _ _ E) as Ha.
  destruct (requests_ st !! req_id r) as [b|] eqn:Er.
  - destruct (base_map _ Hb _ _ Er) as (s & Eb & Ei & _). assert (b = a) as -> by (by eapply (base_ids _ Hb)).
    apply timers_clear; [done|done|]. intros id' b' E' ->. by eapply base_unique.
  - rewrite (delete_id _ _ Er), timers_none; [done..|]. intros id b E' ->.
    destruct (base_map _ Hb _ _ E') as (s & Eb & Ei & _). simplify_eq.
Qed.

(** A due timer is taken out of the queue. *)
Lemma take_timer now st : mgr_ok st → ∃ m ws q,
  Get 0 now [mkRound true [] now] (thread_ st) = Some (m, ws, q) ∧
  fStop_ q = false ∧ msgPeek_ q = None ∧
  match m with
  | None => queue_messages q ≡ₚ timers (requests_ st)
  | Some m => ∃ r, objects st !! phandler m = Some r ∧ requests_ st !! req_id r = Some (phandler m) ∧
      queue_messages q ≡ₚ timers (delete (req_id r) (requests_ st))
  end.
Proof.
  intros [Hb Ht]. rewrite Get_now by apply Hb.
  assert (Forall (λ m, message_id m ≠ MQID_DISPOSE) (queue_messages (thread_ st))) as Hlive.
  { rewrite Ht. unfold timers. rewrite Forall_fmap. apply Forall_true. done. }
  pose proof (get_pass_messages now _ Hlive) as Hg. destruct (get_pass now (thread_ st)) as [[r n] q].
  destruct Hg as (Hg & Es & Ep). eexists r, _, q. split; [done|]. rewrite Es, Ep. split; [apply Hb|]. split; [apply Hb|].
  rewrite Ht in Hg. destruct r as [m|]; [|done]. cbn in Hg.
  assert (m ∈ timers (requests_ st)) as Hin by (rewrite Hg; set_solver).
  unfold timers in Hin. rewrite <- list_fmap_compose in Hin. apply list_elem_of_fmap in Hin as ([id a] & -> & Hin).
  apply elem_of_map_to_list in Hin. destruct (base_map _ Hb _ _ Hin) as (r & Er & <- & _). cbn. exists r.
  split_and!; [done|done|]. rewrite (timers_delete _ _ _ Hin) in Hg. by apply Permutation_cons_inv in Hg.
Qed.

(** ** The history of a request *)

Definition is_sent (e : event (K := K)) : bool := match e with Sent _ _ => true | _ => false end.

(** A request that exists was sent [zlen l] times, and has ended in no way. *)
Definition live_trace (r : StunRequest (K := K)) (evs : list event) : Prop :=
  ∃ l, evs = Created (r_kind r) :: l ∧ Forall is_sent l ∧
    if timeout_ r then zlen l = max_sends (r_kind r) else zlen l = count_ r ∧ zlen l < max_sends (r_kind r).

(** A request that is gone ended at most once; by a timeout only after all its sendings. *)
Definition ended_trace (evs : list event) : Prop :=
  ∃ k l out, evs = Created k :: l ++ out ∧ Forall is_sent l ∧ zlen l ≤ max_sends k ∧
    match out with
    | [] | [OnResponse _] | [OnErrorResponse _] => True
    | [OnTimeout _] => zlen l = max_sends k
    | _ => False
    end.

Definition traces (objs : gmap Z (StunRequest (K := K))) (l : list (Z * event (K := K))) : Prop :=
  ∀ a, match objs !! a with
       | Some r => live_trace r (events_of a l)
       | None => events_of a l = [] ∨ ended_trace (events_of a l)
       end.

Lemma events_snoc a b (e : event (K := K)) l :
  events_of a (l ++ [(b, e)]) = if decide (b = a) then events_of a l ++ [e] else events_of a l.
Proof.
  unfold events_of. rewrite filter_app, fmap_app, filter_cons, filter_nil. cbn.
  destruct (decide (b = a)); cbn; [done|]. by rewrite app_nil_r.
Qed.
Lemma live_bound r evs : live_trace r evs → ∃ l, evs = Created (r_kind r) :: l ∧ Forall is_sent l ∧ zlen l ≤ max_sends (r_kind r).
Proof. intros (l & E & Hl & Ht). exists l. split_and!; [done|done|]. destruct (timeout_ r); lia. Qed.

Lemma traces_delete objs l a r : traces objs l → objs !! a = Some r → traces (delete a objs) l.
Proof.
  intros Ht E b. specialize (Ht b). destruct (decide (a = b)) as [->|Hne]; [|by rewrite lookup_delete_ne].
  rewrite lookup_delete_eq. rewrite E in Ht. right. destruct (live_bound _ _ Ht) as (k & -> & Hk & Hb).
  exists (r_kind r), k, []. by rewrite app_nil_r.
Qed.
Definition final (e : event (K := K)) (r : StunRequest (K := K)) : Prop :=
  match e with OnResponse _ | OnErrorResponse _ => True | OnTimeout _ => timeout_ r = true | _ => False end.
Lemma traces_end objs l a r e : traces objs l → objs !! a = Some r → final e r →
  traces (delete a objs) (l ++ [(a, e)]).
Proof.
  intros Ht E He b. specialize (Ht b). rewrite events_snoc. destruct (decide (a = b)) as [->|Hne].
  - rewrite lookup_delete_eq. rewrite E in Ht. right. pose proof Ht as (k & Ek & Hk & Hc).
    destruct (live_bound _ _ Ht) as (k' & Ek' & _ & Hb). rewrite Ek in Ek'. injection Ek' as <-.
    exists (r_kind r), k, [e]. rewrite Ek. split_and!; [done|done|done|].
    destruct e; cbn in He; try done. by rewrite He in Hc.
  - by rewrite lookup_delete_ne.
Qed.
Lemma traces_send objs l a r r' p now : traces objs l → objs !! a = Some r → timeout_ r = false →
  r_kind r' = r_kind r → (count_ r', timeout_ r') = (let '(_, c, t) := GetNextDelay (r_kind r) (count_ r) false in (c, t)) →
  traces (<[a := r']> objs) (l ++ [(a, Sent p now)]).
Proof.
  intros Ht E Et Ek Ec b. specialize (Ht b). rewrite events_snoc. destruct (decide (a = b)) as [->|Hne].
  - rewrite lookup_insert_eq. rewrite E in Ht. destruct Ht as (k & -> & Hk & Hc). rewrite Et in Hc. destruct Hc as [Hc Hm].
    pose proof (zlen_nonneg k). pose proof (GetNextDelay_count (r_kind r) (count_ r)) as Hd.
    destruct (GetNextDelay _ _ _) as [[d c] t]. destruct Hd as (_ & Ht & Hcount); [lia|].
    exists (k ++ [Sent p now]). rewrite Ek. split_and!; [done|apply Forall_app; split; [done|by constructor]|].
    injection Ec as -> ->. rewrite zlen_app, zlen_cons, zlen_nil. rewrite Ht in *.
    destruct (Z.eqb_spec (count_ r + 1) (max_sends (r_kind r))); [lia|]. rewrite Hcount by done. lia.
  - by rewrite lookup_insert_ne.
Qed.
Lemma traces_update objs l a r r' : traces objs l → objs !! a = Some r →
  r_kind r' = r_kind r → count_ r' = count_ r → timeout_ r' = timeout_ r → traces (<[a := r']> objs) l.
Proof.
  intros Ht E Ek Ec Eo b. specialize (Ht b). destruct (decide (a = b)) as [->|Hne]; [|by rewrite lookup_insert_ne].
  rewrite lookup_insert_eq. rewrite E in Ht. unfold live_trace. by rewrite Ek, Ec, Eo.
Qed.
Lemma traces_new objs l a k m random : traces objs l → objs !! a = None → events_of a l = [] →
  traces (<[a := StunRequest_new k m random]> objs) (l ++ [(a, Created k)]).
Proof.
  intros Ht E El b. specialize (Ht b). rewrite events_snoc. destruct (decide (a = b)) as [->|Hne]; [|by rewrite lookup_insert_ne].
  rewrite lookup_insert_eq, El. exists []. cbn. split_and!; [done|done|done|]. apply max_sends_pos.
Qed.

(** ** Every operation keeps the invariant *)

Definition mgr_inv st : Prop := mgr_ok st ∧ traces (objects st) (log st).

Lemma ok_emit a e st : mgr_ok st → mgr_ok (emit a e st).
Proof. intros [Hb Ht]. split; [by apply base_emit|done]. Qed.

Lemma new_request_inv a k m random st : stun_op_ok st (ONew a k m random) → mgr_inv st → mgr_inv (new_request a k m random st).
Proof.
  intros (Ha & E & El & Hids) [[[Hs Hp Hn Hi Hm] Ht] Htr]. split; [split; [split; cbn; try done|done]|by apply traces_new].
  - intros b r [[-> _]|[_ Eb]]%lookup_insert_Some; [done|]. by eapply Hn.
  - intros b c r s [[<- <-]|[Hb Eb]]%lookup_insert_Some [[<- <-]|[Hc Ec]]%lookup_insert_Some Ers; [done|..].
    + by destruct (Hids _ _ Ec).
    + by destruct (Hids _ _ Eb).
    + by eapply Hi.
  - intros id b Eb. destruct (Hm _ _ Eb) as (r & Er & ?). exists r. split; [|done]. apply lookup_insert_Some. right.
    split; [|done]. intros ->. congruence.
Qed.

Lemma Construct_fields (r : StunRequest (K := K)) : req_id (StunRequest_Construct (set_manager r)) = req_id r ∧
  r_kind (StunRequest_Construct (set_manager r)) = r_kind r ∧ count_ (StunRequest_Construct (set_manager r)) = count_ r ∧
  timeout_ (StunRequest_Construct (set_manager r)) = timeout_ r ∧ has_manager (StunRequest_Construct (set_manager r)) = true.
Proof. unfold StunRequest_Construct. destruct (_ =? _); cbn; [|done]. unfold req_id. cbn. by rewrite Prepare_id. Qed.

(** Replacing an object by one with the same id keeps the base. *)
Lemma base_update a r r' st : mgr_base st → objects st !! a = Some r → req_id r' = req_id r →
  (has_manager r = true → has_manager r' = true) → mgr_base (set_objects <[a := r']> st).
Proof.
  intros [Hs Hp Hn Hi Hm] E Ei Hman. split; cbn; try done.
  - intros b s [[-> _]|[_ Eb]]%lookup_insert_Some; by eapply Hn.
  - intros b c s t [[<- <-]|[Hb Eb]]%lookup_insert_Some [[<- <-]|[Hc Ec]]%lookup_insert_Some Ers; [done|..];
      eapply Hi; try done; congruence.
  - intros id b Eb. destruct (Hm _ _ Eb) as (s & Es & Eid & Hsm). destruct (decide (a = b)) as [->|Hne].
    + exists r'. rewrite lookup_insert_eq. simplify_eq. auto.
    + exists s. by rewrite lookup_insert_ne.
Qed.

Lemma PostDelayed_flags cms h id data now q :
  fStop_ (PostDelayed cms h id data now q) = fStop_ q ∧ msgPeek_ (PostDelayed cms h id data now q) = msgPeek_ q.
Proof. unfold PostDelayed, DoDelayPost. by destruct (fStop_ q) eqn:E. Qed.

Lemma SendDelayed_inv a delay now st : stun_op_ok st (OSendDelayed a delay now) → mgr_inv st →
  ∃ st', SendDelayed a delay now st = Some st' ∧ mgr_inv st'.
Proof.
  intros Hok [[Hb Ht] Htr]. unfold SendDelayed. cbn in Hok. destruct (objects st !! a) as [r|] eqn:E; [|done].
  cbn [mbind option_bind]. destruct (Construct_fields r) as (Ei & Ek & Ec & Eo & Em).
  set (r' := StunRequest_Construct (set_manager r)) in *. eexists. split; [reflexivity|].
  assert (requests_ st !! req_id r' = None) as En.
  { rewrite Ei. destruct (requests_ st !! req_id r) as [b|] eqn:Er; [|done].
    destruct (base_map _ Hb _ _ Er) as (s & Es & Eid & Hs). assert (b = a) as -> by (by eapply (base_ids _ Hb)). simplify_eq. congruence. }
  destruct (PostDelayed_flags delay a MSG_STUN_SEND 0 now (thread_ st)) as [Fs Fp].
  pose proof (base_update a r r' st Hb E Ei ltac:(auto)) as [Hs' Hp' Hn' Hi' Hm'].
  split; [split|by eapply traces_update].
  - split; cbn; [by rewrite Fs|by rewrite Fp|done|done|]. intros id b [[<- <-]|[Hne Eb]]%lookup_insert_Some.
    + exists r'. by rewrite lookup_insert_eq.
    + by apply Hm'.
  - cbn. rewrite PostDelayed_messages by apply Hb. rewrite timers_insert by done. by rewrite Ht.
Qed.

Lemma Remove_inv a st : is_Some (objects st !! a) → mgr_inv st → ∃ st', Remove a st = Some st' ∧ mgr_inv st'.
Proof.
  intros [r E] [[Hb Ht] Htr]. unfold Remove. rewrite E. cbn [mbind option_bind].
  destruct (requests_ st !! req_id r) as [b|] eqn:Er; [|by exists st].
  destruct (base_map _ Hb _ _ Er) as (s & Es & Eid & Hs). assert (b = a) as -> by (by eapply (base_ids _ Hb)).
  eexists. split; [reflexivity|]. destruct (clear_handler_flags a (thread_ st) (base_peek _ Hb)) as [_ Fp].
  split; [split; [split; [apply Hb|exact Fp|apply Hb|apply Hb|]|]|done].
  - cbn. intros id b [_ Eb]%lookup_delete_Some. by apply (base_map _ Hb).
  - cbn [thread_ set_thread set_requests requests_]. rewrite clear_handler_messages, (bfilter_perm _ _ _ Ht).
    apply timers_clear; [by eapply base_addr|done|]. intros id' b' E' ->. by eapply base_unique.
Qed.
Lemma delete_inv a st : is_Some (objects st !! a) → mgr_inv st → ∃ st', delete_request a st = Some st' ∧ mgr_inv st' ∧
  objects st' = delete a (objects st).
Proof.
  intros [r E] [Hok Htr]. destruct (delete_request_ok a r st Hok E) as (q & Ed & Hok'). eexists. split; [exact Ed|].
  split; [|done]. split; [done|]. by eapply traces_delete.
Qed.
Lemma end_inv a r e st : objects st !! a = Some r → final e r → mgr_inv st →
  ∃ st', delete_request a (emit a e st) = Some st' ∧ mgr_inv st'.
Proof.
  intros E He [Hok Htr]. destruct (delete_request_ok a r (emit a e st) (ok_emit a e st Hok) E) as (q & Ed & Hok').
  eexists. split; [exact Ed|]. split; [done|]. by eapply traces_end.
Qed.

Lemma delete_all_inv l st : NoDup l → Forall (λ a, is_Some (objects st !! a)) l → mgr_inv st →
  ∃ st', delete_all l st = Some st' ∧ mgr_inv st'.
Proof.
  intros Hd. revert st. induction Hd as [|a l Ha Hd IH]; intros st Hl Hst; [by exists st|].
  apply Forall_cons in Hl as [Hla Hl]. destruct (delete_inv a st Hla Hst) as (st1 & E1 & H1' & Eo).
  cbn. rewrite E1. cbn. apply IH; [|done]. apply Forall_forall. intros b Hb. rewrite Eo.
  rewrite lookup_delete_ne by set_solver. by eapply Forall_forall in Hl.
Qed.
Lemma values_distinct st : mgr_base st → NoDup (map_to_list (requests_ st)).*2.
Proof.
  intros Hb. apply NoDup_fmap_2_strong; [|apply NoDup_map_to_list].
  intros [i a] [j b] Hi Hj. cbn. intros ->. apply elem_of_map_to_list in Hi, Hj. by rewrite (base_unique b i j st).
Qed.
Lemma Clear_inv st : mgr_inv st → ∃ st', StunRequestManager_Clear st = Some st' ∧ mgr_inv st'.
Proof.
  intros Hst. pose proof Hst as [[Hb _] _]. apply delete_all_inv; [by apply values_distinct| |done].
  apply Forall_fmap, Forall_forall. intros [id a] Hin%elem_of_map_to_list. cbn.
  destruct (base_map _ Hb _ _ Hin) as (r & -> & _). by eexists.
Qed.
Lemma CheckResponse_inv msg st : mgr_inv st → ∃ ok st', CheckResponse msg st = Some (ok, st') ∧ mgr_inv st'.
Proof.
  intros Hst. pose proof Hst as [[Hb _] _]. unfold CheckResponse.
  destruct (requests_ st !! _) as [a|] eqn:Er; [|by eexists _, _].
  destruct (base_map _ Hb _ _ Er) as (r & E & _). rewrite E. cbn [mbind option_bind].
  destruct (_ =? _); [|destruct (_ =? _); [|by eexists _, _]];
    (edestruct (end_inv a r) as (st' & -> & Hst'); [done|exact I|done|by eexists _, st']).
Qed.
Lemma CheckResponseData_inv data st : mgr_inv st → ∃ ok st', CheckResponseData data st = Some (ok, st') ∧ mgr_inv st'.
Proof.
  intros Hst. pose proof Hst as [[Hb _] _]. unfold CheckResponseData.
  destruct (_ <? _); [by eexists _, _|]. destruct (requests_ st !! _) as [a|] eqn:Er; [|by eexists _, _].
  destruct (base_map _ Hb _ _ Er) as (r & E & _). rewrite E. cbn [mbind option_bind].
  destruct (Read _) as [[[|]|] [m b]]; [by apply CheckResponse_inv|by eexists _, _..].
Qed.

Lemma OnMessage_inv a r q now st : mgr_inv st → objects st !! a = Some r → requests_ st !! req_id r = Some a →
  fStop_ q = false → msgPeek_ q = None → queue_messages q ≡ₚ timers (delete (req_id r) (requests_ st)) →
  ∃ st', OnMessage a now (set_thread (λ _, q) st) = Some st' ∧ mgr_inv st'.
Proof.
  intros [[Hb Ht] Htr] E Er Es Ep Hq. unfold OnMessage. cbn [objects set_thread]. rewrite E. cbn [mbind option_bind].
  assert (mgr_base (set_thread (λ _, q) st)) as Hb' by (destruct Hb; by split).
  destruct (timeout_ r) eqn:Et.
  - destruct (delete_request_eq a r (emit a (OnTimeout now) (set_thread (λ _, q) st)) (base_emit _ _ _ Hb') E)
      as (q' & Ed & Eq & Es' & Ep'). eexists. split; [exact Ed|].
    split; [split; [by apply (base_delete a r (emit a (OnTimeout now) (set_thread (λ _, q) st))); [by apply base_emit|..]|]|].
    + cbn in *. rewrite Eq, (bfilter_perm _ _ _ Hq), timers_none; [done|by eapply base_addr|].
      intros id b [Hne Eb]%lookup_delete_Some ->. by apply Hne, (base_unique a id (req_id r) st).
    + by apply (traces_end _ _ _ r).
  - pose proof (traces_send (objects st) (log st) a r) as Hsend.
    destruct (GetNextDelay (r_kind r) (count_ r) false) as [[delay count] timeout].
    eexists. split; [reflexivity|]. set (r' := mkRequest _ _ _ _ _ _) in *.
    destruct (PostDelayed_flags delay a MSG_STUN_SEND 0 now q) as [Fs Fp].
    pose proof (base_update a r r' _ Hb' E eq_refl ltac:(auto)) as [Hs' Hp' Hn' Hi' Hm'].
    split; [split; [split; cbn; [by rewrite Fs|by rewrite Fp|done..]|]|by apply Hsend].
    cbn. rewrite PostDelayed_messages by done. rewrite Hq. symmetry. by apply timers_delete.
Qed.
Lemma dispatch_inv now st : mgr_inv st → ∃ st', dispatch now st = Some st' ∧ mgr_inv st'.
Proof.
  intros Hst. pose proof Hst as [Hok Htr]. unfold dispatch.
  destruct (take_timer now st Hok) as (m & ws & q & -> & Es & Ep & Hm). cbn [mbind option_bind].
  destruct m as [m|].
  - destruct Hm as (r & E & Er & Hq). by eapply OnMessage_inv.
  - eexists. split; [reflexivity|]. destruct Hok as [[] _]. by split.
Qed.

Lemma stun_step_inv o st : stun_op_ok st o → mgr_inv st → ∃ st', stun_step o st = Some st' ∧ mgr_inv st'.
Proof.
  intros Ho Hst. destruct o; cbn [stun_step].
  - eexists. split; [done|]. by apply new_request_inv.
  - by apply SendDelayed_inv.
  - by apply Remove_inv.
  - destruct (delete_inv a st Ho Hst) as (st' & ? & ? & _). eauto.
  - by apply Clear_inv.
  - destruct (CheckResponse_inv msg st Hst) as (ok & st' & -> & ?). cbn. eauto.
  - destruct (CheckResponseData_inv data st Hst) as (ok & st' & -> & ?). cbn. eauto.
  - by apply dispatch_inv.
Qed.
Lemma stun_run_inv ops st : stun_ops_ok ops st → mgr_inv st → ∃ st', stun_run ops st = Some st' ∧ mgr_inv st'.
Proof.
  revert st. induction ops as [|o ops IH]; intros st Ho Hst; [by exists st|]. destruct Ho as [Ho Hos].
  destruct (stun_step_inv o st Ho Hst) as (st1 & E1 & H1'). cbn. rewrite E1 in *. cbn. by apply IH.
Qed.
Lemma new_inv : mgr_inv StunRequestManager_new.
Proof. split; [split; [by split|done]|]. intros a. by left. Qed.

(** ** Responses *)

Lemma response_types t : IsStunRequestType t = true →
  GetStunSuccessResponseType t = t + 256 ∧ GetStunErrorResponseType t = t + 272.
Proof.
  intros Ht. unfold GetStunSuccessResponseType, GetStunErrorResponseType. rewrite Ht.
  unfold IsStunRequestType, kStunTypeMask in Ht. apply Z.eqb_eq in Ht.
  assert (∀ b, Z.land 272 b = b → Z.lor t b = t + b) as Hadd; [|by split; apply Hadd].
  intros b Hb. assert (Z.land t b = 0) as E by (rewrite <- Hb, Z.land_assoc, Ht; done).
  rewrite Z.add_nocarry_lxor by done. symmetry. by apply Z.lxor_lor.
Qed.
Lemma wire_id m : zlen (m_transaction_id m) = 12 →
  ztake kStunTransactionIdLength (zdrop kStunTransactionIdOffset (msg_wire m)) = m_transaction_id m ∧ 20 ≤ zlen (msg_wire m).
Proof.
  intros Hid. unfold msg_wire, header_id. rewrite Hid.
  replace (12 =? kStunLegacyTransactionIdLength) with false by done. unfold cookie_bytes.
  set (rest := concat _). pose proof (zlen_nonneg rest). split; [|zlia].
  rewrite !app_assoc. rewrite <- (app_assoc _ (m_transaction_id m)).
  rewrite zdrop_app_exact by (unfold kStunTransactionIdOffset; zlia). by rewrite ztake_app_exact.
Qed.

(** The answer of a server: the type of the request with the bits of a response or an error. *)
Definition answer (r : StunRequest (K := K)) (m : StunMessage) (e : event (K := K)) : Prop :=
  IsStunRequestType (m_type (r_msg r)) = true ∧
  (m_type m = m_type (r_msg r) + 256 ∧ e = OnResponse m ∨ m_type m = m_type (r_msg r) + 272 ∧ e = OnErrorResponse m).

Lemma CheckResponse_answer a r m e st : mgr_inv st → requests_ st !! m_transaction_id m = Some a →
  objects st !! a = Some r → answer r m e →
  ∃ q, let st' := mkManager (delete (m_transaction_id m) (requests_ st)) (delete a (objects st)) q (log st ++ [(a, e)]) in
    CheckResponse m st = Some (true, st') ∧ mgr_inv st'.
Proof.
  intros [Hok Htr] Er E (Hreq & Hans). unfold CheckResponse. rewrite Er, E. cbn [mbind option_bind].
  destruct (response_types _ Hreq) as [-> ->].
  destruct (base_map _ (proj1 Hok) _ _ Er) as (s & Es & Eid & _).
  assert (s = r) as -> by congruence.
  destruct (delete_request_ok a r (emit a e st) (ok_emit a e st Hok) E) as (q & Ed & Hok').
  exists q. rewrite <- Eid. cbn. split; [|split; [exact Hok'|]].
  - destruct Hans as [[-> ->]|[-> ->]]; [by rewrite Z.eqb_refl, Ed|].
    rewrite (proj2 (Z.eqb_neq _ (_ + 256))) by lia. by rewrite Z.eqb_refl, Ed.
  - apply (traces_end _ _ _ r); [done|done|]. by destruct Hans as [[_ ->]|[_ ->]].
Qed.
End safety.

(** ** When requests are sent *)

Section timeline.
Context `{Platform} {K : Type} `{RequestLaws K}.
Implicit Types st : StunRequestManager (K := K).

(** The thread sleeps as long as the queue says, and dispatches, [n] times. *)
Fixpoint drive (n : nat) (now : Z) st : option StunRequestManager :=
  match n with
  | O => Some st
  | S n => let now := u32 (now + GetDelay now (thread_ st)) in st ← dispatch now st; drive n now st
  end.

(** The times of the sendings from [t] on, and of the timeout. *)
Fixpoint schedule (k : K) (n : nat) (count t : Z) : list Z * Z :=
  match n with
  | O => ([], t)
  | S n => let '(delay, count, _) := GetNextDelay k count false in
           let '(ts, e) := schedule k n count (t + delay) in (t :: ts, e)
  end.

(** A manager with one request, whose timer is at [t]. *)
Definition armed (a : Z) (r : StunRequest (K := K)) (t : Z) (l : list (Z * event)) st : Prop :=
  requests_ st = {[req_id r := a]} ∧ objects st = {[a := r]} ∧ log st = l ∧ has_manager r = true ∧
  fStop_ (thread_ st) = false ∧ msgPeek_ (thread_ st) = None ∧ msgq_ (thread_ st) = [] ∧
  ∃ d n, dmsgq_ (thread_ st) = [mkDelayed d t n (timer a)].

Lemma armed_delay a r t l st now : armed a r t l st → is_u32 t → 0 ≤ now → 0 ≤ t - now < HALF →
  u32 (now + GetDelay now (thread_ st)) = t.
Proof.
  intros (_ & _ & _ & _ & _ & _ & Eq & d & n & Ed) Ht Hn Hd. unfold GetDelay, HALF in *. rewrite Eq, Ed. cbn [msTrigger_].
  assert (TimeDiff t now = t - now) as -> by (unfold TimeDiff; ulia).
  rewrite (proj2 (Z.ltb_ge _ 0)) by lia. replace (now + (t - now)) with t by lia. by apply u32_id.
Qed.
Lemma armed_get a r t l st : armed a r t l st →
  Get 0 t [mkRound true [] t] (thread_ st) = Some (Some (timer a), [],
    mkQueue false None [] [] (dmsgq_next_num_ (thread_ st)) (deleted (thread_ st))).
Proof.
  intros (_ & _ & _ & _ & Es & Ep & Eq & d & n & Ed). rewrite Get_now by done. unfold get_pass. rewrite Eq, Ed. cbn [trigger_loop msTrigger_].
  rewrite later_strict. replace (t - t) with 0 by lia. cbn. by rewrite Es, Ep.
Qed.

Lemma armed_send a r t l st : armed a r t l st → timeout_ r = false →
  let '(delay, count, timeout) := GetNextDelay (r_kind r) (count_ r) false in
  let r' := mkRequest (r_kind r) count timeout true (r_msg r) t in
  ∃ st', dispatch t st = Some st' ∧
    armed a r' (u32 (t + delay)) (l ++ [(a, Sent (Data (Write (r_msg r) (ByteBuffer_new ORDER_NETWORK)).2) t)]) st'.
Proof.
  intros Ha Et. unfold dispatch. rewrite (armed_get _ _ _ _ _ Ha). cbn [mbind option_bind]. cbn [timer phandler].
  destruct Ha as (Er & Eo & El & Em & _). unfold OnMessage. cbn [objects set_thread]. rewrite Eo, lookup_singleton_eq.
  cbn [mbind option_bind]. rewrite Et. destruct (GetNextDelay _ _ _) as [[delay count] timeout].
  eexists. split; [reflexivity|]. unfold armed. rewrite Em. cbn. rewrite Er, Eo, El. rewrite insert_singleton_eq.
  split_and!; try done. by eexists _, _.
Qed.
Lemma armed_timeout a r t l st : armed a r t l st → a ≠ 0 → timeout_ r = true →
  ∃ st', dispatch t st = Some st' ∧ requests_ st' = ∅ ∧ objects st' = ∅ ∧ queue_messages (thread_ st') = [] ∧
    log st' = l ++ [(a, OnTimeout t)].
Proof.
  intros Ha Hne Et. unfold dispatch. rewrite (armed_get _ _ _ _ _ Ha). cbn [mbind option_bind]. cbn [timer phandler].
  destruct Ha as (Er & Eo & El & Em & _). unfold OnMessage. cbn [objects set_thread]. rewrite Eo, lookup_singleton_eq.
  cbn [mbind option_bind]. rewrite Et. set (st1 := emit a _ _).
  assert (mgr_base st1) as Hb.
  { split; cbn; [done|done|..]; rewrite ?Eo, ?Er.
    - by intros b s [<- _]%lookup_singleton_Some.
    - by intros b c s s' [<- _]%lookup_singleton_Some [<- _]%lookup_singleton_Some.
    - intros id b [<- <-]%lookup_singleton_Some. exists r. by rewrite lookup_singleton_eq. }
  destruct (delete_request_eq a r st1 Hb) as (q & Ed & Eq & _); [cbn; by rewrite Eo, lookup_singleton_eq|].
  eexists. split; [exact Ed|]. cbn. rewrite Er, Eo, El, !delete_singleton_eq. by rewrite Eq.
Qed.

Lemma schedule_unfold k n count t : schedule k (S n) count t =
  let '(delay, count, _) := GetNextDelay k count false in
  let '(ts, e) := schedule k n count (t + delay) in (t :: ts, e).
Proof. done. Qed.
Lemma schedule_ge k n count t : 0 ≤ count → count + Z.of_nat n = max_sends k → t ≤ (schedule k n count t).2.
Proof.
  revert count t. induction n as [|n IH]; intros count t Hc Hn; cbn [schedule]; [done|].
  pose proof (GetNextDelay_count k count) as Hd. destruct (GetNextDelay k count false) as [[delay count'] timeout].
  destruct Hd as (Hdelay & Ht & Hc'); [lia|]. destruct n as [|n]; [cbn; lia|].
  rewrite (proj2 (Z.eqb_neq _ _)) in Ht by lia. rewrite (Hc' Ht).
  pose proof (IH (count + 1) (t + delay)) as IH'. destruct (schedule k (S n) (count + 1) (t + delay)) as [ts e].
  cbn in *. lia.
Qed.

Lemma drive_armed n a r t l st now : armed a r t l st → a ≠ 0 → timeout_ r = false → 0 ≤ count_ r →
  count_ r + Z.of_nat (S n) = max_sends (r_kind r) → 0 ≤ now → 0 ≤ t - now < HALF →
  let '(ts, e) := schedule (r_kind r) (S n) (count_ r) t in
  e < 4294967296 →
  ∃ st', drive (S (S n)) now st = Some st' ∧ requests_ st' = ∅ ∧ objects st' = ∅ ∧ queue_messages (thread_ st') = [] ∧
    log st' = l ++ ((λ x, (a, Sent (Data (Write (r_msg r) (ByteBuffer_new ORDER_NETWORK)).2) x)) <$> ts) ++ [(a, OnTimeout e)].
Proof.
  revert r t l st now. induction n as [|n IH]; intros r t l st now Ha Hne Et Hc Hn Hnow Ht;
    pose proof (schedule_ge (r_kind r) _ (count_ r) t Hc Hn) as Hge; rewrite schedule_unfold in *;
    pose proof (GetNextDelay_count (r_kind r) (count_ r)) as Hd; pose proof (armed_send a r t l st Ha Et) as Hsend;
    destruct (GetNextDelay (r_kind r) (count_ r) false) as [[delay count'] timeout];
    (destruct Hd as (Hdelay & Hto & Hc'); [lia|]); destruct Hsend as (st1 & E1 & Ha1).
  - cbn in *. intros He. unfold is_u32 in *.
    rewrite (armed_delay _ _ _ _ _ _ Ha) by (unfold is_u32, HALF in *; lia). rewrite E1. cbn.
    rewrite (u32_id (t + delay)) in Ha1 by (unfold is_u32; lia).
    rewrite (armed_delay _ _ _ _ _ _ Ha1) by (unfold is_u32, HALF in *; lia).
    destruct (armed_timeout _ _ _ _ _ Ha1 Hne) as (st2 & E2 & Hr & Ho & Hq & Hl).
    { cbn. rewrite Hto. apply Z.eqb_eq. lia. }
    rewrite E2. exists st2. split_and!; try done. by rewrite Hl, <- app_assoc.
  - rewrite (proj2 (Z.eqb_neq _ _)) in Hto by lia. subst timeout. rewrite (Hc' eq_refl) in *.
    pose proof (schedule_ge (r_kind r) (S n) (count_ r + 1) (t + delay) ltac:(lia) ltac:(lia)) as Hge'.
    specialize (IH _ (u32 (t + delay)) _ st1 t Ha1 Hne eq_refl). cbn [r_kind count_ r_msg] in IH.
    destruct (schedule (r_kind r) (S n) (count_ r + 1) (t + delay)) as [ts e] eqn:Esch. cbn [snd] in *. intros He.
    rewrite (u32_id (t + delay)) in IH by (unfold is_u32, HALF in *; lia). rewrite Esch in IH.
    destruct IH as (st2 & E2 & Hr & Ho & Hq & Hl); [lia|lia|lia|unfold HALF in *; lia|done|].
    exists st2. split_and!; try done.
    + change (drive (S (S (S n))) now st) with
        (st' ← dispatch (u32 (now + GetDelay now (thread_ st))) st;
         drive (S (S n)) (u32 (now + GetDelay now (thread_ st))) st').
      rewrite (armed_delay _ _ _ _ _ _ Ha) by (unfold is_u32, HALF in *; lia). by rewrite E1.
    + by rewrite Hl, <- app_assoc.
Qed.

Lemma send_armed a (k : K) msg random delay now : is_u32 (now + delay) →
  ∃ st, SendDelayed a delay now (new_request a k msg random StunRequestManager_new) = Some st ∧
    armed a (StunRequest_Construct (set_manager (StunRequest_new k msg random))) (now + delay) [(a, Created k)] st.
Proof.
  intros Hu. unfold SendDelayed. cbn [objects new_request emit set_objects StunRequestManager_new]. rewrite lookup_insert_eq.
  eexists. split; [reflexivity|]. set (r := StunRequest_Construct _).
  assert (has_manager r = true) as Hman by apply Construct_fields.
  unfold armed. cbn. rewrite insert_empty, insert_insert_eq, insert_empty.
  rewrite u32_id by done. split_and!; try done. by eexists _, _.
Qed.
End timeline.

Section properties.
Context `{Platform} {K : Type} `{RequestLaws K}.
Implicit Types st : StunRequestManager (K := K).

(** C22. Whatever requests are created, sent, removed, answered, deleted and dispatched,
    in any order and at any times, the manager never uses a deleted request, and
    afterwards each request in its map exists, is registered under its own transaction
    id, and has exactly one timer in the queue of the thread, which holds nothing else. *)
Theorem stun_requests_safe (ops : list (stun_op (K := K))) : stun_ops_ok ops StunRequestManager_new →
  ∃ st, stun_run ops StunRequestManager_new = Some st ∧
    queue_messages (thread_ st) ≡ₚ timers (requests_ st) ∧
    ∀ id a, requests_ st !! id = Some a → ∃ r, objects st !! a = Some r ∧ req_id r = id.
Proof.
  intros Ho. destruct (stun_run_inv ops _ Ho new_inv) as (st & E & [[Hb Ht] _]). exists st. split_and!; [done|done|].
  intros id a Er. destruct (base_map _ Hb _ _ Er) as (r & ? & ? & _). eauto.
Qed.

(** C23. Each request is sent at most as often as its class allows and ends at most once,
    by one response, one error response or a timeout; a timeout only comes after all the
    sendings, and nothing happens to a request after its end. *)
Theorem stun_request_history (ops : list (stun_op (K := K))) : stun_ops_ok ops StunRequestManager_new →
  ∃ st, stun_run ops StunRequestManager_new = Some st ∧ traces (objects st) (log st).
Proof. intros Ho. destruct (stun_run_inv ops _ Ho new_inv) as (st & E & [_ Ht]). eauto. Qed.

(** A response to a pending request, received by the manager. *)
Lemma response_packet st a r m e : mgr_inv st →
  requests_ st !! m_transaction_id m = Some a → objects st !! a = Some r → answer r m e →
  msg_ok m → zlen (m_transaction_id m) = 12 → m_class m = m_class (r_msg r) →
  ∃ b st', Write m (ByteBuffer_new ORDER_NETWORK) = (true, b) ∧
    CheckResponseData (Data b) st = Some (true, st') ∧ log st' = log st ++ [(a, e)] ∧
    requests_ st' = delete (m_transaction_id m) (requests_ st) ∧ objects st' = delete a (objects st) ∧
    queue_messages (thread_ st') ≡ₚ timers (requests_ st') ∧
    CheckResponseData (Data b) st' = Some (false, st').
Proof.
  intros Hinv Er E Hans Hm Hid Hc.
  pose proof Hm as (_ & Hidok & _ & Hattrs & _). destruct (Write_new m Hidok Hattrs) as (b & Ew & Hb). exists b.
  destruct (CheckResponse_answer a r m e st Hinv Er E Hans) as (q & Ec & Hinv'). cbn in Ec, Hinv'.
  eexists. split; [exact Ew|]. pose proof Hb as (Hbok & _ & HD). destruct (wire_id m Hid) as [Hwid Hlen].
  destruct (ByteBuffer_of_spec (Data b) ORDER_NETWORK) as (Hb1 & HD1 & Ho1); [by apply Data_ok|].
  destruct (Read_wire m (StunMessage_new (m_class (r_msg r))) (ByteBuffer_of (Data b) ORDER_NETWORK) Hm (eq_sym Hc))
    as (b' & Erd & _); [split_and!; [done|done|by rewrite HD1]|].
  unfold CheckResponseData. rewrite HD in *. rewrite (proj2 (Z.ltb_ge _ 20)) by lia. rewrite Hwid, Er, E.
  cbn [mbind option_bind]. rewrite Erd. split; [exact Ec|]. cbn [requests_ objects log thread_].
  rewrite lookup_delete_eq. split_and!; try done. apply Hinv'.
Qed.

(** C24. A response a server writes for a pending request is recognised from its bytes:
    the callback gets the server's message, the request, its entry and its timer are
    gone, and the same packet received again is refused. *)
Theorem response_ends_request (ops : list (stun_op (K := K))) st a r m e :
  stun_ops_ok ops StunRequestManager_new → stun_run ops StunRequestManager_new = Some st →
  requests_ st !! m_transaction_id m = Some a → objects st !! a = Some r → answer r m e →
  msg_ok m → zlen (m_transaction_id m) = 12 → m_class m = m_class (r_msg r) →
  ∃ b st', Write m (ByteBuffer_new ORDER_NETWORK) = (true, b) ∧
    CheckResponseData (Data b) st = Some (true, st') ∧ log st' = log st ++ [(a, e)] ∧
    requests_ st' = delete (m_transaction_id m) (requests_ st) ∧ objects st' = delete a (objects st) ∧
    queue_messages (thread_ st') ≡ₚ timers (requests_ st') ∧
    CheckResponseData (Data b) st' = Some (false, st').
Proof.
  intros Ho Erun. destruct (stun_run_inv ops _ Ho new_inv) as (st1 & E1 & Hinv). simplify_eq.
  by apply response_packet.
Qed.

(** C28. A request that is never answered, alone in its queue, is sent at the times that
    its class prescribes, with the same packet each time, and then times out, and
    nothing of it is left; while the times do not wrap. *)
Theorem unanswered_schedule a (k : K) msg random delay now :
  a ≠ 0 → 0 ≤ now → 0 ≤ delay < HALF →
  let r := StunRequest_Construct (set_manager (StunRequest_new k msg random)) in
  let '(ts, e) := schedule k (Z.to_nat (max_sends k)) 0 (now + delay) in
  e < 4294967296 →
  ∃ st, (SendDelayed a delay now (new_request a k msg random StunRequestManager_new)
           ≫= drive (S (Z.to_nat (max_sends k))) now) = Some st ∧
    requests_ st = ∅ ∧ objects st = ∅ ∧ queue_messages (thread_ st) = [] ∧
    log st = (a, Created k) ::
      ((λ t, (a, Sent (Data (Write (r_msg r) (ByteBuffer_new ORDER_NETWORK)).2) t)) <$> ts) ++ [(a, OnTimeout e)].
Proof.
  intros Ha Hnow Hd r. pose proof (max_sends_pos k) as Hpos.
  destruct (Construct_fields (StunRequest_new k msg random)) as (Ei & Ek & Ec & Eo & Em). fold r in Ei, Ek, Ec, Eo, Em.
  pose proof (schedule_ge k (Z.to_nat (max_sends k)) 0 (now + delay) ltac:(lia) ltac:(lia)) as Hge.
  destruct (Z.to_nat (max_sends k)) as [|n] eqn:En; [lia|].
  destruct (schedule k (S n) 0 (now + delay)) as [ts e] eqn:Es. cbn [snd] in Hge. intros He.
  destruct (send_armed a k msg random delay now ltac:(unfold is_u32; lia)) as (st1 & -> & Harm). fold r in Harm.
  pose proof (drive_armed n a r (now + delay) [(a, Created k)] st1 now Harm Ha) as Hdrive. rewrite Ek, Ec, Eo in Hdrive.
  cbn [count_ r_kind timeout_ StunRequest_new] in Hdrive. rewrite Es in Hdrive. cbn [mbind option_bind].
  apply Hdrive; [done|done|lia|done|lia|done].
Qed.
End properties.

(** ** Witnesses *)

(** A binding request of type 1, and another one. *)
Definition binding : StunMessage := Stun.mkMessage CStun 1 0 [] [].
Definition id_a : list Z := [1; 2; 3; 4; 5; 6; 7; 8; 9; 10; 11; 12].
Definition id_b : list Z := [21; 22; 23; 24; 25; 26; 27; 28; 29; 30; 31; 32].
Definition sample_response : StunMessage := Stun.mkMessage CStun 257 0 id_a [].
(** Two requests: the first is resent and answered, the second one deleted. *)
Definition sample_stun_ops : list (stun_op (K := BaseRequest)) :=
  [ONew 100 ABaseRequest binding id_a; ONew 200 ABaseRequest binding id_b;
   OSendDelayed 100 0 1000; OSendDelayed 200 50 1000; ODispatch 1000; ODispatch 1020; ODispatch 1050; ODispatch 1100].
Lemma stun_requests_safe_witness :
  let p := zero_platform in
  let ops := sample_stun_ops ++ [OMessage sample_response; ODelete 200; OClear; ODispatch 2000] in
  stun_ops_ok ops StunRequestManager_new ∧
  ∃ st, stun_run ops StunRequestManager_new = Some st ∧
    queue_messages (thread_ st) ≡ₚ timers (requests_ st) ∧
    ∀ id a, requests_ st !! id = Some a → ∃ r, objects st !! a = Some r ∧ req_id r = id.
Proof.
  intros p ops. assert (stun_ops_ok ops StunRequestManager_new) as Ho
    by (apply stun_ops_okb_ok; vm_compute; reflexivity).
  split; [exact Ho|exact (stun_requests_safe ops Ho)].
Defined.
Lemma stun_request_history_witness :
  let p := zero_platform in
  stun_ops_ok sample_stun_ops StunRequestManager_new ∧
  ∃ st, stun_run sample_stun_ops StunRequestManager_new = Some st ∧ traces (objects st) (log st).
Proof.
  intros p. assert (stun_ops_ok sample_stun_ops StunRequestManager_new) as Ho
    by (apply stun_ops_okb_ok; vm_compute; reflexivity).
  split; [exact Ho|exact (stun_request_history sample_stun_ops Ho)].
Defined.
Lemma unanswered_schedule_witness :
  let p := zero_platform in
  let packet := [0; 1; 0; 0; 33; 18; 164; 66] ++ id_a in
  ∃ st, (SendDelayed 100 0 1000 (new_request 100 ABaseRequest binding id_a StunRequestManager_new)
           ≫= drive 10 1000) = Some st ∧
    requests_ st = ∅ ∧ objects st = ∅ ∧ queue_messages (thread_ st) = [] ∧
    log st = (100, Created ABaseRequest) ::
      ((λ t, (100, Sent packet t)) <$> [1000; 1100; 1300; 1700; 2500; 4100; 5700; 7300; 8900]) ++ [(100, OnTimeout 10500)].
Proof.
  intros p packet.
  exact (unanswered_schedule 100 ABaseRequest binding id_a 0 1000 ltac:(done) ltac:(done) ltac:(done) ltac:(done)).
Defined.
Lemma response_ends_request_witness :
  let p := zero_platform in
  ∃ st b st', stun_run sample_stun_ops StunRequestManager_new = Some st ∧
    Write sample_response (ByteBuffer_new ORDER_NETWORK) = (true, b) ∧
    CheckResponseData (Data b) st = Some (true, st') ∧ log st' = log st ++ [(100, OnResponse sample_response)] ∧
    CheckResponseData (Data b) st' = Some (false, st').
Proof.
  intros p. assert (stun_ops_ok sample_stun_ops StunRequestManager_new) as Ho
    by (apply stun_ops_okb_ok; vm_compute; reflexivity).
  assert ((st ← stun_run sample_stun_ops StunRequestManager_new; a ← requests_ st !! id_a; r ← objects st !! a;
           Some (a, m_type (r_msg r), m_class (r_msg r))) = Some (100, 1, CStun)) as Hst by (vm_compute; reflexivity).
  destruct (stun_run sample_stun_ops StunRequestManager_new) as [st|] eqn:E; [|done]. cbn [mbind option_bind] in Hst.
  destruct (requests_ st !! id_a) as [a|] eqn:Er; [|done]. cbn [mbind option_bind] in Hst.
  destruct (objects st !! a) as [r|] eqn:Eo; [|done]. cbn [mbind option_bind] in Hst. injection Hst as -> Ht Hc.
  assert (msg_ok sample_response) as Hm.
  { unfold msg_ok. cbn. split_and!; try done; [|by left]. repeat (constructor; [done|]). constructor. }
  destruct (response_ends_request sample_stun_ops st 100 r sample_response (OnResponse sample_response) Ho E Er Eo)
    as (b & st' & Ew & Ed & El & _ & _ & _ & Ed'); [split; [|left]|done|done|done|]; [by rewrite Ht..|].
  exists st, b, st'. split_and!; done.
Defined.
