(* ===== verification/StunExchange.v ===== *)
(** * One request and its answer

    A request of a manager with other requests that wait: it is sent at the next dispatch
    of the thread, and the response of the server ends it and leaves the others as they
    were.  Shared by the clients that talk to a server through [StunRequest]. *)

From S2P Require Import Prelude ByteOrder ByteBuffer Stun StunWire StunIntegrity StunBuild TimeUtils MessageQueue StunRequest.

(** ** Timers before and after a time *)

(** All delayed messages are due at [T] or later. *)
Definition from_time (T : Z) (d : DelayedMessage) : Prop := T ≤ msTrigger_ d < HALF.
Definition waits (T : Z) (q : MessageQueue) : Prop := msgq_ q = [] ∧ Forall (from_time T) (dmsgq_ q).
Definition waits_but (a T : Z) (q : MessageQueue) : Prop :=
  msgq_ q = [] ∧ Forall (λ d, phandler (msg_ d) = a ∨ from_time T d) (dmsgq_ q).

Lemma push_front d l T : msTrigger_ d < T → Forall (from_time T) l → push d l = d :: l.
Proof.
  intros Hd. destruct 1 as [|x l [Hx _] _]; [done|]. cbn. unfold dmsg_lt. by rewrite (proj2 (Z.ltb_lt _ _)) by lia.
Qed.
Lemma clear_waits a T q : a ≠ 0 → waits_but a T q → waits T (clear_handler a q).
Proof.
  intros Ha [Hq Hd]. split; cbn [clear_handler MessageQueue_Clear msgq_ dmsgq_ snd]; [by rewrite Hq|].
  apply Forall_forall. intros d [Hin Hn]%list_elem_of_In%filter_In. rewrite Forall_forall in Hd.
  destruct (Hd d (proj2 (list_elem_of_In _ _) Hin)) as [E|]; [|done]. unfold Match in Hn. rewrite E, Z.eqb_refl, orb_true_r in Hn. done.
Qed.
Lemma clear_waits_all a T q : waits T q → waits T (clear_handler a q).
Proof.
  intros [Hq Hd]. split; cbn [clear_handler MessageQueue_Clear msgq_ dmsgq_ snd]; [by rewrite Hq|].
  apply Forall_forall. intros d [Hin _]%list_elem_of_In%filter_In. rewrite Forall_forall in Hd. by apply Hd, list_elem_of_In.
Qed.
Lemma waits_weaken a T q : waits T q → waits_but a T q.
Proof. intros [Hq Hd]. split; [done|]. eapply Forall_impl; [exact Hd|]. auto. Qed.
Lemma waits_earlier T T' q : T' ≤ T → waits T q → waits T' q.
Proof. intros Ht [Hq Hd]. split; [done|]. eapply Forall_impl; [exact Hd|]. unfold from_time. lia. Qed.
Lemma PostDelayed_waits T delay a id data now q : fStop_ q = false → 0 ≤ now + delay → T ≤ now + delay < HALF → waits T q →
  waits T (PostDelayed delay a id data now q).
Proof.
  intros Hs H0 Ht [Hq Hd]. unfold PostDelayed, DoDelayPost. rewrite Hs. split; [done|]. cbn [dmsgq_].
  apply push_Forall; [|done]. unfold from_time. cbn. rewrite u32_id by (unfold is_u32, HALF in *; lia). done.
Qed.
(** The only message that is due is taken. *)
Lemma get_due q d l T now : fStop_ q = false → msgPeek_ q = None → msgq_ q = [] → dmsgq_ q = d :: l →
  0 ≤ msTrigger_ d ≤ now → now < T → T ≤ HALF → Forall (from_time T) l → message_id (msg_ d) ≠ MQID_DISPOSE →
  Get 0 now [mkRound true [] now] q = Some (Some (msg_ d), [], mkQueue false None [] l (dmsgq_next_num_ q) (deleted q)).
Proof.
  intros Hs Hp Hq Hd Ht Hn HT Hl Hid. rewrite Get_now by done. unfold get_pass. rewrite Hq, Hd. cbn [trigger_loop].
  rewrite later_strict. unfold HALF in *.
  assert ((0 <? u32 (msTrigger_ d - now)) && (u32 (msTrigger_ d - now) <? 2147483648) = false) as ->.
  { destruct (Z.eq_dec (msTrigger_ d) now) as [->|]; [by rewrite Z.sub_diag|].
    apply andb_false_iff. right. apply Z.ltb_ge. ulia. }
  assert (trigger_loop now l ([] ++ [msg_ d]) = (match l with [] => kForever | x :: _ => TimeDiff (msTrigger_ x) now end, l, [msg_ d])) as ->.
  { destruct Hl as [|x l Hx _]; [done|]. unfold from_time, HALF in Hx. cbn [trigger_loop app]. rewrite later_strict. unfold HALF.
    rewrite (u32_id (msTrigger_ x - now)) by (unfold is_u32; lia).
    by rewrite (proj2 (Z.ltb_lt 0 _)), (proj2 (Z.ltb_lt _ 2147483648)) by lia. }
  cbn [pull_loop]. rewrite (proj2 (Z.eqb_neq _ _)) by done. by rewrite Hs, Hp.
Qed.

(** ** Requests *)

Section exchange.
Context `{Platform} {K : Type} `{RequestLaws K}.
Implicit Types st : StunRequestManager (K := K).

(** What a new request is when it is sent. *)
Definition prepared (k : K) (msg : StunMessage) (random : list Z) : StunRequest :=
  StunRequest_Construct (set_manager (StunRequest_new k msg random)).

(** Requests that wait, until [T] at least; and one of them, [a], that may be due before. *)
Definition quiet (T : Z) st : Prop := mgr_inv st ∧ waits T (thread_ st).
Definition quiet_but (a T : Z) st : Prop := mgr_inv st ∧ waits_but a T (thread_ st).
(** The request [a] is due at [t], the others wait. *)
Definition due (a t T : Z) st : Prop :=
  mgr_inv st ∧ msgq_ (thread_ st) = [] ∧ ∃ d l, dmsgq_ (thread_ st) = d :: l ∧ msTrigger_ d = t ∧ msg_ d = timer a ∧ Forall (from_time T) l.

(** The timer of [a] is set for [t]. *)
Definition timed (a t : Z) st : Prop := ∃ d, d ∈ dmsgq_ (thread_ st) ∧ msg_ d = timer a ∧ msTrigger_ d = t.
Lemma quiet_new T : quiet T StunRequestManager_new.
Proof. split; [apply new_inv|by split; [|constructor]]. Qed.

(** The states of a manager with a new request in addition to [st]. *)
Record asked (a : Z) (r : StunRequest) (more : list event) st st' : Prop := {
  rd_objects : objects st' = <[a := r]> (objects st);
  rd_requests : requests_ st' = <[req_id r := a]> (requests_ st);
  rd_log : log st' = log st ++ ((λ e, (a, e)) <$> more)
}.

Lemma send_new a k msg random delay now st : mgr_inv st → stun_op_ok st (ONew a k msg random) →
  ∃ st', SendDelayed a delay now (new_request a k msg random st) = Some st' ∧ mgr_inv st' ∧
    asked a (prepared k msg random) [Created k] st st' ∧ thread_ st' = PostDelayed delay a MSG_STUN_SEND 0 now (thread_ st).
Proof.
  intros Hi Hok. pose proof (new_request_inv a k msg random st Hok Hi) as Hi1.
  assert (objects (new_request a k msg random st) !! a = Some (StunRequest_new k msg random)) as E by (cbn; by rewrite lookup_insert_eq).
  destruct (SendDelayed_inv a delay now (new_request a k msg random st)) as (st' & Es & Hi'); [cbn [stun_op_ok]; by rewrite E|done|].
  exists st'. split; [done|]. split; [done|]. unfold SendDelayed in Es. rewrite E in Es. cbn [mbind option_bind] in Es.
  fold (prepared k msg random) in Es. injection Es as <-. split; [|done]. split; cbn; [|done|done]. by rewrite insert_insert_eq.
Qed.
Lemma send_due a k msg random now T st : quiet T st → stun_op_ok st (ONew a k msg random) → 0 ≤ now < T → T ≤ HALF →
  ∃ st', SendDelayed a 0 now (new_request a k msg random st) = Some st' ∧ due a now T st' ∧
    asked a (prepared k msg random) [Created k] st st'.
Proof.
  intros [Hi [Hq Hd]] Hok Hn HT. destruct (send_new a k msg random 0 now st Hi Hok) as (st' & E & Hi' & Hr & Et).
  exists st'. split; [done|]. split; [|done]. split; [done|]. rewrite Et. unfold PostDelayed, DoDelayPost.
  rewrite (base_stop _ (proj1 (proj1 Hi))). cbn [msgq_ dmsgq_]. split; [done|]. unfold HALF in *. rewrite Z.add_0_r, u32_id by (unfold is_u32; lia).
  eexists _, _. split; [by apply (push_front _ _ T); [cbn; lia|]|]. done.
Qed.
Lemma send_later a k msg random delay now T st : quiet T st → stun_op_ok st (ONew a k msg random) → 0 ≤ now + delay →
  T ≤ now + delay < HALF →
  ∃ st', SendDelayed a delay now (new_request a k msg random st) = Some st' ∧ quiet T st' ∧
    asked a (prepared k msg random) [Created k] st st' ∧ timed a (now + delay) st'.
Proof.
  intros [Hi Hw] Hok H0' Hn. destruct (send_new a k msg random delay now st Hi Hok) as (st' & E & Hi' & Hr & Et).
  pose proof (base_stop _ (proj1 (proj1 Hi))) as Hs. exists st'. split; [done|]. split; [split; [done|]; rewrite Et; by apply PostDelayed_waits|].
  split; [done|]. unfold timed. rewrite Et. unfold PostDelayed, DoDelayPost. rewrite Hs. cbn [dmsgq_].
  eexists (mkDelayed _ _ _ _). split; [rewrite push_perm; apply list_elem_of_here|]. cbn. split; [done|]. apply u32_id. unfold is_u32, HALF in *. lia.
Qed.

Lemma due_dispatch a r t td T st : due a t T st → objects st !! a = Some r → timeout_ r = false → 0 ≤ t ≤ td → td < T → T ≤ HALF →
  ∃ st' r', dispatch td st = Some st' ∧ quiet_but a T st' ∧ r_kind r' = r_kind r ∧ r_msg r' = r_msg r ∧
    objects st' = <[a := r']> (objects st) ∧ requests_ st' = requests_ st ∧
    log st' = log st ++ [(a, Sent (Data (Write (r_msg r) (ByteBuffer_new ORDER_NETWORK)).2) td)].
Proof.
  intros (Hi & Hq & d & l & Ed & Et & Em & Hl) E Eo Ht Htd HT. destruct (dispatch_inv td st Hi) as (st' & Edis & Hi').
  pose proof Hi as [[Hb _] _]. pose proof Edis as Edis'. unfold dispatch in Edis'.
  rewrite (get_due _ d l T td (base_stop _ Hb) (base_peek _ Hb) Hq Ed) in Edis' by (try done; by rewrite ?Et, ?Em).
  cbn [mbind option_bind] in Edis'. rewrite Em in Edis'. cbn [phandler timer] in Edis'. unfold OnMessage in Edis'.
  cbn [objects set_thread] in Edis'. rewrite E in Edis'. cbn [mbind option_bind] in Edis'. rewrite Eo in Edis'.
  destruct (GetNextDelay (r_kind r) (count_ r) false) as [[delay count] timeout]. injection Edis' as <-.
  eexists _, (mkRequest (r_kind r) count timeout (has_manager r) (r_msg r) td). split; [exact Edis|]. split; [|done]. split; [done|].
  split; [done|]. cbn [thread_ set_thread]. unfold PostDelayed, DoDelayPost. cbn [fStop_ dmsgq_]. apply push_Forall; [by left|].
  eapply Forall_impl; [exact Hl|]. auto.
Qed.

(** The response of the server, received. *)
Lemma answered a r m e T st : quiet_but a T st → objects st !! a = Some r → requests_ st !! m_transaction_id m = Some a →
  answer r m e → msg_ok m → zlen (m_transaction_id m) = 12 → m_class m = m_class (r_msg r) →
  ∃ st', CheckResponseData (msg_wire m) st = Some (true, st') ∧ quiet T st' ∧ log st' = log st ++ [(a, e)] ∧
    requests_ st' = delete (m_transaction_id m) (requests_ st) ∧ objects st' = delete a (objects st).
Proof.
  intros [Hi Hw] E Er Hans Hm Hid Hc. pose proof Hi as [Hok Htr]. pose proof (proj1 Hok) as Hb.
  destruct (base_map _ Hb _ _ Er) as (s & Es & Eid & Hman). assert (s = r) as -> by congruence.
  unfold CheckResponseData. destruct (wire_id m Hid) as [Hwid Hlen]. rewrite (proj2 (Z.ltb_ge _ 20)) by lia. rewrite Hwid, Er, E.
  cbn [mbind option_bind]. destruct (read_wire_packet m Hm) as (b & Erd & _). rewrite <- Hc, Erd.
  destruct (CheckResponse_answer a r m e st Hi Er E Hans) as (q & Ec & Hi'). cbn zeta in Ec, Hi'. rewrite Ec.
  eexists. split; [done|]. split; [|done]. split; [done|]. cbn [thread_].
  unfold CheckResponse in Ec. rewrite Er, E in Ec. cbn [mbind option_bind] in Ec.
  assert (delete_request a (emit a e st) = Some (mkManager (delete (m_transaction_id m) (requests_ st)) (delete a (objects st)) q (log st ++ [(a, e)]))) as Ed.
  { destruct Hans as [Hreq Hans]. destruct (response_types _ Hreq) as [E1 E2]. rewrite E1, E2 in Ec.
    destruct Hans as [[Et ->]|[Et ->]]; rewrite Et in Ec.
    - rewrite Z.eqb_refl in Ec. destruct (delete_request _ _); [by injection Ec as ->|done].
    - rewrite (proj2 (Z.eqb_neq _ (_ + 256))), Z.eqb_refl in Ec by lia. destruct (delete_request _ _); [by injection Ec as ->|done]. }
  unfold delete_request in Ed. cbn [objects emit] in Ed. rewrite E in Ed. cbn [mbind option_bind] in Ed. rewrite Hman in Ed.
  unfold Remove in Ed. cbn [objects emit requests_] in Ed. rewrite E in Ed. cbn [mbind option_bind] in Ed. rewrite Eid, Er in Ed.
  cbn [fmap option_fmap option_map mbind option_bind] in Ed. injection Ed as <-.
  cbn [thread_ set_objects set_thread set_requests emit]. apply clear_waits_all, clear_waits_all, clear_waits; [|done].
  by eapply base_addr.
Qed.
End exchange.
