(* ===== verification/StunServer.v ===== *)
(** * The STUN server

    webrtc/p2p/base/stunserver.cc: a server that tells a client the address its request
    came from.  It has no state besides its socket; a packet is answered with the list
    of the packets that it sends, each with its address. *)

From stdpp Require Import strings.
From S2P Require Import Prelude ByteOrder ByteBuffer IpAddress Stun StunWire StunIntegrity StunBuild TimeUtils MessageQueue StunRequest.

Section server.
Context `{Platform}.

Definition GetStunBindReqponse (request : StunMessage) (remote_addr : SocketAddress) : StunMessage :=
  let response := SetType (StunMessage_new CStun) STUN_BINDING_RESPONSE in
  let response := (SetTransactionID response (m_transaction_id request)).2 in
  let mapped_addr :=
    if negb (IsLegacy request) then CreateAddress STUN_ATTR_MAPPED_ADDRESS
    else CreateXorAddress STUN_ATTR_XOR_MAPPED_ADDRESS in
  add (SetAddress mapped_addr remote_addr) response.

Definition StunServer_SendResponse (msg : StunMessage) (addr : SocketAddress) : list (SocketAddress * list Z) :=
  [(addr, Data (Write msg (ByteBuffer_new ORDER_NETWORK)).2)].

Definition StunServer_SendErrorResponse (msg : StunMessage) (addr : SocketAddress) (error_code : Z) (error_desc : list Z)
    : list (SocketAddress * list Z) :=
  let err_msg := SetType (StunMessage_new CStun) (GetStunErrorResponseType (m_type msg)) in
  let err_msg := (SetTransactionID err_msg (m_transaction_id msg)).2 in
  let err_code := SetReason (SetCode CreateErrorCode error_code) error_desc in
  StunServer_SendResponse (add err_code err_msg) addr.

Definition OnBindingRequest (msg : StunMessage) (remote_addr : SocketAddress) : list (SocketAddress * list Z) :=
  StunServer_SendResponse (GetStunBindReqponse msg remote_addr) remote_addr.

Definition StunServer_OnPacket (buf : list Z) (remote_addr : SocketAddress) : list (SocketAddress * list Z) :=
  match Read (StunMessage_new CStun, ByteBuffer_of buf ORDER_NETWORK) with
  | (Some true, (msg, _)) =>
      if m_type msg =? STUN_BINDING_REQUEST then OnBindingRequest msg remote_addr
      else StunServer_SendErrorResponse msg remote_addr 600 (text "Operation Not Supported")
  | _ => []
  end.
End server.

(** ** The response *)

Section response.
Context `{Platform}.

Definition mapped (addr : SocketAddress) : StunAttribute :=
  AddressAttr STUN_ATTR_MAPPED_ADDRESS (EnsureAddressLength addr) addr.

Lemma mapped_fits c tid addr : addr_ok addr → fits c tid (mapped addr).
Proof.
  intros Ha. pose proof Ha as (_ & _ & _ & Hf). split; [|by destruct c].
  split; [done|]. split; [|done]. cbn. unfold EnsureAddressLength, stun_family. by destruct (family_ (ip_ addr)).
Qed.
Lemma mapped_size addr : addr_ok addr → attrs_size [mapped addr] < 100.
Proof.
  intros (_ & _ & _ & Hf). cbn. unfold EnsureAddressLength, stun_family. by destruct (family_ (ip_ addr)).
Qed.

(** The response to a request of RFC 5389, one with a transaction id of 12 bytes. *)
Lemma bind_response_value request addr : id_ok (m_transaction_id request) → addr_ok addr →
  GetStunBindReqponse request addr = built CStun STUN_BINDING_RESPONSE (m_transaction_id request) [mapped addr] ∧
  msg_ok (built CStun STUN_BINDING_RESPONSE (m_transaction_id request) [mapped addr]).
Proof.
  intros [Hok Hlen] Ha. pose proof (mapped_size addr Ha) as Hs. pose proof (mapped_fits CStun (m_transaction_id request) addr Ha) as Hf.
  assert (Forall (fits CStun (m_transaction_id request)) [mapped addr]) as Hfs by (by apply Forall_cons_2, Forall_nil_2).
  split; [|apply built_ok; [done|by split|done|lia]].
  unfold GetStunBindReqponse, IsLegacy. rewrite Hlen. cbn [negb Z.eqb Pos.eqb kStunLegacyTransactionIdLength].
  replace (SetTransactionID (SetType (StunMessage_new CStun) STUN_BINDING_RESPONSE) (m_transaction_id request)).2
    with (built CStun STUN_BINDING_RESPONSE (m_transaction_id request) [])
    by (unfold SetTransactionID, IsValidTransactionId; by rewrite Hlen).
  change (SetAddress (CreateAddress STUN_ATTR_MAPPED_ADDRESS) addr) with (mapped addr).
  apply (add_built _ _ _ []); [constructor|done|cbn [app]; lia].
Qed.

(** A well-formed binding request, as the server gets it. *)
Lemma OnPacket_request request addr : msg_ok request → m_class request = CStun → m_type request = STUN_BINDING_REQUEST →
  StunServer_OnPacket (msg_wire request) addr = OnBindingRequest request addr.
Proof.
  intros Hm Hc Ht. destruct (read_wire_packet request Hm) as (b & Erd & _). rewrite Hc in Erd.
  unfold StunServer_OnPacket. rewrite Erd. by rewrite Ht.
Qed.
End response.

(** ** Properties *)

(** C25. The client learns its address: when the packet of a pending binding request
    reaches the STUN server from some address, the server sends one packet back to that
    address, and the client's request manager recognises it as the response to that
    request and hands its owner a message whose mapped address is the address the
    server saw. *)
Theorem stun_server_reflects `{Platform} {K : Type} `{RequestLaws K} (ops : list (stun_op (K := K))) st a r addr :
  stun_ops_ok ops StunRequestManager_new → stun_run ops StunRequestManager_new = Some st →
  objects st !! a = Some r → requests_ st !! req_id r = Some a →
  msg_ok (r_msg r) → m_class (r_msg r) = CStun → m_type (r_msg r) = STUN_BINDING_REQUEST → zlen (req_id r) = 12 →
  addr_ok addr →
  ∃ packet m st',
    StunServer_OnPacket (Data (Write (r_msg r) (ByteBuffer_new ORDER_NETWORK)).2) addr = [(addr, packet)] ∧
    CheckResponseData packet st = Some (true, st') ∧ log st' = log st ++ [(a, OnResponse m)] ∧
    requests_ st' = delete (req_id r) (requests_ st) ∧
    attr_address <$> GetAddress m STUN_ATTR_MAPPED_ADDRESS = Some addr.
Proof.
  intros Ho Erun E Er Hm Hc Ht Hlen Ha. destruct (stun_run_inv ops _ Ho new_inv) as (st1 & E1 & Hinv). simplify_eq.
  destruct (msg_ok_id _ Hm) as [Hidok _]. pose proof Hm as (_ & _ & _ & Hattrs & _).
  destruct (Write_new _ Hidok Hattrs) as (b & -> & (_ & _ & HD)). cbn [snd]. rewrite HD, OnPacket_request by done.
  destruct (bind_response_value (r_msg r) addr (conj Hidok Hlen) Ha) as [Ev Hv]. unfold OnBindingRequest. rewrite Ev.
  set (m := built CStun STUN_BINDING_RESPONSE (m_transaction_id (r_msg r)) [mapped addr]) in *.
  destruct (response_packet st a r m (OnResponse m) Hinv) as (b' & st' & Ew & Ec & El & Ed & _); try done.
  { split; [by rewrite Ht|]. left. by rewrite Ht. }
  exists (Data b'), m, st'. unfold StunServer_SendResponse. rewrite Ew. by split_and!.
Qed.

(** ** Witnesses *)

(** A request is created and sent; the server gets its packet from 10.0.0.7, port 5000. *)
Definition sample_request : StunMessage := SetType (StunMessage_new CStun) STUN_BINDING_REQUEST.
Definition sample_client_ops : list (stun_op (K := BaseRequest)) :=
  [ONew 100 ABaseRequest sample_request sample_tid; OSendDelayed 100 0 1000; ODispatch 1000].
Definition sample_seen : SocketAddress := SocketAddress_of (IPAddress_v4 [10; 0; 0; 7]) 5000.
Lemma sample_seen_ok : addr_ok sample_seen.
Proof. split_and!; try done. split_and!; [done| |done]. repeat constructor; done. Qed.
Lemma stun_server_reflects_witness :
  let p := zero_platform in
  ∃ st packet m st', stun_run sample_client_ops StunRequestManager_new = Some st ∧
    CheckResponseData packet st = Some (true, st') ∧ log st' = log st ++ [(100, OnResponse m)] ∧
    attr_address <$> GetAddress m STUN_ATTR_MAPPED_ADDRESS = Some sample_seen.
Proof.
  intros p. assert (stun_ops_ok sample_client_ops StunRequestManager_new) as Ho
    by (apply stun_ops_okb_ok; vm_compute; reflexivity).
  assert ((st ← stun_run sample_client_ops StunRequestManager_new; r ← objects st !! 100; a ← requests_ st !! req_id r;
           Some (a, r_msg r)) = Some (100, built CStun STUN_BINDING_REQUEST sample_tid [])) as Hst by (vm_compute; reflexivity).
  destruct (stun_run sample_client_ops StunRequestManager_new) as [st|] eqn:E; [|done]. cbn [mbind option_bind] in Hst.
  destruct (objects st !! 100) as [r|] eqn:Eo; [|done]. cbn [mbind option_bind] in Hst.
  destruct (requests_ st !! req_id r) as [a|] eqn:Er; [|done]. cbn [mbind option_bind] in Hst. injection Hst as -> Hr.
  assert (msg_ok (built CStun STUN_BINDING_REQUEST sample_tid [])) as Hm
    by (apply built_ok; [done|split; [small_bytes|done]|by apply Forall_nil_2|done]).
  destruct (stun_server_reflects sample_client_ops st 100 r sample_seen Ho E Eo Er) as (packet & m & st' & _ & Ec & El & _ & Ea);
    try (unfold req_id; by rewrite Hr). { exact sample_seen_ok. }
  exists st, packet, m, st'. by split_and!.
Defined.
