(* ===== verification/TurnServer.v ===== *)
(** * The TURN server

    webrtc/p2p/base/turnserver.h and turnserver.cc: the server that relays between its
    clients and their peers.  It answers requests, keeps an allocation for each client
    connection with the permissions and channels of its peers, and drops each of these
    when its timer fires in the message queue of the server's thread.

    Sockets and message handlers are objects on the heap, named by numbers that are not
    zero.  An allocation owns its permissions and channels, so they are part of its
    record, with addresses of their own.  What the hooks and the socket factory return
    is external; so is the random transaction id of a data indication.  An operation
    returns [None] where the code is undefined: a dangling pointer, the end of a map,
    a failed assertion, a load outside a packet, or a map whose keys are not ordered.
    [rtc::Thread::Current()] is the thread of the server. *)

From stdpp Require Import strings.
From S2P Require Import Prelude ByteOrder StringEncode ByteBuffer IpAddress MessageDigest Stun StunBuild TimeUtils MessageQueue.

Definition kNonceTimeout : Z := 3600000.
Definition kDefaultAllocationTimeout : Z := 600000.
Definition kPermissionTimeout : Z := 300000.
Definition kChannelTimeout : Z := 600000.
Definition kMinChannelNumber : Z := 16384. (* 0x4000 *)
Definition kMaxChannelNumber : Z := 32767. (* 0x7FFF *)
Definition kNonceKeySize : Z := 16.
Definition kNonceSize : Z := 40.
Definition TURN_CHANNEL_HEADER_SIZE : Z := 4.
Definition MSG_ALLOCATION_TIMEOUT : Z := 0.
Definition IPPROTO_UDP : Z := 17.

Definition IsTurnChannelData (msg_type : Z) : bool := Z.land msg_type 49152 =? 16384.

(** ** Connections *)

Record TurnConnection := mkConn { src_ : SocketAddress; dst_ : SocketAddress; proto_ : ProtocolType; socket_ : Z }.

Section connections.
Context `{Platform}.

Definition TurnConnection_eqb (t c : TurnConnection) : bool :=
  SocketAddress_eqb (src_ t) (src_ c) && SocketAddress_eqb (dst_ t) (dst_ c) &&
  (proto_value (proto_ t) =? proto_value (proto_ c)).
Definition TurnConnection_lt (t c : TurnConnection) : bool :=
  SocketAddress_lt (src_ t) (src_ c) || SocketAddress_lt (dst_ t) (dst_ c) ||
  (proto_value (proto_ t) <? proto_value (proto_ c)).

(** What std::map requires of the order of its keys, on a list of them. *)
Definition equivalent {A} (lt : A → A → bool) (x y : A) : bool := negb (lt x y) && negb (lt y x).
Definition strict_weak_order {A} (lt : A → A → bool) (l : list A) : bool :=
  forallb (λ x, negb (lt x x) && forallb (λ y, negb (lt x y && lt y x) && forallb (λ z,
    implb (lt x y && lt y z) (lt x z) && implb (equivalent lt x y && equivalent lt y z) (equivalent lt x z)) l) l) l.

(** [std::map<Connection, Allocation*>]: find, assignment and erase. *)
Definition AllocationMap : Type := list (TurnConnection * Z).
Definition ordered_with (c : TurnConnection) (m : AllocationMap) : bool :=
  strict_weak_order TurnConnection_lt (c :: m.*1).
Definition same_key (c : TurnConnection) (e : TurnConnection * Z) : bool := equivalent TurnConnection_lt e.1 c.
Definition map_find (c : TurnConnection) (m : AllocationMap) : option (option Z) :=
  if ordered_with c m then Some (snd <$> find (same_key c) m) else None.
Definition map_assign (c : TurnConnection) (a : Z) (m : AllocationMap) : option AllocationMap :=
  r ← map_find c m;
  Some (match r with
        | Some _ => map (λ e, if same_key c e then (e.1, a) else e) m
        | None => m ++ [(c, a)]
        end).
Definition map_erase (c : TurnConnection) (m : AllocationMap) : option AllocationMap :=
  r ← map_find c m;
  Some (match r with Some _ => List.filter (λ e, negb (same_key c e)) m | None => m end).
End connections.

(** ** The state of the server *)

Record Permission := mkPermission { perm_addr : Z; perm_peer : IPAddress }.
Record Channel := mkChannel { chan_addr : Z; chan_id : Z; chan_peer : SocketAddress }.

Record Allocation := mkAllocation {
  conn_ : TurnConnection;
  external_socket_ : SocketAddress;   (* its local address *)
  key_ : list Z;
  transaction_id_ : list Z;
  username_ : list Z;
  last_nonce_ : list Z;
  perms_ : list Permission;
  channels_ : list Channel
}.
Definition Allocation_new (conn : TurnConnection) (socket : SocketAddress) (key : list Z) : Allocation :=
  mkAllocation conn socket key [] [] [] [] [].
Definition set_last_nonce (nonce : list Z) (al : Allocation) : Allocation :=
  mkAllocation (conn_ al) (external_socket_ al) (key_ al) (transaction_id_ al) (username_ al) nonce (perms_ al) (channels_ al).
Definition set_identity (tid username : list Z) (al : Allocation) : Allocation :=
  mkAllocation (conn_ al) (external_socket_ al) (key_ al) tid username (last_nonce_ al) (perms_ al) (channels_ al).
Definition set_perms (f : list Permission → list Permission) (al : Allocation) : Allocation :=
  mkAllocation (conn_ al) (external_socket_ al) (key_ al) (transaction_id_ al) (username_ al) (last_nonce_ al) (f (perms_ al)) (channels_ al).
Definition set_channels (f : list Channel → list Channel) (al : Allocation) : Allocation :=
  mkAllocation (conn_ al) (external_socket_ al) (key_ al) (transaction_id_ al) (username_ al) (last_nonce_ al) (perms_ al) (f (channels_ al)).

(** What the owner of the server sets.  A hook is its answer: TurnAuthInterface::GetKey
    with the key it stores, TurnRedirectInterface::ShouldRedirect with the address. *)
Record TurnConfig := mkConfig {
  nonce_key_ : list Z;
  realm_ : list Z;
  software_ : list Z;
  auth_hook_ : option (list Z → list Z → bool * list Z);
  redirect_hook_ : option (SocketAddress → bool * SocketAddress);
  enable_otu_nonce_ : bool;
  external_socket_factory_ : bool;
  external_addr_ : SocketAddress
}.

(** The packets that the server sends, to a client or from an external socket. *)
Inductive turn_sent :=
  | ToClient (socket : Z) (to : SocketAddress) (packet : list Z)
  | ToPeer (allocation : Z) (to : SocketAddress) (packet : list Z).

Record TurnServer := mkTurn {
  config : TurnConfig;
  sockets : gmap Z SocketAddress;     (* the packet sockets with their remote addresses *)
  server_sockets_ : gmap Z ProtocolType;
  server_listen_sockets_ : gmap Z ProtocolType;
  allocations_ : AllocationMap;
  heap : gmap Z Allocation;
  next_addr : Z;
  queue : MessageQueue;
  sent : list turn_sent
}.
(** The constructor, with the random key. *)
Definition TurnServer_new (random : list Z) : TurnServer :=
  mkTurn (mkConfig random [] [] None None false false SocketAddress_Clear) ∅ ∅ ∅ [] ∅ 1 MessageQueue_new [].

Definition set_config (c : TurnConfig) (st : TurnServer) : TurnServer :=
  mkTurn c (sockets st) (server_sockets_ st) (server_listen_sockets_ st) (allocations_ st) (heap st) (next_addr st) (queue st) (sent st).
Definition set_sockets (f : gmap Z SocketAddress → gmap Z SocketAddress) (st : TurnServer) : TurnServer :=
  mkTurn (config st) (f (sockets st)) (server_sockets_ st) (server_listen_sockets_ st) (allocations_ st) (heap st) (next_addr st) (queue st) (sent st).
Definition set_server_sockets (f : gmap Z ProtocolType → gmap Z ProtocolType) (st : TurnServer) : TurnServer :=
  mkTurn (config st) (sockets st) (f (server_sockets_ st)) (server_listen_sockets_ st) (allocations_ st) (heap st) (next_addr st) (queue st) (sent st).
Definition set_listen_sockets (f : gmap Z ProtocolType → gmap Z ProtocolType) (st : TurnServer) : TurnServer :=
  mkTurn (config st) (sockets st) (server_sockets_ st) (f (server_listen_sockets_ st)) (allocations_ st) (heap st) (next_addr st) (queue st) (sent st).
Definition set_allocations (m : AllocationMap) (st : TurnServer) : TurnServer :=
  mkTurn (config st) (sockets st) (server_sockets_ st) (server_listen_sockets_ st) m (heap st) (next_addr st) (queue st) (sent st).
Definition set_heap (f : gmap Z Allocation → gmap Z Allocation) (st : TurnServer) : TurnServer :=
  mkTurn (config st) (sockets st) (server_sockets_ st) (server_listen_sockets_ st) (allocations_ st) (f (heap st)) (next_addr st) (queue st) (sent st).
Definition set_queue (f : MessageQueue → MessageQueue) (st : TurnServer) : TurnServer :=
  mkTurn (config st) (sockets st) (server_sockets_ st) (server_listen_sockets_ st) (allocations_ st) (heap st) (next_addr st) (f (queue st)) (sent st).
Definition send (e : turn_sent) (st : TurnServer) : TurnServer :=
  mkTurn (config st) (sockets st) (server_sockets_ st) (server_listen_sockets_ st) (allocations_ st) (heap st) (next_addr st) (queue st) (sent st ++ [e]).
(** A new object gets the next address. *)
Definition take_addr (st : TurnServer) : TurnServer :=
  mkTurn (config st) (sockets st) (server_sockets_ st) (server_listen_sockets_ st) (allocations_ st) (heap st) (next_addr st + 1) (queue st) (sent st).
Definition on_allocation (a : Z) (f : Allocation → Allocation) : TurnServer → TurnServer := set_heap (alter f a).

(** A socket lives until it is deleted, from the queue if it was disposed of. *)
Definition alive (socket : Z) (st : TurnServer) : bool :=
  bool_decide (is_Some (sockets st !! socket)) && negb (bool_decide (socket ∈ deleted (queue st))).

(** ** Sending *)

Section turn.
Context `{Platform}.

Definition InitResponse (req resp : StunMessage) : bool * StunMessage :=
  let resp_type := GetStunSuccessResponseType (m_type req) in
  if resp_type =? -1 then (false, resp)
  else (true, (SetTransactionID (SetType resp resp_type) (m_transaction_id req)).2).
Definition InitErrorResponse (req : StunMessage) (code : Z) (reason : list Z) (resp : StunMessage) : bool * StunMessage :=
  let resp_type := GetStunErrorResponseType (m_type req) in
  if resp_type =? -1 then (false, resp)
  else
    let resp := (SetTransactionID (SetType resp resp_type) (m_transaction_id req)).2 in
    (true, add (StunErrorCodeAttribute STUN_ATTR_ERROR_CODE code reason) resp).

Definition TurnServer_Send (conn : TurnConnection) (buf : list Z) (st : TurnServer) : option TurnServer :=
  if alive (socket_ conn) st then Some (send (ToClient (socket_ conn) (src_ conn) buf) st) else None.
Definition SendStun (conn : TurnConnection) (msg : StunMessage) (st : TurnServer) : option TurnServer :=
  let msg := match software_ (config st) with
             | [] => msg
             | software => add (StunByteStringAttribute STUN_ATTR_SOFTWARE software) msg
             end in
  TurnServer_Send conn (Data (Write msg (ByteBuffer_new ORDER_NETWORK)).2) st.

(** The nonce: the time in hex, and the HMAC of the time under the key. *)
Definition GenerateNonce (nonce_key : list Z) (now : Z) : list Z :=
  let input := host_store 4 now in
  hex_encode input ++ ComputeHmac_hex DIGEST_MD5 nonce_key input.
Definition ValidateNonce (nonce_key nonce : list Z) (now : Z) : bool :=
  if negb (zlen nonce =? kNonceSize) then false
  else
    let '(len, p) := hex_decode (fresh_block 4) (ztake 8 nonce) in
    if negb (len =? 4) then false
    else if negb (bool_decide (zdrop 8 nonce = ComputeHmac_hex DIGEST_MD5 nonce_key p)) then false
    else TimeDiff now (host_load p) <? kNonceTimeout.

Definition TurnServer_SendErrorResponse (conn : TurnConnection) (req : StunMessage) (code : Z) (reason : list Z)
    (st : TurnServer) : option TurnServer :=
  SendStun conn (InitErrorResponse req code reason (StunMessage_new CTurn)).2 st.
Definition SendErrorResponseWithRealmAndNonce (conn : TurnConnection) (msg : StunMessage) (code : Z) (reason : list Z)
    (now : Z) (st : TurnServer) : option TurnServer :=
  let resp := (InitErrorResponse msg code reason (StunMessage_new CTurn)).2 in
  let resp := add (StunByteStringAttribute STUN_ATTR_NONCE (GenerateNonce (nonce_key_ (config st)) now)) resp in
  let resp := add (StunByteStringAttribute STUN_ATTR_REALM (realm_ (config st))) resp in
  SendStun conn resp st.
Definition SendErrorResponseWithAlternateServer (conn : TurnConnection) (msg : StunMessage) (addr : SocketAddress)
    (st : TurnServer) : option TurnServer :=
  let resp := (InitErrorResponse msg STUN_ERROR_TRY_ALTERNATE STUN_ERROR_REASON_TRY_ALTERNATE_SERVER (StunMessage_new CTurn)).2 in
  SendStun conn (add (StunAddressAttribute STUN_ATTR_ALTERNATE_SERVER addr) resp) st.

(** ** Permissions and channels *)

Definition Permission_Refresh (p now : Z) (q : MessageQueue) : MessageQueue :=
  PostDelayed kPermissionTimeout p MSG_ALLOCATION_TIMEOUT 0 now (MessageQueue_Clear p MSG_ALLOCATION_TIMEOUT false q).2.
Definition Channel_Refresh (c now : Z) (q : MessageQueue) : MessageQueue :=
  PostDelayed kChannelTimeout c MSG_ALLOCATION_TIMEOUT 0 now (MessageQueue_Clear c MSG_ALLOCATION_TIMEOUT false q).2.
(** The destructors of Permission and Channel, with that of MessageHandler. *)
Definition delete_handler (h : Z) (q : MessageQueue) : MessageQueue :=
  clear_handler h (MessageQueue_Clear h MSG_ALLOCATION_TIMEOUT false q).2.

Definition FindPermission (addr : IPAddress) (al : Allocation) : option Permission :=
  find (λ p, ip_eq (perm_peer p) addr) (perms_ al).
Definition HasPermission (addr : IPAddress) (al : Allocation) : bool := bool_decide (is_Some (FindPermission addr al)).
Definition FindChannel_id (channel_id : Z) (al : Allocation) : option Channel :=
  find (λ c, chan_id c =? channel_id) (channels_ al).
Definition FindChannel_peer (addr : SocketAddress) (al : Allocation) : option Channel :=
  find (λ c, SocketAddress_eqb (chan_peer c) addr) (channels_ al).

Definition AddPermission (a : Z) (addr : IPAddress) (now : Z) (st : TurnServer) : option TurnServer :=
  al ← heap st !! a;
  match FindPermission addr al with
  | None =>
      let p := next_addr st in
      let st := set_queue (Permission_Refresh p now) (take_addr st) in
      Some (on_allocation a (set_perms (λ l, l ++ [mkPermission p addr])) st)
  | Some perm => Some (set_queue (Permission_Refresh (perm_addr perm) now) st)
  end.

(** ** Allocations *)

Definition ComputeLifetime (msg : StunMessage) : Z :=
  let lifetime := kDefaultAllocationTimeout / 1000 in
  match GetUInt32 msg STUN_ATTR_LIFETIME with
  | Some value => if value <? lifetime then value else lifetime
  | None => lifetime
  end.

Definition Allocation_SendResponse (a : Z) (msg : StunMessage) (st : TurnServer) : option TurnServer :=
  al ← heap st !! a;
  SendStun (conn_ al) (AddMessageIntegrity msg (key_ al)).2 st.
Definition Allocation_SendErrorResponse (a : Z) (req : StunMessage) (code : Z) (reason : list Z) (st : TurnServer)
    : option TurnServer :=
  al ← heap st !! a;
  TurnServer_SendErrorResponse (conn_ al) req code reason st.
Definition SendBadRequestResponse (a : Z) (req : StunMessage) (st : TurnServer) : option TurnServer :=
  Allocation_SendErrorResponse a req STUN_ERROR_BAD_REQUEST STUN_ERROR_REASON_BAD_REQUEST st.
Definition SendExternal (a : Z) (data : list Z) (peer : SocketAddress) (st : TurnServer) : TurnServer :=
  send (ToPeer a peer data) st.

Definition Allocation_HandleAllocateRequest (a : Z) (msg : StunMessage) (now : Z) (st : TurnServer) : option TurnServer :=
  username ← GetByteString msg STUN_ATTR_USERNAME;
  al ← heap st !! a;
  let st := on_allocation a (set_identity (m_transaction_id msg) username) st in
  let lifetime_secs := ComputeLifetime msg in
  let st := set_queue (PostDelayed (lifetime_secs * 1000) a MSG_ALLOCATION_TIMEOUT 0 now) st in
  let response := (InitResponse msg (StunMessage_new CTurn)).2 in
  let response := add (StunXorAddressAttribute STUN_ATTR_XOR_MAPPED_ADDRESS (src_ (conn_ al))) response in
  let response := add (StunXorAddressAttribute STUN_ATTR_XOR_RELAYED_ADDRESS (external_socket_ al)) response in
  let response := add (StunUInt32Attribute STUN_ATTR_LIFETIME lifetime_secs) response in
  Allocation_SendResponse a response st.

Definition HandleRefreshRequest (a : Z) (msg : StunMessage) (now : Z) (st : TurnServer) : option TurnServer :=
  let lifetime_secs := ComputeLifetime msg in
  let st := set_queue (λ q, (MessageQueue_Clear a MSG_ALLOCATION_TIMEOUT false q).2) st in
  let st := set_queue (PostDelayed (lifetime_secs * 1000) a MSG_ALLOCATION_TIMEOUT 0 now) st in
  let response := (InitResponse msg (StunMessage_new CTurn)).2 in
  Allocation_SendResponse a (add (StunUInt32Attribute STUN_ATTR_LIFETIME lifetime_secs) response) st.

Definition HandleSendIndication (a : Z) (msg : StunMessage) (st : TurnServer) : option TurnServer :=
  match GetByteString msg STUN_ATTR_DATA, attr_address <$> GetAddress msg STUN_ATTR_XOR_PEER_ADDRESS with
  | Some data, Some peer =>
      al ← heap st !! a;
      Some (if HasPermission (ip_ peer) al then SendExternal a data peer st else st)
  | _, _ => Some st
  end.

Definition HandleCreatePermissionRequest (a : Z) (msg : StunMessage) (now : Z) (st : TurnServer) : option TurnServer :=
  match attr_address <$> GetAddress msg STUN_ATTR_XOR_PEER_ADDRESS with
  | None => SendBadRequestResponse a msg st
  | Some peer =>
      st ← AddPermission a (ip_ peer) now st;
      Allocation_SendResponse a (InitResponse msg (StunMessage_new CTurn)).2 st
  end.

Definition HandleChannelBindRequest (a : Z) (msg : StunMessage) (now : Z) (st : TurnServer) : option TurnServer :=
  match GetUInt32 msg STUN_ATTR_CHANNEL_NUMBER, attr_address <$> GetAddress msg STUN_ATTR_XOR_PEER_ADDRESS with
  | Some value, Some peer =>
      let channel_id := Z.shiftr value 16 in
      if (channel_id <? kMinChannelNumber) || (kMaxChannelNumber <? channel_id) then SendBadRequestResponse a msg st
      else
        al ← heap st !! a;
        let channel1 := FindChannel_id channel_id al in
        let channel2 := FindChannel_peer peer al in
        if negb (bool_decide (chan_addr <$> channel1 = chan_addr <$> channel2)) then SendBadRequestResponse a msg st
        else
          let st := match channel1 with
                    | None =>
                        let c := next_addr st in
                        let st := set_queue (Channel_Refresh c now) (take_addr st) in
                        on_allocation a (set_channels (λ l, l ++ [mkChannel c channel_id peer])) st
                    | Some channel => set_queue (Channel_Refresh (chan_addr channel) now) st
                    end in
          st ← AddPermission a (ip_ peer) now st;
          Allocation_SendResponse a (InitResponse msg (StunMessage_new CTurn)).2 st
  | _, _ => SendBadRequestResponse a msg st
  end.

Definition HandleChannelData (a : Z) (data : list Z) (st : TurnServer) : option TurnServer :=
  al ← heap st !! a;
  match FindChannel_id (GetBE16 data 0) al with
  | Some channel => Some (SendExternal a (zdrop TURN_CHANNEL_HEADER_SIZE data) (chan_peer channel) st)
  | None => Some st
  end.

Definition OnExternalPacket (a : Z) (data : list Z) (addr : SocketAddress) (random : list Z) (st : TurnServer)
    : option TurnServer :=
  al ← heap st !! a;
  match FindChannel_peer addr al with
  | Some channel =>
      let buf := ByteBuffer_new ORDER_NETWORK in
      let buf := WriteUInt16 buf (u16 (chan_id channel)) in
      let buf := WriteUInt16 buf (u16 (zlen data)) in
      let buf := WriteBytes buf data in
      TurnServer_Send (conn_ al) (Data buf) st
  | None =>
      if HasPermission (ip_ addr) al then
        let msg := SetType (StunMessage_new CTurn) TURN_DATA_INDICATION in
        let msg := (SetTransactionID msg random).2 in
        let msg := add (StunXorAddressAttribute STUN_ATTR_XOR_PEER_ADDRESS addr) msg in
        let msg := add (StunByteStringAttribute STUN_ATTR_DATA data) msg in
        SendStun (conn_ al) msg st
      else Some st
  end.

Definition HandleTurnMessage (a : Z) (msg : StunMessage) (now : Z) (st : TurnServer) : option TurnServer :=
  switch (m_type msg)
    [ (STUN_ALLOCATE_REQUEST, Allocation_HandleAllocateRequest a msg now st);
      (TURN_REFRESH_REQUEST, HandleRefreshRequest a msg now st);
      (TURN_SEND_INDICATION, HandleSendIndication a msg st);
      (TURN_CREATE_PERMISSION_REQUEST, HandleCreatePermissionRequest a msg now st);
      (TURN_CHANNEL_BIND_REQUEST, HandleChannelBindRequest a msg now st) ] (Some st).

(** The destructor: the channels, the permissions, the timer and the external socket. *)
Definition delete_allocation (a : Z) (st : TurnServer) : option TurnServer :=
  al ← heap st !! a;
  let st := set_queue (λ q, fold_left (λ q c, delete_handler (chan_addr c) q) (channels_ al) q) st in
  let st := set_queue (λ q, fold_left (λ q p, delete_handler (perm_addr p) q) (perms_ al) q) st in
  Some (set_heap (delete a) (set_queue (delete_handler a) st)).

(** ** The server *)

Definition FindAllocation (conn : TurnConnection) (st : TurnServer) : option (option Z) :=
  map_find conn (allocations_ st).

(** [ext] is the local address of the socket that CreateUdpSocket returns. *)
Definition CreateAllocation (conn : TurnConnection) (key : list Z) (ext : option SocketAddress) (st : TurnServer)
    : option (option Z * TurnServer) :=
  match (if external_socket_factory_ (config st) then ext else None) with
  | None => Some (None, st)
  | Some external_socket =>
      let a := next_addr st in
      let st := set_heap <[a := Allocation_new conn external_socket key]> (take_addr st) in
      m ← map_assign conn a (allocations_ st);
      Some (Some a, set_allocations m st)
  end.

Definition TurnServer_HandleAllocateRequest (conn : TurnConnection) (msg : StunMessage) (key : list Z)
    (ext : option SocketAddress) (now : Z) (st : TurnServer) : option TurnServer :=
  match GetUInt32 msg STUN_ATTR_REQUESTED_TRANSPORT with
  | None => TurnServer_SendErrorResponse conn msg STUN_ERROR_BAD_REQUEST STUN_ERROR_REASON_BAD_REQUEST st
  | Some value =>
      let proto := Z.shiftr value 24 in
      if negb (proto =? IPPROTO_UDP) then
        TurnServer_SendErrorResponse conn msg STUN_ERROR_UNSUPPORTED_PROTOCOL STUN_ERROR_REASON_UNSUPPORTED_PROTOCOL st
      else
        '(alloc, st) ← CreateAllocation conn key ext st;
        match alloc with
        | Some a => HandleTurnMessage a msg now st
        | None => TurnServer_SendErrorResponse conn msg STUN_ERROR_SERVER_ERROR (text "Failed to allocate socket") st
        end
  end.

Definition HandleBindingRequest (conn : TurnConnection) (req : StunMessage) (st : TurnServer) : option TurnServer :=
  let response := (InitResponse req (StunMessage_new CStun)).2 in
  SendStun conn (add (StunXorAddressAttribute STUN_ATTR_XOR_MAPPED_ADDRESS (src_ conn)) response) st.

(** The key that the hook stored, whatever it returned; none if it was not asked. *)
Definition GetKey (msg : StunMessage) (st : TurnServer) : bool * list Z :=
  match GetByteString msg STUN_ATTR_USERNAME with
  | None => (false, [])
  | Some username =>
      match auth_hook_ (config st) with
      | None => (false, [])
      | Some hook => hook username (realm_ (config st))
      end
  end.

Definition CheckAuthorization (conn : TurnConnection) (msg : StunMessage) (data key : list Z) (now : Z) (st : TurnServer)
    : option (bool * TurnServer) :=
  let refuse (r : option TurnServer) := pair false <$> r in
  match GetByteString msg STUN_ATTR_MESSAGE_INTEGRITY with
  | None => refuse (SendErrorResponseWithRealmAndNonce conn msg STUN_ERROR_UNAUTHORIZED STUN_ERROR_REASON_UNAUTHORIZED now st)
  | Some _ =>
      match GetByteString msg STUN_ATTR_USERNAME, GetByteString msg STUN_ATTR_REALM, GetByteString msg STUN_ATTR_NONCE with
      | Some _, Some _, Some nonce =>
          if negb (ValidateNonce (nonce_key_ (config st)) nonce now) then
            refuse (SendErrorResponseWithRealmAndNonce conn msg STUN_ERROR_STALE_NONCE STUN_ERROR_REASON_STALE_NONCE now st)
          else
            valid ← (match key with [] => Some false | _ => ValidateMessageIntegrity data key end);
            if negb (valid : bool) then
              refuse (SendErrorResponseWithRealmAndNonce conn msg STUN_ERROR_UNAUTHORIZED STUN_ERROR_REASON_UNAUTHORIZED now st)
            else
              allocation ← FindAllocation conn st;
              match allocation with
              | None => Some (true, st)
              | Some a =>
                  al ← heap st !! a;
                  if enable_otu_nonce_ (config st) && bool_decide (last_nonce_ al = nonce) then
                    refuse (SendErrorResponseWithRealmAndNonce conn msg STUN_ERROR_STALE_NONCE STUN_ERROR_REASON_STALE_NONCE now st)
                  else Some (true, on_allocation a (set_last_nonce nonce) st)
              end
      | _, _, _ =>
          refuse (TurnServer_SendErrorResponse conn msg STUN_ERROR_BAD_REQUEST STUN_ERROR_REASON_BAD_REQUEST st)
      end
  end.

(** After the message was parsed, for the allocation and the key that were looked up. *)
Definition handle_authorized (conn : TurnConnection) (msg : StunMessage) (key : list Z) (allocation : option Z)
    (ext : option SocketAddress) (now : Z) (st : TurnServer) : option TurnServer :=
  match allocation with
  | None =>
      if m_type msg =? STUN_ALLOCATE_REQUEST then TurnServer_HandleAllocateRequest conn msg key ext now st
      else TurnServer_SendErrorResponse conn msg STUN_ERROR_ALLOCATION_MISMATCH STUN_ERROR_REASON_ALLOCATION_MISMATCH st
  | Some a =>
      al ← heap st !! a;
      if negb (m_type msg =? STUN_ALLOCATE_REQUEST) || bool_decide (m_transaction_id msg = transaction_id_ al) then
        same_user ← (if IsStunRequestType (m_type msg)
                     then (λ username, bool_decide (username = username_ al)) <$> GetByteString msg STUN_ATTR_USERNAME
                     else Some true);
        if (same_user : bool) then HandleTurnMessage a msg now st
        else TurnServer_SendErrorResponse conn msg STUN_ERROR_WRONG_CREDENTIALS STUN_ERROR_REASON_WRONG_CREDENTIALS st
      else TurnServer_SendErrorResponse conn msg STUN_ERROR_ALLOCATION_MISMATCH STUN_ERROR_REASON_ALLOCATION_MISMATCH st
  end.
(** From the lookup of the key on. *)
Definition handle_message (conn : TurnConnection) (msg : StunMessage) (data : list Z) (ext : option SocketAddress) (now : Z)
    (st : TurnServer) : option TurnServer :=
  allocation ← FindAllocation conn st;
  key ← (match allocation with
         | None => Some (GetKey msg st).2
         | Some a => key_ <$> heap st !! a
         end);
  '(ok, st) ← (if IsStunRequestType (m_type msg) then CheckAuthorization conn msg data key now st else Some (true, st));
  if (ok : bool) then handle_authorized conn msg key allocation ext now st else Some st.
Definition HandleStunMessage (conn : TurnConnection) (data : list Z) (ext : option SocketAddress) (now : Z)
    (st : TurnServer) : option TurnServer :=
  match Read (StunMessage_new CTurn, ByteBuffer_of data ORDER_NETWORK) with
  | (Some true, (msg, buf)) =>
      if 0 <? Length buf then Some st
      else if m_type msg =? STUN_BINDING_REQUEST then HandleBindingRequest conn msg st
      else
        let redirect :=
          match redirect_hook_ (config st) with
          | Some hook => if m_type msg =? STUN_ALLOCATE_REQUEST then Some (hook (src_ conn)) else None
          | None => None
          end in
        match redirect with
        | Some (true, address) => SendErrorResponseWithAlternateServer conn msg address st
        | _ => handle_message conn msg data ext now st
        end
  | _ => Some st
  end.

Definition OnInternalPacket (socket : Z) (data : list Z) (addr : SocketAddress) (ext : option SocketAddress) (now : Z)
    (st : TurnServer) : option TurnServer :=
  if zlen data <? TURN_CHANNEL_HEADER_SIZE then Some st
  else
    proto ← server_sockets_ st !! socket;
    remote ← sockets st !! socket;
    let conn := mkConn addr remote proto socket in
    if negb (IsTurnChannelData (GetBE16 data 0)) then HandleStunMessage conn data ext now st
    else
      allocation ← FindAllocation conn st;
      match allocation with Some a => HandleChannelData a data st | None => Some st end.

(** ** Sockets *)

Definition AddInternalSocket (socket : Z) (proto : ProtocolType) (st : TurnServer) : option TurnServer :=
  match server_sockets_ st !! socket with
  | Some _ => None
  | None => Some (set_server_sockets <[socket := proto]> st)
  end.
Definition AddInternalServerSocket (socket : Z) (proto : ProtocolType) (st : TurnServer) : option TurnServer :=
  match server_listen_sockets_ st !! socket with
  | Some _ => None
  | None => Some (set_listen_sockets <[socket := proto]> st)
  end.
Definition SetExternalSocketFactory (factory : bool) (external_addr : SocketAddress) (st : TurnServer) : TurnServer :=
  let c := config st in
  set_config (mkConfig (nonce_key_ c) (realm_ c) (software_ c) (auth_hook_ c) (redirect_hook_ c) (enable_otu_nonce_ c)
                factory external_addr) st.

(** [accepted] is the new socket that Accept gives, with its remote address. *)
Definition AcceptConnection (server_socket : Z) (accepted : option (Z * SocketAddress)) (st : TurnServer) : option TurnServer :=
  match accepted with
  | None => Some st
  | Some (tcp_socket, remote) =>
      let proto := default PROTO_UDP (server_listen_sockets_ st !! server_socket) in
      let st := set_listen_sockets <[server_socket := proto]> st in
      AddInternalSocket tcp_socket proto (set_sockets <[tcp_socket := remote]> st)
  end.
Definition OnNewInternalConnection (socket : Z) (accepted : option (Z * SocketAddress)) (st : TurnServer) : option TurnServer :=
  match server_listen_sockets_ st !! socket with
  | Some _ => AcceptConnection socket accepted st
  | None => None
  end.

Definition DestroyInternalSocket (socket now : Z) (st : TurnServer) : TurnServer :=
  match server_sockets_ st !! socket with
  | Some _ => set_server_sockets (delete socket) (set_queue (Dispose socket socket now) st)
  | None => st
  end.
Definition OnInternalSocketClose (socket now : Z) (st : TurnServer) : TurnServer := DestroyInternalSocket socket now st.

Definition OnAllocationDestroyed (a now : Z) (st : TurnServer) : option TurnServer :=
  al ← heap st !! a;
  let socket := socket_ (conn_ al) in
  proto ← server_sockets_ st !! socket;
  let st := if negb (proto_value proto =? proto_value PROTO_UDP) then DestroyInternalSocket socket now st else st in
  m ← map_erase (conn_ al) (allocations_ st);
  Some (set_allocations m st).

(** ** Timers *)

Definition Allocation_OnMessage (a now : Z) (st : TurnServer) : option TurnServer :=
  st ← OnAllocationDestroyed a now st;
  delete_allocation a st.
Definition OnPermissionDestroyed (a p : Z) (st : TurnServer) : option TurnServer :=
  al ← heap st !! a;
  if existsb (λ x, perm_addr x =? p) (perms_ al)
  then Some (on_allocation a (set_perms (List.filter (λ x, negb (perm_addr x =? p)))) st) else None.
Definition OnChannelDestroyed (a c : Z) (st : TurnServer) : option TurnServer :=
  al ← heap st !! a;
  if existsb (λ x, chan_addr x =? c) (channels_ al)
  then Some (on_allocation a (set_channels (List.filter (λ x, negb (chan_addr x =? c)))) st) else None.
Definition Permission_OnMessage (a p : Z) (st : TurnServer) : option TurnServer :=
  set_queue (delete_handler p) <$> OnPermissionDestroyed a p st.
Definition Channel_OnMessage (a c : Z) (st : TurnServer) : option TurnServer :=
  set_queue (delete_handler c) <$> OnChannelDestroyed a c st.

(** The handler of a message: an allocation, or a permission or a channel of one. *)
Inductive turn_handler := HAllocation (a : Z) | HPermission (a p : Z) | HChannel (a c : Z).
Definition has_permission_at (h : Z) (e : Z * Allocation) : bool := existsb (λ x, perm_addr x =? h) (perms_ e.2).
Definition has_channel_at (h : Z) (e : Z * Allocation) : bool := existsb (λ x, chan_addr x =? h) (channels_ e.2).
Definition find_handler (h : Z) (st : TurnServer) : option turn_handler :=
  match heap st !! h with
  | Some _ => Some (HAllocation h)
  | None =>
      match find (has_permission_at h) (map_to_list (heap st)) with
      | Some (a, _) => Some (HPermission a h)
      | None => (λ e, HChannel e.1 h) <$> find (has_channel_at h) (map_to_list (heap st))
      end
  end.
Definition turn_dispatch (now : Z) (st : TurnServer) : option TurnServer :=
  '(r, _, q) ← Get 0 now [mkRound true [] now] (queue st);
  let st := set_queue (λ _, q) st in
  match r with
  | None => Some st
  | Some m =>
      if negb (message_id m =? MSG_ALLOCATION_TIMEOUT) then None
      else
        h ← find_handler (phandler m) st;
        match h with
        | HAllocation a => Allocation_OnMessage a now st
        | HPermission a p => Permission_OnMessage a p st
        | HChannel a c => Channel_OnMessage a c st
        end
  end.

(** The destructor of the server; the sockets go after the allocations. *)
Fixpoint delete_allocations (l : list Z) (st : TurnServer) : option TurnServer :=
  match l with
  | [] => Some st
  | a :: l => st ← delete_allocation a st; delete_allocations l st
  end.
Definition TurnServer_delete (st : TurnServer) : option TurnServer :=
  st ← delete_allocations ((allocations_ st).*2) st;
  Some (set_sockets (filter (λ e, server_sockets_ st !! e.1 = None)) st).

(** ** Uses of the server *)

Inductive turn_op :=
  | TConfigure (c : TurnConfig)
  | TAddSocket (socket : Z) (proto : ProtocolType) (remote : SocketAddress)
  | TAddServerSocket (socket : Z) (proto : ProtocolType)
  | TAccept (socket : Z) (accepted : option (Z * SocketAddress))
  | TClose (socket now : Z)
  | TPacket (socket : Z) (data : list Z) (addr : SocketAddress) (ext : option SocketAddress) (now : Z)
  | TPeer (a : Z) (data : list Z) (addr : SocketAddress) (random : list Z)
  | TDispatch (now : Z).

(** A packet comes only to a socket that lives. *)
Definition turn_step (o : turn_op) (st : TurnServer) : option TurnServer :=
  match o with
  | TConfigure c => Some (set_config c st)
  | TAddSocket s proto remote => AddInternalSocket s proto (set_sockets <[s := remote]> st)
  | TAddServerSocket s proto => AddInternalServerSocket s proto st
  | TAccept s accepted => OnNewInternalConnection s accepted st
  | TClose s now => Some (OnInternalSocketClose s now st)
  | TPacket s data addr ext now => if alive s st then OnInternalPacket s data addr ext now st else Some st
  | TPeer a data addr random => match heap st !! a with Some _ => OnExternalPacket a data addr random st | None => Some st end
  | TDispatch now => turn_dispatch now st
  end.
Fixpoint turn_run (ops : list turn_op) (st : TurnServer) : option TurnServer :=
  match ops with
  | [] => Some st
  | o :: ops => st ← turn_step o st; turn_run ops st
  end.
End turn.
