(* ===== verification/TurnSafe.v ===== *)
(** * The TURN server is safe on UDP

    The invariant of a server whose clients come over UDP: what it holds, and that no
    step of it is undefined.  It also carries the history of each permission and each
    channel: the request that granted it, and the timer that ends it. *)

From stdpp Require Import strings.
From S2P Require Import Prelude ByteOrder StringEncode ByteBuffer IpAddress MessageDigest Stun StunWire StunTyped StunIntegrity StunBuild TimeUtils MessageQueue TurnServer.

(** ** The map of the allocations *)

Section order.
Context `{Platform}.

Lemma SocketAddress_lt_irrefl a : ip_ok (ip_ a) → SocketAddress_lt a a = false.
Proof.
  intros Ha. apply not_true_is_false. rewrite SocketAddress_lt_spec by done.
  intros [?|[_ [E|[_ ?]]]]; [lia| |lia]. by rewrite string_lt_irrefl in E.
Qed.
Lemma SocketAddress_lt_trans a b c : ip_ok (ip_ a) → ip_ok (ip_ b) → ip_ok (ip_ c) →
  SocketAddress_lt a b = true → SocketAddress_lt b c = true → SocketAddress_lt a c = true.
Proof. intros Ha Hb Hc. rewrite !SocketAddress_lt_spec by done. by apply sa_before_trans. Qed.
Lemma SocketAddress_eqb_trans a b c : ip_ok (ip_ a) → ip_ok (ip_ b) → ip_ok (ip_ c) →
  SocketAddress_eqb a b = true → SocketAddress_eqb b c = true → SocketAddress_eqb a c = true.
Proof. intros Ha Hb Hc. rewrite !SocketAddress_eqb_spec by done. intuition congruence. Qed.
Lemma SocketAddress_eqb_sym a b : ip_ok (ip_ a) → ip_ok (ip_ b) → SocketAddress_eqb a b = SocketAddress_eqb b a.
Proof. intros Ha Hb. apply eq_true_iff_eq. rewrite !SocketAddress_eqb_spec by done. intuition congruence. Qed.

(** A connection over a UDP socket, which has no remote address. *)
Definition udp_conn (c : TurnConnection) : Prop :=
  dst_ c = SocketAddress_Clear ∧ proto_ c = PROTO_UDP ∧ ip_ok (ip_ (src_ c)).

Lemma clear_ok : ip_ok (ip_ SocketAddress_Clear).
Proof. split_and!; [done|apply bytes_ok_zeros|done]. Qed.
Lemma udp_lt c d : udp_conn c → udp_conn d → TurnConnection_lt c d = SocketAddress_lt (src_ c) (src_ d).
Proof.
  intros (Ec & Pc & _) (Ed & Pd & _). unfold TurnConnection_lt.
  rewrite Ec, Ed, Pc, Pd, (SocketAddress_lt_irrefl _ clear_ok). cbn. by rewrite !orb_false_r.
Qed.
Lemma udp_equivalent c d : udp_conn c → udp_conn d →
  equivalent TurnConnection_lt c d = SocketAddress_eqb (src_ c) (src_ d).
Proof.
  intros Hc Hd. unfold equivalent. rewrite !udp_lt by done. symmetry. apply SocketAddress_total; [apply Hc|apply Hd].
Qed.
Lemma udp_order l : Forall udp_conn l → strict_weak_order TurnConnection_lt l = true.
Proof.
  rewrite Forall_forall. intros Hl. unfold strict_weak_order. apply forallb_forall. intros x Hx%list_elem_of_In%Hl.
  pose proof Hx as (_ & _ & Ix). rewrite udp_lt, SocketAddress_lt_irrefl by done. apply forallb_forall. intros y Hy%list_elem_of_In%Hl.
  pose proof Hy as (_ & _ & Iy). rewrite !udp_lt by done. apply andb_true_intro. split.
  { destruct (SocketAddress_lt (src_ x) (src_ y)) eqn:E1, (SocketAddress_lt (src_ y) (src_ x)) eqn:E2; try done.
    pose proof (SocketAddress_lt_trans _ _ _ Ix Iy Ix E1 E2) as E. by rewrite SocketAddress_lt_irrefl in E. }
  apply forallb_forall. intros z Hz%list_elem_of_In%Hl. pose proof Hz as (_ & _ & Iz).
  rewrite !udp_equivalent, !udp_lt by done. apply andb_true_intro. split.
  - destruct (SocketAddress_lt (src_ x) (src_ y)) eqn:E1, (SocketAddress_lt (src_ y) (src_ z)) eqn:E2; try done. cbn.
    exact (SocketAddress_lt_trans _ _ _ Ix Iy Iz E1 E2).
  - destruct (SocketAddress_eqb (src_ x) (src_ y)) eqn:E1, (SocketAddress_eqb (src_ y) (src_ z)) eqn:E2; try done. cbn.
    exact (SocketAddress_eqb_trans _ _ _ Ix Iy Iz E1 E2).
Qed.

(** The map as an association list by the address of the client. *)
Definition from (addr : SocketAddress) (e : TurnConnection * Z) : bool := SocketAddress_eqb (src_ e.1) addr.
Definition udp_map (m : AllocationMap) : Prop := Forall (λ e, udp_conn e.1) m.

Lemma find_ext {A} (f g : A → bool) l : Forall (λ x, f x = g x) l → find f l = find g l.
Proof. induction 1 as [|x l Hx _ IH]; cbn; [done|]. by rewrite Hx, IH. Qed.
Lemma udp_same_key c m : udp_conn c → udp_map m → Forall (λ e, same_key c e = from (src_ c) e) m.
Proof. intros Hc Hm. eapply Forall_impl; [exact Hm|]. intros e He. by apply udp_equivalent. Qed.
Lemma udp_find c m : udp_conn c → udp_map m → map_find c m = Some (snd <$> find (from (src_ c)) m).
Proof.
  intros Hc Hm. unfold map_find, ordered_with. rewrite udp_order; [|constructor; [done|by apply Forall_fmap]].
  by rewrite (find_ext _ _ _ (udp_same_key c m Hc Hm)).
Qed.
End order.

(** ** Timers *)

(** A running queue that holds only timers of live handlers. *)
Definition timers (live : Z → Prop) (q : MessageQueue) : Prop :=
  fStop_ q = false ∧ msgPeek_ q = None ∧ Forall (eq 0) (deleted q) ∧
  Forall (λ m, message_id m = MSG_ALLOCATION_TIMEOUT ∧ pdata m = 0 ∧ live (phandler m)) (queue_messages q).
(** The timer of a handler waits for its time, or for its turn. *)
Definition pending (h trigger : Z) (q : MessageQueue) : Prop :=
  (∃ m, m ∈ msgq_ q ∧ phandler m = h) ∨ (∃ d, d ∈ dmsgq_ q ∧ phandler (msg_ d) = h ∧ msTrigger_ d = trigger).

Lemma timers_mono (live live' : Z → Prop) q : timers live q → (∀ h, live h → live' h) → timers live' q.
Proof.
  intros (? & ? & ? & Hm) Hl. split_and!; try done. eapply Forall_impl; [exact Hm|]. cbn. intros m (? & ? & ?). auto.
Qed.
Lemma timers_post live cms h now q : timers live q → live h →
  timers live (PostDelayed cms h MSG_ALLOCATION_TIMEOUT 0 now q).
Proof.
  intros (Hs & Hp & Hd & Hm) Hh. split_and!.
  - unfold PostDelayed, DoDelayPost. by rewrite Hs.
  - unfold PostDelayed, DoDelayPost. by rewrite Hs.
  - unfold PostDelayed, DoDelayPost. by rewrite Hs.
  - rewrite PostDelayed_messages by done. by constructor.
Qed.
Lemma timers_clear_one live h id q : timers live q →
  timers (λ x, live x ∧ (h ≠ 0 → id = MSG_ALLOCATION_TIMEOUT ∨ id = MQID_ANY → x ≠ h)) (MessageQueue_Clear h id false q).2.
Proof.
  intros (Hs & Hp & Hd & Hm). split_and!; [done| |..].
  - cbn. by rewrite Hp.
  - cbn. rewrite Hp. apply Forall_app. split; [done|]. cbn. unfold queue_messages in Hm. apply Forall_app in Hm as [Hm1 Hm2].
    rewrite fmap_app. apply Forall_app. split; rewrite ?Forall_fmap in *; apply Forall_bfilter.
    + eapply Forall_impl; [exact Hm1|]. cbn. intros m (_ & E & _). done.
    + eapply Forall_impl; [exact Hm2|]. cbn. intros m (_ & E & _). done.
  - rewrite Clear_messages. apply Forall_forall. intros m Hin. apply list_elem_of_In, filter_In in Hin as [Hin Hf].
    apply list_elem_of_In in Hin. rewrite Forall_forall in Hm. destruct (Hm m Hin) as (Eid & Ed & Hl).
    split_and!; try done. intros Hh Hid E. unfold Match in Hf. rewrite Eid, E, Z.eqb_refl, orb_true_r in Hf.
    destruct Hid as [-> | ->]; cbn in Hf; by rewrite ?orb_true_r in Hf.
Qed.
Lemma timers_cleared live h q : timers live q → h ≠ 0 → timers (λ x, live x ∧ x ≠ h) (delete_handler h q).
Proof.
  intros Hq Hh. unfold delete_handler, clear_handler. eapply timers_mono; [by apply timers_clear_one, timers_clear_one|].
  cbn. intros x [[? _] Hx]. split; [done|]. apply Hx; auto.
Qed.
Lemma timers_reset live cms h now q : timers live q → live h →
  timers live (PostDelayed cms h MSG_ALLOCATION_TIMEOUT 0 now (MessageQueue_Clear h MSG_ALLOCATION_TIMEOUT false q).2).
Proof.
  intros Hq Hh. apply timers_post; [|done]. eapply timers_mono; [by apply timers_clear_one|]. by cbn; intros x [? _].
Qed.
(** The loop of the queue moves a prefix of the delayed messages. *)
Lemma trigger_loop_split now dq mq :
  let '(_, dq', mq') := trigger_loop now dq mq in ∃ pre, dq = pre ++ dq' ∧ mq' = mq ++ (msg_ <$> pre).
Proof.
  revert mq. induction dq as [|d dq IH]; intros mq; cbn; [exists []; cbn; by rewrite app_nil_r|].
  destruct (TimeIsLater _ _); [exists []; cbn; by rewrite app_nil_r|].
  specialize (IH (mq ++ [msg_ d])). destruct (trigger_loop _ _ _) as [[n dq'] mq']. destruct IH as (pre & -> & ->).
  exists (d :: pre). by rewrite <- app_assoc.
Qed.
(** A [Get] gives the timer of a live handler, and leaves the timers of the others. *)
Lemma timers_get live now q : timers live q →
  ∃ r ws q', Get 0 now [mkRound true [] now] q = Some (r, ws, q') ∧ timers live q' ∧
    match r with Some m => message_id m = MSG_ALLOCATION_TIMEOUT ∧ live (phandler m) | None => True end ∧
    ∀ h t, pending h t q → match r with Some m => phandler m ≠ h | None => True end → pending h t q'.
Proof.
  intros (Hs & Hp & Hd & Hm). rewrite Get_now by done. unfold get_pass.
  pose proof (trigger_loop_split now (dmsgq_ q) (msgq_ q)) as Hsplit.
  destruct (trigger_loop now (dmsgq_ q) (msgq_ q)) as [[n dq] mq]. destruct Hsplit as (pre & Edq & Emq).
  unfold queue_messages in Hm. rewrite Edq, fmap_app, app_assoc, <- Emq in Hm.
  assert (∀ h t, pending h t q → (∃ m, m ∈ mq ∧ phandler m = h) ∨ (∃ d, d ∈ dq ∧ phandler (msg_ d) = h ∧ msTrigger_ d = t)) as Hpend.
  { intros h t [(m & Hin & E)|(d & Hin & E & Et)]; [left; exists m; rewrite Emq; set_solver|].
    rewrite Edq in Hin. apply elem_of_app in Hin as [Hin|Hin]; [|right; by exists d].
    left. exists (msg_ d). split; [|done]. rewrite Emq. apply elem_of_app. right. apply list_elem_of_fmap. by exists d. }
  rewrite pull_loop_live.
  2: { apply Forall_app in Hm as [Hm _]. eapply Forall_impl; [exact Hm|]. cbn. by intros m (-> & _). }
  destruct mq as [|m mq]; cbn [app] in Hm; (eexists _, _, _; split; [reflexivity|]).
  - split_and!; try done. intros h t Hh _. by apply Hpend in Hh.
  - apply Forall_cons in Hm as [(? & ? & ?) Hm]. split_and!; try done. intros h t Hh Hne.
    apply Hpend in Hh as [(x & Hin & E)|Hh]; [|by right]. left. exists x. split; [|done]. cbn.
    apply elem_of_cons in Hin as [->|?]; [congruence|done].
Qed.

Lemma pending_post cms h id data now q : fStop_ q = false → pending h (u32 (now + cms)) (PostDelayed cms h id data now q).
Proof.
  intros Hs. right. unfold PostDelayed, DoDelayPost. rewrite Hs. cbn.
  eexists. split; [rewrite push_perm; by apply elem_of_cons; left|done].
Qed.
Lemma pending_other_post h t cms h' id data now q : pending h t q → pending h t (PostDelayed cms h' id data now q).
Proof.
  unfold PostDelayed, DoDelayPost. destruct (fStop_ q); [done|]. intros [(m & ? & ?)|(d & Hin & ?)]; [left; by exists m|].
  right. exists d. split; [|done]. cbn. rewrite push_perm. by apply elem_of_cons; right.
Qed.
Lemma pending_clear h t h' id q : h' ≠ 0 → h' ≠ h → pending h t q → pending h t (MessageQueue_Clear h' id false q).2.
Proof.
  intros H0 Hne. assert (∀ m, phandler m = h → negb (Match m h' id) = true) as Hm.
  { intros m E. unfold Match. rewrite E, (proj2 (Z.eqb_neq h' 0)), (proj2 (Z.eqb_neq h' h)) by done. done. }
  intros [(m & Hin & E)|(d & Hin & E & Et)]; [left; exists m|right; exists d]; (split; [|done]); cbn;
    apply list_elem_of_In, filter_In; (split; [by apply list_elem_of_In|by apply Hm]).
Qed.
Lemma pending_delete h t h' q : h' ≠ 0 → h' ≠ h → pending h t q → pending h t (delete_handler h' q).
Proof. intros. unfold delete_handler, clear_handler. by do 2 (apply pending_clear; [done|done|]). Qed.
Lemma pending_reset h t cms h' now q : h' ≠ 0 → h' ≠ h → pending h t q →
  pending h t (PostDelayed cms h' MSG_ALLOCATION_TIMEOUT 0 now (MessageQueue_Clear h' MSG_ALLOCATION_TIMEOUT false q).2).
Proof. intros. by apply pending_other_post, pending_clear. Qed.

(** Deleting handlers one after the other. *)
Definition delete_handlers (l : list Z) (q : MessageQueue) : MessageQueue := fold_left (λ q h, delete_handler h q) l q.
Lemma delete_handlers_app l k q : delete_handlers (l ++ k) q = delete_handlers k (delete_handlers l q).
Proof. apply fold_left_app. Qed.
Lemma timers_deleted l : ∀ P q, timers P q → Forall (λ h, h ≠ 0) l → timers (λ x, P x ∧ x ∉ l) (delete_handlers l q).
Proof.
  induction l as [|h l IH]; intros P q Hq Hl; cbn.
  - eapply timers_mono; [done|]. intros x Hx. split; [done|]. by intros ?%elem_of_nil.
  - apply Forall_cons in Hl as [Hh Hl]. eapply timers_mono; [apply IH; [by apply timers_cleared|done]|]. cbn.
    intros x [[? ?] ?]. rewrite elem_of_cons. tauto.
Qed.
Lemma pending_deleted l h t : ∀ q, Forall (λ x, x ≠ 0) l → h ∉ l → pending h t q → pending h t (delete_handlers l q).
Proof.
  induction l as [|x l IH]; intros q Hl Hh Hp; cbn; [done|]. apply Forall_cons in Hl as [Hx Hl]. rewrite elem_of_cons in Hh.
  apply IH; [done|tauto|]. apply pending_delete; [done|intros ->; tauto|done].
Qed.

(** ** Lists *)

Lemma ordpairs_snoc {A} (R : A → A → Prop) l x :
  ForallOrdPairs R (l ++ [x]) ↔ ForallOrdPairs R l ∧ Forall (λ y, R y x) l.
Proof.
  induction l as [|y l IH]; cbn.
  - split; [by repeat constructor|]. intros _. repeat constructor.
  - split.
    + intros Hp. inversion_clear Hp as [|? ? Hy Hl]. apply Forall_app in Hy as [Hy Hx]. apply Forall_cons in Hx as [Hx _].
      apply IH in Hl as [Hl Hf]. by split; constructor.
    + intros [Hp Hf]. inversion_clear Hp as [|? ? Hy Hl]. apply Forall_cons in Hf as [Hyx Hf]. constructor; [|by apply IH].
      apply Forall_app. split; [done|]. by constructor.
Qed.
Lemma sublist_in {A} (l k : list A) x : sublist l k → x ∈ l → x ∈ k.
Proof. induction 1; rewrite ?elem_of_cons; intuition. Qed.
Lemma ordpairs_sublist {A} (R : A → A → Prop) l k : sublist l k → ForallOrdPairs R k → ForallOrdPairs R l.
Proof.
  induction 1 as [|x l k Hs IH|x l k Hs IH]; intros Hk; inversion_clear Hk as [|? ? Hx Hk']; [constructor|constructor; auto|auto].
  rewrite Forall_forall in *. intros y Hy. by apply Hx, (sublist_in l).
Qed.
Lemma ordpairs_in {A} (R : A → A → Prop) l x y : ForallOrdPairs R l → x ∈ l → y ∈ l → x = y ∨ R x y ∨ R y x.
Proof.
  induction 1 as [|z l Hz _ IH]; intros Hx Hy; [by apply elem_of_nil in Hx|]. rewrite Forall_forall in Hz.
  rewrite elem_of_cons in Hx, Hy. destruct Hx as [->|Hx], Hy as [->|Hy]; auto.
Qed.
Lemma fmap_unique {A B} (f : A → B) l x y : NoDup (f <$> l) → x ∈ l → y ∈ l → f x = f y → x = y.
Proof.
  induction l as [|z l IH]; cbn; [by intros _ ?%elem_of_nil|]. rewrite NoDup_cons. intros [Hz Hl] Hx Hy E.
  rewrite elem_of_cons in Hx, Hy. destruct Hx as [->|Hx], Hy as [->|Hy]; auto.
  - destruct Hz. rewrite E. apply list_elem_of_fmap. by exists y.
  - destruct Hz. rewrite <- E. apply list_elem_of_fmap. by exists x.
Qed.
Lemma filter_sublist {A} (f : A → bool) l : sublist (List.filter f l) l.
Proof. induction l as [|x l IH]; cbn; [done|]. destruct (f x); by constructor. Qed.
Lemma filter_same {A} (f g : A → bool) l : Forall (λ x, f x = g x) l → List.filter f l = List.filter g l.
Proof. induction 1 as [|x l Hx _ IH]; cbn; [done|]. by rewrite Hx, IH. Qed.
Lemma fmap_sublist {A B} (f : A → B) l k : sublist l k → sublist (f <$> l) (f <$> k).
Proof. induction 1; cbn; by constructor. Qed.
Lemma find_in {A} (f : A → bool) l x : find f l = Some x → x ∈ l ∧ f x = true.
Proof. intros [Hin Hf]%find_some. split; [by apply list_elem_of_In|done]. Qed.
Lemma find_not {A} (f : A → bool) l : find f l = None → Forall (λ x, f x = false) l.
Proof. intros Hf. apply Forall_forall. intros x Hx%list_elem_of_In. by eapply find_none. Qed.

(** ** The invariant *)

Definition handlers_of (a : Z) (al : Allocation) : list Z := a :: (perm_addr <$> perms_ al) ++ (chan_addr <$> channels_ al).
Definition live (st : TurnServer) (h : Z) : Prop := ∃ a al, heap st !! a = Some al ∧ h ∈ handlers_of a al.

(** The hooks and the owner give strings of bytes. *)
Definition config_ok (c : TurnConfig) : Prop :=
  match auth_hook_ c with Some hook => ∀ username realm, bytes_ok (hook username realm).2 | None => True end.

(** An address as it is read from a message: no host name. *)
Definition plain (addr : SocketAddress) : Prop := ip_ok (ip_ addr) ∧ addr = SocketAddress_of (ip_ addr) (port_ addr).
Lemma plain_eqb `{Platform} a b : plain a → plain b → SocketAddress_eqb a b = true ↔ a = b.
Proof.
  intros [Ha Ea] [Hb Eb]. rewrite SocketAddress_eqb_spec by done. split; [|by intros ->].
  intros (Ei & _ & Ep). rewrite Ea, Eb. by rewrite Ei, Ep.
Qed.

Section invariant.
Context `{Platform}.
(** What is known when a permission or a channel is granted, at a time: for the key and
    the address of the client, the address of the peer and the channel number. *)
Context (Gp : list Z → SocketAddress → IPAddress → Z → Prop)
        (Gc : list Z → SocketAddress → SocketAddress → Z → Z → Prop).

Definition perm_ok (q : MessageQueue) (al : Allocation) (p : Permission) : Prop :=
  ip_ok (perm_peer p) ∧
  ∃ t, Gp (key_ al) (src_ (conn_ al)) (perm_peer p) t ∧ pending (perm_addr p) (u32 (t + kPermissionTimeout)) q.
Definition chan_ok (q : MessageQueue) (al : Allocation) (c : Channel) : Prop :=
  kMinChannelNumber ≤ chan_id c ≤ kMaxChannelNumber ∧ plain (chan_peer c) ∧
  ∃ t, Gc (key_ al) (src_ (conn_ al)) (chan_peer c) (chan_id c) t ∧ pending (chan_addr c) (u32 (t + kChannelTimeout)) q.

(** What an allocation owns: objects at different addresses, permissions for different
    hosts, channels with different numbers for different peers. *)
Record own_ok (next : Z) (q : MessageQueue) (a : Z) (al : Allocation) : Prop := {
  own_addrs : NoDup (handlers_of a al);
  own_range : Forall (λ h, 0 < h < next) (handlers_of a al);
  own_perms : Forall (perm_ok q al) (perms_ al);
  own_chans : Forall (chan_ok q al) (channels_ al);
  own_peers : ForallOrdPairs (λ p p', ip_eq (perm_peer p) (perm_peer p') = false) (perms_ al);
  own_ids : ForallOrdPairs (λ c c', chan_id c ≠ chan_id c' ∧ SocketAddress_eqb (chan_peer c) (chan_peer c') = false) (channels_ al)
}.
(** Its place in the server. *)
Record placed (ss : gmap Z ProtocolType) (m : AllocationMap) (a : Z) (al : Allocation) : Prop := {
  placed_conn : udp_conn (conn_ al);
  placed_socket : ss !! socket_ (conn_ al) = Some PROTO_UDP;
  placed_key : bytes_ok (key_ al);
  placed_map : (conn_ al, a) ∈ m
}.
Record turn_inv (st : TurnServer) : Prop := {
  ti_timers : timers (live st) (queue st);
  ti_sockets : ∀ s p, server_sockets_ st !! s = Some p → p = PROTO_UDP ∧ s ≠ 0 ∧ sockets st !! s = Some SocketAddress_Clear;
  ti_next : 0 < next_addr st;
  ti_placed : ∀ a al, heap st !! a = Some al → placed (server_sockets_ st) (allocations_ st) a al;
  ti_own : ∀ a al, heap st !! a = Some al → own_ok (next_addr st) (queue st) a al;
  ti_disjoint : ∀ a al a' al' h, heap st !! a = Some al → heap st !! a' = Some al' →
    h ∈ handlers_of a al → h ∈ handlers_of a' al' → a = a';
  ti_map : Forall (λ e, ∃ al, heap st !! e.2 = Some al ∧ conn_ al = e.1) (allocations_ st);
  ti_keys : ForallOrdPairs (λ e e', SocketAddress_eqb (src_ e.1) (src_ e'.1) = false) (allocations_ st);
  ti_config : config_ok (config st)
}.

Lemma turn_new_inv random : turn_inv (TurnServer_new random).
Proof. split; try done. constructor. Qed.
Lemma inv_send e st : turn_inv st → turn_inv (send e st).
Proof. intros []. by split. Qed.
Lemma inv_alive s p st : turn_inv st → server_sockets_ st !! s = Some p → alive s st = true.
Proof.
  intros [(_ & _ & Hd & _) Hs] E. destruct (Hs s p E) as (_ & H0 & Es). unfold alive.
  rewrite Es, bool_decide_eq_true_2 by done. rewrite bool_decide_eq_false_2; [done|].
  intros Hin. rewrite Forall_forall in Hd. by specialize (Hd s Hin).
Qed.
Lemma inv_udp_map st : turn_inv st → udp_map (allocations_ st).
Proof.
  intros Hi. pose proof (ti_map _ Hi) as Hm. eapply Forall_impl; [exact Hm|]. cbn. intros e (al & E & <-).
  apply (placed_conn _ _ _ _ (ti_placed _ Hi _ _ E)).
Qed.
Lemma inv_find conn st : turn_inv st → udp_conn conn →
  FindAllocation conn st = Some (snd <$> find (from (src_ conn)) (allocations_ st)).
Proof. intros Hi Hc. by apply udp_find; [|apply inv_udp_map]. Qed.

(** An update of one allocation that keeps its place. *)
Lemma inv_update st st' a al al' : turn_inv st → heap st !! a = Some al →
  config st' = config st → sockets st' = sockets st → server_sockets_ st' = server_sockets_ st → allocations_ st' = allocations_ st →
  heap st' = <[a := al']> (heap st) → next_addr st ≤ next_addr st' →
  conn_ al' = conn_ al → key_ al' = key_ al →
  (∀ h, h ∈ handlers_of a al' → h ∈ handlers_of a al ∨ next_addr st ≤ h) →
  timers (live st') (queue st') →
  (∀ h t, live st h → h ∉ handlers_of a al → pending h t (queue st) → pending h t (queue st')) →
  own_ok (next_addr st') (queue st') a al' → turn_inv st'.
Proof.
  intros Hi E Ec Es Ess Em Eh Hn Econn Ekey Hh Ht Hp Hown. pose proof Hi as [].
  assert (∀ a' al'', a' ≠ a → heap st !! a' = Some al'' → ∀ h, h ∈ handlers_of a' al'' → h ∉ handlers_of a al' ∧ h ∉ handlers_of a al) as Hdis.
  { intros a' al'' Hne E' h Hin. assert (h ∉ handlers_of a al) as Hno by (intros Hin2; by destruct Hne, (ti_disjoint0 a' al'' a al h)).
    split; [|done]. intros Hin2. destruct (Hh h Hin2) as [?|Hge]; [done|].
    pose proof (own_range _ _ _ _ (ti_own0 a' al'' E')) as Hr. rewrite Forall_forall in Hr. specialize (Hr h Hin). lia. }
  split; rewrite ?Ec, ?Es, ?Ess, ?Em, ?Eh; try done; [lia|..].
  - intros a' al''. rewrite lookup_insert_Some. intros [[<- <-]|[Hne E']].
    + destruct (ti_placed0 a al E). split; rewrite ?Ess, ?Em, ?Econn, ?Ekey; done.
    + destruct (ti_placed0 a' al'' E'). split; rewrite ?Ess, ?Em; done.
  - intros a' al''. rewrite lookup_insert_Some. intros [[<- <-]|[Hne E']]; [done|].
    assert (∀ h t, h ∈ handlers_of a' al'' → pending h t (queue st) → pending h t (queue st')) as Hkeep.
    { intros h t Hin Hpd. apply Hp; [by exists a', al''|by apply (Hdis a' al'')|done]. }
    destruct (ti_own0 a' al'' E') as [Hnd Hr Hpm Hch Hpe Hid]. split; try done.
    + eapply Forall_impl; [exact Hr|]. cbn. lia.
    + apply Forall_forall. intros p Hin. rewrite Forall_forall in Hpm. destruct (Hpm p Hin) as (? & t & ? & ?).
      split; [done|]. exists t. split; [done|]. apply Hkeep; [|done]. unfold handlers_of. rewrite elem_of_cons, elem_of_app.
      right. left. apply list_elem_of_fmap. by exists p.
    + apply Forall_forall. intros p Hin. rewrite Forall_forall in Hch. destruct (Hch p Hin) as (? & ? & t & ? & ?).
      split; [done|]. split; [done|]. exists t. split; [done|]. apply Hkeep; [|done]. unfold handlers_of. rewrite elem_of_cons, elem_of_app.
      right. right. apply list_elem_of_fmap. by exists p.
  - intros a1 al1 a2 al2 h. rewrite !lookup_insert_Some. intros [[<- <-]|[Hne1 E1]] [[<- <-]|[Hne2 E2]] H1 H2; try done.
    + by destruct (Hdis a2 al2 (not_eq_sym Hne2) E2 h H2).
    + by destruct (Hdis a1 al1 (not_eq_sym Hne1) E1 h H1).
    + by apply (ti_disjoint0 a1 al1 a2 al2 h).
  - eapply Forall_impl; [exact ti_map0|]. cbn. intros [c a'] (al'' & E' & Ec'). cbn in *. destruct (decide (a = a')) as [<-|Hne].
    + exists al'. rewrite lookup_insert. simplify_eq. by rewrite Econn, decide_True.
    + exists al''. by rewrite lookup_insert_ne.
Qed.
End invariant.
