(* ===== verification/TurnSteps.v ===== *)
(** * The steps of the TURN server

    Each operation of [TurnServer] keeps the invariant of [TurnSafe], is defined, and
    relays to peers only with a permission or a channel. *)

From stdpp Require Import strings.
From S2P Require Import Prelude ByteOrder StringEncode ByteBuffer IpAddress MessageDigest Stun StunWire StunTyped StunIntegrity StunBuild TimeUtils MessageQueue TurnServer TurnSafe.

(** Only packets to clients are sent. *)
Definition to_client (e : turn_sent) : Prop := match e with ToClient _ _ _ => True | ToPeer _ _ _ => False end.
Definition answers (st st' : TurnServer) : Prop := ∃ l, sent st' = sent st ++ l ∧ Forall to_client l.
#[export] Instance answers_preorder : PreOrder answers.
Proof.
  split; [intros st; exists []; by rewrite app_nil_r|]. intros s1 s2 s3 (l & E & Hl) (k & E' & Hk). exists (l ++ k).
  rewrite E', E, app_assoc. split; [done|]. by apply Forall_app.
Qed.
Lemma answers_same st st' : sent st' = sent st → answers st st'.
Proof. intros E. exists []. by rewrite app_nil_r. Qed.

Section steps.
Context `{Platform}.
Context (Gp : list Z → SocketAddress → IPAddress → Z → Prop)
        (Gc : list Z → SocketAddress → SocketAddress → Z → Z → Prop).
#[local] Abbreviation inv := (turn_inv Gp Gc).

(** The operation is defined, keeps the invariant and sends only to clients. *)
Definition good (st : TurnServer) (r : option TurnServer) : Prop := ∃ st', r = Some st' ∧ inv st' ∧ answers st st'.

Lemma good_some st : inv st → good st (Some st).
Proof. intros. by exists st. Qed.
Lemma good_bind st r f : good st r → (∀ st', inv st' → answers st st' → good st' (f st')) → good st (r ≫= f).
Proof.
  intros (st1 & -> & Hi & Ha) Hf. destruct (Hf st1 Hi Ha) as (st2 & E & Hi2 & Ha2). exists st2.
  split_and!; [done|done|by etrans].
Qed.
Lemma good_same st st1 r : sent st1 = sent st → good st1 r → good st r.
Proof. intros E (st' & -> & Hi & l & El & Hl). exists st'. split_and!; [done|done|]. exists l. by rewrite <- E. Qed.

(** *** Sending *)

Lemma good_Send conn p buf st : inv st → server_sockets_ st !! socket_ conn = Some p → good st (TurnServer_Send conn buf st).
Proof.
  intros Hi Hs. unfold TurnServer_Send. rewrite (inv_alive _ _ _ _ _ Hi Hs). eexists. split; [done|]. split; [by apply inv_send|].
  eexists [_]. split; [done|]. by constructor.
Qed.
Lemma good_SendStun conn p msg st : inv st → server_sockets_ st !! socket_ conn = Some p → good st (SendStun conn msg st).
Proof. intros Hi Hs. by eapply good_Send. Qed.
Lemma good_error conn p req code reason st : inv st → server_sockets_ st !! socket_ conn = Some p →
  good st (TurnServer_SendErrorResponse conn req code reason st).
Proof. intros Hi Hs. by eapply good_Send. Qed.
Lemma good_error_nonce conn p req code reason now st : inv st → server_sockets_ st !! socket_ conn = Some p →
  good st (SendErrorResponseWithRealmAndNonce conn req code reason now st).
Proof. intros Hi Hs. by eapply good_Send. Qed.

Lemma good_response a al msg st : inv st → heap st !! a = Some al → good st (Allocation_SendResponse a msg st).
Proof.
  intros Hi E. unfold Allocation_SendResponse. rewrite E. cbn.
  eapply good_SendStun; [done|apply (placed_socket _ _ _ _ (ti_placed _ _ _ Hi _ _ E))].
Qed.
Lemma good_bad_request a al msg st : inv st → heap st !! a = Some al → good st (SendBadRequestResponse a msg st).
Proof.
  intros Hi E. unfold SendBadRequestResponse, Allocation_SendErrorResponse. rewrite E. cbn.
  eapply good_error; [done|apply (placed_socket _ _ _ _ (ti_placed _ _ _ Hi _ _ E))].
Qed.

(** *** Changes of an allocation that keep its objects *)

(** Fewer objects, with the permissions and the channels that are left. *)
Lemma own_sub next next' q q' a al al' : own_ok Gp Gc next q a al → next ≤ next' →
  sublist (perms_ al') (perms_ al) → sublist (channels_ al') (channels_ al) →
  Forall (perm_ok Gp q' al') (perms_ al') → Forall (chan_ok Gc q' al') (channels_ al') → own_ok Gp Gc next' q' a al'.
Proof.
  intros [Hnd Hr _ _ Hpe Hid] Hn Hp Hc Hpo Hco.
  assert (sublist (handlers_of a al') (handlers_of a al)) as Hs by (constructor; apply sublist_app; by apply fmap_sublist).
  split; try done.
  - by eapply sublist_NoDup.
  - apply Forall_forall. intros h Hh%(sublist_in _ _ _ Hs). rewrite Forall_forall in Hr. specialize (Hr h Hh). lia.
  - by eapply ordpairs_sublist.
  - by eapply ordpairs_sublist.
Qed.
Lemma perms_keep q q' al al' l : Forall (perm_ok Gp q al) (perms_ al) → conn_ al' = conn_ al → key_ al' = key_ al →
  sublist l (perms_ al) → (∀ p t, p ∈ l → pending (perm_addr p) t q → pending (perm_addr p) t q') → Forall (perm_ok Gp q' al') l.
Proof.
  intros Hp Ec Ek Hs Hpend. apply Forall_forall. intros p Hin. rewrite Forall_forall in Hp.
  destruct (Hp p (sublist_in _ _ _ Hs Hin)) as (? & t & ? & ?). split; [done|]. exists t. rewrite Ec, Ek. auto.
Qed.
Lemma chans_keep q q' al al' l : Forall (chan_ok Gc q al) (channels_ al) → conn_ al' = conn_ al → key_ al' = key_ al →
  sublist l (channels_ al) → (∀ c t, c ∈ l → pending (chan_addr c) t q → pending (chan_addr c) t q') → Forall (chan_ok Gc q' al') l.
Proof.
  intros Hc Ec Ek Hs Hpend. apply Forall_forall. intros c Hin. rewrite Forall_forall in Hc.
  destruct (Hc c (sublist_in _ _ _ Hs Hin)) as (? & ? & t & ? & ?). split; [done|]. split; [done|]. exists t. rewrite Ec, Ek. auto.
Qed.
Lemma perm_handler a al p : p ∈ perms_ al → perm_addr p ∈ handlers_of a al.
Proof. intros Hp. unfold handlers_of. rewrite elem_of_cons, elem_of_app. right. left. apply list_elem_of_fmap. by exists p. Qed.
Lemma chan_handler a al c : c ∈ channels_ al → chan_addr c ∈ handlers_of a al.
Proof. intros Hc. unfold handlers_of. rewrite elem_of_cons, elem_of_app. right. right. apply list_elem_of_fmap. by exists c. Qed.
(** The addresses of the objects of an allocation differ. *)
Lemma own_differ next q a al : own_ok Gp Gc next q a al →
  (∀ p, p ∈ perms_ al → perm_addr p ≠ a) ∧ (∀ c, c ∈ channels_ al → chan_addr c ≠ a) ∧
  (∀ p c, p ∈ perms_ al → c ∈ channels_ al → perm_addr p ≠ chan_addr c) ∧
  (∀ p p', p ∈ perms_ al → p' ∈ perms_ al → perm_addr p = perm_addr p' → p = p') ∧
  (∀ c c', c ∈ channels_ al → c' ∈ channels_ al → chan_addr c = chan_addr c' → c = c').
Proof.
  intros [Hnd _ _ _ _ _]. unfold handlers_of in Hnd. apply NoDup_cons in Hnd as [Ha Hnd]. rewrite elem_of_app in Ha.
  apply NoDup_app in Hnd as (Hp & Hx & Hc). split_and!.
  - intros p Hin E. apply Ha. left. apply list_elem_of_fmap. by exists p.
  - intros c Hin E. apply Ha. right. apply list_elem_of_fmap. by exists c.
  - intros p c Hip Hic E. apply (Hx (perm_addr p)); apply list_elem_of_fmap; [by exists p|by exists c].
  - intros. by eapply fmap_unique.
  - intros. by eapply fmap_unique.
Qed.
Lemma own_keep next q q' a al al' : own_ok Gp Gc next q a al →
  conn_ al' = conn_ al → key_ al' = key_ al → perms_ al' = perms_ al → channels_ al' = channels_ al →
  (∀ h t, h ≠ a → pending h t q → pending h t q') → own_ok Gp Gc next q' a al'.
Proof.
  intros Hown Ec Ek Ep Ech Hpend. destruct (own_differ _ _ _ _ Hown) as (Hpa & Hca & _). pose proof Hown as [_ _ Hp Hc _ _].
  apply (own_sub _ next q q' a al al' Hown); rewrite ?Ep, ?Ech; [lia|done|done|..].
  - apply (perms_keep q q' al al' _ Hp Ec Ek); auto.
  - apply (chans_keep q q' al al' _ Hc Ec Ek); auto.
Qed.
(** The fields of an allocation and its timer change. *)
Lemma inv_touch st a al al' f : inv st → heap st !! a = Some al →
  conn_ al' = conn_ al → key_ al' = key_ al → perms_ al' = perms_ al → channels_ al' = channels_ al →
  (timers (live st) (queue st) → timers (live st) (f (queue st))) →
  (∀ h t, h ≠ a → pending h t (queue st) → pending h t (f (queue st))) →
  inv (set_queue f (set_heap <[a := al']> st)).
Proof.
  intros Hi E Ec Ek Ep Ech Ht Hp. pose proof (ti_own _ _ _ Hi a al E) as Hown.
  assert (handlers_of a al' = handlers_of a al) as Eh by (unfold handlers_of; by rewrite Ep, Ech).
  eapply (inv_update Gp Gc st _ a al al'); try done.
  - intros h Hin. left. by rewrite <- Eh.
  - eapply timers_mono; [apply Ht, (ti_timers _ _ _ Hi)|]. intros h (a' & al2 & E' & Hin). destruct (decide (a' = a)) as [->|Hne].
    + exists a, al'. split; [cbn; by rewrite lookup_insert, decide_True|]. rewrite E in E'. injection E' as <-. by rewrite Eh.
    + exists a', al2. split; [cbn; by rewrite lookup_insert_ne|done].
  - intros h t _ Hnin Hpd. apply Hp; [|done]. intros ->. apply Hnin. by constructor.
  - by apply (own_keep _ (queue st) _ a al).
Qed.
Lemma on_allocation_insert a al f st : heap st !! a = Some al → on_allocation a f st = set_heap <[a := f al]> st.
Proof.
  intros E. unfold on_allocation, set_heap. f_equal. apply map_eq. intros i. destruct (decide (i = a)) as [->|Hne].
  - by rewrite lookup_alter, lookup_insert, !decide_True, E.
  - by rewrite lookup_alter_ne, lookup_insert_ne.
Qed.
Lemma set_queue_id st : set_queue id st = st.
Proof. by destruct st. Qed.

Lemma live_self st a al : heap st !! a = Some al → live st a.
Proof. intros E. exists a, al. split; [done|]. by constructor. Qed.

(** *** Requests of a client *)

Lemma good_allocate a al msg username now st : inv st → heap st !! a = Some al →
  GetByteString msg STUN_ATTR_USERNAME = Some username → good st (Allocation_HandleAllocateRequest a msg now st).
Proof.
  intros Hi E Eu. unfold Allocation_HandleAllocateRequest. rewrite Eu, E. cbn [mbind option_bind].
  rewrite (on_allocation_insert a al) by done.
  match goal with |- good _ (Allocation_SendResponse _ _ ?s) => apply (good_same st s); [done|] end.
  eapply (good_response a (set_identity (m_transaction_id msg) username al)); [|cbn; by rewrite lookup_insert, decide_True].
  apply (inv_touch _ a al); try done.
  - intros Ht. apply timers_post; [done|]. by eapply live_self.
  - intros h t Hne Hp. by apply pending_other_post.
Qed.
Lemma good_refresh a al msg now st : inv st → heap st !! a = Some al → good st (HandleRefreshRequest a msg now st).
Proof.
  intros Hi E. unfold HandleRefreshRequest. 
  match goal with |- good _ (Allocation_SendResponse _ _ ?s) => apply (good_same st s); [done|]; set (st1 := s) end.
  assert (st1 = set_queue (λ q, PostDelayed (ComputeLifetime msg * 1000) a MSG_ALLOCATION_TIMEOUT 0 now
    (MessageQueue_Clear a MSG_ALLOCATION_TIMEOUT false q).2) (set_heap <[a := al]> st)) as E1.
  { unfold st1, set_heap. cbn. by rewrite insert_id. }
  rewrite E1. eapply good_response; [|cbn; by rewrite insert_id].
  pose proof (own_range _ _ _ _ _ _ (ti_own _ _ _ Hi a al E)) as Hr. apply Forall_cons in Hr as [Hr _].
  apply (inv_touch _ a al); try done.
  - intros Ht. apply timers_reset; [done|]. by eapply live_self.
  - intros h t Hne Hp. apply pending_reset; [lia|done|done].
Qed.

(** *** Permissions and channels *)

Lemma fresh_addr st a al : inv st → heap st !! a = Some al → next_addr st ∉ handlers_of a al.
Proof.
  intros Hi E Hin. pose proof (own_range _ _ _ _ _ _ (ti_own _ _ _ Hi a al E)) as Hr. rewrite Forall_forall in Hr.
  specialize (Hr _ Hin). lia.
Qed.
Lemma live_fresh st h : inv st → live st h → 0 < h < next_addr st.
Proof.
  intros Hi (a & al & E & Hin). pose proof (own_range _ _ _ _ _ _ (ti_own _ _ _ Hi a al E)) as Hr. rewrite Forall_forall in Hr.
  by apply Hr.
Qed.
(** One more object of an allocation, at a fresh address. *)
Lemma own_add_perm next q a al p ip : own_ok Gp Gc next q a al → p ∉ handlers_of a al → 0 < p < next →
  perm_ok Gp q al (mkPermission p ip) → Forall (λ x, ip_eq (perm_peer x) ip = false) (perms_ al) →
  own_ok Gp Gc next q a (set_perms (λ l, l ++ [mkPermission p ip]) al).
Proof.
  intros [Hnd Hr Hp Hc Hpe Hid] Hfresh Hpos Hok Hnew.
  assert (handlers_of a (set_perms (λ l, l ++ [mkPermission p ip]) al) ≡ₚ p :: handlers_of a al) as Hperm.
  { unfold handlers_of. cbn. rewrite fmap_app. cbn. rewrite <- app_assoc, Permutation_swap. constructor. cbn.
    by rewrite <- Permutation_middle. }
  split; try done.
  - rewrite Hperm. by apply NoDup_cons.
  - rewrite Hperm. by constructor.
  - apply Forall_app. split; [done|]. by constructor.
  - by apply ordpairs_snoc.
Qed.
Lemma own_add_chan next q a al c id peer : own_ok Gp Gc next q a al → c ∉ handlers_of a al → 0 < c < next →
  chan_ok Gc q al (mkChannel c id peer) →
  Forall (λ x, chan_id x ≠ id ∧ SocketAddress_eqb (chan_peer x) peer = false) (channels_ al) →
  own_ok Gp Gc next q a (set_channels (λ l, l ++ [mkChannel c id peer]) al).
Proof.
  intros [Hnd Hr Hp Hc Hpe Hid] Hfresh Hpos Hok Hnew.
  assert (handlers_of a (set_channels (λ l, l ++ [mkChannel c id peer]) al) ≡ₚ c :: handlers_of a al) as Hperm.
  { unfold handlers_of. cbn. rewrite fmap_app. cbn. rewrite Permutation_swap. constructor.
    by rewrite app_assoc, Permutation_app_comm. }
  split; try done.
  - rewrite Hperm. by apply NoDup_cons.
  - rewrite Hperm. by constructor.
  - apply Forall_app. split; [done|]. by constructor.
  - by apply ordpairs_snoc.
Qed.
(** An allocation that gets a new object [h], whose timer is set. *)
Lemma inv_grow st a al al' cms now : inv st → heap st !! a = Some al → conn_ al' = conn_ al → key_ al' = key_ al →
  let h := next_addr st in
  let q := PostDelayed cms h MSG_ALLOCATION_TIMEOUT 0 now (MessageQueue_Clear h MSG_ALLOCATION_TIMEOUT false (queue st)).2 in
  handlers_of a al' ≡ₚ h :: handlers_of a al → (own_ok Gp Gc (next_addr st + 1) q a al → own_ok Gp Gc (next_addr st + 1) q a al') →
  inv (set_heap <[a := al']> (set_queue (λ _, q) (take_addr st))).
Proof.
  intros Hi E Ec Ek h q Hperm Hown. pose proof (ti_next _ _ _ Hi) as Hn.
  assert (∀ x t, x ≠ h → pending x t (queue st) → pending x t q) as Hpend by (intros; apply pending_reset; [lia|done|done]).
  eapply (inv_update Gp Gc st _ a al al'); try done; cbn; [lia|..].
  - intros x. rewrite Hperm, elem_of_cons. intros [->|?]; [right; unfold h; lia|by left].
  - apply timers_reset.
    + eapply timers_mono; [exact (ti_timers _ _ _ Hi)|]. intros x (a' & al2 & E' & Hin). destruct (decide (a' = a)) as [->|Hne].
      * exists a, al'. split; [cbn; by rewrite lookup_insert, decide_True|]. rewrite E in E'. injection E' as <-.
        rewrite Hperm. by apply elem_of_cons; right.
      * exists a', al2. split; [cbn; by rewrite lookup_insert_ne|done].
    + exists a, al'. split; [cbn; by rewrite lookup_insert, decide_True|]. rewrite Hperm. by apply elem_of_cons; left.
  - intros x t Hl _ Hpd. apply Hpend; [|done]. apply (live_fresh st x Hi) in Hl. unfold h. lia.
  - apply Hown. pose proof (ti_own _ _ _ Hi a al E) as Ho. pose proof (fresh_addr st a al Hi E) as Hf. pose proof Ho as [_ _ Hp Hc _ _].
    apply (own_sub _ _ _ _ a al al Ho); [lia|done|done|..].
    + apply (perms_keep (queue st) _ al al _ Hp); try done. intros p t Hin. apply Hpend. intros Eq. apply Hf. fold h. rewrite <- Eq.
      by apply perm_handler.
    + apply (chans_keep (queue st) _ al al _ Hc); try done. intros c t Hin. apply Hpend. intros Eq. apply Hf. fold h. rewrite <- Eq.
      by apply chan_handler.
Qed.

Lemma insert_same st a al f : heap st !! a = Some al → set_queue f st = set_queue f (set_heap <[a := al]> st).
Proof. intros E. unfold set_heap. cbn. by rewrite insert_id. Qed.
(** The timer of an object of an allocation is set again. *)
Lemma inv_reset st a al cms h now : inv st → heap st !! a = Some al → h ∈ handlers_of a al →
  let q := PostDelayed cms h MSG_ALLOCATION_TIMEOUT 0 now (MessageQueue_Clear h MSG_ALLOCATION_TIMEOUT false (queue st)).2 in
  own_ok Gp Gc (next_addr st) q a al → inv (set_queue (λ _, q) st).
Proof.
  intros Hi E Hh q Hown. pose proof (live_fresh st h Hi (ex_intro _ a (ex_intro _ al (conj E Hh)))) as Hr.
  eapply (inv_update Gp Gc st _ a al al); try done; cbn.
  - by rewrite insert_id.
  - by left.
  - apply timers_reset; [apply (ti_timers _ _ _ Hi)|]. by exists a, al.
  - intros x t _ Hnin Hpd. apply pending_reset; [lia| |done]. by intros <-.
Qed.

Lemma add_permission a al ip now st : inv st → heap st !! a = Some al → ip_ok ip → Gp (key_ al) (src_ (conn_ al)) ip now →
  ∃ st' al', AddPermission a ip now st = Some st' ∧ inv st' ∧ sent st' = sent st ∧ heap st' !! a = Some al'.
Proof.
  intros Hi E Hip Hg. unfold AddPermission. rewrite E. cbn [mbind option_bind].
  pose proof (ti_own _ _ _ Hi a al E) as Hown. pose proof (ti_timers _ _ _ Hi) as (Hs & _). pose proof (ti_next _ _ _ Hi) as Hn.
  destruct (FindPermission ip al) as [perm|] eqn:Ef.
  - apply find_in in Ef as [Hin Heq]. pose proof Hown as [_ _ Hp Hc _ _]. destruct (own_differ _ _ _ _ Hown) as (Hpa & Hca & Hpc & Hpp & _).
    assert (perm_addr perm ≠ 0) as H0 by (pose proof (live_fresh st _ Hi (ex_intro _ a (ex_intro _ al (conj E (perm_handler a al _ Hin))))); lia).
    eexists _, al. split; [reflexivity|]. split; [|done].
    apply (inv_reset st a al kPermissionTimeout (perm_addr perm) now Hi E); [by apply perm_handler|].
    apply (own_sub _ _ _ _ a al al Hown); [lia|done|done|..].
    + apply Forall_forall. intros p Hip'. rewrite Forall_forall in Hp. destruct (Hp p Hip') as (Hpok & t & Hgt & Hpd). split; [done|].
      destruct (decide (perm_addr p = perm_addr perm)) as [Ea|Hne]; [|exists t; split; [done|]; by apply pending_reset].
      assert (perm_peer p = ip) as Epeer by (rewrite (Hpp p perm Hip' Hin Ea); apply ip_eq_spec; [apply (Hp perm Hin)|done|done]).
      exists now. rewrite Epeer, Ea. split; [done|]. by apply pending_post.
    + apply (chans_keep (queue st) _ al al _ Hc); try done. intros c t Hic. apply pending_reset; [done|]. by apply Hpc.
  - rewrite (on_allocation_insert a al) by done.
    eexists _, _. split; [reflexivity|]. split; [|split; [done|cbn; by rewrite lookup_insert, decide_True]].
    apply (inv_grow st a al _ kPermissionTimeout now Hi E); try done.
    + unfold handlers_of. cbn. rewrite fmap_app. cbn. rewrite <- app_assoc, Permutation_swap. constructor. cbn.
      by rewrite <- Permutation_middle.
    + intros Hown'. apply own_add_perm; [done|by apply fresh_addr|lia| |by apply find_not in Ef].
      split; [done|]. exists now. split; [done|]. by apply pending_post.
Qed.

(** Binding a channel, after its number and its peer were checked. *)
Definition bind_channel (a id : Z) (peer : SocketAddress) (now : Z) (channel : option Channel) (st : TurnServer) : TurnServer :=
  match channel with
  | None => on_allocation a (set_channels (λ l, l ++ [mkChannel (next_addr st) id peer]))
              (set_queue (Channel_Refresh (next_addr st) now) (take_addr st))
  | Some channel => set_queue (Channel_Refresh (chan_addr channel) now) st
  end.
Lemma bind_channel_inv a al id peer now st : inv st → heap st !! a = Some al →
  kMinChannelNumber ≤ id ≤ kMaxChannelNumber → plain peer →
  Gc (key_ al) (src_ (conn_ al)) peer id now →
  chan_addr <$> FindChannel_id id al = chan_addr <$> FindChannel_peer peer al →
  let st' := bind_channel a id peer now (FindChannel_id id al) st in
  inv st' ∧ sent st' = sent st ∧ ∃ al', heap st' !! a = Some al' ∧ conn_ al' = conn_ al ∧ key_ al' = key_ al.
Proof.
  intros Hi E Hid Hpeer Hg Hboth. unfold bind_channel.
  pose proof (ti_own _ _ _ Hi a al E) as Hown. pose proof (ti_timers _ _ _ Hi) as (Hs & _). pose proof (ti_next _ _ _ Hi) as Hn.
  destruct (FindChannel_id id al) as [ch|] eqn:E1.
  - apply find_in in E1 as [Hin Eid%Z.eqb_eq]. pose proof Hown as [_ _ Hp Hc _ _].
    destruct (own_differ _ _ _ _ Hown) as (Hpa & Hca & Hpc & _ & Hcc).
    assert (Hchan : chan_addr ch ≠ 0) by (pose proof (live_fresh st _ Hi (ex_intro _ a (ex_intro _ al (conj E (chan_handler a al _ Hin))))); lia).
    split; [|split; [done|by exists al]].
    apply (inv_reset st a al kChannelTimeout (chan_addr ch) now Hi E); [by apply chan_handler|].
    apply (own_sub _ _ _ _ a al al Hown); [lia|done|done|..].
    + apply (perms_keep (queue st) _ al al _ Hp); try done. intros p t Hip'. apply pending_reset; [done|]. apply not_eq_sym. by apply Hpc.
    + apply Forall_forall. intros c Hic. rewrite Forall_forall in Hc. destruct (Hc c Hic) as (Hr & Hcok & t & Hgt & Hpd).
      split; [done|]. split; [done|]. destruct (decide (chan_addr c = chan_addr ch)) as [Ea|Hne]; [|exists t; split; [done|]; by apply pending_reset].
      destruct (FindChannel_peer peer al) as [ch2|] eqn:E2; [|done]. injection Hboth as Eb. apply find_in in E2 as [Hin2 Heq].
      assert (c = ch) as -> by auto. assert (ch = ch2) as <- by auto.
      assert (chan_peer ch = peer) as Epeer by (by apply plain_eqb).
      exists now. rewrite Epeer, Eid. split; [done|]. by apply pending_post.
  - rewrite (on_allocation_insert a al) by done.
    split; [|split; [done|eexists; split; [cbn; by rewrite lookup_insert, decide_True|done]]].
    apply (inv_grow st a al _ kChannelTimeout now Hi E); try done.
    + unfold handlers_of. cbn. rewrite fmap_app. cbn. rewrite Permutation_swap. constructor.
      by rewrite app_assoc, Permutation_app_comm.
    + intros Hown'. apply own_add_chan; [done|by apply fresh_addr|lia|..].
      * split; [done|]. split; [done|]. exists now. split; [done|]. by apply pending_post.
      * destruct (FindChannel_peer peer al) eqn:E2; [done|]. apply find_not in E1, E2. apply Forall_and.
        split; [|done]. eapply Forall_impl; [exact E1|]. intros c Hc. by apply Z.eqb_neq.
Qed.

(** *** Requests for peers *)

(** The address attribute of a message that was read. *)
Lemma read_peer m b t peer : reading CTurn (m, b) → t ≠ STUN_ATTR_MAPPED_ADDRESS →
  GetAttributeValueType CTurn t = STUN_VALUE_XOR_ADDRESS → attr_address <$> GetAddress m t = Some peer → plain peer.
Proof.
  intros Hr Ht Hv. unfold GetAddress. rewrite (proj2 (Z.eqb_neq _ _) Ht).
  destruct (GetAttribute m t) as [a|] eqn:E; [|done]. destruct (get_typed _ _ _ _ _ Hr E) as [<- [Hty Ha]].
  intros [= <-]. rewrite Hv in Hty. destruct a; try done. destruct Ha as [(_ & _ & (Eaddr & Hip & _) & _)|(_ & t' & port & [= -> -> ->])].
  - by split.
  - cbn. split; [apply clear_ok|]. cbn. unfold SocketAddress_of, SocketAddress_SetPort. cbn. f_equal.
    rewrite (u16_id (u16 port)); [done|]. unfold u16, is_u16. apply Z.mod_pos_bound. lia.
Qed.
(** What a request grants: the permission of its peer, and a channel to it. *)
Definition grants (key : list Z) (src : SocketAddress) (msg : StunMessage) (now : Z) : Prop :=
  ∀ peer, attr_address <$> GetAddress msg STUN_ATTR_XOR_PEER_ADDRESS = Some peer → plain peer →
    (m_type msg = TURN_CREATE_PERMISSION_REQUEST → Gp key src (ip_ peer) now) ∧
    (m_type msg = TURN_CHANNEL_BIND_REQUEST → Gp key src (ip_ peer) now ∧
       ∀ v, GetUInt32 msg STUN_ATTR_CHANNEL_NUMBER = Some v → Gc key src peer (Z.shiftr v 16) now).

Lemma good_create_permission a al msg b now st : inv st → heap st !! a = Some al → reading CTurn (msg, b) →
  m_type msg = TURN_CREATE_PERMISSION_REQUEST → grants (key_ al) (src_ (conn_ al)) msg now →
  good st (HandleCreatePermissionRequest a msg now st).
Proof.
  intros Hi E Hr Ht Hg. unfold HandleCreatePermissionRequest.
  destruct (attr_address <$> GetAddress msg STUN_ATTR_XOR_PEER_ADDRESS) as [peer|] eqn:Ep; [|by eapply good_bad_request].
  pose proof (read_peer msg b STUN_ATTR_XOR_PEER_ADDRESS peer Hr ltac:(done) ltac:(done) Ep) as Hpl. destruct (Hg peer Ep Hpl) as [Hgp _].
  destruct (add_permission a al (ip_ peer) now st Hi E (proj1 Hpl) (Hgp Ht)) as (st' & al' & -> & Hi' & Es & E'). cbn [mbind option_bind].
  apply (good_same st st' _ Es). by eapply good_response.
Qed.
Lemma good_channel_bind a al msg b now st : inv st → heap st !! a = Some al → reading CTurn (msg, b) →
  m_type msg = TURN_CHANNEL_BIND_REQUEST → grants (key_ al) (src_ (conn_ al)) msg now →
  good st (HandleChannelBindRequest a msg now st).
Proof.
  intros Hi E Hr Ht Hg. unfold HandleChannelBindRequest.
  destruct (GetUInt32 msg STUN_ATTR_CHANNEL_NUMBER) as [v|] eqn:Ev; [|by eapply good_bad_request].
  destruct (attr_address <$> GetAddress msg STUN_ATTR_XOR_PEER_ADDRESS) as [peer|] eqn:Ep; [|by eapply good_bad_request].
  pose proof (read_peer msg b STUN_ATTR_XOR_PEER_ADDRESS peer Hr ltac:(done) ltac:(done) Ep) as Hpl.
  destruct (Hg peer Ep Hpl) as [_ Hgc]. destruct (Hgc Ht) as [Hgp Hgv]. specialize (Hgv v Ev).
  destruct (Z.ltb_spec (Z.shiftr v 16) kMinChannelNumber); [by eapply good_bad_request|].
  destruct (Z.ltb_spec kMaxChannelNumber (Z.shiftr v 16)); [by eapply good_bad_request|]. cbn [orb]. rewrite E. cbn [mbind option_bind].
  case_bool_decide as Hboth; cbn [negb]; [|by eapply good_bad_request].
  destruct (bind_channel_inv a al (Z.shiftr v 16) peer now st Hi E ltac:(done) Hpl Hgv Hboth) as (Hi1 & Es1 & al1 & E1 & Ec1 & Ek1).
  fold (bind_channel a (Z.shiftr v 16) peer now (FindChannel_id (Z.shiftr v 16) al) st). set (st1 := bind_channel _ _ _ _ _ _) in *.
  rewrite <- Ek1, <- Ec1 in Hgp.
  destruct (add_permission a al1 (ip_ peer) now st1 Hi1 E1 (proj1 Hpl) Hgp) as (st' & al' & -> & Hi' & Es & E'). cbn [mbind option_bind].
  apply (good_same st st'); [by rewrite Es|]. by eapply good_response.
Qed.

(** *** Relaying *)

(** There is a permission for the host of the peer, or a channel to the peer. *)
Definition permitted (st : TurnServer) (a : Z) (peer : SocketAddress) : Prop :=
  ∃ al, heap st !! a = Some al ∧
    ((∃ p, p ∈ perms_ al ∧ perm_peer p = ip_ peer) ∨ (∃ c, c ∈ channels_ al ∧ chan_peer c = peer)).
Definition allowed (st : TurnServer) (e : turn_sent) : Prop :=
  match e with ToPeer a peer _ => permitted st a peer | ToClient _ _ _ => True end.
(** The operation is defined, keeps the invariant and relays only what is permitted. *)
Definition fine (st : TurnServer) (r : option TurnServer) : Prop :=
  ∃ st', r = Some st' ∧ inv st' ∧ ∃ l, sent st' = sent st ++ l ∧ Forall (allowed st) l.
Lemma good_fine st r : good st r → fine st r.
Proof.
  intros (st' & -> & Hi & l & E & Hl). exists st'. split_and!; try done. exists l. split; [done|].
  eapply Forall_impl; [exact Hl|]. by intros [].
Qed.
Lemma fine_some st : inv st → fine st (Some st).
Proof. intros. by apply good_fine, good_some. Qed.
Lemma fine_send a peer data st : inv st → permitted st a peer → fine st (Some (SendExternal a data peer st)).
Proof.
  intros Hi Hp. eexists. split; [done|]. split; [by apply inv_send|]. eexists [_]. split; [done|]. by constructor.
Qed.

Lemma has_permission ip al st a : inv st → heap st !! a = Some al → ip_ok ip → HasPermission ip al = true →
  ∃ p, p ∈ perms_ al ∧ perm_peer p = ip.
Proof.
  intros Hi E Hip. unfold HasPermission. rewrite bool_decide_eq_true. intros [p [Hin Heq]%find_in]. exists p. split; [done|].
  pose proof (own_perms _ _ _ _ _ _ (ti_own _ _ _ Hi a al E)) as Hp. rewrite Forall_forall in Hp.
  by apply ip_eq_spec; [apply (Hp p Hin)|..].
Qed.
Lemma has_channel peer al st a c : inv st → heap st !! a = Some al → plain peer → FindChannel_peer peer al = Some c →
  c ∈ channels_ al ∧ chan_peer c = peer.
Proof.
  intros Hi E Hpl [Hin Heq]%find_in. split; [done|].
  pose proof (own_chans _ _ _ _ _ _ (ti_own _ _ _ Hi a al E)) as Hc. rewrite Forall_forall in Hc.
  by apply plain_eqb; [apply (Hc c Hin)|..].
Qed.

Lemma fine_send_indication a al msg b st : inv st → heap st !! a = Some al → reading CTurn (msg, b) →
  fine st (HandleSendIndication a msg st).
Proof.
  intros Hi E Hr. unfold HandleSendIndication. destruct (GetByteString msg STUN_ATTR_DATA) as [data|]; [|by apply fine_some].
  destruct (attr_address <$> GetAddress msg STUN_ATTR_XOR_PEER_ADDRESS) as [peer|] eqn:Ep; [|by apply fine_some].
  pose proof (read_peer msg b STUN_ATTR_XOR_PEER_ADDRESS peer Hr ltac:(done) ltac:(done) Ep) as Hpl.
  rewrite E. cbn [mbind option_bind]. destruct (HasPermission (ip_ peer) al) eqn:Eh; [|by apply fine_some].
  apply fine_send; [done|]. exists al. split; [done|]. left. by apply (has_permission _ _ st a Hi E (proj1 Hpl)).
Qed.
Lemma fine_channel_data a al data st : inv st → heap st !! a = Some al → fine st (HandleChannelData a data st).
Proof.
  intros Hi E. unfold HandleChannelData. rewrite E. cbn [mbind option_bind].
  destruct (FindChannel_id (GetBE16 data 0) al) as [c|] eqn:Ec; [|by apply fine_some]. apply find_in in Ec as [Hin _].
  apply fine_send; [done|]. exists al. split; [done|]. right. by exists c.
Qed.
Lemma good_external a al data addr random st : inv st → heap st !! a = Some al →
  good st (OnExternalPacket a data addr random st).
Proof.
  intros Hi E. pose proof (placed_socket _ _ _ _ (ti_placed _ _ _ Hi _ _ E)) as Hs. unfold OnExternalPacket. rewrite E. cbn [mbind option_bind].
  destruct (FindChannel_peer addr al) as [c|]; [by eapply good_Send|].
  destruct (HasPermission (ip_ addr) al); [by eapply good_SendStun|by apply good_some].
Qed.

(** What is handed to an allocation: a request that was authorized, or an indication. *)
Lemma fine_turn_message a al msg b now st : inv st → heap st !! a = Some al → reading CTurn (msg, b) →
  (m_type msg = STUN_ALLOCATE_REQUEST → is_Some (GetByteString msg STUN_ATTR_USERNAME)) →
  (IsStunRequestType (m_type msg) = true → grants (key_ al) (src_ (conn_ al)) msg now) →
  fine st (HandleTurnMessage a msg now st).
Proof.
  intros Hi E Hr Hu Hg. unfold HandleTurnMessage. cbn [switch].
  destruct (Z.eqb_spec (m_type msg) STUN_ALLOCATE_REQUEST) as [Et|_].
  { destruct (Hu Et) as [u Eu]. by eapply good_fine, good_allocate. }
  destruct (Z.eqb_spec (m_type msg) TURN_REFRESH_REQUEST); [by eapply good_fine, good_refresh|].
  destruct (Z.eqb_spec (m_type msg) TURN_SEND_INDICATION); [by eapply fine_send_indication|].
  destruct (Z.eqb_spec (m_type msg) TURN_CREATE_PERMISSION_REQUEST) as [Et|_].
  { eapply good_fine, good_create_permission; try done. apply Hg. by rewrite Et. }
  destruct (Z.eqb_spec (m_type msg) TURN_CHANNEL_BIND_REQUEST) as [Et|_]; [|by apply fine_some].
  eapply good_fine, good_channel_bind; try done. apply Hg. by rewrite Et.
Qed.

(** *** The server *)

(** A new allocation for a client that has none. *)
Lemma inv_create conn ext key st : inv st → udp_conn conn → server_sockets_ st !! socket_ conn = Some PROTO_UDP → bytes_ok key →
  find (from (src_ conn)) (allocations_ st) = None →
  let a := next_addr st in
  let al := Allocation_new conn ext key in
  inv (set_allocations (allocations_ st ++ [(conn, a)]) (set_heap <[a := al]> (take_addr st))) .
Proof.
  intros Hi Hc Hs Hk Hnew a al. pose proof Hi as [].
  assert (heap st !! a = None) as Ha.
  { destruct (heap st !! a) as [x|] eqn:E; [|done]. destruct (fresh_addr st a x Hi E). by constructor. }
  assert (∀ b x, heap st !! b = Some x → b ≠ a) as Hne by (intros b x E ->; congruence).
  split; cbn; try done; [|lia|..].
  - eapply timers_mono; [exact ti_timers|]. intros h (b & x & E & Hin). exists b, x. cbn.
    split; [|done]. by rewrite lookup_insert_ne by (apply not_eq_sym; by apply (Hne _ x E)).
  - intros b x. rewrite lookup_insert_Some. intros [[<- <-]|[_ E]].
    + split; cbn; try done. apply elem_of_app. right. by constructor.
    + destruct (ti_placed b x E). split; try done. apply elem_of_app. by left.
  - intros b x. rewrite lookup_insert_Some. intros [[<- <-]|[_ E]].
    + split; [apply (NoDup_singleton a)|apply Forall_singleton; unfold a; lia|apply Forall_nil_2|apply Forall_nil_2|constructor|constructor].
    + destruct (ti_own b x E). split; try done. eapply Forall_impl; [done|]. cbn. lia.
  - intros b x b' x' h. rewrite !lookup_insert_Some. intros [[<- <-]|[_ E]] [[<- <-]|[_ E']] H1 H2; try done.
    + apply list_elem_of_singleton in H1 as ->. by destruct (fresh_addr st b' x' Hi E').
    + apply list_elem_of_singleton in H2 as ->. by destruct (fresh_addr st b x Hi E).
    + by apply (ti_disjoint b x b' x' h).
  - apply Forall_app. split.
    + eapply Forall_impl; [exact ti_map|]. cbn. intros e (x & E & Ec). exists x. split; [|done].
      by rewrite lookup_insert_ne by (apply not_eq_sym; by apply (Hne _ x E)).
    + apply Forall_singleton. cbn. exists al. by rewrite lookup_insert, decide_True.
  - apply ordpairs_snoc. split; [done|]. by apply find_not.
Qed.
Lemma good_allocate_request conn msg key ext now st : inv st → udp_conn conn → server_sockets_ st !! socket_ conn = Some PROTO_UDP →
  bytes_ok key → find (from (src_ conn)) (allocations_ st) = None →
  m_type msg = STUN_ALLOCATE_REQUEST → is_Some (GetByteString msg STUN_ATTR_USERNAME) →
  good st (TurnServer_HandleAllocateRequest conn msg key ext now st).
Proof.
  intros Hi Hc Hs Hk Hnew Ht [u Hu]. unfold TurnServer_HandleAllocateRequest.
  destruct (GetUInt32 msg STUN_ATTR_REQUESTED_TRANSPORT) as [v|]; [|by eapply good_error].
  destruct (negb _); [by eapply good_error|]. unfold CreateAllocation.
  destruct (if external_socket_factory_ (config st) then ext else None) as [socket|]; cbn [mbind option_bind]; [|by eapply good_error].
  unfold map_assign. cbn [allocations_ set_heap take_addr]. rewrite udp_find, Hnew by (done || by eapply inv_udp_map).
  cbn [mbind option_bind fmap option_fmap option_map].
  match goal with |- good _ (HandleTurnMessage _ _ _ ?s) => apply (good_same st s); [done|] end.
  unfold HandleTurnMessage. cbn [switch]. rewrite (proj2 (Z.eqb_eq _ _) Ht).
  eapply good_allocate; [by apply inv_create|cbn; by rewrite lookup_insert, decide_True|done].
Qed.

(** A packet that the check of the HMAC can read. *)
Definition packet_ok (data : list Z) : Prop := bytes_ok data ∧ ¬ outside data.

(** Authorization: an error response and no change; or only the last nonce changes. *)
Lemma authorization conn msg data key now st : inv st → udp_conn conn → server_sockets_ st !! socket_ conn = Some PROTO_UDP →
  packet_ok data → bytes_ok key →
  (∃ st', CheckAuthorization conn msg data key now st = Some (false, st') ∧ inv st' ∧ answers st st') ∨
  (∃ st', CheckAuthorization conn msg data key now st = Some (true, st') ∧ inv st' ∧ sent st' = sent st ∧
    config st' = config st ∧ sockets st' = sockets st ∧ server_sockets_ st' = server_sockets_ st ∧ allocations_ st' = allocations_ st ∧
    is_Some (GetByteString msg STUN_ATTR_USERNAME) ∧ ValidateMessageIntegrity data key = Some true ∧
    ∀ b, set_last_nonce [] <$> heap st' !! b = set_last_nonce [] <$> heap st !! b).
Proof.
  intros Hi Hc Hs [Hd Hout] Hk. unfold CheckAuthorization.
  assert (∀ r, good st r → (∃ st', pair false <$> r = Some (false, st') ∧ inv st' ∧ answers st st')) as Hrefuse.
  { intros r (st' & -> & Hi' & Ha). by exists st'. }
  destruct (GetByteString msg STUN_ATTR_MESSAGE_INTEGRITY); [|left; by eapply Hrefuse, good_error_nonce].
  destruct (GetByteString msg STUN_ATTR_USERNAME) as [u|]; [|left; by eapply Hrefuse, good_error].
  destruct (GetByteString msg STUN_ATTR_REALM); [|left; by eapply Hrefuse, good_error].
  destruct (GetByteString msg STUN_ATTR_NONCE) as [nonce|]; [|left; by eapply Hrefuse, good_error].
  destruct (negb (ValidateNonce _ _ _)); [left; by eapply Hrefuse, good_error_nonce|].
  assert (∃ v, ValidateMessageIntegrity data key = Some v) as [v Ev].
  { destruct (ValidateMessageIntegrity data key) eqn:E; [by eexists|]. by apply integrity_outside in E. }
  assert (match key with [] => Some false | _ => ValidateMessageIntegrity data key end =
    Some (match key with [] => false | _ => v end)) as -> by (by destruct key). cbn [mbind option_bind].
  destruct key as [|k0 key]; [left; by eapply Hrefuse, good_error_nonce|].
  destruct v; cbn [negb]; [|left; by eapply Hrefuse, good_error_nonce].
  rewrite (inv_find _ _ conn st Hi Hc). cbn [mbind option_bind].
  destruct (find (from (src_ conn)) (allocations_ st)) as [[c a]|] eqn:Ef; cbn [fmap option_fmap option_map snd].
  2: { right. exists st. by split_and!. }
  apply find_in in Ef as [Hin _]. pose proof (ti_map _ _ _ Hi) as Hm. rewrite Forall_forall in Hm. destruct (Hm _ Hin) as (al & E & _).
  cbn [snd] in E. rewrite E. cbn [mbind option_bind].
  destruct (_ && _); [left; by eapply Hrefuse, good_error_nonce|]. right. rewrite (on_allocation_insert a al) by done.
  eexists. split; [done|]. split_and!; try done.
  - rewrite <- (set_queue_id (set_heap _ _)). by apply (inv_touch _ a al).
  - intros b. cbn. destruct (decide (b = a)) as [->|Hne]; [|by rewrite lookup_insert_ne].
    by rewrite lookup_insert, decide_True, E.
Qed.

Lemma find_allocation src st c a : inv st → find (from src) (allocations_ st) = Some (c, a) →
  ∃ al, heap st !! a = Some al ∧ conn_ al = c ∧ SocketAddress_eqb (src_ (conn_ al)) src = true.
Proof.
  intros Hi [Hin Hf]%find_in. pose proof (ti_map _ _ _ Hi) as Hm. rewrite Forall_forall in Hm. destruct (Hm _ Hin) as (al & E & Ec).
  exists al. cbn in *. split_and!; try done. by rewrite Ec.
Qed.
Lemma GetKey_ok msg st : inv st → bytes_ok (GetKey msg st).2.
Proof.
  intros Hi. pose proof (ti_config _ _ _ Hi) as Hc. unfold config_ok, GetKey in *.
  destruct (GetByteString msg STUN_ATTR_USERNAME); [|constructor]. destruct (auth_hook_ (config st)); [apply Hc|constructor].
Qed.

(** The same allocations, up to the nonces they saw last. *)
Definition same_but_nonce (st st' : TurnServer) : Prop :=
  ∀ a, set_last_nonce [] <$> heap st' !! a = set_last_nonce [] <$> heap st !! a.
Lemma same_lookup st st' a al : same_but_nonce st st' → heap st !! a = Some al →
  ∃ al', heap st' !! a = Some al' ∧ set_last_nonce [] al' = set_last_nonce [] al.
Proof.
  intros Hs E. specialize (Hs a). rewrite E in Hs. destruct (heap st' !! a) as [al'|]; [|done].
  apply (inj Some) in Hs. by exists al'.
Qed.
Lemma same_fields al al' : set_last_nonce [] al' = set_last_nonce [] al →
  conn_ al' = conn_ al ∧ key_ al' = key_ al ∧ perms_ al' = perms_ al ∧ channels_ al' = channels_ al ∧
  transaction_id_ al' = transaction_id_ al ∧ username_ al' = username_ al.
Proof. intros E. by injection E. Qed.
Lemma fine_same st st1 r : sent st1 = sent st → same_but_nonce st st1 → fine st1 r → fine st r.
Proof.
  intros Es Hs (st' & -> & Hi & l & El & Hl). exists st'. split_and!; try done. exists l. split; [by rewrite <- Es|].
  eapply Forall_impl; [exact Hl|]. intros [s to pk|a peer pk]; [done|]. intros (al & E & Hp).
  specialize (Hs a). rewrite E in Hs. destruct (heap st !! a) as [al0|] eqn:E0; [|done]. apply (inj Some) in Hs.
  exists al0. cbn. split; [done|]. destruct (same_fields al0 al Hs) as (_ & _ & <- & <- & _). done.
Qed.

(** What the packet grants to those whose key it was made with. *)
Definition authorizes (data : list Z) (addr : SocketAddress) (now : Z) : Prop :=
  ∀ key src msg b, Read (StunMessage_new CTurn, ByteBuffer_of data ORDER_NETWORK) = (Some true, (msg, b)) →
    ValidateMessageIntegrity data key = Some true → SocketAddress_eqb src addr = true → grants key src msg now.

Lemma fine_authorized conn msg b key allocation ext now st : inv st → udp_conn conn → server_sockets_ st !! socket_ conn = Some PROTO_UDP →
  bytes_ok key → reading CTurn (msg, b) → allocation = snd <$> find (from (src_ conn)) (allocations_ st) →
  (IsStunRequestType (m_type msg) = true → is_Some (GetByteString msg STUN_ATTR_USERNAME) ∧
     ∀ a al, allocation = Some a → heap st !! a = Some al → grants (key_ al) (src_ (conn_ al)) msg now) →
  fine st (handle_authorized conn msg key allocation ext now st).
Proof.
  intros Hi Hc Hs Hk Hr Hal Hreq. unfold handle_authorized.
  destruct (find (from (src_ conn)) (allocations_ st)) as [[c a]|] eqn:Ef; cbn in Hal; subst allocation.
  - destruct (find_allocation _ _ _ _ Hi Ef) as (al & E & _ & _). rewrite E. cbn [mbind option_bind].
    destruct (_ || _); [|by eapply good_fine, good_error].
    assert (∃ same, (if IsStunRequestType (m_type msg) then (λ u, bool_decide (u = username_ al)) <$> GetByteString msg STUN_ATTR_USERNAME
              else Some true) = Some same) as [same ->].
    { destruct (IsStunRequestType (m_type msg)); [|by eexists]. destruct (Hreq eq_refl) as [[u ->] _]. by eexists. }
    cbn [mbind option_bind]. destruct same; [|by eapply good_fine, good_error].
    eapply fine_turn_message; try done.
    + intros Et. apply Hreq. by rewrite Et.
    + intros Ht. destruct (Hreq Ht) as [_ Hg]. by apply (Hg a).
  - destruct (Z.eqb_spec (m_type msg) STUN_ALLOCATE_REQUEST) as [Et|]; [|by eapply good_fine, good_error].
    eapply good_fine, good_allocate_request; try done. apply Hreq. by rewrite Et.
Qed.
Lemma fine_message conn msg b data ext now st : inv st → udp_conn conn → server_sockets_ st !! socket_ conn = Some PROTO_UDP →
  packet_ok data → reading CTurn (msg, b) →
  Read (StunMessage_new CTurn, ByteBuffer_of data ORDER_NETWORK) = (Some true, (msg, b)) → authorizes data (src_ conn) now →
  fine st (handle_message conn msg data ext now st).
Proof.
  intros Hi Hc Hs Hd Hr Erd Hauth. unfold handle_message. rewrite (inv_find _ _ conn st Hi Hc). cbn [mbind option_bind].
  set (allocation := snd <$> find (from (src_ conn)) (allocations_ st)).
  assert (∃ key, (match allocation with None => Some (GetKey msg st).2 | Some a => key_ <$> heap st !! a end) = Some key ∧ bytes_ok key ∧
    ∀ a al, allocation = Some a → heap st !! a = Some al → key_ al = key ∧ SocketAddress_eqb (src_ (conn_ al)) (src_ conn) = true) as (key & -> & Hk & Hkey).
  { unfold allocation. destruct (find (from (src_ conn)) (allocations_ st)) as [[c a]|] eqn:Ef; cbn.
    - destruct (find_allocation _ _ _ _ Hi Ef) as (al & E & _ & Heq). rewrite E. cbn. exists (key_ al).
      split_and!; [done|apply (placed_key _ _ _ _ (ti_placed _ _ _ Hi _ _ E))|]. intros a' al' [= <-] E'. by simplify_eq.
    - eexists. split_and!; [done|by apply GetKey_ok|done]. }
  cbn [mbind option_bind]. destruct (IsStunRequestType (m_type msg)) eqn:Ereq; cbn [mbind option_bind].
  2: { eapply fine_authorized; try done. congruence. }
  destruct (authorization conn msg data key now st Hi Hc Hs Hd Hk) as
    [(st' & -> & Hi' & Ha)|(st' & -> & Hi' & Es & Ecfg & Esk & Ess & Em & Hu & Hv & Hsame)]; cbn [mbind option_bind].
  { apply good_fine. by exists st'. }
  apply (fine_same st st' _ Es Hsame).
  eapply fine_authorized; try done; [by rewrite Ess|by rewrite Em|].
  intros _. split; [done|]. intros a al' Eal E'.
  destruct (heap st !! a) as [al|] eqn:E; [|specialize (Hsame a); rewrite E, E' in Hsame; done].
  destruct (same_lookup st st' a al Hsame E) as (al2 & E2 & Heq). rewrite E' in E2. injection E2 as <-.
  destruct (same_fields al al' Heq) as (-> & -> & _). destruct (Hkey a al Eal E) as [-> Hsrc].
  by apply (Hauth key (src_ (conn_ al)) msg b).
Qed.
Lemma fine_packet socket data addr ext now st : inv st → ip_ok (ip_ addr) → packet_ok data → authorizes data addr now →
  is_Some (server_sockets_ st !! socket) → fine st (OnInternalPacket socket data addr ext now st).
Proof.
  intros Hi Haddr Hd Hauth [p Hs]. unfold OnInternalPacket. destruct (_ <? _); [by apply fine_some|].
  destruct (ti_sockets _ _ _ Hi socket p Hs) as (-> & _ & Er). rewrite Hs, Er. cbn [mbind option_bind].
  set (conn := mkConn addr SocketAddress_Clear PROTO_UDP socket).
  assert (udp_conn conn) as Hc by done.
  destruct (negb _).
  - unfold HandleStunMessage. destruct (Read _) as [[[]|] [msg b]] eqn:Erd; try (by apply fine_some).
    destruct (0 <? Length b); [by apply fine_some|].
    destruct (m_type msg =? STUN_BINDING_REQUEST); [by eapply good_fine, good_SendStun|].
    assert (fine st (handle_message conn msg data ext now st)) as Hm.
    { eapply fine_message; try done. by eapply read_packet; [apply Hd|]. }
    destruct (match redirect_hook_ (config st) with Some hook => _ | None => _ end) as [[[] address]|]; try done.
    by eapply good_fine, good_SendStun.
  - rewrite (inv_find _ _ conn st Hi Hc). cbn [mbind option_bind].
    destruct (find (from (src_ conn)) (allocations_ st)) as [[c a]|] eqn:Ef; cbn; [|by apply fine_some].
    destruct (find_allocation _ _ _ _ Hi Ef) as (al & E & _). by eapply fine_channel_data.
Qed.

(** *** Timers *)

Lemma delete_handlers_fmap {A} (f : A → Z) l q :
  delete_handlers (f <$> l) q = fold_left (λ q x, delete_handler (f x) q) l q.
Proof. revert q. induction l as [|x l IH]; intros q; cbn; [done|]. by rewrite <- IH. Qed.
Lemma delete_allocation_eq a al st : heap st !! a = Some al →
  delete_allocation a st = Some (set_heap (delete a)
    (set_queue (delete_handlers ((chan_addr <$> channels_ al) ++ (perm_addr <$> perms_ al) ++ [a])) st)).
Proof.
  intros E. unfold delete_allocation. rewrite E. cbn [mbind option_bind]. do 2 f_equal. unfold set_queue. cbn. f_equal.
  by rewrite !delete_handlers_app, !delete_handlers_fmap.
Qed.
Lemma handlers_perm a al : (chan_addr <$> channels_ al) ++ (perm_addr <$> perms_ al) ++ [a] ≡ₚ handlers_of a al.
Proof. unfold handlers_of. rewrite app_assoc, (Permutation_app_comm _ [a]). cbn. constructor. apply Permutation_app_comm. Qed.

(** The allocation of a client is gone, with all that it owned. *)
Lemma erase_filter conn st : inv st → udp_conn conn →
  map_erase conn (allocations_ st) = Some (List.filter (λ e, negb (from (src_ conn) e)) (allocations_ st)).
Proof.
  intros Hi Hc. pose proof (inv_udp_map _ _ _ Hi) as Hm. unfold map_erase. rewrite (udp_find conn _ Hc Hm). cbn [mbind option_bind].
  f_equal. rewrite (filter_same _ (λ e, negb (from (src_ conn) e))).
  2: { eapply Forall_impl; [exact (udp_same_key conn _ Hc Hm)|]. cbn. by intros e ->. }
  destruct (find (from (src_ conn)) (allocations_ st)) eqn:Ef; [done|]. symmetry. apply filter_every.
  eapply Forall_impl; [exact (find_not _ _ Ef)|]. cbn. by intros e ->.
Qed.
Lemma inv_delete a al st : inv st → heap st !! a = Some al →
  inv (set_heap (delete a) (set_queue (delete_handlers ((chan_addr <$> channels_ al) ++ (perm_addr <$> perms_ al) ++ [a]))
    (set_allocations (List.filter (λ e, negb (from (src_ (conn_ al)) e)) (allocations_ st)) st))).
Proof.
  intros Hi E. set (l := _ ++ _ ++ [a]). pose proof Hi as [].
  assert (∀ h, h ∈ l ↔ h ∈ handlers_of a al) as Hl by (intros h; unfold l; by rewrite handlers_perm).
  assert (Forall (λ h, h ≠ 0) l) as Hnz.
  { apply Forall_forall. intros h Hh%Hl. pose proof (live_fresh st h Hi (ex_intro _ a (ex_intro _ al (conj E Hh)))). lia. }
  assert (∀ b x, heap st !! b = Some x → b ≠ a → from (src_ (conn_ al)) (conn_ x, b) = false) as Hother.
  { intros b x Eb Hne. unfold from. cbn [fst].
    pose proof (placed_conn _ _ _ _ (ti_placed a al E)) as (_ & _ & I1). pose proof (placed_conn _ _ _ _ (ti_placed b x Eb)) as (_ & _ & I2).
    destruct (ordpairs_in _ _ (conn_ x, b) (conn_ al, a) ti_keys) as [Eq|[Hd|Hd]].
    - apply (placed_map _ _ _ _ (ti_placed b x Eb)).
    - apply (placed_map _ _ _ _ (ti_placed a al E)).
    - by injection Eq.
    - done.
    - cbn in Hd. by rewrite SocketAddress_eqb_sym. }
  assert (∀ b x h, heap st !! b = Some x → b ≠ a → h ∈ handlers_of b x → h ∉ l) as Hdis.
  { intros b x h Eb Hne Hin Hin2%Hl. apply Hne. by apply (ti_disjoint b x a al h). }
  split; cbn; try done.
  - eapply timers_mono; [by apply timers_deleted|]. cbn. intros h [(b & x & Eb & Hin) Hnot]. exists b, x. cbn.
    split; [|done]. rewrite lookup_delete_ne; [done|]. intros <-. apply Hnot, Hl. by rewrite E in Eb; injection Eb as ->.
  - intros b x. rewrite lookup_delete_Some. intros [Hne Eb]. destruct (ti_placed b x Eb). split; try done.
    apply list_elem_of_In, filter_In. split; [by apply list_elem_of_In|]. by rewrite (Hother b x).
  - intros b x. rewrite lookup_delete_Some. intros [Hne Eb]. pose proof (ti_own b x Eb) as Ho. pose proof Ho as [_ _ Hp Hc _ _].
    apply (own_sub _ _ _ _ b x x Ho); [lia|done|done|..].
    + apply (perms_keep (queue st) _ x x _ Hp); try done. intros p t Hin. apply pending_deleted; [done|].
      by apply (Hdis b x); [done|done|apply perm_handler].
    + apply (chans_keep (queue st) _ x x _ Hc); try done. intros c t Hin. apply pending_deleted; [done|].
      by apply (Hdis b x); [done|done|apply chan_handler].
  - intros b x b' x' h. rewrite !lookup_delete_Some. intros [_ Eb] [_ Eb']. by apply (ti_disjoint b x b' x' h).
  - apply Forall_forall. intros e Hin%list_elem_of_In. apply filter_In in Hin as [Hin Hf]. apply list_elem_of_In in Hin.
    rewrite Forall_forall in ti_map. destruct (ti_map e Hin) as (x & Ex & Ec). exists x. split; [|done].
    rewrite lookup_delete_ne; [done|]. intros Eq. rewrite <- Eq, E in Ex. injection Ex as <-.
    unfold from in Hf. rewrite <- Ec in Hf. pose proof (placed_conn _ _ _ _ (ti_placed a al E)) as (_ & _ & I1).
    by rewrite (proj2 (SocketAddress_eqb_spec _ _ I1 I1)) in Hf.
  - by eapply ordpairs_sublist; [apply filter_sublist|].
Qed.

(** The handler of a timer. *)
Lemma handler_found h st : inv st → live st h →
  match find_handler h st with
  | Some (HAllocation a) => a = h ∧ is_Some (heap st !! a)
  | Some (HPermission a p) => p = h ∧ ∃ al, heap st !! a = Some al ∧ ∃ x, x ∈ perms_ al ∧ perm_addr x = h
  | Some (HChannel a c) => c = h ∧ ∃ al, heap st !! a = Some al ∧ ∃ x, x ∈ channels_ al ∧ chan_addr x = h
  | None => False
  end.
Proof.
  intros Hi (a & al & E & Hin). unfold find_handler. destruct (heap st !! h) eqn:Eh; [split; [done|by rewrite Eh]|].
  destruct (find (has_permission_at h) _) as [[a' al']|] eqn:Ep.
  { apply find_in in Ep as [Hin' Hh]. apply elem_of_map_to_list in Hin'. split; [done|]. exists al'. split; [done|].
    apply existsb_exists in Hh as (x & Hx%list_elem_of_In & Ex%Z.eqb_eq). by exists x. }
  apply find_not in Ep. destruct (find (has_channel_at h) _) as [[a' al']|] eqn:Ec; cbn.
  { apply find_in in Ec as [Hin' Hh]. apply elem_of_map_to_list in Hin'. split; [done|]. exists al'. split; [done|].
    apply existsb_exists in Hh as (x & Hx%list_elem_of_In & Ex%Z.eqb_eq). by exists x. }
  apply find_not in Ec. rewrite Forall_forall in Ep, Ec. pose proof E as Hl%elem_of_map_to_list. specialize (Ep _ Hl). specialize (Ec _ Hl).
  unfold handlers_of in Hin. rewrite elem_of_cons, elem_of_app in Hin.
  destruct Hin as [->|[(x & Ex & Hx)%list_elem_of_fmap|(x & Ex & Hx)%list_elem_of_fmap]]; [congruence|..].
  - apply not_true_iff_false in Ep. apply Ep, existsb_exists. exists x. split; [by apply list_elem_of_In|]. by apply Z.eqb_eq.
  - apply not_true_iff_false in Ec. apply Ec, existsb_exists. exists x. split; [by apply list_elem_of_In|]. by apply Z.eqb_eq.
Qed.
(** An object of an allocation is deleted when its timer fires. *)
Lemma inv_drop st a al al' h q : inv st → heap st !! a = Some al → h ∈ handlers_of a al →
  conn_ al' = conn_ al → key_ al' = key_ al → sublist (perms_ al') (perms_ al) → sublist (channels_ al') (channels_ al) →
  (∀ x, x ∈ handlers_of a al → x ≠ h → x ∈ handlers_of a al') →
  (∀ p, p ∈ perms_ al' → perm_addr p ≠ h) → (∀ c, c ∈ channels_ al' → chan_addr c ≠ h) →
  timers (live st) q → (∀ x t, x ≠ h → pending x t (queue st) → pending x t q) →
  inv (set_queue (delete_handler h) (set_heap <[a := al']> (set_queue (λ _, q) st))).
Proof.
  intros Hi E Hh Ec Ek Hsp Hsc Hkeep Hp Hc Hq Hpend. pose proof (ti_own _ _ _ Hi a al E) as Hown. pose proof Hown as [_ _ Hpo Hco _ _].
  pose proof (live_fresh st h Hi (ex_intro _ a (ex_intro _ al (conj E Hh)))) as H0.
  assert (∀ x t, x ≠ h → pending x t (queue st) → pending x t (delete_handler h q)) as Hpend'
    by (intros; apply pending_delete; [lia|by apply not_eq_sym|auto]).
  eapply (inv_update Gp Gc st _ a al al'); try done; cbn.
  - intros x Hx. left. revert x Hx. unfold handlers_of. intros x. rewrite !elem_of_cons, !elem_of_app.
    intros [?|[?|?]]; [auto|..]; right; [left|right]; by eapply sublist_in; [apply fmap_sublist|].
  - eapply timers_mono; [apply timers_cleared; [done|lia]|]. cbn. intros x [(b & y & Eb & Hin) Hne]. destruct (decide (b = a)) as [->|Hba].
    + exists a, al'. split; [cbn; by rewrite lookup_insert, decide_True|]. rewrite E in Eb. injection Eb as <-. auto.
    + exists b, y. split; [cbn; by rewrite lookup_insert_ne|done].
  - intros x t _ Hx. apply Hpend'. by intros ->.
  - apply (own_sub _ _ _ _ a al al' Hown); [lia|done|done|..].
    + apply (perms_keep (queue st) _ al al' _ Hpo Ec Ek Hsp). intros p t Hin. apply Hpend'. by apply Hp.
    + apply (chans_keep (queue st) _ al al' _ Hco Ec Ek Hsc). intros c t Hin. apply Hpend'. by apply Hc.
Qed.
Lemma sublist_filtered {A} (f : A → Z) h l x : x ∈ l → f x ≠ h → x ∈ List.filter (λ x, negb (f x =? h)) l.
Proof. intros Hin Hne. apply list_elem_of_In, filter_In. split; [by apply list_elem_of_In|]. by rewrite (proj2 (Z.eqb_neq _ _) Hne). Qed.
Lemma filtered_ne {A} (f : A → Z) h l x : x ∈ List.filter (λ x, negb (f x =? h)) l → f x ≠ h.
Proof. intros [_ Hf]%list_elem_of_In%filter_In. by destruct (Z.eqb_spec (f x) h). Qed.

Lemma good_dispatch now st : inv st → good st (turn_dispatch now st).
Proof.
  intros Hi. unfold turn_dispatch. destruct (timers_get (live st) now (queue st) (ti_timers _ _ _ Hi)) as (r & ws & q & -> & Hq & Hm & Hpend).
  cbn [mbind option_bind].
  destruct r as [m|].
  2: { eexists. split; [done|]. split; [|by apply answers_same]. destruct Hi as [? ? ? ? Hown ? ? ? ?]. split; try done.
       intros a al E. pose proof (Hown a al E) as Ho. apply (own_keep _ (queue st) _ a al al Ho); try done. auto. }
  destruct Hm as [Eid Hlive]. rewrite Eid. cbn [negb Z.eqb MSG_ALLOCATION_TIMEOUT].
  pose proof (handler_found _ st Hi Hlive) as Hf. change (find_handler (phandler m) (set_queue (λ _, q) st)) with (find_handler (phandler m) st).
  destruct (find_handler (phandler m) st) as [[a|a p|a c]|]; [..|done]; cbn [mbind option_bind].
  - destruct Hf as [-> [al E]]. set (a := phandler m) in *. set (st1 := set_queue (λ _, q) st).
    assert (inv st1) as Hi1.
    { unfold st1. rewrite (insert_same st a al) by done. apply (inv_touch st a al); auto. }
    unfold Allocation_OnMessage, OnAllocationDestroyed. change (heap st1) with (heap st). rewrite E. cbn [mbind option_bind].
    pose proof (ti_placed _ _ _ Hi1 a al E) as Hpl. rewrite (placed_socket _ _ _ _ Hpl). cbn [mbind option_bind proto_value Z.eqb negb].
    rewrite (erase_filter _ st1 Hi1 (placed_conn _ _ _ _ Hpl)). cbn [mbind option_bind].
    rewrite (delete_allocation_eq a al) by done. eexists. split; [done|]. split; [|by apply answers_same].
    by apply (inv_delete a al st1).
  - destruct Hf as (-> & al & E & x & Hx & Ex). unfold Permission_OnMessage, OnPermissionDestroyed. cbn [heap set_queue]. rewrite E. cbn [mbind option_bind].
    rewrite (proj2 (existsb_exists _ _)) by (exists x; split; [by apply list_elem_of_In|by apply Z.eqb_eq]).
    rewrite (on_allocation_insert a al) by done. eexists. split; [done|]. split; [|by apply answers_same].
    apply (inv_drop st a al); try done.
    + rewrite <- Ex. by apply perm_handler.
    + apply filter_sublist.
    + intros y. unfold handlers_of. cbn. rewrite !elem_of_cons, !elem_of_app. intros [?|[(p & -> & Hp)%list_elem_of_fmap|?]] Hne; auto.
      right. left. apply list_elem_of_fmap. exists p. split; [done|]. by apply sublist_filtered.
    + apply filtered_ne.
    + intros c Hc. rewrite <- Ex. apply not_eq_sym. by apply (own_differ _ _ _ _ (ti_own _ _ _ Hi a al E)).
    + intros y t Hne Hp. apply Hpend; [done|by apply not_eq_sym].
  - destruct Hf as (-> & al & E & x & Hx & Ex). unfold Channel_OnMessage, OnChannelDestroyed. cbn [heap set_queue]. rewrite E. cbn [mbind option_bind].
    rewrite (proj2 (existsb_exists _ _)) by (exists x; split; [by apply list_elem_of_In|by apply Z.eqb_eq]).
    rewrite (on_allocation_insert a al) by done. eexists. split; [done|]. split; [|by apply answers_same].
    apply (inv_drop st a al); try done.
    + rewrite <- Ex. by apply chan_handler.
    + apply filter_sublist.
    + intros y. unfold handlers_of. cbn. rewrite !elem_of_cons, !elem_of_app. intros [?|[?|(c & -> & Hc)%list_elem_of_fmap]] Hne; auto.
      right. right. apply list_elem_of_fmap. exists c. split; [done|]. by apply sublist_filtered.
    + intros p Hp. rewrite <- Ex. by apply (own_differ _ _ _ _ (ti_own _ _ _ Hi a al E)).
    + apply filtered_ne.
    + intros y t Hne Hp. apply Hpend; [done|by apply not_eq_sym].
Qed.
End steps.
