(* ===== verification/TurnRun.v ===== *)
(** * Runs of the TURN server

    Every run of a server on UDP sockets is defined and keeps its invariant, and what it
    relays was granted by an authenticated request that has not expired. *)

From stdpp Require Import strings.
From S2P Require Import Prelude ByteOrder StringEncode ByteBuffer IpAddress MessageDigest Stun StunWire StunTyped StunIntegrity StunBuild TimeUtils MessageQueue TurnServer TurnSafe TurnSteps.

Section runs.
Context `{Platform}.

(** ** Grants *)

(** An authenticated request of the client for a peer, among the steps of a run. *)
Definition requested (ops : list turn_op) (key : list Z) (src : SocketAddress) (t : Z) (P : StunMessage → Prop) : Prop :=
  ∃ s data addr ext msg b, TPacket s data addr ext t ∈ ops ∧
    Read (StunMessage_new CTurn, ByteBuffer_of data ORDER_NETWORK) = (Some true, (msg, b)) ∧
    ValidateMessageIntegrity data key = Some true ∧ SocketAddress_eqb src addr = true ∧ P msg.
Definition permission_request (ip : IPAddress) (msg : StunMessage) : Prop :=
  (m_type msg = TURN_CREATE_PERMISSION_REQUEST ∨ m_type msg = TURN_CHANNEL_BIND_REQUEST) ∧
  ip_ ∘ attr_address <$> GetAddress msg STUN_ATTR_XOR_PEER_ADDRESS = Some ip.
Definition channel_request (peer : SocketAddress) (id : Z) (msg : StunMessage) : Prop :=
  m_type msg = TURN_CHANNEL_BIND_REQUEST ∧ attr_address <$> GetAddress msg STUN_ATTR_XOR_PEER_ADDRESS = Some peer ∧
  ∃ v, GetUInt32 msg STUN_ATTR_CHANNEL_NUMBER = Some v ∧ id = Z.shiftr v 16.

Definition Gp (ops : list turn_op) (key : list Z) (src : SocketAddress) (ip : IPAddress) (t : Z) : Prop :=
  requested ops key src t (permission_request ip).
Definition Gc (ops : list turn_op) (key : list Z) (src : SocketAddress) (peer : SocketAddress) (id t : Z) : Prop :=
  requested ops key src t (channel_request peer id).
Definition inv_after (ops : list turn_op) : TurnServer → Prop := turn_inv (Gp ops) (Gc ops).

Lemma requested_more ops o key src t P : requested ops key src t P → requested (ops ++ [o]) key src t P.
Proof.
  intros (s & data & addr & ext & msg & b & Hin & Hrest). exists s, data, addr, ext, msg, b. split; [|done].
  apply elem_of_app. by left.
Qed.
Lemma inv_more ops o st : inv_after ops st → inv_after (ops ++ [o]) st.
Proof.
  intros [? ? ? ? Hown ? ? ? ?]. split; try done. intros a al E. destruct (Hown a al E) as [? ? Hp Hc ? ?]. split; try done.
  - eapply Forall_impl; [exact Hp|]. intros p (? & t & ? & ?). split; [done|]. exists t. split; [by apply requested_more|done].
  - eapply Forall_impl; [exact Hc|]. intros c (? & ? & t & ? & ?). split; [done|]. split; [done|]. exists t. split; [by apply requested_more|done].
Qed.
Lemma packet_authorizes ops s data addr ext now :
  authorizes (Gp (ops ++ [TPacket s data addr ext now])) (Gc (ops ++ [TPacket s data addr ext now])) data addr now.
Proof.
  intros key src msg b Erd Hv Heq peer Ep Hpl.
  assert (∀ P : StunMessage → Prop, P msg → requested (ops ++ [TPacket s data addr ext now]) key src now P) as Hreq.
  { intros P HP. exists s, data, addr, ext, msg, b. split; [|done]. apply elem_of_app. right. by constructor. }
  assert (ip_ ∘ attr_address <$> GetAddress msg STUN_ATTR_XOR_PEER_ADDRESS = Some (ip_ peer)) as Eip.
  { destruct (GetAddress msg STUN_ATTR_XOR_PEER_ADDRESS); [|done]. injection Ep as <-. done. }
  split; [intros Ht; apply Hreq; split; [by left|done]|]. intros Ht. split; [apply Hreq; split; [by right|done]|].
  intros v Ev. apply Hreq. split; [done|]. split; [done|]. by exists v.
Qed.

(** ** Runs *)

(** The uses of a server on UDP: its sockets have no remote address, the packets come
    from hosts, and the check of the HMAC stays inside them. *)
Definition turn_op_ok (o : turn_op) (st : TurnServer) : Prop :=
  match o with
  | TConfigure c => config_ok c
  | TAddSocket s proto remote => proto = PROTO_UDP ∧ remote = SocketAddress_Clear ∧ s ≠ 0 ∧ server_sockets_ st !! s = None
  | TPacket s data addr _ _ => is_Some (server_sockets_ st !! s) ∧ ip_ok (ip_ addr) ∧ packet_ok data
  | TPeer _ _ addr _ => plain addr
  | TDispatch _ => True
  | _ => False
  end.
Fixpoint turn_ops_ok (ops : list turn_op) (st : TurnServer) : Prop :=
  match ops with
  | [] => True
  | o :: ops => turn_op_ok o st ∧ match turn_step o st with Some st' => turn_ops_ok ops st' | None => True end
  end.

Lemma step_fine ops o st : inv_after ops st → turn_op_ok o st →
  ∃ st', turn_step o st = Some st' ∧ inv_after (ops ++ [o]) st' ∧ ∃ l, sent st' = sent st ++ l ∧ Forall (allowed st) l.
Proof.
  intros Hi Ho. pose proof (inv_more ops o st Hi) as Hm.
  assert (∀ st', sent st' = sent st → inv_after (ops ++ [o]) st' →
    ∃ st'', Some st' = Some st'' ∧ inv_after (ops ++ [o]) st'' ∧ ∃ l, sent st'' = sent st ++ l ∧ Forall (allowed st) l) as Hsilent.
  { intros st' Es Hst. exists st'. split_and!; try done. exists []. by rewrite app_nil_r. }
  destruct o as [c|s proto remote|s proto|s acc|s now|s data addr ext now|a data addr random|now]; cbn [turn_step turn_op_ok] in *; try done.
  - apply Hsilent; [done|]. destruct Hm. by split.
  - destruct Ho as (-> & -> & H0 & Hnew). unfold AddInternalSocket. cbn [server_sockets_ set_sockets]. rewrite Hnew.
    apply Hsilent; [done|]. destruct Hm as [? Hs ? Hp ? ? ? ? ?]. split; try done.
    + intros s' p E. cbn in E |- *. apply lookup_insert_Some in E as [[<- <-]|[Hne E]].
      * split_and!; try done. by rewrite lookup_insert, decide_True.
      * destruct (Hs s' p E) as (? & ? & ?). split_and!; try done. by rewrite lookup_insert_ne.
    + intros a al E. destruct (Hp a al E). split; try done. cbn. rewrite lookup_insert_ne; [done|]. intros Eq. congruence.
  - destruct Ho as ([p Hs] & Hip & Hd). rewrite (inv_alive _ _ s p st Hi Hs).
    eapply (fine_packet (Gp (ops ++ [_])) (Gc (ops ++ [_]))); try done. apply packet_authorizes.
  - destruct (heap st !! a) as [al|] eqn:E; [|by apply Hsilent].
    by apply good_fine, (good_external _ _ a al).
  - by apply good_fine, good_dispatch.
Qed.
Lemma run_inv ops : ∀ past st, inv_after past st → turn_ops_ok ops st →
  ∃ st', turn_run ops st = Some st' ∧ inv_after (past ++ ops) st'.
Proof.
  induction ops as [|o ops IH]; intros past st Hi Ho; cbn; [exists st; by rewrite app_nil_r|]. destruct Ho as [Ho Hos].
  destruct (step_fine past o st Hi Ho) as (st1 & E & Hi1 & _). rewrite E in *. cbn [mbind option_bind].
  destruct (IH (past ++ [o]) st1 Hi1 Hos) as (st' & E' & Hi'). exists st'. by rewrite <- app_assoc in Hi'.
Qed.

(** ** The end of a server *)

Lemma delete_all l : ∀ st, NoDup l → Forall (λ a, is_Some (heap st !! a)) l → timers (live st) (queue st) →
  (∀ a al, heap st !! a = Some al → Forall (λ h, h ≠ 0) (handlers_of a al)) →
  ∃ st', delete_allocations l st = Some st' ∧ timers (live st') (queue st') ∧ ∀ a, a ∈ l ∨ heap st !! a = None → heap st' !! a = None.
Proof.
  induction l as [|a l IH]; intros st Hnd Hl Ht Hz; cbn [delete_allocations].
  { exists st. split_and!; try done. by intros a [?%elem_of_nil|?]. }
  apply NoDup_cons in Hnd as [Ha Hnd]. apply Forall_cons in Hl as [[al E] Hl]. rewrite (delete_allocation_eq a al st E). cbn [mbind option_bind].
  set (st1 := set_heap _ _). destruct (IH st1) as (st' & E' & Ht' & Hh'); try done.
  - apply Forall_forall. intros b Hb. rewrite Forall_forall in Hl. unfold st1. cbn. rewrite lookup_delete_ne by (by intros <-). by apply Hl.
  - eapply timers_mono; [apply timers_deleted; [exact Ht|]|].
    + rewrite handlers_perm. by apply Hz.
    + cbn. intros h [(b & x & Eb & Hin) Hnot]. exists b, x. split; [|done]. unfold st1. cbn. rewrite lookup_delete_ne; [done|].
      intros <-. apply Hnot. rewrite handlers_perm. rewrite E in Eb. by injection Eb as ->.
  - intros b x. unfold st1. cbn. rewrite lookup_delete_Some. intros [_ Eb]. by apply Hz.
  - exists st'. split_and!; try done. intros b Hb. apply Hh'. unfold st1. cbn. rewrite elem_of_cons in Hb.
    destruct (decide (b = a)) as [->|Hne]; [right; apply lookup_delete_eq|]. rewrite lookup_delete_ne by done. tauto.
Qed.
Lemma delete_empty ops st : inv_after ops st →
  ∃ st', TurnServer_delete st = Some st' ∧ heap st' = ∅ ∧ queue_messages (queue st') = [].
Proof.
  intros Hi. unfold TurnServer_delete. destruct (delete_all ((allocations_ st).*2) st) as (st' & -> & Ht & Hh).
  - pose proof (ti_keys _ _ _ Hi) as Hk. pose proof (ti_map _ _ _ Hi) as Hm. pose proof (inv_udp_map _ _ _ Hi) as Hu.
    induction (allocations_ st) as [|e m IH]; cbn; [constructor|]. inversion_clear Hk as [|? ? He Hk'].
    apply Forall_cons in Hm as [(al & E & Ec) Hm]. apply Forall_cons in Hu as [(_ & _ & I1) Hu]. apply NoDup_cons. split; [|auto].
    intros (e' & Ee & Hin)%list_elem_of_fmap. rewrite Forall_forall in He, Hm. specialize (He e' Hin). destruct (Hm e' Hin) as (al' & E' & Ec').
    rewrite <- Ee, E in E'. injection E' as <-. rewrite <- Ec', Ec in He. by rewrite (proj2 (SocketAddress_eqb_spec _ _ I1 I1)) in He.
  - pose proof (ti_map _ _ _ Hi) as Hm. apply Forall_fmap. eapply Forall_impl; [exact Hm|]. cbn. intros e (al & E & _). by exists al.
  - apply (ti_timers _ _ _ Hi).
  - intros a al E. pose proof (own_range _ _ _ _ _ _ (ti_own _ _ _ Hi a al E)) as Hr. eapply Forall_impl; [exact Hr|]. cbn. lia.
  - cbn [mbind option_bind]. eexists. split; [done|]. assert (heap st' = ∅) as Eh.
    { apply map_empty. intros a. apply Hh. destruct (heap st !! a) as [al|] eqn:E; [left|by right].
      apply list_elem_of_fmap. exists (conn_ al, a). split; [done|]. apply (placed_map _ _ _ _ (ti_placed _ _ _ Hi a al E)). }
    split; [done|]. cbn. destruct Ht as (_ & _ & _ & Hq). destruct (queue_messages (queue st')) as [|m l]; [done|].
    apply Forall_cons in Hq as [(_ & _ & (a & al & E & _)) _]. by rewrite Eh in E.
Qed.
End runs.

(** ** Properties *)


(** No timer is due. *)
Definition prompt (now : Z) (st : TurnServer) : Prop :=
  msgq_ (queue st) = [] ∧ Forall (λ d, TimeIsLater now (msTrigger_ d) = true) (dmsgq_ (queue st)).
Lemma prompt_pending now st h t : prompt now st → pending h t (queue st) → 0 < u32 (t - now) < HALF.
Proof.
  intros [Hq Hd] [(m & Hin & _)|(d & Hin & _ & <-)]; [rewrite Hq in Hin; by apply elem_of_nil in Hin|].
  rewrite Forall_forall in Hd. specialize (Hd d Hin). rewrite later_strict, andb_true_iff, !Z.ltb_lt in Hd. done.
Qed.
(** What the step [o] relays for the allocation [a], to a peer or from it. *)
Definition relays (o : turn_op) (l : list turn_sent) (a : Z) (peer : SocketAddress) : Prop :=
  (∃ payload, ToPeer a peer payload ∈ l) ∨ (∃ data random, o = TPeer a data peer random ∧ l ≠ []).
(** A permission or a channel for the peer was granted, and has not expired. *)
Definition granted `{Platform} (ops : list turn_op) (al : Allocation) (peer : SocketAddress) (now : Z) : Prop :=
  (∃ t, Gp ops (key_ al) (src_ (conn_ al)) (ip_ peer) t ∧ 0 < u32 (u32 (t + kPermissionTimeout) - now) < HALF) ∨
  (∃ t id, Gc ops (key_ al) (src_ (conn_ al)) peer id t ∧ 0 < u32 (u32 (t + kChannelTimeout) - now) < HALF).

Lemma permitted_granted `{Platform} ops st a peer now : inv_after ops st → prompt now st → permitted st a peer →
  ∃ al, heap st !! a = Some al ∧ granted ops al peer now.
Proof.
  intros Hi Hnow (al & E & Hp). exists al. split; [done|]. pose proof (ti_own _ _ _ Hi a al E) as [_ _ Hps Hcs _ _].
  unfold granted. destruct Hp as [(p & Hin & <-)|(c & Hin & <-)].
  - rewrite Forall_forall in Hps. destruct (Hps p Hin) as (_ & t & Hg & Hpd). left. exists t. split; [done|]. by eapply prompt_pending.
  - rewrite Forall_forall in Hcs. destruct (Hcs c Hin) as (_ & _ & t & Hg & Hpd). right. exists t, (chan_id c). split; [done|]. by eapply prompt_pending.
Qed.

(** C5. A TURN server relays only what was granted: if a step of a run sends something to a peer, or sends
    something of a peer's packet to the client, at a time when no timer is due, then
    before it a request came from the client's address, authenticated with the key of
    the allocation, that created a permission for the peer's host less than 5 minutes
    ago or bound a channel to the peer less than 10 minutes ago. *)
Theorem turn_relays_granted `{Platform} random ops st o st' l a peer now :
  turn_ops_ok ops (TurnServer_new random) → turn_run ops (TurnServer_new random) = Some st →
  turn_op_ok o st → turn_step o st = Some st' → sent st' = sent st ++ l → relays o l a peer → prompt now st →
  ∃ al, heap st !! a = Some al ∧ granted ops al peer now.
Proof.
  intros Ho Erun Hop Estep El Hrel Hnow. destruct (run_inv ops [] (TurnServer_new random)) as (st1 & E1 & Hi); [apply turn_new_inv|done|].
  simplify_eq. cbn [app] in Hi. apply (permitted_granted ops st a peer now Hi Hnow). destruct Hrel as [(payload & Hin)|(data & rnd & -> & Hne)].
  - destruct (step_fine ops o st Hi Hop) as (st2 & E2 & _ & l2 & El2 & Hall). simplify_eq. rewrite El in El2. simplify_list_eq.
    rewrite Forall_forall in Hall. by specialize (Hall _ Hin).
  - cbn [turn_step turn_op_ok] in *. destruct (heap st !! a) as [al|] eqn:E; [|simplify_eq; by rewrite <- (app_nil_r (sent _)) in El at 1; simplify_list_eq].
    exists al. split; [done|]. unfold OnExternalPacket in Estep. rewrite E in Estep. cbn [mbind option_bind] in Estep.
    destruct (FindChannel_peer peer al) as [c|] eqn:Ec.
    { right. exists c. by apply (has_channel _ _ peer al st a c Hi E). }
    destruct (HasPermission (ip_ peer) al) eqn:Eh.
    + left. by apply (has_permission _ _ (ip_ peer) al st a Hi E (proj1 Hop)).
    + simplify_eq. by rewrite <- (app_nil_r (sent _)) in El at 1; simplify_list_eq.
Qed.

(** ** Witnesses *)

Section samples.
Context `{Platform}.

(** Checking the uses of a server by evaluation, except for the hooks. *)
Definition ip_okb (ip : IPAddress) : bool :=
  (zlen (u_ ip) =? 16) && forallb (λ b, (0 <=? b) && (b <? 256)) (u_ ip) &&
  match family_ ip with
  | AF_UNSPEC => bool_decide (u_ ip = zrepeat 0 16)
  | AF_INET => bool_decide (zdrop 4 (u_ ip) = zrepeat 0 12)
  | AF_INET6 => true
  end.
Lemma ip_okb_ok ip : ip_okb ip = true → ip_ok ip.
Proof.
  unfold ip_okb. rewrite !andb_true_iff. intros [[Hl Hb] Hf]. split; [lia|]. split; [by apply bytes_okb|].
  destruct (family_ ip); rewrite ?bool_decide_eq_true in Hf; done.
Qed.
Definition turn_op_okb (o : turn_op) (st : TurnServer) : bool :=
  match o with
  | TConfigure _ => false
  | TAddSocket s proto remote =>
      bool_decide (proto = PROTO_UDP) && bool_decide (remote = SocketAddress_Clear) && negb (s =? 0) &&
      bool_decide (server_sockets_ st !! s = None)
  | TPacket s data addr _ _ =>
      bool_decide (is_Some (server_sockets_ st !! s)) && ip_okb (ip_ addr) && forallb (λ b, (0 <=? b) && (b <? 256)) data &&
      bool_decide (is_Some (ValidateMessageIntegrity data []))
  | TPeer _ _ addr _ => ip_okb (ip_ addr) && bool_decide (addr = SocketAddress_of (ip_ addr) (port_ addr))
  | TDispatch _ => true
  | _ => false
  end.
Lemma turn_op_okb_ok o st : turn_op_okb o st = true → turn_op_ok o st.
Proof.
  destruct o; cbn [turn_op_okb turn_op_ok]; try done; rewrite ?andb_true_iff, ?bool_decide_eq_true.
  - intros [[[-> ->] Hs] ->]. split_and!; try done. by destruct (Z.eqb_spec socket 0).
  - intros [[[Hs Hip] Hd] [v Hv]]. split; [done|]. split; [by apply ip_okb_ok|]. split; [by apply bytes_okb|].
    intros Hout. apply (integrity_outside _ []) in Hout; [congruence|by apply bytes_okb|constructor].
  - intros [Hip Ha]. split; [by apply ip_okb_ok|done].
Qed.
Fixpoint turn_ops_okb (ops : list turn_op) (st : TurnServer) : bool :=
  match ops with
  | [] => true
  | o :: ops => turn_op_okb o st && match turn_step o st with Some st' => turn_ops_okb ops st' | None => true end
  end.
Lemma turn_ops_okb_ok ops : ∀ st, turn_ops_okb ops st = true → turn_ops_ok ops st.
Proof.
  induction ops as [|o ops IH]; intros st; cbn; [done|]. rewrite andb_true_iff. intros [Ho Hos].
  split; [by apply turn_op_okb_ok|]. destruct (turn_step o st); auto.
Qed.

(** A client with a user name, a key and a socket of the server; a peer. *)
Definition turn_key : list Z := text "0123456789abcdef".
Definition turn_nonce_key : list Z := text "nonce-key-of-16b".
Definition turn_config : TurnConfig :=
  mkConfig turn_nonce_key (text "realm") (text "server") (Some (λ _ _, (true, turn_key))) None false true
    (SocketAddress_of (IPAddress_v4 [10; 0; 0; 1]) 0).
Definition turn_client : SocketAddress := SocketAddress_of (IPAddress_v4 [192; 168; 1; 5]) 5000.
Definition turn_peer : SocketAddress := SocketAddress_of (IPAddress_v4 [172; 16; 0; 9]) 6000.
Definition turn_relay : SocketAddress := SocketAddress_of (IPAddress_v4 [10; 0; 0; 1]) 49152.
Definition turn_message (type : Z) (attrs : list StunAttribute) : StunMessage :=
  fold_left (λ m a, add a m) attrs (SetTransactionID (SetType (StunMessage_new CTurn) type) sample_tid).2.
Definition wire_of (m : StunMessage) : list Z := Data (Write m (ByteBuffer_new ORDER_NETWORK)).2.
(** A request with a nonce of the time [t], protected with the key. *)
Definition turn_request (type t : Z) (attrs : list StunAttribute) : list Z :=
  wire_of (AddMessageIntegrity (turn_message type
    ([StunByteStringAttribute STUN_ATTR_USERNAME (text "user"); StunByteStringAttribute STUN_ATTR_REALM (text "realm");
      StunByteStringAttribute STUN_ATTR_NONCE (GenerateNonce turn_nonce_key t)] ++ attrs)) turn_key).2.

(** The client allocates and binds a channel to the peer, then both send; the permission
    expires after 5 minutes. *)
Definition turn_setup : list turn_op :=
  [TAddSocket 7 PROTO_UDP SocketAddress_Clear;
   TPacket 7 (turn_request STUN_ALLOCATE_REQUEST 1000 [StunUInt32Attribute STUN_ATTR_REQUESTED_TRANSPORT 285212672])
     turn_client (Some turn_relay) 2000;
   TPacket 7 (turn_request TURN_CHANNEL_BIND_REQUEST 1000
     [StunUInt32Attribute STUN_ATTR_CHANNEL_NUMBER (16385 * 65536); StunXorAddressAttribute STUN_ATTR_XOR_PEER_ADDRESS turn_peer])
     turn_client None 3000].
Definition turn_indication : turn_op :=
  TPacket 7 (wire_of (turn_message TURN_SEND_INDICATION
    [StunByteStringAttribute STUN_ATTR_DATA (text "hello"); StunXorAddressAttribute STUN_ATTR_XOR_PEER_ADDRESS turn_peer]))
    turn_client None 4000.
Definition turn_sample_ops : list turn_op :=
  turn_setup ++ [turn_indication; TPacket 7 (be_encode 2 16385 ++ be_encode 2 5 ++ text "hello") turn_client None 5000;
    TPeer 1 (text "reply") turn_peer sample_tid; TDispatch 303000].
End samples.

Lemma turn_config_ok : config_ok turn_config.
Proof. intros u r. apply text_ok. Qed.
Lemma sample_ops_ok `{Platform} ops : turn_ops_okb ops (set_config turn_config (TurnServer_new turn_nonce_key)) = true →
  turn_ops_ok (TConfigure turn_config :: ops) (TurnServer_new turn_nonce_key).
Proof. intros Ho. split; [apply turn_config_ok|]. by apply turn_ops_okb_ok. Qed.


(** The send indication of the client, a second after the channel was bound. *)
Lemma turn_relays_granted_witness :
  let p := zero_platform in
  let ops := TConfigure turn_config :: turn_setup in
  ∃ st al, turn_run ops (TurnServer_new turn_nonce_key) = Some st ∧ heap st !! 1 = Some al ∧ granted ops al turn_peer 4000.
Proof.
  intros p ops.
  assert (turn_ops_ok ops (TurnServer_new turn_nonce_key)) as Ho by (apply sample_ops_ok; vm_compute; reflexivity).
  assert (match turn_run ops (TurnServer_new turn_nonce_key) with
    | Some st => turn_op_okb turn_indication st = true ∧ bool_decide (msgq_ (queue st) = []) = true ∧
        forallb (λ d, TimeIsLater 4000 (msTrigger_ d)) (dmsgq_ (queue st)) = true ∧
        match turn_step turn_indication st with Some st' => sent st' = sent st ++ [ToPeer 1 turn_peer (text "hello")] | None => False end
    | None => False end) as Hv.
  { vm_compute. split_and!; reflexivity. }
  destruct (turn_run ops (TurnServer_new turn_nonce_key)) as [st|] eqn:E; [|destruct Hv]. destruct Hv as (Hop & Hq & Hd & Hs).
  destruct (turn_step turn_indication st) as [st'|] eqn:Es; [|destruct Hs]. exists st.
  destruct (turn_relays_granted turn_nonce_key ops st turn_indication st' [ToPeer 1 turn_peer (text "hello")] 1 turn_peer 4000 Ho E) as (al & Eal & Hg);
    [exact (turn_op_okb_ok _ _ Hop)|exact Es|exact Hs|left; eexists; apply list_elem_of_here| |exists al; exact (conj eq_refl (conj Eal Hg))].
  split; [exact (proj1 (bool_decide_eq_true _) Hq)|]. apply Forall_forall. intros d Hin%list_elem_of_In. exact (proj1 (forallb_forall _ _) Hd d Hin).
Defined.
