(* ===== verification/TurnReact.v ===== *)
(** * How the TURN server reacts to requests

    The nonces of the server, what may change its state, and the answers it gives to
    messages that are no requests. *)

From stdpp Require Import strings.
From S2P Require Import Prelude ByteOrder StringEncode ByteBuffer IpAddress Md5 MessageDigest Stun StunWire StunTyped StunIntegrity StunBuild TimeUtils MessageQueue TurnServer TurnSafe TurnSteps TurnRun.

(** ** Nonces *)

Section nonces.
Context `{Platform}.

Lemma nonce_value nk t : bytes_ok nk →
  GenerateNonce nk t = hex_text 0 (host_store 4 t) ++ hex_text 0 (hmac md5_spec nk (host_store 4 t)).
Proof.
  intros Hk. pose proof (host_store_ok 4 t) as Ht. unfold GenerateNonce, hex_encode. rewrite hex_encode_text, ComputeHmac_md5_hex by done. done.
Qed.
Lemma nonce_lengths nk t : bytes_ok nk → zlen (hex_text 0 (host_store 4 t)) = 8 ∧ zlen (GenerateNonce nk t) = kNonceSize ∧
  bytes_ok (GenerateNonce nk t).
Proof.
  intros Hk. assert (zlen (hmac md5_spec nk (host_store 4 t)) = 16) as Hl by apply (hash_length (D := MD5Context) (hash := md5_spec)).
  rewrite nonce_value by done. rewrite zlen_app, !hex_text_length, zlen_host_store, Hl. cbn. split; [done|]. split; [done|].
  apply bytes_ok_app. split; apply hex_text_ok; [apply host_store_ok|apply (hash_bytes (D := MD5Context) (hash := md5_spec))].
Qed.
Lemma nonce_accepted nk t now : bytes_ok nk → is_u32 t →
  ValidateNonce nk (GenerateNonce nk t) now = (TimeDiff now t <? kNonceTimeout).
Proof.
  intros Hk Ht. destruct (nonce_lengths nk t Hk) as (H8 & Hl & _). unfold ValidateNonce. rewrite Hl, Z.eqb_refl. cbn [negb].
  pose proof (host_store_ok 4 t) as Hok. pose proof (zlen_host_store 4 t) as Hz.
  rewrite nonce_value, ztake_app_exact, zdrop_app_exact by done. unfold hex_decode, hex_decode_with_delimiter.
  rewrite zlen_fresh, H8.
  pose proof (hex_decode_loop_text 0 (host_store 4 t) Hok [] (fresh_block 4) [] ltac:(by rewrite zlen_fresh, Hz)) as El.
  cbn [app] in El. rewrite !app_nil_r in El. change (zlen (@nil Z)) with 0 in El. rewrite Hz in El.
  change (0 `max` 4 =? 0) with false. cbn [negb Z.eqb]. change (0 `max` 4 <? 8 / 2) with false. rewrite El. cbv beta iota.
  change (0 + Z.of_nat 4 =? 4) with true. cbn [negb].
  rewrite ComputeHmac_md5_hex, bool_decide_eq_true_2 by done. cbn [negb]. by rewrite host_load_store.
Qed.
(** What is accepted has the code of a nonce of the server, for a time that is not past. *)
Lemma nonce_genuine nk nonce now : bytes_ok nk → ValidateNonce nk nonce now = true →
  ∃ t, is_u32 t ∧ zdrop 8 nonce = zdrop 8 (GenerateNonce nk t) ∧ TimeDiff now t < kNonceTimeout.
Proof.
  intros Hk. unfold ValidateNonce. destruct (Z.eqb_spec (zlen nonce) kNonceSize) as [Hl|]; [|done]. cbn [negb].
  unfold hex_decode, hex_decode_with_delimiter. rewrite zlen_fresh, zlen_ztake, Hl.
  change (0 `max` 4 =? 0) with false. cbn [negb Z.eqb].
  match goal with |- context [if ?b then (0, fresh_block 4) else _] => change b with false end.
  destruct (hex_decode_loop_keeps (length (ztake 8 nonce)) (ztake 8 nonce) 0 (fresh_block 4)) as [Hok Hz];
    [done|apply bytes_ok_fresh|done|rewrite zlen_ztake, zlen_fresh, Hl; done|]. rewrite zlen_fresh in Hz.
  destruct (hex_decode_loop _ _ _ _) as [len p]. cbn [snd] in *. destruct (negb (len =? 4)); [done|].
  case_bool_decide as Eh; [|done]. cbn [negb]. intros Ht%Z.ltb_lt. exists (host_load p).
  assert (is_u32 (host_load p)) as Hu by (pose proof (host_load_range p Hok) as Hr; by rewrite Hz in Hr).
  split; [done|]. split; [|done]. destruct (nonce_lengths nk (host_load p) Hk) as (H8 & _).
  rewrite nonce_value, zdrop_app_exact by done. rewrite host_store_load by done. by rewrite <- ComputeHmac_md5_hex.
Qed.
End nonces.

(** ** What may change the state *)

Definition set_sent (l : list turn_sent) (st : TurnServer) : TurnServer :=
  mkTurn (config st) (sockets st) (server_sockets_ st) (server_listen_sockets_ st) (allocations_ st) (heap st) (next_addr st) (queue st) l.
(** Nothing changes but what was sent. *)
Definition unchanged (st st' : TurnServer) : Prop := st' = set_sent (sent st') st.

Section changes.
Context `{Platform}.

Lemma unchanged_refl st : unchanged st st.
Proof. by destruct st. Qed.
Lemma unchanged_send e st : unchanged st (send e st).
Proof. done. Qed.
Lemma Send_unchanged conn buf st st' : TurnServer_Send conn buf st = Some st' → unchanged st st'.
Proof. unfold TurnServer_Send. destruct (alive _ _); [|done]. by intros [= <-]. Qed.

(** An authenticated request: the proof that [CheckAuthorization] asks for. *)
Definition authenticated (msg : StunMessage) (data key : list Z) (now : Z) (st : TurnServer) : Prop :=
  IsStunRequestType (m_type msg) = true ∧ key ≠ [] ∧ ValidateMessageIntegrity data key = Some true ∧
  ∃ user nonce, GetByteString msg STUN_ATTR_USERNAME = Some user ∧ GetByteString msg STUN_ATTR_NONCE = Some nonce ∧
    ValidateNonce (nonce_key_ (config st)) nonce now = true.
(** The key of the allocation of the client, or what the hook gives for its user. *)
Definition key_for (conn : TurnConnection) (msg : StunMessage) (st : TurnServer) (key : list Z) : Prop :=
  ∃ allocation, FindAllocation conn st = Some allocation ∧
    match allocation with Some a => key_ <$> heap st !! a = Some key | None => (GetKey msg st).2 = key end.

Lemma refused_unchanged conn msg data key now st st' : CheckAuthorization conn msg data key now st = Some (false, st') → unchanged st st'.
Proof.
  unfold CheckAuthorization. set (refuse := λ r : option TurnServer, pair false <$> r).
  assert (∀ r, refuse r = Some (false, st') → r = Some st') as Hr by (intros [x|] E; [by injection E as ->|done]).
  destruct (GetByteString msg STUN_ATTR_MESSAGE_INTEGRITY); [|by intros E%Hr; eapply Send_unchanged].
  destruct (GetByteString msg STUN_ATTR_USERNAME); [|by intros E%Hr; eapply Send_unchanged].
  destruct (GetByteString msg STUN_ATTR_REALM); [|by intros E%Hr; eapply Send_unchanged].
  destruct (GetByteString msg STUN_ATTR_NONCE); [|by intros E%Hr; eapply Send_unchanged].
  destruct (negb (ValidateNonce _ _ _)); [by intros E%Hr; eapply Send_unchanged|].
  destruct (match key with [] => Some false | _ => _ end) as [v|]; [|done]. cbn [mbind option_bind].
  destruct (negb v); [by intros E%Hr; eapply Send_unchanged|]. destruct (FindAllocation conn st) as [[a|]|]; cbn [mbind option_bind]; try done.
  destruct (heap st !! a) as [al|]; cbn [mbind option_bind]; [|done]. destruct (_ && _); [by intros E%Hr; eapply Send_unchanged|done].
Qed.
Lemma accepted_authenticated conn msg data key now st st' : IsStunRequestType (m_type msg) = true →
  CheckAuthorization conn msg data key now st = Some (true, st') → authenticated msg data key now st.
Proof.
  intros Ht. unfold CheckAuthorization.
  assert (∀ r : option TurnServer, pair false <$> r = Some (true, st') → False) as Hr by (by intros [x|] E).
  destruct (GetByteString msg STUN_ATTR_MESSAGE_INTEGRITY); [|by intros []%Hr].
  destruct (GetByteString msg STUN_ATTR_USERNAME) as [user|] eqn:Eu; [|by intros []%Hr].
  destruct (GetByteString msg STUN_ATTR_REALM); [|by intros []%Hr].
  destruct (GetByteString msg STUN_ATTR_NONCE) as [nonce|] eqn:En; [|by intros []%Hr].
  destruct (ValidateNonce _ _ _) eqn:Ev; cbn [negb]; [|by intros []%Hr].
  destruct key as [|k0 key]; cbn [mbind option_bind negb]; [by intros []%Hr|].
  destruct (ValidateMessageIntegrity data (k0 :: key)) as [v|] eqn:Em; cbn [mbind option_bind]; [|done].
  destruct v; cbn [negb]; [|by intros []%Hr]. intros _. split_and!; try done. by exists user, nonce.
Qed.
(** A message that is no request changes nothing. *)
Lemma indication_unchanged conn msg key allocation ext now st st' : IsStunRequestType (m_type msg) = false →
  handle_authorized conn msg key allocation ext now st = Some st' → unchanged st st'.
Proof.
  intros Ht. unfold handle_authorized. rewrite Ht. destruct allocation as [a|].
  - destruct (heap st !! a) as [al|] eqn:E; [|done]. cbn [mbind option_bind]. destruct (_ || _); [|apply Send_unchanged].
    unfold HandleTurnMessage. cbn [switch].
    destruct (Z.eqb_spec (m_type msg) STUN_ALLOCATE_REQUEST) as [Et|_]; [by rewrite Et in Ht|].
    destruct (Z.eqb_spec (m_type msg) TURN_REFRESH_REQUEST) as [Et|_]; [by rewrite Et in Ht|].
    destruct (Z.eqb_spec (m_type msg) TURN_SEND_INDICATION) as [Et|_].
    { unfold HandleSendIndication. destruct (GetByteString msg STUN_ATTR_DATA); [|intros [= <-]; apply unchanged_refl].
      destruct (attr_address <$> _); [|intros [= <-]; apply unchanged_refl]. rewrite E. cbn [mbind option_bind].
      destruct (HasPermission _ _); intros [= <-]; [apply unchanged_send|apply unchanged_refl]. }
    destruct (Z.eqb_spec (m_type msg) TURN_CREATE_PERMISSION_REQUEST) as [Et|_]; [by rewrite Et in Ht|].
    destruct (Z.eqb_spec (m_type msg) TURN_CHANNEL_BIND_REQUEST) as [Et|_]; [by rewrite Et in Ht|].
    intros [= <-]. apply unchanged_refl.
  - destruct (Z.eqb_spec (m_type msg) STUN_ALLOCATE_REQUEST) as [Et|_]; [by rewrite Et in Ht|]. apply Send_unchanged.
Qed.
Lemma packet_changes s data addr ext now st st' : OnInternalPacket s data addr ext now st = Some st' →
  unchanged st st' ∨
  ∃ proto remote msg b key, server_sockets_ st !! s = Some proto ∧ sockets st !! s = Some remote ∧
    Read (StunMessage_new CTurn, ByteBuffer_of data ORDER_NETWORK) = (Some true, (msg, b)) ∧
    key_for (mkConn addr remote proto s) msg st key ∧ authenticated msg data key now st.
Proof.
  unfold OnInternalPacket. intros Hstep.
  assert (∀ x, Some x = Some st' → unchanged st x → unchanged st st') as Hsame by (by intros x [= ->]).
  destruct (_ <? _); [left; by eapply Hsame, unchanged_refl|].
  destruct (server_sockets_ st !! s) as [proto|]; [|done]. destruct (sockets st !! s) as [remote|]; [|done]. cbn [mbind option_bind] in Hstep.
  set (conn := mkConn addr remote proto s) in *. destruct (negb _).
  - unfold HandleStunMessage in Hstep. destruct (Read _) as [[[]|] [msg b]] eqn:Erd; try (left; by eapply Hsame, unchanged_refl).
    destruct (_ <? _); [left; by eapply Hsame, unchanged_refl|].
    destruct (_ =? _); [left; by eapply Send_unchanged|].
    assert (unchanged st st' ∨ handle_message conn msg data ext now st = Some st') as [?|Hmsg]; [|by left|].
    { destruct (match redirect_hook_ (config st) with Some hook => _ | None => _ end) as [[[] address]|]; auto.
      left. by eapply Send_unchanged. }
    clear Hstep. unfold handle_message in Hmsg.
    destruct (FindAllocation conn st) as [allocation|] eqn:Ef; [|done]. cbn [mbind option_bind] in Hmsg.
    destruct (match allocation with None => _ | Some a => _ end) as [key|] eqn:Ek; [|done]. cbn [mbind option_bind] in Hmsg.
    assert (key_for conn msg st key) as Hkey by (exists allocation; split; [done|]; destruct allocation; [done|by injection Ek]).
    destruct (IsStunRequestType (m_type msg)) eqn:Et; cbn [mbind option_bind] in Hmsg; [|left; by eapply indication_unchanged].
    destruct (CheckAuthorization conn msg data key now st) as [[ok st1]|] eqn:Ec; [|done]. cbn [mbind option_bind] in Hmsg.
    destruct ok; [|left; apply refused_unchanged in Ec; by eapply Hsame].
    right. exists proto, remote, msg, b, key. split_and!; try done. by eapply accepted_authenticated.
  - left. destruct (FindAllocation conn st) as [[a|]|]; cbn [mbind option_bind] in Hstep; [|by eapply Hsame, unchanged_refl|done].
    unfold HandleChannelData in Hstep. destruct (heap st !! a) as [al|]; [|done]. cbn [mbind option_bind] in Hstep.
    destruct (FindChannel_id _ _); [by eapply Hsame, unchanged_send|by eapply Hsame, unchanged_refl].
Qed.
End changes.

(** ** Messages that the server builds *)

(** A string that fits an attribute with room for others. *)
Definition short (s : list Z) : Prop := bytes_ok s ∧ zlen s < 1000.
Definition strings_ok (c : TurnConfig) : Prop := bytes_ok (nonce_key_ c) ∧ short (realm_ c) ∧ short (software_ c).
Definition software_attrs (c : TurnConfig) : list StunAttribute :=
  match software_ c with [] => [] | s => [ByteStringAttr STUN_ATTR_SOFTWARE (zlen s) s] end.

Section messages.
Context `{Platform}.

Lemma string_attr type s : short s → StunByteStringAttribute type s = ByteStringAttr type (zlen s) s.
Proof.
  intros [_ Hl]. unfold StunByteStringAttribute, CopyBytes. pose proof (zlen_nonneg s). rewrite u16_id by (unfold is_u16; lia). done.
Qed.
Lemma string_fits c tid type s : short s → is_u16 type → GetAttributeValueType c type = STUN_VALUE_BYTE_STRING →
  fits c tid (ByteStringAttr type (zlen s) s).
Proof.
  intros [Hs Hl] Ht Hv. pose proof (zlen_nonneg s). split; [|done]. split; [done|]. split; [cbn; unfold is_u16; lia|by split].
Qed.
Lemma string_size type s : short s → attrs_size [ByteStringAttr type (zlen s) s] < 1008.
Proof. intros [_ Hl]. pose proof (pad4_range (zlen s)). cbn. unfold padded. lia. Qed.
Lemma software_fits cfg tid : strings_ok cfg → Forall (fits CTurn tid) (software_attrs cfg).
Proof.
  intros (_ & _ & Hs). unfold software_attrs. destruct (software_ cfg) as [|c0 s] eqn:E; [constructor|].
  apply Forall_cons_2, Forall_nil_2. by apply string_fits.
Qed.
Lemma software_size cfg : strings_ok cfg → attrs_size (software_attrs cfg) < 1008.
Proof. intros (_ & _ & Hs). unfold software_attrs. destruct (software_ cfg) as [|c0 s]; [done|]. by apply string_size. Qed.

(** What [SendStun] puts on the wire. *)
Lemma SendStun_built conn type tid l st : 0 ≤ type < 32768 → tid_ok tid → strings_ok (config st) → Forall (fits CTurn tid) l → attrs_size l < 60000 →
  let m := built CTurn type tid (l ++ software_attrs (config st)) in
  SendStun conn (built CTurn type tid l) st = TurnServer_Send conn (msg_wire m) st ∧ msg_ok m.
Proof.
  intros Htype Htid Hstr Hl Hs m. pose proof (software_fits (config st) tid Hstr) as Hf. pose proof (software_size _ Hstr) as Hfs.
  assert (Forall (fits CTurn tid) (l ++ software_attrs (config st))) as Hall by (by apply Forall_app).
  assert (attrs_size (l ++ software_attrs (config st)) < 65536) as Hsize by (rewrite attrs_size_app; lia).
  assert (msg_ok m) as Hm by (by apply built_tid_ok). split; [|done].
  assert (match software_ (config st) with [] => built CTurn type tid l
          | software => add (StunByteStringAttribute STUN_ATTR_SOFTWARE software) (built CTurn type tid l) end = m) as Em.
  { unfold m, software_attrs in *. destruct (software_ (config st)) as [|c0 s] eqn:E; [by rewrite app_nil_r|].
    rewrite string_attr by (rewrite <- E; apply Hstr). apply Forall_app in Hall as [_ Ha%Forall_cons_1]. apply add_built; [done|apply Ha|done]. }
  unfold SendStun. rewrite Em. destruct (msg_ok_id m Hm) as [Hid _]. pose proof Hm as (_ & _ & _ & Ha & _).
  destruct (Write_new m Hid Ha) as (b & -> & (_ & _ & HD)). cbn [snd]. by rewrite HD.
Qed.

(** A packet of a message that is not a binding request, from a client that is not redirected. *)
Lemma packet_message m s addr ext now ops st : inv_after ops st → is_Some (server_sockets_ st !! s) → ip_ok (ip_ addr) →
  msg_ok m → m_class m = CTurn → m_type m < 16384 → m_type m ≠ STUN_BINDING_REQUEST →
  (m_type m = STUN_ALLOCATE_REQUEST → match redirect_hook_ (config st) with Some hook => (hook addr).1 = false | None => True end) →
  turn_step (TPacket s (msg_wire m) addr ext now) st = handle_message (mkConn addr SocketAddress_Clear PROTO_UDP s) m (msg_wire m) ext now st.
Proof.
  intros Hi [p Hs] Ha Hm Hc Ht Hb Hal. cbn [turn_step]. rewrite (inv_alive _ _ s p st Hi Hs). unfold OnInternalPacket.
  pose proof Hm as ([Htype0 Htype1] & _). destruct (msg_ok_id m Hm) as [_ Hid].
  rewrite (proj2 (Z.ltb_ge _ _)).
  2: { unfold msg_wire. rewrite !zlen_app, !zlen_be_encode. pose proof (zlen_nonneg (header_id (m_transaction_id m))).
       pose proof (zlen_nonneg (concat (attr_wire (m_transaction_id m) <$> m_attrs m))). unfold TURN_CHANNEL_HEADER_SIZE. lia. }
  destruct (ti_sockets _ _ _ Hi s p Hs) as (-> & _ & Er). rewrite Hs, Er. cbn [mbind option_bind].
  assert (GetBE16 (msg_wire m) 0 = m_type m) as -> by (apply (GetBE16_word []); [unfold is_u16; lia|done]).
  assert (IsTurnChannelData (m_type m) = false) as ->.
  { unfold IsTurnChannelData. apply Z.eqb_neq. intros E. assert (Z.testbit (Z.land (m_type m) 49152) 14 = false) as Hbit; [|by rewrite E in Hbit].
    rewrite Z.land_spec. assert (Z.testbit (m_type m) 14 = false) as -> by (apply (bounded_bits (m_type m) 14); lia). done. }
  cbn [negb]. unfold HandleStunMessage. destruct (read_wire_packet m Hm) as (b & Erd & Hl). rewrite Hc in Erd. rewrite Erd, Hl. cbn [Z.ltb Z.compare].
  rewrite (proj2 (Z.eqb_neq _ _) Hb). destruct (redirect_hook_ (config st)) as [hook|]; [|done].
  destruct (Z.eqb_spec (m_type m) STUN_ALLOCATE_REQUEST) as [Et|]; [|done]. specialize (Hal Et). cbn [src_].
  destruct (hook addr) as [[] address]; done.
Qed.
End messages.

(** ** Two servers that answer each other *)

Section loops.
Context `{Platform}.

(** A packet is delivered to a server from the address of the other one, and what it
    sends there is delivered in turn, at each of the times; the packet on its way. *)
Fixpoint bounce (times : list Z) (me other : TurnServer) (my_socket other_socket : Z) (my_addr other_addr : SocketAddress)
    (packet : list Z) : option (list Z) :=
  match times with
  | [] => Some packet
  | now :: times =>
      me' ← turn_step (TPacket my_socket packet other_addr None now) me;
      match zdrop (zlen (sent me)) (sent me') with
      | [ToClient s to reply] =>
          if (s =? my_socket) && bool_decide (to = other_addr)
          then bounce times other me' other_socket my_socket other_addr my_addr reply else None
      | _ => None
      end
  end.

(** A server without an allocation for the address. *)
Definition stranger (addr : SocketAddress) (s : Z) (st : TurnServer) : Prop :=
  (∃ ops, inv_after ops st) ∧ is_Some (server_sockets_ st !! s) ∧ ip_ok (ip_ addr) ∧ strings_ok (config st) ∧
  find (from addr) (allocations_ st) = None.
Lemma stranger_send e addr s st : stranger addr s st → stranger addr s (send e st).
Proof. intros ((ops & Hi) & Hrest). split; [exists ops; by apply inv_send|done]. Qed.

Lemma blank_tid : tid_ok EMPTY_TRANSACTION_ID.
Proof. split; [by apply bytes_okb|]. right. split; [done|]. by vm_compute. Qed.
(** The message of type 0 that answers what is no request. *)
Definition blank (attrs : list StunAttribute) : StunMessage := built CTurn 0 EMPTY_TRANSACTION_ID attrs.
Lemma blank_ok cfg : strings_ok cfg → msg_ok (blank (software_attrs cfg)).
Proof.
  intros Hs. pose proof (software_size cfg Hs). apply built_tid_ok; [lia|apply blank_tid|by apply software_fits|lia].
Qed.

Lemma answer_response m addr s now st : stranger addr s st → msg_ok m → m_class m = CTurn → m_type m < 16384 →
  IsStunRequestType (m_type m) = false →
  turn_step (TPacket s (msg_wire m) addr None now) st =
    Some (send (ToClient s addr (msg_wire (blank (software_attrs (config st))))) st).
Proof.
  intros ((ops & Hi) & Hs & Ha & Hstr & Hnone) Hm Hc Ht Hreq.
  rewrite (packet_message m s addr None now ops st) by (try done; intros E; by rewrite E in Hreq).
  unfold handle_message. set (conn := mkConn addr _ _ s). rewrite (inv_find _ _ conn st Hi) by done.
  change (src_ conn) with addr. rewrite Hnone.
  cbn [mbind option_bind fmap option_fmap option_map]. rewrite Hreq. cbn [mbind option_bind]. unfold handle_authorized.
  rewrite (proj2 (Z.eqb_neq (m_type m) STUN_ALLOCATE_REQUEST)) by (intros E; by rewrite E in Hreq).
  unfold TurnServer_SendErrorResponse, InitErrorResponse, GetStunErrorResponseType. rewrite Hreq. cbv zeta.
  change (-1 =? -1) with true. cbn [snd].
  destruct (SendStun_built conn 0 EMPTY_TRANSACTION_ID [] st) as [Es _]; [lia|apply blank_tid|done|constructor|done|].
  change (StunMessage_new CTurn) with (built CTurn 0 EMPTY_TRANSACTION_ID []). rewrite Es. unfold TurnServer_Send. change (socket_ conn) with s.
  destruct Hs as [p Hs]. by rewrite (inv_alive _ _ s p st Hi Hs).
Qed.

(** The challenge that answers a request without a message integrity attribute. *)
Definition challenge_attrs (cfg : TurnConfig) (now : Z) : list StunAttribute :=
  [StunErrorCodeAttribute STUN_ATTR_ERROR_CODE STUN_ERROR_UNAUTHORIZED STUN_ERROR_REASON_UNAUTHORIZED;
   ByteStringAttr STUN_ATTR_NONCE kNonceSize (GenerateNonce (nonce_key_ cfg) now);
   ByteStringAttr STUN_ATTR_REALM (zlen (realm_ cfg)) (realm_ cfg)].
Lemma challenge_fits cfg now tid : strings_ok cfg → Forall (fits CTurn tid) (challenge_attrs cfg now) ∧
  attrs_size (challenge_attrs cfg now) < 2000.
Proof.
  intros (Hk & Hr & _). destruct (nonce_lengths (nonce_key_ cfg) now Hk) as (_ & Hnl & Hnok).
  assert (short (GenerateNonce (nonce_key_ cfg) now)) as Hn by (split; [done|rewrite Hnl; done]). split.
  - repeat apply Forall_cons_2; [| | |apply Forall_nil_2].
    + split; [|done]. split; [done|]. split; [done|]. split; [done|]. split; [apply text_ok|done].
    + rewrite <- Hnl. by apply string_fits.
    + by apply string_fits.
  - pose proof (string_size STUN_ATTR_REALM (realm_ cfg) Hr) as Hz. unfold challenge_attrs.
    change (?a :: ?b :: [?c]) with ([a; b] ++ [c]). rewrite attrs_size_app.
    change (attrs_size [_; _]) with 64. lia.
Qed.
Definition challenge (type : Z) (tid : list Z) (cfg : TurnConfig) (now : Z) : StunMessage :=
  built CTurn (Z.lor type 272) tid (challenge_attrs cfg now ++ software_attrs cfg).
Lemma error_type t : 0 ≤ t < 16384 → 0 ≤ Z.lor t 272 < 32768.
Proof.
  intros Ht. split; [apply Z.lor_nonneg; lia|]. change 32768 with (2 ^ 15). apply Z.log2_lt_cancel. rewrite Z.log2_lor by lia.
  change (Z.log2 (2 ^ 15)) with 15. apply Z.max_lub_lt; [|done]. destruct (decide (t = 0)) as [->|]; [done|]. apply Z.log2_lt_pow2; lia.
Qed.
Lemma challenge_message m cfg now : IsStunRequestType (m_type m) = true → 0 ≤ m_type m < 16384 → tid_ok (m_transaction_id m) → strings_ok cfg →
  add (StunByteStringAttribute STUN_ATTR_REALM (realm_ cfg)) (add (StunByteStringAttribute STUN_ATTR_NONCE (GenerateNonce (nonce_key_ cfg) now))
    (InitErrorResponse m STUN_ERROR_UNAUTHORIZED STUN_ERROR_REASON_UNAUTHORIZED (StunMessage_new CTurn)).2) =
  built CTurn (Z.lor (m_type m) 272) (m_transaction_id m) (challenge_attrs cfg now).
Proof.
  intros Ht Hr Htid Hstr. destruct (challenge_fits cfg now (m_transaction_id m) Hstr) as [Hf Hsz]. destruct Hstr as (Hk & Hre & _).
  destruct (nonce_lengths (nonce_key_ cfg) now Hk) as (_ & Hnl & Hnok).
  rewrite (string_attr STUN_ATTR_REALM) by done. rewrite (string_attr STUN_ATTR_NONCE) by (split; [done|rewrite Hnl; done]). rewrite Hnl.
  unfold InitErrorResponse, GetStunErrorResponseType. rewrite Ht. pose proof (error_type _ Hr) as Her. rewrite (proj2 (Z.eqb_neq _ _)) by lia.
  assert ((SetTransactionID (SetType (StunMessage_new CTurn) (Z.lor (m_type m) 272)) (m_transaction_id m)).2 =
    built CTurn (Z.lor (m_type m) 272) (m_transaction_id m) []) as Eb.
  { unfold SetTransactionID, IsValidTransactionId, SetType, built. destruct Htid as [_ [E|[E _]]]; rewrite E; cbn; by rewrite u16_id by (unfold is_u16; lia). }
  cbn [snd]. rewrite Eb.
  pose proof (add_all CTurn (Z.lor (m_type m) 272) (m_transaction_id m) (challenge_attrs cfg now) [] Hf ltac:(cbn [app]; lia)) as Eall.
  cbn [app] in Eall. rewrite <- Eall. done.
Qed.
Lemma challenged m addr s ext now st : stranger addr s st → msg_ok m → m_class m = CTurn → m_type m < 16384 →
  IsStunRequestType (m_type m) = true → m_type m ≠ STUN_BINDING_REQUEST →
  (m_type m = STUN_ALLOCATE_REQUEST → match redirect_hook_ (config st) with Some hook => (hook addr).1 = false | None => True end) →
  GetByteString m STUN_ATTR_MESSAGE_INTEGRITY = None →
  let m' := challenge (m_type m) (m_transaction_id m) (config st) now in
  turn_step (TPacket s (msg_wire m) addr ext now) st = Some (send (ToClient s addr (msg_wire m')) st) ∧ msg_ok m'.
Proof.
  intros ((ops & Hi) & Hs & Ha & Hstr & Hnone) Hm Hc Ht Hreq Hb Hal Hmi m'. pose proof Hm as ([Htype0 _] & Htok & Htl & _).
  assert (tid_ok (m_transaction_id m)) as Htid by (by split).
  destruct (challenge_fits (config st) now (m_transaction_id m) Hstr) as [Hf Hsz]. set (conn := mkConn addr SocketAddress_Clear PROTO_UDP s).
  pose proof (error_type (m_type m) ltac:(lia)).
  destruct (SendStun_built conn (Z.lor (m_type m) 272) (m_transaction_id m) (challenge_attrs (config st) now) st) as [Es Hm']; [done|done|done|done|lia|].
  split; [|done]. rewrite (packet_message m s addr ext now ops st) by done. fold conn. unfold handle_message.
  rewrite (inv_find _ _ conn st Hi) by done. change (src_ conn) with addr. rewrite Hnone. cbn [mbind option_bind fmap option_fmap option_map].
  rewrite Hreq. unfold CheckAuthorization. rewrite Hmi. unfold SendErrorResponseWithRealmAndNonce. rewrite challenge_message by (done || lia).
  rewrite Es. unfold TurnServer_Send. change (socket_ conn) with s. destruct Hs as [p Hs]. rewrite (inv_alive _ _ s p st Hi Hs). done.
Qed.
Lemma answer_blank cfg addr s now st : stranger addr s st → strings_ok cfg →
  ∃ m, msg_ok m ∧ m_class m = CTurn ∧ m_type m = 272 ∧
    turn_step (TPacket s (msg_wire (blank (software_attrs cfg))) addr None now) st = Some (send (ToClient s addr (msg_wire m)) st).
Proof.
  intros Hst Hcfg. destruct (challenged (blank (software_attrs cfg)) addr s None now st) as [E Hm]; [done|by apply blank_ok|done|done|done|done|done| |].
  - unfold blank, software_attrs, GetByteString, GetAttribute. by destruct (software_ cfg).
  - eexists. split; [exact Hm|]. by split.
Qed.

(** What never stops: a response, or the answer of a server to one. *)
Definition restless (packet : list Z) : Prop :=
  (∃ m, packet = msg_wire m ∧ msg_ok m ∧ m_class m = CTurn ∧ m_type m < 16384 ∧ IsStunRequestType (m_type m) = false) ∨
  (∃ cfg, packet = msg_wire (blank (software_attrs cfg)) ∧ strings_ok cfg).
Lemma bounce_restless times : ∀ me other s s' a a' packet,
  stranger a' s me → stranger a s' other → restless packet → is_Some (bounce times me other s s' a a' packet).
Proof.
  induction times as [|now times IH]; intros me other s s' a a' packet Hme Hother Hp; cbn [bounce]; [by eexists|].
  assert (∃ reply, turn_step (TPacket s packet a' None now) me = Some (send (ToClient s a' reply) me) ∧ restless reply) as (reply & -> & Hr).
  { destruct Hp as [(m & -> & Hm & Hc & Ht & Hreq)|(cfg & -> & Hcfg)].
    - eexists. split; [by apply answer_response|]. right. exists (config me). split; [done|apply Hme].
    - destruct (answer_blank cfg a' s now me Hme Hcfg) as (m & Hm & Hc & Ht & E). exists (msg_wire m). split; [done|]. left.
      exists m. split_and!; try done; by rewrite Ht. }
  cbn [mbind option_bind sent send]. rewrite zdrop_app_exact by done. rewrite Z.eqb_refl, bool_decide_eq_true_2 by done. cbn [andb].
  apply IH; [done|by apply stranger_send|done].
Qed.
End loops.

(** ** Properties *)

(** Nonces: a nonce of the server has 40 characters, and is accepted exactly while the time
    since it was made, as a signed difference of 32-bit clock readings, is below an hour;
    and what is accepted carries the HMAC, under the key of the server, of such a time. *)
Theorem turn_nonce `{Platform} nk : bytes_ok nk →
  (∀ t now, is_u32 t → zlen (GenerateNonce nk t) = kNonceSize ∧
     ValidateNonce nk (GenerateNonce nk t) now = (TimeDiff now t <? kNonceTimeout)) ∧
  (∀ nonce now, ValidateNonce nk nonce now = true →
     ∃ t, is_u32 t ∧ zdrop 8 nonce = zdrop 8 (GenerateNonce nk t) ∧ TimeDiff now t < kNonceTimeout).
Proof.
  intros Hk. split; [|intros; by apply nonce_genuine]. intros t now Ht. split; [by apply nonce_lengths|by apply nonce_accepted].
Qed.
Lemma turn_nonce_witness :
  let p := zero_platform in
  ValidateNonce turn_nonce_key (GenerateNonce turn_nonce_key 1000) 3600999 = true ∧
  ValidateNonce turn_nonce_key (GenerateNonce turn_nonce_key 1000) 3601000 = false.
Proof.
  intros p. destruct (turn_nonce turn_nonce_key (text_ok _)) as [Hn _].
  split; [rewrite (proj2 (Hn 1000 3600999 ltac:(done)))|rewrite (proj2 (Hn 1000 3601000 ltac:(done)))]; reflexivity.
Defined.
(** A nonce is good again 2^31 ms after it was made, for the rest of the 2^32 ms of the clock. *)
Lemma turn_nonce_revives `{Platform} nk t now : bytes_ok nk → is_u32 t → 2147483648 ≤ u32 (now - t) →
  ValidateNonce nk (GenerateNonce nk t) now = true.
Proof. intros Hk Ht Hold. rewrite nonce_accepted by done. apply Z.ltb_lt. unfold TimeDiff, kNonceTimeout. ulia. Qed.

(** C16. Only an authenticated request changes the state of the TURN server: if a packet of a client changes
    anything besides the list of sent packets, it is a request whose message integrity
    holds under the key of the client's allocation, or under the key that the hook gives
    for its user if the client has no allocation, and whose nonce is accepted.  A packet
    of a peer changes nothing. *)
Theorem turn_changes_authenticated `{Platform} o st st' : turn_step o st = Some st' →
  match o with
  | TPacket s data addr ext now =>
      unchanged st st' ∨
      ∃ proto remote msg b key, server_sockets_ st !! s = Some proto ∧ sockets st !! s = Some remote ∧
        Read (StunMessage_new CTurn, ByteBuffer_of data ORDER_NETWORK) = (Some true, (msg, b)) ∧
        key_for (mkConn addr remote proto s) msg st key ∧ authenticated msg data key now st
  | TPeer _ _ _ _ => unchanged st st'
  | _ => True
  end.
Proof.
  destruct o as [| | | | |s data addr ext now|a data addr random|]; try done; cbn [turn_step].
  - destruct (alive s st); [|intros [= <-]; left; apply unchanged_refl]. intros Hstep.
    exact (packet_changes s data addr ext now st st' Hstep).
  - destruct (heap st !! a) as [al|] eqn:E; [|intros [= <-]; apply unchanged_refl]. unfold OnExternalPacket. rewrite E. cbn [mbind option_bind].
    destruct (FindChannel_peer addr al); [apply Send_unchanged|].
    destruct (HasPermission _ _); [apply Send_unchanged|intros [= <-]; apply unchanged_refl].
Qed.

(** The request of the sample that allocates. *)
Definition allocate_op `{Platform} : turn_op :=
  TPacket 7 (turn_request STUN_ALLOCATE_REQUEST 1000 [StunUInt32Attribute STUN_ATTR_REQUESTED_TRANSPORT 285212672])
    turn_client (Some turn_relay) 2000.
Lemma turn_changes_authenticated_witness :
  let p := zero_platform in
  let start := set_server_sockets <[7 := PROTO_UDP]> (set_sockets <[7 := SocketAddress_Clear]> (set_config turn_config (TurnServer_new turn_nonce_key))) in
  ∃ st msg data key, turn_step allocate_op start = Some st ∧ is_Some (heap st !! 1) ∧ authenticated msg data key 2000 start.
Proof.
  intros p start.
  assert (match turn_step allocate_op start with Some st => next_addr st = 2 ∧ bool_decide (is_Some (heap st !! 1)) = true | None => False end) as Hv
    by (vm_compute; split; reflexivity).
  destruct (turn_step allocate_op start) as [st|] eqn:Es; [|destruct Hv]. destruct Hv as [Hn Hh].
  destruct (turn_changes_authenticated allocate_op start st Es) as [Hu|(proto & remote & msg & b & key & _ & _ & _ & _ & Ha)].
  - apply (f_equal next_addr) in Hu. rewrite Hn in Hu. discriminate Hu.
  - eexists st, msg, _, key. split; [reflexivity|]. split; [exact (proj1 (bool_decide_eq_true _) Hh)|exact Ha].
Defined.

(** Two TURN servers can be made to talk to each other without end: the server answers every
    message that is no request and belongs to no allocation, such as an indication or a
    response, with an error response; as the message has no request type, the answer has
    the type 0, which is a request type, and a server answers it with an error response.
    So after one such message that seems to come from the address of another server,
    there is a packet on its way between the two after any number of deliveries. *)
Theorem turn_servers_loop `{Platform} nkA opsA sa nkB opsB sb s s' a a' m times :
  turn_ops_ok opsA (TurnServer_new nkA) → turn_run opsA (TurnServer_new nkA) = Some sa → strings_ok (config sa) →
  turn_ops_ok opsB (TurnServer_new nkB) → turn_run opsB (TurnServer_new nkB) = Some sb → strings_ok (config sb) →
  is_Some (server_sockets_ sa !! s) → is_Some (server_sockets_ sb !! s') → ip_ok (ip_ a) → ip_ok (ip_ a') →
  find (from a') (allocations_ sa) = None → find (from a) (allocations_ sb) = None →
  msg_ok m → m_class m = CTurn → m_type m < 16384 → IsStunRequestType (m_type m) = false →
  is_Some (bounce times sa sb s s' a a' (msg_wire m)).
Proof.
  intros HoA EA HcA HoB EB HcB Hs Hs' Ha Ha' HfA HfB Hm Hc Ht Hreq.
  destruct (run_inv opsA [] (TurnServer_new nkA)) as (st & E & HiA); [apply turn_new_inv|done|]. simplify_eq.
  destruct (run_inv opsB [] (TurnServer_new nkB)) as (st & E & HiB); [apply turn_new_inv|done|]. simplify_eq.
  apply bounce_restless.
  - exact (conj (ex_intro _ opsA HiA) (conj Hs (conj Ha' (conj HcA HfA)))).
  - exact (conj (ex_intro _ opsB HiB) (conj Hs' (conj Ha (conj HcB HfB)))).
  - left. by exists m.
Qed.

Definition loop_ops : list turn_op := [TConfigure turn_config; TAddSocket 7 PROTO_UDP SocketAddress_Clear].
Lemma turn_config_strings : strings_ok turn_config.
Proof. repeat split; try apply text_ok; by vm_compute. Qed.
Lemma turn_servers_loop_witness :
  let p := zero_platform in
  ∃ st, turn_run loop_ops (TurnServer_new turn_nonce_key) = Some st ∧
    is_Some (bounce [1; 2; 3; 4; 5] st st 7 7 turn_client turn_relay (msg_wire (built CTurn TURN_SEND_INDICATION sample_tid []))).
Proof.
  intros p. set (st0 := set_config turn_config (TurnServer_new turn_nonce_key)).
  assert (turn_ops_ok loop_ops (TurnServer_new turn_nonce_key)) as Ho by (apply (sample_ops_ok [TAddSocket 7 PROTO_UDP SocketAddress_Clear]); reflexivity).
  eexists. split; [reflexivity|].
  assert (ip_ok (ip_ turn_client) ∧ ip_ok (ip_ turn_relay)) as [Hc Hr] by (split; apply ip_okb_ok; reflexivity).
  apply (turn_servers_loop turn_nonce_key loop_ops _ turn_nonce_key loop_ops); try done; try apply turn_config_strings; try (by eexists).
  apply built_ok; [done|split; [small_bytes|done]|by apply Forall_nil_2|done].
Defined.
