(* ===== verification/TurnRelay.v ===== *)
(** * What the TURN server does for its clients

    An allocation from the request of the client to the response that the client reads,
    and the way of data over a channel in both directions. *)

From stdpp Require Import strings.
From S2P Require Import Prelude ByteOrder StringEncode ByteBuffer IpAddress Md5 MessageDigest Stun StunWire StunTyped StunIntegrity StunBuild TimeUtils MessageQueue TurnServer TurnSafe TurnSteps TurnRun TurnReact.

(** ** Getters on a message with its code *)

Lemma find_app {A} (f : A → bool) l k : find f (l ++ k) = match find f l with Some x => Some x | None => find f k end.
Proof. induction l as [|x l IH]; cbn; [done|]. by destruct (f x). Qed.
Lemma coded_other `{Platform} m key t : t ≠ STUN_ATTR_MESSAGE_INTEGRITY → GetAttribute (coded m key) t = GetAttribute m t.
Proof.
  intros Ht. unfold GetAttribute. cbn [coded snoc_msg m_attrs]. rewrite find_app. destruct (find _ (m_attrs m)); [done|].
  cbn [find attr_type integrity_attr]. by rewrite (proj2 (Z.eqb_neq _ _) (not_eq_sym Ht)).
Qed.
Lemma coded_integrity `{Platform} m key : no_integrity m → GetAttribute (coded m key) STUN_ATTR_MESSAGE_INTEGRITY = Some (integrity_attr (message_code m key)).
Proof.
  intros Hno. unfold GetAttribute. cbn [coded snoc_msg m_attrs]. rewrite find_app.
  destruct (find _ (m_attrs m)) as [a|] eqn:E; [|done]. apply find_in in E as [Hin Et%Z.eqb_eq]. unfold no_integrity in Hno. rewrite Forall_forall in Hno.
  by destruct (Hno a Hin).
Qed.

Section allocate.
Context `{Platform}.

Lemma coded_built c type tid l key : coded (built c type tid l) key = built c type tid (l ++ [integrity_attr (message_code (built c type tid l) key)]).
Proof. unfold coded, snoc_msg, built. cbn. by rewrite attrs_size_snoc. Qed.

(** A message with its code and more attributes after it keeps the code valid. *)
Lemma coded_more_valid c type tid l key more : 0 ≤ type < 32768 → tid_ok tid → Forall (fits c tid) (l ++ more) →
  Forall (λ a, attr_type a ≠ STUN_ATTR_MESSAGE_INTEGRITY) l → bytes_ok key → attrs_size l + 24 + attrs_size more < 65536 →
  ValidateMessageIntegrity (msg_wire (built c type tid ((l ++ [integrity_attr (message_code (built c type tid l) key)]) ++ more))) key = Some true.
Proof.
  intros Ht Htid Hf Hno Hkey Hs. apply Forall_app in Hf as [Hfl Hfm]. pose proof (attrs_size_nonneg _ _ _ Hfm). pose proof (attrs_size_nonneg _ _ _ Hfl).
  set (m := built c type tid l). set (code := integrity_attr (message_code m key)).
  assert (msg_ok m) as Hm by (apply built_tid_ok; [done|done|done|lia]).
  assert (Forall (attr_ok tid) more) as Hmo by (eapply Forall_impl; [exact Hfm|]; by intros a []).
  destruct Htid as [Htok Hid]. destruct (attrs_wire_length tid more Htok Hmo) as [Hlen _].
  assert (msg_wire (built c type tid ((l ++ [code]) ++ more)) = header type (attrs_size l + 24 + zlen (concat (attr_wire tid <$> more))) tid ++
    concat (attr_wire tid <$> l) ++ attr_wire tid code ++ concat (attr_wire tid <$> more)) as ->.
  { unfold msg_wire, header. cbn [m_type m_length m_transaction_id m_attrs built]. rewrite !attrs_size_app, Hlen.
    rewrite !fmap_app, !concat_app. cbn [fmap list_fmap concat]. rewrite app_nil_r, <- !app_assoc. repeat f_equal. }
  apply (protected_valid m key (concat (attr_wire tid <$> more))); try done.
  - by apply attrs_wire_ok.
  - rewrite Hlen. apply attrs_size_mod.
  - cbn [m_length m built]. rewrite Hlen. lia.
Qed.

(** ** The response to an allocate request *)

Definition xor_attr (type : Z) (addr : SocketAddress) : StunAttribute := XorAddressAttr type (EnsureAddressLength addr) addr.
Lemma xor_fits type tid addr : id_ok tid → addr_ok addr → is_u16 type → GetAttributeValueType CTurn type = STUN_VALUE_XOR_ADDRESS →
  fits CTurn tid (xor_attr type addr) ∧ attrs_size [xor_attr type addr] ≤ 24.
Proof.
  intros [_ H12] Ha Ht Hv. pose proof Ha as (_ & _ & _ & Hf). split.
  - split; [|done]. split; [done|]. split; [|done]. cbn. unfold EnsureAddressLength, stun_family. by destruct (family_ (ip_ addr)).
  - cbn. unfold EnsureAddressLength, stun_family. by destruct (family_ (ip_ addr)).
Qed.
Definition allocate_attrs (addr relay : SocketAddress) (lifetime : Z) : list StunAttribute :=
  [xor_attr STUN_ATTR_XOR_MAPPED_ADDRESS addr; xor_attr STUN_ATTR_XOR_RELAYED_ADDRESS relay; UInt32Attr STUN_ATTR_LIFETIME 4 lifetime].
Lemma allocate_attrs_fit tid addr relay lifetime : id_ok tid → addr_ok addr → addr_ok relay → is_u32 lifetime →
  Forall (fits CTurn tid) (allocate_attrs addr relay lifetime) ∧ attrs_size (allocate_attrs addr relay lifetime) < 100.
Proof.
  intros Hid Ha Hr Hl. destruct (xor_fits STUN_ATTR_XOR_MAPPED_ADDRESS tid addr Hid Ha) as [F1 S1]; [done|done|].
  destruct (xor_fits STUN_ATTR_XOR_RELAYED_ADDRESS tid relay Hid Hr) as [F2 S2]; [done|done|]. split.
  - apply Forall_cons_2; [done|]. apply Forall_cons_2; [done|]. apply Forall_cons_2; [|apply Forall_nil_2]. by split.
  - change (allocate_attrs addr relay lifetime) with ([xor_attr STUN_ATTR_XOR_MAPPED_ADDRESS addr] ++
      [xor_attr STUN_ATTR_XOR_RELAYED_ADDRESS relay] ++ [UInt32Attr STUN_ATTR_LIFETIME 4 lifetime]).
    rewrite !attrs_size_app. change (attrs_size [UInt32Attr _ _ _]) with 8. lia.
Qed.
Lemma success_response req : IsStunRequestType (m_type req) = true → 0 ≤ m_type req < 16384 → id_ok (m_transaction_id req) →
  (InitResponse req (StunMessage_new CTurn)).2 = built CTurn (Z.lor (m_type req) 256) (m_transaction_id req) [] ∧
  0 ≤ Z.lor (m_type req) 256 < 32768.
Proof.
  intros Ht Hr [_ Hl]. assert (0 ≤ Z.lor (m_type req) 256 < 32768) as Hrange.
  { split; [apply Z.lor_nonneg; lia|]. change 32768 with (2 ^ 15). apply Z.log2_lt_cancel. rewrite Z.log2_lor by lia.
    change (Z.log2 (2 ^ 15)) with 15. apply Z.max_lub_lt; [|done]. destruct (decide (m_type req = 0)) as [->|]; [done|].
    apply Z.log2_lt_pow2; lia. }
  split; [|done]. unfold InitResponse, GetStunSuccessResponseType. rewrite Ht.
  rewrite (proj2 (Z.eqb_neq _ _)) by lia. unfold SetTransactionID, IsValidTransactionId. cbn [snd]. rewrite Hl. cbn.
  unfold built. by rewrite u16_id by (unfold is_u16; lia).
Qed.

(** What a client does: a request of type [type] with attributes that it is authorized
    by, protected by the key. *)
Record request_ok (type : Z) (tid : list Z) (attrs : list StunAttribute) (key user nonce : list Z) : Prop := {
  rq_type : 0 ≤ type < 16384 ∧ IsStunRequestType type = true ∧ type ≠ STUN_BINDING_REQUEST;
  rq_id : id_ok tid;
  rq_fits : Forall (fits CTurn tid) attrs;
  rq_size : attrs_size attrs < 60000;
  rq_plain : Forall (λ a, attr_type a ≠ STUN_ATTR_MESSAGE_INTEGRITY) attrs;
  rq_key : key ≠ [] ∧ bytes_ok key;
  rq_user : GetByteString (built CTurn type tid attrs) STUN_ATTR_USERNAME = Some user;
  rq_realm : is_Some (GetByteString (built CTurn type tid attrs) STUN_ATTR_REALM);
  rq_nonce : GetByteString (built CTurn type tid attrs) STUN_ATTR_NONCE = Some nonce
}.
Definition protected (type : Z) (tid : list Z) (attrs : list StunAttribute) (key : list Z) : StunMessage :=
  coded (built CTurn type tid attrs) key.
Lemma protected_facts type tid attrs key user nonce : request_ok type tid attrs key user nonce →
  msg_ok (protected type tid attrs key) ∧ ValidateMessageIntegrity (msg_wire (protected type tid attrs key)) key = Some true ∧
  (∀ t, t ≠ STUN_ATTR_MESSAGE_INTEGRITY → GetAttribute (protected type tid attrs key) t = GetAttribute (built CTurn type tid attrs) t) ∧
  is_Some (GetByteString (protected type tid attrs key) STUN_ATTR_MESSAGE_INTEGRITY).
Proof.
  intros []. set (m := built CTurn type tid attrs). assert (msg_ok m) as Hm.
  { apply built_ok; [lia|done|done|lia]. }
  split; [apply protected_msg_ok; [done|cbn; lia]|]. split; [apply coded_valid; [done|done|apply rq_key0|cbn; lia]|].
  split; [intros; by apply coded_other|]. unfold protected, GetByteString. rewrite coded_integrity by done. by eexists.
Qed.
(** The check of the authorization lets it pass, for a client without an allocation. *)
Lemma request_authorized type tid attrs key user nonce conn now st : request_ok type tid attrs key user nonce →
  ValidateNonce (nonce_key_ (config st)) nonce now = true → FindAllocation conn st = Some None →
  let m := protected type tid attrs key in
  CheckAuthorization conn m (msg_wire m) key now st = Some (true, st).
Proof.
  intros Hrq Hn Hf m. destruct (protected_facts _ _ _ _ _ _ Hrq) as (_ & Hv & Hget & [h Hmi]). destruct Hrq. unfold CheckAuthorization.
  fold m in Hmi, Hv, Hget. rewrite Hmi. unfold GetByteString. rewrite !Hget by done.
  fold (GetByteString (built CTurn type tid attrs) STUN_ATTR_USERNAME) (GetByteString (built CTurn type tid attrs) STUN_ATTR_REALM)
    (GetByteString (built CTurn type tid attrs) STUN_ATTR_NONCE).
  rewrite rq_user0, rq_nonce0. destruct rq_realm0 as [r ->]. rewrite Hn. cbn [negb]. destruct rq_key0 as [Hk0 _].
  destruct key as [|k0 key]; [done|]. rewrite Hv. cbn [mbind option_bind negb]. by rewrite Hf.
Qed.

(** The answer to a request of a client with an allocation: the attributes, their code
    under its key, and the name of the server's software. *)
Definition reply (type : Z) (tid : list Z) (l : list StunAttribute) (key : list Z) (cfg : TurnConfig) : StunMessage :=
  built CTurn type tid ((l ++ [integrity_attr (message_code (built CTurn type tid l) key)]) ++ software_attrs cfg).
Lemma reply_attribute type tid l key cfg t x : find (λ a, attr_type a =? t) l = Some x → GetAttribute (reply type tid l key cfg) t = Some x.
Proof. intros E. unfold GetAttribute, reply. cbn [m_attrs built]. by rewrite !find_app, E. Qed.
Lemma send_reply a al type tid l st ops : inv_after ops st → heap st !! a = Some al → strings_ok (config st) →
  0 ≤ type < 32768 → id_ok tid → Forall (fits CTurn tid) l → attrs_size l < 50000 →
  Forall (λ a, attr_type a ≠ STUN_ATTR_MESSAGE_INTEGRITY) l →
  let m := reply type tid l (key_ al) (config st) in
  Allocation_SendResponse a (built CTurn type tid l) st = Some (send (ToClient (socket_ (conn_ al)) (src_ (conn_ al)) (msg_wire m)) st) ∧
  msg_ok m ∧ ValidateMessageIntegrity (msg_wire m) (key_ al) = Some true.
Proof.
  intros Hi E Hstr Ht Hid Hf Hs Hno m. destruct (ti_placed _ _ _ Hi a al E) as [_ Hsock Hkey _].
  assert (msg_ok (built CTurn type tid l)) as Hm by (apply built_ok; [done|done|done|lia]).
  pose proof (software_fits (config st) tid Hstr) as Hsf. pose proof (software_size _ Hstr) as Hss.
  destruct (message_code_facts (built CTurn type tid l) (key_ al)) as [Hcl Hcok].
  assert (Forall (fits CTurn tid) (l ++ [integrity_attr (message_code (built CTurn type tid l) (key_ al))])) as Hfc.
  { apply Forall_app. split; [done|]. apply Forall_cons_2; [|apply Forall_nil_2]. split; [by apply integrity_attr_ok|apply integrity_attr_type]. }
  assert (attrs_size (l ++ [integrity_attr (message_code (built CTurn type tid l) (key_ al))]) = attrs_size l + 24) as Hsz
    by (by rewrite attrs_size_snoc).
  unfold Allocation_SendResponse. rewrite E. cbn [mbind option_bind].
  rewrite (AddMessageIntegrity_value _ _ Hm Hkey) by (cbn; lia). cbn [snd].
  change (snoc_msg _ _) with (coded (built CTurn type tid l) (key_ al)). rewrite coded_built.
  destruct (SendStun_built (conn_ al) type tid (l ++ [integrity_attr (message_code (built CTurn type tid l) (key_ al))]) st) as [-> Hmok];
    [done|by apply id_tid|done|done|lia|]. unfold TurnServer_Send. rewrite (inv_alive _ _ _ _ _ Hi Hsock).
  split; [done|]. split; [done|]. apply coded_more_valid; [done|by apply id_tid| |done|done|lia]. apply Forall_app. split; [done|done].
Qed.

(** The clients of a server that may allocate: the key of the user is the one that the
    hook gives for the user name. *)
Record can_allocate (st : TurnServer) (s : Z) (addr relay : SocketAddress) (user key : list Z) : Prop := {
  ca_socket : is_Some (server_sockets_ st !! s);
  ca_addr : addr_ok addr;
  ca_relay : addr_ok relay;
  ca_new : find (from addr) (allocations_ st) = None;
  ca_config : strings_ok (config st);
  ca_factory : external_socket_factory_ (config st) = true;
  ca_redirect : match redirect_hook_ (config st) with Some hook => (hook addr).1 = false | None => True end;
  ca_hook : match auth_hook_ (config st) with Some hook => (hook user (realm_ (config st))).2 = key | None => False end
}.
Definition created (s : Z) (addr relay : SocketAddress) (key : list Z) (st : TurnServer) : TurnServer :=
  let conn := mkConn addr SocketAddress_Clear PROTO_UDP s in
  set_allocations (allocations_ st ++ [(conn, next_addr st)]) (set_heap <[next_addr st := Allocation_new conn relay key]> (take_addr st)).
Lemma allocate_created ops st s addr relay user key nonce tid attrs v now : inv_after ops st → can_allocate st s addr relay user key →
  request_ok STUN_ALLOCATE_REQUEST tid attrs key user nonce → ValidateNonce (nonce_key_ (config st)) nonce now = true →
  GetUInt32 (built CTurn STUN_ALLOCATE_REQUEST tid attrs) STUN_ATTR_REQUESTED_TRANSPORT = Some v → Z.shiftr v 24 = IPPROTO_UDP →
  let m := protected STUN_ALLOCATE_REQUEST tid attrs key in
  turn_step (TPacket s (msg_wire m) addr (Some relay) now) st =
    Allocation_HandleAllocateRequest (next_addr st) m now (created s addr relay key st).
Proof.
  intros Hi [] Hrq Hn Hv Hudp m. destruct (protected_facts _ _ _ _ _ _ Hrq) as (Hm & _ & Hget & _).
  set (conn := mkConn addr SocketAddress_Clear PROTO_UDP s). assert (udp_conn conn) as Hc by (split_and!; [done|done|apply ca_addr0]).
  rewrite (packet_message m s addr (Some relay) now ops st); try done; [|apply ca_addr0]. fold conn.
  assert (FindAllocation conn st = Some None) as Hf by (rewrite (inv_find _ _ conn st Hi Hc); cbn [src_ conn]; by rewrite ca_new0).
  unfold handle_message. rewrite Hf. cbn [mbind option_bind].
  assert ((GetKey m st).2 = key) as ->.
  { unfold GetKey, GetByteString. rewrite Hget by done. fold (GetByteString (built CTurn STUN_ALLOCATE_REQUEST tid attrs) STUN_ATTR_USERNAME).
    rewrite (rq_user _ _ _ _ _ _ Hrq). by destruct (auth_hook_ (config st)). }
  change (IsStunRequestType (m_type m)) with true. cbn match.
  pose proof (request_authorized _ _ _ _ _ _ conn now st Hrq Hn Hf) as Hauth. cbv zeta in Hauth. fold m in Hauth. rewrite Hauth.
  cbn [mbind option_bind]. unfold handle_authorized. change (m_type m =? STUN_ALLOCATE_REQUEST) with true. cbn match.
  unfold TurnServer_HandleAllocateRequest, GetUInt32. rewrite Hget by done.
  fold (GetUInt32 (built CTurn STUN_ALLOCATE_REQUEST tid attrs) STUN_ATTR_REQUESTED_TRANSPORT).
  rewrite Hv, Hudp, Z.eqb_refl. cbn [negb]. unfold CreateAllocation, map_assign. rewrite ca_factory0. cbn match.
  cbn [allocations_ set_heap take_addr]. rewrite (udp_find conn) by (done || by eapply inv_udp_map). cbn [src_ conn]. rewrite ca_new0. done.
Qed.

(** The state after the request, but for what is sent. *)
Definition allocated (s : Z) (addr relay : SocketAddress) (key tid user : list Z) (lifetime now : Z) (st : TurnServer) : TurnServer :=
  set_queue (PostDelayed (lifetime * 1000) (next_addr st) MSG_ALLOCATION_TIMEOUT 0 now)
    (on_allocation (next_addr st) (set_identity tid user) (created s addr relay key st)).
Lemma allocated_inv ops s addr relay user key tid lifetime now st : inv_after ops st → can_allocate st s addr relay user key → bytes_ok key →
  let st' := allocated s addr relay key tid user lifetime now st in
  inv_after ops st' ∧
  heap st' !! next_addr st = Some (set_identity tid user (Allocation_new (mkConn addr SocketAddress_Clear PROTO_UDP s) relay key)).
Proof.
  intros Hi [] Hk. destruct ca_socket0 as [p Hs]. destruct (ti_sockets _ _ _ Hi s p Hs) as (-> & _ & _).
  set (conn := mkConn addr SocketAddress_Clear PROTO_UDP s). assert (udp_conn conn) as Hc by (split_and!; [done|done|apply ca_addr0]).
  pose proof (inv_create _ _ conn relay key st Hi Hc Hs Hk ca_new0) as Hcr. cbv zeta in Hcr. fold (created s addr relay key st) in Hcr.
  assert (heap (created s addr relay key st) !! next_addr st = Some (Allocation_new conn relay key)) as E
    by (cbn; by rewrite lookup_insert, decide_True).
  unfold allocated. rewrite (on_allocation_insert _ _ _ _ E). split; [|cbn; by rewrite lookup_insert, decide_True].
  apply (inv_touch _ _ _ _ _ _ _ Hcr E); try done.
  - intros Ht. apply timers_post; [done|by eapply live_self].
  - intros h t _ Hp. by apply pending_other_post.
Qed.
Lemma lifetime_range m : (∀ v, GetUInt32 m STUN_ATTR_LIFETIME = Some v → is_u32 v) → 0 ≤ ComputeLifetime m ≤ 600.
Proof.
  intros Hv. unfold ComputeLifetime. change (kDefaultAllocationTimeout / 1000) with 600. destruct (GetUInt32 m STUN_ATTR_LIFETIME) as [v|]; [|lia].
  specialize (Hv v eq_refl). unfold is_u32 in Hv. destruct (Z.ltb_spec v 600); lia.
Qed.
Lemma built_u32 c type tid l t v : Forall (fits c tid) l → GetUInt32 (built c type tid l) t = Some v → is_u32 v.
Proof.
  intros Hl. unfold GetUInt32, GetAttribute. cbn [m_attrs built]. destruct (find _ l) as [a|] eqn:E; [|done].
  apply find_in in E as [Hin _]. rewrite Forall_forall in Hl. destruct (Hl a Hin) as [(_ & _ & Hok) _].
  destruct a; try done. intros [= <-]. apply Hok.
Qed.
Lemma allocate_response tid addr relay lifetime req : id_ok tid → addr_ok addr → addr_ok relay → is_u32 lifetime →
  m_type req = STUN_ALLOCATE_REQUEST → m_transaction_id req = tid →
  add (StunUInt32Attribute STUN_ATTR_LIFETIME lifetime)
    (add (StunXorAddressAttribute STUN_ATTR_XOR_RELAYED_ADDRESS relay)
      (add (StunXorAddressAttribute STUN_ATTR_XOR_MAPPED_ADDRESS addr) (InitResponse req (StunMessage_new CTurn)).2)) =
  built CTurn STUN_ALLOCATE_RESPONSE tid (allocate_attrs addr relay lifetime).
Proof.
  intros Hid Ha Hr Hl Et Ei. destruct (success_response req) as [-> _]; [by rewrite Et|by rewrite Et|by rewrite Ei|]. rewrite Et, Ei.
  destruct (allocate_attrs_fit tid addr relay lifetime Hid Ha Hr Hl) as [Hf Hs].
  apply (add_all CTurn STUN_ALLOCATE_RESPONSE tid (allocate_attrs addr relay lifetime) []); [done|cbn [app]; lia].
Qed.
Lemma allocate_step ops st s addr relay user key nonce tid attrs v now : inv_after ops st → can_allocate st s addr relay user key →
  request_ok STUN_ALLOCATE_REQUEST tid attrs key user nonce → ValidateNonce (nonce_key_ (config st)) nonce now = true →
  GetUInt32 (built CTurn STUN_ALLOCATE_REQUEST tid attrs) STUN_ATTR_REQUESTED_TRANSPORT = Some v → Z.shiftr v 24 = IPPROTO_UDP →
  let lifetime := ComputeLifetime (built CTurn STUN_ALLOCATE_REQUEST tid attrs) in
  let m := reply STUN_ALLOCATE_RESPONSE tid (allocate_attrs addr relay lifetime) key (config st) in
  turn_step (TPacket s (msg_wire (protected STUN_ALLOCATE_REQUEST tid attrs key)) addr (Some relay) now) st =
    Some (send (ToClient s addr (msg_wire m)) (allocated s addr relay key tid user lifetime now st)) ∧
  msg_ok m ∧ ValidateMessageIntegrity (msg_wire m) key = Some true.
Proof.
  intros Hi Hca Hrq Hn Hv Hudp lifetime m. rewrite (allocate_created ops st s addr relay user key nonce tid attrs v now) by done.
  destruct (protected_facts _ _ _ _ _ _ Hrq) as (_ & _ & Hget & _). set (req := protected STUN_ALLOCATE_REQUEST tid attrs key) in *.
  pose proof Hca as []. destruct (rq_key _ _ _ _ _ _ Hrq) as [_ Hk].
  destruct (allocated_inv ops s addr relay user key tid lifetime now st Hi Hca Hk) as [Hi' E'].
  assert (is_u32 lifetime) as Hl.
  { pose proof (lifetime_range _ (λ v, built_u32 CTurn STUN_ALLOCATE_REQUEST tid attrs STUN_ATTR_LIFETIME v (rq_fits _ _ _ _ _ _ Hrq))). unfold is_u32, lifetime. lia. }
  unfold Allocation_HandleAllocateRequest, GetByteString. rewrite Hget by done.
  fold (GetByteString (built CTurn STUN_ALLOCATE_REQUEST tid attrs) STUN_ATTR_USERNAME). rewrite (rq_user _ _ _ _ _ _ Hrq). cbn [mbind option_bind].
  cbn [heap created set_allocations set_heap take_addr]. rewrite lookup_insert, decide_True by done. cbn [mbind option_bind src_ conn_ Allocation_new external_socket_].
  assert (ComputeLifetime req = lifetime) as -> by (unfold ComputeLifetime, GetUInt32; by rewrite Hget).
  rewrite (allocate_response tid addr relay lifetime) by (done || apply Hrq). change (m_transaction_id req) with tid.
  fold (allocated s addr relay key tid user lifetime now st).
  destruct (allocate_attrs_fit tid addr relay lifetime) as [Hf Hs]; [apply Hrq|done..|].
  exact (send_reply _ _ STUN_ALLOCATE_RESPONSE tid _ _ ops Hi' E' ca_config0 ltac:(done) (rq_id _ _ _ _ _ _ Hrq) Hf ltac:(lia) ltac:(by repeat constructor)).
Qed.
End allocate.

(** ** Data over an allocation *)

Section data.
Context `{Platform}.

Lemma find_unique {A} (f : A → bool) l x : x ∈ l → f x = true → (∀ y, y ∈ l → f y = true → y = x) → find f l = Some x.
Proof.
  intros Hx Hf Hu. destruct (find f l) as [y|] eqn:E.
  - apply find_in in E as [Hy Hfy]. by rewrite (Hu y Hy Hfy).
  - exfalso. apply find_not in E. rewrite Forall_forall in E. by rewrite (E x Hx) in Hf.
Qed.

(** The lookups find what an allocation of a reachable state owns. *)
Lemma channel_found ops st a al c : inv_after ops st → heap st !! a = Some al → c ∈ channels_ al →
  FindChannel_id (chan_id c) al = Some c ∧ FindChannel_peer (chan_peer c) al = Some c ∧
  kMinChannelNumber ≤ chan_id c ≤ kMaxChannelNumber ∧ plain (chan_peer c).
Proof.
  intros Hi E Hc. destruct (ti_own _ _ _ Hi a al E) as [_ _ _ Hcs _ Hid]. rewrite Forall_forall in Hcs.
  destruct (Hcs c Hc) as (Hr & Hp & _). split_and!; try apply Hr; try apply Hp.
  - apply find_unique; [done|by rewrite Z.eqb_refl|]. intros d Hd Ed%Z.eqb_eq. by destruct (ordpairs_in _ _ d c Hid Hd Hc) as [|[[]|[]]].
  - apply find_unique; [done|by apply plain_eqb|]. intros d Hd Ed. destruct (Hcs d Hd) as (_ & Hpd & _).
    destruct (ordpairs_in _ _ d c Hid Hd Hc) as [|[[_ Hn]|[_ Hn]]]; [done|congruence|].
    rewrite SocketAddress_eqb_sym in Hn by (apply Hp || apply Hpd). congruence.
Qed.
Lemma allocation_found ops st a al : inv_after ops st → heap st !! a = Some al →
  find (from (src_ (conn_ al))) (allocations_ st) = Some (conn_ al, a).
Proof.
  intros Hi E. destruct (ti_placed _ _ _ Hi a al E) as [(_ & _ & Hip) _ _ Hin]. pose proof (inv_udp_map _ _ _ Hi) as Hu. unfold udp_map in Hu. rewrite Forall_forall in Hu.
  apply find_unique; [done|by apply SocketAddress_eqb_spec|]. intros e He Hf. destruct (Hu e He) as (_ & _ & Hie).
  destruct (ordpairs_in _ _ e (conn_ al, a) (ti_keys _ _ _ Hi) He Hin) as [|[Hn|Hn]]; [done|unfold from in Hf; cbn in Hn; congruence|].
  cbn in Hn. rewrite SocketAddress_eqb_sym in Hn by done. unfold from in Hf. congruence.
Qed.
Lemma channel_bits id : kMinChannelNumber ≤ id ≤ kMaxChannelNumber → IsTurnChannelData id = true.
Proof.
  unfold kMinChannelNumber, kMaxChannelNumber, IsTurnChannelData. intros Hid. assert (0 ≤ id - 16384 < 2 ^ 14) as Hb by lia.
  replace id with (1 * 2 ^ 14 + (id - 16384)) by lia. rewrite <- lor_lanes, Z.land_lor_distr_l by done.
  assert (Z.land (id - 16384) 49152 = 0) as ->; [|done]. apply Z.bits_inj'. intros n Hn. rewrite Z.land_spec, Z.bits_0.
  destruct (Z.lt_ge_cases n 14); [|by rewrite (proj2 (proj1 (bounded_bits _ 14 ltac:(lia)) Hb)) by lia].
  change 49152 with (Z.shiftl 3 14). by rewrite Z.shiftl_spec_low, andb_false_r by lia.
Qed.

(** ChannelData: the number of the channel, the length and the data. *)
Definition channel_data (id : Z) (payload : list Z) : list Z := be_encode 2 id ++ be_encode 2 (zlen payload) ++ payload.
(** Both ends write it with the header first. *)
Lemma channel_data_written id payload : is_u16 id → bytes_ok payload → zlen payload < 65536 →
  Data (WriteBytes (WriteUInt16 (WriteUInt16 (ByteBuffer_new ORDER_NETWORK) (u16 id)) (u16 (zlen payload))) payload) = channel_data id payload.
Proof.
  intros Hid Hok Hl. pose proof (zlen_nonneg payload). rewrite !u16_id by (unfold is_u16 in *; lia).
  destruct (ByteBuffer_new_spec ORDER_NETWORK) as (Hn & HD & Ho). set (b0 := ByteBuffer_new ORDER_NETWORK) in *.
  pose proof (WriteUInt16_appends b0 id Hn) as (D1 & K1 & O1).
  pose proof (WriteUInt16_appends _ (zlen payload) K1) as (D2 & K2 & O2).
  pose proof (WriteBytes_appends _ payload K2 Hok) as (-> & _). rewrite D2, D1, HD, O1, Ho. by rewrite <- app_assoc.
Qed.
Lemma channel_to_peer ops st a al c payload s ext now : inv_after ops st → heap st !! a = Some al → c ∈ channels_ al →
  is_Some (server_sockets_ st !! s) →
  turn_step (TPacket s (channel_data (chan_id c) payload) (src_ (conn_ al)) ext now) st = Some (send (ToPeer a (chan_peer c) payload) st).
Proof.
  intros Hi E Hc [p Hs]. destruct (channel_found ops st a al c Hi E Hc) as (Hfi & _ & Hr & _).
  destruct (ti_sockets _ _ _ Hi s p Hs) as (-> & _ & Er). destruct (ti_placed _ _ _ Hi a al E) as [(_ & _ & Hip) _ _ _].
  cbn [turn_step]. rewrite (inv_alive _ _ s _ st Hi Hs). unfold OnInternalPacket. rewrite (proj2 (Z.ltb_ge _ _)).
  2: { unfold channel_data, TURN_CHANNEL_HEADER_SIZE. rewrite !zlen_app, !zlen_be_encode. pose proof (zlen_nonneg payload). lia. }
  rewrite Hs, Er. cbn [mbind option_bind].
  assert (GetBE16 (channel_data (chan_id c) payload) 0 = chan_id c) as Ebe
    by (apply (GetBE16_word []); [unfold is_u16, kMinChannelNumber, kMaxChannelNumber in *; lia|done]).
  rewrite Ebe, channel_bits by done. cbn [negb]. rewrite (inv_find _ _ _ st Hi) by done. cbn [src_].
  rewrite (allocation_found ops st a al Hi E). cbn [fmap option_fmap option_map snd mbind option_bind]. unfold HandleChannelData. rewrite E. cbn [mbind option_bind]. rewrite Ebe, Hfi.
  unfold channel_data, SendExternal. rewrite app_assoc. by rewrite zdrop_app_exact by (by rewrite zlen_app, !zlen_be_encode).
Qed.
Lemma peer_to_channel ops st a al c payload random : inv_after ops st → heap st !! a = Some al → c ∈ channels_ al → bytes_ok payload →
  zlen payload < 65536 →
  turn_step (TPeer a payload (chan_peer c) random) st =
    Some (send (ToClient (socket_ (conn_ al)) (src_ (conn_ al)) (channel_data (chan_id c) payload)) st).
Proof.
  intros Hi E Hc Hok Hl. destruct (channel_found ops st a al c Hi E Hc) as (_ & Hfp & Hr & _).
  destruct (ti_placed _ _ _ Hi a al E) as [_ Hs _ _]. cbn [turn_step]. rewrite E. unfold OnExternalPacket. rewrite E. cbn [mbind option_bind].
  rewrite Hfp. unfold TurnServer_Send. rewrite (inv_alive _ _ _ _ st Hi Hs). do 3 f_equal.
  apply channel_data_written; [|done|done]. unfold is_u16, kMinChannelNumber, kMaxChannelNumber in *. lia.
Qed.

(** A permission for a host, found in its list. *)
Lemma permission_found ops st a al p ip : inv_after ops st → heap st !! a = Some al → p ∈ perms_ al → perm_peer p = ip → HasPermission ip al = true.
Proof.
  intros Hi E Hp <-. unfold HasPermission. apply bool_decide_eq_true_2. destruct (FindPermission (perm_peer p) al) as [x|] eqn:Ef; [by eexists|].
  apply find_not in Ef. rewrite Forall_forall in Ef. specialize (Ef p Hp). pose proof (own_perms _ _ _ _ _ _ (ti_own _ _ _ Hi a al E)) as Hps.
  rewrite Forall_forall in Hps. destruct (Hps p Hp) as [Hok _]. by rewrite (proj2 (ip_eq_spec _ _ Hok Hok)) in Ef.
Qed.
Lemma indication_to_peer ops st a al p peer payload tid attrs s ext now : inv_after ops st → heap st !! a = Some al →
  p ∈ perms_ al → perm_peer p = ip_ peer → is_Some (server_sockets_ st !! s) →
  let m := built CTurn TURN_SEND_INDICATION tid attrs in
  id_ok tid → Forall (fits CTurn tid) attrs → attrs_size attrs < 65536 →
  GetByteString m STUN_ATTR_DATA = Some payload → attr_address <$> GetAddress m STUN_ATTR_XOR_PEER_ADDRESS = Some peer →
  turn_step (TPacket s (msg_wire m) (src_ (conn_ al)) ext now) st = Some (send (ToPeer a peer payload) st).
Proof.
  intros Hi E Hp Epeer Hs m Hid Hf Hsz Hd Ha. destruct (ti_placed _ _ _ Hi a al E) as [(_ & _ & Hip) _ _ _].
  assert (msg_ok m) as Hm by (by apply built_ok). rewrite (packet_message m s _ ext now ops st) by done.
  unfold handle_message. rewrite (inv_find _ _ _ st Hi) by done. cbn [src_]. rewrite (allocation_found ops st a al Hi E).
  cbn [fmap option_fmap option_map snd mbind option_bind]. rewrite E. cbn [mbind option_bind option_map].
  change (IsStunRequestType (m_type m)) with false. cbn match. cbn [mbind option_bind]. unfold handle_authorized. rewrite E. cbn [mbind option_bind].
  change (negb (m_type m =? STUN_ALLOCATE_REQUEST)) with true. cbn [orb]. change (IsStunRequestType (m_type m)) with false. cbn match. cbn [mbind option_bind].
  change (HandleTurnMessage a m now st) with (HandleSendIndication a m st). unfold HandleSendIndication. rewrite Hd, Ha, E.
  cbn [mbind option_bind]. by rewrite (permission_found ops st a al p (ip_ peer) Hi E Hp Epeer).
Qed.
Definition data_attrs (peer : SocketAddress) (payload : list Z) : list StunAttribute :=
  [xor_attr STUN_ATTR_XOR_PEER_ADDRESS peer; ByteStringAttr STUN_ATTR_DATA (zlen payload) payload].
Lemma data_attrs_fit tid peer payload : id_ok tid → addr_ok peer → bytes_ok payload → zlen payload < 59000 →
  Forall (fits CTurn tid) (data_attrs peer payload) ∧ attrs_size (data_attrs peer payload) < 60000.
Proof.
  intros Hid Hpeer Hok Hl. pose proof (zlen_nonneg payload).
  destruct (xor_fits STUN_ATTR_XOR_PEER_ADDRESS tid peer Hid Hpeer) as [F1 S1]; [done|done|]. split.
  - apply Forall_cons_2; [done|]. apply Forall_cons_2, Forall_nil_2. split; [|done]. split; [done|]. split; [cbn; unfold is_u16; lia|by split].
  - change (data_attrs peer payload) with ([xor_attr STUN_ATTR_XOR_PEER_ADDRESS peer] ++ [ByteStringAttr STUN_ATTR_DATA (zlen payload) payload]).
    rewrite attrs_size_app. pose proof (pad4_range (zlen payload)).
    assert (attrs_size [ByteStringAttr STUN_ATTR_DATA (zlen payload) payload] < zlen payload + 9) by (cbn; unfold padded; lia). lia.
Qed.
Lemma peer_to_indication ops st a al p peer payload random : inv_after ops st → heap st !! a = Some al → strings_ok (config st) →
  p ∈ perms_ al → perm_peer p = ip_ peer → FindChannel_peer peer al = None → addr_ok peer → id_ok random → bytes_ok payload → zlen payload < 59000 →
  let m := built CTurn TURN_DATA_INDICATION random (data_attrs peer payload ++ software_attrs (config st)) in
  turn_step (TPeer a payload peer random) st = Some (send (ToClient (socket_ (conn_ al)) (src_ (conn_ al)) (msg_wire m)) st) ∧ msg_ok m.
Proof.
  intros Hi E Hstr Hp Epeer Hnc Hpeer Hid Hok Hl m. destruct (ti_placed _ _ _ Hi a al E) as [_ Hs _ _]. pose proof (zlen_nonneg payload).
  cbn [turn_step]. rewrite E. unfold OnExternalPacket. rewrite E. cbn [mbind option_bind].
  rewrite Hnc, (permission_found ops st a al p (ip_ peer) Hi E Hp Epeer).
  destruct (data_attrs_fit random peer payload) as [Hf Hsz]; [done..|].
  assert (StunByteStringAttribute STUN_ATTR_DATA payload = ByteStringAttr STUN_ATTR_DATA (zlen payload) payload) as ->.
  { unfold StunByteStringAttribute, CopyBytes. by rewrite u16_id by (unfold is_u16; lia). }
  assert ((SetTransactionID (SetType (StunMessage_new CTurn) TURN_DATA_INDICATION) random).2 = built CTurn TURN_DATA_INDICATION random []) as ->.
  { unfold SetTransactionID, IsValidTransactionId. destruct Hid as [_ ->]. done. }
  pose proof (add_all CTurn TURN_DATA_INDICATION random (data_attrs peer payload) [] Hf ltac:(cbn [app]; lia)) as Eadd.
  cbn [fold_left data_attrs app] in Eadd. fold (data_attrs peer payload) in Eadd.
  change (StunXorAddressAttribute STUN_ATTR_XOR_PEER_ADDRESS peer) with (xor_attr STUN_ATTR_XOR_PEER_ADDRESS peer). rewrite Eadd.
  destruct (SendStun_built (conn_ al) TURN_DATA_INDICATION random (data_attrs peer payload) st) as [-> Hm]; [done|by apply id_tid|done|done|done|].
  split; [|done]. unfold TurnServer_Send. by rewrite (inv_alive _ _ _ _ st Hi Hs).
Qed.
End data.

(** ** Properties *)

(** C14. A client of a TURN server on UDP gets its allocation: to an allocate request
    with a user name that the server has a key for, a nonce of the server less than an
    hour old and a valid HMAC, from an address that has no allocation yet, the server
    sends one answer.  The client reads a success response with the transaction id of
    the request, protected with the same key, that names the address of the client, the
    relayed address, and the lifetime; the allocation then exists, with the key and the
    user name, no permissions and no channels, and a timer for its lifetime. *)
Theorem turn_allocates `{Platform} random ops st s addr relay user key t tid attrs v now :
  turn_ops_ok ops (TurnServer_new random) → turn_run ops (TurnServer_new random) = Some st →
  can_allocate st s addr relay user key →
  request_ok STUN_ALLOCATE_REQUEST tid attrs key user (GenerateNonce (nonce_key_ (config st)) t) → is_u32 t → TimeDiff now t < kNonceTimeout →
  let req := built CTurn STUN_ALLOCATE_REQUEST tid attrs in
  GetUInt32 req STUN_ATTR_REQUESTED_TRANSPORT = Some v → Z.shiftr v 24 = IPPROTO_UDP →
  ∃ st' packet m b al,
    turn_step (TPacket s (msg_wire (coded req key)) addr (Some relay) now) st = Some st' ∧ sent st' = sent st ++ [ToClient s addr packet] ∧
    Read (StunMessage_new CTurn, ByteBuffer_of packet ORDER_NETWORK) = (Some true, (m, b)) ∧ ValidateMessageIntegrity packet key = Some true ∧
    m_type m = STUN_ALLOCATE_RESPONSE ∧ m_transaction_id m = tid ∧
    attr_address <$> GetAddress m STUN_ATTR_XOR_MAPPED_ADDRESS = Some addr ∧
    attr_address <$> GetAddress m STUN_ATTR_XOR_RELAYED_ADDRESS = Some relay ∧ GetUInt32 m STUN_ATTR_LIFETIME = Some (ComputeLifetime req) ∧
    FindAllocation (mkConn addr SocketAddress_Clear PROTO_UDP s) st' = Some (Some (next_addr st)) ∧ heap st' !! next_addr st = Some al ∧
    (key_ al, username_ al, external_socket_ al, perms_ al, channels_ al) = (key, user, relay, [], []) ∧
    pending (next_addr st) (u32 (now + ComputeLifetime req * 1000)) (queue st').
Proof.
  intros Ho Erun Hca Hrq Hu32 Hage req Hv Hudp. destruct (run_inv ops [] (TurnServer_new random)) as (st1 & E1 & Hi); [apply turn_new_inv|done|].
  rewrite E1 in Erun. injection Erun as ->. cbn [app] in Hi. pose proof (ca_config _ _ _ _ _ _ Hca) as Hstr.
  assert (ValidateNonce (nonce_key_ (config st)) (GenerateNonce (nonce_key_ (config st)) t) now = true) as Hn.
  { rewrite nonce_accepted; [by apply Z.ltb_lt|apply Hstr|done]. }
  destruct (allocate_step ops st s addr relay user key _ tid attrs v now Hi Hca Hrq Hn Hv Hudp) as (Estep & Hm & Hval).
  destruct (allocated_inv ops s addr relay user key tid (ComputeLifetime req) now st Hi Hca (proj2 (rq_key _ _ _ _ _ _ Hrq))) as [Hi' E'].
  set (m := reply _ _ _ _ _) in *. destruct (read_wire_packet m Hm) as (b & Erd & _).
  eexists _, (msg_wire m), m, b, _. split; [exact Estep|]. split; [done|]. split; [exact Erd|]. split; [exact Hval|]. split; [done|]. split; [done|].
  split; [change (GetAddress m STUN_ATTR_XOR_MAPPED_ADDRESS) with (GetAttribute m STUN_ATTR_XOR_MAPPED_ADDRESS); unfold m; erewrite reply_attribute by reflexivity; done|].
  split; [change (GetAddress m STUN_ATTR_XOR_RELAYED_ADDRESS) with (GetAttribute m STUN_ATTR_XOR_RELAYED_ADDRESS); unfold m; erewrite reply_attribute by reflexivity; done|].
  split; [unfold GetUInt32, m; erewrite reply_attribute by reflexivity; done|].
  split; [|split; [exact E'|split; [done|]]].
  - rewrite (inv_find _ _ _ _ (inv_send _ _ _ _ Hi')) by (split_and!; [done|done|apply Hca]). cbn [src_ allocations_ send].
    pose proof (allocation_found ops _ _ _ Hi' E') as Ef. cbn [conn_ set_identity Allocation_new src_] in Ef. by rewrite Ef.
  - destruct (ti_timers _ _ _ Hi) as (Hstop & _). by apply pending_post.
Qed.

(** C15. A TURN server on UDP delivers: in every reachable state, over each channel of an
    allocation what the client sends in a ChannelData message goes to the peer, byte for
    byte, and what the peer sends comes to the client in a ChannelData message of the
    same form; for a host with a permission, the data of a send indication goes to the
    peer it names, and what a peer without a channel sends comes to the client in a data
    indication that names it.  Nothing else is sent or changed. *)
Theorem turn_delivers `{Platform} random ops st a al payload s : let start := TurnServer_new random in
  turn_ops_ok ops start → turn_run ops start = Some st → heap st !! a = Some al → is_Some (server_sockets_ st !! s) →
  strings_ok (config st) → bytes_ok payload → zlen payload < 59000 →
  let client := src_ (conn_ al) in
  let to_client packet := Some (send (ToClient (socket_ (conn_ al)) client packet) st) in
  (∀ c ext now random, c ∈ channels_ al →
     turn_step (TPacket s (channel_data (chan_id c) payload) client ext now) st = Some (send (ToPeer a (chan_peer c) payload) st) ∧
     turn_step (TPeer a payload (chan_peer c) random) st = to_client (channel_data (chan_id c) payload)) ∧
  (∀ p peer tid ext now, p ∈ perms_ al → perm_peer p = ip_ peer → addr_ok peer → id_ok tid →
     let m := built CTurn TURN_SEND_INDICATION tid (data_attrs peer payload) in
     turn_step (TPacket s (msg_wire m) client ext now) st = Some (send (ToPeer a peer payload) st)) ∧
  (∀ p peer tid, p ∈ perms_ al → perm_peer p = ip_ peer → addr_ok peer → id_ok tid → FindChannel_peer peer al = None →
     ∃ packet m b, turn_step (TPeer a payload peer tid) st = to_client packet ∧
       Read (StunMessage_new CTurn, ByteBuffer_of packet ORDER_NETWORK) = (Some true, (m, b)) ∧
       m_type m = TURN_DATA_INDICATION ∧ GetByteString m STUN_ATTR_DATA = Some payload ∧
       attr_address <$> GetAddress m STUN_ATTR_XOR_PEER_ADDRESS = Some peer).
Proof.
  intros start Ho Erun E Hs Hstr Hok Hl client to_client. destruct (run_inv ops [] start) as (st1 & E1 & Hi); [apply turn_new_inv|done|].
  rewrite E1 in Erun. injection Erun as ->. cbn [app] in Hi. clear Ho E1. split; [|split].
  - intros c ext now rnd Hc. split; [by apply (channel_to_peer ops st a al c)|]. apply (peer_to_channel ops st a al c); [done..|lia].
  - intros p peer tid ext now Hp Epeer Hpeer Hid m. destruct (data_attrs_fit tid peer payload) as [Hf Hsz]; [done..|].
    apply (indication_to_peer ops st a al p); try done; [lia|]. unfold GetByteString, m. cbn. by rewrite ztake_all.
  - intros p peer tid Hp Epeer Hpeer Hid Hnc.
    destruct (peer_to_indication ops st a al p peer payload tid) as [Estep Hm]; [done..|]. set (m := built _ _ _ _) in *.
    destruct (read_wire_packet m Hm) as (b & Erd & _). exists (msg_wire m), m, b. split; [done|]. split; [done|]. split; [done|].
    split; [|done]. unfold GetByteString, m. cbn. by rewrite ztake_all.
Qed.

(** ** Witnesses *)

Lemma sample_addrs : addr_ok turn_client ∧ addr_ok turn_relay ∧ addr_ok turn_peer.
Proof. split_and!; (split; [reflexivity|]; split; [apply ip_okb_ok; reflexivity|by vm_compute]). Qed.
Lemma sample_id : id_ok sample_tid.
Proof. split; [small_bytes|done]. Qed.
(** The attributes of the sample's allocate request. *)
Definition allocate_request_attrs `{Platform} : list StunAttribute :=
  [ByteStringAttr STUN_ATTR_USERNAME 4 (text "user"); ByteStringAttr STUN_ATTR_REALM 5 (text "realm");
   ByteStringAttr STUN_ATTR_NONCE kNonceSize (GenerateNonce turn_nonce_key 1000); UInt32Attr STUN_ATTR_REQUESTED_TRANSPORT 4 285212672].
Lemma allocate_request_ok `{Platform} :
  request_ok STUN_ALLOCATE_REQUEST sample_tid allocate_request_attrs turn_key (text "user") (GenerateNonce turn_nonce_key 1000).
Proof.
  destruct (nonce_lengths turn_nonce_key 1000 (text_ok _)) as (_ & Hnl & Hnok).
  split; [done|apply sample_id| |done|by repeat constructor|split; [done|apply text_ok]|done|by eexists|].
  - apply Forall_cons_2; [by apply (string_fits CTurn sample_tid _ (text "user")); [split; [apply text_ok|]|..]|].
    apply Forall_cons_2; [by apply (string_fits CTurn sample_tid _ (text "realm")); [split; [apply text_ok|]|..]|].
    apply Forall_cons_2; [rewrite <- Hnl; apply string_fits; [split; [exact Hnok|by rewrite Hnl]|done..]|].
    apply Forall_cons_2, Forall_nil_2. by split.
  - unfold GetByteString. cbn. by rewrite <- Hnl, ztake_all.
Qed.
Lemma turn_allocates_witness :
  let p := zero_platform in
  ∃ st st' packet m b, turn_run loop_ops (TurnServer_new turn_nonce_key) = Some st ∧
    turn_step (TPacket 7 (msg_wire (protected STUN_ALLOCATE_REQUEST sample_tid allocate_request_attrs turn_key)) turn_client (Some turn_relay) 2000) st = Some st' ∧
    sent st' = [ToClient 7 turn_client packet] ∧ Read (StunMessage_new CTurn, ByteBuffer_of packet ORDER_NETWORK) = (Some true, (m, b)) ∧
    attr_address <$> GetAddress m STUN_ATTR_XOR_RELAYED_ADDRESS = Some turn_relay ∧ GetUInt32 m STUN_ATTR_LIFETIME = Some 600.
Proof.
  intros p. destruct sample_addrs as (Hc & Hr & _).
  assert (turn_ops_ok loop_ops (TurnServer_new turn_nonce_key)) as Ho by (apply (sample_ops_ok [TAddSocket 7 PROTO_UDP SocketAddress_Clear]); reflexivity).
  eexists. set (st := set_server_sockets <[7 := PROTO_UDP]> (set_sockets <[7 := SocketAddress_Clear]> (set_config turn_config (TurnServer_new turn_nonce_key)))).
  destruct (turn_allocates turn_nonce_key loop_ops st 7 turn_client turn_relay (text "user") turn_key 1000 sample_tid allocate_request_attrs 285212672 2000 Ho)
    as (st' & packet & m & b & al & E & Es & Erd & _ & _ & _ & _ & Erel & Elt & _); [reflexivity| |exact allocate_request_ok|split; done|reflexivity..|].
  - split; [by eexists|exact Hc|exact Hr|reflexivity|exact turn_config_strings|reflexivity|exact I|reflexivity].
  - exists st', packet, m, b. exact (conj eq_refl (conj E (conj Es (conj Erd (conj Erel Elt))))).
Defined.
Lemma turn_delivers_witness :
  let p := zero_platform in
  let ops := TConfigure turn_config :: turn_setup in
  ∃ st, turn_run ops (TurnServer_new turn_nonce_key) = Some st ∧
    turn_step (TPacket 7 (channel_data 16385 (text "hello")) turn_client None 4000) st = Some (send (ToPeer 1 turn_peer (text "hello")) st) ∧
    turn_step (TPeer 1 (text "hello") turn_peer sample_tid) st = Some (send (ToClient 7 turn_client (channel_data 16385 (text "hello"))) st) ∧
    turn_step (TPacket 7 (msg_wire (built CTurn TURN_SEND_INDICATION sample_tid (data_attrs turn_peer (text "hello")))) turn_client None 4000) st =
      Some (send (ToPeer 1 turn_peer (text "hello")) st).
Proof.
  intros p ops.
  assert (turn_ops_ok ops (TurnServer_new turn_nonce_key)) as Ho by (apply sample_ops_ok; vm_compute; reflexivity).
  assert (match turn_run ops (TurnServer_new turn_nonce_key) with
    | Some st => config st = turn_config ∧ bool_decide (is_Some (server_sockets_ st !! 7)) = true ∧
        match heap st !! 1 with
        | Some al => socket_ (conn_ al) = 7 ∧ src_ (conn_ al) = turn_client ∧ channels_ al = [mkChannel 2 16385 turn_peer] ∧
            perms_ al = [mkPermission 3 (ip_ turn_peer)]
        | None => False
        end
    | None => False end) as Hv by (vm_compute; split_and!; reflexivity).
  destruct (turn_run ops (TurnServer_new turn_nonce_key)) as [st|] eqn:E; [|destruct Hv]. destruct Hv as (Hcfg & Hs & Hal).
  destruct (heap st !! 1) as [al|] eqn:Ea; [|destruct Hal]. destruct Hal as (Esock & Esrc & Ech & Ep). exists st. split; [reflexivity|].
  destruct (turn_delivers turn_nonce_key ops st 1 al (text "hello") 7 Ho E Ea) as (Hchan & Hind & _);
    [exact (proj1 (bool_decide_eq_true _) Hs)|rewrite Hcfg; exact turn_config_strings|apply text_ok|reflexivity|].
  rewrite Esock, Esrc in Hchan. rewrite Esrc in Hind. clear Ho E.
  destruct (Hchan (mkChannel 2 16385 turn_peer) None 4000 sample_tid) as [H1 H2]; [rewrite Ech; apply list_elem_of_here|].
  split; [exact H1|]. split; [exact H2|]. apply (Hind (mkPermission 3 (ip_ turn_peer)));
    [rewrite Ep; apply list_elem_of_here|reflexivity|apply sample_addrs|apply sample_id].
Defined.

(** ** Undefined runs *)

(** A request whose LIFETIME attribute has the length field 8, but 4 bytes that are read.
    The parser finds MESSAGE-INTEGRITY after these, the check of the HMAC finds one 4 bytes
    later, in the value of the first. *)
Definition overread_packet `{Platform} : list Z :=
  let attrs := concat (attr_wire sample_tid <$>
    [ByteStringAttr STUN_ATTR_USERNAME 4 (text "user"); ByteStringAttr STUN_ATTR_REALM 5 (text "realm");
     ByteStringAttr STUN_ATTR_NONCE kNonceSize (GenerateNonce turn_nonce_key 1000)]) in
  header TURN_REFRESH_REQUEST (zlen attrs + 32) sample_tid ++ attrs ++
    be_encode 2 STUN_ATTR_LIFETIME ++ be_encode 2 8 ++ be_encode 4 600 ++
    be_encode 2 STUN_ATTR_MESSAGE_INTEGRITY ++ be_encode 2 20 ++ be_encode 2 STUN_ATTR_MESSAGE_INTEGRITY ++ be_encode 2 20 ++ zrepeat 0 16.
(** A client over TCP, at an address before that of the sample's client. *)
Definition tcp_client : SocketAddress := SocketAddress_of (IPAddress_v4 [192; 168; 1; 4]) 5000.
Definition tcp_ops : list turn_op :=
  [TConfigure turn_config; TAddSocket 7 PROTO_UDP SocketAddress_Clear; TAddServerSocket 9 PROTO_TCP; TAccept 9 (Some (10, tcp_client))].
Definition allocate_on `{Platform} (s : Z) (addr : SocketAddress) : turn_op :=
  TPacket s (msg_wire (protected STUN_ALLOCATE_REQUEST sample_tid allocate_request_attrs turn_key)) addr (Some turn_relay) 2000.

Lemma defined {A} (o : option A) : (if o then true else false) = true → is_Some o.
Proof. destruct o; [by eexists|done]. Qed.

