(* ===== verification/TurnPort.v ===== *)
(** * The TURN client

    webrtc/p2p/base/turnport.h and turnport.cc: a port whose candidate is an address that
    a TURN server relays from.  It asks the server for an allocation, answers the
    server's challenge with its credentials, keeps the allocation alive, and has an entry
    for each peer with a permission and a channel of the server.

    The port owns a manager of STUN requests; the callbacks of the requests run after
    the manager's step that made them, on the events it logged.  New requests and
    entries are at new addresses, and the n-th object of the port has the n-th random
    string for its transaction id.  The messages that the port posts to itself are a list
    of their own.  What the socket factory, the resolver and the socket's SendTo give is
    an input; packets, candidates and signals are the log of the port.  A failed
    assertion, and the use of a null pointer, is [None]. *)

From stdpp Require Import strings.
From S2P Require Import Prelude ByteOrder ByteBuffer IpAddress Stun StunWire StunIntegrity StunBuild TimeUtils MessageQueue StunRequest.

Definition TURN_ALLOCATE_REQUEST : Z := STUN_ALLOCATE_REQUEST.
Definition TURN_DEFAULT_PORT : Z := 3478.
Definition TURN_CHANNEL_NUMBER_START : Z := 16384.
Definition TURN_PERMISSION_TIMEOUT : Z := 5 * 60 * 1000.
Definition MAX_ALLOCATE_MISMATCH_RETRIES : Z := 2.
Definition ICE_TYPE_PREFERENCE_RELAY : Z := 2.
Definition MSG_ERROR : Z := 1.
Definition MSG_ALLOCATE_MISMATCH : Z := 2.
Definition SOCKET_ERROR : Z := -1.
Definition EWOULDBLOCK : Z := 11.

Definition GetRelayPreference (proto : ProtocolType) (secure : bool) : Z :=
  let relay_preference := ICE_TYPE_PREFERENCE_RELAY in
  if decide (proto = PROTO_TCP) then
    let relay_preference := relay_preference - 1 in
    if secure then relay_preference - 1 else relay_preference
  else relay_preference.

(** ** Requests *)

(** What the requests read from the port when they are made. *)
Record auth_info := mkAuth { ai_username : list Z; ai_realm : list Z; ai_nonce : list Z; ai_hash : list Z }.

Inductive TurnRequest :=
  | TurnAllocateRequest (port : auth_info)
  | TurnRefreshRequest (port : auth_info)
  | TurnCreatePermissionRequest (entry : Z) (ext_addr : SocketAddress) (port : auth_info)
  | TurnChannelBindRequest (entry channel_id : Z) (ext_addr : SocketAddress) (port : auth_info).

Section client.
Context `{Platform}.

Definition AddRequestAuthInfo (port : auth_info) (msg : StunMessage) : StunMessage :=
  let msg := add (StunByteStringAttribute STUN_ATTR_USERNAME (ai_username port)) msg in
  let msg := add (StunByteStringAttribute STUN_ATTR_REALM (ai_realm port)) msg in
  let msg := add (StunByteStringAttribute STUN_ATTR_NONCE (ai_nonce port)) msg in
  (AddMessageIntegrity msg (ai_hash port)).2.

Definition TurnAllocateRequest_Prepare (port : auth_info) (request : StunMessage) : StunMessage :=
  let request := SetType request TURN_ALLOCATE_REQUEST in
  let transport_attr := SetValue (CreateUInt32 STUN_ATTR_REQUESTED_TRANSPORT) (Z.shiftl 17 24) in
  let request := add transport_attr request in
  match ai_hash port with [] => request | _ => AddRequestAuthInfo port request end.
Definition TurnRefreshRequest_Prepare (port : auth_info) (request : StunMessage) : StunMessage :=
  AddRequestAuthInfo port (SetType request TURN_REFRESH_REQUEST).
Definition TurnCreatePermissionRequest_Prepare (ext_addr : SocketAddress) (port : auth_info) (request : StunMessage) : StunMessage :=
  let request := SetType request TURN_CREATE_PERMISSION_REQUEST in
  AddRequestAuthInfo port (add (StunXorAddressAttribute STUN_ATTR_XOR_PEER_ADDRESS ext_addr) request).
Definition TurnChannelBindRequest_Prepare (channel_id : Z) (ext_addr : SocketAddress) (port : auth_info) (request : StunMessage) : StunMessage :=
  let request := SetType request TURN_CHANNEL_BIND_REQUEST in
  let request := add (StunUInt32Attribute STUN_ATTR_CHANNEL_NUMBER (u32 (Z.shiftl channel_id 16))) request in
  AddRequestAuthInfo port (add (StunXorAddressAttribute STUN_ATTR_XOR_PEER_ADDRESS ext_addr) request).
Definition TurnRequest_Prepare (k : TurnRequest) : StunMessage → StunMessage :=
  match k with
  | TurnAllocateRequest port => TurnAllocateRequest_Prepare port
  | TurnRefreshRequest port => TurnRefreshRequest_Prepare port
  | TurnCreatePermissionRequest _ ext_addr port => TurnCreatePermissionRequest_Prepare ext_addr port
  | TurnChannelBindRequest _ channel_id ext_addr port => TurnChannelBindRequest_Prepare channel_id ext_addr port
  end.
#[export] Instance TurnRequest_class : RequestClass TurnRequest :=
  {| Prepare := TurnRequest_Prepare; GetNextDelay _ := StunRequest_GetNextDelay |}.
End client.

(** ** The port *)

Inductive BindState := STATE_UNBOUND | STATE_BINDING | STATE_BOUND.
#[export] Instance BindState_eq_dec : EqDecision BindState.
Proof. solve_decision. Defined.
Record TurnEntry := mkEntry { entry_addr : Z; channel_id_ : Z; ext_addr_ : SocketAddress; bind_state : BindState }.
Record ProtocolAddress := mkProtoAddr { pa_address : SocketAddress; pa_proto : ProtocolType; pa_secure : bool }.

Inductive turn_port_event :=
  | PortSend (to : SocketAddress) (packet : list Z)
  | PortAddAddress (address related : SocketAddress) (preference : Z)
  | PortError
  | PortCreatePermissionResult (address : SocketAddress) (code : Z)
  | PortDispatchPacket (remote : SocketAddress) (payload : list Z)
  | PortReadyToSend
  | PortResolve (address : SocketAddress)
  | PortResolved (address resolved : SocketAddress).

Record TurnPort := mkTurnPort {
  server_address_ : ProtocolAddress;
  username_p : list Z; password_p : list Z;        (* of credentials_ *)
  local_ip : IPAddress;
  reflexive_filter : bool;                         (* candidate_filter() & CF_REFLEXIVE *)
  attempted_server_addresses_ : list SocketAddress;
  shared_socket_ : bool;
  has_socket : bool;                               (* socket_ is not null *)
  has_resolver : bool;
  error_ : Z;
  request_manager_ : StunRequestManager (K := TurnRequest);
  realm_p : list Z; nonce_p : list Z; hash_p : list Z;
  next_channel_number_ : Z;
  entries_ : list TurnEntry;
  connected_ : bool;
  allocate_mismatch_retries_ : Z;
  posted : list Z;
  next_object : Z;
  port_events : list turn_port_event
}.
Definition TurnPort_new (server : ProtocolAddress) (username password : list Z) (ip : IPAddress) (reflexive shared : bool) : TurnPort :=
  mkTurnPort server username password ip reflexive [] shared shared false 0 StunRequestManager_new [] [] []
    TURN_CHANNEL_NUMBER_START [] false 0 [] 1 [].

(** Updates of one member, or of members that change together. *)
Definition tp_server (v : ProtocolAddress) (st : TurnPort) : TurnPort :=
  mkTurnPort v (username_p st) (password_p st) (local_ip st) (reflexive_filter st) (attempted_server_addresses_ st)
    (shared_socket_ st) (has_socket st) (has_resolver st) (error_ st) (request_manager_ st) (realm_p st) (nonce_p st)
    (hash_p st) (next_channel_number_ st) (entries_ st) (connected_ st) (allocate_mismatch_retries_ st) (posted st)
    (next_object st) (port_events st).
Definition tp_attempted (v : list SocketAddress) (st : TurnPort) : TurnPort :=
  mkTurnPort (server_address_ st) (username_p st) (password_p st) (local_ip st) (reflexive_filter st) v
    (shared_socket_ st) (has_socket st) (has_resolver st) (error_ st) (request_manager_ st) (realm_p st) (nonce_p st)
    (hash_p st) (next_channel_number_ st) (entries_ st) (connected_ st) (allocate_mismatch_retries_ st) (posted st)
    (next_object st) (port_events st).
Definition tp_socket (shared socket : bool) (st : TurnPort) : TurnPort :=
  mkTurnPort (server_address_ st) (username_p st) (password_p st) (local_ip st) (reflexive_filter st)
    (attempted_server_addresses_ st) shared socket (has_resolver st) (error_ st) (request_manager_ st) (realm_p st)
    (nonce_p st) (hash_p st) (next_channel_number_ st) (entries_ st) (connected_ st) (allocate_mismatch_retries_ st)
    (posted st) (next_object st) (port_events st).
Definition tp_resolver (v : bool) (st : TurnPort) : TurnPort :=
  mkTurnPort (server_address_ st) (username_p st) (password_p st) (local_ip st) (reflexive_filter st)
    (attempted_server_addresses_ st) (shared_socket_ st) (has_socket st) v (error_ st) (request_manager_ st)
    (realm_p st) (nonce_p st) (hash_p st) (next_channel_number_ st) (entries_ st) (connected_ st)
    (allocate_mismatch_retries_ st) (posted st) (next_object st) (port_events st).
Definition tp_error (v : Z) (st : TurnPort) : TurnPort :=
  mkTurnPort (server_address_ st) (username_p st) (password_p st) (local_ip st) (reflexive_filter st)
    (attempted_server_addresses_ st) (shared_socket_ st) (has_socket st) (has_resolver st) v (request_manager_ st)
    (realm_p st) (nonce_p st) (hash_p st) (next_channel_number_ st) (entries_ st) (connected_ st)
    (allocate_mismatch_retries_ st) (posted st) (next_object st) (port_events st).
Definition tp_manager (v : StunRequestManager (K := TurnRequest)) (st : TurnPort) : TurnPort :=
  mkTurnPort (server_address_ st) (username_p st) (password_p st) (local_ip st) (reflexive_filter st)
    (attempted_server_addresses_ st) (shared_socket_ st) (has_socket st) (has_resolver st) (error_ st) v (realm_p st)
    (nonce_p st) (hash_p st) (next_channel_number_ st) (entries_ st) (connected_ st) (allocate_mismatch_retries_ st)
    (posted st) (next_object st) (port_events st).
Definition tp_auth (realm nonce hash : list Z) (st : TurnPort) : TurnPort :=
  mkTurnPort (server_address_ st) (username_p st) (password_p st) (local_ip st) (reflexive_filter st)
    (attempted_server_addresses_ st) (shared_socket_ st) (has_socket st) (has_resolver st) (error_ st)
    (request_manager_ st) realm nonce hash (next_channel_number_ st) (entries_ st) (connected_ st)
    (allocate_mismatch_retries_ st) (posted st) (next_object st) (port_events st).
Definition tp_entries (channel : Z) (v : list TurnEntry) (st : TurnPort) : TurnPort :=
  mkTurnPort (server_address_ st) (username_p st) (password_p st) (local_ip st) (reflexive_filter st)
    (attempted_server_addresses_ st) (shared_socket_ st) (has_socket st) (has_resolver st) (error_ st)
    (request_manager_ st) (realm_p st) (nonce_p st) (hash_p st) channel v (connected_ st)
    (allocate_mismatch_retries_ st) (posted st) (next_object st) (port_events st).
Definition tp_connected (v : bool) (st : TurnPort) : TurnPort :=
  mkTurnPort (server_address_ st) (username_p st) (password_p st) (local_ip st) (reflexive_filter st)
    (attempted_server_addresses_ st) (shared_socket_ st) (has_socket st) (has_resolver st) (error_ st)
    (request_manager_ st) (realm_p st) (nonce_p st) (hash_p st) (next_channel_number_ st) (entries_ st) v
    (allocate_mismatch_retries_ st) (posted st) (next_object st) (port_events st).
Definition tp_retries (v : Z) (st : TurnPort) : TurnPort :=
  mkTurnPort (server_address_ st) (username_p st) (password_p st) (local_ip st) (reflexive_filter st)
    (attempted_server_addresses_ st) (shared_socket_ st) (has_socket st) (has_resolver st) (error_ st)
    (request_manager_ st) (realm_p st) (nonce_p st) (hash_p st) (next_channel_number_ st) (entries_ st) (connected_ st)
    v (posted st) (next_object st) (port_events st).
Definition tp_posted (v : list Z) (st : TurnPort) : TurnPort :=
  mkTurnPort (server_address_ st) (username_p st) (password_p st) (local_ip st) (reflexive_filter st)
    (attempted_server_addresses_ st) (shared_socket_ st) (has_socket st) (has_resolver st) (error_ st)
    (request_manager_ st) (realm_p st) (nonce_p st) (hash_p st) (next_channel_number_ st) (entries_ st) (connected_ st)
    (allocate_mismatch_retries_ st) v (next_object st) (port_events st).
Definition tp_next (v : Z) (st : TurnPort) : TurnPort :=
  mkTurnPort (server_address_ st) (username_p st) (password_p st) (local_ip st) (reflexive_filter st)
    (attempted_server_addresses_ st) (shared_socket_ st) (has_socket st) (has_resolver st) (error_ st)
    (request_manager_ st) (realm_p st) (nonce_p st) (hash_p st) (next_channel_number_ st) (entries_ st) (connected_ st)
    (allocate_mismatch_retries_ st) (posted st) v (port_events st).
Definition port_event (e : turn_port_event) (st : TurnPort) : TurnPort :=
  mkTurnPort (server_address_ st) (username_p st) (password_p st) (local_ip st) (reflexive_filter st)
    (attempted_server_addresses_ st) (shared_socket_ st) (has_socket st) (has_resolver st) (error_ st)
    (request_manager_ st) (realm_p st) (nonce_p st) (hash_p st) (next_channel_number_ st) (entries_ st) (connected_ st)
    (allocate_mismatch_retries_ st) (posted st) (next_object st) (port_events st ++ [e]).

(** *** Lookups *)

Section port.
Context `{Platform} (random_id : Z → list Z).

Definition IsUnresolved (addr : SocketAddress) : bool :=
  IPIsUnspec (ip_ addr) && negb (literal_ addr) && negb (bool_decide (hostname_ addr = [])).
Definition IsLoopbackIP (addr : SocketAddress) : bool :=
  IPIsLoopback (ip_ addr) || (IPIsAny (ip_ addr) && bool_decide (hostname_ addr = text "localhost")).
Definition TurnPort_HasPermission (ipaddr : IPAddress) (st : TurnPort) : bool :=
  existsb (λ e, ip_eq (ip_ (ext_addr_ e)) ipaddr) (entries_ st).
Definition FindEntry_address (addr : SocketAddress) (st : TurnPort) : option TurnEntry :=
  find (λ e, SocketAddress_eqb (ext_addr_ e) addr) (entries_ st).
Definition FindEntry_channel (channel_id : Z) (st : TurnPort) : option TurnEntry :=
  find (λ e, channel_id_ e =? channel_id) (entries_ st).
(** The entry that a request points to, unless it was destroyed. *)
Definition entry_at (a : Z) (st : TurnPort) : option TurnEntry := find (λ e, entry_addr e =? a) (entries_ st).
Definition update_entry (a : Z) (f : TurnEntry → TurnEntry) (st : TurnPort) : TurnPort :=
  tp_entries (next_channel_number_ st) (map (λ e, if entry_addr e =? a then f e else e) (entries_ st)) st.
Definition set_bind_state (s : BindState) (e : TurnEntry) : TurnEntry := mkEntry (entry_addr e) (channel_id_ e) (ext_addr_ e) s.

(** *** Sending *)

(** The port's own thread()->Post. *)
Definition OnAllocateError (st : TurnPort) : TurnPort := tp_posted (posted st ++ [MSG_ERROR]) st.
Definition TurnPort_Send (data : list Z) (st : TurnPort) : option TurnPort :=
  if has_socket st then Some (port_event (PortSend (pa_address (server_address_ st)) data) st) else None.
Definition credentials_of (st : TurnPort) : auth_info := mkAuth (username_p st) (realm_p st) (nonce_p st) (hash_p st).
(** A new request, which AddRequestAuthInfo verifies to have a key, unless it is for an
    allocation. *)
Definition TurnPort_SendRequest (k : TurnRequest) (delay now : Z) (st : TurnPort) : option TurnPort :=
  let a := next_object st in
  let authorized := match k with TurnAllocateRequest _ => true | _ => negb (bool_decide (hash_p st = [])) end in
  if negb authorized then None
  else
    m ← SendDelayed a delay now (new_request a k (StunMessage_new CTurn) (random_id a) (request_manager_ st));
    Some (tp_manager m (tp_next (a + 1) st)).
Definition ScheduleRefresh (lifetime now : Z) (st : TurnPort) : option (bool * TurnPort) :=
  if lifetime <? 2 * 60 then Some (false, st)
  else if HALF <=? (lifetime - 60) * 1000 then None (* overflow of an int *)
  else
    st ← TurnPort_SendRequest (TurnRefreshRequest (credentials_of st)) ((lifetime - 60) * 1000) now st;
    Some (true, st).

Definition UpdateHash (st : TurnPort) : option TurnPort :=
  hash ← ComputeStunCredentialHash (username_p st) (realm_p st) (password_p st);
  Some (tp_auth (realm_p st) (nonce_p st) hash st).
Definition set_nonce (nonce : list Z) (st : TurnPort) : TurnPort := tp_auth (realm_p st) nonce (hash_p st) st.
Definition set_realm (realm : list Z) (st : TurnPort) : option TurnPort :=
  if bool_decide (realm = realm_p st) then Some st else UpdateHash (tp_auth realm (nonce_p st) (hash_p st) st).
Definition UpdateNonce (response : StunMessage) (st : TurnPort) : option (bool * TurnPort) :=
  match GetByteString response STUN_ATTR_REALM with
  | None => Some (false, st)
  | Some realm =>
      st ← set_realm realm st;
      match GetByteString response STUN_ATTR_NONCE with
      | None => Some (false, st)
      | Some nonce => Some (true, set_nonce nonce st)
      end
  end.

(** *** Entries *)

Definition SendCreatePermissionRequest (e : TurnEntry) (now : Z) (st : TurnPort) : option TurnPort :=
  TurnPort_SendRequest (TurnCreatePermissionRequest (entry_addr e) (ext_addr_ e) (credentials_of st)) 0 now st.
Definition SendChannelBindRequest (e : TurnEntry) (delay now : Z) (st : TurnPort) : option TurnPort :=
  TurnPort_SendRequest (TurnChannelBindRequest (entry_addr e) (channel_id_ e) (ext_addr_ e) (credentials_of st)) delay now st.
Definition CreateEntry (addr : SocketAddress) (now : Z) (st : TurnPort) : option TurnPort :=
  match FindEntry_address addr st with
  | Some _ => None
  | None =>
      let e := mkEntry (next_object st) (next_channel_number_ st) addr STATE_UNBOUND in
      let st := tp_entries (next_channel_number_ st + 1) (entries_ st) (tp_next (next_object st + 1) st) in
      st ← SendCreatePermissionRequest e now st;
      Some (tp_entries (next_channel_number_ st) (entries_ st ++ [e]) st)
  end.
Definition DestroyEntry (addr : SocketAddress) (st : TurnPort) : option TurnPort :=
  e ← FindEntry_address addr st;
  Some (tp_entries (next_channel_number_ st) (List.filter (λ x, negb (entry_addr x =? entry_addr e)) (entries_ st)) st).
Definition OnConnectionDestroyed (remote : SocketAddress) (st : TurnPort) : option TurnPort := DestroyEntry remote st.
(** The part that is about entries; [udp] says that the candidate's protocol is UDP. *)
Definition CreateConnection (udp : bool) (address : SocketAddress) (now : Z) (st : TurnPort) : option TurnPort :=
  if negb udp then Some st
  else if negb (IsCompatibleAddress (local_ip st) address) then Some st
  else CreateEntry address now st.

Definition OnCreatePermissionSuccess (e : TurnEntry) (st : TurnPort) : TurnPort :=
  port_event (PortCreatePermissionResult (ext_addr_ e) 0) st.
Definition OnCreatePermissionError (e : TurnEntry) (response : StunMessage) (code now : Z) (st : TurnPort) : option TurnPort :=
  if code =? STUN_ERROR_STALE_NONCE then
    '(ok, st) ← UpdateNonce response st;
    if (ok : bool) then SendCreatePermissionRequest e now st else Some st
  else Some (port_event (PortCreatePermissionResult (ext_addr_ e) code) st).
Definition OnChannelBindSuccess (e : TurnEntry) (st : TurnPort) : option TurnPort :=
  match bind_state e with
  | STATE_UNBOUND => None
  | _ => Some (update_entry (entry_addr e) (set_bind_state STATE_BOUND) st)
  end.
Definition OnChannelBindError (e : TurnEntry) (response : StunMessage) (code now : Z) (st : TurnPort) : option TurnPort :=
  if code =? STUN_ERROR_STALE_NONCE then
    '(ok, st) ← UpdateNonce response st;
    if (ok : bool) then SendChannelBindRequest e 0 now st else Some st
  else Some st.

(** A send indication, or the channel when it is bound; the result is that of the port's
    Send, which is [sent]. *)
Definition send_indication (e : TurnEntry) (data random : list Z) : list Z :=
  let msg := SetType (StunMessage_new CTurn) TURN_SEND_INDICATION in
  let msg := (SetTransactionID msg random).2 in
  let msg := add (StunXorAddressAttribute STUN_ATTR_XOR_PEER_ADDRESS (ext_addr_ e)) msg in
  let msg := add (StunByteStringAttribute STUN_ATTR_DATA data) msg in
  Data (Write msg (ByteBuffer_new ORDER_NETWORK)).2.
Definition TurnEntry_Send (e : TurnEntry) (data : list Z) (payload : bool) (now : Z) (st : TurnPort) : option TurnPort :=
  match bind_state e with
  | STATE_BOUND =>
      let buf := WriteUInt16 (ByteBuffer_new ORDER_NETWORK) (u16 (channel_id_ e)) in
      let buf := WriteUInt16 buf (u16 (zlen data)) in
      TurnPort_Send (Data (WriteBytes buf data)) st
  | state =>
      let packet := send_indication e data (random_id (next_object st)) in
      let st := tp_next (next_object st + 1) st in
      st ← (if bool_decide (state = STATE_UNBOUND) && payload then
              st ← SendChannelBindRequest e 0 now st;
              Some (update_entry (entry_addr e) (set_bind_state STATE_BINDING) st)
            else Some st);
      TurnPort_Send packet st
  end.
Definition TurnPort_SendTo (data : list Z) (addr : SocketAddress) (payload : bool) (sent now : Z) (st : TurnPort)
    : option (Z * TurnPort) :=
  e ← FindEntry_address addr st;
  if negb (connected_ st) then Some (SOCKET_ERROR, tp_error EWOULDBLOCK st)
  else
    st ← TurnEntry_Send e data payload now st;
    Some (if sent <=? 0 then SOCKET_ERROR else zlen data, st).

(** *** The allocation *)

Definition send_allocate (now : Z) (st : TurnPort) : option TurnPort :=
  TurnPort_SendRequest (TurnAllocateRequest (credentials_of st)) 0 now st.

(** [factory] says that the socket factory creates a socket. *)
Definition CreateTurnClientSocket (factory : bool) (st : TurnPort) : option (bool * TurnPort) :=
  let proto := pa_proto (server_address_ st) in
  let shared := shared_socket_ st in
  if has_socket st && negb shared then None
  else if bool_decide (proto = PROTO_TCP) && shared then None
  else
    let creates := (bool_decide (proto = PROTO_UDP) && negb shared) || bool_decide (proto = PROTO_TCP) in
    let st := if creates then tp_socket shared factory st else st in
    if negb (has_socket st) then Some (false, tp_error SOCKET_ERROR st) else Some (true, st).
Definition ResolveTurnAddress (address : SocketAddress) (st : TurnPort) : TurnPort :=
  if has_resolver st then st else port_event (PortResolve address) (tp_resolver true st).
(** [std::set]: insertion of an address that is not there. *)
Definition attempted (addr : SocketAddress) (st : TurnPort) : bool :=
  existsb (λ x, negb (SocketAddress_lt x addr) && negb (SocketAddress_lt addr x)) (attempted_server_addresses_ st).
Definition attempt (addr : SocketAddress) (st : TurnPort) : TurnPort :=
  if attempted addr st then st else tp_attempted (attempted_server_addresses_ st ++ [addr]) st.
Definition PrepareAddress (factory : bool) (now : Z) (st : TurnPort) : option TurnPort :=
  if bool_decide (username_p st = []) || bool_decide (password_p st = []) then Some (OnAllocateError st)
  else
    let server := server_address_ st in
    let st := if port_ (pa_address server) =? 0
              then tp_server (mkProtoAddr (SocketAddress_SetPort (pa_address server) TURN_DEFAULT_PORT) (pa_proto server) (pa_secure server)) st
              else st in
    let server := server_address_ st in
    if IsUnresolved (pa_address server) then Some (ResolveTurnAddress (pa_address server) st)
    else if negb (IsCompatibleAddress (local_ip st) (pa_address server)) then Some (OnAllocateError st)
    else
      let st := attempt (pa_address server) st in
      '(ok, st) ← CreateTurnClientSocket factory st;
      if negb ok then Some (OnAllocateError st)
      else if bool_decide (pa_proto server = PROTO_UDP) then send_allocate now st
      else Some st.
(** [local] and [remote] are the addresses of the connected socket. *)
Definition OnSocketConnect (local remote : SocketAddress) (now : Z) (st : TurnPort) : option TurnPort :=
  let server := server_address_ st in
  if negb (bool_decide (pa_proto server = PROTO_TCP)) then None
  else if negb (ip_eq (ip_ local) (local_ip st)) && negb (IsLoopbackIP local) then Some (OnAllocateError st)
  else
    let st := if IsUnresolved (pa_address server) then tp_server (mkProtoAddr remote (pa_proto server) (pa_secure server)) st else st in
    send_allocate now st.
Definition OnSocketClose (st : TurnPort) : TurnPort := if connected_ st then st else OnAllocateError st.
Definition OnAllocateMismatch (factory : bool) (now : Z) (st : TurnPort) : option TurnPort :=
  if MAX_ALLOCATE_MISMATCH_RETRIES <=? allocate_mismatch_retries_ st then Some (OnAllocateError st)
  else
    let st := tp_socket false false st in
    st ← PrepareAddress factory now st;
    Some (tp_retries (allocate_mismatch_retries_ st + 1) st).
(** [resolved] is what the resolver gives, or its error. *)
Definition OnResolveResult (resolved : SocketAddress + Z) (factory : bool) (now : Z) (st : TurnPort) : option TurnPort :=
  let server := server_address_ st in
  match resolved with
  | inr error =>
      if negb (error =? 0) && bool_decide (pa_proto server = PROTO_TCP) then
        '(ok, st) ← CreateTurnClientSocket factory st;
        Some (if (ok : bool) then st else OnAllocateError st)
      else Some (OnAllocateError (tp_error error st))
  | inl address =>
      let st := port_event (PortResolved (pa_address server) address) st in
      PrepareAddress factory now (tp_server (mkProtoAddr address (pa_proto server) (pa_secure server)) st)
  end.
Definition SetAlternateServer (address : SocketAddress) (st : TurnPort) : bool * TurnPort :=
  if attempted address st then (false, st)
  else if negb (IsCompatibleAddress (local_ip st) address) then (false, st)
  else
    let server := server_address_ st in
    (true, attempt address (tp_server (mkProtoAddr address (pa_proto server) (pa_secure server)) st)).

Definition EmptySocketAddressWithFamily (family : Family) : SocketAddress :=
  match family with
  | AF_INET => SocketAddress_of (IPAddress_v4 (zrepeat 0 4)) 0
  | AF_INET6 => SocketAddress_of (IPAddress_v6 (zrepeat 0 16)) 0
  | AF_UNSPEC => SocketAddress_Clear
  end.
Definition OnAllocateSuccess (address stun_address : SocketAddress) (st : TurnPort) : TurnPort :=
  let st := tp_connected true st in
  let related_address := if reflexive_filter st then stun_address else EmptySocketAddressWithFamily (family_ (ip_ stun_address)) in
  let server := server_address_ st in
  port_event (PortAddAddress address related_address (GetRelayPreference (pa_proto server) (pa_secure server))) st.

Definition TurnAllocateRequest_OnResponse (response : StunMessage) (now : Z) (st : TurnPort) : option TurnPort :=
  match attr_address <$> GetAddress response STUN_ATTR_XOR_MAPPED_ADDRESS,
        attr_address <$> GetAddress response STUN_ATTR_XOR_RELAYED_ADDRESS, GetUInt32 response STUN_ATTR_TURN_LIFETIME with
  | Some mapped, Some relayed, Some lifetime =>
      snd <$> ScheduleRefresh (i32 lifetime) now (OnAllocateSuccess relayed mapped st)
  | _, _, _ => Some st
  end.
Definition OnAuthChallenge (response : StunMessage) (code now : Z) (st : TurnPort) : option TurnPort :=
  if (code =? STUN_ERROR_UNAUTHORIZED) && negb (bool_decide (hash_p st = [])) then Some (OnAllocateError st)
  else
    match GetByteString response STUN_ATTR_REALM with
    | None => Some st
    | Some realm =>
        st ← set_realm realm st;
        match GetByteString response STUN_ATTR_NONCE with
        | None => Some st
        | Some nonce => send_allocate now (set_nonce nonce st)
        end
    end.
Definition OnTryAlternate (response : StunMessage) (now : Z) (st : TurnPort) : option TurnPort :=
  if negb (bool_decide (pa_proto (server_address_ st) = PROTO_UDP)) then Some (OnAllocateError st)
  else
    match attr_address <$> GetAddress response STUN_ATTR_ALTERNATE_SERVER with
    | None => Some (OnAllocateError st)
    | Some address =>
        let '(ok, st) := SetAlternateServer address st in
        if negb ok then Some (OnAllocateError st)
        else
          st ← (match GetByteString response STUN_ATTR_REALM with Some realm => set_realm realm st | None => Some st end);
          let st := match GetByteString response STUN_ATTR_NONCE with Some nonce => set_nonce nonce st | None => st end in
          send_allocate now st
    end.
Definition TurnAllocateRequest_OnErrorResponse (response : StunMessage) (now : Z) (st : TurnPort) : option TurnPort :=
  code ← error_code <$> GetErrorCode response;
  if code =? STUN_ERROR_UNAUTHORIZED then OnAuthChallenge response code now st
  else if code =? STUN_ERROR_TRY_ALTERNATE then OnTryAlternate response now st
  else if code =? STUN_ERROR_ALLOCATION_MISMATCH then Some (tp_posted (posted st ++ [MSG_ALLOCATE_MISMATCH]) st)
  else Some (OnAllocateError st).
Definition TurnAllocateRequest_OnTimeout (st : TurnPort) : TurnPort := OnAllocateError st.

Definition TurnRefreshRequest_OnResponse (response : StunMessage) (now : Z) (st : TurnPort) : option TurnPort :=
  match GetUInt32 response STUN_ATTR_TURN_LIFETIME with
  | Some lifetime => snd <$> ScheduleRefresh (i32 lifetime) now st
  | None => Some st
  end.
Definition TurnRefreshRequest_OnErrorResponse (response : StunMessage) (now : Z) (st : TurnPort) : option TurnPort :=
  code ← error_code <$> GetErrorCode response;
  if code =? STUN_ERROR_STALE_NONCE then
    '(ok, st) ← UpdateNonce response st;
    if (ok : bool) then TurnPort_SendRequest (TurnRefreshRequest (credentials_of st)) 0 now st else Some st
  else Some st.
Definition TurnCreatePermissionRequest_OnResponse (entry : Z) (st : TurnPort) : TurnPort :=
  match entry_at entry st with Some e => OnCreatePermissionSuccess e st | None => st end.
Definition TurnCreatePermissionRequest_OnErrorResponse (entry : Z) (response : StunMessage) (now : Z) (st : TurnPort) : option TurnPort :=
  match entry_at entry st with
  | Some e => code ← error_code <$> GetErrorCode response; OnCreatePermissionError e response code now st
  | None => Some st
  end.
Definition TurnChannelBindRequest_OnResponse (entry : Z) (now : Z) (st : TurnPort) : option TurnPort :=
  match entry_at entry st with
  | Some e => st ← OnChannelBindSuccess e st; SendChannelBindRequest e (TURN_PERMISSION_TIMEOUT - 60 * 1000) now st
  | None => Some st
  end.
Definition TurnChannelBindRequest_OnErrorResponse (entry : Z) (response : StunMessage) (now : Z) (st : TurnPort) : option TurnPort :=
  match entry_at entry st with
  | Some e => code ← error_code <$> GetErrorCode response; OnChannelBindError e response code now st
  | None => Some st
  end.

(** *** Callbacks and packets *)

Definition on_response (k : TurnRequest) (m : StunMessage) (now : Z) (st : TurnPort) : option TurnPort :=
  match k with
  | TurnAllocateRequest _ => TurnAllocateRequest_OnResponse m now st
  | TurnRefreshRequest _ => TurnRefreshRequest_OnResponse m now st
  | TurnCreatePermissionRequest e _ _ => Some (TurnCreatePermissionRequest_OnResponse e st)
  | TurnChannelBindRequest e _ _ _ => TurnChannelBindRequest_OnResponse e now st
  end.
Definition on_error_response (k : TurnRequest) (m : StunMessage) (now : Z) (st : TurnPort) : option TurnPort :=
  match k with
  | TurnAllocateRequest _ => TurnAllocateRequest_OnErrorResponse m now st
  | TurnRefreshRequest _ => TurnRefreshRequest_OnErrorResponse m now st
  | TurnCreatePermissionRequest e _ _ => TurnCreatePermissionRequest_OnErrorResponse e m now st
  | TurnChannelBindRequest e _ _ _ => TurnChannelBindRequest_OnErrorResponse e m now st
  end.
(** The events that a step of the manager logged; [objs] are the requests before it. *)
Fixpoint port_callbacks (objs : gmap Z (StunRequest (K := TurnRequest))) (now : Z) (evs : list (Z * event (K := TurnRequest)))
    (st : TurnPort) : option TurnPort :=
  match evs with
  | [] => Some st
  | (a, e) :: evs =>
      st ←
        match e with
        | Sent packet _ => TurnPort_Send packet st
        | OnResponse m => r ← objs !! a; on_response (r_kind r) m now st
        | OnErrorResponse m => r ← objs !! a; on_error_response (r_kind r) m now st
        | OnTimeout _ => r ← objs !! a; Some (match r_kind r with TurnAllocateRequest _ => TurnAllocateRequest_OnTimeout st | _ => st end)
        | Created _ => Some st
        end;
      port_callbacks objs now evs st
  end.
Definition manager_turn (now : Z) (f : StunRequestManager (K := TurnRequest) → option (StunRequestManager (K := TurnRequest)))
    (st : TurnPort) : option TurnPort :=
  let old := request_manager_ st in
  m ← f old;
  port_callbacks (objects old) now (drop (length (log old)) (log m)) (tp_manager m st).

Definition DispatchPacket (data : list Z) (remote : SocketAddress) (st : TurnPort) : TurnPort :=
  port_event (PortDispatchPacket remote data) st.
Definition HandleDataIndication (data : list Z) (st : TurnPort) : TurnPort :=
  match Read (StunMessage_new CTurn, ByteBuffer_of data ORDER_NETWORK) with
  | (Some true, (msg, _)) =>
      match attr_address <$> GetAddress msg STUN_ATTR_XOR_PEER_ADDRESS, GetByteString msg STUN_ATTR_DATA with
      | Some ext_addr, Some bytes =>
          if TurnPort_HasPermission (ip_ ext_addr) st then DispatchPacket bytes ext_addr st else st
      | _, _ => st
      end
  | _ => st
  end.
Definition TurnPort_HandleChannelData (channel_id : Z) (data : list Z) (st : TurnPort) : TurnPort :=
  let len := GetBE16 data 2 in
  if zlen data - 4 <? len then st
  else
    match FindEntry_channel channel_id st with
    | Some e => DispatchPacket (ztake len (zdrop 4 data)) (ext_addr_ e) st
    | None => st
    end.
Definition is_channel_data (msg_type : Z) : bool := Z.land msg_type 49152 =? 16384.
Definition TurnPort_OnReadPacket (data : list Z) (remote_addr : SocketAddress) (now : Z) (st : TurnPort) : option TurnPort :=
  if negb (SocketAddress_eqb remote_addr (pa_address (server_address_ st))) then Some st
  else if zlen data <? 4 then Some st
  else
    let msg_type := GetBE16 data 0 in
    if is_channel_data msg_type then Some (TurnPort_HandleChannelData msg_type data st)
    else if msg_type =? TURN_DATA_INDICATION then Some (HandleDataIndication data st)
    else if shared_socket_ st && ((msg_type =? STUN_BINDING_RESPONSE) || (msg_type =? STUN_BINDING_ERROR_RESPONSE)) then Some st
    else
      valid ← (if IsStunSuccessResponseType msg_type then ValidateMessageIntegrity data (hash_p st) else Some true);
      if negb (valid : bool) then Some st
      else manager_turn now (λ m, snd <$> CheckResponseData data m) st.
Definition TurnPort_OnReadyToSend (st : TurnPort) : TurnPort := if connected_ st then port_event PortReadyToSend st else st.

(** The thread dispatches a message of a request, or one that the port posted. *)
Definition port_dispatch (now : Z) (st : TurnPort) : option TurnPort := manager_turn now (dispatch now) st.
Definition TurnPort_OnMessage (message_id : Z) (factory : bool) (now : Z) (st : TurnPort) : option TurnPort :=
  if message_id =? MSG_ERROR then Some (port_event PortError st)
  else if message_id =? MSG_ALLOCATE_MISMATCH then OnAllocateMismatch factory now st
  else Some st.
Definition port_take_message (factory : bool) (now : Z) (st : TurnPort) : option TurnPort :=
  match posted st with
  | [] => Some st
  | id :: rest => TurnPort_OnMessage id factory now (tp_posted rest st)
  end.
(** The destructor destroys the entries one by one. *)
Fixpoint destroy_entries (n : nat) (st : TurnPort) : option TurnPort :=
  match n, entries_ st with
  | _, [] => Some st
  | O, _ => None
  | S n, e :: _ => st ← DestroyEntry (ext_addr_ e) st; destroy_entries n st
  end.
Definition TurnPort_delete (st : TurnPort) : option TurnPort := destroy_entries (length (entries_ st)) st.

(** ** Uses of the port *)

Inductive turn_port_op :=
  | PPrepareAddress (factory : bool)
  | PSocketConnect (local remote : SocketAddress)
  | PSocketClose
  | PResolveResult (resolved : SocketAddress + Z) (factory : bool)
  | PReadPacket (data : list Z) (remote : SocketAddress)
  | PReadyToSend
  | PCreateConnection (udp : bool) (address : SocketAddress)
  | PConnectionDestroyed (remote : SocketAddress)
  | PSendTo (data : list Z) (addr : SocketAddress) (payload : bool) (sent : Z)
  | PTakeMessage (factory : bool)
  | PDispatch.
Definition port_step (o : turn_port_op) (now : Z) (st : TurnPort) : option TurnPort :=
  match o with
  | PPrepareAddress factory => PrepareAddress factory now st
  | PSocketConnect local remote => OnSocketConnect local remote now st
  | PSocketClose => Some (OnSocketClose st)
  | PResolveResult resolved factory => OnResolveResult resolved factory now st
  | PReadPacket data remote => TurnPort_OnReadPacket data remote now st
  | PReadyToSend => Some (TurnPort_OnReadyToSend st)
  | PCreateConnection udp address => CreateConnection udp address now st
  | PConnectionDestroyed remote => OnConnectionDestroyed remote st
  | PSendTo data addr payload sent => snd <$> TurnPort_SendTo data addr payload sent now st
  | PTakeMessage factory => port_take_message factory now st
  | PDispatch => port_dispatch now st
  end.
End port.

(** ** The requests keep the laws of the manager *)

Lemma AddRequestAuthInfo_id `{Platform} port m : m_transaction_id (AddRequestAuthInfo port m) = m_transaction_id m.
Proof. unfold AddRequestAuthInfo. by rewrite AddMessageIntegrity_id, !add_id. Qed.
#[export] Program Instance TurnRequest_laws `{Platform} : RequestLaws TurnRequest := {| max_sends _ := MAX_SENDS |}.
Next Obligation.
  intros ? [port|port|e addr port|e id addr port] m; unfold Prepare, TurnRequest_class, TurnRequest_Prepare.
  - unfold TurnAllocateRequest_Prepare. destruct (ai_hash port); by rewrite ?AddRequestAuthInfo_id, add_id.
  - unfold TurnRefreshRequest_Prepare. by rewrite AddRequestAuthInfo_id.
  - unfold TurnCreatePermissionRequest_Prepare. by rewrite AddRequestAuthInfo_id, add_id.
  - unfold TurnChannelBindRequest_Prepare. by rewrite AddRequestAuthInfo_id, !add_id.
Qed.
Next Obligation. done. Qed.
Next Obligation. intros ? k n. apply StunRequest_GetNextDelay_count. Qed.
