(* ===== verification/TurnTrust.v ===== *)
(** * What the TURN client believes

    Everything that the client port of [TurnPort] lets out: the packets it sends, the
    candidate it announces and the data it hands to connections, each with what made the
    port do it.  For any state of the port and any operation. *)

From stdpp Require Import strings.
From S2P Require Import Prelude ByteOrder ByteBuffer IpAddress Stun StunWire StunIntegrity StunTyped StunBuild TimeUtils MessageQueue StunRequest TurnPort.

(** Case analysis of the options that a defined computation goes through. *)
Ltac run_step H :=
  match type of H with
  | context [@mbind option _ _ _ _ ?m] => let E := fresh "E" in destruct m eqn:E; cbn [mbind option_bind] in H; [|discriminate H]
  | Some _ = Some _ => injection H as <-
  | context [if ?b then _ else _] => let E := fresh "E" in destruct b eqn:E
  | context [match ?x with Some _ => _ | None => _ end] => let E := fresh "E" in destruct x eqn:E
  | context [let '(_, _) := ?x in _] => let E := fresh "E" in destruct x eqn:E
  | context [match ?x with pair _ _ => _ end] => let E := fresh "E" in destruct x eqn:E
  end.

(** ** Steps that let nothing out *)

Definition mute (st st' : TurnPort) : Prop := port_events st' = port_events st ∧ connected_ st' = connected_ st.
Lemma mute_refl st : mute st st.
Proof. done. Qed.
Lemma mute_trans a b c : mute a b → mute b c → mute a c.
Proof. intros [E F] [E' F']. split; congruence. Qed.

Section trust.
Context `{Platform} (random_id : Z → list Z).

Lemma SendRequest_shape k delay now st st' : TurnPort_SendRequest random_id k delay now st = Some st' →
  ∃ m, st' = tp_manager m (tp_next (next_object st + 1) st).
Proof. unfold TurnPort_SendRequest. intros E. repeat run_step E; try done. by eexists. Qed.
Lemma SendRequest_mute k delay now st st' : TurnPort_SendRequest random_id k delay now st = Some st' → mute st st'.
Proof. by intros [m ->]%SendRequest_shape. Qed.
Lemma set_realm_mute realm st st' : set_realm realm st = Some st' → mute st st'.
Proof. unfold set_realm, UpdateHash. intros E. by repeat run_step E. Qed.
Lemma UpdateNonce_mute response st ok st' : UpdateNonce response st = Some (ok, st') → mute st st'.
Proof.
  unfold UpdateNonce. destruct (GetByteString response STUN_ATTR_REALM); [|by intros [= _ <-]].
  destruct (set_realm _ st) as [st1|] eqn:Er; [|done]. cbn [mbind option_bind]. apply set_realm_mute in Er.
  destruct (GetByteString response STUN_ATTR_NONCE); by intros [= _ <-].
Qed.
Lemma ScheduleRefresh_mute lifetime now st ok st' : ScheduleRefresh random_id lifetime now st = Some (ok, st') → mute st st'.
Proof.
  unfold ScheduleRefresh. destruct (_ <? _); [by intros [= _ <-]|]. destruct (_ <=? _); [done|].
  destruct (TurnPort_SendRequest _ _ _ _ _) as [st1|] eqn:E; [|done]. intros [= _ <-]. by eapply SendRequest_mute.
Qed.
Lemma CreateEntry_mute addr now st st' : CreateEntry random_id addr now st = Some st' → mute st st'.
Proof.
  unfold CreateEntry. destruct (FindEntry_address addr st); [done|]. intros E.
  destruct (SendCreatePermissionRequest _ _ _ _) as [st1|] eqn:Es; [|done]. injection E as <-.
  apply SendRequest_mute in Es. exact Es.
Qed.
Lemma CreateTurnClientSocket_mute factory st ok st' : CreateTurnClientSocket factory st = Some (ok, st') → mute st st'.
Proof.
  unfold CreateTurnClientSocket. destruct (_ && _); [done|]. destruct (_ && _); [done|].
  destruct (_ || _); destruct (negb _); by intros [= _ <-].
Qed.
Lemma OnAuthChallenge_mute response code now st st' : OnAuthChallenge random_id response code now st = Some st' → mute st st'.
Proof.
  unfold OnAuthChallenge. destruct (_ && _); [by intros [= <-]|]. destruct (GetByteString response STUN_ATTR_REALM); [|by intros [= <-]].
  destruct (set_realm _ st) as [st1|] eqn:Er; [|done]. cbn [mbind option_bind]. apply set_realm_mute in Er.
  destruct (GetByteString response STUN_ATTR_NONCE); [|by intros [= <-]].
  intros Es%SendRequest_mute. by apply (mute_trans _ _ _ Er).
Qed.
Lemma SetAlternateServer_mute address st ok st' : SetAlternateServer address st = (ok, st') → mute st st'.
Proof.
  unfold SetAlternateServer, attempt. destruct (attempted address st); [by intros [= _ <-]|]. destruct (negb _); [by intros [= _ <-]|].
  destruct (attempted _ _); by intros [= _ <-].
Qed.
Lemma OnTryAlternate_mute response now st st' : OnTryAlternate random_id response now st = Some st' → mute st st'.
Proof.
  unfold OnTryAlternate. destruct (negb _); [by intros [= <-]|]. destruct (attr_address <$> _); [|by intros [= <-]].
  destruct (SetAlternateServer _ st) as [ok st1] eqn:Ea. apply SetAlternateServer_mute in Ea. destruct (negb ok); [by intros [= <-]|].
  destruct (match GetByteString response STUN_ATTR_REALM with Some _ => _ | None => _ end) as [st2|] eqn:Er; [|done]. cbn [mbind option_bind].
  intros Es%SendRequest_mute. apply (mute_trans _ _ _ Ea), (mute_trans _ st2); [|by destruct (GetByteString response STUN_ATTR_NONCE)].
  destruct (GetByteString response STUN_ATTR_REALM); [by apply set_realm_mute in Er|by injection Er as <-].
Qed.
Lemma allocate_error_mute response now st st' : TurnAllocateRequest_OnErrorResponse random_id response now st = Some st' → mute st st'.
Proof.
  unfold TurnAllocateRequest_OnErrorResponse. destruct (error_code <$> _) as [code|]; [|done]. cbn [mbind option_bind].
  destruct (_ =? _); [apply OnAuthChallenge_mute|]. destruct (_ =? _); [apply OnTryAlternate_mute|]. destruct (_ =? _); by intros [= <-].
Qed.
Lemma refresh_error_mute response now st st' : TurnRefreshRequest_OnErrorResponse random_id response now st = Some st' → mute st st'.
Proof.
  unfold TurnRefreshRequest_OnErrorResponse. destruct (error_code <$> _) as [code|]; [|done]. cbn [mbind option_bind].
  destruct (_ =? _); [|by intros [= <-]]. destruct (UpdateNonce response st) as [[ok st1]|] eqn:Eu; [|done]. cbn [mbind option_bind].
  apply UpdateNonce_mute in Eu. destruct ok; [intros Es%SendRequest_mute; by apply (mute_trans _ _ _ Eu)|by intros [= <-]].
Qed.
Lemma bind_error_mute entry response now st st' : TurnChannelBindRequest_OnErrorResponse random_id entry response now st = Some st' → mute st st'.
Proof.
  unfold TurnChannelBindRequest_OnErrorResponse. destruct (entry_at entry st); [|by intros [= <-]].
  destruct (error_code <$> _) as [code|]; [|done]. cbn [mbind option_bind]. unfold OnChannelBindError.
  destruct (_ =? _); [|by intros [= <-]]. destruct (UpdateNonce response st) as [[ok st1]|] eqn:Eu; [|done]. cbn [mbind option_bind].
  apply UpdateNonce_mute in Eu. destruct ok; [intros Es%SendRequest_mute; by apply (mute_trans _ _ _ Eu)|by intros [= <-]].
Qed.
Lemma bind_response_mute entry now st st' : TurnChannelBindRequest_OnResponse random_id entry now st = Some st' → mute st st'.
Proof.
  unfold TurnChannelBindRequest_OnResponse. destruct (entry_at entry st) as [e|]; [|by intros [= <-]].
  destruct (OnChannelBindSuccess e st) as [st1|] eqn:Eb; [|done]. cbn [mbind option_bind]. intros Es%SendRequest_mute.
  apply (mute_trans _ st1); [|done]. unfold OnChannelBindSuccess in Eb. by destruct (bind_state e); [|injection Eb as <-..].
Qed.

(** ** What is logged by a step of the manager *)

Lemma delete_request_log a (m m' : StunRequestManager (K := TurnRequest)) : delete_request a m = Some m' → log m' = log m.
Proof.
  unfold delete_request. destruct (objects m !! a) as [r|] eqn:E; [|done]. cbn [mbind option_bind]. destruct (has_manager r).
  - unfold Remove. rewrite E. cbn [mbind option_bind]. destruct (requests_ m !! _); by intros [= <-].
  - by intros [= <-].
Qed.
(** A packet that answers the request [r] of the manager with [msg]. *)
Definition answers_request (data : list Z) (m : StunRequestManager (K := TurnRequest)) (a : Z) (r : StunRequest (K := TurnRequest)) (msg : StunMessage) : Prop :=
  ∃ c b, Read (StunMessage_new c, ByteBuffer_of data ORDER_NETWORK) = (Some true, (msg, b)) ∧
    requests_ m !! m_transaction_id msg = Some a ∧ objects m !! a = Some r.
Lemma CheckResponseData_log data (m m' : StunRequestManager (K := TurnRequest)) ok : CheckResponseData data m = Some (ok, m') →
  log m' = log m ∨ ∃ a r msg, answers_request data m a r msg ∧
    (m_type msg = GetStunSuccessResponseType (m_type (r_msg r)) ∧ log m' = log m ++ [(a, OnResponse msg)] ∨
     log m' = log m ++ [(a, OnErrorResponse msg)]).
Proof.
  unfold CheckResponseData. destruct (_ <? _); [intros [= _ <-]; by left|]. destruct (requests_ m !! _) as [a0|]; [|intros [= _ <-]; by left].
  destruct (objects m !! a0) as [r0|]; [|done]. cbn [mbind option_bind]. destruct (Read _) as [[[]|] [msg b]] eqn:Erd; try (intros [= _ <-]; by left).
  unfold CheckResponse. destruct (requests_ m !! m_transaction_id msg) as [a|] eqn:Er; [|intros [= _ <-]; by left].
  destruct (objects m !! a) as [r|] eqn:E; [|done]. cbn [mbind option_bind].
  assert (answers_request data m a r msg) as Ha by (by exists (m_class (r_msg r0)), b).
  destruct (Z.eqb_spec (m_type msg) (GetStunSuccessResponseType (m_type (r_msg r)))) as [Et|_]; [|destruct (_ =? _); [|intros [= _ <-]; by left]];
    (destruct (delete_request a _) as [m1|] eqn:Ed; [|done]); intros [= _ <-]; apply delete_request_log in Ed; right; exists a, r, msg.
  - split; [done|]. left. by rewrite Ed.
  - split; [done|]. right. by rewrite Ed.
Qed.
Lemma dispatch_log now (m m' : StunRequestManager (K := TurnRequest)) : dispatch now m = Some m' →
  log m' = log m ∨ (∃ a packet, log m' = log m ++ [(a, Sent packet now)]) ∨ (∃ a, log m' = log m ++ [(a, OnTimeout now)]).
Proof.
  unfold dispatch. destruct (Get _ _ _ _) as [[[x w] q]|]; [|done]. cbn [mbind option_bind]. destruct x as [x|]; [|intros [= <-]; by left].
  unfold OnMessage. cbn [objects set_thread]. destruct (objects m !! phandler x) as [r|]; [|done]. cbn [mbind option_bind]. destruct (timeout_ r).
  - intros Ed%delete_request_log. right. right. exists (phandler x). by rewrite Ed.
  - destruct (GetNextDelay _ _ _) as [[delay count] timeout]. intros [= <-]. right. left. by eexists _, _.
Qed.

(** ** What is let out *)

Definition from_server (o : turn_port_op) (st : TurnPort) (data : list Z) : Prop :=
  ∃ remote, o = PReadPacket data remote ∧ SocketAddress_eqb remote (pa_address (server_address_ st)) = true.
(** Data of a peer in a packet of the server: on the channel of an entry, or in an
    indication for a host that an entry is for. *)
Definition carries (data : list Z) (st : TurnPort) (remote : SocketAddress) (payload : list Z) : Prop :=
  (∃ e, FindEntry_channel (GetBE16 data 0) st = Some e ∧ remote = ext_addr_ e ∧ GetBE16 data 2 ≤ zlen data - 4 ∧
     payload = ztake (GetBE16 data 2) (zdrop 4 data)) ∨
  (∃ msg b, Read (StunMessage_new CTurn, ByteBuffer_of data ORDER_NETWORK) = (Some true, (msg, b)) ∧
     attr_address <$> GetAddress msg STUN_ATTR_XOR_PEER_ADDRESS = Some remote ∧ GetByteString msg STUN_ATTR_DATA = Some payload ∧
     TurnPort_HasPermission (ip_ remote) st = true).
Definition justified (o : turn_port_op) (st : TurnPort) (e : turn_port_event) : Prop :=
  match e with
  | PortSend to _ => to = pa_address (server_address_ st)
  | PortAddAddress address _ _ => ∃ data a r msg auth, from_server o st data ∧ answers_request data (request_manager_ st) a r msg ∧
      r_kind r = TurnAllocateRequest auth ∧ ValidateMessageIntegrity data (hash_p st) = Some true ∧
      attr_address <$> GetAddress msg STUN_ATTR_XOR_RELAYED_ADDRESS = Some address
  | PortCreatePermissionResult address _ => ∃ data a r msg entry ext auth, from_server o st data ∧
      answers_request data (request_manager_ st) a r msg ∧ r_kind r = TurnCreatePermissionRequest entry ext auth ∧
      ext_addr_ <$> entry_at entry st = Some address
  | PortDispatchPacket remote payload => ∃ data, from_server o st data ∧ carries data st remote payload
  | _ => True
  end.
Definition evolves (P : turn_port_event → Prop) (st st' : TurnPort) : Prop :=
  ∃ l, port_events st' = port_events st ++ l ∧ Forall P l ∧
    (connected_ st' = connected_ st ∨ ∃ address related preference, PortAddAddress address related preference ∈ l).

Lemma mute_evolves P st st' : mute st st' → evolves P st st'.
Proof. intros [E C]. exists []. rewrite app_nil_r. auto. Qed.
Lemma event_evolves (P : turn_port_event → Prop) e st st' : P e → mute (port_event e st) st' → evolves P st st'.
Proof. intros He [E C]. exists [e]. split; [done|]. split; [by apply Forall_cons_2|]. by left. Qed.

Lemma PrepareAddress_evolves o s0 factory now st st' : PrepareAddress random_id factory now st = Some st' → evolves (justified o s0) st st'.
Proof.
  unfold PrepareAddress. destruct (_ || _); [intros [= <-]; by apply mute_evolves|].
  match goal with |- context [if _ =? 0 then ?a else ?b] => set (st1 := if _ =? 0 then a else b) end.
  assert (mute st st1) as H1 by (unfold st1; by destruct (_ =? _)). destruct (IsUnresolved _).
  { unfold ResolveTurnAddress. destruct (has_resolver st1); intros [= <-]; [by apply mute_evolves|].
    destruct H1 as [E1 C1]. eapply (event_evolves _ (PortResolve _)); [exact I|]. split; cbn; [by rewrite E1|done]. }
  destruct (negb _); [intros [= <-]; by apply mute_evolves|]. set (st2 := attempt _ st1).
  assert (mute st st2) as H2 by (apply (mute_trans _ _ _ H1); unfold st2, attempt; by destruct (attempted _ _)).
  destruct (CreateTurnClientSocket factory st2) as [[ok st3]|] eqn:Ec; [|done]. cbn [mbind option_bind].
  apply CreateTurnClientSocket_mute in Ec. pose proof (mute_trans _ _ _ H2 Ec) as H3. destruct (negb ok); [intros [= <-]; by apply mute_evolves|].
  destruct (bool_decide _); [|intros [= <-]; by apply mute_evolves]. intros Es%SendRequest_mute. by apply mute_evolves, (mute_trans _ st3).
Qed.

(** A success response has the type bits of one. *)
Lemma success_bits t : 0 ≤ GetStunSuccessResponseType t → IsStunSuccessResponseType (GetStunSuccessResponseType t) = true.
Proof.
  unfold GetStunSuccessResponseType, IsStunSuccessResponseType, IsStunRequestType. destruct (Z.eqb_spec (Z.land t kStunTypeMask) 0) as [E|]; [|done].
  intros _. apply Z.eqb_eq. by rewrite Z.land_lor_distr_l, E.
Qed.
Lemma response_checked data st a r msg k : bytes_ok data → answers_request data (request_manager_ st) a r msg →
  m_type msg = GetStunSuccessResponseType (m_type (r_msg r)) →
  (if IsStunSuccessResponseType (GetBE16 data 0) then ValidateMessageIntegrity data k else Some true) = Some true →
  ValidateMessageIntegrity data k = Some true.
Proof.
  intros Hd (c & b & Erd & _) Et. rewrite <- (read_type c data msg b Hd Erd), Et, success_bits; [done|].
  rewrite <- Et. pose proof (read_packet c data msg b Hd Erd) as (_ & Hr & _). apply Hr.
Qed.

(** The callbacks of the requests, for the packet [data] of the server. *)
Lemma on_response_evolves o data a r msg now st st1 : from_server o st data → answers_request data (request_manager_ st) a r msg →
  ValidateMessageIntegrity data (hash_p st) = Some true → mute st st1 → entries_ st1 = entries_ st →
  ∀ st', on_response random_id (r_kind r) msg now st1 = Some st' → evolves (justified o st) st st'.
Proof.
  intros Hs Ha Hv [E1 C1] En st'. destruct (r_kind r) as [auth|auth|e ext auth|e id ext auth] eqn:Ek; cbn [on_response].
  - unfold TurnAllocateRequest_OnResponse. destruct (attr_address <$> GetAddress msg STUN_ATTR_XOR_MAPPED_ADDRESS); [|intros [= <-]; by apply mute_evolves].
    destruct (attr_address <$> GetAddress msg STUN_ATTR_XOR_RELAYED_ADDRESS) as [relayed|] eqn:Er; [|intros [= <-]; by apply mute_evolves].
    destruct (GetUInt32 msg STUN_ATTR_TURN_LIFETIME); [|intros [= <-]; by apply mute_evolves].
    destruct (ScheduleRefresh _ _ _ _) as [[ok st2]|] eqn:Es; [|done]. intros [= <-]. apply ScheduleRefresh_mute in Es as [E2 C2].
    eexists [_]. split; [rewrite E2; cbn; by rewrite E1|]. split; [|right; eexists _, _, _; apply list_elem_of_here].
    apply Forall_cons_2, Forall_nil_2. by exists data, a, r, msg, auth.
  - unfold TurnRefreshRequest_OnResponse. destruct (GetUInt32 msg STUN_ATTR_TURN_LIFETIME); [|intros [= <-]; by apply mute_evolves].
    destruct (ScheduleRefresh _ _ _ _) as [[ok st2]|] eqn:Es; [|done]. intros [= <-]. apply ScheduleRefresh_mute in Es.
    by apply mute_evolves, (mute_trans _ st1).
  - intros [= <-]. unfold TurnCreatePermissionRequest_OnResponse, entry_at. rewrite En.
    destruct (find _ (entries_ st)) as [x|] eqn:Ef; [|by apply mute_evolves]. unfold OnCreatePermissionSuccess.
    eapply (event_evolves _ (PortCreatePermissionResult (ext_addr_ x) 0)); [|split; cbn; congruence].
    exists data, a, r, msg, e, ext, auth. unfold entry_at. by rewrite Ef.
  - intros Hb%bind_response_mute. by apply mute_evolves, (mute_trans _ st1).
Qed.
Lemma on_error_evolves o data a r msg now st st1 : from_server o st data → answers_request data (request_manager_ st) a r msg →
  mute st st1 → entries_ st1 = entries_ st →
  ∀ st', on_error_response random_id (r_kind r) msg now st1 = Some st' → evolves (justified o st) st st'.
Proof.
  intros Hs Ha [E1 C1] En st'. destruct (r_kind r) as [auth|auth|e ext auth|e id ext auth] eqn:Ek; cbn [on_error_response].
  - intros Hb%allocate_error_mute. by apply mute_evolves, (mute_trans _ st1).
  - intros Hb%refresh_error_mute. by apply mute_evolves, (mute_trans _ st1).
  - unfold TurnCreatePermissionRequest_OnErrorResponse, entry_at. rewrite En.
    destruct (find _ (entries_ st)) as [x|] eqn:Ef; [|intros [= <-]; by apply mute_evolves].
    destruct (error_code <$> _) as [code|]; [|done]. cbn [mbind option_bind]. unfold OnCreatePermissionError.
    destruct (_ =? _).
    + destruct (UpdateNonce msg st1) as [[ok st2]|] eqn:Eu; [|done]. cbn [mbind option_bind]. apply UpdateNonce_mute in Eu.
      pose proof (mute_trans _ _ _ (conj E1 C1) Eu) as H2. destruct ok; [|intros [= <-]; by apply mute_evolves].
      intros Es%SendRequest_mute. by apply mute_evolves, (mute_trans _ st2).
    + intros [= <-]. eapply (event_evolves _ (PortCreatePermissionResult (ext_addr_ x) code)); [|split; cbn; congruence].
      exists data, a, r, msg, e, ext, auth. unfold entry_at. by rewrite Ef.
  - intros Hb%bind_error_mute. by apply mute_evolves, (mute_trans _ st1).
Qed.

Lemma OnReadPacket_evolves data remote now st st' : bytes_ok data → TurnPort_OnReadPacket random_id data remote now st = Some st' →
  evolves (justified (PReadPacket data remote) st) st st'.
Proof.
  intros Hd. unfold TurnPort_OnReadPacket. destruct (SocketAddress_eqb _ _) eqn:Ea; cbn [negb]; [|intros [= <-]; by apply mute_evolves].
  assert (from_server (PReadPacket data remote) st data) as Hs by (by exists remote).
  destruct (_ <? 4); [intros [= <-]; by apply mute_evolves|]. destruct (is_channel_data _).
  { intros [= <-]. unfold TurnPort_HandleChannelData. destruct (Z.ltb_spec (zlen data - 4) (GetBE16 data 2)); [by apply mute_evolves|].
    destruct (FindEntry_channel _ st) as [e|] eqn:Ef; [|by apply mute_evolves]. eapply event_evolves; [|apply mute_refl].
    exists data. split; [done|]. left. by exists e. }
  destruct (_ =? _).
  { intros [= <-]. unfold HandleDataIndication. destruct (Read _) as [[[]|] [msg b]] eqn:Erd; try by apply mute_evolves.
    destruct (attr_address <$> _) as [ext|] eqn:Ee; [|by apply mute_evolves]. destruct (GetByteString _ _) as [bytes|] eqn:Eb; [|by apply mute_evolves].
    destruct (TurnPort_HasPermission _ _) eqn:Ep; [|by apply mute_evolves]. eapply event_evolves; [|apply mute_refl].
    exists data. split; [done|]. right. by exists msg, b. }
  destruct (_ && _); [intros [= <-]; by apply mute_evolves|].
  destruct (if IsStunSuccessResponseType _ then _ else _) as [valid|] eqn:Ev; [|done]. cbn [mbind option_bind].
  destruct valid; cbn [negb]; [|intros [= <-]; by apply mute_evolves]. unfold manager_turn.
  destruct (CheckResponseData data (request_manager_ st)) as [[ok m]|] eqn:Ec; [|done]. cbn [fmap option_fmap option_map mbind option_bind snd].
  destruct (CheckResponseData_log _ _ _ _ Ec) as [El|(a & r & msg & Hans & Hlog)].
  { rewrite El, drop_all. intros [= <-]. by apply mute_evolves. }
  pose proof Hans as (c & b & _ & _ & Eo). destruct Hlog as [[Et El]|El]; rewrite El, drop_app_length; cbn [port_callbacks];
    rewrite Eo; cbn [mbind option_bind].
  - destruct (on_response _ _ _ _ _) as [st2|] eqn:Eon; [|done]. intros [= <-].
    eapply (on_response_evolves _ data a r msg now st (tp_manager m st)); try done. by eapply response_checked.
  - destruct (on_error_response _ _ _ _ _) as [st2|] eqn:Eon; [|done]. intros [= <-].
    by eapply (on_error_evolves _ data a r msg now st (tp_manager m st)).
Qed.

(** ** The other operations *)

Lemma dispatch_evolves o now st st' : port_dispatch random_id now st = Some st' → evolves (justified o st) st st'.
Proof.
  unfold port_dispatch, manager_turn. destruct (dispatch now (request_manager_ st)) as [m|] eqn:Ed; [|done]. cbn [mbind option_bind].
  destruct (dispatch_log _ _ _ Ed) as [El|[(a & packet & El)|(a & El)]]; rewrite El, ?drop_all, ?drop_app_length; cbn [port_callbacks].
  - intros [= <-]. by apply mute_evolves.
  - unfold TurnPort_Send. destruct (has_socket _); [|done]. cbn [mbind option_bind]. intros [= <-]. by eapply (event_evolves _ (PortSend _ _)).
  - destruct (objects _ !! a) as [r|]; [|done]. cbn [mbind option_bind]. intros [= <-]. apply mute_evolves. by destruct (r_kind r).
Qed.
Lemma SendTo_evolves o data addr payload sent now st n st' : TurnPort_SendTo random_id data addr payload sent now st = Some (n, st') →
  evolves (justified o st) st st'.
Proof.
  unfold TurnPort_SendTo. destruct (FindEntry_address addr st) as [e|]; [|done]. cbn [mbind option_bind].
  destruct (connected_ st) eqn:Ec; cbn [negb]; [|intros [= _ <-]; by apply mute_evolves].
  destruct (TurnEntry_Send _ _ _ _ _ _) as [st1|] eqn:Es; [|done]. intros [= _ <-].
  assert (∀ packet s, mute st s → server_address_ s = server_address_ st → TurnPort_Send packet s = Some st1 → evolves (justified o st) st st1) as Hsend.
  { intros packet s [E C] Ea. unfold TurnPort_Send. destruct (has_socket s); [|done]. intros [= <-]. rewrite Ea.
    apply (event_evolves _ (PortSend (pa_address (server_address_ st)) packet)); [reflexivity|]. split; cbn; congruence. }
  unfold TurnEntry_Send in Es. destruct (bind_state e); [| |by eapply Hsend].
  1: destruct payload; rewrite ?bool_decide_eq_true_2 in Es by done; cbn [andb] in Es.
  - destruct (SendChannelBindRequest _ _ _ _ _) as [st2|] eqn:Eb; [|done]. apply SendRequest_shape in Eb as [m ->].
    by eapply Hsend; [..|exact Es].
  - by eapply Hsend; [..|exact Es].
  - by eapply Hsend; [..|exact Es].
Qed.
Lemma OnResolveResult_evolves o resolved factory now st st' : OnResolveResult random_id resolved factory now st = Some st' →
  evolves (justified o st) st st'.
Proof.
  unfold OnResolveResult. destruct resolved as [address|error].
  - intros (l & E & Hl & C)%(PrepareAddress_evolves o st). cbn in E, C. eexists (_ :: l). rewrite E, <- app_assoc. split; [done|].
    split; [by apply Forall_cons_2|]. destruct C as [C|(a & r & p & Hin)]; [by left|]. right. exists a, r, p. by right.
  - destruct (_ && _); [|intros [= <-]; by apply mute_evolves].
    destruct (CreateTurnClientSocket factory st) as [[ok st1]|] eqn:Ec; [|done]. cbn [mbind option_bind]. intros [= <-].
    apply CreateTurnClientSocket_mute in Ec. apply mute_evolves. by destruct ok.
Qed.
Lemma take_message_evolves o factory now st st' : port_take_message random_id factory now st = Some st' → evolves (justified o st) st st'.
Proof.
  unfold port_take_message. destruct (posted st) as [|id rest]; [intros [= <-]; by apply mute_evolves|]. unfold TurnPort_OnMessage.
  destruct (_ =? _); [intros [= <-]; by eapply (event_evolves _ PortError)|]. destruct (_ =? _); [|intros [= <-]; by apply mute_evolves].
  unfold OnAllocateMismatch. destruct (_ <=? _); [intros [= <-]; by apply mute_evolves|].
  destruct (PrepareAddress _ _ _ _) as [st1|] eqn:Ep; [|done]. intros [= <-]. apply (PrepareAddress_evolves o st) in Ep. exact Ep.
Qed.
Lemma step_evolves o now st st' : (∀ data remote, o = PReadPacket data remote → bytes_ok data) → port_step random_id o now st = Some st' →
  evolves (justified o st) st st'.
Proof.
  intros Hb. destruct o; cbn [port_step].
  - apply PrepareAddress_evolves.
  - unfold OnSocketConnect. destruct (negb _); [done|]. destruct (_ && _); [intros [= <-]; by apply mute_evolves|].
    intros Es%SendRequest_mute. apply mute_evolves. by destruct (IsUnresolved _).
  - intros [= <-]. unfold OnSocketClose. apply mute_evolves. by destruct (connected_ st).
  - apply OnResolveResult_evolves.
  - apply OnReadPacket_evolves. by eapply Hb.
  - intros [= <-]. unfold TurnPort_OnReadyToSend. destruct (connected_ st); [by apply (event_evolves _ PortReadyToSend)|by apply mute_evolves].
  - unfold CreateConnection. destruct (negb udp); [intros [= <-]; by apply mute_evolves|].
    destruct (negb _); [intros [= <-]; by apply mute_evolves|]. intros E%CreateEntry_mute. by apply mute_evolves.
  - unfold OnConnectionDestroyed, DestroyEntry. destruct (FindEntry_address _ _); [|done]. intros [= <-]. by apply mute_evolves.
  - destruct (TurnPort_SendTo _ _ _ _ _ _ _) as [[n st1]|] eqn:Es; [|done]. intros [= <-]. by eapply SendTo_evolves.
  - apply take_message_evolves.
  - apply dispatch_evolves.
Qed.

(** C6. What a TURN client lets out, for any state and any event.  It sends packets only to
    the server.  It announces a candidate, and becomes connected, only on a packet from
    the address of the server that answers a pending allocate request of it and whose
    HMAC holds under the key that it shares with the server; the candidate is the relayed
    address in that packet.  It reports the result of a permission only on a packet of the
    server that answers the request for it.  And it hands data to a connection only when a
    packet of the server carries them, on the channel of one of its entries, or in an
    indication for a host that it has an entry for. *)
Theorem turn_client_trusts o now st st' : (∀ data remote, o = PReadPacket data remote → bytes_ok data) →
  port_step random_id o now st = Some st' →
  ∃ l, port_events st' = port_events st ++ l ∧ Forall (justified o st) l ∧
    (connected_ st' = connected_ st ∨ ∃ address related preference, PortAddAddress address related preference ∈ l).
Proof. apply step_evolves. Qed.
End trust.

(** ** Witness *)

Definition sample_random (i : Z) : list Z := be_encode 12 i.
Definition trust_server : SocketAddress := SocketAddress_of (IPAddress_v4 [10; 0; 0; 2]) 3478.
Definition trust_key : list Z := text "0123456789abcdef".
(** A port with the credentials for the server, after it asked for an allocation. *)
Definition trust_port `{Platform} : option TurnPort :=
  PrepareAddress sample_random true 1000
    (tp_auth (text "realm") (text "nonce") trust_key
      (TurnPort_new (mkProtoAddr trust_server PROTO_UDP false) (text "user") (text "password") (IPAddress_v4 [192; 168; 1; 5]) true false)).
Definition trust_response `{Platform} : list Z :=
  let msg := Stun.mkMessage CTurn STUN_ALLOCATE_RESPONSE 0 (sample_random 1) [] in
  let msg := add (StunXorAddressAttribute STUN_ATTR_XOR_MAPPED_ADDRESS (SocketAddress_of (IPAddress_v4 [192; 168; 1; 5]) 5000)) msg in
  let msg := add (StunXorAddressAttribute STUN_ATTR_XOR_RELAYED_ADDRESS (SocketAddress_of (IPAddress_v4 [10; 0; 0; 1]) 49152)) msg in
  let msg := add (StunUInt32Attribute STUN_ATTR_LIFETIME 600) msg in
  Data (Write (AddMessageIntegrity msg trust_key).2 (ByteBuffer_new ORDER_NETWORK)).2.
Lemma turn_client_trusts_witness :
  let p := zero_platform in
  ∃ st st' l, trust_port = Some st ∧ connected_ st = false ∧
    port_step sample_random (PReadPacket trust_response trust_server) 1200 st = Some st' ∧ connected_ st' = true ∧
    port_events st' = port_events st ++ l ∧ Forall (justified (PReadPacket trust_response trust_server) st) l ∧
    ∃ address related preference, PortAddAddress address related preference ∈ l.
Proof.
  intros p. set (o := PReadPacket trust_response trust_server).
  assert (bytes_ok trust_response) as Hb by (apply bytes_okb; vm_compute; reflexivity).
  assert (match trust_port with
    | Some st => connected_ st = false ∧ match port_step sample_random o 1200 st with Some st' => connected_ st' = true | None => False end
    | None => False end) as Hv by (vm_compute; split; reflexivity).
  destruct trust_port as [st|]; [|destruct Hv]. destruct Hv as [Hc Hv].
  destruct (port_step sample_random o 1200 st) as [st'|] eqn:Es; [|destruct Hv].
  destruct (turn_client_trusts sample_random o 1200 st st') as (l & El & Hl & Hcon); [|exact Es|].
  - intros data remote E.
    exact (eq_ind trust_response bytes_ok Hb data (f_equal (λ x, match x with PReadPacket d _ => d | _ => [] end) E)).
  - exists st, st', l. split; [reflexivity|]. split; [exact Hc|]. split; [exact Es|]. split; [exact Hv|]. split; [exact El|]. split; [exact Hl|].
    destruct Hcon as [E|Hcon]; [rewrite Hv, Hc in E; discriminate E|exact Hcon].
Defined.

(** ** Packets without the key *)

(** The same port before it was challenged, so without a key. *)
Definition unkeyed_port `{Platform} : option TurnPort :=
  PrepareAddress sample_random true 1000
    (TurnPort_new (mkProtoAddr trust_server PROTO_UDP false) (text "user") (text "password") (IPAddress_v4 [192; 168; 1; 5]) true false).
(** A message of the type with the id of the request, and its wire. *)
Definition forged (type : Z) : StunMessage := Stun.mkMessage CTurn type 0 (sample_random 1) [].
Definition forged_success `{Platform} (lifetime : Z) : list Z :=
  let msg := add (StunXorAddressAttribute STUN_ATTR_XOR_MAPPED_ADDRESS trust_server) (forged STUN_ALLOCATE_RESPONSE) in
  let msg := add (StunXorAddressAttribute STUN_ATTR_XOR_RELAYED_ADDRESS (SocketAddress_of (IPAddress_v4 [6; 6; 6; 6]) 666)) msg in
  let msg := add (StunUInt32Attribute STUN_ATTR_LIFETIME lifetime) msg in
  Data (Write (AddMessageIntegrity msg []).2 (ByteBuffer_new ORDER_NETWORK)).2.
(** A challenge with an empty realm, to the request [i]. *)
Definition empty_challenge `{Platform} (i : Z) : list Z :=
  let msg := Stun.mkMessage CTurn STUN_ALLOCATE_ERROR_RESPONSE 0 (sample_random i) [] in
  let msg := add (StunErrorCodeAttribute STUN_ATTR_ERROR_CODE STUN_ERROR_UNAUTHORIZED []) msg in
  let msg := add (StunByteStringAttribute STUN_ATTR_REALM []) msg in
  Data (Write (add (StunByteStringAttribute STUN_ATTR_NONCE (text "nonce")) msg) (ByteBuffer_new ORDER_NETWORK)).2.

(** The port after it was sent the packets from the address of the server. *)
Definition exposed_to `{Platform} (packets : list (list Z)) : option TurnPort :=
  fold_left (λ o data, o ≫= TurnPort_OnReadPacket sample_random data trust_server 1200) packets unkeyed_port.

