(* ===== verification/TurnNet.v ===== *)
(** * A TURN client and its server

    The client port of [TurnPort] and the server of [TurnServer], on a network that
    delivers what they send each other: the packets of a step of the client go to the
    server at once, and its answers come back.  The two have clocks of their own. *)

From stdpp Require Import strings.
From S2P Require Import Prelude ByteOrder StringEncode ByteBuffer IpAddress Md5 MessageDigest Stun StunWire StunTyped StunIntegrity StunBuild TimeUtils MessageQueue StunRequest StunExchange TurnServer TurnSafe TurnSteps TurnRun TurnReact TurnRelay TurnPort TurnTrust.

(** ** The network *)

Record network := mkNet { net_client : TurnPort; net_server : TurnServer }.

Inductive net_op :=
  | NClient (o : turn_port_op) (now server_now : Z)
  | NPeer (allocation : Z) (data : list Z) (peer : SocketAddress) (random : list Z) (now : Z).

Section network.
Context `{Platform} (random_id : Z → list Z).
(** The client's address as the server sees it, the server's, its socket, and the
    address that its factory gives for an allocation. *)
Context (addr server : SocketAddress) (s : Z) (relay : SocketAddress).

Definition client_packets (cl cl' : TurnPort) : list (list Z) :=
  omap (λ e, match e with PortSend to p => if bool_decide (to = server) then Some p else None | _ => None end)
    (drop (length (port_events cl)) (port_events cl')).
Definition server_replies (sv sv' : TurnServer) : list (list Z) :=
  omap (λ e, match e with ToClient k to p => if (k =? s) && bool_decide (to = addr) then Some p else None | _ => None end)
    (drop (length (sent sv)) (sent sv')).
Fixpoint deliver_up (l : list (list Z)) (now : Z) (sv : TurnServer) : option TurnServer :=
  match l with
  | [] => Some sv
  | p :: l => sv ← turn_step (TPacket s p addr (Some relay) now) sv; deliver_up l now sv
  end.
Fixpoint deliver_down (l : list (list Z)) (now : Z) (cl : TurnPort) : option TurnPort :=
  match l with
  | [] => Some cl
  | p :: l => cl ← TurnPort_OnReadPacket random_id p server now cl; deliver_down l now cl
  end.
Definition net_step (o : net_op) (n : network) : option network :=
  match o with
  | NClient o now server_now =>
      cl ← port_step random_id o now (net_client n);
      sv ← deliver_up (client_packets (net_client n) cl) server_now (net_server n);
      cl ← deliver_down (server_replies (net_server n) sv) now cl;
      Some (mkNet cl sv)
  | NPeer a data peer random now =>
      sv ← turn_step (TPeer a data peer random) (net_server n);
      cl ← deliver_down (server_replies (net_server n) sv) now (net_client n);
      Some (mkNet cl sv)
  end.
Fixpoint net_run (ops : list net_op) (n : network) : option network :=
  match ops with
  | [] => Some n
  | o :: ops => n ← net_step o n; net_run ops n
  end.

Lemma new_packet cl cl1 p : port_events cl1 = port_events cl → client_packets cl (port_event (PortSend server p) cl1) = [p].
Proof. intros E. unfold client_packets. cbn [port_events port_event]. rewrite E, drop_app_length. cbn. by rewrite bool_decide_eq_true_2. Qed.
Lemma new_reply sv sv1 p : sent sv1 = sent sv → server_replies sv (send (ToClient s addr p) sv1) = [p].
Proof. intros E. unfold server_replies. cbn [sent send]. rewrite E, drop_app_length. cbn. by rewrite Z.eqb_refl, bool_decide_eq_true_2. Qed.
(** A step of the client that sends nothing. *)
Lemma net_silent o now u cl sv cl1 : port_step random_id o now cl = Some cl1 → port_events cl1 = port_events cl →
  net_step (NClient o now u) (mkNet cl sv) = Some (mkNet cl1 sv).
Proof.
  intros Ep Ee. cbn [net_step net_client net_server]. rewrite Ep. cbn [mbind option_bind]. unfold client_packets. rewrite Ee, drop_all.
  cbn [omap list_omap deliver_up mbind option_bind]. unfold server_replies. by rewrite drop_all.
Qed.
(** One packet to the server, and one back. *)
Lemma net_exchange o now u cl sv p cl1 reply sv1 cl2 :
  port_step random_id o now cl = Some (port_event (PortSend server p) cl1) → port_events cl1 = port_events cl →
  turn_step (TPacket s p addr (Some relay) u) sv = Some (send (ToClient s addr reply) sv1) → sent sv1 = sent sv →
  TurnPort_OnReadPacket random_id reply server now (port_event (PortSend server p) cl1) = Some cl2 →
  net_step (NClient o now u) (mkNet cl sv) = Some (mkNet cl2 (send (ToClient s addr reply) sv1)).
Proof.
  intros Ep Ee Et Es Er. cbn [net_step net_client net_server]. rewrite Ep. cbn [mbind option_bind]. rewrite new_packet by done.
  cbn [deliver_up]. rewrite Et. cbn [mbind option_bind]. rewrite new_reply by done. cbn [deliver_down]. rewrite Er. done.
Qed.
End network.

(** ** The requests of the client *)

Lemma written `{Platform} m : msg_ok m → Data (Write m (ByteBuffer_new ORDER_NETWORK)).2 = msg_wire m.
Proof.
  intros Hm. destruct (msg_ok_id m Hm) as [Hid _]. pose proof Hm as (_ & _ & _ & Ha & _). destruct (Write_new m Hid Ha) as (b & -> & (_ & _ & HD)). exact HD.
Qed.

Section requests.
Context `{Platform}.

Definition request_type (k : TurnRequest) : Z :=
  match k with
  | TurnAllocateRequest _ => STUN_ALLOCATE_REQUEST
  | TurnRefreshRequest _ => TURN_REFRESH_REQUEST
  | TurnCreatePermissionRequest _ _ _ => TURN_CREATE_PERMISSION_REQUEST
  | TurnChannelBindRequest _ _ _ _ => TURN_CHANNEL_BIND_REQUEST
  end.
Definition request_auth (k : TurnRequest) : auth_info :=
  match k with
  | TurnAllocateRequest auth | TurnRefreshRequest auth | TurnCreatePermissionRequest _ _ auth | TurnChannelBindRequest _ _ _ auth => auth
  end.
Definition request_attrs (k : TurnRequest) : list StunAttribute :=
  match k with
  | TurnAllocateRequest _ => [UInt32Attr STUN_ATTR_REQUESTED_TRANSPORT 4 (Z.shiftl 17 24)]
  | TurnRefreshRequest _ => []
  | TurnCreatePermissionRequest _ ext _ => [xor_attr STUN_ATTR_XOR_PEER_ADDRESS ext]
  | TurnChannelBindRequest _ id ext _ =>
      [UInt32Attr STUN_ATTR_CHANNEL_NUMBER 4 (u32 (Z.shiftl id 16)); xor_attr STUN_ATTR_XOR_PEER_ADDRESS ext]
  end.
Definition request_peer_ok (k : TurnRequest) : Prop :=
  match k with TurnCreatePermissionRequest _ ext _ | TurnChannelBindRequest _ _ ext _ => addr_ok ext | _ => True end.
Definition auth_attrs (auth : auth_info) : list StunAttribute :=
  [ByteStringAttr STUN_ATTR_USERNAME (zlen (ai_username auth)) (ai_username auth);
   ByteStringAttr STUN_ATTR_REALM (zlen (ai_realm auth)) (ai_realm auth);
   ByteStringAttr STUN_ATTR_NONCE (zlen (ai_nonce auth)) (ai_nonce auth)].
Record auth_ok (auth : auth_info) : Prop := {
  au_username : short (ai_username auth);
  au_realm : short (ai_realm auth);
  au_nonce : short (ai_nonce auth);
  au_hash : ai_hash auth ≠ [] ∧ bytes_ok (ai_hash auth)
}.

Lemma auth_attrs_fit auth tid : auth_ok auth → Forall (fits CTurn tid) (auth_attrs auth) ∧ attrs_size (auth_attrs auth) < 4000.
Proof.
  intros []. split.
  - repeat apply Forall_cons_2; [by apply string_fits..|apply Forall_nil_2].
  - unfold auth_attrs. change (?a :: ?b :: [?c]) with ([a] ++ [b] ++ [c]). rewrite !attrs_size_app.
    pose proof (string_size STUN_ATTR_USERNAME _ au_username0). pose proof (string_size STUN_ATTR_REALM _ au_realm0).
    pose proof (string_size STUN_ATTR_NONCE _ au_nonce0). lia.
Qed.
Lemma request_attrs_fit k tid : id_ok tid → request_peer_ok k →
  Forall (fits CTurn tid) (request_attrs k) ∧ 0 ≤ attrs_size (request_attrs k) < 100.
Proof.
  intros Hid Hp. cut (Forall (fits CTurn tid) (request_attrs k) ∧ attrs_size (request_attrs k) < 100).
  { intros [Hf Hs]. pose proof (attrs_size_nonneg _ _ _ Hf). auto. }
  destruct k as [auth|auth|e ext auth|e id ext auth]; cbn [request_attrs request_peer_ok] in *.
  - split; [|done]. apply Forall_cons_2, Forall_nil_2. by split.
  - split; [apply Forall_nil_2|done].
  - destruct (xor_fits STUN_ATTR_XOR_PEER_ADDRESS tid ext Hid Hp) as [F1 S1]; [done|done|]. split; [by apply Forall_cons_2, Forall_nil_2|lia].
  - destruct (xor_fits STUN_ATTR_XOR_PEER_ADDRESS tid ext Hid Hp) as [F1 S1]; [done|done|]. pose proof (u32_range (Z.shiftl id 16)).
    change (?a :: [?b]) with ([a] ++ [b]). rewrite attrs_size_app. change (attrs_size [UInt32Attr _ _ _]) with 8. split; [|lia].
    apply Forall_cons_2; [by split|]. by apply Forall_cons_2, Forall_nil_2.
Qed.
Lemma AddRequestAuthInfo_built auth type tid l : auth_ok auth → 0 ≤ type < 32768 → id_ok tid → Forall (fits CTurn tid) l → attrs_size l < 50000 →
  AddRequestAuthInfo auth (built CTurn type tid l) = protected type tid (l ++ auth_attrs auth) (ai_hash auth).
Proof.
  intros Ha Ht Hid Hl Hs. destruct (auth_attrs_fit auth tid Ha) as [Hf Hsz]. unfold AddRequestAuthInfo.
  rewrite (string_attr STUN_ATTR_USERNAME), (string_attr STUN_ATTR_REALM), (string_attr STUN_ATTR_NONCE) by apply Ha.
  assert (Forall (fits CTurn tid) (l ++ auth_attrs auth)) as Hall by (by apply Forall_app).
  pose proof (add_all CTurn type tid (auth_attrs auth) l Hall ltac:(rewrite attrs_size_app; lia)) as Eall.
  cbn [auth_attrs fold_left] in Eall. rewrite Eall. fold (auth_attrs auth).
  rewrite AddMessageIntegrity_value; [done| |apply Ha|cbn; rewrite attrs_size_app; lia].
  apply built_ok; [done|done|done|rewrite attrs_size_app; lia].
Qed.

Lemma new_message tid : id_ok tid → (SetTransactionID (StunMessage_new CTurn) tid).2 = built CTurn 0 tid [].
Proof. intros [_ Hl]. unfold SetTransactionID, IsValidTransactionId. rewrite Hl. done. Qed.
Lemma request_type_range k : 0 ≤ request_type k < 16384 ∧ IsStunRequestType (request_type k) = true ∧ request_type k ≠ STUN_BINDING_REQUEST.
Proof. by destruct k. Qed.
(** The message of a request that carries the credentials. *)
Definition request_message (k : TurnRequest) (tid : list Z) : StunMessage :=
  protected (request_type k) tid (request_attrs k ++ auth_attrs (request_auth k)) (ai_hash (request_auth k)).
Lemma Prepare_message k tid : id_ok tid → auth_ok (request_auth k) → request_peer_ok k →
  TurnRequest_Prepare k (built CTurn 0 tid []) = request_message k tid.
Proof.
  intros Hid Ha Hp. destruct (request_attrs_fit k tid Hid Hp) as [Hf Hs]. pose proof (request_type_range k) as [Ht _].
  unfold request_message. rewrite <- AddRequestAuthInfo_built by (done || lia).
  pose proof (add_all CTurn (request_type k) tid (request_attrs k) [] Hf ltac:(cbn [app]; lia)) as Eall. cbn [app] in Eall. rewrite <- Eall.
  destruct k as [auth|auth|e ext auth|e id ext auth]; try done. cbn [TurnRequest_Prepare request_auth]. unfold TurnAllocateRequest_Prepare.
  destruct (au_hash _ Ha) as [Hh _]. cbn in Hh. by destruct (ai_hash auth).
Qed.
Lemma prepared_message k tid : id_ok tid → auth_ok (request_auth k) → request_peer_ok k →
  r_msg (prepared k (StunMessage_new CTurn) tid) = request_message k tid.
Proof.
  intros Hid Ha Hp. unfold prepared, StunRequest_Construct, set_manager, StunRequest_new. cbn [r_msg r_kind]. rewrite new_message by done.
  cbn [m_type built Z.eqb r_msg]. by apply Prepare_message.
Qed.
(** The first allocate request, without credentials. *)
Definition first_request (tid : list Z) : StunMessage := built CTurn STUN_ALLOCATE_REQUEST tid [UInt32Attr STUN_ATTR_REQUESTED_TRANSPORT 4 (Z.shiftl 17 24)].
Lemma prepared_first auth tid : id_ok tid → ai_hash auth = [] →
  r_msg (prepared (TurnAllocateRequest auth) (StunMessage_new CTurn) tid) = first_request tid ∧ msg_ok (first_request tid).
Proof.
  intros Hid Hh. assert (Forall (fits CTurn tid) [UInt32Attr STUN_ATTR_REQUESTED_TRANSPORT 4 (Z.shiftl 17 24)]) as Hf.
  { apply Forall_cons_2, Forall_nil_2. by split. }
  split; [|by apply built_ok]. unfold prepared, StunRequest_Construct, set_manager, StunRequest_new. cbn [r_msg r_kind].
  rewrite new_message by done. cbn [m_type built Z.eqb r_msg]. unfold Prepare, TurnRequest_class, TurnRequest_Prepare, TurnAllocateRequest_Prepare.
  rewrite Hh. apply (add_built CTurn STUN_ALLOCATE_REQUEST tid []); [apply Forall_nil_2| |done]. by apply Forall_cons_1 in Hf as [? _].
Qed.
Lemma message_request_ok k tid : id_ok tid → auth_ok (request_auth k) → request_peer_ok k →
  request_ok (request_type k) tid (request_attrs k ++ auth_attrs (request_auth k)) (ai_hash (request_auth k))
    (ai_username (request_auth k)) (ai_nonce (request_auth k)).
Proof.
  intros Hid Ha Hp. destruct (request_attrs_fit k tid Hid Hp) as [Hf Hs]. destruct (auth_attrs_fit (request_auth k) tid Ha) as [Hfa Hsa].
  split; [apply request_type_range|done|by apply Forall_app|rewrite attrs_size_app; lia| |apply Ha|..].
  - apply Forall_app. split; [by destruct k; repeat constructor|by repeat constructor].
  - unfold GetByteString. destruct k; cbn; by rewrite ztake_all.
  - unfold GetByteString. destruct k; by eexists.
  - unfold GetByteString. destruct k; cbn; by rewrite ztake_all.
Qed.
Lemma request_wire k tid : id_ok tid → auth_ok (request_auth k) → request_peer_ok k →
  msg_ok (request_message k tid) ∧ Data (Write (request_message k tid) (ByteBuffer_new ORDER_NETWORK)).2 = msg_wire (request_message k tid).
Proof.
  intros Hid Ha Hp. destruct (protected_facts _ _ _ _ _ _ (message_request_ok k tid Hid Ha Hp)) as (Hm & _). split; [done|]. by apply written.
Qed.
End requests.

(** ** Steps of the client *)

(** The random strings are transaction ids, and those of the first objects differ. *)
Definition max_objects : Z := 4294967296.
Definition ids_ok (random_id : Z → list Z) : Prop :=
  (∀ i, id_ok (random_id i)) ∧ ∀ i j, 0 < i < max_objects → 0 < j < max_objects → random_id i = random_id j → i = j.

Section client.
Context `{Platform} (random_id : Z → list Z) (Hids : ids_ok random_id).
Implicit Types (m : StunRequestManager (K := TurnRequest)) (k : TurnRequest) (r : StunRequest (K := TurnRequest)).

(** The objects up to [n] were made, each with its random string. *)
Record fresh (n : Z) m : Prop := {
  fr_next : 0 < n;
  fr_ids : ∀ a r, objects m !! a = Some r → 0 < a < n ∧ req_id r = random_id a;
  fr_log : ∀ a, n ≤ a → events_of a (log m) = []
}.
Lemma fresh_new : fresh 1 StunRequestManager_new.
Proof. by split. Qed.
Lemma fresh_next n m k : fresh n m → n < max_objects → stun_op_ok m (ONew n k (StunMessage_new CTurn) (random_id n)).
Proof.
  intros [Hn Hi Hl] Hb. destruct Hids as [Hid Hd]. cbn [stun_op_ok]. split; [lia|]. split; [|split; [by apply Hl|]].
  - destruct (objects m !! n) as [r|] eqn:E; [|done]. destruct (Hi n r E). lia.
  - intros a r E. destruct (Hi a r E) as [Ha ->]. rewrite new_message by done. cbn. intros Eq. apply Hd in Eq; lia.
Qed.
Lemma prepared_id k tid : id_ok tid → req_id (prepared k (StunMessage_new CTurn) tid) = tid.
Proof. intros Ht. unfold prepared. destruct (Construct_fields (StunRequest_new k (StunMessage_new CTurn) tid)) as [-> _]. unfold req_id. cbn [StunRequest_new r_msg]. by rewrite new_message. Qed.
Lemma prepared_kind k msg tid : r_kind (prepared k msg tid) = k.
Proof. unfold prepared. by destruct (Construct_fields (StunRequest_new k msg tid)) as (_ & -> & _). Qed.
Lemma fresh_log_snoc n m a e : a < n → fresh n m → ∀ b, n ≤ b → events_of b (log m ++ [(a, e)]) = [].
Proof. intros Ha Hf b Hb. rewrite events_snoc, decide_False by lia. by apply Hf. Qed.
Lemma fresh_asked n m m' k : fresh n m → asked n (prepared k (StunMessage_new CTurn) (random_id n)) [Created k] m m' → fresh (n + 1) m'.
Proof.
  intros Hf [Eo Er El]. pose proof (fr_next _ _ Hf). split; [lia|..].
  - intros a r. rewrite Eo. intros [[<- <-]|[_ E]]%lookup_insert_Some.
    + split; [lia|]. apply prepared_id, Hids.
    + destruct (fr_ids _ _ Hf a r E). split; [lia|done].
  - intros a Ha. rewrite El. cbn [fmap list_fmap]. rewrite events_snoc, decide_False by lia. apply Hf. lia.
Qed.
Lemma fresh_sent n m m' a r e : fresh n m → 0 < a < n → req_id r = random_id a →
  objects m' = <[a := r]> (objects m) → log m' = log m ++ [(a, e)] → fresh n m'.
Proof.
  intros Hf Ha Hr Eo El. split; [apply Hf| |].
  - intros b x. rewrite Eo. intros [[<- <-]|[_ E]]%lookup_insert_Some; [done|by apply Hf].
  - rewrite El. apply fresh_log_snoc; [lia|done].
Qed.
Lemma fresh_ended n m m' a e : fresh n m → a < n → objects m' = delete a (objects m) → log m' = log m ++ [(a, e)] → fresh n m'.
Proof.
  intros Hf Ha Eo El. split; [apply Hf| |].
  - intros b x. rewrite Eo. intros [_ E]%lookup_delete_Some. by apply Hf.
  - rewrite El. by apply fresh_log_snoc.
Qed.

(** A port whose requests wait until [T]; and with the request [r] at [a] that was sent. *)
Definition idle (T : Z) (st : TurnPort) : Prop := quiet T (request_manager_ st) ∧ fresh (next_object st) (request_manager_ st) ∧ has_socket st = true.
Definition ready (a t T : Z) (r : StunRequest (K := TurnRequest)) (st : TurnPort) : Prop :=
  due a t T (request_manager_ st) ∧ fresh (next_object st) (request_manager_ st) ∧ has_socket st = true ∧
  objects (request_manager_ st) !! a = Some r ∧ requests_ (request_manager_ st) !! random_id a = Some a ∧ timeout_ r = false.
Definition awaits (a T : Z) (r : StunRequest (K := TurnRequest)) (st : TurnPort) : Prop :=
  quiet_but a T (request_manager_ st) ∧ fresh (next_object st) (request_manager_ st) ∧ has_socket st = true ∧
  objects (request_manager_ st) !! a = Some r ∧ requests_ (request_manager_ st) !! random_id a = Some a.

(** A request of the kind waits to be sent at a time. *)
Definition will_send (a : Z) (k : TurnRequest) (t : Z) (st : TurnPort) : Prop :=
  (∃ r, objects (request_manager_ st) !! a = Some r ∧ r_kind r = k) ∧ timed a t (request_manager_ st).

Lemma SendRequest_ready k now T st : idle T st → next_object st < max_objects → 0 ≤ now < T → T ≤ HALF →
  match k with TurnAllocateRequest _ => True | _ => hash_p st ≠ [] end →
  let a := next_object st in
  ∃ m, TurnPort_SendRequest random_id k 0 now st = Some (tp_manager m (tp_next (a + 1) st)) ∧
    ready a now T (prepared k (StunMessage_new CTurn) (random_id a)) (tp_manager m (tp_next (a + 1) st)).
Proof.
  intros (Hq & Hf & Hsock) Hb Hn HT Hk a. pose proof (fresh_next _ _ k Hf Hb) as Hop.
  destruct (send_due a k (StunMessage_new CTurn) (random_id a) now T _ Hq Hop Hn HT) as (m & Es & Hd & Hr). exists m. split.
  - unfold TurnPort_SendRequest. fold a.
    assert (match k with TurnAllocateRequest _ => true | _ => negb (bool_decide (hash_p st = [])) end = true) as ->
      by (destruct k; try done; by rewrite bool_decide_eq_false_2).
    cbn [negb]. by rewrite Es.
  - split; [done|]. split; [by eapply fresh_asked|]. split; [done|]. cbn [request_manager_ tp_manager tp_next]. rewrite (rd_objects _ _ _ _ _ Hr).
    rewrite (rd_requests _ _ _ _ _ Hr), prepared_id by apply Hids. rewrite !lookup_insert_eq. split; [done|]. split; [done|].
    unfold prepared. by destruct (Construct_fields (StunRequest_new k (StunMessage_new CTurn) (random_id a))) as (_ & _ & _ & -> & _).
Qed.
Lemma SendRequest_later k delay now T st : idle T st → next_object st < max_objects → 0 ≤ now + delay → T ≤ now + delay < HALF →
  match k with TurnAllocateRequest _ => True | _ => hash_p st ≠ [] end →
  let a := next_object st in
  ∃ m, TurnPort_SendRequest random_id k delay now st = Some (tp_manager m (tp_next (a + 1) st)) ∧ idle T (tp_manager m (tp_next (a + 1) st)) ∧
    will_send a k (now + delay) (tp_manager m (tp_next (a + 1) st)).
Proof.
  intros (Hq & Hf & Hsock) Hb H0' Hn Hk a. pose proof (fresh_next _ _ k Hf Hb) as Hop.
  destruct (send_later a k (StunMessage_new CTurn) (random_id a) delay now T _ Hq Hop H0' Hn) as (m & Es & Hd & Hr & Htm). exists m. split.
  - unfold TurnPort_SendRequest. fold a.
    assert (match k with TurnAllocateRequest _ => true | _ => negb (bool_decide (hash_p st = [])) end = true) as ->
      by (destruct k; try done; by rewrite bool_decide_eq_false_2).
    cbn [negb]. by rewrite Es.
  - split; [split; [done|]; split; [by eapply fresh_asked|done]|]. split; [|exact Htm]. exists (prepared k (StunMessage_new CTurn) (random_id a)).
    cbn [request_manager_ tp_manager]. by rewrite (rd_objects _ _ _ _ _ Hr), lookup_insert_eq, prepared_kind.
Qed.

Lemma awaits_event a T r e st : awaits a T r st → awaits a T r (port_event e st).
Proof. done. Qed.
Lemma dispatch_ready a t td T r st : ready a t T r st → 0 ≤ t ≤ td → td < T → T ≤ HALF → msg_ok (r_msg r) →
  ∃ m r', port_dispatch random_id td st = Some (port_event (PortSend (pa_address (server_address_ st)) (msg_wire (r_msg r))) (tp_manager m st)) ∧
    r_kind r' = r_kind r ∧ r_msg r' = r_msg r ∧ awaits a T r' (tp_manager m st).
Proof.
  intros (Hd & Hf & Hs & Eo & Er & Et) Ht Htd HT Hm. destruct (fr_ids _ _ Hf a r Eo) as [Ha Hrid].
  destruct (due_dispatch a r t td T _ Hd Eo Et Ht Htd HT) as (m & r' & Ed & Hq & Ek & Em & Eo' & Er' & El). exists m, r'. split.
  - unfold port_dispatch, manager_turn. rewrite Ed. cbn [mbind option_bind]. rewrite El, drop_app_length. cbn [port_callbacks].
    unfold TurnPort_Send. cbn [has_socket tp_manager]. rewrite Hs. cbn [mbind option_bind]. by rewrite written.
  - split; [done|]. split; [done|]. split; [done|]. cbn [request_manager_ tp_manager next_object has_socket].
    split; [by eapply fresh_sent; [..|unfold req_id; rewrite Em|done|done]|]. split; [done|]. rewrite Eo', Er', lookup_insert_eq. done.
Qed.

(** What is called when the answer comes. *)
Definition callback (k : TurnRequest) (e : event (K := TurnRequest)) (now : Z) (st : TurnPort) : option TurnPort :=
  match e with OnResponse m => on_response random_id k m now st | OnErrorResponse m => on_error_response random_id k m now st | _ => None end.
Lemma read_answer a T r st msg e server now : awaits a T r st → pa_address (server_address_ st) = server → ip_ok (ip_ server) →
  m_type (r_msg r) = request_type (r_kind r) → m_class (r_msg r) = CTurn →
  answer r msg e → m_transaction_id msg = random_id a → msg_ok msg → m_class msg = CTurn →
  (e = OnResponse msg → ValidateMessageIntegrity (msg_wire msg) (hash_p st) = Some true) →
  ∃ m, TurnPort_OnReadPacket random_id (msg_wire msg) server now st = callback (r_kind r) e now (tp_manager m st) ∧ idle T (tp_manager m st).
Proof.
  intros (Hq & Hf & Hs & Eo & Er) Eserver Hip Ht Hc Hans Hid Hm Hcm Hval. destruct (fr_ids _ _ Hf a r Eo) as [Ha Hrid].
  destruct Hids as [Hidok _]. assert (zlen (m_transaction_id msg) = 12) as H12 by (rewrite Hid; apply Hidok).
  destruct (answered a r msg e T _ Hq Eo) as (m & Ec & Hq' & El & Er' & Eo'); [by rewrite Hid|done|done|done|congruence|]. exists m. split.
  - unfold TurnPort_OnReadPacket. rewrite Eserver, (proj2 (SocketAddress_eqb_spec server server Hip Hip)) by done. cbn [negb].
    destruct (wire_id msg H12) as [_ Hlen]. rewrite (proj2 (Z.ltb_ge _ 4)) by lia.
    assert (GetBE16 (msg_wire msg) 0 = m_type msg) as ->.
    { pose proof Hm as (? & _). apply (GetBE16_word []); [unfold is_u16; lia|done]. }
    destruct Hans as [_ Hans]. rewrite Ht in Hans.
    assert (is_channel_data (m_type msg) = false ∧ (m_type msg =? TURN_DATA_INDICATION) = false ∧
      ((m_type msg =? STUN_BINDING_RESPONSE) || (m_type msg =? STUN_BINDING_ERROR_RESPONSE)) = false ∧
      (IsStunSuccessResponseType (m_type msg) = true → e = OnResponse msg)) as (-> & -> & -> & Hsucc)
      by (destruct (r_kind r), Hans as [[-> ->]|[-> ->]]; done).
    rewrite andb_false_r.
    assert ((if IsStunSuccessResponseType (m_type msg) then ValidateMessageIntegrity (msg_wire msg) (hash_p st) else Some true) = Some true) as ->
      by (destruct (IsStunSuccessResponseType _); [by apply Hval, Hsucc|done]).
    cbn [mbind option_bind negb]. unfold manager_turn. rewrite Ec. cbn [fmap option_fmap option_map snd mbind option_bind].
    rewrite El, drop_app_length. cbn [port_callbacks]. destruct Hans as [[_ ->]|[_ ->]]; rewrite Eo; cbn [mbind option_bind callback].
    + by destruct (on_response _ _ _ _ _).
    + by destruct (on_error_response _ _ _ _ _).
  - split; [done|]. cbn [request_manager_ tp_manager next_object has_socket]. split; [|done]. eapply fresh_ended; [done| |done|done]. lia.
Qed.
End client.

(** ** A client and a server that it has the credentials for *)

Record world := mkWorld {
  w_addr : SocketAddress; w_server : SocketAddress; w_socket : Z; w_relay : SocketAddress;
  w_user : list Z; w_password : list Z; w_ip : IPAddress; w_reflexive : bool; w_shared : bool; w_secure : bool
}.
Definition client_of (w : world) : TurnPort :=
  TurnPort_new (mkProtoAddr (w_server w) PROTO_UDP (w_secure w)) (w_user w) (w_password w) (w_ip w) (w_reflexive w) (w_shared w).
(** The server can allocate for the client, with the key that its password gives; the
    address of the server is one that the client can use. *)
Record world_ok `{Platform} (w : world) (sv : TurnServer) (key : list Z) : Prop := {
  wo_allocate : can_allocate sv (w_socket w) (w_addr w) (w_relay w) (w_user w) key;
  wo_key : ComputeStunCredentialHash (w_user w) (realm_ (config sv)) (w_password w) = Some key;
  wo_user : short (w_user w) ∧ w_user w ≠ [];
  wo_password : bytes_ok (w_password w) ∧ w_password w ≠ [];
  wo_realm : realm_ (config sv) ≠ [];
  wo_server : ip_ok (ip_ (w_server w)) ∧ port_ (w_server w) ≠ 0 ∧ IsUnresolved (w_server w) = false;
  wo_compatible : IsCompatibleAddress (w_ip w) (w_server w) = true
}.

Section connect.
Context `{Platform} (random_id : Z → list Z) (Hids : ids_ok random_id) (w : world).

Lemma world_key sv key : world_ok w sv key → key ≠ [] ∧ bytes_ok key.
Proof.
  intros []. pose proof (ca_config _ _ _ _ _ _ wo_allocate0) as (_ & [Hr _] & _). destruct wo_user0 as [[Hu _] _], wo_password0 as [Hp _].
  rewrite ComputeStunCredentialHash_md5 in wo_key0 by done. injection wo_key0 as <-. split; [|apply (hash_bytes (D := MD5Context) (hash := md5_spec))].
  intros E. apply (f_equal zlen) in E. by rewrite (hash_length (D := MD5Context) (hash := md5_spec)) in E.
Qed.

(** What the steps of connecting leave as it is. *)
Record apart (st : TurnPort) : Prop := {
  ap_server : server_address_ st = mkProtoAddr (w_server w) PROTO_UDP (w_secure w);
  ap_user : username_p st = w_user w;
  ap_password : password_p st = w_password w;
  ap_ip : local_ip st = w_ip w;
  ap_reflexive : reflexive_filter st = w_reflexive w;
  ap_channel : next_channel_number_ st = TURN_CHANNEL_NUMBER_START;
  ap_entries : entries_ st = [];
  ap_posted : posted st = []
}.

Lemma prepare sv key t T : world_ok w sv key → 0 ≤ t < T → T ≤ HALF →
  ∃ st, PrepareAddress random_id true t (client_of w) = Some st ∧
    ready random_id 1 t T (prepared (TurnAllocateRequest (mkAuth (w_user w) [] [] [])) (StunMessage_new CTurn) (random_id 1)) st ∧
    apart st ∧ credentials_of st = mkAuth (w_user w) [] [] [] ∧ connected_ st = false ∧ next_object st = 2 ∧ port_events st = [].
Proof.
  intros [] Ht HT. destruct wo_user0 as [_ Hu], wo_password0 as [_ Hp], wo_server0 as (Hip & Hport & Hres). unfold PrepareAddress.
  rewrite !bool_decide_eq_false_2 by done. cbn [orb]. cbn [client_of TurnPort_new server_address_ pa_address].
  rewrite (proj2 (Z.eqb_neq _ 0)) by done. fold (client_of w). cbn [client_of TurnPort_new server_address_ pa_address pa_proto].
  rewrite Hres. fold (client_of w). change (local_ip (client_of w)) with (w_ip w). rewrite wo_compatible0. cbn [negb].
  set (st0 := tp_socket (w_shared w) true (attempt (w_server w) (client_of w))).
  assert (CreateTurnClientSocket true (attempt (w_server w) (client_of w)) = Some (true, st0)) as ->.
  { unfold st0, CreateTurnClientSocket, attempt, client_of. cbn [attempted TurnPort_new attempted_server_addresses_ existsb]. by destruct (w_shared w). }
  cbn [mbind option_bind negb]. rewrite bool_decide_eq_true_2 by done. unfold send_allocate.
  destruct (SendRequest_ready random_id Hids (TurnAllocateRequest (credentials_of st0)) t T st0) as (m & Es & Hready); [|done|done|done|done|].
  { split; [apply quiet_new|]. split; [apply fresh_new|done]. }
  change (next_object st0) with 1 in *. rewrite Es. eexists. split; [done|]. split; [exact Hready|]. done.
Qed.

(** The challenge of the server, read by the client. *)
Definition nonce_of (sv : TurnServer) (u : Z) : list Z := GenerateNonce (nonce_key_ (config sv)) u.
Definition auth_of (sv : TurnServer) (key : list Z) (u : Z) : auth_info := mkAuth (w_user w) (realm_ (config sv)) (nonce_of sv u) key.
Lemma auth_of_ok sv key u : world_ok w sv key → auth_ok (auth_of sv key u).
Proof.
  intros Hw. pose proof (world_key sv key Hw) as Hk. destruct Hw. pose proof (ca_config _ _ _ _ _ _ wo_allocate0) as (Hn & Hr & _).
  destruct (nonce_lengths (nonce_key_ (config sv)) u Hn) as (_ & Hl & Hok). split; [apply wo_user0|done| |done]. split; [done|]. cbn. unfold nonce_of. by rewrite Hl.
Qed.
Lemma challenge_taken sv key u tid t T st : world_ok w sv key → idle random_id T st → next_object st < max_objects → 0 ≤ t < T → T ≤ HALF →
  apart st → credentials_of st = mkAuth (w_user w) [] [] [] →
  let a := next_object st in
  ∃ st', TurnAllocateRequest_OnErrorResponse random_id (challenge STUN_ALLOCATE_REQUEST tid (config sv) u) t st = Some st' ∧
    ready random_id a t T (prepared (TurnAllocateRequest (auth_of sv key u)) (StunMessage_new CTurn) (random_id a)) st' ∧
    apart st' ∧ credentials_of st' = auth_of sv key u ∧ connected_ st' = connected_ st ∧ next_object st' = a + 1 ∧ port_events st' = port_events st.
Proof.
  intros Hw Hidle Hb Ht HT Hap [= Eu Er En Eh] a. pose proof (world_key sv key Hw) as [Hk _]. pose proof (ca_config _ _ _ _ _ _ (wo_allocate _ _ _ Hw)) as (Hnk & _ & _).
  destruct (nonce_lengths (nonce_key_ (config sv)) u Hnk) as (_ & Hl & _). set (m := challenge _ _ _ _).
  assert (error_code <$> GetErrorCode m = Some 401) as Ec by done.
  assert (GetByteString m STUN_ATTR_REALM = Some (realm_ (config sv))) as Erealm by (unfold GetByteString, m; cbn; by rewrite ztake_all).
  assert (GetByteString m STUN_ATTR_NONCE = Some (nonce_of sv u)) as Enonce.
  { unfold GetByteString, m. cbn. unfold nonce_of. by rewrite <- Hl, ztake_all. }
  unfold TurnAllocateRequest_OnErrorResponse. rewrite Ec. cbn [mbind option_bind]. change (401 =? STUN_ERROR_UNAUTHORIZED) with true. cbn match.
  unfold OnAuthChallenge. rewrite Eh, bool_decide_eq_true_2 by done. cbn [negb]. rewrite andb_false_r, Erealm.
  unfold set_realm, UpdateHash. rewrite Er, bool_decide_eq_false_2 by apply Hw. cbn [username_p realm_p password_p tp_auth nonce_p hash_p].
  rewrite (ap_user _ Hap), (ap_password _ Hap), (wo_key _ _ _ Hw). cbn [mbind option_bind]. rewrite Enonce. unfold send_allocate.
  set (st1 := set_nonce _ _). assert (credentials_of st1 = auth_of sv key u) as Eauth by (unfold credentials_of, auth_of; cbn; by rewrite (ap_user _ Hap)).
  destruct (SendRequest_ready random_id Hids (TurnAllocateRequest (credentials_of st1)) t T st1) as (mg & Es & Hready); [exact Hidle|done|done|done|done|].
  rewrite Es. rewrite Eauth in Hready. eexists. split; [done|]. split; [exact Hready|]. destruct Hap. split; [by split|]. by rewrite <- Eauth.
Qed.
Lemma first_round sv key ops t t1 u T st : world_ok w sv key → inv_after ops sv → next_object st = 2 → 0 ≤ t ≤ t1 → t1 < T → T ≤ HALF →
  ready random_id 1 t T (prepared (TurnAllocateRequest (mkAuth (w_user w) [] [] [])) (StunMessage_new CTurn) (random_id 1)) st →
  apart st → credentials_of st = mkAuth (w_user w) [] [] [] →
  let p := msg_wire (first_request (random_id 1)) in
  let reply := msg_wire (challenge STUN_ALLOCATE_REQUEST (random_id 1) (config sv) u) in
  ∃ st', net_step random_id (w_addr w) (w_server w) (w_socket w) (w_relay w) (NClient PDispatch t1 u) (mkNet st sv) =
      Some (mkNet st' (send (ToClient (w_socket w) (w_addr w) reply) sv)) ∧
    ready random_id 2 t1 T (prepared (TurnAllocateRequest (auth_of sv key u)) (StunMessage_new CTurn) (random_id 2)) st' ∧
    apart st' ∧ credentials_of st' = auth_of sv key u ∧ connected_ st' = connected_ st ∧ next_object st' = 3 ∧
    port_events st' = port_events st ++ [PortSend (w_server w) p].
Proof.
  intros Hw Hi Hn Ht Ht1 HT Hready Hap Hcr p reply. pose proof (proj1 Hids 1) as Hid.
  destruct (prepared_first (mkAuth (w_user w) [] [] []) (random_id 1) Hid eq_refl) as [Em Hm].
  destruct (dispatch_ready random_id 1 t t1 T _ st Hready Ht Ht1 HT ltac:(by rewrite Em)) as (m & r & Ed & Ek & Emr & Haw).
  rewrite Em in Ed, Emr. rewrite (ap_server _ Hap) in Ed. cbn [pa_address] in Ed.
  destruct (challenged (first_request (random_id 1)) (w_addr w) (w_socket w) (Some (w_relay w)) u sv) as [Et Hmc]; try done.
  { destruct (wo_allocate _ _ _ Hw). split; [by exists ops|]. split; [done|]. split; [apply ca_addr|]. by split. }
  { intros _. apply (wo_allocate _ _ _ Hw). }
  set (msg := challenge STUN_ALLOCATE_REQUEST (random_id 1) (config sv) u) in *. change (challenge _ _ _ _) with msg in Et.
  set (st1 := port_event (PortSend (w_server w) p) (tp_manager m st)).
  destruct (read_answer random_id Hids 1 T r st1 msg (OnErrorResponse msg) (w_server w) t1) as (m2 & Erd & Hidle); try done.
  { change (server_address_ st1) with (server_address_ st). by rewrite (ap_server _ Hap). }
  { apply Hw. }
  { by rewrite Emr, Ek, prepared_kind. }
  { by rewrite Emr. }
  { split; [by rewrite Emr|]. right. by rewrite Emr. }
  destruct (challenge_taken sv key u (random_id 1) t1 T (tp_manager m2 st1) Hw Hidle) as (st' & Est & Hready' & Hap' & Hcr' & Hc' & Hn' & He');
    [change (next_object st < max_objects); unfold max_objects; lia|lia|done|by destruct Hap|done|].
  change (next_object (tp_manager m2 st1)) with (next_object st) in *. rewrite Hn in *. exists st'. split; [|by split_and!].
  apply (net_exchange _ _ _ _ _ PDispatch t1 u st sv p (tp_manager m st) reply sv); [exact Ed|done|exact Et|done|].
  fold st1. change reply with (msg_wire msg). rewrite Erd, Ek, prepared_kind. exact Est.
Qed.

(** A request with the credentials, and the success that the server answers. *)
Lemma success_round sv sv1 a k rep t t1 u T st (P : TurnPort → Prop) : 0 ≤ t ≤ t1 → t1 < T → T ≤ HALF →
  ready random_id a t T (prepared k (StunMessage_new CTurn) (random_id a)) st → auth_ok (request_auth k) → request_peer_ok k →
  pa_address (server_address_ st) = w_server w → ip_ok (ip_ (w_server w)) → hash_p st = ai_hash (request_auth k) →
  let p := msg_wire (request_message k (random_id a)) in
  turn_step (TPacket (w_socket w) p (w_addr w) (Some (w_relay w)) u) sv = Some (send (ToClient (w_socket w) (w_addr w) (msg_wire rep)) sv1) →
  sent sv1 = sent sv → msg_ok rep → m_class rep = CTurn → m_type rep = request_type k + 256 → m_transaction_id rep = random_id a →
  ValidateMessageIntegrity (msg_wire rep) (hash_p st) = Some true →
  (∀ m, let st1 := tp_manager m (port_event (PortSend (w_server w) p) st) in idle random_id T st1 →
    ∃ st', on_response random_id k rep t1 st1 = Some st' ∧ P st') →
  ∃ st', net_step random_id (w_addr w) (w_server w) (w_socket w) (w_relay w) (NClient PDispatch t1 u) (mkNet st sv) =
    Some (mkNet st' (send (ToClient (w_socket w) (w_addr w) (msg_wire rep)) sv1)) ∧ P st'.
Proof.
  intros Ht Ht1 HT Hready Ha Hp Eserver Hip Eh p Et Es Hm Hc Hty Hid Hval Hcont. pose proof (proj1 Hids a) as Hida.
  destruct (request_wire k (random_id a) Hida Ha Hp) as [Hmk _]. pose proof (prepared_message k (random_id a) Hida Ha Hp) as Em.
  destruct (dispatch_ready random_id a t t1 T _ st Hready Ht Ht1 HT ltac:(by rewrite Em)) as (m & r & Ed & Ek & Emr & Haw).
  rewrite Em in Ed, Emr. rewrite Eserver in Ed. fold p in Ed. rewrite prepared_kind in Ek.
  set (st1 := port_event (PortSend (w_server w) p) (tp_manager m st)).
  destruct (read_answer random_id Hids a T r st1 rep (OnResponse rep) (w_server w) t1) as (m2 & Erd & Hidle); try done.
  { by rewrite Emr, Ek. }
  { by rewrite Emr. }
  { split; [rewrite Emr; apply request_type_range|]. left. by rewrite Emr. }
  destruct (Hcont m2 Hidle) as (st' & Est & HP). exists st'. split; [|done].
  apply (net_exchange _ _ _ _ _ PDispatch t1 u st sv p (tp_manager m st) (msg_wire rep)); [exact Ed|done|exact Et|done|].
  fold st1. rewrite Erd, Ek. exact Est.
Qed.

(** The success of the server, taken by the client. *)
Definition related_of : SocketAddress := if w_reflexive w then w_addr w else EmptySocketAddressWithFamily (family_ (ip_ (w_addr w))).
Lemma allocation_taken cfg key tid t T st : idle random_id T st → next_object st < max_objects → 0 ≤ t → T ≤ t + 540000 < HALF →
  apart st → hash_p st ≠ [] →
  ∃ st', TurnAllocateRequest_OnResponse random_id (reply STUN_ALLOCATE_RESPONSE tid (allocate_attrs (w_addr w) (w_relay w) 600) key cfg) t st = Some st' ∧
    idle random_id T st' ∧ apart st' ∧ credentials_of st' = credentials_of st ∧ connected_ st' = true ∧ next_object st' = next_object st + 1 ∧
    port_events st' = port_events st ++ [PortAddAddress (w_relay w) related_of ICE_TYPE_PREFERENCE_RELAY] ∧
    will_send (next_object st) (TurnRefreshRequest (credentials_of st)) (t + 540000) st'.
Proof.
  intros Hidle Hb Ht HT Hap Hh. set (m := reply _ _ _ _ _). unfold TurnAllocateRequest_OnResponse.
  change (GetAddress m STUN_ATTR_XOR_MAPPED_ADDRESS) with (GetAttribute m STUN_ATTR_XOR_MAPPED_ADDRESS).
  change (GetAddress m STUN_ATTR_XOR_RELAYED_ADDRESS) with (GetAttribute m STUN_ATTR_XOR_RELAYED_ADDRESS).
  assert (GetUInt32 m STUN_ATTR_TURN_LIFETIME = Some 600) as -> by (unfold GetUInt32, m; by erewrite reply_attribute by reflexivity).
  unfold m. erewrite !reply_attribute by reflexivity. cbn [fmap option_fmap option_map attr_address xor_attr]. unfold ScheduleRefresh.
  change (i32 600 <? 2 * 60) with false. change (HALF <=? (i32 600 - 60) * 1000) with false. change ((i32 600 - 60) * 1000) with 540000. cbn match.
  set (st1 := OnAllocateSuccess _ _ _).
  assert (idle random_id T st1) as Hidle1 by exact Hidle.
  destruct (SendRequest_later random_id Hids (TurnRefreshRequest (credentials_of st1)) 540000 t T st1) as (mg & Es & Hl & Hws); [done|done|lia|done|done|].
  rewrite Es. eexists. split; [done|]. split; [exact Hl|]. destruct Hap. split; [by split|]. split; [done|]. split; [done|]. split; [done|].
  split; [|exact Hws]. unfold st1, OnAllocateSuccess. cbn [port_events tp_manager tp_next port_event tp_connected server_address_]. rewrite ap_server0. cbn [pa_proto pa_secure].
  unfold related_of, GetRelayPreference. cbn [reflexive_filter tp_connected]. by rewrite ap_reflexive0.
Qed.

(** The allocation that the server has for the client. *)
Definition allocation_of (key tid : list Z) : Allocation :=
  set_identity tid (w_user w) (Allocation_new (mkConn (w_addr w) SocketAddress_Clear PROTO_UDP (w_socket w)) (w_relay w) key).
Lemma second_round sv key ops t t1 u u1 T st : world_ok w sv key → inv_after ops sv → is_u32 u → TimeDiff u1 u < kNonceTimeout →
  next_object st = 3 → 0 ≤ t ≤ t1 → t1 < T ≤ t1 + 540000 → t1 + 540000 < HALF →
  ready random_id 2 t T (prepared (TurnAllocateRequest (auth_of sv key u)) (StunMessage_new CTurn) (random_id 2)) st →
  apart st → credentials_of st = auth_of sv key u →
  let p := msg_wire (request_message (TurnAllocateRequest (auth_of sv key u)) (random_id 2)) in
  let rep := msg_wire (reply STUN_ALLOCATE_RESPONSE (random_id 2) (allocate_attrs (w_addr w) (w_relay w) 600) key (config sv)) in
  let sv' := send (ToClient (w_socket w) (w_addr w) rep) (allocated (w_socket w) (w_addr w) (w_relay w) key (random_id 2) (w_user w) 600 u1 sv) in
  ∃ st', net_step random_id (w_addr w) (w_server w) (w_socket w) (w_relay w) (NClient PDispatch t1 u1) (mkNet st sv) = Some (mkNet st' sv') ∧
    idle random_id T st' ∧ apart st' ∧ credentials_of st' = auth_of sv key u ∧ connected_ st' = true ∧ next_object st' = 4 ∧
    port_events st' = port_events st ++ [PortSend (w_server w) p; PortAddAddress (w_relay w) related_of ICE_TYPE_PREFERENCE_RELAY] ∧
    will_send 3 (TurnRefreshRequest (auth_of sv key u)) (t1 + 540000) st' ∧
    inv_after ops sv' ∧ heap sv' !! next_addr sv = Some (allocation_of key (random_id 2)).
Proof.
  intros Hw Hi Hu Hage Hn Ht Ht1 HT Hready Hap Hcr p rep sv'. pose proof (proj1 Hids 2) as Hid. pose proof (auth_of_ok sv key u Hw) as Hauth.
  set (k := TurnAllocateRequest (auth_of sv key u)) in *. pose proof (wo_allocate _ _ _ Hw) as Hca.
  pose proof (message_request_ok k (random_id 2) Hid Hauth I) as Hrq.
  assert (ValidateNonce (nonce_key_ (config sv)) (nonce_of sv u) u1 = true) as Hnonce.
  { unfold nonce_of. rewrite nonce_accepted; [by apply Z.ltb_lt|apply Hca|done]. }
  destruct (allocate_step ops sv (w_socket w) (w_addr w) (w_relay w) (w_user w) key (nonce_of sv u) (random_id 2) _ (Z.shiftl 17 24) u1 Hi Hca Hrq Hnonce eq_refl eq_refl)
    as (Et & Hmr & Hval).
  change (ComputeLifetime (built CTurn STUN_ALLOCATE_REQUEST (random_id 2) (request_attrs k ++ auth_attrs (request_auth k)))) with 600 in *.
  set (msg := reply _ _ _ _ _) in *. destruct (allocated_inv ops (w_socket w) (w_addr w) (w_relay w) (w_user w) key (random_id 2) 600 u1 sv Hi Hca (proj2 (world_key _ _ Hw))) as [Hi' E'].
  injection Hcr as Eu Er En Eh.
  apply (success_round sv _ 2 k msg t t1 u1 T st (λ st', idle random_id T st' ∧ apart st' ∧ credentials_of st' = auth_of sv key u ∧ connected_ st' = true ∧ next_object st' = 4 ∧
    port_events st' = port_events st ++ [PortSend (w_server w) p; PortAddAddress (w_relay w) related_of ICE_TYPE_PREFERENCE_RELAY] ∧
    will_send 3 (TurnRefreshRequest (auth_of sv key u)) (t1 + 540000) st' ∧
    inv_after ops sv' ∧ heap sv' !! next_addr sv = Some (allocation_of key (random_id 2)))); try done; try lia.
  { by rewrite (ap_server _ Hap). }
  { apply Hw. }
  { by rewrite Eh. }
  intros mg st1 Hidle.
  destruct (allocation_taken (config sv) key (random_id 2) t1 T st1 Hidle) as (st' & Est & Hidle' & Hap' & Hcr' & Hc' & Hn' & He' & Hws);
    [change (next_object st < max_objects); unfold max_objects; lia|lia|lia|by destruct Hap|change (hash_p st ≠ []); rewrite Eh; apply (world_key sv); done|].
  assert (credentials_of st1 = auth_of sv key u) as Eauth by (unfold credentials_of, auth_of; cbn; congruence). rewrite Eauth in *.
  change (next_object st1) with (next_object st) in *. rewrite Hn in *. exists st'. split; [exact Est|]. split; [done|]. split; [done|].
  split; [done|]. split; [done|]. split; [done|]. split; [|split; [done|split; [by apply inv_send|exact E']]].
  rewrite He'. cbn [port_events st1 tp_manager port_event]. by rewrite <- app_assoc.
Qed.
End connect.

(** ** Connecting *)

Section properties.
Context `{Platform} (random_id : Z → list Z).

Lemma world_send w sv key e : world_ok w sv key → world_ok w (send e sv) key.
Proof. intros [Hca ? ? ? ? ? ?]. split; try done. by destruct Hca. Qed.

Definition run_world (w : world) : list net_op → network → option network :=
  net_run random_id (w_addr w) (w_server w) (w_socket w) (w_relay w).
(** The client starts, and dispatches its two requests. *)
Definition connect_ops (t t1 t2 u1 u2 : Z) : list net_op :=
  [NClient (PPrepareAddress true) t u1; NClient PDispatch t1 u1; NClient PDispatch t2 u2].

Lemma connects w sv key ops t t1 t2 u1 u2 T : ids_ok random_id → world_ok w sv key → inv_after ops sv →
  0 ≤ t ≤ t1 → t1 ≤ t2 → t2 < T ≤ t2 + 540000 → t2 + 540000 < HALF → is_u32 u1 → TimeDiff u2 u1 < kNonceTimeout →
  ∃ cl sv' p1 p2, run_world w (connect_ops t t1 t2 u1 u2) (mkNet (client_of w) sv) = Some (mkNet cl sv') ∧
    idle random_id T cl ∧ apart w cl ∧ credentials_of cl = auth_of w sv key u1 ∧ connected_ cl = true ∧ next_object cl = 4 ∧
    port_events cl = [PortSend (w_server w) p1; PortSend (w_server w) p2; PortAddAddress (w_relay w) (related_of w) ICE_TYPE_PREFERENCE_RELAY] ∧
    will_send 3 (TurnRefreshRequest (auth_of w sv key u1)) (t2 + 540000) cl ∧
    inv_after ops sv' ∧ heap sv' !! next_addr sv = Some (allocation_of w key (random_id 2)) ∧ config sv' = config sv ∧
    server_sockets_ sv' = server_sockets_ sv ∧ pending (next_addr sv) (u32 (u2 + 600000)) (queue sv') ∧
    ∃ q1 q2, sent sv' = sent sv ++ [ToClient (w_socket w) (w_addr w) q1; ToClient (w_socket w) (w_addr w) q2].
Proof.
  intros Hids Hw Hi Ht Ht1 HT HT' Hu Hage. unfold run_world, connect_ops. cbn [net_run].
  destruct (prepare random_id Hids w sv key t T Hw) as (st & Ep & Hready & Hap & Hcr & Hc & Hn & He); [lia|lia|].
  rewrite (net_silent random_id _ _ _ _ (PPrepareAddress true) t u1 (client_of w) sv st Ep He). cbn [mbind option_bind].
  destruct (first_round random_id Hids w sv key ops t t1 u1 T st Hw Hi Hn Ht) as (st1 & Es1 & Hready1 & Hap1 & Hcr1 & Hc1 & Hn1 & He1); [lia|lia|done..|].
  rewrite Es1. cbn [mbind option_bind]. set (sv1 := send _ sv) in *.
  destruct (second_round random_id Hids w sv1 key ops t1 t2 u1 u2 T st1 (world_send _ _ _ _ Hw) (inv_send _ _ _ _ Hi) Hu Hage Hn1)
    as (st2 & Es2 & Hidle & Hap2 & Hcr2 & Hc2 & Hn2 & He2 & Hws & Hi2 & Eal); [lia|lia|lia|done..|].
  rewrite Es2. cbn [mbind option_bind]. eexists st2, _, _, _. split; [reflexivity|]. rewrite He2, He1, He. split_and!; try done.
  - destruct (ti_timers _ _ _ Hi) as (Hstop & _). by apply (pending_post 600000).
  - eexists _, _. cbn [sent send]. unfold sv1. cbn. by rewrite <- app_assoc.
Qed.

(** C3. A TURN client connects to a TURN server: for every client whose user name the
    server has the key of, computed from its password, and every state that the server can
    reach in which it has no allocation for the client and may allocate, when the network
    delivers the packets, the client becomes connected with the exchange of two requests:
    the first is challenged, the second carries the credentials and an HMAC.
    In the end the client has sent two packets, to the server, and announced exactly the
    address that the server relays from; the server has an allocation for the client with
    the same key, user and address, and a timer for its ten minutes; and the client has a
    refresh request with its credentials that is to be sent after nine minutes. *)
Theorem turn_client_connects w random ops sv key t t1 t2 u1 u2 : ids_ok random_id →
  turn_ops_ok ops (TurnServer_new random) → turn_run ops (TurnServer_new random) = Some sv → world_ok w sv key →
  0 ≤ t ≤ t1 → t1 ≤ t2 → t2 + 540000 < HALF → is_u32 u1 → TimeDiff u2 u1 < kNonceTimeout →
  ∃ cl sv' al p1 p2,
    run_world w (connect_ops t t1 t2 u1 u2) (mkNet (client_of w) sv) = Some (mkNet cl sv') ∧ connected_ cl = true ∧
    port_events cl = [PortSend (w_server w) p1; PortSend (w_server w) p2; PortAddAddress (w_relay w) (related_of w) ICE_TYPE_PREFERENCE_RELAY] ∧
    FindAllocation (mkConn (w_addr w) SocketAddress_Clear PROTO_UDP (w_socket w)) sv' = Some (Some (next_addr sv)) ∧
    heap sv' !! next_addr sv = Some al ∧ (key_ al, username_ al, external_socket_ al) = (hash_p cl, username_p cl, w_relay w) ∧
    pending (next_addr sv) (u32 (u2 + 600000)) (queue sv') ∧
    will_send 3 (TurnRefreshRequest (credentials_of cl)) (t2 + 540000) cl.
Proof.
  intros Hids Ho Erun Hw Ht Ht1 HT Hu Hage. destruct (run_inv ops [] (TurnServer_new random)) as (st1 & E1 & Hi); [apply turn_new_inv|done|].
  rewrite E1 in Erun. injection Erun as ->. cbn [app] in Hi. clear Ho E1.
  destruct (connects w sv key ops t t1 t2 u1 u2 (t2 + 540000) Hids Hw Hi Ht Ht1) as (cl & sv' & p1 & p2 & Er & _ & Hap & Hcr & Hc & _ & He & Hws & Hi' & Eal & _ & _ & Hp & _); [lia|done..|].
  exists cl, sv', (allocation_of w key (random_id 2)), p1, p2. rewrite Hcr. split; [done|]. split; [done|]. split; [done|]. split; [|split; [done|]].
  - rewrite (inv_find _ _ _ _ Hi') by (split_and!; [done|done|apply (wo_allocate _ _ _ Hw)]).
    pose proof (allocation_found ops _ _ _ Hi' Eal) as Ef. cbn [conn_ allocation_of set_identity Allocation_new src_] in *. by rewrite Ef.
  - split; [|done]. rewrite (ap_user _ _ Hap). injection Hcr as _ _ _ ->. done.
Qed.
End properties.

(** ** Witness *)

Lemma sample_ids : ids_ok sample_random.
Proof.
  split.
  - intros i. split; [apply be_encode_ok|apply zlen_be_encode].
  - intros i j Hi Hj E. apply (f_equal be_decode) in E. unfold sample_random in E. unfold max_objects in *. rewrite !be_decode_encode in E by (cbn; lia). done.
Qed.
Definition net_password : list Z := text "secret".
Definition net_key : list Z := md5_spec (text "user" ++ [58] ++ text "realm" ++ [58] ++ net_password).
Definition net_config : TurnConfig :=
  mkConfig turn_nonce_key (text "realm") (text "software") (Some (λ _ _, (true, net_key))) None false true SocketAddress_Clear.
Definition net_ops : list turn_op := [TConfigure net_config; TAddSocket 7 PROTO_UDP SocketAddress_Clear].
Definition sample_world : world :=
  mkWorld turn_client trust_server 7 turn_relay (text "user") net_password (IPAddress_v4 [192; 168; 1; 5]) true false false.
Lemma net_key_ok `{Platform} : ComputeStunCredentialHash (text "user") (text "realm") net_password = Some net_key ∧ bytes_ok net_key.
Proof. split; [apply ComputeStunCredentialHash_md5; apply text_ok|apply (hash_bytes (D := MD5Context) (hash := md5_spec))]. Qed.
Definition net_server_state : TurnServer :=
  set_server_sockets <[7 := PROTO_UDP]> (set_sockets <[7 := SocketAddress_Clear]> (set_config net_config (TurnServer_new turn_nonce_key))).
Lemma net_ops_ok `{Platform} : turn_ops_ok net_ops (TurnServer_new turn_nonce_key) ∧ turn_run net_ops (TurnServer_new turn_nonce_key) = Some net_server_state.
Proof. split; [|done]. split; [intros ? ?; apply net_key_ok|]. by split. Qed.
Lemma sample_world_ok `{Platform} : world_ok sample_world net_server_state net_key.
Proof.
  destruct sample_addrs as (Hc & Hr & _). split.
  - split; [by eexists|exact Hc|exact Hr|done|repeat split; try apply text_ok; by vm_compute|done|done|done].
  - apply net_key_ok.
  - split; [split; [apply text_ok|done]|done].
  - split; [apply text_ok|done].
  - done.
  - split; [apply ip_okb_ok; reflexivity|done].
  - done.
Qed.
Lemma turn_client_connects_witness :
  let p := zero_platform in
  ∃ cl sv' al p1 p2,
    run_world sample_random sample_world (connect_ops 1000 1050 1200 5000 5100) (mkNet (client_of sample_world) net_server_state) = Some (mkNet cl sv') ∧
    connected_ cl = true ∧
    port_events cl = [PortSend trust_server p1; PortSend trust_server p2; PortAddAddress turn_relay turn_client ICE_TYPE_PREFERENCE_RELAY] ∧
    heap sv' !! 1 = Some al ∧ (key_ al, username_ al, external_socket_ al) = (hash_p cl, username_p cl, turn_relay).
Proof.
  intros p. destruct net_ops_ok as [Ho Er].
  destruct (turn_client_connects sample_random sample_world turn_nonce_key net_ops net_server_state net_key 1000 1050 1200 5000 5100 sample_ids Ho Er sample_world_ok)
    as (cl & sv' & al & p1 & p2 & E & Hc & He & _ & Eal & Ek & _); [lia|lia|reflexivity|split; lia|reflexivity|].
  exists cl, sv', al, p1, p2. exact (conj E (conj Hc (conj He (conj Eal Ek)))).
Defined.
