(* ===== verification/TurnSession.v ===== *)
(** * A session of a TURN client

    What a client does with its allocation: permissions and channels on the server, and
    data in both directions, over the network of [TurnNet]. *)

From stdpp Require Import strings.
From S2P Require Import Prelude ByteOrder StringEncode ByteBuffer IpAddress Md5 MessageDigest Stun StunWire StunTyped StunIntegrity StunBuild TimeUtils MessageQueue StunRequest StunExchange TurnServer TurnSafe TurnSteps TurnRun TurnReact TurnRelay TurnPort TurnTrust TurnNet.

(** ** Requests of a client with an allocation *)

Section serve.
Context `{Platform}.

(** The allocation is that of the client at [addr] on the socket [s]. *)
Record serving (sv : TurnServer) (s : Z) (addr : SocketAddress) (a : Z) (al : Allocation) : Prop := {
  sg_heap : heap sv !! a = Some al;
  sg_conn : conn_ al = mkConn addr SocketAddress_Clear PROTO_UDP s;
  sg_socket : is_Some (server_sockets_ sv !! s);
  sg_addr : ip_ok (ip_ addr);
  sg_config : strings_ok (config sv);
  sg_otu : enable_otu_nonce_ (config sv) = false
}.
Lemma serving_found ops sv s addr a al : inv_after ops sv → serving sv s addr a al →
  FindAllocation (mkConn addr SocketAddress_Clear PROTO_UDP s) sv = Some (Some a).
Proof.
  intros Hi []. rewrite (inv_find _ _ _ _ Hi) by done. pose proof (allocation_found ops sv a al Hi sg_heap0) as Ef.
  rewrite sg_conn0 in Ef. cbn [src_] in *. by rewrite Ef.
Qed.
(** An authenticated request reaches its handler; the nonce is noted. *)
Lemma request_served ops sv s addr a al type tid attrs nonce ext now : inv_after ops sv → serving sv s addr a al →
  request_ok type tid attrs (key_ al) (username_ al) nonce → type ≠ STUN_ALLOCATE_REQUEST →
  ValidateNonce (nonce_key_ (config sv)) nonce now = true →
  let m := protected type tid attrs (key_ al) in
  let sv1 := on_allocation a (set_last_nonce nonce) sv in
  turn_step (TPacket s (msg_wire m) addr ext now) sv = HandleTurnMessage a m now sv1 ∧
  inv_after ops sv1 ∧ serving sv1 s addr a (set_last_nonce nonce al) ∧ sent sv1 = sent sv.
Proof.
  intros Hi Hsg Hrq Hna Hn m sv1. pose proof (serving_found _ _ _ _ _ _ Hi Hsg) as Hf. destruct (protected_facts _ _ _ _ _ _ Hrq) as (Hm & Hv & Hget & [h Hmi]).
  fold m in Hm, Hv, Hget, Hmi. pose proof Hsg as []. destruct (rq_type _ _ _ _ _ _ Hrq) as ([_ Ht] & Hreq & Hnb). destruct (rq_key _ _ _ _ _ _ Hrq) as [Hk0 _].
  assert (GetByteString m STUN_ATTR_USERNAME = Some (username_ al)) as Euser by (unfold GetByteString; rewrite Hget by done; apply Hrq).
  assert (inv_after ops sv1) as Hi1.
  { unfold sv1. rewrite (on_allocation_insert a al) by done. apply (inv_touch _ _ sv a al (set_last_nonce nonce al) id Hi sg_heap0); done. }
  assert (heap sv1 !! a = Some (set_last_nonce nonce al)) as E1 by (unfold sv1; rewrite (on_allocation_insert a al) by done; cbn; by rewrite lookup_insert_eq).
  split; [|split; [done|split; [by split|done]]].
  rewrite (packet_message m s addr ext now ops sv) by (done || intros E; by destruct Hna). unfold handle_message. rewrite Hf. cbn [mbind option_bind].
  rewrite sg_heap0. cbn [fmap option_fmap option_map mbind option_bind]. change (m_type m) with type. rewrite Hreq.
  assert (CheckAuthorization (mkConn addr SocketAddress_Clear PROTO_UDP s) m (msg_wire m) (key_ al) now sv = Some (true, sv1)) as ->.
  { unfold CheckAuthorization. rewrite Hmi, Euser. unfold GetByteString. rewrite !Hget by done.
    fold (GetByteString (built CTurn type tid attrs) STUN_ATTR_REALM) (GetByteString (built CTurn type tid attrs) STUN_ATTR_NONCE).
    rewrite (rq_nonce _ _ _ _ _ _ Hrq). destruct (rq_realm _ _ _ _ _ _ Hrq) as [r ->]. rewrite Hn. cbn [negb].
    destruct (key_ al) as [|k0 key] eqn:Ek; [done|]. rewrite Hv. cbn [mbind option_bind negb]. rewrite Hf. cbn [mbind option_bind].
    by rewrite sg_heap0, sg_otu0. }
  cbn [mbind option_bind]. unfold handle_authorized. rewrite E1. cbn [mbind option_bind]. change (m_type m) with type.
  rewrite (proj2 (Z.eqb_neq _ _) Hna). cbn [negb orb]. rewrite Hreq, Euser. cbn [fmap option_fmap option_map mbind option_bind].
  by rewrite bool_decide_eq_true_2.
Qed.

(** What a step of the server keeps of an allocation and of itself. *)
Record kept (sv sv' : TurnServer) (al al' : Allocation) : Prop := {
  kp_config : config sv' = config sv;
  kp_sockets : server_sockets_ sv' = server_sockets_ sv;
  kp_sent : sent sv' = sent sv;
  kp_conn : conn_ al' = conn_ al;
  kp_key : key_ al' = key_ al;
  kp_user : username_ al' = username_ al
}.
Lemma kept_trans sv sv1 sv2 al al1 al2 : kept sv sv1 al al1 → kept sv1 sv2 al1 al2 → kept sv sv2 al al2.
Proof. intros [] []. split; congruence. Qed.
Lemma kept_serving sv sv' s addr a al al' : kept sv sv' al al' → heap sv' !! a = Some al' → serving sv s addr a al → serving sv' s addr a al'.
Proof. intros [] E []. by split; rewrite ?kp_config0, ?kp_sockets0, ?kp_conn0. Qed.
Definition permits (al : Allocation) (ip : IPAddress) : Prop := ∃ p, p ∈ perms_ al ∧ perm_peer p = ip.

Lemma permission_added ops sv a al ip now : inv_after ops sv → heap sv !! a = Some al → ip_ok ip → Gp ops (key_ al) (src_ (conn_ al)) ip now →
  ∃ sv' al', AddPermission a ip now sv = Some sv' ∧ inv_after ops sv' ∧ heap sv' !! a = Some al' ∧ kept sv sv' al al' ∧
    channels_ al' = channels_ al ∧ permits al' ip.
Proof.
  intros Hi E Hip Hg. destruct (add_permission _ _ a al ip now sv Hi E Hip Hg) as (sv' & al' & Ea & Hi' & Es & E'). exists sv'.
  unfold AddPermission in Ea. rewrite E in Ea. cbn [mbind option_bind] in Ea. destruct (FindPermission ip al) as [p|] eqn:Ef.
  - exists al. injection Ea as <-. unfold AddPermission. rewrite E. cbn [mbind option_bind]. rewrite Ef. split; [done|]. split; [done|]. split; [done|].
    split; [done|]. split; [done|]. apply find_in in Ef as [Hin Heq]. exists p. split; [done|].
    pose proof (own_perms _ _ _ _ _ _ (ti_own _ _ _ Hi a al E)) as Hps. rewrite Forall_forall in Hps. by apply ip_eq_spec; [apply (Hps p Hin)|..].
  - exists (set_perms (λ l, l ++ [mkPermission (next_addr sv) ip]) al). injection Ea as <-. unfold AddPermission. rewrite E. cbn [mbind option_bind].
    rewrite Ef. split; [done|]. split; [done|]. split; [|split; [done|split; [done|]]].
    + rewrite (on_allocation_insert a al) by done. cbn. by rewrite lookup_insert_eq.
    + exists (mkPermission (next_addr sv) ip). split; [|done]. cbn. apply elem_of_app. right. apply list_elem_of_here.
Qed.
Lemma empty_reply ops sv s addr a al tid type : inv_after ops sv → serving sv s addr a al → id_ok tid →
  IsStunRequestType type = true → 0 ≤ type < 16384 → ∀ m, m_type m = type → m_transaction_id m = tid →
  let r := reply (Z.lor type 256) tid [] (key_ al) (config sv) in
  Allocation_SendResponse a (InitResponse m (StunMessage_new CTurn)).2 sv = Some (send (ToClient s addr (msg_wire r)) sv) ∧
  msg_ok r ∧ ValidateMessageIntegrity (msg_wire r) (key_ al) = Some true.
Proof.
  intros Hi [] Hid Hreq Ht m Em Eid r. destruct (success_response m) as [-> Hr]; [by rewrite Em|by rewrite Em|by rewrite Eid|]. rewrite Em, Eid in *.
  destruct (send_reply a al (Z.lor type 256) tid [] sv ops Hi sg_heap0 sg_config0 Hr Hid) as (Es & Hm & Hv);
    [apply Forall_nil_2|done|apply Forall_nil_2|]. rewrite Es, sg_conn0. done.
Qed.
Lemma addr_plain ext : addr_ok ext → plain ext.
Proof. intros (E & Hip & _). by split. Qed.

(** A request of the client, as the server finds it. *)
Record client_request (sv : TurnServer) (a : Z) (al : Allocation) (k : TurnRequest) (tid : list Z) (now : Z) : Prop := {
  cq_id : id_ok tid;
  cq_auth : auth_ok (request_auth k);
  cq_peer : request_peer_ok k;
  cq_key : ai_hash (request_auth k) = key_ al;
  cq_user : ai_username (request_auth k) = username_ al;
  cq_nonce : ValidateNonce (nonce_key_ (config sv)) (ai_nonce (request_auth k)) now = true;
  cq_type : request_type k ≠ STUN_ALLOCATE_REQUEST
}.
Lemma client_request_served ops sv s addr a al k tid ext now : inv_after ops sv → serving sv s addr a al → client_request sv a al k tid now →
  let m := request_message k tid in
  let o := TPacket s (msg_wire m) addr ext now in
  let al1 := set_last_nonce (ai_nonce (request_auth k)) al in
  ∃ sv1, turn_step o sv = HandleTurnMessage a m now sv1 ∧ inv_after (ops ++ [o]) sv1 ∧ serving sv1 s addr a al1 ∧ kept sv sv1 al al1 ∧
    grants (Gp (ops ++ [o])) (Gc (ops ++ [o])) (key_ al) addr m now ∧
    (∀ t, t ≠ STUN_ATTR_MESSAGE_INTEGRITY → GetAttribute m t = GetAttribute (built CTurn (request_type k) tid (request_attrs k ++ auth_attrs (request_auth k))) t).
Proof.
  intros Hi Hsg [] m o al1. pose proof (message_request_ok k tid cq_id0 cq_auth0 cq_peer0) as Hrq. rewrite cq_key0, cq_user0 in Hrq.
  destruct (protected_facts _ _ _ _ _ _ Hrq) as (Hm & Hv & Hget & _).
  assert (m = protected (request_type k) tid (request_attrs k ++ auth_attrs (request_auth k)) (key_ al)) as Em
    by (unfold m, request_message; by rewrite cq_key0). rewrite <- Em in Hm, Hv, Hget.
  destruct (request_served (ops ++ [o]) sv s addr a al _ tid _ _ ext now (inv_more _ _ _ Hi) Hsg Hrq cq_type0 cq_nonce0) as (Estep & Hi1 & Hsg1 & Es1).
  rewrite <- Em in Estep. eexists. split; [exact Estep|]. split; [done|]. split; [done|]. split; [done|]. split; [|done].
  destruct (read_wire_packet m Hm) as (b & Erd & _). assert (SocketAddress_eqb addr addr = true) as Heq by (by apply SocketAddress_eqb_spec; try apply (sg_addr _ _ _ _ _ Hsg)).
  exact (packet_authorizes ops s (msg_wire m) addr ext now (key_ al) addr m b Erd Hv Heq).
Qed.

(** The request for a permission. *)
Lemma permission_served ops sv s addr a al e peer auth tid ext now : inv_after ops sv → serving sv s addr a al →
  let k := TurnCreatePermissionRequest e peer auth in client_request sv a al k tid now →
  let o := TPacket s (msg_wire (request_message k tid)) addr ext now in
  let r := reply TURN_CREATE_PERMISSION_RESPONSE tid [] (key_ al) (config sv) in
  ∃ sv' al', turn_step o sv = Some (send (ToClient s addr (msg_wire r)) sv') ∧ inv_after (ops ++ [o]) sv' ∧ heap sv' !! a = Some al' ∧
    kept sv sv' al al' ∧ channels_ al' = channels_ al ∧ permits al' (ip_ peer) ∧
    msg_ok r ∧ ValidateMessageIntegrity (msg_wire r) (key_ al) = Some true.
Proof.
  intros Hi Hsg k Hcq o r. destruct (client_request_served ops sv s addr a al k tid ext now Hi Hsg Hcq) as (sv1 & Estep & Hi1 & Hsg1 & Hk1 & Hgr & Hget).
  fold o in Estep, Hi1, Hgr. destruct Hcq. set (m := request_message k tid) in *. pose proof (addr_plain peer cq_peer0) as Hpl.
  rewrite Estep. change (HandleTurnMessage a m now sv1) with (HandleCreatePermissionRequest a m now sv1).
  assert (attr_address <$> GetAddress m STUN_ATTR_XOR_PEER_ADDRESS = Some peer) as Epeer by (unfold GetAddress; by rewrite Hget).
  unfold HandleCreatePermissionRequest. rewrite Epeer. set (al1 := set_last_nonce _ al) in *.
  destruct (permission_added (ops ++ [o]) sv1 a al1 (ip_ peer) now Hi1 (sg_heap _ _ _ _ _ Hsg1) (proj1 Hpl)) as (sv' & al' & Ea & Hi' & E' & Hk' & Ech & Hp).
  { rewrite (sg_conn _ _ _ _ _ Hsg1). exact (proj1 (Hgr peer Epeer Hpl) eq_refl). }
  rewrite Ea. cbn [mbind option_bind]. pose proof (kept_serving _ _ _ _ _ _ _ Hk' E' Hsg1) as Hsg'.
  destruct (empty_reply (ops ++ [o]) sv' s addr a al' tid TURN_CREATE_PERMISSION_REQUEST Hi' Hsg' cq_id0 ltac:(done) ltac:(done) m eq_refl eq_refl) as (Er & Hmr & Hvr).
  pose proof (kept_trans _ _ _ _ _ _ Hk1 Hk') as Hk. rewrite (kp_key _ _ _ _ Hk), (kp_config _ _ _ _ Hk) in *. by exists sv', al'.
Qed.
(** The request for a channel that is not bound yet. *)
Lemma bind_served ops sv s addr a al e id peer auth tid ext now : inv_after ops sv → serving sv s addr a al →
  let k := TurnChannelBindRequest e id peer auth in client_request sv a al k tid now →
  kMinChannelNumber ≤ id ≤ kMaxChannelNumber → FindChannel_id id al = None → FindChannel_peer peer al = None →
  let o := TPacket s (msg_wire (request_message k tid)) addr ext now in
  let r := reply TURN_CHANNEL_BIND_RESPONSE tid [] (key_ al) (config sv) in
  ∃ sv' al' c, turn_step o sv = Some (send (ToClient s addr (msg_wire r)) sv') ∧ inv_after (ops ++ [o]) sv' ∧ heap sv' !! a = Some al' ∧
    kept sv sv' al al' ∧ c ∈ channels_ al' ∧ chan_id c = id ∧ chan_peer c = peer ∧ permits al' (ip_ peer) ∧
    msg_ok r ∧ ValidateMessageIntegrity (msg_wire r) (key_ al) = Some true.
Proof.
  intros Hi Hsg k Hcq Hid Hf1 Hf2 o r. destruct (client_request_served ops sv s addr a al k tid ext now Hi Hsg Hcq) as (sv1 & Estep & Hi1 & Hsg1 & Hk1 & Hgr & Hget).
  fold o in Estep, Hi1, Hgr. destruct Hcq. set (m := request_message k tid) in *. pose proof (addr_plain peer cq_peer0) as Hpl.
  rewrite Estep. change (HandleTurnMessage a m now sv1) with (HandleChannelBindRequest a m now sv1).
  assert (attr_address <$> GetAddress m STUN_ATTR_XOR_PEER_ADDRESS = Some peer) as Epeer by (unfold GetAddress; by rewrite Hget).
  assert (GetUInt32 m STUN_ATTR_CHANNEL_NUMBER = Some (u32 (Z.shiftl id 16))) as Env by (unfold GetUInt32; by rewrite Hget).
  assert (Z.shiftr (u32 (Z.shiftl id 16)) 16 = id) as Eid.
  { unfold kMinChannelNumber, kMaxChannelNumber in Hid. rewrite Z.shiftl_mul_pow2, u32_id by (unfold is_u32; lia).
    rewrite Z.shiftr_div_pow2 by lia. apply Z.div_mul. lia. }
  unfold HandleChannelBindRequest. rewrite Env, Epeer, Eid. set (al1 := set_last_nonce _ al) in *.
  rewrite (proj2 (Z.ltb_ge _ _)), (proj2 (Z.ltb_ge _ _)) by lia. cbn [orb]. rewrite (sg_heap _ _ _ _ _ Hsg1). cbn [mbind option_bind].
  change (FindChannel_id id al1) with (FindChannel_id id al). change (FindChannel_peer peer al1) with (FindChannel_peer peer al). rewrite Hf1, Hf2.
  rewrite bool_decide_eq_true_2 by done. cbn [negb]. destruct (Hgr peer Epeer Hpl) as [_ Hgc]. destruct (Hgc eq_refl) as [Hgp Hgv]. specialize (Hgv _ Env). rewrite Eid in Hgv.
  destruct (bind_channel_inv _ _ a al1 id peer now sv1 Hi1 (sg_heap _ _ _ _ _ Hsg1) Hid Hpl) as (Hi2 & Es2 & _);
    [by rewrite (sg_conn _ _ _ _ _ Hsg1)|by change (FindChannel_id id al1) with (FindChannel_id id al); change (FindChannel_peer peer al1) with (FindChannel_peer peer al); rewrite Hf1, Hf2|].
  change (FindChannel_id id al1) with (FindChannel_id id al) in Hi2, Es2. rewrite Hf1 in Hi2, Es2. cbn [bind_channel] in Hi2, Es2. set (sv2 := on_allocation a _ _) in *.
  set (c := mkChannel (next_addr sv1) id peer) in *. set (al2 := set_channels (λ l, l ++ [c]) al1).
  assert (heap sv2 !! a = Some al2) as E2 by (unfold sv2; rewrite (on_allocation_insert a al1) by apply Hsg1; cbn; by rewrite lookup_insert_eq).
  assert (kept sv1 sv2 al1 al2) as Hk2 by done.
  destruct (permission_added (ops ++ [o]) sv2 a al2 (ip_ peer) now Hi2 E2 (proj1 Hpl)) as (sv' & al' & Ea & Hi' & E' & Hk' & Ech & Hp).
  { change (conn_ al2) with (conn_ al1). rewrite (sg_conn _ _ _ _ _ Hsg1). exact Hgp. }
  rewrite Ea. cbn [mbind option_bind]. pose proof (kept_serving _ _ _ _ _ _ _ (kept_trans _ _ _ _ _ _ Hk2 Hk') E' Hsg1) as Hsg'.
  destruct (empty_reply (ops ++ [o]) sv' s addr a al' tid TURN_CHANNEL_BIND_REQUEST Hi' Hsg' cq_id0 ltac:(done) ltac:(done) m eq_refl eq_refl) as (Er & Hmr & Hvr).
  pose proof (kept_trans _ _ _ _ _ _ Hk1 (kept_trans _ _ _ _ _ _ Hk2 Hk')) as Hk. rewrite (kp_key _ _ _ _ Hk), (kp_config _ _ _ _ Hk) in *.
  exists sv', al', c. split_and!; try done. rewrite Ech. cbn. apply elem_of_app. right. apply list_elem_of_here.
Qed.
End serve.

(** ** Data in both directions *)

(** What the peer of an allocation was sent, and what the port gave to its user. *)
Definition relayed (sv : TurnServer) : list (Z * SocketAddress * list Z) :=
  omap (λ e, match e with ToPeer a peer data => Some (a, peer, data) | _ => None end) (sent sv).
Definition dispatched (cl : TurnPort) : list (SocketAddress * list Z) :=
  omap (λ e, match e with PortDispatchPacket remote data => Some (remote, data) | _ => None end) (port_events cl).

(** The user of the port sends data to the peer, or the peer to the relayed address. *)
Inductive datum :=
  | Up (data : list Z) (payload : bool) (result now server_now : Z)
  | Down (data random : list Z) (now : Z).
Definition datum_op (a : Z) (peer : SocketAddress) (d : datum) : net_op :=
  match d with
  | Up data payload result now server_now => NClient (PSendTo data peer payload result) now server_now
  | Down data random now => NPeer a data peer random now
  end.
Definition datum_ok (d : datum) : Prop :=
  match d with
  | Up data _ _ _ _ => bytes_ok data ∧ zlen data < 59000
  | Down data random _ => bytes_ok data ∧ zlen data < 59000 ∧ id_ok random
  end.
Definition ups (l : list datum) : list (list Z) := omap (λ d, match d with Up data _ _ _ _ => Some data | _ => None end) l.
Definition downs (l : list datum) : list (list Z) := omap (λ d, match d with Down data _ _ => Some data | _ => None end) l.
(** What the users want is not payload: connectivity checks, which bind no channel. *)
Definition check_only (d : datum) : Prop := match d with Up _ payload _ _ _ => payload = false | _ => True end.

Section session.
Context `{Platform} (random_id : Z → list Z) (Hids : ids_ok random_id) (w : world) (Hw : ip_ok (ip_ (w_server w))).
Context (a e : Z) (peer : SocketAddress) (Hpeer : addr_ok peer) (auth : auth_info) (cfg : TurnConfig).
Local Notation step := (net_step random_id (w_addr w) (w_server w) (w_socket w) (w_relay w)).

Lemma net_up o now u cl sv p cl1 a' addr data sv1 :
  port_step random_id o now cl = Some (port_event (PortSend (w_server w) p) cl1) → port_events cl1 = port_events cl →
  turn_step (TPacket (w_socket w) p (w_addr w) (Some (w_relay w)) u) sv = Some (send (ToPeer a' addr data) sv1) → sent sv1 = sent sv →
  step (NClient o now u) (mkNet cl sv) = Some (mkNet (port_event (PortSend (w_server w) p) cl1) (send (ToPeer a' addr data) sv1)).
Proof.
  intros Ep Ee Et Es. cbn [net_step net_client net_server]. rewrite Ep. cbn [mbind option_bind]. rewrite new_packet by done.
  cbn [deliver_up]. rewrite Et. cbn [mbind option_bind]. unfold server_replies. cbn [sent send]. by rewrite Es, drop_app_length.
Qed.
Lemma net_down data random now cl sv p cl1 :
  turn_step (TPeer a data peer random) sv = Some (send (ToClient (w_socket w) (w_addr w) p) sv) →
  TurnPort_OnReadPacket random_id p (w_server w) now cl = Some cl1 →
  step (NPeer a data peer random now) (mkNet cl sv) = Some (mkNet cl1 (send (ToClient (w_socket w) (w_addr w) p) sv)).
Proof.
  intros Et Er. cbn [net_step net_client net_server]. rewrite Et. cbn [mbind option_bind]. rewrite new_reply by done.
  cbn [deliver_down]. by rewrite Er.
Qed.

(** The client has an entry for the peer, and the server a permission, and a channel when
    the entry is bound. *)
Definition channel_state (b : BindState) (al : Allocation) : Prop :=
  match b with
  | STATE_BOUND => ∃ c, c ∈ channels_ al ∧ chan_id c = TURN_CHANNEL_NUMBER_START ∧ chan_peer c = peer
  | _ => channels_ al = []
  end.
Record joined (cl : TurnPort) (sv : TurnServer) (al : Allocation) : Prop := {
  jo_server : server_address_ cl = mkProtoAddr (w_server w) PROTO_UDP (w_secure w);
  jo_socket : has_socket cl = true;
  jo_connected : connected_ cl = true;
  jo_auth : credentials_of cl = auth;
  jo_inv : ∃ ops, inv_after ops sv;
  jo_serving : serving sv (w_socket w) (w_addr w) a al;
  jo_key : key_ al = ai_hash auth;
  jo_user : username_ al = ai_username auth;
  jo_config : config sv = cfg
}.
Definition linked (b : BindState) (n : network) : Prop :=
  ∃ al, joined (net_client n) (net_server n) al ∧ entries_ (net_client n) = [mkEntry e TURN_CHANNEL_NUMBER_START peer b] ∧
    permits al (ip_ peer) ∧ channel_state b al.

Lemma joined_send cl sv al x : joined cl sv al → joined cl (send x sv) al.
Proof. intros []. destruct jo_inv0 as [ops Hi]. split; try done; [exists ops; by apply inv_send|by destruct jo_serving0]. Qed.
Lemma peer_found b cl : entries_ cl = [mkEntry e TURN_CHANNEL_NUMBER_START peer b] →
  FindEntry_address peer cl = Some (mkEntry e TURN_CHANNEL_NUMBER_START peer b) ∧ TurnPort_HasPermission (ip_ peer) cl = true ∧
  entry_at e cl = Some (mkEntry e TURN_CHANNEL_NUMBER_START peer b).
Proof.
  intros E. unfold FindEntry_address, TurnPort_HasPermission, entry_at. rewrite E. cbn [find existsb ext_addr_ entry_addr]. destruct Hpeer as (_ & Hip & _).
  rewrite (proj2 (SocketAddress_eqb_spec peer peer Hip Hip)) by done. rewrite (proj2 (ip_eq_spec _ _ Hip Hip)) by done. by rewrite Z.eqb_refl.
Qed.

(** What the steps with data change, and what they leave. *)
Record passes (l : list datum) (n n' : network) : Prop := {
  ps_manager : request_manager_ (net_client n') = request_manager_ (net_client n);
  ps_socket : has_socket (net_client n') = has_socket (net_client n);
  ps_next : next_object (net_client n) ≤ next_object (net_client n') ≤ next_object (net_client n) + zlen l;
  ps_relayed : relayed (net_server n') = relayed (net_server n) ++ ((λ data, (a, peer, data)) <$> ups l);
  ps_dispatched : dispatched (net_client n') = dispatched (net_client n) ++ ((λ data, (peer, data)) <$> downs l)
}.
Lemma passes_refl n : passes [] n n.
Proof. split; rewrite ?app_nil_r; try done. change (zlen []) with 0. lia. Qed.
Lemma passes_cons d l n n1 n2 : passes [d] n n1 → passes l n1 n2 → passes (d :: l) n n2.
Proof.
  intros [M1 S1 N1 R1 D1] [M2 S2 N2 R2 D2]. split; [congruence|congruence| | |].
  - change (d :: l) with ([d] ++ l). rewrite zlen_app. lia.
  - rewrite R2, R1, <- app_assoc, <- fmap_app. do 2 f_equal. by destruct d.
  - rewrite D2, D1, <- app_assoc, <- fmap_app. do 2 f_equal. by destruct d.
Qed.
Lemma relayed_up sv addr data : relayed (send (ToPeer a addr data) sv) = relayed sv ++ [(a, addr, data)].
Proof. unfold relayed. cbn [sent send]. by rewrite omap_app. Qed.
Lemma relayed_down sv addr p : relayed (send (ToClient (w_socket w) addr p) sv) = relayed sv.
Proof. unfold relayed. cbn [sent send]. by rewrite omap_app, app_nil_r. Qed.
Lemma dispatched_up cl p : dispatched (port_event (PortSend (w_server w) p) cl) = dispatched cl.
Proof. unfold dispatched. cbn [port_events port_event]. by rewrite omap_app, app_nil_r. Qed.
Lemma dispatched_down cl data : dispatched (DispatchPacket data peer cl) = dispatched cl ++ [(peer, data)].
Proof. unfold dispatched, DispatchPacket. cbn [port_events port_event]. by rewrite omap_app. Qed.

(** The packets of the client for the peer. *)
Lemma indication_written b data tid : id_ok tid → bytes_ok data → zlen data < 59000 →
  let m := built CTurn TURN_SEND_INDICATION tid (data_attrs peer data) in
  send_indication (mkEntry e TURN_CHANNEL_NUMBER_START peer b) data tid = msg_wire m.
Proof.
  intros Hid Hok Hl m. destruct (data_attrs_fit tid peer data Hid Hpeer Hok Hl) as [Hf Hs]. pose proof (zlen_nonneg data).
  unfold send_indication. cbn [ext_addr_]. assert ((SetTransactionID (SetType (StunMessage_new CTurn) TURN_SEND_INDICATION) tid).2 = built CTurn TURN_SEND_INDICATION tid []) as ->.
  { unfold SetTransactionID, IsValidTransactionId. destruct Hid as [_ ->]. done. }
  assert (StunByteStringAttribute STUN_ATTR_DATA data = ByteStringAttr STUN_ATTR_DATA (zlen data) data) as ->.
  { unfold StunByteStringAttribute, CopyBytes. by rewrite u16_id by (unfold is_u16; lia). }
  pose proof (add_all CTurn TURN_SEND_INDICATION tid (data_attrs peer data) [] Hf ltac:(cbn [app]; lia)) as Eadd.
  cbn [fold_left data_attrs app] in Eadd. fold (data_attrs peer data) in Eadd.
  change (StunXorAddressAttribute STUN_ATTR_XOR_PEER_ADDRESS peer) with (xor_attr STUN_ATTR_XOR_PEER_ADDRESS peer). rewrite Eadd. apply written, built_ok; [done|done|done|lia].
Qed.
Lemma indication_up sv al cl data tid u : joined cl sv al → permits al (ip_ peer) → id_ok tid → bytes_ok data → zlen data < 59000 →
  turn_step (TPacket (w_socket w) (msg_wire (built CTurn TURN_SEND_INDICATION tid (data_attrs peer data))) (w_addr w) (Some (w_relay w)) u) sv =
    Some (send (ToPeer a peer data) sv).
Proof.
  intros [] (p & Hp & Ep) Hid Hok Hl. destruct jo_inv0 as [ops Hi]. destruct (data_attrs_fit tid peer data Hid Hpeer Hok Hl) as [Hf Hs].
  pose proof (indication_to_peer ops sv a al p peer data tid (data_attrs peer data) (w_socket w) (Some (w_relay w)) u Hi (sg_heap _ _ _ _ _ jo_serving0) Hp Ep
    (sg_socket _ _ _ _ _ jo_serving0) Hid Hf ltac:(lia)) as Et. rewrite (sg_conn _ _ _ _ _ jo_serving0) in Et. apply Et; [|done].
  unfold GetByteString. cbn. by rewrite ztake_all.
Qed.
(** The packets of the server for the client. *)
Lemma indication_read b cl data tid now : server_address_ cl = mkProtoAddr (w_server w) PROTO_UDP (w_secure w) →
  entries_ cl = [mkEntry e TURN_CHANNEL_NUMBER_START peer b] → id_ok tid →
  let m := built CTurn TURN_DATA_INDICATION tid (data_attrs peer data ++ software_attrs cfg) in
  msg_ok m → TurnPort_OnReadPacket random_id (msg_wire m) (w_server w) now cl = Some (DispatchPacket data peer cl).
Proof.
  intros Es Ee Hid m Hm. destruct (peer_found b cl Ee) as (_ & Hperm & _). unfold TurnPort_OnReadPacket. rewrite Es. cbn [pa_address].
  rewrite (proj2 (SocketAddress_eqb_spec _ _ Hw Hw)) by done. cbn [negb]. destruct (wire_id m ltac:(apply Hid)) as [_ Hlen].
  rewrite (proj2 (Z.ltb_ge _ 4)) by lia. assert (GetBE16 (msg_wire m) 0 = TURN_DATA_INDICATION) as -> by (by apply (GetBE16_word [])).
  change (is_channel_data TURN_DATA_INDICATION) with false. cbn match. rewrite Z.eqb_refl. unfold HandleDataIndication.
  destruct (read_wire_packet m Hm) as (b' & Erd & _). change (m_class m) with CTurn in Erd. rewrite Erd. assert (attr_address <$> GetAddress m STUN_ATTR_XOR_PEER_ADDRESS = Some peer) as -> by done.
  assert (GetByteString m STUN_ATTR_DATA = Some data) as -> by (unfold GetByteString; cbn; by rewrite ztake_all). by rewrite Hperm.
Qed.
Lemma channel_read b cl data now : server_address_ cl = mkProtoAddr (w_server w) PROTO_UDP (w_secure w) →
  entries_ cl = [mkEntry e TURN_CHANNEL_NUMBER_START peer b] → zlen data < 65536 →
  TurnPort_OnReadPacket random_id (channel_data TURN_CHANNEL_NUMBER_START data) (w_server w) now cl = Some (DispatchPacket data peer cl).
Proof.
  intros Es Ee Hl. pose proof (zlen_nonneg data). unfold TurnPort_OnReadPacket. rewrite Es. cbn [pa_address]. set (p := channel_data _ _).
  assert (zlen p = 4 + zlen data) as Hp by (unfold p, channel_data; rewrite !zlen_app, !zlen_be_encode; lia).
  rewrite (proj2 (SocketAddress_eqb_spec _ _ Hw Hw)) by done. cbn [negb]. rewrite (proj2 (Z.ltb_ge _ 4)) by lia.
  assert (GetBE16 p 0 = TURN_CHANNEL_NUMBER_START) as -> by (by apply (GetBE16_word [])).
  change (is_channel_data TURN_CHANNEL_NUMBER_START) with true. cbn match. unfold TurnPort_HandleChannelData.
  assert (GetBE16 p 2 = zlen data) as ->.
  { unfold p, channel_data. apply (GetBE16_word (be_encode 2 TURN_CHANNEL_NUMBER_START)); [unfold is_u16; lia|done]. }
  rewrite (proj2 (Z.ltb_ge _ _)) by lia. unfold FindEntry_channel. rewrite Ee. cbn [find channel_id_]. rewrite Z.eqb_refl. cbn [ext_addr_].
  unfold p, channel_data. rewrite app_assoc, zdrop_app_exact by (by rewrite zlen_app, !zlen_be_encode). by rewrite ztake_all.
Qed.

(** The packet that the client sends, and what the server does with it. *)
Lemma up_packet b cl sv al data payload result now u : joined cl sv al → entries_ cl = [mkEntry e TURN_CHANNEL_NUMBER_START peer b] →
  permits al (ip_ peer) → channel_state b al → bytes_ok data → zlen data < 59000 → (b = STATE_UNBOUND → payload = false) →
  ∃ p cl1, port_step random_id (PSendTo data peer payload result) now cl = Some (port_event (PortSend (w_server w) p) cl1) ∧
    (cl1 = cl ∨ cl1 = tp_next (next_object cl + 1) cl) ∧
    turn_step (TPacket (w_socket w) p (w_addr w) (Some (w_relay w)) u) sv = Some (send (ToPeer a peer data) sv).
Proof.
  intros Hj Ee Hp Hch Hok Hl Hb. destruct (peer_found b cl Ee) as (Hf & _).
  cbn [port_step]. unfold TurnPort_SendTo. rewrite Hf. cbn [mbind option_bind]. rewrite (jo_connected _ _ _ Hj). cbn [negb]. unfold TurnEntry_Send. cbn [bind_state].
  assert (b ≠ STATE_BOUND → bool_decide (b = STATE_UNBOUND) && payload = false) as Hpay.
  { intros _. destruct b; [by rewrite Hb, andb_false_r|done|done]. }
  destruct b; [rewrite Hpay by done|rewrite Hpay by done|].
  3: { destruct Hch as (c & Hc & Eid & Epeer). cbn [channel_id_]. rewrite channel_data_written by (done || lia). unfold TurnPort_Send. rewrite (jo_socket _ _ _ Hj).
    cbn [mbind option_bind]. rewrite (jo_server _ _ _ Hj). eexists _, _. split; [done|]. split; [by left|]. destruct (jo_inv _ _ _ Hj) as [ops Hi].
    pose proof (channel_to_peer ops sv a al c data (w_socket w) (Some (w_relay w)) u Hi (sg_heap _ _ _ _ _ (jo_serving _ _ _ Hj)) Hc
      (sg_socket _ _ _ _ _ (jo_serving _ _ _ Hj))) as Et. rewrite (sg_conn _ _ _ _ _ (jo_serving _ _ _ Hj)), Eid, Epeer in Et. exact Et. }
  all: cbn [mbind option_bind]; unfold TurnPort_Send; cbn [has_socket tp_next]; rewrite (jo_socket _ _ _ Hj), indication_written by (done || apply Hids);
    cbn [server_address_ tp_next mbind option_bind]; rewrite (jo_server _ _ _ Hj); eexists _, _; split; [done|]; split; [by right|];
    apply (indication_up sv al cl); try done; apply Hids.
Qed.
Lemma up_step b n data payload result now u : linked b n → bytes_ok data → zlen data < 59000 → (b = STATE_UNBOUND → payload = false) →
  ∃ n', step (NClient (PSendTo data peer payload result) now u) n = Some n' ∧ linked b n' ∧ passes [Up data payload result now u] n n'.
Proof.
  destruct n as [cl sv]. intros (al & Hj & Ee & Hp & Hch) Hok Hl Hb. cbn [net_client net_server] in *.
  destruct (up_packet b cl sv al data payload result now u Hj Ee Hp Hch Hok Hl Hb) as (p & cl1 & Ep & Hcl & Et).
  eexists. split; [by apply (net_up (PSendTo data peer payload result) now u cl sv p cl1 a peer data sv Ep); [destruct Hcl as [->| ->]|..]|]. split.
  - exists al. split; [apply joined_send; destruct Hj, Hcl as [->| ->]; by split|]. split; [by destruct Hcl as [->| ->]|done].
  - split; cbn [net_client net_server]; rewrite ?relayed_up, ?dispatched_up; [by destruct Hcl as [->| ->]..| |done|].
    + change (zlen [_]) with 1. destruct Hcl as [->| ->]; cbn; lia.
    + rewrite app_nil_r. by destruct Hcl as [->| ->].
Qed.
Lemma down_step b n data random now : linked b n → bytes_ok data → zlen data < 59000 → id_ok random →
  ∃ n', step (NPeer a data peer random now) n = Some n' ∧ linked b n' ∧ passes [Down data random now] n n'.
Proof.
  destruct n as [cl sv]. intros (al & Hj & Ee & Hp & Hch) Hok Hl Hid. cbn [net_client net_server] in *. pose proof (jo_serving _ _ _ Hj) as Hs.
  destruct (jo_inv _ _ _ Hj) as [ops Hi].
  assert (∃ p, turn_step (TPeer a data peer random) sv = Some (send (ToClient (w_socket w) (w_addr w) p) sv) ∧
    TurnPort_OnReadPacket random_id p (w_server w) now cl = Some (DispatchPacket data peer cl)) as (p & Et & Er).
  { assert (channels_ al = [] → ∃ p, turn_step (TPeer a data peer random) sv = Some (send (ToClient (w_socket w) (w_addr w) p) sv) ∧
      TurnPort_OnReadPacket random_id p (w_server w) now cl = Some (DispatchPacket data peer cl)) as Hunbound.
    { intros Hno. destruct Hp as (p & Hp & Ep). destruct (peer_to_indication ops sv a al p peer data random Hi (sg_heap _ _ _ _ _ Hs) (sg_config _ _ _ _ _ Hs) Hp Ep) as [Et Hm];
        [by unfold FindChannel_peer; rewrite Hno|done..|]. rewrite (sg_conn _ _ _ _ _ Hs) in Et. rewrite (jo_config _ _ _ Hj) in Et, Hm. eexists. split; [exact Et|].
      apply (indication_read b); try done. apply Hj. }
    destruct b; [by apply Hunbound|by apply Hunbound|]. destruct Hch as (c & Hc & Eid & Epeer).
    pose proof (peer_to_channel ops sv a al c data random Hi (sg_heap _ _ _ _ _ Hs) Hc Hok ltac:(lia)) as Et. rewrite (sg_conn _ _ _ _ _ Hs), Eid, Epeer in Et.
    eexists. split; [exact Et|]. apply (channel_read STATE_BOUND); [apply Hj|done|lia]. }
  eexists. split; [by apply net_down|]. split.
  - exists al. split; [by apply joined_send; destruct Hj; split|done].
  - split; cbn [net_client net_server]; rewrite ?relayed_down, ?dispatched_down; try done; [|by rewrite app_nil_r].
    change (zlen [_]) with 1. cbn. lia.
Qed.
(** Any number of them. *)
Lemma data_run b l : ∀ n, linked b n → Forall datum_ok l → (b = STATE_UNBOUND → Forall check_only l) →
  ∃ n', net_run random_id (w_addr w) (w_server w) (w_socket w) (w_relay w) (datum_op a peer <$> l) n = Some n' ∧ linked b n' ∧ passes l n n'.
Proof.
  induction l as [|d l IH]; intros n Hlk Hok Hb; [exists n; split; [done|]; split; [done|apply passes_refl]|].
  apply Forall_cons_1 in Hok as [Hd Hok].
  assert (∃ n1, step (datum_op a peer d) n = Some n1 ∧ linked b n1 ∧ passes [d] n n1) as (n1 & E1 & Hlk1 & Hp1).
  { destruct d as [data payload result now u|data random now]; [destruct Hd; apply up_step|destruct Hd as (? & ? & ?); apply down_step]; try done.
    intros Eb. specialize (Hb Eb). by apply Forall_cons_1 in Hb as [? _]. }
  destruct (IH n1 Hlk1 Hok) as (n2 & E2 & Hlk2 & Hp2); [intros Eb; specialize (Hb Eb); by apply Forall_cons_1 in Hb as [_ ?]|].
  exists n2. split; [by cbn [fmap list_fmap net_run]; rewrite E1|]. split; [done|]. by eapply passes_cons.
Qed.

(** ** The requests of the session *)

Lemma fresh_later k n m : 0 ≤ k → fresh random_id n m → fresh random_id (n + k) m.
Proof.
  intros Hk [Hn Hi Hl]. split; [lia| |].
  - intros b r E. destruct (Hi b r E). split; [lia|done].
  - intros b Hb. apply Hl. lia.
Qed.
Lemma fresh_from n n' m : n ≤ n' → fresh random_id n m → fresh random_id n' m.
Proof. intros Hn Hf. replace n' with (n + (n' - n)) by lia. apply fresh_later; [lia|done]. Qed.
(** Data leaves the requests as they are. *)
Lemma passes_idle l n n' T : passes l n n' → idle random_id T (net_client n) → idle random_id T (net_client n').
Proof. intros [] (Hq & Hf & Hs). split; [by rewrite ps_manager0|]. split; [rewrite ps_manager0; eapply fresh_from; [|exact Hf]; lia|by rewrite ps_socket0]. Qed.
Lemma passes_ready l n n' x t T r : passes l n n' → ready random_id x t T r (net_client n) → ready random_id x t T r (net_client n').
Proof.
  intros [] (Hd & Hf & Hs & Hrest). unfold ready. rewrite ps_manager0, ps_socket0. split; [done|]. split; [eapply fresh_from; [|exact Hf]; lia|]. by split.
Qed.

(** A connection to the peer: an entry, and the request for the permission. *)
Lemma connection_step cl sv al t u T : joined cl sv al → idle random_id T cl → entries_ cl = [] → next_channel_number_ cl = TURN_CHANNEL_NUMBER_START →
  next_object cl = e → e + 1 < max_objects → 0 ≤ t < T → T ≤ HALF → IsCompatibleAddress (local_ip cl) peer = true → ai_hash auth ≠ [] →
  ∃ cl', step (NClient (PCreateConnection true peer) t u) (mkNet cl sv) = Some (mkNet cl' sv) ∧ joined cl' sv al ∧
    ready random_id (e + 1) t T (prepared (TurnCreatePermissionRequest e peer auth) (StunMessage_new CTurn) (random_id (e + 1))) cl' ∧
    entries_ cl' = [mkEntry e TURN_CHANNEL_NUMBER_START peer STATE_UNBOUND] ∧ next_object cl' = e + 2 ∧ port_events cl' = port_events cl.
Proof.
  intros Hj (Hq & Hf & Hs) Ee Ec En Hb Ht HT Hcomp Hh. set (st := tp_entries (TURN_CHANNEL_NUMBER_START + 1) [] (tp_next (e + 1) cl)).
  set (k := TurnCreatePermissionRequest e peer auth).
  destruct (SendRequest_ready random_id Hids k t T st) as (m & Es & Hready);
    [split; [done|]; split; [cbn; rewrite <- En; by apply fresh_later|done]|done|done|done|change (hash_p st) with (ai_hash (credentials_of cl)); by rewrite (jo_auth _ _ _ Hj)|].
  change (next_object st) with (e + 1) in *. replace (e + 1 + 1) with (e + 2) in * by lia.
  exists (tp_entries (TURN_CHANNEL_NUMBER_START + 1) [mkEntry e TURN_CHANNEL_NUMBER_START peer STATE_UNBOUND] (tp_manager m (tp_next (e + 2) st))).
  split; [|split; [by destruct Hj|split; [exact Hready|done]]].
  apply net_silent; [|done]. cbn [port_step]. unfold CreateConnection. rewrite Hcomp. cbn [negb]. unfold CreateEntry, FindEntry_address. rewrite Ee. cbn [find].
  rewrite Ec, En. unfold SendCreatePermissionRequest. cbn [entry_addr ext_addr_]. fold st.
  change (credentials_of st) with (credentials_of cl). rewrite (jo_auth _ _ _ Hj). fold k. by rewrite Es.
Qed.
Lemma client_asks cl sv al k tid u : joined cl sv al → id_ok tid → auth_ok auth → request_auth k = auth → request_peer_ok k →
  request_type k ≠ STUN_ALLOCATE_REQUEST → ValidateNonce (nonce_key_ cfg) (ai_nonce auth) u = true → client_request sv a al k tid u.
Proof. intros [] Hid Ha <- Hp Ht Hn. by split; try congruence. Qed.
Lemma joined_kept cl cl' sv sv' al al' ops : joined cl sv al → kept sv sv' al al' → inv_after ops sv' → heap sv' !! a = Some al' →
  server_address_ cl' = server_address_ cl → has_socket cl' = true → connected_ cl' = true → credentials_of cl' = credentials_of cl → joined cl' sv' al'.
Proof.
  intros Hj Hk Hi E E1 E2 E3 E4. pose proof (kept_serving _ _ _ _ _ _ _ Hk E (jo_serving _ _ _ Hj)). destruct Hj, Hk.
  split; [congruence|done|done|congruence|by exists ops|done|congruence..].
Qed.
(** The server gives the permission. *)
Lemma permission_round cl sv al t t1 u T : joined cl sv al → auth_ok auth →
  ready random_id (e + 1) t T (prepared (TurnCreatePermissionRequest e peer auth) (StunMessage_new CTurn) (random_id (e + 1))) cl →
  entries_ cl = [mkEntry e TURN_CHANNEL_NUMBER_START peer STATE_UNBOUND] → channels_ al = [] → 0 ≤ t ≤ t1 → t1 < T → T ≤ HALF →
  ValidateNonce (nonce_key_ cfg) (ai_nonce auth) u = true →
  ∃ cl' sv', step (NClient PDispatch t1 u) (mkNet cl sv) = Some (mkNet cl' sv') ∧ linked STATE_UNBOUND (mkNet cl' sv') ∧
    idle random_id T cl' ∧ next_object cl' = next_object cl ∧ relayed sv' = relayed sv ∧ dispatched cl' = dispatched cl ∧
    last (port_events cl') = Some (PortCreatePermissionResult peer 0).
Proof.
  intros Hj Ha Hready Ee Hno Ht Ht1 HT Hn. pose proof (proj1 Hids (e + 1)) as Hid. destruct (jo_inv _ _ _ Hj) as [ops Hi].
  set (k := TurnCreatePermissionRequest e peer auth) in *.
  destruct (permission_served ops sv (w_socket w) (w_addr w) a al e peer auth (random_id (e + 1)) (Some (w_relay w)) u Hi (jo_serving _ _ _ Hj)
    (client_asks cl sv al k _ u Hj Hid Ha eq_refl Hpeer ltac:(done) Hn)) as (sv' & al' & Et & Hi' & E' & Hk & Ech & Hp & Hmr & Hval).
  fold k in Et, Hi'. set (rep := reply _ _ _ _ _) in *. set (sv2 := send (ToClient (w_socket w) (w_addr w) (msg_wire rep)) sv') in *.
  assert (hash_p cl = ai_hash auth) as Eh by (by rewrite <- (jo_auth _ _ _ Hj)).
  destruct (success_round random_id Hids w sv sv' (e + 1) k rep t t1 u T cl (λ cl', linked STATE_UNBOUND (mkNet cl' sv2) ∧ idle random_id T cl' ∧
    next_object cl' = next_object cl ∧ dispatched cl' = dispatched cl ∧ last (port_events cl') = Some (PortCreatePermissionResult peer 0))) as (cl' & Es & Hlk & Hidle & Hnx & Hd & Hl); try done.
  - by rewrite (jo_server _ _ _ Hj).
  - apply Hk.
  - rewrite Eh, <- (jo_key _ _ _ Hj). exact Hval.
  - intros m st1 Hidle. eexists. split; [done|]. unfold TurnCreatePermissionRequest_OnResponse. destruct (peer_found STATE_UNBOUND st1 Ee) as (_ & _ & ->).
    split; [|split; [exact Hidle|split; [done|split; [|by cbn; rewrite last_snoc]]]].
    + exists al'. split; [|split; [done|]; split; [done|cbn; congruence]]. apply joined_send. by apply (joined_kept cl _ sv sv' al al' _ Hj Hk Hi' E'); try apply Hj.
    + unfold dispatched. cbn. by rewrite !omap_app, !app_nil_r.
  - exists cl', sv2. split; [exact Es|]. split; [done|]. split; [done|]. split; [done|]. split; [|done].
    unfold sv2. rewrite relayed_down. unfold relayed. by rewrite (kp_sent _ _ _ _ Hk).
Qed.

(** The first payload goes as an indication, and asks for the channel. *)
Lemma payload_step cl sv data result t u T : linked STATE_UNBOUND (mkNet cl sv) → idle random_id T cl → auth_ok auth → bytes_ok data → zlen data < 59000 →
  next_object cl + 1 < max_objects → 0 ≤ t < T → T ≤ HALF →
  let x := next_object cl + 1 in
  ∃ cl' sv', step (NClient (PSendTo data peer true result) t u) (mkNet cl sv) = Some (mkNet cl' sv') ∧ linked STATE_BINDING (mkNet cl' sv') ∧
    ready random_id x t T (prepared (TurnChannelBindRequest e TURN_CHANNEL_NUMBER_START peer auth) (StunMessage_new CTurn) (random_id x)) cl' ∧
    next_object cl' = x + 1 ∧ relayed sv' = relayed sv ++ [(a, peer, data)] ∧ dispatched cl' = dispatched cl.
Proof.
  intros (al & Hj & Ee & Hp & Hch) (Hq & Hf & Hs) Ha Hok Hl Hb Ht HT x. cbn [net_client net_server] in *. destruct (peer_found _ cl Ee) as (Efind & _).
  pose proof (proj1 (au_hash _ Ha)) as Hh. set (k := TurnChannelBindRequest e TURN_CHANNEL_NUMBER_START peer auth). set (st := tp_next x cl).
  destruct (SendRequest_ready random_id Hids k t T st) as (m & Es & Hready);
    [split; [done|]; split; [by apply fresh_later|done]|done|done|done|change (hash_p st) with (ai_hash (credentials_of cl)); by rewrite (jo_auth _ _ _ Hj)|].
  change (next_object st) with x in *.
  set (cl1 := update_entry e (set_bind_state STATE_BINDING) (tp_manager m (tp_next (x + 1) st))).
  assert (entries_ cl1 = [mkEntry e TURN_CHANNEL_NUMBER_START peer STATE_BINDING]) as Ee1 by (cbn; rewrite Ee; cbn; by rewrite Z.eqb_refl).
  set (p := msg_wire (built CTurn TURN_SEND_INDICATION (random_id (next_object cl)) (data_attrs peer data))).
  assert (port_step random_id (PSendTo data peer true result) t cl = Some (port_event (PortSend (w_server w) p) cl1)) as Ep.
  { cbn [port_step]. unfold TurnPort_SendTo. rewrite Efind. cbn [mbind option_bind]. rewrite (jo_connected _ _ _ Hj). cbn [negb]. unfold TurnEntry_Send. cbn [bind_state].
    rewrite bool_decide_eq_true_2 by done. cbn [andb]. fold x. fold st. unfold SendChannelBindRequest. cbn [entry_addr channel_id_ ext_addr_].
    change (credentials_of st) with (credentials_of cl). rewrite (jo_auth _ _ _ Hj). fold k. rewrite Es. cbn [mbind option_bind]. fold cl1.
    unfold TurnPort_Send. change (has_socket cl1) with (has_socket cl). rewrite Hs. rewrite indication_written by (done || apply Hids). fold p.
    change (server_address_ cl1) with (server_address_ cl). by rewrite (jo_server _ _ _ Hj). }
  pose proof (indication_up sv al cl data (random_id (next_object cl)) u Hj Hp (proj1 Hids _) Hok Hl) as Et. fold p in Et.
  eexists _, _. split; [by apply (net_up _ t u cl sv p cl1 a peer data sv Ep)|]. split; [|split; [exact Hready|]].
  - exists al. split; [apply joined_send; by destruct Hj|done].
  - split; [done|]. rewrite relayed_up, dispatched_up. done.
Qed.
(** The server binds the channel, and the client will ask for it again after four minutes. *)
Lemma bind_round cl sv x t t1 u T : linked STATE_BINDING (mkNet cl sv) → auth_ok auth →
  let k := TurnChannelBindRequest e TURN_CHANNEL_NUMBER_START peer auth in
  ready random_id x t T (prepared k (StunMessage_new CTurn) (random_id x)) cl → next_object cl < max_objects →
  0 ≤ t ≤ t1 → t1 < T → T ≤ t1 + 240000 < HALF → ValidateNonce (nonce_key_ cfg) (ai_nonce auth) u = true →
  ∃ cl' sv', step (NClient PDispatch t1 u) (mkNet cl sv) = Some (mkNet cl' sv') ∧ linked STATE_BOUND (mkNet cl' sv') ∧ idle random_id T cl' ∧
    relayed sv' = relayed sv ∧ dispatched cl' = dispatched cl ∧ will_send (next_object cl) k (t1 + 240000) cl'.
Proof.
  intros (al & Hj & Ee & Hp & Hch) Ha k Hready Hb Ht Ht1 HT Hn. cbn [net_client net_server channel_state] in *. pose proof (proj1 Hids x) as Hid.
  destruct (jo_inv _ _ _ Hj) as [ops Hi]. pose proof (proj1 (au_hash _ Ha)) as Hh.
  destruct (bind_served ops sv (w_socket w) (w_addr w) a al e TURN_CHANNEL_NUMBER_START peer auth (random_id x) (Some (w_relay w)) u Hi (jo_serving _ _ _ Hj)
    (client_asks cl sv al k _ u Hj Hid Ha eq_refl Hpeer ltac:(done) Hn)) as (sv' & al' & c & Et & Hi' & E' & Hk & Hc & Ecid & Ecpeer & Hp' & Hmr & Hval);
    [done|by unfold FindChannel_id; rewrite Hch|by unfold FindChannel_peer; rewrite Hch|].
  fold k in Et, Hi'. set (rep := reply _ _ _ _ _) in *. set (sv2 := send (ToClient (w_socket w) (w_addr w) (msg_wire rep)) sv') in *.
  assert (hash_p cl = ai_hash auth) as Eh by (by rewrite <- (jo_auth _ _ _ Hj)).
  destruct (success_round random_id Hids w sv sv' x k rep t t1 u T cl (λ cl', linked STATE_BOUND (mkNet cl' sv2) ∧ idle random_id T cl' ∧
    dispatched cl' = dispatched cl ∧ will_send (next_object cl) k (t1 + 240000) cl')) as (cl' & Es & Hlk & Hidle & Hd & Hl); try done; [lia| | | | |].
  - by rewrite (jo_server _ _ _ Hj).
  - apply Hk.
  - rewrite Eh, <- (jo_key _ _ _ Hj). exact Hval.
  - intros m st1 Hidle. cbn [on_response k]. unfold TurnChannelBindRequest_OnResponse. destruct (peer_found STATE_BINDING st1 Ee) as (_ & _ & ->).
    cbn [OnChannelBindSuccess bind_state mbind option_bind entry_addr]. set (st2 := update_entry e _ st1).
    assert (entries_ st2 = [mkEntry e TURN_CHANNEL_NUMBER_START peer STATE_BOUND]) as Ee2 by (cbn; rewrite Ee; cbn; by rewrite Z.eqb_refl).
    unfold SendChannelBindRequest. cbn [entry_addr channel_id_ ext_addr_]. change (credentials_of st2) with (credentials_of cl). rewrite (jo_auth _ _ _ Hj). fold k.
    change (TURN_PERMISSION_TIMEOUT - 60 * 1000) with 240000.
    destruct (SendRequest_later random_id Hids k 240000 t1 T st2) as (mg & Es & Hidle2 & Hws); [exact Hidle|done|lia|lia|by change (hash_p st2) with (hash_p cl); rewrite Eh|].
    rewrite Es. eexists. split; [done|]. split; [|split; [exact Hidle2|split; [|exact Hws]]].
    + exists al'. split; [|split; [done|]; split; [done|by exists c]]. apply joined_send. by apply (joined_kept cl _ sv sv' al al' _ Hj Hk Hi' E'); try apply Hj.
    + unfold dispatched. cbn. by rewrite !omap_app, !app_nil_r.
  - exists cl', sv2. split; [exact Es|]. split; [done|]. split; [done|]. split; [|done].
    unfold sv2. rewrite relayed_down. unfold relayed. by rewrite (kp_sent _ _ _ _ Hk).
Qed.
End session.

(** ** From the first packet to the channel *)

(** The times of the steps, on the clock of the client and on that of the server. *)
Record plan := mkPlan {
  at_start : Z; at_first : Z; at_second : Z; at_connection : Z; at_permission : Z; at_payload : Z; at_bind : Z;
  on_first : Z; on_second : Z; on_permission : Z; on_bind : Z
}.
Record plan_ok (p : plan) : Prop := {
  pl_start : 0 ≤ at_start p ≤ at_first p;
  pl_order : at_first p ≤ at_second p ∧ at_second p ≤ at_connection p ∧ at_connection p ≤ at_permission p ∧ at_permission p ≤ at_payload p ∧
    at_payload p ≤ at_bind p;
  pl_bind : at_bind p ≤ at_second p + 300000;
  pl_clock : at_second p + 540000 < HALF;
  pl_first : is_u32 (on_first p);
  pl_nonce : TimeDiff (on_second p) (on_first p) < kNonceTimeout ∧ TimeDiff (on_permission p) (on_first p) < kNonceTimeout ∧
    TimeDiff (on_bind p) (on_first p) < kNonceTimeout
}.
(** What the user of the port does after it is connected; the data before, during and
    after the exchange that binds the channel. *)
Definition permit_ops (p : plan) (peer : SocketAddress) : list net_op :=
  [NClient (PCreateConnection true peer) (at_connection p) (on_second p); NClient PDispatch (at_permission p) (on_permission p)].
Definition plan_connect (p : plan) : list net_op := connect_ops (at_start p) (at_first p) (at_second p) (on_first p) (on_second p).
Definition session_ops (p : plan) (a : Z) (peer : SocketAddress) (before : list datum) (data : list Z) (during after : list datum) : list net_op :=
  (plan_connect p ++ permit_ops p peer) ++ (datum_op a peer <$> before) ++
  NClient (PSendTo data peer true 1) (at_payload p) (on_permission p) :: (datum_op a peer <$> during) ++
  NClient PDispatch (at_bind p) (on_bind p) :: (datum_op a peer <$> after).

Section relays.
Context `{Platform} (random_id : Z → list Z).

Lemma net_run_app addr server s relay l1 : ∀ l2 n,
  net_run random_id addr server s relay (l1 ++ l2) n = (n ← net_run random_id addr server s relay l1 n; net_run random_id addr server s relay l2 n).
Proof. induction l1 as [|o l IH]; intros l2 n; cbn; [done|]. destruct (net_step _ _ _ _ _ o n); cbn; [apply IH|done]. Qed.

(** The client connects and has a permission for the peer. *)
Lemma permitted w ops sv key p peer : ids_ok random_id → world_ok w sv key → inv_after ops sv → enable_otu_nonce_ (config sv) = false →
  addr_ok peer → IsCompatibleAddress (w_ip w) peer = true → plan_ok p →
  ∃ n, run_world random_id w (plan_connect p ++ permit_ops p peer) (mkNet (client_of w) sv) = Some n ∧
    linked w (next_addr sv) 4 peer (auth_of w sv key (on_first p)) (config sv) STATE_UNBOUND n ∧ idle random_id (at_bind p + 240000) (net_client n) ∧
    next_object (net_client n) = 6 ∧ relayed (net_server n) = relayed sv ∧ dispatched (net_client n) = [].
Proof.
  intros Hids Hw Hi Hotu Hpeer Hcomp []. set (auth := auth_of w sv key (on_first p)). pose proof (auth_of_ok w sv key (on_first p) Hw) as Hauth. fold auth in Hauth.
  destruct (connects random_id w sv key ops (at_start p) (at_first p) (at_second p) (on_first p) (on_second p) (at_bind p + 240000) Hids Hw Hi)
    as (cl & sv1 & p1 & p2 & Er & Hidle & Hap & Hcr & Hc & Hn & He & _ & Hi1 & Eal & Ecfg & Esock & _ & q1 & q2 & Esent); [lia|lia|lia|lia|done|apply pl_nonce0|].
  set (al := allocation_of w key (random_id 2)) in *. pose proof (wo_allocate _ _ _ Hw) as [Hs Ha _ _ Hstr _ _ _].
  assert (joined w (next_addr sv) auth (config sv) cl sv1 al) as Hj.
  { split; try done; [apply Hap|apply Hidle|by exists ops|]. split; [done|done|by rewrite Esock|apply Ha|by rewrite Ecfg|by rewrite Ecfg]. }
  destruct (connection_step random_id Hids w (next_addr sv) 4 peer auth (config sv) cl sv1 al (at_connection p) (on_second p) (at_bind p + 240000) Hj Hidle)
    as (cl2 & Es2 & Hj2 & Hready & Ee2 & Hn2 & He2); [apply Hap|apply Hap|done|done|lia|unfold HALF in *; lia| |apply (au_hash _ Hauth)|].
  { by rewrite (ap_ip _ _ Hap). }
  destruct (permission_round random_id Hids w (proj1 (wo_server _ _ _ Hw)) (next_addr sv) 4 peer Hpeer auth (config sv) cl2 sv1 al (at_connection p) (at_permission p) (on_permission p) (at_bind p + 240000) Hj2 Hauth Hready Ee2)
    as (cl3 & sv3 & Es3 & Hlk & Hidle3 & Hn3 & Hr3 & Hd3 & _); [done|lia|lia|unfold HALF in *; lia| |].
  { unfold auth, auth_of, nonce_of. cbn [ai_nonce]. rewrite nonce_accepted; [by apply Z.ltb_lt, pl_nonce0|apply Hstr|done]. }
  exists (mkNet cl3 sv3). split; [|split; [done|]; split; [done|]; split; [cbn; lia|]].
  - unfold run_world in *. rewrite net_run_app. fold (plan_connect p) in Er. rewrite Er. cbn [mbind option_bind net_run permit_ops]. rewrite Es2. cbn [mbind option_bind]. by rewrite Es3.
  - cbn [net_server net_client]. rewrite Hr3, Hd3. unfold relayed, dispatched. rewrite Esent, He2, He, omap_app. by rewrite app_nil_r.
Qed.

(** The data goes on before, during and after the exchange that binds the channel. *)
Lemma relays w a e peer auth cfg n before data during after p : ids_ok random_id → ip_ok (ip_ (w_server w)) → addr_ok peer → auth_ok auth → plan_ok p →
  let T := at_bind p + 240000 in
  linked w a e peer auth cfg STATE_UNBOUND n → idle random_id T (net_client n) →
  ValidateNonce (nonce_key_ cfg) (ai_nonce auth) (on_bind p) = true →
  Forall datum_ok (before ++ during ++ after) → Forall check_only before → bytes_ok data → zlen data < 59000 →
  next_object (net_client n) + zlen before + zlen during + 2 < max_objects →
  ∃ n', run_world random_id w ((datum_op a peer <$> before) ++ NClient (PSendTo data peer true 1) (at_payload p) (on_permission p) ::
      (datum_op a peer <$> during) ++ NClient PDispatch (at_bind p) (on_bind p) :: (datum_op a peer <$> after)) n = Some n' ∧
    linked w a e peer auth cfg STATE_BOUND n' ∧ idle random_id T (net_client n') ∧
    relayed (net_server n') = relayed (net_server n) ++ ((λ d, (a, peer, d)) <$> (ups before ++ [data] ++ ups during ++ ups after)) ∧
    dispatched (net_client n') = dispatched (net_client n) ++ ((λ d, (peer, d)) <$> (downs before ++ downs during ++ downs after)).
Proof.
  intros Hids Hw Hpeer Hauth [] T Hlk Hidle Hnonce Hok Hchk Hd Hl Hb. apply Forall_app in Hok as [Hok1 Hok]. apply Forall_app in Hok as [Hok2 Hok3].
  unfold run_world. rewrite net_run_app.
  destruct (data_run random_id Hids w Hw a e peer Hpeer auth cfg STATE_UNBOUND before n Hlk Hok1) as (n1 & E1 & Hlk1 & Hp1); [done|]. rewrite E1. cbn [mbind option_bind net_run].
  pose proof (passes_idle random_id a peer _ _ _ T Hp1 Hidle) as Hidle1. pose proof (ps_next _ _ _ _ _ Hp1). pose proof (zlen_nonneg during).
  destruct n1 as [cl1 sv1]. cbn [net_client] in *.
  destruct (payload_step random_id Hids w a e peer Hpeer auth cfg cl1 sv1 data 1 (at_payload p) (on_permission p) T Hlk1 Hidle1)
    as (cl2 & sv2 & E2 & Hlk2 & Hready & Hn2 & Hr2 & Hd2); [done|done|done|lia|lia|unfold HALF in *; lia|]. rewrite E2. cbn [mbind option_bind]. rewrite net_run_app.
  destruct (data_run random_id Hids w Hw a e peer Hpeer auth cfg STATE_BINDING during _ Hlk2 Hok2) as (n3 & E3 & Hlk3 & Hp3); [done|]. rewrite E3. cbn [mbind option_bind net_run].
  pose proof (passes_ready random_id a peer _ _ _ _ _ T _ Hp3 Hready) as Hready3. pose proof (ps_next _ _ _ _ _ Hp3). destruct n3 as [cl3 sv3]. cbn [net_client] in *.
  destruct (bind_round random_id Hids w Hw a e peer Hpeer auth cfg cl3 sv3 _ (at_payload p) (at_bind p) (on_bind p) T Hlk3 Hauth Hready3)
    as (cl4 & sv4 & E4 & Hlk4 & Hidle4 & Hr4 & Hd4 & _); [lia|lia|lia|lia|done|]. rewrite E4. cbn [mbind option_bind].
  destruct (data_run random_id Hids w Hw a e peer Hpeer auth cfg STATE_BOUND after _ Hlk4 Hok3) as (n5 & E5 & Hlk5 & Hp5); [done|].
  exists n5. split; [done|]. split; [done|]. split; [by apply (passes_idle random_id a peer _ _ _ T Hp5)|].
  rewrite (ps_relayed _ _ _ _ _ Hp5), (ps_dispatched _ _ _ _ _ Hp5). cbn [net_client net_server]. rewrite Hr4, Hd4.
  rewrite (ps_relayed _ _ _ _ _ Hp3 : relayed sv3 = _), (ps_dispatched _ _ _ _ _ Hp3 : dispatched cl3 = _). cbn [net_client net_server]. rewrite Hr2, Hd2.
  rewrite (ps_relayed _ _ _ _ _ Hp1 : relayed sv1 = _), (ps_dispatched _ _ _ _ _ Hp1 : dispatched cl1 = _).
  rewrite !fmap_app. cbn [fmap list_fmap]. by rewrite <- !app_assoc.
Qed.

(** C2. Data passes between the user of a TURN client port and a peer in both directions,
    complete and in order, from the connection of the client on: for every client whose
    user name the server has the key of and every state that the server can reach in which
    it may allocate for the client, the client connects, asks for a permission for the
    peer, sends its first payload and with it asks for a channel.
    Data of any number and content that either side sends before the payload (the client:
    connectivity checks), while the channel is being bound, and over the bound channel,
    is what the server sends to the peer from the relayed address, and what the port
    gives to its user as coming from the peer, each once and in the order in which it was
    sent, although it goes as an indication first and over the channel later.
    In the end both sides have the channel with the same number and peer. *)
Theorem turn_client_relays w random ops sv key p peer before data during after : ids_ok random_id →
  turn_ops_ok ops (TurnServer_new random) → turn_run ops (TurnServer_new random) = Some sv → world_ok w sv key →
  enable_otu_nonce_ (config sv) = false → addr_ok peer → IsCompatibleAddress (w_ip w) peer = true → plan_ok p →
  Forall datum_ok (before ++ during ++ after) → Forall check_only before → bytes_ok data → zlen data < 59000 →
  zlen before + zlen during < 1000000000 →
  let a := next_addr sv in
  ∃ cl sv' al c,
    run_world random_id w (session_ops p a peer before data during after) (mkNet (client_of w) sv) = Some (mkNet cl sv') ∧
    relayed sv' = relayed sv ++ ((λ d, (a, peer, d)) <$> (ups before ++ [data] ++ ups during ++ ups after)) ∧
    dispatched cl = (λ d, (peer, d)) <$> (downs before ++ downs during ++ downs after) ∧
    entries_ cl = [mkEntry 4 TURN_CHANNEL_NUMBER_START peer STATE_BOUND] ∧
    heap sv' !! a = Some al ∧ c ∈ channels_ al ∧ chan_id c = TURN_CHANNEL_NUMBER_START ∧ chan_peer c = peer.
Proof.
  intros Hids Ho Erun Hw Hotu Hpeer Hcomp Hp Hok Hchk Hd Hl Hb a. destruct (run_inv ops [] (TurnServer_new random)) as (st1 & E1 & Hi); [apply turn_new_inv|done|].
  rewrite E1 in Erun. injection Erun as ->. cbn [app] in Hi. clear Ho E1.
  destruct (permitted w ops sv key p peer Hids Hw Hi Hotu Hpeer Hcomp Hp) as (n & Er & Hlk & Hidle & Hn & Hr & Hdis).
  destruct (relays w a 4 peer (auth_of w sv key (on_first p)) (config sv) n before data during after p Hids (proj1 (wo_server _ _ _ Hw)) Hpeer (auth_of_ok w sv key _ Hw) Hp Hlk Hidle)
    as ([cl sv'] & Er' & (al & Hj & He & _ & c & Hc & Eid & Epeer) & _ & Hr' & Hd'); [|done..|rewrite Hn; unfold max_objects; lia|].
  { destruct Hp. unfold auth_of, nonce_of. cbn [ai_nonce]. rewrite nonce_accepted; [by apply Z.ltb_lt, pl_nonce0|apply (wo_allocate _ _ _ Hw)|done]. }
  cbn [net_client net_server] in *. exists cl, sv', al, c. split; [|rewrite Hr' , Hr, Hd', Hdis; split_and!; try done; apply (jo_serving _ _ _ _ _ _ _ Hj)].
  unfold run_world, session_ops in *. rewrite net_run_app, Er. cbn [mbind option_bind]. exact Er'.
Qed.
End relays.

(** ** Witness *)

Definition sample_plan : plan := mkPlan 1000 1050 1200 1300 1350 2000 2050 5000 5100 5200 6000.
Lemma sample_plan_ok : plan_ok sample_plan.
Proof. split; cbn; unfold HALF, is_u32, kNonceTimeout; try lia. by repeat split. Qed.
Lemma turn_client_relays_witness :
  let p := zero_platform in
  ∃ cl sv',
    run_world sample_random sample_world (session_ops sample_plan 1 turn_peer
      [Up (text "ping") false 1 1400 5300; Down (text "pong") sample_tid 1500] (text "hello") [Down (text "early") sample_tid 2010]
      [Up (text "more") true 1 3000 7000; Down (text "bye") sample_tid 3100]) (mkNet (client_of sample_world) net_server_state) = Some (mkNet cl sv') ∧
    relayed sv' = [(1, turn_peer, text "ping"); (1, turn_peer, text "hello"); (1, turn_peer, text "more")] ∧
    dispatched cl = [(turn_peer, text "pong"); (turn_peer, text "early"); (turn_peer, text "bye")].
Proof.
  intros p. destruct net_ops_ok as [Ho Er].
  destruct (turn_client_relays sample_random sample_world turn_nonce_key net_ops net_server_state net_key sample_plan turn_peer
      [Up (text "ping") false 1 1400 5300; Down (text "pong") sample_tid 1500] (text "hello") [Down (text "early") sample_tid 2010]
      [Up (text "more") true 1 3000 7000; Down (text "bye") sample_tid 3100] sample_ids Ho Er sample_world_ok)
    as (cl & sv' & al & c & E & Hr & Hd & _); [done|apply sample_addrs|done|apply sample_plan_ok| |by repeat constructor|apply text_ok|done|done|].
  { repeat apply Forall_cons_2; try apply Forall_nil_2; repeat split; try apply text_ok; try done; by apply bytes_okb. }
  exists cl, sv'. exact (conj E (conj Hr Hd)).
Defined.
