(* ===== verification/IcePort.v ===== *)
(** * Ports: connectivity checks

    The messages of ICE in webrtc/p2p/base/port.cc: the ping that a connection sends
    (ConnectionRequest), its check by the port of the peer ([GetStunMessage]), conflicts
    of roles, and the responses.

    Strings are lists of bytes.  What a port sends and signals is its log; sending
    succeeds.  Sockets, networks and the gathering of candidates are not part of it. *)

From S2P Require Import Prelude Base64 ByteOrder ByteBuffer MessageDigest IpAddress Stun StunWire StunIntegrity StunBuild TimeUtils MessageQueue StunRequest.

Definition ICE_TYPE_PREFERENCE_PRFLX : Z := 110.
Definition ICE_CANDIDATE_COMPONENT_RTCP : Z := 2.
Definition CONNECTION_RESPONSE_TIMEOUT : Z := 5000.
Definition COLON : Z := 58.

Inductive IceProtocolType := ICEPROTO_GOOGLE | ICEPROTO_HYBRID | ICEPROTO_RFC5245.
#[export] Instance IceProtocolType_eq_dec : EqDecision IceProtocolType.
Proof. solve_decision. Defined.
Inductive IceRole := ICEROLE_CONTROLLING | ICEROLE_CONTROLLED | ICEROLE_UNKNOWN.
#[export] Instance IceRole_eq_dec : EqDecision IceRole.
Proof. solve_decision. Defined.

(** ** The user name of RTCP in Google's ICE *)

(** The new last character is a local variable that is not initialised: it keeps what
    the memory held when the old one is not in the table. *)
Definition GetRtcpUfragFromRtpUfrag `{Platform} (rtp_ufrag : list Z) : list Z :=
  match rev rtp_ufrag with
  | [] => rtp_ufrag
  | last :: front =>
      let new_last_char := match GetNextBase64Char last with Some c => c | None => uninit 0 end in
      rev (new_last_char :: front)
  end.

(** ** Ports *)

Inductive port_event :=
  | SendTo (addr : SocketAddress) (packet : list Z)
  | SignalRoleConflict
  | SignalPortPacket (addr : SocketAddress) (data : list Z)   (* SignalReadPacket of the port *)
  | SignalUnknownAddress (addr : SocketAddress) (msg : StunMessage) (remote_username : list Z).

(** Without the names that signalling and statistics use. *)
Record Candidate := mkCandidate {
  c_component : Z;
  c_type : list Z;
  c_protocol : list Z;
  c_address : SocketAddress;
  c_priority : Z;
  c_username : list Z;
  c_password : list Z;
  c_related_address : SocketAddress
}.

Record Port := mkPort {
  ice_protocol_ : IceProtocolType;
  ice_role_ : IceRole;
  tiebreaker_ : Z;
  component_ : Z;
  ice_username_fragment_ : list Z;
  password_ : list Z;
  send_retransmit_count_attribute_ : bool;
  enable_port_packets_ : bool;
  candidates_ : list Candidate;
  port_log : list port_event
}.
Definition port_emit (e : port_event) (p : Port) : Port :=
  mkPort (ice_protocol_ p) (ice_role_ p) (tiebreaker_ p) (component_ p) (ice_username_fragment_ p) (password_ p)
    (send_retransmit_count_attribute_ p) (enable_port_packets_ p) (candidates_ p) (port_log p ++ [e]).
Definition SetIceProtocolType (protocol : IceProtocolType) (p : Port) : Port :=
  mkPort protocol (ice_role_ p) (tiebreaker_ p) (component_ p) (ice_username_fragment_ p) (password_ p)
    (send_retransmit_count_attribute_ p) (enable_port_packets_ p) (candidates_ p) (port_log p).
Definition SetIceRole (role : IceRole) (p : Port) : Port :=
  mkPort (ice_protocol_ p) role (tiebreaker_ p) (component_ p) (ice_username_fragment_ p) (password_ p)
    (send_retransmit_count_attribute_ p) (enable_port_packets_ p) (candidates_ p) (port_log p).

Definition EnablePortPackets (p : Port) : Port :=
  mkPort (ice_protocol_ p) (ice_role_ p) (tiebreaker_ p) (component_ p) (ice_username_fragment_ p) (password_ p)
    (send_retransmit_count_attribute_ p) true (candidates_ p) (port_log p).

(** Returns the index of the new candidate. *)
Definition AddPrflxCandidate (local : Candidate) (p : Port) : Z * Port :=
  (zlen (candidates_ p),
   mkPort (ice_protocol_ p) (ice_role_ p) (tiebreaker_ p) (component_ p) (ice_username_fragment_ p) (password_ p)
     (send_retransmit_count_attribute_ p) (enable_port_packets_ p) (candidates_ p ++ [local]) (port_log p)).

Definition IsStandardIce (p : Port) : bool := bool_decide (ice_protocol_ p = ICEPROTO_RFC5245).
Definition IsGoogleIce (p : Port) : bool := bool_decide (ice_protocol_ p = ICEPROTO_GOOGLE).
Definition IsHybridIce (p : Port) : bool := bool_decide (ice_protocol_ p = ICEPROTO_HYBRID).
Definition username_fragment `{Platform} (p : Port) : list Z :=
  if negb (IsStandardIce p) && (component_ p =? ICE_CANDIDATE_COMPONENT_RTCP)
  then GetRtcpUfragFromRtpUfrag (ice_username_fragment_ p)
  else ice_username_fragment_ p.

Definition CreateStunUsername `{Platform} (remote_username : list Z) (p : Port) : list Z :=
  let str := remote_username in
  let str := if IsStandardIce p then str ++ [COLON] else str in
  str ++ username_fragment p.

(** The local and the remote fragment, and the protocol of the remote side. *)
Definition ParseStunUsername `{Platform} (stun_msg : StunMessage) (p : Port) : option (list Z * list Z * IceProtocolType) :=
  match GetByteString stun_msg STUN_ATTR_USERNAME with
  | None => None
  | Some username =>
      let colon_pos := list_find (λ c, c = COLON) username in
      let remote_protocol_type :=
        if IsHybridIce p then match colon_pos with Some _ => ICEPROTO_RFC5245 | None => ICEPROTO_GOOGLE end
        else ice_protocol_ p in
      match remote_protocol_type with
      | ICEPROTO_RFC5245 =>
          match colon_pos with
          | Some (pos, _) => Some (take pos username, drop (S pos) username, remote_protocol_type)
          | None => None
          end
      | ICEPROTO_GOOGLE =>
          let remote_frag_len := zlen username - zlen (username_fragment p) in
          if remote_frag_len <? 0 then None
          else Some (ztake (zlen (username_fragment p)) username, zdrop (zlen (username_fragment p)) username,
                     remote_protocol_type)
      | ICEPROTO_HYBRID => Some ([], [], remote_protocol_type)
      end
  end.

Section port.
Context `{Platform}.

Definition send_message (m : StunMessage) (addr : SocketAddress) (p : Port) : Port :=
  port_emit (SendTo addr (Data (Write m (ByteBuffer_new ORDER_NETWORK)).2)) p.

Definition SendBindingErrorResponse (request : StunMessage) (addr : SocketAddress) (code : Z) (reason : list Z)
    (p : Port) : Port :=
  let response := SetType (StunMessage_new CStun) STUN_BINDING_ERROR_RESPONSE in
  let response := (SetTransactionID response (m_transaction_id request)).2 in
  let error_attr := CreateErrorCode in
  let error_attr :=
    if IsStandardIce p then SetCode error_attr code
    else if IsGoogleIce p
    then match error_attr with
         | ErrorCodeAttr t l _ _ r => ErrorCodeAttr t l (u8 (Z.quot code 256)) (u8 (Z.rem code 256)) r
         | a => a
         end
    else error_attr in
  let error_attr := SetReason error_attr reason in
  let response := (AddAttribute response error_attr).2 in
  let response :=
    if IsStandardIce p then
      let response :=
        if negb (code =? STUN_ERROR_BAD_REQUEST) && negb (code =? STUN_ERROR_UNAUTHORIZED)
        then (AddMessageIntegrity response (password_ p)).2 else response in
      (AddFingerprint response).2
    else if IsGoogleIce p then
      match GetByteString request STUN_ATTR_USERNAME with
      | Some username => (AddAttribute response (StunByteStringAttribute STUN_ATTR_USERNAME username)).2
      | None => response
      end
    else response in
  send_message response addr p.

(** The response to a valid ping; the connection of the address is then told of the
    ping (Connection::ReceivedPing). *)
Definition binding_response (request : StunMessage) (addr : SocketAddress) (username : list Z) (p : Port) : StunMessage :=
  let response := SetType (StunMessage_new CStun) STUN_BINDING_RESPONSE in
  let response := (SetTransactionID response (m_transaction_id request)).2 in
  let response :=
    match GetUInt32 request STUN_ATTR_RETRANSMIT_COUNT with
    | Some count => (AddAttribute response (StunUInt32Attribute STUN_ATTR_RETRANSMIT_COUNT count)).2
    | None => response
    end in
  if IsStandardIce p then
    let response := (AddAttribute response (StunXorAddressAttribute STUN_ATTR_XOR_MAPPED_ADDRESS addr)).2 in
    let response := (AddMessageIntegrity response (password_ p)).2 in
    (AddFingerprint response).2
  else if IsGoogleIce p then
    let response := (AddAttribute response (StunAddressAttribute STUN_ATTR_MAPPED_ADDRESS addr)).2 in
    (AddAttribute response (StunByteStringAttribute STUN_ATTR_USERNAME username)).2
  else response.
Definition SendBindingResponse (request : StunMessage) (addr : SocketAddress) (p : Port) : Port :=
  match GetByteString request STUN_ATTR_USERNAME with
  | None => p
  | Some username => send_message (binding_response request addr username p) addr p
  end.

(** True with the message and the remote fragment; true without a message when the
    packet was STUN and has been answered or dropped; false when it is no STUN packet. *)
Definition GetStunMessage (data : list Z) (addr : SocketAddress) (p : Port)
    : option (bool * option StunMessage * list Z * Port) :=
  if IsStandardIce p && negb (ValidateFingerprint data) then Some (false, None, [], p)
  else
    match Read (StunMessage_new CIce, ByteBuffer_of data ORDER_NETWORK) with
    | (Some true, (stun_msg, buf)) =>
        if 0 <? Length buf then Some (false, None, [], p)
        else if m_type stun_msg =? STUN_BINDING_REQUEST then
          match GetByteString stun_msg STUN_ATTR_USERNAME with
          | None =>
              Some (true, None, [], SendBindingErrorResponse stun_msg addr STUN_ERROR_BAD_REQUEST STUN_ERROR_REASON_BAD_REQUEST p)
          | Some _ =>
              if IsStandardIce p && bool_decide (GetByteString stun_msg STUN_ATTR_MESSAGE_INTEGRITY = None)
              then Some (true, None, [], SendBindingErrorResponse stun_msg addr STUN_ERROR_BAD_REQUEST STUN_ERROR_REASON_BAD_REQUEST p)
              else
                match ParseStunUsername stun_msg p with
                | None =>
                    Some (true, None, [], SendBindingErrorResponse stun_msg addr STUN_ERROR_UNAUTHORIZED STUN_ERROR_REASON_UNAUTHORIZED p)
                | Some (local_ufrag, remote_ufrag, remote_protocol_type) =>
                    if negb (bool_decide (local_ufrag = username_fragment p))
                    then Some (true, None, [], SendBindingErrorResponse stun_msg addr STUN_ERROR_UNAUTHORIZED STUN_ERROR_REASON_UNAUTHORIZED p)
                    else
                      let p := if IsHybridIce p then SetIceProtocolType remote_protocol_type p else p in
                      if IsStandardIce p then
                        valid ← ValidateMessageIntegrity data (password_ p);
                        if (valid : bool) then Some (true, Some stun_msg, remote_ufrag, p)
                        else Some (true, None, [], SendBindingErrorResponse stun_msg addr STUN_ERROR_UNAUTHORIZED
                                                     STUN_ERROR_REASON_UNAUTHORIZED p)
                      else Some (true, Some stun_msg, remote_ufrag, p)
                end
          end
        else if (m_type stun_msg =? STUN_BINDING_RESPONSE) || (m_type stun_msg =? STUN_BINDING_ERROR_RESPONSE) then
          if (m_type stun_msg =? STUN_BINDING_ERROR_RESPONSE) && bool_decide (GetErrorCode stun_msg = None)
          then Some (true, None, [], p)
          else Some (true, Some stun_msg, [], p)
        else if m_type stun_msg =? STUN_BINDING_INDICATION then Some (true, Some stun_msg, [], p)
        else Some (true, None, [], p)
    | _ => Some (false, None, [], p)
    end.

(** False when the peer was told of a conflict. *)
Definition MaybeIceRoleConflict (addr : SocketAddress) (stun_msg : StunMessage) (remote_ufrag : list Z) (p : Port)
    : bool * Port :=
  let controlling := GetUInt64 stun_msg STUN_ATTR_ICE_CONTROLLING in
  let loopback :=
    match controlling with
    | Some t => bool_decide (username_fragment p = remote_ufrag) && (t =? tiebreaker_ p)
    | None => false
    end in
  if loopback then (true, p)
  else
    let remote :=
      match GetUInt64 stun_msg STUN_ATTR_ICE_CONTROLLED with
      | Some t => (ICEROLE_CONTROLLED, t)
      | None => match controlling with Some t => (ICEROLE_CONTROLLING, t) | None => (ICEROLE_UNKNOWN, 0) end
      end in
    let conflict :=
      (false, SendBindingErrorResponse stun_msg addr STUN_ERROR_ROLE_CONFLICT STUN_ERROR_REASON_ROLE_CONFLICT p) in
    match ice_role_ p with
    | ICEROLE_CONTROLLING =>
        if bool_decide (remote.1 = ICEROLE_CONTROLLING)
        then if tiebreaker_ p <=? remote.2 then (true, port_emit SignalRoleConflict p) else conflict
        else (true, p)
    | ICEROLE_CONTROLLED =>
        if bool_decide (remote.1 = ICEROLE_CONTROLLED)
        then if remote.2 <? tiebreaker_ p then (true, port_emit SignalRoleConflict p) else conflict
        else (true, p)
    | ICEROLE_UNKNOWN => (true, p)
    end.

(** A packet from an address without a connection. *)
Definition Port_OnReadPacket (data : list Z) (addr : SocketAddress) (p : Port) : option Port :=
  if enable_port_packets_ p then Some (port_emit (SignalPortPacket addr data) p)
  else
    '(ok, msg, remote_username, p) ← GetStunMessage data addr p;
    match msg with
    | Some msg =>
        if m_type msg =? STUN_BINDING_REQUEST then
          let '(ok, p) :=
            if IsStandardIce p then MaybeIceRoleConflict addr msg remote_username p else (true, p) in
          if (ok : bool) then Some (port_emit (SignalUnknownAddress addr msg remote_username) p) else Some p
        else Some p
    | None => Some p
    end.

(** ** Pings *)

(** What a ConnectionRequest takes from its connection and its port. *)
Record ConnectionRequest := mkPing {
  ping_port : Port;
  remote_username : list Z;
  remote_password : list Z;
  pings_outstanding : Z;      (* the size of pings_since_last_response_ *)
  use_candidate : bool;
  local_priority : Z
}.
Definition ConnectionRequest_Prepare (k : ConnectionRequest) (request : StunMessage) : StunMessage :=
  let port := ping_port k in
  let request := SetType request STUN_BINDING_REQUEST in
  let request := add (StunByteStringAttribute STUN_ATTR_USERNAME (CreateStunUsername (remote_username k) port)) request in
  let request :=
    if send_retransmit_count_attribute_ port
    then add (StunUInt32Attribute STUN_ATTR_RETRANSMIT_COUNT (u32 (pings_outstanding k - 1))) request else request in
  if IsStandardIce port then
    let request :=
      match ice_role_ port with
      | ICEROLE_CONTROLLING =>
          let request := add (StunUInt64Attribute STUN_ATTR_ICE_CONTROLLING (tiebreaker_ port)) request in
          if use_candidate k then add (ByteStringAttr STUN_ATTR_USE_CANDIDATE 0 []) request else request
      | ICEROLE_CONTROLLED => add (StunUInt64Attribute STUN_ATTR_ICE_CONTROLLED (tiebreaker_ port)) request
      | ICEROLE_UNKNOWN => request
      end in
    let prflx_priority := Z.lor (Z.shiftl ICE_TYPE_PREFERENCE_PRFLX 24) (Z.land (local_priority k) 16777215) in
    let request := add (StunUInt32Attribute STUN_ATTR_PRIORITY prflx_priority) request in
    let request := (AddMessageIntegrity request (remote_password k)).2 in
    (AddFingerprint request).2
  else request.

(** A ping is sent once and times out after a single delay. *)
Definition ConnectionRequest_GetNextDelay (count : Z) (timeout : bool) : Z * Z * bool :=
  (CONNECTION_RESPONSE_TIMEOUT, count, true).

#[export] Instance ConnectionRequest_class : RequestClass ConnectionRequest :=
  {| Prepare := ConnectionRequest_Prepare; GetNextDelay _ := ConnectionRequest_GetNextDelay |}.
End port.

#[export] Program Instance ConnectionRequest_laws `{Platform} : RequestLaws ConnectionRequest := {| max_sends _ := 1 |}.
Next Obligation.
  intros ? k m. unfold Prepare, ConnectionRequest_class, ConnectionRequest_Prepare.
  destruct (IsStandardIce (ping_port k)), (send_retransmit_count_attribute_ (ping_port k)), (ice_role_ (ping_port k)),
    (use_candidate k);
    by rewrite ?AddFingerprint_id, ?AddMessageIntegrity_id, ?add_id.
Qed.
Next Obligation. done. Qed.
Next Obligation. intros ? k n Hn. assert (n = 0) as -> by lia. done. Qed.

(** ** The peer accepts a ping *)

Section pings.
Context `{Platform}.

(** The fields of a port in their ranges, with a user name that fits the attribute. *)
Definition port_ok (p : Port) : Prop :=
  IsStandardIce p = true ∧ bytes_ok (ice_username_fragment_ p) ∧ zlen (ice_username_fragment_ p) ≤ 256 ∧
  (COLON ∉ ice_username_fragment_ p) ∧ bytes_ok (password_ p) ∧ is_u64 (tiebreaker_ p) ∧ ice_role_ p ≠ ICEROLE_UNKNOWN.

(** A ping from port [L] to port [R]. *)
Definition ping_to (L R : Port) (k : ConnectionRequest) : Prop :=
  ping_port k = L ∧ remote_username k = ice_username_fragment_ R ∧ remote_password k = password_ R.

Definition ping_username (k : ConnectionRequest) : list Z :=
  remote_username k ++ [COLON] ++ ice_username_fragment_ (ping_port k).
Definition role_attr (p : Port) : StunAttribute :=
  UInt64Attr (if bool_decide (ice_role_ p = ICEROLE_CONTROLLING) then STUN_ATTR_ICE_CONTROLLING else STUN_ATTR_ICE_CONTROLLED)
    8 (tiebreaker_ p).
Definition prflx_priority (k : ConnectionRequest) : Z := ICE_TYPE_PREFERENCE_PRFLX * 2 ^ 24 + local_priority k mod 2 ^ 24.
Definition nominates (k : ConnectionRequest) : bool :=
  bool_decide (ice_role_ (ping_port k) = ICEROLE_CONTROLLING) && use_candidate k.
(** The attributes of a ping before its protection. *)
Definition ping_attrs (k : ConnectionRequest) : list StunAttribute :=
  [ByteStringAttr STUN_ATTR_USERNAME (zlen (ping_username k)) (ping_username k)] ++
  (if send_retransmit_count_attribute_ (ping_port k)
   then [UInt32Attr STUN_ATTR_RETRANSMIT_COUNT 4 (u32 (pings_outstanding k - 1))] else []) ++
  [role_attr (ping_port k)] ++
  (if nominates k then [ByteStringAttr STUN_ATTR_USE_CANDIDATE 0 []] else []) ++
  [UInt32Attr STUN_ATTR_PRIORITY 4 (prflx_priority k)].
Definition ping_message (k : ConnectionRequest) (tid : list Z) : StunMessage :=
  secured (built CIce STUN_BINDING_REQUEST tid (ping_attrs k)) (remote_password k).

Lemma username_standard p : port_ok p → username_fragment p = ice_username_fragment_ p.
Proof. intros (Hs & _). unfold username_fragment. by rewrite Hs. Qed.

Lemma ping_username_ok L R k : port_ok L → port_ok R → ping_to L R k →
  bytes_ok (ping_username k) ∧ 0 ≤ zlen (ping_username k) ≤ 513.
Proof.
  intros (_ & HL & LL & _) (_ & HR & LR & _) (EL & ER & _). unfold ping_username. rewrite EL, ER.
  pose proof (zlen_nonneg (ice_username_fragment_ L)). pose proof (zlen_nonneg (ice_username_fragment_ R)).
  split; [|zlia]. rewrite !bytes_ok_app. split_and!; try done. by constructor.
Qed.
Lemma prflx_value k : Z.lor (Z.shiftl ICE_TYPE_PREFERENCE_PRFLX 24) (Z.land (local_priority k) 16777215) = prflx_priority k ∧
  is_u32 (prflx_priority k).
Proof.
  unfold prflx_priority, ICE_TYPE_PREFERENCE_PRFLX. change 16777215 with (Z.ones 24). rewrite Z.land_ones by lia.
  pose proof (Z.mod_pos_bound (local_priority k) (2 ^ 24) ltac:(lia)).
  split; [|unfold is_u32; lia]. by rewrite lor_lanes by lia.
Qed.

Lemma ping_attrs_fit L R k tid : port_ok L → port_ok R → ping_to L R k → Forall (fits CIce tid) (ping_attrs k).
Proof.
  intros HL HR Hk. destruct (ping_username_ok L R k HL HR Hk) as [Hu Hlen]. destruct (prflx_value k) as [_ Hp].
  pose proof HL as (_ & _ & _ & _ & _ & Ht & _). destruct Hk as (EL & _). unfold ping_attrs, nominates, role_attr. rewrite EL.
  repeat (apply Forall_app; split); try (apply Forall_cons_2; [|apply Forall_nil_2]).
  - split; [|done]. split; [in_range|]. split; [unfold is_u16; cbn; lia|done].
  - destruct (send_retransmit_count_attribute_ L); [|constructor]. apply Forall_cons_2; [|constructor]. split; [|done].
    split; [in_range|]. split; [in_range|]. split; [done|]. apply u32_range.
  - split; [|by case_bool_decide]. split; [case_bool_decide; in_range|]. split; [in_range|]. by split.
  - case_bool_decide; [|constructor]. destruct (use_candidate k); [|constructor]. apply Forall_cons_2; [|constructor]. split; [|done].
    split; [in_range|]. split; [in_range|]. split; [done|constructor].
  - split; [|done]. split; [in_range|]. split; [in_range|]. by split.
Qed.
Lemma ping_attrs_size L R k l1 l2 : port_ok L → port_ok R → ping_to L R k → ping_attrs k = l1 ++ l2 →
  attrs_size l1 < 1000.
Proof.
  intros HL HR Hk E. destruct (ping_username_ok L R k HL HR Hk) as [_ Hlen].
  assert (padded (zlen (ping_username k)) < 520) by (unfold padded; pose proof (pad4_range (zlen (ping_username k))); lia).
  assert (attrs_size (ping_attrs k) < 1000) as Hs.
  { unfold ping_attrs. rewrite !attrs_size_app.
    assert (∀ t bits, attrs_size [UInt32Attr t 4 bits] = 8) as -> by done.
    change (attrs_size [role_attr (ping_port k)]) with 12.
    change (attrs_size [ByteStringAttr STUN_ATTR_USERNAME (zlen (ping_username k)) (ping_username k)])
      with (4 + padded (zlen (ping_username k)) + 0).
    destruct (send_retransmit_count_attribute_ _), (nominates k); cbv [attrs_size fold_right attr_length];
      change (padded 4) with 4; change (padded 0) with 0; lia. }
  pose proof (ping_attrs_fit L R k [] HL HR Hk) as Hf. rewrite E in *. apply Forall_app in Hf as [_ H2].
  pose proof (attrs_size_nonneg _ _ _ H2). rewrite attrs_size_app in Hs. lia.
Qed.

Lemma built_base tid : id_ok tid →
  SetType (SetTransactionID (StunMessage_new CIce) tid).2 STUN_BINDING_REQUEST = built CIce STUN_BINDING_REQUEST tid [].
Proof. intros [_ Hl]. unfold SetTransactionID, IsValidTransactionId. rewrite Hl. done. Qed.

Lemma Prepare_value L R k tid : port_ok L → port_ok R → ping_to L R k → id_ok tid →
  ConnectionRequest_Prepare k (SetTransactionID (StunMessage_new CIce) tid).2 = ping_message k tid ∧
  msg_ok (built CIce STUN_BINDING_REQUEST tid (ping_attrs k)) ∧
  m_length (built CIce STUN_BINDING_REQUEST tid (ping_attrs k)) + 32 < 65536.
Proof.
  intros HL HR Hk Hid. pose proof (ping_attrs_fit L R k tid HL HR Hk) as Hfit.
  pose proof (ping_attrs_size L R k (ping_attrs k) [] HL HR Hk ltac:(by rewrite app_nil_r)) as Hsize.
  assert (0 ≤ STUN_BINDING_REQUEST < 32768) as Hty by done.
  pose proof (built_ok CIce STUN_BINDING_REQUEST tid (ping_attrs k) Hty Hid Hfit ltac:(lia)) as Hok.
  split; [|split; [done|cbn [m_length built]; lia]].
  assert (bytes_ok (remote_password k)) as Hpwd by (destruct Hk as (_ & _ & ->); apply HR).
  destruct (secured_add _ _ Hok Hpwd ltac:(cbn [m_length built]; lia)) as (E1 & E2 & _).
  unfold ConnectionRequest_Prepare. rewrite built_base by done.
  pose proof (add_all CIce STUN_BINDING_REQUEST tid (ping_attrs k) [] Hfit ltac:(cbn [app]; lia)) as Hadd.
  cbn [app] in Hadd. destruct (ping_username_ok L R k HL HR Hk) as [_ Hlen].
  destruct (prflx_value k) as [-> _]. pose proof HL as (Hstd & _ & _ & _ & _ & _ & Hrole). destruct Hk as (EL & _).
  rewrite EL in *. rewrite Hstd. unfold CreateStunUsername. rewrite Hstd, (username_standard L HL), <- app_assoc.
  replace (remote_username k ++ [COLON] ++ ice_username_fragment_ L) with (ping_username k) by (unfold ping_username; by rewrite EL).
  change (StunByteStringAttribute STUN_ATTR_USERNAME (ping_username k)) with
    (ByteStringAttr STUN_ATTR_USERNAME (u16 (zlen (ping_username k))) (ping_username k)).
  rewrite u16_id by (unfold is_u16; lia).
  assert (∀ m, m = built CIce STUN_BINDING_REQUEST tid (ping_attrs k) →
    (AddFingerprint (AddMessageIntegrity m (remote_password k)).2).2 = ping_message k tid) as Hfin
    by (intros m ->; by rewrite E1; cbn [snd]; rewrite E2).
  apply Hfin. rewrite <- Hadd. unfold ping_attrs, nominates, role_attr. rewrite EL.
  by destruct (send_retransmit_count_attribute_ L), (ice_role_ L), (use_candidate k).
Qed.

(** Reading the packet of a message. *)
Lemma Read_packet m : msg_ok m → ∃ b,
  Read (StunMessage_new (m_class m), ByteBuffer_of (msg_wire m) ORDER_NETWORK) = (Some true, (m, b)) ∧ Length b = 0.
Proof.
  intros Hm. pose proof Hm as (_ & Hidok & _ & Hattrs & _). destruct (Write_new m Hidok Hattrs) as (b0 & _ & (Hb0 & _ & HD0)).
  destruct (ByteBuffer_of_spec (msg_wire m) ORDER_NETWORK) as (Hb & HD & Ho); [rewrite <- HD0; by apply Data_ok|].
  destruct (Read_wire m (StunMessage_new (m_class m)) (ByteBuffer_of (msg_wire m) ORDER_NETWORK) Hm eq_refl) as (b & E & Hb');
    [by split_and!|]. exists b. split; [done|]. by rewrite (holds_Length _ _ Hb').
Qed.
Lemma Write_packet m : msg_ok m → Data (Write m (ByteBuffer_new ORDER_NETWORK)).2 = msg_wire m.
Proof. intros Hm. destruct (Write_new m) as (b & -> & (_ & _ & HD)); [apply Hm..|]. done. Qed.

Lemma find_colon a b : (COLON ∉ a) → list_find (λ c, c = COLON) (a ++ [COLON] ++ b) = Some (length a, COLON).
Proof.
  intros Ha. apply list_find_Some. split_and!; [|done|].
  - rewrite lookup_app_r by lia. by rewrite Nat.sub_diag.
  - intros j y Hj Hlt ->. rewrite lookup_app_l in Hj by done. by apply Ha, (list_elem_of_lookup_2 _ j).
Qed.

(** The facts about a message that was protected with a key. *)
Lemma secured_packet m key : msg_ok m → no_integrity m → bytes_ok key → zlen (m_transaction_id m) = 12 →
  m_length m + 32 < 65536 →
  msg_ok (secured m key) ∧ ValidateFingerprint (msg_wire (secured m key)) = true ∧
  ValidateMessageIntegrity (msg_wire (secured m key)) key = Some true ∧
  GetByteString (secured m key) STUN_ATTR_MESSAGE_INTEGRITY ≠ None.
Proof.
  intros Hm Hno Hkey Hid Hfit. destruct (secured_add m key Hm Hkey Hfit) as (_ & _ & Hm1 & Hm2).
  split_and!; [done|by apply fingerprint_valid|by apply secured_valid|].
  unfold GetByteString, GetAttribute, secured, coded. cbn [m_attrs snoc_msg].
  clear -Hno. unfold no_integrity in Hno. induction Hno as [|a l Ha _ IH]; cbn [app find].
  - change (attr_type (integrity_attr _)) with STUN_ATTR_MESSAGE_INTEGRITY. by rewrite Z.eqb_refl.
  - by rewrite (proj2 (Z.eqb_neq _ _) Ha).
Qed.

Lemma GetStunMessage_accepts R m rest addr : port_ok R → msg_ok m → m_class m = CIce → m_type m = STUN_BINDING_REQUEST →
  no_integrity m → zlen (m_transaction_id m) = 12 → m_length m + 32 < 65536 →
  GetByteString (secured m (password_ R)) STUN_ATTR_USERNAME = Some (ice_username_fragment_ R ++ [COLON] ++ rest) →
  GetStunMessage (msg_wire (secured m (password_ R))) addr R = Some (true, Some (secured m (password_ R)), rest, R).
Proof.
  intros HR Hm Hc Ht Hno Hid Hfit Hu. pose proof HR as (Hstd & _ & _ & Hcolon & Hpwd & _).
  destruct (secured_packet m (password_ R) Hm Hno Hpwd Hid Hfit) as (Hm2 & Hfp & Hmi & Hhas).
  set (m2 := secured m (password_ R)) in *. unfold GetStunMessage. rewrite Hstd, Hfp. cbn [andb negb].
  destruct (Read_packet m2 Hm2) as (b & Er & Hl). replace (m_class m2) with CIce in Er by (symmetry; exact Hc).
  rewrite Er, Hl. cbn [Z.ltb Z.compare]. change (m_type m2) with (m_type m). rewrite Ht, Z.eqb_refl, Hu.
  rewrite bool_decide_eq_false_2 by done. cbn [andb].
  unfold ParseStunUsername. rewrite Hu. unfold IsHybridIce, IsStandardIce in *. apply bool_decide_eq_true in Hstd.
  rewrite (bool_decide_eq_false_2 (ice_protocol_ R = ICEPROTO_HYBRID)) by (rewrite Hstd; done).
  rewrite Hstd, find_colon by done. rewrite take_app_length, (app_assoc _ [COLON]), drop_app_length'
    by (rewrite length_app; cbn; lia).
  rewrite username_standard by done. rewrite !bool_decide_eq_true_2 by done. cbn [negb]. by rewrite Hmi.
Qed.

(** What the peer finds in a ping. *)
Lemma ping_username_found k tid : GetByteString (ping_message k tid) STUN_ATTR_USERNAME = Some (ping_username k).
Proof. unfold GetByteString, GetAttribute, ping_message. cbn. by rewrite ztake_all. Qed.
Lemma ping_role k tid role : ice_role_ (ping_port k) ≠ ICEROLE_UNKNOWN →
  GetUInt64 (ping_message k tid) (if bool_decide (role = ICEROLE_CONTROLLING) then STUN_ATTR_ICE_CONTROLLING else STUN_ATTR_ICE_CONTROLLED)
  = if bool_decide (ice_role_ (ping_port k) = ICEROLE_CONTROLLING) && bool_decide (role = ICEROLE_CONTROLLING)
       || negb (bool_decide (ice_role_ (ping_port k) = ICEROLE_CONTROLLING)) && negb (bool_decide (role = ICEROLE_CONTROLLING))
    then Some (tiebreaker_ (ping_port k)) else None.
Proof.
  intros Hr. unfold GetUInt64, GetAttribute, ping_message. cbn [m_attrs secured coded snoc_msg built].
  unfold ping_attrs, role_attr, nominates.
  destruct (send_retransmit_count_attribute_ _), (bool_decide (role = _)), (ice_role_ (ping_port k)), (use_candidate k); done.
Qed.
Lemma ping_no_integrity k tid : no_integrity (built CIce STUN_BINDING_REQUEST tid (ping_attrs k)).
Proof.
  unfold no_integrity, built, ping_attrs, role_attr. cbn [m_attrs].
  destruct (send_retransmit_count_attribute_ _), (bool_decide _), (nominates k); repeat (constructor; [done|]); constructor.
Qed.

Lemma ping_accepted L R k tid addr : port_ok L → port_ok R → ping_to L R k → id_ok tid →
  ConnectionRequest_Prepare k (SetTransactionID (StunMessage_new CIce) tid).2 = ping_message k tid ∧
  msg_ok (ping_message k tid) ∧
  GetStunMessage (msg_wire (ping_message k tid)) addr R =
    Some (true, Some (ping_message k tid), ice_username_fragment_ L, R).
Proof.
  intros HL HR Hk Hid. destruct (Prepare_value L R k tid HL HR Hk Hid) as (E & Hok & Hfit).
  pose proof HR as (_ & _ & _ & _ & Hpwd & _). pose proof Hk as (EL & ER & EP). split; [done|].
  pose proof (ping_no_integrity k tid) as Hno. destruct Hid as [Hidok Hid].
  unfold ping_message in *. rewrite EP in *.
  split; [by apply secured_add|]. apply GetStunMessage_accepts; try done.
  pose proof (ping_username_found k tid) as Hu. unfold ping_message in Hu. rewrite EP in Hu. rewrite Hu.
  unfold ping_username. by rewrite ER, EL.
Qed.

(** ** Conflicts of roles *)

(** Decides equalities of known roles. *)
Ltac role_simpl :=
  repeat match goal with
  | |- context [bool_decide (?a = ?a)] => rewrite (bool_decide_eq_true_2 (a = a) eq_refl)
  | |- context [bool_decide (?a = ?b)] =>
      is_constructor a; is_constructor b; rewrite (bool_decide_eq_false_2 (a = b)) by done
  end; cbn [negb andb orb fst snd].

(** What a port does with a ping of a port in a role. *)
Lemma conflict_outcome A kB tid addr : port_ok A → ice_role_ (ping_port kB) ≠ ICEROLE_UNKNOWN →
  tiebreaker_ (ping_port kB) ≠ tiebreaker_ A →
  MaybeIceRoleConflict addr (ping_message kB tid) (ice_username_fragment_ (ping_port kB)) A =
    if bool_decide (ice_role_ A = ice_role_ (ping_port kB)) then
      if (if bool_decide (ice_role_ A = ICEROLE_CONTROLLING) then tiebreaker_ A <? tiebreaker_ (ping_port kB)
          else tiebreaker_ (ping_port kB) <? tiebreaker_ A)
      then (true, port_emit SignalRoleConflict A)
      else (false, SendBindingErrorResponse (ping_message kB tid) addr STUN_ERROR_ROLE_CONFLICT STUN_ERROR_REASON_ROLE_CONFLICT A)
    else (true, A).
Proof.
  intros (_ & _ & _ & _ & _ & _ & HrA) HrB Hne. unfold MaybeIceRoleConflict.
  pose proof (ping_role kB tid ICEROLE_CONTROLLING HrB) as E1. pose proof (ping_role kB tid ICEROLE_CONTROLLED HrB) as E2.
  change (bool_decide (ICEROLE_CONTROLLING = ICEROLE_CONTROLLING)) with true in E1.
  change (bool_decide (ICEROLE_CONTROLLED = ICEROLE_CONTROLLING)) with false in E2. cbn [negb] in E1, E2.
  rewrite E1, E2. clear E1 E2. apply Z.eqb_neq in Hne as Hneb.
  destruct (ice_role_ (ping_port kB)) eqn:EB; [..|done]; role_simpl.
  - rewrite Hneb, andb_false_r. destruct (ice_role_ A) eqn:EA; role_simpl; [|done..].
    replace (tiebreaker_ A <=? tiebreaker_ (ping_port kB)) with (tiebreaker_ A <? tiebreaker_ (ping_port kB)); [done|].
    destruct (Z.ltb_spec (tiebreaker_ A) (tiebreaker_ (ping_port kB))), (Z.leb_spec (tiebreaker_ A) (tiebreaker_ (ping_port kB)));
      lia || done.
  - destruct (ice_role_ A) eqn:EA; role_simpl; done.
Qed.

Lemma no_conflict A kB tid addr : port_ok A → ice_role_ (ping_port kB) ≠ ICEROLE_UNKNOWN →
  ice_role_ A ≠ ice_role_ (ping_port kB) →
  MaybeIceRoleConflict addr (ping_message kB tid) (ice_username_fragment_ (ping_port kB)) A = (true, A).
Proof.
  intros (_ & _ & _ & _ & _ & _ & HrA) HrB Hne. unfold MaybeIceRoleConflict.
  pose proof (ping_role kB tid ICEROLE_CONTROLLING HrB) as E1. pose proof (ping_role kB tid ICEROLE_CONTROLLED HrB) as E2.
  change (bool_decide (ICEROLE_CONTROLLING = ICEROLE_CONTROLLING)) with true in E1.
  change (bool_decide (ICEROLE_CONTROLLED = ICEROLE_CONTROLLING)) with false in E2. cbn [negb] in E1, E2.
  rewrite E1, E2. clear E1 E2. destruct (ice_role_ (ping_port kB)), (ice_role_ A); try done; role_simpl; try done.
  rewrite (bool_decide_eq_false_2 (ICEROLE_CONTROLLING = ICEROLE_CONTROLLED)) by done.
  by destruct (bool_decide _ && _).
Qed.

(** ** Responses *)

(** A message of the base class is read as the same one by the class of ICE. *)
Definition as_ice (m : StunMessage) : StunMessage :=
  Stun.mkMessage CIce (m_type m) (m_length m) (m_transaction_id m) (m_attrs m).
Lemma ice_value_type t v : v ≠ STUN_VALUE_UNKNOWN → GetAttributeValueType CStun t = v → GetAttributeValueType CIce t = v.
Proof.
  intros Hv E. cbn in *. unfold IceMessage_ValueType. cbn [switch].
  repeat match goal with |- (if t =? ?x then _ else _) = _ => destruct (Z.eqb_spec t x) as [->|_]; [by subst v|] end.
  exact E.
Qed.
Lemma as_ice_ok m : m_class m = CStun → msg_ok m → msg_ok (as_ice m).
Proof.
  intros Hc (Ht & Hidok & Hid & Hattrs & Hvt & Hlen & Hmax).
  refine (conj Ht (conj Hidok (conj Hid (conj Hattrs (conj _ (conj Hlen Hmax)))))).
  eapply Forall_impl; [exact Hvt|]. intros a Ha. rewrite Hc in Ha. cbn [as_ice m_class]. apply ice_value_type; [by destruct a|done].
Qed.
Lemma as_ice_wire m : msg_wire (as_ice m) = msg_wire m.
Proof. done. Qed.

Definition response_attrs (k : ConnectionRequest) (addr : SocketAddress) : list StunAttribute :=
  (if send_retransmit_count_attribute_ (ping_port k)
   then [UInt32Attr STUN_ATTR_RETRANSMIT_COUNT 4 (u32 (pings_outstanding k - 1))] else []) ++
  [XorAddressAttr STUN_ATTR_XOR_MAPPED_ADDRESS (EnsureAddressLength addr) addr].
Definition response_message (k : ConnectionRequest) (tid : list Z) (addr : SocketAddress) (key : list Z) : StunMessage :=
  secured (built CStun STUN_BINDING_RESPONSE tid (response_attrs k addr)) key.

Lemma ensure_length_range addr : 0 ≤ EnsureAddressLength addr ≤ 20.
Proof. unfold EnsureAddressLength, SIZE_UNDEF, SIZE_IP4, SIZE_IP6. destruct (_ =? _); [lia|]. destruct (_ =? _); lia. Qed.
Lemma response_facts k tid addr key : id_ok tid → addr_ok addr → bytes_ok key →
  let m := built CStun STUN_BINDING_RESPONSE tid (response_attrs k addr) in
  Forall (fits CStun tid) (response_attrs k addr) ∧ attrs_size (response_attrs k addr) < 1000 ∧
  msg_ok m ∧ no_integrity m ∧ m_length m + 32 < 65536.
Proof.
  intros Hid Ha Hkey m. pose proof (ensure_length_range addr) as Hl.
  assert (Forall (fits CStun tid) (response_attrs k addr)) as Hf.
  { apply Forall_app. split; [|apply Forall_cons_2; [|apply Forall_nil_2]].
    - destruct (send_retransmit_count_attribute_ _); [|constructor]. apply Forall_cons_2; [|constructor].
      split; [|done]. split; [in_range|]. split; [in_range|]. split; [done|]. apply u32_range.
    - split; [|done]. split; [in_range|]. split; [unfold is_u16; cbn; lia|]. split; [done|]. split; [done|].
      intros _. apply Hid. }
  assert (attrs_size (response_attrs k addr) < 1000) as Hs.
  { unfold response_attrs. rewrite attrs_size_app. unfold attrs_size at 2. cbn [fold_right attr_length].
    unfold padded. pose proof (pad4_range (EnsureAddressLength addr)).
    destruct (send_retransmit_count_attribute_ _); [change (attrs_size [_]) with 8|change (attrs_size []) with 0]; lia. }
  split; [done|]. split; [done|]. split; [apply built_ok; [done|done|done|lia]|]. split; [|unfold m; cbn [m_length built]; lia].
  unfold no_integrity, m, response_attrs. cbn [m_attrs built].
  destruct (send_retransmit_count_attribute_ _); repeat (constructor; [done|]); constructor.
Qed.

Lemma ping_retransmit k tid : GetUInt32 (ping_message k tid) STUN_ATTR_RETRANSMIT_COUNT =
  if send_retransmit_count_attribute_ (ping_port k) then Some (u32 (pings_outstanding k - 1)) else None.
Proof.
  unfold GetUInt32, GetAttribute, ping_message. cbn [m_attrs secured coded snoc_msg built].
  unfold ping_attrs, role_attr. destruct (send_retransmit_count_attribute_ _), (bool_decide _), (nominates k); done.
Qed.
Lemma ping_priority_found k tid : GetUInt32 (ping_message k tid) STUN_ATTR_PRIORITY = Some (prflx_priority k).
Proof.
  unfold GetUInt32, GetAttribute, ping_message. cbn [m_attrs secured coded snoc_msg built].
  unfold ping_attrs, role_attr. destruct (send_retransmit_count_attribute_ _), (bool_decide _), (nominates k); done.
Qed.

Lemma binding_response_value R k tid addr username : port_ok R → id_ok tid → addr_ok addr →
  binding_response (ping_message k tid) addr username R = response_message k tid addr (password_ R).
Proof.
  intros (Hstd & _ & _ & _ & Hpwd & _) Hid Ha.
  destruct (response_facts k tid addr (password_ R) Hid Ha Hpwd) as (Hf & Hs & Hok & _ & Hfit).
  destruct (secured_add _ _ Hok Hpwd Hfit) as (E1 & E2 & _).
  assert (0 ≤ STUN_BINDING_RESPONSE < 32768) as Hty by done.
  pose proof (add_all CStun STUN_BINDING_RESPONSE tid (response_attrs k addr) [] Hf ltac:(cbn [app]; lia)) as Hadd.
  cbn [app] in Hadd. unfold binding_response. rewrite Hstd, ping_retransmit.
  assert ((SetTransactionID (SetType (StunMessage_new CStun) STUN_BINDING_RESPONSE) (m_transaction_id (ping_message k tid))).2
          = built CStun STUN_BINDING_RESPONSE tid []) as ->.
  { change (m_transaction_id (ping_message k tid)) with tid. destruct Hid as [_ Hl].
    unfold SetTransactionID, IsValidTransactionId. by rewrite Hl. }
  assert (∀ m, m = built CStun STUN_BINDING_RESPONSE tid (response_attrs k addr) →
    (AddFingerprint (AddMessageIntegrity m (password_ R)).2).2 = response_message k tid addr (password_ R)) as Hfin
    by (intros m ->; by rewrite E1; cbn [snd]; rewrite E2).
  apply Hfin. rewrite <- Hadd. unfold response_attrs, add. by destruct (send_retransmit_count_attribute_ (ping_port k)).
Qed.
Lemma response_accepted L k tid addr key from : port_ok L → id_ok tid → addr_ok addr → bytes_ok key →
  let m := response_message k tid addr key in
  msg_ok m ∧ ValidateMessageIntegrity (msg_wire m) key = Some true ∧
  GetStunMessage (msg_wire m) from L = Some (true, Some (as_ice m), [], L).
Proof.
  intros HL Hid Ha Hkey m. destruct (response_facts k tid addr key Hid Ha Hkey) as (_ & _ & Hok & Hno & Hfit).
  destruct (secured_packet _ key Hok Hno Hkey (proj2 Hid) Hfit) as (Hm & Hfp & Hmi & _).
  split; [exact Hm|]. split; [exact Hmi|]. unfold GetStunMessage. pose proof HL as (Hstd & _). rewrite Hstd. unfold m.
  fold (response_message k tid addr key) in Hfp, Hm. rewrite Hfp. cbn [andb negb].
  pose proof (as_ice_ok (response_message k tid addr key) eq_refl Hm) as Hice.
  destruct (Read_packet _ Hice) as (b & Er & Hl). rewrite as_ice_wire in Er. cbn [as_ice m_class] in Er.
  rewrite Er, Hl. done.
Qed.
End pings.

(** A ping that a connection prepares for the peer's user name and password is
    accepted by the port of the peer: its fingerprint, format, user name and message
    integrity pass, and the port gets the message as it was prepared and the user name
    fragment of the sender, and sends nothing. *)
Theorem ice_check_accepted `{Platform} L R k tid addr : port_ok L → port_ok R → ping_to L R k → id_ok tid →
  let ping := ConnectionRequest_Prepare k (SetTransactionID (StunMessage_new CIce) tid).2 in
  GetStunMessage (Data (Write ping (ByteBuffer_new ORDER_NETWORK)).2) addr R =
    Some (true, Some ping, ice_username_fragment_ L, R).
Proof.
  intros HL HR Hk Hid ping. destruct (ping_accepted L R k tid addr HL HR Hk Hid) as (E & Hok & Hget).
  unfold ping. rewrite E. by rewrite Write_packet.
Qed.

(** C27. Two peers that both think they have the same role resolve it: when each gets the
    other's ping, exactly one of them signals the conflict, on which its side changes
    the role, and the other one keeps its role and answers with an error; with different
    tie breakers. *)
Theorem role_conflict_resolved `{Platform} A B kA kB tidA tidB addrA addrB :
  port_ok A → port_ok B → ping_to A B kA → ping_to B A kB → id_ok tidA → id_ok tidB →
  ice_role_ A = ice_role_ B → tiebreaker_ A ≠ tiebreaker_ B →
  let pingA := ConnectionRequest_Prepare kA (SetTransactionID (StunMessage_new CIce) tidA).2 in
  let pingB := ConnectionRequest_Prepare kB (SetTransactionID (StunMessage_new CIce) tidB).2 in
  let '(okA, A') := MaybeIceRoleConflict addrB pingB (ice_username_fragment_ B) A in
  let '(okB, B') := MaybeIceRoleConflict addrA pingA (ice_username_fragment_ A) B in
  (okA = true ∧ A' = port_emit SignalRoleConflict A ∧ okB = false ∧ ∃ packet, B' = port_emit (SendTo addrA packet) B) ∨
  (okB = true ∧ B' = port_emit SignalRoleConflict B ∧ okA = false ∧ ∃ packet, A' = port_emit (SendTo addrB packet) A).
Proof.
  intros HA HB HkA HkB HidA HidB Hrole Hne pingA pingB.
  destruct (Prepare_value A B kA tidA HA HB HkA HidA) as [EA _]. destruct (Prepare_value B A kB tidB HB HA HkB HidB) as [EB _].
  pose proof HA as (_ & _ & _ & _ & _ & _ & HrA). pose proof HB as (_ & _ & _ & _ & _ & _ & HrB).
  destruct HkA as (PA & _), HkB as (PB & _). unfold pingA, pingB. rewrite EA, EB.
  pose proof (conflict_outcome A kB tidB addrB HA) as OA. pose proof (conflict_outcome B kA tidA addrA HB) as OB.
  rewrite PA in OB. rewrite PB in OA. rewrite OA, OB by done. rewrite Hrole, bool_decide_eq_true_2 by done.
  destruct (bool_decide (ice_role_ B = ICEROLE_CONTROLLING)), (Z.ltb_spec (tiebreaker_ A) (tiebreaker_ B)),
    (Z.ltb_spec (tiebreaker_ B) (tiebreaker_ A));
    try lia; cbv beta iota; [left|right|right|left]; split_and!; try done; eexists; reflexivity.
Qed.

(** ** Witnesses *)

Definition sample_address (last : Z) : SocketAddress := SocketAddress_of (IPAddress_v4 [192; 168; 1; last]) 5000.
(** Ports with the fragments "evtj" and "9uB6", in a role. *)
Definition port_left (role : IceRole) : Port :=
  mkPort ICEPROTO_RFC5245 role 7000 1 [101; 118; 116; 106] (seqZ 65 22) true false
    [mkCandidate 1 [] [] (sample_address 1) 2130706431 [] [] SocketAddress_Clear] [].
Definition port_right (role : IceRole) : Port := mkPort ICEPROTO_RFC5245 role 8000 1 [57; 117; 66; 54] (seqZ 70 22) false false [] [].
Definition sample_ping (from to : Port) : ConnectionRequest :=
  mkPing from (ice_username_fragment_ to) (password_ to) 1 true 2130706431.
Definition sample_id : list Z := seqZ 1 12.

(** A port with fields in range, decided. *)
Definition port_okb (p : Port) : bool :=
  IsStandardIce p && forallb (λ b, (0 <=? b) && (b <? 256)) (ice_username_fragment_ p) &&
  (zlen (ice_username_fragment_ p) <=? 256) && negb (existsb (Z.eqb COLON) (ice_username_fragment_ p)) &&
  forallb (λ b, (0 <=? b) && (b <? 256)) (password_ p) &&
  ((0 <=? tiebreaker_ p) && (tiebreaker_ p <? 18446744073709551616)) && negb (bool_decide (ice_role_ p = ICEROLE_UNKNOWN)).
Lemma port_okb_ok p : port_okb p = true → port_ok p.
Proof.
  unfold port_okb. rewrite !andb_true_iff, !negb_true_iff. intros [[[[[[Hs Hu] Hl] Hc] Hp] Ht] Hr].
  split; [done|]. split; [by apply bytes_okb|]. split; [lia|]. split; [|split; [by apply bytes_okb|split; [unfold is_u64; lia|]]].
  - intros Hin. apply list_elem_of_In in Hin. rewrite <- not_true_iff_false in Hc. apply Hc, existsb_exists. exists COLON. by split.
  - by apply bool_decide_eq_false in Hr.
Qed.
Lemma sample_id_ok : id_ok sample_id.
Proof. split; [by apply bytes_okb|done]. Qed.

Lemma ice_check_accepted_witness :
  let p := zero_platform in
  let L := port_left ICEROLE_CONTROLLING in let R := port_right ICEROLE_CONTROLLED in
  let ping := ConnectionRequest_Prepare (sample_ping L R) (SetTransactionID (StunMessage_new CIce) sample_id).2 in
  GetStunMessage (Data (Write ping (ByteBuffer_new ORDER_NETWORK)).2) (sample_address 1) R =
    Some (true, Some ping, [101; 118; 116; 106], R).
Proof.
  intros p L R ping.
  exact (ice_check_accepted L R (sample_ping L R) sample_id (sample_address 1) (port_okb_ok L eq_refl) (port_okb_ok R eq_refl)
           (conj eq_refl (conj eq_refl eq_refl)) sample_id_ok).
Defined.
Lemma role_conflict_resolved_witness :
  let p := zero_platform in
  let A := port_left ICEROLE_CONTROLLING in let B := port_right ICEROLE_CONTROLLING in
  let pingA := ConnectionRequest_Prepare (sample_ping A B) (SetTransactionID (StunMessage_new CIce) sample_id).2 in
  let pingB := ConnectionRequest_Prepare (sample_ping B A) (SetTransactionID (StunMessage_new CIce) sample_id).2 in
  let '(okA, A') := MaybeIceRoleConflict (sample_address 2) pingB (ice_username_fragment_ B) A in
  let '(okB, B') := MaybeIceRoleConflict (sample_address 1) pingA (ice_username_fragment_ A) B in
  (okA = true ∧ A' = port_emit SignalRoleConflict A ∧ okB = false ∧
     ∃ packet, B' = port_emit (SendTo (sample_address 1) packet) B) ∨
  (okB = true ∧ B' = port_emit SignalRoleConflict B ∧ okA = false ∧
     ∃ packet, A' = port_emit (SendTo (sample_address 2) packet) A).
Proof.
  intros p A B pingA pingB.
  exact (role_conflict_resolved A B (sample_ping A B) (sample_ping B A) sample_id sample_id (sample_address 1) (sample_address 2)
    (port_okb_ok A eq_refl) (port_okb_ok B eq_refl) (conj eq_refl (conj eq_refl eq_refl)) (conj eq_refl (conj eq_refl eq_refl))
    sample_id_ok sample_id_ok eq_refl ltac:(done)).
Defined.
