(* ===== verification/IceConnection.v ===== *)
(** * Connections

    The connection between a local port and a remote candidate, from
    webrtc/p2p/base/port.h and port.cc: its read and write states, pings and their
    responses, timeouts, and the priority of the pair.

    An operation takes the connection and its port and returns both.  The callbacks of
    the requests run after the manager's step that made them, on the events it logged.
    Signals and the posted deletion are the log of the connection.  Rate trackers and
    strings for debugging are not part of it. *)

From S2P Require Import Prelude ByteOrder ByteBuffer IpAddress Stun StunWire StunIntegrity StunBuild TimeUtils MessageQueue StunRequest IcePort.

Definition MINIMUM_RTT : Z := 100.
Definition MAXIMUM_RTT : Z := 3000.
Definition DEFAULT_RTT : Z := MAXIMUM_RTT.
Definition RTT_RATIO : Z := 3.
Definition CONNECTION_READ_TIMEOUT : Z := 30000.
Definition CONNECTION_WRITE_TIMEOUT : Z := 15000.
Definition CONNECTION_WRITE_CONNECT_TIMEOUT : Z := 5000.
Definition CONNECTION_WRITE_CONNECT_FAILURES : Z := 5.
(** "prflx". *)
Definition PRFLX_PORT_TYPE : list Z := [112; 114; 102; 108; 120].

Definition TooManyFailures (pings : list Z) (maximum_failures rtt_estimate now : Z) : bool :=
  if zlen pings <? maximum_failures then false
  else u32 (zget (maximum_failures - 1) pings + rtt_estimate) <? now.
Definition TooLongWithoutResponse (pings : list Z) (maximum_time now : Z) : bool :=
  if zlen pings =? 0 then false else u32 (zget 0 pings + maximum_time) <? now.
Definition ConservativeRTTEstimate (rtt : Z) : Z := Z.max MINIMUM_RTT (Z.min MAXIMUM_RTT (u32 (2 * rtt))).

Inductive ReadState := STATE_READ_INIT | STATE_READABLE | STATE_READ_TIMEOUT.
#[export] Instance ReadState_eq_dec : EqDecision ReadState.
Proof. solve_decision. Defined.
Inductive WriteState := STATE_WRITABLE | STATE_WRITE_UNRELIABLE | STATE_WRITE_INIT | STATE_WRITE_TIMEOUT.
#[export] Instance WriteState_eq_dec : EqDecision WriteState.
Proof. solve_decision. Defined.
Inductive State := STATE_WAITING | STATE_INPROGRESS | STATE_SUCCEEDED | STATE_FAILED.
Inductive IceMode := ICEMODE_FULL | ICEMODE_LITE.
#[export] Instance IceMode_eq_dec : EqDecision IceMode.
Proof. solve_decision. Defined.

Inductive conn_event :=
  | SignalStateChange (write_state : WriteState)       (* the state at the time of the signal *)
  | SignalReadPacket (data : list Z)
  | SignalReadyToSend
  | SignalUseCandidate
  | PostDelete.

Record Connection := mkConnection {
  local_candidate_index_ : Z;
  remote_candidate_ : Candidate;
  read_state_ : ReadState;
  write_state_ : WriteState;
  pruned_ : bool;
  use_candidate_attr_ : bool;
  remote_ice_mode_ : IceMode;
  conn_requests : StunRequestManager (K := ConnectionRequest);
  rtt_ : Z;
  last_ping_sent_ : Z;
  last_ping_received_ : Z;
  last_data_received_ : Z;
  last_ping_response_received_ : Z;
  pings_since_last_response_ : list Z;
  conn_state : State;
  conn_log : list conn_event
}.
Definition Connection_new (index : Z) (remote_candidate : Candidate) : Connection :=
  mkConnection index remote_candidate STATE_READ_INIT STATE_WRITE_INIT false false ICEMODE_FULL StunRequestManager_new
    DEFAULT_RTT 0 0 0 0 [] STATE_WAITING [].

Definition set_local_index (i : Z) (c : Connection) : Connection :=
  mkConnection i (remote_candidate_ c) (read_state_ c) (write_state_ c) (pruned_ c) (use_candidate_attr_ c) (remote_ice_mode_ c)
    (conn_requests c) (rtt_ c) (last_ping_sent_ c) (last_ping_received_ c) (last_data_received_ c)
    (last_ping_response_received_ c) (pings_since_last_response_ c) (conn_state c) (conn_log c).
Definition with_read_state (v : ReadState) (c : Connection) : Connection :=
  mkConnection (local_candidate_index_ c) (remote_candidate_ c) v (write_state_ c) (pruned_ c) (use_candidate_attr_ c)
    (remote_ice_mode_ c) (conn_requests c) (rtt_ c) (last_ping_sent_ c) (last_ping_received_ c) (last_data_received_ c)
    (last_ping_response_received_ c) (pings_since_last_response_ c) (conn_state c) (conn_log c).
Definition with_write_state (v : WriteState) (c : Connection) : Connection :=
  mkConnection (local_candidate_index_ c) (remote_candidate_ c) (read_state_ c) v (pruned_ c) (use_candidate_attr_ c)
    (remote_ice_mode_ c) (conn_requests c) (rtt_ c) (last_ping_sent_ c) (last_ping_received_ c) (last_data_received_ c)
    (last_ping_response_received_ c) (pings_since_last_response_ c) (conn_state c) (conn_log c).
Definition set_pruned (c : Connection) : Connection :=
  mkConnection (local_candidate_index_ c) (remote_candidate_ c) (read_state_ c) (write_state_ c) true (use_candidate_attr_ c)
    (remote_ice_mode_ c) (conn_requests c) (rtt_ c) (last_ping_sent_ c) (last_ping_received_ c) (last_data_received_ c)
    (last_ping_response_received_ c) (pings_since_last_response_ c) (conn_state c) (conn_log c).
Definition set_use_candidate_attr (enable : bool) (c : Connection) : Connection :=
  mkConnection (local_candidate_index_ c) (remote_candidate_ c) (read_state_ c) (write_state_ c) (pruned_ c) enable
    (remote_ice_mode_ c) (conn_requests c) (rtt_ c) (last_ping_sent_ c) (last_ping_received_ c) (last_data_received_ c)
    (last_ping_response_received_ c) (pings_since_last_response_ c) (conn_state c) (conn_log c).
Definition set_conn_requests (m : StunRequestManager) (c : Connection) : Connection :=
  mkConnection (local_candidate_index_ c) (remote_candidate_ c) (read_state_ c) (write_state_ c) (pruned_ c) (use_candidate_attr_ c)
    (remote_ice_mode_ c) m (rtt_ c) (last_ping_sent_ c) (last_ping_received_ c) (last_data_received_ c)
    (last_ping_response_received_ c) (pings_since_last_response_ c) (conn_state c) (conn_log c).
(** The times and the estimate of the round trip. *)
Definition set_times (rtt sent received data response : Z) (pings : list Z) (c : Connection) : Connection :=
  mkConnection (local_candidate_index_ c) (remote_candidate_ c) (read_state_ c) (write_state_ c) (pruned_ c) (use_candidate_attr_ c)
    (remote_ice_mode_ c) (conn_requests c) rtt sent received data response pings (conn_state c) (conn_log c).
Definition set_state (s : State) (c : Connection) : Connection :=
  mkConnection (local_candidate_index_ c) (remote_candidate_ c) (read_state_ c) (write_state_ c) (pruned_ c) (use_candidate_attr_ c)
    (remote_ice_mode_ c) (conn_requests c) (rtt_ c) (last_ping_sent_ c) (last_ping_received_ c) (last_data_received_ c)
    (last_ping_response_received_ c) (pings_since_last_response_ c) s (conn_log c).
Definition conn_emit (e : conn_event) (c : Connection) : Connection :=
  mkConnection (local_candidate_index_ c) (remote_candidate_ c) (read_state_ c) (write_state_ c) (pruned_ c) (use_candidate_attr_ c)
    (remote_ice_mode_ c) (conn_requests c) (rtt_ c) (last_ping_sent_ c) (last_ping_received_ c) (last_data_received_ c)
    (last_ping_response_received_ c) (pings_since_last_response_ c) (conn_state c) (conn_log c ++ [e]).
Definition set_last_ping_sent (t : Z) (c : Connection) : Connection :=
  set_times (rtt_ c) t (last_ping_received_ c) (last_data_received_ c) (last_ping_response_received_ c) (pings_since_last_response_ c) c.
Definition set_last_ping_received (t : Z) (c : Connection) : Connection :=
  set_times (rtt_ c) (last_ping_sent_ c) t (last_data_received_ c) (last_ping_response_received_ c) (pings_since_last_response_ c) c.
Definition set_last_data_received (t : Z) (c : Connection) : Connection :=
  set_times (rtt_ c) (last_ping_sent_ c) (last_ping_received_ c) t (last_ping_response_received_ c) (pings_since_last_response_ c) c.
Definition set_pings (l : list Z) (c : Connection) : Connection :=
  set_times (rtt_ c) (last_ping_sent_ c) (last_ping_received_ c) (last_data_received_ c) (last_ping_response_received_ c) l c.
Definition set_response (rtt t : Z) (c : Connection) : Connection :=
  set_times rtt (last_ping_sent_ c) (last_ping_received_ c) (last_data_received_ c) t (pings_since_last_response_ c) c.

(** ** States *)

Definition Connection_CheckTimeout (c : Connection) : Connection :=
  if (bool_decide (read_state_ c = STATE_READ_TIMEOUT) || bool_decide (read_state_ c = STATE_READ_INIT)) &&
     bool_decide (write_state_ c = STATE_WRITE_TIMEOUT)
  then conn_emit PostDelete c else c.
Definition set_read_state (v : ReadState) (c : Connection) : Connection :=
  let old_value := read_state_ c in
  let c := with_read_state v c in
  if bool_decide (v = old_value) then c else Connection_CheckTimeout (conn_emit (SignalStateChange (write_state_ c)) c).
Definition set_write_state (v : WriteState) (c : Connection) : Connection :=
  let old_value := write_state_ c in
  let c := with_write_state v c in
  if bool_decide (v = old_value) then c else Connection_CheckTimeout (conn_emit (SignalStateChange (write_state_ c)) c).
Definition ReceivedPing (now : Z) (c : Connection) : Connection :=
  set_read_state STATE_READABLE (set_last_ping_received now c).
Definition OnReadyToSend (c : Connection) : Connection :=
  if bool_decide (write_state_ c = STATE_WRITABLE) then conn_emit SignalReadyToSend c else c.
Definition Connection_Destroy (c : Connection) : Connection :=
  set_write_state STATE_WRITE_TIMEOUT (set_read_state STATE_READ_TIMEOUT c).

Definition UpdateState (now : Z) (p : Port) (c : Connection) : Connection :=
  let rtt := ConservativeRTTEstimate (rtt_ c) in
  let c :=
    if IsGoogleIce p && bool_decide (read_state_ c = STATE_READABLE) &&
       (u32 (last_ping_received_ c + CONNECTION_READ_TIMEOUT) <=? now) &&
       (u32 (last_data_received_ c + CONNECTION_READ_TIMEOUT) <=? now)
    then set_read_state STATE_READ_TIMEOUT c else c in
  let c :=
    if bool_decide (write_state_ c = STATE_WRITABLE) &&
       TooManyFailures (pings_since_last_response_ c) CONNECTION_WRITE_CONNECT_FAILURES rtt now &&
       TooLongWithoutResponse (pings_since_last_response_ c) CONNECTION_WRITE_CONNECT_TIMEOUT now
    then set_write_state STATE_WRITE_UNRELIABLE c else c in
  if (bool_decide (write_state_ c = STATE_WRITE_UNRELIABLE) || bool_decide (write_state_ c = STATE_WRITE_INIT)) &&
     TooLongWithoutResponse (pings_since_last_response_ c) CONNECTION_WRITE_TIMEOUT now
  then set_write_state STATE_WRITE_TIMEOUT c else c.

(** ** Candidates and priorities *)

Definition local_candidate (p : Port) (c : Connection) : option Candidate :=
  candidates_ p !! Z.to_nat (local_candidate_index_ c).

(** The priority of a pair, from the role and the two candidates. *)
Definition pair_priority (role : IceRole) (local remote : Z) : Z :=
  match role with
  | ICEROLE_UNKNOWN => 0
  | _ =>
      let g := if bool_decide (role = ICEROLE_CONTROLLING) then local else remote in
      let d := if bool_decide (role = ICEROLE_CONTROLLING) then remote else local in
      let priority := u64 (Z.shiftl (Z.min g d) 32) in
      u64 (priority + u32 (u32 (2 * Z.max g d) + (if d <? g then 1 else 0)))
  end.
Definition priority (p : Port) (c : Connection) : option Z :=
  local ← local_candidate p c; Some (pair_priority (ice_role_ p) (c_priority local) (c_priority (remote_candidate_ c))).

Section connection.
Context `{Platform}.

(** A response from an address that is not known shows a new candidate of this side. *)
Definition MaybeAddPrflxCandidate (request : StunRequest (K := ConnectionRequest)) (response : StunMessage)
    (c : Connection) (p : Port) : option (Connection * Port) :=
  match GetAddress response STUN_ATTR_XOR_MAPPED_ADDRESS with
  | None => Some (c, p)
  | Some addr =>
      if existsb (λ x, SocketAddress_eqb (c_address x) (attr_address addr)) (candidates_ p) then Some (c, p)
      else
        match GetUInt32 (r_msg request) STUN_ATTR_PRIORITY with
        | None => Some (c, p)
        | Some priority =>
            local ← local_candidate p c;
            let new_local_candidate :=
              mkCandidate (c_component local) PRFLX_PORT_TYPE (c_protocol local) (attr_address addr) priority
                (c_username local) (c_password local) (c_address local) in
            let '(index, p) := AddPrflxCandidate new_local_candidate p in
            Some (conn_emit (SignalStateChange (write_state_ c)) (set_local_index index c), p)
        end
  end.

Definition OnConnectionRequestResponse (request : StunRequest (K := ConnectionRequest)) (response : StunMessage) (now : Z)
    (c : Connection) (p : Port) : option (Connection * Port) :=
  let rtt := u32 (TimeDiff now (tstamp_ request)) in
  let c := set_write_state STATE_WRITABLE c in
  let c := set_state STATE_SUCCEEDED c in
  let c := if bool_decide (remote_ice_mode_ c = ICEMODE_LITE) then ReceivedPing now c else c in
  let c := set_pings [] c in
  let c := set_response (u32 (u32 (RTT_RATIO * rtt_ c) + rtt) / (RTT_RATIO + 1)) now c in
  if IsStandardIce p then MaybeAddPrflxCandidate request response c p else Some (c, p).

Definition OnConnectionRequestErrorResponse (response : StunMessage) (c : Connection) (p : Port) : Connection * Port :=
  let code :=
    match GetErrorCode response with
    | Some (ErrorCodeAttr _ _ eclass number _) =>
        if IsGoogleIce p then eclass * 256 + number else eclass * 100 + number
    | _ => STUN_ERROR_GLOBAL_FAILURE
    end in
  if (code =? STUN_ERROR_UNKNOWN_ATTRIBUTE) || (code =? STUN_ERROR_SERVER_ERROR) || (code =? STUN_ERROR_UNAUTHORIZED)
  then (c, p)
  else if code =? STUN_ERROR_STALE_CREDENTIALS then (c, p)
  else if code =? STUN_ERROR_ROLE_CONFLICT then (c, port_emit SignalRoleConflict p)
  else (set_write_state STATE_WRITE_TIMEOUT (set_state STATE_FAILED c), p).

(** The callbacks for the events that a step of the manager logged; [objs] are the
    requests before the step. *)
Fixpoint callbacks (objs : gmap Z (StunRequest (K := ConnectionRequest))) (now : Z)
    (evs : list (Z * event (K := ConnectionRequest))) (c : Connection) (p : Port) : option (Connection * Port) :=
  match evs with
  | [] => Some (c, p)
  | (a, e) :: evs =>
      '(c, p) ←
        match e with
        | Sent packet _ => Some (c, port_emit (SendTo (c_address (remote_candidate_ c)) packet) p)
        | OnResponse m => r ← objs !! a; OnConnectionRequestResponse r m now c p
        | OnErrorResponse m => Some (OnConnectionRequestErrorResponse m c p)
        | OnTimeout _ | Created _ => Some (c, p)
        end;
      callbacks objs now evs c p
  end.
(** A step of the manager and its callbacks. *)
Definition manager_step (now : Z)
    (f : StunRequestManager (K := ConnectionRequest) → option (StunRequestManager (K := ConnectionRequest))) (c : Connection) (p : Port)
    : option (Connection * Port) :=
  let old := conn_requests c in
  m ← f old;
  callbacks (objects old) now (drop (length (log old)) (log m)) (set_conn_requests m c) p.

(** The new request is at the address [a]; its transaction id is [random]. *)
Definition Ping (now a : Z) (random : list Z) (p : Port) (c : Connection) : option Connection :=
  let c := set_last_ping_sent now c in
  let c := set_pings (pings_since_last_response_ c ++ [now]) c in
  local ← local_candidate p c;
  let k := mkPing p (c_username (remote_candidate_ c)) (c_password (remote_candidate_ c))
             (zlen (pings_since_last_response_ c)) (use_candidate_attr_ c) (c_priority local) in
  m ← SendRequest a now (new_request a k (StunMessage_new CIce) random (conn_requests c));
  Some (set_state STATE_INPROGRESS (set_conn_requests m c)).

(** The thread of the connection dispatches the next message of its requests. *)
Definition conn_dispatch (now : Z) (c : Connection) (p : Port) : option (Connection * Port) :=
  manager_step now (dispatch now) c p.

Definition Prune (c : Connection) : option Connection :=
  if pruned_ c then Some c
  else
    let c := set_pruned c in
    m ← StunRequestManager_Clear (conn_requests c);
    Some (set_write_state STATE_WRITE_TIMEOUT (set_conn_requests m c)).

Definition revive (c : Connection) : Connection :=
  if negb (pruned_ c) && bool_decide (write_state_ c = STATE_WRITE_TIMEOUT) then set_write_state STATE_WRITE_INIT c else c.

Definition Connection_OnReadPacket (data : list Z) (now : Z) (c : Connection) (p : Port) : option (Connection * Port) :=
  let addr := c_address (remote_candidate_ c) in
  '(is_stun, msg, remote_ufrag, p) ← GetStunMessage data addr p;
  if negb is_stun then
    if bool_decide (read_state_ c = STATE_READABLE)
    then Some (revive (conn_emit (SignalReadPacket data) (set_last_data_received now c)), p)
    else Some (c, p)
  else
    match msg with
    | None => Some (c, p)
    | Some msg =>
        if m_type msg =? STUN_BINDING_REQUEST then
          if bool_decide (remote_ufrag = c_username (remote_candidate_ c)) then
            let '(ok, p) :=
              if IsStandardIce p then MaybeIceRoleConflict addr msg remote_ufrag p else (true, p) in
            if negb ok then Some (c, p)
            else
              let '(c, p) :=
                match GetByteString msg STUN_ATTR_USERNAME with
                | Some _ => (ReceivedPing now c, SendBindingResponse msg addr p)
                | None => (c, p)
                end in
              let c := revive c in
              let c :=
                if IsStandardIce p && bool_decide (ice_role_ p = ICEROLE_CONTROLLED) &&
                   negb (bool_decide (GetByteString msg STUN_ATTR_USE_CANDIDATE = None))
                then conn_emit SignalUseCandidate c else c in
              Some (c, p)
          else
            Some (c, SendBindingErrorResponse msg addr STUN_ERROR_UNAUTHORIZED STUN_ERROR_REASON_UNAUTHORIZED p)
        else if (m_type msg =? STUN_BINDING_RESPONSE) || (m_type msg =? STUN_BINDING_ERROR_RESPONSE) then
          valid ← (if IsGoogleIce p then Some true
                   else ValidateMessageIntegrity data (c_password (remote_candidate_ c)));
          if (valid : bool) then manager_step now (λ m, snd <$> CheckResponse msg m) c p else Some (c, p)
        else if m_type msg =? STUN_BINDING_INDICATION then
          if IsStandardIce p && bool_decide (read_state_ c = STATE_READABLE) then Some (ReceivedPing now c, p)
          else Some (c, p)
        else Some (c, p)
    end.

(** ProxyConnection::Send: false when the connection is not writable at all. *)
Definition Connection_Send (data : list Z) (c : Connection) (p : Port) : bool * Port :=
  if bool_decide (write_state_ c = STATE_WRITE_INIT) || bool_decide (write_state_ c = STATE_WRITE_TIMEOUT)
  then (false, p)
  else (true, port_emit (SendTo (c_address (remote_candidate_ c)) data) p).
End connection.

(** ** The priority of a pair *)

Lemma pair_priority_value g d : 0 ≤ g < 2147483648 → 0 ≤ d < 2147483648 →
  pair_priority ICEROLE_CONTROLLING g d = 2 ^ 32 * Z.min g d + 2 * Z.max g d + (if d <? g then 1 else 0).
Proof.
  intros Hg Hd. unfold pair_priority. change (bool_decide (ICEROLE_CONTROLLING = ICEROLE_CONTROLLING)) with true. cbv beta iota.
  rewrite Z.shiftl_mul_pow2 by lia. rewrite (u64_id (Z.min g d * 2 ^ 32)) by (unfold is_u64; lia).
  rewrite (u32_id (2 * Z.max g d)) by (unfold is_u32; lia). destruct (d <? g);
    rewrite u32_id by (unfold is_u32; lia); rewrite u64_id by (unfold is_u64; lia); lia.
Qed.

(** The two sides of a pair compute the same priority for it, the one of RFC 5245,
    and different pairs of candidates have different priorities. *)
Theorem pair_priority_agree g d g' d' :
  0 ≤ g < 2147483648 → 0 ≤ d < 2147483648 → 0 ≤ g' < 2147483648 → 0 ≤ d' < 2147483648 →
  pair_priority ICEROLE_CONTROLLING g d = pair_priority ICEROLE_CONTROLLED d g ∧
  pair_priority ICEROLE_CONTROLLING g d = 2 ^ 32 * Z.min g d + 2 * Z.max g d + (if d <? g then 1 else 0) ∧
  (pair_priority ICEROLE_CONTROLLING g d = pair_priority ICEROLE_CONTROLLING g' d' → g = g' ∧ d = d').
Proof.
  intros Hg Hd Hg' Hd'. split; [done|]. rewrite !pair_priority_value by done. split; [done|].
  destruct (Z.ltb_spec d g), (Z.ltb_spec d' g'); lia.
Qed.
Lemma pair_priority_agree_witness :
  pair_priority ICEROLE_CONTROLLING 2130706431 1694498815 = pair_priority ICEROLE_CONTROLLED 1694498815 2130706431 ∧
  pair_priority ICEROLE_CONTROLLING 2130706431 1694498815 = 7277816997797167103.
Proof.
  destruct (pair_priority_agree 2130706431 1694498815 1 2) as (E & E' & _); [lia..|]. split; [exact E|].
  rewrite E'. vm_compute. reflexivity.
Defined.

(** ** A check between two connections *)

Section handshake.
Context `{Platform}.

Definition conn_ping (p : Port) (c : Connection) (lc : Candidate) : ConnectionRequest :=
  mkPing p (c_username (remote_candidate_ c)) (c_password (remote_candidate_ c))
    (zlen (pings_since_last_response_ c) + 1) (use_candidate_attr_ c) (c_priority lc).
(** The connection of [L] knows the credentials of [R]. *)
Definition knows (c : Connection) (R : Port) : Prop :=
  c_username (remote_candidate_ c) = ice_username_fragment_ R ∧ c_password (remote_candidate_ c) = password_ R.

Lemma Construct_ping L R k tid : port_ok L → port_ok R → ping_to L R k → id_ok tid →
  r_msg (StunRequest_Construct (set_manager (StunRequest_new k (StunMessage_new CIce) tid))) = ping_message k tid.
Proof.
  intros HL HR Hk Hid. destruct (Prepare_value L R k tid HL HR Hk Hid) as (E & _). unfold StunRequest_Construct.
  cbn [r_msg set_manager StunRequest_new]. unfold SetTransactionID, IsValidTransactionId in *. destruct Hid as [_ Hl].
  rewrite Hl in *. cbn [orb Z.eqb kStunTransactionIdLength Pos.eqb negb snd m_type StunMessage_new] in *. exact E.
Qed.

(** The manager after a ping was sent. *)
Lemma ping_manager L R k a tid now : port_ok L → port_ok R → ping_to L R k → id_ok tid → a ≠ 0 → is_u32 now →
  ∃ m1 m2 r, SendRequest a now (new_request a k (StunMessage_new CIce) tid StunRequestManager_new) = Some m1 ∧
    dispatch now m1 = Some m2 ∧ mgr_inv m2 ∧ objects m2 = {[a := r]} ∧ requests_ m2 = {[tid := a]} ∧
    r_msg r = ping_message k tid ∧ log m1 = [(a, Created k)] ∧
    log m2 = log m1 ++ [(a, Sent (msg_wire (ping_message k tid)) now)].
Proof.
  intros HL HR Hk Hid Ha Hnow. pose proof (Construct_ping L R k tid HL HR Hk Hid) as Er.
  destruct (ping_accepted L R k tid SocketAddress_Clear HL HR Hk Hid) as (_ & Hok & _).
  destruct (send_armed a k (StunMessage_new CIce) tid 0 now) as (m1 & E1 & Harm); [by rewrite Z.add_0_r|].
  rewrite Z.add_0_r in Harm. set (r := StunRequest_Construct _) in *.
  destruct (Construct_fields (StunRequest_new k (StunMessage_new CIce) tid)) as (_ & _ & _ & Eo & _). fold r in Eo.
  pose proof (armed_send a r now _ m1 Harm Eo) as Hsend.
  change (GetNextDelay (r_kind r) (count_ r) false) with (CONNECTION_RESPONSE_TIMEOUT, count_ r, true) in Hsend.
  destruct Hsend as (m2 & E2 & Harm2).
  destruct (stun_run_inv [ONew a k (StunMessage_new CIce) tid; OSendDelayed a 0 now; ODispatch now] StunRequestManager_new)
    as (m2' & Erun & Hinv).
  { split; [split_and!; [done|done|done|apply map_Forall_empty]|]. cbn [stun_step stun_ops_ok]. split; [|rewrite E1; split; [done|]; by case_match].
    cbn. by rewrite lookup_insert_eq. }
  { apply new_inv. }
  cbn [stun_run stun_step mbind option_bind] in Erun. rewrite E1 in Erun. cbn [mbind option_bind] in Erun.
  rewrite E2 in Erun. cbn in Erun. injection Erun as <-.
  destruct Harm as (_ & _ & El1 & _). destruct Harm2 as (Erq & Eob & El2 & _).
  eexists m1, m2, _. split_and!; [done|done|done|exact Eob| |done|done|].
  - rewrite Erq. unfold req_id. cbn [r_msg]. by rewrite Er.
  - rewrite El2, El1. do 4 f_equal. by rewrite Er, Write_packet.
Qed.

Lemma write_state_fields v c : write_state_ (set_write_state v c) = v ∧ read_state_ (set_write_state v c) = read_state_ c ∧
  conn_requests (set_write_state v c) = conn_requests c ∧ local_candidate_index_ (set_write_state v c) = local_candidate_index_ c ∧
  remote_candidate_ (set_write_state v c) = remote_candidate_ c.
Proof. unfold set_write_state, Connection_CheckTimeout. by repeat case_match. Qed.
Lemma read_state_fields v c : read_state_ (set_read_state v c) = v ∧ write_state_ (set_read_state v c) = write_state_ c ∧
  conn_requests (set_read_state v c) = conn_requests c ∧ local_candidate_index_ (set_read_state v c) = local_candidate_index_ c ∧
  conn_state (set_read_state v c) = conn_state c.
Proof. unfold set_read_state, Connection_CheckTimeout. by repeat case_match. Qed.

Lemma ping_sent L R c lc a tid now : port_ok L → port_ok R → knows c R → conn_requests c = StunRequestManager_new →
  local_candidate L c = Some lc → id_ok tid → a ≠ 0 → is_u32 now →
  ∃ c1 c2 m r, Ping now a tid L c = Some c1 ∧
    conn_dispatch now c1 L =
      Some (c2, port_emit (SendTo (c_address (remote_candidate_ c)) (msg_wire (ping_message (conn_ping L c lc) tid))) L) ∧
    conn_requests c2 = m ∧ mgr_inv m ∧ objects m = {[a := r]} ∧ requests_ m = {[tid := a]} ∧
    r_msg r = ping_message (conn_ping L c lc) tid ∧ remote_candidate_ c2 = remote_candidate_ c ∧
    local_candidate_index_ c2 = local_candidate_index_ c.
Proof.
  intros HL HR [Hu Hp] Hreq Hlc Hid Ha Hnow. set (k := conn_ping L c lc).
  destruct (ping_manager L R k a tid now HL HR) as (m1 & m2 & r & E1 & E2 & Hinv & Eo & Er & Em & El1 & El2); [|done..|].
  { split_and!; [done|exact Hu|exact Hp]. }
  assert (Ping now a tid L c = Some (set_state STATE_INPROGRESS (set_conn_requests m1
            (set_pings (pings_since_last_response_ c ++ [now]) (set_last_ping_sent now c))))) as EP.
  { unfold Ping. change (local_candidate L (set_pings _ _)) with (local_candidate L c). rewrite Hlc. cbn [mbind option_bind].
    change (conn_requests (set_pings _ _)) with (conn_requests c). rewrite Hreq.
    change (pings_since_last_response_ (set_pings ?l _)) with l. cbn [set_last_ping_sent set_times pings_since_last_response_].
    rewrite zlen_app. change (zlen [now]) with 1. change (mkPing _ _ _ _ _ _) with k. by rewrite E1. }
  eexists _, _, m2, r. split; [exact EP|]. split.
  - unfold conn_dispatch, manager_step. cbn [conn_requests set_state set_conn_requests]. rewrite E2.
    cbn [mbind option_bind]. rewrite El2, drop_app_length. reflexivity.
  - by split_and!.
Qed.

Lemma ping_received L R k tid c now : port_ok L → port_ok R → ping_to L R k → id_ok tid → knows c L →
  ice_role_ R ≠ ice_role_ L → addr_ok (c_address (remote_candidate_ c)) →
  ∃ c', Connection_OnReadPacket (msg_wire (ping_message k tid)) now c R =
    Some (c', port_emit (SendTo (c_address (remote_candidate_ c))
                           (msg_wire (response_message k tid (c_address (remote_candidate_ c)) (password_ R)))) R) ∧
    read_state_ c' = STATE_READABLE.
Proof.
  intros HL HR Hk Hid [Hu Hp] Hrole Haddr. set (addr := c_address (remote_candidate_ c)).
  destruct (ping_accepted L R k tid addr HL HR Hk Hid) as (_ & Hok & Hget).
  pose proof HR as (Hstd & _ & _ & _ & Hpwd & _). pose proof HL as (_ & _ & _ & _ & _ & _ & HrL). pose proof Hk as (EL & _).
  destruct (response_facts k tid addr (password_ R) Hid Haddr Hpwd) as (_ & _ & Hrok & Hno & Hfit).
  destruct (secured_add _ (password_ R) Hrok Hpwd Hfit) as (_ & _ & _ & Hsec).
  pose proof (no_conflict R k tid addr HR) as Hnc. rewrite EL in Hnc. specialize (Hnc HrL Hrole).
  pose proof (ping_username_found k tid) as Huser.
  assert (SendBindingResponse (ping_message k tid) addr R =
          port_emit (SendTo addr (msg_wire (response_message k tid addr (password_ R)))) R) as Esend.
  { unfold SendBindingResponse. rewrite Huser, binding_response_value by done. unfold send_message. by rewrite Write_packet. }
  unfold Connection_OnReadPacket. fold addr. rewrite Hget. cbn [mbind option_bind negb].
  change (m_type (ping_message k tid)) with STUN_BINDING_REQUEST. rewrite Z.eqb_refl, (bool_decide_eq_true_2 _ (eq_sym Hu)).
  rewrite Hstd, Hnc. cbn [negb]. rewrite Huser, Esend. eexists. split; [reflexivity|].
  assert (read_state_ (revive (ReceivedPing now c)) = STATE_READABLE) as Hrs.
  { unfold revive. destruct (_ && _); [rewrite (proj1 (proj2 (write_state_fields _ _)))|]; apply read_state_fields. }
  by destruct (_ && _).
Qed.

Lemma prflx_total r m c p lc : local_candidate p c = Some lc → GetUInt32 (r_msg r) STUN_ATTR_PRIORITY ≠ None →
  ∃ c' p', MaybeAddPrflxCandidate r m c p = Some (c', p') ∧ write_state_ c' = write_state_ c ∧ conn_state c' = conn_state c ∧
    pings_since_last_response_ c' = pings_since_last_response_ c ∧ conn_requests c' = conn_requests c.
Proof.
  intros Hlc Hp. unfold MaybeAddPrflxCandidate. destruct (GetAddress _ _); [|by eexists _, _].
  destruct (existsb _ _); [by eexists _, _|]. destruct (GetUInt32 _ _); [|done]. rewrite Hlc. cbn. by eexists _, _.
Qed.
Lemma response_handled r m now c p lc : IsStandardIce p = true → local_candidate p c = Some lc →
  GetUInt32 (r_msg r) STUN_ATTR_PRIORITY ≠ None →
  ∃ c' p', OnConnectionRequestResponse r m now c p = Some (c', p') ∧ write_state_ c' = STATE_WRITABLE ∧
    conn_state c' = STATE_SUCCEEDED ∧ pings_since_last_response_ c' = [] ∧ conn_requests c' = conn_requests c.
Proof.
  intros Hstd Hlc Hp. unfold OnConnectionRequestResponse. rewrite Hstd.
  set (c1 := set_state STATE_SUCCEEDED (set_write_state STATE_WRITABLE c)).
  destruct (write_state_fields STATE_WRITABLE c) as (Ew & _ & Erq & Eix & _).
  set (c2 := if bool_decide (remote_ice_mode_ c1 = ICEMODE_LITE) then ReceivedPing now c1 else c1).
  assert (write_state_ c2 = STATE_WRITABLE ∧ conn_requests c2 = conn_requests c ∧
          local_candidate_index_ c2 = local_candidate_index_ c ∧ conn_state c2 = STATE_SUCCEEDED) as (Ew2 & Erq2 & Eix2 & Est2).
  { unfold c2. case_bool_decide; [|done].
    destruct (read_state_fields STATE_READABLE (set_last_ping_received now c1)) as (_ & E1 & E2 & E3 & E4).
    unfold ReceivedPing. rewrite E1, E2, E3, E4. done. }
  destruct (prflx_total r m (set_response (u32 (u32 (RTT_RATIO * rtt_ (set_pings [] c2)) + u32 (TimeDiff now (tstamp_ r)))
             / (RTT_RATIO + 1)) now (set_pings [] c2)) p lc) as (c' & p' & E & E1 & E2 & E3 & E4); [|done|].
  { unfold local_candidate in *. cbn. by rewrite Eix2. }
  exists c', p'. split; [exact E|]. rewrite E1, E2, E3, E4. cbn. by rewrite Ew2, Est2, Erq2.
Qed.

Lemma response_read L R k tid c m0 a r addr now : port_ok L → port_ok R → id_ok tid → addr_ok addr → knows c R →
  conn_requests c = m0 → mgr_inv m0 → objects m0 = {[a := r]} → requests_ m0 = {[tid := a]} → r_msg r = ping_message k tid → ∃ m',
  Connection_OnReadPacket (msg_wire (response_message k tid addr (password_ R))) now c L =
    OnConnectionRequestResponse r (as_ice (response_message k tid addr (password_ R))) now (set_conn_requests m' c) L ∧ requests_ m' = ∅.
Proof.
  intros HL HR Hid Haddr [_ Hpw] Em Hinv Eo Er Emsg. pose proof HR as (_ & _ & _ & _ & Hpwd & _).
  set (from := c_address (remote_candidate_ c)). set (m := response_message k tid addr (password_ R)).
  destruct (response_accepted L k tid addr (password_ R) from HL Hid Haddr Hpwd) as (Hok & Hmi & Hget). fold m in Hok, Hmi, Hget.
  pose proof HL as (Hstd & _). assert (IsGoogleIce L = false) as Hng.
  { unfold IsGoogleIce, IsStandardIce in *. apply bool_decide_eq_true in Hstd. apply bool_decide_eq_false_2. by rewrite Hstd. }
  unfold Connection_OnReadPacket. fold from. rewrite Hget. cbn [mbind option_bind negb].
  change (m_type (as_ice m) =? STUN_BINDING_REQUEST) with false.
  change (m_type (as_ice m) =? STUN_BINDING_RESPONSE) with true. cbn [orb].
  rewrite Hng, Hpw, Hmi. cbn [mbind option_bind]. unfold manager_step. rewrite Em.
  destruct (CheckResponse_answer a r (as_ice m) (OnResponse (as_ice m)) m0 Hinv) as (q & Ec & _).
  { change (m_transaction_id (as_ice m)) with tid. by rewrite Er, lookup_singleton_eq. }
  { by rewrite Eo, lookup_singleton_eq. }
  { split; [by rewrite Emsg|]. left. by rewrite Emsg. }
  rewrite Ec. cbn [fmap option_fmap option_map snd mbind option_bind log]. rewrite drop_app_length. cbn [callbacks].
  rewrite Eo, lookup_singleton_eq. cbn [mbind option_bind]. set (m' := mkManager _ _ _ _). exists m'. split.
  - by destruct (OnConnectionRequestResponse _ _ _ _ _) as [[? ?]|].
  - cbn. change (m_transaction_id (as_ice m)) with tid. by rewrite Er, delete_singleton_eq.
Qed.
Lemma response_received L R k tid c m0 a r lc addr now : port_ok L → port_ok R → id_ok tid → addr_ok addr → knows c R →
  conn_requests c = m0 → mgr_inv m0 → objects m0 = {[a := r]} → requests_ m0 = {[tid := a]} →
  r_msg r = ping_message k tid → local_candidate L c = Some lc →
  ∃ c' L', Connection_OnReadPacket (msg_wire (response_message k tid addr (password_ R))) now c L = Some (c', L') ∧
    write_state_ c' = STATE_WRITABLE ∧ conn_state c' = STATE_SUCCEEDED ∧ pings_since_last_response_ c' = [] ∧
    requests_ (conn_requests c') = ∅.
Proof.
  intros HL HR Hid Haddr Hkn Em Hinv Eo Er Emsg Hlc.
  destruct (response_read L R k tid c m0 a r addr now HL HR Hid Haddr Hkn Em Hinv Eo Er Emsg) as (m' & -> & Hm').
  destruct (response_handled r (as_ice (response_message k tid addr (password_ R))) now (set_conn_requests m' c) L lc (proj1 HL) Hlc) as (c' & L' & E & E1 & E2 & E3 & E4).
  { rewrite Emsg, ping_priority_found. done. }
  exists c', L'. split; [exact E|]. rewrite E4. by split_and!.
Qed.
End handshake.

(** C26. A connectivity check between two ports that know each other's credentials and
    have different roles succeeds when its packets arrive: the ping of a new connection
    makes the connection of the peer readable, the peer's response makes this one
    writable and its check successful, and no request is left waiting. *)
Theorem ice_handshake `{Platform} L R cL cR lc a tid t0 t1 t2 :
  port_ok L → port_ok R → ice_role_ R ≠ ice_role_ L → knows cL R → knows cR L →
  conn_requests cL = StunRequestManager_new → local_candidate L cL = Some lc →
  addr_ok (c_address (remote_candidate_ cR)) → id_ok tid → a ≠ 0 → is_u32 t0 →
  ∃ c1 c2 L2 packet cR' R' response c3 L3,
    Ping t0 a tid L cL = Some c1 ∧ conn_dispatch t0 c1 L = Some (c2, L2) ∧
    port_log L2 = port_log L ++ [SendTo (c_address (remote_candidate_ cL)) packet] ∧
    Connection_OnReadPacket packet t1 cR R = Some (cR', R') ∧ read_state_ cR' = STATE_READABLE ∧
    port_log R' = port_log R ++ [SendTo (c_address (remote_candidate_ cR)) response] ∧
    Connection_OnReadPacket response t2 c2 L2 = Some (c3, L3) ∧ write_state_ c3 = STATE_WRITABLE ∧
    conn_state c3 = STATE_SUCCEEDED ∧ pings_since_last_response_ c3 = [] ∧ requests_ (conn_requests c3) = ∅.
Proof.
  intros HL HR Hrole HkL HkR Hreq Hlc Haddr Hid Ha Ht. set (k := conn_ping L cL lc).
  destruct (ping_sent L R cL lc a tid t0 HL HR HkL Hreq Hlc Hid Ha Ht) as (c1 & c2 & m & r & E1 & E2 & Em & Hinv & Eo & Er & Emsg & Erc & Eix).
  fold k in E2, Emsg. assert (ping_to L R k) as Hk by (split_and!; [done|apply HkL..]).
  destruct (ping_received L R k tid cR t1 HL HR Hk Hid HkR Hrole Haddr) as (cR' & E3 & Hread).
  set (L2 := port_emit _ L) in *.
  destruct (response_received L2 R k tid c2 m a r lc (c_address (remote_candidate_ cR)) t2) as (c3 & L3 & E4 & Hw & Hs & Hp & Hq);
    try done; [unfold knows; by rewrite Erc|unfold local_candidate; by rewrite Eix|].
  eexists c1, c2, L2, _, cR', _, _, c3, L3. split_and!; try done.
Qed.

(** ** The wrap of the clock *)

(** The timeouts of a connection add to a time in 32 bits and compare without regard
    to the wrap: a connection that has just sent its first ping within 15 seconds before
    the wrap of the clock is timed out at once, and when it has never been readable
    its deletion is posted. *)
Theorem wrap_times_out p c ping now : write_state_ c = STATE_WRITE_INIT → read_state_ c = STATE_READ_INIT →
  pings_since_last_response_ c = [ping] → 4294967296 - CONNECTION_WRITE_TIMEOUT ≤ ping ≤ now → now < 4294967296 →
  write_state_ (UpdateState now p c) = STATE_WRITE_TIMEOUT ∧
  conn_log (UpdateState now p c) = conn_log c ++ [SignalStateChange STATE_WRITE_TIMEOUT; PostDelete].
Proof.
  intros Hw Hr Hp Hping Hnow. unfold UpdateState. rewrite Hr.
  rewrite (bool_decide_eq_false_2 (STATE_READ_INIT = STATE_READABLE)), andb_false_r by done. cbn [andb].
  rewrite Hw. rewrite (bool_decide_eq_false_2 (STATE_WRITE_INIT = STATE_WRITABLE)) by done. cbn [andb].
  rewrite Hw, (bool_decide_eq_true_2 (STATE_WRITE_INIT = STATE_WRITE_INIT)), orb_true_r by done. cbn [andb].
  unfold TooLongWithoutResponse. rewrite Hp. change (zlen [ping] =? 0) with false. change (zget 0 [ping]) with ping. cbv beta iota.
  assert ((u32 (ping + CONNECTION_WRITE_TIMEOUT) <? now) = true) as ->.
  { apply Z.ltb_lt. unfold CONNECTION_WRITE_TIMEOUT in *. ulia. }
  unfold set_write_state. rewrite Hw, bool_decide_eq_false_2 by done.
  unfold Connection_CheckTimeout. cbn [read_state_ write_state_ conn_emit with_write_state]. rewrite Hr.
  change (bool_decide (STATE_READ_INIT = STATE_READ_INIT)) with true. rewrite orb_true_r.
  change (bool_decide (STATE_WRITE_TIMEOUT = STATE_WRITE_TIMEOUT)) with true. split; [done|].
  cbn [andb conn_log conn_emit with_write_state]. by rewrite <- app_assoc.
Qed.

(** ** Witnesses *)

Definition conn_left : Connection :=
  Connection_new 0 (mkCandidate 1 [] [] (sample_address 2) 1 (ice_username_fragment_ (port_right ICEROLE_CONTROLLED))
                      (password_ (port_right ICEROLE_CONTROLLED)) SocketAddress_Clear).
Definition conn_right : Connection :=
  Connection_new 0 (mkCandidate 1 [] [] (sample_address 1) 1 (ice_username_fragment_ (port_left ICEROLE_CONTROLLING))
                      (password_ (port_left ICEROLE_CONTROLLING)) SocketAddress_Clear).
Lemma sample_address_ok : addr_ok (sample_address 1).
Proof.
  split; [done|]. split; [|split; [by vm_compute|done]]. split; [done|]. split; [by apply bytes_okb|done].
Qed.
Lemma ice_handshake_witness :
  let p := zero_platform in
  let L := port_left ICEROLE_CONTROLLING in let R := port_right ICEROLE_CONTROLLED in
  ∃ c1 c2 L2 packet cR' R' response c3 L3,
    Ping 1000 5 sample_id L conn_left = Some c1 ∧ conn_dispatch 1000 c1 L = Some (c2, L2) ∧
    port_log L2 = port_log L ++ [SendTo (sample_address 2) packet] ∧
    Connection_OnReadPacket packet 1020 conn_right R = Some (cR', R') ∧ read_state_ cR' = STATE_READABLE ∧
    port_log R' = port_log R ++ [SendTo (sample_address 1) response] ∧
    Connection_OnReadPacket response 1040 c2 L2 = Some (c3, L3) ∧ write_state_ c3 = STATE_WRITABLE ∧
    conn_state c3 = STATE_SUCCEEDED ∧ pings_since_last_response_ c3 = [] ∧ requests_ (conn_requests c3) = ∅.
Proof.
  intros p L R. exact (ice_handshake L R conn_left conn_right
    (mkCandidate 1 [] [] (sample_address 1) 2130706431 [] [] SocketAddress_Clear) 5 sample_id 1000 1020 1040
    (port_okb_ok L eq_refl) (port_okb_ok R eq_refl) ltac:(done) (conj eq_refl eq_refl) (conj eq_refl eq_refl) eq_refl eq_refl
    sample_address_ok sample_id_ok ltac:(done) ltac:(done)).
Defined.
Lemma wrap_times_out_witness :
  let c := set_pings [4294960000] conn_left in
  write_state_ (UpdateState 4294960001 (port_left ICEROLE_CONTROLLING) c) = STATE_WRITE_TIMEOUT ∧
  conn_log (UpdateState 4294960001 (port_left ICEROLE_CONTROLLING) c) = [SignalStateChange STATE_WRITE_TIMEOUT; PostDelete].
Proof.
  exact (wrap_times_out (port_left ICEROLE_CONTROLLING) (set_pings [4294960000] conn_left) 4294960000 4294960001
    eq_refl eq_refl eq_refl ltac:(unfold CONNECTION_WRITE_TIMEOUT; lia) ltac:(lia)).
Defined.
