(* ===== verification/IceChannel.v ===== *)
(** * The transport channel of ICE

    webrtc/p2p/base/p2ptransportchannel.cc: a channel creates connections between its
    ports and the candidates of the other side, pings them in turn, sorts them, uses the
    best one, and prunes those that it does not need.

    Connections and ports are objects on a heap, so that a pointer to a deleted one is
    seen.  What a connection signals is handled by the channel in the order of its log,
    after the operation of the connection that made it; a signal of a state carries the
    state that it was made in.  [supply] are the addresses that the allocator of objects
    chooses, also those of objects that were deleted. *)

From stdpp Require Import strings.
From S2P Require Import Prelude ByteOrder ByteBuffer Crc32 IpAddress Stun StunWire StunIntegrity StunBuild TimeUtils MessageQueue StunRequest IcePort IceConnection.

(** ** Constants *)

Definition PING_PACKET_SIZE : Z := 60 * 8.
Definition WRITABLE_DELAY : Z := 1000 * PING_PACKET_SIZE / 1000.
Definition UNWRITABLE_DELAY : Z := 1000 * PING_PACKET_SIZE / 10000.
Definition MAX_CURRENT_WRITABLE_DELAY : Z := 900.
Definition kMinImprovement : Z := 10.
Definition LOCAL_PORT_TYPE : list Z := text "local".
Definition STUN_PORT_TYPE : list Z := text "stun".
Definition RELAY_PORT_TYPE : list Z := text "relay".
Definition ICE_TYPE_PREFERENCE_SRFLX : Z := 100.
Definition EINVAL : Z := 22.
Definition EWOULDBLOCK : Z := 11.
(** The delay of a port without connections, kPortTimeoutDelay. *)
Definition kPortTimeoutDelay : Z := 30000.

Inductive CandidateOrigin := ORIGIN_THIS_PORT | ORIGIN_OTHER_PORT | ORIGIN_MESSAGE.
#[export] Instance CandidateOrigin_eq_dec : EqDecision CandidateOrigin.
Proof. solve_decision. Defined.
Inductive TransportChannelState := CHANNEL_FAILED | CHANNEL_CONNECTING | CHANNEL_COMPLETED.

(** ** Objects *)

(** A candidate with the fields that a port and a connection do not look at. *)
Record FullCandidate := mkFull { f_candidate : Candidate; f_id : list Z; f_generation : Z; f_foundation : list Z }.
Definition set_generation (g : Z) (c : FullCandidate) : FullCandidate := mkFull (f_candidate c) (f_id c) g (f_foundation c).
Definition with_credentials (ufrag pwd : list Z) (c : Candidate) : Candidate :=
  mkCandidate (c_component c) (c_type c) (c_protocol c) (c_address c) (c_priority c) ufrag pwd (c_related_address c).
Definition with_priority (v : Z) (c : Candidate) : Candidate :=
  mkCandidate (c_component c) (c_type c) (c_protocol c) (c_address c) v (c_username c) (c_password c) (c_related_address c).
Definition with_address (v : SocketAddress) (c : Candidate) : Candidate :=
  mkCandidate (c_component c) (c_type c) (c_protocol c) v (c_priority c) (c_username c) (c_password c) (c_related_address c).
Definition on_candidate (f : Candidate → Candidate) (c : FullCandidate) : FullCandidate :=
  mkFull (f (f_candidate c)) (f_id c) (f_generation c) (f_foundation c).

Definition IsEquivalent `{Platform} (a b : FullCandidate) : bool :=
  let x := f_candidate a in
  let y := f_candidate b in
  bool_decide (f_id a = f_id b) && (c_component x =? c_component y) && bool_decide (c_protocol x = c_protocol y) &&
  SocketAddress_eqb (c_address x) (c_address y) && bool_decide (c_username x = c_username y) &&
  bool_decide (c_password x = c_password y) && bool_decide (c_type x = c_type y) && (f_generation a =? f_generation b) &&
  bool_decide (f_foundation a = f_foundation b) && SocketAddress_eqb (c_related_address x) (c_related_address y).
Definition GetPriority `{Platform} (type_preference network_adapter_preference relay_preference : Z) (c : Candidate) : Z :=
  let addr_pref := IPAddressPrecedence (ip_ (c_address c)) in
  let local_preference := Z.lor (Z.shiftl network_adapter_preference 8) addr_pref + relay_preference in
  u32 (Z.lor (Z.lor (Z.shiftl type_preference 24) (Z.shiftl local_preference 8)) (256 - c_component c)).

(** A connection, its port, the rest of its remote candidate, and connected_. *)
Record chan_conn := mkCC { cc_conn : Connection; cc_port : Z; cc_id : list Z; cc_generation : Z; cc_foundation : list Z; cc_connected : bool }.
Definition cc_remote (c : chan_conn) : FullCandidate := mkFull (remote_candidate_ (cc_conn c)) (cc_id c) (cc_generation c) (cc_foundation c).
Definition cc_with (v : Connection) (c : chan_conn) : chan_conn := mkCC v (cc_port c) (cc_id c) (cc_generation c) (cc_foundation c) (cc_connected c).
(** A port, its network, and its map of connections. *)
Record chan_port := mkCP {
  cp_port : Port; cp_network : Z; cp_preference : Z; cp_generation : Z; cp_type : list Z; cp_shared : bool; cp_ip : IPAddress;
  cp_conns : list (SocketAddress * Z)
}.
Definition cp_with (v : Port) (p : chan_port) : chan_port :=
  mkCP v (cp_network p) (cp_preference p) (cp_generation p) (cp_type p) (cp_shared p) (cp_ip p) (cp_conns p).
Definition cp_connections (v : list (SocketAddress * Z)) (p : chan_port) : chan_port :=
  mkCP (cp_port p) (cp_network p) (cp_preference p) (cp_generation p) (cp_type p) (cp_shared p) (cp_ip p) v.

(** What a class of ports overrides: which candidate of its own a connection to a remote
    candidate uses, if it makes one; [None] is a failed assertion. *)
Class PortClass := { port_index : chan_port → Candidate → CandidateOrigin → option (option Z) }.
(** UDPPort. *)
Definition UDPPort_index `{Platform} (p : chan_port) (address : Candidate) (origin : CandidateOrigin) : option (option Z) :=
  if negb (bool_decide (c_protocol address = text "udp")) then Some None
  else if negb (IsCompatibleAddress (cp_ip p) (c_address address)) then Some None
  else
    wrong ← (if cp_shared p then c ← head (candidates_ (cp_port p)); Some (negb (bool_decide (c_type c = LOCAL_PORT_TYPE))) else Some false);
    if (wrong : bool) then None else Some (Some 0).
#[export] Instance UDPPort `{Platform} : PortClass := {| port_index := UDPPort_index |}.

Definition GetConnection `{Platform} (addr : SocketAddress) (p : chan_port) : option Z :=
  snd <$> find (λ x, SocketAddress_eqb x.1 addr) (cp_conns p).

(** ** The channel *)

Inductive chan_message := MSG_SORT | MSG_PING | MSG_DELETE (connection : Z) | MSG_CHECKTIMEOUT (port : Z).
#[export] Instance chan_message_eq_dec : EqDecision chan_message.
Proof. solve_decision. Defined.
Inductive chan_event :=
  | ChRouteChange (remote : Candidate)
  | ChReadable (v : bool)
  | ChWritable (v : bool)
  | ChReadyToSend
  | ChReadPacket (data : list Z)
  | ChRoleConflict
  | ChRequestSignaling
  | ChConnectionRemoved
  | ChSetOption (port opt value : Z).

Record chan_config := mkCfg {
  incoming_only_ : bool;
  ice_ufrag_ : list Z; ice_pwd_ : list Z; remote_ice_ufrag_ : list Z; remote_ice_pwd_ : list Z;
  protocol_type_ : IceProtocolType;
  ch_remote_mode : IceMode;
  ch_role : IceRole;
  ch_tiebreaker : Z;
  remote_candidate_generation_ : Z;
  ch_component : Z
}.
Record chan_select := mkSel {
  connections_ : list Z;
  best_connection_ : option Z;
  pending_best_connection_ : option Z;
  sort_dirty_ : bool;
  was_writable_ : bool;
  ch_readable : bool; ch_writable : bool          (* of TransportChannel *)
}.
Record chan_objects := mkObj { conn_heap : gmap Z chan_conn; port_heap : gmap Z chan_port; ports_ : list Z; supply : list Z }.
Record P2PTransportChannel := mkChan {
  ch_cfg : chan_config;
  ch_sel : chan_select;
  ch_obj : chan_objects;
  waiting_for_signaling_ : bool;
  allocator_sessions_ : list bool;                (* IsGettingPorts of each *)
  remote_candidates_ : list (FullCandidate * option Z);
  options_ : list (Z * Z);
  ch_error : Z;
  ch_posted : list chan_message;                  (* of its thread, for it and its objects *)
  ch_timers : list (Z * chan_message);
  ch_log : list chan_event
}.
Definition P2PTransportChannel_new (component : Z) (supply : list Z) : P2PTransportChannel :=
  mkChan (mkCfg false [] [] [] [] ICEPROTO_HYBRID ICEMODE_FULL ICEROLE_UNKNOWN 0 0 component)
    (mkSel [] None None false false false false) (mkObj ∅ ∅ [] supply) false [] [] [] 0 [] [] [].

(** Updates of one part. *)
Definition on_cfg (f : chan_config → chan_config) (st : P2PTransportChannel) : P2PTransportChannel :=
  mkChan (f (ch_cfg st)) (ch_sel st) (ch_obj st) (waiting_for_signaling_ st) (allocator_sessions_ st) (remote_candidates_ st) (options_ st)
    (ch_error st) (ch_posted st) (ch_timers st) (ch_log st).
Definition on_sel (f : chan_select → chan_select) (st : P2PTransportChannel) : P2PTransportChannel :=
  mkChan (ch_cfg st) (f (ch_sel st)) (ch_obj st) (waiting_for_signaling_ st) (allocator_sessions_ st) (remote_candidates_ st) (options_ st)
    (ch_error st) (ch_posted st) (ch_timers st) (ch_log st).
Definition on_obj (f : chan_objects → chan_objects) (st : P2PTransportChannel) : P2PTransportChannel :=
  mkChan (ch_cfg st) (ch_sel st) (f (ch_obj st)) (waiting_for_signaling_ st) (allocator_sessions_ st) (remote_candidates_ st) (options_ st)
    (ch_error st) (ch_posted st) (ch_timers st) (ch_log st).
Definition on_sessions (w : bool) (l : list bool) (st : P2PTransportChannel) : P2PTransportChannel :=
  mkChan (ch_cfg st) (ch_sel st) (ch_obj st) w l (remote_candidates_ st) (options_ st) (ch_error st) (ch_posted st) (ch_timers st) (ch_log st).
Definition set_remotes (l : list (FullCandidate * option Z)) (st : P2PTransportChannel) : P2PTransportChannel :=
  mkChan (ch_cfg st) (ch_sel st) (ch_obj st) (waiting_for_signaling_ st) (allocator_sessions_ st) l (options_ st)
    (ch_error st) (ch_posted st) (ch_timers st) (ch_log st).
Definition set_options (l : list (Z * Z)) (st : P2PTransportChannel) : P2PTransportChannel :=
  mkChan (ch_cfg st) (ch_sel st) (ch_obj st) (waiting_for_signaling_ st) (allocator_sessions_ st) (remote_candidates_ st) l
    (ch_error st) (ch_posted st) (ch_timers st) (ch_log st).
Definition set_error (e : Z) (st : P2PTransportChannel) : P2PTransportChannel :=
  mkChan (ch_cfg st) (ch_sel st) (ch_obj st) (waiting_for_signaling_ st) (allocator_sessions_ st) (remote_candidates_ st) (options_ st)
    e (ch_posted st) (ch_timers st) (ch_log st).
Definition on_thread (f : list chan_message → list chan_message) (g : list (Z * chan_message) → list (Z * chan_message))
    (st : P2PTransportChannel) : P2PTransportChannel :=
  mkChan (ch_cfg st) (ch_sel st) (ch_obj st) (waiting_for_signaling_ st) (allocator_sessions_ st) (remote_candidates_ st) (options_ st)
    (ch_error st) (f (ch_posted st)) (g (ch_timers st)) (ch_log st).
Definition ch_emit (l : list chan_event) (st : P2PTransportChannel) : P2PTransportChannel :=
  mkChan (ch_cfg st) (ch_sel st) (ch_obj st) (waiting_for_signaling_ st) (allocator_sessions_ st) (remote_candidates_ st) (options_ st)
    (ch_error st) (ch_posted st) (ch_timers st) (ch_log st ++ l).

Definition conns (st : P2PTransportChannel) : gmap Z chan_conn := conn_heap (ch_obj st).
Definition ports (st : P2PTransportChannel) : gmap Z chan_port := port_heap (ch_obj st).
Definition list_of (st : P2PTransportChannel) : list Z := connections_ (ch_sel st).
Definition best (st : P2PTransportChannel) : option Z := best_connection_ (ch_sel st).
Definition ch_post (m : chan_message) : P2PTransportChannel → P2PTransportChannel := on_thread (λ l, l ++ [m]) id.
(** Into the delayed messages of the thread, as [push] of the message queue does. *)
Fixpoint push_timer (x : Z * chan_message) (l : list (Z * chan_message)) : list (Z * chan_message) :=
  match l with
  | [] => [x]
  | y :: l => if x.1 <? y.1 then x :: y :: l else y :: push_timer x l
  end.
Definition ch_post_delayed (delay now : Z) (m : chan_message) : P2PTransportChannel → P2PTransportChannel :=
  on_thread id (push_timer (u32 (now + delay), m)).
Definition ch_clear (p : chan_message → bool) : P2PTransportChannel → P2PTransportChannel :=
  on_thread (List.filter (λ m, negb (p m))) (List.filter (λ m, negb (p m.2))).
Definition put_conn (a : Z) (c : chan_conn) : P2PTransportChannel → P2PTransportChannel :=
  on_obj (λ o, mkObj (<[a := c]> (conn_heap o)) (port_heap o) (ports_ o) (supply o)).
Definition put_port (a : Z) (p : chan_port) : P2PTransportChannel → P2PTransportChannel :=
  on_obj (λ o, mkObj (conn_heap o) (<[a := p]> (port_heap o)) (ports_ o) (supply o)).
Definition set_ports (l : list Z) : P2PTransportChannel → P2PTransportChannel :=
  on_obj (λ o, mkObj (conn_heap o) (port_heap o) l (supply o)).
Definition set_list (l : list Z) : P2PTransportChannel → P2PTransportChannel :=
  on_sel (λ s, mkSel l (best_connection_ s) (pending_best_connection_ s) (sort_dirty_ s) (was_writable_ s) (ch_readable s) (ch_writable s)).
Definition set_best (v : option Z) : P2PTransportChannel → P2PTransportChannel :=
  on_sel (λ s, mkSel (connections_ s) v (pending_best_connection_ s) (sort_dirty_ s) (was_writable_ s) (ch_readable s) (ch_writable s)).
Definition set_pending (v : option Z) : P2PTransportChannel → P2PTransportChannel :=
  on_sel (λ s, mkSel (connections_ s) (best_connection_ s) v (sort_dirty_ s) (was_writable_ s) (ch_readable s) (ch_writable s)).
Definition set_dirty (v : bool) : P2PTransportChannel → P2PTransportChannel :=
  on_sel (λ s, mkSel (connections_ s) (best_connection_ s) (pending_best_connection_ s) v (was_writable_ s) (ch_readable s) (ch_writable s)).
Definition set_was_writable (v : bool) : P2PTransportChannel → P2PTransportChannel :=
  on_sel (λ s, mkSel (connections_ s) (best_connection_ s) (pending_best_connection_ s) (sort_dirty_ s) v (ch_readable s) (ch_writable s)).

(** *** TransportChannel *)

Definition set_readable (readable : bool) (st : P2PTransportChannel) : P2PTransportChannel :=
  if Bool.eqb (ch_readable (ch_sel st)) readable then st
  else ch_emit [ChReadable readable]
    (on_sel (λ s, mkSel (connections_ s) (best_connection_ s) (pending_best_connection_ s) (sort_dirty_ s) (was_writable_ s) readable (ch_writable s)) st).
Definition set_writable (writable : bool) (st : P2PTransportChannel) : P2PTransportChannel :=
  if Bool.eqb (ch_writable (ch_sel st)) writable then st
  else ch_emit (if writable then [ChReadyToSend; ChWritable true] else [ChWritable false])
    (on_sel (λ s, mkSel (connections_ s) (best_connection_ s) (pending_best_connection_ s) (sort_dirty_ s) (was_writable_ s) (ch_readable s) writable) st).

(** *** The best connection *)

Definition RequestSort (st : P2PTransportChannel) : P2PTransportChannel :=
  if sort_dirty_ (ch_sel st) then st else set_dirty true (ch_post MSG_SORT st).
(** The old best connection is only looked at when there is a new one. *)
Definition SwitchBestConnectionTo (conn : option Z) (st : P2PTransportChannel) : option P2PTransportChannel :=
  let old_best_connection := best st in
  let st := set_best conn st in
  match conn with
  | None => Some st
  | Some a =>
      _ ← (match old_best_connection with Some b => const tt <$> conns st !! b | None => Some tt end);
      c ← conns st !! a;
      Some (ch_emit [ChRouteChange (remote_candidate_ (cc_conn c))] st)
  end.

(** std::find and erase. *)
Fixpoint remove_first (a : Z) (l : list Z) : list Z :=
  match l with
  | [] => []
  | x :: l => if x =? a then l else x :: remove_first a l
  end.

(** Into a std::map. *)
Fixpoint insert_option (opt value : Z) (l : list (Z * Z)) : list (Z * Z) :=
  match l with
  | [] => [(opt, value)]
  | x :: l => if opt <? x.1 then (opt, value) :: x :: l else x :: insert_option opt value l
  end.

Section channel.
Context `{Platform} `{!PortClass}.

Definition standard (st : P2PTransportChannel) : bool := bool_decide (protocol_type_ (ch_cfg st) = ICEPROTO_RFC5245).
Definition has_role (r : IceRole) (st : P2PTransportChannel) : bool := bool_decide (ch_role (ch_cfg st) = r).
Definition is_writable (c : Connection) : bool := bool_decide (write_state_ c = STATE_WRITABLE).

(** *** What connections signal *)

Definition OnConnectionStateChange (connection : Z) (writable : bool) (st : P2PTransportChannel) : option P2PTransportChannel :=
  st ← (if standard st && has_role ICEROLE_CONTROLLED st &&
           bool_decide (Some connection = pending_best_connection_ (ch_sel st)) && writable
        then SwitchBestConnectionTo (Some connection) (set_pending None st) else Some st);
  Some (RequestSort st).
Definition OnUseCandidate (conn : Z) (st : P2PTransportChannel) : option P2PTransportChannel :=
  if negb (has_role ICEROLE_CONTROLLED st) then None
  else if negb (standard st) then None
  else
    c ← conns st !! conn;
    if is_writable (cc_conn c) then
      if bool_decide (best st = Some conn) then Some st
      else st ← SwitchBestConnectionTo (Some conn) (set_pending None st); Some (RequestSort st)
    else Some (set_pending (Some conn) st).
Definition FindConnection (connection : Z) (st : P2PTransportChannel) : bool := bool_decide (connection ∈ list_of st).
Definition Channel_OnReadPacket (connection : Z) (data : list Z) (st : P2PTransportChannel) : P2PTransportChannel :=
  if negb (FindConnection connection st) then st else ch_emit [ChReadPacket data] st.
Definition Channel_OnReadyToSend (connection : Z) (st : P2PTransportChannel) : P2PTransportChannel :=
  if bool_decide (Some connection = best st) && ch_writable (ch_sel st) then ch_emit [ChReadyToSend] st else st.

Definition handle_event (a : Z) (e : conn_event) (st : P2PTransportChannel) : option P2PTransportChannel :=
  match e with
  | SignalStateChange w => OnConnectionStateChange a (bool_decide (w = STATE_WRITABLE)) st
  | SignalReadPacket data => Some (Channel_OnReadPacket a data st)
  | SignalReadyToSend => Some (Channel_OnReadyToSend a st)
  | SignalUseCandidate => OnUseCandidate a st
  | PostDelete => Some (ch_post (MSG_DELETE a) st)
  end.
Fixpoint handle_events (a : Z) (l : list conn_event) (st : P2PTransportChannel) : option P2PTransportChannel :=
  match l with
  | [] => Some st
  | e :: l => st ← handle_event a e st; handle_events a l st
  end.
(** Of the events of a port the channel handles the conflict of roles here. *)
Definition port_signals (l : list port_event) : list chan_event :=
  omap (λ e, match e with SignalRoleConflict => Some ChRoleConflict | _ => None end) l.

(** An operation of a connection with its port, and its signals. *)
Definition on_conn (a : Z) (f : Connection → Port → option (Connection * Port)) (st : P2PTransportChannel) : option P2PTransportChannel :=
  c ← conns st !! a;
  p ← ports st !! cc_port c;
  '(c', p') ← f (cc_conn c) (cp_port p);
  let st := put_port (cc_port c) (cp_with p' p) (put_conn a (cc_with c' c) st) in
  let st := ch_emit (port_signals (drop (length (port_log (cp_port p))) (port_log p'))) st in
  handle_events a (drop (length (conn_log (cc_conn c))) (conn_log c')) st.

(** *** Sorting *)

Fixpoint update_states (l : list Z) (now : Z) (st : P2PTransportChannel) : option P2PTransportChannel :=
  match l with
  | [] => Some st
  | a :: l => st ← on_conn a (λ c p, Some (UpdateState now p c, p)) st; update_states l now st
  end.
Definition UpdateConnectionStates (now : Z) (st : P2PTransportChannel) : option P2PTransportChannel := update_states (list_of st) now st.

(** What the comparisons look at. *)
Record conn_view := mkView {
  v_addr : Z; v_write : WriteState; v_priority : Z; v_generation : Z; v_rtt : Z; v_network : Z; v_protocol : IceProtocolType
}.
Definition view (st : P2PTransportChannel) (a : Z) : option conn_view :=
  c ← conns st !! a;
  p ← ports st !! cc_port c;
  prio ← priority (cp_port p) (cc_conn c);
  Some (mkView a (write_state_ (cc_conn c)) prio (u32 (cc_generation c + cp_generation p)) (rtt_ (cc_conn c)) (cp_network p)
    (ice_protocol_ (cp_port p))).
Definition write_rank (w : WriteState) : Z :=
  match w with STATE_WRITABLE => 0 | STATE_WRITE_UNRELIABLE => 1 | STATE_WRITE_INIT => 2 | STATE_WRITE_TIMEOUT => 3 end.

Definition CompareConnectionCandidates (a b : conn_view) : Z :=
  if v_priority b <? v_priority a then 1
  else if v_priority a <? v_priority b then -1
  else i32 (u32 (v_generation a - v_generation b)).
Definition CompareConnections (a b : conn_view) : Z :=
  if write_rank (v_write a) <? write_rank (v_write b) then 1
  else if write_rank (v_write b) <? write_rank (v_write a) then -1
  else CompareConnectionCandidates a b.
Definition ConnectionCompare (a b : conn_view) : bool :=
  let cmp := CompareConnections a b in
  if 0 <? cmp then true else if cmp <? 0 then false else v_rtt a <? v_rtt b.
Definition ShouldSwitch (a_conn b_conn : option conn_view) : bool :=
  if bool_decide (v_addr <$> a_conn = v_addr <$> b_conn) then false
  else
    match a_conn, b_conn with
    | Some a, Some b =>
        let prefs_cmp := CompareConnections a b in
        if prefs_cmp <? 0 then true else if 0 <? prefs_cmp then false else v_rtt b <=? v_rtt a + kMinImprovement
    | _, _ => true
    end.
(** std::stable_sort; the comparison has to be an order and its assertion has to hold. *)
Fixpoint insert_view (v : conn_view) (l : list conn_view) : list conn_view :=
  match l with
  | [] => [v]
  | x :: l => if ConnectionCompare v x then v :: x :: l else x :: insert_view v l
  end.
Definition stable_sort (l : list conn_view) : list conn_view := fold_left (λ l v, insert_view v l) l [].
Definition comparable (a b : conn_view) : bool :=
  (bool_decide (v_protocol a = v_protocol b) || bool_decide (v_protocol a = ICEPROTO_HYBRID) || bool_decide (v_protocol b = ICEPROTO_HYBRID)) &&
  (Z.abs (v_generation a - v_generation b) <? HALF).
Definition sortable (l : list conn_view) : bool := forallb (λ a, forallb (comparable a) l) l.

(** A std::set of networks, in the order of their addresses. *)
Fixpoint insert_network (n : Z) (l : list Z) : list Z :=
  match l with
  | [] => [n]
  | x :: l => if n <? x then n :: x :: l else if n =? x then x :: l else x :: insert_network n l
  end.
Definition networks_of (l : list conn_view) : list Z := fold_left (λ s v, insert_network (v_network v) s) l [].

Definition GetBestConnectionOnNetwork (network : Z) (st : P2PTransportChannel) : option (option conn_view) :=
  top ← (match best st with
         | Some b => v ← view st b; Some (if v_network v =? network then Some v else None)
         | None => Some None
         end);
  match top with
  | Some v => Some (Some v)
  | None => l ← mapM (view st) (list_of st); Some (find (λ v, v_network v =? network) l)
  end.
Fixpoint prune_loop (primier network : Z) (l : list Z) (st : P2PTransportChannel) : option P2PTransportChannel :=
  match l with
  | [] => Some st
  | a :: l =>
      p ← view st primier;
      v ← view st a;
      st ← (if negb (a =? primier) && (v_network v =? network) && (0 <=? CompareConnectionCandidates p v)
            then on_conn a (λ c p, c ← Prune c; Some (c, p)) st else Some st);
      prune_loop primier network l st
  end.
Fixpoint prune_networks (l : list Z) (st : P2PTransportChannel) : option P2PTransportChannel :=
  match l with
  | [] => Some st
  | network :: l =>
      primier ← GetBestConnectionOnNetwork network st;
      st ← (match primier with
            | Some p => if bool_decide (v_write p = STATE_WRITABLE) then prune_loop (v_addr p) network (list_of st) st else Some st
            | None => Some st
            end);
      prune_networks l st
  end.

Definition best_writable (st : P2PTransportChannel) : option bool :=
  match best st with
  | Some b => c ← conns st !! b; Some (is_writable (cc_conn c))
  | None => Some false
  end.
Definition UpdateChannelState (st : P2PTransportChannel) : option P2PTransportChannel :=
  writable ← best_writable st;
  if negb (Bool.eqb writable (ch_writable (ch_sel st))) then None
  else
    l ← mapM (λ a, conns st !! a) (list_of st);
    Some (set_readable (existsb (λ c, bool_decide (read_state_ (cc_conn c) = STATE_READABLE)) l) st).
Definition HandleWritable (st : P2PTransportChannel) : P2PTransportChannel :=
  let st := if ch_writable (ch_sel st) then st
            else on_sessions (waiting_for_signaling_ st) ((λ _, false) <$> allocator_sessions_ st) st in
  set_writable true (set_was_writable true st).
Definition HandleNotWritable (st : P2PTransportChannel) : P2PTransportChannel :=
  if was_writable_ (ch_sel st) then set_writable false (set_was_writable false st) else st.
Definition HandleAllTimedOut (st : P2PTransportChannel) : P2PTransportChannel := HandleNotWritable st.

Definition SortConnections (now : Z) (st : P2PTransportChannel) : option P2PTransportChannel :=
  st ← UpdateConnectionStates now st;
  if bool_decide (protocol_type_ (ch_cfg st) = ICEPROTO_HYBRID) then UpdateChannelState st
  else
    let st := set_dirty false st in
    views ← mapM (view st) (list_of st);
    if negb (sortable views) then None
    else
      let networks := networks_of views in
      let sorted := stable_sort views in
      let st := set_list (v_addr <$> sorted) st in
      let top_connection := head sorted in
      current ← (match best st with Some b => Some <$> view st b | None => Some None end);
      st ← (if (negb (standard st) || has_role ICEROLE_CONTROLLING st) && ShouldSwitch current top_connection
            then SwitchBestConnectionTo (v_addr <$> top_connection) st else Some st);
      st ← prune_networks networks st;
      l ← mapM (λ a, conns st !! a) (list_of st);
      let all_connections_timedout := forallb (λ c, bool_decide (write_state_ (cc_conn c) = STATE_WRITE_TIMEOUT)) l in
      writable ← best_writable st;
      let st := if (writable : bool) then HandleWritable st
                else if all_connections_timedout then HandleAllTimedOut st else HandleNotWritable st in
      UpdateChannelState st.
Definition Channel_GetState (st : P2PTransportChannel) : option TransportChannelState :=
  match list_of st with
  | [] => Some CHANNEL_FAILED
  | l =>
      networks ← mapM (λ a, c ← conns st !! a; p ← ports st !! cc_port c; Some (cp_network p)) l;
      Some (if bool_decide (NoDup networks) then CHANNEL_COMPLETED else CHANNEL_CONNECTING)
  end.

(** *** Pinging *)

Definition IsPingable (c : chan_conn) (st : P2PTransportChannel) : bool :=
  if negb (cc_connected c) then false
  else if ch_writable (ch_sel st) then negb (bool_decide (write_state_ (cc_conn c) = STATE_WRITE_TIMEOUT))
  else negb (bool_decide (write_state_ (cc_conn c) = STATE_WRITE_TIMEOUT)) ||
       negb (bool_decide (read_state_ (cc_conn c) = STATE_READ_TIMEOUT)).
Fixpoint oldest_pingable (l : list Z) (oldest_conn : option Z) (oldest_time : Z) (st : P2PTransportChannel) : option (option Z) :=
  match l with
  | [] => Some oldest_conn
  | a :: l =>
      c ← conns st !! a;
      if IsPingable c st && (last_ping_sent_ (cc_conn c) <? oldest_time)
      then oldest_pingable l (Some a) (last_ping_sent_ (cc_conn c)) st
      else oldest_pingable l oldest_conn oldest_time st
  end.
Definition FindNextPingableConnection (now : Z) (st : P2PTransportChannel) : option (option Z) :=
  overdue ← (match best st with
             | Some b => c ← conns st !! b;
                 Some (is_writable (cc_conn c) && (u32 (last_ping_sent_ (cc_conn c) + MAX_CURRENT_WRITABLE_DELAY) <=? now))
             | None => Some false
             end);
  if (overdue : bool) then Some (best st) else oldest_pingable (list_of st) None 4294967295 st.
(** The ping is the request at [a], with the transaction id [random]. *)
Definition PingConnection (conn : Z) (now a : Z) (random : list Z) (st : P2PTransportChannel) : option P2PTransportChannel :=
  v ← view st conn;
  current ← (match best st with Some b => Some <$> view st b | None => Some None end);
  let is_best := bool_decide (best st = Some conn) in
  let use_candidate :=
    if standard st then
      if bool_decide (ch_remote_mode (ch_cfg st) = ICEMODE_FULL) && has_role ICEROLE_CONTROLLING st then
        is_best || match current with
                   | None => true
                   | Some b => negb (bool_decide (v_write b = STATE_WRITABLE)) || (v_priority b <? v_priority v)
                   end
      else if bool_decide (ch_remote_mode (ch_cfg st) = ICEMODE_LITE) && is_best
      then bool_decide (v_write v = STATE_WRITABLE)
      else false
    else false in
  on_conn conn (λ c p, c ← Ping now a random p (set_use_candidate_attr use_candidate c); Some (c, p)) st.
Definition OnPing (now a : Z) (random : list Z) (st : P2PTransportChannel) : option P2PTransportChannel :=
  st ← UpdateConnectionStates now st;
  conn ← FindNextPingableConnection now st;
  st ← (match conn with Some c => PingConnection c now a random st | None => Some st end);
  let delay := if ch_writable (ch_sel st) then WRITABLE_DELAY else UNWRITABLE_DELAY in
  Some (ch_post_delayed delay now MSG_PING st).

(** *** Connections and candidates *)

(** The address of a new object: what the allocator chose, if no live object has it. *)
Definition new_address (st : P2PTransportChannel) : Z * P2PTransportChannel :=
  let live a := bool_decide (is_Some (conns st !! a)) in
  let rest := snd (List.partition live (supply (ch_obj st))) in
  match rest with
  | a :: rest => (a, on_obj (λ o, mkObj (conn_heap o) (port_heap o) (ports_ o) rest) st)
  | [] => (fresh (dom (conns st)), st)
  end.
Definition GetOrigin (port : Z) (origin_port : option Z) : CandidateOrigin :=
  match origin_port with
  | None => ORIGIN_MESSAGE
  | Some o => if port =? o then ORIGIN_THIS_PORT else ORIGIN_OTHER_PORT
  end.
Definition set_remote_ice_mode (m : IceMode) (c : Connection) : Connection :=
  mkConnection (local_candidate_index_ c) (remote_candidate_ c) (read_state_ c) (write_state_ c) (pruned_ c) (use_candidate_attr_ c) m
    (conn_requests c) (rtt_ c) (last_ping_sent_ c) (last_ping_received_ c) (last_data_received_ c) (last_ping_response_received_ c)
    (pings_since_last_response_ c) (conn_state c) (conn_log c).
(** Port::CreateConnection of the class of the port, with Port::AddConnection. *)
Definition port_CreateConnection (port : Z) (remote : FullCandidate) (origin : CandidateOrigin) (st : P2PTransportChannel)
    : option (option Z * P2PTransportChannel) :=
  p ← ports st !! port;
  index ← port_index p (f_candidate remote) origin;
  match index with
  | None => Some (None, st)
  | Some i =>
      let '(a, st) := new_address st in
      let c := mkCC (Connection_new i (f_candidate remote)) port (f_id remote) (f_generation remote) (f_foundation remote) true in
      let st := put_conn a c st in
      Some (Some a, put_port port (cp_connections (cp_conns p ++ [(c_address (f_candidate remote), a)]) p) st)
  end.
Definition AddConnection (connection : Z) (st : P2PTransportChannel) : option P2PTransportChannel :=
  let st := set_list (list_of st ++ [connection]) st in
  c ← conns st !! connection;
  Some (put_conn connection (cc_with (set_remote_ice_mode (ch_remote_mode (ch_cfg st)) (cc_conn c)) c) st).
Definition received_ping (connection now : Z) : P2PTransportChannel → option P2PTransportChannel :=
  on_conn connection (λ c p, Some (ReceivedPing now c, p)).
Definition Channel_CreateConnection (port : Z) (remote_candidate : FullCandidate) (origin_port : option Z) (readable : bool) (now : Z)
    (st : P2PTransportChannel) : option (bool * P2PTransportChannel) :=
  p ← ports st !! port;
  '(connection, st) ←
    match GetConnection (c_address (f_candidate remote_candidate)) p with
    | Some a => c ← conns st !! a; Some (if IsEquivalent remote_candidate (cc_remote c) then Some a else None, st)
    | None =>
        let origin := GetOrigin port origin_port in
        if bool_decide (origin = ORIGIN_MESSAGE) && incoming_only_ (ch_cfg st) then Some (None, st)
        else
          '(created, st) ← port_CreateConnection port remote_candidate origin st;
          match created with
          | None => Some (None, st)
          | Some a => st ← AddConnection a st; Some (Some a, st)
          end
    end;
  match connection with
  | None => Some (false, st)
  | Some a => st ← (if readable then received_ping a now st else Some st); Some (true, st)
  end.

Definition GetRemoteCandidateGeneration (candidate : FullCandidate) (st : P2PTransportChannel) : option Z :=
  if bool_decide (protocol_type_ (ch_cfg st) = ICEPROTO_GOOGLE) then Some (f_generation candidate)
  else if (f_generation candidate =? 0) || (f_generation candidate =? remote_candidate_generation_ (ch_cfg st))
  then Some (remote_candidate_generation_ (ch_cfg st)) else None.
Definition IsDuplicateRemoteCandidate (candidate : FullCandidate) (st : P2PTransportChannel) : bool :=
  existsb (λ r, IsEquivalent r.1 candidate) (remote_candidates_ st).
Definition RememberRemoteCandidate (remote_candidate : FullCandidate) (origin_port : option Z) (st : P2PTransportChannel) : P2PTransportChannel :=
  let st := set_remotes (List.filter (λ r, negb (f_generation r.1 <? f_generation remote_candidate)) (remote_candidates_ st)) st in
  if IsDuplicateRemoteCandidate remote_candidate st then st
  else set_remotes (remote_candidates_ st ++ [(remote_candidate, origin_port)]) st.
Fixpoint create_loop (l : list Z) (remote : FullCandidate) (origin_port : option Z) (readable : bool) (now : Z) (created : bool)
    (st : P2PTransportChannel) : option (bool * P2PTransportChannel) :=
  match l with
  | [] => Some (created, st)
  | p :: l =>
      '(ok, st) ← Channel_CreateConnection p remote origin_port readable now st;
      create_loop l remote origin_port readable now (if (ok : bool) && bool_decide (Some p = origin_port) then true else created) st
  end.
Definition CreateConnections (remote_candidate : FullCandidate) (origin_port : option Z) (readable : bool) (now : Z)
    (st : P2PTransportChannel) : option (bool * P2PTransportChannel) :=
  generation ← GetRemoteCandidateGeneration remote_candidate st;
  let c := f_candidate remote_candidate in
  let username := if bool_decide (c_username c = []) then remote_ice_ufrag_ (ch_cfg st) else c_username c in
  let password := if bool_decide (c_password c = []) then remote_ice_pwd_ (ch_cfg st) else c_password c in
  let new_remote_candidate := on_candidate (with_credentials username password) (set_generation generation remote_candidate) in
  if bool_decide (origin_port = None) && IsDuplicateRemoteCandidate new_remote_candidate st then Some (true, st)
  else
    '(created, st) ← create_loop (rev (ports_ (ch_obj st))) new_remote_candidate origin_port readable now false st;
    '(created, st) ←
      match origin_port with
      | Some o =>
          if bool_decide (o ∈ ports_ (ch_obj st)) then Some (created, st)
          else '(ok, st) ← Channel_CreateConnection o new_remote_candidate origin_port readable now st; Some ((ok : bool) || created, st)
      | None => Some (created, st)
      end;
    Some (created, RememberRemoteCandidate new_remote_candidate origin_port st).
Definition OnCandidate (candidate : FullCandidate) (now : Z) (st : P2PTransportChannel) : option P2PTransportChannel :=
  '(_, st) ← CreateConnections candidate None false now st;
  SortConnections now st.

(** *** A check from an unknown address *)

(** rtc::ToString of a uint32. *)
Fixpoint decimal (fuel : nat) (n : Z) : list Z :=
  match fuel with
  | O => []
  | S fuel => (if n <? 10 then [] else decimal fuel (n / 10)) ++ [48 + n mod 10]
  end.
Definition on_port (port : Z) (f : Port → Port) (st : P2PTransportChannel) : option P2PTransportChannel :=
  p ← ports st !! port; Some (put_port port (cp_with (f (cp_port p)) p) st).
(** The remote candidate for the user name, and whether the name and its password are
    known. *)
Definition ufrag_per_port (l : list (FullCandidate * option Z)) : bool :=
  match l with
  | [] => false
  | r :: l => existsb (λ x, negb (bool_decide (c_username (f_candidate x.1) = c_username (f_candidate r.1)))) l
  end.
Fixpoint find_remote (address : SocketAddress) (proto remote_username : list Z) (per_port : bool) (l : list (FullCandidate * option Z))
    (password : option (list Z)) : option (list Z) * option FullCandidate :=
  match l with
  | [] => (password, None)
  | (r, _) :: l =>
      let c := f_candidate r in
      if bool_decide (c_username c = remote_username) then
        if per_port || (SocketAddress_eqb (c_address c) address && bool_decide (c_protocol c = proto)) then (Some (c_password c), Some r)
        else find_remote address proto remote_username per_port l (Some (c_password c))
      else find_remote address proto remote_username per_port l password
  end.
Definition new_remote (p : chan_port) (address : SocketAddress) (proto remote_username remote_password id : list Z) (component : Z) : FullCandidate :=
  let type :=
    if IsStandardIce (cp_port p) then PRFLX_PORT_TYPE
    else if bool_decide (cp_type p = RELAY_PORT_TYPE) || cp_shared p then STUN_PORT_TYPE else cp_type p in
  let c := mkCandidate component type proto address 0 remote_username remote_password SocketAddress_Clear in
  mkFull (with_priority (GetPriority ICE_TYPE_PREFERENCE_SRFLX (cp_preference p) 0 c) c) id 0 (decimal 10 (ComputeCrc32 id)).
(** A connection for a peer reflexive candidate: only from this port. *)
Definition add_reflexive (port : Z) (address : SocketAddress) (msg : StunMessage) (port_muxed : bool) (now : Z) (remote : FullCandidate)
    (st : P2PTransportChannel) : option P2PTransportChannel :=
  p ← ports st !! port;
  match GetUInt32 msg STUN_ATTR_PRIORITY with
  | None => on_port port (SendBindingErrorResponse msg address STUN_ERROR_BAD_REQUEST STUN_ERROR_REASON_BAD_REQUEST) st
  | Some prio =>
      let remote := on_candidate (with_priority prio) remote in
      match GetConnection (c_address (f_candidate remote)) p with
      | Some _ => if port_muxed then Some st else None
      | None =>
          '(created, st) ← port_CreateConnection port remote ORIGIN_THIS_PORT st;
          connection ← created;
          st ← AddConnection connection st;
          st ← received_ping connection now st;
          st ← on_port port (SendBindingResponse msg address) st;
          SortConnections now st
      end
  end.
(** [id] is the random name of a new candidate. *)
Definition OnUnknownAddress (port : Z) (address : SocketAddress) (proto : list Z) (stun_msg : StunMessage) (remote_username : list Z)
    (port_muxed : bool) (id : list Z) (now : Z) (st : P2PTransportChannel) : option P2PTransportChannel :=
  p ← ports st !! port;
  let per_port := ufrag_per_port (remote_candidates_ st) in
  match find_remote address proto remote_username per_port (remote_candidates_ st) None with
  | (None, _) =>
      if port_muxed then Some st
      else on_port port (SendBindingErrorResponse stun_msg address STUN_ERROR_STALE_CREDENTIALS STUN_ERROR_REASON_STALE_CREDENTIALS) st
  | (Some remote_password, candidate) =>
      let new_remote_candidate :=
        match candidate with
        | Some c => if per_port then on_candidate (with_address address) c else c
        | None => new_remote p address proto remote_username remote_password id (ch_component (ch_cfg st))
        end in
      if IsStandardIce (cp_port p) then add_reflexive port address stun_msg port_muxed now new_remote_candidate st
      else
        '(created, st) ← CreateConnections new_remote_candidate (Some port) true now st;
        if negb created then None
        else st ← on_port port (SendBindingResponse stun_msg address) st; SortConnections now st
  end.

(** *** Ports *)

Fixpoint create_for_port (port : Z) (l : list (FullCandidate * option Z)) (now : Z) (st : P2PTransportChannel) : option P2PTransportChannel :=
  match l with
  | [] => Some st
  | (r, origin) :: l => '(_, st) ← Channel_CreateConnection port r origin false now st; create_for_port port l now st
  end.
Definition SetIceTiebreaker_port (t : Z) (p : Port) : Port :=
  mkPort (ice_protocol_ p) (ice_role_ p) t (component_ p) (ice_username_fragment_ p) (password_ p)
    (send_retransmit_count_attribute_ p) (enable_port_packets_ p) (candidates_ p) (port_log p).
Definition OnPortReady (port now : Z) (st : P2PTransportChannel) : option P2PTransportChannel :=
  let st := ch_emit ((λ x, ChSetOption port x.1 x.2) <$> options_ st) st in
  let cfg := ch_cfg st in
  st ← on_port port (λ p, SetIceTiebreaker_port (ch_tiebreaker cfg) (SetIceRole (ch_role cfg) (SetIceProtocolType (protocol_type_ cfg) p))) st;
  let st := set_ports (ports_ (ch_obj st) ++ [port]) st in
  st ← create_for_port port (remote_candidates_ st) now st;
  SortConnections now st.
Definition OnPortDestroyed (port : Z) (st : P2PTransportChannel) : P2PTransportChannel :=
  set_ports (remove_first port (ports_ (ch_obj st))) st.

(** *** Deletion *)

Definition Channel_OnConnectionDestroyed (connection : Z) (st : P2PTransportChannel) : option P2PTransportChannel :=
  if negb (FindConnection connection st) then None
  else
    let st := set_list (remove_first connection (list_of st)) st in
    let st := if bool_decide (pending_best_connection_ (ch_sel st) = Some connection) then set_pending None st else st in
    st ← (if bool_decide (best st = Some connection) then st ← SwitchBestConnectionTo None st; Some (RequestSort st) else Some st);
    Some (ch_emit [ChConnectionRemoved] st).
Definition Port_OnConnectionDestroyed (port : Z) (addr : SocketAddress) (now : Z) (st : P2PTransportChannel) : option P2PTransportChannel :=
  p ← ports st !! port;
  a ← GetConnection addr p;
  let st := put_port port (cp_connections (List.filter (λ x, negb (SocketAddress_eqb x.1 addr)) (cp_conns p)) p) st in
  Some (if bool_decide (ice_role_ (cp_port p) = ICEROLE_CONTROLLED) then ch_post_delayed kPortTimeoutDelay now (MSG_CHECKTIMEOUT port) st else st).
(** Connection::OnMessage: the port and the channel are told, in the order in which they
    connected to the signal, and the connection is deleted with its messages. *)
Definition Connection_OnMessage (a now : Z) (st : P2PTransportChannel) : option P2PTransportChannel :=
  c ← conns st !! a;
  st ← Port_OnConnectionDestroyed (cc_port c) (c_address (remote_candidate_ (cc_conn c))) now st;
  st ← Channel_OnConnectionDestroyed a st;
  let st := on_obj (λ o, mkObj (delete a (conn_heap o)) (port_heap o) (ports_ o) (supply o)) st in
  Some (ch_clear (λ m, bool_decide (m = MSG_DELETE a)) st).
(** Port::CheckTimeout, and Port::Destroy. *)
Definition Port_CheckTimeout (port : Z) (st : P2PTransportChannel) : option P2PTransportChannel :=
  p ← ports st !! port;
  if negb (bool_decide (ice_role_ (cp_port p) = ICEROLE_CONTROLLED)) then None
  else
    match cp_conns p with
    | [] =>
        let st := OnPortDestroyed port st in
        let st := on_obj (λ o, mkObj (conn_heap o) (delete port (port_heap o)) (ports_ o) (supply o)) st in
        Some (ch_clear (λ m, bool_decide (m = MSG_CHECKTIMEOUT port)) st)
    | _ => Some st
    end.

(** *** Messages of the thread *)

Definition P2P_OnMessage (m : chan_message) (now a : Z) (random : list Z) (st : P2PTransportChannel) : option P2PTransportChannel :=
  match m with
  | MSG_SORT => SortConnections now st
  | MSG_PING => OnPing now a random st
  | MSG_DELETE c => Connection_OnMessage c now st
  | MSG_CHECKTIMEOUT p => Port_CheckTimeout p st
  end.
Definition take_posted (now a : Z) (random : list Z) (st : P2PTransportChannel) : option P2PTransportChannel :=
  match ch_posted st with
  | [] => Some st
  | m :: _ => P2P_OnMessage m now a random (on_thread (drop 1) id st)
  end.
(** The first delayed message, when it is due. *)
Definition take_timer (now a : Z) (random : list Z) (st : P2PTransportChannel) : option P2PTransportChannel :=
  match ch_timers st with
  | [] => Some st
  | x :: _ => if TimeIsLater now x.1 then Some st else P2P_OnMessage x.2 now a random (on_thread id (drop 1) st)
  end.

(** *** The interface *)

Definition Allocate (st : P2PTransportChannel) : P2PTransportChannel :=
  ch_emit [ChRequestSignaling] (on_sessions true (allocator_sessions_ st) st).
Definition Channel_Connect (st : P2PTransportChannel) : option P2PTransportChannel :=
  if bool_decide (ice_ufrag_ (ch_cfg st) = []) || bool_decide (ice_pwd_ (ch_cfg st) = []) then None
  else Some (ch_post MSG_PING (Allocate st)).
Definition AddAllocatorSession (st : P2PTransportChannel) : P2PTransportChannel :=
  set_ports [] (on_sessions (waiting_for_signaling_ st) (allocator_sessions_ st ++ [true]) st).
Definition OnSignalingReady (st : P2PTransportChannel) : P2PTransportChannel :=
  if waiting_for_signaling_ st then AddAllocatorSession (on_sessions false (allocator_sessions_ st) st) else st.
(** The sessions delete their ports, and the ports their connections, with their
    messages; nobody is told. *)
Definition Reset (connect_requested : bool) (st : P2PTransportChannel) : P2PTransportChannel :=
  let st := on_sessions (waiting_for_signaling_ st) [] st in
  let st := on_obj (λ o, mkObj ∅ ∅ [] (supply o)) st in
  let st := set_best None (set_list [] st) in
  let st := set_remotes [] st in
  let st := set_writable false (set_readable false st) in
  let st := set_dirty false (on_sessions false (allocator_sessions_ st) st) in
  let st := if connect_requested then Allocate st else st in
  ch_post MSG_PING (on_thread (λ _, []) (λ _, []) st).
Definition update_cfg (role : IceRole) (protocol : IceProtocolType) (tiebreaker : Z) (mode : IceMode) (incoming : bool) (c : chan_config) : chan_config :=
  mkCfg incoming (ice_ufrag_ c) (ice_pwd_ c) (remote_ice_ufrag_ c) (remote_ice_pwd_ c) protocol mode role tiebreaker
    (remote_candidate_generation_ c) (ch_component c).
Fixpoint on_ports (l : list Z) (f : Port → Port) (st : P2PTransportChannel) : option P2PTransportChannel :=
  match l with
  | [] => Some st
  | p :: l => st ← on_port p f st; on_ports l f st
  end.
Definition Channel_SetIceRole (ice_role : IceRole) (st : P2PTransportChannel) : option P2PTransportChannel :=
  if has_role ice_role st then Some st
  else
    let st := on_cfg (λ c, update_cfg ice_role (protocol_type_ c) (ch_tiebreaker c) (ch_remote_mode c) (incoming_only_ c) c) st in
    on_ports (ports_ (ch_obj st)) (SetIceRole ice_role) st.
Definition SetIceTiebreaker (tiebreaker : Z) (st : P2PTransportChannel) : P2PTransportChannel :=
  match ports_ (ch_obj st) with
  | [] => on_cfg (λ c, update_cfg (ch_role c) (protocol_type_ c) tiebreaker (ch_remote_mode c) (incoming_only_ c) c) st
  | _ => st
  end.
Definition Channel_SetIceProtocolType (type : IceProtocolType) (st : P2PTransportChannel) : option P2PTransportChannel :=
  let st := on_cfg (λ c, update_cfg (ch_role c) type (ch_tiebreaker c) (ch_remote_mode c) (incoming_only_ c) c) st in
  on_ports (ports_ (ch_obj st)) (SetIceProtocolType type) st.
Definition SetRemoteIceMode (mode : IceMode) (st : P2PTransportChannel) : P2PTransportChannel :=
  on_cfg (λ c, update_cfg (ch_role c) (protocol_type_ c) (ch_tiebreaker c) mode (incoming_only_ c) c) st.
Definition set_incoming_only (value : bool) (st : P2PTransportChannel) : P2PTransportChannel :=
  on_cfg (λ c, update_cfg (ch_role c) (protocol_type_ c) (ch_tiebreaker c) (ch_remote_mode c) value c) st.
Definition IceCredentialsChanged (old_ufrag old_pwd new_ufrag new_pwd : list Z) : bool :=
  negb (bool_decide (old_ufrag = new_ufrag)) || negb (bool_decide (old_pwd = new_pwd)).
Definition SetIceCredentials (ufrag pwd : list Z) (st : P2PTransportChannel) : P2PTransportChannel :=
  let cfg := ch_cfg st in
  let ice_restart :=
    if negb (bool_decide (ice_ufrag_ cfg = [])) && negb (bool_decide (ice_pwd_ cfg = []))
    then IceCredentialsChanged (ice_ufrag_ cfg) (ice_pwd_ cfg) ufrag pwd else false in
  let st := on_cfg (λ c, mkCfg (incoming_only_ c) ufrag pwd (remote_ice_ufrag_ c) (remote_ice_pwd_ c) (protocol_type_ c) (ch_remote_mode c)
                           (ch_role c) (ch_tiebreaker c) (remote_candidate_generation_ c) (ch_component c)) st in
  if ice_restart then Allocate st else st.
Definition SetRemoteIceCredentials (ufrag pwd : list Z) (st : P2PTransportChannel) : P2PTransportChannel :=
  let cfg := ch_cfg st in
  let ice_restart :=
    if negb (bool_decide (remote_ice_ufrag_ cfg = [])) && negb (bool_decide (remote_ice_pwd_ cfg = []))
    then negb (bool_decide (remote_ice_ufrag_ cfg = ufrag)) || negb (bool_decide (remote_ice_pwd_ cfg = pwd)) else false in
  on_cfg (λ c, mkCfg (incoming_only_ c) (ice_ufrag_ c) (ice_pwd_ c) ufrag pwd (protocol_type_ c) (ch_remote_mode c) (ch_role c) (ch_tiebreaker c)
                 (if ice_restart then u32 (remote_candidate_generation_ c + 1) else remote_candidate_generation_ c) (ch_component c)) st.
Definition Channel_SetOption (opt value : Z) (st : P2PTransportChannel) : P2PTransportChannel :=
  match find (λ x, x.1 =? opt) (options_ st) with
  | Some (_, v) =>
      if v =? value then st
      else ch_emit ((λ p, ChSetOption p opt value) <$> ports_ (ch_obj st))
        (set_options ((λ x, if x.1 =? opt then (opt, value) else x) <$> options_ st) st)
  | None => ch_emit ((λ p, ChSetOption p opt value) <$> ports_ (ch_obj st)) (set_options (insert_option opt value (options_ st)) st)
  end.
Definition SendPacket (data : list Z) (flags : Z) (st : P2PTransportChannel) : option (Z * P2PTransportChannel) :=
  if negb (flags =? 0) then Some (-1, set_error EINVAL st)
  else
    match best st with
    | None => Some (-1, set_error EWOULDBLOCK st)
    | Some b =>
        c ← conns st !! b;
        p ← ports st !! cc_port c;
        let '(ok, p') := Connection_Send data (cc_conn c) (cp_port p) in
        if (ok : bool) then if zlen data <=? 0 then None else Some (zlen data, put_port (cc_port c) (cp_with p' p) st)
        else Some (-1, set_error EWOULDBLOCK st)
    end.

(** ** Uses of the channel *)

Inductive chan_op :=
  | CSetIceRole (role : IceRole)
  | CSetIceTiebreaker (tiebreaker : Z)
  | CSetIceProtocolType (type : IceProtocolType)
  | CSetIceCredentials (ufrag pwd : list Z)
  | CSetRemoteIceCredentials (ufrag pwd : list Z)
  | CSetRemoteIceMode (mode : IceMode)
  | CSetIncomingOnly (value : bool)
  | CConnect
  | CReset (connect_requested : bool)
  | CSignalingReady
  | CPortReady (port : Z) (p : chan_port)
  | CCandidate (candidate : FullCandidate)
  | CPacket (port : Z) (addr : SocketAddress) (data id : list Z)
  | CConnDispatch (connection : Z)
  | CConnReady (connection : Z)
  | CSetConnected (connection : Z) (value : bool)
  | CSetOption (opt value : Z)
  | CSendPacket (data : list Z) (flags : Z)
  | CPosted (request : Z) (random : list Z)
  | CTimer (request : Z) (random : list Z).

(** What a port signals after it read a packet. *)
Fixpoint port_events (port : Z) (id : list Z) (now : Z) (l : list port_event) (st : P2PTransportChannel) : option P2PTransportChannel :=
  match l with
  | [] => Some st
  | e :: l =>
      st ← match e with
           | SignalRoleConflict => Some (ch_emit [ChRoleConflict] st)
           | SignalUnknownAddress addr msg user => OnUnknownAddress port addr (text "udp") msg user false id now st
           | _ => Some st
           end;
      port_events port id now l st
  end.
Definition port_packet (port : Z) (addr : SocketAddress) (data id : list Z) (now : Z) (st : P2PTransportChannel) : option P2PTransportChannel :=
  p ← ports st !! port;
  match GetConnection addr p with
  | Some a => on_conn a (Connection_OnReadPacket data now) st
  | None =>
      p' ← Port_OnReadPacket data addr (cp_port p);
      port_events port id now (drop (length (port_log (cp_port p))) (port_log p')) (put_port port (cp_with p' p) st)
  end.

Definition chan_step (o : chan_op) (now : Z) (st : P2PTransportChannel) : option P2PTransportChannel :=
  match o with
  | CSetIceRole role => Channel_SetIceRole role st
  | CSetIceTiebreaker t => Some (SetIceTiebreaker t st)
  | CSetIceProtocolType type => Channel_SetIceProtocolType type st
  | CSetIceCredentials ufrag pwd => Some (SetIceCredentials ufrag pwd st)
  | CSetRemoteIceCredentials ufrag pwd => Some (SetRemoteIceCredentials ufrag pwd st)
  | CSetRemoteIceMode mode => Some (SetRemoteIceMode mode st)
  | CSetIncomingOnly value => Some (set_incoming_only value st)
  | CConnect => Channel_Connect st
  | CReset connect_requested => Some (Reset connect_requested st)
  | CSignalingReady => Some (OnSignalingReady st)
  | CPortReady port p => OnPortReady port now (put_port port p st)
  | CCandidate candidate => OnCandidate candidate now st
  | CPacket port addr data id => port_packet port addr data id now st
  | CConnDispatch a => on_conn a (conn_dispatch now) st
  | CConnReady a => on_conn a (λ c p, Some (OnReadyToSend c, p)) st
  | CSetConnected a value =>
      c ← conns st !! a; Some (put_conn a (mkCC (cc_conn c) (cc_port c) (cc_id c) (cc_generation c) (cc_foundation c) value) st)
  | CSetOption opt value => Some (Channel_SetOption opt value st)
  | CSendPacket data flags => snd <$> SendPacket data flags st
  | CPosted a random => take_posted now a random st
  | CTimer a random => take_timer now a random st
  end.
Fixpoint chan_run (ops : list (chan_op * Z)) (st : P2PTransportChannel) : option P2PTransportChannel :=
  match ops with
  | [] => Some st
  | (o, now) :: ops => st ← chan_step o now st; chan_run ops st
  end.
End channel.
