(* ===== verification/IceChannelInv.v ===== *)
(** * What the operations of a channel leave as it is

    The signals of a connection change little in the channel; an operation of a connection
    changes this connection and its port.  From that: the list of connections has each
    live connection once, the best connection is one of them, and the channel was writable
    when it is; whatever is called. *)

From S2P Require Import Prelude ByteOrder ByteBuffer Crc32 IpAddress Stun StunWire StunIntegrity StunBuild TimeUtils MessageQueue StunRequest IcePort IceConnection IceChannel.

(** ** Signals *)

(** What the signals of the connection [a] leave. *)
Record calm (a : Z) (st st' : P2PTransportChannel) : Prop := {
  cm_cfg : ch_cfg st' = ch_cfg st;
  cm_obj : ch_obj st' = ch_obj st;
  cm_list : list_of st' = list_of st;
  cm_was : was_writable_ (ch_sel st') = was_writable_ (ch_sel st);
  cm_readable : ch_readable (ch_sel st') = ch_readable (ch_sel st);
  cm_writable : ch_writable (ch_sel st') = ch_writable (ch_sel st);
  cm_best : best st' = best st ∨ best st' = Some a;
  cm_pending : pending_best_connection_ (ch_sel st') = pending_best_connection_ (ch_sel st) ∨ pending_best_connection_ (ch_sel st') = None ∨
    pending_best_connection_ (ch_sel st') = Some a;
  cm_sessions : waiting_for_signaling_ st' = waiting_for_signaling_ st ∧ allocator_sessions_ st' = allocator_sessions_ st;
  cm_remotes : remote_candidates_ st' = remote_candidates_ st;
  cm_options : options_ st' = options_ st;
  cm_timers : ch_timers st' = ch_timers st;
  cm_posted : ∃ l, ch_posted st' = ch_posted st ++ l ∧ Forall (λ m, m = MSG_SORT ∨ m = MSG_DELETE a) l
}.
Lemma calm_refl a st : calm a st st.
Proof. split; try done; [by left|by left|]. exists []. by rewrite app_nil_r. Qed.
Lemma calm_trans a st st1 st2 : calm a st st1 → calm a st1 st2 → calm a st st2.
Proof.
  intros [] []. split; try congruence.
  - destruct cm_best1 as [->|]; auto.
  - destruct cm_pending1 as [->|]; auto.
  - destruct cm_sessions0, cm_sessions1. split; congruence.
  - destruct cm_posted0 as (l & E & Hl), cm_posted1 as (l' & E' & Hl'). exists (l ++ l'). rewrite E', E, app_assoc. split; [done|]. by apply Forall_app.
Qed.
Lemma emit_calm a l st : calm a st (ch_emit l st).
Proof. by destruct (calm_refl a st); split. Qed.
Lemma RequestSort_calm a st : calm a st (RequestSort st).
Proof.
  unfold RequestSort. destruct (sort_dirty_ (ch_sel st)); [apply calm_refl|]. destruct (calm_refl a st). split; try done.
  exists [MSG_SORT]. split; [done|]. by repeat constructor.
Qed.
Lemma Switch_calm a st st' : SwitchBestConnectionTo (Some a) st = Some st' → calm a st st'.
Proof.
  unfold SwitchBestConnectionTo. cbn zeta. set (st1 := set_best _ st). intros Es. assert (st' = ch_emit (drop (length (ch_log st)) (ch_log st')) st1) as ->.
  { destruct (best st) as [b|]; [destruct (conns st1 !! b); [|done]|]; cbn in Es; (destruct (conns st1 !! a); [|done]); injection Es as <-; cbn; by rewrite drop_app_length. }
  destruct (calm_refl a st). split; try done. by right.
Qed.
Lemma pending_calm a x st : x = None ∨ x = Some a → calm a st (set_pending x st).
Proof. intros Hx. destruct (calm_refl a st). split; try done. by right. Qed.

Section inv.
Context `{Platform} `{!PortClass}.

Lemma state_change_calm a v st st' : OnConnectionStateChange a v st = Some st' → calm a st st'.
Proof.
  unfold OnConnectionStateChange. destruct (_ && _).
  - destruct (SwitchBestConnectionTo _ _) as [st1|] eqn:E; [|done]. intros [= <-].
    eapply calm_trans; [apply (pending_calm a None); auto|]. eapply calm_trans; [by apply Switch_calm|apply RequestSort_calm].
  - intros [= <-]. apply RequestSort_calm.
Qed.
Lemma use_candidate_calm a st st' : OnUseCandidate a st = Some st' → calm a st st'.
Proof.
  unfold OnUseCandidate. destruct (negb _); [done|]. destruct (negb _); [done|]. destruct (conns st !! a) as [c|]; [|done]. cbn [mbind option_bind].
  destruct (is_writable _); [|intros [= <-]; apply pending_calm; auto].
  destruct (bool_decide _); [intros [= <-]; apply calm_refl|]. destruct (SwitchBestConnectionTo _ _) as [st1|] eqn:E; [|done]. intros [= <-].
  eapply calm_trans; [apply (pending_calm a None); auto|]. eapply calm_trans; [by apply Switch_calm|apply RequestSort_calm].
Qed.
Lemma handle_event_calm a x st st' : handle_event a x st = Some st' → calm a st st'.
Proof.
  destruct x as [w|data| | |]; cbn [handle_event].
  - apply state_change_calm.
  - intros [= <-]. unfold Channel_OnReadPacket. destruct (negb _); [apply calm_refl|apply emit_calm].
  - intros [= <-]. unfold Channel_OnReadyToSend. destruct (_ && _); [apply emit_calm|apply calm_refl].
  - apply use_candidate_calm.
  - intros [= <-]. destruct (calm_refl a st). split; try done. exists [MSG_DELETE a]. split; [done|]. apply Forall_cons_2, Forall_nil_2. by right.
Qed.
Lemma handle_events_calm a l : ∀ st st', handle_events a l st = Some st' → calm a st st'.
Proof.
  induction l as [|x l IH]; intros st st'; cbn; [intros [= <-]; apply calm_refl|].
  destruct (handle_event a x st) as [st1|] eqn:E; [|done]. intros E'. eapply calm_trans; [by eapply handle_event_calm|by apply IH].
Qed.

(** ** An operation of a connection *)

Record conn_done (a : Z) (c c' : chan_conn) (p p' : chan_port) (st st' : P2PTransportChannel) : Prop := {
  cd_conns : conns st' = <[a := c']> (conns st);
  cd_ports : ports st' = <[cc_port c := p']> (ports st);
  cd_supply : ports_ (ch_obj st') = ports_ (ch_obj st) ∧ supply (ch_obj st') = supply (ch_obj st);
  cd_calm : calm a (on_obj (λ _, ch_obj st') st) st'
}.
Lemma on_conn_done a f st st' : on_conn a f st = Some st' →
  ∃ c p x y, conns st !! a = Some c ∧ ports st !! cc_port c = Some p ∧ f (cc_conn c) (cp_port p) = Some (x, y) ∧
    conn_done a c (cc_with x c) p (cp_with y p) st st'.
Proof.
  unfold on_conn. destruct (conns st !! a) as [c|] eqn:Ec; [|done]. cbn [mbind option_bind]. destruct (ports st !! cc_port c) as [p|] eqn:Ep; [|done].
  cbn [mbind option_bind]. destruct (f _ _) as [[x y]|] eqn:Ef; [|done]. cbn [mbind option_bind]. intros E%handle_events_calm.
  exists c, p, x, y. split; [done|]. split; [done|]. split; [done|]. pose proof (cm_obj _ _ _ E) as Eo. cbn in Eo.
  split; [unfold conns; by rewrite Eo|unfold ports; by rewrite Eo|by rewrite Eo|].
  eapply calm_trans; [|exact E]. rewrite Eo. by destruct (calm_refl a st); split.
Qed.

(** ** The list of connections *)

Record chan_wf (st : P2PTransportChannel) : Prop := {
  wf_nodup : NoDup (list_of st);
  wf_live : ∀ a, a ∈ list_of st ↔ is_Some (conns st !! a);
  wf_best : ∀ b, best st = Some b → b ∈ list_of st;
  wf_writable : ch_writable (ch_sel st) = true → was_writable_ (ch_sel st) = true
}.
Lemma wf_same st st' : chan_wf st → list_of st' ≡ₚ list_of st → (∀ b, is_Some (conns st' !! b) ↔ is_Some (conns st !! b)) →
  (best st' = best st ∨ ∀ b, best st' = Some b → b ∈ list_of st) →
  (ch_writable (ch_sel st') = true → ch_writable (ch_sel st) = true ∨ was_writable_ (ch_sel st') = true) →
  (was_writable_ (ch_sel st) = true → ch_writable (ch_sel st') = true → was_writable_ (ch_sel st') = true) → chan_wf st'.
Proof.
  intros [] Hl Hc Hb Hw Hw'. split.
  - by rewrite Hl.
  - intros a. by rewrite Hc, Hl.
  - intros b Eb. rewrite Hl. destruct Hb as [E|Hb]; [rewrite E in Eb; by apply wf_best0|by apply Hb].
  - intros Ht. destruct (Hw Ht) as [H1|H1]; [by apply Hw'; [apply wf_writable0|]|done].
Qed.
Lemma done_live a c c' p p' st st' : conns st !! a = Some c → conn_done a c c' p p' st st' → ∀ b, is_Some (conns st' !! b) ↔ is_Some (conns st !! b).
Proof. intros E [Ec _ _ _] b. rewrite Ec. destruct (decide (a = b)) as [<-|Hn]; [rewrite lookup_insert_eq, E; by split; eexists|by rewrite lookup_insert_ne]. Qed.
Lemma wf_on_conn a f st st' : chan_wf st → on_conn a f st = Some st' → chan_wf st' ∧ list_of st' = list_of st.
Proof.
  intros Hwf E. apply on_conn_done in E as (c & p & x & y & Ec & Ep & Ef & Hd). pose proof (done_live _ _ _ _ _ _ _ Ec Hd) as Hl.
  destruct (cd_calm _ _ _ _ _ _ _ Hd) as [_ _ El Ewas _ Ewr Hb _ _ _ _ _ _]. cbn in El, Ewas, Ewr. split; [|exact El].
  apply (wf_same st); [done|by rewrite El|done| |rewrite Ewr; by left|rewrite Ewas, Ewr; auto].
  destruct Hb as [->|E]; [by left|]. right. intros b Eb. rewrite E in Eb. injection Eb as <-. apply (wf_live _ Hwf). by eexists.
Qed.
Lemma wf_Switch x st st' : chan_wf st → (∀ b, x = Some b → b ∈ list_of st) → SwitchBestConnectionTo x st = Some st' →
  chan_wf st' ∧ list_of st' = list_of st ∧ best st' = x ∧ ch_obj st' = ch_obj st ∧ ch_cfg st' = ch_cfg st ∧
  ch_writable (ch_sel st') = ch_writable (ch_sel st) ∧ was_writable_ (ch_sel st') = was_writable_ (ch_sel st).
Proof.
  intros Hwf Hx E. destruct x as [a|]; [|injection E as <-; split; [|done]; apply (wf_same st); try done; [by right|by left]].
  pose proof (Switch_calm _ _ _ E) as [Ecfg Eo El Ewas _ Ewr _ _ _ _ _ _ _].
  assert (best st' = Some a) as Eb.
  { unfold SwitchBestConnectionTo in E. cbn zeta in E. set (st1 := set_best _ st) in *.
    destruct (best st) as [b|]; [destruct (conns st1 !! b); [|done]|]; cbn in E; (destruct (conns st1 !! a); [|done]); by injection E as <-. }
  split; [|done]. apply (wf_same st); [done|by rewrite El|unfold conns; by rewrite Eo| |rewrite Ewr; by left|rewrite Ewas, Ewr; auto].
  right. intros b. rewrite Eb. intros [= <-]. by apply Hx.
Qed.
Lemma update_states_wf l : ∀ now st st', chan_wf st → update_states l now st = Some st' → chan_wf st' ∧ list_of st' = list_of st.
Proof.
  induction l as [|a l IH]; intros now st st' Hwf; cbn [update_states]; [by intros [= <-]|].
  destruct (on_conn a _ st) as [st1|] eqn:E; [|done]. cbn [mbind option_bind]. intros E'. destruct (wf_on_conn _ _ _ _ Hwf E) as [Hwf1 El].
  destruct (IH _ _ _ Hwf1 E') as [Hwf2 El2]. split; [done|congruence].
Qed.
Lemma prune_loop_wf q n l : ∀ st st', chan_wf st → prune_loop q n l st = Some st' → chan_wf st' ∧ list_of st' = list_of st.
Proof.
  induction l as [|a l IH]; intros st st' Hwf; cbn [prune_loop]; [by intros [= <-]|].
  destruct (view st q) as [vp|]; [|done]. destruct (view st a) as [v|]; [|done]. cbn [mbind option_bind].
  destruct (_ && _); cbn [mbind option_bind]; [|by apply IH].
  destruct (on_conn a _ st) as [st1|] eqn:E; [|done]. cbn [mbind option_bind]. intros E'. destruct (wf_on_conn _ _ _ _ Hwf E) as [Hwf1 El].
  destruct (IH _ _ Hwf1 E') as [Hwf2 El2]. split; [done|congruence].
Qed.
Lemma prune_networks_wf l : ∀ st st', chan_wf st → prune_networks l st = Some st' → chan_wf st' ∧ list_of st' = list_of st.
Proof.
  induction l as [|n l IH]; intros st st' Hwf; cbn [prune_networks]; [by intros [= <-]|].
  destruct (GetBestConnectionOnNetwork n st) as [[q|]|]; [..|done]; cbn [mbind option_bind]; [|by apply IH].
  destruct (bool_decide _); cbn [mbind option_bind]; [|by apply IH]. destruct (prune_loop _ _ _ _) as [st1|] eqn:E; [|done]. cbn [mbind option_bind]. intros E'.
  destruct (prune_loop_wf _ _ _ _ _ Hwf E) as [Hwf1 El]. destruct (IH _ _ Hwf1 E') as [Hwf2 El2]. split; [done|congruence].
Qed.
Lemma set_readable_wf v st : chan_wf st → chan_wf (set_readable v st) ∧ list_of (set_readable v st) = list_of st.
Proof. intros Hwf. unfold set_readable. destruct (Bool.eqb _ _); [done|]. split; [|done]. by apply (wf_same st); try done; left. Qed.
Lemma HandleWritable_wf st : chan_wf st → chan_wf (HandleWritable st) ∧ list_of (HandleWritable st) = list_of st.
Proof.
  intros Hwf. unfold HandleWritable, set_writable. destruct (ch_writable (ch_sel st)) eqn:E; cbn; rewrite E; cbn; (split; [|done]);
    apply (wf_same st); try done; try (by left); auto.
Qed.
Lemma HandleNotWritable_wf st : chan_wf st → chan_wf (HandleNotWritable st) ∧ list_of (HandleNotWritable st) = list_of st.
Proof.
  intros Hwf. unfold HandleNotWritable, set_writable. destruct (was_writable_ (ch_sel st)) eqn:Ew; [|done].
  destruct (ch_writable (ch_sel st)) eqn:E; cbn; rewrite E; cbn; (split; [|done]).
  - apply (wf_same st); try done; try (by left); auto.
  - apply (wf_same st); try done; cbn; [by left|by rewrite E|by rewrite E].
Qed.

(** ** Sorting *)

Lemma insert_view_perm v l : insert_view v l ≡ₚ v :: l.
Proof. induction l as [|x l IH]; cbn; [done|]. destruct (ConnectionCompare v x); [done|]. by rewrite IH, Permutation_swap. Qed.
Lemma stable_sort_perm l : stable_sort l ≡ₚ l.
Proof.
  unfold stable_sort. enough (∀ k, fold_left (λ l v, insert_view v l) l k ≡ₚ k ++ l) as Hf by apply Hf.
  induction l as [|v l IH]; intros k; cbn; [by rewrite app_nil_r|]. rewrite IH, insert_view_perm. apply Permutation_middle.
Qed.
Lemma view_addr st a v : view st a = Some v → v_addr v = a.
Proof.
  unfold view. destruct (conns st !! a) as [c|]; [|done]. cbn [mbind option_bind]. destruct (ports st !! cc_port c) as [p|]; [|done]. cbn [mbind option_bind].
  destruct (priority _ _); [|done]. by intros [= <-].
Qed.
Lemma views_addr st l : ∀ views, mapM (view st) l = Some views → v_addr <$> views = l.
Proof.
  induction l as [|a l IH]; intros views; cbn; [by intros [= <-]|]. destruct (view st a) as [v|] eqn:E; [|done]. cbn.
  destruct (mapM (view st) l) as [k|]; [|done]. intros [= <-]. cbn. by rewrite (view_addr _ _ _ E), IH.
Qed.
Lemma set_list_wf l st : chan_wf st → l ≡ₚ list_of st → chan_wf (set_list l st).
Proof. intros Hwf Hl. by apply (wf_same st); try done; left. Qed.
Lemma UpdateChannelState_wf st st' : chan_wf st → UpdateChannelState st = Some st' → chan_wf st' ∧ list_of st' = list_of st.
Proof.
  intros Hwf. unfold UpdateChannelState. destruct (best_writable st) as [w|]; [|done]. cbn [mbind option_bind]. destruct (negb _); [done|].
  destruct (mapM _ _); [|done]. intros [= <-]. by apply set_readable_wf.
Qed.
Lemma SortConnections_wf now st st' : chan_wf st → SortConnections now st = Some st' → chan_wf st' ∧ list_of st' ≡ₚ list_of st.
Proof.
  intros Hwf. unfold SortConnections, UpdateConnectionStates. destruct (update_states _ _ _) as [st1|] eqn:E1; [|done]. cbn [mbind option_bind].
  destruct (update_states_wf _ _ _ _ Hwf E1) as [Hwf1 El1]. destruct (bool_decide _).
  { intros E. destruct (UpdateChannelState_wf _ _ Hwf1 E) as [? El]. by rewrite El, El1. }
  cbn zeta. set (st2 := set_dirty false st1). destruct (mapM (view st2) _) as [views|] eqn:Ev; [|done]. cbn [mbind option_bind].
  destruct (negb (sortable views)); [done|]. pose proof (views_addr _ _ _ Ev) as Ea. set (st3 := set_list _ st2).
  assert (v_addr <$> stable_sort views ≡ₚ list_of st1) as Hp by (by rewrite stable_sort_perm, Ea).
  assert (chan_wf st3) as Hwf3. { apply set_list_wf; [|exact Hp]. by apply (wf_same st1); try done; left. }
  destruct (match best st3 with Some _ => _ | None => _ end) as [cur|]; [|done]. cbn [mbind option_bind].
  destruct (if _ && _ then _ else _) as [st4|] eqn:E4; [|done]. cbn [mbind option_bind].
  assert (chan_wf st4 ∧ list_of st4 = list_of st3) as [Hwf4 El4].
  { destruct (_ && _); [|by injection E4 as <-]. apply wf_Switch in E4 as (? & ? & _); [done|done|]. intros b.
    change (list_of st3) with (v_addr <$> stable_sort views). destruct (stable_sort views); [done|]. intros [= <-]. apply list_elem_of_here. }
  destruct (prune_networks _ st4) as [st5|] eqn:E5; [|done]. cbn [mbind option_bind]. destruct (prune_networks_wf _ _ _ Hwf4 E5) as [Hwf5 El5].
  destruct (mapM (λ a, conns st5 !! a) _) as [l|]; [|done]. cbn [mbind option_bind]. cbn zeta. destruct (best_writable st5) as [w|]; [|done]. cbn [mbind option_bind]. cbn zeta.
  set (st6 := if (w : bool) then _ else _). assert (chan_wf st6 ∧ list_of st6 = list_of st5) as [Hwf6 El6].
  { unfold st6, HandleAllTimedOut. destruct w; [by apply HandleWritable_wf|]. destruct (forallb _ _); by apply HandleNotWritable_wf. }
  intros E. destruct (UpdateChannelState_wf _ _ Hwf6 E) as [Hwf7 El7]. split; [done|]. rewrite El7, El6, El5, El4, <- El1. exact Hp.
Qed.

(** ** Creation and deletion *)

Definition set_supply (l : list Z) : P2PTransportChannel → P2PTransportChannel := on_obj (λ o, mkObj (conn_heap o) (port_heap o) (ports_ o) l).
Lemma new_address_new st : ∃ a l, new_address st = (a, set_supply l st) ∧ conns st !! a = None.
Proof.
  unfold new_address. destruct (List.partition _ _) as [k l] eqn:Ep. cbn [snd]. destruct l as [|a l].
  - exists (fresh (dom (conns st))), (supply (ch_obj st)). split; [by destruct st as [? ? []]|]. apply not_elem_of_dom, is_fresh.
  - exists a, l. split; [done|]. assert (In a (k ++ a :: l)) as Hin by (apply in_or_app; by right; left).
    destruct (conns st !! a) eqn:E; [|done]. exfalso.
    assert (List.partition (λ a, bool_decide (is_Some (conns st !! a))) (supply (ch_obj st)) = (k, a :: l)) as Ep' by exact Ep.
    assert (Forall (λ a, bool_decide (is_Some (conns st !! a)) = false) (a :: l)) as Hf.
    { clear Hin Ep E. revert k l a Ep'. induction (supply (ch_obj st)) as [|x s IH]; intros k l a; cbn; [done|].
      destruct (List.partition _ s) as [k' l'] eqn:Es. destruct (bool_decide (is_Some (conns st !! x))) eqn:Eb; intros [= <- E].
      - apply (IH k' l a). by rewrite E.
      - subst x l. apply Forall_cons_2; [exact Eb|]. destruct l' as [|y l']; [apply Forall_nil_2|]. by apply (IH k' l' y). }
    apply Forall_cons_1 in Hf as [Hf _]. by rewrite E in Hf.
Qed.
Lemma created_spec port remote origin st x st1 : port_CreateConnection port remote origin st = Some (x, st1) →
  ∃ p, ports st !! port = Some p ∧
  match x with
  | None => st1 = st
  | Some a => ∃ i l, port_index p (f_candidate remote) origin = Some (Some i) ∧ conns st !! a = None ∧
      st1 = put_port port (cp_connections (cp_conns p ++ [(c_address (f_candidate remote), a)]) p)
        (put_conn a (mkCC (Connection_new i (f_candidate remote)) port (f_id remote) (f_generation remote) (f_foundation remote) true) (set_supply l st))
  end.
Proof.
  unfold port_CreateConnection. destruct (ports st !! port) as [p|] eqn:Ep; [|done]. cbn [mbind option_bind].
  destruct (port_index _ _ _) as [[i|]|] eqn:Ei; [..|done]; cbn [mbind option_bind].
  - destruct (new_address_new st) as (a & l & -> & En). intros [= <- <-]. exists p. split; [done|]. by exists i, l.
  - intros [= <- <-]. by exists p.
Qed.
Lemma added_wf port remote origin st a st1 st2 : chan_wf st → port_CreateConnection port remote origin st = Some (Some a, st1) →
  AddConnection a st1 = Some st2 → chan_wf st2 ∧ list_of st2 = list_of st ++ [a].
Proof.
  intros Hwf (p & Ep & i & l & Ei & En & ->)%created_spec. unfold AddConnection. cbn zeta. set (c := mkCC _ _ _ _ _ _). cbn [conns list_of set_list on_sel put_conn put_port set_supply on_obj ch_obj conn_heap ch_sel connections_].
  rewrite lookup_insert_eq. intros [= <-]. split; [|done]. destruct Hwf. split; cbn.
  - apply NoDup_app. split; [done|]. split; [|apply NoDup_singleton]. intros b Hb ->%list_elem_of_singleton. apply wf_live0 in Hb as [? Hb]. congruence.
  - intros b. rewrite insert_insert_eq, elem_of_app, list_elem_of_singleton, wf_live0. destruct (decide (a = b)) as [<-|Hn].
    + rewrite lookup_insert_eq. split; [by eexists|by right].
    + rewrite lookup_insert_ne by done. split; [by intros [|]|by left].
  - intros b Eb. apply elem_of_app. left. by apply wf_best0.
  - done.
Qed.
Lemma wf_received a now st st' : chan_wf st → received_ping a now st = Some st' → chan_wf st'.
Proof. intros Hwf E. by destruct (wf_on_conn _ _ _ _ Hwf E). Qed.
Lemma CreateConnection_wf port remote origin readable now st x st' : chan_wf st → Channel_CreateConnection port remote origin readable now st = Some (x, st') → chan_wf st'.
Proof.
  intros Hwf. unfold Channel_CreateConnection. destruct (ports st !! port) as [p|]; [|done]. cbn [mbind option_bind].
  destruct (match GetConnection (c_address (f_candidate remote)) p with Some _ => _ | None => _ end) as [[conn st1]|] eqn:E; [|done]. cbn [mbind option_bind].
  assert (chan_wf st1) as Hwf1.
  { destruct (GetConnection _ p) as [a|]; [destruct (conns st !! a); [|done]; by injection E as <- <-|]. cbn zeta in E.
    destruct (_ && _); [by injection E as <- <-|]. destruct (port_CreateConnection _ _ _ st) as [[[a|] st2]|] eqn:Ec; [..|done]; cbn [mbind option_bind] in E.
    - destruct (AddConnection a st2) as [st3|] eqn:Ea; [|done]. injection E as <- <-. by destruct (added_wf _ _ _ _ _ _ _ Hwf Ec Ea).
    - injection E as <- <-. by apply created_spec in Ec as (? & _ & ->). }
  destruct conn as [a|]; [|by intros [= <- <-]]. destruct readable; cbn [mbind option_bind]; [|by intros [= <- <-]].
  destruct (received_ping a now st1) as [st2|] eqn:Er; [|done]. intros [= <- <-]. by eapply wf_received.
Qed.
Lemma create_loop_wf l remote origin readable now : ∀ b st x st', chan_wf st → create_loop l remote origin readable now b st = Some (x, st') → chan_wf st'.
Proof.
  induction l as [|q l IH]; intros b st x st' Hwf; cbn [create_loop]; [by intros [= <- <-]|].
  destruct (Channel_CreateConnection _ _ _ _ _ _) as [[ok st1]|] eqn:E; [|done]. cbn [mbind option_bind]. apply IH. by eapply CreateConnection_wf.
Qed.
Lemma CreateConnections_wf remote origin readable now st x st' : chan_wf st → CreateConnections remote origin readable now st = Some (x, st') → chan_wf st'.
Proof.
  intros Hwf. unfold CreateConnections. destruct (GetRemoteCandidateGeneration _ _) as [g|]; [|done]. cbn [mbind option_bind]. cbn zeta.
  destruct (_ && _); [by intros [= <- <-]|]. destruct (create_loop _ _ _ _ _ _ _) as [[c st1]|] eqn:E1; [|done]. cbn [mbind option_bind].
  pose proof (create_loop_wf _ _ _ _ _ _ _ _ _ Hwf E1) as Hwf1. destruct (match origin with Some _ => _ | None => _ end) as [[c2 st2]|] eqn:E2; [|done]. cbn [mbind option_bind].
  assert (chan_wf st2) as Hwf2.
  { destruct origin as [q|]; [|by injection E2 as <- <-]. destruct (bool_decide (q ∈ _)); [by injection E2 as <- <-|].
    destruct (Channel_CreateConnection _ _ _ _ _ _) as [[ok st3]|] eqn:E3; [|done]. cbn [mbind option_bind] in E2. injection E2 as <- <-. by eapply CreateConnection_wf. }
  intros [= <- <-]. unfold RememberRemoteCandidate. cbn zeta. destruct (IsDuplicateRemoteCandidate _ _); by apply (wf_same st2); try done; left.
Qed.

(** ** Every step *)

Lemma wf_frame st st' : chan_wf st → ch_sel st' = ch_sel st → conns st' = conns st → chan_wf st'.
Proof. intros [] Es Ec. by split; unfold list_of, best in *; rewrite ?Es, ?Ec. Qed.
Lemma on_port_frame port f st st' : on_port port f st = Some st' → ch_sel st' = ch_sel st ∧ conns st' = conns st.
Proof. unfold on_port. destruct (ports st !! port); [|done]. by intros [= <-]. Qed.
Lemma on_ports_frame l f : ∀ st st', on_ports l f st = Some st' → ch_sel st' = ch_sel st ∧ conns st' = conns st.
Proof.
  induction l as [|p l IH]; intros st st'; cbn [on_ports]; [by intros [= <-]|]. destruct (on_port p f st) as [st1|] eqn:E; [|done]. cbn [mbind option_bind].
  intros [E1 E2]%IH. apply on_port_frame in E as [E3 E4]. split; congruence.
Qed.
Lemma on_port_wf port f st st' : chan_wf st → on_port port f st = Some st' → chan_wf st'.
Proof. intros Hwf [? ?]%on_port_frame. by apply (wf_frame st). Qed.
Lemma RequestSort_wf st : chan_wf st → chan_wf (RequestSort st) ∧ list_of (RequestSort st) = list_of st.
Proof. intros Hwf. unfold RequestSort. destruct (sort_dirty_ _); [done|]. split; [|done]. by apply (wf_same st); try done; left. Qed.
Lemma OnPing_wf now a random st st' : chan_wf st → OnPing now a random st = Some st' → chan_wf st'.
Proof.
  intros Hwf. unfold OnPing, UpdateConnectionStates. destruct (update_states _ _ _) as [st1|] eqn:E1; [|done]. cbn [mbind option_bind].
  destruct (update_states_wf _ _ _ _ Hwf E1) as [Hwf1 _]. destruct (FindNextPingableConnection now st1) as [[c|]|]; [..|done]; cbn [mbind option_bind].
  - destruct (PingConnection c now a random st1) as [st2|] eqn:E2; [|done]. cbn [mbind option_bind]. intros [= <-]. apply (wf_frame st2); [|done..].
    unfold PingConnection in E2. destruct (view st1 c); [|done]. cbn [mbind option_bind] in E2. destruct (match best st1 with Some _ => _ | None => _ end); [|done].
    cbn [mbind option_bind] in E2. cbn zeta in E2. by destruct (wf_on_conn _ _ _ _ Hwf1 E2).
  - intros [= <-]. by apply (wf_frame st1).
Qed.
Lemma remove_first_elem a x l : NoDup l → a ∈ remove_first x l ↔ a ∈ l ∧ a ≠ x.
Proof.
  induction 1 as [|y l Hy Hl IH]; cbn; [set_solver|]. destruct (Z.eqb_spec y x) as [->|Hn]; [|rewrite !elem_of_cons, IH; naive_solver].
  rewrite elem_of_cons. split; [|naive_solver]. intros Ha. split; [by right|]. by intros ->.
Qed.
Lemma remove_first_nodup x l : NoDup l → NoDup (remove_first x l).
Proof.
  intros Hl. induction Hl as [|y l Hy Hl IH]; cbn; [constructor|]. destruct (Z.eqb_spec y x); [done|]. apply NoDup_cons. split; [|done].
  rewrite remove_first_elem by done. naive_solver.
Qed.
Lemma Connection_OnMessage_wf a now st st' : chan_wf st → Connection_OnMessage a now st = Some st' → chan_wf st'.
Proof.
  intros Hwf. unfold Connection_OnMessage. destruct (conns st !! a) as [c|] eqn:Ec; [|done]. cbn [mbind option_bind].
  destruct (Port_OnConnectionDestroyed _ _ _ _) as [st1|] eqn:E1; [|done]. cbn [mbind option_bind].
  assert (ch_sel st1 = ch_sel st ∧ conns st1 = conns st) as [Es1 Ec1].
  { unfold Port_OnConnectionDestroyed in E1. destruct (ports st !! cc_port c); [|done]. cbn [mbind option_bind] in E1. destruct (GetConnection _ _); [|done].
    cbn [mbind option_bind] in E1. injection E1 as <-. by destruct (bool_decide _). }
  pose proof (wf_frame _ _ Hwf Es1 Ec1) as Hwf1. destruct (Channel_OnConnectionDestroyed a st1) as [st2|] eqn:E2; [|done]. cbn [mbind option_bind]. intros [= <-].
  assert (list_of st2 = remove_first a (list_of st1) ∧ conns st2 = conns st1 ∧ (best st2 = best st1 ∧ best st1 ≠ Some a ∨ best st2 = None) ∧
    ch_writable (ch_sel st2) = ch_writable (ch_sel st1) ∧ was_writable_ (ch_sel st2) = was_writable_ (ch_sel st1)) as (El2 & Ec2 & Hb2 & Ew2 & Ea2).
  { unfold Channel_OnConnectionDestroyed in E2. destruct (negb _); [done|]. cbn zeta in E2. set (st3 := set_list _ st1) in *.
    set (st4 := if bool_decide (pending_best_connection_ (ch_sel st3) = Some a) then set_pending None st3 else st3) in *.
    assert (list_of st4 = remove_first a (list_of st1) ∧ conns st4 = conns st1 ∧ best st4 = best st1 ∧
      ch_writable (ch_sel st4) = ch_writable (ch_sel st1) ∧ was_writable_ (ch_sel st4) = was_writable_ (ch_sel st1)) as (F1 & F2 & F3 & F4 & F5)
      by (unfold st4; by destruct (bool_decide _)).
    case_bool_decide as Hb; cbn in E2; injection E2 as <-.
    - unfold RequestSort. destruct (sort_dirty_ _); cbn; repeat split; try done; by right.
    - rewrite F3 in Hb. split; [exact F1|]. split; [exact F2|]. split; [by left|by split]. }
  destruct Hwf1. split.
  - change (NoDup (list_of st2)). rewrite El2. by apply remove_first_nodup.
  - intros b. change (b ∈ list_of st2 ↔ is_Some (delete a (conns st2) !! b)). rewrite El2, Ec2, remove_first_elem, wf_live0 by done.
    rewrite lookup_delete_is_Some. naive_solver.
  - intros b. change (best st2 = Some b → b ∈ list_of st2). intros Eb. rewrite El2, remove_first_elem by done. destruct Hb2 as [[E Hn]|E]; [|congruence]. split; [apply wf_best0; congruence|congruence].
  - change (ch_writable (ch_sel st2) = true → was_writable_ (ch_sel st2) = true). by rewrite Ew2, Ea2.
Qed.

Lemma Channel_OnMessage_wf m now a random st st' : chan_wf st → P2P_OnMessage m now a random st = Some st' → chan_wf st'.
Proof.
  intros Hwf. destruct m as [| |c|p]; cbn [P2P_OnMessage].
  - intros E. by destruct (SortConnections_wf _ _ _ Hwf E).
  - by apply OnPing_wf.
  - by apply Connection_OnMessage_wf.
  - unfold Port_CheckTimeout. destruct (ports st !! p) as [cp|]; [|done]. cbn [mbind option_bind]. destruct (negb _); [done|].
    destruct (cp_conns cp); intros [= <-]; by apply (wf_frame st).
Qed.
Lemma Reset_wf b st : chan_wf (Reset b st).
Proof.
  unfold Reset. cbn zeta. set (st1 := set_writable _ _). assert (list_of st1 = [] ∧ conns st1 = ∅ ∧ best st1 = None ∧ ch_writable (ch_sel st1) = false) as (El & Ec & Eb & Ew).
  { unfold st1, set_writable, set_readable. by destruct st as [? [? ? ? ? ? [] []]]. }
  set (st2 := if b then _ else _). assert (list_of st2 = list_of st1 ∧ conns st2 = conns st1 ∧ best st2 = best st1 ∧ ch_writable (ch_sel st2) = ch_writable (ch_sel st1)) as (El2 & Ec2 & Eb2 & Ew2)
    by (unfold st2; by destruct b).
  split.
  - change (NoDup (list_of st2)). rewrite El2, El. constructor.
  - intros a. change (a ∈ list_of st2 ↔ is_Some (conns st2 !! a)). rewrite El2, El, Ec2, Ec, lookup_empty. split; [by intros ?%elem_of_nil|by intros []].
  - intros a. change (best st2 = Some a → a ∈ list_of st2). by rewrite Eb2, Eb.
  - change (ch_writable (ch_sel st2) = true → was_writable_ (ch_sel st2) = true). by rewrite Ew2, Ew.
Qed.
Lemma add_reflexive_wf port addr msg muxed now remote st st' : chan_wf st → add_reflexive port addr msg muxed now remote st = Some st' → chan_wf st'.
Proof.
  intros Hwf. unfold add_reflexive. destruct (ports st !! port) as [p|]; [|done]. cbn [mbind option_bind]. destruct (GetUInt32 _ _) as [prio|]; [|by apply on_port_wf].
  cbn zeta. destruct (GetConnection _ p); [destruct muxed; [by intros [= <-]|done]|].
  destruct (port_CreateConnection _ _ _ st) as [[[a|] st1]|] eqn:E1; [..|done]; cbn [mbind option_bind]; [|done].
  destruct (AddConnection a st1) as [st2|] eqn:E2; [|done]. cbn [mbind option_bind]. destruct (added_wf _ _ _ _ _ _ _ Hwf E1 E2) as [Hwf2 _].
  destruct (received_ping a now st2) as [st3|] eqn:E3; [|done]. cbn [mbind option_bind]. pose proof (wf_received _ _ _ _ Hwf2 E3) as Hwf3.
  destruct (on_port port _ st3) as [st4|] eqn:E4; [|done]. cbn [mbind option_bind]. intros E5. by destruct (SortConnections_wf _ _ _ (on_port_wf _ _ _ _ Hwf3 E4) E5).
Qed.
Lemma OnUnknownAddress_wf port addr proto msg user muxed id now st st' : chan_wf st →
  OnUnknownAddress port addr proto msg user muxed id now st = Some st' → chan_wf st'.
Proof.
  intros Hwf. unfold OnUnknownAddress. destruct (ports st !! port) as [p|]; [|done]. cbn [mbind option_bind]. cbn zeta.
  destruct (find_remote _ _ _ _ _ _) as [[pwd|] cand]; [|destruct muxed; [by intros [= <-]|by apply on_port_wf]].
  destruct (IsStandardIce _); [by apply add_reflexive_wf|]. destruct (CreateConnections _ _ _ _ _) as [[created st1]|] eqn:E1; [|done]. cbn [mbind option_bind].
  destruct (negb created); [done|]. destruct (on_port port _ st1) as [st2|] eqn:E2; [|done]. cbn [mbind option_bind]. intros E3.
  pose proof (CreateConnections_wf _ _ _ _ _ _ _ Hwf E1) as Hwf1. by destruct (SortConnections_wf _ _ _ (on_port_wf _ _ _ _ Hwf1 E2) E3).
Qed.
Lemma port_events_wf port id now l : ∀ st st', chan_wf st → port_events port id now l st = Some st' → chan_wf st'.
Proof.
  induction l as [|x l IH]; intros st st' Hwf; cbn [port_events]; [by intros [= <-]|].
  destruct (match x with SendTo _ _ => _ | _ => _ end) as [st1|] eqn:E; [|done]. cbn [mbind option_bind]. apply IH.
  destruct x; try (injection E as <-; done); [by injection E as <-; apply (wf_frame st)|by eapply OnUnknownAddress_wf].
Qed.
Lemma create_for_port_wf port l now : ∀ st st', chan_wf st → create_for_port port l now st = Some st' → chan_wf st'.
Proof.
  induction l as [|[r o] l IH]; intros st st' Hwf; cbn [create_for_port]; [by intros [= <-]|].
  destruct (Channel_CreateConnection _ _ _ _ _ _) as [[ok st1]|] eqn:E; [|done]. cbn [mbind option_bind]. apply IH. by eapply CreateConnection_wf.
Qed.
Lemma chan_step_wf o now st st' : chan_wf st → chan_step o now st = Some st' → chan_wf st'.
Proof.
  intros Hwf. destruct o; cbn [chan_step].
  - unfold Channel_SetIceRole. destruct (has_role _ _); [by intros [= <-]|]. intros [? ?]%on_ports_frame. by apply (wf_frame st).
  - intros [= <-]. unfold SetIceTiebreaker. destruct (ports_ _); by apply (wf_frame st).
  - unfold Channel_SetIceProtocolType. intros [? ?]%on_ports_frame. by apply (wf_frame st).
  - intros [= <-]. unfold SetIceCredentials. cbn zeta. destruct (if _ && _ then _ else _); by apply (wf_frame st).
  - intros [= <-]. by apply (wf_frame st).
  - intros [= <-]. by apply (wf_frame st).
  - intros [= <-]. by apply (wf_frame st).
  - unfold Channel_Connect. destruct (_ || _); [done|]. intros [= <-]. by apply (wf_frame st).
  - intros [= <-]. apply Reset_wf.
  - intros [= <-]. unfold OnSignalingReady. destruct (waiting_for_signaling_ st); by apply (wf_frame st).
  - unfold OnPortReady. cbn zeta. destruct (on_port _ _ _) as [st1|] eqn:E1; [|done]. cbn [mbind option_bind]. destruct (create_for_port _ _ _ _) as [st2|] eqn:E2; [|done].
    cbn [mbind option_bind]. intros E3. apply on_port_frame in E1 as [Es Ec]. apply create_for_port_wf in E2; [by destruct (SortConnections_wf _ _ _ E2 E3)|].
    by apply (wf_frame st).
  - unfold OnCandidate. destruct (CreateConnections _ _ _ _ _) as [[c st1]|] eqn:E1; [|done]. cbn [mbind option_bind]. intros E2.
    by destruct (SortConnections_wf _ _ _ (CreateConnections_wf _ _ _ _ _ _ _ Hwf E1) E2).
  - unfold port_packet. destruct (ports st !! port) as [p|]; [|done]. cbn [mbind option_bind]. destruct (GetConnection addr p) as [a|].
    + intros E. by destruct (wf_on_conn _ _ _ _ Hwf E).
    + destruct (Port_OnReadPacket _ _ _) as [p'|]; [|done]. cbn [mbind option_bind]. apply port_events_wf. by apply (wf_frame st).
  - intros E. by destruct (wf_on_conn _ _ _ _ Hwf E).
  - intros E. by destruct (wf_on_conn _ _ _ _ Hwf E).
  - destruct (conns st !! connection) as [c|] eqn:Ec; [|done]. intros [= <-]. apply (wf_same st); try done; try (by left).
    intros b. cbn. destruct (decide (connection = b)) as [<-|Hn]; [rewrite lookup_insert_eq; fold (conns st); rewrite Ec; by split; eexists|by rewrite lookup_insert_ne].
  - intros [= <-]. unfold Channel_SetOption. destruct (find _ _) as [[? v]|]; [destruct (v =? value)|]; by apply (wf_frame st).
  - unfold SendPacket. destruct (negb _); [intros [= <-]; by apply (wf_frame st)|]. destruct (best st) as [b|]; [|intros [= <-]; by apply (wf_frame st)].
    destruct (conns st !! b) as [c|]; [|done]. cbn [mbind option_bind]. destruct (ports st !! cc_port c) as [p|]; [|done]. cbn [mbind option_bind].
    destruct (Connection_Send _ _ _) as [[] p']; [destruct (_ <=? 0); [done|]|]; intros [= <-]; by apply (wf_frame st).
  - unfold take_posted. destruct (ch_posted st) as [|m l]; [by intros [= <-]|]. apply Channel_OnMessage_wf. by apply (wf_frame st).
  - unfold take_timer. destruct (ch_timers st) as [|x l]; [by intros [= <-]|]. destruct (TimeIsLater _ _); [by intros [= <-]|]. apply Channel_OnMessage_wf. by apply (wf_frame st).
Qed.
Lemma new_wf component s : chan_wf (P2PTransportChannel_new component s).
Proof. split; cbn; [constructor| |done|done]. intros a. rewrite lookup_empty. split; [by intros ?%elem_of_nil|by intros []]. Qed.
Lemma run_wf ops : ∀ st st', chan_wf st → chan_run ops st = Some st' → chan_wf st'.
Proof.
  induction ops as [|[o now] ops IH]; intros st st' Hwf; cbn [chan_run]; [by intros [= <-]|].
  destruct (chan_step o now st) as [st1|] eqn:E; [|done]. cbn [mbind option_bind]. apply IH. by eapply chan_step_wf.
Qed.
End inv.
