(* ===== verification/IceChannelSort.v ===== *)
(** * What the sorting of a channel does

    The comparison of connections is an order, the channel uses the first connection of
    the sorted list, and what is pruned is what a rule for one connection says. *)

From stdpp Require Import sorting strings.
From S2P Require Import Prelude ByteOrder ByteBuffer Crc32 IpAddress Stun StunWire StunIntegrity StunBuild TimeUtils MessageQueue StunRequest IcePort IceConnection IceChannel IceChannelInv.

(** ** The order of connections *)

(** Better states first, then higher priorities, younger generations, shorter round trips. *)
Definition before (a b : conn_view) : Prop :=
  write_rank (v_write a) < write_rank (v_write b) ∨
  write_rank (v_write a) = write_rank (v_write b) ∧
  (v_priority b < v_priority a ∨ v_priority a = v_priority b ∧
    (v_generation b < v_generation a ∨ v_generation a = v_generation b ∧ v_rtt a < v_rtt b)).
Definition close (a b : conn_view) : Prop := Z.abs (v_generation a - v_generation b) < HALF.
Lemma generation_difference a b : close a b → i32 (u32 (v_generation a - v_generation b)) = v_generation a - v_generation b.
Proof. unfold close, i32, u32, HALF. intros Hc. set (d := v_generation a - v_generation b) in *. Z.div_mod_to_equations. lia. Qed.
Lemma candidates_sign a b : close a b →
  (0 < CompareConnectionCandidates a b ↔ v_priority b < v_priority a ∨ v_priority a = v_priority b ∧ v_generation b < v_generation a) ∧
  (CompareConnectionCandidates a b < 0 ↔ v_priority a < v_priority b ∨ v_priority a = v_priority b ∧ v_generation a < v_generation b).
Proof.
  intros Hc. unfold CompareConnectionCandidates. destruct (Z.ltb_spec (v_priority b) (v_priority a)); [lia|].
  destruct (Z.ltb_spec (v_priority a) (v_priority b)); [lia|]. rewrite generation_difference by done. lia.
Qed.
Lemma connections_sign a b : close a b →
  (0 < CompareConnections a b ↔ write_rank (v_write a) < write_rank (v_write b) ∨
     write_rank (v_write a) = write_rank (v_write b) ∧ 0 < CompareConnectionCandidates a b) ∧
  (CompareConnections a b < 0 ↔ write_rank (v_write b) < write_rank (v_write a) ∨
     write_rank (v_write a) = write_rank (v_write b) ∧ CompareConnectionCandidates a b < 0).
Proof.
  intros Hc. unfold CompareConnections. destruct (Z.ltb_spec (write_rank (v_write a)) (write_rank (v_write b))); [lia|].
  destruct (Z.ltb_spec (write_rank (v_write b)) (write_rank (v_write a))); lia.
Qed.
Lemma compare_before a b : close a b → ConnectionCompare a b = true ↔ before a b.
Proof.
  intros Hc. destruct (candidates_sign a b Hc) as [Hp Hn], (connections_sign a b Hc) as [Hp' Hn']. unfold ConnectionCompare, before. cbn zeta.
  destruct (Z.ltb_spec 0 (CompareConnections a b)); [split; [|done]; intros _; lia|].
  destruct (Z.ltb_spec (CompareConnections a b) 0); [split; [done|]; lia|]. rewrite Z.ltb_lt. lia.
Qed.
Lemma before_trans a b c : before a b → before b c → before a c.
Proof. unfold before. lia. Qed.
Lemma before_total a b : before a b ∨ before b a ∨
  (write_rank (v_write a), v_priority a, v_generation a, v_rtt a) = (write_rank (v_write b), v_priority b, v_generation b, v_rtt b).
Proof.
  unfold before. destruct (Z.eq_dec (write_rank (v_write a)) (write_rank (v_write b))) as [E1|]; [|lia].
  destruct (Z.eq_dec (v_priority a) (v_priority b)) as [E2|]; [|lia]. destruct (Z.eq_dec (v_generation a) (v_generation b)) as [E3|]; [|lia].
  destruct (Z.eq_dec (v_rtt a) (v_rtt b)) as [E4|]; [|lia]. right. right. congruence.
Qed.

(** ** The sorted list *)

Definition not_after (a b : conn_view) : Prop := ¬ before b a.
Definition all_close (l : list conn_view) : Prop := ∀ a b, a ∈ l → b ∈ l → close a b.
Lemma sortable_close l : sortable l = true → all_close l.
Proof.
  unfold sortable. rewrite forallb_forall. intros Hs a b Ha%list_elem_of_In Hb%list_elem_of_In. specialize (Hs a Ha). rewrite forallb_forall in Hs.
  specialize (Hs b Hb). unfold comparable in Hs. apply andb_true_iff in Hs as [_ Hs]. by apply Z.ltb_lt in Hs.
Qed.
Lemma insert_sorted v l : all_close (v :: l) → StronglySorted not_after l → StronglySorted not_after (insert_view v l).
Proof.
  induction l as [|x l IH]; intros Hc Hs; [by repeat constructor|]. cbn [insert_view]. apply StronglySorted_inv in Hs as [Hs Hx].
  assert (close v x) as Hvx by (apply Hc; set_solver). destruct (ConnectionCompare v x) eqn:E.
  - apply compare_before in E; [|done]. apply SSorted_cons; [by apply SSorted_cons|]. apply Forall_cons_2.
    + unfold not_after, before in *. lia.
    + eapply Forall_impl; [exact Hx|]. intros y Hy Hyv. apply Hy. by eapply before_trans.
  - apply SSorted_cons; [apply IH; [|done]; intros a b Ha Hb; apply Hc; set_solver|]. rewrite insert_view_perm. apply Forall_cons_2; [|done].
    intros Hv. apply compare_before in Hv; [congruence|done].
Qed.
Lemma stable_sort_sorted l : all_close l → StronglySorted not_after (stable_sort l).
Proof.
  unfold stable_sort. enough (∀ k, all_close (k ++ l) → StronglySorted not_after k → StronglySorted not_after (fold_left (λ l v, insert_view v l) l k)) as Hf.
  { intros Hc. apply Hf; [done|constructor]. }
  induction l as [|v l IH]; intros k Hc Hk; cbn [fold_left]; [done|]. apply IH.
  - intros a b Ha Hb. rewrite insert_view_perm in Ha, Hb. apply Hc; set_solver.
  - apply insert_sorted; [|done]. intros a b Ha Hb. apply Hc; set_solver.
Qed.
(** The first of the list is switched to, whatever connection is used before. *)
Lemma top_chosen l top rest : all_close l → stable_sort l = top :: rest → ∀ b, b ∈ l → v_addr b ≠ v_addr top →
  ShouldSwitch (Some b) (Some top) = true.
Proof.
  intros Hc E b Hb Hne. pose proof (stable_sort_sorted l Hc) as Hs. rewrite E in Hs. apply StronglySorted_inv in Hs as [_ Hs].
  assert (top ∈ l) as Ht by (rewrite <- stable_sort_perm, E; apply list_elem_of_here).
  assert (b ∈ rest) as Hr by (rewrite <- stable_sort_perm, E in Hb; apply elem_of_cons in Hb as [->|]; done).
  rewrite Forall_forall in Hs. specialize (Hs b Hr). specialize (Hc b top Hb Ht). unfold ShouldSwitch. cbn [fmap option_fmap option_map].
  rewrite bool_decide_eq_false_2 by congruence. cbn zeta. destruct (candidates_sign _ _ Hc), (connections_sign _ _ Hc). unfold not_after, before in Hs.
  destruct (Z.ltb_spec (CompareConnections b top) 0); [done|]. destruct (Z.ltb_spec 0 (CompareConnections b top)); [lia|]. apply Z.leb_le. unfold kMinImprovement. lia.
Qed.

(** ** Pruning *)

(** The connection that the others on its network are compared with. *)
Definition primier (best : option Z) (views : list conn_view) (network : Z) : option conn_view :=
  match find (λ v, bool_decide (Some (v_addr v) = best) && (v_network v =? network)) views with
  | Some v => Some v
  | None => find (λ v, v_network v =? network) views
  end.
Definition must_prune (best : option Z) (views : list conn_view) (v : conn_view) : bool :=
  match primier best views (v_network v) with
  | Some q => bool_decide (v_write q = STATE_WRITABLE) && negb (v_addr v =? v_addr q) && (0 <=? CompareConnectionCandidates q v)
  | None => false
  end.
Definition pruned_conn (c : chan_conn) : option chan_conn := (λ x, cc_with x c) <$> Prune (cc_conn c).

Section prune.
Context `{Platform}.

(** The connections in [P] were pruned since [base]. *)
Record pruned_to (P : Z → bool) (base st : P2PTransportChannel) : Prop := {
  pt_conns : ∀ a, conns st !! a = c ← conns base !! a; if P a then pruned_conn c else Some c;
  pt_ports : ports st = ports base;
  pt_list : list_of st = list_of base;
  pt_best : best st = best base;
  pt_cfg : ch_cfg st = ch_cfg base;
  pt_sel : was_writable_ (ch_sel st) = was_writable_ (ch_sel base) ∧ ch_writable (ch_sel st) = ch_writable (ch_sel base)
}.
Lemma Prune_shape c c' : Prune c = Some c' → pruned_ c' = true ∧ local_candidate_index_ c' = local_candidate_index_ c ∧
  remote_candidate_ c' = remote_candidate_ c ∧ rtt_ c' = rtt_ c ∧ read_state_ c' = read_state_ c ∧
  ∃ l, conn_log c' = conn_log c ++ l ∧ Forall (λ e, e = SignalStateChange STATE_WRITE_TIMEOUT ∨ e = PostDelete) l.
Proof.
  unfold Prune. destruct (pruned_ c) eqn:Ep; [intros [= <-]; split_and!; try done; exists []; by rewrite app_nil_r|].
  destruct (StunRequestManager_Clear _) as [m|]; [|done]. cbn [mbind option_bind]. intros [= <-]. unfold set_write_state. cbn zeta.
  destruct (bool_decide _); [split_and!; try done; exists []; by rewrite app_nil_r|]. unfold Connection_CheckTimeout.
  destruct (_ && _); cbn; split_and!; try done.
  - exists [SignalStateChange STATE_WRITE_TIMEOUT; PostDelete]. rewrite <- app_assoc. split; [done|]. repeat apply Forall_cons_2; auto.
  - exists [SignalStateChange STATE_WRITE_TIMEOUT]. split; [done|]. repeat apply Forall_cons_2; auto.
Qed.
Lemma quiet_events a l : Forall (λ e, e = SignalStateChange STATE_WRITE_TIMEOUT ∨ e = PostDelete) l → ∀ st st', handle_events a l st = Some st' →
  best st' = best st.
Proof.
  induction 1 as [|x l Hx _ IH]; intros st st'; cbn [handle_events]; [by intros [= <-]|].
  destruct (handle_event a x st) as [st1|] eqn:E; [|done]. cbn [mbind option_bind]. intros ->%IH. destruct Hx as [-> | ->]; cbn [handle_event] in E; [|by injection E as <-].
  unfold OnConnectionStateChange in E. rewrite (bool_decide_eq_false_2 (STATE_WRITE_TIMEOUT = STATE_WRITABLE)), andb_false_r in E by done. cbn in E. injection E as <-.
  unfold RequestSort. by destruct (sort_dirty_ _).
Qed.
Lemma prune_step a st st' : on_conn a (λ c p, c ← Prune c; Some (c, p)) st = Some st' → pruned_to (λ b, b =? a) st st'.
Proof.
  intros E. pose proof (on_conn_done _ _ _ _ E) as (c & p & x & y & Ec & Ep & Ef & [Ecs Eps [_ _] Hcalm]).
  destruct (Prune (cc_conn c)) as [c'|] eqn:Epr; [|done]. cbn [mbind option_bind] in Ef. injection Ef as <- <-.
  assert (cp_with (cp_port p) p = p) as Epp by (by destruct p). rewrite Epp in Eps. rewrite insert_id in Eps by done.
  destruct Hcalm as [Ecfg _ El Ewas _ Ewr _ _ _ _ _ _ _]. split; try done.
  - intros b. rewrite Ecs. destruct (Z.eqb_spec b a) as [->|Hn].
    + rewrite lookup_insert_eq, Ec. cbn [mbind option_bind]. unfold pruned_conn. by rewrite Epr.
    + rewrite lookup_insert_ne by done. by destruct (conns st !! b).
  - unfold on_conn in E. rewrite Ec in E. cbn [mbind option_bind] in E. rewrite Ep in E. cbn [mbind option_bind] in E. rewrite Epr in E. cbn [mbind option_bind] in E.
    destruct (Prune_shape _ _ Epr) as (_ & _ & _ & _ & _ & l & El' & Hl). rewrite El', drop_app_length in E. apply (quiet_events _ _ Hl) in E. exact E.
Qed.
Lemma pruned_refl st : pruned_to (λ _, false) st st.
Proof. split; try done. intros a. by destruct (conns st !! a). Qed.
Lemma pruned_ext P Q base st : (∀ a, is_Some (conns base !! a) → P a = Q a) → pruned_to P base st → pruned_to Q base st.
Proof. intros Hpq [Hc ? ? ? ? ?]. split; try done. intros a. rewrite Hc. destruct (conns base !! a) eqn:E; [|done]. cbn. by rewrite Hpq. Qed.
Lemma pruned_more P base st a st' : P a = false → pruned_to P base st → pruned_to (λ b, b =? a) st st' → pruned_to (λ b, P b || (b =? a)) base st'.
Proof.
  intros Ha [Hc1 ? ? ? ? [? ?]] [Hc2 ? ? ? ? [? ?]]. split; [|congruence..|split; congruence]. intros b. rewrite Hc2, Hc1. destruct (conns base !! b) as [c|]; [|done]. cbn [mbind option_bind].
  destruct (Z.eqb_spec b a) as [->|Hn]; [rewrite Ha; cbn; done|]. rewrite orb_false_r. destruct (P b); [by destruct (pruned_conn c)|done].
Qed.
Definition with_write_view (w : WriteState) (v : conn_view) : conn_view :=
  mkView (v_addr v) w (v_priority v) (v_generation v) (v_rtt v) (v_network v) (v_protocol v).
Lemma pruned_view P base st a v v' : pruned_to P base st → view base a = Some v → view st a = Some v' →
  v' = with_write_view (v_write v') v ∧ (P a = false → v' = v).
Proof.
  intros [Hc Hp _ _ _ _]. unfold view. rewrite Hc, Hp. destruct (conns base !! a) as [c|]; [|done]. cbn [mbind option_bind].
  destruct (P a); cbn [mbind option_bind].
  - unfold pruned_conn. destruct (Prune (cc_conn c)) as [x|] eqn:Ex; [|intros _ [=]]. cbn [fmap option_fmap option_map mbind option_bind cc_with cc_port].
    destruct (Prune_shape _ _ Ex) as (_ & Ei & Er & Et & _). destruct (ports base !! cc_port c) as [p|]; [|done]. cbn [mbind option_bind cc_conn cc_with cc_generation].
    unfold priority, local_candidate. rewrite Ei. destruct (candidates_ (cp_port p) !! _); [|done]. cbn [mbind option_bind]. intros [= <-] [= <-].
    unfold with_write_view. cbn. rewrite Er, Et. by split.
  - intros E1 E2. rewrite E1 in E2. injection E2 as <-. split; [by destruct v|done].
Qed.

Definition hit (base : P2PTransportChannel) (q : conn_view) (n b : Z) : bool :=
  match view base b with
  | Some v => negb (b =? v_addr q) && (v_network v =? n) && (0 <=? CompareConnectionCandidates q v)
  | None => false
  end.
Lemma prune_loop_spec base q n l : view base (v_addr q) = Some q → ∀ P st st', NoDup l → Forall (λ a, is_Some (view base a) ∧ (P a = true → hit base q n a = false)) l → P (v_addr q) = false →
  pruned_to P base st → prune_loop (v_addr q) n l st = Some st' → pruned_to (λ b, P b || (bool_decide (b ∈ l) && hit base q n b)) base st'.
Proof.
  intros Eq. induction l as [|a l IH]; intros P st st' Hnd Hl Hq Hp; cbn [prune_loop].
  { intros [= <-]. eapply pruned_ext; [|exact Hp]. intros b _. rewrite bool_decide_eq_false_2 by apply not_elem_of_nil. by rewrite orb_false_r. }
  apply NoDup_cons in Hnd as [Ha Hnd]. apply Forall_cons_1 in Hl as [[[v Ev] Pa] Hl].
  destruct (view st (v_addr q)) as [q'|] eqn:Eq'; [|done]. destruct (view st a) as [v'|] eqn:Ev'; [|done]. cbn [mbind option_bind].
  rewrite (proj2 (pruned_view _ _ _ _ _ _ Hp Eq Eq') Hq). clear Eq' q'. destruct (pruned_view _ _ _ _ _ _ Hp Ev Ev') as [Ew _].
  assert (negb (a =? v_addr q) && (v_network v' =? n) && (0 <=? CompareConnectionCandidates q v') = hit base q n a) as -> by (unfold hit; by rewrite Ev, Ew).
  destruct (hit base q n a) eqn:Eh; cbn [mbind option_bind].
  - assert (P a = false) as Pa' by (destruct (P a); [by specialize (Pa eq_refl)|done]). destruct (on_conn a _ st) as [st1|] eqn:E1; [|done]. cbn [mbind option_bind]. apply prune_step in E1.
    assert (a ≠ v_addr q) as Hne. { intros ->. unfold hit in Eh. by rewrite Ev, Z.eqb_refl in Eh. }
    intros E. eapply pruned_ext; [|eapply (IH _ st1 st' Hnd); [..|exact (pruned_more _ _ _ _ _ Pa' Hp E1)|exact E]].
    + intros b _. cbn beta. rewrite (bool_decide_ext (b ∈ a :: l) (b = a ∨ b ∈ l)) by apply elem_of_cons. destruct (Z.eqb_spec b a) as [->|Hn].
      * rewrite (bool_decide_eq_true_2 (a = a ∨ _)) by auto. rewrite Eh, Pa'. done.
      * rewrite orb_false_r. f_equal. f_equal. apply bool_decide_ext. naive_solver.
    + apply Forall_forall. intros b Hb. rewrite Forall_forall in Hl. destruct (Hl b Hb) as [? Pb]. split; [done|]. rewrite (proj2 (Z.eqb_neq b a)), orb_false_r by (by intros ->). done.
    + cbn beta. rewrite Hq. cbn. by apply Z.eqb_neq, not_eq_sym.
  - intros E. eapply pruned_ext; [|by apply (IH P st st' Hnd)]. intros b _. cbn beta. rewrite (bool_decide_ext (b ∈ a :: l) (b = a ∨ b ∈ l)) by apply elem_of_cons.
    destruct (decide (b = a)) as [->|Hn]; [by rewrite Eh, !andb_false_r|]. f_equal. f_equal. apply bool_decide_ext. naive_solver.
Qed.

(** All views of a channel, and what pruning leaves of them. *)
Definition viewed (base : P2PTransportChannel) (views : list conn_view) : Prop := Forall2 (λ a v, view base a = Some v) (list_of base) views.
Lemma viewed_of base views : mapM (view base) (list_of base) = Some views ↔ viewed base views.
Proof. apply mapM_Some. Qed.
Lemma viewed_elem base views a : viewed base views → a ∈ list_of base → ∃ v, view base a = Some v ∧ v ∈ views.
Proof.
  intros Hv Ha. apply list_elem_of_lookup in Ha as [i Hi]. destruct (Forall2_lookup_l _ _ _ _ _ Hv Hi) as (v & Ei & Ev).
  exists v. split; [done|]. apply list_elem_of_lookup. by exists i.
Qed.
Lemma viewed_view base views v : viewed base views → v ∈ views → view base (v_addr v) = Some v.
Proof.
  intros Hv Hin. apply list_elem_of_lookup in Hin as [i Hi]. destruct (Forall2_lookup_r _ _ _ _ _ Hv Hi) as (a & Ei & Ev). by rewrite (view_addr _ _ _ Ev).
Qed.
Lemma find_first {A} (f : A → bool) l x : find f l = Some x → x ∈ l ∧ f x = true.
Proof. intros E. apply find_some in E as [Hin Hf]. split; [by apply list_elem_of_In|done]. Qed.
Lemma find_viewed P base st views views' n : viewed base views → viewed st views' → pruned_to P base st →
  (∀ a v, view base a = Some v → v_network v = n → P a = false) →
  find (λ v, v_network v =? n) views' = find (λ v, v_network v =? n) views.
Proof.
  unfold viewed. intros Hv Hv' Hp Hn. rewrite (pt_list _ _ _ Hp) in Hv'. revert views' Hv'. induction Hv as [|a v l k Ea Hv IH]; intros views' Hv'.
  - by apply Forall2_nil_inv_l in Hv' as ->.
  - apply Forall2_cons_inv_l in Hv' as (v' & k' & Ea' & Hv' & ->). cbn [find]. destruct (pruned_view _ _ _ _ _ _ Hp Ea Ea') as [Ew Es].
    assert (v_network v' = v_network v) as En by (by rewrite Ew). rewrite En. destruct (Z.eqb_spec (v_network v) n) as [E|]; [|by apply IH].
    by rewrite (Es (Hn a v Ea E)).
Qed.
(** The networks in [D] are done. *)
Definition pruned_in (base : P2PTransportChannel) (views : list conn_view) (D : list Z) (b : Z) : bool :=
  match view base b with
  | Some v => bool_decide (v_network v ∈ D) && must_prune (best base) views v
  | None => false
  end.
Lemma primier_found base views D st n x : chan_wf base → viewed base views → n ∉ D → pruned_to (pruned_in base views D) base st →
  GetBestConnectionOnNetwork n st = Some x → x = primier (best base) views n.
Proof.
  intros Hwf Hv Hn Hp. set (P := pruned_in base views D) in *.
  assert (∀ a v, view base a = Some v → v_network v = n → P a = false) as HP.
  { intros a v Ea <-. unfold P, pruned_in. by rewrite Ea, bool_decide_eq_false_2. }
  unfold GetBestConnectionOnNetwork, primier. rewrite (pt_best _ _ _ Hp).
  assert (∀ y, (l ← mapM (view st) (list_of st); Some (find (λ v, v_network v =? n) l)) = Some y → y = find (λ v, v_network v =? n) views) as Hrest.
  { intros y. destruct (mapM _ _) as [l|] eqn:El; [|done]. intros [= <-]. apply viewed_of in El. by apply (find_viewed P base st). }
  destruct (best base) as [b|] eqn:Eb; cbn [mbind option_bind].
  - destruct (viewed_elem base views b Hv (wf_best _ Hwf b Eb)) as (v & Ev & Hin). destruct (view st b) as [v'|] eqn:Ev'; [|done]. cbn [mbind option_bind].
    destruct (pruned_view _ _ _ _ _ _ Hp Ev Ev') as [Ew Es]. assert (v_network v' = v_network v) as En by (by rewrite Ew). rewrite En.
    pose proof (view_addr _ _ _ Ev) as Eaddr. destruct (find (λ v, bool_decide (Some (v_addr v) = Some b) && (v_network v =? n)) views) as [u|] eqn:Ef.
    + apply find_first in Ef as [Hu Ef]. apply andb_true_iff in Ef as [Eu Enu%Z.eqb_eq]. apply bool_decide_eq_true in Eu. injection Eu as Eu.
      pose proof (viewed_view _ _ _ Hv Hu) as Eu'. rewrite Eu, Ev in Eu'. injection Eu' as <-. rewrite Enu, Z.eqb_refl. intros [= <-]. f_equal. by apply Es, (HP _ v).
    + destruct (Z.eqb_spec (v_network v) n) as [E|Hne]; [|by apply Hrest]. exfalso.
      pose proof (find_none _ _ Ef v (proj1 (list_elem_of_In _ _) Hin)) as Hf. cbn beta in Hf. rewrite Eaddr, E, Z.eqb_refl in Hf. by rewrite bool_decide_eq_true_2 in Hf.
  - case_match eqn:Ef; [|by apply Hrest]. apply find_first in Ef as [_ Ef]. apply andb_true_iff in Ef as [Ef _]. by apply bool_decide_eq_true in Ef.
Qed.

Lemma must_prune_hit base views p v : v ∈ views → viewed base views → primier (best base) views (v_network v) = Some p → v_write p = STATE_WRITABLE →
  must_prune (best base) views v = hit base p (v_network v) (v_addr v).
Proof.
  intros Hin Hv Ep Hw. unfold must_prune, hit. rewrite Ep, (viewed_view _ _ _ Hv Hin), Hw, Z.eqb_refl. by rewrite bool_decide_eq_true_2, andb_true_r.
Qed.
Lemma primier_view base views n p : viewed base views → primier (best base) views n = Some p → p ∈ views ∧ v_network p = n ∧ view base (v_addr p) = Some p.
Proof.
  intros Hv Ep. cut (p ∈ views ∧ v_network p = n). { intros [Hin En]. split; [done|]. split; [done|]. by apply (viewed_view _ views). }
  unfold primier in Ep. case_match eqn:Ef.
  - injection Ep as ->. apply find_first in Ef as [? Ef]. by apply andb_true_iff in Ef as [_ ?%Z.eqb_eq].
  - apply find_first in Ep as [? ?%Z.eqb_eq]. done.
Qed.
Lemma live_view base views b : chan_wf base → viewed base views → is_Some (conns base !! b) → ∃ v, view base b = Some v ∧ v ∈ views ∧ v_addr v = b ∧ b ∈ list_of base.
Proof.
  intros Hwf Hv Hb. apply (wf_live _ Hwf) in Hb. destruct (viewed_elem _ _ _ Hv Hb) as (v & Ev & Hin). exists v. split; [done|]. split; [done|].
  split; [by eapply view_addr|done].
Qed.
Lemma prune_networks_spec base views l : chan_wf base → viewed base views → ∀ D st st', NoDup l → (∀ n, n ∈ l → n ∉ D) →
  pruned_to (pruned_in base views D) base st → prune_networks l st = Some st' → pruned_to (pruned_in base views (D ++ l)) base st'.
Proof.
  intros Hwf Hv. induction l as [|n l IH]; intros D st st' Hnd HD Hp; cbn [prune_networks]; [intros [= <-]; by rewrite app_nil_r|].
  apply NoDup_cons in Hnd as [Hn Hnd]. assert (n ∉ D) as HnD by (apply HD; apply list_elem_of_here).
  destruct (GetBestConnectionOnNetwork n st) as [x|] eqn:Ex; [|done]. cbn [mbind option_bind]. apply (primier_found base views D) in Ex as ->; [|done..].
  destruct (match primier _ _ _ with Some _ => _ | None => _ end) as [st1|] eqn:E1; [|done]. cbn [mbind option_bind].
  replace (D ++ n :: l) with ((D ++ [n]) ++ l) by (by rewrite <- app_assoc). apply IH; [done| |].
  { intros m Hm. rewrite elem_of_app, list_elem_of_singleton. intros [Hm'| ->]; [|done]. eapply HD; [|exact Hm']. by apply list_elem_of_further. }
  assert (∀ b v, view base b = Some v → v ∈ views → v_network v ≠ n → pruned_in base views (D ++ [n]) b = pruned_in base views D b) as Hother.
  { intros b v Ev _ Hne. unfold pruned_in. rewrite Ev. f_equal. apply bool_decide_ext. rewrite elem_of_app, list_elem_of_singleton. naive_solver. }
  assert (∀ b v, view base b = Some v → v_network v = n → pruned_in base views (D ++ [n]) b = must_prune (best base) views v ∧ pruned_in base views D b = false) as Hthis.
  { intros b v Ev <-. unfold pruned_in. rewrite Ev. rewrite (bool_decide_eq_true_2 (_ ∈ D ++ _)), bool_decide_eq_false_2 by (done || set_solver). done. }
  destruct (primier (best base) views n) as [p|] eqn:Ep.
  2: { injection E1 as <-. eapply pruned_ext; [|exact Hp]. intros b Hb. destruct (live_view _ _ _ Hwf Hv Hb) as (v & Ev & Hin & _).
    destruct (decide (v_network v = n)) as [E|]; [|by rewrite (Hother b v)]. destruct (Hthis b v Ev E) as [-> ->]. unfold must_prune. by rewrite E, Ep. }
  destruct (primier_view _ _ _ _ Hv Ep) as (Hpin & Enp & Evp). destruct (bool_decide (v_write p = STATE_WRITABLE)) eqn:Ew.
  2: { injection E1 as <-. eapply pruned_ext; [|exact Hp]. intros b Hb. destruct (live_view _ _ _ Hwf Hv Hb) as (v & Ev & Hin & _).
    destruct (decide (v_network v = n)) as [E|]; [|by rewrite (Hother b v)]. destruct (Hthis b v Ev E) as [-> ->]. unfold must_prune. by rewrite E, Ep, Ew. }
  apply bool_decide_eq_true in Ew. rewrite (pt_list _ _ _ Hp) in E1.
  eapply pruned_ext; [|eapply (prune_loop_spec base p n _ Evp _ _ _ (wf_nodup _ Hwf)); [|by apply (Hthis _ p)|exact Hp|exact E1]].
  - intros b Hb. cbn beta. destruct (live_view _ _ _ Hwf Hv Hb) as (v & Ev & Hin & Ea & Hbl). rewrite bool_decide_eq_true_2 by done. cbn [andb].
    destruct (decide (v_network v = n)) as [E|Hne].
    + destruct (Hthis b v Ev E) as [-> ->]. cbn [orb]. rewrite (must_prune_hit base views p v) by (done || by rewrite E). by rewrite E, Ea.
    + rewrite (Hother b v) by done. assert (hit base p n b = false) as ->; [|by rewrite orb_false_r]. unfold hit. rewrite Ev.
      by rewrite (proj2 (Z.eqb_neq _ _) Hne), andb_false_r.
  - apply Forall_forall. intros b Hb. destruct (viewed_elem _ _ _ Hv Hb) as (v & Ev & Hin). split; [by eexists|]. intros HP. unfold hit. rewrite Ev.
    destruct (Z.eqb_spec (v_network v) n) as [E|]; [|by rewrite andb_false_r]. destruct (Hthis b v Ev E) as [_ E2]. congruence.
Qed.
End prune.

(** ** Networks *)

Lemma insert_network_spec n l : StronglySorted Z.lt l → StronglySorted Z.lt (insert_network n l) ∧ ∀ x, x ∈ insert_network n l ↔ x = n ∨ x ∈ l.
Proof.
  induction l as [|y l IH]; intros Hs; cbn [insert_network].
  - split; [by repeat constructor|]. intros x. rewrite list_elem_of_singleton, elem_of_nil. naive_solver.
  - apply StronglySorted_inv in Hs as [Hs Hy]. destruct (Z.ltb_spec n y).
    + split; [|intros x; rewrite !elem_of_cons; naive_solver]. apply SSorted_cons; [by apply SSorted_cons|]. apply Forall_cons_2; [done|].
      eapply Forall_impl; [exact Hy|]. cbn. lia.
    + destruct (Z.eqb_spec n y) as [->|Hne]; [split; [by apply SSorted_cons|intros x; rewrite !elem_of_cons; naive_solver]|].
      destruct (IH Hs) as [Hs' Hin]. split; [|intros x; rewrite !elem_of_cons, Hin; naive_solver]. apply SSorted_cons; [done|]. apply Forall_forall.
      intros x Hx. apply Hin in Hx as [->|Hx]; [lia|]. rewrite Forall_forall in Hy. by apply Hy.
Qed.
Lemma networks_of_spec views : NoDup (networks_of views) ∧ ∀ v, v ∈ views → v_network v ∈ networks_of views.
Proof.
  unfold networks_of. enough (∀ k, StronglySorted Z.lt k → StronglySorted Z.lt (fold_left (λ s v, insert_network (v_network v) s) views k) ∧
    ∀ x, x ∈ k ∨ x ∈ (v_network <$> views) → x ∈ fold_left (λ s v, insert_network (v_network v) s) views k) as Hf.
  { destruct (Hf []) as [Hs Hin]; [constructor|]. split; [|intros v Hv; apply Hin; right; by apply list_elem_of_fmap_2]. clear Hin. induction Hs as [|x l Hs IH Hx]; [constructor|].
    apply NoDup_cons. split; [|done]. intros Hx'. rewrite Forall_forall in Hx. specialize (Hx x Hx'). lia. }
  induction views as [|v l IH]; intros k Hk; cbn [fold_left fmap list_fmap]; [split; [done|]; intros x [|Hx]; [done|by apply elem_of_nil in Hx]|].
  destruct (insert_network_spec (v_network v) k Hk) as [Hs Hin]. destruct (IH _ Hs) as [Hs' Hin']. split; [done|]. intros x Hx. apply Hin'. rewrite Hin.
  rewrite elem_of_cons in Hx. naive_solver.
Qed.

(** ** The choice *)

Section selects.
Context `{Platform} `{!PortClass}.

(** What [UpdateConnectionStates] leaves of the choice of the channel is in the
    configuration. *)
Lemma update_states_cfg l : ∀ now st st', update_states l now st = Some st' → ch_cfg st' = ch_cfg st.
Proof.
  induction l as [|a l IH]; intros now st st'; cbn [update_states]; [by intros [= <-]|]. destruct (on_conn a _ st) as [st1|] eqn:E; [|done]. cbn [mbind option_bind].
  intros ->%IH. apply on_conn_done in E as (c & p & x & y & _ & _ & _ & Hd). apply (cm_cfg _ _ _ (cd_calm _ _ _ _ _ _ _ Hd)).
Qed.
Definition chooses (st : P2PTransportChannel) : bool := negb (standard st) || has_role ICEROLE_CONTROLLING st.
(** The channel when the order and the best connection are settled. *)
Record settled (st1 st2 : P2PTransportChannel) (views : list conn_view) : Prop := {
  se_views : mapM (view st1) (list_of st1) = Some views;
  se_sortable : sortable views = true;
  se_list : list_of st2 = v_addr <$> stable_sort views;
  se_best : best st2 = if chooses st1 then v_addr <$> head (stable_sort views) else best st1;
  se_obj : ch_obj st2 = ch_obj st1;
  se_cfg : ch_cfg st2 = ch_cfg st1;
  se_writable : ch_writable (ch_sel st2) = ch_writable (ch_sel st1) ∧ was_writable_ (ch_sel st2) = was_writable_ (ch_sel st1)
}.
Definition finish (st : P2PTransportChannel) : option P2PTransportChannel :=
  l ← mapM (λ a, conns st !! a) (list_of st);
  writable ← best_writable st;
  UpdateChannelState (if (writable : bool) then HandleWritable st else HandleNotWritable st).
Lemma view_obj st st' a : ch_obj st' = ch_obj st → view st' a = view st a.
Proof. intros E. unfold view, conns, ports. by rewrite E. Qed.
Lemma SortConnections_parts now st st' : chan_wf st → protocol_type_ (ch_cfg st) ≠ ICEPROTO_HYBRID → SortConnections now st = Some st' →
  ∃ st1 st2 st3 views, UpdateConnectionStates now st = Some st1 ∧ settled st1 st2 views ∧
    prune_networks (networks_of views) st2 = Some st3 ∧ finish st3 = Some st'.
Proof.
  intros Hwf Hp. unfold SortConnections. destruct (UpdateConnectionStates now st) as [st1|] eqn:E1; [|done]. cbn [mbind option_bind].
  pose proof (update_states_cfg _ _ _ _ E1) as Ec. destruct (update_states_wf _ _ _ _ Hwf E1) as [Hwf1 El1]. rewrite Ec, bool_decide_eq_false_2 by done. cbn zeta.
  change (list_of (set_dirty false st1)) with (list_of st1). change (view (set_dirty false st1)) with (view st1).
  destruct (mapM (view st1) _) as [views|] eqn:Ev; [|done]. cbn [mbind option_bind]. destruct (sortable views) eqn:Es; [|done]. cbn [negb].
  set (st2 := set_list _ _). destruct (match best st2 with Some _ => _ | None => _ end) as [cur|] eqn:Ecur; [|done]. cbn [mbind option_bind].
  change (negb (standard st2) || has_role ICEROLE_CONTROLLING st2) with (chooses st1).
  destruct (if chooses st1 && _ then _ else _) as [st3|] eqn:E3; [|done]. cbn [mbind option_bind].
  destruct (prune_networks _ st3) as [st4|] eqn:E4; [|done]. cbn [mbind option_bind]. intros E5. exists st1, st3, st4, views. split; [done|]. split; [|split; [done|]].
  2: { unfold finish. destruct (mapM (λ a, conns st4 !! a) _) as [l|]; [|done]. cbn [mbind option_bind] in *. destruct (best_writable st4) as [[]|]; [done| |done].
    cbn [mbind option_bind] in *. unfold HandleAllTimedOut in E5. by destruct (forallb _ _). }
  assert (∀ s, ch_obj s = ch_obj st2 → ch_cfg s = ch_cfg st2 → list_of s = list_of st2 → ch_writable (ch_sel s) = ch_writable (ch_sel st2) →
    was_writable_ (ch_sel s) = was_writable_ (ch_sel st2) → best s = (if chooses st1 then v_addr <$> head (stable_sort views) else best st1) → settled st1 s views) as Hmk
    by (intros; by split).
  destruct (chooses st1) eqn:Ech; cbn [andb] in E3; [|injection E3 as <-; by apply Hmk].
  destruct (ShouldSwitch cur (head (stable_sort views))) eqn:Esw.
  - apply wf_Switch in E3 as (_ & E31 & E32 & E33 & E34 & E35 & E36); [by apply Hmk| |].
    + apply set_list_wf; [by apply (wf_same st1); try done; left|]. change (list_of _) with (list_of st1). by rewrite stable_sort_perm, (views_addr _ _ _ Ev).
    + intros b. change (list_of st2) with (v_addr <$> stable_sort views). destruct (stable_sort views); [done|]. intros [= <-]. apply list_elem_of_here.
  - injection E3 as <-. apply Hmk; try done. change (best st2) with (best st1) in *. destruct (best st1) as [b|] eqn:Eb.
    + change (view st2 b) with (view st1 b) in Ecur. destruct (viewed_elem st1 views b (proj1 (viewed_of _ _) Ev) (wf_best _ Hwf1 b Eb)) as (v & Evb & Hin). rewrite Evb in Ecur.
      injection Ecur as <-. destruct (stable_sort views) as [|top rest] eqn:Ess; [by rewrite <- stable_sort_perm, Ess in Hin; apply elem_of_nil in Hin|].
      destruct (decide (v_addr v = v_addr top)) as [E|Hne]; [cbn; by rewrite <- E, (view_addr _ _ _ Evb)|].
      cbn [head] in Esw. by rewrite (top_chosen views top rest (sortable_close _ Es) Ess v Hin Hne) in Esw.
    + injection Ecur as <-. by destruct (stable_sort views).
Qed.

(** What the last step tells of the channel's own state. *)
Definition some_conn (f : Connection → bool) (l : list Z) (st : P2PTransportChannel) : Prop := ∃ a c, a ∈ l ∧ conns st !! a = Some c ∧ f (cc_conn c) = true.
Definition is_readable (c : Connection) : bool := bool_decide (read_state_ c = STATE_READABLE).
Lemma some_conn_mapM f l st cs : mapM (λ a, conns st !! a) l = Some cs → existsb (λ c, f (cc_conn c)) cs = true ↔ some_conn f l st.
Proof.
  intros E%mapM_Some. rewrite existsb_exists. split.
  - intros (c & Hin%list_elem_of_In & Hf). apply list_elem_of_lookup in Hin as [i Hi]. destruct (Forall2_lookup_r _ _ _ _ _ E Hi) as (a & Ha & Ea).
    exists a, c. split; [apply list_elem_of_lookup; by exists i|done].
  - intros (a & c & Hin & Ea & Hf). apply list_elem_of_lookup in Hin as [i Hi]. destruct (Forall2_lookup_l _ _ _ _ _ E Hi) as (c' & Hc & Ea').
    exists c'. split; [apply list_elem_of_In, list_elem_of_lookup; by exists i|]. congruence.
Qed.
Lemma best_writable_spec st w : best_writable st = Some w → w = true ↔ ∃ b c, best st = Some b ∧ conns st !! b = Some c ∧ is_writable (cc_conn c) = true.
Proof.
  unfold best_writable. destruct (best st) as [b|]; [|intros [= <-]; naive_solver]. destruct (conns st !! b) as [c|] eqn:Ec; [|done]. intros [= <-].
  split; [intros Hw; by exists b, c|]. intros (b' & c' & [= <-] & Ec' & Hw). rewrite Ec in Ec'. injection Ec' as <-. exact Hw.
Qed.
Lemma finish_spec st st' : finish st = Some st' →
  ch_obj st' = ch_obj st ∧ list_of st' = list_of st ∧ best st' = best st ∧
  (ch_writable (ch_sel st') = true ↔ ∃ b c, best st = Some b ∧ conns st !! b = Some c ∧ is_writable (cc_conn c) = true) ∧
  (ch_readable (ch_sel st') = true ↔ some_conn is_readable (list_of st) st).
Proof.
  unfold finish. destruct (mapM _ _) as [l|]; [|done]. cbn [mbind option_bind]. destruct (best_writable st) as [w|] eqn:Ew; [|done]. cbn [mbind option_bind].
  set (s := if (w : bool) then _ else _). assert (ch_obj s = ch_obj st ∧ list_of s = list_of st ∧ best s = best st) as (Eo & El & Eb).
  { unfold s, HandleWritable, HandleNotWritable, set_writable. repeat case_match; done. }
  clearbody s. unfold UpdateChannelState. assert (best_writable s = Some w) as -> by (unfold best_writable, conns; by rewrite Eb, Eo). cbn [mbind option_bind].
  destruct (Bool.eqb w _) eqn:E2; [|done]. apply Bool.eqb_prop in E2. cbn [negb]. destruct (mapM _ _) as [cs|] eqn:Em; [|done]. cbn [mbind option_bind]. intros [= <-].
  apply (some_conn_mapM is_readable) in Em. unfold some_conn, conns in Em. rewrite Eo, El in Em. set (r := existsb _ _) in *.
  assert (ch_writable (ch_sel (set_readable r s)) = w ∧ ch_readable (ch_sel (set_readable r s)) = r ∧ ch_obj (set_readable r s) = ch_obj s ∧
    list_of (set_readable r s) = list_of s ∧ best (set_readable r s) = best s) as (-> & -> & -> & -> & ->).
  { unfold set_readable. destruct (Bool.eqb _ r) eqn:Er; [apply Bool.eqb_prop in Er|]; split_and!; done. }
  split_and!; [done..| |exact Em]. by apply best_writable_spec.
Qed.
Lemma best_kept b views v : v ∈ views → b = Some (v_addr v) → must_prune b views v = false.
Proof.
  intros Hin ->. unfold must_prune, primier. case_match eqn:E; [|done]. case_match eqn:Ef.
  - simplify_eq. apply find_first in Ef as [_ Ef]. apply andb_true_iff in Ef as [Ef%bool_decide_eq_true _]. injection Ef as ->. by rewrite Z.eqb_refl, andb_false_r.
  - pose proof (find_none _ _ Ef v (proj1 (list_elem_of_In _ _) Hin)) as Hf. cbn beta in Hf. by rewrite bool_decide_eq_true_2, Z.eqb_refl in Hf.
Qed.
(** The channel after the choice is a well-formed one, seen through the sorted views. *)
Lemma settled_wf st1 st2 views : chan_wf st1 → settled st1 st2 views → chan_wf st2 ∧ viewed st2 (stable_sort views).
Proof.
  intros Hwf [Ev Es El Eb Eo Ec [Ew1 Ew2]]. pose proof (proj1 (viewed_of _ _) Ev) as Hv. pose proof (views_addr _ _ _ Ev) as Ea. split.
  - destruct Hwf as [W1 W2 W3 W4]. assert (list_of st2 ≡ₚ list_of st1) as Hperm by (by rewrite El, stable_sort_perm, Ea). split.
    + by rewrite Hperm.
    + intros a. rewrite Hperm. unfold conns. rewrite Eo. apply W2.
    + intros b. rewrite Hperm, Eb. destruct (chooses st1); [|apply W3]. destruct (stable_sort views) as [|t r] eqn:Ess; [done|]. intros [= <-].
      rewrite <- Hperm, El. apply list_elem_of_here.
    + by rewrite Ew1, Ew2.
  - unfold viewed. rewrite El. assert (∀ v, v ∈ stable_sort views → view st2 (v_addr v) = Some v) as Hall.
    { intros v Hin. rewrite stable_sort_perm in Hin. rewrite (view_obj st1) by done. by apply (viewed_view _ views). }
    clear El Eb. induction (stable_sort views) as [|v l IH]; constructor; [apply Hall, list_elem_of_here|]. apply IH. intros; apply Hall. by apply list_elem_of_further.
Qed.

(** What a connection is after the sorting, [best] being the connection in use. *)
Definition kept_or_pruned (best : option Z) (sorted : list conn_view) (v : conn_view) (c : chan_conn) : option chan_conn :=
  if must_prune best sorted v then pruned_conn c else Some c.

(** C8. In every run of a channel, [SortConnections] (outside the hybrid mode) first
    brings the states of all connections up to date and then leaves: the list of exactly
    those connections, sorted by write state, then priority, then generation, then round
    trip time; as the best connection the first of that list, whatever connection was best
    before, where the channel chooses (it is controlling, or not of the standard
    protocol), and the one it had where the peer chooses; the connections that lose
    against the premier connection of their network pruned, when that one is writable,
    and all others as they were, the best connection never pruned; the channel writable
    just when the best connection is, and readable just when some connection is. *)
Theorem channel_selects ops component supply st now st' :
  chan_run ops (P2PTransportChannel_new component supply) = Some st → protocol_type_ (ch_cfg st) ≠ ICEPROTO_HYBRID →
  SortConnections now st = Some st' →
  ∃ st1 views sorted, UpdateConnectionStates now st = Some st1 ∧ mapM (view st1) (list_of st) = Some views ∧
    sorted ≡ₚ views ∧ StronglySorted not_after sorted ∧ list_of st' = v_addr <$> sorted ∧
    best st' = (if chooses st then v_addr <$> head sorted else best st1) ∧
    (∀ v, v ∈ sorted → conns st' !! v_addr v = c ← conns st1 !! v_addr v; kept_or_pruned (best st') sorted v c) ∧
    (∀ v, v ∈ sorted → best st' = Some (v_addr v) → must_prune (best st') sorted v = false) ∧
    (ch_writable (ch_sel st') = true ↔ ∃ b c, best st' = Some b ∧ conns st' !! b = Some c ∧ is_writable (cc_conn c) = true) ∧
    (ch_readable (ch_sel st') = true ↔ some_conn is_readable (list_of st') st').
Proof.
  intros Hrun Hp Hs. pose proof (run_wf _ _ _ (new_wf _ _) Hrun) as Hwf.
  destruct (SortConnections_parts _ _ _ Hwf Hp Hs) as (st1 & st2 & st3 & views & E1 & Hset & E3 & E4).
  destruct (update_states_wf _ _ _ _ Hwf E1) as [Hwf1 El1]. pose proof (update_states_cfg _ _ _ _ E1) as Ec1.
  destruct (settled_wf _ _ _ Hwf1 Hset) as [Hwf2 Hv2]. destruct Hset as [Ev Es El Eb Eo Ec _]. destruct (networks_of_spec views) as [Hnd Hnet].
  apply (prune_networks_spec st2 (stable_sort views) _ Hwf2 Hv2 []) in E3; [|done|by intros n _ ?%elem_of_nil|].
  2: { eapply pruned_ext; [|apply pruned_refl]. intros a _. unfold pruned_in. destruct (view st2 a); [|done]. rewrite bool_decide_eq_false_2; [done|]. apply not_elem_of_nil. }
  destruct (finish_spec _ _ E4) as (Eo4 & El4 & Eb4 & Hw & Hr). rewrite <- Eb4 in Hw. rewrite <- El4 in Hr. unfold some_conn, conns in Hw, Hr. rewrite <- Eo4 in Hw, Hr.
  exists st1, views, (stable_sort views). split; [done|]. split; [by rewrite <- El1|]. split; [apply stable_sort_perm|]. split; [by apply stable_sort_sorted, sortable_close|].
  split; [by rewrite El4, (pt_list _ _ _ E3)|]. pose proof (pt_best _ _ _ E3) as Eb3. rewrite <- Eb4 in Eb3.
  split; [rewrite Eb3, Eb; unfold chooses, standard, has_role; by rewrite Ec1|]. split; [|split; [intros; by apply best_kept|done]].
  intros v Hin. unfold conns. rewrite Eo4. pose proof (pt_conns _ _ _ E3 (v_addr v)) as Ecv. unfold conns in Ecv. rewrite Ecv, Eo. unfold pruned_in, kept_or_pruned.
  rewrite (viewed_view _ _ _ Hv2 Hin), bool_decide_eq_true_2, Eb3 by (rewrite stable_sort_perm in Hin; by apply Hnet). done.
Qed.
End selects.

(** ** A channel with two connections *)

Section sample.
#[local] Existing Instance zero_platform.

Definition left_port : chan_port :=
  let port := port_left ICEROLE_CONTROLLING in
  mkCP (mkPort ICEPROTO_RFC5245 ICEROLE_CONTROLLING 7000 1 (ice_username_fragment_ port) (password_ port) true false
    [mkCandidate 1 LOCAL_PORT_TYPE (text "udp") (sample_address 1) 2130706431 [] [] SocketAddress_Clear] [])
    0 1 0 LOCAL_PORT_TYPE false (IPAddress_v4 [192; 168; 1; 1]) [].
Definition remote_at (last priority : Z) : FullCandidate :=
  mkFull (mkCandidate 1 LOCAL_PORT_TYPE (text "udp") (sample_address last) priority [] [] SocketAddress_Clear) [] 0 [].
(** The channel learns of addresses of the peer. *)
Definition set_up (role : IceRole) (t : Z) (remotes : list FullCandidate) : list (chan_op * Z) :=
  let port := port_left role in
  let peer := port_right role in
  [(CSetIceRole role, t); (CSetIceTiebreaker 7000, t); (CSetIceProtocolType ICEPROTO_RFC5245, t);
   (CSetIceCredentials (ice_username_fragment_ port) (password_ port), t);
   (CSetRemoteIceCredentials (ice_username_fragment_ peer) (password_ peer), t); (CConnect, t); (CSignalingReady, t);
   (CPortReady 1 left_port, t)] ++ ((λ r, (CCandidate r, t)) <$> remotes).
(** It checks one, at the address [a], and the peer answers. *)
Definition new_channel : P2PTransportChannel := P2PTransportChannel_new 1 [100; 101].
Definition ran (ops : list (chan_op * Z)) : P2PTransportChannel := default new_channel (chan_run ops new_channel).
Definition last_sent (l : list port_event) : list Z := match last l with Some (SendTo _ data) => data | _ => [] end.
Definition answer (peer : Port) (t : Z) (ops : list (chan_op * Z)) : list Z :=
  let packet := match ports (ran ops) !! 1 with Some p => last_sent (port_log (cp_port p)) | None => [] end in
  match Connection_OnReadPacket packet t conn_right peer with Some (_, R) => last_sent (port_log R) | None => [] end.
Definition checked (role peer : IceRole) (t a : Z) (remotes : list FullCandidate) : list (chan_op * Z) :=
  let ops := set_up role t remotes ++ [(CPosted 5 sample_id, t + 10); (CConnDispatch a, t + 10)] in
  ops ++ [(CPacket 1 (sample_address 2) (answer (port_right peer) (t + 20) ops) [], t + 40)].
Definition answered : list (chan_op * Z) := checked ICEROLE_CONTROLLING ICEROLE_CONTROLLED 1000 101 [remote_at 3 100; remote_at 2 200].
Definition answered_channel : P2PTransportChannel := ran answered.
Definition sorted_channel : P2PTransportChannel := default new_channel (SortConnections 1040 answered_channel).

Lemma channel_selects_witness :
  best sorted_channel = Some 101 ∧ ch_writable (ch_sel sorted_channel) = true ∧
  (λ a, pruned_ ∘ cc_conn <$> conns sorted_channel !! a) <$> list_of sorted_channel = [Some false; Some true] ∧
  ∃ st1 views sorted, UpdateConnectionStates 1040 answered_channel = Some st1 ∧ mapM (view st1) (list_of answered_channel) = Some views ∧
    sorted ≡ₚ views ∧ StronglySorted not_after sorted ∧ list_of sorted_channel = v_addr <$> sorted ∧
    best sorted_channel = (if chooses answered_channel then v_addr <$> head sorted else best st1) ∧
    (∀ v, v ∈ sorted → conns sorted_channel !! v_addr v = c ← conns st1 !! v_addr v; kept_or_pruned (best sorted_channel) sorted v c) ∧
    (∀ v, v ∈ sorted → best sorted_channel = Some (v_addr v) → must_prune (best sorted_channel) sorted v = false) ∧
    (ch_writable (ch_sel sorted_channel) = true ↔
      ∃ b c, best sorted_channel = Some b ∧ conns sorted_channel !! b = Some c ∧ is_writable (cc_conn c) = true) ∧
    (ch_readable (ch_sel sorted_channel) = true ↔ some_conn is_readable (list_of sorted_channel) sorted_channel).
Proof.
  split; [vm_compute; reflexivity|]. split; [vm_compute; reflexivity|]. split; [vm_compute; reflexivity|].
  assert (chan_run answered (P2PTransportChannel_new 1 [100; 101]) = Some answered_channel) as Hrun by (vm_compute; reflexivity).
  assert (protocol_type_ (ch_cfg answered_channel) ≠ ICEPROTO_HYBRID) as Hp by (vm_compute; discriminate).
  assert (SortConnections 1040 answered_channel = Some sorted_channel) as Hs by (vm_compute; reflexivity).
  exact (channel_selects answered 1 [100; 101] answered_channel 1040 sorted_channel Hrun Hp Hs).
Defined.
End sample.
