(* ===== verification/IceChannelPing.v ===== *)
(** * Who is pinged

    The time of a connection's last ping changes when the channel pings it and at no other
    time; from that, every connection that stays pingable gets its turn, as long as the
    clock does not wrap, and what happens when it does. *)

From stdpp Require Import strings.
From S2P Require Import Prelude ByteOrder ByteBuffer Crc32 IpAddress Stun StunWire StunIntegrity StunBuild TimeUtils MessageQueue StunRequest IcePort IceConnection IceChannel IceChannelInv IceChannelSort.

(** ** The last ping of a connection *)

Lemma set_write_state_ping v c : last_ping_sent_ (set_write_state v c) = last_ping_sent_ c.
Proof. unfold set_write_state, Connection_CheckTimeout. by repeat case_match. Qed.
Lemma set_read_state_ping v c : last_ping_sent_ (set_read_state v c) = last_ping_sent_ c.
Proof. unfold set_read_state, Connection_CheckTimeout. by repeat case_match. Qed.
Lemma ReceivedPing_ping now c : last_ping_sent_ (ReceivedPing now c) = last_ping_sent_ c.
Proof. unfold ReceivedPing. by rewrite set_read_state_ping. Qed.
Lemma revive_ping c : last_ping_sent_ (revive c) = last_ping_sent_ c.
Proof. unfold revive. destruct (_ && _); [by rewrite set_write_state_ping|done]. Qed.
Lemma UpdateState_ping now p c : last_ping_sent_ (UpdateState now p c) = last_ping_sent_ c.
Proof. unfold UpdateState. cbn zeta. repeat (destruct (_ && _); rewrite ?set_write_state_ping, ?set_read_state_ping; try done). Qed.
Lemma Prune_ping c c' : Prune c = Some c' → last_ping_sent_ c' = last_ping_sent_ c.
Proof.
  unfold Prune. destruct (pruned_ c); [by intros [= <-]|]. cbn zeta. destruct (StunRequestManager_Clear _); [|done]. intros [= <-]. by rewrite set_write_state_ping.
Qed.
Lemma OnReadyToSend_ping c : last_ping_sent_ (OnReadyToSend c) = last_ping_sent_ c.
Proof. unfold OnReadyToSend. by case_match. Qed.

Section ping.
Context `{Platform} `{!PortClass}.

Lemma prflx_ping r m c p c' p' : MaybeAddPrflxCandidate r m c p = Some (c', p') → last_ping_sent_ c' = last_ping_sent_ c.
Proof.
  unfold MaybeAddPrflxCandidate. destruct (GetAddress _ _); [|by intros [= <- _]]. destruct (existsb _ _); [by intros [= <- _]|].
  destruct (GetUInt32 _ _); [|by intros [= <- _]]. destruct (local_candidate p c); [|done]. cbn [mbind option_bind]. cbn zeta.
  destruct (AddPrflxCandidate _ _). by intros [= <- _].
Qed.
Lemma response_ping r m now c p c' p' : OnConnectionRequestResponse r m now c p = Some (c', p') → last_ping_sent_ c' = last_ping_sent_ c.
Proof.
  unfold OnConnectionRequestResponse. cbn zeta. set (c1 := set_state _ _). set (c2 := if bool_decide _ then _ else c1).
  assert (last_ping_sent_ c2 = last_ping_sent_ c) as E.
  { unfold c2, c1. destruct (bool_decide _); rewrite ?ReceivedPing_ping; cbn; by rewrite set_write_state_ping. }
  destruct (IsStandardIce p); [intros ->%prflx_ping; exact E|]. intros [= <- _]. exact E.
Qed.
Lemma callbacks_ping objs now evs : ∀ c p c' p', callbacks objs now evs c p = Some (c', p') → last_ping_sent_ c' = last_ping_sent_ c.
Proof.
  induction evs as [|[a ev] evs IH]; intros c p c' p'; cbn [callbacks]; [by intros [= <- _]|].
  destruct (match ev with Sent _ _ => _ | _ => _ end) as [[c1 p1]|] eqn:E; [|done]. cbn [mbind option_bind]. intros ->%IH.
  destruct ev; try (by injection E as <- _).
  - destruct (objs !! a); [|done]. cbn [mbind option_bind] in E. by apply response_ping in E.
  - injection E as E. unfold OnConnectionRequestErrorResponse in E. cbn zeta in E.
    repeat (destruct (_ || _) || destruct (_ =? _)); injection E as <- _; try done. by rewrite set_write_state_ping.
Qed.
Lemma manager_step_ping now f c p c' p' : manager_step now f c p = Some (c', p') → last_ping_sent_ c' = last_ping_sent_ c.
Proof. unfold manager_step. cbn zeta. destruct (f _); [|done]. cbn [mbind option_bind]. by intros ->%callbacks_ping. Qed.
Lemma OnReadPacket_ping data now c p c' p' : Connection_OnReadPacket data now c p = Some (c', p') → last_ping_sent_ c' = last_ping_sent_ c.
Proof.
  unfold Connection_OnReadPacket. cbn zeta. destruct (GetStunMessage _ _ _) as [[[[is_stun msg] user] p1]|]; [|done]. cbn [mbind option_bind].
  destruct (negb is_stun); [destruct (bool_decide _); intros [= <- _]; [by rewrite revive_ping|done]|]. destruct msg as [msg|]; [|by intros [= <- _]].
  destruct (m_type msg =? STUN_BINDING_REQUEST).
  - destruct (bool_decide _); [|by intros [= <- _]]. destruct (if IsStandardIce p1 then _ else _) as [ok p2]. destruct (negb ok); [by intros [= <- _]|].
    destruct (match GetByteString _ _ with Some _ => _ | None => _ end) as [c2 p3] eqn:E2.
    assert (last_ping_sent_ c2 = last_ping_sent_ c) as Ec. { destruct (GetByteString msg STUN_ATTR_USERNAME); injection E2 as <- _; [apply ReceivedPing_ping|done]. }
    destruct (_ && _); intros [= <- _]; cbn; by rewrite revive_ping.
  - destruct (_ || _).
    + destruct (if IsGoogleIce p1 then _ else _) as [[]|]; cbn [mbind option_bind]; [apply manager_step_ping|by intros [= <- _]|done].
    + destruct (_ =? _); [destruct (_ && _)|]; intros [= <- _]; try done. apply ReceivedPing_ping.
Qed.

(** ** What keeps the pings *)

Definition keeps (f : Connection → Port → option (Connection * Port)) : Prop :=
  ∀ c p c' p', f c p = Some (c', p') → last_ping_sent_ c' = last_ping_sent_ c.
(** All connections are still there, with their last ping. *)
Definition kept (st st' : P2PTransportChannel) : Prop :=
  ∀ a c, conns st !! a = Some c → ∃ c', conns st' !! a = Some c' ∧ last_ping_sent_ (cc_conn c') = last_ping_sent_ (cc_conn c).
Lemma kept_refl st : kept st st.
Proof. intros a c E. by exists c. Qed.
Lemma pings_kept_trans st st1 st2 : kept st st1 → kept st1 st2 → kept st st2.
Proof. intros H1 H2 a c E. destruct (H1 a c E) as (c1 & E1 & P1). destruct (H2 a c1 E1) as (c2 & E2 & P2). exists c2. split; [done|congruence]. Qed.
Lemma kept_same st st' : conns st' = conns st → kept st st'.
Proof. intros E a c. rewrite E. by exists c. Qed.
Lemma on_conn_kept a f st st' : keeps f → on_conn a f st = Some st' → kept st st'.
Proof.
  intros Hf E. apply on_conn_done in E as (c & p & x & y & Ec & Ep & Ef & [Ecs _ _ _]). intros b cb Eb. rewrite Ecs.
  destruct (decide (a = b)) as [<-|Hn]; [|rewrite lookup_insert_ne by done; by exists cb]. rewrite lookup_insert_eq. eexists. split; [done|].
  rewrite Ec in Eb. injection Eb as <-. cbn. by eapply Hf.
Qed.
Lemma update_states_kept l : ∀ now st st', update_states l now st = Some st' → kept st st'.
Proof.
  induction l as [|a l IH]; intros now st st'; cbn [update_states]; [intros [= <-]; apply kept_refl|].
  destruct (on_conn a _ st) as [st1|] eqn:E; [|done]. cbn [mbind option_bind]. intros E'%IH. eapply pings_kept_trans; [|exact E'].
  eapply on_conn_kept; [|exact E]. intros c p c' p' [= <- _]. apply UpdateState_ping.
Qed.
Lemma prune_loop_kept q n l : ∀ st st', prune_loop q n l st = Some st' → kept st st'.
Proof.
  induction l as [|a l IH]; intros st st'; cbn [prune_loop]; [intros [= <-]; apply kept_refl|].
  destruct (view st q) as [vp|]; [|done]. destruct (view st a) as [v|]; [|done]. cbn [mbind option_bind].
  destruct (_ && _); cbn [mbind option_bind]; [|by apply IH]. destruct (on_conn a _ st) as [st1|] eqn:E; [|done]. cbn [mbind option_bind]. intros E'%IH.
  eapply pings_kept_trans; [|exact E']. eapply on_conn_kept; [|exact E]. intros c p c' p'. destruct (Prune c) as [c1|] eqn:Ep; [|done]. intros [= <- _]. by apply Prune_ping.
Qed.
Lemma prune_networks_kept l : ∀ st st', prune_networks l st = Some st' → kept st st'.
Proof.
  induction l as [|n l IH]; intros st st'; cbn [prune_networks]; [intros [= <-]; apply kept_refl|].
  destruct (GetBestConnectionOnNetwork n st) as [[q|]|]; [..|done]; cbn [mbind option_bind]; [|by apply IH].
  destruct (bool_decide _); cbn [mbind option_bind]; [|by apply IH]. destruct (prune_loop _ _ _ _) as [st1|] eqn:E; [|done]. cbn [mbind option_bind]. intros E'%IH.
  eapply pings_kept_trans; [|exact E']. by eapply prune_loop_kept.
Qed.
Lemma Switch_conns x st st' : SwitchBestConnectionTo x st = Some st' → conns st' = conns st.
Proof.
  destruct x as [a|]; [|by intros [= <-]]. intros E%Switch_calm. unfold conns. by rewrite (cm_obj _ _ _ E).
Qed.
Lemma UpdateChannelState_conns st st' : UpdateChannelState st = Some st' → conns st' = conns st.
Proof.
  unfold UpdateChannelState. destruct (best_writable st); [|done]. cbn [mbind option_bind]. destruct (negb _); [done|]. destruct (mapM _ _); [|done].
  intros [= <-]. unfold set_readable. by destruct (Bool.eqb _ _).
Qed.
Lemma SortConnections_kept now st st' : SortConnections now st = Some st' → kept st st'.
Proof.
  unfold SortConnections, UpdateConnectionStates. destruct (update_states _ _ _) as [st1|] eqn:E1; [|done]. cbn [mbind option_bind].
  intros E. eapply pings_kept_trans; [by eapply update_states_kept|]. clear E1. destruct (bool_decide _); [apply kept_same; by apply UpdateChannelState_conns|].
  cbn zeta in E. destruct (mapM _ _) as [views|]; [|done]. cbn [mbind option_bind] in E. destruct (negb _); [done|]. set (st2 := set_list _ _) in *.
  destruct (match best st2 with Some _ => _ | None => _ end) as [cur|]; [|done]. cbn [mbind option_bind] in E.
  destruct (if _ && _ then _ else _) as [st3|] eqn:E3; [|done]. cbn [mbind option_bind] in E.
  destruct (prune_networks _ st3) as [st4|] eqn:E4; [|done]. cbn [mbind option_bind] in E. destruct (mapM (λ a, conns st4 !! a) _) as [l|]; [|done]. cbn [mbind option_bind] in E.
  destruct (best_writable st4) as [w|]; [|done]. cbn [mbind option_bind] in E. set (st5 := if (w : bool) then _ else _) in *.
  apply (pings_kept_trans _ st3); [apply kept_same; destruct (_ && _); [by apply Switch_conns in E3|by injection E3 as <-]|].
  apply (pings_kept_trans _ st4); [by eapply prune_networks_kept|]. apply (pings_kept_trans _ st5); apply kept_same; [|by apply UpdateChannelState_conns].
  unfold st5, HandleWritable, HandleAllTimedOut, HandleNotWritable, set_writable. repeat case_match; done.
Qed.
Lemma added_kept port remote origin st a st1 st2 : port_CreateConnection port remote origin st = Some (Some a, st1) → AddConnection a st1 = Some st2 → kept st st2.
Proof.
  intros (p & Ep & i & l & Ei & En & ->)%created_spec. unfold AddConnection. cbn zeta. set (c := mkCC _ _ _ _ _ _).
  cbn [conns list_of set_list on_sel put_conn put_port set_supply on_obj ch_obj conn_heap ch_sel connections_]. rewrite lookup_insert_eq. intros [= <-].
  intros b cb Eb. cbn. rewrite insert_insert_eq, lookup_insert_ne; [by exists cb|]. intros ->. congruence.
Qed.
Lemma received_kept a now st st' : received_ping a now st = Some st' → kept st st'.
Proof. apply on_conn_kept. intros c p c' p' [= <- _]. apply ReceivedPing_ping. Qed.
Lemma CreateConnection_kept port remote origin readable now st x st' : Channel_CreateConnection port remote origin readable now st = Some (x, st') → kept st st'.
Proof.
  unfold Channel_CreateConnection. destruct (ports st !! port) as [p|]; [|done]. cbn [mbind option_bind].
  destruct (match GetConnection (c_address (f_candidate remote)) p with Some _ => _ | None => _ end) as [[conn st1]|] eqn:E; [|done]. cbn [mbind option_bind].
  assert (kept st st1) as Hk1.
  { destruct (GetConnection _ p) as [a|]; [destruct (conns st !! a); [|done]; injection E as <- <-; apply kept_refl|]. cbn zeta in E.
    destruct (_ && _); [injection E as <- <-; apply kept_refl|]. destruct (port_CreateConnection _ _ _ st) as [[[a|] st2]|] eqn:Ec; [..|done]; cbn [mbind option_bind] in E.
    - destruct (AddConnection a st2) as [st3|] eqn:Ea; [|done]. injection E as <- <-. by eapply added_kept.
    - injection E as <- <-. apply created_spec in Ec as (? & _ & ->). apply kept_refl. }
  destruct conn as [a|]; [|by intros [= <- <-]]. destruct readable; cbn [mbind option_bind]; [|by intros [= <- <-]].
  destruct (received_ping a now st1) as [st2|] eqn:Er; [|done]. intros [= <- <-]. eapply pings_kept_trans; [exact Hk1|]. by eapply received_kept.
Qed.
Lemma create_loop_kept l remote origin readable now : ∀ b st x st', create_loop l remote origin readable now b st = Some (x, st') → kept st st'.
Proof.
  induction l as [|q l IH]; intros b st x st'; cbn [create_loop]; [intros [= <- <-]; apply kept_refl|].
  destruct (Channel_CreateConnection _ _ _ _ _ _) as [[ok st1]|] eqn:E; [|done]. cbn [mbind option_bind]. intros E'%IH. eapply pings_kept_trans; [|exact E']. by eapply CreateConnection_kept.
Qed.
Lemma CreateConnections_kept remote origin readable now st x st' : CreateConnections remote origin readable now st = Some (x, st') → kept st st'.
Proof.
  unfold CreateConnections. destruct (GetRemoteCandidateGeneration _ _) as [g|]; [|done]. cbn [mbind option_bind]. cbn zeta.
  destruct (_ && _); [intros [= <- <-]; apply kept_refl|]. destruct (create_loop _ _ _ _ _ _ _) as [[c st1]|] eqn:E1; [|done]. cbn [mbind option_bind].
  destruct (match origin with Some _ => _ | None => _ end) as [[c2 st2]|] eqn:E2; [|done]. cbn [mbind option_bind].
  intros [= <- <-]. apply (pings_kept_trans _ st1); [by eapply create_loop_kept|]. apply (pings_kept_trans _ st2).
  - destruct origin as [q|]; [|injection E2 as <- <-; apply kept_refl]. destruct (bool_decide (q ∈ _)); [injection E2 as <- <-; apply kept_refl|].
    destruct (Channel_CreateConnection _ _ _ _ _ _) as [[ok st3]|] eqn:E3; [|done]. cbn [mbind option_bind] in E2. injection E2 as <- <-. by eapply CreateConnection_kept.
  - apply kept_same. unfold RememberRemoteCandidate. cbn zeta. by destruct (IsDuplicateRemoteCandidate _ _).
Qed.
Lemma on_port_kept port f st st' : on_port port f st = Some st' → kept st st'.
Proof. intros [_ ?]%on_port_frame. by apply kept_same. Qed.
Lemma create_for_port_kept port l now : ∀ st st', create_for_port port l now st = Some st' → kept st st'.
Proof.
  induction l as [|[r o] l IH]; intros st st'; cbn [create_for_port]; [intros [= <-]; apply kept_refl|].
  destruct (Channel_CreateConnection _ _ _ _ _ _) as [[ok st1]|] eqn:E; [|done]. cbn [mbind option_bind]. intros E'%IH. eapply pings_kept_trans; [|exact E']. by eapply CreateConnection_kept.
Qed.
Lemma add_reflexive_kept port addr msg muxed now remote st st' : add_reflexive port addr msg muxed now remote st = Some st' → kept st st'.
Proof.
  unfold add_reflexive. destruct (ports st !! port) as [p|]; [|done]. cbn [mbind option_bind]. destruct (GetUInt32 _ _) as [prio|]; [|by apply on_port_kept].
  cbn zeta. destruct (GetConnection _ p); [destruct muxed; [intros [= <-]; apply kept_refl|done]|].
  destruct (port_CreateConnection _ _ _ st) as [[[a|] st1]|] eqn:E1; [..|done]; cbn [mbind option_bind]; [|done].
  destruct (AddConnection a st1) as [st2|] eqn:E2; [|done]. cbn [mbind option_bind]. destruct (received_ping a now st2) as [st3|] eqn:E3; [|done]. cbn [mbind option_bind].
  destruct (on_port port _ st3) as [st4|] eqn:E4; [|done]. cbn [mbind option_bind]. intros E5.
  apply (pings_kept_trans _ st2); [by eapply added_kept|]. apply (pings_kept_trans _ st3); [by eapply received_kept|]. apply (pings_kept_trans _ st4); [by eapply on_port_kept|by eapply SortConnections_kept].
Qed.
Lemma OnUnknownAddress_kept port addr proto msg user muxed id now st st' : OnUnknownAddress port addr proto msg user muxed id now st = Some st' → kept st st'.
Proof.
  unfold OnUnknownAddress. destruct (ports st !! port) as [p|]; [|done]. cbn [mbind option_bind]. cbn zeta.
  destruct (find_remote _ _ _ _ _ _) as [[pwd|] cand]; [|destruct muxed; [intros [= <-]; apply kept_refl|by apply on_port_kept]].
  destruct (IsStandardIce _); [by apply add_reflexive_kept|]. destruct (CreateConnections _ _ _ _ _) as [[created st1]|] eqn:E1; [|done]. cbn [mbind option_bind].
  destruct (negb created); [done|]. destruct (on_port port _ st1) as [st2|] eqn:E2; [|done]. cbn [mbind option_bind]. intros E3.
  apply (pings_kept_trans _ st1); [by eapply CreateConnections_kept|]. apply (pings_kept_trans _ st2); [by eapply on_port_kept|by eapply SortConnections_kept].
Qed.
Lemma port_events_kept port id now l : ∀ st st', port_events port id now l st = Some st' → kept st st'.
Proof.
  induction l as [|x l IH]; intros st st'; cbn [port_events]; [intros [= <-]; apply kept_refl|].
  destruct (match x with SendTo _ _ => _ | _ => _ end) as [st1|] eqn:E; [|done]. cbn [mbind option_bind]. intros E'%IH. eapply pings_kept_trans; [|exact E'].
  destruct x; try (injection E as <-; by apply kept_same). by eapply OnUnknownAddress_kept.
Qed.

(** ** Steps *)

(** The step at which the channel pings. *)
Definition ping_step (o : chan_op) (now : Z) (st : P2PTransportChannel) : bool :=
  match o with
  | CPosted _ _ => match ch_posted st with MSG_PING :: _ => true | _ => false end
  | CTimer _ _ => match ch_timers st with x :: _ => negb (TimeIsLater now x.1) && bool_decide (x.2 = MSG_PING) | [] => false end
  | _ => false
  end.
(** The connections that are there before and after have their last ping. *)
Definition unpinged (st st' : P2PTransportChannel) : Prop :=
  ∀ a c c', conns st !! a = Some c → conns st' !! a = Some c' → last_ping_sent_ (cc_conn c') = last_ping_sent_ (cc_conn c).
Lemma kept_unpinged st st' : kept st st' → unpinged st st'.
Proof. intros Hk a c c' Ec Ec'. destruct (Hk a c Ec) as (c1 & E1 & P1). congruence. Qed.
Lemma same_unpinged st st' : conns st' = conns st → unpinged st st'.
Proof. intros E. by apply kept_unpinged, kept_same. Qed.
Lemma Connection_OnMessage_unpinged a now st st' : Connection_OnMessage a now st = Some st' → unpinged st st'.
Proof.
  unfold Connection_OnMessage. destruct (conns st !! a) as [c|]; [|done]. cbn [mbind option_bind].
  destruct (Port_OnConnectionDestroyed _ _ _ _) as [st1|] eqn:E1; [|done]. cbn [mbind option_bind].
  destruct (Channel_OnConnectionDestroyed a st1) as [st2|] eqn:E2; [|done]. cbn [mbind option_bind]. intros [= <-].
  assert (conns st1 = conns st) as Ec1.
  { unfold Port_OnConnectionDestroyed in E1. destruct (ports st !! cc_port c); [|done]. cbn [mbind option_bind] in E1. destruct (GetConnection _ _); [|done].
    cbn [mbind option_bind] in E1. injection E1 as <-. by destruct (bool_decide _). }
  assert (conns st2 = conns st1) as Ec2.
  { unfold Channel_OnConnectionDestroyed in E2. destruct (negb _); [done|]. cbn zeta in E2. destruct (if bool_decide (best _ = _) then _ else _) as [st3|] eqn:E3; [|done].
    injection E2 as <-. cbn. fold (conns st3). destruct (bool_decide (best _ = _)); injection E3 as <-; [unfold RequestSort; destruct (sort_dirty_ _)|]; cbn; by destruct (bool_decide _). }
  intros b cb cb' Eb. change (delete a (conns st2) !! b = Some cb' → last_ping_sent_ (cc_conn cb') = last_ping_sent_ (cc_conn cb)). rewrite Ec2, Ec1.
  intros [_ E]%lookup_delete_Some. congruence.
Qed.
Lemma message_unpinged m now a random st st' : m ≠ MSG_PING → P2P_OnMessage m now a random st = Some st' → unpinged st st'.
Proof.
  intros Hm. destruct m as [| |c|p]; cbn [P2P_OnMessage]; [|done|..].
  - intros E. by eapply kept_unpinged, SortConnections_kept.
  - apply Connection_OnMessage_unpinged.
  - unfold Port_CheckTimeout. destruct (ports st !! p) as [cp|]; [|done]. cbn [mbind option_bind]. destruct (negb _); [done|].
    destruct (cp_conns cp); intros [= <-]; by apply same_unpinged.
Qed.
Lemma other_step o now st st' : ping_step o now st = false → chan_step o now st = Some st' → unpinged st st'.
Proof.
  destruct o; cbn [chan_step ping_step]; intros Hn.
  - unfold Channel_SetIceRole. destruct (has_role _ _); [intros [= <-]; by apply same_unpinged|]. intros [_ ?]%on_ports_frame. by apply same_unpinged.
  - intros [= <-]. apply same_unpinged. unfold SetIceTiebreaker. by destruct (ports_ _).
  - unfold Channel_SetIceProtocolType. intros [_ ?]%on_ports_frame. by apply same_unpinged.
  - intros [= <-]. apply same_unpinged. unfold SetIceCredentials. cbn zeta. by destruct (if _ && _ then _ else _).
  - intros [= <-]. by apply same_unpinged.
  - intros [= <-]. by apply same_unpinged.
  - intros [= <-]. by apply same_unpinged.
  - unfold Channel_Connect. destruct (_ || _); [done|]. intros [= <-]. by apply same_unpinged.
  - intros [= <-] a c c' _. unfold Reset. cbn zeta. assert (∀ s : P2PTransportChannel, conns s = ∅ → conns s !! a = Some c' → False) as He by (intros s ->; by rewrite lookup_empty).
    intros E. exfalso. revert E. apply He. destruct connect_requested; unfold set_writable, set_readable; by repeat case_match.
  - intros [= <-]. apply same_unpinged. unfold OnSignalingReady. by destruct (waiting_for_signaling_ st).
  - unfold OnPortReady. cbn zeta. destruct (on_port _ _ _) as [st1|] eqn:E1; [|done]. cbn [mbind option_bind]. destruct (create_for_port _ _ _ _) as [st2|] eqn:E2; [|done].
    cbn [mbind option_bind]. intros E3. apply on_port_frame in E1 as [_ Ec]. apply kept_unpinged, (pings_kept_trans _ st1); [by apply kept_same|].
    apply (pings_kept_trans _ st2); [|by eapply SortConnections_kept]. apply create_for_port_kept in E2. exact E2.
  - unfold OnCandidate. destruct (CreateConnections _ _ _ _ _) as [[c st1]|] eqn:E1; [|done]. cbn [mbind option_bind]. intros E2.
    apply kept_unpinged, (pings_kept_trans _ st1); [by eapply CreateConnections_kept|by eapply SortConnections_kept].
  - unfold port_packet. destruct (ports st !! port) as [p|]; [|done]. cbn [mbind option_bind]. destruct (GetConnection addr p) as [a|].
    + intros E. eapply kept_unpinged, on_conn_kept; [|exact E]. intros c q c' q'. apply OnReadPacket_ping.
    + destruct (Port_OnReadPacket _ _ _) as [p'|]; [|done]. cbn [mbind option_bind]. intros E%port_events_kept. by apply kept_unpinged.
  - intros E. eapply kept_unpinged, on_conn_kept; [|exact E]. intros c q c' q'. apply manager_step_ping.
  - intros E. eapply kept_unpinged, on_conn_kept; [|exact E]. intros c q c' q' [= <- _]. apply OnReadyToSend_ping.
  - destruct (conns st !! connection) as [c|] eqn:Ec; [|done]. intros [= <-] b cb cb' Eb. cbn. destruct (decide (connection = b)) as [<-|Hnb].
    + rewrite lookup_insert_eq. intros [= <-]. cbn. congruence.
    + rewrite lookup_insert_ne by done. fold (conns st). congruence.
  - intros [= <-]. apply same_unpinged. unfold Channel_SetOption. destruct (find _ _) as [[? v]|]; [by destruct (v =? value)|done].
  - unfold SendPacket. destruct (negb _); [intros [= <-]; by apply same_unpinged|]. destruct (best st) as [b|]; [|intros [= <-]; by apply same_unpinged].
    destruct (conns st !! b) as [c|]; [|done]. cbn [mbind option_bind]. destruct (ports st !! cc_port c) as [p|]; [|done]. cbn [mbind option_bind].
    destruct (Connection_Send _ _ _) as [[] p']; [destruct (_ <=? 0); [done|]|]; intros [= <-]; by apply same_unpinged.
  - unfold take_posted. destruct (ch_posted st) as [|m l]; [intros [= <-]; by apply same_unpinged|]. intros E%message_unpinged; [exact E|]. by intros ->.
  - unfold take_timer. destruct (ch_timers st) as [|x l]; [intros [= <-]; by apply same_unpinged|]. destruct (TimeIsLater _ _); [intros [= <-]; by apply same_unpinged|].
    apply bool_decide_eq_false in Hn. intros E%message_unpinged; [exact E|done].
Qed.

(** ** The choice *)

Definition last_ping (st : P2PTransportChannel) (a : Z) : Z := match conns st !! a with Some c => last_ping_sent_ (cc_conn c) | None => 0 end.
Definition pingable (st : P2PTransportChannel) (a : Z) : Prop := ∃ c, conns st !! a = Some c ∧ IsPingable c st = true.
Lemma unpinged_last st st' a : unpinged st st' → is_Some (conns st !! a) → is_Some (conns st' !! a) → last_ping st' a = last_ping st a.
Proof. intros Hu [c Ec] [c' Ec']. unfold last_ping. rewrite Ec, Ec'. by apply (Hu a). Qed.
Lemma oldest_spec st l : ∀ o t r, oldest_pingable l o t st = Some r →
  ∃ t', t' ≤ t ∧ (∀ a, a ∈ l → pingable st a → t' ≤ last_ping st a) ∧
    (r = o ∧ t' = t ∨ ∃ b, r = Some b ∧ b ∈ l ∧ pingable st b ∧ last_ping st b = t').
Proof.
  induction l as [|a l IH]; intros o t r; cbn [oldest_pingable].
  - intros [= <-]. exists t. split; [done|]. split; [by intros a ?%elem_of_nil|by left].
  - destruct (conns st !! a) as [c|] eqn:Ec; [|done]. cbn [mbind option_bind]. assert (last_ping st a = last_ping_sent_ (cc_conn c)) as El by (unfold last_ping; by rewrite Ec).
    destruct (IsPingable c st && _) eqn:Et; intros (t' & Ht & Hall & Hr)%IH; exists t'.
    + apply andb_true_iff in Et as [Ep Et%Z.ltb_lt]. split; [lia|]. split.
      { intros b [->|Hb]%elem_of_cons Hp; [lia|by apply Hall]. }
      right. destruct Hr as [[-> ->]|(b & -> & Hb & Hr)]; [|exists b; split; [done|]; split; [by apply elem_of_cons; right|done]].
      exists a. split; [done|]. split; [apply list_elem_of_here|]. split; [by exists c|done].
    + split; [done|]. split.
      { intros b [->|Hb]%elem_of_cons Hp; [|by apply Hall]. destruct Hp as (c' & Ec' & Hp). rewrite Ec in Ec'. injection Ec' as <-.
        rewrite Hp in Et. apply Z.ltb_ge in Et. lia. }
      destruct Hr as [Hr|(b & -> & Hb & Hr)]; [by left|]. right. exists b. split; [done|]. split; [by apply elem_of_cons; right|done].
Qed.
(** The best connection, if its ping is overdue, or the one that has waited longest. *)
Definition overdue (now : Z) (st : P2PTransportChannel) (b : Z) : Prop :=
  best st = Some b ∧ u32 (last_ping st b + MAX_CURRENT_WRITABLE_DELAY) ≤ now.
Lemma next_spec now st x : FindNextPingableConnection now st = Some x →
  (∃ b, x = Some b ∧ overdue now st b) ∨
  (∀ a, a ∈ list_of st → pingable st a → last_ping st a < 4294967295 → ∃ b, x = Some b ∧ pingable st b ∧ last_ping st b ≤ last_ping st a) ∧
  (∀ b, x = Some b → pingable st b).
Proof.
  unfold FindNextPingableConnection. destruct (match best st with Some _ => _ | None => _ end) as [d|] eqn:Ed; [|done]. cbn [mbind option_bind].
  destruct d.
  - intros [= <-]. left. destruct (best st) as [b|] eqn:Eb; [|done]. exists b. split; [done|]. split; [done|]. unfold last_ping. destruct (conns st !! b) as [c|]; [|done].
    cbn in Ed. injection Ed as Ed. apply andb_true_iff in Ed as [_ Ed]. by apply Z.leb_le.
  - intros (t & Ht & Hall & Hr)%oldest_spec. right. split.
    + intros a Ha Hp Hs. specialize (Hall a Ha Hp). destruct Hr as [[-> ->]|(b & -> & Hb & Hpb & El)]; [lia|]. exists b. split; [done|]. split; [done|lia].
    + intros b ->. destruct Hr as [[? _]|(b' & [= <-] & _ & ? & _)]; done.
Qed.
(** What a ping of the channel does to its connections. *)
Record pinged_from (now : Z) (st1 st' : P2PTransportChannel) (x : option Z) : Prop := {
  pf_choice : FindNextPingableConnection now st1 = Some x;
  pf_list : list_of st' = list_of st1;
  pf_best : best st' = best st1;
  pf_writable : ch_writable (ch_sel st') = ch_writable (ch_sel st1);
  pf_others : ∀ a, x ≠ Some a → conns st' !! a = conns st1 !! a;
  pf_pinged : ∀ a, x = Some a → ∃ c, conns st' !! a = Some c ∧ last_ping_sent_ (cc_conn c) = now ∧ last (pings_since_last_response_ (cc_conn c)) = Some now
}.
Lemma Ping_done now a random p c c' : Ping now a random p c = Some c' → last_ping_sent_ c' = now ∧ last (pings_since_last_response_ c') = Some now ∧ conn_log c' = conn_log c.
Proof.
  unfold Ping. cbn zeta. destruct (local_candidate _ _); [|done]. cbn [mbind option_bind]. destruct (SendRequest _ _ _) as [m|]; [|done]. intros [= <-]. cbn. by rewrite last_snoc.
Qed.
Lemma OnPing_pinged now a random st st' : OnPing now a random st = Some st' →
  ∃ st1 x, UpdateConnectionStates now st = Some st1 ∧ pinged_from now st1 st' x.
Proof.
  unfold OnPing. destruct (UpdateConnectionStates now st) as [st1|]; [|done]. cbn [mbind option_bind].
  destruct (FindNextPingableConnection now st1) as [[b|]|] eqn:En; [..|done]; cbn [mbind option_bind].
  2: { intros [= <-]. by exists st1, None. }
  destruct (PingConnection b now a random st1) as [st2|] eqn:E2; [|done]. cbn [mbind option_bind]. intros [= <-]. exists st1, (Some b). split; [done|].
  unfold PingConnection in E2. destruct (view st1 b); [|done]. cbn [mbind option_bind] in E2. destruct (match best st1 with Some _ => _ | None => _ end); [|done].
  cbn [mbind option_bind] in E2. cbn zeta in E2. set (u := if standard st1 then _ else _) in *. unfold on_conn in E2.
  destruct (conns st1 !! b) as [cb|] eqn:Eb; [|done]. cbn [mbind option_bind] in E2. destruct (ports st1 !! cc_port cb) as [p|]; [|done]. cbn [mbind option_bind] in E2.
  destruct (Ping _ _ _ _ _) as [c'|] eqn:Ep; [|done]. cbn [mbind option_bind] in E2. apply Ping_done in Ep as (P1 & P2 & P3).
  change (conn_log (set_use_candidate_attr u (cc_conn cb))) with (conn_log (cc_conn cb)) in P3. rewrite P3, drop_all in E2. cbn [handle_events] in E2. injection E2 as <-.
  split; try done; cbn; fold (conns st1).
  - intros x Hx. rewrite lookup_insert_ne; [done|congruence].
  - intros x [= <-]. rewrite lookup_insert_eq. by eexists.
Qed.
Lemma ping_step_spec o now st st' : ping_step o now st = true → chan_step o now st = Some st' →
  ∃ st1 x, unpinged st st1 ∧ list_of st1 = list_of st ∧ (chan_wf st → chan_wf st1) ∧ pinged_from now st1 st' x.
Proof.
  intros Hp Hs. assert (∃ f g a random, OnPing now a random (on_thread f g st) = Some st') as (f & g & a & random & E).
  { destruct o; try done; cbn [ping_step chan_step] in Hp, Hs.
    - unfold take_posted in Hs. destruct (ch_posted st) as [|[] l]; try done. eexists (drop 1), id, _, _. exact Hs.
    - unfold take_timer in Hs. destruct (ch_timers st) as [|x l]; [done|]. destruct (TimeIsLater _ _); [done|]. apply bool_decide_eq_true in Hp. rewrite Hp in Hs.
      eexists id, (drop 1), _, _. exact Hs. }
  apply OnPing_pinged in E as (st1 & x & Eu & Hf). exists st1, x. unfold UpdateConnectionStates in Eu.
  assert (chan_wf st → chan_wf st1) as Hwf. { intros Hwf. apply update_states_wf in Eu as [? _]; [done|]. by apply (wf_frame st). }
  split; [apply kept_unpinged; by apply update_states_kept in Eu|]. split; [|by split].
  clear -Eu. assert (list_of st1 = list_of (on_thread f g st)) as ->; [|done]. revert Eu. generalize (list_of (on_thread f g st)) at 1. generalize (on_thread f g st).
  intros s l. revert s. induction l as [|b l IH]; intros s; cbn [update_states]; [by intros [= <-]|]. destruct (on_conn b _ s) as [s1|] eqn:E; [|done]. cbn [mbind option_bind].
  intros ->%IH. apply on_conn_done in E as (? & ? & ? & ? & _ & _ & _ & [_ _ _ Hc]). apply (cm_list _ _ _ Hc).
Qed.

(** ** Runs *)

Fixpoint ping_times (ops : list (chan_op * Z)) (st : P2PTransportChannel) : list Z :=
  match ops with
  | [] => []
  | (o, now) :: ops =>
      (if ping_step o now st then [now] else []) ++ match chan_step o now st with Some st' => ping_times ops st' | None => [] end
  end.
Fixpoint spaced (l : list Z) : bool :=
  match l with
  | t :: ((u :: _) as l) => (u <? t + MAX_CURRENT_WRITABLE_DELAY) && spaced l
  | _ => true
  end.
Definition is_pingable (st : P2PTransportChannel) (a : Z) : bool := match conns st !! a with Some c => IsPingable c st | None => false end.
(** All the time [a] is pingable, [b] is the best connection, and none is created. *)
Fixpoint steady (a : Z) (b : option Z) (ops : list (chan_op * Z)) (st : P2PTransportChannel) : bool :=
  is_pingable st a && bool_decide (best st = b) &&
  match ops with
  | [] => true
  | (o, now) :: ops =>
      match chan_step o now st with
      | Some st' => forallb (λ x, bool_decide (x ∈ list_of st)) (list_of st') && steady a b ops st'
      | None => true
      end
  end.
(** At some step of the run the channel pings [a]. *)
Definition pinged (a : Z) (ops : list (chan_op * Z)) (st : P2PTransportChannel) : Prop :=
  ∃ ops1 o now ops2 st1 st2 c, ops = ops1 ++ (o, now) :: ops2 ∧ chan_run ops1 st = Some st1 ∧ ping_step o now st1 = true ∧
    chan_step o now st1 = Some st2 ∧ conns st2 !! a = Some c ∧ last_ping_sent_ (cc_conn c) = now ∧
    last (pings_since_last_response_ (cc_conn c)) = Some now.
Lemma pinged_later a o now ops st st1 : chan_step o now st = Some st1 → pinged a ops st1 → pinged a ((o, now) :: ops) st.
Proof.
  intros E (ops1 & o' & now' & ops2 & s1 & s2 & c & -> & Er & Hp & Es & Hc). exists ((o, now) :: ops1), o', now', ops2, s1, s2, c. split; [done|].
  split; [cbn [chan_run]; by rewrite E|]. by split.
Qed.
Lemma is_pingable_spec st a : is_pingable st a = true ↔ pingable st a.
Proof. unfold is_pingable, pingable. destruct (conns st !! a) as [c|]; split; [by exists c|by intros (? & [= <-] & ?)|done|by intros (? & ? & ?)]. Qed.
Lemma steady_head a b ops st : steady a b ops st = true → pingable st a ∧ best st = b.
Proof.
  intros Hs. assert (is_pingable st a && bool_decide (best st = b) = true) as Hh by (destruct ops as [|[o now] ops]; apply andb_true_iff in Hs as [? _]; done).
  apply andb_true_iff in Hh as [Hp Hb]. split; [by apply is_pingable_spec|by apply bool_decide_eq_true in Hb].
Qed.
Lemma steady_step a b o now ops st st' : chan_step o now st = Some st' → steady a b ((o, now) :: ops) st = true →
  (∀ x, x ∈ list_of st' → x ∈ list_of st) ∧ steady a b ops st' = true.
Proof.
  intros E Hs. cbn [steady] in Hs. rewrite E in Hs. apply andb_true_iff in Hs as [_ Hs]. apply andb_true_iff in Hs as [Hl Hs]. split; [|done].
  intros x Hx. rewrite forallb_forall in Hl. specialize (Hl x (proj1 (list_elem_of_In _ _) Hx)). by apply bool_decide_eq_true in Hl.
Qed.
Lemma pingable_kept st1 st' now x a : pinged_from now st1 st' x → x ≠ Some a → pingable st' a → pingable st1 a.
Proof.
  intros Hf Hx (c & Ec & Hp). rewrite (pf_others _ _ _ _ Hf a Hx) in Ec. exists c. split; [done|]. unfold IsPingable in *. by rewrite <- (pf_writable _ _ _ _ Hf).
Qed.

(** The connections that come before [a]. *)
Definition behind (a s : Z) (st : P2PTransportChannel) : list Z := filter (λ b, b ≠ a ∧ last_ping st b ≤ s) (list_of st).
Lemma behind_sub a s st st' : NoDup (list_of st') → (∀ b, b ∈ list_of st' → b ∈ list_of st) →
  (∀ b, b ∈ list_of st' → b ≠ a → last_ping st' b ≤ s → last_ping st b ≤ s) → (length (behind a s st') ≤ length (behind a s st))%nat.
Proof.
  intros Hnd Hl Hp. apply submseteq_length, NoDup_submseteq; [by apply NoDup_filter|]. intros b [[Hn Hs] Hb]%list_elem_of_filter. apply list_elem_of_filter.
  split; [split; [done|by apply Hp]|by apply Hl].
Qed.
Lemma behind_drop a s st st' y : NoDup (list_of st') → (∀ b, b ∈ list_of st' → b ∈ list_of st) → y ∈ behind a s st → s < last_ping st' y →
  (∀ b, b ∈ list_of st' → b ≠ y → last_ping st' b = last_ping st b) → (S (length (behind a s st')) ≤ length (behind a s st))%nat.
Proof.
  intros Hnd Hl Hy Hs Hp. change (length (y :: behind a s st') ≤ length (behind a s st))%nat. apply submseteq_length, NoDup_submseteq.
  - apply NoDup_cons. split; [|by apply NoDup_filter]. intros [[_ ?] _]%list_elem_of_filter. lia.
  - intros b [->|[[Hn Hb] Hin]%list_elem_of_filter]%elem_of_cons; [done|]. apply list_elem_of_filter. destruct (decide (b = y)) as [->|Hne]; [lia|].
    rewrite <- (Hp b Hin Hne). split; [done|by apply Hl].
Qed.

(** One ping: [a] has its turn, or one less is before it, or it was the overdue best
    connection's. *)
Lemma ping_turn a s0 o now st st' : chan_wf st → ping_step o now st = true → chan_step o now st = Some st' →
  pingable st a → pingable st' a → last_ping st a = s0 → s0 < now → now < 4294967296 - MAX_CURRENT_WRITABLE_DELAY →
  (∃ c, conns st' !! a = Some c ∧ last_ping_sent_ (cc_conn c) = now ∧ last (pings_since_last_response_ (cc_conn c)) = Some now) ∨
  last_ping st' a = s0 ∧ (S (length (behind a s0 st')) ≤ length (behind a s0 st))%nat ∨
  last_ping st' a = s0 ∧ (length (behind a s0 st') ≤ length (behind a s0 st))%nat ∧
    ∃ b, best st' = Some b ∧ b ∈ list_of st ∧ last_ping st' b = now ∧ u32 (last_ping st b + MAX_CURRENT_WRITABLE_DELAY) ≤ now.
Proof.
  intros Hwf Hp Hs Ha Ha' Es0 Hnow Hmax. destruct (ping_step_spec _ _ _ _ Hp Hs) as (st1 & x & Hu & El & Hwf1 & Hf). specialize (Hwf1 Hwf).
  destruct (decide (x = Some a)) as [->|Hx]; [left; by apply (pf_pinged _ _ _ _ Hf a)|]. right.
  assert (∀ b, b ∈ list_of st → last_ping st1 b = last_ping st b) as Hlp.
  { intros b Hb. apply unpinged_last; [done|by apply (wf_live _ Hwf)|]. apply (wf_live _ Hwf1). by rewrite El. }
  assert (∀ b, x ≠ Some b → last_ping st' b = last_ping st1 b) as Hoth by (intros b Hb; unfold last_ping; by rewrite (pf_others _ _ _ _ Hf b Hb)).
  assert (list_of st' = list_of st) as El' by (by rewrite (pf_list _ _ _ _ Hf)).
  assert (a ∈ list_of st) as Hin. { destruct Ha as (c & Ec & _). apply (wf_live _ Hwf). by eexists. }
  pose proof (pingable_kept _ _ _ _ _ Hf Hx Ha') as Ha1. assert (last_ping st1 a = s0) as Es1 by (by rewrite Hlp).
  assert (last_ping st' a = s0) as Es' by (by rewrite Hoth).
  assert (∀ y, x = Some y → y ∈ list_of st → last_ping st' y = now) as Hy.
  { intros y Ey _. destruct (pf_pinged _ _ _ _ Hf y Ey) as (c & Ec & E & _). unfold last_ping. by rewrite Ec. }
  assert (∀ y, x = Some y → y ∈ list_of st → last_ping st y ≤ s0 → (S (length (behind a s0 st')) ≤ length (behind a s0 st))%nat) as Hdrop.
  { intros y Ey Hyl Hle. apply (behind_drop a s0 st st' y); rewrite ?El'; [by apply wf_nodup|done| |by rewrite Hy|].
    - apply list_elem_of_filter. split; [split; [congruence|done]|done].
    - intros b Hb Hne. rewrite Hoth by congruence. by apply Hlp. }
  destruct (next_spec _ _ _ (pf_choice _ _ _ _ Hf)) as [(y & -> & Eb & Hov)|[Hall Hpx]].
  - assert (y ∈ list_of st) as Hyl by (rewrite <- El; by apply (wf_best _ Hwf1)). destruct (Z.le_gt_cases (last_ping st y) s0); [left; split; [done|by eapply Hdrop]|].
    right. split; [done|]. split; [|exists y; rewrite (pf_best _ _ _ _ Hf), (Hy y), <- (Hlp y); done].
    apply behind_sub; rewrite ?El'; [by apply wf_nodup|done|]. intros b Hb _ Hle. destruct (decide (b = y)) as [->|Hne]; [rewrite Hy in Hle by done; lia|].
    rewrite <- Hlp, <- Hoth by (done || congruence). done.
  - left. split; [done|]. destruct (Hall a) as (y & Ey & Hpy & Hle); [by rewrite El|done|unfold MAX_CURRENT_WRITABLE_DELAY in *; lia|].
    assert (y ∈ list_of st) as Hyl. { rewrite <- El. destruct Hpy as (c & Ec & _). apply (wf_live _ Hwf1). by eexists. }
    apply (Hdrop y); [done|done|]. rewrite <- Hlp by done. lia.
Qed.

Definition in_time (s t : Z) : Prop := 0 ≤ t ∧ s < t ∧ t < 4294967296 - MAX_CURRENT_WRITABLE_DELAY.
(** [prev] is the time of a ping of the best connection that was just made. *)
Lemma turns a b0 s0 ops : ∀ st st' prev, chan_wf st → chan_run ops st = Some st' → steady a b0 ops st = true → last_ping st a = s0 →
  Forall (in_time s0) (ping_times ops st) → spaced (option_list prev ++ ping_times ops st) = true →
  (∀ t, prev = Some t → 0 ≤ t < 4294967296 - MAX_CURRENT_WRITABLE_DELAY ∧ ∃ b, b0 = Some b ∧ last_ping st b = t) →
  (2 * length (behind a s0 st) + 2 ≤ length (ping_times ops st) + length (option_list prev))%nat → pinged a ops st.
Proof.
  induction ops as [|[o now] ops IH]; intros st st' prev Hwf Hrun Hst Es Ht Hsp Hprev Hn.
  { exfalso. destruct prev; cbn in Hn; lia. }
  destruct (steady_head _ _ _ _ Hst) as [Ha Hb]. cbn [chan_run] in Hrun. destruct (chan_step o now st) as [st1|] eqn:E; [|done]. cbn [mbind option_bind] in Hrun.
  destruct (steady_step _ _ _ _ _ _ _ E Hst) as [Hl Hst1]. destruct (steady_head _ _ _ _ Hst1) as [Ha1 Hb1]. pose proof (chan_step_wf _ _ _ _ Hwf E) as Hwf1.
  assert (∀ b, b ∈ list_of st1 → is_Some (conns st !! b) ∧ is_Some (conns st1 !! b)) as Hlive.
  { intros b Hin. split; [by apply (wf_live _ Hwf), Hl|by apply (wf_live _ Hwf1)]. }
  assert (a ∈ list_of st1) as Hin1. { destruct Ha1 as (c & Ec & _). apply (wf_live _ Hwf1). by eexists. }
  cbn [ping_times] in Ht, Hsp, Hn. rewrite E in Ht, Hsp, Hn. destruct (ping_step o now st) eqn:Ep.
  - apply Forall_app in Ht as [Hnow Ht]. apply Forall_singleton in Hnow as (Hpos & Hnow & Hmax).
    destruct (ping_turn a s0 o now st st1) as [(c & Hc)|[[E1 Hle]|(E1 & Hle & b & Eb & Hbl & Elb & Hov)]]; try done.
    + exists [], o, now, ops, st, st1, c. done.
    + eapply pinged_later; [exact E|]. apply (IH st1 st' None); try done; [|rewrite length_app in Hn; destruct prev; cbn in *; lia].
      destruct prev; cbn in Hsp |- *; destruct (ping_times ops st1) as [|u l]; try done; [by apply andb_true_iff in Hsp as [_ Hsp]; apply andb_true_iff in Hsp as [_ ?]|].
      by apply andb_true_iff in Hsp as [_ ?].
    + eapply pinged_later; [exact E|]. destruct prev as [t|].
      { exfalso. destruct (Hprev t eq_refl) as (Ht0 & b' & Eb' & Elt). rewrite Hb1, Eb' in Eb. injection Eb as ->. rewrite Elt in Hov. cbn in Hsp.
        apply andb_true_iff in Hsp as [Hsp%Z.ltb_lt _]. unfold u32, MAX_CURRENT_WRITABLE_DELAY in *. rewrite Z.mod_small in Hov by lia. lia. }
      apply (IH st1 st' (Some now)); try done; [|rewrite length_app in Hn; cbn in *; lia].
      intros t [= <-]. split; [done|]. exists b. by rewrite <- Hb1.
  - cbn [app] in *. eapply pinged_later; [exact E|]. pose proof (other_step _ _ _ _ Ep E) as Hu.
    assert (∀ b, b ∈ list_of st1 → last_ping st1 b = last_ping st b) as Hlp by (intros b Hbl; destruct (Hlive b Hbl); by apply unpinged_last).
    apply (IH st1 st' prev); try done.
    + by rewrite Hlp.
    + intros t Et. destruct (Hprev t Et) as (Ht0 & b & Eb & Elt). split; [done|]. exists b. split; [done|]. rewrite Hlp; [done|]. apply (wf_best _ Hwf1). by rewrite Hb1.
    + assert (length (behind a s0 st1) ≤ length (behind a s0 st))%nat as Hle; [|lia]. apply behind_sub; [by apply wf_nodup|done|]. intros b Hbl _. by rewrite Hlp.
Qed.

(** C9. No connection is left out: in a run of a channel, whatever else happens in it,
    let a connection be pingable all the time, the best connection stay the same and no
    connection be created.  If the pings of the channel come less than 900 ms after each
    other, later than the last ping of the connection and before the clock comes near
    its wrap, then the connection is pinged at the latest by the ping number twice the
    number of the connections. *)
Theorem channel_pings_all pre component supply st ops st' a :
  chan_run pre (P2PTransportChannel_new component supply) = Some st → chan_run ops st = Some st' →
  steady a (best st) ops st = true → spaced (ping_times ops st) = true → Forall (in_time (last_ping st a)) (ping_times ops st) →
  (2 * length (list_of st) ≤ length (ping_times ops st))%nat → pinged a ops st.
Proof.
  intros Hpre Hrun Hst Hsp Ht Hn. pose proof (run_wf _ _ _ (new_wf _ _) Hpre) as Hwf. destruct (steady_head _ _ _ _ Hst) as [(c & Ec & _) _].
  apply (turns a (best st) (last_ping st a) ops st st' None); try done.
  assert (length (a :: behind a (last_ping st a) st) ≤ length (list_of st))%nat as Hle.
  { apply submseteq_length, NoDup_submseteq.
    - apply NoDup_cons. split; [by intros [[? _] _]%list_elem_of_filter|]. by apply NoDup_filter, wf_nodup.
    - intros b [->|[_ ?]%list_elem_of_filter]%elem_of_cons; [|done]. apply (wf_live _ Hwf). by eexists. }
  cbn in Hle |- *. lia.
Qed.

(** ** After the wrap *)

(** All the time [a] and [b] are pingable and [a] is not the best connection. *)
Fixpoint waiting (a b : Z) (ops : list (chan_op * Z)) (st : P2PTransportChannel) : bool :=
  is_pingable st a && is_pingable st b && negb (bool_decide (best st = Some a)) &&
  match ops with
  | [] => true
  | (o, now) :: ops => match chan_step o now st with Some st' => waiting a b ops st' | None => true end
  end.
Lemma waiting_head a b ops st : waiting a b ops st = true → pingable st a ∧ pingable st b ∧ best st ≠ Some a.
Proof.
  intros Hs. assert (is_pingable st a && is_pingable st b && negb (bool_decide (best st = Some a)) = true) as Hh
    by (destruct ops as [|[o now] ops]; apply andb_true_iff in Hs as [? _]; done).
  apply andb_true_iff in Hh as [Hh Hb]. apply andb_true_iff in Hh as [Ha Hp]. rewrite <- !is_pingable_spec. split; [done|]. split; [done|].
  by apply negb_true_iff, bool_decide_eq_false in Hb.
Qed.
Lemma passed_over a b o now st st' : chan_wf st → ping_step o now st = true → chan_step o now st = Some st' → pingable st a → pingable st b →
  pingable st' b → best st' ≠ Some a → last_ping st b < last_ping st a < 4294967296 → now < last_ping st a →
  last_ping st' a = last_ping st a ∧ last_ping st' b < last_ping st a.
Proof.
  intros Hwf Hp Hs (ca & Eca & _) (cb & Ecb & _) Hb' Hbest Hlt Hnow. destruct (ping_step_spec _ _ _ _ Hp Hs) as (st1 & x & Hu & El & Hwf1 & Hf). specialize (Hwf1 Hwf).
  assert (∀ d c, conns st !! d = Some c → d ∈ list_of st1) as Hin by (intros d c Ed; rewrite El; apply (wf_live _ Hwf); by eexists).
  assert (∀ d c, conns st !! d = Some c → last_ping st1 d = last_ping st d) as Hlp.
  { intros d c Ed. apply unpinged_last; [done|by eexists|]. apply (wf_live _ Hwf1). by eapply Hin. }
  assert (∀ d, x ≠ Some d → last_ping st' d = last_ping st1 d) as Hoth by (intros d Hd; unfold last_ping; by rewrite (pf_others _ _ _ _ Hf d Hd)).
  assert (x ≠ Some a) as Hxa.
  { intros ->. assert (Some a ≠ Some b) as Hab by (intros [= ->]; lia). pose proof (pingable_kept _ _ _ _ _ Hf Hab Hb') as Hb1.
    destruct (next_spec _ _ _ (pf_choice _ _ _ _ Hf)) as [(y & [= <-] & Eb & _)|[Hall _]]; [by rewrite (pf_best _ _ _ _ Hf) in Hbest|].
    destruct (Hall b) as (y & [= <-] & _ & Hle); [by eapply Hin|done|rewrite (Hlp b cb) by done; lia|]. rewrite (Hlp a ca), (Hlp b cb) in Hle by done. lia. }
  rewrite (Hoth a), (Hlp a ca) by done. split; [done|]. destruct (decide (x = Some b)) as [->|Hxb]; [|rewrite (Hoth b), (Hlp b cb) by done; lia].
  destruct (pf_pinged _ _ _ _ Hf b eq_refl) as (c & Ec & E & _). unfold last_ping at 1. rewrite Ec. lia.
Qed.
Lemma starved a b ops : ∀ st st', chan_wf st → chan_run ops st = Some st' → waiting a b ops st = true → last_ping st b < last_ping st a < 4294967296 →
  Forall (λ t, t < last_ping st a) (ping_times ops st) → ¬ pinged a ops st.
Proof.
  induction ops as [|[o now] ops IH]; intros st st' Hwf Hrun Hw Hlt Ht; [by intros (ops1 & ? & ? & ? & ? & ? & ? & E & _); destruct ops1|].
  destruct (waiting_head _ _ _ _ Hw) as (Ha & Hb & _). cbn [chan_run] in Hrun. destruct (chan_step o now st) as [st1|] eqn:E; [|done]. cbn [mbind option_bind] in Hrun.
  cbn [waiting] in Hw. rewrite E in Hw. apply andb_true_iff in Hw as [_ Hw1]. destruct (waiting_head _ _ _ _ Hw1) as (Ha1 & Hb1 & Hbest).
  pose proof (chan_step_wf _ _ _ _ Hwf E) as Hwf1. cbn [ping_times] in Ht. rewrite E in Ht. apply Forall_app in Ht as [Hnow Ht].
  assert (last_ping st1 a = last_ping st a ∧ last_ping st1 b < last_ping st a ∧ (ping_step o now st = true → now < last_ping st a)) as (E1 & E2 & E3).
  { destruct (ping_step o now st) eqn:Ep.
    - apply Forall_cons_1 in Hnow as [Hnow _]. destruct (passed_over a b o now st st1) as [? ?]; done.
    - pose proof (other_step _ _ _ _ Ep E) as Hu. destruct Ha as (? & ? & _), Hb as (? & ? & _), Ha1 as (? & ? & _), Hb1 as (? & ? & _).
      rewrite !(unpinged_last st st1) by (done || by eexists). split; [done|]. split; [lia|done]. }
  intros (ops1 & o' & now' & ops2 & s1 & s2 & c & Eops & Er & Hp & Es & Ec & El & Hl). destruct ops1 as [|[o1 n1] ops1].
  - injection Eops as <- <- <-. injection Er as <-. rewrite E in Es. injection Es as <-. unfold last_ping at 1 in E1. rewrite Ec in E1. specialize (E3 Hp). lia.
  - injection Eops as <- <- ->. cbn [chan_run] in Er. rewrite E in Er. cbn [mbind option_bind] in Er. eapply (IH st1 st'); try done; [lia|by rewrite E1|].
    by exists ops1, o', now', ops2, s1, s2, c.
Qed.
(** C40. The choice compares the times of the last pings as numbers, so after the wrap of
    the clock a connection that was pinged before it is passed over: whatever happens in
    a run, as long as another connection with an earlier time is pingable, the best
    connection is a different one, and the clock has not come back to the time of its
    last ping, it is not pinged, although it is pingable all the time. *)
Theorem channel_wrap_starves pre component supply st ops st' a b :
  chan_run pre (P2PTransportChannel_new component supply) = Some st → chan_run ops st = Some st' → waiting a b ops st = true →
  last_ping st b < last_ping st a < 4294967296 → Forall (λ t, t < last_ping st a) (ping_times ops st) → ¬ pinged a ops st.
Proof. intros Hpre. pose proof (run_wf _ _ _ (new_wf _ _) Hpre) as Hwf. by apply starved. Qed.
End ping.

(** ** Witnesses *)

Section sample.
#[local] Existing Instance zero_platform.

(** Pings every 48 ms, with their requests. *)
Definition timers (t n : Z) : list (chan_op * Z) := (λ k, (CTimer (10 + k) (seqZ (20 + k) 12), t + 48 * k)) <$> seqZ 0 n.
Definition two_remotes : list (chan_op * Z) := set_up ICEROLE_CONTROLLING 1000 [remote_at 3 100; remote_at 2 200].
Definition first_ping : list (chan_op * Z) := [(CPosted 5 sample_id, 1010)].
Definition four_pings : list (chan_op * Z) := first_ping ++ timers 1058 3.
Lemma at_times (P : Z → Z → Prop) (s s' : Z) (l l' : list Z) : s = s' → l = l' → Forall (P s') l' → Forall (P s) l.
Proof. by intros -> ->. Qed.
Lemma channel_pings_all_witness :
  list_of (ran two_remotes) = [101; 100] ∧ ping_times four_pings (ran two_remotes) = [1010; 1058; 1106; 1154] ∧ pinged 100 four_pings (ran two_remotes).
Proof.
  assert (ping_times four_pings (ran two_remotes) = [1010; 1058; 1106; 1154]) as Et by (vm_compute; reflexivity).
  split; [vm_compute; reflexivity|]. split; [exact Et|].
  assert (chan_run two_remotes (P2PTransportChannel_new 1 [100; 101]) = Some (ran two_remotes)) as Hpre by (vm_compute; reflexivity).
  assert (chan_run four_pings (ran two_remotes) = Some (ran (two_remotes ++ four_pings))) as Hrun by (vm_compute; reflexivity).
  assert (steady 100 (best (ran two_remotes)) four_pings (ran two_remotes) = true) as Hst by (vm_compute; reflexivity).
  assert (spaced (ping_times four_pings (ran two_remotes)) = true) as Hsp by (vm_compute; reflexivity).
  assert (last_ping (ran two_remotes) 100 = 0) as El by (vm_compute; reflexivity).
  assert (Forall (in_time 0) [1010; 1058; 1106; 1154]) as Hin by (repeat apply Forall_cons_2; try apply Forall_nil_2; unfold in_time, MAX_CURRENT_WRITABLE_DELAY; lia).
  assert (Nat.leb (2 * length (list_of (ran two_remotes))) (length (ping_times four_pings (ran two_remotes))) = true) as Hn by (vm_compute; reflexivity).
  exact (channel_pings_all two_remotes 1 [100; 101] (ran two_remotes) four_pings _ 100 Hpre Hrun Hst Hsp (at_times in_time _ _ _ _ El Et Hin) (proj1 (Nat.leb_le _ _) Hn)).
Defined.

(** A controlled channel whose peer has answered before the wrap and has not chosen; it
    learns of a second address after the wrap. *)
Definition before_wrap : list (chan_op * Z) := checked ICEROLE_CONTROLLED ICEROLE_CONTROLLING 4294960000 100 [remote_at 2 100].
Definition past_wrap : list (chan_op * Z) :=
  before_wrap ++ [(CPosted 5 sample_id, 4294960050)] ++ timers 4294960100 1 ++ [(CCandidate (remote_at 3 200), 100)].
Definition five_pings : list (chan_op * Z) := timers 148 5.
Lemma channel_wrap_starves_witness :
  ping_times five_pings (ran past_wrap) = [148; 196; 244; 292; 340] ∧ last_ping (ran past_wrap) 100 = 4294960100 ∧ ¬ pinged 100 five_pings (ran past_wrap).
Proof.
  assert (ping_times five_pings (ran past_wrap) = [148; 196; 244; 292; 340]) as Et by (vm_compute; reflexivity).
  assert (last_ping (ran past_wrap) 100 = 4294960100) as Ea by (vm_compute; reflexivity).
  assert (last_ping (ran past_wrap) 101 = 0) as Eb by (vm_compute; reflexivity). split; [exact Et|]. split; [exact Ea|].
  assert (chan_run past_wrap (P2PTransportChannel_new 1 [100; 101]) = Some (ran past_wrap)) as Hpre by (vm_compute; reflexivity).
  assert (chan_run five_pings (ran past_wrap) = Some (ran (past_wrap ++ five_pings))) as Hrun by (vm_compute; reflexivity).
  assert (waiting 100 101 five_pings (ran past_wrap) = true) as Hw by (vm_compute; reflexivity).
  assert (last_ping (ran past_wrap) 101 < last_ping (ran past_wrap) 100 < 4294967296) as Hlt by (rewrite Ea, Eb; lia).
  assert (Forall (λ t, t < 4294960100) [148; 196; 244; 292; 340]) as Hin by (repeat apply Forall_cons_2; try apply Forall_nil_2; lia).
  exact (channel_wrap_starves past_wrap 1 [100; 101] (ran past_wrap) five_pings _ 100 101 Hpre Hrun Hw Hlt (at_times (λ s t, t < s) _ _ _ _ Ea Et Hin)).
Defined.
End sample.
