(* ===== verification/IceChannelSafe.v ===== *)
(** * Operations of a channel that do not fail

    The invariant of a channel whose owner, ports and network do what they promise, the
    laws of a class of ports, and that operations of connections, sorting, the creation of
    connections and packets are defined and keep the invariant.  [IceChannelRun] has the
    other operations and the runs. *)

From stdpp Require Import strings.
From S2P Require Import Prelude ByteOrder ByteBuffer Crc32 IpAddress Stun StunWire StunIntegrity StunBuild TimeUtils MessageQueue StunRequest IcePort IceConnection IceChannel IceChannelInv IceChannelSort IceChannelPing.

Section safe.
Context `{Platform}.

(** ** A port *)

(** What operations leave of a port; they signal no unknown address. *)
Definition quiet (e : port_event) : Prop := match e with SignalUnknownAddress _ _ _ => False | _ => True end.
Record port_near (p p' : Port) : Prop := {
  pk_protocol : ice_protocol_ p' = ice_protocol_ p;
  pk_role : ice_role_ p' = ice_role_ p;
  pk_password : password_ p' = password_ p;
  pk_candidates : ∃ l, candidates_ p' = candidates_ p ++ l
}.
Record port_kept (p p' : Port) : Prop := {
  pk_near : port_near p p';
  pk_log : ∃ l, port_log p' = port_log p ++ l ∧ Forall quiet l
}.
Lemma port_near_refl p : port_near p p.
Proof. split; try done; exists []; by rewrite app_nil_r. Qed.
Lemma port_near_trans p q r : port_near p q → port_near q r → port_near p r.
Proof. intros [? ? ? [l El]] [? ? ? [k Ek]]. split; try congruence. exists (l ++ k). by rewrite Ek, El, app_assoc. Qed.
Lemma port_emit_near e p : port_near p (port_emit e p).
Proof. split; try done. exists []. cbn. by rewrite app_nil_r. Qed.
Lemma port_kept_refl p : port_kept p p.
Proof. split; [apply port_near_refl|]. exists []. by rewrite app_nil_r. Qed.
Lemma port_kept_trans p q r : port_kept p q → port_kept q r → port_kept p r.
Proof.
  intros [A (m & Em & Hm)] [B (n & En & Hn)]. split; [by eapply port_near_trans|]. exists (m ++ n). rewrite En, Em, app_assoc. split; [done|]. by apply Forall_app.
Qed.
Lemma port_emit_kept e p : quiet e → port_kept p (port_emit e p).
Proof. intros He. split; [apply port_emit_near|]. exists [e]. split; [done|]. by constructor. Qed.
Lemma error_kept m addr code reason p : port_kept p (SendBindingErrorResponse m addr code reason p).
Proof. by apply port_emit_kept. Qed.
Lemma response_kept m addr p : port_kept p (SendBindingResponse m addr p).
Proof. unfold SendBindingResponse. destruct (GetByteString _ _); [by apply port_emit_kept|apply port_kept_refl]. Qed.
Lemma conflict_kept addr m u p ok p' : MaybeIceRoleConflict addr m u p = (ok, p') → port_kept p p'.
Proof.
  unfold MaybeIceRoleConflict. cbn zeta. repeat case_match; intros [= _ <-]; try apply port_kept_refl; try apply error_kept; by apply port_emit_kept.
Qed.
(** Reading a message: the port is not a hybrid one, and the check of the HMAC does not
    read outside of the packet. *)
Lemma GetStunMessage_safe data addr p : IsHybridIce p = false → is_Some (ValidateMessageIntegrity data (password_ p)) →
  ∃ is_stun msg user p', GetStunMessage data addr p = Some (is_stun, msg, user, p') ∧ port_kept p p'.
Proof.
  intros Hh [v Hv]. unfold GetStunMessage. rewrite Hh. cbn zeta. rewrite Hv. cbn [mbind option_bind].
  repeat case_match; eexists _, _, _, _; (split; [reflexivity|]); try apply port_kept_refl; apply error_kept.
Qed.

(** ** A connection and its port *)

Definition candidate_of (p : Port) (c : Connection) : Prop := is_Some (local_candidate p c).
Lemma candidate_kept p p' c : port_near p p' → candidate_of p c → candidate_of p' c.
Proof. intros [_ _ _ [l El]] [x Ex]. exists x. unfold local_candidate in *. rewrite El. by apply lookup_app_l_Some. Qed.
Definition conn_ok (p : Port) (c : Connection) : Prop := mgr_inv (conn_requests c) ∧ candidate_of p c.
Definition may_use (p : Port) : Prop := ice_protocol_ p = ICEPROTO_RFC5245 ∧ ice_role_ p = ICEROLE_CONTROLLED.
Record conn_step (p : Port) (c : Connection) (p' : Port) (c' : Connection) : Prop := {
  cs_port : port_kept p p';
  cs_remote : remote_candidate_ c' = remote_candidate_ c;
  cs_ok : conn_ok p' c';
  cs_log : ∃ l, conn_log c' = conn_log c ++ l ∧ (SignalUseCandidate ∈ l → may_use p)
}.
(** Operations of the connection alone, without the requests. *)
Record conn_touch (c c' : Connection) : Prop := {
  ct_remote : remote_candidate_ c' = remote_candidate_ c;
  ct_requests : conn_requests c' = conn_requests c;
  ct_index : local_candidate_index_ c' = local_candidate_index_ c;
  ct_log : ∃ l, conn_log c' = conn_log c ++ l ∧ SignalUseCandidate ∉ l
}.
Lemma touch_same c c' : remote_candidate_ c' = remote_candidate_ c → conn_requests c' = conn_requests c →
  local_candidate_index_ c' = local_candidate_index_ c → conn_log c' = conn_log c → conn_touch c c'.
Proof. intros ? ? ? E. split; try done. exists []. rewrite E, app_nil_r. split; [done|apply not_elem_of_nil]. Qed.
Lemma touch_refl c : conn_touch c c.
Proof. by apply touch_same. Qed.
Lemma touch_trans a b c : conn_touch a b → conn_touch b c → conn_touch a c.
Proof.
  intros [? ? ? (l & El & Hl)] [? ? ? (k & Ek & Hk)]. split; try congruence. exists (l ++ k). rewrite Ek, El, app_assoc. split; [done|]. by rewrite elem_of_app; intros [].
Qed.
Lemma touch_emit x c : x ≠ SignalUseCandidate → conn_touch c (conn_emit x c).
Proof. intros Hx. split; try done. exists [x]. split; [done|]. intros ?%list_elem_of_singleton. congruence. Qed.
Lemma touch_timeout c : conn_touch c (Connection_CheckTimeout c).
Proof. unfold Connection_CheckTimeout. destruct (_ && _); [by apply touch_emit|apply touch_refl]. Qed.
Lemma touch_write v c : conn_touch c (set_write_state v c).
Proof.
  unfold set_write_state. cbn zeta. destruct (bool_decide _); [by apply touch_same|].
  apply (touch_trans _ (with_write_state v c)); [by apply touch_same|]. eapply touch_trans; [|apply touch_timeout]. by apply touch_emit.
Qed.
Lemma touch_read v c : conn_touch c (set_read_state v c).
Proof.
  unfold set_read_state. cbn zeta. destruct (bool_decide _); [by apply touch_same|].
  apply (touch_trans _ (with_read_state v c)); [by apply touch_same|]. eapply touch_trans; [|apply touch_timeout]. by apply touch_emit.
Qed.
Lemma touch_received now c : conn_touch c (ReceivedPing now c).
Proof. unfold ReceivedPing. eapply touch_trans; [|apply touch_read]. by apply touch_same. Qed.
Lemma touch_revive c : conn_touch c (revive c).
Proof. unfold revive. destruct (_ && _); [apply touch_write|apply touch_refl]. Qed.
Lemma touch_if (b : bool) c x : conn_touch c x → conn_touch c (if b then x else c).
Proof. destruct b; [done|]. intros _. apply touch_refl. Qed.
Lemma touch_update now p c : conn_touch c (UpdateState now p c).
Proof.
  unfold UpdateState. cbv zeta. set (c1 := if (_ && _ : bool) then set_read_state _ c else c). set (c2 := if (_ && _ : bool) then set_write_state STATE_WRITE_UNRELIABLE c1 else c1).
  apply (touch_trans _ c1); [apply touch_if, touch_read|]. apply (touch_trans _ c2); [apply touch_if, touch_write|]. apply touch_if, touch_write.
Qed.
Lemma touch_step p c p' c' : conn_ok p c → port_kept p p' → conn_touch c c' → conn_step p c p' c'.
Proof.
  intros [Hm Hc] Hp [Er Eq Ei (l & El & Hl)]. split; [done|done| |by exists l]. split; [by rewrite Eq|]. apply (candidate_kept p); [apply Hp|].
  unfold candidate_of, local_candidate in *. by rewrite Ei.
Qed.

(** Operations on the requests. *)
Lemma Prune_safe p c : conn_ok p c → ∃ c', Prune c = Some c' ∧ conn_step p c p c'.
Proof.
  intros [Hm Hc]. unfold Prune. destruct (pruned_ c); [exists c; split; [done|]; apply touch_step; [done|apply port_kept_refl|apply touch_refl]|]. cbn zeta.
  destruct (Clear_inv _ Hm) as (m & E & Hm'). change (conn_requests (set_pruned c)) with (conn_requests c). rewrite E. cbn [mbind option_bind]. eexists. split; [done|].
  destruct (touch_write STATE_WRITE_TIMEOUT (set_conn_requests m (set_pruned c))) as [Er Eq Ei (l & El & Hl)]. split; [apply port_kept_refl|done| |by exists l].
  split; [by rewrite Eq|]. unfold candidate_of, local_candidate in *. by rewrite Ei.
Qed.
Lemma Ping_safe now a random p c : conn_ok p c → (∀ k : ConnectionRequest, stun_op_ok (conn_requests c) (ONew a k (StunMessage_new CIce) random)) →
  ∃ c', Ping now a random p c = Some c' ∧ conn_step p c p c'.
Proof.
  intros [Hm [lc Hc]] Hn. unfold Ping. cbn zeta. set (c1 := set_pings _ _). change (local_candidate p c1) with (local_candidate p c). rewrite Hc. cbn [mbind option_bind].
  set (k := mkPing _ _ _ _ _ _). specialize (Hn k). pose proof (new_request_inv _ _ _ _ _ Hn Hm) as Hm1. unfold SendRequest.
  change (conn_requests c1) with (conn_requests c). 
  assert (stun_op_ok (new_request a k (StunMessage_new CIce) random (conn_requests c)) (OSendDelayed a 0 now)) as Hs by (cbn; by rewrite lookup_insert_eq).
  destruct (SendDelayed_inv a 0 now _ Hs Hm1) as (m & -> & Hm2). cbn [mbind option_bind].
  eexists. split; [done|]. split; [apply port_kept_refl|done|split; [done|by exists lc]|]. exists []. cbn. rewrite app_nil_r. split; [done|by intros ?%elem_of_nil].
Qed.
Lemma prflx_safe r m p c : candidate_of p c → ∃ c' p', MaybeAddPrflxCandidate r m c p = Some (c', p') ∧ port_kept p p' ∧ candidate_of p' c' ∧
  remote_candidate_ c' = remote_candidate_ c ∧ conn_requests c' = conn_requests c ∧ ∃ l, conn_log c' = conn_log c ++ l ∧ SignalUseCandidate ∉ l.
Proof.
  intros [lc Hc]. assert (∃ l, conn_log c = conn_log c ++ l ∧ SignalUseCandidate ∉ l) as Hl by (exists []; rewrite app_nil_r; split; [done|apply not_elem_of_nil]).
  assert (candidate_of p c) as Hc' by (by exists lc). unfold MaybeAddPrflxCandidate.
  destruct (GetAddress _ _); [|exists c, p; split; [done|]; split; [apply port_kept_refl|done]].
  destruct (existsb _ _); [exists c, p; split; [done|]; split; [apply port_kept_refl|done]|].
  destruct (GetUInt32 _ _); [|exists c, p; split; [done|]; split; [apply port_kept_refl|done]]. rewrite Hc. cbn [mbind option_bind AddPrflxCandidate].
  eexists _, _. split; [reflexivity|]. split; [split; [by split; try done; eexists|exists []; by rewrite app_nil_r]|]. split.
  - eexists. unfold local_candidate. cbn. unfold zlen. rewrite Nat2Z.id. by apply list_lookup_middle.
  - split; [done|]. split; [done|]. eexists [_]. split; [reflexivity|]. by intros ?%list_elem_of_singleton.
Qed.
(** The callbacks: each response is for a request that was there. *)
Definition known (objs : gmap Z (StunRequest (K := ConnectionRequest))) (evs : list (Z * event (K := ConnectionRequest))) : Prop :=
  Forall (λ e, match e.2 with OnResponse _ => is_Some (objs !! e.1) | _ => True end) evs.
Lemma callbacks_safe objs now evs : ∀ p c, known objs evs → conn_ok p c → ∃ c' p', callbacks objs now evs c p = Some (c', p') ∧ conn_step p c p' c'.
Proof.
  induction evs as [|[a ev] evs IH]; intros p c Hk Hc; cbn [callbacks].
  { exists c, p. split; [done|]. apply touch_step; [done|apply port_kept_refl|apply touch_refl]. }
  apply Forall_cons_1 in Hk as [Ha Hk].
  enough (∃ c1 p1, match ev with
        | Sent packet _ => Some (c, port_emit (SendTo (c_address (remote_candidate_ c)) packet) p)
        | OnResponse m => r ← objs !! a; OnConnectionRequestResponse r m now c p
        | OnErrorResponse m => Some (OnConnectionRequestErrorResponse m c p)
        | OnTimeout _ | Created _ => Some (c, p)
        end = Some (c1, p1) ∧ conn_step p c p1 c1) as (c1 & p1 & -> & [Hp1 Er1 Ho1 (l1 & El1 & Hl1)]).
  { cbn [mbind option_bind]. destruct (IH p1 c1 Hk Ho1) as (c2 & p2 & E2 & [Hp2 Er2 Ho2 (l2 & El2 & Hl2)]). exists c2, p2. split; [exact E2|].
    split; [by eapply port_kept_trans|congruence|done|]. exists (l1 ++ l2). split; [by rewrite El2, El1, app_assoc|]. intros [|Hin]%elem_of_app; [by apply Hl1|].
    destruct (Hl2 Hin) as [E3 E4]. destruct Hp1 as [[E5 E6 _ _] _]. split; congruence. }
  destruct ev as [k|packet t|m|m|t]; cbn in Ha.
  - eexists _, _. split; [reflexivity|]. apply touch_step; [done|apply port_kept_refl|apply touch_refl].
  - eexists _, _. split; [reflexivity|]. apply touch_step; [done|by apply port_emit_kept|apply touch_refl].
  - destruct Ha as [r Er]. rewrite Er. cbn [mbind option_bind]. unfold OnConnectionRequestResponse. cbn zeta.
    set (c1 := set_state STATE_SUCCEEDED (set_write_state STATE_WRITABLE c)). set (c2 := if bool_decide (remote_ice_mode_ c1 = ICEMODE_LITE) then ReceivedPing now c1 else c1).
    set (c3 := set_response _ _ _). assert (conn_touch c c3) as Ht.
    { apply (touch_trans _ c1); [unfold c1; eapply touch_trans; [apply touch_write|by apply touch_same]|]. apply (touch_trans _ c2); [|by apply touch_same].
      unfold c2. destruct (bool_decide _); [apply touch_received|apply touch_refl]. }
    pose proof (touch_step p c p c3 Hc (port_kept_refl p) Ht) as [_ Er3 [Hm3 Hc3] (l3 & El3 & Hl3)].
    destruct (IsStandardIce p); [|eexists _, _; split; [reflexivity|]; by apply touch_step; [|apply port_kept_refl|]].
    destruct (prflx_safe r m p c3 Hc3) as (c4 & p4 & E4 & Hp4 & Hc4 & Er4 & Eq4 & l4 & El4 & Hl4). exists c4, p4. split; [exact E4|].
    split; [done|congruence|split; [by rewrite Eq4|done]|]. exists (l3 ++ l4). split; [by rewrite El4, El3, app_assoc|]. intros [|]%elem_of_app; [by apply Hl3|done].
  - destruct (OnConnectionRequestErrorResponse m c p) as [c1 p1] eqn:E1. exists c1, p1. split; [done|]. unfold OnConnectionRequestErrorResponse in E1. cbn zeta in E1.
    repeat (destruct (_ || _) || destruct (_ =? _)); injection E1 as <- <-; (apply touch_step; [done|try apply port_kept_refl; by apply port_emit_kept|try apply touch_refl]).
    eapply touch_trans; [|apply touch_write]. by apply touch_same.
  - eexists _, _. split; [reflexivity|]. apply touch_step; [done|apply port_kept_refl|apply touch_refl].
Qed.

(** What the manager logs. *)
Lemma ping_delete_log a m m' : delete_request (K := ConnectionRequest) a m = Some m' → log m' = log m.
Proof.
  unfold delete_request. destruct (objects m !! a) as [r|]; [|done]. cbn [mbind option_bind].
  destruct (if has_manager r then _ else _) as [m1|] eqn:E; [|done]. cbn [mbind option_bind]. intros [= <-]. cbn.
  destruct (has_manager r); [|by injection E as <-]. unfold Remove in E. destruct (objects m !! a); [|done]. cbn [mbind option_bind] in E.
  destruct (requests_ m !! _); cbn in E; by injection E as <-.
Qed.
Lemma CheckResponse_log msg m ok m' : CheckResponse (K := ConnectionRequest) msg m = Some (ok, m') → ∃ l, log m' = log m ++ l ∧ known (objects m) l.
Proof.
  assert (∃ l, log m = log m ++ l ∧ known (objects m) l) as Hnil by (exists []; rewrite app_nil_r; split; [done|constructor]).
  unfold CheckResponse. destruct (requests_ m !! _) as [a|]; [|by intros [= _ <-]]. destruct (objects m !! a) as [r|] eqn:Er; [|done]. cbn [mbind option_bind]. cbn zeta.
  destruct (_ =? _); [|destruct (_ =? _); [|by intros [= _ <-]]]; (destruct (delete_request a _) as [m1|] eqn:E; [|done]); intros [= _ <-]; apply ping_delete_log in E;
    (eexists; split; [exact E|]); (apply Forall_cons_2; [|constructor]); cbn; [by exists r|done].
Qed.
Lemma ping_dispatch_log now m m' : dispatch (K := ConnectionRequest) now m = Some m' → ∃ l, log m' = log m ++ l ∧ known (objects m) l.
Proof.
  assert (∀ l : list (Z * event (K := ConnectionRequest)), l = [] → ∃ k, log m ++ l = log m ++ k ∧ known (objects m) k) as Hnil by (intros l ->; exists []; split; [done|constructor]).
  unfold dispatch. destruct (Get _ _ _ _) as [[[r x] q]|]; [|done]. cbn [mbind option_bind]. destruct r as [msg|].
  - unfold OnMessage. destruct (objects _ !! _) as [r|]; [|done]. cbn [mbind option_bind]. destruct (timeout_ r).
    + intros E%ping_delete_log. eexists. split; [exact E|]. apply Forall_cons_2; [done|constructor].
    + cbn zeta. destruct (GetNextDelay _ _ _) as [[? ?] ?]. intros [= <-]. eexists. split; [reflexivity|]. apply Forall_cons_2; [done|constructor].
  - intros [= <-]. exists []. cbn. rewrite app_nil_r. split; [done|constructor].
Qed.
Lemma manager_step_safe now f p c : conn_ok p c → (∃ m, f (conn_requests c) = Some m ∧ mgr_inv m) →
  (∀ m, f (conn_requests c) = Some m → ∃ l, log m = log (conn_requests c) ++ l ∧ known (objects (conn_requests c)) l) →
  ∃ c' p', manager_step now f c p = Some (c', p') ∧ conn_step p c p' c'.
Proof.
  intros [Hm Hc] (m & E & Hm') Hl. destruct (Hl m E) as (l & El & Hk). unfold manager_step. cbn zeta. rewrite E. cbn [mbind option_bind]. rewrite El, drop_app_length.
  destruct (callbacks_safe (objects (conn_requests c)) now l p (set_conn_requests m c) Hk) as (c' & p' & E' & Hs); [by split|]. exists c', p'. split; [done|].
  destruct Hs as [H1 H2 H3 H4]. by split.
Qed.
Lemma dispatch_safe now p c : conn_ok p c → ∃ c' p', conn_dispatch now c p = Some (c', p') ∧ conn_step p c p' c'.
Proof. intros Hc. apply manager_step_safe; [done|apply dispatch_inv, Hc|apply ping_dispatch_log]. Qed.
Lemma OnReadPacket_safe data now p c : IsHybridIce p = false → is_Some (ValidateMessageIntegrity data (password_ p)) →
  is_Some (ValidateMessageIntegrity data (c_password (remote_candidate_ c))) → conn_ok p c →
  ∃ c' p', Connection_OnReadPacket data now c p = Some (c', p') ∧ conn_step p c p' c'.
Proof.
  intros Hh Hv [v Hv'] Hc. unfold Connection_OnReadPacket. cbn zeta. destruct (GetStunMessage_safe data (c_address (remote_candidate_ c)) p Hh Hv) as (is_stun & msg & user & p1 & -> & Hp1).
  cbn [mbind option_bind]. assert (∀ p2 c2, port_kept p p2 → conn_touch c c2 → ∃ c' p', Some (c2, p2) = Some (c', p') ∧ conn_step p c p' c') as Hret.
  { intros p2 c2 Hp2 Hc2. exists c2, p2. split; [done|]. by apply touch_step. }
  destruct (negb is_stun).
  { destruct (bool_decide _); apply Hret; try done; [|apply touch_refl]. eapply touch_trans; [|apply touch_revive]. eapply touch_trans; [|by apply touch_emit]. by apply touch_same. }
  destruct msg as [msg|]; [|apply Hret; [done|apply touch_refl]]. destruct (m_type msg =? STUN_BINDING_REQUEST).
  - destruct (bool_decide _); [|apply Hret; [eapply port_kept_trans; [exact Hp1|apply error_kept]|apply touch_refl]].
    destruct (if IsStandardIce p1 then _ else _) as [ok p2] eqn:E2. assert (port_kept p p2) as Hp2.
    { eapply port_kept_trans; [exact Hp1|]. destruct (IsStandardIce p1); [by eapply conflict_kept|injection E2 as _ <-; apply port_kept_refl]. }
    destruct (negb ok); [apply Hret; [done|apply touch_refl]|]. destruct (match GetByteString _ _ with Some _ => _ | None => _ end) as [c3 p3] eqn:E3.
    assert (port_kept p p3 ∧ conn_touch c c3) as [Hp3 Hc3].
    { destruct (GetByteString msg STUN_ATTR_USERNAME); injection E3 as <- <-; [|split; [done|apply touch_refl]].
      split; [eapply port_kept_trans; [exact Hp2|apply response_kept]|apply touch_received]. }
    assert (conn_touch c (revive c3)) as Hc4 by (eapply touch_trans; [exact Hc3|apply touch_revive]).
    destruct (IsStandardIce p3 && _ && _) eqn:Eu; [|by apply Hret]. destruct (touch_step _ _ _ _ Hc Hp3 Hc4) as [_ Er Ho (l & El & Hl)]. eexists _, _. split; [reflexivity|].
    split; [done|done|exact Ho|]. exists (l ++ [SignalUseCandidate]). split; [cbn; by rewrite El, app_assoc|]. intros _.
    apply andb_true_iff in Eu as [Eu _]. apply andb_true_iff in Eu as [E4%bool_decide_eq_true E5%bool_decide_eq_true]. destruct Hp3 as [[E6 E7 _ _] _]. split; congruence.
  - destruct (_ || _).
    + assert (∃ b, (if IsGoogleIce p1 then Some true else ValidateMessageIntegrity data (c_password (remote_candidate_ c))) = Some b) as [b ->].
      { destruct (IsGoogleIce p1); [by eexists|]. rewrite Hv'. by eexists. }
      cbn [mbind option_bind]. destruct b; [|apply Hret; [done|apply touch_refl]]. destruct Hc as [Hm Hc].
      destruct (manager_step_safe now (λ m, snd <$> CheckResponse msg m) p1 c) as (c' & p' & E' & [Hp' Er' Ho' (l & El & Hl)]).
      * split; [done|eapply candidate_kept; [apply Hp1|done]].
      * destruct (CheckResponse_inv msg _ Hm) as (ok & m & E & Hm'). exists m. by rewrite E.
      * intros m. destruct (CheckResponse msg _) as [[ok m1]|] eqn:E; [|done]. intros [= <-]. by eapply CheckResponse_log.
      * exists c', p'. split; [exact E'|]. split; [by eapply port_kept_trans|done|done|]. exists l. split; [done|]. intros Hin. destruct (Hl Hin) as [E4 E5].
        destruct Hp1 as [[E6 E7 _ _] _]. split; congruence.
    + destruct (_ =? _); [destruct (_ && _)|]; apply Hret; try done; try apply touch_refl. apply touch_received.
Qed.
End safe.

(** ** The interface of a class of ports *)

(** What a class of ports promises for ports that are fit: a connection uses a candidate
    of the port, and a candidate at an address that the port can reach gets one. *)
Class PortLaws `{Platform} `{!PortClass} := {
  port_fit : chan_port → Prop;
  port_reach : chan_port → IPAddress → Prop;
  port_fit_kept p y l : port_fit p → (∃ k, candidates_ y = candidates_ (cp_port p) ++ k) → port_fit (cp_with y (cp_connections l p));
  port_reach_kept p y l ip : port_reach p ip → port_reach (cp_with y (cp_connections l p)) ip;
  port_index_fit p c o : port_fit p → ∃ i, port_index p c o = Some i ∧ ∀ j, i = Some j → is_Some (candidates_ (cp_port p) !! Z.to_nat j);
  port_index_reach p c o : port_fit p → port_reach p (ip_ (c_address c)) → c_protocol c = text "udp" → ∃ j, port_index p c o = Some (Some j)
}.

(** ** The invariant *)

Definition GENERATIONS : Z := 1073741824.
Definition generation_ok (g : Z) : Prop := 0 ≤ g < GENERATIONS.
Definition remote_ok (r : FullCandidate) : Prop :=
  generation_ok (f_generation r) ∧ c_protocol (f_candidate r) = text "udp" ∧ ip_ok (ip_ (c_address (f_candidate r))).

Section inv.
Context `{PortLaws}.

Definition address_of (c : chan_conn) : SocketAddress := c_address (remote_candidate_ (cc_conn c)).
Record conn_in (a : Z) (c : chan_conn) (p : chan_port) : Prop := {
  in_entry : (address_of c, a) ∈ cp_conns p;
  in_ok : conn_ok (cp_port p) (cc_conn c);
  in_generation : generation_ok (cc_generation c);
  in_ip : ip_ok (ip_ (address_of c))
}.
Record port_in (st : P2PTransportChannel) (q : Z) (p : chan_port) : Prop := {
  pi_protocol : ice_protocol_ (cp_port p) = protocol_type_ (ch_cfg st);
  pi_role : ice_role_ (cp_port p) = ch_role (ch_cfg st);
  pi_fit : port_fit p;
  pi_generation : generation_ok (cp_generation p);
  pi_entries : ∀ x, x ∈ cp_conns p → ∃ c, conns st !! x.2 = Some c ∧ cc_port c = q ∧ address_of c = x.1;
  pi_unique : ∀ x y, x ∈ cp_conns p → y ∈ cp_conns p → SocketAddress_eqb x.1 y.1 = true → x = y
}.
Definition message_ok (st : P2PTransportChannel) (m : chan_message) : Prop :=
  match m with
  | MSG_DELETE a => is_Some (conns st !! a)
  | MSG_CHECKTIMEOUT q => is_Some (ports st !! q) ∧ ch_role (ch_cfg st) = ICEROLE_CONTROLLED
  | _ => True
  end.
Record chan_inv (st : P2PTransportChannel) : Prop := {
  ci_wf : chan_wf st;
  ci_conns : ∀ a c, conns st !! a = Some c → ∃ p, ports st !! cc_port c = Some p ∧ conn_in a c p;
  ci_ports : ∀ q p, ports st !! q = Some p → port_in st q p;
  ci_hybrid : protocol_type_ (ch_cfg st) = ICEPROTO_HYBRID → ports st = ∅ ∧ ch_writable (ch_sel st) = false;
  ci_list : NoDup (ports_ (ch_obj st)) ∧ ∀ q, q ∈ ports_ (ch_obj st) → is_Some (ports st !! q);
  ci_posted : Forall (message_ok st) (ch_posted st);
  ci_timers : Forall (message_ok st) (ch_timers st).*2;
  ci_generation : generation_ok (remote_candidate_generation_ (ch_cfg st));
  ci_remotes : Forall (λ r, remote_ok r.1) (remote_candidates_ st)
}.
(** What changes at most when a connection does something. *)
Record frame (st st' : P2PTransportChannel) : Prop := {
  fr_cfg : ch_cfg st' = ch_cfg st;
  fr_ports : ∀ q, match ports st !! q with
                  | Some p => ∃ y, ports st' !! q = Some (cp_with y p) ∧ port_near (cp_port p) y
                  | None => ports st' !! q = None
                  end;
  fr_conns : ∀ a, match conns st !! a with
                  | Some c => ∃ x, conns st' !! a = Some (cc_with x c) ∧ remote_candidate_ x = remote_candidate_ (cc_conn c)
                  | None => conns st' !! a = None
                  end;
  fr_list : ports_ (ch_obj st') = ports_ (ch_obj st);
  fr_remotes : remote_candidates_ st' = remote_candidates_ st;
  fr_writable : ch_writable (ch_sel st') = ch_writable (ch_sel st)
}.
Lemma cp_with_id p : cp_with (cp_port p) p = p.
Proof. by destruct p. Qed.
Lemma cc_with_id c : cc_with (cc_conn c) c = c.
Proof. by destruct c. Qed.
Lemma frame_same st st' : ch_cfg st' = ch_cfg st → ports st' = ports st → conns st' = conns st → ports_ (ch_obj st') = ports_ (ch_obj st) →
  remote_candidates_ st' = remote_candidates_ st → ch_writable (ch_sel st') = ch_writable (ch_sel st) → frame st st'.
Proof.
  intros ? Ep Ec ? ? ?. split; try done.
  - intros q. rewrite Ep. destruct (ports st !! q) as [p|]; [|done]. exists (cp_port p). rewrite cp_with_id. split; [done|apply port_near_refl].
  - intros a. rewrite Ec. destruct (conns st !! a) as [c|]; [|done]. exists (cc_conn c). by rewrite cc_with_id.
Qed.
Lemma frame_refl st : frame st st.
Proof. by apply frame_same. Qed.
Lemma frame_trans st st1 st2 : frame st st1 → frame st1 st2 → frame st st2.
Proof.
  intros [A1 A2 A3 A4 A5 A6] [B1 B2 B3 B4 B5 B6]. split; try congruence.
  - intros q. specialize (A2 q). specialize (B2 q). destruct (ports st !! q) as [p|]; [|by rewrite A2 in B2]. destruct A2 as (y & Ey & Hy). rewrite Ey in B2.
    destruct B2 as (z & Ez & Hz). exists z. split; [done|]. by eapply port_near_trans.
  - intros a. specialize (A3 a). specialize (B3 a). destruct (conns st !! a) as [c|]; [|by rewrite A3 in B3]. destruct A3 as (x & Ex & Hx). rewrite Ex in B3.
    destruct B3 as (z & Ez & Hz). exists z. split; [done|]. cbn in Hz. congruence.
Qed.
Lemma frame_live st st' a : frame st st' → is_Some (conns st' !! a) ↔ is_Some (conns st !! a).
Proof.
  intros Hf. pose proof (fr_conns _ _ Hf a) as Ha. destruct (conns st !! a) as [c|]; [|by rewrite Ha]. destruct Ha as (x & -> & _). by split; eexists.
Qed.
Lemma frame_ports st st' q : frame st st' → is_Some (ports st' !! q) ↔ is_Some (ports st !! q).
Proof.
  intros Hf. pose proof (fr_ports _ _ Hf q) as Hq. destruct (ports st !! q) as [p|]; [|by rewrite Hq]. destruct Hq as (y & -> & _). by split; eexists.
Qed.
(** The invariant from the frame, the list of connections and the new messages. *)
Lemma frame_inv st st' : chan_inv st → frame st st' → chan_wf st' →
  (∀ a c p, conns st' !! a = Some c → ports st' !! cc_port c = Some p → conn_ok (cp_port p) (cc_conn c)) →
  Forall (message_ok st') (ch_posted st') → Forall (message_ok st') (ch_timers st').*2 → chan_inv st'.
Proof.
  intros [I1 I2 I3 I4 I5 _ _ I8 I9] Hf Hwf Hok Hp Ht. pose proof Hf as [F1 F2 F3 F4 F5 F6]. split; try done.
  - intros a c' Ec'. specialize (F3 a). destruct (conns st !! a) as [c|] eqn:Ec; [|congruence]. destruct F3 as (x & Ex & Hx). rewrite Ec' in Ex. injection Ex as ->.
    destruct (I2 a c Ec) as (p & Ep & [J1 J2 J3 J4]). specialize (F2 (cc_port c)). rewrite Ep in F2. destruct F2 as (y & Ey & Hy). exists (cp_with y p). split; [done|].
    split; try done; cbn; [unfold address_of; cbn; rewrite Hx; exact J1|exact (Hok a (cc_with x c) (cp_with y p) Ec' Ey)|unfold address_of; cbn; rewrite Hx; exact J4].
  - intros q p' Ep'. pose proof (F2 q) as F2q. destruct (ports st !! q) as [p|] eqn:Ep; [|congruence]. destruct F2q as (y & Ey & Hy). rewrite Ep' in Ey. injection Ey as ->.
    destruct (I3 q p Ep) as [J1 J2 J3 J4 J5 J6]. split; cbn; try done.
    + by rewrite F1, (pk_protocol _ _ Hy).
    + by rewrite F1, (pk_role _ _ Hy).
    + pose proof (port_fit_kept p y (cp_conns p) J3 (pk_candidates _ _ Hy)) as Hfit. by destruct p.
    + intros z Hz. destruct (J5 z Hz) as (c & Ec & E1 & E2). pose proof (F3 z.2) as F3z. rewrite Ec in F3z. destruct F3z as (x & Ex & Hx). exists (cc_with x c).
      split; [done|]. split; [done|]. unfold address_of in *. cbn. by rewrite Hx.
  - rewrite F1. intros Hh. destruct (I4 Hh) as [E1 E2]. split; [|congruence]. apply map_eq. intros q. rewrite lookup_empty. specialize (F2 q). rewrite E1, lookup_empty in F2. exact F2.
  - rewrite F4. split; [apply I5|]. intros q Hq. apply (frame_ports st); [done|by apply I5].
  - by rewrite F1.
  - by rewrite F5.
Qed.
Lemma message_frame st st' m : frame st st' → message_ok st m → message_ok st' m.
Proof.
  intros Hf. destruct m as [| |a|q]; cbn; [done|done|by apply frame_live|]. intros [Hq Hr]. split; [by apply (frame_ports st)|by rewrite (fr_cfg _ _ Hf)].
Qed.
Lemma messages_frame st st' l : frame st st' → Forall (message_ok st) l → Forall (message_ok st') l.
Proof. intros Hf Hl. eapply Forall_impl; [exact Hl|]. intros m. by apply message_frame. Qed.

(** ** What connections signal *)

Lemma Switch_safe x st : chan_wf st → (∀ b, x = Some b → is_Some (conns st !! b)) → ∃ st', SwitchBestConnectionTo x st = Some st'.
Proof.
  intros Hwf Hx. unfold SwitchBestConnectionTo. cbn zeta. destruct x as [a|]; [|by eexists]. destruct (Hx a eq_refl) as [c Ec].
  change (conns (set_best (Some a) st)) with (conns st). destruct (best st) as [b|] eqn:Eb.
  - destruct (proj1 (wf_live _ Hwf b) (wf_best _ Hwf b Eb)) as [cb Ecb]. rewrite Ecb, Ec. by eexists.
  - cbn [mbind option_bind]. rewrite Ec. by eexists.
Qed.
Lemma event_safe a x st : chan_wf st → is_Some (conns st !! a) →
  (x = SignalUseCandidate → protocol_type_ (ch_cfg st) = ICEPROTO_RFC5245 ∧ ch_role (ch_cfg st) = ICEROLE_CONTROLLED) →
  ∃ st', handle_event a x st = Some st' ∧ chan_wf st'.
Proof.
  intros Hwf [c Ec] Hu. enough (∃ st', handle_event a x st = Some st') as [st' E].
  { exists st'. split; [done|]. pose proof (handle_event_calm _ _ _ _ E) as [_ Eo El Ewas _ Ewr Hb _ _ _ _ _ _].
    apply (wf_same st); [done|by rewrite El|unfold conns; by rewrite Eo| |rewrite Ewr; by left|rewrite Ewas, Ewr; auto].
    destruct Hb as [->|Eb]; [by left|]. right. intros b Eb'. rewrite Eb in Eb'. injection Eb' as <-. apply (wf_live _ Hwf). by eexists. }
  assert (∀ s, ch_obj s = ch_obj st → best s = best st → ∃ s', SwitchBestConnectionTo (Some a) s = Some s') as Hsw.
  { intros s Eo Eb. unfold SwitchBestConnectionTo. cbn zeta. rewrite Eb. assert (conns (set_best (Some a) s) = conns st) as -> by (unfold conns; cbn; by rewrite Eo).
    destruct (best st) as [b|] eqn:Ebb; [destruct (proj1 (wf_live _ Hwf b) (wf_best _ Hwf b Ebb)) as [cb ->]|]; cbn; rewrite Ec; by eexists. }
  destruct x as [w|data| | |]; cbn [handle_event]; try by eexists.
  - unfold OnConnectionStateChange. destruct (_ && _); [|by eexists]. destruct (Hsw (set_pending None st)) as [s ->]; [done..|by eexists].
  - destruct (Hu eq_refl) as [E1 E2]. unfold OnUseCandidate, has_role, standard. rewrite !bool_decide_eq_true_2 by done. cbn [negb]. rewrite Ec. cbn [mbind option_bind].
    destruct (is_writable _); [|by eexists]. destruct (bool_decide _); [by eexists|]. destruct (Hsw (set_pending None st)) as [s ->]; [done..|by eexists].
Qed.
Lemma events_safe a l : ∀ st, chan_wf st → is_Some (conns st !! a) →
  (SignalUseCandidate ∈ l → protocol_type_ (ch_cfg st) = ICEPROTO_RFC5245 ∧ ch_role (ch_cfg st) = ICEROLE_CONTROLLED) → ∃ st', handle_events a l st = Some st'.
Proof.
  induction l as [|x l IH]; intros st Hwf Ha Hu; cbn [handle_events]; [by eexists|].
  destruct (event_safe a x st Hwf Ha) as (st1 & E & Hwf1). { intros ->. apply Hu, list_elem_of_here. }
  rewrite E. cbn [mbind option_bind]. pose proof (handle_event_calm _ _ _ _ E) as Hc. apply IH; [done|unfold conns; by rewrite (cm_obj _ _ _ Hc)|].
  rewrite (cm_cfg _ _ _ Hc). intros Hin. by apply Hu, list_elem_of_further.
Qed.

(** ** An operation of a connection *)

Lemma done_frame a c x p y st st' : conns st !! a = Some c → ports st !! cc_port c = Some p → conn_done a c (cc_with x c) p (cp_with y p) st st' →
  port_near (cp_port p) y → remote_candidate_ x = remote_candidate_ (cc_conn c) → frame st st'.
Proof.
  intros Ec Ep [Ecs Eps [Epl _] Hcalm] Hy Hx. destruct Hcalm as [Ecfg _ _ _ _ Ewr _ _ _ Er _ _ _]. split; try done.
  - intros q. rewrite Eps. destruct (decide (cc_port c = q)) as [<-|Hn]; [rewrite Ep, lookup_insert_eq; by exists y|]. rewrite lookup_insert_ne by done.
    destruct (ports st !! q) as [p'|]; [|done]. exists (cp_port p'). rewrite cp_with_id. split; [done|apply port_near_refl].
  - intros b. rewrite Ecs. destruct (decide (a = b)) as [<-|Hn]; [rewrite Ec, lookup_insert_eq; by exists x|]. rewrite lookup_insert_ne by done.
    destruct (conns st !! b) as [c'|]; [|done]. exists (cc_conn c'). by rewrite cc_with_id.
Qed.
Lemma on_conn_inv a f st c : chan_inv st → conns st !! a = Some c →
  (∀ p, ports st !! cc_port c = Some p → port_in st (cc_port c) p → conn_in a c p →
    ∃ x y, f (cc_conn c) (cp_port p) = Some (x, y) ∧ conn_step (cp_port p) (cc_conn c) y x) →
  ∃ st', on_conn a f st = Some st' ∧ chan_inv st' ∧ frame st st' ∧ list_of st' = list_of st.
Proof.
  intros Hinv Ec Hf. pose proof Hinv as [Hwf I2 I3 _ _ I6 I7 _ _]. destruct (I2 a c Ec) as (p & Ep & Hin). pose proof (I3 _ _ Ep) as Hpi.
  destruct (Hf p Ep Hpi Hin) as (x & y & Ef & [Hy Hx Hok (l & El & Hl)]).
  assert (∃ st', on_conn a f st = Some st') as [st' E].
  { unfold on_conn. rewrite Ec. cbn [mbind option_bind]. rewrite Ep. cbn [mbind option_bind]. rewrite Ef. cbn [mbind option_bind]. rewrite El, drop_app_length. apply events_safe.
    - apply (wf_same st); try done; [|by left|by left]. intros b. cbn. fold (conns st). destruct (decide (a = b)) as [<-|Hn].
      + rewrite lookup_insert_eq, Ec. by split; eexists.
      + by rewrite lookup_insert_ne.
    - cbn. rewrite lookup_insert_eq. by eexists.
    - intros Hu. destruct (Hl Hu) as [E1 E2]. cbn. by rewrite <- (pi_protocol _ _ _ Hpi), <- (pi_role _ _ _ Hpi). }
  exists st'. split; [done|]. destruct (wf_on_conn _ _ _ _ Hwf E) as [Hwf' El']. apply on_conn_done in E as (c0 & p0 & x0 & y0 & Ec0 & Ep0 & Ef0 & Hd). simplify_eq.
  pose proof (done_frame _ _ _ _ _ _ _ Ec Ep Hd (pk_near _ _ Hy) Hx) as Hfr. split; [|by split]. destruct Hd as [Ecs Eps _ Hcalm].
  apply (frame_inv st); try done.
  - intros b cb pb Ecb Epb. rewrite Ecs in Ecb. rewrite Eps in Epb. destruct (decide (a = b)) as [<-|Hn].
    + rewrite lookup_insert_eq in Ecb. injection Ecb as <-. cbn in Epb. rewrite lookup_insert_eq in Epb. injection Epb as <-. exact Hok.
    + rewrite lookup_insert_ne in Ecb by done. destruct (I2 b cb Ecb) as (p' & Ep' & [_ [Hm Hc] _ _]). destruct (decide (cc_port c = cc_port cb)) as [Eq|Hq].
      * rewrite Eq, lookup_insert_eq in Epb. injection Epb as <-. rewrite <- Eq, Ep in Ep'. injection Ep' as <-. split; [done|]. by apply (candidate_kept (cp_port p) _ _ (pk_near _ _ Hy)).
      * rewrite lookup_insert_ne in Epb by done. rewrite Ep' in Epb. by injection Epb as <-.
  - destruct (cm_posted _ _ _ Hcalm) as (k & Ek & Hk). rewrite Ek. apply Forall_app. split; [by apply (messages_frame st)|]. eapply Forall_impl; [exact Hk|].
    intros m [-> | ->]; [done|]. cbn. rewrite Ecs, lookup_insert_eq. by eexists.
  - rewrite (cm_timers _ _ _ Hcalm). by apply (messages_frame st).
Qed.

(** ** Sorting *)

Lemma inv_gen st st' : chan_inv st → protocol_type_ (ch_cfg st') = protocol_type_ (ch_cfg st) → ch_role (ch_cfg st') = ch_role (ch_cfg st) →
  generation_ok (remote_candidate_generation_ (ch_cfg st')) → ch_obj st' = ch_obj st → Forall (message_ok st) (ch_posted st') →
  Forall (message_ok st) (ch_timers st').*2 → Forall (λ r, remote_ok r.1) (remote_candidates_ st') → chan_wf st' →
  (protocol_type_ (ch_cfg st) = ICEPROTO_HYBRID → ch_writable (ch_sel st') = false) → chan_inv st'.
Proof.
  intros [I1 I2 I3 I4 I5 I6 I7 I8 I9] Ea Eb Eg E2 E3 E4 E5 Hwf Hh. assert (conns st' = conns st ∧ ports st' = ports st) as [Ec Ep] by (unfold conns, ports; by rewrite E2).
  assert (∀ m, message_ok st m → message_ok st' m) as Hm by (intros [| |a|q]; cbn; by rewrite ?Ec, ?Ep, ?Eb).
  split; try done; rewrite ?Ea, ?Eb, ?E2, ?Ec, ?Ep; try done.
  - intros q p Eq. destruct (I3 q p Eq) as [J1 J2 J3 J4 J5 J6]. by split; rewrite ?Ea, ?Eb, ?Ec.
  - intros Hp. split; [by apply I4|by apply Hh].
  - eapply Forall_impl; [exact E3|done].
  - eapply Forall_impl; [exact E4|done].
Qed.
Lemma inv_same st st' : chan_inv st → ch_cfg st' = ch_cfg st → ch_obj st' = ch_obj st → ch_posted st' = ch_posted st → ch_timers st' = ch_timers st →
  remote_candidates_ st' = remote_candidates_ st → chan_wf st' → (protocol_type_ (ch_cfg st) = ICEPROTO_HYBRID → ch_writable (ch_sel st') = false) → chan_inv st'.
Proof.
  intros Hinv E1 E2 E3 E4 E5 Hwf Hh. pose proof Hinv as [_ _ _ _ _ I6 I7 I8 I9]. apply (inv_gen st); rewrite ?E1, ?E3, ?E4, ?E5; done.
Qed.
Lemma update_states_inv now l : ∀ st, chan_inv st → (∀ a, a ∈ l → is_Some (conns st !! a)) →
  ∃ st', update_states l now st = Some st' ∧ chan_inv st' ∧ frame st st' ∧ list_of st' = list_of st.
Proof.
  induction l as [|a l IH]; intros st Hinv Hl; cbn [update_states]; [exists st; split; [done|]; split; [done|]; split; [apply frame_refl|done]|].
  destruct (Hl a (list_elem_of_here _ _)) as [c Ec]. destruct (on_conn_inv a (λ c p, Some (UpdateState now p c, p)) st c Hinv Ec) as (st1 & E1 & Hinv1 & Hf1 & El1).
  { intros p Ep _ Hin. eexists _, _. split; [reflexivity|]. apply touch_step; [apply Hin|apply port_kept_refl|apply touch_update]. }
  rewrite E1. cbn [mbind option_bind]. destruct (IH st1 Hinv1) as (st2 & E2 & Hinv2 & Hf2 & El2).
  { intros b Hb. apply (frame_live st); [done|]. by apply Hl, list_elem_of_further. }
  exists st2. split; [done|]. split; [done|]. split; [by eapply frame_trans|congruence].
Qed.
Lemma view_safe st a : chan_inv st → is_Some (conns st !! a) →
  ∃ v, view st a = Some v ∧ v_protocol v = protocol_type_ (ch_cfg st) ∧ 0 ≤ v_generation v < 2 * GENERATIONS.
Proof.
  intros Hinv [c Ec]. destruct (ci_conns _ Hinv a c Ec) as (p & Ep & [_ [_ [lc Hlc]] Hg _]). pose proof (ci_ports _ Hinv _ _ Ep) as Hp.
  unfold view. rewrite Ec. cbn [mbind option_bind]. rewrite Ep. cbn [mbind option_bind]. unfold priority. rewrite Hlc. cbn [mbind option_bind].
  eexists. split; [reflexivity|]. split; [apply Hp|]. cbn. destruct Hp as [_ _ _ Hg' _ _]. unfold generation_ok, GENERATIONS, u32 in *. rewrite Z.mod_small; lia.
Qed.
Lemma views_safe st l : chan_inv st → (∀ a, a ∈ l → is_Some (conns st !! a)) → ∃ views, mapM (view st) l = Some views ∧
  Forall (λ v, v_protocol v = protocol_type_ (ch_cfg st) ∧ 0 ≤ v_generation v < 2 * GENERATIONS) views.
Proof.
  intros Hinv. induction l as [|a l IH]; intros Hl; [by exists []|]. destruct (view_safe st a Hinv (Hl a (list_elem_of_here _ _))) as (v & Ev & Hv).
  destruct IH as (views & E & Hvs); [intros b Hb; by apply Hl, list_elem_of_further|]. exists (v :: views). cbn. rewrite Ev. cbn. rewrite E. cbn. split; [done|]. by constructor.
Qed.
Lemma views_sortable st views : Forall (λ v, v_protocol v = protocol_type_ (ch_cfg st) ∧ 0 ≤ v_generation v < 2 * GENERATIONS) views → sortable views = true.
Proof.
  intros Hv. unfold sortable. apply forallb_forall. intros a Ha. apply forallb_forall. intros b Hb. rewrite Forall_forall in Hv.
  destruct (Hv a (proj2 (list_elem_of_In _ _) Ha)) as [Ea Ga], (Hv b (proj2 (list_elem_of_In _ _) Hb)) as [Eb Gb]. unfold comparable.
  rewrite (bool_decide_eq_true_2 (v_protocol a = v_protocol b)) by congruence. cbn. apply Z.ltb_lt. unfold GENERATIONS, HALF in *. lia.
Qed.
Lemma live_of st : chan_inv st → ∀ a, a ∈ list_of st → is_Some (conns st !! a).
Proof. intros Hinv a Ha. by apply (wf_live _ (ci_wf _ Hinv)). Qed.
Lemma prune_loop_inv q n l : ∀ st, chan_inv st → is_Some (conns st !! q) → (∀ a, a ∈ l → is_Some (conns st !! a)) →
  ∃ st', prune_loop q n l st = Some st' ∧ chan_inv st' ∧ frame st st' ∧ list_of st' = list_of st.
Proof.
  induction l as [|a l IH]; intros st Hinv Hq Hl; cbn [prune_loop]; [exists st; split; [done|]; split; [done|]; split; [apply frame_refl|done]|].
  pose proof (Hl a (list_elem_of_here _ _)) as Ha. assert (∀ b, b ∈ l → is_Some (conns st !! b)) as Hl' by (intros b Hb; by apply Hl, list_elem_of_further).
  destruct (view_safe st q Hinv Hq) as (vq & -> & _), (view_safe st a Hinv Ha) as (va & -> & _). cbn [mbind option_bind].
  destruct (_ && _); cbn [mbind option_bind]; [|by apply IH]. destruct Ha as [c Ec].
  destruct (on_conn_inv a (λ c p, c ← Prune c; Some (c, p)) st c Hinv Ec) as (st1 & E1 & Hinv1 & Hf1 & El1).
  { intros p Ep _ Hin. destruct (Prune_safe (cp_port p) (cc_conn c) (in_ok _ _ _ Hin)) as (c' & -> & Hs). by eexists _, _. }
  rewrite E1. cbn [mbind option_bind]. destruct (IH st1 Hinv1) as (st2 & E2 & Hinv2 & Hf2 & El2); [by apply (frame_live st)|intros b Hb; apply (frame_live st); auto|].
  exists st2. split; [done|]. split; [done|]. split; [by eapply frame_trans|congruence].
Qed.
Lemma prune_networks_inv l : ∀ st, chan_inv st → ∃ st', prune_networks l st = Some st' ∧ chan_inv st' ∧ frame st st' ∧ list_of st' = list_of st.
Proof.
  induction l as [|n l IH]; intros st Hinv; cbn [prune_networks]; [exists st; split; [done|]; split; [done|]; split; [apply frame_refl|done]|].
  assert (∃ x, GetBestConnectionOnNetwork n st = Some x ∧ ∀ v, x = Some v → is_Some (conns st !! v_addr v)) as (x & -> & Hx).
  { assert (∀ a v, view st a = Some v → is_Some (conns st !! v_addr v)) as Hv.
    { intros a v Ev. rewrite (view_addr _ _ _ Ev). unfold view in Ev. destruct (conns st !! a); [by eexists|done]. }
    destruct (views_safe st (list_of st) Hinv (live_of _ Hinv)) as (views & Evs & _). unfold GetBestConnectionOnNetwork. rewrite Evs.
    assert (∀ v, find (λ v, v_network v =? n) views = Some v → is_Some (conns st !! v_addr v)) as Hfv.
    { intros v [Hin _]%find_first. apply mapM_Some in Evs. apply list_elem_of_lookup in Hin as [i Hi]. destruct (Forall2_lookup_r _ _ _ _ _ Evs Hi) as (a & _ & Ea). by eapply Hv. }
    destruct (best st) as [b|] eqn:Eb; [|by eexists]. destruct (view_safe st b Hinv (live_of _ Hinv b (wf_best _ (ci_wf _ Hinv) b Eb))) as (vb & Evb & _).
    rewrite Evb. cbn [mbind option_bind]. destruct (v_network vb =? n); [|by eexists]. eexists. split; [reflexivity|]. intros v [= <-]. by eapply Hv. }
  cbn [mbind option_bind]. destruct x as [v|]; [|by apply IH]. destruct (bool_decide _); [|by apply IH].
  destruct (prune_loop_inv (v_addr v) n (list_of st) st Hinv (Hx v eq_refl) (live_of _ Hinv)) as (st1 & E1 & Hinv1 & Hf1 & El1). rewrite E1. cbn [mbind option_bind].
  destruct (IH st1 Hinv1) as (st2 & E2 & Hinv2 & Hf2 & El2). exists st2. split; [done|]. split; [done|]. split; [by eapply frame_trans|congruence].
Qed.
Lemma conns_safe st l : (∀ a, a ∈ l → is_Some (conns st !! a)) → ∃ cs, mapM (λ a, conns st !! a) l = Some cs.
Proof. intros Hl. apply mapM_is_Some, Forall_forall. exact Hl. Qed.
Lemma best_writable_safe st : chan_inv st → ∃ w, best_writable st = Some w.
Proof.
  intros Hinv. unfold best_writable. destruct (best st) as [b|] eqn:Eb; [|by eexists]. destruct (live_of _ Hinv b (wf_best _ (ci_wf _ Hinv) b Eb)) as [c ->]. by eexists.
Qed.
Lemma UpdateChannelState_inv st w : chan_inv st → best_writable st = Some w → ch_writable (ch_sel st) = w → ∃ st', UpdateChannelState st = Some st' ∧ chan_inv st'.
Proof.
  intros Hinv Ew Ech. unfold UpdateChannelState. rewrite Ew. cbn [mbind option_bind]. rewrite Ech, Bool.eqb_reflx. cbn [negb].
  destruct (conns_safe st (list_of st) (live_of _ Hinv)) as [cs ->]. cbn [mbind option_bind]. eexists. split; [done|]. set (r := existsb _ _).
  apply (inv_same st); try (unfold set_readable; by destruct (Bool.eqb _ _)); [done| |].
  - by apply set_readable_wf, ci_wf.
  - intros Hh. destruct (ci_hybrid _ Hinv Hh) as [_ E]. unfold set_readable. by destruct (Bool.eqb _ _).
Qed.
Lemma hybrid_empty st : chan_inv st → protocol_type_ (ch_cfg st) = ICEPROTO_HYBRID → best st = None.
Proof.
  intros Hinv Hh. destruct (ci_hybrid _ Hinv Hh) as [Ep _]. destruct (best st) as [b|] eqn:Eb; [|done]. exfalso.
  destruct (live_of _ Hinv b (wf_best _ (ci_wf _ Hinv) b Eb)) as [c Ec]. destruct (ci_conns _ Hinv b c Ec) as (p & Epp & _). by rewrite Ep, lookup_empty in Epp.
Qed.
(** The last part of the sorting. *)
Lemma finish_inv st : chan_inv st → protocol_type_ (ch_cfg st) ≠ ICEPROTO_HYBRID → ∃ st', finish st = Some st' ∧ chan_inv st'.
Proof.
  intros Hinv Hp. unfold finish. destruct (conns_safe st (list_of st) (live_of _ Hinv)) as [cs ->]. cbn [mbind option_bind].
  destruct (best_writable_safe st Hinv) as [w Ew]. rewrite Ew. cbn [mbind option_bind]. set (s := if w then _ else _).
  assert (ch_obj s = ch_obj st ∧ best s = best st ∧ ch_cfg s = ch_cfg st ∧ ch_posted s = ch_posted st ∧ ch_timers s = ch_timers st ∧
    remote_candidates_ s = remote_candidates_ st ∧ ch_writable (ch_sel s) = w) as (Eo & Eb & Ec & Eq & Et & Er & Ewr).
  { pose proof (wf_writable _ (ci_wf _ Hinv)) as Hww. unfold s. destruct w; unfold HandleWritable, HandleNotWritable, set_writable.
    - destruct (ch_writable (ch_sel st)) eqn:E; cbn; rewrite E; cbn; split_and!; done.
    - destruct (was_writable_ (ch_sel st)) eqn:E; cbn; [destruct (ch_writable (ch_sel st)) eqn:E2; cbn; split_and!; done|].
      split_and!; try done. destruct (ch_writable (ch_sel st)); [|done]. by specialize (Hww eq_refl). }
  apply (UpdateChannelState_inv s w); [|unfold best_writable, conns; by rewrite Eb, Eo|done]. apply (inv_same st); try done.
  unfold s. destruct w; [by apply HandleWritable_wf, ci_wf|by apply HandleNotWritable_wf, ci_wf].
Qed.
Lemma SortConnections_inv now st : chan_inv st → ∃ st', SortConnections now st = Some st' ∧ chan_inv st'.
Proof.
  intros Hinv. unfold SortConnections, UpdateConnectionStates. destruct (update_states_inv now (list_of st) st Hinv (live_of _ Hinv)) as (st1 & -> & Hinv1 & Hf1 & El1).
  cbn [mbind option_bind]. case_bool_decide as Hh.
  { apply (UpdateChannelState_inv st1 false); [done| |by apply (ci_hybrid _ Hinv1 Hh)]. unfold best_writable. by rewrite (hybrid_empty st1). }
  cbn zeta. change (list_of (set_dirty false st1)) with (list_of st1). change (view (set_dirty false st1)) with (view st1).
  destruct (views_safe st1 (list_of st1) Hinv1 (live_of _ Hinv1)) as (views & Ev & Hv). rewrite Ev. cbn [mbind option_bind]. rewrite (views_sortable st1 views Hv). cbn [negb].
  assert (v_addr <$> stable_sort views ≡ₚ list_of st1) as Hperm by (by rewrite stable_sort_perm, (views_addr _ _ _ Ev)).
  set (st2 := set_list _ _). assert (chan_inv st2) as Hinv2.
  { apply (inv_same st1); try done. apply set_list_wf; [by apply (wf_same st1); try done; [apply ci_wf|left..]|exact Hperm]. }
  assert (∃ cur, (match best st2 with Some b => Some <$> view st2 b | None => Some None end) = Some cur) as [cur Ecur].
  { destruct (best st2) as [b|] eqn:Eb; [|by eexists]. destruct (view_safe st2 b Hinv2 (live_of _ Hinv2 b (wf_best _ (ci_wf _ Hinv2) b Eb))) as (v & -> & _). by eexists. }
  rewrite Ecur. cbn [mbind option_bind].
  set (top := v_addr <$> head (stable_sort views)). assert (∀ b, top = Some b → b ∈ list_of st2) as Htop.
  { intros b. unfold top. change (list_of st2) with (v_addr <$> stable_sort views). destruct (stable_sort views); [done|]. intros [= <-]. apply list_elem_of_here. }
  assert (∃ st3, (if (negb (standard st2) || has_role ICEROLE_CONTROLLING st2) && ShouldSwitch cur (head (stable_sort views)) then SwitchBestConnectionTo top st2 else Some st2) = Some st3 ∧
    chan_inv st3 ∧ ch_cfg st3 = ch_cfg st2) as (st3 & -> & Hinv3 & Ec3).
  { destruct (_ && _); [|by exists st2]. destruct (Switch_safe top st2 (ci_wf _ Hinv2)) as [st3 E3]; [intros b Hb; by apply (live_of _ Hinv2), Htop|].
    exists st3. split; [done|]. destruct (wf_Switch _ _ _ (ci_wf _ Hinv2) Htop E3) as (W1 & W2 & W3 & W4 & W5 & W6 & W7). split; [|done].
    assert (ch_posted st3 = ch_posted st2 ∧ ch_timers st3 = ch_timers st2 ∧ remote_candidates_ st3 = remote_candidates_ st2) as (W8 & W9 & W10).
    { unfold SwitchBestConnectionTo in E3. cbn zeta in E3. destruct top as [b|]; [|by injection E3 as <-].
      clear Ecur. set (s1 := set_best _ st2) in *. destruct (best st2) as [b'|]; [destruct (conns s1 !! b'); [|done]|]; cbn in E3; (destruct (conns s1 !! b); [|done]); by injection E3 as <-. }
    by apply (inv_same st2). }
  cbn [mbind option_bind]. destruct (prune_networks_inv (networks_of views) st3 Hinv3) as (st4 & -> & Hinv4 & Hf4 & El4). cbn [mbind option_bind].
  destruct (finish_inv st4 Hinv4) as (st5 & E5 & Hinv5); [rewrite (fr_cfg _ _ Hf4), Ec3; exact Hh|]. exists st5. split; [|done]. unfold finish in E5.
  destruct (mapM (λ a, conns st4 !! a) _) as [cs|]; [|done]. cbn [mbind option_bind] in *. destruct (best_writable st4) as [[]|]; [done| |done]. cbn [mbind option_bind] in *.
  unfold HandleAllTimedOut. by destruct (forallb _ _).
Qed.

(** ** Creation *)

(** What changes at most when a connection is made for the port [q]. *)
Record others (q : Z) (st st' : P2PTransportChannel) : Prop := {
  ot_cfg : ch_cfg st' = ch_cfg st;
  ot_ports : ∀ o, o ≠ q → match ports st !! o with
                          | Some p => ∃ y, ports st' !! o = Some (cp_with y p) ∧ port_near (cp_port p) y
                          | None => ports st' !! o = None
                          end;
  ot_live : ∀ o, is_Some (ports st !! o) → is_Some (ports st' !! o);
  ot_list : ports_ (ch_obj st') = ports_ (ch_obj st);
  ot_remotes : remote_candidates_ st' = remote_candidates_ st
}.
Lemma frame_others q st st' : frame st st' → others q st st'.
Proof. intros Hf. pose proof Hf as [F1 F2 F3 F4 F5 F6]. split; try done; [intros o _; apply F2|intros o Ho; by apply (frame_ports st)]. Qed.
Lemma others_frame q st st1 st2 : others q st st1 → frame st1 st2 → others q st st2.
Proof.
  intros [A1 A2 A3 A4 A5] Hf. pose proof Hf as [B1 B2 B3 B4 B5 B6]. split; try congruence.
  - intros o Ho. specialize (A2 o Ho). specialize (B2 o). destruct (ports st !! o) as [p|]; [|by rewrite A2 in B2]. destruct A2 as (y & Ey & Hy). rewrite Ey in B2.
    destruct B2 as (z & Ez & Hz). exists z. split; [done|]. by eapply port_near_trans.
  - intros o Ho. apply (frame_ports st1); [done|by apply A3].
Qed.
Lemma eqb_swap a b : ip_ok (ip_ a) → ip_ok (ip_ b) → SocketAddress_eqb a b = true → SocketAddress_eqb b a = true.
Proof. intros Ha Hb. rewrite !SocketAddress_eqb_spec by done. intros (-> & -> & ->). done. Qed.
Lemma entry_ip st q p x : chan_inv st → ports st !! q = Some p → x ∈ cp_conns p → ip_ok (ip_ x.1).
Proof.
  intros Hinv Ep Hx. destruct (pi_entries _ _ _ (ci_ports _ Hinv q p Ep) x Hx) as (c & Ec & _ & <-). destruct (ci_conns _ Hinv _ _ Ec) as (? & _ & Hin). apply Hin.
Qed.
Lemma GetConnection_none addr p x : GetConnection addr p = None → x ∈ cp_conns p → SocketAddress_eqb x.1 addr = false.
Proof.
  unfold GetConnection. destruct (find _ _) eqn:E; [done|]. intros _ Hx. by apply (find_none _ _ E x), list_elem_of_In.
Qed.
Lemma added_inv q p r o st a st1 st2 : chan_inv st → ports st !! q = Some p → GetConnection (c_address (f_candidate r)) p = None →
  generation_ok (f_generation r) → ip_ok (ip_ (c_address (f_candidate r))) → port_CreateConnection q r o st = Some (Some a, st1) → AddConnection a st1 = Some st2 →
  chan_inv st2 ∧ others q st st2.
Proof.
  intros Hinv Ep Hnone Hg Hip Ecr Eadd. destruct (added_wf _ _ _ _ _ _ _ (ci_wf _ Hinv) Ecr Eadd) as [Hwf El].
  pose proof (ci_ports _ Hinv q p Ep) as Hp. pose proof (created_spec _ _ _ _ _ _ Ecr) as (p0 & Ep0 & i & l & Ei & En & ->). rewrite Ep in Ep0. injection Ep0 as <-.
  destruct (port_index_fit p (f_candidate r) o (pi_fit _ _ _ Hp)) as (i' & Ei' & Hi). rewrite Ei in Ei'. injection Ei' as <-. specialize (Hi i eq_refl).
  set (addr := c_address (f_candidate r)) in *. set (p' := cp_connections (cp_conns p ++ [(addr, a)]) p) in *. set (c0 := mkCC _ q _ _ _ true) in *.
  set (c' := cc_with (set_remote_ice_mode (ch_remote_mode (ch_cfg st)) (cc_conn c0)) c0).
  assert (conns st2 = <[a := c']> (conns st) ∧ ports st2 = <[q := p']> (ports st) ∧ ch_cfg st2 = ch_cfg st ∧ ch_posted st2 = ch_posted st ∧ ch_timers st2 = ch_timers st ∧
    ports_ (ch_obj st2) = ports_ (ch_obj st) ∧ remote_candidates_ st2 = remote_candidates_ st ∧ ch_writable (ch_sel st2) = ch_writable (ch_sel st)) as (Ec & Epp & E1 & E2 & E3 & E4 & E5 & E6).
  { unfold AddConnection in Eadd. cbn zeta in Eadd. cbn [conns list_of set_list on_sel put_conn put_port set_supply on_obj ch_obj conn_heap ch_sel connections_] in Eadd.
    rewrite lookup_insert_eq in Eadd. cbn [mbind option_bind] in Eadd. injection Eadd as <-. cbn. rewrite insert_insert_eq. done. }
  assert (∀ b, is_Some (conns st !! b) → b ≠ a ∧ is_Some (conns st2 !! b)) as Hlive.
  { intros b [cb Eb]. assert (b ≠ a) as Hn by (intros ->; congruence). split; [done|]. rewrite Ec, lookup_insert_ne by done. by eexists. }
  assert (∀ b, is_Some (ports st !! b) → is_Some (ports st2 !! b)) as Hports.
  { intros b Hb. rewrite Epp. destruct (decide (q = b)) as [<-|Hn]; [rewrite lookup_insert_eq; by eexists|by rewrite lookup_insert_ne]. }
  assert (∀ m, message_ok st m → message_ok st2 m) as Hm.
  { intros [| |b|b]; cbn; [done|done|apply Hlive|]. intros [Hb Hr]. split; [by apply Hports|by rewrite E1]. }
  split.
  2: { split; try done. intros b Hb. rewrite Epp, lookup_insert_ne by done. destruct (ports st !! b) as [pb|]; [|done]. exists (cp_port pb). rewrite cp_with_id. split; [done|apply port_near_refl]. }
  destruct Hinv as [I1 I2 I3 I4 I5 I6 I7 I8 I9]. split; try done; rewrite ?E1, ?E2, ?E3, ?E4, ?E5; try done.
  - intros b cb Eb. rewrite Ec in Eb. destruct (decide (a = b)) as [<-|Hn].
    + rewrite lookup_insert_eq in Eb. injection Eb as <-. exists p'. cbn. rewrite Epp, lookup_insert_eq. split; [done|]. split; try done.
      * cbn. apply elem_of_app. right. apply list_elem_of_here.
      * split; [apply new_inv|exact Hi].
    + rewrite lookup_insert_ne in Eb by done. destruct (I2 b cb Eb) as (pb & Epb & [J1 J2 J3 J4]). rewrite Epp. destruct (decide (q = cc_port cb)) as [Eq|Hq].
      * rewrite <- Eq, Ep in Epb. injection Epb as <-. exists p'. rewrite <- Eq, lookup_insert_eq. split; [done|]. split; try done. cbn. apply elem_of_app. by left.
      * exists pb. by rewrite lookup_insert_ne.
  - intros b pb Epb. rewrite Epp in Epb. assert (∀ x, x ∈ cp_conns p' → x = (addr, a) ∨ x ∈ cp_conns p) as Hx'.
    { intros x [|Hx%list_elem_of_singleton]%elem_of_app; auto. }
    assert (∀ z pz, ports st !! z = Some pz → ∀ x, x ∈ cp_conns pz → ∃ c, conns st2 !! x.2 = Some c ∧ cc_port c = z ∧ address_of c = x.1) as Hold.
    { intros z pz Ez x Hx. destruct (pi_entries _ _ _ (I3 z pz Ez) x Hx) as (c & Ecx & Hc). exists c. split; [|done]. rewrite Ec, lookup_insert_ne; [done|]. intros ->. congruence. }
    destruct (decide (q = b)) as [<-|Hn].
    + rewrite lookup_insert_eq in Epb. injection Epb as <-. destruct Hp as [J1 J2 J3 J4 J5 J6]. split; try done; rewrite ?E1; try done.
      * pose proof (port_fit_kept p (cp_port p) (cp_conns p ++ [(addr, a)]) J3 (pk_candidates _ _ (port_near_refl _))) as Hfit. by rewrite <- (cp_with_id p').
      * intros x [->|Hx]%Hx'; [|by apply (Hold q p)]. exists c'. cbn. by rewrite Ec, lookup_insert_eq.
      * assert (∀ x, x ∈ cp_conns p → ip_ok (ip_ x.1) ∧ SocketAddress_eqb x.1 addr = false) as Hno.
        { intros x Hx. split; [|by eapply GetConnection_none]. destruct (J5 x Hx) as (c & Ecx & _ & <-). destruct (I2 _ _ Ecx) as (? & _ & Hin). apply Hin. }
        intros x y [->|Hx]%Hx' [->|Hy]%Hx' E; [done|..|by apply J6].
        -- destruct (Hno y Hy) as [Hy1 Hy2]. apply eqb_swap in E; [|done..]. cbn in E. congruence.
        -- destruct (Hno x Hx) as [Hx1 Hx2]. cbn in E. congruence.
    + rewrite lookup_insert_ne in Epb by done. destruct (I3 b pb Epb) as [J1 J2 J3 J4 J5 J6]. split; try done; rewrite ?E1; try done. by apply Hold.
  - intros Hh. destruct (I4 Hh) as [E _]. by rewrite E, lookup_empty in Ep.
  - split; [apply I5|]. intros b Hb. by apply Hports, I5.
  - eapply Forall_impl; [exact I6|done].
  - eapply Forall_impl; [exact I7|done].
Qed.
(** The port can take the remote candidate. *)
Definition fresh_at (q : Z) (r : FullCandidate) (st : P2PTransportChannel) : Prop :=
  c_protocol (f_candidate r) = text "udp" ∧
  ∃ p, ports st !! q = Some p ∧ GetConnection (c_address (f_candidate r)) p = None ∧ port_reach p (ip_ (c_address (f_candidate r))).
Lemma fresh_others q o r st st' : others q st st' → o ≠ q → fresh_at o r st → fresh_at o r st'.
Proof.
  intros Ho Hn (Hu & p & Ep & Hg & Hr). split; [done|]. pose proof (ot_ports _ _ _ Ho o Hn) as E. rewrite Ep in E. destruct E as (y & Ey & _). exists (cp_with y p).
  split; [done|]. split; [exact Hg|]. pose proof (port_reach_kept p y (cp_conns p) _ Hr) as Hr'. by destruct p.
Qed.
Lemma GetConnection_live st q p addr a : chan_inv st → ports st !! q = Some p → GetConnection addr p = Some a → ∃ c, conns st !! a = Some c ∧ cc_port c = q.
Proof.
  intros Hinv Ep. unfold GetConnection. destruct (find _ _) as [x|] eqn:E; [|done]. intros [= <-]. apply find_first in E as [Hx _].
  destruct (pi_entries _ _ _ (ci_ports _ Hinv q p Ep) x Hx) as (c & Ec & Eq & _). by exists c.
Qed.
Lemma received_inv a now st : chan_inv st → is_Some (conns st !! a) → ∃ st', received_ping a now st = Some st' ∧ chan_inv st' ∧ frame st st'.
Proof.
  intros Hinv [c Ec]. destruct (on_conn_inv a (λ c p, Some (ReceivedPing now c, p)) st c Hinv Ec) as (st' & E & Hinv' & Hf & _).
  { intros p _ _ Hin. eexists _, _. split; [reflexivity|]. apply touch_step; [apply Hin|apply port_kept_refl|apply touch_received]. }
  by exists st'.
Qed.
Lemma create_port_inv q p r o st : chan_inv st → ports st !! q = Some p → GetConnection (c_address (f_candidate r)) p = None →
  generation_ok (f_generation r) → ip_ok (ip_ (c_address (f_candidate r))) →
  ∃ x st1, port_CreateConnection q r o st = Some (x, st1) ∧
    match x with
    | None => st1 = st
    | Some a => ∃ st2, AddConnection a st1 = Some st2 ∧ chan_inv st2 ∧ others q st st2 ∧ is_Some (conns st2 !! a)
    end ∧ (port_reach p (ip_ (c_address (f_candidate r))) → c_protocol (f_candidate r) = text "udp" → x ≠ None).
Proof.
  intros Hinv Ep Hnone Hg Hip. pose proof (ci_ports _ Hinv q p Ep) as Hp. destruct (port_index_fit p (f_candidate r) o (pi_fit _ _ _ Hp)) as (i & Ei & _).
  assert (∃ x st1, port_CreateConnection q r o st = Some (x, st1) ∧ (i = None ↔ x = None)) as (x & st1 & E & Hx).
  { unfold port_CreateConnection. rewrite Ep. cbn [mbind option_bind]. rewrite Ei. cbn [mbind option_bind]. destruct i; [|by eexists _, _]. destruct (new_address st). eexists _, _. by split. }
  exists x, st1. split; [done|]. split.
  - destruct x as [a|]; [|by apply created_spec in E as (? & _ & ->)]. assert (∃ st2, AddConnection a st1 = Some st2) as [st2 E2].
    { pose proof (created_spec _ _ _ _ _ _ E) as (? & _ & ? & ? & _ & _ & ->). unfold AddConnection. cbn. rewrite lookup_insert_eq. by eexists. }
    exists st2. split; [done|]. destruct (added_inv q p r o st a st1 st2) as [Hinv2 Ho]; try done. split; [done|]. split; [done|]. apply (live_of _ Hinv2).
    destruct (added_wf _ _ _ _ _ _ _ (ci_wf _ Hinv) E E2) as [_ ->]. apply elem_of_app. right. apply list_elem_of_here.
  - intros Hr Hu Hnil. apply Hx in Hnil. destruct (port_index_reach p (f_candidate r) o (pi_fit _ _ _ Hp) Hr Hu) as [j Ej]. congruence.
Qed.
Lemma CreateConnection_inv q r origin readable now st : chan_inv st → is_Some (ports st !! q) → generation_ok (f_generation r) → ip_ok (ip_ (c_address (f_candidate r))) →
  ∃ ok st', Channel_CreateConnection q r origin readable now st = Some (ok, st') ∧ chan_inv st' ∧ others q st st' ∧ (fresh_at q r st → origin = Some q → ok = true).
Proof.
  intros Hinv [p Ep] Hg Hip. unfold Channel_CreateConnection. rewrite Ep. cbn [mbind option_bind].
  assert (∀ a st1, chan_inv st1 → others q st st1 → is_Some (conns st1 !! a) → ∃ st', (st2 ← (if readable then received_ping a now st1 else Some st1); Some (true, st2)) = Some (true, st') ∧
    chan_inv st' ∧ others q st st') as Hrec.
  { intros a st1 Hinv1 Ho1 Ha. destruct readable; [|by exists st1]. destruct (received_inv a now st1 Hinv1 Ha) as (st2 & -> & Hinv2 & Hf2). exists st2. split; [done|]. split; [done|]. by eapply others_frame. }
  destruct (GetConnection _ p) as [a|] eqn:Ea.
  - destruct (GetConnection_live st q p _ a Hinv Ep Ea) as (c & Ec & _). rewrite Ec. cbn [mbind option_bind].
    assert (fresh_at q r st → False) as Hno by (intros (_ & p' & Ep' & Hno & _); rewrite Ep in Ep'; injection Ep' as <-; congruence).
    destruct (IsEquivalent _ _); [|exists false, st; split; [done|]; split; [done|]; split; [apply frame_others, frame_refl|intros Hfr; by destruct (Hno Hfr)]].
    destruct (Hrec a st Hinv (frame_others q _ _ (frame_refl _)) ltac:(by eexists)) as (st' & E & Hinv' & Ho). exists true, st'. by split.
  - cbn zeta. destruct (bool_decide _ && _) eqn:Em.
    { exists false, st. split; [done|]. split; [done|]. split; [apply frame_others, frame_refl|]. intros _ ->. unfold GetOrigin in Em. by rewrite Z.eqb_refl in Em. }
    destruct (create_port_inv q p r (GetOrigin q origin) st Hinv Ep Ea Hg Hip) as (x & st1 & -> & Hx & Hreach). cbn [mbind option_bind]. destruct x as [a|].
    + destruct Hx as (st2 & -> & Hinv2 & Ho2 & Ha). cbn [mbind option_bind]. destruct (Hrec a st2 Hinv2 Ho2 Ha) as (st' & E & Hinv' & Ho). exists true, st'. by split.
    + cbn [mbind option_bind]. subst st1. exists false, st. split; [done|]. split; [done|]. split; [apply frame_others, frame_refl|]. intros (Hu & p' & Ep' & _ & Hr) _.
      rewrite Ep in Ep'. injection Ep' as <-. by destruct (Hreach Hr Hu).
Qed.
(** Connections for several ports. *)
Record same_frame (st st' : P2PTransportChannel) : Prop := {
  sf_cfg : ch_cfg st' = ch_cfg st;
  sf_live : ∀ o, is_Some (ports st !! o) → is_Some (ports st' !! o);
  sf_list : ports_ (ch_obj st') = ports_ (ch_obj st);
  sf_remotes : remote_candidates_ st' = remote_candidates_ st
}.
Lemma others_same q st st' : others q st st' → same_frame st st'.
Proof. intros []. by split. Qed.
Lemma same_frame_trans st st1 st2 : same_frame st st1 → same_frame st1 st2 → same_frame st st2.
Proof. intros [] []. split; try congruence. auto. Qed.
Lemma create_loop_inv r origin readable now l : ∀ created st, chan_inv st → (∀ q, q ∈ l → is_Some (ports st !! q)) → generation_ok (f_generation r) →
  ip_ok (ip_ (c_address (f_candidate r))) → ∃ ok st', create_loop l r origin readable now created st = Some (ok, st') ∧ chan_inv st' ∧ same_frame st st' ∧
  (created = true → ok = true) ∧ (∀ o, origin = Some o → fresh_at o r st → if bool_decide (o ∈ l) then ok = true else fresh_at o r st').
Proof.
  induction l as [|q l IH]; intros created st Hinv Hl Hg Hip; cbn [create_loop].
  { exists created, st. split; [done|]. split; [done|]. split; [by split|]. split; [done|]. intros o _ Hf. rewrite bool_decide_eq_false_2 by apply not_elem_of_nil. done. }
  destruct (CreateConnection_inv q r origin readable now st Hinv (Hl q (list_elem_of_here _ _)) Hg Hip) as (ok1 & st1 & -> & Hinv1 & Ho1 & Hok1). cbn [mbind option_bind].
  pose proof (others_same _ _ _ Ho1) as Hs1. set (created1 := if ok1 && _ then true else created).
  destruct (IH created1 st1 Hinv1) as (ok & st' & E & Hinv' & Hs' & Hc' & Hf'); [|done|done|].
  { intros o Ho. apply (sf_live _ _ Hs1). by apply Hl, list_elem_of_further. }
  exists ok, st'. split; [done|]. split; [done|]. split; [by eapply same_frame_trans|]. split.
  - intros ->. apply Hc'. unfold created1. by destruct (_ && _).
  - intros o -> Hfr. destruct (decide (o = q)) as [->|Hn].
    + rewrite bool_decide_eq_true_2 by apply list_elem_of_here. apply Hc'. unfold created1. rewrite (Hok1 Hfr eq_refl), bool_decide_eq_true_2 by done. done.
    + specialize (Hf' o eq_refl (fresh_others q o r st st1 Ho1 Hn Hfr)). rewrite (bool_decide_ext (o ∈ q :: l) (o ∈ l)); [done|]. rewrite elem_of_cons. naive_solver.
Qed.
Lemma remote_inv st l : chan_inv st → Forall (λ r, remote_ok r.1) l → chan_inv (set_remotes l st).
Proof. intros [I1 I2 I3 I4 I5 I6 I7 I8 I9] Hl. split; try done; [by destruct I1|]. intros q p Ep. by destruct (I3 q p Ep). Qed.
Lemma Remember_inv r o st : chan_inv st → remote_ok r → chan_inv (RememberRemoteCandidate r o st).
Proof.
  intros Hinv Hr. unfold RememberRemoteCandidate. cbn zeta. set (l := List.filter _ _). assert (Forall (λ x, remote_ok x.1) l) as Hl.
  { apply Forall_forall. intros x Hx%list_elem_of_In. apply filter_In in Hx as [Hx _]. pose proof (ci_remotes _ Hinv) as Hrs. rewrite Forall_forall in Hrs. by apply Hrs, list_elem_of_In. }
  destruct (IsDuplicateRemoteCandidate _ _); [by apply remote_inv|]. apply remote_inv; [by apply remote_inv|]. apply Forall_app. split; [exact Hl|]. by constructor.
Qed.
Lemma Remember_ports r o st : ports (RememberRemoteCandidate r o st) = ports st.
Proof. unfold RememberRemoteCandidate. cbn zeta. by destruct (IsDuplicateRemoteCandidate _ _). Qed.
(** The generation of a candidate is one that the protocol allows. *)
Definition generation_known (r : FullCandidate) (st : P2PTransportChannel) : Prop :=
  protocol_type_ (ch_cfg st) = ICEPROTO_GOOGLE ∨ f_generation r = 0 ∨ f_generation r = remote_candidate_generation_ (ch_cfg st).
Lemma CreateConnections_inv r origin readable now st : chan_inv st → remote_ok r → generation_known r st → (∀ o, origin = Some o → is_Some (ports st !! o)) →
  ∃ ok st', CreateConnections r origin readable now st = Some (ok, st') ∧ chan_inv st' ∧ (∀ o, is_Some (ports st !! o) → is_Some (ports st' !! o)) ∧
    (∀ o, origin = Some o → fresh_at o r st → ok = true).
Proof.
  intros Hinv (Hg & Hu & Hip) Hgk Ho. unfold CreateConnections. assert (∃ g, GetRemoteCandidateGeneration r st = Some g ∧ generation_ok g) as (g & -> & Hg').
  { unfold GetRemoteCandidateGeneration. destruct Hgk as [E|E]; [rewrite bool_decide_eq_true_2 by done; by eexists|]. case_bool_decide; [by eexists|].
    assert ((f_generation r =? 0) || (f_generation r =? remote_candidate_generation_ (ch_cfg st)) = true) as -> by (apply orb_true_iff; rewrite !Z.eqb_eq; done).
    eexists. split; [done|]. apply ci_generation; done. }
  cbn [mbind option_bind]. cbn zeta. set (new := on_candidate _ _). assert (remote_ok new) as Hnew by (split; [exact Hg'|by split]).
  assert (∀ o, fresh_at o r st → fresh_at o new st) as Hfr by (intros o (? & p & ? & ? & ?); split; [done|]; by exists p).
  destruct (bool_decide (origin = None) && _) eqn:Ed.
  { exists true, st. split; [done|]. by split. }
  destruct Hnew as (Hg1 & Hu1 & Hip1). destruct (create_loop_inv new origin readable now (rev (ports_ (ch_obj st))) false st Hinv) as (ok & st1 & -> & Hinv1 & Hs1 & _ & Hf1); [|done..|].
  { intros q Hq. apply (ci_list _ Hinv). apply list_elem_of_In. apply list_elem_of_In in Hq. by apply in_rev. }
  cbn [mbind option_bind]. assert (∃ ok2 st2, match origin with
     | Some o => if bool_decide (o ∈ ports_ (ch_obj st1)) then Some (ok, st1)
                 else '(ok2, st2) ← Channel_CreateConnection o new origin readable now st1; Some ((ok2 : bool) || ok, st2)
     | None => Some (ok, st1)
     end = Some (ok2, st2) ∧ chan_inv st2 ∧ same_frame st1 st2 ∧ (∀ o, origin = Some o → fresh_at o r st → ok2 = true)) as (ok2 & st2 & -> & Hinv2 & Hs2 & Hok2).
  { destruct origin as [o|]; [|exists ok, st1; split; [done|]; split; [done|]; split; [by split|done]].
    destruct (bool_decide (o ∈ ports_ (ch_obj st1))) eqn:Ho1; [apply bool_decide_eq_true in Ho1|apply bool_decide_eq_false in Ho1].
    - exists ok, st1. split; [done|]. split; [done|]. split; [by split|]. intros o' [= <-] Hfo. specialize (Hf1 o eq_refl (Hfr o Hfo)).
      rewrite bool_decide_eq_true_2 in Hf1; [done|]. rewrite (sf_list _ _ Hs1) in Ho1. apply list_elem_of_In. apply -> in_rev. by apply list_elem_of_In.
    - destruct (CreateConnection_inv o new (Some o) readable now st1 Hinv1) as (ok2 & st2 & -> & Hinv2 & Ho2 & Hok2); [by apply (sf_live _ _ Hs1), Ho|done|done|]. cbn [mbind option_bind].
      exists (ok2 || ok), st2. split; [done|]. split; [done|]. split; [by eapply others_same|]. intros o' [= <-] Hfo. rewrite Hok2; [done| |done]. specialize (Hf1 o eq_refl (Hfr o Hfo)).
      rewrite bool_decide_eq_false_2 in Hf1; [done|]. intros Hin. apply Ho1. rewrite (sf_list _ _ Hs1). apply list_elem_of_In. apply list_elem_of_In in Hin. by apply in_rev. }
  cbn [mbind option_bind]. eexists _, _. split; [reflexivity|]. split; [by apply Remember_inv|]. split; [|done].
  intros o Hso. assert (is_Some (ports st2 !! o)) as Hs by (by apply (sf_live _ _ Hs2), (sf_live _ _ Hs1)). by rewrite Remember_ports.
Qed.
Lemma create_for_port_inv q now l : ∀ st, chan_inv st → is_Some (ports st !! q) → Forall (λ r, remote_ok r.1) l →
  ∃ st', create_for_port q l now st = Some st' ∧ chan_inv st'.
Proof.
  induction l as [|[r o] l IH]; intros st Hinv Hq Hl; cbn [create_for_port]; [by exists st|]. apply Forall_cons_1 in Hl as [(Hg & _ & Hip) Hl].
  destruct (CreateConnection_inv q r o false now st Hinv Hq Hg Hip) as (ok & st1 & -> & Hinv1 & Ho1 & _). cbn [mbind option_bind]. apply IH; [done|by apply (ot_live _ _ _ Ho1)|done].
Qed.

(** ** Checks from unknown addresses *)

Lemma put_port_inv q p y st : chan_inv st → ports st !! q = Some p → port_near (cp_port p) y →
  chan_inv (put_port q (cp_with y p) st) ∧ frame st (put_port q (cp_with y p) st).
Proof.
  intros Hinv Ep Hy. set (st' := put_port _ _ st). assert (ports st' = <[q := cp_with y p]> (ports st)) as Eps by done. assert (frame st st') as Hfr.
  { split; try done.
    - intros o. rewrite Eps. destruct (decide (q = o)) as [<-|Hn]; [rewrite Ep, lookup_insert_eq; by eexists|]. rewrite lookup_insert_ne by done.
      destruct (ports st !! o) as [po|]; [|done]. exists (cp_port po). rewrite cp_with_id. split; [done|apply port_near_refl].
    - intros a. change (conns st') with (conns st). destruct (conns st !! a) as [c|]; [|done]. exists (cc_conn c). by rewrite cc_with_id. }
  split; [|done]. apply (frame_inv st); try done.
  - apply (wf_frame st); [by apply ci_wf|done|done].
  - intros a c pa Ec Epa. change (conns st') with (conns st) in Ec. rewrite Eps in Epa. destruct (ci_conns _ Hinv a c Ec) as (p' & Ep' & [_ [Hm Hc] _ _]).
    destruct (decide (q = cc_port c)) as [Eq|Hn].
    + rewrite <- Eq, lookup_insert_eq in Epa. injection Epa as <-. rewrite <- Eq, Ep in Ep'. injection Ep' as <-. split; [done|]. by apply (candidate_kept (cp_port p)).
    + rewrite lookup_insert_ne in Epa by done. rewrite Ep' in Epa. by injection Epa as <-.
  - apply (messages_frame st); [done|]. exact (ci_posted _ Hinv).
  - apply (messages_frame st); [done|]. exact (ci_timers _ Hinv).
Qed.
Lemma on_port_inv q f st : chan_inv st → is_Some (ports st !! q) → (∀ p, port_near p (f p)) → ∃ st', on_port q f st = Some st' ∧ chan_inv st' ∧ frame st st'.
Proof. intros Hinv [p Ep] Hf. unfold on_port. rewrite Ep. eexists. split; [reflexivity|]. by apply put_port_inv. Qed.
Lemma find_remote_spec addr proto user pp l : ∀ pw pw' r, find_remote addr proto user pp l pw = (pw', Some r) →
  ∃ o, (r, o) ∈ l ∧ (pp = true ∨ SocketAddress_eqb (c_address (f_candidate r)) addr = true).
Proof.
  induction l as [|[x o] l IH]; intros pw pw' r; cbn [find_remote]; [done|]. cbn zeta.
  assert (∀ w, find_remote addr proto user pp l w = (pw', Some r) → ∃ o', (r, o') ∈ (x, o) :: l ∧ (pp = true ∨ SocketAddress_eqb (c_address (f_candidate r)) addr = true)) as Hrec.
  { intros w (o' & Hin & Ho)%IH. exists o'. split; [by apply list_elem_of_further|done]. }
  destruct (bool_decide _); [|apply Hrec]. destruct (pp || _) eqn:E; [|apply Hrec]. intros [= _ <-]. exists o. split; [apply list_elem_of_here|].
  apply orb_true_iff in E as [|[? _]%andb_true_iff]; auto.
Qed.
Lemma eqb_chain a b c : ip_ok (ip_ a) → ip_ok (ip_ b) → ip_ok (ip_ c) → SocketAddress_eqb a b = true → SocketAddress_eqb b c = true → SocketAddress_eqb a c = true.
Proof. intros Ha Hb Hc. rewrite !SocketAddress_eqb_spec by done. intros (-> & -> & ->) (-> & -> & ->). done. Qed.
(** The candidate that a check from an unknown address gives. *)
Lemma unknown_candidate q p addr proto user pw cand id comp st : chan_inv st → ports st !! q = Some p → GetConnection addr p = None →
  port_reach p (ip_ addr) → ip_ok (ip_ addr) → find_remote addr (text "udp") user (ufrag_per_port (remote_candidates_ st)) (remote_candidates_ st) None = (Some pw, cand) →
  proto = text "udp" →
  let r := match cand with
           | Some c => if ufrag_per_port (remote_candidates_ st) then on_candidate (with_address addr) c else c
           | None => new_remote p addr proto user pw id comp
           end in remote_ok r ∧ fresh_at q r st.
Proof.
  intros Hinv Ep Hnone Hreach Hip Efind -> r. destruct cand as [c|].
  - apply find_remote_spec in Efind as (o & Hin & Hpp). pose proof (ci_remotes _ Hinv) as Hrs. rewrite Forall_forall in Hrs. destruct (Hrs _ Hin) as (Hg & Hu & Hipc). cbn in Hg, Hu, Hipc.
    unfold r. destruct (ufrag_per_port _); [split; [by split|]; split; [done|]; by exists p|]. destruct Hpp as [|He]; [done|]. split; [by split|]. split; [done|]. exists p. split; [done|].
    apply SocketAddress_eqb_spec in He as He'; [|done..]. destruct He' as (Ei & _). rewrite Ei. split; [|done]. unfold GetConnection. destruct (find _ _) as [x|] eqn:Ef; [|done]. exfalso.
    apply find_first in Ef as [Hx Hxe]. pose proof (GetConnection_none _ _ _ Hnone Hx) as Hno. assert (SocketAddress_eqb x.1 addr = true); [|congruence].
    apply (eqb_chain _ (c_address (f_candidate c))); try done. by apply (entry_ip st q p).
  - split; [|split; [done|by exists p]]. split; [split; [done|by vm_compute]|]. by split.
Qed.
Lemma add_reflexive_inv q addr msg now r st : chan_inv st → remote_ok r → fresh_at q r st → ∃ st', add_reflexive q addr msg false now r st = Some st' ∧ chan_inv st'.
Proof.
  intros Hinv (Hg & Hu & Hip) (_ & p & Ep & Hnone & Hreach). unfold add_reflexive. rewrite Ep. cbn [mbind option_bind]. destruct (GetUInt32 _ _) as [prio|].
  2: { destruct (on_port_inv q (SendBindingErrorResponse msg addr STUN_ERROR_BAD_REQUEST STUN_ERROR_REASON_BAD_REQUEST) st Hinv) as (st' & E & Hi & _); [by eexists|intros; apply error_kept|by exists st']. }
  cbn zeta. set (r' := on_candidate _ r). change (c_address (f_candidate r')) with (c_address (f_candidate r)). rewrite Hnone.
  destruct (create_port_inv q p r' ORIGIN_THIS_PORT st Hinv Ep Hnone Hg Hip) as (x & st1 & -> & Hx & Hsome). cbn [mbind option_bind].
  destruct x as [a|]; [|by destruct (Hsome Hreach Hu)]. cbn [mbind option_bind]. destruct Hx as (st2 & -> & Hinv2 & Ho2 & Ha). cbn [mbind option_bind].
  destruct (received_inv a now st2 Hinv2 Ha) as (st3 & -> & Hinv3 & Hf3). cbn [mbind option_bind].
  destruct (on_port_inv q (SendBindingResponse msg addr) st3 Hinv3) as (st4 & -> & Hinv4 & _); [|intros; apply response_kept|].
  { apply (frame_ports st2); [done|]. apply (ot_live _ _ _ Ho2). by eexists. }
  cbn [mbind option_bind]. by apply SortConnections_inv.
Qed.
Lemma OnUnknownAddress_inv q addr msg user id now st p : chan_inv st → ports st !! q = Some p → GetConnection addr p = None → port_reach p (ip_ addr) → ip_ok (ip_ addr) →
  ∃ st', OnUnknownAddress q addr (text "udp") msg user false id now st = Some st' ∧ chan_inv st'.
Proof.
  intros Hinv Ep Hnone Hreach Hip. unfold OnUnknownAddress. rewrite Ep. cbn [mbind option_bind]. cbn zeta.
  destruct (find_remote _ _ _ _ _ _) as [[pw|] cand] eqn:Ef.
  2: { destruct (on_port_inv q (SendBindingErrorResponse msg addr STUN_ERROR_STALE_CREDENTIALS STUN_ERROR_REASON_STALE_CREDENTIALS) st Hinv) as (st' & E & Hi & _);
       [by eexists|intros; apply error_kept|by exists st']. }
  destruct (unknown_candidate q p addr (text "udp") user pw cand id (ch_component (ch_cfg st)) st Hinv Ep Hnone Hreach Hip Ef eq_refl) as [Hr Hfr].
  set (r := match cand with Some _ => _ | None => _ end) in *. pose proof (ci_ports _ Hinv q p Ep) as Hp. destruct (IsStandardIce (cp_port p)) eqn:Es; [by apply add_reflexive_inv|].
  assert (protocol_type_ (ch_cfg st) = ICEPROTO_GOOGLE) as Hgoogle.
  { rewrite <- (pi_protocol _ _ _ Hp). destruct (ice_protocol_ (cp_port p)) eqn:Eproto; [done|..]; try done.
    - exfalso. destruct (ci_hybrid _ Hinv) as [E _]; [by rewrite <- (pi_protocol _ _ _ Hp)|]. by rewrite E, lookup_empty in Ep.
    - unfold IsStandardIce in Es. by rewrite Eproto in Es. }
  destruct (CreateConnections_inv r (Some q) true now st Hinv Hr) as (ok & st1 & -> & Hinv1 & Hl1 & Hok); [by left|intros o [= <-]; by eexists|]. cbn [mbind option_bind].
  rewrite (Hok q eq_refl Hfr). cbn [negb]. destruct (on_port_inv q (SendBindingResponse msg addr) st1 Hinv1) as (st2 & -> & Hinv2 & _); [apply Hl1; by eexists|intros; apply response_kept|].
  cbn [mbind option_bind]. by apply SortConnections_inv.
Qed.

(** ** Packets *)

Lemma Port_OnReadPacket_safe data addr p : IsHybridIce p = false → is_Some (ValidateMessageIntegrity data (password_ p)) →
  ∃ p', Port_OnReadPacket data addr p = Some p' ∧ (port_kept p p' ∨ ∃ p1 m u, port_kept p p1 ∧ p' = port_emit (SignalUnknownAddress addr m u) p1).
Proof.
  intros Hh Hv. unfold Port_OnReadPacket. destruct (enable_port_packets_ p); [eexists; split; [reflexivity|]; left; by apply port_emit_kept|].
  destruct (GetStunMessage_safe data addr p Hh Hv) as (is_stun & msg & user & p1 & -> & Hp1). cbn [mbind option_bind]. destruct msg as [msg|]; [|by eexists; split; [reflexivity|left]].
  destruct (_ =? _); [|by eexists; split; [reflexivity|left]]. destruct (if IsStandardIce p1 then _ else _) as [ok p2] eqn:E2.
  assert (port_kept p p2) as Hp2. { eapply port_kept_trans; [exact Hp1|]. destruct (IsStandardIce p1); [by eapply conflict_kept|injection E2 as _ <-; apply port_kept_refl]. }
  destruct ok; [|by eexists; split; [reflexivity|left]]. eexists. split; [reflexivity|]. right. by exists p2, msg, user.
Qed.
Lemma emit_inv l st : chan_inv st → chan_inv (ch_emit l st).
Proof. intros Hinv. apply (inv_same st); try done; [by apply (wf_frame st); [apply ci_wf|..]|]. intros Hh. by apply (ci_hybrid _ Hinv). Qed.
Lemma quiet_events_inv q id now l : Forall quiet l → ∀ st, chan_inv st → ∃ st', port_events q id now l st = Some st' ∧ chan_inv st' ∧ ports st' = ports st.
Proof.
  induction 1 as [|x l Hx _ IH]; intros st Hinv; cbn [port_events]; [by exists st|].
  assert (∃ k, match x with SignalRoleConflict => Some (ch_emit [ChRoleConflict] st) | SignalUnknownAddress addr msg user => OnUnknownAddress q addr (text "udp") msg user false id now st
    | _ => Some st end = Some (ch_emit k st)) as [k ->].
  { assert (Some st = Some (ch_emit [] st)) as Hnil by (destruct st; unfold ch_emit; cbn; by rewrite app_nil_r). destruct x; cbn in Hx; try done; [by exists []..| |]; by eexists. }
  cbn [mbind option_bind]. destruct (IH (ch_emit k st) (emit_inv k st Hinv)) as (st' & E & Hinv' & Ep). by exists st'.
Qed.
Lemma not_hybrid st q p : chan_inv st → ports st !! q = Some p → IsHybridIce (cp_port p) = false.
Proof.
  intros Hinv Ep. unfold IsHybridIce. apply bool_decide_eq_false_2. rewrite (pi_protocol _ _ _ (ci_ports _ Hinv q p Ep)). intros Hh. destruct (ci_hybrid _ Hinv Hh) as [E _].
  by rewrite E, lookup_empty in Ep.
Qed.
Lemma port_packet_inv q p addr data id now st : chan_inv st → ports st !! q = Some p → port_reach p (ip_ addr) → ip_ok (ip_ addr) →
  is_Some (ValidateMessageIntegrity data (password_ (cp_port p))) →
  (∀ a c, conns st !! a = Some c → is_Some (ValidateMessageIntegrity data (c_password (remote_candidate_ (cc_conn c))))) →
  ∃ st', port_packet q addr data id now st = Some st' ∧ chan_inv st'.
Proof.
  intros Hinv Ep Hreach Hip Hv Hvc. pose proof (not_hybrid st q p Hinv Ep) as Hh. unfold port_packet. rewrite Ep. cbn [mbind option_bind].
  destruct (GetConnection addr p) as [a|] eqn:Ea.
  - destruct (GetConnection_live st q p _ a Hinv Ep Ea) as (c & Ec & Eq).
    destruct (on_conn_inv a (Connection_OnReadPacket data now) st c Hinv Ec) as (st' & E & Hinv' & _); [|by exists st'].
    intros p' Ep' _ Hin. rewrite Eq, Ep in Ep'. injection Ep' as <-. apply OnReadPacket_safe; [done|done|by eapply Hvc|apply Hin].
  - destruct (Port_OnReadPacket_safe data addr (cp_port p) Hh Hv) as (p' & -> & Hp'). cbn [mbind option_bind]. destruct Hp' as [Hk|(p1 & m & u & Hk & ->)].
    + destruct (put_port_inv q p p' st Hinv Ep (pk_near _ _ Hk)) as [Hinv1 _]. destruct (pk_log _ _ Hk) as (l & El & Hl). rewrite El, drop_app_length.
      destruct (quiet_events_inv q id now l Hl _ Hinv1) as (st' & E & Hinv' & _). by exists st'.
    + destruct (pk_log _ _ Hk) as (l & El & Hl). cbn [port_emit port_log]. rewrite El, <- app_assoc, drop_app_length.
      assert (∀ l2 s s', port_events q id now l s = Some s' → port_events q id now (l ++ l2) s = port_events q id now l2 s') as Happ.
      { clear. intros l2. induction l as [|x l IH]; intros s s'; cbn [port_events app]; [by intros [= <-]|].
        destruct (match x with SendTo _ _ => _ | _ => _ end) as [s1|]; [|done]. cbn [mbind option_bind]. apply IH. }
      destruct (put_port_inv q p (port_emit (SignalUnknownAddress addr m u) p1) st Hinv Ep) as [Hinv1 _].
      { eapply port_near_trans; [exact (pk_near _ _ Hk)|apply port_emit_near]. }
      destruct (quiet_events_inv q id now l Hl _ Hinv1) as (st1 & E1 & Hinv2 & Ep2). rewrite (Happ _ _ _ E1). cbn [port_events].
      set (p2 := cp_with _ p) in *.
      assert (ports st1 !! q = Some p2) as Ep3 by (rewrite Ep2; apply lookup_insert_eq).
      assert (port_reach p2 (ip_ addr)) as Hr2. { pose proof (port_reach_kept p (port_emit (SignalUnknownAddress addr m u) p1) (cp_conns p) (ip_ addr) Hreach) as Hr. by destruct p. }
      destruct (OnUnknownAddress_inv q addr m u id now st1 p2 Hinv2 Ep3) as (st' & -> & Hinv'); [done|done|done|by exists st'].
Qed.
End inv.
