(* ===== verification/IceChannelRun.v ===== *)
(** * Every intended use of a channel is defined

    Deletion of connections and ports, timers, pings, and changes of the configuration
    keep the invariant, so that a run of a channel in which its owner, its ports and its
    network do what they promise does not fail. *)

From stdpp Require Import strings.
From S2P Require Import Prelude ByteOrder ByteBuffer Crc32 IpAddress Stun StunWire StunIntegrity StunBuild TimeUtils MessageQueue StunRequest IcePort IceConnection IceChannel IceChannelInv IceChannelSort IceChannelPing IceChannelSafe.

Lemma push_timer_perm x l : push_timer x l ≡ₚ x :: l.
Proof. induction l as [|y l IH]; cbn; [done|]. destruct (_ <? _); [done|]. rewrite IH. constructor. Qed.

Section run.
Context `{PortLaws}.

(** ** Deletion of a connection *)

Record destroyed (a q : Z) (p : chan_port) (addr : SocketAddress) (st st' : P2PTransportChannel) : Prop := {
  ds_cfg : ch_cfg st' = ch_cfg st;
  ds_conns : conns st' = delete a (conns st);
  ds_ports : ports st' = <[q := cp_connections (List.filter (λ x, negb (SocketAddress_eqb x.1 addr)) (cp_conns p)) p]> (ports st);
  ds_list : ports_ (ch_obj st') = ports_ (ch_obj st);
  ds_remotes : remote_candidates_ st' = remote_candidates_ st;
  ds_writable : ch_writable (ch_sel st') = ch_writable (ch_sel st);
  ds_posted : ∀ m, m ∈ ch_posted st' → m ≠ MSG_DELETE a ∧ (m ∈ ch_posted st ∨ m = MSG_SORT);
  ds_timers : ∀ m, m ∈ (ch_timers st').*2 → m ≠ MSG_DELETE a ∧ (m ∈ (ch_timers st).*2 ∨ m = MSG_CHECKTIMEOUT q ∧ ice_role_ (cp_port p) = ICEROLE_CONTROLLED)
}.
Lemma entry_found st a c p : chan_inv st → conns st !! a = Some c → ports st !! cc_port c = Some p → conn_in a c p → GetConnection (address_of c) p = Some a.
Proof.
  intros Hinv Ec Ep [He _ _ Hip]. unfold GetConnection. destruct (find _ _) as [x|] eqn:Ef.
  - apply find_some in Ef as [Hx Hb]. apply list_elem_of_In in Hx. by rewrite (pi_unique _ _ _ (ci_ports _ Hinv _ _ Ep) x _ Hx He Hb).
  - apply list_elem_of_In in He. pose proof (find_none _ _ Ef _ He) as Hn. cbn in Hn. rewrite (proj2 (SocketAddress_eqb_spec _ _ Hip Hip)) in Hn; [done|by split].
Qed.
(** The handlers of the port and of the channel. *)
Lemma told a q p addr now st : ports st !! q = Some p → GetConnection addr p = Some a → a ∈ list_of st → ∃ st1 st2,
  Port_OnConnectionDestroyed q addr now st = Some st1 ∧ Channel_OnConnectionDestroyed a st1 = Some st2 ∧
  ch_cfg st2 = ch_cfg st ∧ conns st2 = conns st ∧ ports st2 = <[q := cp_connections (List.filter (λ x, negb (SocketAddress_eqb x.1 addr)) (cp_conns p)) p]> (ports st) ∧
  ports_ (ch_obj st2) = ports_ (ch_obj st) ∧ remote_candidates_ st2 = remote_candidates_ st ∧ ch_writable (ch_sel st2) = ch_writable (ch_sel st) ∧
  (∀ m, m ∈ ch_posted st2 → m ∈ ch_posted st ∨ m = MSG_SORT) ∧
  (∀ m, m ∈ (ch_timers st2).*2 → m ∈ (ch_timers st).*2 ∨ m = MSG_CHECKTIMEOUT q ∧ ice_role_ (cp_port p) = ICEROLE_CONTROLLED).
Proof.
  intros Ep Ea Hin. unfold Port_OnConnectionDestroyed. rewrite Ep. cbn [mbind option_bind]. rewrite Ea. cbn [mbind option_bind]. set (st1 := if bool_decide _ then _ else _).
  assert (list_of st1 = list_of st ∧ best st1 = best st ∧ ch_cfg st1 = ch_cfg st ∧ conns st1 = conns st ∧
    ports st1 = <[q := cp_connections (List.filter (λ x, negb (SocketAddress_eqb x.1 addr)) (cp_conns p)) p]> (ports st) ∧
    ports_ (ch_obj st1) = ports_ (ch_obj st) ∧ remote_candidates_ st1 = remote_candidates_ st ∧ ch_writable (ch_sel st1) = ch_writable (ch_sel st) ∧
    ch_posted st1 = ch_posted st ∧ ∀ m, m ∈ (ch_timers st1).*2 → m ∈ (ch_timers st).*2 ∨ m = MSG_CHECKTIMEOUT q ∧ ice_role_ (cp_port p) = ICEROLE_CONTROLLED) as F.
  { unfold st1. case_bool_decide as Er; repeat (split; [done|]); [|by left]. intros m ([t m'] & -> & Hx)%list_elem_of_fmap.
    cbn in Hx. rewrite push_timer_perm, elem_of_cons in Hx. destruct Hx as [[= _ ->]|Hx]; [by right|]. left. apply list_elem_of_fmap. by exists (t, m'). }
  clearbody st1. destruct F as (F1 & F2 & F3 & F4 & F5 & F6 & F7 & F8 & F9 & F10). exists st1. unfold Channel_OnConnectionDestroyed, FindConnection. rewrite F1, (bool_decide_eq_true_2 (a ∈ list_of st)) by done. cbn [negb]. cbn zeta.
  set (st3 := set_list _ st1). set (st4 := if bool_decide (pending_best_connection_ (ch_sel st3) = Some a) then set_pending None st3 else st3).
  assert (ch_cfg st4 = ch_cfg st1 ∧ ch_obj st4 = ch_obj st1 ∧ remote_candidates_ st4 = remote_candidates_ st1 ∧ ch_writable (ch_sel st4) = ch_writable (ch_sel st1) ∧
    ch_posted st4 = ch_posted st1 ∧ ch_timers st4 = ch_timers st1) as (G1 & G2 & G3 & G4 & G5 & G6) by (unfold st4; by destruct (bool_decide (pending_best_connection_ _ = _))).
  assert (∃ st5, (if bool_decide (best st4 = Some a) then st ← SwitchBestConnectionTo None st4; Some (RequestSort st) else Some st4) = Some st5 ∧
    ch_cfg st5 = ch_cfg st1 ∧ ch_obj st5 = ch_obj st1 ∧ remote_candidates_ st5 = remote_candidates_ st1 ∧ ch_writable (ch_sel st5) = ch_writable (ch_sel st1) ∧
    (∀ m, m ∈ ch_posted st5 → m ∈ ch_posted st1 ∨ m = MSG_SORT) ∧ ch_timers st5 = ch_timers st1) as (st5 & E5 & K1 & K2 & K3 & K4 & K5 & K6).
  { clearbody st4. destruct (bool_decide (best st4 = _)); [|exists st4; do 5 (split; [done|]); split; [intros m; rewrite G5; by left|done]]. cbn. eexists. split; [reflexivity|]. unfold RequestSort.
    destruct (sort_dirty_ _); cbn; do 4 (split; [done|]); (split; [|done]); intros m; rewrite G5; [by left|]. rewrite elem_of_app, list_elem_of_singleton. done. }
  exists (ch_emit [ChConnectionRemoved] st5). split; [done|]. split; [unfold option_bind, mbind in E5 |- *; by rewrite E5|].
  split; [exact (eq_trans K1 F3)|]. split; [exact (eq_trans (f_equal conn_heap K2) F4)|]. split; [exact (eq_trans (f_equal port_heap K2) F5)|].
  split; [exact (eq_trans (f_equal ports_ K2) F6)|]. split; [exact (eq_trans K3 F7)|]. split; [exact (eq_trans K4 F8)|]. cbn [ch_emit ch_posted ch_timers]. split; [intros m Hm; rewrite <- F9; by apply K5|]. rewrite K6. exact F10.
Qed.
Lemma destroyed_of a now st c p : chan_inv st → conns st !! a = Some c → ports st !! cc_port c = Some p → conn_in a c p →
  ∃ st', Connection_OnMessage a now st = Some st' ∧ destroyed a (cc_port c) p (address_of c) st st'.
Proof.
  intros Hinv Ec Ep Hin. destruct (told a (cc_port c) p (address_of c) now st Ep) as (st1 & st2 & E1 & E2 & F1 & F2 & F3 & F4 & F5 & F6 & F7 & F8).
  { by apply (entry_found st). }
  { apply (wf_live _ (ci_wf _ Hinv)). by eexists. }
  unfold Connection_OnMessage. rewrite Ec. cbn [mbind option_bind]. fold (address_of c). rewrite E1. cbn [mbind option_bind]. rewrite E2. cbn [mbind option_bind].
  eexists. split; [reflexivity|]. split; try done.
  - change (delete a (conns st2) = delete a (conns st)). by rewrite F2.
  - intros m Hm. apply list_elem_of_In, filter_In in Hm as [Hm Hn]. apply negb_true_iff, bool_decide_eq_false in Hn. split; [done|]. by apply F7, list_elem_of_In.
  - intros m (x & -> & Hm)%list_elem_of_fmap. apply list_elem_of_In, filter_In in Hm as [Hm Hn]. apply negb_true_iff, bool_decide_eq_false in Hn. split; [done|].
    apply F8, list_elem_of_fmap. exists x. split; [done|]. by apply list_elem_of_In.
Qed.
Lemma destroyed_inv a st st' c p : chan_inv st → conns st !! a = Some c → ports st !! cc_port c = Some p → conn_in a c p →
  destroyed a (cc_port c) p (address_of c) st st' → chan_wf st' → chan_inv st'.
Proof.
  intros [I1 I2 I3 I4 I5 I6 I7 I8 I9] Ec Ep Hin [D1 D2 D3 D4 D5 D6 D7 D8] Hwf.
  assert (∀ m, m ≠ MSG_DELETE a → message_ok st m → message_ok st' m) as Hm.
  { intros [| |b|o]; cbn; try done.
    - intros Hn. rewrite D2, lookup_delete_is_Some. intros ?. split; congruence.
    - intros _. rewrite D1, D3. intros [Ho ?]. split; [|done]. rewrite lookup_insert_is_Some. destruct (decide (cc_port c = o)); [by left|by right]. }
  split; rewrite ?D1, ?D4, ?D5, ?D6; try done.
  - intros b cb. rewrite D2. intros [Hn Eb]%lookup_delete_Some. destruct (I2 b cb Eb) as (pb & Epb & [He Hok Hg Hi]). rewrite D3.
    destruct (decide (cc_port c = cc_port cb)) as [Eq|Hq]; [|rewrite lookup_insert_ne by done; by exists pb].
    rewrite Eq, lookup_insert_eq. rewrite <- Eq, Ep in Epb. injection Epb as <-. eexists. split; [reflexivity|]. split; try done. cbn.
    apply list_elem_of_In, filter_In. split; [by apply list_elem_of_In|]. apply negb_true_iff, not_true_iff_false. intros Hb.
    pose proof (pi_unique _ _ _ (I3 _ _ Ep) _ _ He (in_entry _ _ _ Hin) Hb) as [= _ ->]. done.
  - intros o po. rewrite D3. intros [[<- <-]|[Hn Eo]]%lookup_insert_Some.
    + destruct (I3 _ _ Ep) as [J1 J2 J3 J4 J5 J6]. split; rewrite ?D1, ?D2; try done.
      * pose proof (port_fit_kept p (cp_port p) (List.filter (λ x, negb (SocketAddress_eqb x.1 (address_of c))) (cp_conns p)) J3 (pk_candidates _ _ (port_near_refl _))) as Hf. by destruct p.
      * intros x Hx. cbn in Hx. apply list_elem_of_In, filter_In in Hx as [Hx Hb]. apply list_elem_of_In in Hx. destruct (J5 x Hx) as (cx & Ecx & Hcx & Hax). exists cx. split; [|done].
        apply lookup_delete_Some. split; [|done]. intros ->. rewrite Ec in Ecx. injection Ecx as <-. rewrite <- Hax in Hb.
        by rewrite (proj2 (SocketAddress_eqb_spec _ _ (in_ip _ _ _ Hin) (in_ip _ _ _ Hin))) in Hb.
      * intros x y Hx Hy. cbn in Hx, Hy. apply list_elem_of_In, filter_In in Hx as [Hx _], Hy as [Hy _]. by apply J6; apply list_elem_of_In.
    + destruct (I3 _ _ Eo) as [J1 J2 J3 J4 J5 J6]. split; rewrite ?D1, ?D2; try done. intros x Hx. destruct (J5 x Hx) as (cx & Ecx & Hcx & Hax). exists cx. split; [|done].
      apply lookup_delete_Some. split; [|done]. intros ->. rewrite Ec in Ecx. injection Ecx as <-. done.
  - intros Hh. destruct (I4 Hh) as [E0 _]. by rewrite E0, lookup_empty in Ep.
  - destruct I5 as [? I5]. split; [done|]. intros o Ho. rewrite D3, lookup_insert_is_Some. destruct (decide (cc_port c = o)); [by left|right; by split; [|apply I5]].
  - apply Forall_forall. intros m Hx. destruct (D7 m Hx) as [Hn [Ho| ->]]; [|done]. apply Hm; [done|]. by eapply Forall_forall in I6.
  - apply Forall_forall. intros m Hx. destruct (D8 m Hx) as [Hn [Ho|[-> Hr]]]; [apply Hm; [done|]; by eapply Forall_forall in I7|]. cbn. rewrite D1, D3, lookup_insert_eq.
    split; [by eexists|]. by rewrite <- (pi_role _ _ _ (I3 _ _ Ep)).
Qed.
Lemma Connection_OnMessage_inv a now st : chan_inv st → is_Some (conns st !! a) → ∃ st', Connection_OnMessage a now st = Some st' ∧ chan_inv st'.
Proof.
  intros Hinv [c Ec]. destruct (ci_conns _ Hinv a c Ec) as (p & Ep & Hin). destruct (destroyed_of a now st c p Hinv Ec Ep Hin) as (st' & E & Hd). exists st'. split; [done|].
  apply (destroyed_inv a st st' c p); try done. by apply (Connection_OnMessage_wf a now st), E; apply ci_wf.
Qed.

(** ** Deletion of a port *)

Lemma Port_CheckTimeout_inv q st : chan_inv st → is_Some (ports st !! q) → ch_role (ch_cfg st) = ICEROLE_CONTROLLED → ∃ st', Port_CheckTimeout q st = Some st' ∧ chan_inv st'.
Proof.
  intros Hinv [p Ep] Hr. unfold Port_CheckTimeout. rewrite Ep. cbn [mbind option_bind]. rewrite (pi_role _ _ _ (ci_ports _ Hinv _ _ Ep)), Hr, bool_decide_eq_true_2 by done. cbn [negb].
  destruct (cp_conns p) as [|x l] eqn:El; [|by exists st]. eexists. split; [reflexivity|]. cbn zeta. set (st' := ch_clear _ _).
  assert (conns st' = conns st ∧ ports st' = delete q (ports st) ∧ ch_cfg st' = ch_cfg st) as (Ec & Eps & Eg) by done. destruct Hinv as [I1 I2 I3 I4 I5 I6 I7 I8 I9].
  assert (∀ m, m ≠ MSG_CHECKTIMEOUT q → message_ok st m → message_ok st' m) as Hm.
  { intros [| |b|o]; cbn; try done. intros Hn [Ho ?]. split; [|done]. change (is_Some (delete q (ports st) !! o)). rewrite lookup_delete_is_Some. split; congruence. }
  split; try done.
  - by apply (wf_frame st).
  - intros a c. rewrite Ec. intros Ea. destruct (I2 a c Ea) as (pa & Epa & Hin). exists pa. split; [|done]. rewrite Eps. apply lookup_delete_Some. split; [|done].
    intros Eq. rewrite <- Eq, Ep in Epa. injection Epa as <-. destruct Hin as [He _ _ _]. rewrite El in He. by apply not_elem_of_nil in He.
  - intros o po. rewrite Eps. intros [Hn Eo]%lookup_delete_Some. destruct (I3 _ _ Eo) as [J1 J2 J3 J4 J5 J6]. by split; rewrite ?Eg, ?Ec.
  - rewrite Eg. intros Hh. destruct (I4 Hh) as [E0 _]. by rewrite E0, lookup_empty in Ep.
  - destruct I5 as [Hnd I5]. split; [by apply remove_first_nodup|]. intros o Ho. change (o ∈ remove_first q (ports_ (ch_obj st))) in Ho. apply remove_first_elem in Ho as [Ho Hn]; [|done].
    rewrite Eps. apply lookup_delete_is_Some. split; [done|by apply I5].
  - apply Forall_forall. intros m Hx. apply list_elem_of_In, filter_In in Hx as [Hx Hn]. apply negb_true_iff, bool_decide_eq_false in Hn. apply Hm; [done|].
    eapply Forall_forall in I6; [done|]. by apply list_elem_of_In.
  - apply Forall_forall. intros m (x & -> & Hx)%list_elem_of_fmap. apply list_elem_of_In, filter_In in Hx as [Hx Hn]. apply negb_true_iff, bool_decide_eq_false in Hn. apply Hm; [done|].
    eapply Forall_forall in I7; [done|]. apply list_elem_of_fmap. exists x. split; [done|]. by apply list_elem_of_In.
Qed.

(** ** Pings *)

Lemma thread_inv f g st : chan_inv st → Forall (message_ok st) (f (ch_posted st)) → Forall (message_ok st) (g (ch_timers st)).*2 → chan_inv (on_thread f g st).
Proof. intros Hinv Hf Hg. apply (inv_gen st); try done; [apply (ci_generation _ Hinv)|apply (ci_remotes _ Hinv)|by apply (wf_frame st); [apply ci_wf|..]|intros Hh; by apply (ci_hybrid _ Hinv)]. Qed.
Lemma post_inv m st : chan_inv st → message_ok st m → chan_inv (ch_post m st).
Proof. intros Hinv Hm. apply thread_inv; [done| |apply (ci_timers _ Hinv)]. apply Forall_app. split; [apply (ci_posted _ Hinv)|by constructor]. Qed.
Lemma post_delayed_inv d now m st : chan_inv st → message_ok st m → chan_inv (ch_post_delayed d now m st).
Proof. intros Hinv Hm. apply thread_inv; [done|apply (ci_posted _ Hinv)|]. rewrite push_timer_perm. cbn. constructor; [done|apply (ci_timers _ Hinv)]. Qed.

Definition requests_at (st : P2PTransportChannel) (b : Z) : option (StunRequestManager (K := ConnectionRequest)) := (λ c, conn_requests (cc_conn c)) <$> conns st !! b.
Lemma update_states_requests now l : ∀ st st', update_states l now st = Some st' → ∀ b, requests_at st' b = requests_at st b.
Proof.
  induction l as [|a l IH]; intros st st'; cbn [update_states]; [by intros [= <-]|]. destruct (on_conn _ _ st) as [st1|] eqn:E1; [|done]. cbn [mbind option_bind].
  intros E2 b. rewrite (IH _ _ E2 b). apply on_conn_done in E1 as (c & p & x & y & Ec & Ep & [= <- <-] & [Ecs _ _ _]). unfold requests_at. rewrite Ecs.
  destruct (decide (a = b)) as [<-|Hn]; [|by rewrite lookup_insert_ne]. rewrite lookup_insert_eq, Ec. cbn. f_equal. apply (ct_requests _ _ (touch_update now (cp_port p) (cc_conn c))).
Qed.
Lemma oldest_safe st l : (∀ a, a ∈ l → is_Some (conns st !! a)) → ∀ o t, (∀ a, o = Some a → is_Some (conns st !! a)) →
  ∃ r, oldest_pingable l o t st = Some r ∧ ∀ a, r = Some a → is_Some (conns st !! a).
Proof.
  induction l as [|a l IH]; intros Hl o t Ho; cbn [oldest_pingable]; [by exists o|]. destruct (Hl a (list_elem_of_here _ _)) as [c Ec]. rewrite Ec. cbn [mbind option_bind].
  assert (∀ b, b ∈ l → is_Some (conns st !! b)) as Hl' by (intros b Hb; by apply Hl, list_elem_of_further). destruct (_ && _); apply IH; try done. intros b [= <-]. by eexists.
Qed.
Lemma FindNext_safe now st : chan_inv st → ∃ r, FindNextPingableConnection now st = Some r ∧ ∀ a, r = Some a → is_Some (conns st !! a).
Proof.
  intros Hinv. unfold FindNextPingableConnection. assert (∀ b, best st = Some b → is_Some (conns st !! b)) as Hb.
  { intros b Eb. by apply live_of, (wf_best _ (ci_wf _ Hinv)). }
  assert (∀ o, ∃ r, (if (o : bool) then Some (best st) else oldest_pingable (list_of st) None 4294967295 st) = Some r ∧ ∀ a, r = Some a → is_Some (conns st !! a)) as Hr.
  { intros [|]; [by exists (best st)|]. apply oldest_safe; [by apply live_of|done]. }
  destruct (best st) as [b|] eqn:Eb; [|cbn [mbind option_bind]; apply (Hr false)]. destruct (Hb b eq_refl) as [c ->]. cbn [mbind option_bind]. apply Hr.
Qed.
(** The owner gives the ping a request and a transaction id that no connection uses. *)
Definition fresh_request (a : Z) (random : list Z) (st : P2PTransportChannel) : Prop :=
  ∀ b m, requests_at st b = Some m → ∀ k : ConnectionRequest, stun_op_ok m (ONew a k (StunMessage_new CIce) random).
Lemma PingConnection_inv b now a random st : chan_inv st → is_Some (conns st !! b) → fresh_request a random st →
  ∃ st', PingConnection b now a random st = Some st' ∧ chan_inv st'.
Proof.
  intros Hinv Hb Hf. unfold PingConnection. destruct (view_safe st b Hinv Hb) as (v & -> & _). cbn [mbind option_bind].
  assert (∃ r, match best st with Some b => Some <$> view st b | None => Some None end = Some r) as [r ->].
  { destruct (best st) as [d|] eqn:Ed; [|by eexists]. destruct (view_safe st d Hinv) as (w & -> & _); [|by eexists]. by apply live_of, (wf_best _ (ci_wf _ Hinv)). }
  cbn [mbind option_bind]. cbn zeta. set (u := if standard st then _ else false). clearbody u. destruct Hb as [c Ec].
  destruct (on_conn_inv b (λ c p, c ← Ping now a random p (set_use_candidate_attr u c); Some (c, p)) st c Hinv Ec) as (st' & E & Hinv' & _); [|by exists st'].
  intros p Ep _ Hin. destruct (Ping_safe now a random (cp_port p) (set_use_candidate_attr u (cc_conn c))) as (c' & -> & Hs).
  - exact (in_ok _ _ _ Hin).
  - intros k. apply (Hf b). unfold requests_at. by rewrite Ec.
  - cbn [mbind option_bind]. exists c', (cp_port p). split; [done|]. destruct Hs as [S1 S2 S3 S4]. by split.
Qed.
Lemma OnPing_inv now a random st : chan_inv st → fresh_request a random st → ∃ st', OnPing now a random st = Some st' ∧ chan_inv st'.
Proof.
  intros Hinv Hf. unfold OnPing, UpdateConnectionStates. destruct (update_states_inv now (list_of st) st Hinv) as (st1 & E1 & Hinv1 & _); [by apply live_of|].
  pose proof (update_states_requests _ _ _ _ E1) as Hr. rewrite E1. cbn [mbind option_bind]. destruct (FindNext_safe now st1 Hinv1) as (r & -> & Hl). cbn [mbind option_bind].
  assert (∃ st2, match r with Some c => PingConnection c now a random st1 | None => Some st1 end = Some st2 ∧ chan_inv st2) as (st2 & -> & Hinv2).
  { destruct r as [b|]; [|by exists st1]. apply PingConnection_inv; [done|by apply Hl|]. intros d m. rewrite Hr. apply Hf. }
  cbn [mbind option_bind]. eexists. split; [reflexivity|]. by apply post_delayed_inv.
Qed.

(** ** Messages *)

Lemma Channel_OnMessage_inv m now a random st : chan_inv st → message_ok st m → (m = MSG_PING → fresh_request a random st) →
  ∃ st', P2P_OnMessage m now a random st = Some st' ∧ chan_inv st'.
Proof.
  intros Hinv Hm Hf. destruct m as [| |b|q]; cbn [P2P_OnMessage].
  - by apply SortConnections_inv.
  - apply OnPing_inv; auto.
  - by apply Connection_OnMessage_inv.
  - destruct Hm. by apply Port_CheckTimeout_inv.
Qed.
Lemma take_posted_inv now a random st : chan_inv st → (head (ch_posted st) = Some MSG_PING → fresh_request a random st) →
  ∃ st', take_posted now a random st = Some st' ∧ chan_inv st'.
Proof.
  intros Hinv Hf. unfold take_posted. pose proof (ci_posted _ Hinv) as Hp. destruct (ch_posted st) as [|m l] eqn:El; [by exists st|]. apply Forall_cons_1 in Hp as [Hm Hl].
  apply Channel_OnMessage_inv; [|done|]. 
  - apply thread_inv; [done|by rewrite El|apply (ci_timers _ Hinv)].
  - intros ->. by apply Hf.
Qed.
Lemma take_timer_inv now a random st : chan_inv st → (snd <$> head (ch_timers st) = Some MSG_PING → fresh_request a random st) →
  ∃ st', take_timer now a random st = Some st' ∧ chan_inv st'.
Proof.
  intros Hinv Hf. unfold take_timer. pose proof (ci_timers _ Hinv) as Hp. destruct (ch_timers st) as [|[t m] l] eqn:El; [by exists st|]. destruct (TimeIsLater _ _); [by exists st|].
  apply Forall_cons_1 in Hp as [Hm Hl]. apply Channel_OnMessage_inv; [|done|].
  - apply thread_inv; [done|apply (ci_posted _ Hinv)|by rewrite El].
  - cbn. intros ->. by apply Hf.
Qed.

(** ** Changes of the configuration, the ports and their sessions *)

(** The ports get a role and a protocol, and connections are connected or not. *)
Record remade (st st' : P2PTransportChannel) : Prop := {
  rm_conns : ∀ a, match conns st !! a with
                  | Some c => ∃ b, conns st' !! a = Some (mkCC (cc_conn c) (cc_port c) (cc_id c) (cc_generation c) (cc_foundation c) b)
                  | None => conns st' !! a = None
                  end;
  rm_ports : ∀ q, match ports st !! q with
                  | Some p => ∃ y, ports st' !! q = Some (cp_with y p) ∧ candidates_ y = candidates_ (cp_port p) ∧
                                   ice_protocol_ y = protocol_type_ (ch_cfg st') ∧ ice_role_ y = ch_role (ch_cfg st')
                  | None => ports st' !! q = None
                  end;
  rm_list : ports_ (ch_obj st') = ports_ (ch_obj st) ∨ ports_ (ch_obj st') = [];
  rm_remotes : remote_candidates_ st' = remote_candidates_ st;
  rm_generation : remote_candidate_generation_ (ch_cfg st') = remote_candidate_generation_ (ch_cfg st);
  rm_sel : ch_sel st' = ch_sel st;
  rm_thread : ch_posted st' = ch_posted st ∧ ch_timers st' = ch_timers st
}.
Definition no_timeouts (st : P2PTransportChannel) : Prop := ∀ q, MSG_CHECKTIMEOUT q ∉ ch_posted st ++ (ch_timers st).*2.
Lemma remade_inv st st' : chan_inv st → remade st st' → (protocol_type_ (ch_cfg st') = ICEPROTO_HYBRID → ports st = ∅ ∧ ch_writable (ch_sel st) = false) →
  (ch_role (ch_cfg st') = ch_role (ch_cfg st) ∨ no_timeouts st) → chan_inv st'.
Proof.
  intros [I1 I2 I3 I4 I5 I6 I7 I8 I9] [R1 R2 R3 R4 R5 R6 [R7 R8]] Hh Hr.
  assert (∀ a, is_Some (conns st' !! a) ↔ is_Some (conns st !! a)) as Hc.
  { intros a. specialize (R1 a). destruct (conns st !! a); [destruct R1 as [b ->]; by split; eexists|by rewrite R1]. }
  assert (∀ q, is_Some (ports st' !! q) ↔ is_Some (ports st !! q)) as Hp.
  { intros q. specialize (R2 q). destruct (ports st !! q); [destruct R2 as (y & -> & _); by split; eexists|by rewrite R2]. }
  assert (∀ m, m ∈ ch_posted st ++ (ch_timers st).*2 → message_ok st m → message_ok st' m) as Hm.
  { intros [| |a|q] Hin; cbn; try done; [by rewrite Hc|]. rewrite Hp. intros [? E]. split; [done|]. destruct Hr as [->|Hn]; [done|]. by destruct (Hn q). }
  split; rewrite ?R4, ?R5; try done.
  - apply (wf_same st); rewrite ?R6; try done; [unfold list_of; by rewrite R6|left; unfold best; by rewrite R6|by left].
  - intros a c Ea. specialize (R1 a). destruct (conns st !! a) as [c0|] eqn:E0; [|congruence]. destruct R1 as [b Eb]. rewrite Eb in Ea. injection Ea as <-.
    destruct (I2 a c0 E0) as (p & Ep & [K1 [K2 K3] K4 K5]). specialize (R2 (cc_port c0)). rewrite Ep in R2. destruct R2 as (y & Ey & Hy & _). exists (cp_with y p). split; [done|].
    split; try done. split; [done|]. unfold candidate_of, local_candidate in *. cbn. by rewrite Hy.
  - intros q p Eq. specialize (R2 q). destruct (ports st !! q) as [p0|] eqn:E0; [|congruence]. destruct R2 as (y & Ey & Hy & Ht & Hro). rewrite Ey in Eq. injection Eq as <-.
    destruct (I3 q p0 E0) as [J1 J2 J3 J4 J5 J6]. split; try done.
    + pose proof (port_fit_kept p0 y (cp_conns p0) J3) as Hf. destruct p0. apply Hf. exists []. by rewrite app_nil_r.
    + intros x Hx. destruct (J5 x Hx) as (c & Ec & Hcq & Hca). specialize (R1 x.2). rewrite Ec in R1. destruct R1 as [b Eb]. by eexists.
  - intros E. destruct (Hh E) as [E0 Ew]. rewrite R6. split; [|done]. apply map_empty. intros q. specialize (R2 q). by rewrite E0, lookup_empty in R2.
  - destruct I5 as [Hnd I5]. destruct R3 as [-> | ->]; [|split; [constructor|by intros q ?%elem_of_nil]]. split; [done|]. intros q Hq. by apply Hp, I5.
  - rewrite R7. apply Forall_forall. intros m Hx. apply Hm; [apply elem_of_app; by left|]. by eapply Forall_forall in I6.
  - rewrite R8. apply Forall_forall. intros m Hx. apply Hm; [apply elem_of_app; by right|]. by eapply Forall_forall in I7.
Qed.
(** Each port of the list is changed once. *)
Lemma on_ports_spec f l : ∀ st, NoDup l → (∀ q, q ∈ l → is_Some (ports st !! q)) → ∃ st', on_ports l f st = Some st' ∧
  (∀ q, ports st' !! q = (λ p, if decide (q ∈ l) then cp_with (f (cp_port p)) p else p) <$> ports st !! q) ∧ conns st' = conns st ∧ ports_ (ch_obj st') = ports_ (ch_obj st) ∧
  ch_cfg st' = ch_cfg st ∧ remote_candidates_ st' = remote_candidates_ st ∧ ch_sel st' = ch_sel st ∧ ch_posted st' = ch_posted st ∧ ch_timers st' = ch_timers st.
Proof.
  induction l as [|q l IH]; intros st Hnd Hl; cbn [on_ports].
  { exists st. split; [done|]. split; [|by repeat split]. intros q. by destruct (ports st !! q). }
  apply NoDup_cons in Hnd as [Hn Hnd]. destruct (Hl q (list_elem_of_here _ _)) as [p Ep]. unfold on_port. rewrite Ep. cbn [mbind option_bind]. set (st1 := put_port _ _ st).
  assert (ports st1 = <[q := cp_with (f (cp_port p)) p]> (ports st)) as E1 by done.
  destruct (IH st1 Hnd) as (st' & E & Hp & F). { intros o Ho. rewrite E1, lookup_insert_is_Some. destruct (decide (q = o)); [by left|]. right. split; [done|]. by apply Hl, list_elem_of_further. }
  exists st'. split; [done|]. split; [|done]. intros o. rewrite Hp, E1. destruct (decide (q = o)) as [<-|Ho].
  - rewrite lookup_insert_eq, Ep. cbn. rewrite decide_False by done. by rewrite decide_True by apply list_elem_of_here.
  - rewrite lookup_insert_ne by done. destruct (ports st !! o) as [po|]; [|done]. cbn. f_equal. destruct (decide (o ∈ l)) as [Hin|Hin].
    + by rewrite decide_True by (by apply list_elem_of_further).
    + rewrite decide_False; [done|]. by intros [->|?]%elem_of_cons.
Qed.
(** No session but the last one has ports. *)
Definition all_listed (st : P2PTransportChannel) : Prop := ∀ q, is_Some (ports st !! q) → q ∈ ports_ (ch_obj st).
Lemma reconfigure_inv g f st : chan_inv st → all_listed st → let st0 := on_cfg g st in
  remote_candidate_generation_ (ch_cfg st0) = remote_candidate_generation_ (ch_cfg st) → (∀ p, candidates_ (f p) = candidates_ p) →
  (∀ p, ice_protocol_ p = protocol_type_ (ch_cfg st) → ice_role_ p = ch_role (ch_cfg st) →
    ice_protocol_ (f p) = protocol_type_ (ch_cfg st0) ∧ ice_role_ (f p) = ch_role (ch_cfg st0)) →
  (protocol_type_ (ch_cfg st0) = ICEPROTO_HYBRID → ports st = ∅ ∧ ch_writable (ch_sel st) = false) →
  (ch_role (ch_cfg st0) = ch_role (ch_cfg st) ∨ no_timeouts st) → ∃ st', on_ports (ports_ (ch_obj st0)) f st0 = Some st' ∧ chan_inv st'.
Proof.
  intros Hinv Hall st0 Hgen Hcand Hf Hh Hr. destruct (ci_list _ Hinv) as [Hnd Hl].
  destruct (on_ports_spec f (ports_ (ch_obj st0)) st0 Hnd Hl) as (st' & E & Hp & F1 & F2 & F3 & F4 & F5 & F6 & F7). exists st'. split; [done|].
  apply (remade_inv st); [done| |by rewrite F3|by rewrite F3]. split; rewrite ?F3; try done; [| |by left].
  - intros a. rewrite F1. change (conns st0) with (conns st). destruct (conns st !! a) as [c|]; [|done]. exists (cc_connected c). by destruct c.
  - intros q. rewrite Hp. change (ports st0) with (ports st). destruct (ports st !! q) as [p|] eqn:Ep; [|done]. cbn. rewrite decide_True by (apply Hall; by eexists).
    destruct (ci_ports _ Hinv _ _ Ep) as [J1 J2 _ _ _ _]. exists (f (cp_port p)). split; [done|]. split; [done|]. by apply Hf.
Qed.
Lemma SetIceRole_inv role st : chan_inv st → has_role role st = true ∨ (all_listed st ∧ no_timeouts st) → ∃ st', Channel_SetIceRole role st = Some st' ∧ chan_inv st'.
Proof.
  intros Hinv Hr. unfold Channel_SetIceRole. destruct (has_role role st) eqn:E; [by exists st|]. destruct Hr as [|[Hall Hn]]; [done|]. cbn zeta.
  apply reconfigure_inv; try done; [intros Hh; by apply (ci_hybrid _ Hinv)|by right].
Qed.
Lemma SetIceProtocolType_inv type st : chan_inv st → all_listed st → (type = ICEPROTO_HYBRID → ports st = ∅ ∧ ch_writable (ch_sel st) = false) →
  ∃ st', Channel_SetIceProtocolType type st = Some st' ∧ chan_inv st'.
Proof. intros Hinv Hall Hh. unfold Channel_SetIceProtocolType. cbn zeta. apply reconfigure_inv; try done. by left. Qed.
(** A configuration that ports do not know of. *)
Lemma on_cfg_inv g st : chan_inv st → protocol_type_ (g (ch_cfg st)) = protocol_type_ (ch_cfg st) → ch_role (g (ch_cfg st)) = ch_role (ch_cfg st) →
  generation_ok (remote_candidate_generation_ (g (ch_cfg st))) → chan_inv (on_cfg g st).
Proof.
  intros Hinv Ep Er Hg. apply (inv_gen st); try done; [apply (ci_posted _ Hinv)|apply (ci_timers _ Hinv)|apply (ci_remotes _ Hinv)|by apply (wf_frame st); [apply ci_wf|..]|].
  intros Hh. by apply (ci_hybrid _ Hinv).
Qed.
Lemma sessions_inv w l st : chan_inv st → chan_inv (on_sessions w l st).
Proof. intros Hinv. apply (inv_same st); try done; [by apply (wf_frame st); [apply ci_wf|..]|]. intros Hh. by apply (ci_hybrid _ Hinv). Qed.
Lemma Allocate_inv st : chan_inv st → chan_inv (Allocate st).
Proof. intros Hinv. by apply emit_inv, sessions_inv. Qed.
Lemma remade_ports st st' : chan_inv st → ports st' = ports st → ch_cfg st' = ch_cfg st → ∀ q, match ports st !! q with
  | Some p => ∃ y, ports st' !! q = Some (cp_with y p) ∧ candidates_ y = candidates_ (cp_port p) ∧ ice_protocol_ y = protocol_type_ (ch_cfg st') ∧ ice_role_ y = ch_role (ch_cfg st')
  | None => ports st' !! q = None end.
Proof.
  intros Hinv -> -> q. destruct (ports st !! q) as [p|] eqn:Ep; [|done]. exists (cp_port p). rewrite cp_with_id. split; [done|]. split; [done|]. by destruct (ci_ports _ Hinv q p Ep).
Qed.
Lemma forget_ports_inv st : chan_inv st → chan_inv (set_ports [] st).
Proof.
  intros Hinv. apply (remade_inv st); [done| |intros Hh; by apply (ci_hybrid _ Hinv)|by left]. split; try done; [|by apply remade_ports|by right].
  intros a. change (conns (set_ports [] st)) with (conns st). destruct (conns st !! a) as [c|]; [|done]. exists (cc_connected c). by destruct c.
Qed.
Lemma SetConnected_inv a c v st : chan_inv st → conns st !! a = Some c →
  chan_inv (put_conn a (mkCC (cc_conn c) (cc_port c) (cc_id c) (cc_generation c) (cc_foundation c) v) st).
Proof.
  intros Hinv Ec. apply (remade_inv st); [done| |intros Hh; by apply (ci_hybrid _ Hinv)|by left]. split; try done; [|by apply remade_ports|by left].
  intros b. set (c' := mkCC _ _ _ _ _ v). change (conns (put_conn a c' st)) with (<[a := c']> (conns st)). destruct (decide (a = b)) as [<-|Hn].
  - rewrite Ec, lookup_insert_eq. by exists v.
  - rewrite lookup_insert_ne by done. destruct (conns st !! b) as [cb|]; [|done]. exists (cc_connected cb). by destruct cb.
Qed.
Lemma Reset_inv b st : chan_inv st → chan_inv (Reset b st).
Proof.
  intros Hinv. pose proof (Reset_wf b st) as Hwf. set (st' := Reset b st) in *.
  assert (ch_cfg st' = ch_cfg st ∧ conns st' = ∅ ∧ ports st' = ∅ ∧ ports_ (ch_obj st') = [] ∧ ch_posted st' = [MSG_PING] ∧ ch_timers st' = [] ∧ remote_candidates_ st' = [] ∧
    ch_writable (ch_sel st') = false) as (E1 & E2 & E3 & E4 & E5 & E6 & E7 & E8).
  { clear Hwf. unfold st'. clear. by destruct st as [? [? ? ? ? ? [] []]], b. }
  split; rewrite ?E1, ?E2, ?E3, ?E4, ?E5, ?E6, ?E7; try done.
  - split; [constructor|by intros q ?%elem_of_nil].
  - repeat constructor.
  - apply (ci_generation _ Hinv).
Qed.
(** A new port: it has no connections yet. *)
Definition port_new (q : Z) (p : chan_port) (st : P2PTransportChannel) : Prop :=
  ports st !! q = None ∧ protocol_type_ (ch_cfg st) ≠ ICEPROTO_HYBRID ∧ cp_conns p = [] ∧ port_fit p ∧ generation_ok (cp_generation p).
Lemma new_port_inv q p y st : chan_inv st → port_new q p st → candidates_ y = candidates_ (cp_port p) → ice_protocol_ y = protocol_type_ (ch_cfg st) →
  ice_role_ y = ch_role (ch_cfg st) → chan_inv (set_ports (ports_ (ch_obj st) ++ [q]) (put_port q (cp_with y p) st)).
Proof.
  intros [I1 I2 I3 I4 I5 I6 I7 I8 I9] (Hq & Hh & Hc & Hf & Hg) E1 E2 E3. set (st' := set_ports _ _). assert (ports st' = <[q := cp_with y p]> (ports st)) as Ep by done.
  assert (∀ o, is_Some (ports st !! o) → is_Some (ports st' !! o)) as Hl by (intros o Ho; rewrite Ep, lookup_insert_is_Some'; by right).
  assert (∀ m, message_ok st m → message_ok st' m) as Hm by (intros [| |a|o]; cbn; try done; intros [Ho ?]; split; [by apply Hl|done]).
  split; try done.
  - by apply (wf_frame st).
  - intros a c Ea. destruct (I2 a c Ea) as (pa & Epa & Hin). exists pa. split; [|done]. rewrite Ep, lookup_insert_ne; [done|congruence].
  - intros o po. rewrite Ep. intros [[<- <-]|[Hn Eo]]%lookup_insert_Some.
    + split; try done; cbn; rewrite ?Hc; [|by intros x ?%elem_of_nil|by intros x z ?%elem_of_nil]. pose proof (port_fit_kept p y (cp_conns p) Hf) as Hk. destruct p. apply Hk. exists []. by rewrite app_nil_r.
    + destruct (I3 o po Eo) as [J1 J2 J3 J4 J5 J6]. by split.
  - destruct I5 as [Hnd I5]. change (ports_ (ch_obj st')) with (ports_ (ch_obj st) ++ [q]). split.
    + apply NoDup_app. split; [done|]. split; [|apply NoDup_singleton]. intros o Ho ->%list_elem_of_singleton. destruct (I5 q Ho) as [? E]. congruence.
    + intros o [Ho| ->%list_elem_of_singleton]%elem_of_app; [by apply Hl, I5|]. rewrite Ep, lookup_insert_eq. by eexists.
  - by eapply Forall_impl.
  - by eapply Forall_impl.
Qed.
Lemma OnPortReady_inv q p now st : chan_inv st → port_new q p st → ∃ st', OnPortReady q now (put_port q p st) = Some st' ∧ chan_inv st'.
Proof.
  intros Hinv Hn. unfold OnPortReady. cbn zeta. set (st1 := ch_emit _ (put_port q p st)). unfold on_port at 1. change (ports st1) with (<[q := p]> (ports st)). rewrite lookup_insert_eq.
  cbn [mbind option_bind]. set (y := SetIceTiebreaker_port _ _). set (st2 := set_ports _ _).
  assert (chan_inv st2 ∧ is_Some (ports st2 !! q)) as [Hinv2 Hq].
  { split; [|change (ports st2) with (<[q := cp_with y p]> (<[q := p]> (ports st))); rewrite lookup_insert_eq; by eexists].
    pose proof (new_port_inv q p y (ch_emit ((λ x, ChSetOption q x.1 x.2) <$> options_ st) st) (emit_inv _ _ Hinv) Hn eq_refl eq_refl eq_refl) as Hi.
    set (st3 := set_ports _ _) in Hi. assert (st2 = st3) as ->; [|done]. unfold st2, st3, st1, put_port, on_obj, set_ports, ch_emit. cbn. by rewrite insert_insert_eq. }
  destruct (create_for_port_inv q now (remote_candidates_ st2) st2 Hinv2 Hq (ci_remotes _ Hinv2)) as (st3 & -> & Hinv3). cbn [mbind option_bind]. by apply SortConnections_inv.
Qed.

(** ** Intended uses *)

(** What each call relies on.  Roles and protocols change only while no older session has
    ports, and roles only while no timeout of a port is pending.  The state HYBRID of the
    protocol ends before ports come.  Candidates are of the current generation of
    credentials, and generations stay below 2^30.  A packet does not make the check of its
    code read outside of it.  The requests and transaction ids of pings are new. *)
Definition chan_op_ok (o : chan_op) (st : P2PTransportChannel) : Prop :=
  match o with
  | CSetIceRole role => has_role role st = true ∨ (all_listed st ∧ no_timeouts st)
  | CSetIceProtocolType type => all_listed st ∧ (type = ICEPROTO_HYBRID → ports st = ∅ ∧ ch_writable (ch_sel st) = false)
  | CSetRemoteIceCredentials _ _ => remote_candidate_generation_ (ch_cfg st) + 1 < GENERATIONS
  | CConnect => ice_ufrag_ (ch_cfg st) ≠ [] ∧ ice_pwd_ (ch_cfg st) ≠ []
  | CPortReady q p => port_new q p st
  | CCandidate r => remote_ok r ∧ generation_known r st
  | CPacket q addr data _ =>
      ∃ p, ports st !! q = Some p ∧ port_reach p (ip_ addr) ∧ ip_ok (ip_ addr) ∧ is_Some (ValidateMessageIntegrity data (password_ (cp_port p))) ∧
        ∀ a c, conns st !! a = Some c → is_Some (ValidateMessageIntegrity data (c_password (remote_candidate_ (cc_conn c))))
  | CConnDispatch a | CConnReady a | CSetConnected a _ => is_Some (conns st !! a)
  | CSendPacket data _ => data ≠ []
  | CPosted a random => head (ch_posted st) = Some MSG_PING → fresh_request a random st
  | CTimer a random => snd <$> head (ch_timers st) = Some MSG_PING → fresh_request a random st
  | _ => True
  end.
Fixpoint chan_ops_ok (ops : list (chan_op * Z)) (st : P2PTransportChannel) : Prop :=
  match ops with
  | [] => True
  | (o, now) :: ops => chan_op_ok o st ∧ match chan_step o now st with Some st => chan_ops_ok ops st | None => True end
  end.
Lemma SendPacket_inv data flags st : chan_inv st → data ≠ [] → ∃ r st', SendPacket data flags st = Some (r, st') ∧ chan_inv st'.
Proof.
  intros Hinv Hd. assert (∀ e, chan_inv (set_error e st)) as He.
  { intros e. apply (inv_same st); try done; [by apply (wf_frame st); [apply ci_wf|..]|]. intros Hh. by apply (ci_hybrid _ Hinv). }
  unfold SendPacket. destruct (negb _); [eexists _, _; split; [reflexivity|apply He]|]. destruct (best st) as [b|] eqn:Eb; [|eexists _, _; split; [reflexivity|apply He]].
  destruct (live_of st Hinv b (wf_best _ (ci_wf _ Hinv) b Eb)) as [c Ec]. destruct (ci_conns _ Hinv b c Ec) as (p & Ep & _). rewrite Ec. cbn [mbind option_bind]. rewrite Ep.
  cbn [mbind option_bind]. unfold Connection_Send. destruct (_ || _); [eexists _, _; split; [reflexivity|apply He]|].
  assert (zlen data <=? 0 = false) as -> by (destruct data; [done|]; apply Z.leb_gt; unfold zlen; cbn; lia). eexists _, _. split; [reflexivity|].
  apply put_port_inv; [done|done|apply port_emit_near].
Qed.
Lemma chan_step_inv o now st : chan_inv st → chan_op_ok o st → ∃ st', chan_step o now st = Some st' ∧ chan_inv st'.
Proof.
  intros Hinv Hok. destruct o; cbn [chan_step chan_op_ok] in *.
  - by apply SetIceRole_inv.
  - eexists. split; [reflexivity|]. unfold SetIceTiebreaker. destruct (ports_ _); [|done]. apply on_cfg_inv; try done. apply (ci_generation _ Hinv).
  - destruct Hok. by apply SetIceProtocolType_inv.
  - eexists. split; [reflexivity|]. unfold SetIceCredentials. cbn zeta. destruct (if _ && _ then _ else _); [apply Allocate_inv|]; (apply on_cfg_inv; try done; apply (ci_generation _ Hinv)).
  - eexists. split; [reflexivity|]. apply on_cfg_inv; try done. pose proof (ci_generation _ Hinv) as Hg. cbn. destruct (if _ && _ then _ else _); [|done].
    unfold generation_ok, GENERATIONS, u32 in *. rewrite Z.mod_small; lia.
  - eexists. split; [reflexivity|]. apply on_cfg_inv; try done. apply (ci_generation _ Hinv).
  - eexists. split; [reflexivity|]. apply on_cfg_inv; try done. apply (ci_generation _ Hinv).
  - destruct Hok. unfold Channel_Connect. rewrite !bool_decide_eq_false_2 by done. cbn [orb]. eexists. split; [reflexivity|]. by apply post_inv; [apply Allocate_inv|].
  - eexists. split; [reflexivity|]. by apply Reset_inv.
  - eexists. split; [reflexivity|]. unfold OnSignalingReady. destruct (waiting_for_signaling_ st); [|done]. by apply forget_ports_inv, sessions_inv, sessions_inv.
  - by apply OnPortReady_inv.
  - destruct Hok. unfold OnCandidate. destruct (CreateConnections_inv candidate None false now st) as (ok & st1 & -> & Hinv1 & _); [done..|]. cbn [mbind option_bind]. by apply SortConnections_inv.
  - destruct Hok as (p & Ep & Hr & Hip & Hv & Hc). by apply (port_packet_inv port p).
  - destruct Hok as [c Ec]. destruct (on_conn_inv connection (conn_dispatch now) st c Hinv Ec) as (st' & E & Hinv' & _); [|by exists st']. intros p _ _ Hin. apply dispatch_safe, Hin.
  - destruct Hok as [c Ec]. destruct (on_conn_inv connection (λ c p, Some (OnReadyToSend c, p)) st c Hinv Ec) as (st' & E & Hinv' & _); [|by exists st']. intros p _ _ Hin.
    eexists _, _. split; [reflexivity|]. apply touch_step; [apply Hin|apply port_kept_refl|]. unfold OnReadyToSend. destruct (bool_decide _); [|apply touch_refl].
    split; try done. exists [SignalReadyToSend]. split; [done|]. by intros ?%list_elem_of_singleton.
  - destruct Hok as [c Ec]. rewrite Ec. cbn [mbind option_bind]. eexists. split; [reflexivity|]. by apply SetConnected_inv.
  - eexists. split; [reflexivity|]. assert (∀ l, chan_inv (set_options l st)) as Ho.
    { intros l. apply (inv_same st); try done; [by apply (wf_frame st); [apply ci_wf|..]|]. intros Hh. by apply (ci_hybrid _ Hinv). }
    unfold Channel_SetOption. destruct (find _ _) as [[? v]|]; [destruct (_ =? _); [done|]|]; apply emit_inv, Ho.
  - destruct (SendPacket_inv data flags st Hinv Hok) as (r & st' & -> & Hinv'). by exists st'.
  - by apply take_posted_inv.
  - by apply take_timer_inv.
Qed.
Lemma new_channel_inv component s : chan_inv (P2PTransportChannel_new component s).
Proof. split; try done; [apply new_wf|split; [constructor|by intros q ?%elem_of_nil]|constructor..]. Qed.
Lemma chan_run_inv ops : ∀ st, chan_inv st → chan_ops_ok ops st → ∃ st', chan_run ops st = Some st' ∧ chan_inv st'.
Proof.
  induction ops as [|[o now] ops IH]; intros st Hinv Hok; cbn [chan_run chan_ops_ok] in *; [by exists st|]. destruct Hok as [Ho Hops].
  destruct (chan_step_inv o now st Hinv Ho) as (st1 & E & Hinv1). rewrite E in *. cbn [mbind option_bind]. by apply IH.
Qed.

(** The objects of a channel and the pointers to them. *)
Record consistent (st : P2PTransportChannel) : Prop := {
  co_nodup : NoDup (list_of st);
  co_list : ∀ a, a ∈ list_of st ↔ is_Some (conns st !! a);
  co_best : ∀ b, best st = Some b → b ∈ list_of st;
  co_port : ∀ a c, conns st !! a = Some c → ∃ p, ports st !! cc_port c = Some p ∧ GetConnection (address_of c) p = Some a;
  co_map : ∀ q p addr a, ports st !! q = Some p → (addr, a) ∈ cp_conns p → ∃ c, conns st !! a = Some c ∧ cc_port c = q ∧ address_of c = addr;
  co_ports : ∀ q, q ∈ ports_ (ch_obj st) → is_Some (ports st !! q);
  co_delete : ∀ a, MSG_DELETE a ∈ ch_posted st ++ (ch_timers st).*2 → is_Some (conns st !! a);
  co_timeout : ∀ q, MSG_CHECKTIMEOUT q ∈ ch_posted st ++ (ch_timers st).*2 → is_Some (ports st !! q)
}.
Lemma inv_consistent st : chan_inv st → consistent st.
Proof.
  intros Hinv. pose proof Hinv as [[W1 W2 W3 _] I2 I3 _ [_ I5] I6 I7 _ _].
  assert (∀ m, m ∈ ch_posted st ++ (ch_timers st).*2 → message_ok st m) as Hm.
  { intros m [Hm|Hm]%elem_of_app; [by eapply Forall_forall in I6|by eapply Forall_forall in I7]. }
  split; try done.
  - intros a c Ec. destruct (I2 a c Ec) as (p & Ep & Hin). exists p. split; [done|]. by apply (entry_found st).
  - intros q p addr a Ep Hx. by apply (pi_entries _ _ _ (I3 q p Ep) (addr, a)).
  - intros a Ha. apply (Hm _ Ha).
  - intros q Hq. apply (Hm _ Hq).
Qed.

End run.

(** ** UDP ports *)

Section udp.
Context `{Platform}.

(** A UDP port has a candidate, of the type of the host when its socket is shared; it
    reaches the addresses of its family. *)
Definition udp_fit (p : chan_port) : Prop :=
  ∃ c l, candidates_ (cp_port p) = c :: l ∧ (cp_shared p = true → c_type c = LOCAL_PORT_TYPE).
Definition udp_reach (p : chan_port) (ip : IPAddress) : Prop := IsCompatibleAddress (cp_ip p) (mkSocketAddress [] ip 0 0 false) = true.
Lemma udp_first p : udp_fit p → (if cp_shared p then c ← head (candidates_ (cp_port p)); Some (negb (bool_decide (c_type c = LOCAL_PORT_TYPE))) else Some false) = Some false.
Proof. intros (c & l & -> & Hc). destruct (cp_shared p); [|done]. cbn. by rewrite Hc, bool_decide_eq_true_2. Qed.
#[export, program] Instance UDPPort_laws : PortLaws (H0 := UDPPort) := {| port_fit := udp_fit; port_reach := udp_reach |}.
Next Obligation. intros p y l (c & k & E & Hc) [k' E']. exists c, (k ++ k'). cbn. rewrite E', E. by split. Qed.
Next Obligation. done. Qed.
Next Obligation.
  intros p c o Hf. cbn. unfold UDPPort_index. destruct (negb _); [by exists None|]. destruct (negb _); [by exists None|]. rewrite udp_first by done.
  exists (Some 0). split; [done|]. intros j [= <-]. destruct Hf as (x & l & -> & _). by eexists.
Qed.
Next Obligation.
  intros p c o Hf Hr Hu. cbn. unfold UDPPort_index. rewrite bool_decide_eq_true_2 by done. cbn [negb].
  change (IsCompatibleAddress (cp_ip p) (c_address c)) with (IsCompatibleAddress (cp_ip p) (mkSocketAddress [] (ip_ (c_address c)) 0 0 false)). rewrite Hr. cbn [negb].
  rewrite udp_first by done. by exists 0.
Qed.

(** The conditions of uses, decided. *)
Definition is_some {A} (x : option A) : bool := match x with Some _ => true | None => false end.
Definition ip_okb (ip : IPAddress) : bool :=
  (zlen (u_ ip) =? 16) && bool_decide (bytes_ok (u_ ip)) &&
  match family_ ip with
  | AF_UNSPEC => bool_decide (u_ ip = zrepeat 0 16)
  | AF_INET => bool_decide (zdrop 4 (u_ ip) = zrepeat 0 12)
  | AF_INET6 => true
  end.
Definition generation_okb (g : Z) : bool := (0 <=? g) && (g <? GENERATIONS).
Definition listedb (st : P2PTransportChannel) : bool := forallb (λ q, bool_decide (q ∈ ports_ (ch_obj st))) (map_to_list (ports st)).*1.
Definition is_checktimeout (m : chan_message) : bool := match m with MSG_CHECKTIMEOUT _ => true | _ => false end.
Definition fitb (p : chan_port) : bool :=
  match candidates_ (cp_port p) with c :: _ => negb (cp_shared p) || bool_decide (c_type c = LOCAL_PORT_TYPE) | [] => false end.
Definition freshb (a : Z) (random : list Z) (st : P2PTransportChannel) : bool :=
  forallb (λ x, stun_op_okb (conn_requests (cc_conn x.2)) (ONew a (mkPing (cp_port left_port) [] [] 0 false 0) (StunMessage_new CIce) random)) (map_to_list (conns st)).
Definition chan_op_okb (o : chan_op) (st : P2PTransportChannel) : bool :=
  match o with
  | CSetIceRole role => has_role role st || listedb st && negb (existsb is_checktimeout (ch_posted st ++ (ch_timers st).*2))
  | CSetIceProtocolType type => listedb st && negb (bool_decide (type = ICEPROTO_HYBRID))
  | CSetRemoteIceCredentials _ _ => remote_candidate_generation_ (ch_cfg st) + 1 <? GENERATIONS
  | CConnect => negb (bool_decide (ice_ufrag_ (ch_cfg st) = [])) && negb (bool_decide (ice_pwd_ (ch_cfg st) = []))
  | CPortReady q p =>
      negb (is_some (ports st !! q)) && negb (bool_decide (protocol_type_ (ch_cfg st) = ICEPROTO_HYBRID)) && bool_decide (cp_conns p = []) && fitb p &&
      generation_okb (cp_generation p)
  | CCandidate r =>
      generation_okb (f_generation r) && bool_decide (c_protocol (f_candidate r) = text "udp") && ip_okb (ip_ (c_address (f_candidate r))) &&
      ((f_generation r =? 0) || (f_generation r =? remote_candidate_generation_ (ch_cfg st)))
  | CPacket q addr data _ =>
      match ports st !! q with
      | Some p =>
          IsCompatibleAddress (cp_ip p) (mkSocketAddress [] (ip_ addr) 0 0 false) && ip_okb (ip_ addr) && is_some (ValidateMessageIntegrity data (password_ (cp_port p))) &&
          forallb (λ x, is_some (ValidateMessageIntegrity data (c_password (remote_candidate_ (cc_conn x.2))))) (map_to_list (conns st))
      | None => false
      end
  | CConnDispatch a | CConnReady a | CSetConnected a _ => is_some (conns st !! a)
  | CSendPacket data _ => negb (bool_decide (data = []))
  | CPosted a random => negb (bool_decide (head (ch_posted st) = Some MSG_PING)) || freshb a random st
  | CTimer a random => negb (bool_decide (snd <$> head (ch_timers st) = Some MSG_PING)) || freshb a random st
  | _ => true
  end.
Fixpoint chan_ops_okb (ops : list (chan_op * Z)) (st : P2PTransportChannel) : bool :=
  match ops with
  | [] => true
  | (o, now) :: ops => chan_op_okb o st && match chan_step o now st with Some st => chan_ops_okb ops st | None => true end
  end.

Lemma is_some_ok {A} (x : option A) : is_some x = true → is_Some x.
Proof. destruct x; [by eexists|done]. Qed.
Lemma channel_ip_ok ip : ip_okb ip = true → ip_ok ip.
Proof.
  unfold ip_okb, ip_ok. rewrite !andb_true_iff. intros [[H1%Z.eqb_eq H2%bool_decide_eq_true] H3]. split; [done|]. split; [done|].
  destruct (family_ ip); [by apply bool_decide_eq_true in H3..|done].
Qed.
Lemma generation_okb_ok g : generation_okb g = true → generation_ok g.
Proof. unfold generation_okb, generation_ok. rewrite andb_true_iff. lia. Qed.
Lemma listedb_ok st : listedb st = true → all_listed st.
Proof.
  intros Hl q [p Ep]. unfold listedb in Hl. rewrite forallb_forall in Hl. apply (bool_decide_eq_true_1 _). apply Hl, list_elem_of_In, list_elem_of_fmap. exists (q, p). split; [done|].
  by apply elem_of_map_to_list.
Qed.
Lemma fitb_ok p : fitb p = true → udp_fit p.
Proof.
  unfold fitb, udp_fit. destruct (candidates_ _) as [|c l]; [done|]. intros Hf. exists c, l. split; [done|]. intros Hs. rewrite Hs in Hf. by apply bool_decide_eq_true in Hf.
Qed.
Lemma freshb_ok a random st : freshb a random st = true → fresh_request a random st.
Proof.
  unfold freshb, fresh_request, requests_at. rewrite forallb_forall. intros Hf b m. destruct (conns st !! b) as [c|] eqn:Ec; [|done]. intros [= <-] k.
  specialize (Hf (b, c)). apply stun_op_okb_ok in Hf; [exact Hf|]. by apply list_elem_of_In, elem_of_map_to_list.
Qed.
Lemma chan_op_okb_ok o st : chan_op_okb o st = true → chan_op_ok o st.
Proof.
  destruct o; cbn [chan_op_okb chan_op_ok]; try done.
  - intros [|[Hl Hn]%andb_true_iff]%orb_true_iff; [by left|right]. split; [by apply listedb_ok|]. intros q Hq. apply negb_true_iff in Hn.
    apply not_true_iff_false in Hn. apply Hn, existsb_exists. exists (MSG_CHECKTIMEOUT q). split; [by apply list_elem_of_In|done].
  - intros [Hl Hn]%andb_true_iff. split; [by apply listedb_ok|]. by apply negb_true_iff, bool_decide_eq_false in Hn.
  - by intros ?%Z.ltb_lt.
  - rewrite andb_true_iff, !negb_true_iff, !bool_decide_eq_false. done.
  - rewrite !andb_true_iff, !negb_true_iff, bool_decide_eq_false, bool_decide_eq_true. intros [[[[Hq Hh] Hc] Hf] Hg].
    split; [by destruct (ports st !! port)|]. split; [done|]. split; [done|]. split; [by apply fitb_ok|by apply generation_okb_ok].
  - rewrite !andb_true_iff, bool_decide_eq_true, orb_true_iff, !Z.eqb_eq. intros [[[Hg Hu] Hip] Hk]. split; [|by right]. split; [by apply generation_okb_ok|]. split; [done|]. by apply channel_ip_ok.
  - destruct (ports st !! port) as [p|]; [|done]. rewrite !andb_true_iff. intros [[[Hr Hip] Hv] Hc]. exists p. split; [done|]. split; [done|]. split; [by apply channel_ip_ok|].
    split; [by apply is_some_ok|]. intros a c Ec. rewrite forallb_forall in Hc. apply is_some_ok, (Hc (a, c)). by apply list_elem_of_In, elem_of_map_to_list.
  - apply is_some_ok.
  - apply is_some_ok.
  - apply is_some_ok.
  - by intros Hd%negb_true_iff%bool_decide_eq_false.
  - intros [Hn%negb_true_iff%bool_decide_eq_false|Hf]%orb_true_iff Hp; [done|]. by apply freshb_ok.
  - intros [Hn%negb_true_iff%bool_decide_eq_false|Hf]%orb_true_iff Hp; [done|]. by apply freshb_ok.
Qed.
Lemma chan_ops_okb_ok ops : ∀ st, chan_ops_okb ops st = true → chan_ops_ok ops st.
Proof.
  induction ops as [|[o now] ops IH]; intros st; cbn [chan_ops_okb chan_ops_ok]; [done|]. intros [Ho Hops]%andb_true_iff. split; [by apply chan_op_okb_ok|].
  destruct (chan_step o now st); [by apply IH|done].
Qed.
End udp.

(** ** A run *)

Section run_sample.
#[local] Existing Instance zero_platform.
(** After its check was answered the channel sorts, sends, deletes the pruned connection
    and pings again. *)
Definition whole_run : list (chan_op * Z) :=
  answered ++ [(CPosted 6 sample_id, 1041); (CSendPacket [1; 2; 3] 0, 1042); (CPosted 6 sample_id, 1043); (CPosted 6 sample_id, 1044);
    (CTimer 7 (text "abcdefghijkl"), 1060); (CConnDispatch 101, 1060)].
End run_sample.
