(* ===== verification/IceSession.v ===== *)
(** * Two channels find each other

    Two transport channels, one controlling and one controlled, each with one port and
    with the candidate of the other one, joined by a network that delivers.  Their checks
    make both writable and readable on the connection between them, and the data that
    one of them sends then arrives at the other. *)

From stdpp Require Import strings.
From S2P Require Import Prelude ByteOrder ByteBuffer Crc32 IpAddress Stun StunWire StunIntegrity StunBuild TimeUtils MessageQueue StunRequest IcePort IceConnection IceChannel IceChannelInv IceChannelSort IceChannelPing IceChannelSafe IceChannelRun.

Section links.
Context `{Platform}.

(** ** A connection *)

Record link (remote : Candidate) (rs : ReadState) (ws : WriteState) (pings : list Z) (c : Connection) : Prop := {
  lk_remote : remote_candidate_ c = remote;
  lk_index : local_candidate_index_ c = 0;
  lk_read : read_state_ c = rs;
  lk_write : write_state_ c = ws;
  lk_pruned : pruned_ c = false;
  lk_mode : remote_ice_mode_ c = ICEMODE_FULL;
  lk_pings : pings_since_last_response_ c = pings
}.
(** It has not sent a ping yet. *)
Definition idle (c : Connection) : Prop := conn_requests c = StunRequestManager_new ∧ last_ping_sent_ c = 0.
Definition awaits (k : ConnectionRequest) (tid : list Z) (a : Z) (c : Connection) : Prop :=
  ∃ r, mgr_inv (conn_requests c) ∧ objects (conn_requests c) = {[a := r]} ∧ requests_ (conn_requests c) = {[tid := a]} ∧ r_msg r = ping_message k tid.

Lemma link_ping L R remote rs ws c lc a tid u now : port_ok L → port_ok R → link remote rs ws [] c → idle c → knows c R →
  candidates_ L !! 0%nat = Some lc → id_ok tid → a ≠ 0 → is_u32 now → ∃ c1 c2 k,
  Ping now a tid L (set_use_candidate_attr u c) = Some c1 ∧ link remote rs ws [now] c1 ∧ conn_log c1 = conn_log c ∧
  conn_dispatch now c1 L = Some (c2, port_emit (SendTo (c_address remote) (msg_wire (ping_message k tid))) L) ∧
  link remote rs ws [now] c2 ∧ conn_log c2 = conn_log c ∧ awaits k tid a c2 ∧ ping_to L R k ∧ use_candidate k = u.
Proof.
  intros HL HR [E1 E2 E3 E4 E5 E6 E7] [Hi _] [Hu Hp] Hlc Hid Ha Hnow. set (cu := set_use_candidate_attr u c). set (k := conn_ping L cu lc).
  assert (ping_to L R k) as Hk by (split_and!; [done|exact Hu|exact Hp]).
  destruct (ping_manager L R k a tid now HL HR Hk Hid Ha Hnow) as (m1 & m2 & r & F1 & F2 & Hinv & Eo & Er & Em & El1 & El2).
  assert (Ping now a tid L cu = Some (set_state STATE_INPROGRESS (set_conn_requests m1 (set_pings (pings_since_last_response_ cu ++ [now]) (set_last_ping_sent now cu))))) as EP.
  { unfold Ping. assert (local_candidate L (set_pings (pings_since_last_response_ (set_last_ping_sent now cu) ++ [now]) (set_last_ping_sent now cu)) = Some lc) as ->.
    { unfold local_candidate. cbn. by rewrite E2. }
    cbn [mbind option_bind]. change (conn_requests (set_pings _ _)) with (conn_requests c). rewrite Hi. change (pings_since_last_response_ (set_pings ?l _)) with l.
    cbn [set_last_ping_sent set_times pings_since_last_response_]. rewrite zlen_app. change (zlen [now]) with 1. change (mkPing _ _ _ _ _ _) with k. by rewrite F1. }
  eexists _, _, k. split; [exact EP|]. split; [split; try done; cbn; by rewrite E7|]. split; [done|]. split.
  { unfold conn_dispatch, manager_step. cbn [conn_requests set_state set_conn_requests]. rewrite F2. cbn [mbind option_bind]. rewrite El2, drop_app_length. cbn. by rewrite E1. }
  split; [split; try done; cbn; by rewrite E7|]. split; [done|]. split; [by exists r|by split].
Qed.
Lemma check_readable c : read_state_ c = STATE_READABLE → Connection_CheckTimeout c = c.
Proof. intros E. unfold Connection_CheckTimeout. by rewrite E. Qed.
Lemma revive_id c : write_state_ c ≠ STATE_WRITE_TIMEOUT → revive c = c.
Proof. intros E. unfold revive. rewrite (bool_decide_eq_false_2 (write_state_ c = _)) by done. by rewrite andb_false_r. Qed.
Lemma read_link remote rs ws pings now c : link remote rs ws pings c → ws ≠ STATE_WRITE_TIMEOUT →
  link remote STATE_READABLE ws pings (revive (ReceivedPing now c)) ∧ (idle c → idle (revive (ReceivedPing now c))) ∧
  conn_log (revive (ReceivedPing now c)) = conn_log c ++ if bool_decide (rs = STATE_READABLE) then [] else [SignalStateChange ws].
Proof.
  intros [E1 E2 E3 E4 E5 E6 E7] Hw. unfold ReceivedPing, set_read_state. cbn [read_state_ set_last_ping_received set_times]. rewrite E3.
  set (c1 := with_read_state STATE_READABLE _). assert (write_state_ c1 = ws) as Ew by done. rewrite Ew.
  destruct (decide (rs = STATE_READABLE)) as [->|Hn].
  - rewrite !(bool_decide_eq_true_2 (STATE_READABLE = STATE_READABLE)) by done. rewrite revive_id by congruence. rewrite app_nil_r. split; [by split|]. split; [by intros []|done].
  - rewrite (bool_decide_eq_false_2 (STATE_READABLE = rs)), (bool_decide_eq_false_2 (rs = STATE_READABLE)) by congruence. rewrite check_readable, revive_id by (cbn; congruence).
    split; [by split|]. split; [by intros []|done].
Qed.
Lemma ping_nominates k tid : GetByteString (ping_message k tid) STUN_ATTR_USE_CANDIDATE = if nominates k then Some [] else None.
Proof.
  unfold GetByteString, GetAttribute, ping_message. cbn [m_attrs secured coded snoc_msg built]. unfold ping_attrs, role_attr.
  destruct (send_retransmit_count_attribute_ _), (bool_decide _), (nominates k); done.
Qed.
Lemma link_pinged L R k tid remote rs ws pings c now : port_ok L → port_ok R → ping_to L R k → id_ok tid → knows c L → ice_role_ R ≠ ice_role_ L →
  link remote rs ws pings c → ws ≠ STATE_WRITE_TIMEOUT → addr_ok (c_address remote) → ∃ c',
  Connection_OnReadPacket (msg_wire (ping_message k tid)) now c R =
    Some (c', port_emit (SendTo (c_address remote) (msg_wire (response_message k tid (c_address remote) (password_ R)))) R) ∧
  link remote STATE_READABLE ws pings c' ∧ (idle c → idle c') ∧
  conn_log c' = (conn_log c ++ if bool_decide (rs = STATE_READABLE) then [] else [SignalStateChange ws]) ++
    if bool_decide (ice_role_ R = ICEROLE_CONTROLLED) && nominates k then [SignalUseCandidate] else [].
Proof.
  intros HL HR Hk Hid [Hu Hp] Hrole Hc Hw Haddr. pose proof (lk_remote _ _ _ _ _ Hc) as Er. set (addr := c_address remote).
  destruct (ping_accepted L R k tid addr HL HR Hk Hid) as (_ & Hok & Hget).
  pose proof HR as (Hstd & _ & _ & _ & Hpwd & _). pose proof HL as (_ & _ & _ & _ & _ & _ & HrL). pose proof Hk as (EL & _).
  destruct (response_facts k tid addr (password_ R) Hid Haddr Hpwd) as (_ & _ & Hrok & Hno & Hfit).
  destruct (secured_add _ (password_ R) Hrok Hpwd Hfit) as (_ & _ & _ & Hsec).
  pose proof (no_conflict R k tid addr HR) as Hnc. rewrite EL in Hnc. specialize (Hnc HrL Hrole).
  pose proof (ping_username_found k tid) as Huser.
  assert (SendBindingResponse (ping_message k tid) addr R = port_emit (SendTo addr (msg_wire (response_message k tid addr (password_ R)))) R) as Esend.
  { unfold SendBindingResponse. rewrite Huser, binding_response_value by done. unfold send_message. by rewrite Write_packet. }
  unfold Connection_OnReadPacket. rewrite Er. fold addr. rewrite Hget. cbn [mbind option_bind negb].
  change (m_type (ping_message k tid)) with STUN_BINDING_REQUEST. rewrite Er in Hu. rewrite Z.eqb_refl, (bool_decide_eq_true_2 _ (eq_sym Hu)).
  rewrite Hstd, Hnc. cbn [negb]. rewrite Huser, Esend, ping_nominates. destruct (read_link remote rs ws pings now c Hc Hw) as (Hl & Eq & El).
  change (IsStandardIce (port_emit _ R)) with (IsStandardIce R). rewrite Hstd. cbn [andb].
  change (ice_role_ (port_emit _ R)) with (ice_role_ R). destruct (bool_decide (ice_role_ R = ICEROLE_CONTROLLED)), (nominates k); cbn [andb negb];
    rewrite ?bool_decide_eq_false_2, ?bool_decide_eq_true_2 by done; cbn [negb]; eexists; (split; [reflexivity|]); rewrite ?app_nil_r; try done.
  destruct Hl. split; [by split|]. split; [done|]. cbn. by rewrite El.
Qed.
Lemma response_address k tid addr key : GetAddress (as_ice (response_message k tid addr key)) STUN_ATTR_XOR_MAPPED_ADDRESS =
  Some (XorAddressAttr STUN_ATTR_XOR_MAPPED_ADDRESS (EnsureAddressLength addr) addr).
Proof.
  unfold GetAddress, GetAttribute, response_message. cbn [as_ice m_attrs secured coded snoc_msg built]. unfold response_attrs.
  by destruct (send_retransmit_count_attribute_ _).
Qed.
(** A response with an address that the port knows. *)
Lemma link_answered L R k tid a addr remote rs pings c now : port_ok L → port_ok R → id_ok tid → addr_ok addr → knows c R → awaits k tid a c →
  existsb (λ x, SocketAddress_eqb (c_address x) addr) (candidates_ L) = true → link remote rs STATE_WRITE_INIT pings c → ∃ c',
  Connection_OnReadPacket (msg_wire (response_message k tid addr (password_ R))) now c L = Some (c', L) ∧
  link remote rs STATE_WRITABLE [] c' ∧ conn_log c' = conn_log c ++ [SignalStateChange STATE_WRITABLE].
Proof.
  intros HL HR Hid Haddr Hkn (r & Hinv & Eo & Er & Emsg) Hknown [E1 E2 E3 E4 E5 E6 E7].
  destruct (response_read L R k tid c _ a r addr now HL HR Hid Haddr Hkn eq_refl Hinv Eo Er Emsg) as (m' & E & _). rewrite E. unfold OnConnectionRequestResponse.
  pose proof HL as (-> & _). set (c0 := set_conn_requests m' c). assert (set_write_state STATE_WRITABLE c0 = conn_emit (SignalStateChange STATE_WRITABLE) (with_write_state STATE_WRITABLE c0)) as ->.
  { unfold set_write_state. change (write_state_ c0) with (write_state_ c). rewrite E4, bool_decide_eq_false_2 by done. unfold Connection_CheckTimeout. cbn. by rewrite andb_false_r. }
  cbn zeta. change (remote_ice_mode_ (set_state _ _)) with (remote_ice_mode_ c). rewrite E6, bool_decide_eq_false_2 by done.
  unfold MaybeAddPrflxCandidate. rewrite response_address. cbn [attr_address]. rewrite Hknown. eexists. split; [reflexivity|]. by repeat split.
Qed.

(** Without a ping that is too old nothing times out. *)
Definition recent (now : Z) (pings : list Z) : Prop := pings = [] ∨ ∃ t, pings = [t] ∧ 0 ≤ t ∧ t + CONNECTION_WRITE_TIMEOUT < 4294967296 ∧ now ≤ t + CONNECTION_WRITE_TIMEOUT.
Lemma link_update p remote rs ws pings c now : IsStandardIce p = true → link remote rs ws pings c → recent now pings → UpdateState now p c = c.
Proof.
  intros Hp [E1 E2 E3 E4 E5 E6 E7] Hr. unfold UpdateState. assert (IsGoogleIce p = false) as ->.
  { unfold IsGoogleIce, IsStandardIce in *. apply bool_decide_eq_true in Hp. apply bool_decide_eq_false_2. by rewrite Hp. }
  cbn [andb]. assert (∀ r, TooManyFailures (pings_since_last_response_ c) CONNECTION_WRITE_CONNECT_FAILURES r now = false) as ->.
  { intros r. rewrite E7. by destruct Hr as [->|(t & -> & _)]. }
  rewrite andb_false_r. cbn [andb]. assert (TooLongWithoutResponse (pings_since_last_response_ c) CONNECTION_WRITE_TIMEOUT now = false) as ->; [|by rewrite andb_false_r].
  rewrite E7. unfold TooLongWithoutResponse. destruct Hr as [->|(t & -> & Ht & Hm & Hn)]; [done|]. change (zlen [t] =? 0) with false. change (zget 0 [t]) with t. cbn iota.
  apply Z.ltb_ge. unfold CONNECTION_WRITE_TIMEOUT, u32 in *. rewrite Z.mod_small; lia.
Qed.
(** Data that is no STUN message. *)
Lemma link_data p remote ws pings c data now : IsStandardIce p = true → ValidateFingerprint data = false → link remote STATE_READABLE ws pings c → ws ≠ STATE_WRITE_TIMEOUT →
  ∃ c', Connection_OnReadPacket data now c p = Some (c', p) ∧ link remote STATE_READABLE ws pings c' ∧ conn_log c' = conn_log c ++ [SignalReadPacket data].
Proof.
  intros Hp Hd [E1 E2 E3 E4 E5 E6 E7] Hw. unfold Connection_OnReadPacket, GetStunMessage. rewrite Hp, Hd. cbn [andb negb mbind option_bind]. rewrite E3, bool_decide_eq_true_2 by done.
  rewrite revive_id by (cbn; congruence). eexists. split; [reflexivity|]. by repeat split.
Qed.
End links.

(** ** A channel with one connection *)

Section channels.
Context `{Platform} `{!PortClass}.

Record channel_at (cfg : chan_config) (a q : Z) (c : chan_conn) (p : chan_port) (s : chan_select) (posted : list chan_message) (st : P2PTransportChannel) : Prop := {
  at_cfg : ch_cfg st = cfg;
  at_conns : conns st = {[a := c]};
  at_ports : ports st = {[q := p]};
  at_sel : ch_sel st = s;
  at_posted : ch_posted st = posted
}.
(** The state of the selection: was_writable_ is the state of the channel. *)
Definition selected (a : Z) (b pe : option Z) (d r w : bool) : chan_select := mkSel [a] b pe d w r w.

Lemma at_emit cfg a q c p s posted l st : channel_at cfg a q c p s posted st → channel_at cfg a q c p s posted (ch_emit l st).
Proof. intros []. by split. Qed.
Lemma at_on_sel cfg a q c p s posted g st : channel_at cfg a q c p s posted st → channel_at cfg a q c p (g s) posted (on_sel g st).
Proof. intros [E1 E2 E3 E4 E5]. split; try done. cbn. by rewrite E4. Qed.
Lemma at_sort cfg a q c p b pe d r w posted st : channel_at cfg a q c p (selected a b pe d r w) posted st →
  channel_at cfg a q c p (selected a b pe true r w) (if d then posted else posted ++ [MSG_SORT]) (RequestSort st).
Proof. intros [E1 E2 E3 E4 E5]. unfold RequestSort. rewrite E4. cbn. destruct d; split; try done; cbn; by rewrite ?E4, ?E5. Qed.
Lemma on_conn_at cfg a q c p s posted f x y l st : channel_at cfg a q c p s posted st → cc_port c = q → f (cc_conn c) (cp_port p) = Some (x, y) →
  conn_log x = conn_log (cc_conn c) ++ l → ∃ st1, on_conn a f st = handle_events a l st1 ∧ channel_at cfg a q (cc_with x c) (cp_with y p) s posted st1 ∧
    ch_log st1 = ch_log st ++ port_signals (drop (length (port_log (cp_port p))) (port_log y)).
Proof.
  intros [E1 E2 E3 E4 E5] Eq Ef El. unfold on_conn. rewrite E2, lookup_singleton_eq. cbn [mbind option_bind]. rewrite Eq, E3, lookup_singleton_eq. cbn [mbind option_bind].
  rewrite Ef. cbn [mbind option_bind]. rewrite El, drop_app_length. eexists. split; [reflexivity|]. split; [|done]. split; try done; unfold conns, ports in *; cbn; by rewrite ?E2, ?E3, insert_singleton_eq.
Qed.
Lemma on_conn_quiet cfg a q c p s posted f x y st : channel_at cfg a q c p s posted st → cc_port c = q → f (cc_conn c) (cp_port p) = Some (x, y) →
  conn_log x = conn_log (cc_conn c) → ∃ st1, on_conn a f st = Some st1 ∧ channel_at cfg a q (cc_with x c) (cp_with y p) s posted st1.
Proof.
  intros Hst Eq Ef El. destruct (on_conn_at cfg a q c p s posted f x y [] st Hst Eq Ef) as (st1 & E & Hst1 & _); [by rewrite app_nil_r|]. by exists st1.
Qed.
Lemma view_at cfg a q c p s posted st lc : channel_at cfg a q c p s posted st → cc_port c = q → local_candidate (cp_port p) (cc_conn c) = Some lc →
  ∃ v, view st a = Some v ∧ v_addr v = a ∧ v_write v = write_state_ (cc_conn c) ∧ v_network v = cp_network p.
Proof.
  intros [E1 E2 E3 E4 E5] Eq Elc. unfold view. rewrite E2, lookup_singleton_eq. cbn [mbind option_bind]. rewrite Eq, E3, lookup_singleton_eq. cbn [mbind option_bind].
  unfold priority. rewrite Elc. cbn [mbind option_bind]. by eexists.
Qed.
Lemma update_at cfg a q c p s posted now st remote rs ws pings : channel_at cfg a q c p s posted st → cc_port c = q → IsStandardIce (cp_port p) = true →
  link remote rs ws pings (cc_conn c) → recent now pings → ∃ st1, update_states [a] now st = Some st1 ∧ channel_at cfg a q c p s posted st1.
Proof.
  intros Hst Eq Hp Hl Hr. cbn [update_states].
  destruct (on_conn_quiet cfg a q c p s posted (λ c p, Some (UpdateState now p c, p)) (cc_conn c) (cp_port p) st Hst Eq) as (st1 & E & Hst1); [by erewrite link_update|done|].
  rewrite E. rewrite cc_with_id, cp_with_id in Hst1. by exists st1.
Qed.
Lemma prune_at cfg a q c p b pe d r w posted st v : channel_at cfg a q c p (selected a b pe d r w) posted st → view st a = Some v → v_addr v = a → v_network v = cp_network p →
  b = None ∨ b = Some a → prune_networks [v_network v] st = Some st.
Proof.
  intros [E1 E2 E3 E4 E5] Ev Ea En Hb. cbn [prune_networks]. assert (GetBestConnectionOnNetwork (v_network v) st = Some (Some v)) as ->.
  { unfold GetBestConnectionOnNetwork, best, list_of. rewrite E4. cbn [selected best_connection_ connections_].
    destruct Hb as [-> | ->]; [|rewrite Ev; cbn; by rewrite Z.eqb_refl]. cbn [mbind option_bind mapM]. rewrite Ev. cbn. by rewrite Z.eqb_refl. }
  cbn [mbind option_bind]. unfold list_of. rewrite E4. cbn [selected connections_]. destruct (bool_decide _); [|done]. cbn [prune_loop]. rewrite Ea, Ev. cbn [mbind option_bind].
  by rewrite Z.eqb_refl.
Qed.
Lemma writable_at cfg a q c p l b pe d was r w v posted st : channel_at cfg a q c p (mkSel l b pe d was r w) posted st →
  channel_at cfg a q c p (mkSel l b pe d was r v) posted (set_writable v st).
Proof. intros [E1 E2 E3 E4 E5]. unfold set_writable. rewrite E4. cbn. destruct (Bool.eqb w v) eqn:Ew; [apply eqb_prop in Ew; subst; by split|]. split; try done. cbn. by rewrite E4. Qed.
Lemma readable_at cfg a q c p l b pe d was r w v posted st : channel_at cfg a q c p (mkSel l b pe d was r w) posted st →
  channel_at cfg a q c p (mkSel l b pe d was v w) posted (set_readable v st).
Proof. intros [E1 E2 E3 E4 E5]. unfold set_readable. rewrite E4. cbn. destruct (Bool.eqb r v) eqn:Ew; [apply eqb_prop in Ew; subst; by split|]. split; try done. cbn. by rewrite E4. Qed.
Lemma handle_at cfg a q c p b pe d r w (v : bool) posted st : channel_at cfg a q c p (selected a b pe d r w) posted st →
  channel_at cfg a q c p (selected a b pe d r v) posted (if v then HandleWritable st else HandleNotWritable st).
Proof.
  intros Hst. pose proof Hst as [E1 E2 E3 E4 E5]. destruct v.
  - unfold HandleWritable, selected. apply (writable_at cfg a q c p [a] b pe d true r w). rewrite E4. cbn. destruct w; split; try done; cbn; by rewrite E4.
  - unfold HandleNotWritable. rewrite E4. cbn. destruct w; [|exact Hst]. apply (writable_at cfg a q c p [a] b pe d false r true). split; try done. cbn. by rewrite E4.
Qed.
Lemma state_at cfg a q c p b pe d r w posted st : channel_at cfg a q c p (selected a b pe d r w) posted st → b = None ∨ b = Some a →
  w = bool_decide (b = Some a) && is_writable (cc_conn c) →
  ∃ st', UpdateChannelState st = Some st' ∧ channel_at cfg a q c p (selected a b pe d (bool_decide (read_state_ (cc_conn c) = STATE_READABLE)) w) posted st'.
Proof.
  intros Hst Hb Hw. pose proof Hst as [E1 E2 E3 E4 E5]. unfold UpdateChannelState, best_writable, best, list_of. rewrite E4. cbn [selected best_connection_ connections_ ch_writable].
  assert (match b with Some b => c ← conns st !! b; Some (is_writable (cc_conn c)) | None => Some false end = Some w) as ->.
  { destruct Hb as [-> | ->]; [by rewrite Hw|]. rewrite E2, lookup_singleton_eq, Hw, bool_decide_eq_true_2 by done. done. }
  cbn [mbind option_bind]. rewrite eqb_reflx. cbn [negb mapM]. rewrite E2, lookup_singleton_eq. cbn. rewrite orb_false_r. eexists. split; [reflexivity|].
  by apply (readable_at cfg a q c p [a] b pe d w r w).
Qed.
Lemma finish_eq st :
  (l ← mapM (λ a, conns st !! a) (list_of st);
   let all_connections_timedout := forallb (λ c, bool_decide (write_state_ (cc_conn c) = STATE_WRITE_TIMEOUT)) l in
   writable ← best_writable st;
   let st := if (writable : bool) then HandleWritable st else if all_connections_timedout then HandleAllTimedOut st else HandleNotWritable st in
   UpdateChannelState st) = finish st.
Proof. unfold finish. destruct (mapM _ _) as [l|]; [|done]. cbn. destruct (best_writable st) as [[|]|]; [done| |done]. cbn. by destruct (forallb _ _). Qed.
Lemma finish_at cfg a q c p b pe d r w posted st rs ws : channel_at cfg a q c p (selected a b pe d r w) posted st → b = None ∨ b = Some a →
  read_state_ (cc_conn c) = rs → write_state_ (cc_conn c) = ws → ∃ st', finish st = Some st' ∧
    channel_at cfg a q c p (selected a b pe d (bool_decide (rs = STATE_READABLE)) (bool_decide (b = Some a) && bool_decide (ws = STATE_WRITABLE))) posted st'.
Proof.
  intros Hst Hb Er Ew. pose proof Hst as [E1 E2 E3 E4 E5]. unfold finish. assert (mapM (λ a, conns st !! a) (list_of st) = Some [c]) as ->.
  { unfold list_of. rewrite E4. cbn. by rewrite E2, lookup_singleton_eq. }
  cbn [mbind option_bind]. set (v := bool_decide (b = Some a) && bool_decide (ws = STATE_WRITABLE)). assert (best_writable st = Some v) as ->.
  { unfold best_writable, best, v. rewrite E4. cbn. destruct Hb as [-> | ->]; [done|]. rewrite E2, lookup_singleton_eq, bool_decide_eq_true_2 by done. cbn. unfold is_writable. by rewrite Ew. }
  cbn [mbind option_bind]. pose proof (handle_at _ _ _ _ _ _ _ _ _ _ v _ _ Hst) as Hst1.
  destruct (state_at _ _ _ _ _ _ _ _ _ _ _ _ Hst1 Hb) as (st' & E & Hst'); [unfold v, is_writable; by rewrite Ew|]. exists st'. split; [exact E|]. by rewrite Er in Hst'.
Qed.
Lemma sort_at cfg a q c p b pe d r w posted now st remote rs ws pings lc : channel_at cfg a q c p (selected a b pe d r w) posted st → cc_port c = q →
  protocol_type_ cfg = ICEPROTO_RFC5245 → IsStandardIce (cp_port p) = true → link remote rs ws pings (cc_conn c) → recent now pings →
  local_candidate (cp_port p) (cc_conn c) = Some lc → b = None ∨ b = Some a →
  let b' := if bool_decide (ch_role cfg = ICEROLE_CONTROLLING) then Some a else b in
  ∃ st', SortConnections now st = Some st' ∧
    channel_at cfg a q c p (selected a b' pe false (bool_decide (rs = STATE_READABLE)) (bool_decide (b' = Some a) && bool_decide (ws = STATE_WRITABLE))) posted st'.
Proof.
  intros Hst Eq Ecfg Hp Hl Hr Hlc Hb b'. unfold SortConnections, UpdateConnectionStates. assert (list_of st = [a]) as -> by (unfold list_of; by rewrite (at_sel _ _ _ _ _ _ _ _ Hst)).
  destruct (update_at _ _ _ _ _ _ _ now st _ _ _ _ Hst Eq Hp Hl Hr) as (st1 & -> & Hst1). cbn [mbind option_bind]. rewrite (at_cfg _ _ _ _ _ _ _ _ Hst1), Ecfg.
  rewrite bool_decide_eq_false_2 by done. cbn zeta. set (st2 := set_dirty false st1). assert (channel_at cfg a q c p (selected a b pe false r w) posted st2) as Hst2.
  { destruct Hst1 as [F1 F2 F3 F4 F5]. split; try done. cbn. by rewrite F4. }
  assert (list_of st2 = [a]) as -> by (unfold list_of; by rewrite (at_sel _ _ _ _ _ _ _ _ Hst2)).
  destruct (view_at _ _ _ _ _ _ _ st2 lc Hst2 Eq Hlc) as (v & Ev & Ea & Ew & En). assert (mapM (view st2) [a] = Some [v]) as -> by (cbn; by rewrite Ev). cbn [mbind option_bind].
  assert (sortable [v] = true) as ->. { unfold sortable. cbn. unfold comparable. rewrite bool_decide_eq_true_2, Z.sub_diag by done. done. }
  cbn [negb]. change (stable_sort [v]) with [v]. change (networks_of [v]) with [v_network v]. change (v_addr <$> [v]) with [v_addr v]. cbn [head]. rewrite Ea.
  set (st3 := set_list [a] st2). assert (channel_at cfg a q c p (selected a b pe false r w) posted st3) as Hst3 by exact (at_on_sel _ _ _ _ _ _ _ _ _ Hst2).
  assert (view st3 a = Some v) as Ev3 by done. assert (best st3 = b) as Eb3 by (unfold best; by rewrite (at_sel _ _ _ _ _ _ _ _ Hst3)). rewrite Eb3. clearbody st3.
  assert (∃ current, match b with Some b => Some <$> view st3 b | None => Some None end = Some current ∧ v_addr <$> current = b) as (current & -> & Ecur).
  { destruct Hb as [-> | ->]; [by exists None|]. rewrite Ev3. exists (Some v). split; [done|]. cbn. by rewrite Ea. }
  cbn [mbind option_bind]. assert (∃ st4, (if (negb (standard st3) || has_role ICEROLE_CONTROLLING st3) && ShouldSwitch current (Some v)
    then SwitchBestConnectionTo (v_addr <$> Some v) st3 else Some st3) = Some st4 ∧ channel_at cfg a q c p (selected a b' pe false r w) posted st4) as (st4 & E4 & Hst4).
  { unfold standard, has_role. rewrite (at_cfg _ _ _ _ _ _ _ _ Hst3), Ecfg, bool_decide_eq_true_2 by done. cbn [negb orb]. unfold b'.
    destruct (bool_decide (ch_role cfg = ICEROLE_CONTROLLING)); [|by exists st3]. cbn [andb]. unfold ShouldSwitch. cbn [fmap option_fmap option_map]. rewrite Ecur, Ea.
    destruct Hb as [-> | ->]; [|rewrite bool_decide_eq_true_2 by done; by exists st3]. destruct current; [done|]. rewrite bool_decide_eq_false_2 by done.
    unfold SwitchBestConnectionTo. rewrite Eb3. cbn [mbind option_bind]. pose proof (at_on_sel _ _ _ _ _ _ _ (λ s, mkSel (connections_ s) (Some a) (pending_best_connection_ s) (sort_dirty_ s) (was_writable_ s) (ch_readable s) (ch_writable s)) _ Hst3) as Hst4.
    change (on_sel _ st3) with (set_best (Some a) st3) in Hst4. rewrite (at_conns _ _ _ _ _ _ _ _ Hst4), lookup_singleton_eq. cbn [mbind option_bind]. eexists. split; [reflexivity|]. by apply at_emit. }
  rewrite E4. cbn [mbind option_bind]. destruct (view_at _ _ _ _ _ _ _ st4 lc Hst4 Eq Hlc) as (v4 & Ev4 & Ea4 & _ & En4). rewrite En, <- En4.
  assert (b' = None ∨ b' = Some a) as Hb' by (unfold b'; destruct (bool_decide _); [by right|done]).
  rewrite (prune_at _ _ _ _ _ _ _ _ _ _ _ _ _ Hst4 Ev4 Ea4 En4 Hb'). cbn [mbind option_bind].
  pose proof (finish_eq st4) as Ef. cbn zeta in Ef. unfold mbind in Ef |- *. rewrite Ef. apply (finish_at _ _ _ _ _ _ _ _ r w); try done; [apply Hl|apply Hl].
Qed.
Lemma pingable_at cfg a q c p b pe d r posted now st : channel_at cfg a q c p (selected a b pe d r false) posted st → cc_connected c = true → write_state_ (cc_conn c) = STATE_WRITE_INIT →
  last_ping_sent_ (cc_conn c) = 0 → b = None ∨ b = Some a → FindNextPingableConnection now st = Some (Some a).
Proof.
  intros [E1 E2 E3 E4 E5] Hc Hw Hs Hb. unfold FindNextPingableConnection, best, list_of. rewrite E4. cbn [selected best_connection_ connections_].
  assert (match b with Some b => c ← conns st !! b; Some (is_writable (cc_conn c) && (u32 (last_ping_sent_ (cc_conn c) + MAX_CURRENT_WRITABLE_DELAY) <=? now)) | None => Some false end
    = Some false) as ->.
  { destruct Hb as [-> | ->]; [done|]. rewrite E2, lookup_singleton_eq. cbn. unfold is_writable. by rewrite Hw. }
  cbn [mbind option_bind oldest_pingable]. rewrite E2, lookup_singleton_eq. cbn [mbind option_bind]. unfold IsPingable. by rewrite Hc, E4, Hs, Hw.
Qed.
(** The first check of the connection; the controlling side chooses it at once. *)
Lemma check_at cfg a q c p b pe d r posted now st remote rs lc ra tid R : channel_at cfg a q c p (selected a b pe d r false) (MSG_PING :: posted) st → cc_port c = q →
  cc_connected c = true → b = None ∨ b = Some a → protocol_type_ cfg = ICEPROTO_RFC5245 → ch_remote_mode cfg = ICEMODE_FULL → port_ok (cp_port p) → port_ok R →
  candidates_ (cp_port p) !! 0%nat = Some lc → link remote rs STATE_WRITE_INIT [] (cc_conn c) → idle (cc_conn c) → knows (cc_conn c) R → id_ok tid → ra ≠ 0 → is_u32 now →
  ∃ st1 st2 c1 c2 k, take_posted now ra tid st = Some st1 ∧ channel_at cfg a q (cc_with c1 c) p (selected a b pe d r false) posted st1 ∧
    on_conn a (conn_dispatch now) st1 = Some st2 ∧
    channel_at cfg a q (cc_with c2 c) (cp_with (port_emit (SendTo (c_address remote) (msg_wire (ping_message k tid))) (cp_port p)) p) (selected a b pe d r false) posted st2 ∧
    link remote rs STATE_WRITE_INIT [now] c2 ∧ awaits k tid ra c2 ∧ ping_to (cp_port p) R k ∧ use_candidate k = bool_decide (ch_role cfg = ICEROLE_CONTROLLING).
Proof.
  intros Hst Eq Hcon Hb Ecfg Emode HL HR Hlc Hl Hi Hkn Hid Hra Hnow. unfold take_posted. rewrite (at_posted _ _ _ _ _ _ _ _ Hst). cbn [P2P_OnMessage].
  set (st0 := on_thread (drop 1) id st). assert (channel_at cfg a q c p (selected a b pe d r false) posted st0) as Hst0.
  { destruct Hst as [F1 F2 F3 F4 F5]. split; try done. cbn. by rewrite F5. }
  clearbody st0. unfold OnPing, UpdateConnectionStates. assert (list_of st0 = [a]) as -> by (unfold list_of; by rewrite (at_sel _ _ _ _ _ _ _ _ Hst0)).
  destruct (update_at _ _ _ _ _ _ _ now st0 _ _ _ _ Hst0 Eq (proj1 HL) Hl (or_introl eq_refl)) as (st1 & -> & Hst1). cbn [mbind option_bind].
  rewrite (pingable_at _ _ _ _ _ _ _ _ _ _ now st1 Hst1 Hcon (lk_write _ _ _ _ _ Hl) (proj2 Hi) Hb). cbn [mbind option_bind].
  assert (local_candidate (cp_port p) (cc_conn c) = Some lc) as Elc by (unfold local_candidate; by rewrite (lk_index _ _ _ _ _ Hl)).
  destruct (view_at _ _ _ _ _ _ _ st1 lc Hst1 Eq Elc) as (v & Ev & Ea & Ew & _). unfold PingConnection. rewrite Ev. cbn [mbind option_bind].
  set (u := bool_decide (ch_role cfg = ICEROLE_CONTROLLING)).
  destruct (link_ping (cp_port p) R remote rs STATE_WRITE_INIT (cc_conn c) lc ra tid u now HL HR Hl Hi Hkn Hlc Hid Hra Hnow) as (c1 & c2 & k & P1 & P2 & P3 & P4 & P5 & P6 & P7 & P8 & P9).
  assert (best st1 = b) as Eb1 by (unfold best; by rewrite (at_sel _ _ _ _ _ _ _ _ Hst1)). rewrite Eb1.
  assert (∃ current, match b with Some b => Some <$> view st1 b | None => Some None end = Some current ∧ (b = None → current = None)) as (current & -> & Ecur).
  { destruct Hb as [-> | ->]; [by exists None|]. rewrite Ev. by exists (Some v). }
  cbn [mbind option_bind]. cbn zeta. set (e := if standard st1 then _ else false). assert (e = u) as ->.
  { unfold e, standard, has_role. rewrite (at_cfg _ _ _ _ _ _ _ _ Hst1), Ecfg, Emode, !bool_decide_eq_true_2 by done. fold u. cbn [andb]. destruct u; [|by rewrite bool_decide_eq_false_2].
    destruct Hb as [-> | ->]; [|by rewrite bool_decide_eq_true_2]. rewrite Ecur by done. by rewrite orb_true_r. }
  destruct (on_conn_quiet _ _ _ _ _ _ _ (λ c p, c ← Ping now ra tid p (set_use_candidate_attr u c); Some (c, p)) c1 (cp_port p) st1 Hst1 Eq) as (st2 & E2 & Hst2); [by rewrite P1|done|].
  rewrite E2. cbn [mbind option_bind]. rewrite cp_with_id in Hst2. set (st3 := ch_post_delayed _ now MSG_PING st2).
  assert (channel_at cfg a q (cc_with c1 c) p (selected a b pe d r false) posted st3) as Hst3 by (destruct Hst2; by split).
  destruct (on_conn_quiet _ _ _ _ _ _ _ (conn_dispatch now) c2 (port_emit (SendTo (c_address remote) (msg_wire (ping_message k tid))) (cp_port p)) st3 Hst3 Eq P4) as (st4 & E4 & Hst4); [cbn; congruence|].
  exists st3, st4, c1, c2, k. by repeat (split; [done|]).
Qed.

(** What the connection signals. *)
Lemma change_at cfg a q c p b pe d r w posted ws st : channel_at cfg a q c p (selected a b pe d r w) posted st → ch_role cfg = ICEROLE_CONTROLLING ∨ ws ≠ STATE_WRITABLE →
  ∃ st', handle_event a (SignalStateChange ws) st = Some st' ∧ channel_at cfg a q c p (selected a b pe true r w) (if d then posted else posted ++ [MSG_SORT]) st'.
Proof.
  intros Hst Hr. exists (RequestSort st). split; [|by apply at_sort]. cbn [handle_event]. unfold OnConnectionStateChange, has_role. rewrite (at_cfg _ _ _ _ _ _ _ _ Hst).
  destruct Hr as [-> | Hw]; [by rewrite andb_false_r|]. by rewrite (bool_decide_eq_false_2 (ws = STATE_WRITABLE)), andb_false_r by done.
Qed.
Lemma nominate_at cfg a q c p b pe d r w posted st : channel_at cfg a q c p (selected a b pe d r w) posted st → ch_role cfg = ICEROLE_CONTROLLED → protocol_type_ cfg = ICEPROTO_RFC5245 →
  write_state_ (cc_conn c) = STATE_WRITE_INIT →
  ∃ st', handle_event a SignalUseCandidate st = Some st' ∧ channel_at cfg a q c p (selected a b (Some a) d r w) posted st'.
Proof.
  intros Hst Er Ep Ew. exists (set_pending (Some a) st). split; [|exact (at_on_sel _ _ _ _ _ _ _ _ _ Hst)]. cbn [handle_event]. unfold OnUseCandidate, has_role, standard.
  rewrite (at_cfg _ _ _ _ _ _ _ _ Hst), Er, Ep, !bool_decide_eq_true_2 by done. cbn [negb]. rewrite (at_conns _ _ _ _ _ _ _ _ Hst), lookup_singleton_eq. cbn [mbind option_bind].
  unfold is_writable. by rewrite Ew.
Qed.
Lemma switch_at cfg a q c p pe d r w posted st : channel_at cfg a q c p (selected a None pe d r w) posted st → ch_role cfg = ICEROLE_CONTROLLED → protocol_type_ cfg = ICEPROTO_RFC5245 → pe = Some a →
  ∃ st', handle_event a (SignalStateChange STATE_WRITABLE) st = Some st' ∧ channel_at cfg a q c p (selected a (Some a) None true r w) (if d then posted else posted ++ [MSG_SORT]) st'.
Proof.
  intros Hst Er Ep ->. cbn [handle_event]. unfold OnConnectionStateChange, has_role, standard. rewrite (at_cfg _ _ _ _ _ _ _ _ Hst), Er, Ep, (at_sel _ _ _ _ _ _ _ _ Hst).
  cbn [selected pending_best_connection_]. rewrite !bool_decide_eq_true_2 by done. cbn [andb]. unfold SwitchBestConnectionTo. cbn zeta.
  set (st1 := set_best (Some a) (set_pending None st)). assert (channel_at cfg a q c p (selected a (Some a) None d r w) posted st1) as Hst1.
  { exact (at_on_sel _ _ _ _ _ _ _ _ _ (at_on_sel _ _ _ _ _ _ _ _ _ Hst)). }
  assert (best (set_pending None st) = None) as -> by (unfold best; cbn; by rewrite (at_sel _ _ _ _ _ _ _ _ Hst)). cbn [mbind option_bind].
  rewrite (at_conns _ _ _ _ _ _ _ _ Hst1), lookup_singleton_eq. cbn [mbind option_bind]. eexists. split; [reflexivity|]. by apply at_sort, at_emit.
Qed.
Lemma data_at cfg a q c p b pe d r w posted data st : channel_at cfg a q c p (selected a b pe d r w) posted st →
  ∃ st', handle_event a (SignalReadPacket data) st = Some st' ∧ channel_at cfg a q c p (selected a b pe d r w) posted st' ∧ ch_log st' = ch_log st ++ [ChReadPacket data].
Proof.
  intros Hst. exists (ch_emit [ChReadPacket data] st). split; [|split; [by apply at_emit|done]]. cbn [handle_event]. unfold Channel_OnReadPacket, FindConnection, list_of.
  rewrite (at_sel _ _ _ _ _ _ _ _ Hst). cbn [selected connections_]. by rewrite bool_decide_eq_true_2 by apply list_elem_of_here.
Qed.
Lemma remember_at cfg a q c p s posted r o st : channel_at cfg a q c p s posted st → channel_at cfg a q c p s posted (RememberRemoteCandidate r o st).
Proof. intros []. unfold RememberRemoteCandidate. cbn zeta. by destruct (IsDuplicateRemoteCandidate _ _). Qed.
Lemma packet_at cfg a q c p s posted from data id now st : channel_at cfg a q c p s posted st → GetConnection from p = Some a →
  port_packet q from data id now st = on_conn a (Connection_OnReadPacket data now) st.
Proof. intros Hst Hg. unfold port_packet. rewrite (at_ports _ _ _ _ _ _ _ _ Hst), lookup_singleton_eq. cbn [mbind option_bind]. by rewrite Hg. Qed.
End channels.

(** ** Two parties *)

Lemma chan_run_app `{Platform} `{!PortClass} l l' st st' : chan_run l st = Some st' → chan_run (l ++ l') st = chan_run l' st'.
Proof.
  revert st. induction l as [|[o now] l IH]; intros st; cbn [chan_run app]; [by intros [= ->]|]. destruct (chan_step o now st); [|done]. cbn [mbind option_bind]. apply IH.
Qed.
Section parties.
Context `{Platform}.

(** What one side brings: the addresses of its objects, its port, its tie breaker, the
    candidate that the other side is told, and the request and id of its check. *)
Record party := mkParty {
  pa_component : Z; pa_conn : Z; pa_supply : list Z; pa_id : Z; pa_port : chan_port; pa_tie : Z;
  pa_candidate : FullCandidate; pa_request : Z; pa_tid : list Z
}.
Definition ufrag (P : party) : list Z := ice_username_fragment_ (cp_port (pa_port P)).
Definition pwd (P : party) : list Z := password_ (cp_port (pa_port P)).
Definition address (P : party) : SocketAddress := c_address (f_candidate (pa_candidate P)).
(** Its port, once the channel has it. *)
Definition port_of (P : party) (role : IceRole) : Port :=
  SetIceTiebreaker_port (pa_tie P) (SetIceRole role (SetIceProtocolType ICEPROTO_RFC5245 (cp_port (pa_port P)))).
Record party_ok (P : party) (role : IceRole) : Prop := {
  po_port : port_ok (port_of P role);
  po_names : ufrag P ≠ [] ∧ pwd P ≠ [];
  po_conns : cp_conns (pa_port P) = [];
  po_fit : udp_fit (pa_port P);
  po_known : existsb (λ x, SocketAddress_eqb (c_address x) (address P)) (candidates_ (cp_port (pa_port P))) = true;
  po_address : addr_ok (address P);
  po_candidate : c_protocol (f_candidate (pa_candidate P)) = text "udp" ∧ f_generation (pa_candidate P) = 0 ∧
                 c_username (f_candidate (pa_candidate P)) = [] ∧ c_password (f_candidate (pa_candidate P)) = [];
  po_request : pa_request P ≠ 0 ∧ id_ok (pa_tid P)
}.
(** How it gets ready: its owner configures it, and it learns of the other side. *)
Definition prepare (P O : party) (role : IceRole) (t : Z) : list (chan_op * Z) :=
  [(CSetIceRole role, t); (CSetIceTiebreaker (pa_tie P), t); (CSetIceProtocolType ICEPROTO_RFC5245, t); (CSetIceCredentials (ufrag P) (pwd P), t);
   (CSetRemoteIceCredentials (ufrag O) (pwd O), t); (CConnect, t); (CSignalingReady, t); (CPortReady (pa_id P) (pa_port P), t);
   (CCandidate (pa_candidate O), t)].
Definition party_new (P : party) : P2PTransportChannel := P2PTransportChannel_new (pa_component P) (pa_conn P :: pa_supply P).

Definition config (P O : party) (role : IceRole) : chan_config :=
  mkCfg false (ufrag P) (pwd P) (ufrag O) (pwd O) ICEPROTO_RFC5245 ICEMODE_FULL role (pa_tie P) 0 (pa_component P).
Definition remote_of (O : party) : Candidate := with_credentials (ufrag O) (pwd O) (f_candidate (pa_candidate O)).
Definition conn_of (P O : party) (c : Connection) : chan_conn := mkCC c (pa_id P) (f_id (pa_candidate O)) 0 (f_foundation (pa_candidate O)) true.
Definition map_of (P O : party) (y : Port) : chan_port := cp_with y (cp_connections [(address O, pa_conn P)] (pa_port P)).
Definition party_at (P O : party) (role : IceRole) (c : Connection) (y : Port) (s : chan_select) (posted : list chan_message) (st : P2PTransportChannel) : Prop :=
  channel_at (config P O role) (pa_conn P) (pa_id P) (conn_of P O c) (map_of P O y) s posted st.

(** A channel without ports. *)
Definition bare (P : party) (cfg : chan_config) (waiting : bool) (sessions : list bool) (posted : list chan_message) (l : list chan_event) : P2PTransportChannel :=
  mkChan cfg (mkSel [] None None false false false false) (mkObj ∅ ∅ [] (pa_conn P :: pa_supply P)) waiting sessions [] [] 0 posted [] l.
Lemma configured P O role t : role = ICEROLE_CONTROLLING ∨ role = ICEROLE_CONTROLLED → ufrag P ≠ [] → pwd P ≠ [] →
  chan_run (take 7 (prepare P O role t)) (party_new P) = Some (bare P (config P O role) false [true] [MSG_PING] [ChRequestSignaling]).
Proof.
  intros Hr Hu Hp. set (cfg := λ u1 p1 u2 p2 proto ro tie, mkCfg false u1 p1 u2 p2 proto ICEMODE_FULL ro tie 0 (pa_component P)).
  assert (chan_step (CSetIceRole role) t (party_new P) = Some (bare P (cfg [] [] [] [] ICEPROTO_HYBRID role 0) false [] [] [])) as E1 by (by destruct Hr as [-> | ->]).
  assert (chan_step (CSetIceTiebreaker (pa_tie P)) t (bare P (cfg [] [] [] [] ICEPROTO_HYBRID role 0) false [] [] []) = Some (bare P (cfg [] [] [] [] ICEPROTO_HYBRID role (pa_tie P)) false [] [] [])) as E2 by done.
  assert (chan_step (CSetIceProtocolType ICEPROTO_RFC5245) t (bare P (cfg [] [] [] [] ICEPROTO_HYBRID role (pa_tie P)) false [] [] []) =
    Some (bare P (cfg [] [] [] [] ICEPROTO_RFC5245 role (pa_tie P)) false [] [] [])) as E3 by done.
  assert (chan_step (CSetIceCredentials (ufrag P) (pwd P)) t (bare P (cfg [] [] [] [] ICEPROTO_RFC5245 role (pa_tie P)) false [] [] []) =
    Some (bare P (cfg (ufrag P) (pwd P) [] [] ICEPROTO_RFC5245 role (pa_tie P)) false [] [] [])) as E4 by done.
  assert (chan_step (CSetRemoteIceCredentials (ufrag O) (pwd O)) t (bare P (cfg (ufrag P) (pwd P) [] [] ICEPROTO_RFC5245 role (pa_tie P)) false [] [] []) =
    Some (bare P (config P O role) false [] [] [])) as E5 by done.
  assert (chan_step CConnect t (bare P (config P O role) false [] [] []) = Some (bare P (config P O role) true [] [MSG_PING] [ChRequestSignaling])) as E6.
  { cbn [chan_step]. unfold Channel_Connect. change (ice_ufrag_ (ch_cfg (bare P (config P O role) false [] [] []))) with (ufrag P).
    change (ice_pwd_ (ch_cfg (bare P (config P O role) false [] [] []))) with (pwd P). by rewrite !bool_decide_eq_false_2. }
  cbn [take prepare chan_run]. rewrite E1. cbn [mbind option_bind]. rewrite E2. cbn [mbind option_bind]. rewrite E3. cbn [mbind option_bind]. rewrite E4. cbn [mbind option_bind].
  rewrite E5. cbn [mbind option_bind]. rewrite E6. done.
Qed.
(** The port comes. *)
Definition with_port (P O : party) (role : IceRole) : P2PTransportChannel :=
  mkChan (config P O role) (mkSel [] None None false false false false) (mkObj ∅ {[pa_id P := cp_with (port_of P role) (pa_port P)]} [pa_id P] (pa_conn P :: pa_supply P))
    false [true] [] [] 0 [MSG_PING] [] [ChRequestSignaling].
Lemma port_came P O role t :
  chan_step (CPortReady (pa_id P) (pa_port P)) t (bare P (config P O role) false [true] [MSG_PING] [ChRequestSignaling]) = Some (with_port P O role).
Proof.
  cbn [chan_step]. unfold OnPortReady. cbn zeta. set (st1 := ch_emit _ _). unfold on_port. change (ports st1) with (<[pa_id P := pa_port P]> (∅ : gmap Z chan_port)).
  rewrite lookup_insert_eq. cbn [mbind option_bind]. set (st2 := set_ports _ _). assert (st2 = with_port P O role) as ->.
  { unfold st2, st1, with_port, put_port, set_ports, on_obj, ch_emit. cbn. by rewrite insert_insert_eq. }
  change (remote_candidates_ (with_port P O role)) with (@nil (FullCandidate * option Z)). cbn [create_for_port mbind option_bind].
  by destruct role.
Qed.
(** The candidate of the other side comes. *)
Lemma candidate_came P O role t : role = ICEROLE_CONTROLLING ∨ role = ICEROLE_CONTROLLED → party_ok P role → party_ok O (if bool_decide (role = ICEROLE_CONTROLLING) then ICEROLE_CONTROLLED else ICEROLE_CONTROLLING) →
  IsCompatibleAddress (cp_ip (pa_port P)) (address O) = true → ∃ st c,
  chan_step (CCandidate (pa_candidate O)) t (with_port P O role) = Some st ∧
  party_at P O role c (port_of P role) (selected (pa_conn P) (if bool_decide (role = ICEROLE_CONTROLLING) then Some (pa_conn P) else None) None false false false) [MSG_PING] st ∧
  link (remote_of O) STATE_READ_INIT STATE_WRITE_INIT [] c ∧ idle c.
Proof.
  intros Hr HP HO Hip. destruct HP as [P1 P2 P3 P4 P5 P6 P7 P8], HO as [_ _ _ _ _ _ (O1 & O2 & O3 & O4) _]. cbn [chan_step]. unfold OnCandidate, CreateConnections.
  unfold GetRemoteCandidateGeneration. change (protocol_type_ (ch_cfg (with_port P O role))) with ICEPROTO_RFC5245. rewrite (bool_decide_eq_false_2 (ICEPROTO_RFC5245 = ICEPROTO_GOOGLE)), O2 by done. cbn [orb Z.eqb mbind option_bind].
  change (remote_candidate_generation_ (ch_cfg (with_port P O role))) with 0. rewrite O3, O4, (bool_decide_eq_true_2 ([] = [])) by done. cbn zeta.
  change (remote_ice_ufrag_ (ch_cfg (with_port P O role))) with (ufrag O). change (remote_ice_pwd_ (ch_cfg (with_port P O role))) with (pwd O).
  set (r := on_candidate _ _). change (IsDuplicateRemoteCandidate r (with_port P O role)) with false. rewrite andb_false_r.
  change (rev (ports_ (ch_obj (with_port P O role)))) with [pa_id P]. cbn [create_loop]. unfold Channel_CreateConnection.
  change (ports (with_port P O role)) with ({[pa_id P := cp_with (port_of P role) (pa_port P)]} : gmap Z chan_port). rewrite lookup_singleton_eq. cbn [mbind option_bind].
  assert (GetConnection (c_address (f_candidate r)) (cp_with (port_of P role) (pa_port P)) = None) as -> by (unfold GetConnection; cbn; by rewrite P3).
  cbn [GetOrigin]. change (incoming_only_ (ch_cfg (with_port P O role))) with false. rewrite andb_false_r. unfold port_CreateConnection.
  change (ports (with_port P O role)) with ({[pa_id P := cp_with (port_of P role) (pa_port P)]} : gmap Z chan_port). rewrite lookup_singleton_eq. cbn [mbind option_bind].
  assert (port_index (cp_with (port_of P role) (pa_port P)) (f_candidate r) ORIGIN_MESSAGE = Some (Some 0)) as ->.
  { cbn [port_index UDPPort]. unfold UDPPort_index. rewrite bool_decide_eq_true_2 by exact O1. cbn [negb]. change (c_address (f_candidate r)) with (address O).
    change (cp_ip (cp_with (port_of P role) (pa_port P))) with (cp_ip (pa_port P)). rewrite Hip. cbn [negb]. by rewrite (udp_first (cp_with (port_of P role) (pa_port P)) P4). }
  cbn [mbind option_bind]. unfold new_address. change (conns (with_port P O role)) with (∅ : gmap Z chan_conn).
  assert (∀ l, snd (List.partition (λ a, bool_decide (is_Some ((∅ : gmap Z chan_conn) !! a))) l) = l) as Hpart.
  { induction l as [|x l IH]; [done|]. cbn. destruct (List.partition _ l) as [u w]. cbn in *. subst w. rewrite bool_decide_eq_false_2; [done|]. rewrite lookup_empty. by intros []. }
  rewrite Hpart. change (supply (ch_obj (with_port P O role))) with (pa_conn P :: pa_supply P). cbn iota zeta.
  set (st1 := put_port _ _ _). cbn [mbind option_bind]. unfold AddConnection. cbn zeta.
  change (conns (set_list (list_of st1 ++ [pa_conn P]) st1)) with (<[pa_conn P := conn_of P O (Connection_new 0 (remote_of O))]> (∅ : gmap Z chan_conn)).
  rewrite lookup_insert_eq. cbn [mbind option_bind]. set (c := set_remote_ice_mode ICEMODE_FULL (Connection_new 0 (remote_of O))).
  set (st2 := put_conn _ _ _). assert (party_at P O role c (port_of P role) (selected (pa_conn P) None None false false false) [MSG_PING] (RememberRemoteCandidate r None st2)) as Hst.
  { apply remember_at. split; try done.
    - change (conns st2) with (<[pa_conn P := conn_of P O c]> (<[pa_conn P := conn_of P O (Connection_new 0 (remote_of O))]> (∅ : gmap Z chan_conn))). by rewrite insert_insert_eq.
    - change (ports st2) with (<[pa_id P := cp_connections (cp_conns (pa_port P) ++ [(address O, pa_conn P)]) (cp_with (port_of P role) (pa_port P))]>
        ({[pa_id P := cp_with (port_of P role) (pa_port P)]} : gmap Z chan_port)). rewrite insert_singleton_eq, P3. done. }
  assert (link (remote_of O) STATE_READ_INIT STATE_WRITE_INIT [] c) as Hl by done. destruct P4 as (lc & l & Elc & _).
  destruct (sort_at _ _ _ _ _ _ _ _ _ _ _ t _ _ _ _ _ lc Hst eq_refl eq_refl eq_refl Hl (or_introl eq_refl)) as (st & -> & Hst'); [unfold local_candidate; cbn; by rewrite Elc|by left|].
  exists st, c. split; [done|]. split; [|by split]. rewrite (bool_decide_eq_false_2 (STATE_WRITE_INIT = STATE_WRITABLE)), andb_false_r in Hst' by done. destruct Hr as [-> | ->]; exact Hst'.
Qed.
Definition other_role (role : IceRole) : IceRole := if bool_decide (role = ICEROLE_CONTROLLING) then ICEROLE_CONTROLLED else ICEROLE_CONTROLLING.
Lemma prepared P O role t : role = ICEROLE_CONTROLLING ∨ role = ICEROLE_CONTROLLED → party_ok P role → party_ok O (other_role role) →
  IsCompatibleAddress (cp_ip (pa_port P)) (address O) = true → ∃ st c, chan_run (prepare P O role t) (party_new P) = Some st ∧
  party_at P O role c (port_of P role) (selected (pa_conn P) (if bool_decide (role = ICEROLE_CONTROLLING) then Some (pa_conn P) else None) None false false false) [MSG_PING] st ∧
  link (remote_of O) STATE_READ_INIT STATE_WRITE_INIT [] c ∧ idle c.
Proof.
  intros Hr HP HO Hip. destruct (candidate_came P O role t Hr HP HO Hip) as (st & c & E & Hst). exists st, c. split; [|done].
  pose proof (configured P O role t Hr (proj1 (po_names _ _ HP)) (proj2 (po_names _ _ HP))) as E7.
  change (prepare P O role t) with (take 7 (prepare P O role t) ++ [(CPortReady (pa_id P) (pa_port P), t); (CCandidate (pa_candidate O), t)]).
  rewrite (chan_run_app _ _ _ _ E7). cbn [chan_run]. rewrite port_came. cbn [mbind option_bind]. by rewrite E.
Qed.

(** A port, but for its log. *)
Definition same_port (y0 y : Port) : Prop :=
  y = mkPort (ice_protocol_ y0) (ice_role_ y0) (tiebreaker_ y0) (component_ y0) (ice_username_fragment_ y0) (password_ y0)
        (send_retransmit_count_attribute_ y0) (enable_port_packets_ y0) (candidates_ y0) (port_log y).
Lemma same_port_ok P role y : party_ok P role → same_port (port_of P role) y → port_ok y ∧ ice_role_ y = role ∧ candidates_ y = candidates_ (cp_port (pa_port P)) ∧
  ice_username_fragment_ y = ufrag P ∧ password_ y = pwd P.
Proof. intros HP Hy. rewrite Hy. split; [exact (po_port _ _ HP)|done]. Qed.
Lemma same_port_emit y0 y e : same_port y0 y → same_port y0 (port_emit e y).
Proof. unfold same_port. destruct y. cbn. intros [= -> -> -> -> -> -> -> -> ->]. done. Qed.
Definition has_role_of (role : IceRole) : Prop := role = ICEROLE_CONTROLLING ∨ role = ICEROLE_CONTROLLED.
Lemma other_differs role : has_role_of role → other_role role ≠ role.
Proof. by intros [-> | ->]. Qed.
Lemma same_knows P role y c rs ws pings : party_ok P role → same_port (port_of P role) y → link (remote_of P) rs ws pings c → knows c y.
Proof. intros HP Hy Hl. destruct (same_port_ok P role y HP Hy) as (_ & _ & _ & E1 & E2). unfold knows. rewrite (lk_remote _ _ _ _ _ Hl), E1, E2. done. Qed.
Lemma known_at P O role y from : party_ok O role → from = address O → GetConnection from (map_of P O y) = Some (pa_conn P).
Proof.
  intros HO ->. unfold GetConnection. cbn. destruct (po_address _ _ HO) as (_ & Hip & _). by rewrite (proj2 (SocketAddress_eqb_spec _ _ Hip Hip)).
Qed.
Lemma party_checks P O role st c y b pe d r posted now rs : has_role_of role → party_ok P role → party_ok O (other_role role) →
  party_at P O role c y (selected (pa_conn P) b pe d r false) (MSG_PING :: posted) st → b = None ∨ b = Some (pa_conn P) → same_port (port_of P role) y →
  link (remote_of O) rs STATE_WRITE_INIT [] c → idle c → is_u32 now → ∃ st1 st2 c1 c2 k,
  chan_step (CPosted (pa_request P) (pa_tid P)) now st = Some st1 ∧ party_at P O role c1 y (selected (pa_conn P) b pe d r false) posted st1 ∧
  chan_step (CConnDispatch (pa_conn P)) now st1 = Some st2 ∧
  party_at P O role c2 (port_emit (SendTo (address O) (msg_wire (ping_message k (pa_tid P)))) y) (selected (pa_conn P) b pe d r false) posted st2 ∧
  link (remote_of O) rs STATE_WRITE_INIT [now] c2 ∧ awaits k (pa_tid P) (pa_request P) c2 ∧ ping_to y (port_of O (other_role role)) k ∧
  use_candidate k = bool_decide (role = ICEROLE_CONTROLLING).
Proof.
  intros Hr HP HO Hst Hb Hy Hl Hi Hnow. destruct (same_port_ok P role y HP Hy) as (Hok & _ & Ecand & _). destruct (po_fit _ _ HP) as (lc & l & Elc & _).
  destruct (check_at _ _ _ _ _ _ _ _ _ _ now st (remote_of O) rs lc (pa_request P) (pa_tid P) (port_of O (other_role role)) Hst eq_refl eq_refl Hb eq_refl eq_refl Hok (po_port _ _ HO)) as (st1 & st2 & c1 & c2 & k & Hc);
    [cbn; by rewrite Ecand, Elc|done|done|by eapply (same_knows O (other_role role))|apply (po_request _ _ HP)..|done|].
  exists st1, st2, c1, c2, k. exact Hc.
Qed.
(** The check of the other side arrives. *)
Lemma party_pinged P O role st c y yo k b pe d r w posted now ws pings : has_role_of role → party_ok P role → party_ok O (other_role role) →
  party_at P O role c y (selected (pa_conn P) b pe d r w) posted st → same_port (port_of P role) y → same_port (port_of O (other_role role)) yo → ping_to yo (port_of P role) k →
  link (remote_of O) STATE_READ_INIT ws pings c → ws ≠ STATE_WRITE_TIMEOUT → (role = ICEROLE_CONTROLLED → ws = STATE_WRITE_INIT ∧ use_candidate k = true) → ∃ st' c',
  chan_step (CPacket (pa_id P) (address O) (msg_wire (ping_message k (pa_tid O))) []) now st = Some st' ∧
  party_at P O role c' (port_emit (SendTo (address O) (msg_wire (response_message k (pa_tid O) (address O) (pwd P)))) y)
    (selected (pa_conn P) b (if bool_decide (role = ICEROLE_CONTROLLED) then Some (pa_conn P) else pe) true r w) (if d then posted else posted ++ [MSG_SORT]) st' ∧
  link (remote_of O) STATE_READABLE ws pings c' ∧ (idle c → idle c').
Proof.
  intros Hr HP HO Hst Hy Hyo Hk Hl Hw Hn. destruct (same_port_ok P role y HP Hy) as (Hok & Erole & _ & E1 & E2). destruct (same_port_ok O _ yo HO Hyo) as (Hoko & Eroleo & _).
  assert (ping_to yo y k) as Hk'. { destruct Hk as (K1 & K2 & K3). split_and!; [done|by rewrite K2, E1|by rewrite K3, E2]. }
  destruct (link_pinged yo y k (pa_tid O) (remote_of O) STATE_READ_INIT ws pings c now Hoko Hok Hk' (proj2 (po_request _ _ HO)) (same_knows O _ yo c _ _ _ HO Hyo Hl)) as (c' & E & Hl' & Hi & El); [|done|done|apply (po_address _ _ HO)|].
  { rewrite Erole, Eroleo. by apply not_eq_sym, other_differs. }
  cbn [chan_step]. rewrite (packet_at _ _ _ _ _ _ _ _ _ _ _ _ Hst (known_at P O _ y _ HO eq_refl)).
  rewrite (bool_decide_eq_false_2 (STATE_READ_INIT = STATE_READABLE)), <- app_assoc in El by done.
  destruct (on_conn_at _ _ _ _ _ _ _ _ c' _ _ st Hst eq_refl E El) as (st1 & -> & Hst1 & Elog). cbn [app handle_events].
  destruct (change_at _ _ _ _ _ _ _ _ _ _ _ ws st1 Hst1) as (st2 & -> & Hst2).
  { destruct Hr as [-> | ->]; [by left|right]. destruct (Hn eq_refl) as [-> _]. done. }
  cbn [mbind option_bind]. rewrite Erole, <- E2. destruct Hr as [-> | ->].
  - cbn [handle_events bool_decide andb]. exists st2, c'. by split.
  - destruct (Hn eq_refl) as [-> Hu]. assert (nominates k = true) as ->.
    { unfold nominates. destruct Hk as (-> & _). rewrite Eroleo, Hu. done. }
    cbn [andb handle_events]. destruct (nominate_at _ _ _ _ _ _ _ _ _ _ _ st2 Hst2 eq_refl eq_refl) as (st3 & E3 & Hst3); [apply (lk_write _ _ _ _ _ Hl')|].
    rewrite bool_decide_eq_true_2 by done. cbn [andb handle_events]. rewrite E3. cbn [mbind option_bind]. exists st3, c'. by split.
Qed.
(** The response to its check arrives; the controlled side then uses what the other side chose. *)
Lemma party_answered P O role st c y k b pe d r w posted now rs t : has_role_of role → party_ok P role → party_ok O (other_role role) →
  party_at P O role c y (selected (pa_conn P) b pe d r w) posted st → same_port (port_of P role) y →
  link (remote_of O) rs STATE_WRITE_INIT [t] c → awaits k (pa_tid P) (pa_request P) c → (role = ICEROLE_CONTROLLED → b = None ∧ pe = Some (pa_conn P)) → ∃ st' c',
  chan_step (CPacket (pa_id P) (address O) (msg_wire (response_message k (pa_tid P) (address P) (pwd O))) []) now st = Some st' ∧
  party_at P O role c' y
    (selected (pa_conn P) (if bool_decide (role = ICEROLE_CONTROLLED) then Some (pa_conn P) else b) (if bool_decide (role = ICEROLE_CONTROLLED) then None else pe) true r w)
    (if d then posted else posted ++ [MSG_SORT]) st' ∧
  link (remote_of O) rs STATE_WRITABLE [] c'.
Proof.
  intros Hr HP HO Hst Hy Hl Ha Hn. destruct (same_port_ok P role y HP Hy) as (Hok & _ & Ecand & _).
  assert (knows c (port_of O (other_role role))) as Hkn by (by apply (same_knows O (other_role role) _ c rs STATE_WRITE_INIT [t])).
  destruct (link_answered y (port_of O (other_role role)) k (pa_tid P) (pa_request P) (address P) (remote_of O) rs [t] c now Hok (po_port _ _ HO)) as (c' & E & Hl' & El); try done.
  { apply (po_request _ _ HP). }
  { apply (po_address _ _ HP). }
  { rewrite Ecand. apply (po_known _ _ HP). }
  change (password_ (port_of O (other_role role))) with (pwd O) in E. cbn [chan_step]. rewrite (packet_at _ _ _ _ _ _ _ _ _ _ _ _ Hst (known_at P O _ y _ HO eq_refl)).
  destruct (on_conn_at _ _ _ _ _ _ _ _ c' _ _ st Hst eq_refl E El) as (st1 & -> & Hst1 & Elog). cbn [handle_events].
  destruct Hr as [-> | ->].
  - destruct (change_at _ _ _ _ _ _ _ _ _ _ _ STATE_WRITABLE st1 Hst1 (or_introl eq_refl)) as (st2 & -> & Hst2). exists st2, c'. by split.
  - destruct (Hn eq_refl) as [-> ->]. destruct (switch_at _ _ _ _ _ _ _ _ _ _ st1 Hst1 eq_refl eq_refl eq_refl) as (st2 & -> & Hst2). exists st2, c'. by split.
Qed.
Lemma party_sorts P O role st c y b pe d r w posted now rs ws pings x tid : has_role_of role → party_ok P role →
  party_at P O role c y (selected (pa_conn P) b pe d r w) (MSG_SORT :: posted) st → b = None ∨ b = Some (pa_conn P) → same_port (port_of P role) y →
  link (remote_of O) rs ws pings c → recent now pings →
  let b' := if bool_decide (role = ICEROLE_CONTROLLING) then Some (pa_conn P) else b in
  ∃ st', chan_step (CPosted x tid) now st = Some st' ∧
    party_at P O role c y (selected (pa_conn P) b' pe false (bool_decide (rs = STATE_READABLE)) (bool_decide (b' = Some (pa_conn P)) && bool_decide (ws = STATE_WRITABLE))) posted st'.
Proof.
  intros Hr HP Hst Hb Hy Hl Hrec. destruct (same_port_ok P role y HP Hy) as (Hok & _ & Ecand & _). destruct (po_fit _ _ HP) as (lc & l & Elc & _).
  cbn [chan_step]. unfold take_posted. rewrite (at_posted _ _ _ _ _ _ _ _ Hst). cbn [P2P_OnMessage].
  apply (sort_at (config P O role) (pa_conn P) (pa_id P) (conn_of P O c) (map_of P O y) b pe d r w posted now _ (remote_of O) rs ws pings lc); try done.
  - destruct Hst as [F1 F2 F3 F4 F5]. split; try done. cbn. by rewrite F5.
  - apply Hok.
  - unfold local_candidate. cbn [conn_of cc_conn map_of cp_with cp_port]. by rewrite (lk_index _ _ _ _ _ Hl), Ecand, Elc.
Qed.
(** Data, once the connection is chosen and writable. *)
Lemma party_sends P O role st c y pe d r w posted now rs data : party_at P O role c y (selected (pa_conn P) (Some (pa_conn P)) pe d r w) posted st →
  link (remote_of O) rs STATE_WRITABLE [] c → data ≠ [] → ∃ st', chan_step (CSendPacket data 0) now st = Some st' ∧
  party_at P O role c (port_emit (SendTo (address O) data) y) (selected (pa_conn P) (Some (pa_conn P)) pe d r w) posted st' ∧ ch_log st' = ch_log st.
Proof.
  intros Hst Hl Hd. cbn [chan_step]. unfold SendPacket. cbn [Z.eqb negb]. unfold best. rewrite (at_sel _ _ _ _ _ _ _ _ Hst). cbn [selected best_connection_].
  rewrite (at_conns _ _ _ _ _ _ _ _ Hst), lookup_singleton_eq. cbn [mbind option_bind]. rewrite (at_ports _ _ _ _ _ _ _ _ Hst), lookup_singleton_eq. cbn [mbind option_bind].
  unfold Connection_Send. cbn [conn_of cc_conn]. rewrite (lk_write _ _ _ _ _ Hl), !bool_decide_eq_false_2 by done. cbn [orb].
  assert (zlen data <=? 0 = false) as -> by (destruct data; [done|]; apply Z.leb_gt; unfold zlen; cbn; lia). eexists. split; [reflexivity|]. split; [|done].
  destruct Hst as [F1 F2 F3 F4 F5]. split; try done. cbn [snd]. change (ports (put_port ?q ?p st)) with (<[q := p]> (ports st)). rewrite F3, insert_singleton_eq. cbn. by rewrite (lk_remote _ _ _ _ _ Hl).
Qed.
Lemma party_receives P O role st c y b pe d r w posted now ws data : has_role_of role → party_ok P role → party_ok O (other_role role) →
  party_at P O role c y (selected (pa_conn P) b pe d r w) posted st → same_port (port_of P role) y →
  link (remote_of O) STATE_READABLE ws [] c → ws ≠ STATE_WRITE_TIMEOUT → ValidateFingerprint data = false → ∃ st' c',
  chan_step (CPacket (pa_id P) (address O) data []) now st = Some st' ∧ party_at P O role c' y (selected (pa_conn P) b pe d r w) posted st' ∧
  link (remote_of O) STATE_READABLE ws [] c' ∧ ch_log st' = ch_log st ++ [ChReadPacket data].
Proof.
  intros Hr HP HO Hst Hy Hl Hw Hd. destruct (same_port_ok P role y HP Hy) as (Hok & _). destruct (link_data y _ _ _ _ data now (proj1 Hok) Hd Hl Hw) as (c' & E & Hl' & El).
  cbn [chan_step]. rewrite (packet_at _ _ _ _ _ _ _ _ _ _ _ _ Hst (known_at P O _ y _ HO eq_refl)).
  destruct (on_conn_at _ _ _ _ _ _ _ _ c' _ _ st Hst eq_refl E El) as (st1 & -> & Hst1 & Elog). cbn [handle_events].
  destruct (data_at _ _ _ _ _ _ _ _ _ _ _ data st1 Hst1) as (st2 & -> & Hst2 & Hlog). exists st2, c'. split; [done|]. split; [done|]. split; [done|].
  rewrite Hlog, Elog. cbn. by rewrite drop_all, app_nil_r.
Qed.

(** ** The network *)

(** The two channels, and the packets on their way to each of them. *)
Record network := mkNet { n_left : P2PTransportChannel; n_right : P2PTransportChannel; n_to_left : list (list Z); n_to_right : list (list Z) }.
Definition events_at (q : Z) (st : P2PTransportChannel) : list port_event := match ports st !! q with Some p => port_log (cp_port p) | None => [] end.
(** What the port sent to an address in a step. *)
Definition sent (q : Z) (addr : SocketAddress) (st st' : P2PTransportChannel) : list (list Z) :=
  omap (λ e, match e with SendTo d data => if SocketAddress_eqb d addr then Some data else None | _ => None end)
    (drop (length (events_at q st)) (events_at q st')).
Inductive net_op := OnLeft (o : chan_op) | OnRight (o : chan_op) | ToLeft | ToRight.
Definition left_step (L R : party) (o : chan_op) (now : Z) (n : network) : option network :=
  l ← chan_step o now (n_left n);
  Some (mkNet l (n_right n) (n_to_left n) (n_to_right n ++ sent (pa_id L) (address R) (n_left n) l)).
Definition right_step (L R : party) (o : chan_op) (now : Z) (n : network) : option network :=
  r ← chan_step o now (n_right n);
  Some (mkNet (n_left n) r (n_to_left n ++ sent (pa_id R) (address L) (n_right n) r) (n_to_right n)).
Definition net_step (L R : party) (o : net_op) (now : Z) (n : network) : option network :=
  match o with
  | OnLeft o => left_step L R o now n
  | OnRight o => right_step L R o now n
  | ToLeft =>
      match n_to_left n with
      | [] => Some n
      | data :: l => left_step L R (CPacket (pa_id L) (address R) data []) now (mkNet (n_left n) (n_right n) l (n_to_right n))
      end
  | ToRight =>
      match n_to_right n with
      | [] => Some n
      | data :: l => right_step L R (CPacket (pa_id R) (address L) data []) now (mkNet (n_left n) (n_right n) (n_to_left n) l)
      end
  end.
Fixpoint net_run (L R : party) (ops : list (net_op * Z)) (n : network) : option network :=
  match ops with
  | [] => Some n
  | (o, now) :: ops => n ← net_step L R o now n; net_run L R ops n
  end.
(** Each side checks the other one, and the posted messages are dispatched. *)
Definition checks (L R : party) (t1 t2 t3 t4 t5 t6 t7 t8 t9 : Z) : list (net_op * Z) :=
  [(OnLeft (CPosted (pa_request L) (pa_tid L)), t1); (OnLeft (CConnDispatch (pa_conn L)), t1); (ToRight, t2); (ToLeft, t3); (OnLeft (CPosted 0 []), t4);
   (OnRight (CPosted (pa_request R) (pa_tid R)), t5); (OnRight (CConnDispatch (pa_conn R)), t5); (ToLeft, t6); (ToRight, t7); (OnRight (CPosted 0 []), t8); (OnLeft (CPosted 0 []), t9)].

Lemma sent_none P O role c c' y s s' posted posted' st st' : party_at P O role c y s posted st → party_at P O role c' y s' posted' st' → sent (pa_id P) (address O) st st' = [].
Proof. intros [_ _ E _ _] [_ _ E' _ _]. unfold sent, events_at. rewrite E, E', !lookup_singleton_eq. cbn. by rewrite drop_all. Qed.
Lemma sent_one P O role ro c c' y data s s' posted posted' st st' : party_ok O ro → party_at P O role c y s posted st → party_at P O role c' (port_emit (SendTo (address O) data) y) s' posted' st' →
  sent (pa_id P) (address O) st st' = [data].
Proof.
  intros HO [_ _ E _ _] [_ _ E' _ _]. unfold sent, events_at. rewrite E, E', !lookup_singleton_eq. cbn. rewrite drop_app_length. cbn.
  destruct (po_address _ _ HO) as (_ & Hip & _). by rewrite (proj2 (SocketAddress_eqb_spec _ _ Hip Hip)).
Qed.
Lemma run_left L R o now ops l l' r tl tr ds : chan_step o now l = Some l' → sent (pa_id L) (address R) l l' = ds →
  net_run L R ((OnLeft o, now) :: ops) (mkNet l r tl tr) = net_run L R ops (mkNet l' r tl (tr ++ ds)).
Proof. intros E <-. cbn [net_run net_step]. unfold left_step. cbn [n_left]. by rewrite E. Qed.
Lemma run_right L R o now ops l r r' tl tr ds : chan_step o now r = Some r' → sent (pa_id R) (address L) r r' = ds →
  net_run L R ((OnRight o, now) :: ops) (mkNet l r tl tr) = net_run L R ops (mkNet l r' (tl ++ ds) tr).
Proof. intros E <-. cbn [net_run net_step]. unfold right_step. cbn [n_right]. by rewrite E. Qed.
Lemma run_to_left L R now ops l l' r data tl tr ds : chan_step (CPacket (pa_id L) (address R) data []) now l = Some l' → sent (pa_id L) (address R) l l' = ds →
  net_run L R ((ToLeft, now) :: ops) (mkNet l r (data :: tl) tr) = net_run L R ops (mkNet l' r tl (tr ++ ds)).
Proof. intros E <-. cbn [net_run net_step n_to_left]. unfold left_step. cbn [n_left]. by rewrite E. Qed.
Lemma run_to_right L R now ops l r r' data tl tr ds : chan_step (CPacket (pa_id R) (address L) data []) now r = Some r' → sent (pa_id R) (address L) r r' = ds →
  net_run L R ((ToRight, now) :: ops) (mkNet l r tl (data :: tr)) = net_run L R ops (mkNet l r' (tl ++ ds) tr).
Proof. intros E <-. cbn [net_run net_step n_to_right]. unfold right_step. cbn [n_right]. by rewrite E. Qed.
End parties.

Section session.
Context `{Platform} (L R : party).
Hypothesis HL : party_ok L ICEROLE_CONTROLLING.
Hypothesis HR : party_ok R ICEROLE_CONTROLLED.

Definition left_at (rs : ReadState) (ws : WriteState) (y : Port) (d r w : bool) (posted : list chan_message) (c : Connection) (st : P2PTransportChannel) : Prop :=
  party_at L R ICEROLE_CONTROLLING c y (selected (pa_conn L) (Some (pa_conn L)) None d r w) posted st ∧ same_port (port_of L ICEROLE_CONTROLLING) y ∧ link (remote_of R) rs ws [] c.
Definition right_at (rs : ReadState) (ws : WriteState) (y : Port) (b pe : option Z) (d r w : bool) (posted : list chan_message) (c : Connection) (st : P2PTransportChannel) : Prop :=
  party_at R L ICEROLE_CONTROLLED c y (selected (pa_conn R) b pe d r w) posted st ∧ same_port (port_of R ICEROLE_CONTROLLED) y ∧ link (remote_of L) rs ws [] c.

Lemma left_checks t1 t2 t3 t4 yl yr cl cr l r : is_u32 t1 → left_at STATE_READ_INIT STATE_WRITE_INIT yl false false false [MSG_PING] cl l → idle cl →
  right_at STATE_READ_INIT STATE_WRITE_INIT yr None None false false false [MSG_PING] cr r → idle cr → ∃ l' r' yl' yr' cl' cr',
  net_run L R [(OnLeft (CPosted (pa_request L) (pa_tid L)), t1); (OnLeft (CConnDispatch (pa_conn L)), t1); (ToRight, t2); (ToLeft, t3); (OnLeft (CPosted 0 []), t4)] (mkNet l r [] []) =
    Some (mkNet l' r' [] []) ∧
  left_at STATE_READ_INIT STATE_WRITABLE yl' false false true [] cl' l' ∧
  right_at STATE_READABLE STATE_WRITE_INIT yr' None (Some (pa_conn R)) true false false [MSG_PING; MSG_SORT] cr' r' ∧ idle cr'.
Proof.
  intros Ht1 (Hl & Hyl & Hll) Hil (Hr & Hyr & Hlr) Hir.
  destruct (party_checks L R ICEROLE_CONTROLLING l cl yl _ _ _ _ _ t1 _ (or_introl eq_refl) HL HR Hl (or_intror eq_refl) Hyl Hll Hil Ht1) as (l1 & l2 & c1 & c2 & k & E1 & Hl1 & E2 & Hl2 & Hc2 & Haw & Hk & Huse).
  destruct (party_pinged R L ICEROLE_CONTROLLED r cr yr yl k _ _ _ _ _ _ t2 _ _ (or_intror eq_refl) HR HL Hr Hyr Hyl Hk Hlr) as (r1 & cr1 & E3 & Hr1 & Hlr1 & Hir1); [done|by intros _|].
  destruct (party_answered L R ICEROLE_CONTROLLING l2 c2 _ k _ _ _ _ _ _ t3 _ _ (or_introl eq_refl) HL HR Hl2 (same_port_emit _ _ _ Hyl) Hc2 Haw) as (l3 & c3 & E4 & Hl3 & Hc3); [done|].
  destruct (party_sorts L R ICEROLE_CONTROLLING l3 c3 _ _ _ _ _ _ _ t4 _ _ _ 0 [] (or_introl eq_refl) HL Hl3 (or_intror eq_refl) (same_port_emit _ _ _ Hyl) Hc3 (or_introl eq_refl)) as (l4 & E5 & Hl4).
  exists l4, r1. eexists _, _, c3, cr1. split.
  - rewrite (run_left _ _ _ _ _ _ _ _ _ _ _ E1 (sent_none _ _ _ _ _ _ _ _ _ _ _ _ Hl Hl1)), (run_left _ _ _ _ _ _ _ _ _ _ _ E2 (sent_one _ _ _ _ _ _ _ _ _ _ _ _ _ _ HR Hl1 Hl2)).
    cbn [app]. rewrite (run_to_right _ _ _ _ _ _ _ _ _ _ _ E3 (sent_one _ _ _ _ _ _ _ _ _ _ _ _ _ _ HL Hr Hr1)). cbn [app]. rewrite (run_to_left _ _ _ _ _ _ _ _ _ _ _ E4 (sent_none _ _ _ _ _ _ _ _ _ _ _ _ Hl2 Hl3)).
    by rewrite (run_left _ _ _ _ _ _ _ _ _ _ _ E5 (sent_none _ _ _ _ _ _ _ _ _ _ _ _ Hl3 Hl4)).
  - split; [split; [|by split; [apply same_port_emit|]]|split; [|by apply Hir1]].
    + cbn zeta in Hl4. change (bool_decide (ICEROLE_CONTROLLING = ICEROLE_CONTROLLING)) with true in Hl4. cbv iota in Hl4.
      rewrite (bool_decide_eq_true_2 (Some (pa_conn L) = Some (pa_conn L))) in Hl4 by done. exact Hl4.
    + split; [exact Hr1|by split; [apply same_port_emit|]].
Qed.
Lemma right_checks t5 t6 t7 t8 t9 yl yr cl cr l r : is_u32 t5 → left_at STATE_READ_INIT STATE_WRITABLE yl false false true [] cl l →
  right_at STATE_READABLE STATE_WRITE_INIT yr None (Some (pa_conn R)) true false false [MSG_PING; MSG_SORT] cr r → idle cr → ∃ l' r' yl' yr' cl' cr',
  net_run L R [(OnRight (CPosted (pa_request R) (pa_tid R)), t5); (OnRight (CConnDispatch (pa_conn R)), t5); (ToLeft, t6); (ToRight, t7); (OnRight (CPosted 0 []), t8); (OnLeft (CPosted 0 []), t9)]
    (mkNet l r [] []) = Some (mkNet l' r' [] []) ∧
  left_at STATE_READABLE STATE_WRITABLE yl' false true true [] cl' l' ∧
  right_at STATE_READABLE STATE_WRITABLE yr' (Some (pa_conn R)) None false true true [] cr' r'.
Proof.
  intros Ht5 (Hl & Hyl & Hll) (Hr & Hyr & Hlr) Hir.
  destruct (party_checks R L ICEROLE_CONTROLLED r cr yr _ _ _ _ _ t5 _ (or_intror eq_refl) HR HL Hr (or_introl eq_refl) Hyr Hlr Hir Ht5) as (r1 & r2 & c1 & c2 & k & E1 & Hr1 & E2 & Hr2 & Hc2 & Haw & Hk & _).
  destruct (party_pinged L R ICEROLE_CONTROLLING l cl yl yr k _ _ _ _ _ _ t6 _ _ (or_introl eq_refl) HL HR Hl Hyl Hyr Hk Hll) as (l1 & cl1 & E3 & Hl1 & Hll1 & _); [done|done|].
  destruct (party_answered R L ICEROLE_CONTROLLED r2 c2 _ k _ _ _ _ _ _ t7 _ _ (or_intror eq_refl) HR HL Hr2 (same_port_emit _ _ _ Hyr) Hc2 Haw) as (r3 & c3 & E4 & Hr3 & Hc3); [done|].
  destruct (party_sorts R L ICEROLE_CONTROLLED r3 c3 _ _ _ _ _ _ _ t8 _ _ _ 0 [] (or_intror eq_refl) HR Hr3 (or_intror eq_refl) (same_port_emit _ _ _ Hyr) Hc3 (or_introl eq_refl)) as (r4 & E5 & Hr4).
  destruct (party_sorts L R ICEROLE_CONTROLLING l1 cl1 _ _ _ _ _ _ _ t9 _ _ _ 0 [] (or_introl eq_refl) HL Hl1 (or_intror eq_refl) (same_port_emit _ _ _ Hyl) Hll1 (or_introl eq_refl)) as (l2 & E6 & Hl2).
  exists l2, r4. eexists _, _, cl1, c3. split.
  - rewrite (run_right _ _ _ _ _ _ _ _ _ _ _ E1 (sent_none _ _ _ _ _ _ _ _ _ _ _ _ Hr Hr1)), (run_right _ _ _ _ _ _ _ _ _ _ _ E2 (sent_one _ _ _ _ _ _ _ _ _ _ _ _ _ _ HL Hr1 Hr2)).
    cbn [app]. rewrite (run_to_left _ _ _ _ _ _ _ _ _ _ _ E3 (sent_one _ _ _ _ _ _ _ _ _ _ _ _ _ _ HR Hl Hl1)). cbn [app]. rewrite (run_to_right _ _ _ _ _ _ _ _ _ _ _ E4 (sent_none _ _ _ _ _ _ _ _ _ _ _ _ Hr2 Hr3)).
    cbn [app]. rewrite (run_right _ _ _ _ _ _ _ _ _ _ _ E5 (sent_none _ _ _ _ _ _ _ _ _ _ _ _ Hr3 Hr4)). by rewrite (run_left _ _ _ _ _ _ _ _ _ _ _ E6 (sent_none _ _ _ _ _ _ _ _ _ _ _ _ Hl1 Hl2)).
  - split; (split; [|by split; [apply same_port_emit|]]).
    + cbn zeta in Hl2. change (bool_decide (ICEROLE_CONTROLLING = ICEROLE_CONTROLLING)) with true in Hl2. cbv iota in Hl2.
      rewrite (bool_decide_eq_true_2 (Some (pa_conn L) = Some (pa_conn L))) in Hl2 by done. exact Hl2.
    + cbn zeta in Hr4. change (bool_decide (ICEROLE_CONTROLLED = ICEROLE_CONTROLLED)) with true in Hr4. change (bool_decide (ICEROLE_CONTROLLED = ICEROLE_CONTROLLING)) with false in Hr4. cbv iota in Hr4.
      rewrite (bool_decide_eq_true_2 (Some (pa_conn R) = Some (pa_conn R))) in Hr4 by done. exact Hr4.
Qed.
(** Packets in both directions: the time, whether the left side sends, and the data. *)
Definition talk (msgs : list (Z * bool * list Z)) : list (net_op * Z) :=
  concat ((λ m : Z * bool * list Z, if m.1.2 then [(OnLeft (CSendPacket m.2 0), m.1.1); (ToRight, m.1.1)] else [(OnRight (CSendPacket m.2 0), m.1.1); (ToLeft, m.1.1)]) <$> msgs).
Definition said (by_left : bool) (msgs : list (Z * bool * list Z)) : list (list Z) := omap (λ m : Z * bool * list Z, if Bool.eqb m.1.2 by_left then Some m.2 else None) msgs.
(** What the users of a channel got. *)
Definition heard (st : P2PTransportChannel) : list (list Z) := omap (λ e, match e with ChReadPacket data => Some data | _ => None end) (ch_log st).
Lemma heard_more st st' data : ch_log st' = ch_log st ++ [ChReadPacket data] → heard st' = heard st ++ [data].
Proof. unfold heard. intros ->. by rewrite omap_app. Qed.
Lemma heard_same st st' : ch_log st' = ch_log st → heard st' = heard st.
Proof. unfold heard. by intros ->. Qed.
Lemma talks msgs : Forall (λ m, m.2 ≠ [] ∧ ValidateFingerprint m.2 = false) msgs → ∀ yl yr cl cr l r,
  left_at STATE_READABLE STATE_WRITABLE yl false true true [] cl l → right_at STATE_READABLE STATE_WRITABLE yr (Some (pa_conn R)) None false true true [] cr r → ∃ l' r',
  net_run L R (talk msgs) (mkNet l r [] []) = Some (mkNet l' r' [] []) ∧ heard l' = heard l ++ said false msgs ∧ heard r' = heard r ++ said true msgs.
Proof.
  induction 1 as [|[[now lft] data] msgs [Hd Hf] _ IH]; intros yl yr cl cr l r Hl Hr; [exists l, r; split; [done|]; by rewrite !app_nil_r|cbn in Hd, Hf].
  pose proof Hl as (Hl1 & Hyl & Hcl). pose proof Hr as (Hr1 & Hyr & Hcr). destruct lft.
  - destruct (party_sends L R _ l cl yl _ _ _ _ _ now _ data Hl1 Hcl Hd) as (l2 & E2 & Hl2 & El).
    destruct (party_receives R L _ r cr yr _ _ _ _ _ _ now _ data (or_intror eq_refl) HR HL Hr1 Hyr Hcr) as (r2 & c2 & E3 & Hr2 & Hc2 & Er); [done|done|].
    destruct (IH _ _ cl c2 l2 r2 (conj Hl2 (conj (same_port_emit _ _ _ Hyl) Hcl)) (conj Hr2 (conj Hyr Hc2))) as (l' & r' & E & Ehl & Ehr). exists l', r'.
    change (talk ((now, true, data) :: msgs)) with ((OnLeft (CSendPacket data 0), now) :: (ToRight, now) :: talk msgs).
    rewrite (run_left _ _ _ _ _ _ _ _ _ _ _ E2 (sent_one _ _ _ _ _ _ _ _ _ _ _ _ _ _ HR Hl1 Hl2)). cbn [app]. rewrite (run_to_right _ _ _ _ _ _ _ _ _ _ _ E3 (sent_none _ _ _ _ _ _ _ _ _ _ _ _ Hr1 Hr2)).
    split; [exact E|]. rewrite Ehl, Ehr, (heard_same _ _ El), (heard_more _ _ _ Er). split; [done|]. by rewrite <- app_assoc.
  - destruct (party_sends R L _ r cr yr _ _ _ _ _ now _ data Hr1 Hcr Hd) as (r2 & E2 & Hr2 & Er).
    destruct (party_receives L R _ l cl yl _ _ _ _ _ _ now _ data (or_introl eq_refl) HL HR Hl1 Hyl Hcl) as (l2 & c2 & E3 & Hl2 & Hc2 & El); [done|done|].
    destruct (IH _ _ c2 cr l2 r2 (conj Hl2 (conj Hyl Hc2)) (conj Hr2 (conj (same_port_emit _ _ _ Hyr) Hcr))) as (l' & r' & E & Ehl & Ehr). exists l', r'.
    change (talk ((now, false, data) :: msgs)) with ((OnRight (CSendPacket data 0), now) :: (ToLeft, now) :: talk msgs).
    rewrite (run_right _ _ _ _ _ _ _ _ _ _ _ E2 (sent_one _ _ _ _ _ _ _ _ _ _ _ _ _ _ HL Hr1 Hr2)). cbn [app]. rewrite (run_to_left _ _ _ _ _ _ _ _ _ _ _ E3 (sent_none _ _ _ _ _ _ _ _ _ _ _ _ Hl1 Hl2)).
    split; [exact E|]. rewrite Ehl, Ehr, (heard_same _ _ Er), (heard_more _ _ _ El). split; [|done]. by rewrite <- app_assoc.
Qed.
End session.

(** A channel that is connected by its connection. *)
Definition connected (P : party) (st : P2PTransportChannel) : Prop :=
  best st = Some (pa_conn P) ∧ list_of st = [pa_conn P] ∧ ch_writable (ch_sel st) = true ∧ ch_readable (ch_sel st) = true.
Lemma ice_net_run_app `{Platform} L R l l' n n' : net_run L R l n = Some n' → net_run L R (l ++ l') n = net_run L R l' n'.
Proof.
  revert n. induction l as [|[o now] l IH]; intros n; cbn [net_run app]; [by intros [= ->]|]. destruct (net_step L R o now n); [|done]. cbn [mbind option_bind]. apply IH.
Qed.


(** ** A session *)

Section session_sample.
#[local] Existing Instance zero_platform.
Definition sample_party (port : Port) (last conn id request : Z) (tid : list Z) : party :=
  let candidate := mkCandidate 1 LOCAL_PORT_TYPE (text "udp") (sample_address last) 2130706431 [] [] SocketAddress_Clear in
  mkParty 1 conn [] id
    (mkCP (mkPort ICEPROTO_HYBRID ICEROLE_UNKNOWN 0 1 (ice_username_fragment_ port) (password_ port) true false [candidate] []) 0 1 0 LOCAL_PORT_TYPE false
      (IPAddress_v4 [192; 168; 1; last]) [])
    7000 (mkFull candidate [] 0 []) request tid.
Definition left_party : party := sample_party (port_left ICEROLE_CONTROLLING) 1 100 1 5 sample_id.
Definition right_party : party := sample_party (port_right ICEROLE_CONTROLLED) 2 200 2 6 (text "abcdefghijkl").
Lemma left_party_ok : party_ok left_party ICEROLE_CONTROLLING.
Proof.
  split; try done; [by apply port_okb_ok|by eexists _, _|exact sample_address_ok|split; [done|exact sample_id_ok]].
Qed.
Lemma right_party_ok : party_ok right_party ICEROLE_CONTROLLED.
Proof.
  split; try done; [by apply port_okb_ok|by eexists _, _| |split; [done|split; [by apply bytes_okb|done]]].
  split; [done|]. split; [|split; [by vm_compute|done]]. split; [done|]. split; [by apply bytes_okb|done].
Qed.
Definition sample_talk : list (Z * bool * list Z) := [(2000, true, [1; 2; 3]); (2001, false, [4; 5]); (2002, true, [6])].
End session_sample.
